(* ===== verification/_CoqProject ===== *)
-Q . S2P
Prelude.v
PyStr.v
PyDict.v
PyList.v
PyFloat.v
FloatDiv.v
FloatRound.v
PyVal.v
PyJson.v
PyTime.v
Csv.v
Fnmatch.v
TaskProtocol.v
TeamSpace.v
Orchestration.v
ToolRegistry.v
PyPath.v
Guard.v
Shlex.v
ShellTools.v
PyRegex.v
RegexFind.v
Approval.v
Budget.v
AuditSchema.v
Timeline.v
HarnessAction.v
Redact.v
Confirmation.v
HarnessService.v
Metrics.v
Events.v
EventStream.v
Replay.v
Delivery.v
Platform.v
Providers.v
Stuck.v
View.v
Condenser.v
RollingCondenser.v
SelectingCondenser.v
PatchHeader.v
PatchDiff.v
PatchApply.v
PatchRoundtrip.v
Serialization.v
FileStore.v
EventStore.v
EventLog.v
NestedStore.v
FnCallText.v
FnCall.v
FnCallRoundtrip.v
FnCallSafety.v
Message.v
ConversationMemory.v
ConversationSpec.v
State.v
Controller.v
ControllerSafety.v
AgentTools.v
CodeAct.v
CodeActSpec.v
ToolSchema.v
Microagent.v
MemoryRecall.v
ModelFeatures.v
Llm.v
LlmSpec.v
LlmRegistry.v
RuntimeGate.v
Paging.v
EventService.v
GitProvider.v
ConversationStore.v
GitRouter.v
RateLimiter.v
AgentSession.v
ConversationManager.v
