(* ===== verification/Prelude.v ===== *)
(** * OpenHands and ForgePilot Studio: a verification library

    This library models the parts of the repository that decide what an AI agent
    may do, that keep the record of what it did, and that drive it from event to
    event.  It proves what makes each part correct, and records where a part does
    not do what it means to.

    ** The program and its parts

    The agent side, [src/openhands].  A conversation is an [EventStream]
    ([events/stream.py]): whatever happens is an event ([events/]) that is given
    an id, serialised, written to a file store and handed to the subscribers.
    The [AgentController] ([controller/agent_controller.py]) is one of them: it
    keeps the [State] of its agent, runs the limits and the stuck detector, asks
    the agent for an action, lets the user confirm it and publishes it.  The
    runtime ([runtime/base.py]) is another: it executes the actions and publishes
    observations.  A view of the history ([memory/view.py]) and the condensers
    ([memory/condenser]) decide what the agent's model sees.  What the
    model is sent is that history as messages ([memory/conversation_memory.py],
    [core/message.py]).  The client of the model ([llm/llm.py]) makes a request of
    them, for a model without native tool calls with the messages and its replies
    translated to text and back ([llm/fn_call_converter.py]), and records what it
    cost ([llm/metrics.py]); the registry of models and the statistics of a
    conversation keep that over restarts.  An agent ([agenthub/]) turns the
    response into actions.  The memory ([memory/memory.py]) is a third subscriber,
    which answers the controller's recall actions from the microagents.  A patch
    that an agent hands over is parsed and applied by [resolver/patching].

    The servers, [src/openhands/server] and [app_server].  A conversation manager
    ([server/conversation_manager/standalone_conversation_manager.py]) starts an
    [AgentSession] ([server/session/agent_session.py]) per conversation, limits how
    many a user runs, and keeps the runtimes that clients are attached to.  The
    conversations are listed from their store ([storage/conversation]), events from
    the event service ([app_server/event]), repositories and branches from the
    handlers of git hosts ([integrations/provider.py]), all in pages; a middleware
    limits the rate of requests ([server/middleware.py]).

    The control side, [src/openhands/forgepilot].  An action reaches the world
    through the tool registry ([tool_registry/registry.py]) with its access guard
    ([enforcement.py]) and shell tools ([shell_tools.py]), or through the
    execution harness ([harness/]), which classifies a runtime action, asks its
    policy and its confirmation gate, runs the executor and records an audit
    event.  Audit events also come from the event stream
    ([audit/event_stream.py]).  From them are built the exports
    ([audit/schema.py]), the timeline ([audit/timeline.py]), the replay with its
    risk queues ([audit/replay.py]) and the delivery artifact ([delivery/]).
    Beside these stand the control plane ([control_plane/]: phases, approvals,
    budgets), team spaces ([teamspace/]), agent orchestration
    ([orchestration/]), the platform services ([platform/]) and two provider
    tables.

    ** Files

    The Python that the program relies on, as executable definitions:
    - [Prelude] (this file): exceptions as values ([res]), the state monad
      [M S A] that keeps the state when a call raises and relations along it
      ([steps]), hint databases and tactics, stable sorting, deduplication,
      reachability ([run]) and machines with answers ([transcript], invariants and
      simulations over histories);
    - [PyStr] (str, [base64], UTF-8), [PyDict] (insertion-ordered dict, refined to [gmap]),
      [PyList] (slices, index errors, filters, sorting by a key), [PyFloat], [FloatDiv] and [FloatRound]
      (binary64 arithmetic, formatting, [repr]), [PyVal] (dynamic values, [str]),
      [PyJson] ([json.dumps] and [json.loads] on ASCII), [PyTime] (datetime, ISO format), [PyPath] ([os.path], pure
      paths, [Path.resolve] over a table of symbolic links), [Fnmatch], [Shlex],
      [Csv] and [PyRegex] (a parser of patterns and a backtracking matcher with
      greedy and lazy repetition, groups and anchors: [match], [search], [sub]),
      [RegexFind] (groups of a search, [finditer], and where a lazy pattern stops).

    The agent side, bottom up:
    - [Events] (the event classes, [events/action], [events/observation],
      [events/event.py]; lists of events by id), [Serialization]
      ([events/serialization]);
    - [FileStore] ([storage/files.py], [memory.py], [locations.py]; a class with
      laws and the in-memory store as its instance), [EventStore]
      ([events/event_store.py], [event_filter.py], [stream.py]), [EventLog] (its
      theorems), [NestedStore] ([events/nested_event_store.py] with the route of
      [server/routes/conversation.py] it calls);
    - [Stuck] ([controller/stuck.py]), [View], [Condenser], [RollingCondenser],
      [SelectingCondenser] ([memory/view.py], [memory/condenser]), [State]
      ([controller/state], [controller/replay.py]);
    - [Controller] ([controller/agent_controller.py]), [ControllerSafety] (its
      theorems), [RuntimeGate] (the gate of [runtime/base.py] and
      [runtime/impl/action_execution/action_execution_client.py], and what gate
      and controller do together);
    - [Message] ([core/message.py]), [ConversationMemory]
      ([memory/conversation_memory.py]), [ConversationSpec] (its theorems);
      [FnCallText], [FnCall] ([llm/fn_call_converter.py]: its texts, its
      functions), [FnCallRoundtrip], [FnCallSafety] (their theorems);
    - [AgentTools] (the tools that the agents offer,
      [agenthub/codeact_agent/tools], [readonly_agent/tools], [llm/llm_utils.py]),
      [CodeAct] ([agenthub/*/function_calling.py], [codeact_agent.py],
      [controller/agent.py]: from a response to actions, and the step of an
      agent), [CodeActSpec] and [ToolSchema] (their theorems);
    - [Microagent] ([microagent/]), [MemoryRecall] ([memory/memory.py]);
    - [ModelFeatures] ([llm/model_features.py]), [Metrics] ([llm/metrics.py]),
      [Llm] ([llm/llm.py], [retry_mixin.py]), [LlmSpec] (its theorems),
      [LlmRegistry] ([llm/llm_registry.py], [llm/router],
      [server/services/conversation_stats.py]; metrics are objects in a heap that
      models and statistics share);
    - [PatchHeader], [PatchDiff], [PatchApply], [PatchRoundtrip]
      ([resolver/patching]).

    The servers:
    - [Paging] ([app_server/utils/paging_utils.py],
      [utils/search_utils.py]; the contract [serves_pages] of an endpoint and the
      client that walks it);
    - [EventService] ([app_server/event]), [GitProvider]
      ([integrations/provider.py], [service_types.py]), [ConversationStore]
      ([storage/conversation], [storage/data_models/conversation_metadata.py]),
      [GitRouter] ([app_server/git/git_router.py]);
    - [RateLimiter] ([server/middleware.py]), [AgentSession]
      ([server/session/agent_session.py]), [ConversationManager]
      ([server/conversation_manager], [server/session/conversation.py]).

    The control side, one file per component, with the names of the source:
    - [TaskProtocol], [Approval], [Budget]: [control_plane/task_protocol.py],
      [approval_policy.py], [budget_policy.py];
    - [TeamSpace]: [teamspace/__init__.py]; [Orchestration]:
      [orchestration/__init__.py];
    - [ToolRegistry], [Guard], [ShellTools]: [tool_registry/schema.py] and
      [registry.py], [enforcement.py], [shell_tools.py];
    - [AuditSchema], [EventStream], [Timeline], [Replay]: [audit/schema.py],
      [event_stream.py], [timeline.py], [replay.py];
    - [HarnessAction], [Redact], [Confirmation], [HarnessService]:
      [harness/action_schema.py], [observation.py], [confirmation.py], and
      [policy.py], [audit.py] and [service.py];
    - [Delivery]: [delivery/__init__.py]; [Platform]: [platform/__init__.py];
    - [Providers]: [runtime_providers/registry.py],
      [llm_gateway/provider_registry.py].

    ** Conventions

    A class with mutable state is a record and its methods are computations over
    it: [M S A] gives the outcome ([Ok] or [Raise]) and the state left behind,
    also when the call raises.  Components that share state run on a product of
    their states: a guard works on the registry, the world and its violations, a
    controller on the world it shares with its delegates and on itself.  Code
    that is not the program's (executors, command runners, file contents, the
    completions of a model, log handlers, pydantic's validators) is a parameter;
    executors act on an arbitrary world, so that "not run" is "the world is
    unchanged".  Clock readings and fresh identifiers are arguments.  What a
    component promises to another is a class with laws where the client does not
    need more: the harness is proved against [Confirmation.Authority], the event
    store against [FileStore.FileStoreLaws].

    Parameters of the servers: databases, buckets and file systems as the lists of
    what they hold, the answers of git hosts and of the sandboxes, the runtime that a
    session creates and its failures.  What runs between two awaits is one step.

    Parameters of the agent side: an agent and its model as functions of the
    state, the text of an event that a search looks in, the version of the
    package, [ast.literal_eval], the text that a condenser's model returns and
    its parsed form, decompressed content in a patch, the prompt templates, the
    packing of a model's response into an event's metadata, the front matter of a
    microagent and its validation; for the client of a model litellm (completions,
    prices, model information), the proxy, the environment, the clock, the class
    hierarchy of exceptions and pickle.  A JSON document in the file store is the
    value it stands for.

    ** Theorems

    - Confirmation of actions: [RuntimeGate.commands_need_confirmation]
      (controller and runtime together), [ControllerSafety.action_waits_for_user];
      [HarnessService.execute_gated], [async_token_single_use] (in any
      interleaving), [ToolRegistry.invoke_gated_and_recorded],
      [Guard.guard_invoke_safe]: through the harness and the tool registry nothing
      runs without permission and confirmation, and every call that returns is
      recorded once; through a controller no command does, but a delegate asks nothing
      ([RuntimeGate.delegate_asks_nothing]);
      [Confirmation.token_accepted_iff] says exactly which tokens are accepted.
    - Limits and failures of an agent: [ControllerSafety.iterations_bounded],
      [budget_stops_the_agent], [failed_step_stops]; [Stuck.is_stuck_iff].
    - What the agent does with a response: [CodeActSpec.calls_become_actions],
      [readonly_agent_searches] (the form of the
      read-only agent's commands), [ToolSchema.offered_tools_are_understood].
    - The model's client: [LlmSpec.mocked_call_is_read] (a model without function
      calling answers like one with it, as long as no text holds a mark),
      [completion_is_accounted], [request_fits_the_model]; [LlmRegistry.saved_metrics_survive] (no cost or
      token on record is lost over restarts).
    - The memory: [MemoryRecall.recall_is_answered] (the requests of the user,
      and the agent's for knowledge, release the controller that waits).
    - The record: [EventLog.published_is_read] and [search_cache_invisible],
      [NestedStore.nested_search_is_direct], [Serialization.event_round_trip].
    - The servers: [ConversationManager.starts_stay_within_limit] and
      [used_conversations_stay_connected] (in any interleaving of requests and of the
      background task), [cleanup_spares_the_active] (of a round alone);
      [AgentSession.close_is_complete]; [RateLimiter.requests_are_limited];
      [EventService.saved_events_are_listed],
      [ConversationStore.saved_conversations_are_listed] (a client that walks the
      pages gets what was saved, once and in the order of the listing).
    - What the model sees: [RollingCondenser.amortized_loop];
      [ConversationSpec.calls_answered_in_place] (every tool call is followed by
      its own results);
      [FnCallRoundtrip.calls_survive_the_text] (a call written as text is read
      back), [FnCallSafety.calls_are_validated] (what is read has the arguments
      that the tool declares).
    - Patches: [PatchRoundtrip.git_patch_roundtrip].
    - Permissions: [TeamSpace.registry_invariant] (ownership);
      [Guard.target_inside_workspace] (no escape, symbolic links included).
    - Audit: [Timeline.timeline_partition] (no event lost or shown twice, when no
      trace id has a #);
      [Redact.redaction_hides_sensitive_keys] (noninterference);
      [ToolRegistry.registry_holds_last_writes].
    - Lemmas of the same weight: [Confirmation.prune_unobservable],
      [View.forgotten_stays_forgotten],
      [State.replay_in_order], [Stuck.loops_detected],
      [Timeline.parents_are_latest_causes], [TeamSpace.membership_change_authorised],
      [PatchApply.apply_checks_context], [PatchApply.reverse_restores],
      [Approval.structural_check_sees_through_wrapping],
      [State.init_history_spec], [View.from_events_spec],
      [ConversationSpec.conversation_opens], [processing_is_repeatable],
      [CodeActSpec.response_is_handed_out], [GitRouter.route_pages_are_complete],
      [Paging.paginate_serves], [Metrics.diff_is_what_was_recorded],
      [ShellTools.execute_shell_tool_gated].
    - Divergences are examples and lemmas at the end of the files, which compute
      single instances; [RuntimeGate] ends with those of the confirmation of
      actions, [State] and [EventLog] with those of the history and the log.

    ** Fuel and bounds

    Every loop of the program terminates in the model for every input, except
    those that a lemma shows to run for ever ([NestedStore.limit_zero_never_ends]).
    A completion is tried as often as its configuration allows, and once at least.
    The fuel of [Timeline.walk] is two more than the number of child references,
    and [walk_spec] shows that the stack is empty before it runs out.  The fuel
    of [PyPath.joinrealpath] is one more than the number of symbolic links, and
    [realpath_spec] that the walk never ends for lack of it.  Paging through the
    events of a conversation takes at most one request more than there are
    events, a replay one step more than events; these are theorems for any larger fuel.
    Settling a condenser takes two rounds, within which it ends.  The parsers and matchers of
    [PyRegex] and [Fnmatch] take the length of their input; [re_match_complete]
    shows that no match is missed.  [digits_go], [find_point] and [shortest] take
    the number of digits.  [Orchestration.dispatch] iterates a single-step
    operation, and its fuel is the number of steps asked for.  Integers are
    Python's, unbounded; floats are binary64.

    ** Limits

    Strings are sequences of code points below 256.  Texts of pydantic's and
    [re]'s errors are not modelled, nor is pydantic's own serialisation.  A
    controller and a runtime handle one event after the other, as each does on
    its own thread; how the threads of different subscribers interleave matters
    only through the order of the events, which is arbitrary in the theorems.
    Not modelled: the browsing agents and the tools of the localization agent (a
    text of theirs has a character above 255), the asynchronous clients of a model
    and its log files, the containers, shells and browsers of the runtimes,
    the routes of the servers beyond those named, websockets and the clients of git
    hosts, the enterprise server and the frontend, which are I/O, frameworks and
    third-party services around the parts above. *)

From stdpp Require Export prelude strings gmap sorting.
From Stdlib Require Export Lia.

#[global] Set Default Goal Selector "!".
#[global] Open Scope Z_scope.
#[global] Open Scope stdpp_scope.

(** ** Exceptions and the two monads of the development

    A Python call either returns or raises.  [res A] is that outcome.  A
    method of a mutable object is a function of the object's state returning
    an outcome together with the state that is left behind: an exception does
    not undo the writes that happened before it, so [M S A] keeps the state on
    both paths. *)

Inductive exn :=
  | KeyError (key : string)
  | ValueError (msg : string)
  | PermissionError (msg : string)
  | TypeError (msg : string)
  | RuntimeError (msg : string)
  | OtherError (cls msg : string).

#[global] Instance exn_eq_dec : EqDecision exn.
Proof. solve_decision. Defined.

Inductive res (A : Type) :=
  | Ok (a : A)
  | Raise (e : exn).
Arguments Ok {A} _.
Arguments Raise {A} _.

#[global] Instance res_eq_dec `{EqDecision A} : EqDecision (res A).
Proof. solve_decision. Defined.

Definition rbind {A B} (m : res A) (k : A -> res B) : res B :=
  match m with Ok a => k a | Raise e => Raise e end.

Definition is_ok {A} (m : res A) : bool :=
  match m with Ok _ => true | Raise _ => false end.

Definition M (S A : Type) : Type := S -> res A * S.

Definition retM {S A} (a : A) : M S A := fun s => (Ok a, s).
Definition raiseM {S A} (e : exn) : M S A := fun s => (Raise e, s).
Definition bindM {S A B} (m : M S A) (k : A -> M S B) : M S B :=
  fun s => match m s with
           | (Ok a, s') => k a s'
           | (Raise e, s') => (Raise e, s')
           end.
Definition getM {S} : M S S := fun s => (Ok s, s).
Definition putM {S} (s : S) : M S unit := fun _ => (Ok tt, s).
Definition modifyM {S} (f : S -> S) : M S unit := fun s => (Ok tt, f s).
Definition liftM {S A} (r : res A) : M S A := fun s => (r, s).

(** A computation on one half of a pair of states. *)
Definition onL {S T A} (m : M S A) : M (S * T) A :=
  fun st => let '(r, s') := m st.1 in (r, (s', st.2)).
Definition onR {S T A} (m : M T A) : M (S * T) A :=
  fun st => let '(r, t') := m st.2 in (r, (st.1, t')).

Declare Scope py_scope.
Delimit Scope py_scope with py.
Notation "x <- m ;; k" := (bindM m (fun x => k))
  (at level 60, m at next level, right associativity) : py_scope.
Notation "m ;;; k" := (bindM m (fun _ => k))
  (at level 60, right associativity) : py_scope.
Notation "x <-! m ;; k" := (rbind m (fun x => k))
  (at level 60, m at next level, right associativity) : py_scope.
#[global] Open Scope py_scope.

(** ** What computations do to the state *)

(** [m] takes a state to a related one, whether it raises or not. *)
Definition steps {S A} (R : S -> S -> Prop) (m : M S A) : Prop := forall s, R s (m s).2.

Section steps.
Context {S : Type} (R : S -> S -> Prop) `{!PreOrder R}.
Lemma steps_ret {A} (a : A) : steps R (retM a). Proof. by intros s. Qed.
Lemma steps_raise {A} e : steps R (raiseM (A := A) e). Proof. by intros s. Qed.
Lemma steps_lift {A} (r : res A) : steps R (liftM r). Proof. by intros s. Qed.
Lemma steps_bind {A B} (m : M S A) (k : A -> M S B) : steps R m -> (forall a, steps R (k a)) -> steps R (bindM m k).
Proof.
  intros Hm Hk s. unfold bindM. specialize (Hm s). destruct (m s) as [[a|e] s']; cbn [snd] in *; [|done].
  etrans; [done|]. apply Hk.
Qed.
Lemma steps_bind_at {A B} (m : M S A) (k : A -> M S B) s :
  R s (m s).2 -> (forall a s', m s = (Ok a, s') -> steps R (k a)) -> R s (bindM m k s).2.
Proof.
  unfold bindM. destruct (m s) as [[a|e] s']; cbn [snd]; [|done]. intros Hs Hk. etrans; [done|]. by eapply Hk.
Qed.
Lemma steps_assoc {A B D} (m : M S A) (m' : M S B) (k : B -> M S D) :
  steps R (m ;;; m') -> (forall b, steps R (k b)) -> steps R (m ;;; (b <- m' ;; k b)).
Proof.
  intros Hm Hk s. specialize (Hm s). unfold bindM in *. destruct (m s) as [[a|e] s']; [|done].
  destruct (m' s') as [[b|e] s'']; cbn [snd] in *; [|done]. etrans; [done|]. apply Hk.
Qed.
Lemma steps_if {A} (b : bool) (m m' : M S A) : steps R m -> steps R m' -> steps R (if b then m else m').
Proof. by destruct b. Qed.
End steps.

(** Projections of an outcome of a stateful call. *)
Definition outcome {S A} (m : res A * S) : res A := m.1.
Definition after {S A} (m : res A * S) : S := m.2.

(** ** Tactics and hint databases *)

Create HintDb py discriminated.
Create HintDb pybool.
Create HintDb pysort.
Create HintDb pystr.

(** Case analysis on the innermost [match]/[if] of the goal or a hypothesis,
    remembering the equation. *)
(** A decidable fact about literals. *)
Ltac literal := apply (bool_decide_unpack _); vm_compute; exact I.
Ltac split_match :=
  match goal with
  | |- context [match ?x with _ => _ end] =>
      lazymatch x with context [match _ with _ => _ end] => fail | _ => destruct x eqn:? end
  end.
Ltac split_match_in H :=
  match type of H with
  | context [match ?x with _ => _ end] =>
      lazymatch x with context [match _ with _ => _ end] => fail | _ => destruct x eqn:? end
  end.
Ltac split_matches := repeat (split_match; simplify_eq/=; try done).
Ltac split_matches_in H := repeat (split_match_in H; simplify_eq/=; try done).

(** ** Booleans *)

Lemma existsb_spec {A} (f : A -> bool) l :
  existsb f l = true <-> exists x, x ∈ l /\ f x = true.
Proof.
  rewrite existsb_exists. split; intros (x & Hx & Hf); exists x; by rewrite list_elem_of_In in *.
Qed.

Lemma existsb_false {A} (f : A -> bool) l :
  existsb f l = false <-> forall x, x ∈ l -> f x = false.
Proof.
  rewrite <-not_true_iff_false, existsb_spec. split.
  - intros H x Hx. destruct (f x) eqn:E; [|done]. exfalso; apply H; eauto.
  - intros H (x & Hx & E). by rewrite H in E.
Qed.

(** [negb], [andb] and [orb] facts as rewriting rules. *)
#[export] Hint Rewrite andb_true_iff orb_true_iff negb_true_iff negb_false_iff
  andb_false_iff orb_false_iff bool_decide_eq_true bool_decide_eq_false : pybool.

(** ** Python's [sorted]: a stable insertion sort on an integer key *)

Section stable_sort.
Context {A : Type} (key : A -> Z).

Fixpoint insert_by (x : A) (l : list A) : list A :=
  match l with
  | [] => [x]
  | y :: l' => if key x <=? key y then x :: l else y :: insert_by x l'
  end.

Fixpoint sort_by (l : list A) : list A :=
  match l with
  | [] => []
  | x :: l' => insert_by x (sort_by l')
  end.

Definition key_le (x y : A) : Prop := key x <= key y.

Lemma insert_by_perm x l : insert_by x l ≡ₚ x :: l.
Proof.
  induction l as [|y l IH]; simpl; [done|].
  destruct (_ <=? _); [done|]. rewrite IH. constructor.
Qed.

Lemma sort_by_perm l : sort_by l ≡ₚ l.
Proof. induction l as [|x l IH]; simpl; [done|]. by rewrite insert_by_perm, IH. Qed.

Lemma insert_by_sorted x l :
  StronglySorted key_le l -> StronglySorted key_le (insert_by x l).
Proof.
  induction 1 as [|y l Hl IH Hy]; simpl; [repeat constructor|].
  destruct (Z.leb_spec (key x) (key y)).
  - constructor; [by constructor|]. constructor; [done|].
    eapply Forall_impl; [exact Hy|]. unfold key_le; simpl; lia.
  - constructor; [done|]. rewrite insert_by_perm. constructor; [unfold key_le; lia|done].
Qed.

Lemma sort_by_sorted l : StronglySorted key_le (sort_by l).
Proof. induction l; simpl; [constructor|by apply insert_by_sorted]. Qed.

Lemma insert_by_le x l : Forall (key_le x) l -> insert_by x l = x :: l.
Proof.
  destruct 1 as [|y l Hy]; simpl; [done|]. unfold key_le in *.
  by rewrite (proj2 (Z.leb_le _ _) Hy).
Qed.

(** A sorted list is left as it is, so sorting twice is sorting once. *)
Lemma sort_by_id l : StronglySorted key_le l -> sort_by l = l.
Proof.
  induction 1 as [|x l Hl IH Hx]; simpl; [done|]. rewrite IH. by apply insert_by_le.
Qed.

Lemma sort_by_idemp l : sort_by (sort_by l) = sort_by l.
Proof. apply sort_by_id, sort_by_sorted. Qed.

(** Stability: elements with the same key keep their order. *)
Lemma insert_by_stable k x l :
  filter (fun y => key y = k) (insert_by x l) = filter (fun y => key y = k) (x :: l).
Proof.
  induction l as [|y l IH]; simpl; [done|].
  destruct (Z.leb_spec (key x) (key y)); [done|].
  rewrite filter_cons, IH, !filter_cons. repeat case_decide; done || lia.
Qed.

Lemma sort_by_stable k l :
  filter (fun y => key y = k) (sort_by l) = filter (fun y => key y = k) l.
Proof.
  induction l as [|x l IH]; [done|]. simpl sort_by.
  rewrite insert_by_stable, !filter_cons, IH. done.
Qed.

Lemma sort_by_length l : length (sort_by l) = length l.
Proof. by rewrite sort_by_perm. Qed.

Lemma elem_of_sort_by x l : x ∈ sort_by l <-> x ∈ l.
Proof. by rewrite sort_by_perm. Qed.
End stable_sort.

#[export] Hint Rewrite @sort_by_length @elem_of_sort_by @sort_by_idemp : pysort.
#[export] Hint Resolve sort_by_sorted sort_by_perm : py.

(** ** Order-preserving deduplication: [dict.fromkeys] *)

Section dedup.
Context {A : Type} `{EqDecision A}.

Fixpoint dedup_from (seen : list A) (l : list A) : list A :=
  match l with
  | [] => []
  | x :: l' => if decide (x ∈ seen) then dedup_from seen l' else x :: dedup_from (x :: seen) l'
  end.
Definition dedup (l : list A) : list A := dedup_from [] l.

Lemma elem_of_dedup_from seen l x :
  x ∈ dedup_from seen l <-> x ∈ l /\ x ∉ seen.
Proof.
  revert seen; induction l as [|y l IH]; intros seen; simpl.
  { split; [intros H; inversion H|intros [H _]; inversion H]. }
  rewrite elem_of_cons. case_decide; rewrite ?elem_of_cons, IH, ?elem_of_cons.
  - naive_solver.
  - destruct (decide (x = y)); naive_solver.
Qed.
Lemma elem_of_dedup l x : x ∈ dedup l <-> x ∈ l.
Proof. unfold dedup. rewrite elem_of_dedup_from, elem_of_nil. tauto. Qed.
Lemma NoDup_dedup_from seen l : NoDup (dedup_from seen l).
Proof.
  revert seen; induction l as [|y l IH]; intros seen; simpl; [constructor|].
  case_decide; [done|]. constructor; [|done]. rewrite elem_of_dedup_from, elem_of_cons. tauto.
Qed.
Lemma NoDup_dedup l : NoDup (dedup l).
Proof. apply NoDup_dedup_from. Qed.
End dedup.

(** ** Reachability: the states a sequence of operations can produce *)

Section reach.
Context {S Op : Type} (step : Op -> S -> S).

Definition run (s : S) (ops : list Op) : S := fold_left (fun s o => step o s) ops s.

Lemma run_app s ops ops' : run s (ops ++ ops') = run (run s ops) ops'.
Proof. unfold run. by rewrite fold_left_app. Qed.

(** An invariant of the initial state preserved by each operation holds in
    every reachable state. *)
Lemma run_invariant (P : S -> Prop) s ops :
  P s -> (forall o s, P s -> P (step o s)) -> P (run s ops).
Proof.
  intros Hs Hstep. revert s Hs; induction ops as [|o ops IH]; intros s Hs; simpl; auto.
Qed.
End reach.

(** ** Machines: operations that answer

    [transcript m s ops] is the list of the answers of [m] to [ops] from [s],
    and the state left behind.  Two machines that answer alike are related by a
    simulation, which may depend on the operations so far ([hist]) and assume
    that the operations make sense ([valid], closed under prefixes). *)

Section machines.
Context {Op Out : Type}.

Fixpoint transcript {S} (m : S -> Op -> Out * S) (s : S) (ops : list Op) : list Out * S :=
  match ops with
  | [] => ([], s)
  | o :: ops => let '(r, s) := m s o in let '(rs, s) := transcript m s ops in (r :: rs, s)
  end.

Lemma transcript_snoc {S} (m : S -> Op -> Out * S) s ops o :
  transcript m s (ops ++ [o]) =
  ((transcript m s ops).1 ++ [(m (transcript m s ops).2 o).1], (m (transcript m s ops).2 o).2).
Proof.
  revert s; induction ops as [|o' ops IH]; intros s; cbn [transcript app].
  - cbn. by destruct (m s o).
  - destruct (m s o') as [r s']. rewrite IH. by destruct (transcript m s' ops).
Qed.

Lemma transcript_length {S} (m : S -> Op -> Out * S) s ops : length (transcript m s ops).1 = length ops.
Proof.
  revert s; induction ops as [|o ops IH]; intros s; [done|]. cbn [transcript]. destruct (m s o) as [r s'].
  specialize (IH s'). destruct (transcript m s' ops). cbn in *. by rewrite IH.
Qed.

Lemma transcript_invariant {S} (m : S -> Op -> Out * S) (valid : list Op -> Prop) (I : list Op -> S -> Prop) s ops :
  (forall hist o, valid (hist ++ [o]) -> valid hist) ->
  (forall hist o s, valid (hist ++ [o]) -> I hist s -> I (hist ++ [o]) (m s o).2) ->
  I [] s -> valid ops -> I ops (transcript m s ops).2.
Proof.
  intros Hv Hstep Hs. induction ops as [|o ops IH] using rev_ind; intros Hops; [done|].
  rewrite transcript_snoc. apply Hstep; [done|]. apply IH. by eapply Hv.
Qed.

Lemma transcript_simulation {S T} (m : S -> Op -> Out * S) (n : T -> Op -> Out * T)
    (valid : list Op -> Prop) (R : list Op -> S -> T -> Prop) s t ops :
  (forall hist o, valid (hist ++ [o]) -> valid hist) ->
  (forall hist o s t, valid (hist ++ [o]) -> R hist s t ->
     (m s o).1 = (n t o).1 /\ R (hist ++ [o]) (m s o).2 (n t o).2) ->
  R [] s t -> valid ops ->
  (transcript m s ops).1 = (transcript n t ops).1 /\ R ops (transcript m s ops).2 (transcript n t ops).2.
Proof.
  intros Hv Hstep Hst. induction ops as [|o ops IH] using rev_ind; intros Hops; [done|].
  destruct (IH (Hv _ _ Hops)) as [E HR]. rewrite !transcript_snoc. cbn [fst snd].
  destruct (Hstep _ o _ _ Hops HR) as [E' HR']. by rewrite E, E'.
Qed.
End machines.
