(* ===== verification/PyStr.v ===== *)
(** * Python strings

    A [string] stands for a Python [str] whose code points are below 256: the
    character [c] is the code point [ord c].  Character classes and case
    conversion are Python's on that range (so U+0085 and U+00A0 are spaces and
    U+00C0 is a letter).  Literals of the source with characters beyond it
    (arrows, dashes) occur in messages only and are written with the bytes of
    their UTF-8 encoding.

    Contents: character classes, [strip] and its variants, case conversion,
    [in], [startswith], [replace], [split], [join], slices, [str] of an
    integer, [repr] of a string, [sorted] on strings, [base64] and the decoding
    of UTF-8, and their lemmas. *)

From S2P Require Import Prelude.
From Stdlib Require Import Ascii.

(** ** Characters *)

Definition ord (c : ascii) : Z := Z.of_N (N_of_ascii c).
Definition chr (z : Z) : ascii := ascii_of_N (Z.to_N z).
Definition in_range (lo hi : Z) (c : ascii) : bool := (lo <=? ord c) && (ord c <=? hi).

(** [str.isspace] *)
Definition is_space (c : ascii) : bool :=
  in_range 9 13 c || in_range 28 32 c || (ord c =? 133) || (ord c =? 160).
(** [str.isdigit] for decimal digits *)
Definition is_decimal (c : ascii) : bool := in_range 48 57 c.
Definition is_ascii_upper (c : ascii) : bool := in_range 65 90 c.
Definition is_ascii_lower (c : ascii) : bool := in_range 97 122 c.
(** [str.isalpha] *)
Definition is_alpha (c : ascii) : bool :=
  is_ascii_upper c || is_ascii_lower c || (ord c =? 170) || (ord c =? 181) || (ord c =? 186)
  || in_range 192 214 c || in_range 216 246 c || in_range 248 255 c.
(** [str.isalnum]: letters, digits, superscripts and fractions *)
Definition is_alnum (c : ascii) : bool :=
  is_alpha c || is_decimal c || in_range 178 179 c || (ord c =? 185) || in_range 188 190 c.
(** [\w] of the [re] module *)
Definition is_word (c : ascii) : bool := is_alnum c || (ord c =? 95).

Definition lower_char (c : ascii) : ascii :=
  if is_ascii_upper c || in_range 192 214 c || in_range 216 222 c then chr (ord c + 32) else c.
Definition upper_char (c : ascii) : ascii :=
  if is_ascii_lower c || in_range 224 246 c || in_range 248 254 c then chr (ord c - 32) else c.

Lemma chr_ord c : chr (ord c) = c.
Proof. unfold chr, ord. by rewrite N2Z.id, ascii_N_embedding. Qed.
Lemma ord_range c : 0 <= ord c < 256.
Proof. unfold ord. pose proof (N_ascii_bounded c). lia. Qed.
Lemma ord_chr z : 0 <= z < 256 -> ord (chr z) = z.
Proof. intros ?. unfold chr, ord. rewrite N_ascii_embedding; lia. Qed.
Lemma ord_inj c d : ord c = ord d -> c = d.
Proof. intros H. by rewrite <-(chr_ord c), H, chr_ord. Qed.

(** ** Append *)

Lemma sapp_nil_l s : "" +:+ s = s. Proof. done. Qed.
Lemma sapp_cons c s t : String c s +:+ t = String c (s +:+ t). Proof. done. Qed.
Lemma sapp_nil_r s : s +:+ "" = s.
Proof. induction s as [|c s IH]; [done|]. by rewrite sapp_cons, IH. Qed.
Lemma sapp_assoc s t u : (s +:+ t) +:+ u = s +:+ (t +:+ u).
Proof. induction s as [|c s IH]; [done|]. by rewrite !sapp_cons, IH. Qed.
#[export] Hint Rewrite sapp_nil_l sapp_cons sapp_nil_r sapp_assoc : pystr.
Ltac ssimpl := autorewrite with pystr in *.

Notation slen := String.length.

Lemma slen_app s t : slen (s +:+ t) = (slen s + slen t)%nat.
Proof. induction s as [|c s IH]; [done|]. rewrite sapp_cons. simpl. by rewrite IH. Qed.
Lemma sapp_inj_l s t u : s +:+ t = s +:+ u -> t = u.
Proof. induction s as [|c s IH]; [done|]. rewrite !sapp_cons. intros [=]. auto. Qed.
Lemma sapp_inj_len s s' t t' :
  slen s = slen s' -> s +:+ t = s' +:+ t' -> s = s' /\ t = t'.
Proof.
  revert s'; induction s as [|c s IH]; intros [|c' s']; try done.
  intros Hl. rewrite !sapp_cons. injection Hl as Hl. intros [= -> E]. destruct (IH s' Hl E) as [-> ->]. done.
Qed.
Lemma sapp_inj_r s t u : s +:+ u = t +:+ u -> s = t.
Proof.
  intros E. assert (slen s = slen t) as Hl.
  { apply (f_equal slen) in E. rewrite !slen_app in E. lia. }
  by apply sapp_inj_len in E as [? ?].
Qed.

(** ** Characters of a string *)

Fixpoint sall (p : ascii -> bool) (s : string) : bool :=
  match s with EmptyString => true | String c s' => p c && sall p s' end.
Fixpoint sexists (p : ascii -> bool) (s : string) : bool :=
  match s with EmptyString => false | String c s' => p c || sexists p s' end.
Fixpoint smap (f : ascii -> ascii) (s : string) : string :=
  match s with EmptyString => "" | String c s' => String (f c) (smap f s') end.
Fixpoint scount (p : ascii -> bool) (s : string) : nat :=
  match s with
  | EmptyString => 0
  | String c s' => (if p c then 1 else 0) + scount p s'
  end%nat.

Lemma sall_app p s t : sall p (s +:+ t) = sall p s && sall p t.
Proof. induction s as [|c s IH]; [done|]. rewrite sapp_cons. simpl. by rewrite IH, andb_assoc. Qed.
Lemma sexists_app p s t : sexists p (s +:+ t) = sexists p s || sexists p t.
Proof. induction s as [|c s IH]; [done|]. rewrite sapp_cons. simpl. by rewrite IH, orb_assoc. Qed.
Lemma scount_app p s t : scount p (s +:+ t) = (scount p s + scount p t)%nat.
Proof. induction s as [|c s IH]; [done|]. rewrite sapp_cons. simpl. rewrite IH. lia. Qed.
Lemma sall_sexists p s : sall p s = negb (sexists (fun c => negb (p c)) s).
Proof. induction s as [|c s IH]; simpl; [done|]. rewrite IH. by destruct (p c). Qed.
Lemma sall_impl (p q : ascii -> bool) s :
  (forall c, p c = true -> q c = true) -> sall p s = true -> sall q s = true.
Proof.
  intros H. induction s as [|c s IH]; simpl; [done|].
  rewrite !andb_true_iff. intros [??]; auto.
Qed.
Lemma scount_0 p s : scount p s = 0%nat <-> sexists p s = false.
Proof. induction s as [|c s IH]; simpl; [done|]. destruct (p c); simpl; [split; [lia|done]|done]. Qed.
#[export] Hint Rewrite sall_app sexists_app scount_app slen_app : pystr.

(** [str.isalpha] holds of non-empty strings only. *)
Definition str_isalpha (s : string) : bool :=
  match s with EmptyString => false | _ => sall is_alpha s end.

(** [str.lower] *)
Definition lower (s : string) : string := smap lower_char s.
(** [str.upper]; U+00DF has a two-letter upper case. *)
Fixpoint upper (s : string) : string :=
  match s with
  | EmptyString => ""
  | String c s' => if ord c =? 223 then "SS" +:+ upper s' else String (upper_char c) (upper s')
  end.

(** ** [strip] and its variants *)

Fixpoint lstrip_by (p : ascii -> bool) (s : string) : string :=
  match s with
  | EmptyString => ""
  | String c s' => if p c then lstrip_by p s' else s
  end.
Fixpoint rstrip_by (p : ascii -> bool) (s : string) : string :=
  match s with
  | EmptyString => ""
  | String c s' =>
      match rstrip_by p s' with
      | EmptyString => if p c then "" else String c ""
      | t => String c t
      end
  end.
Definition lstrip (s : string) : string := lstrip_by is_space s.
Definition rstrip (s : string) : string := rstrip_by is_space s.
Definition strip (s : string) : string := rstrip (lstrip s).
Definition is_char (d c : ascii) : bool := Ascii.eqb d c.

Lemma lstrip_by_len p s : (slen (lstrip_by p s) <= slen s)%nat.
Proof. induction s as [|c s IH]; simpl; [done|]. destruct (p c); simpl; lia. Qed.
Lemma rstrip_by_len p s : (slen (rstrip_by p s) <= slen s)%nat.
Proof.
  induction s as [|c s IH]; simpl; [done|].
  destruct (rstrip_by p s); simpl in *; [destruct (p c); simpl; lia|lia].
Qed.
Lemma lstrip_by_all p s : sall p s = true -> lstrip_by p s = "".
Proof. induction s as [|c s IH]; simpl; [done|]. rewrite andb_true_iff. intros [-> ?]; auto. Qed.
Lemma rstrip_by_nil p s : rstrip_by p s = "" <-> sall p s = true.
Proof.
  induction s as [|c s IH]; simpl; [done|].
  destruct (rstrip_by p s) as [|d t]; simpl; [|destruct (p c), (sall p s); naive_solver].
  destruct (p c), (sall p s); naive_solver.
Qed.
Lemma lstrip_by_head p s : match lstrip_by p s with EmptyString => True | String c _ => p c = false end.
Proof. induction s as [|c s IH]; simpl; [done|]. by destruct (p c) eqn:?. Qed.
Lemma rstrip_by_app p s t : sall p t = true -> rstrip_by p (s +:+ t) = rstrip_by p s.
Proof.
  intros Ht. induction s as [|c s IH].
  - by apply rstrip_by_nil.
  - rewrite sapp_cons. simpl. by rewrite IH.
Qed.
Lemma rstrip_by_decomp p s : exists t, s = rstrip_by p s +:+ t /\ sall p t = true.
Proof.
  induction s as [|c s (t & IH & Ht)]; [by exists ""|]. simpl.
  destruct (rstrip_by p s) as [|d u] eqn:E.
  - rewrite sapp_nil_l in IH. subst t. destruct (p c) eqn:Ec.
    + exists (String c s). simpl. by rewrite Ec, Ht.
    + by exists s.
  - exists t. rewrite sapp_cons, <-IH. done.
Qed.

(** ** [in], [startswith], [endswith] *)

Notation startswith := String.prefix.
Fixpoint contains (sub s : string) : bool :=
  String.prefix sub s || match s with EmptyString => false | String _ s' => contains sub s' end.
Fixpoint endswith (s t : string) : bool :=
  String.eqb s t || match s with EmptyString => false | String _ s' => endswith s' t end.

Lemma prefix_spec s t : startswith s t = true <-> exists u, t = s +:+ u.
Proof.
  revert t; induction s as [|c s IH]; intros t; simpl.
  - split; [intros _; by exists t|intros _; by destruct t].
  - destruct t as [|d t]; [split; [done|]; intros [u Hu]; by rewrite sapp_cons in Hu|].
    simpl. destruct (ascii_dec c d) as [->|Hne].
    + rewrite IH. split; intros [u Hu]; exists u; rewrite sapp_cons in *; congruence.
    + split; [done|]. intros [u Hu]. rewrite sapp_cons in Hu. congruence.
Qed.
Lemma startswith_app w r : startswith w (w +:+ r) = true.
Proof. apply prefix_spec. by exists r. Qed.
Lemma contains_spec sub s : contains sub s = true <-> exists u v, s = u +:+ sub +:+ v.
Proof.
  induction s as [|c s IH]; cbn [contains]; rewrite orb_true_iff, prefix_spec.
  - split.
    + intros [[u Hu]|?]; [|done]. exists "", u. by rewrite sapp_nil_l.
    + intros (u & v & E). left. destruct u; [by exists v|by rewrite sapp_cons in E].
  - rewrite IH. split.
    + intros [[u Hu]|(u & v & Hu)]; [exists "", u; by rewrite sapp_nil_l|].
      exists (String c u), v. by rewrite sapp_cons, Hu.
    + intros ([|d u] & v & E); [left; by exists v|].
      rewrite sapp_cons in E. right. exists u, v. congruence.
Qed.
Lemma endswith_spec s t : endswith s t = true <-> exists u, s = u +:+ t.
Proof.
  induction s as [|c s IH]; cbn [endswith]; rewrite orb_true_iff, String.eqb_eq.
  - split.
    + intros [<-|?]; [by exists ""|done].
    + intros ([|d u] & E); [by left|by rewrite sapp_cons in E].
  - rewrite IH. split.
    + intros [<-|[u Hu]]; [by exists ""|]. exists (String c u). by rewrite sapp_cons, Hu.
    + intros ([|d u] & E); [by left|]. rewrite sapp_cons in E. right. exists u. congruence.
Qed.

(** ** [replace], [split], [join] *)

(** [s.replace(old, new)] for a non-empty [old]: left to right, without
    overlaps; [skip] counts the characters of a match still to be dropped. *)
Fixpoint replace_go (old new : string) (skip : nat) (s : string) : string :=
  match s with
  | EmptyString => ""
  | String c s' =>
      match skip with
      | S k => replace_go old new k s'
      | O => if startswith old s then new +:+ replace_go old new (slen old - 1) s'
             else String c (replace_go old new 0 s')
      end
  end.
Definition replace (old new s : string) : string := replace_go old new 0 s.

Lemma replace_char (c d : ascii) s :
  replace (String c "") (String d "") s = smap (fun x => if Ascii.eqb c x then d else x) s.
Proof.
  unfold replace. induction s as [|x s IH]; [done|]. cbn [replace_go smap String.prefix].
  destruct (ascii_dec c x) as [->|Hne].
  - rewrite Ascii.eqb_refl. rewrite (proj2 (prefix_spec "" s)) by by exists s.
    change (slen (String x "") - 1)%nat with 0%nat. by rewrite sapp_cons, IH.
  - apply Ascii.eqb_neq in Hne. by rewrite Hne, IH.
Qed.
Lemma replace_nomatch old new s : old <> "" -> contains old s = false -> replace old new s = s.
Proof.
  intros Hold. unfold replace. induction s as [|c s IH]; [done|].
  cbn [contains replace_go]. rewrite orb_false_iff. intros [-> ?]. by rewrite IH.
Qed.

Definition consp (c : ascii) (p : string * string) : string * string := (String c p.1, p.2).

(** [s.split(sep, 1)] when [sep] occurs in [s]; [None] otherwise. *)
Fixpoint split_once (sep s : string) : option (string * string) :=
  if startswith sep s then Some ("", String.substring (slen sep) (slen s - slen sep) s)
  else match s with
       | EmptyString => None
       | String c s' => option_map (consp c) (split_once sep s')
       end.

(** [s.split()]: maximal runs of non-space characters. *)
Fixpoint split_ws_go (cur : string) (s : string) : list string :=
  match s with
  | EmptyString => match cur with EmptyString => [] | _ => [cur] end
  | String c s' =>
      if is_space c
      then match cur with EmptyString => split_ws_go "" s' | _ => cur :: split_ws_go "" s' end
      else split_ws_go (cur +:+ String c "") s'
  end.
Definition split_ws (s : string) : list string := split_ws_go "" s.

(** [s.split(c)] on one character. *)
Fixpoint split_char (c : ascii) (s : string) : list string :=
  match s with
  | EmptyString => [""]
  | String d s' =>
      if Ascii.eqb c d then "" :: split_char c s'
      else match split_char c s' with
           | [] => [String d ""]
           | t :: r => String d t :: r
           end
  end.

Definition newline : string := String (chr 10) "".

(** [sep.join(l)] *)
Fixpoint join (sep : string) (l : list string) : string :=
  match l with
  | [] => ""
  | [s] => s
  | s :: l' => s +:+ sep +:+ join sep l'
  end.

Lemma join_cons sep s l : l <> [] -> join sep (s :: l) = s +:+ sep +:+ join sep l.
Proof. by destruct l. Qed.

Lemma split_char_nonnil c s : split_char c s <> [].
Proof.
  destruct s as [|d s]; simpl; [done|]. destruct (Ascii.eqb c d); [done|].
  by destruct (split_char c s).
Qed.

(** Splitting on a character undoes joining with it. *)
Lemma split_char_app c s t :
  sexists (is_char c) s = false -> split_char c (s +:+ String c t) = s :: split_char c t.
Proof.
  induction s as [|d s IH]; simpl.
  - intros _. by rewrite Ascii.eqb_refl.
  - rewrite orb_false_iff. intros [Hd Hs].
    unfold is_char in Hd. by rewrite Hd, IH.
Qed.
Lemma split_char_none c s : sexists (is_char c) s = false -> split_char c s = [s].
Proof.
  induction s as [|d s IH]; simpl; [done|]. rewrite orb_false_iff. intros [Hd Hs].
  unfold is_char in Hd. by rewrite Hd, IH.
Qed.
Lemma split_join c l :
  l <> [] -> Forall (fun s => sexists (is_char c) s = false) l ->
  split_char c (join (String c "") l) = l.
Proof.
  induction l as [|s l IH]; intros Hne; [done|]. rewrite Forall_cons. intros [Hs Hl].
  destruct l as [|t l]; [by apply split_char_none|].
  rewrite join_cons by done. rewrite sapp_cons, sapp_nil_l, split_char_app by done.
  by rewrite IH.
Qed.

(** [s.splitlines()]: every Unicode line boundary below 256 ends a line, and a
    carriage return with a line feed ends one line. *)
Definition is_line_break (c : ascii) : bool := in_range 10 13 c || in_range 28 30 c || (ord c =? 133).
Fixpoint splitlines_go (cur : string) (s : string) : list string :=
  match s with
  | EmptyString => match cur with EmptyString => [] | _ => [cur] end
  | String c s' =>
      if is_line_break c
      then match s' with
           | String d s'' => if (ord c =? 13) && (ord d =? 10) then cur :: splitlines_go "" s''
                             else cur :: splitlines_go "" s'
           | EmptyString => [cur]
           end
      else splitlines_go (cur +:+ String c "") s'
  end.
Definition splitlines (s : string) : list string := splitlines_go "" s.
(** A text that [splitlines] does not cut. *)
Definition unbroken (s : string) : bool := negb (sexists is_line_break s).

Lemma splitlines_go_app cur s t : unbroken s = true ->
  splitlines_go cur (s +:+ String (chr 10) t) = (cur +:+ s) :: splitlines_go "" t.
Proof.
  unfold unbroken. rewrite negb_true_iff. revert cur; induction s as [|c s IH]; intros cur H.
  - rewrite sapp_nil_l, sapp_nil_r. cbn [splitlines_go]. change (is_line_break (chr 10)) with true. cbv iota.
    destruct t; [done|]. by change (ord (chr 10) =? 13) with false.
  - rewrite sapp_cons. cbn [sexists] in H. apply orb_false_iff in H as [Hc Hs].
    cbn [splitlines_go]. rewrite Hc, IH by done. by rewrite sapp_assoc.
Qed.
(** [splitlines] undoes joining lines with line feeds. *)
Lemma splitlines_join l : Forall (fun s => unbroken s = true) l ->
  splitlines (String.concat "" (map (fun s => s +:+ newline) l)) = l.
Proof.
  induction 1 as [|s l Hs Hl IH]; [done|]. destruct l as [|t l].
  - cbn. unfold splitlines, newline. by rewrite splitlines_go_app.
  - cbn [map String.concat]. cbn [map] in IH. rewrite sapp_nil_l. unfold splitlines, newline. rewrite sapp_assoc, sapp_cons, sapp_nil_l.
    rewrite splitlines_go_app by done. rewrite sapp_nil_l. f_equal. apply IH.
Qed.
Lemma splitlines_one s : unbroken s = true -> s <> "" -> splitlines s = [s].
Proof.
  unfold splitlines, unbroken. rewrite negb_true_iff. intros H Hn. rewrite <-(sapp_nil_l s) at 2.
  assert (forall s cur, sexists is_line_break s = false -> (cur +:+ s) <> "" -> splitlines_go cur s = [cur +:+ s]) as Hgo.
  { clear. induction s as [|c s IH]; intros cur; cbn.
    - intros _. rewrite sapp_nil_r. by destruct cur.
    - rewrite orb_false_iff. intros [-> Hs] Hn. rewrite IH; rewrite ?sapp_assoc; done. }
  apply Hgo; [done|]. by rewrite sapp_nil_l.
Qed.

(** ** Slices *)

Fixpoint stake (n : nat) (s : string) : string :=
  match n, s with
  | S n', String c s' => String c (stake n' s')
  | _, _ => ""
  end.
Fixpoint sdrop (n : nat) (s : string) : string :=
  match n, s with
  | S n', String _ s' => sdrop n' s'
  | _, _ => s
  end.
(** The position a Python slice bound denotes in a sequence of length [n]. *)
Definition slice_pos (n : nat) (k : Z) : nat :=
  if k <? 0 then Z.to_nat (Z.of_nat n + k) else Nat.min n (Z.to_nat k).
(** [s[:k]] and [s[k:]] *)
Definition slice_to (s : string) (k : Z) : string := stake (slice_pos (slen s) k) s.
Definition slice_from (s : string) (k : Z) : string := sdrop (slice_pos (slen s) k) s.

Lemma stake_len n s : slen (stake n s) = Nat.min n (slen s).
Proof. revert n; induction s as [|c s IH]; intros [|n]; simpl; auto. Qed.
Lemma sdrop_len n s : slen (sdrop n s) = (slen s - n)%nat.
Proof. revert n; induction s as [|c s IH]; intros [|n]; simpl; auto. Qed.
Lemma stake_sdrop n s : stake n s +:+ sdrop n s = s.
Proof.
  revert n; induction s as [|c s IH]; intros [|n]; simpl; try done.
  by rewrite sapp_cons, IH.
Qed.
Lemma slice_to_len s k : 0 <= k -> slen (slice_to s k) = Nat.min (slen s) (Z.to_nat k).
Proof.
  intros Hk. unfold slice_to, slice_pos. rewrite stake_len.
  destruct (Z.ltb_spec k 0); lia.
Qed.
Lemma slice_from_neg_len s k :
  0 < k -> slen (slice_from s (- k)) = Nat.min (slen s) (Z.to_nat k).
Proof.
  intros Hk. unfold slice_from, slice_pos. rewrite sdrop_len.
  destruct (Z.ltb_spec (- k) 0); lia.
Qed.

(** ** [str] of an integer, [repr] of a string *)

Definition digit_char (z : Z) : ascii := chr (48 + z).
Fixpoint digits_go (fuel : nat) (z : Z) (acc : string) : string :=
  match fuel with
  | O => acc
  | S f => let acc' := String (digit_char (z mod 10)) acc in
           if z / 10 =? 0 then acc' else digits_go f (z / 10) acc'
  end.
Definition nat_digits (z : Z) : string := digits_go (S (Z.to_nat (Z.log2 z))) z "".
Definition str_of_Z (z : Z) : string :=
  if z <? 0 then "-" +:+ nat_digits (- z) else nat_digits z.

(** Reading the digits back. *)
Fixpoint digits_value (acc : Z) (s : string) : Z :=
  match s with EmptyString => acc | String c s' => digits_value (10 * acc + (ord c - 48)) s' end.

Lemma digits_go_value f z acc :
  0 <= z < 2 ^ Z.of_nat f -> digits_value 0 (digits_go f z acc) = digits_value z acc.
Proof.
  revert z acc; induction f as [|f IH]; intros z acc Hz.
  { change (2 ^ Z.of_nat 0) with 1 in Hz. assert (z = 0) as -> by lia. done. }
  cbn [digits_go]. pose proof (Z.mod_pos_bound z 10 ltac:(lia)). pose proof (Z.div_mod z 10 ltac:(lia)) as Hdm.
  assert (forall a, digits_value a (String (digit_char (z mod 10)) acc) = digits_value (10 * a + z mod 10) acc) as Hd.
  { intros a. cbn [digits_value]. unfold digit_char. rewrite ord_chr by lia. f_equal. lia. }
  destruct (Z.eqb_spec (z / 10) 0) as [E|E].
  - rewrite Hd. f_equal. lia.
  - rewrite IH, Hd; [f_equal; lia|]. rewrite Nat2Z.inj_succ, Z.pow_succ_r in Hz by lia.
    pose proof (Z.div_pos z 10). lia.
Qed.

Lemma nat_digits_value z : 0 <= z -> digits_value 0 (nat_digits z) = z.
Proof.
  intros Hz. unfold nat_digits. rewrite digits_go_value; [done|]. split; [done|].
  rewrite Nat2Z.inj_succ, Z2Nat.id by apply Z.log2_nonneg.
  destruct (Z.eq_dec z 0) as [->|]; [done|]. apply Z.log2_spec. lia.
Qed.

(** [int(s)] on a string of decimal digits. *)
Definition py_int (s : string) : res Z :=
  if String.eqb s "" then Raise (ValueError "invalid literal for int() with base 10: ''")
  else if 4300 <? Z.of_nat (slen s)
  then Raise (ValueError ("Exceeds the limit (4300 digits) for integer string conversion: value has "
                          +:+ str_of_Z (Z.of_nat (slen s))
                          +:+ " digits; use sys.set_int_max_str_digits() to increase the limit"))
  else Ok (digits_value 0 s).

Lemma str_of_Z_inj a b : 0 <= a -> 0 <= b -> str_of_Z a = str_of_Z b -> a = b.
Proof.
  intros Ha Hb. unfold str_of_Z. rewrite (proj2 (Z.ltb_ge a 0) Ha), (proj2 (Z.ltb_ge b 0) Hb).
  intros E. rewrite <-(nat_digits_value a), <-(nat_digits_value b) by done. by rewrite E.
Qed.

Lemma digits_go_decimal f z acc : sall is_decimal acc = true -> 0 <= z -> sall is_decimal (digits_go f z acc) = true.
Proof.
  revert z acc; induction f as [|f IH]; intros z acc Ha Hz; [done|]. cbn [digits_go]. cbv zeta.
  pose proof (Z.mod_pos_bound z 10 ltac:(lia)).
  assert (sall is_decimal (String (digit_char (z mod 10)) acc) = true) as Hd.
  { cbn [sall]. rewrite Ha, andb_true_r. unfold is_decimal, in_range, digit_char. rewrite ord_chr by lia.
    apply andb_true_iff. rewrite !Z.leb_le. lia. }
  destruct (z / 10 =? 0); [done|]. apply IH; [done|]. apply Z.div_pos; lia.
Qed.
Lemma digits_go_nonempty f z acc : digits_go (S f) z acc <> "".
Proof.
  revert z acc; induction f as [|f IH]; intros z acc; cbn [digits_go]; cbv zeta; destruct (z / 10 =? 0); try done.
  apply IH.
Qed.
Lemma digits_go_len f z acc : (slen (digits_go f z acc) <= f + slen acc)%nat.
Proof.
  revert z acc; induction f as [|f IH]; intros z acc; cbn [digits_go]; [lia|]. cbv zeta.
  destruct (z / 10 =? 0); [cbn; lia|]. etransitivity; [apply IH|]. cbn. lia.
Qed.
Lemma str_of_Z_digits z : 0 <= z -> sall is_decimal (str_of_Z z) = true /\ str_of_Z z <> "".
Proof.
  intros Hz. unfold str_of_Z. rewrite (proj2 (Z.ltb_ge z 0)) by done. split.
  - by apply digits_go_decimal.
  - apply digits_go_nonempty.
Qed.
Lemma py_int_str z : 0 <= z < 2 ^ 64 -> py_int (str_of_Z z) = Ok z.
Proof.
  intros Hz. destruct (str_of_Z_digits z ltac:(lia)) as [_ Hn]. unfold py_int.
  rewrite (proj2 (String.eqb_neq _ _) Hn).
  assert (Z.of_nat (slen (str_of_Z z)) <= 65) as Hl.
  { unfold str_of_Z. rewrite (proj2 (Z.ltb_ge z 0)) by lia. unfold nat_digits.
    pose proof (digits_go_len (S (Z.to_nat (Z.log2 z))) z ""). cbn [slen] in H.
    assert (Z.log2 z < 64) by (destruct (Z.eq_dec z 0) as [->|]; [done|apply Z.log2_lt_pow2; lia]). lia. }
  rewrite (proj2 (Z.ltb_ge _ _)) by lia. unfold str_of_Z. rewrite (proj2 (Z.ltb_ge z 0)) by lia.
  by rewrite nat_digits_value by lia.
Qed.
(** The sign tells negative numbers from the others. *)
Lemma str_of_Z_injective a b : str_of_Z a = str_of_Z b -> a = b.
Proof.
  assert (forall x y, 0 <= x -> y < 0 -> str_of_Z x <> str_of_Z y) as Hmix.
  { intros x y Hx Hy E. destruct (str_of_Z_digits x Hx) as [Hd _]. rewrite E in Hd. unfold str_of_Z in Hd.
    by rewrite (proj2 (Z.ltb_lt y 0) Hy) in Hd. }
  intros E. destruct (Z_lt_le_dec a 0) as [Ha|Ha], (Z_lt_le_dec b 0) as [Hb|Hb].
  - unfold str_of_Z in E. rewrite (proj2 (Z.ltb_lt a 0) Ha), (proj2 (Z.ltb_lt b 0) Hb) in E. apply sapp_inj_l in E.
    apply (f_equal (digits_value 0)) in E. rewrite !nat_digits_value in E by lia. lia.
  - by destruct (Hmix b a).
  - by destruct (Hmix a b).
  - by apply str_of_Z_inj.
Qed.

Definition hex_char (z : Z) : ascii := if z <? 10 then chr (48 + z) else chr (87 + z).
Definition is_printable (c : ascii) : bool :=
  in_range 32 126 c || in_range 161 172 c || in_range 174 255 c.
Definition repr_char (q : ascii) (c : ascii) : string :=
  if Ascii.eqb c q || (ord c =? 92) then String (chr 92) (String c "")
  else if ord c =? 10 then "\n" else if ord c =? 13 then "\r" else if ord c =? 9 then "\t"
  else if is_printable c then String c ""
  else "\x" +:+ String (hex_char (ord c / 16)) (String (hex_char (ord c mod 16)) "").
Fixpoint repr_body (q : ascii) (s : string) : string :=
  match s with EmptyString => "" | String c s' => repr_char q c +:+ repr_body q s' end.
(** [repr(s)]: single quotes unless [s] has single quotes and no double one. *)
Definition repr (s : string) : string :=
  let q := if sexists (fun c => ord c =? 39) s && negb (sexists (fun c => ord c =? 34) s)
           then chr 34 else chr 39 in
  String q (repr_body q s +:+ String q "").

(** ** [sorted] on strings *)

Fixpoint insert_str (x : string) (l : list string) : list string :=
  match l with
  | [] => [x]
  | y :: l' => if String.leb x y then x :: l else y :: insert_str x l'
  end.
Fixpoint sort_str (l : list string) : list string :=
  match l with [] => [] | x :: l' => insert_str x (sort_str l') end.

Lemma insert_str_perm x l : insert_str x l ≡ₚ x :: l.
Proof.
  induction l as [|y l IH]; simpl; [done|]. destruct (String.leb x y); [done|].
  rewrite IH. constructor.
Qed.
Lemma sort_str_perm l : sort_str l ≡ₚ l.
Proof. induction l as [|x l IH]; simpl; [done|]. by rewrite insert_str_perm, IH. Qed.
Lemma insert_str_sorted x l :
  StronglySorted String.le l -> StronglySorted String.le (insert_str x l).
Proof.
  induction 1 as [|y l Hl IH Hy]; simpl; [repeat constructor|].
  destruct (String.leb x y) eqn:E.
  - assert (String.le x y) by (unfold String.le; by rewrite E).
    constructor; [by constructor|]. constructor; [done|].
    eapply Forall_impl; [exact Hy|]. intros z Hz. simpl in *. by etrans.
  - constructor; [done|]. rewrite insert_str_perm. constructor; [|done].
    destruct (total String.le x y) as [H|H]; [|done].
    unfold String.le in H. by rewrite E in H.
Qed.
Lemma sort_str_sorted l : StronglySorted String.le (sort_str l).
Proof. induction l; simpl; [constructor|by apply insert_str_sorted]. Qed.
#[export] Hint Resolve sort_str_sorted sort_str_perm : py.

(** ** [base64] and the decoding of UTF-8

    The standard and the URL-safe alphabet, the encoder and the lenient decoder
    of [binascii] (characters outside the alphabet are skipped, padding ends the
    input), with their round trips. *)

(** *** Alphabet *)

Definition b64_char (v : Z) : ascii :=
  if v <? 26 then chr (65 + v) else if v <? 52 then chr (71 + v) else if v <? 62 then chr (v - 4)
  else if v =? 62 then "+"%char else "/"%char.
Definition b64_value (c : ascii) : option Z :=
  if in_range 65 90 c then Some (ord c - 65) else if in_range 97 122 c then Some (ord c - 71)
  else if in_range 48 57 c then Some (ord c + 4)
  else if is_char "+"%char c then Some 62 else if is_char "/"%char c then Some 63 else None.
Definition pad_char : ascii := "="%char.

(** *** [b64encode] *)

Fixpoint b64encode (s : string) : string :=
  match s with
  | EmptyString => ""
  | String a EmptyString =>
      String (b64_char (ord a / 4)) (String (b64_char (ord a mod 4 * 16)) "==")
  | String a (String b EmptyString) =>
      String (b64_char (ord a / 4)) (String (b64_char (ord a mod 4 * 16 + ord b / 16))
        (String (b64_char (ord b mod 16 * 4)) "="))
  | String a (String b (String c s)) =>
      String (b64_char (ord a / 4)) (String (b64_char (ord a mod 4 * 16 + ord b / 16))
        (String (b64_char (ord b mod 16 * 4 + ord c / 64)) (String (b64_char (ord c mod 64)) (b64encode s))))
  end.

(** *** [b64decode]

    [quad] counts the characters of the current group, [rest] holds the bits of
    them that are not written yet, [pads] the padding seen since the last
    character. *)

Definition binascii_error (msg : string) : exn := ValueError msg.
Fixpoint a2b_base64 (quad pads rest : Z) (s : string) : res string :=
  match s with
  | EmptyString =>
      if quad =? 0 then Ok ""
      else if quad =? 1 then Raise (binascii_error "Invalid base64-encoded string")
      else Raise (binascii_error "Incorrect padding")
  | String c s =>
      if is_char pad_char c then
        if 2 <=? quad then if 4 <=? quad + (pads + 1) then Ok "" else a2b_base64 quad (pads + 1) rest s
        else a2b_base64 quad pads rest s
      else match b64_value c with
           | None => a2b_base64 quad pads rest s
           | Some v =>
               if quad =? 0 then a2b_base64 1 0 v s
               else if quad =? 1 then t <-! a2b_base64 2 0 (v mod 16) s ;; Ok (String (chr (rest * 4 + v / 16)) t)
               else if quad =? 2 then t <-! a2b_base64 3 0 (v mod 4) s ;; Ok (String (chr (rest * 16 + v / 4)) t)
               else t <-! a2b_base64 0 0 0 s ;; Ok (String (chr (rest * 64 + v)) t)
           end
  end.

(** A [str] is decoded from its ASCII bytes; the URL-safe alphabet has [-] and
    [_] for [+] and [/]. *)
Definition is_ascii (c : ascii) : bool := ord c <? 128.
Definition b64decode (s : string) : res string :=
  if sall is_ascii s then a2b_base64 0 0 0 s else Raise (ValueError "string argument should contain only ASCII characters").

Definition to_urlsafe (c : ascii) : ascii :=
  if is_char "+"%char c then "-"%char else if is_char "/"%char c then "_"%char else c.
Definition of_urlsafe (c : ascii) : ascii :=
  if is_char "-"%char c then "+"%char else if is_char "_"%char c then "/"%char else c.
Definition urlsafe_b64encode (s : string) : string := smap to_urlsafe (b64encode s).
(** The decoder of bytes: those above 127 are outside the alphabet, and skipped. *)
Definition urlsafe_b64decode_bytes (s : string) : res string := a2b_base64 0 0 0 (smap of_urlsafe s).

(** *** [bytes.decode()]

    UTF-8, as far as a string of code points below 256 can hold the result; text
    with other characters is reported as an error, which is what becomes of it
    in [int]. *)

Definition unicode_error : exn := ValueError "'utf-8' codec can't decode".
Fixpoint utf8_decode (s : string) : res string :=
  match s with
  | EmptyString => Ok ""
  | String c s =>
      if is_ascii c then t <-! utf8_decode s ;; Ok (String c t)
      else match s with
           | String d s => if in_range 194 195 c && in_range 128 191 d
                           then t <-! utf8_decode s ;; Ok (String (chr ((ord c - 192) * 64 + (ord d - 128))) t)
                           else Raise unicode_error
           | EmptyString => Raise unicode_error
           end
  end.

(** *** Round trips *)

Lemma b64_value_char v : 0 <= v < 64 ->
  b64_value (b64_char v) = Some v /\ is_char pad_char (b64_char v) = false /\ is_ascii (b64_char v) = true /\
  of_urlsafe (to_urlsafe (b64_char v)) = b64_char v /\
  (is_alnum (b64_char v) || is_char "+"%char (b64_char v) || is_char "/"%char (b64_char v)) = true.
Proof.
  intros Hv. assert (v ∈ seqZ 0 64) as Hin by (apply elem_of_seqZ; lia).
  assert (forallb (fun v => bool_decide (b64_value (b64_char v) = Some v /\ is_char pad_char (b64_char v) = false /\
    is_ascii (b64_char v) = true /\ of_urlsafe (to_urlsafe (b64_char v)) = b64_char v /\
    (is_alnum (b64_char v) || is_char "+"%char (b64_char v) || is_char "/"%char (b64_char v)) = true)) (seqZ 0 64) = true) as Hall
    by (by vm_compute).
  rewrite forallb_forall in Hall. apply list_elem_of_In in Hin. specialize (Hall v Hin). by apply bool_decide_eq_true in Hall.
Qed.

(** The four values of three bytes, and the bytes of the values. *)
Lemma split_bytes a b c : 0 <= a < 256 -> 0 <= b < 256 -> 0 <= c < 256 ->
  (0 <= a / 4 < 64 /\ 0 <= a mod 4 * 16 < 64 /\ 0 <= a mod 4 * 16 + b / 16 < 64 /\ 0 <= b mod 16 * 4 < 64 /\
   0 <= b mod 16 * 4 + c / 64 < 64 /\ 0 <= c mod 64 < 64) /\
  a / 4 * 4 + (a mod 4 * 16) / 16 = a /\ a / 4 * 4 + (a mod 4 * 16 + b / 16) / 16 = a /\
  ((a mod 4 * 16 + b / 16) mod 16) * 16 + (b mod 16 * 4) / 4 = b /\
  ((a mod 4 * 16 + b / 16) mod 16) * 16 + (b mod 16 * 4 + c / 64) / 4 = b /\
  ((b mod 16 * 4 + c / 64) mod 4) * 64 + c mod 64 = c.
Proof. intros Ha Hb Hc. repeat split; Z.to_euclidean_division_equations; lia. Qed.

(** Decoding a whole group, and the group before the padding. *)
Lemma a2b_char q p r v s : 0 <= v < 64 -> a2b_base64 q p r (String (b64_char v) s) =
  if q =? 0 then a2b_base64 1 0 v s
  else if q =? 1 then t <-! a2b_base64 2 0 (v mod 16) s ;; Ok (String (chr (r * 4 + v / 16)) t)
  else if q =? 2 then t <-! a2b_base64 3 0 (v mod 4) s ;; Ok (String (chr (r * 16 + v / 4)) t)
  else t <-! a2b_base64 0 0 0 s ;; Ok (String (chr (r * 64 + v)) t).
Proof. intros Hv. destruct (b64_value_char v Hv) as (E1 & E2 & _). cbn [a2b_base64]. by rewrite E1, E2. Qed.
Lemma a2b_pads q p r n : q = 0 -> a2b_base64 q p r (Nat.iter n (String pad_char) "") = Ok "".
Proof. intros ->. by induction n. Qed.

(** Induction by groups of three bytes. *)
Lemma group_ind (P : string -> Prop) : P "" -> (forall a, P (String a "")) -> (forall a b, P (String a (String b ""))) ->
  (forall a b c s, P s -> P (String a (String b (String c s)))) -> forall s, P s.
Proof.
  intros H0 H1 H2 H3. fix IH 1. intros [|a [|b [|c s]]]; [apply H0|apply H1|apply H2|]. apply H3, IH.
Qed.

(** What is left of an encoding without its padding. *)
Definition unpadded (s : string) : string := rstrip_by (is_char pad_char) s.
Lemma unpadded_char v s : 0 <= v < 64 -> unpadded (String (b64_char v) s) = String (b64_char v) (unpadded s).
Proof.
  intros Hv. destruct (b64_value_char v Hv) as (_ & E & _). unfold unpadded. cbn [rstrip_by]. rewrite E.
  by destruct (rstrip_by _ s).
Qed.

(** A whole group is read as its three bytes; a group of one or two bytes is
    read whatever padding follows, if it is enough. *)
Lemma a2b_group a b c s :
  a2b_base64 0 0 0 (String (b64_char (ord a / 4)) (String (b64_char (ord a mod 4 * 16 + ord b / 16))
    (String (b64_char (ord b mod 16 * 4 + ord c / 64)) (String (b64_char (ord c mod 64)) s)))) =
  t <-! a2b_base64 0 0 0 s ;; Ok (String a (String b (String c t))).
Proof.
  destruct (split_bytes (ord a) (ord b) (ord c)) as ((?&?&?&?&?&?)&?&Ea&?&Eb&Ec); [apply ord_range..|].
  rewrite a2b_char by done. cbn [Z.eqb]. rewrite a2b_char by done. cbn [Z.eqb]. rewrite a2b_char by done.
  change (2 =? 0) with false. change (2 =? 1) with false. change (2 =? 2) with true. cbv iota.
  rewrite a2b_char by done. change (3 =? 0) with false. change (3 =? 1) with false. change (3 =? 2) with false. cbv iota.
  rewrite Ea, Eb, Ec, !chr_ord. by destruct (a2b_base64 0 0 0 s).
Qed.
Lemma a2b_one a n : (2 <= n)%nat ->
  a2b_base64 0 0 0 (String (b64_char (ord a / 4)) (String (b64_char (ord a mod 4 * 16)) (Nat.iter n (String pad_char) ""))) = Ok (String a "").
Proof.
  intros Hn. destruct (split_bytes (ord a) 0 0) as ((?&?&?&?&?&?)&Ea&_); [apply ord_range|lia..|].
  rewrite a2b_char by done. cbn [Z.eqb]. rewrite a2b_char by done. cbn [Z.eqb].
  rewrite Ea, chr_ord. destruct n as [|[|n]]; [lia..|]. done.
Qed.
Lemma a2b_two a b n : (1 <= n)%nat ->
  a2b_base64 0 0 0 (String (b64_char (ord a / 4)) (String (b64_char (ord a mod 4 * 16 + ord b / 16))
    (String (b64_char (ord b mod 16 * 4)) (Nat.iter n (String pad_char) "")))) = Ok (String a (String b "")).
Proof.
  intros Hn. destruct (split_bytes (ord a) (ord b) 0) as ((?&?&?&?&?&?)&_&Ea&Eb&_); [apply ord_range..|lia|].
  rewrite a2b_char by done. cbn [Z.eqb]. rewrite a2b_char by done. cbn [Z.eqb]. rewrite a2b_char by done.
  change (2 =? 0) with false. change (2 =? 1) with false. change (2 =? 2) with true. cbv iota.
  rewrite Ea, Eb, !chr_ord. destruct n as [|n]; [lia|]. done.
Qed.

Lemma b64_round_trip s : a2b_base64 0 0 0 (b64encode s) = Ok s.
Proof.
  induction s as [|a|a b|a b c s IH] using group_ind; cbn [b64encode]; [done|by apply (a2b_one a 2)|by apply (a2b_two a b 1)|].
  by rewrite a2b_group, IH.
Qed.

(** Stripping the padding and adding up to four pads again is harmless. *)
Definition repad (s : string) : string := s +:+ Nat.iter (4 - slen s mod 4) (String pad_char) "".
Lemma b64_unpadded_round_trip s : a2b_base64 0 0 0 (repad (unpadded (b64encode s))) = Ok s.
Proof.
  unfold repad. induction s as [|a|a b|a b c s IH] using group_ind; cbn [b64encode].
  - done.
  - destruct (split_bytes (ord a) 0 0) as ((?&?&?&?&?&?)&Ea&_); [apply ord_range|lia..|].
    rewrite !unpadded_char by done. by apply (a2b_one a 2).
  - destruct (split_bytes (ord a) (ord b) 0) as ((?&?&?&?&?&?)&_&Ea&Eb&_); [apply ord_range..|lia|].
    rewrite !unpadded_char by done. by apply (a2b_two a b 1).
  - destruct (split_bytes (ord a) (ord b) (ord c)) as ((?&?&?&?&?&?)&_); [apply ord_range..|].
    rewrite !unpadded_char by done. rewrite !sapp_cons, a2b_group.
    change (slen (String _ (String _ (String _ (String _ (unpadded (b64encode s))))))) with (4 + slen (unpadded (b64encode s)))%nat.
    rewrite (Nat.Div0.add_mod 4), Nat.Div0.mod_same, Nat.add_0_l, Nat.Div0.mod_mod. by rewrite IH.
Qed.

(** The characters of an encoding. *)
Definition in_alphabet (c : ascii) : bool :=
  is_char pad_char c || (is_ascii c && (is_alnum c || is_char "+"%char c || is_char "/"%char c)
                         && Ascii.eqb (of_urlsafe (to_urlsafe c)) c).
Lemma b64_char_alphabet v : 0 <= v < 64 -> in_alphabet (b64_char v) = true.
Proof.
  intros Hv. destruct (b64_value_char v Hv) as (_ & _ & E1 & E2 & E3). unfold in_alphabet. rewrite E1, E3, E2, Ascii.eqb_refl.
  by rewrite orb_true_r.
Qed.
Lemma b64_alphabet s : sall in_alphabet (b64encode s) = true.
Proof.
  induction s as [|a|a b|a b c s IH] using group_ind; cbn [b64encode]; [done|..].
  - destruct (split_bytes (ord a) 0 0) as ((?&?&?&?&?&?)&_); [apply ord_range|lia..|].
    cbn [sall]. by rewrite !b64_char_alphabet.
  - destruct (split_bytes (ord a) (ord b) 0) as ((?&?&?&?&?&?)&_); [apply ord_range..|lia|].
    cbn [sall]. by rewrite !b64_char_alphabet.
  - destruct (split_bytes (ord a) (ord b) (ord c)) as ((?&?&?&?&?&?)&_); [apply ord_range..|].
    cbn [sall]. by rewrite !b64_char_alphabet, IH.
Qed.

(** The URL-safe alphabet is a renaming. *)
Lemma smap_app f s t : smap f (s +:+ t) = smap f s +:+ smap f t.
Proof. induction s as [|c s IH]; [done|]. rewrite sapp_cons. cbn [smap]. by rewrite IH, sapp_cons. Qed.
Lemma smap_id f s : sall (fun c => Ascii.eqb (f c) c) s = true -> smap f s = s.
Proof. induction s as [|c s IH]; cbn [sall smap]; [done|]. intros [Hc%Ascii.eqb_eq Hs]%andb_true_iff. by rewrite Hc, IH. Qed.
Lemma smap_smap f g s : smap f (smap g s) = smap (fun c => f (g c)) s.
Proof. induction s as [|c s IH]; cbn [smap]; [done|]. by rewrite IH. Qed.
Lemma slen_smap f s : slen (smap f s) = slen s.
Proof. induction s as [|c s IH]; cbn; [done|]. by rewrite IH. Qed.
Lemma to_urlsafe_pad c : is_char pad_char (to_urlsafe c) = is_char pad_char c.
Proof. destruct c as [[][][][][][][][]]; by vm_compute. Qed.
Lemma unpadded_smap s : unpadded (smap to_urlsafe s) = smap to_urlsafe (unpadded s).
Proof.
  unfold unpadded. induction s as [|c s IH]; [done|]. cbn [smap rstrip_by]. rewrite IH, to_urlsafe_pad.
  destruct (rstrip_by (is_char pad_char) s); cbn [smap]; [by destruct (is_char pad_char c)|done].
Qed.
Lemma smap_pads f n : f pad_char = pad_char -> smap f (Nat.iter n (String pad_char) "") = Nat.iter n (String pad_char) "".
Proof. intros Hf. induction n as [|n IH]; [done|]. cbn [Nat.iter nat_rect smap]. unfold Nat.iter in IH. by rewrite Hf, IH. Qed.
Lemma unpadded_sall p s : sall p s = true -> sall p (unpadded s) = true.
Proof.
  intros Hs. destruct (rstrip_by_decomp (is_char pad_char) s) as (t & E & _). unfold unpadded.
  rewrite E, sall_app in Hs. by apply andb_true_iff in Hs as [? _].
Qed.
Lemma alphabet_renamed s : sall in_alphabet s = true -> smap of_urlsafe (smap to_urlsafe s) = s.
Proof.
  intros Hs. rewrite smap_smap. apply smap_id. revert Hs. apply sall_impl. intros c. unfold in_alphabet.
  rewrite orb_true_iff, !andb_true_iff. intros [Hc|[_ ?]]; [|done]. apply Ascii.eqb_eq in Hc. by subst c.
Qed.

Lemma urlsafe_round_trip s : urlsafe_b64decode_bytes (repad (unpadded (urlsafe_b64encode s))) = Ok s.
Proof.
  unfold urlsafe_b64decode_bytes, urlsafe_b64encode, repad. rewrite unpadded_smap, smap_app, slen_smap, smap_pads by done.
  rewrite alphabet_renamed by apply unpadded_sall, b64_alphabet. apply b64_unpadded_round_trip.
Qed.
Lemma b64decode_round_trip s : b64decode (b64encode s) = Ok s.
Proof.
  unfold b64decode. rewrite (sall_impl in_alphabet is_ascii); [apply b64_round_trip| |apply b64_alphabet].
  intros c. unfold in_alphabet. rewrite orb_true_iff, !andb_true_iff. intros [Hc|[[? _] _]]; [|done].
  apply Ascii.eqb_eq in Hc. by subst c.
Qed.
Lemma utf8_ascii s : sall is_ascii s = true -> utf8_decode s = Ok s.
Proof.
  induction s as [|c s IH]; cbn [sall utf8_decode]; [done|]. intros [-> Hs]%andb_true_iff. by rewrite (IH Hs).
Qed.

(** Letters, digits, [-] and [_] stand for themselves in a URL. *)
Definition url_unreserved (c : ascii) : bool := is_ascii c && (is_alnum c || is_char "-"%char c || is_char "_"%char c).
Lemma unpadded_no_pad s : sall in_alphabet s = true -> (forall u v, unpadded s = u +:+ String pad_char v -> False) ->
  sall url_unreserved (smap to_urlsafe (unpadded s)) = true.
Proof.
  intros Hs Hp. apply (unpadded_sall in_alphabet) in Hs. revert Hs Hp. generalize (unpadded s) as t. induction t as [|c t IH]; [done|].
  cbn [sall smap]. intros [Hc Ht]%andb_true_iff Hp. rewrite IH; [|done|intros u v ->; by apply (Hp (String c u) v)].
  rewrite andb_true_r. unfold in_alphabet in Hc. rewrite orb_true_iff, !andb_true_iff in Hc. destruct Hc as [Hc|[[Ha Hc] _]].
  - apply Ascii.eqb_eq in Hc. subst c. by destruct (Hp "" t).
  - revert Ha Hc. unfold url_unreserved. destruct c as [[][][][][][][][]]; vm_compute; congruence.
Qed.
Lemma encoding_unpadded s : exists t, unpadded (b64encode s) = t /\ sall (fun c => negb (is_char pad_char c)) t = true.
Proof.
  eexists. split; [done|].
  assert (forall v t, 0 <= v < 64 -> sall (fun c => negb (is_char pad_char c)) (String (b64_char v) t) =
    sall (fun c => negb (is_char pad_char c)) t) as Hv.
  { intros v t Hv. cbn [sall]. destruct (b64_value_char v Hv) as (_ & -> & _). done. }
  induction s as [|a|a b|a b c s IH] using group_ind; cbn [b64encode]; [done|..].
  - destruct (split_bytes (ord a) 0 0) as ((?&?&?&?&?&?)&_); [apply ord_range|lia..|]. rewrite !unpadded_char, !Hv by done. done.
  - destruct (split_bytes (ord a) (ord b) 0) as ((?&?&?&?&?&?)&_); [apply ord_range..|lia|]. rewrite !unpadded_char, !Hv by done. done.
  - destruct (split_bytes (ord a) (ord b) (ord c)) as ((?&?&?&?&?&?)&_); [apply ord_range..|]. by rewrite !unpadded_char, !Hv by done.
Qed.
Lemma urlsafe_unreserved s : sall url_unreserved (unpadded (urlsafe_b64encode s)) = true.
Proof.
  unfold urlsafe_b64encode. rewrite unpadded_smap. apply unpadded_no_pad; [apply b64_alphabet|].
  destruct (encoding_unpadded s) as (t & -> & Ht). intros u v ->. rewrite sall_app in Ht. cbn in Ht. by rewrite andb_false_r in Ht.
Qed.
