(* ===== verification/PyDict.v ===== *)
(** * Python dictionaries

    A [dict] keeps its insertion order: assigning to an existing key keeps the
    key's place, assigning to a new one appends it, deleting and assigning
    again moves it to the end.  [dict K V] is the list of items in that order;
    [dwf] says the keys are distinct, and every operation preserves it.
    [dmap] forgets the order: each operation is the corresponding operation of
    a finite map (the refinement lemmas [dmap_*]). *)

From S2P Require Import Prelude.

Notation dict K V := (list (K * V)) (only parsing).

Section dict.
Context {K V : Type} `{EqDecision K}.

Implicit Types (d : dict K V) (k : K) (v : V).

Definition dkeys d : list K := d.*1.
Definition dvals d : list V := d.*2.

(** [d.get(k)] *)
Fixpoint dget d k : option V :=
  match d with
  | [] => None
  | (k', v) :: d' => if decide (k = k') then Some v else dget d' k
  end.
(** [k in d] *)
Definition dmem d k : bool := match dget d k with Some _ => true | None => false end.
(** [d[k] = v] *)
Fixpoint dset d k v : dict K V :=
  match d with
  | [] => [(k, v)]
  | (k', v') :: d' => if decide (k = k') then (k', v) :: d' else (k', v') :: dset d' k v
  end.
(** [d.pop(k, None)] *)
Definition ddel d k : dict K V := filter (fun kv => kv.1 <> k) d.
(** In-place update of the object stored at [k]. *)
Definition dalter (f : V -> V) d k : dict K V :=
  match dget d k with Some v => dset d k (f v) | None => d end.
(** [d.update(e)] *)
Definition dupdate d (e : dict K V) : dict K V := fold_left (fun d kv => dset d kv.1 kv.2) e d.

Definition dwf d : Prop := NoDup (dkeys d).

Lemma dget_elem d k v : dget d k = Some v -> (k, v) ∈ d.
Proof.
  induction d as [|[k' v'] d IH]; simpl; [done|]. rewrite elem_of_cons. case_decide; naive_solver.
Qed.
Lemma dget_None d k : dget d k = None <-> k ∉ dkeys d.
Proof.
  induction d as [|[k' v'] d IH]; simpl; [split; [intros _ H; inversion H|done]|].
  rewrite elem_of_cons. case_decide; naive_solver.
Qed.
Lemma dget_is_Some d k : is_Some (dget d k) <-> k ∈ dkeys d.
Proof.
  destruct (dget d k) as [v|] eqn:E.
  - split; [intros _|by eauto]. apply list_elem_of_fmap. exists (k, v). split; [done|].
    by apply dget_elem.
  - apply dget_None in E. split; [by intros []|done].
Qed.
Lemma dmem_spec d k : dmem d k = true <-> k ∈ dkeys d.
Proof.
  unfold dmem. rewrite <-dget_is_Some. destruct (dget d k); split; try done; by intros [].
Qed.
Lemma elem_of_dget d k v : dwf d -> (k, v) ∈ d -> dget d k = Some v.
Proof.
  unfold dwf. induction d as [|[k' v'] d IH]; simpl; [intros _ H; inversion H|].
  rewrite NoDup_cons, elem_of_cons. intros [Hk Hd] [E|E].
  - simplify_eq. by case_decide.
  - case_decide; [|auto]. subst. exfalso. apply Hk. apply list_elem_of_fmap. by exists (k', v).
Qed.

Lemma dget_dset_eq d k v : dget (dset d k v) k = Some v.
Proof. induction d as [|[k' v'] d IH]; simpl; repeat (case_decide; simpl); congruence. Qed.
Lemma dget_dset_ne d k k' v : k <> k' -> dget (dset d k v) k' = dget d k'.
Proof.
  intros Hne. induction d as [|[k'' v''] d IH]; simpl; repeat (case_decide; simpl); congruence.
Qed.
Lemma dget_dset d k k' v : dget (dset d k v) k' = if decide (k = k') then Some v else dget d k'.
Proof. case_decide; [subst; apply dget_dset_eq|by apply dget_dset_ne]. Qed.
Lemma dget_ddel d k k' : dget (ddel d k) k' = if decide (k = k') then None else dget d k'.
Proof.
  unfold ddel. induction d as [|[k'' v''] d IH]; [by case_decide|].
  rewrite filter_cons. simpl. repeat (case_decide; simpl); rewrite ?IH; repeat case_decide; naive_solver.
Qed.
Lemma dget_ddel_eq d k : dget (ddel d k) k = None.
Proof. rewrite dget_ddel. by case_decide. Qed.
Lemma dget_ddel_ne d k k' : k <> k' -> dget (ddel d k) k' = dget d k'.
Proof. intros H. rewrite dget_ddel. by case_decide. Qed.
Lemma dget_dalter f d k k' :
  dget (dalter f d k) k' = if decide (k = k') then f <$> dget d k else dget d k'.
Proof.
  unfold dalter. destruct (dget d k) as [v|] eqn:E.
  - rewrite dget_dset. by case_decide.
  - case_decide; [by subst|done].
Qed.

Lemma dget_dupdate (e : dict K V) : forall d k, dwf e ->
  dget (dupdate d e) k = match dget e k with Some v => Some v | None => dget d k end.
Proof.
  unfold dupdate. induction e as [|[k' v] e IH]; intros d k Hw; [done|]. apply NoDup_cons in Hw as [Hk Hw]. cbn [fold_left fst snd].
  rewrite IH by done. cbn [dget]. destruct (dget e k) as [v'|] eqn:E.
  - case_decide; [|done]. subst. exfalso. apply Hk. apply dget_is_Some. by exists v'.
  - rewrite dget_dset. repeat case_decide; congruence.
Qed.

Lemma dkeys_dset d k v :
  dkeys (dset d k v) = if decide (k ∈ dkeys d) then dkeys d else dkeys d ++ [k].
Proof.
  induction d as [|[k' v'] d IH]; simpl.
  - done.
  - destruct (decide (k = k')) as [->|Hne]; simpl.
    + rewrite decide_True; [done|apply elem_of_cons; by left].
    + rewrite IH. repeat case_decide; rewrite ?elem_of_cons in *; naive_solver.
Qed.
Lemma dkeys_ddel d k : dkeys (ddel d k) = filter (fun k' => k' <> k) (dkeys d).
Proof.
  unfold ddel. induction d as [|[k' v'] d IH]; simpl; [done|].
  rewrite !filter_cons. simpl. case_decide; simpl; congruence.
Qed.
Lemma elem_of_dkeys_dset d k v k' : k' ∈ dkeys (dset d k v) <-> k' = k \/ k' ∈ dkeys d.
Proof.
  rewrite dkeys_dset. case_decide; [naive_solver|].
  rewrite elem_of_app, list_elem_of_singleton. naive_solver.
Qed.
Lemma dkeys_dalter f d k : dkeys (dalter f d k) = dkeys d.
Proof.
  unfold dalter. destruct (dget d k) eqn:E; [|done].
  rewrite dkeys_dset, decide_True; [done|]. apply dget_is_Some. by eauto.
Qed.

Lemma dwf_nil : dwf []. Proof. constructor. Qed.
Lemma dwf_dset d k v : dwf d -> dwf (dset d k v).
Proof.
  unfold dwf. rewrite dkeys_dset. case_decide; [done|]. intros.
  apply NoDup_app. split_and!; [done| |apply NoDup_singleton].
  intros x Hx ->%list_elem_of_singleton. done.
Qed.
Lemma dwf_ddel d k : dwf d -> dwf (ddel d k).
Proof. unfold dwf. rewrite dkeys_ddel. apply NoDup_filter. Qed.
Lemma dwf_dalter f d k : dwf d -> dwf (dalter f d k).
Proof. unfold dwf. by rewrite dkeys_dalter. Qed.

Lemma dset_app d k v : k ∉ dkeys d -> dset d k v = d ++ [(k, v)].
Proof.
  induction d as [|[k' v'] d IH]; simpl; [done|]. rewrite elem_of_cons. intros Hk.
  rewrite decide_False by naive_solver. rewrite IH; naive_solver.
Qed.
Lemma dset_length_le d k v : (length (dset d k v) <= S (length d))%nat.
Proof. induction d as [|[k' v'] d IH]; simpl; [done|]. case_decide; simpl; lia. Qed.

(** A property of all the items survives a store and a removal. *)
Lemma Forall_dset (P : K * V -> Prop) d k v : Forall P d -> P (k, v) -> Forall P (dset d k v).
Proof.
  intros Hd Hk. induction Hd as [|[k' v'] d Hx Hd IH]; cbn [dset]; [by constructor|].
  case_decide; [subst|]; constructor; done.
Qed.
Lemma Forall_ddel (P : K * V -> Prop) d k : Forall P d -> Forall P (ddel d k).
Proof. rewrite !Forall_forall. intros H x [_ Hx]%list_elem_of_filter. by apply H. Qed.

(** *** Refinement of finite maps *)
Context `{Countable K}.

Definition dmap d : gmap K V := list_to_map d.

Lemma dmap_lookup d k : dmap d !! k = dget d k.
Proof.
  unfold dmap. induction d as [|[k' v'] d IH]; simpl; [apply lookup_empty|].
  rewrite lookup_insert. repeat case_decide; congruence.
Qed.
Lemma dmap_nil : dmap [] = ∅. Proof. done. Qed.
Lemma dmap_dset d k v : dmap (dset d k v) = <[k := v]> (dmap d).
Proof.
  apply map_eq. intros k'. rewrite lookup_insert, !dmap_lookup, dget_dset. repeat case_decide; congruence.
Qed.
Lemma dmap_ddel d k : dmap (ddel d k) = delete k (dmap d).
Proof.
  apply map_eq. intros k'. rewrite lookup_delete, !dmap_lookup, dget_ddel. repeat case_decide; congruence.
Qed.
Lemma dmap_dalter f d k : dmap (dalter f d k) = alter f k (dmap d).
Proof.
  apply map_eq. intros k'. rewrite lookup_alter, !dmap_lookup, dget_dalter.
  repeat case_decide; congruence.
Qed.
End dict.


#[export] Hint Resolve dwf_nil dwf_dset dwf_ddel dwf_dalter : py.
Create HintDb pydict.
#[export] Hint Rewrite @dget_dset_eq @dget_dset @dget_ddel @dget_dalter @dkeys_dalter
  @dmap_dset @dmap_ddel @dmap_dalter @dmap_lookup : pydict.
