(* ===== verification/PyList.v ===== *)
(** * Python lists

    Slices with their clamped and negative bounds, [list.insert], indexing and
    [list.sort] by a comparison. *)

From S2P Require Import Prelude PyStr.

(** [l[start:stop]], [l[:stop]], [l[start:]], [l.insert(i, x)] and [l[i]] *)
Definition slice_list {A} (l : list A) (start stop : Z) : list A :=
  let i := slice_pos (length l) start in drop i (take (slice_pos (length l) stop) l).
Definition list_to {A} (l : list A) (stop : Z) : list A := take (slice_pos (length l) stop) l.
Definition list_from {A} (l : list A) (start : Z) : list A := drop (slice_pos (length l) start) l.
Definition py_insert {A} (l : list A) (i : Z) (x : A) : list A :=
  let i := slice_pos (length l) i in take i l ++ x :: drop i l.
Definition py_nth {A} (l : list A) (i : Z) : res A :=
  let i := if i <? 0 then i + Z.of_nat (length l) else i in
  if i <? 0 then Raise (OtherError "IndexError" "list index out of range")
  else match l !! Z.to_nat i with
       | Some x => Ok x
       | None => Raise (OtherError "IndexError" "list index out of range")
       end.

Lemma slice_pos_nonneg n k : 0 <= k -> slice_pos n k = Nat.min n (Z.to_nat k).
Proof. intros H. unfold slice_pos. destruct (Z.ltb_spec k 0); lia. Qed.
Lemma slice_pos_neg n k : 0 < k -> slice_pos n (- k) = (n - Z.to_nat k)%nat.
Proof. intros H. unfold slice_pos. destruct (Z.ltb_spec (- k) 0); lia. Qed.

Lemma list_to_nonneg {A} (l : list A) k : 0 <= k -> list_to l k = take (Z.to_nat k) l.
Proof.
  intros H. unfold list_to. rewrite slice_pos_nonneg by done. destruct (Nat.le_ge_cases (length l) (Z.to_nat k)).
  - by rewrite Nat.min_l, firstn_all, take_ge by lia.
  - by rewrite Nat.min_r.
Qed.
Lemma list_from_nonneg {A} (l : list A) k : 0 <= k -> list_from l k = drop (Z.to_nat k) l.
Proof.
  intros H. unfold list_from. rewrite slice_pos_nonneg by done. destruct (Nat.le_ge_cases (length l) (Z.to_nat k)).
  - by rewrite Nat.min_l, skipn_all, drop_ge by lia.
  - by rewrite Nat.min_r.
Qed.
(** [l[-k:]] is the whole list when [k] is 0. *)
Lemma list_from_neg {A} (l : list A) k : 0 < k -> list_from l (- k) = drop (length l - Z.to_nat k) l.
Proof. intros H. unfold list_from. by rewrite slice_pos_neg. Qed.
Lemma list_from_0 {A} (l : list A) : list_from l (- 0) = l.
Proof. unfold list_from. rewrite slice_pos_nonneg by lia. by rewrite Nat.min_0_r. Qed.
Lemma slice_list_neg {A} (l : list A) i k :
  0 <= i -> 0 < k -> slice_list l i (- k) = drop (Z.to_nat i) (take (length l - Z.to_nat k) l).
Proof.
  intros Hi Hk. unfold slice_list. rewrite slice_pos_nonneg, slice_pos_neg by done.
  destruct (Nat.le_ge_cases (length l) (Z.to_nat i)).
  - rewrite Nat.min_l, !drop_ge; rewrite ?length_take; done || lia.
  - by rewrite Nat.min_r.
Qed.
Lemma py_insert_nonneg {A} (l : list A) i x :
  0 <= i -> py_insert l i x = take (Z.to_nat i) l ++ x :: drop (Z.to_nat i) l.
Proof. intros H. unfold py_insert. fold (list_to l i) (list_from l i). by rewrite list_to_nonneg, list_from_nonneg. Qed.
Lemma py_insert_length {A} (l : list A) i x : length (py_insert l i x) = S (length l).
Proof. unfold py_insert. rewrite length_app. cbn. rewrite length_take, length_drop. lia. Qed.
Lemma py_nth_nonneg {A} (l : list A) i :
  0 <= i -> py_nth l i = match l !! Z.to_nat i with Some x => Ok x | None => Raise (OtherError "IndexError" "list index out of range") end.
Proof. intros H. unfold py_nth. rewrite (proj2 (Z.ltb_ge i 0)) by lia. cbv zeta. by rewrite (proj2 (Z.ltb_ge i 0)) by lia. Qed.

(** A map that sees the elements before each one, over the reversed list. *)
Lemma rev_imap_rev {A B} (f : list A -> A -> B) (l : list A) :
  rev (imap (fun i x => f (take i (rev l)) x) (rev l)) = imap (fun i x => f (rev (drop (S i) l)) x) l.
Proof.
  induction l as [|x l IH]; [done|]. cbn [rev]. rewrite imap_app, rev_app_distr. cbn [imap rev app drop].
  rewrite Nat.add_0_r, take_app_length. f_equal. etransitivity; [|exact IH]. f_equal. apply imap_ext. intros i y Hi.
  apply lookup_lt_Some in Hi. rewrite take_app_le by lia. done.
Qed.

Lemma filter_none {A} (q : A -> bool) L : List.filter q L = [] <-> Forall (fun x => q x = false) L.
Proof.
  induction L as [|x L IH]; cbn; [done|]. rewrite Forall_cons. destruct (q x); [|tauto]. split; [done|by intros [? _]].
Qed.

(** ** Filters *)

Lemma filter_everything {A} (P : A -> Prop) `{!forall x, Decision (P x)} (l : list A) : (forall x, x ∈ l -> P x) -> filter P l = l.
Proof. induction l as [|x l IH]; [done|]. intros Hx. rewrite filter_cons_True by (apply Hx; set_solver). rewrite IH; [done|]. set_solver. Qed.
Lemma filter_same {A} (P Q : A -> Prop) `{!forall x, Decision (P x), !forall x, Decision (Q x)} (l : list A) :
  (forall x, x ∈ l -> P x <-> Q x) -> filter P l = filter Q l.
Proof.
  induction l as [|x l IH]; [done|]. intros Hx. rewrite !filter_cons, IH by set_solver.
  destruct (decide (P x)), (decide (Q x)); [done| | |done]; exfalso; destruct (Hx x); [set_solver|tauto|set_solver|tauto].
Qed.

(** ** Sorting

    [list.sort(key=..., reverse=...)] by a [<] on the elements: stable, also when
    reversed. *)
Section sort.
Context {A : Type} (lt : A -> A -> bool).
Fixpoint insert_lt (x : A) (l : list A) : list A :=
  match l with
  | [] => [x]
  | y :: l => if lt y x then y :: insert_lt x l else x :: y :: l
  end.
Fixpoint sort_lt (l : list A) : list A :=
  match l with [] => [] | x :: l => insert_lt x (sort_lt l) end.
Definition py_sort (reverse : bool) (l : list A) : list A := if reverse then rev (sort_lt (rev l)) else sort_lt l.

Lemma insert_lt_perm x l : insert_lt x l ≡ₚ x :: l.
Proof. induction l as [|y l IH]; [done|]. cbn [insert_lt]. destruct (lt y x); [|done]. rewrite IH. by rewrite Permutation_swap. Qed.
Lemma sort_lt_perm l : sort_lt l ≡ₚ l.
Proof. induction l as [|x l IH]; [done|]. cbn [sort_lt]. by rewrite insert_lt_perm, IH. Qed.
Lemma py_sort_perm b l : py_sort b l ≡ₚ l.
Proof. destruct b; cbn [py_sort]; [|apply sort_lt_perm]. by rewrite <- Permutation_rev, sort_lt_perm, <- Permutation_rev. Qed.

(** A [<] that orders the elements by a key: nothing later is smaller. *)
Class KeyOrder : Prop := {
  lt_asym x y : lt x y = true -> lt y x = false;
  lt_cotrans x y z : lt x z = true -> lt x y = true \/ lt y z = true;
}.
Definition not_after (x y : A) : Prop := lt y x = false.
Context `{KeyOrder}.
Lemma not_after_trans x y z : not_after x y -> not_after y z -> not_after x z.
Proof.
  unfold not_after. intros H1 H2. destruct (lt z x) eqn:E; [|done]. destruct (lt_cotrans z y x E) as [?|?]; congruence.
Qed.
Lemma insert_lt_sorted x l : StronglySorted not_after l -> StronglySorted not_after (insert_lt x l).
Proof.
  induction 1 as [|y l Hl IH Hy]; cbn [insert_lt]; [by repeat constructor|]. destruct (lt y x) eqn:E.
  - constructor; [done|]. rewrite insert_lt_perm. constructor; [|done]. by apply lt_asym in E.
  - constructor; [by constructor|]. constructor; [done|]. eapply Forall_impl; [exact Hy|]. intros z Hz.
    by apply (not_after_trans x y z).
Qed.
Lemma sort_lt_sorted l : StronglySorted not_after (sort_lt l).
Proof. induction l as [|x l IH]; [constructor|]. by apply insert_lt_sorted. Qed.
Lemma sorted_rev l : StronglySorted not_after l -> StronglySorted (fun x y => lt x y = false) (rev l).
Proof.
  induction 1 as [|x m Hm IHm Hx]; cbn [rev]; [constructor|]. revert IHm. apply Forall_rev in Hx. induction Hx as [|y n Hy Hn IHn]; intros Hs.
  - by repeat constructor.
  - apply StronglySorted_inv in Hs as [Hs Hall]. cbn [app]. constructor; [by apply IHn|]. apply Forall_app. split; [done|].
    by constructor.
Qed.
Lemma py_sort_sorted l : StronglySorted not_after (py_sort false l) /\ StronglySorted (fun x y => lt x y = false) (py_sort true l).
Proof. split; [apply sort_lt_sorted|]. apply sorted_rev, sort_lt_sorted. Qed.
End sort.
Arguments KeyOrder {A} lt.
