(* ===== verification/PyFloat.v ===== *)
(** * Python floats

    A Python [float] is an IEEE 754 binary64 number; [float] is the Standard
    Library's [spec_float] at precision 53 and maximal exponent 1024, whose
    operations round to nearest, ties to even, as the hardware's do.  On top of
    it: decimal literals, [round(x, 6)], fixed-point formatting and [repr],
    each through the exact rational value of the number. *)

From S2P Require Import Prelude PyStr.
From Stdlib Require Import Ascii.
From Stdlib Require Export SpecFloat.

Notation float := spec_float.
Definition prec : Z := 53.
Definition emax : Z := 1024.

Definition fadd (x y : float) : float := SFadd prec emax x y.
Definition fsub (x y : float) : float := SFsub prec emax x y.
Definition fabs (x : float) : float := SFabs x.
Definition fmul (x y : float) : float := SFmul prec emax x y.
Definition fdiv (x y : float) : float := SFdiv prec emax x y.
(** Comparisons; all are false on a NaN. *)
Definition flt (x y : float) : bool := SFltb x y.
Definition fle (x y : float) : bool := SFleb x y.
Definition feq (x y : float) : bool := SFeqb x y.

(** The float nearest to [n/d], for [0 <= n] and [0 < d]. *)
Definition float_of_ratio (neg : bool) (n d : Z) : float :=
  if n =? 0 then S754_zero neg
  else let '(q, e, l) := SFdiv_core_binary prec emax n 0 d 0 in
       binary_round_aux prec emax neg q e l.
Definition float_of_Z (z : Z) : float := float_of_ratio (z <? 0) (Z.abs z) 1.
(** The literal [n * 10^-k]. *)
Definition float_lit (n : Z) (k : Z) : float := float_of_ratio false n (10 ^ k).

Definition f0 : float := float_of_Z 0.
Definition f1 : float := float_of_Z 1.

(** Python's truth value of a float. *)
Definition ftruth (x : float) : bool := match x with S754_zero _ => false | _ => true end.

Definition is_finite (x : float) : bool :=
  match x with S754_zero _ | S754_finite _ _ _ => true | _ => false end.

(** [sum(l)] of floats, since Python 3.12 with Neumaier's compensation [c]:
    the first summand is added to the integer 0. *)
Fixpoint neumaier (sum c : float) (l : list float) : float :=
  match l with
  | [] => if ftruth c && is_finite c then fadd sum c else sum
  | x :: l' =>
      let t := fadd sum x in
      let d := if fle (fabs x) (fabs sum) then fadd (fsub sum t) x else fadd (fsub x t) sum in
      neumaier t (fadd c d) l'
  end.
Definition py_sum (l : list float) : float :=
  match l with [] => f0 | x :: l' => neumaier (fadd f0 x) f0 l' end.

(** [n/d] rounded to an integer, ties to even. *)
Definition div_half_even (n d : Z) : Z :=
  let q := n / d in
  let r := n mod d in
  match Z.compare (2 * r) d with
  | Lt => q
  | Gt => q + 1
  | Eq => if Z.even q then q else q + 1
  end.

(** [|x| * 10^k] rounded to an integer, for a finite [x] with mantissa [m] and
    exponent [e]. *)
Definition scaled (m : positive) (e k : Z) : Z :=
  if 0 <=? e then Zpos m * 2 ^ e * 10 ^ k else div_half_even (Zpos m * 10 ^ k) (2 ^ (- e)).

(** [round(x, 6)] *)
Definition round6 (x : float) : float :=
  match x with
  | S754_finite s m e => float_of_ratio s (scaled m e 6) (10 ^ 6)
  | _ => x
  end.

(** ** Formatting *)

Fixpoint pad_zeros (n : nat) : string := match n with O => "" | S n' => String "0"%char (pad_zeros n') end.
Definition zfill (w : nat) (s : string) : string := pad_zeros (w - slen s) +:+ s.

(** The digits of [n], the last [k] after a point. *)
Definition fixed_digits (k : Z) (n : Z) : string :=
  if k =? 0 then nat_digits n
  else nat_digits (n / 10 ^ k) +:+ "." +:+ zfill (Z.to_nat k) (nat_digits (n mod 10 ^ k)).

Definition sign_str (s : bool) : string := if s then "-" else "".

(** [f'{x:.kf}'] *)
Definition format_fixed (k : Z) (x : float) : string :=
  match x with
  | S754_nan => "nan"
  | S754_infinity s => sign_str s +:+ "inf"
  | S754_zero s => sign_str s +:+ fixed_digits k 0
  | S754_finite s m e => sign_str s +:+ fixed_digits k (scaled m e k)
  end.
(** [f'{x:.0%}'] *)
Definition format_percent (x : float) : string := format_fixed 0 (fmul x (float_of_Z 100)) +:+ "%".

(** ** [repr] of a float: the shortest decimal that reads back as the number *)

(** The position of the leading decimal digit: the least [p] with
    [|x| < 10^p], searched from below. *)
Fixpoint find_point (fuel : nat) (n d p : Z) : Z :=
  match fuel with
  | O => p
  | S f => if (if 0 <=? p then n <? d * 10 ^ p else n * 10 ^ (- p) <? d) then p
           else find_point f n d (p + 1)
  end.

(** [|x|] as [n/d]. *)
Definition num (m : positive) (e : Z) : Z := if 0 <=? e then Zpos m * 2 ^ e else Zpos m.
Definition den (e : Z) : Z := if 0 <=? e then 1 else 2 ^ (- e).

(** The [k]-digit decimal nearest to [n/d] (of magnitude [10^p]): its digits
    as an integer. *)
Definition digits_k (n d p k : Z) : Z :=
  if 0 <=? k - p then div_half_even (n * 10 ^ (k - p)) d else div_half_even n (d * 10 ^ (p - k)).
Definition of_digits (g p k : Z) : float :=
  if 0 <=? p - k then float_of_ratio false (g * 10 ^ (p - k)) 1 else float_of_ratio false g (10 ^ (k - p)).
Fixpoint shortest (fuel : nat) (x : float) (n d p k : Z) : Z * Z :=
  match fuel with
  | O => (digits_k n d p k, k)
  | S f => if feq (of_digits (digits_k n d p k) p k) x then (digits_k n d p k, k)
           else shortest f x n d p (k + 1)
  end.

Definition is_zero_char (c : ascii) : bool := Ascii.eqb c "0"%char.

(** The digit string [ds] with the decimal point after position [p]; exponent
    notation below 1e-4 and from 1e16 on. *)
Definition place_point (ds : string) (p : Z) : string :=
  if (-4 <? p) && (p <=? 16) then
    if p <=? 0 then "0." +:+ pad_zeros (Z.to_nat (- p)) +:+ ds
    else if Z.of_nat (slen ds) <=? p then ds +:+ pad_zeros (Z.to_nat p - slen ds) +:+ ".0"
    else stake (Z.to_nat p) ds +:+ "." +:+ sdrop (Z.to_nat p) ds
  else
    let ex := p - 1 in
    let es := (if ex <? 0 then "-" else "+") +:+ zfill 2 (nat_digits (Z.abs ex)) in
    match ds with
    | String c EmptyString => String c "" +:+ "e" +:+ es
    | String c r => String c "" +:+ "." +:+ r +:+ "e" +:+ es
    | EmptyString => ""
    end.

Definition repr_float (x : float) : string :=
  match x with
  | S754_nan => "nan"
  | S754_infinity s => sign_str s +:+ "inf"
  | S754_zero s => sign_str s +:+ "0.0"
  | S754_finite s m e =>
      let n := num m e in
      let d := den e in
      let p := find_point 700 n d (-340) in
      let '(g, k) := shortest 17 (S754_finite false m e) n d p 1 in
      (* rounding up may have reached the next power of ten *)
      let p' := if 10 ^ k <=? g then p + 1 else p in
      sign_str s +:+ place_point (rstrip_by is_zero_char (nat_digits g)) p'
  end.

(** The finite floats of the format: what the operations above return. *)
Definition fvalid (x : float) : bool := valid_binary prec emax x.

Example repr_float_ex :
  repr_float (float_lit 1 1) = "0.1" /\ repr_float (float_of_Z 3) = "3.0" /\
  repr_float (float_lit 12345 8) = "0.00012345" /\ repr_float (float_lit 1 7) = "1e-07" /\
  repr_float (fadd (float_lit 1 1) (float_lit 2 1)) = "0.30000000000000004" /\
  repr_float (float_of_Z (10 ^ 16)) = "1e+16" /\ repr_float (float_of_Z 123456) = "123456.0" /\
  repr_float (float_of_Z (10 ^ 15 + 1)) = "1000000000000001.0".
Proof. by vm_compute. Qed.

Example round6_ex :
  repr_float (round6 (float_lit 12345675 7)) = "1.234568" /\
  repr_float (round6 (fadd (float_lit 1 1) (float_lit 2 1))) = "0.3" /\
  format_fixed 4 (float_lit 15 1) = "1.5000" /\ format_fixed 6 f0 = "0.000000" /\
  format_percent (fdiv (float_of_Z 2) (float_of_Z 3)) = "67%".
Proof. by vm_compute. Qed.
