(* ===== verification/FloatDiv.v ===== *)
(** * Division of floats against the threshold 1

    The quotient of two positive binary64 numbers is rounded, and rounding
    could in principle carry a quotient below 1 up to 1.  It does not:
    [fle_1_div] shows, from the definition of the rounded division, that the
    quotient is at least 1 exactly when the dividend is at least the divisor. *)

From S2P Require Import Prelude PyStr PyFloat.

Notation dig := Zdigits2.
Notation fx := (fexp prec emax).

Lemma fx_eq e : fx e = Z.max (e - 53) (-1074).
Proof. done. Qed.

Lemma dig_spec z : 0 < z -> 2 ^ (dig z - 1) <= z < 2 ^ dig z.
Proof.
  destruct z as [|p|p]; try lia. intros _. unfold dig.
  induction p as [p IH|p IH|]; cbn [digits2_pos]; [| |done].
  - rewrite Pos2Z.inj_succ. replace (Z.succ (Zpos (digits2_pos p)) - 1) with (Z.succ (Zpos (digits2_pos p) - 1)) by lia.
    rewrite !Z.pow_succ_r by lia. lia.
  - rewrite Pos2Z.inj_succ. replace (Z.succ (Zpos (digits2_pos p)) - 1) with (Z.succ (Zpos (digits2_pos p) - 1)) by lia.
    rewrite !Z.pow_succ_r by lia. lia.
Qed.

Lemma dig_le z k : 0 <= k -> 0 <= z < 2 ^ k -> dig z <= k.
Proof.
  intros Hk Hz. destruct (Z.eq_dec z 0) as [->|Hne]; [done|].
  pose proof (dig_spec z ltac:(lia)) as [H _].
  assert (dig z - 1 < k); [|lia]. apply (Z.pow_lt_mono_r_iff 2); lia.
Qed.
Lemma dig_ge z k : 0 <= k -> 2 ^ k <= z -> k + 1 <= dig z.
Proof.
  intros Hk Hz. pose proof (Z.pow_pos_nonneg 2 k ltac:(lia) Hk).
  pose proof (dig_spec z ltac:(lia)) as [_ Hd].
  assert (0 <= dig z) by (destruct z; simpl; lia).
  assert (k < dig z); [|lia]. apply (Z.pow_lt_mono_r_iff 2); lia.
Qed.

(** ** Shifting right *)

Definition no_bits (r : shr_record) : Prop := shr_r r = false /\ shr_s r = false.

Lemma shr_1_spec r :
  0 <= shr_m r -> shr_m (shr_1 r) = shr_m r / 2 /\
  (no_bits r -> shr_m r mod 2 = 0 -> no_bits (shr_1 r)).
Proof.
  destruct r as [m rb sb]. unfold no_bits. cbn [shr_m shr_r shr_s]. intros Hm.
  destruct m as [|p|p]; [by split; [|intros [-> ->]]| |lia]. destruct p as [p|p|]; cbn [shr_1 shr_m shr_r shr_s].
  - split; [apply (Z.div_unique _ _ _ 1); lia|]. intros _ H.
    rewrite Pos2Z.inj_xI, Z.add_comm, Z.mul_comm, Z_mod_plus_full in H. done.
  - split; [apply (Z.div_unique _ _ _ 0); lia|]. by intros [-> ->].
  - split; [done|]. intros _ H. done.
Qed.

Lemma shr_iter_spec p : forall r, 0 <= shr_m r ->
  shr_m (iter_pos shr_1 p r) = shr_m r / 2 ^ Zpos p /\
  (no_bits r -> shr_m r mod 2 ^ Zpos p = 0 -> no_bits (iter_pos shr_1 p r)).
Proof.
  assert (forall a x y, 0 <= a -> 0 < x -> 0 < y -> a mod (x * y) = 0 -> a mod x = 0 /\ (a / x) mod y = 0) as Hmod.
  { intros a x y Ha Hx Hy H. rewrite Z.rem_mul_r in H by lia.
    pose proof (Z.mod_pos_bound a x Hx). pose proof (Z.mod_pos_bound (a / x) y Hy). nia. }
  induction p as [p IH|p IH|]; intros r Hr; cbn [iter_pos].
  - destruct (shr_1_spec r Hr) as [E1 B1]. pose proof (Z.div_pos (shr_m r) 2 Hr ltac:(lia)).
    destruct (IH (shr_1 r) ltac:(lia)) as [E2 B2].
    pose proof (Z.pow_pos_nonneg 2 (Zpos p) ltac:(lia) ltac:(lia)).
    destruct (IH (iter_pos shr_1 p (shr_1 r))) as [E3 B3].
    { rewrite E2, E1. apply Z.div_pos; lia. }
    assert (2 ^ Zpos p~1 = 2 * (2 ^ Zpos p * 2 ^ Zpos p)) as Ep.
    { replace (Zpos p~1) with (1 + (Zpos p + Zpos p)) by lia. by rewrite !Z.pow_add_r by lia. }
    rewrite E3, E2, E1, Ep. split; [rewrite !Z.div_div by lia; f_equal; lia|].
    intros Hb H1. apply Hmod in H1 as [H1 H2]; [|lia..]. apply Hmod in H2 as [H2 H3]; [|lia..].
    apply B3; [apply B2; [by apply B1|by rewrite E1]|]. by rewrite E2, E1.
  - pose proof (Z.pow_pos_nonneg 2 (Zpos p) ltac:(lia) ltac:(lia)).
    destruct (IH r Hr) as [E2 B2]. destruct (IH (iter_pos shr_1 p r)) as [E3 B3].
    { rewrite E2. apply Z.div_pos; lia. }
    assert (2 ^ Zpos p~0 = 2 ^ Zpos p * 2 ^ Zpos p) as Ep.
    { replace (Zpos p~0) with (Zpos p + Zpos p) by lia. by rewrite Z.pow_add_r by lia. }
    rewrite E3, E2, Ep. split; [by rewrite Z.div_div by lia|].
    intros Hb H1. apply Hmod in H1 as [H1 H2]; [|lia..]. apply B3; [by apply B2|by rewrite E2].
  - rewrite Z.pow_1_r. by apply shr_1_spec.
Qed.

Lemma record_of_loc m l : shr_m (shr_record_of_loc m l) = m.
Proof. by destruct l as [|[]]. Qed.

(** The mantissa and exponent after [shr_fexp]: shifted by [n] places. *)
Lemma shr_fexp_spec m e l :
  0 <= m ->
  let n := Z.max 0 (fx (dig m + e) - e) in
  let '(r, e') := shr_fexp prec emax m e l in
  e' = e + n /\ shr_m r = m / 2 ^ n /\ (l = loc_Exact -> m mod 2 ^ n = 0 -> loc_of_shr_record r = loc_Exact).
Proof.
  intros Hm n. unfold shr_fexp, shr. fold (fx (dig m + e)). subst n.
  destruct (fx (dig m + e) - e) as [|p|p] eqn:E.
  - rewrite Z.max_id, record_of_loc, Z.pow_0_r, Z.div_1_r, Z.add_0_r. split_and!; [done..|]. by intros ->.
  - rewrite Z.max_r by lia.
    destruct (shr_iter_spec p (shr_record_of_loc m l) ltac:(by rewrite record_of_loc)) as [E1 B1].
    rewrite record_of_loc in *. split_and!; [done..|]. intros -> H.
    destruct (B1 ltac:(by split) H) as [H1 H2]. destruct (iter_pos _ _ _) as [m' rb sb]. simpl in *. by subst.
  - rewrite Z.max_l, record_of_loc, Z.pow_0_r, Z.div_1_r, Z.add_0_r by lia. split_and!; [done..|]. by intros ->.
Qed.

Lemma round_bounds m l : m <= round_nearest_even m l <= m + 1.
Proof. destruct l as [|[]]; simpl; try lia. destruct (Z.even m); lia. Qed.

(** ** Rounding keeps a value on its side of 1 *)

(** [m * 2^e >= 1] *)
Definition ge1 (m e : Z) : Prop := 0 < m /\ (e <= 0 -> 2 ^ (- e) <= m).

Lemma ge1_shr m e l :
  ge1 m e -> let '(r, e') := shr_fexp prec emax m e l in ge1 (shr_m r) e' /\ -52 <= e'.
Proof.
  intros [Hm He]. pose proof (shr_fexp_spec m e l ltac:(lia)) as H. cbv zeta in H.
  destruct (shr_fexp prec emax m e l) as [r e']. destruct H as (-> & E & _).
  assert (1 <= dig m + e) as Hd.
  { destruct (Z.le_gt_cases e 0) as [Hle|Hgt].
    - pose proof (dig_ge m (- e) ltac:(lia) (He Hle)). lia.
    - pose proof (dig_ge m 0 ltac:(lia) ltac:(simpl; lia)). lia. }
  assert (fx (dig m + e) = dig m + e - 53) as Ef by (rewrite fx_eq; lia). rewrite Ef in *. unfold ge1. rewrite E.
  destruct (Z.le_gt_cases (dig m + e - 53 - e) 0) as [Hn|Hn].
  - rewrite Z.max_l, Z.pow_0_r, Z.div_1_r, Z.add_0_r by lia. split; [by split|]. lia.
  - rewrite Z.max_r by lia. replace (dig m + e - 53 - e) with (dig m - 53) in * by lia.
    assert (2 ^ 52 <= m / 2 ^ (dig m - 53)) as H52.
    { apply Z.div_le_lower_bound; [apply Z.pow_pos_nonneg; lia|].
      rewrite <-Z.pow_add_r by lia. pose proof (dig_spec m Hm) as [Hl _].
      replace (dig m - 53 + 52) with (dig m - 1) by lia. done. }
    split; [split; [lia|]|lia]. intros He'.
    transitivity (2 ^ 52); [|done]. apply Z.pow_le_mono_r; lia.
Qed.

Lemma f1_eq : f1 = S754_finite false (2 ^ 52)%positive (-52).
Proof. by vm_compute. Qed.

Lemma pos_compare_cont p q : Pos.compare_cont Eq p q = (Zpos p ?= Zpos q).
Proof. done. Qed.

Lemma round_ge1 m e l : ge1 m e -> fle f1 (binary_round_aux prec emax false m e l) = true.
Proof.
  intros H. unfold binary_round_aux. pose proof (ge1_shr m e l H) as H1.
  destruct (shr_fexp prec emax m e l) as [r1 e1]. destruct H1 as [H1 _].
  assert (ge1 (round_nearest_even (shr_m r1) (loc_of_shr_record r1)) e1) as H2.
  { pose proof (round_bounds (shr_m r1) (loc_of_shr_record r1)). destruct H1 as [H1 H1'].
    split; [lia|]. intros He. specialize (H1' He). lia. }
  pose proof (ge1_shr _ e1 loc_Exact H2) as H3.
  destruct (shr_fexp prec emax _ e1 loc_Exact) as [r3 e3]. destruct H3 as [[H3 H3'] He3].
  destruct (shr_m r3) as [|p|p]; [lia| |lia]. destruct (Z.leb e3 _); rewrite f1_eq; [|done].
  unfold fle, SFleb, SFcompare. destruct (Z.compare_spec (-52) e3) as [<-|Hlt|Hgt]; [|done|lia].
  rewrite pos_compare_cont. specialize (H3' ltac:(lia)). change (2 ^ (- -52)) with (2 ^ 52) in H3'.
  change (Zpos (2 ^ 52)) with (2 ^ 52). by destruct (Z.compare_spec (2 ^ 52) (Zpos p)); [..|lia].
Qed.

(** [m * 2^e <= 1 - 2^-53], with an exact remainder at the bound. *)
Definition top (e : Z) : Z := (2 ^ 53 - 1) * 2 ^ (-53 - e).
Definition lt1 (m e : Z) (l : location) : Prop :=
  0 <= m /\ e <= -53 /\ m <= top e /\ (m = top e -> l = loc_Exact).

Lemma top_lt e : e <= -53 -> top e + 2 ^ (-53 - e) = 2 ^ (- e).
Proof.
  intros He. unfold top. replace (- e) with (53 + (-53 - e)) by lia. rewrite Z.pow_add_r by lia. lia.
Qed.

Lemma top_shift e n : 0 <= n -> e + n <= -53 -> top e = top (e + n) * 2 ^ n.
Proof.
  intros Hn He. unfold top. rewrite <-Z.mul_assoc, <-Z.pow_add_r by lia. do 2 f_equal. lia.
Qed.

Lemma lt1_fx m e : 0 <= m < 2 ^ (- e) -> e <= -53 -> fx (dig m + e) <= -53.
Proof. intros Hm He. pose proof (dig_le m (- e) ltac:(lia) Hm). rewrite fx_eq. lia. Qed.

Lemma round_lt1 m e l : lt1 m e l -> fle f1 (binary_round_aux prec emax false m e l) = false.
Proof.
  intros (Hm & He & Ht & Hx). pose proof (top_lt e He). pose proof (Z.pow_pos_nonneg 2 (-53 - e) ltac:(lia) ltac:(lia)).
  pose proof (lt1_fx m e ltac:(lia) He) as Hfx. unfold binary_round_aux.
  pose proof (shr_fexp_spec m e l Hm) as H1. cbv zeta in H1. set (n := Z.max 0 (fx (dig m + e) - e)) in *.
  assert (0 <= n /\ e + n <= -53) as [Hn He1] by lia. clearbody n. clear Hfx.
  destruct (shr_fexp prec emax m e l) as [r1 e1]. destruct H1 as (-> & E1 & B1).
  pose proof (Z.pow_pos_nonneg 2 n ltac:(lia) ltac:(lia)).
  assert (0 <= shr_m r1 <= top (e + n)) as Hm1.
  { rewrite E1. split; [apply Z.div_pos; lia|]. apply Z.div_le_upper_bound; [lia|].
    rewrite Z.mul_comm, <-top_shift; lia. }
  pose proof (round_bounds (shr_m r1) (loc_of_shr_record r1)) as Hround.
  remember (round_nearest_even (shr_m r1) (loc_of_shr_record r1)) as m2 eqn:Em2.
  assert (0 <= m2 < 2 ^ (- (e + n))) as Hm2.
  { pose proof (top_lt (e + n) He1). split; [lia|].
    destruct (Z.eq_dec (e + n) (-53)) as [Eq|Hne].
    - rewrite Eq in *. change (2 ^ (-53 - -53)) with 1 in *.
      destruct (Z.eq_dec (shr_m r1) (top (-53))) as [Et|]; [|lia].
      assert (m = top e) as Emt.
      { rewrite (top_shift e n), Eq by lia. pose proof (Z.mul_div_le m (2 ^ n) ltac:(lia)).
        rewrite (top_shift e n), Eq in Ht by lia. rewrite <-E1, Et in *. lia. }
      assert (loc_of_shr_record r1 = loc_Exact) as El.
      { apply B1; [by apply Hx|]. rewrite Emt, (top_shift e n) by lia. apply Z.mod_mul. lia. }
      rewrite Em2, El. simpl. lia.
    - pose proof (Z.pow_le_mono_r 2 1 (-53 - (e + n)) ltac:(lia) ltac:(lia)). change (2 ^ 1) with 2 in *. lia. }
  pose proof (lt1_fx m2 (e + n) Hm2 He1) as Hfx2.
  pose proof (shr_fexp_spec m2 (e + n) loc_Exact ltac:(lia)) as H3. cbv zeta in H3.
  destruct (shr_fexp prec emax m2 (e + n) loc_Exact) as [r3 e3]. destruct H3 as (-> & _ & _).
  destruct (shr_m r3) as [|p|p]; [done| |done].
  rewrite f1_eq. destruct (Z.leb_spec (e + n + Z.max 0 (fx (dig m2 + (e + n)) - (e + n))) (emax - prec)); [|].
  - unfold fle, SFleb, SFcompare. destruct (Z.compare_spec (-52) (e + n + Z.max 0 (fx (dig m2 + (e + n)) - (e + n)))); [lia|lia|done].
  - exfalso. change (emax - prec) with 971 in *. lia.
Qed.

(** ** The exact quotient *)

Lemma core_spec m1 e1 m2 e2 :
  let '(q, e, l) := SFdiv_core_binary prec emax (Zpos m1) e1 (Zpos m2) e2 in
  let t := e1 - e2 - e in
  e = Z.min (fx (dig (Zpos m1) + e1 - (dig (Zpos m2) + e2))) (e1 - e2) /\
  q = (Zpos m1 * 2 ^ t) / Zpos m2 /\
  ((Zpos m1 * 2 ^ t) mod Zpos m2 = 0 -> l = loc_Exact).
Proof.
  unfold SFdiv_core_binary. set (e := Z.min _ _). cbv zeta.
  assert (0 <= e1 - e2 - e) as Ht by lia.
  assert ((match e1 - e2 - e with Zpos _ => Z.shiftl (Zpos m1) (e1 - e2 - e) | Z0 => Zpos m1 | Zneg _ => 0 end)
          = Zpos m1 * 2 ^ (e1 - e2 - e)) as ->.
  { destruct (e1 - e2 - e) as [|p|p]; [by rewrite Z.pow_0_r, Z.mul_1_r| |lia]. by apply Z.shiftl_mul_pow2. }
  destruct (Z.div_eucl (Zpos m1 * 2 ^ (e1 - e2 - e)) (Zpos m2)) as [q r] eqn:E.
  split_and!; [done|unfold Z.div; by rewrite E|]. unfold Z.modulo. rewrite E. intros ->.
  unfold new_location, new_location_even, new_location_odd. by destruct (Z.even _).
Qed.

Lemma bounded_spec m e :
  bounded prec emax m e = true -> e = fx (dig (Zpos m) + e) /\ Zpos m < 2 ^ 53.
Proof.
  unfold bounded, canonical_mantissa. rewrite andb_true_iff, Z.eqb_eq. intros [H _].
  change (Zpos (digits2_pos m)) with (dig (Zpos m)) in H. change (fexp prec emax) with fx in H.
  split; [done|]. pose proof (dig_spec (Zpos m) ltac:(lia)) as [_ Hd]. eapply Z.lt_le_trans; [exact Hd|].
  apply Z.pow_le_mono_r; [lia|]. rewrite fx_eq in H. lia.
Qed.

(** Below: [m1 * 2^e1] against [m2 * 2^e2], compared as floats are. *)
Definition pos_le (m1 : positive) (e1 : Z) (m2 : positive) (e2 : Z) : Prop :=
  e1 < e2 \/ e1 = e2 /\ Zpos m1 <= Zpos m2.
Definition pos_lt (m1 : positive) (e1 : Z) (m2 : positive) (e2 : Z) : Prop :=
  e1 < e2 \/ e1 = e2 /\ Zpos m1 < Zpos m2.

Lemma normal_mantissa m e e' : bounded prec emax m e = true -> -1074 <= e' -> e' < e -> 2 ^ 52 <= Zpos m.
Proof.
  intros [He _]%bounded_spec Hmin Hlt. rewrite fx_eq in He.
  pose proof (dig_spec (Zpos m) ltac:(lia)) as [Hd _].
  replace (dig (Zpos m)) with 53 in Hd by lia. done.
Qed.
Lemma bounded_emin m e : bounded prec emax m e = true -> -1074 <= e.
Proof. intros [He _]%bounded_spec. rewrite fx_eq in He. lia. Qed.

Lemma quotient_ge1 m1 e1 m2 e2 :
  bounded prec emax m1 e1 = true -> bounded prec emax m2 e2 = true -> pos_le m2 e2 m1 e1 ->
  let '(q, e, l) := SFdiv_core_binary prec emax (Zpos m1) e1 (Zpos m2) e2 in ge1 q e.
Proof.
  intros B1 B2 Hle. pose proof (core_spec m1 e1 m2 e2) as H.
  destruct (SFdiv_core_binary _ _ _ _ _ _) as [[q e] l]. cbv zeta in H. destruct H as (He & Hq & _).
  assert (0 <= e1 - e2 /\ Zpos m2 <= Zpos m1 * 2 ^ (e1 - e2)) as [H12 Hv].
  { destruct Hle as [Hlt|[-> Hm]]; [|rewrite Z.sub_diag; lia]. split; [lia|].
    pose proof (normal_mantissa m1 e1 e2 B1 (bounded_emin _ _ B2) Hlt).
    apply bounded_spec in B2 as [_ B2]. pose proof (Z.pow_le_mono_r 2 1 (e1 - e2) ltac:(lia) ltac:(lia)). nia. }
  assert (forall k, 0 <= k -> Zpos m2 * 2 ^ k <= Zpos m1 * 2 ^ (e1 - e2 - e) -> 2 ^ k <= q) as Hdiv.
  { intros k Hk Hle'. rewrite Hq. apply Z.div_le_lower_bound; lia. }
  unfold ge1. destruct (Z.le_gt_cases e 0) as [Hneg|Hpos].
  - assert (2 ^ (- e) <= q) as Hq1.
    { apply Hdiv; [lia|]. replace (e1 - e2 - e) with (e1 - e2 + - e) by lia.
      rewrite Z.pow_add_r, Z.mul_assoc by lia. apply Z.mul_le_mono_nonneg_r; [|lia]. lia. }
    pose proof (Z.pow_pos_nonneg 2 (- e) ltac:(lia) ltac:(lia)). split; [lia|done].
  - split; [|lia]. assert (2 ^ 0 <= q); [|lia]. apply Hdiv; [lia|]. rewrite Z.pow_0_r, Z.mul_1_r.
    pose proof (dig_spec (Zpos m1) ltac:(lia)) as [D1 _]. pose proof (dig_spec (Zpos m2) ltac:(lia)) as [_ D2].
    rewrite fx_eq in He. set (d1 := dig (Zpos m1)) in *. set (d2 := dig (Zpos m2)) in *.
    assert (1 <= d1 /\ 1 <= d2) as [? ?] by (split; apply Pos2Z.is_pos || (unfold d1, d2; simpl; lia)).
    transitivity (2 ^ (d1 - 1) * 2 ^ (e1 - e2 - e)).
    + rewrite <-Z.pow_add_r by lia. etrans; [apply Z.lt_le_incl, D2|]. apply Z.pow_le_mono_r; lia.
    + apply Z.mul_le_mono_nonneg_r; [|done]. apply Z.pow_nonneg. lia.
Qed.

Lemma quotient_lt1 m1 e1 m2 e2 :
  bounded prec emax m1 e1 = true -> bounded prec emax m2 e2 = true -> pos_lt m1 e1 m2 e2 ->
  let '(q, e, l) := SFdiv_core_binary prec emax (Zpos m1) e1 (Zpos m2) e2 in lt1 q e l.
Proof.
  intros B1 B2 Hlt. pose proof (core_spec m1 e1 m2 e2) as H.
  destruct (SFdiv_core_binary _ _ _ _ _ _) as [[q e] l]. cbv zeta in H. destruct H as (He & Hq & Hl).
  set (d1 := dig (Zpos m1)) in *. set (d2 := dig (Zpos m2)) in *.
  pose proof (bounded_spec _ _ B1) as [C1 M1]. pose proof (bounded_spec _ _ B2) as [C2 M2].
  fold d1 d2 in C1, C2. rewrite fx_eq in C1, C2.
  assert (d1 + e1 - (d2 + e2) <= 0) as Hd.
  { destruct Hlt as [Hlt|[-> Hm]]; [lia|]. assert (d1 <= d2); [|lia].
    apply dig_le; [unfold d2; simpl; lia|]. pose proof (dig_spec (Zpos m2) ltac:(lia)) as [_ D2]. fold d2 in D2. lia. }
  assert (e <= -53) as He53 by (rewrite fx_eq in He; lia).
  assert (0 <= e1 - e2 - e) as Ht by lia.
  set (X := Zpos m1 * 2 ^ (e1 - e2 - e)) in *.
  assert (X <= Zpos m2 * top e) as HX.
  { unfold X, top. pose proof (Z.pow_pos_nonneg 2 (-53 - e) ltac:(lia) ltac:(lia)).
    destruct Hlt as [Hlt|[-> Hm]].
    - pose proof (normal_mantissa m2 e2 e1 B2 (bounded_emin _ _ B1) Hlt).
      transitivity ((2 ^ 53 - 1) * 2 ^ (52 + (-53 - e))).
      + apply Z.mul_le_mono_nonneg; [lia|lia|apply Z.pow_nonneg; lia|]. apply Z.pow_le_mono_r; lia.
      + rewrite Z.pow_add_r by lia. nia.
    - replace (e2 - e2 - e) with (53 + (-53 - e)) by lia. rewrite Z.pow_add_r by lia. nia. }
  split_and!; [rewrite Hq; apply Z.div_pos; [apply Z.mul_nonneg_nonneg; [lia|apply Z.pow_nonneg; lia]|lia]|done| |].
  - rewrite Hq. apply Z.div_le_upper_bound; [lia|]. done.
  - intros Et. apply Hl. rewrite Hq in Et. pose proof (Z.mul_div_le X (Zpos m2) ltac:(lia)) as Hmd.
    rewrite Et in Hmd. assert (X = top e * Zpos m2) as -> by lia. apply Z.mod_mul. lia.
Qed.

Lemma round_neg m e l : fle f1 (binary_round_aux prec emax true m e l) = false.
Proof.
  unfold binary_round_aux. destruct (shr_fexp _ _ _ _ _) as [r1 e1].
  destruct (shr_fexp _ _ _ e1 _) as [r3 e3]. rewrite f1_eq. destruct (shr_m r3); [done| |done].
  by destruct (Z.leb _ _).
Qed.

(** For a positive finite divisor, the rounded quotient reaches 1 exactly when
    the dividend reaches the divisor. *)
Lemma fle_1_div (x : float) (m : positive) (e : Z) :
  fvalid x = true -> bounded prec emax m e = true ->
  fle f1 (fdiv x (S754_finite false m e)) = fle (S754_finite false m e) x.
Proof.
  intros Hx Hy. unfold fdiv. destruct x as [[]|[]| |[] mx ex]; try (by rewrite ?f1_eq).
  - cbn [SFdiv xorb]. destruct (SFdiv_core_binary _ _ _ _ _ _) as [[q e'] l]. apply round_neg.
  - cbn [SFdiv xorb]. unfold fvalid in Hx. cbn [valid_binary] in Hx.
    unfold fle at 2, SFleb, SFcompare. destruct (Z.compare_spec e ex) as [->|Hlt|Hgt].
    + rewrite pos_compare_cont. destruct (Z.compare_spec (Zpos m) (Zpos mx)) as [E|E|E].
      * pose proof (quotient_ge1 mx ex m ex Hx Hy ltac:(right; lia)) as H.
        destruct (SFdiv_core_binary _ _ _ _ _ _) as [[q e'] l]. by apply round_ge1.
      * pose proof (quotient_ge1 mx ex m ex Hx Hy ltac:(right; lia)) as H.
        destruct (SFdiv_core_binary _ _ _ _ _ _) as [[q e'] l]. by apply round_ge1.
      * pose proof (quotient_lt1 mx ex m ex Hx Hy ltac:(right; lia)) as H.
        destruct (SFdiv_core_binary _ _ _ _ _ _) as [[q e'] l]. by apply round_lt1.
    + pose proof (quotient_ge1 mx ex m e Hx Hy ltac:(left; lia)) as H.
      destruct (SFdiv_core_binary _ _ _ _ _ _) as [[q e'] l]. by apply round_ge1.
    + pose proof (quotient_lt1 mx ex m e Hx Hy ltac:(left; lia)) as H.
      destruct (SFdiv_core_binary _ _ _ _ _ _) as [[q e'] l]. by apply round_lt1.
Qed.
