(* ===== verification/FloatRound.v ===== *)
(** * Rounding of normal results, and the milliseconds of a time difference

    [round_normal] describes the rounded value of a mantissa of at least 53
    bits; from it, rounding keeps a value on its side of a representable bound
    ([round_le], [round_ge]).  [delta_ms] is [timedelta.total_seconds() * 1000]
    with its two roundings, and [delta_ms_5000] says that comparing it with 5000
    is comparing the exact microseconds. *)

From S2P Require Import Prelude PyStr PyFloat FloatDiv.

(** The value of [m * 2^e], scaled to an integer; only [bias_large] is known of
    the scale, so that no proof computes with it. *)
Definition bias : Z := 4000.
Lemma bias_large : 4000 <= bias.
Proof. done. Qed.
Definition scaled_value (m e : Z) : Z := m * 2 ^ (e + bias).
Definition normal (m e : Z) : Prop := 2 ^ 52 <= m < 2 ^ 53 /\ -1000 <= e.

Lemma scaled_shift m e n : 0 <= n -> -4000 <= e -> scaled_value m (e + n) = scaled_value (m * 2 ^ n) e.
Proof.
  pose proof bias_large as Hbias. intros Hn He. unfold scaled_value. replace (e + n + bias) with (n + (e + bias)) by lia.
  rewrite Z.pow_add_r by lia. lia.
Qed.
Lemma scaled_mono m m' e : -4000 <= e -> m <= m' <-> scaled_value m e <= scaled_value m' e.
Proof.
  pose proof bias_large as Hbias. intros He. unfold scaled_value. pose proof (Z.pow_pos_nonneg 2 (e + bias) ltac:(lia) ltac:(lia)). split; nia.
Qed.

(** A float, or infinity beyond the range. *)
Definition pack (m : positive) (e : Z) : float := if e <=? 971 then S754_finite false m e else S754_infinity false.

(** Floats compare as their values. *)
Lemma fle_pack m e k j :
  normal (Zpos m) e -> normal (Zpos k) j -> j <= 971 ->
  fle (pack m e) (S754_finite false k j) = (scaled_value (Zpos m) e <=? scaled_value (Zpos k) j).
Proof.
  intros [Hm He] [Hk Hj] Hmax. unfold pack.
  assert (forall a b c d, 2 ^ 52 <= a < 2 ^ 53 -> 2 ^ 52 <= b < 2 ^ 53 -> -1000 <= c -> c < d -> scaled_value a c < scaled_value b d) as Hlt.
  { intros a b c d Ha Hb Hc Hd. replace d with (c + (d - c)) by lia. rewrite scaled_shift by lia.
    apply Z.lt_nge. rewrite <-scaled_mono by lia.
    pose proof (Z.pow_le_mono_r 2 1 (d - c) ltac:(lia) ltac:(lia)). nia. }
  destruct (Z.leb_spec e 971).
  - unfold fle, SFleb, SFcompare. destruct (Z.compare_spec e j) as [->|Hej|Hej].
    + rewrite pos_compare_cont. pose proof (scaled_mono (Zpos m) (Zpos k) j ltac:(lia)).
      destruct (Z.compare_spec (Zpos m) (Zpos k)), (Z.leb_spec (scaled_value (Zpos m) j) (scaled_value (Zpos k) j)); try done; lia.
    + specialize (Hlt (Zpos m) (Zpos k) e j Hm Hk He Hej). symmetry. apply Z.leb_le. lia.
    + specialize (Hlt (Zpos k) (Zpos m) j e Hk Hm Hj Hej). symmetry. apply Z.leb_gt. lia.
  - specialize (Hlt (Zpos k) (Zpos m) j e Hk Hm Hj ltac:(lia)). symmetry. apply Z.leb_gt. lia.
Qed.

Lemma dig_unique z k : 0 < z -> 2 ^ (k - 1) <= z < 2 ^ k -> 1 <= k -> dig z = k.
Proof.
  intros Hz Hk H1. pose proof (dig_le z k ltac:(lia) ltac:(lia)). pose proof (dig_ge z (k - 1) ltac:(lia) ltac:(lia)). lia.
Qed.

(** Rounding a mantissa of at least 53 bits: cut to 53 bits, then perhaps one
    more; exact when nothing is cut. *)
Lemma round_normal m e l :
  0 < m -> 53 <= dig m -> -940 <= dig m + e ->
  exists m2 p e3, binary_round_aux prec emax false m e l = pack p e3 /\ normal (Zpos p) e3 /\
    scaled_value (Zpos p) e3 = scaled_value m2 (e + (dig m - 53)) /\
    m / 2 ^ (dig m - 53) <= m2 <= m / 2 ^ (dig m - 53) + 1 /\
    (l = loc_Exact -> m mod 2 ^ (dig m - 53) = 0 -> m2 = m / 2 ^ (dig m - 53)).
Proof.
  pose proof bias_large as Hbias. intros Hm Hd He. unfold binary_round_aux.
  pose proof (shr_fexp_spec m e l ltac:(lia)) as H1. cbv zeta in H1.
  assert (Z.max 0 (fx (dig m + e) - e) = dig m - 53) as En by (rewrite fx_eq; lia). rewrite En in H1.
  destruct (shr_fexp prec emax m e l) as [r1 e1]. destruct H1 as (-> & E1 & B1).
  pose proof (Z.pow_pos_nonneg 2 (dig m - 53) ltac:(lia) ltac:(lia)) as Hpow.
  pose proof (dig_spec m Hm) as [D1 D2].
  assert (2 ^ 52 <= m / 2 ^ (dig m - 53) < 2 ^ 53) as [M1 M2].
  { split; [apply Z.div_le_lower_bound; [lia|]|apply Z.div_lt_upper_bound; [lia|]]; rewrite <-Z.pow_add_r by lia;
      replace (dig m - 53 + 52) with (dig m - 1) by lia; replace (dig m - 53 + 53) with (dig m) by lia; done. }
  pose proof (round_bounds (shr_m r1) (loc_of_shr_record r1)) as Hr. rewrite E1 in *.
  remember (round_nearest_even (m / 2 ^ (dig m - 53)) (loc_of_shr_record r1)) as m2 eqn:Em2.
  exists m2. pose proof (shr_fexp_spec m2 (e + (dig m - 53)) loc_Exact ltac:(lia)) as H3. cbv zeta in H3.
  destruct (shr_fexp prec emax m2 (e + (dig m - 53)) loc_Exact) as [r3 e3]. destruct H3 as (-> & E3 & _).
  assert (l = loc_Exact -> m mod 2 ^ (dig m - 53) = 0 -> m2 = m / 2 ^ (dig m - 53)) as Hex.
  { intros Hl H0. by rewrite Em2, (B1 Hl H0). }
  set (E := e + (dig m - 53)) in *.
  destruct (Z.eq_dec m2 (2 ^ 53)) as [Eq|Hne].
  - assert (dig m2 = 54) as Ed by (rewrite Eq; done).
    assert (Z.max 0 (fx (dig m2 + E) - E) = 1) as En2 by (rewrite fx_eq; lia). rewrite En2 in *.
    rewrite Eq in E3. change (2 ^ 53 / 2 ^ 1) with (2 ^ 52) in E3. rewrite E3.
    change (2 ^ 52) with (Zpos (2 ^ 52)%positive) at 1. exists (2 ^ 52)%positive, (E + 1).
    split; [done|]. split; [split; [done|lia]|]. split; [|done].
    rewrite scaled_shift by lia. by rewrite Eq.
  - assert (dig m2 = 53) as Ed by (apply dig_unique; lia).
    assert (Z.max 0 (fx (dig m2 + E) - E) = 0) as En2 by (rewrite fx_eq; lia). rewrite En2 in *.
    rewrite Z.pow_0_r, Z.div_1_r in E3. rewrite E3. destruct m2 as [|p|p]; [lia| |lia]. exists p, (E + 0).
    split; [done|]. rewrite Z.add_0_r. split; [split; [lia|lia]|]. done.
Qed.

(** A bound whose exponent is below that of a normal value is below it. *)
Lemma scaled_exponent m E k j :
  2 ^ 52 <= m -> normal k j -> j < E -> scaled_value k j < scaled_value m E.
Proof.
  pose proof bias_large as Hbias. intros Hm [Hk Hj] HE. replace E with (j + (E - j)) by lia. rewrite scaled_shift by lia.
  apply Z.lt_nge. rewrite <-scaled_mono by lia. pose proof (Z.pow_le_mono_r 2 1 (E - j) ltac:(lia) ltac:(lia)). nia.
Qed.

Lemma cut_normal m : 0 < m -> 53 <= dig m -> 2 ^ 52 <= m / 2 ^ (dig m - 53).
Proof.
  pose proof bias_large as Hbias. intros Hm Hd. pose proof (dig_spec m Hm) as [D1 _]. apply Z.div_le_lower_bound; [apply Z.pow_pos_nonneg; lia|].
  rewrite <-Z.pow_add_r by lia. by replace (dig m - 53 + 52) with (dig m - 1) by lia.
Qed.

(** Rounding keeps a value on its side of a representable bound. *)
Lemma round_le m e l k j :
  0 < m -> 53 <= dig m -> -940 <= dig m + e -> -4000 <= e -> normal k j ->
  (scaled_value m e < scaled_value k j \/ scaled_value m e = scaled_value k j /\ l = loc_Exact) ->
  exists p e3, binary_round_aux prec emax false m e l = pack p e3 /\ normal (Zpos p) e3 /\
    scaled_value (Zpos p) e3 <= scaled_value k j.
Proof.
  pose proof bias_large as Hbias. intros Hm Hd He Hmin Hk Hv. destruct (round_normal m e l Hm Hd He) as (m2 & p & e3 & Hr & Hp & Es & Hb & Hx).
  exists p, e3. split; [done|]. split; [done|]. rewrite Es. clear Hr Hp Es.
  pose proof (cut_normal m Hm Hd) as Hc. set (n := dig m - 53) in *. set (m1 := m / 2 ^ n) in *.
  assert (0 <= n) as Hn by lia. pose proof (Z.pow_pos_nonneg 2 n ltac:(lia) Hn) as Hpow.
  pose proof (Z.mul_div_le m (2 ^ n) Hpow) as Hdiv. fold m1 in Hdiv.
  assert (e + n <= j) as HE.
  { apply Z.nlt_ge. intros HE. pose proof (scaled_exponent m1 (e + n) k j Hc Hk HE) as H.
    rewrite scaled_shift in H by lia. pose proof (proj1 (scaled_mono (m1 * 2 ^ n) m e Hmin) ltac:(lia)). lia. }
  replace j with (e + n + (j - (e + n))) in * by lia. rewrite (scaled_shift k (e + n)) in * by lia.
  set (N := k * 2 ^ (j - (e + n))) in *. apply (scaled_mono m2 N (e + n) ltac:(lia)).
  rewrite !(scaled_shift N e) in Hv by lia. destruct Hv as [Hv|[Hv ->]].
  - assert (m < N * 2 ^ n) as Hlt by (apply Z.nle_gt; rewrite (scaled_mono _ _ e Hmin); lia).
    assert (m1 < N) by (apply Z.div_lt_upper_bound; lia). lia.
  - assert (m = N * 2 ^ n) as Em by (apply Z.le_antisymm; apply (scaled_mono _ _ e Hmin); lia).
    assert (m1 = N) as E1 by (unfold m1; rewrite Em; apply Z.div_mul; lia).
    rewrite Hx; [lia|done|]. rewrite Em. apply Z.mod_mul. lia.
Qed.

Lemma round_ge m e l k j :
  0 < m -> 53 <= dig m -> -940 <= dig m + e -> -4000 <= e -> normal k j ->
  scaled_value k j <= scaled_value m e ->
  exists p e3, binary_round_aux prec emax false m e l = pack p e3 /\ normal (Zpos p) e3 /\
    scaled_value k j <= scaled_value (Zpos p) e3.
Proof.
  pose proof bias_large as Hbias. intros Hm Hd He Hmin Hk Hv. destruct (round_normal m e l Hm Hd He) as (m2 & p & e3 & Hr & Hp & Es & Hb & _).
  exists p, e3. split; [done|]. split; [done|]. rewrite Es. clear Hr Hp Es.
  pose proof (cut_normal m Hm Hd) as Hc. set (n := dig m - 53) in *. set (m1 := m / 2 ^ n) in *.
  assert (0 <= n) as Hn by lia. pose proof (Z.pow_pos_nonneg 2 n ltac:(lia) Hn) as Hpow.
  destruct (Z.le_gt_cases (e + n) j) as [HE|HE].
  - replace j with (e + n + (j - (e + n))) in * by lia. rewrite (scaled_shift k (e + n)) in * by lia.
    set (N := k * 2 ^ (j - (e + n))) in *. apply (scaled_mono N m2 (e + n) ltac:(lia)).
    rewrite (scaled_shift N e) in Hv by lia. apply (scaled_mono _ _ e Hmin) in Hv.
    assert (N <= m1) by (apply Z.div_le_lower_bound; lia). lia.
  - pose proof (scaled_exponent m2 (e + n) k j ltac:(lia) Hk ltac:(lia)). lia.
Qed.

(** ** Milliseconds *)

(** [delta.total_seconds() * 1000], [delta] in microseconds. *)
Definition total_seconds (us : Z) : float := float_of_ratio (us <? 0) (Z.abs us) 1000000.
Definition delta_ms (us : Z) : float := fmul (total_seconds us) (float_of_Z 1000).

Lemma f1000_eq : float_of_Z 1000 = S754_finite false 8796093022208000 (-43).
Proof. by vm_compute. Qed.
Lemma f5000_eq : float_of_Z 5000 = S754_finite false 5497558138880000 (-40).
Proof. by vm_compute. Qed.

(** The quotient that is rounded to the seconds. *)
Lemma seconds_quotient us :
  0 < us -> let '(q, e, l) := SFdiv_core_binary prec emax us 0 1000000 0 in
  e <= 0 /\ -1000 <= e /\ 0 < q /\ 53 <= dig q /\ -40 <= dig q + e /\ q = us * 2 ^ (- e) / 1000000 /\
  (us * 2 ^ (- e) mod 1000000 = 0 -> l = loc_Exact) /\ 2 ^ (e + bias) <= us * 2 ^ (bias - 72).
Proof.
  pose proof bias_large as Hbias. intros Hus. destruct us as [|u|]; [lia| |lia]. pose proof (core_spec u 0 1000000 0) as H.
  destruct (SFdiv_core_binary prec emax (Zpos u) 0 1000000 0) as [[q e] l]. cbv zeta in H. destruct H as (He & Hq & Hl).
  change (dig 1000000) with 20 in He. rewrite fx_eq in He.
  pose proof (dig_spec (Zpos u) ltac:(lia)) as [D1 D2]. pose proof (dig_ge (Zpos u) 0 ltac:(lia) ltac:(simpl; lia)) as D3.
  replace (0 - 0 - e) with (- e) in * by lia. set (d := dig (Zpos u)) in *.
  assert (e = Z.min (d - 73) 0) as He' by lia. clear He.
  assert (2 ^ (Z.max 52 (d - 21)) <= q) as Hq1.
  { rewrite Hq. apply Z.div_le_lower_bound; [lia|]. transitivity (2 ^ 20 * 2 ^ Z.max 52 (d - 21)).
    - apply Z.mul_le_mono_nonneg_r; [apply Z.pow_nonneg; lia|lia].
    - rewrite <-Z.pow_add_r by lia. transitivity (2 ^ (d - 1) * 2 ^ (- e)).
      + rewrite <-Z.pow_add_r by lia. apply Z.pow_le_mono_r; lia.
      + apply Z.mul_le_mono_nonneg_r; [apply Z.pow_nonneg; lia|done]. }
  pose proof (dig_ge q (Z.max 52 (d - 21)) ltac:(lia) Hq1). pose proof (Z.pow_pos_nonneg 2 (Z.max 52 (d - 21)) ltac:(lia) ltac:(lia)).
  split_and!; [lia|lia|lia|lia|lia|done|done|].
  transitivity (2 ^ (d - 1) * 2 ^ (bias - 72)); [rewrite <-Z.pow_add_r by lia; apply Z.pow_le_mono_r; lia|].
  apply Z.mul_le_mono_nonneg_r; [apply Z.pow_nonneg; lia|done].
Qed.

(** A positive difference is a normal number of seconds, at most 5 or at least
    5 + 2^-21. *)
Lemma total_seconds_pos us :
  0 < us -> exists p e, total_seconds us = pack p e /\ normal (Zpos p) e /\
    (us <= 5000000 -> scaled_value (Zpos p) e <= scaled_value (5 * 2 ^ 50) (-50)) /\
    (5000001 <= us -> scaled_value ((5 * 2 ^ 21 + 1) * 2 ^ 29) (-50) <= scaled_value (Zpos p) e).
Proof.
  pose proof bias_large as Hbias. intros Hus. unfold total_seconds, float_of_ratio. rewrite (proj2 (Z.ltb_ge us 0)), Z.abs_eq by lia.
  destruct (Z.eqb_spec us 0); [lia|]. pose proof (seconds_quotient us Hus) as H.
  destruct (SFdiv_core_binary prec emax us 0 1000000 0) as [[q e] l].
  destruct H as (He & Hmin & Hq & Hd & Hde & Eq & Hl & Hsmall).
  pose proof (Z.mul_div_le (us * 2 ^ (- e)) 1000000 ltac:(lia)) as Hle. rewrite <-Eq in Hle.
  pose proof (Z.mul_succ_div_gt (us * 2 ^ (- e)) 1000000 ltac:(lia)) as Hgt. rewrite <-Eq in Hgt.
  assert (2 ^ bias = 2 ^ (- e) * 2 ^ (e + bias)) as Epow by (rewrite <-Z.pow_add_r by lia; f_equal; lia).
  pose proof (Z.pow_pos_nonneg 2 (e + bias) ltac:(lia) ltac:(lia)) as Hpos.
  destruct (Z.le_gt_cases us 5000000) as [Hle5|Hgt5].
  - destruct (round_le q e l (5 * 2 ^ 50) (-50)) as (p & e3 & H1 & H2 & H3); [done|done|lia|lia|split; lia| |].
    + assert (q <= 5 * 2 ^ (- e)) as Hq5.
      { pose proof (Z.pow_pos_nonneg 2 (- e) ltac:(lia) ltac:(lia)). nia. }
      assert (scaled_value (5 * 2 ^ 50) (-50) = 5 * 2 ^ (- e) * 2 ^ (e + bias)) as ->.
      { rewrite <-Z.mul_assoc, <-Epow. unfold scaled_value. replace (-50 + bias) with (bias - 50) by lia.
        rewrite <-Z.mul_assoc, <-Z.pow_add_r by lia. done. }
      unfold scaled_value. destruct (Z.eq_dec q (5 * 2 ^ (- e))) as [E|E]; [right|left; nia].
      split; [by rewrite E|]. apply Hl.
      assert (us * 2 ^ (- e) = 5 * 2 ^ (- e) * 1000000) as ->; [|apply Z.mod_mul; lia].
      pose proof (Z.pow_pos_nonneg 2 (- e) ltac:(lia) ltac:(lia)). nia.
    + exists p, e3. split_and!; [done|done|done|lia].
  - destruct (round_ge q e l ((5 * 2 ^ 21 + 1) * 2 ^ 29) (-50)) as (p & e3 & H1 & H2 & H3); [done|done|lia|lia|split; lia| |].
    + unfold scaled_value. replace (-50 + bias) with (bias - 72 + 22) by lia. rewrite Z.pow_add_r by lia.
      assert (2 ^ bias = 2 ^ 72 * 2 ^ (bias - 72)) as E72 by (rewrite <-Z.pow_add_r by lia; done).
      pose proof (Z.pow_pos_nonneg 2 (bias - 72) ltac:(lia) ltac:(lia)) as HP.
      remember (2 ^ (bias - 72)) as P eqn:EP. remember (2 ^ (e + bias)) as F eqn:EF. remember (2 ^ (- e)) as D eqn:ED.
      clear EP EF ED. assert (us * (2 ^ 72 * P) = us * D * F) as Hus2 by (rewrite <-E72, Epow; lia).
      assert (us * D * F < 1000000 * (q + 1) * F) as H1 by (apply Z.mul_lt_mono_pos_r; [done|]; lia).
      assert (1000000 * ((5 * 2 ^ 21 + 1) * 2 ^ 29 * (P * 2 ^ 22)) <= 1000000 * (q * F)); [|lia].
      nia.
    + exists p, e3. split_and!; [done|done|lia|done].
Qed.

(** Rounding is symmetric. *)
Definition negated (x : float) : float :=
  match x with S754_finite _ m e => S754_finite true m e | S754_infinity _ => S754_infinity true | S754_zero _ => S754_zero true | S754_nan => S754_nan end.
Lemma round_negated m e l : binary_round_aux prec emax true m e l = negated (binary_round_aux prec emax false m e l).
Proof.
  pose proof bias_large as Hbias. unfold binary_round_aux. destruct (shr_fexp _ _ _ _ _) as [r1 e1]. destruct (shr_fexp _ _ _ e1 _) as [r3 e3].
  destruct (shr_m r3); [done| |done]. by destruct (Z.leb _ _).
Qed.

Lemma total_seconds_neg us : us < 0 -> total_seconds us = negated (total_seconds (- us)).
Proof.
  pose proof bias_large as Hbias. intros Hus. unfold total_seconds, float_of_ratio.
  rewrite (proj2 (Z.ltb_lt us 0)), (proj2 (Z.ltb_ge (- us) 0)), Z.abs_opp by lia.
  destruct (Z.abs us =? 0); [done|]. destruct (SFdiv_core_binary _ _ _ _ _ _) as [[q e] l]. apply round_negated.
Qed.

(** A thousand times a normal number. *)
Lemma times_1000 p e :
  normal (Zpos p) e ->
  exists p' e', binary_round_aux prec emax false (Zpos (p * 8796093022208000)) (e + -43) loc_Exact = pack p' e' /\
    normal (Zpos p') e' /\
    (scaled_value (Zpos p) e <= scaled_value (5 * 2 ^ 50) (-50) -> scaled_value (Zpos p') e' <= scaled_value 5497558138880000 (-40)) /\
    (scaled_value ((5 * 2 ^ 21 + 1) * 2 ^ 29) (-50) <= scaled_value (Zpos p) e ->
     scaled_value ((5000 * 2 ^ 12 + 1) * 2 ^ 28) (-40) <= scaled_value (Zpos p') e').
Proof.
  pose proof bias_large as Hbias. intros [Hp He]. rewrite Pos2Z.inj_mul.
  assert (2 ^ 104 <= Zpos p * 8796093022208000) as Hbig by lia.
  pose proof (dig_ge (Zpos p * 8796093022208000) 104 ltac:(lia) Hbig) as Hd.
  assert (scaled_value (Zpos p * 8796093022208000) (e + -43) = 1000 * scaled_value (Zpos p) e) as Es.
  { unfold scaled_value. replace (e + bias) with (43 + (e + -43 + bias)) by lia. rewrite (Z.pow_add_r 2 43 (e + -43 + bias)) by lia. change (2 ^ 43) with 8796093022208. lia. }
  assert (scaled_value 5497558138880000 (-40) = 1000 * scaled_value (5 * 2 ^ 50) (-50)) as Eu.
  { unfold scaled_value. replace (-40 + bias) with (10 + (bias - 50)) by lia. replace (-50 + bias) with (bias - 50) by lia.
    rewrite (Z.pow_add_r 2 10 (bias - 50)) by lia. change (2 ^ 10) with 1024. remember (2 ^ (bias - 50)) as P. lia. }
  assert (scaled_value ((5000 * 2 ^ 12 + 1) * 2 ^ 28) (-40) <= 1000 * scaled_value ((5 * 2 ^ 21 + 1) * 2 ^ 29) (-50)) as El.
  { unfold scaled_value. replace (-40 + bias) with (10 + (bias - 50)) by lia. replace (-50 + bias) with (bias - 50) by lia.
    rewrite (Z.pow_add_r 2 10 (bias - 50)) by lia. change (2 ^ 10) with 1024.
    pose proof (Z.pow_pos_nonneg 2 (bias - 50) ltac:(lia) ltac:(lia)) as HP. remember (2 ^ (bias - 50)) as P. lia. }
  destruct (Z.le_gt_cases (scaled_value (Zpos p) e) (scaled_value (5 * 2 ^ 50) (-50))) as [Hc|Hc].
  - destruct (round_le (Zpos p * 8796093022208000) (e + -43) loc_Exact 5497558138880000 (-40)) as (p' & e' & H1 & H2 & H3);
      [lia|lia|lia|lia|split; lia| |].
    + rewrite Es, Eu. destruct (Z.eq_dec (scaled_value (Zpos p) e) (scaled_value (5 * 2 ^ 50) (-50))); [right|left]; [split; [lia|done]|lia].
    + exists p', e'. split_and!; [done|done|done|]. intros Hlow.
      assert (scaled_value (5 * 2 ^ 50) (-50) < scaled_value ((5 * 2 ^ 21 + 1) * 2 ^ 29) (-50)); [|lia].
      apply Z.nle_gt. rewrite <-scaled_mono by lia. lia.
  - destruct (Z.le_gt_cases (scaled_value ((5 * 2 ^ 21 + 1) * 2 ^ 29) (-50)) (scaled_value (Zpos p) e)) as [Hl|Hl].
    + destruct (round_ge (Zpos p * 8796093022208000) (e + -43) loc_Exact ((5000 * 2 ^ 12 + 1) * 2 ^ 28) (-40)) as (p' & e' & H1 & H2 & H3);
        [lia|lia|lia|lia|split; lia|lia|]. exists p', e'. split_and!; [done|done|lia|done].
    + destruct (round_normal (Zpos p * 8796093022208000) (e + -43) loc_Exact) as (m2 & p' & e' & H1 & H2 & _); [lia..|].
      exists p', e'. split_and!; [done|done|lia|lia].
Qed.

(** Comparing the rounded milliseconds with 5000 is comparing microseconds. *)
Lemma delta_ms_5000 us :
  flt (delta_ms us) f0 || fle (delta_ms us) (float_of_Z 5000) = (us <=? 5000000).
Proof.
  pose proof bias_large as Hbias. assert (f0 = S754_zero false) as Ef0 by done. rewrite Ef0, f5000_eq. clear Ef0.
  destruct (Z.lt_trichotomy us 0) as [Hneg|[->|Hpos]]; [|by vm_compute|].
  - rewrite (proj2 (Z.leb_le us 5000000)) by lia. unfold delta_ms. rewrite total_seconds_neg, f1000_eq by done.
    destruct (total_seconds_pos (- us) ltac:(lia)) as (p & e & -> & Hp & _). unfold pack. destruct (e <=? 971); [|done].
    cbn [negated fmul SFmul xorb]. unfold fmul, SFmul. cbn [xorb]. rewrite round_negated.
    destruct (times_1000 p e Hp) as (p' & e' & -> & _). unfold pack. by destruct (e' <=? 971).
  - destruct (total_seconds_pos us Hpos) as (p & e & E & Hp & Hle & Hge). unfold delta_ms. rewrite E, f1000_eq.
    assert (forall q j, flt (pack q j) (S754_zero false) = false) as Hz by (intros q j; unfold pack; by destruct (j <=? 971)).
    unfold pack at 1 2. destruct (Z.leb_spec e 971) as [He|He].
    + unfold fmul, SFmul. cbn [xorb]. destruct (times_1000 p e Hp) as (p' & e' & -> & Hp' & Hle' & Hge').
      rewrite Hz. cbn [orb]. rewrite fle_pack; [|done|split; lia|lia].
      destruct (Z.leb_spec us 5000000) as [Hus|Hus].
      * apply Z.leb_le. auto.
      * apply Z.leb_gt. specialize (Hge' (Hge ltac:(lia))).
        assert (scaled_value 5497558138880000 (-40) < scaled_value ((5000 * 2 ^ 12 + 1) * 2 ^ 28) (-40)); [|lia].
        apply Z.nle_gt. rewrite <-scaled_mono by lia. lia.
    + destruct (Z.leb_spec us 5000000) as [Hus|Hus]; [|done]. specialize (Hle Hus).
      pose proof (scaled_exponent (Zpos p) e (5 * 2 ^ 50) (-50) ltac:(destruct Hp; lia) ltac:(split; lia) ltac:(lia)). lia.
Qed.
