(* ===== verification/PyVal.v ===== *)
(** * Dynamic Python values, their [str], and [json.dumps]

    [pyval] is what the program keeps where its types say [Any] or [object]:
    JSON-like data, with [VObj] for any other object, which the program only
    ever turns into text ([text] is its [str]).  Dictionaries have string keys.
    [json_dumps] is [json.dumps(v, ensure_ascii=False)]; the flag says whether
    [default=str] is passed.  [json_one_line]: a serialised value has no control
    character, so it is a single line. *)

From S2P Require Import Prelude PyStr PyDict PyFloat.
From Stdlib Require Import Ascii.

Inductive pyval :=
  | VNone
  | VBool (b : bool)
  | VInt (z : Z)
  | VFloat (x : float)
  | VStr (s : string)
  | VList (l : list pyval)
  | VTuple (l : list pyval)
  | VDict (d : list (string * pyval))
  | VObj (cls text : string).

Section pyval_induction.
Variable P : pyval -> Prop.
Hypothesis HNone : P VNone.
Hypothesis HBool : forall b, P (VBool b).
Hypothesis HInt : forall z, P (VInt z).
Hypothesis HFloat : forall x, P (VFloat x).
Hypothesis HStr : forall s, P (VStr s).
Hypothesis HList : forall l, Forall P l -> P (VList l).
Hypothesis HTuple : forall l, Forall P l -> P (VTuple l).
Hypothesis HDict : forall d, Forall (fun kv => P kv.2) d -> P (VDict d).
Hypothesis HObj : forall c t, P (VObj c t).

(** Induction over the nested lists and dictionaries. *)
Fixpoint pyval_nested_ind (v : pyval) : P v :=
  let fix go_list (l : list pyval) : Forall P l :=
    match l with
    | [] => List.Forall_nil P
    | x :: l' => List.Forall_cons P x l' (pyval_nested_ind x) (go_list l')
    end in
  let fix go_dict (d : list (string * pyval)) : Forall (fun kv => P kv.2) d :=
    match d with
    | [] => List.Forall_nil _
    | kv :: d' => List.Forall_cons (fun kv => P kv.2) kv d' (pyval_nested_ind kv.2) (go_dict d')
    end in
  match v with
  | VNone => HNone
  | VBool b => HBool b
  | VInt z => HInt z
  | VFloat x => HFloat x
  | VStr s => HStr s
  | VList l => HList l (go_list l)
  | VTuple l => HTuple l (go_list l)
  | VDict d => HDict d (go_dict d)
  | VObj c t => HObj c t
  end.
End pyval_induction.

(** [bool(v)]; an opaque object is true. *)
Definition truth (v : pyval) : bool :=
  match v with
  | VNone => false
  | VBool b => b
  | VInt z => negb (z =? 0)
  | VFloat x => ftruth x
  | VStr s => negb (String.eqb s "")
  | VList l | VTuple l => match l with [] => false | _ => true end
  | VDict d => match d with [] => false | _ => true end
  | VObj _ _ => true
  end.

(** [repr(v)] and [str(v)] *)
Fixpoint py_repr (v : pyval) : string :=
  match v with
  | VNone => "None"
  | VBool b => if b then "True" else "False"
  | VInt z => str_of_Z z
  | VFloat x => repr_float x
  | VStr s => repr s
  | VList l => "[" +:+ join ", " (map py_repr l) +:+ "]"
  | VTuple l =>
      match l with
      | [x] => "(" +:+ py_repr x +:+ ",)"
      | _ => "(" +:+ join ", " (map py_repr l) +:+ ")"
      end
  | VDict d => "{" +:+ join ", " (map (fun kv => repr kv.1 +:+ ": " +:+ py_repr kv.2) d) +:+ "}"
  | VObj _ t => t
  end.
Definition py_str (v : pyval) : string := match v with VStr s => s | _ => py_repr v end.

(** [type(v).__name__]; an opaque object carries the name of its class. *)
Definition type_name (v : pyval) : string :=
  match v with
  | VNone => "NoneType" | VBool _ => "bool" | VInt _ => "int" | VFloat _ => "float" | VStr _ => "str"
  | VList _ => "list" | VTuple _ => "tuple" | VDict _ => "dict" | VObj c _ => c
  end.

(** ** [==] *)

(** The value of a number: [bool] and [int] exactly, a finite float as
    [m * 2^e]. *)
Definition num_eq (z : Z) (x : float) : bool :=
  match x with
  | S754_zero _ => z =? 0
  | S754_finite s m e =>
      let v := if s then Z.neg m else Zpos m in
      if 0 <=? e then z =? v * 2 ^ e else z * 2 ^ (- e) =? v
  | _ => false
  end.
Definition bool_Z (b : bool) : Z := if b then 1 else 0.

(** Equality of values: numbers compare by value across types, lists and tuples
    elementwise, dictionaries whatever their order.  An opaque object is
    identified with its class and text. *)
Fixpoint py_eq (v w : pyval) : bool :=
  let fix eq_list (l m : list pyval) : bool :=
    match l, m with
    | [], [] => true
    | x :: l', y :: m' => py_eq x y && eq_list l' m'
    | _, _ => false
    end in
  match v, w with
  | VNone, VNone => true
  | VStr s, VStr t => String.eqb s t
  | VBool a, VBool b => Bool.eqb a b
  | VInt a, VInt b => a =? b
  | VBool a, VInt b | VInt b, VBool a => b =? bool_Z a
  | VFloat x, VFloat y => feq x y
  | VInt a, VFloat x | VFloat x, VInt a => num_eq a x
  | VBool a, VFloat x | VFloat x, VBool a => num_eq (bool_Z a) x
  | VList l, VList m | VTuple l, VTuple m => eq_list l m
  | VDict d, VDict e =>
      (length d =? length e)%nat
      && (fix eq_dict (d : list (string * pyval)) : bool :=
            match d with
            | [] => true
            | kv :: d' => match dget e kv.1 with Some x => py_eq kv.2 x | None => false end && eq_dict d'
            end) d
  | VObj c t, VObj c' t' => String.eqb c c' && String.eqb t t'
  | _, _ => false
  end.

(** ** JSON *)

Definition json_escape (c : ascii) : string :=
  if ord c =? 34 then String (chr 92) (String c "")
  else if ord c =? 92 then String (chr 92) (String c "")
  else if ord c =? 8 then "\b" else if ord c =? 12 then "\f" else if ord c =? 10 then "\n"
  else if ord c =? 13 then "\r" else if ord c =? 9 then "\t"
  else if ord c <? 32 then "\u00" +:+ String (hex_char (ord c / 16)) (String (hex_char (ord c mod 16)) "")
  else String c "".
Fixpoint json_body (s : string) : string :=
  match s with EmptyString => "" | String c s' => json_escape c +:+ json_body s' end.
Definition json_string (s : string) : string :=
  String (chr 34) (json_body s +:+ String (chr 34) "").

Definition json_float (x : float) : string :=
  match x with
  | S754_nan => "NaN"
  | S754_infinity s => sign_str s +:+ "Infinity"
  | _ => repr_float x
  end.

(** Every element's text, or the first element's error. *)
Fixpoint rmap {A} (f : A -> res string) (l : list A) : res (list string) :=
  match l with
  | [] => Ok []
  | x :: l' => t <-! f x ;; ts <-! rmap f l' ;; Ok (t :: ts)
  end.

Fixpoint json_dumps (default_str : bool) (v : pyval) : res string :=
  match v with
  | VNone => Ok "null"
  | VBool b => Ok (if b then "true" else "false")
  | VInt z => Ok (str_of_Z z)
  | VFloat x => Ok (json_float x)
  | VStr s => Ok (json_string s)
  | VList l | VTuple l =>
      ts <-! rmap (json_dumps default_str) l ;; Ok ("[" +:+ join ", " ts +:+ "]")
  | VDict d =>
      ts <-! rmap (fun kv => t <-! json_dumps default_str kv.2 ;; Ok (json_string kv.1 +:+ ": " +:+ t)) d ;;
      Ok ("{" +:+ join ", " ts +:+ "}")
  | VObj cls t =>
      if default_str then Ok (json_string t)
      else Raise (TypeError ("Object of type " +:+ cls +:+ " is not JSON serializable"))
  end.

(** ** Properties *)

(** A printable character: no control character, so no line break. *)
Definition visible (c : ascii) : bool := 32 <=? ord c.
Definition one_line (s : string) : bool := sall visible s.

Lemma one_line_app s t : one_line (s +:+ t) = one_line s && one_line t.
Proof. apply sall_app. Qed.
#[export] Hint Rewrite one_line_app : pystr.

Lemma one_line_join sep l :
  one_line sep = true -> Forall (fun s => one_line s = true) l -> one_line (join sep l) = true.
Proof.
  intros Hs. induction 1 as [|s l Hl Hls IH]; [done|].
  destruct l as [|t l]; [done|]. rewrite join_cons by done. rewrite !one_line_app, Hs, Hl, IH. done.
Qed.

Lemma visible_chr z : 32 <= z < 256 -> visible (chr z) = true.
Proof. intros H. unfold visible. rewrite ord_chr by lia. apply Z.leb_le. lia. Qed.

Lemma visible_hex z : 0 <= z < 16 -> visible (hex_char z) = true.
Proof.
  intros H. unfold hex_char. destruct (Z.ltb_spec z 10); apply visible_chr; lia.
Qed.

Lemma one_line_escape c : one_line (json_escape c) = true.
Proof.
  pose proof (ord_range c) as Hc. unfold json_escape, one_line.
  repeat match goal with |- context [if (ord c =? ?k) then _ else _] =>
    destruct (Z.eqb_spec (ord c) k) as [E|?]; [try done; simpl; unfold visible; by rewrite E|] end.
  destruct (Z.ltb_spec (ord c) 32).
  - rewrite sall_app. simpl. pose proof (Z.mod_pos_bound (ord c) 16 ltac:(lia)).
    pose proof (Z.div_pos (ord c) 16 ltac:(lia) ltac:(lia)).
    pose proof (Z.div_lt_upper_bound (ord c) 16 16 ltac:(lia) ltac:(lia)).
    by rewrite !visible_hex by lia.
  - simpl. unfold visible. rewrite andb_true_r. by apply Z.leb_le.
Qed.

Lemma one_line_json_string s : one_line (json_string s) = true.
Proof.
  unfold json_string, one_line. simpl. rewrite sall_app. simpl. rewrite !andb_true_r.
  induction s as [|c s IH]; [done|]. simpl. rewrite sall_app, IH, andb_true_r. apply one_line_escape.
Qed.

Lemma one_line_digits_go f z acc : 0 <= z -> one_line acc = true -> one_line (digits_go f z acc) = true.
Proof.
  revert z acc; induction f as [|f IH]; intros z acc Hz Ha; cbn [digits_go]; [done|].
  pose proof (Z.mod_pos_bound z 10 ltac:(lia)). pose proof (Z.div_pos z 10 Hz ltac:(lia)).
  assert (one_line (String (digit_char (z mod 10)) acc) = true).
  { unfold one_line in *. cbn [sall]. rewrite Ha, andb_true_r. apply visible_chr. lia. }
  destruct (z / 10 =? 0); [done|]. by apply IH.
Qed.
Lemma one_line_nat_digits z : 0 <= z -> one_line (nat_digits z) = true.
Proof. intros. by apply one_line_digits_go. Qed.
Lemma one_line_str_of_Z z : one_line (str_of_Z z) = true.
Proof.
  unfold str_of_Z. destruct (Z.ltb_spec z 0); [rewrite one_line_app; simpl|]; apply one_line_nat_digits; lia.
Qed.

Lemma one_line_pad_zeros n : one_line (pad_zeros n) = true.
Proof. by induction n. Qed.
Lemma one_line_zfill w s : one_line s = true -> one_line (zfill w s) = true.
Proof. intros H. unfold zfill. by rewrite one_line_app, one_line_pad_zeros, H. Qed.
Lemma one_line_rstrip p s : one_line s = true -> one_line (rstrip_by p s) = true.
Proof.
  destruct (rstrip_by_decomp p s) as (t & E & _). rewrite E at 1.
  rewrite one_line_app, andb_true_iff. tauto.
Qed.
Lemma one_line_stake n s : one_line s = true -> one_line (stake n s) = true.
Proof. rewrite <-(stake_sdrop n s) at 1. rewrite one_line_app, andb_true_iff. tauto. Qed.
Lemma one_line_sdrop n s : one_line s = true -> one_line (sdrop n s) = true.
Proof. rewrite <-(stake_sdrop n s) at 1. rewrite one_line_app, andb_true_iff. tauto. Qed.

Lemma one_line_cons c s : one_line (String c s) = visible c && one_line s.
Proof. done. Qed.

Lemma one_line_exponent ex :
  one_line ((if ex <? 0 then "-" else "+") +:+ zfill 2 (nat_digits (Z.abs ex))) = true.
Proof.
  rewrite one_line_app, one_line_zfill by (apply one_line_nat_digits; lia). by destruct (ex <? 0).
Qed.

Lemma one_line_place_point ds p : one_line ds = true -> one_line (place_point ds p) = true.
Proof.
  intros H. unfold place_point. cbv zeta. destruct (_ && _).
  - repeat case_match; rewrite ?one_line_app, ?one_line_pad_zeros, ?H, ?one_line_stake, ?one_line_sdrop; done.
  - generalize (one_line_exponent (p - 1)).
    generalize ((if p - 1 <? 0 then "-" else "+") +:+ zfill 2 (nat_digits (Z.abs (p - 1)))). intros es He.
    destruct ds as [|c ds]; [done|]. rewrite one_line_cons, andb_true_iff in H. destruct H as [Hc H].
    destruct ds; rewrite !one_line_app, one_line_cons, Hc, He, ?H; done.
Qed.

Lemma div_half_even_nonneg n d : 0 <= n -> 0 < d -> 0 <= div_half_even n d.
Proof.
  intros. unfold div_half_even. pose proof (Z.div_pos n d ltac:(lia) ltac:(lia)).
  repeat case_match; lia.
Qed.
Lemma num_pos m e : 0 < num m e.
Proof. unfold num. case_match; [|lia]. apply Z.mul_pos_pos; [lia|]. apply Z.pow_pos_nonneg; lia. Qed.
Lemma den_pos e : 0 < den e.
Proof. unfold den. case_match; [lia|]. apply Z.pow_pos_nonneg; lia. Qed.
Lemma digits_k_nonneg n d p k : 0 <= n -> 0 < d -> 0 <= digits_k n d p k.
Proof.
  intros. unfold digits_k. case_match; apply div_half_even_nonneg; lia.
Qed.
Lemma shortest_nonneg f x n d p k : 0 <= n -> 0 < d -> 0 <= (shortest f x n d p k).1.
Proof.
  intros. revert k; induction f as [|f IH]; intros k; simpl; [by apply digits_k_nonneg|].
  case_match; [by apply digits_k_nonneg|apply IH].
Qed.

Lemma one_line_sign b : one_line (sign_str b) = true.
Proof. by destruct b. Qed.
Lemma one_line_repr_float x : one_line (repr_float x) = true.
Proof.
  destruct x as [s|s| |s m e]; [by destruct s|by destruct s|done|]. unfold repr_float. cbv zeta.
  pose proof (shortest_nonneg 17 (S754_finite false m e) (num m e) (den e)
    (find_point 700 (num m e) (den e) (-340)) 1 ltac:(pose proof (num_pos m e); lia) (den_pos e)) as Hg.
  destruct (shortest _ _ _ _ _ _) as [g k]. rewrite one_line_app, one_line_sign. cbn [fst] in Hg.
  apply one_line_place_point, one_line_rstrip, one_line_nat_digits, Hg.
Qed.
Lemma one_line_json_float x : one_line (json_float x) = true.
Proof.
  destruct x as [s|s| |s m e]; [apply (one_line_repr_float (S754_zero s))|by destruct s|done|].
  apply (one_line_repr_float (S754_finite s m e)).
Qed.

Lemma rmap_one_line {A} (f : A -> res string) l ts :
  Forall (fun x => forall t, f x = Ok t -> one_line t = true) l ->
  rmap f l = Ok ts -> Forall (fun t => one_line t = true) ts.
Proof.
  intros Hl. revert ts; induction Hl as [|x l Hx Hl IH]; simpl; intros ts; [intros [= <-]; constructor|].
  destruct (f x) as [t|] eqn:E; simpl; [|done]. destruct (rmap f l) as [ts'|]; simpl; [|done].
  intros [= <-]. constructor; auto.
Qed.

(** A serialised value is one line of printable characters. *)
Lemma json_one_line b v t : json_dumps b v = Ok t -> one_line t = true.
Proof.
  revert t; induction v as [|?|?|?|?|l IH|l IH|d IH|? ?] using pyval_nested_ind; intros out; simpl.
  - by intros [= <-].
  - intros [= <-]. by case_match.
  - intros [= <-]. apply one_line_str_of_Z.
  - intros [= <-]. apply one_line_json_float.
  - intros [= <-]. apply one_line_json_string.
  - destruct (rmap _ l) as [ts|] eqn:E; simpl; [|done]. intros [= <-].
    rewrite !one_line_app, one_line_join; [done..|]. by eapply rmap_one_line.
  - destruct (rmap _ l) as [ts|] eqn:E; simpl; [|done]. intros [= <-].
    rewrite !one_line_app, one_line_join; [done..|]. by eapply rmap_one_line.
  - destruct (rmap _ d) as [ts|] eqn:E; simpl; [|done]. intros [= <-].
    rewrite !one_line_app, one_line_join; [done..|]. eapply rmap_one_line; [|done].
    eapply Forall_impl; [exact IH|]. intros [k v] Hv t'. simpl in *.
    destruct (json_dumps b v) as [t0|] eqn:Et; simpl; [|done]. intros [= <-].
    rewrite !one_line_app, one_line_json_string. rewrite (Hv t0) by done. done.
  - case_match; [|done]. intros [= <-]. apply one_line_json_string.
Qed.

(** With [default=str] serialisation never fails. *)
Lemma json_dumps_total v : exists t, json_dumps true v = Ok t.
Proof.
  assert (forall (A : Type) (f : A -> res string) l,
    Forall (fun x => exists t, f x = Ok t) l -> exists ts, rmap f l = Ok ts) as Hr.
  { intros A f l. induction 1 as [|x l [t Ht] Hl [ts IH]]; simpl; [eauto|]. rewrite Ht, IH. simpl. eauto. }
  induction v as [| | | | |l IH|l IH|d IH|] using pyval_nested_ind; simpl; eauto.
  - destruct (Hr _ _ _ IH) as [ts ->]. simpl. eauto.
  - destruct (Hr _ _ _ IH) as [ts ->]. simpl. eauto.
  - edestruct (Hr _ (fun kv : string * pyval => t <-! json_dumps true kv.2 ;; Ok (json_string kv.1 +:+ ": " +:+ t)) d)
      as [ts ->]; [|simpl; eauto].
    eapply Forall_impl; [exact IH|]. intros [k v] [t Ht]. simpl in *. rewrite Ht. simpl. eauto.
Qed.

(** What a model of an unchecked constructor answers to values of other types than the
    annotated ones. *)
Definition ill_typed : exn := OtherError "IllTyped" "the type of a field is not its annotated type".
