(* ===== verification/PyJson.v ===== *)
(** * JSON text

    [json_ascii] is [json.dumps(v)] (with [ensure_ascii], the default) and
    [json_loads] is [json.loads], with [None] for a [JSONDecodeError].  An escape
    above [\u00ff] stands for a character that strings here do not have, and is
    refused as an error.

    [json_loads_dumps]: what is written is read back, for values without floats
    and with keys that differ. *)

From S2P Require Import Prelude PyStr PyDict PyFloat PyVal.
From Stdlib Require Import Ascii.

(** ** Writing *)

Definition hex2 (z : Z) : string := String (hex_char (z / 16)) (String (hex_char (z mod 16)) "").
Definition ascii_escape (c : ascii) : string :=
  if ord c =? 34 then String (chr 92) (String c "")
  else if ord c =? 92 then String (chr 92) (String c "")
  else if ord c =? 8 then "\b" else if ord c =? 12 then "\f" else if ord c =? 10 then "\n"
  else if ord c =? 13 then "\r" else if ord c =? 9 then "\t"
  else if (ord c <? 32) || (126 <? ord c) then "\u00" +:+ hex2 (ord c)
  else String c "".
Fixpoint ascii_body (s : string) : string :=
  match s with EmptyString => "" | String c s' => ascii_escape c +:+ ascii_body s' end.
Definition quote : ascii := chr 34.
Definition ascii_string (s : string) : string := String quote (ascii_body s +:+ String quote "").

Fixpoint json_ascii (v : pyval) : res string :=
  match v with
  | VNone => Ok "null"
  | VBool b => Ok (if b then "true" else "false")
  | VInt z => Ok (str_of_Z z)
  | VFloat x => Ok (json_float x)
  | VStr s => Ok (ascii_string s)
  | VList l | VTuple l => ts <-! rmap json_ascii l ;; Ok ("[" +:+ join ", " ts +:+ "]")
  | VDict d =>
      ts <-! rmap (fun kv => t <-! json_ascii kv.2 ;; Ok (ascii_string kv.1 +:+ ": " +:+ t)) d ;;
      Ok ("{" +:+ join ", " ts +:+ "}")
  | VObj cls t => Raise (TypeError ("Object of type " +:+ cls +:+ " is not JSON serializable"))
  end.

(** ** Reading *)

Definition json_space (c : ascii) : bool := (ord c =? 32) || (ord c =? 9) || (ord c =? 10) || (ord c =? 13).
Definition skip_space (s : string) : string := lstrip_by json_space s.

Definition hex_value (c : ascii) : option Z :=
  if is_decimal c then Some (ord c - 48)
  else if (97 <=? ord c) && (ord c <=? 102) then Some (ord c - 87)
  else if (65 <=? ord c) && (ord c <=? 70) then Some (ord c - 55) else None.
Definition hex4 (s : string) : option (Z * string) :=
  match s with
  | String a (String b (String c (String d s))) =>
      a ← hex_value a; b ← hex_value b; c ← hex_value c; d ← hex_value d; Some (4096 * a + 256 * b + 16 * c + d, s)
  | _ => None
  end.
Definition simple_escape (c : ascii) : option ascii :=
  if (ord c =? 34) || (ord c =? 92) || (ord c =? 47) then Some c
  else if ord c =? 98 then Some (chr 8) else if ord c =? 102 then Some (chr 12) else if ord c =? 110 then Some (chr 10)
  else if ord c =? 114 then Some (chr 13) else if ord c =? 116 then Some (chr 9) else None.
(** The rest of a string literal, after its opening quote. *)
Fixpoint read_string (fuel : nat) (s : string) : option (string * string) :=
  match fuel with
  | O => None
  | S f =>
      match s with
      | EmptyString => None
      | String c s =>
          if ord c =? 34 then Some ("", s)
          else if ord c =? 92 then
            match s with
            | EmptyString => None
            | String e s =>
                if ord e =? 117 then
                  '(z, s) ← hex4 s;
                  if z <? 256 then '(t, rest) ← read_string f s; Some (String (chr z) t, rest) else None
                else c ← simple_escape e; '(t, rest) ← read_string f s; Some (String c t, rest)
            end
          else if ord c <? 32 then None
          else '(t, rest) ← read_string f s; Some (String c t, rest)
      end
  end.

Definition is_digit (c : ascii) : bool := (48 <=? ord c) && (ord c <=? 57).
Fixpoint take_digits (s : string) : string * string :=
  match s with
  | EmptyString => ("", "")
  | String c s' => if is_digit c then let '(d, r) := take_digits s' in (String c d, r) else ("", s)
  end.
(** [(\.[0-9]+)?] and [([eE][-+]?[0-9]+)?] *)
Definition read_frac (s : string) : option string * string :=
  match s with
  | String c s' => if ord c =? 46 then match take_digits s' with (EmptyString, _) => (None, s) | (d, r) => (Some d, r) end else (None, s)
  | EmptyString => (None, s)
  end.
Definition read_exp (s : string) : option Z * string :=
  match s with
  | String c s' =>
      if (ord c =? 101) || (ord c =? 69) then
        let '(sign, s'') := match s' with
                            | String g r => if ord g =? 45 then (-1, r) else if ord g =? 43 then (1, r) else (1, s')
                            | EmptyString => (1, s')
                            end in
        match take_digits s'' with (EmptyString, _) => (None, s) | (d, r) => (Some (sign * digits_value 0 d), r) end
      else (None, s)
  | EmptyString => (None, s)
  end.
Definition float_of_decimal (neg : bool) (digits : string) (frac : string) (e : Z) : float :=
  let g := digits_value 0 (digits +:+ frac) in
  let k := e - Z.of_nat (slen frac) in
  if 0 <=? k then float_of_ratio neg (g * 10 ^ k) 1 else float_of_ratio neg g (10 ^ (- k)).
(** The digits of an integer part: no leading zero but a single one. *)
Definition read_int (s : string) : option (string * string) :=
  match s with
  | String c s' => if ord c =? 48 then Some ("0", s') else match take_digits s with (EmptyString, _) => None | r => Some r end
  | EmptyString => None
  end.
Definition read_unsigned (neg : bool) (s : string) : option (pyval * string) :=
  '(digits, s) ← read_int s;
  let '(frac, s) := read_frac s in
  let '(e, s) := read_exp s in
  match frac, e with
  | None, None => let z := digits_value 0 digits in Some (VInt (if neg then - z else z), s)
  | _, _ => Some (VFloat (float_of_decimal neg digits (default "" frac) (default 0 e)), s)
  end.
Definition read_word (s : string) : option (pyval * string) :=
  if startswith "null" s then Some (VNone, sdrop 4 s)
  else if startswith "true" s then Some (VBool true, sdrop 4 s)
  else if startswith "false" s then Some (VBool false, sdrop 5 s)
  else if startswith "NaN" s then Some (VFloat S754_nan, sdrop 3 s)
  else if startswith "Infinity" s then Some (VFloat (S754_infinity false), sdrop 8 s)
  else if startswith "-Infinity" s then Some (VFloat (S754_infinity true), sdrop 9 s)
  else None.

(** A value; the items of an array and the members of an object after the first
    bracket or a comma. *)
Fixpoint read_value (fuel : nat) (s : string) : option (pyval * string) :=
  match fuel with
  | O => None
  | S f =>
      match s with
      | EmptyString => None
      | String c s' =>
          if ord c =? 34 then '(t, r) ← read_string (slen s) s'; Some (VStr t, r)
          else if ord c =? 91 then
            match skip_space s' with
            | String d r => if ord d =? 93 then Some (VList [], r) else '(l, r) ← read_items f (skip_space s'); Some (VList l, r)
            | EmptyString => None
            end
          else if ord c =? 123 then
            match skip_space s' with
            | String d r => if ord d =? 125 then Some (VDict [], r) else '(d, r) ← read_members f (skip_space s') []; Some (VDict d, r)
            | EmptyString => None
            end
          else match read_word s with
               | Some x => Some x
               | None => if ord c =? 45 then read_unsigned true s' else read_unsigned false s
               end
      end
  end
with read_items (fuel : nat) (s : string) : option (list pyval * string) :=
  match fuel with
  | O => None
  | S f =>
      '(v, r) ← read_value f s;
      match skip_space r with
      | String c r => if ord c =? 93 then Some ([v], r)
                      else if ord c =? 44 then '(l, r) ← read_items f (skip_space r); Some (v :: l, r) else None
      | EmptyString => None
      end
  end
with read_members (fuel : nat) (s : string) (d : dict string pyval) : option (dict string pyval * string) :=
  match fuel with
  | O => None
  | S f =>
      match s with
      | String c s' =>
          if ord c =? 34 then
            '(k, r) ← read_string (slen s) s';
            match skip_space r with
            | String c r =>
                if ord c =? 58 then
                  '(v, r) ← read_value f (skip_space r);
                  let d := dset d k v in
                  match skip_space r with
                  | String c r => if ord c =? 125 then Some (d, r)
                                  else if ord c =? 44 then read_members f (skip_space r) d else None
                  | EmptyString => None
                  end
                else None
            | EmptyString => None
            end
          else None
      | EmptyString => None
      end
  end.
Definition json_loads (s : string) : option pyval :=
  '(v, r) ← read_value (S (slen s)) (skip_space s);
  match skip_space r with EmptyString => Some v | _ => None end.

(** ** What is written is read back *)

Lemma read_escape f c r :
  read_string (S f) (ascii_escape c +:+ r) = '(t, rest) ← read_string f r; Some (String c t, rest).
Proof. destruct c as [[][][][][][][][]]; reflexivity. Qed.
Lemma ascii_escape_len c : (0 < slen (ascii_escape c))%nat.
Proof. destruct c as [[][][][][][][][]]; vm_compute; lia. Qed.
Lemma read_string_body s : forall fuel rest, (slen (ascii_body s) < fuel)%nat ->
  read_string fuel (ascii_body s +:+ String quote rest) = Some (s, rest).
Proof.
  induction s as [|c s IH]; intros fuel rest Hf; cbn [ascii_body] in *.
  - destruct fuel as [|f]; [lia|]. reflexivity.
  - rewrite slen_app in Hf. pose proof (ascii_escape_len c). destruct fuel as [|f]; [lia|].
    rewrite sapp_assoc, read_escape, IH by lia. done.
Qed.

(** What may follow a value. *)
Definition stopped (s : string) : Prop :=
  match s with EmptyString => True | String c _ => ord c = 44 \/ ord c = 93 \/ ord c = 125 end.
Lemma is_digit_decimal c : is_digit c = is_decimal c.
Proof. destruct c as [[][][][][][][][]]; reflexivity. Qed.
Lemma take_digits_all d rest : sall is_decimal d = true -> match rest with String c _ => is_digit c = false | _ => True end ->
  take_digits (d +:+ rest) = (d, rest).
Proof.
  intros Hd Hr. induction d as [|c d IH]; cbn [sall] in *.
  - change ("" +:+ rest) with rest. destruct rest as [|c r]; [done|]. cbn [take_digits]. by rewrite Hr.
  - apply andb_true_iff in Hd as [Hc Hd]. rewrite sapp_cons. cbn [take_digits]. by rewrite is_digit_decimal, Hc, IH.
Qed.
Lemma stopped_char c : ord c = 44 \/ ord c = 93 \/ ord c = 125 -> is_digit c = false /\ (ord c =? 46) = false /\ (ord c =? 101) || (ord c =? 69) = false.
Proof. unfold is_digit. intros [-> | [-> | ->]]; done. Qed.
Lemma digits_go_head f z acc : 0 < z < 2 ^ Z.of_nat f ->
  exists c r, digits_go f z acc = String c r /\ 49 <= ord c <= 57.
Proof.
  revert z acc; induction f as [|f IH]; intros z acc Hz; [cbn in Hz; lia|]. cbn [digits_go].
  pose proof (Z.mod_pos_bound z 10 ltac:(lia)). pose proof (Z_div_mod_eq_full z 10). destruct (Z.eqb_spec (z / 10) 0) as [E|E].
  - do 2 eexists. split; [reflexivity|]. unfold digit_char. rewrite ord_chr by lia. lia.
  - apply IH. split; [lia|]. rewrite Nat2Z.inj_succ, Z.pow_succ_r in Hz by lia. apply Z.div_lt_upper_bound; lia.
Qed.
Lemma nat_digits_shape z : 0 <= z ->
  sall is_decimal (nat_digits z) = true /\
  (nat_digits z = "0" \/ exists c r, nat_digits z = String c r /\ 49 <= ord c <= 57).
Proof.
  intros Hz. unfold nat_digits. split; [by apply digits_go_decimal|]. destruct (decide (z = 0)) as [->|]; [by left|right].
  apply digits_go_head. split; [lia|]. rewrite Nat2Z.inj_succ, Z2Nat.id by apply Z.log2_nonneg. apply Z.log2_spec. lia.
Qed.
Lemma read_int_digits z rest : 0 <= z -> stopped rest -> read_int (nat_digits z +:+ rest) = Some (nat_digits z, rest).
Proof.
  intros Hz Hr. destruct (nat_digits_shape z Hz) as [Hd [->|(c & r & E & Hc)]]; [done|].
  assert (take_digits (nat_digits z +:+ rest) = (nat_digits z, rest)) as Ht.
  { apply take_digits_all; [done|]. destruct rest as [|d rest]; [done|]. by apply stopped_char. }
  rewrite E in *. rewrite sapp_cons in *. cbn [read_int]. destruct (Z.eqb_spec (ord c) 48); [lia|]. by rewrite Ht.
Qed.
Lemma read_unsigned_digits neg z rest : 0 <= z -> stopped rest ->
  read_unsigned neg (nat_digits z +:+ rest) = Some (VInt (if neg then - z else z), rest).
Proof.
  intros Hz Hr. unfold read_unsigned. rewrite read_int_digits by done. cbn [mbind option_bind].
  assert (read_frac rest = (None, rest) /\ read_exp rest = (None, rest)) as [-> ->].
  { destruct rest as [|c r]; [done|]. apply stopped_char in Hr as (_ & E1 & E2). cbn [read_frac read_exp]. by rewrite E1, E2. }
  by rewrite nat_digits_value.
Qed.

(** Values of JSON without numbers with a fraction. *)
Inductive plain : pyval -> Prop :=
  | plain_none : plain VNone
  | plain_bool b : plain (VBool b)
  | plain_int z : plain (VInt z)
  | plain_str s : plain (VStr s)
  | plain_list l : Forall plain l -> plain (VList l)
  | plain_dict d : NoDup (map fst d) -> Forall (fun kv => plain kv.2) d -> plain (VDict d).

(** The text of a value: it starts with no white space and reads back. *)
Definition reads_back (v : pyval) (t : string) : Prop :=
  (exists c r, t = String c r /\ json_space c = false /\ ord c <> 93) /\
  forall fuel rest, (slen t < fuel)%nat -> stopped rest -> read_value fuel (t +:+ rest) = Some (v, rest).

Lemma skip_text t rest : (exists c r, t = String c r /\ json_space c = false /\ ord c <> 93) -> skip_space (t +:+ rest) = t +:+ rest.
Proof. intros (c & r & -> & Hc & _). unfold skip_space. rewrite sapp_cons. cbn [lstrip_by]. by rewrite Hc. Qed.
Lemma skip_stopped c r : ord c = 44 \/ ord c = 93 \/ ord c = 125 -> skip_space (String c r) = String c r.
Proof.
  intros Hc. unfold skip_space. cbn [lstrip_by]. assert (json_space c = false) as ->; [|done]. unfold json_space.
  destruct Hc as [-> | [-> | ->]]; done.
Qed.

Lemma reads_items l ts : Forall2 reads_back l ts -> l <> [] -> forall fuel rest, (slen (join ", " ts) + 1 < fuel)%nat ->
  read_items fuel (join ", " ts +:+ String (chr 93) rest) = Some (l, rest).
Proof.
  induction 1 as [|v t l ts [Hs Hv] Hl IH]; [done|]. intros _ fuel rest Hf. destruct fuel as [|f]; [lia|]. cbn [read_items].
  destruct Hl as [|v' t' l ts Hv' Hl].
  - cbn [join] in *. rewrite (Hv f) by (cbn; lia || auto). reflexivity.
  - rewrite join_cons in * by done. rewrite slen_app in Hf. rewrite !sapp_assoc. cbn [String.length] in Hf.
    rewrite (Hv f); [|lia|by left]. cbn [mbind option_bind]. change (", " +:+ ?x) with (String (chr 44) (String (chr 32) x)).
    rewrite skip_stopped by (by left). cbn [Z.eqb]. rewrite ord_chr by lia.
    replace (skip_space (String (chr 32) (join ", " (t' :: ts) +:+ String (chr 93) rest))) with (join ", " (t' :: ts) +:+ String (chr 93) rest).
    + rewrite IH; [done|done|]. change (slen (", " +:+ join ", " (t' :: ts))) with (2 + slen (join ", " (t' :: ts)))%nat in Hf. lia.
    + change (skip_space (String (chr 32) ?x)) with (skip_space x). destruct Hv' as [(c & r & -> & Hc & Hne) _]. symmetry.
      destruct ts as [|t2 ts]; [cbn [join]|rewrite join_cons by done; rewrite sapp_assoc]; (apply skip_text; by exists c, r).
Qed.

Lemma ascii_string_app k rest : ascii_string k +:+ rest = String quote (ascii_body k +:+ String quote rest).
Proof. unfold ascii_string. by rewrite sapp_cons, sapp_assoc. Qed.
Lemma ascii_string_len k : slen (ascii_string k) = (slen (ascii_body k) + 2)%nat.
Proof. unfold ascii_string. cbn [String.length]. rewrite slen_app. cbn. lia. Qed.
Definition member (kv : string * pyval) (m : string) : Prop := exists t, m = ascii_string kv.1 +:+ ": " +:+ t /\ reads_back kv.2 t.
Lemma reads_members d ms : Forall2 member d ms -> d <> [] -> forall acc, NoDup (map fst (acc ++ d)) ->
  forall fuel rest, (slen (join ", " ms) + 1 < fuel)%nat ->
  read_members fuel (join ", " ms +:+ String (chr 125) rest) acc = Some (acc ++ d, rest).
Proof.
  induction 1 as [|[k v] m d ms (t & -> & [Hs Hv]) Hd IH]; [done|]. cbn [fst snd] in *. intros _ acc Hnd fuel rest Hf.
  destruct fuel as [|f]; [lia|]. assert (k ∉ map fst acc) as Hk.
  { rewrite map_app in Hnd. apply NoDup_app in Hnd as (_ & Hdis & _). intros Hin. apply (Hdis k Hin). set_solver. }
  assert (forall tail f', (slen t < f')%nat -> stopped tail -> f = f' ->
    read_members (S f) ((ascii_string k +:+ ": " +:+ t) +:+ tail) acc =
    match skip_space tail with
    | String c r => if ord c =? 125 then Some (acc ++ [(k, v)], r)
                    else if ord c =? 44 then read_members f (skip_space r) (acc ++ [(k, v)]) else None
    | EmptyString => None
    end) as Hstep.
  { intros tail f' Hf' Htail ->. rewrite !sapp_assoc, ascii_string_app. cbn [read_members]. change (ord quote =? 34) with true. cbv iota.
    rewrite read_string_body by (cbn [String.length]; rewrite slen_app; cbn [String.length]; lia). cbn [mbind option_bind].
    change (": " +:+ ?x) with (String (chr 58) (String (chr 32) x)). change (skip_space (String (chr 58) ?x)) with (String (chr 58) x).
    cbv beta iota. rewrite ord_chr by lia. change (skip_space (String (chr 32) ?x)) with (skip_space x). change (58 =? 58) with true. cbv iota.
    rewrite skip_text by done. rewrite Hv by done. cbn [mbind option_bind]. by rewrite dset_app. }
  destruct Hd as [|[k' v'] m' d ms Hm' Hd].
  - cbn [join] in *. rewrite !slen_app, ascii_string_len in Hf. rewrite (Hstep _ f); [|lia|cbn; auto|done].
    rewrite skip_stopped by auto. rewrite ord_chr by lia. done.
  - rewrite join_cons in * by done. rewrite !slen_app in Hf. change (slen ", ") with 2%nat in Hf. change (slen ": ") with 2%nat in Hf.
    rewrite (sapp_assoc _ (", " +:+ _)). rewrite (Hstep _ f); [|lia|by left|done].
    rewrite (sapp_assoc ", "). change (", " +:+ ?x) with (String (chr 44) (String (chr 32) x)).
    rewrite skip_stopped by (by left). rewrite !ord_chr by lia. change (44 =? 125) with false. change (44 =? 44) with true. cbv iota.
    change (skip_space (String (chr 32) ?x)) with (skip_space x).
    assert (skip_space (join ", " (m' :: ms) +:+ String (chr 125) rest) = join ", " (m' :: ms) +:+ String (chr 125) rest) as ->.
    { destruct Hm' as (t' & -> & _). cbn [fst]. assert (exists r, join ", " ((ascii_string k' +:+ ": " +:+ t') :: ms) = String quote r) as [r ->].
      { destruct ms as [|m2 ms]; [cbn [join]|rewrite join_cons by done]; rewrite ?sapp_assoc, ascii_string_app; by eexists. }
      done. }
    rewrite IH; [by rewrite <- app_assoc|done| |lia]. by rewrite <- app_assoc.
Qed.

Lemma read_word_digit neg c r : 48 <= ord c <= 57 -> read_word (if (neg : bool) then String (chr 45) (String c r) else String c r) = None.
Proof. destruct neg, c as [[][][][][][][][]]; vm_compute; intros [? ?]; try contradiction; reflexivity. Qed.
Lemma nat_digits_cons z : 0 <= z -> exists c r, nat_digits z = String c r /\ 48 <= ord c <= 57.
Proof.
  intros Hz. destruct (nat_digits_shape z Hz) as [_ [-> | (c & r & -> & Hc)]]; [exists "0"%char, ""; split; [done|]; vm_compute; done|].
  exists c, r. split; [done|lia].
Qed.
Lemma read_null rest : read_word ("null" +:+ rest) = Some (VNone, rest).
Proof. unfold read_word. rewrite startswith_app. by destruct rest. Qed.
Lemma read_bool (b : bool) rest : read_word ((if b then "true" else "false") +:+ rest) = Some (VBool b, rest).
Proof.
  unfold read_word. destruct b.
  - change (startswith "null" ("true" +:+ rest)) with false. rewrite startswith_app. by destruct rest.
  - change (startswith "null" ("false" +:+ rest)) with false. change (startswith "true" ("false" +:+ rest)) with false.
    rewrite startswith_app. by destruct rest.
Qed.

Lemma reads_null : reads_back VNone "null".
Proof.
  split; [by do 2 eexists|]. intros [|f] rest Hf _; [lia|].
  change (read_value (S f) ("null" +:+ rest)) with
    (match read_word ("null" +:+ rest) with Some x => Some x | None => read_unsigned false ("null" +:+ rest) end).
  by rewrite read_null.
Qed.
Lemma reads_bool (b : bool) : reads_back (VBool b) (if b then "true" else "false").
Proof.
  split; [destruct b; by do 2 eexists|]. intros [|f] rest Hf _; [lia|]. pose proof (read_bool b rest) as Hb.
  destruct b; cbn [read_value]; rewrite !sapp_cons in *; rewrite Hb; reflexivity.
Qed.
Lemma reads_int z : reads_back (VInt z) (str_of_Z z).
Proof.
  unfold str_of_Z. destruct (Z.ltb_spec z 0) as [Hz|Hz].
  - destruct (nat_digits_cons (- z) ltac:(lia)) as (c & r & E & Hc). split; [by do 2 eexists|].
    intros [|f] rest Hf Hr; [lia|]. rewrite E. pose proof (read_word_digit true c (r +:+ rest) Hc) as Hw. cbv iota in Hw.
    change (read_value (S f) (("-" +:+ String c r) +:+ rest)) with
      (match read_word (String (chr 45) (String c (r +:+ rest))) with Some x => Some x | None => read_unsigned true (String c (r +:+ rest)) end).
    rewrite Hw. rewrite <- sapp_cons, <- E. rewrite read_unsigned_digits by (lia || done). by rewrite Z.opp_involutive.
  - destruct (nat_digits_cons z Hz) as (c & r & E & Hc). split.
    { exists c, r. split; [done|]. split; [|lia]. unfold json_space. lia. }
    intros [|f] rest Hf Hr; [lia|]. rewrite <- (read_unsigned_digits false z rest) by done.
    pose proof (read_word_digit false c (r +:+ rest) Hc) as Hw. cbv iota in Hw. rewrite E, sapp_cons. cbn [read_value]. rewrite Hw.
    destruct (Z.eqb_spec (ord c) 34); [lia|]. destruct (Z.eqb_spec (ord c) 91); [lia|]. destruct (Z.eqb_spec (ord c) 123); [lia|].
    by destruct (Z.eqb_spec (ord c) 45); [lia|].
Qed.
Lemma reads_str s : reads_back (VStr s) (ascii_string s).
Proof.
  split; [by do 2 eexists|]. intros [|f] rest Hf Hr; [lia|]. rewrite ascii_string_app. cbn [read_value].
  change (ord quote =? 34) with true. cbv iota.
  rewrite read_string_body by (cbn [String.length]; rewrite slen_app; cbn [String.length]; lia). done.
Qed.
Lemma reads_list l ts : Forall2 reads_back l ts -> reads_back (VList l) ("[" +:+ join ", " ts +:+ "]").
Proof.
  intros H. split; [by do 2 eexists|]. intros [|f] rest Hf Hr; [lia|]. rewrite !slen_app in Hf. cbn [String.length] in Hf.
  rewrite !sapp_assoc. change ("]" +:+ rest) with (String (chr 93) rest). change ("[" +:+ ?x) with (String (chr 91) x).
  cbn [read_value]. rewrite ord_chr by lia. change (91 =? 34) with false. change (91 =? 91) with true. cbv iota.
  destruct H as [|v t l ts Hv Hl]; [done|].
  assert (Hs : skip_space (join ", " (t :: ts) +:+ String (chr 93) rest) = join ", " (t :: ts) +:+ String (chr 93) rest /\
           exists c r, join ", " (t :: ts) = String c r /\ ord c <> 93).
  { destruct Hv as [(c & r & -> & Hc & Hne) _]. split.
    - destruct ts as [|t2 ts]; [cbn [join]|rewrite join_cons by done; rewrite sapp_assoc]; (apply skip_text; by exists c, r).
    - destruct ts as [|t2 ts]; [cbn [join]; by exists c, r|rewrite join_cons by done]. by do 2 eexists. }
  destruct Hs as [Hs (c & r & E & Hne)]. rewrite Hs.
  rewrite (reads_items (v :: l) (t :: ts)); [|by constructor|done|lia]. rewrite E, sapp_cons. by destruct (Z.eqb_spec (ord c) 93); [lia|].
Qed.
Lemma reads_dict d ms : NoDup (map fst d) -> Forall2 member d ms -> reads_back (VDict d) ("{" +:+ join ", " ms +:+ "}").
Proof.
  intros Hnd H. split; [by do 2 eexists|]. intros [|f] rest Hf Hr; [lia|]. rewrite !slen_app in Hf. cbn [String.length] in Hf.
  rewrite !sapp_assoc. change ("}" +:+ rest) with (String (chr 125) rest). change ("{" +:+ ?x) with (String (chr 123) x).
  cbn [read_value]. rewrite ord_chr by lia. change (123 =? 34) with false. change (123 =? 91) with false. change (123 =? 123) with true.
  cbv iota. destruct H as [|[k v] m d ms (t & -> & Hv) Hd]; [done|]. cbn [fst snd] in *.
  assert (exists r, join ", " ((ascii_string k +:+ ": " +:+ t) :: ms) = String quote r) as [r E].
  { destruct ms as [|m2 ms]; [cbn [join]|rewrite join_cons by done]; rewrite ?sapp_assoc, ascii_string_app; by eexists. }
  pose proof (reads_members ((k, v) :: d) ((ascii_string k +:+ ": " +:+ t) :: ms)) as Hm. rewrite E in Hm, Hf |- *.
  rewrite (sapp_cons quote r). change (skip_space (String quote ?x)) with (String quote x). cbv iota.
  change (ord quote =? 125) with false. cbv iota. rewrite <- (sapp_cons quote r), Hm; [done|constructor; [by exists t|done]|done|done|lia].
Qed.

Lemma json_ascii_reads v : plain v -> exists t, json_ascii v = Ok t /\ reads_back v t.
Proof.
  induction v as [|b|z|x|s|l IH|l IH|d IH|cls v IH] using pyval_nested_ind; intros Hp; inversion Hp as [|b'|z'|s'|l' Hl|d' Hnd Hd]; subst.
  - exists "null". split; [done|apply reads_null].
  - eexists. split; [done|apply reads_bool].
  - eexists. split; [done|apply reads_int].
  - eexists. split; [done|apply reads_str].
  - assert (exists ts, rmap json_ascii l = Ok ts /\ Forall2 reads_back l ts) as (ts & E & Hts).
    { clear Hp. induction l as [|v l IHl]; [by exists []|]. inversion IH; inversion Hl; subst.
      destruct IHl as (ts & E & Hts); [done..|]. destruct H1 as (t & Et & Ht); [done|].
      exists (t :: ts). cbn [rmap]. rewrite Et. cbn [rbind]. rewrite E. split; [done|by constructor]. }
    exists ("[" +:+ join ", " ts +:+ "]"). cbn [json_ascii]. rewrite E. split; [done|by apply reads_list].
  - set (f := fun kv : string * pyval => t <-! json_ascii kv.2 ;; Ok (ascii_string kv.1 +:+ ": " +:+ t)).
    assert (exists ms, rmap f d = Ok ms /\ Forall2 member d ms) as (ms & E & Hms).
    { clear Hp Hnd. induction d as [|[k v] d IHd]; [by exists []|]. inversion IH; inversion Hd; subst.
      destruct IHd as (ms & E & Hms); [done..|]. destruct H1 as (t & Et & Ht); [done|]. cbn [fst snd] in *.
      exists ((ascii_string k +:+ ": " +:+ t) :: ms). cbn [rmap]. unfold f at 1. cbn [fst snd]. rewrite Et. cbn [rbind]. rewrite E.
      split; [done|]. constructor; [by exists t|done]. }
    exists ("{" +:+ join ", " ms +:+ "}"). cbn [json_ascii]. fold f. rewrite E. split; [done|by apply reads_dict].
Qed.
(** What is written is read back. *)
Lemma json_loads_dumps v : plain v -> exists t, json_ascii v = Ok t /\ json_loads t = Some v.
Proof.
  intros Hp. destruct (json_ascii_reads v Hp) as (t & E & Hs & Hv). exists t. split; [done|]. unfold json_loads.
  rewrite <- (sapp_nil_r t) at 2. rewrite skip_text by done. rewrite Hv by (lia || done). reflexivity.
Qed.
