(* ===== verification/PyTime.v ===== *)
(** * [datetime]: instants, ISO format and comparison

    A [datetime] is the reading of a local clock in microseconds since
    1970-01-01T00:00:00 and, when it is aware, its offset from UTC in seconds.
    Naive and aware datetimes do not compare.  Dates follow the proleptic
    Gregorian calendar. *)

From S2P Require Import Prelude PyStr PyFloat.
From Stdlib Require Import Ascii.

Record datetime := { local_us : Z; utcoff : option Z }.
#[global] Instance datetime_eq_dec : EqDecision datetime.
Proof. solve_decision. Defined.

Definition is_aware (d : datetime) : bool := match utcoff d with Some _ => true | None => false end.
(** [datetime.now(UTC)] at [us] *)
Definition utc (us : Z) : datetime := {| local_us := us; utcoff := Some 0 |}.
Definition naive (us : Z) : datetime := {| local_us := us; utcoff := None |}.

(** Microseconds since the epoch; for naive datetimes, of the local clock. *)
Definition instant (d : datetime) : Z := local_us d - 1000000 * default 0 (utcoff d).

(** [d + timedelta(microseconds=us)] *)
Definition add_us (d : datetime) (us : Z) : datetime := {| local_us := local_us d + us; utcoff := utcoff d |}.

Definition time_error : exn := TypeError "can't compare offset-naive and offset-aware datetimes".
(** [a < b]: naive and aware do not compare. *)
Definition time_lt (a b : datetime) : res bool :=
  if Bool.eqb (is_aware a) (is_aware b) then Ok (instant a <? instant b) else Raise time_error.

(** [sorted(l, key=time)]: sorting two or more elements compares each with
    another one, so it fails exactly when both kinds occur. *)
Section sort_by_time.
Context {A : Type} (time : A -> datetime).

Definition same_kind (l : list A) : bool :=
  forallb (fun x => is_aware (time x)) l || forallb (fun x => negb (is_aware (time x))) l.
Definition sorted_by_time (l : list A) : res (list A) :=
  if same_kind l then Ok (sort_by (fun x => instant (time x)) l) else Raise time_error.

Lemma sorted_by_time_ok l l' :
  sorted_by_time l = Ok l' ->
  l' ≡ₚ l /\ StronglySorted (fun x y => instant (time x) <= instant (time y)) l' /\ sorted_by_time l' = Ok l'.
Proof.
  unfold sorted_by_time. destruct (same_kind l) eqn:E; [|done]. intros [= <-].
  split; [apply sort_by_perm|]. split; [apply sort_by_sorted|].
  assert (same_kind (sort_by (fun x => instant (time x)) l) = true) as ->; [|by rewrite sort_by_idemp].
  unfold same_kind in *. rewrite orb_true_iff, !forallb_forall in *.
  setoid_rewrite <-list_elem_of_In. setoid_rewrite elem_of_sort_by.
  by setoid_rewrite list_elem_of_In.
Qed.
End sort_by_time.

(** ** The calendar *)

Definition civil_from_days (days : Z) : Z * Z * Z :=
  let z := days + 719468 in
  let era := z / 146097 in
  let doe := z mod 146097 in
  let yoe := (doe - doe / 1460 + doe / 36524 - doe / 146096) / 365 in
  let doy := doe - (365 * yoe + yoe / 4 - yoe / 100) in
  let mp := (5 * doy + 2) / 153 in
  let d := doy - (153 * mp + 2) / 5 + 1 in
  let m := if mp <? 10 then mp + 3 else mp - 9 in
  (yoe + era * 400 + (if m <=? 2 then 1 else 0), m, d).

Definition days_from_civil (y m d : Z) : Z :=
  let y' := if m <=? 2 then y - 1 else y in
  let era := y' / 400 in
  let yoe := y' mod 400 in
  let doy := (153 * (if 2 <? m then m - 3 else m + 9) + 2) / 5 + d - 1 in
  era * 146097 + (yoe * 365 + yoe / 4 - yoe / 100 + doy) - 719468.

Definition is_leap (y : Z) : bool := (y mod 4 =? 0) && (negb (y mod 100 =? 0) || (y mod 400 =? 0)).
Definition days_in_month (y m : Z) : Z :=
  if m =? 2 then (if is_leap y then 29 else 28)
  else if (m =? 4) || (m =? 6) || (m =? 9) || (m =? 11) then 30 else 31.

(** ** [isoformat] *)

Definition pad (w : nat) (z : Z) : string := zfill w (nat_digits z).

Definition offset_str (off : Z) : string :=
  let a := Z.abs off in
  (if off <? 0 then "-" else "+") +:+ pad 2 (a / 3600) +:+ ":" +:+ pad 2 (a / 60 mod 60) +:+
  (if a mod 60 =? 0 then "" else ":" +:+ pad 2 (a mod 60)).

Definition day_us : Z := 86400 * 1000000.

Definition isoformat (d : datetime) : string :=
  let '(y, m, dd) := civil_from_days (local_us d / day_us) in
  let t := local_us d mod day_us in
  let s := t / 1000000 in
  let us := t mod 1000000 in
  pad 4 y +:+ "-" +:+ pad 2 m +:+ "-" +:+ pad 2 dd +:+ "T" +:+
  pad 2 (s / 3600) +:+ ":" +:+ pad 2 (s / 60 mod 60) +:+ ":" +:+ pad 2 (s mod 60) +:+
  (if us =? 0 then "" else "." +:+ pad 6 us) +:+
  match utcoff d with Some off => offset_str off | None => "" end.

(** ** [fromisoformat]: the extended format [YYYY-MM-DD\[?HH:MM\[:SS\[.f*\]\]\[+HH:MM\[:SS\]\]\]] *)

Fixpoint take_digits (n : nat) (acc : Z) (s : string) : option (Z * string) :=
  match n with
  | O => Some (acc, s)
  | S n' => match s with
            | String c s' => if is_decimal c then take_digits n' (10 * acc + (ord c - 48)) s' else None
            | EmptyString => None
            end
  end.
Definition take_char (c : ascii) (s : string) : option string :=
  match s with String d s' => if Ascii.eqb c d then Some s' else None | _ => None end.

(** The fraction, truncated to microseconds. *)
Fixpoint take_fraction (k : nat) (acc : Z) (s : string) : Z * string :=
  match s with
  | String c s' =>
      if is_decimal c
      then match k with S k' => take_fraction k' (10 * acc + (ord c - 48)) s' | O => take_fraction O acc s' end
      else (acc * 10 ^ Z.of_nat k, s)
  | EmptyString => (acc * 10 ^ Z.of_nat k, s)
  end.

Notation "'let?' x := m 'in' k" := (match m with Some x => k | None => None end)
  (at level 200, x pattern, m at level 100, k at level 200, right associativity).

(** [HH:MM\[:SS\[.f*\]\]], in microseconds. *)
Definition parse_clock (s : string) : option (Z * string) :=
  let? (h, s) := take_digits 2 0 s in
  let? s := take_char ":" s in
  let? (mi, s) := take_digits 2 0 s in
  if negb ((h <? 24) && (mi <? 60)) then None else
  let base := (h * 3600 + mi * 60) * 1000000 in
  match take_char ":" s with
  | None => Some (base, s)
  | Some s =>
      let? (sec, s) := take_digits 2 0 s in
      if negb (sec <? 60) then None else
      match s with
      | String c (String d _ as s') =>
          if (Ascii.eqb c "." || Ascii.eqb c ",") && is_decimal d
          then let '(us, s'') := take_fraction 6 0 s' in Some (base + sec * 1000000 + us, s'')
          else Some (base + sec * 1000000, s)
      | _ => Some (base + sec * 1000000, s)
      end
  end.

Definition parse_offset (s : string) : option (option Z) :=
  match s with
  | EmptyString => Some None
  | String c s' =>
      if Ascii.eqb c "Z" && String.eqb s' "" then Some (Some 0)
      else if Ascii.eqb c "+" || Ascii.eqb c "-"
      then let? (us, rest) := parse_clock s' in
           if String.eqb rest "" && (us mod 1000000 =? 0)
           then Some (Some (if Ascii.eqb c "-" then - (us / 1000000) else us / 1000000)) else None
      else None
  end.

Definition parse_iso (s : string) : option datetime :=
  let? (y, s) := take_digits 4 0 s in
  let? s := take_char "-" s in
  let? (m, s) := take_digits 2 0 s in
  let? s := take_char "-" s in
  let? (d, s) := take_digits 2 0 s in
  if negb ((1 <=? y) && (1 <=? m) && (m <=? 12) && (1 <=? d) && (d <=? days_in_month y m)) then None else
  let day := days_from_civil y m d * day_us in
  match s with
  | EmptyString => Some (naive day)
  | String _ s =>
      let? (us, s) := parse_clock s in
      let? off := parse_offset s in
      Some {| local_us := day + us; utcoff := off |}
  end.

Definition fromisoformat (s : string) : res datetime :=
  match parse_iso s with
  | Some d => Ok d
  | None => Raise (ValueError ("Invalid isoformat string: " +:+ repr s))
  end.

Example iso_examples :
  isoformat (utc 0) = "1970-01-01T00:00:00+00:00" /\
  isoformat {| local_us := 1709210096000001; utcoff := Some (-19800) |} = "2024-02-29T12:34:56.000001-05:30" /\
  fromisoformat "2024-02-29T12:34:56.000001-05:30" = Ok {| local_us := 1709210096000001; utcoff := Some (-19800) |} /\
  fromisoformat "2024-02-29 12:34" = Ok (naive 1709210040000000) /\
  is_ok (fromisoformat "2023-02-29T00:00:00") = false.
Proof. by vm_compute. Qed.
