(* ===== verification/Csv.v ===== *)
(** * The [csv] module: writing rows, and reading them back

    [csv_row] is what [csv.writer] (dialect [excel], minimal quoting) writes for
    a row of at least two fields; [csv_read] is the reader's state machine.
    Reading undoes writing, whatever the fields contain. *)

From S2P Require Import Prelude PyStr.
From Stdlib Require Import Ascii.

Definition comma : ascii := ","%char.
Definition qt : ascii := chr 34.
Definition cr : ascii := chr 13.
Definition lf : ascii := chr 10.

Definition csv_special (c : ascii) : bool :=
  Ascii.eqb c comma || Ascii.eqb c qt || Ascii.eqb c cr || Ascii.eqb c lf.

Fixpoint double_quotes (s : string) : string :=
  match s with
  | EmptyString => ""
  | String c s' => if Ascii.eqb c qt then String qt (String qt (double_quotes s')) else String c (double_quotes s')
  end.

Definition csv_field (s : string) : string :=
  if sexists csv_special s then String qt (double_quotes s +:+ String qt "") else s.

Definition crlf : string := String cr (String lf "").
Definition csv_row (fields : list string) : string := join (String comma "") (map csv_field fields) +:+ crlf.
Definition csv_write (rows : list (list string)) : string := foldr (fun r s => csv_row r +:+ s) "" rows.

Inductive read_state := StartRow | StartField | InField | InQuoted | QuoteInQuoted | EatCrNl.

Fixpoint read (st : read_state) (field : string) (row : list string) (s : string) : list (list string) :=
  match s with
  | EmptyString =>
      match st with
      | StartRow | EatCrNl => []
      | _ => [row ++ [field]]
      end
  | String c s' =>
      let start (row : list string) :=
        if Ascii.eqb c qt then read InQuoted "" row s'
        else if Ascii.eqb c comma then read StartField "" (row ++ [""]) s'
        else if Ascii.eqb c cr then (row ++ [""]) :: read EatCrNl "" [] s'
        else if Ascii.eqb c lf then (row ++ [""]) :: read StartRow "" [] s'
        else read InField (String c "") row s' in
      let after :=
        if Ascii.eqb c comma then read StartField "" (row ++ [field]) s'
        else if Ascii.eqb c cr then (row ++ [field]) :: read EatCrNl "" [] s'
        else if Ascii.eqb c lf then (row ++ [field]) :: read StartRow "" [] s'
        else read InField (field +:+ String c "") row s' in
      match st with
      | StartRow => start []
      | StartField => start row
      | InField => after
      | InQuoted => if Ascii.eqb c qt then read QuoteInQuoted field row s'
                    else read InQuoted (field +:+ String c "") row s'
      | QuoteInQuoted => if Ascii.eqb c qt then read InQuoted (field +:+ String qt "") row s' else after
      | EatCrNl => if Ascii.eqb c lf then read StartRow "" [] s' else start []
      end
  end.

Definition csv_read (s : string) : list (list string) := read StartRow "" [] s.

(** ** Reading undoes writing *)

Lemma csv_special_false c :
  csv_special c = false ->
  Ascii.eqb c comma = false /\ Ascii.eqb c qt = false /\ Ascii.eqb c cr = false /\ Ascii.eqb c lf = false.
Proof. unfold csv_special. rewrite !orb_false_iff. tauto. Qed.

Lemma read_plain s : forall fld row rest, sexists csv_special s = false ->
  read InField fld row (s +:+ rest) = read InField (fld +:+ s) row rest.
Proof.
  induction s as [|c s IH]; intros fld row rest; [by rewrite sapp_nil_r|].
  cbn [sexists]. rewrite orb_false_iff. intros [(H1 & H2 & H3 & H4)%csv_special_false Hs].
  rewrite sapp_cons. cbn [read]. rewrite H1, H3, H4, IH by done. by rewrite sapp_assoc.
Qed.

Lemma read_quoted s : forall fld row rest,
  read InQuoted fld row (double_quotes s +:+ String qt rest) = read QuoteInQuoted (fld +:+ s) row rest.
Proof.
  induction s as [|c s IH]; intros fld row rest; [by rewrite sapp_nil_r|].
  cbn [double_quotes]. destruct (Ascii.eqb_spec c qt) as [->|Hne].
  - rewrite !sapp_cons. cbn [read]. rewrite Ascii.eqb_refl. rewrite IH. by rewrite sapp_assoc.
  - rewrite sapp_cons. cbn [read]. rewrite (proj2 (Ascii.eqb_neq c qt)) by done.
    rewrite IH. by rewrite sapp_assoc.
Qed.

(** A field followed by a comma, or by the end of the row. *)
Definition at_start (st : read_state) (row : list string) : Prop := st = StartField \/ st = StartRow /\ row = [].

Lemma read_field_comma st row s rest :
  at_start st row ->
  read st "" row (csv_field s +:+ String comma rest) = read StartField "" (row ++ [s]) rest.
Proof.
  intros Hst. unfold csv_field. destruct (sexists csv_special s) eqn:Es.
  - rewrite sapp_cons, sapp_assoc, sapp_cons, sapp_nil_l.
    transitivity (read InQuoted "" row (double_quotes s +:+ String qt (String comma rest))).
    { by destruct Hst as [->|[-> ->]]. }
    by rewrite read_quoted.
  - destruct s as [|c s]; [by destruct Hst as [->|[-> ->]]|].
    pose proof Es as Es'. cbn [sexists] in Es. apply orb_false_iff in Es as [(H1 & H2 & H3 & H4)%csv_special_false Hs].
    rewrite sapp_cons. transitivity (read InField (String c "") row (s +:+ String comma rest)).
    { destruct Hst as [->|[-> ->]]; cbn [read]; by rewrite H1, H2, H3, H4. }
    by rewrite read_plain.
Qed.

Lemma read_field_end st row s rest :
  at_start st row -> (st = StartRow -> csv_field s <> "") ->
  read st "" row (csv_field s +:+ crlf +:+ rest) = (row ++ [s]) :: read StartRow "" [] rest.
Proof.
  intros Hst Hne. unfold csv_field in *. unfold crlf. rewrite !sapp_cons, sapp_nil_l.
  destruct (sexists csv_special s) eqn:Es.
  - rewrite sapp_cons, sapp_assoc, sapp_cons, sapp_nil_l.
    transitivity (read InQuoted "" row (double_quotes s +:+ String qt (String cr (String lf rest)))).
    { by destruct Hst as [->|[-> ->]]. }
    by rewrite read_quoted.
  - destruct s as [|c s]; [by destruct Hst as [->|[-> ->]]|].
    cbn [sexists] in Es. apply orb_false_iff in Es as [(H1 & H2 & H3 & H4)%csv_special_false Hs].
    rewrite sapp_cons. transitivity (read InField (String c "") row (s +:+ String cr (String lf rest))).
    { destruct Hst as [->|[-> ->]]; cbn [read]; by rewrite H1, H2, H3, H4. }
    by rewrite read_plain.
Qed.

Lemma read_fields fields : forall st row rest, at_start st row -> (1 < length (row ++ fields))%nat -> fields <> [] ->
  read st "" row (join (String comma "") (map csv_field fields) +:+ crlf +:+ rest)
  = (row ++ fields) :: read StartRow "" [] rest.
Proof.
  induction fields as [|s fields IH]; intros st row rest Hst Hlen Hne; [done|].
  destruct fields as [|t fields].
  - cbn [map join]. apply read_field_end; [done|]. intros ->. destruct Hst as [|[_ ->]]; [done|]. simpl in Hlen. lia.
  - cbn [map]. rewrite join_cons by done. rewrite !sapp_assoc, sapp_cons, sapp_nil_l.
    rewrite read_field_comma by done. cbn [map] in IH. rewrite IH; [by rewrite <-app_assoc|by left| |done].
    by rewrite <-app_assoc.
Qed.

(** [csv.reader(csv.writer(rows)) == rows], for rows of two fields or more. *)
Lemma csv_read_write rows :
  Forall (fun r => (1 < length r)%nat) rows -> csv_read (csv_write rows) = rows.
Proof.
  unfold csv_read, csv_write. induction 1 as [|r rows Hr _ IH]; [done|]. cbn [foldr]. unfold csv_row at 1.
  rewrite sapp_assoc. rewrite read_fields; [|by right|done|by destruct r; simpl in Hr; [lia|]].
  by rewrite IH.
Qed.
