(* ===== verification/Fnmatch.v ===== *)
(** * Shell patterns: the standard library's [fnmatch]

    [fnmatch name pat] is [fnmatch.fnmatch] on a POSIX system (where
    [os.path.normcase] is the identity).  A pattern is parsed into elements the
    way [fnmatch.translate] reads it, bracket expressions with their ranges
    included, and matched against the whole name; a star crosses slashes.
    [fnmatch_spec] equates the matcher with the declarative relation [glob]. *)

From S2P Require Import Prelude PyStr.
From Stdlib Require Import Ascii.

(** ** Bracket expressions *)

(** The first occurrence of [c] at or after offset [m]: what is before it and
    what is after. *)
Fixpoint cut_at (c : ascii) (m : nat) (s : string) : option (string * string) :=
  match s with
  | EmptyString => None
  | String d s' =>
      match m with
      | S m' => option_map (consp d) (cut_at c m' s')
      | O => if Ascii.eqb d c then Some ("", s') else option_map (consp d) (cut_at c 0 s')
      end
  end.

(** The text of a bracket expression, [s] being what follows the bracket:
    a leading [!] and a [ ] ] right after it belong to it. *)
Definition class_text (s : string) : option (string * string) :=
  let '(p1, r1) := match s with String "!" r => ("!", r) | _ => ("", s) end in
  let '(p2, r2) := match r1 with String "]" r => (p1 +:+ "]", r) | _ => (p1, r1) end in
  match cut_at "]" 0 r2 with
  | Some (a, b) => Some (p2 +:+ a, b)
  | None => None
  end.

(** Cut at the hyphens that can form ranges. *)
Fixpoint chunks_go (fuel m : nat) (s : string) : list string :=
  match fuel with
  | O => [s]
  | S f =>
      match cut_at "-" m s with
      | None => [s]
      | Some (a, EmptyString) => [a +:+ "-"]
      | Some (a, b) => a :: chunks_go f 2 b
      end
  end.
Definition chunks (stuff : string) : list string :=
  chunks_go (slen stuff) (match stuff with String "!" _ => 2 | _ => 1 end) stuff.

Fixpoint last_char (s : string) : option ascii :=
  match s with
  | EmptyString => None
  | String c EmptyString => Some c
  | String _ s' => last_char s'
  end.
Definition init_str (s : string) : string := stake (slen s - 1) s.

(** Drop the ranges that are empty because their ends are out of order. *)
Fixpoint merge_chunks (l : list string) : list string :=
  match l with
  | [] => []
  | c :: l' =>
      match merge_chunks l' with
      | [] => [c]
      | d :: ds =>
          match last_char c, d with
          | Some lo, String hi d' =>
              if ord hi <? ord lo then (init_str c +:+ d') :: ds else c :: d :: ds
          | _, _ => c :: d :: ds
          end
      end
  end.

(** Membership in the ranges between consecutive chunks. *)
Fixpoint in_ranges (l : list string) (x : ascii) : bool :=
  match l with
  | c :: ((String hi _ :: _) as l') =>
      match last_char c with Some lo => (ord lo <=? ord x) && (ord x <=? ord hi) | None => false end
      || in_ranges l' x
  | _ => false
  end.
Definition in_chunks (l : list string) (x : ascii) : bool :=
  existsb (sexists (Ascii.eqb x)) l || in_ranges l x.

Inductive elem :=
  | EStar
  | EAny
  | ELit (c : ascii)
  | EClass (neg : bool) (l : list string).

#[global] Instance elem_eq_dec : EqDecision elem.
Proof. solve_decision. Defined.

Definition class_elem (stuff : string) : elem :=
  match merge_chunks (chunks stuff) with
  | [EmptyString] | [] => EClass false []
  | [String "!" EmptyString] => EAny
  | String "!" c :: l => EClass true (c :: l)
  | l => EClass false l
  end.

(** ** Parsing a pattern *)

Fixpoint parse_go (skip : nat) (pat : string) : list elem :=
  match pat with
  | EmptyString => []
  | String c r =>
      match skip with
      | S k => parse_go k r
      | O =>
          match c with
          | "*"%char => EStar :: parse_go 0 r
          | "?"%char => EAny :: parse_go 0 r
          | "["%char =>
              match class_text r with
              | None => ELit "[" :: parse_go 0 r
              | Some (stuff, _) => class_elem stuff :: parse_go (slen stuff + 1) r
              end
          | _ => ELit c :: parse_go 0 r
          end
      end
  end.
Definition parse_pattern (pat : string) : list elem := parse_go 0 pat.

(** ** Matching *)

(** One character against one element; a star is not a one-character element. *)
Definition elem_char (e : elem) (c : ascii) : bool :=
  match e with
  | EStar => false
  | EAny => true
  | ELit d => Ascii.eqb c d
  | EClass neg l => xorb neg (in_chunks l c)
  end.

Fixpoint match_elems (es : list elem) (name : string) : bool :=
  match es with
  | [] => match name with EmptyString => true | _ => false end
  | EStar :: es' =>
      (fix star (s : string) : bool :=
         match_elems es' s || match s with EmptyString => false | String _ s' => star s' end) name
  | e :: es' =>
      match name with
      | EmptyString => false
      | String c s' => elem_char e c && match_elems es' s'
      end
  end.
Definition fnmatch (name pat : string) : bool := match_elems (parse_pattern pat) name.

(** ** The declarative reading *)

Inductive glob : list elem -> string -> Prop :=
  | glob_nil : glob [] ""
  | glob_star es s t : glob es t -> glob (EStar :: es) (s +:+ t)
  | glob_char e es c t : elem_char e c = true -> glob es t -> glob (e :: es) (String c t).

Lemma match_elems_star es s :
  match_elems (EStar :: es) s = true <-> exists u v, s = u +:+ v /\ match_elems es v = true.
Proof.
  induction s as [|c s IH]; cbn [match_elems] in *; rewrite orb_true_iff.
  - split.
    + intros [H|H]; [exists "", ""; by split|done].
    + intros (u & v & E & H). left. destruct u; [by rewrite sapp_nil_l in E; subst|by rewrite sapp_cons in E].
  - rewrite IH. split.
    + intros [H|(u & v & -> & H)]; [by exists "", (String c s)|]. exists (String c u), v. by rewrite sapp_cons.
    + intros ([|d u] & v & E & H).
      * left. rewrite sapp_nil_l in E. by subst.
      * right. rewrite sapp_cons in E. simplify_eq. by exists u, v.
Qed.

Lemma match_elems_glob es s : match_elems es s = true <-> glob es s.
Proof.
  revert s; induction es as [|e es IH]; intros s.
  - split; [destruct s; [constructor|done]|by inversion 1].
  - destruct (decide (e = EStar)) as [->|Hne].
    + rewrite match_elems_star. split.
      * intros (u & v & -> & H). constructor. by apply IH.
      * inversion 1; subst; [|done]. eexists _, _. split; [done|]. by apply IH.
    + assert (match_elems (e :: es) s = match s with
        | EmptyString => false | String c s' => elem_char e c && match_elems es s' end) as -> by by destruct e.
      destruct s as [|c s].
      * split; [done|]. inversion 1; subst; done.
      * rewrite andb_true_iff, IH. split; [intros []; by constructor|]. inversion 1; subst; done.
Qed.

Lemma fnmatch_spec name pat : fnmatch name pat = true <-> glob (parse_pattern pat) name.
Proof. apply match_elems_glob. Qed.

(** A pattern without metacharacters matches itself only. *)
Definition plain_char (c : ascii) : bool :=
  negb (Ascii.eqb c "*" || Ascii.eqb c "?" || Ascii.eqb c "[").

Lemma parse_plain pat s :
  sall plain_char pat = true ->
  (match_elems (parse_pattern pat) s = true <-> s = pat).
Proof.
  unfold parse_pattern. revert s; induction pat as [|c pat IH]; intros s.
  - intros _. simpl. by destruct s.
  - simpl. rewrite andb_true_iff. intros [Hc Hp].
    assert (parse_go 0 (String c pat) = ELit c :: parse_go 0 pat) as E.
    { unfold plain_char in Hc. destruct c as [[] [] [] [] [] [] [] []]; simpl in *; done. }
    simpl in E. rewrite E. simpl. destruct s as [|d s]; [done|].
    rewrite andb_true_iff, Ascii.eqb_eq, IH by done. split; [intros [-> ->]; done|by intros [= -> ->]].
Qed.

Lemma fnmatch_plain name pat :
  sall plain_char pat = true -> fnmatch name pat = String.eqb name pat.
Proof.
  intros H. apply eq_true_iff_eq. rewrite String.eqb_eq. by apply parse_plain.
Qed.

(** The pattern [*] matches everything. *)
Lemma fnmatch_star name : fnmatch name "*" = true.
Proof.
  apply fnmatch_spec. change (parse_pattern "*") with [EStar].
  rewrite <-(sapp_nil_r name). repeat constructor.
Qed.

(** A literal text in front of a pattern. *)
Fixpoint lits (s : string) : list elem :=
  match s with EmptyString => [] | String c s' => ELit c :: lits s' end.

Lemma parse_plain_app l r :
  sall plain_char l = true -> parse_pattern (l +:+ r) = lits l ++ parse_pattern r.
Proof.
  unfold parse_pattern. induction l as [|c l IH]; [done|]. cbn [sall]. rewrite andb_true_iff.
  intros [Hc Hl]. rewrite sapp_cons.
  assert (forall r, parse_go 0 (String c r) = ELit c :: parse_go 0 r) as ->.
  { intros r'. unfold plain_char in Hc. destruct c as [[] [] [] [] [] [] [] []]; simpl in *; done. }
  by rewrite IH.
Qed.

Lemma glob_lits l es s : glob (lits l ++ es) s <-> exists t, s = l +:+ t /\ glob es t.
Proof.
  revert s; induction l as [|c l IH]; intros s; cbn [lits app].
  - setoid_rewrite sapp_nil_l. naive_solver.
  - split.
    + inversion 1 as [| |? ? d t Hd Ht]; subst. apply IH in Ht as (u & -> & Hu).
      apply Ascii.eqb_eq in Hd as ->. by exists u.
    + intros (t & -> & Ht). rewrite sapp_cons. constructor; [by apply Ascii.eqb_refl|]. apply IH. eauto.
Qed.

Lemma glob_any s : glob [EStar] s.
Proof. rewrite <-(sapp_nil_r s). repeat constructor. Qed.

Lemma fnmatch_prefix name l :
  sall plain_char l = true -> fnmatch name (l +:+ "*") = startswith l name.
Proof.
  intros Hl. apply eq_true_iff_eq. rewrite fnmatch_spec, parse_plain_app, glob_lits, prefix_spec by done.
  split; intros (t & H); exists t; [tauto|]. split; [done|apply glob_any].
Qed.

Lemma fnmatch_contains name l :
  sall plain_char l = true -> fnmatch name (String "*" (l +:+ "*")) = contains l name.
Proof.
  intros Hl. apply eq_true_iff_eq. rewrite fnmatch_spec, contains_spec.
  change (parse_pattern (String "*" (l +:+ "*"))) with (EStar :: parse_pattern (l +:+ "*")).
  rewrite parse_plain_app by done. split.
  - inversion 1 as [|? u t Ht|? ? ? ? Hd]; subst; [|done]. apply glob_lits in Ht as (v & -> & _). by exists u, v.
  - intros (u & v & ->). constructor. apply glob_lits. exists v. split; [done|apply glob_any].
Qed.
