(* ===== verification/TaskProtocol.v ===== *)
(** * The control plane's task protocol

    Models [openhands/forgepilot/control_plane/task_protocol.py]: the four
    phases, the task metadata, the choice of verification commands, and the
    validation of a phase trace.  The main theorem says which traces
    [validate_phase_sequence] accepts. *)

From S2P Require Import Prelude PyStr PyDict.

Inductive TaskPhase := PLAN | EXECUTE | VERIFY | REPORT.

#[global] Instance TaskPhase_eq_dec : EqDecision TaskPhase.
Proof. solve_decision. Defined.

Definition DEFAULT_TASK_PROTOCOL : list TaskPhase := [PLAN; EXECUTE; VERIFY; REPORT].

(** ** Task metadata *)

Record ChangeBoundary := {
  allowed_paths : list string;
  allowed_file_extensions : list string;
  blocked_path_patterns : list string;
}.

Inductive ConfirmationMode := cm_auto | cm_on_request | cm_manual.
Inductive NetworkAccess := na_deny | na_allowlist | na_open.

Record TaskExecutionPolicy := {
  confirmation_mode : ConfirmationMode;
  network_access : NetworkAccess;
  readonly_research_mode : bool;
  review_mode : bool;
  handoff_mode : bool;
  max_self_heal_rounds : Z;
}.

(** Construction validates the field bounds ([ge=0, le=10]). *)
Definition new_TaskExecutionPolicy (cm : ConfirmationMode) (na : NetworkAccess)
    (ro review handoff : bool) (rounds : Z) : res TaskExecutionPolicy :=
  if (0 <=? rounds) && (rounds <=? 10)
  then Ok {| confirmation_mode := cm; network_access := na; readonly_research_mode := ro;
             review_mode := review; handoff_mode := handoff; max_self_heal_rounds := rounds |}
  else Raise (ValueError "max_self_heal_rounds").

Definition default_TaskExecutionPolicy : TaskExecutionPolicy :=
  {| confirmation_mode := cm_on_request; network_access := na_allowlist;
     readonly_research_mode := false; review_mode := false; handoff_mode := false;
     max_self_heal_rounds := 2 |}.

Record TaskSpec := {
  title : string;
  objective : string;
  language : string;
  acceptance_criteria : list string;
  change_boundary : ChangeBoundary;
  execution_policy : TaskExecutionPolicy;
}.

(** ** Verification commands *)

Definition VERIFICATION_COMMANDS : dict string (list string) :=
  [ ("python", ["pytest -q"]);
    ("javascript", ["npm test -- --runInBand"]);
    ("typescript", ["npm run typecheck"; "npm test -- --runInBand"]);
    ("java", ["mvn -q test"]);
    ("kotlin", ["./gradlew test"]);
    ("go", ["go test ./..."]);
    ("rust", ["cargo test"]);
    ("csharp", ["dotnet test"]);
    ("generic", ["echo 'No built-in verifier; define project-specific command.'"]) ].

Definition language_aliases : dict string string :=
  [ ("py", "python"); ("js", "javascript"); ("ts", "typescript"); ("node", "javascript");
    ("golang", "go"); ("cs", "csharp") ].

Definition normalize_language (language : string) : string :=
  let value := lower (strip language) in
  match dget language_aliases value with
  | Some v => v
  | None => if String.eqb value "" then "generic" else value
  end.

Definition select_verification_commands (language : string) : list string :=
  let normalized := normalize_language language in
  match dget VERIFICATION_COMMANDS normalized with
  | Some cmds => cmds
  | None => match dget VERIFICATION_COMMANDS "generic" with Some cmds => cmds | None => [] end
  end.

(** ** Phase transitions *)

(** [order.index(phase)]: the position of the first occurrence. *)
Fixpoint index_of (p : TaskPhase) (order : list TaskPhase) : option nat :=
  match order with
  | [] => None
  | q :: order' => if decide (p = q) then Some 0%nat else S <$> index_of p order'
  end.

Definition is_valid_phase_transition (current_phase : option TaskPhase) (next_phase : TaskPhase)
    : res bool :=
  match current_phase with
  | None => Ok (bool_decide (next_phase = PLAN))
  | Some current =>
      if decide (next_phase = current) then Ok true
      else match index_of current DEFAULT_TASK_PROTOCOL, index_of next_phase DEFAULT_TASK_PROTOCOL with
           | Some current_index, Some next_index => Ok (bool_decide (next_index = current_index + 1)%nat)
           | _, _ => Raise (ValueError "is not in list")
           end
  end.

(** The loop of [validate_phase_sequence], [previous] (also the code's
    [last]) being the phase seen before. *)
Fixpoint validate_loop (previous : option TaskPhase) (phases : list TaskPhase) (require_complete : bool)
    : res bool :=
  match phases with
  | phase :: phases' =>
      ok <-! is_valid_phase_transition previous phase ;;
      if ok : bool then validate_loop (Some phase) phases' require_complete else Ok false
  | [] =>
      match previous with
      | None => Ok false
      | Some last => if require_complete then Ok (bool_decide (last = REPORT)) else Ok true
      end
  end.
Definition validate_phase_sequence (phases : list TaskPhase) (require_complete : bool) : res bool :=
  validate_loop None phases require_complete.

(** ** Properties *)

(** The reference: a complete trace repeats each phase at least once, in order. *)
Definition complete_trace (l : list TaskPhase) : Prop :=
  exists a b c d : nat,
    l = replicate (S a) PLAN ++ replicate (S b) EXECUTE ++ replicate (S c) VERIFY ++ replicate (S d) REPORT.

(** What may still follow a phase, the phase itself repeated included. *)
Definition tail_from (p : TaskPhase) (l : list TaskPhase) : Prop :=
  match p with
  | PLAN => exists a b c d : nat,
      l = replicate a PLAN ++ replicate (S b) EXECUTE ++ replicate (S c) VERIFY ++ replicate (S d) REPORT
  | EXECUTE => exists b c d : nat,
      l = replicate b EXECUTE ++ replicate (S c) VERIFY ++ replicate (S d) REPORT
  | VERIFY => exists c d : nat, l = replicate c VERIFY ++ replicate (S d) REPORT
  | REPORT => exists d : nat, l = replicate d REPORT
  end.

Definition succ_phase (p : TaskPhase) : option TaskPhase :=
  match p with PLAN => Some EXECUTE | EXECUTE => Some VERIFY | VERIFY => Some REPORT | REPORT => None end.

Lemma transition_spec p q :
  is_valid_phase_transition (Some p) q = Ok (bool_decide (q = p \/ succ_phase p = Some q)).
Proof. by destruct p, q. Qed.

Lemma tail_from_cons p q l :
  tail_from p (q :: l) <-> (q = p \/ succ_phase p = Some q) /\ tail_from q l.
Proof.
  split.
  - destruct p; simpl.
    + intros ([|a] & b & c & d & E); simplify_eq/=; split; eauto 10.
    + intros ([|b] & c & d & E); simplify_eq/=; split; eauto 10.
    + intros ([|c] & d & E); simplify_eq/=; split; eauto 10.
    + intros ([|d] & E); simplify_eq/=; split; eauto 10.
  - intros [[->|Hs] Ht].
    + destruct p; simpl in *.
      * destruct Ht as (a & b & c & d & ->). by exists (S a), b, c, d.
      * destruct Ht as (b & c & d & ->). by exists (S b), c, d.
      * destruct Ht as (c & d & ->). by exists (S c), d.
      * destruct Ht as (d & ->). by exists (S d).
    + destruct p; simplify_eq/=.
      * destruct Ht as (b & c & d & ->). by exists 0%nat, b, c, d.
      * destruct Ht as (c & d & ->). by exists 0%nat, c, d.
      * destruct Ht as (d & ->). by exists 0%nat, d.
Qed.

Lemma tail_from_nil p : tail_from p [] <-> p = REPORT.
Proof.
  destruct p; simpl; (split; [|done || by intros _; exists 0%nat]).
  - by intros ([|?] & ? & ? & ? & ?).
  - by intros ([|?] & ? & ? & ?).
  - by intros ([|?] & ? & ?).
  - done.
Qed.

Lemma validate_loop_complete p l : validate_loop (Some p) l true = Ok true <-> tail_from p l.
Proof.
  revert p; induction l as [|q l IH]; intros p; cbn [validate_loop].
  - rewrite tail_from_nil. destruct p; naive_solver.
  - rewrite transition_spec, tail_from_cons. cbn [rbind]. case_bool_decide as H.
    + rewrite IH. naive_solver.
    + naive_solver.
Qed.

Lemma complete_trace_cons q l : complete_trace (q :: l) <-> q = PLAN /\ tail_from PLAN l.
Proof.
  split.
  - intros (a & b & c & d & E). simplify_eq/=. split; [done|]. by exists a, b, c, d.
  - intros [-> (a & b & c & d & ->)]. by exists a, b, c, d.
Qed.

Lemma validate_complete l : validate_phase_sequence l true = Ok true <-> complete_trace l.
Proof.
  unfold validate_phase_sequence. destruct l as [|q l]; cbn [validate_loop].
  - split; [done|]. by intros (a & b & c & d & ?).
  - rewrite complete_trace_cons, <-validate_loop_complete. unfold is_valid_phase_transition, rbind.
    case_bool_decide; naive_solver.
Qed.

(** Any phase can be completed to a full trace. *)
Lemma tail_from_exists p : exists l, tail_from p l.
Proof.
  destruct p; simpl.
  - by exists [EXECUTE; VERIFY; REPORT], 0%nat, 0%nat, 0%nat, 0%nat.
  - by exists [VERIFY; REPORT], 0%nat, 0%nat, 0%nat.
  - by exists [REPORT], 0%nat, 0%nat.
  - by exists [], 0%nat.
Qed.

Lemma validate_loop_prefix p l :
  validate_loop (Some p) l false = Ok true <-> exists rest, tail_from p (l ++ rest).
Proof.
  revert p; induction l as [|q l IH]; intros p; cbn [validate_loop app].
  - split; [intros _; apply tail_from_exists|done].
  - rewrite transition_spec. cbn [rbind]. setoid_rewrite tail_from_cons.
    case_bool_decide as H; [rewrite IH; naive_solver|naive_solver].
Qed.

Lemma validate_prefix l :
  validate_phase_sequence l false = Ok true <-> l <> [] /\ exists rest, complete_trace (l ++ rest).
Proof.
  unfold validate_phase_sequence. destruct l as [|q l]; cbn [validate_loop app]; [naive_solver|].
  setoid_rewrite complete_trace_cons.
  unfold is_valid_phase_transition, rbind. case_bool_decide; [|naive_solver].
  rewrite validate_loop_prefix. naive_solver.
Qed.

Lemma validate_total l b : exists r, validate_phase_sequence l b = Ok r.
Proof.
  unfold validate_phase_sequence. generalize (@None TaskPhase) as p.
  induction l as [|q l IH]; intros [p|]; cbn [validate_loop]; eauto.
  - destruct b; eauto.
  - rewrite transition_spec. cbn [rbind]. case_bool_decide; eauto.
  - cbn [is_valid_phase_transition rbind]. case_bool_decide; eauto.
Qed.

(** [validate_phase_sequence] never raises; with [require_complete] it
    accepts exactly the traces PLAN+ EXECUTE+ VERIFY+ REPORT+, and without it
    exactly the non-empty prefixes of those traces. *)
Lemma validate_phase_sequence_correct (l : list TaskPhase) :
  (exists r, validate_phase_sequence l true = Ok r) /\
  (exists r, validate_phase_sequence l false = Ok r) /\
  (validate_phase_sequence l true = Ok true <-> complete_trace l) /\
  (validate_phase_sequence l false = Ok true <->
     l <> [] /\ exists rest, complete_trace (l ++ rest)).
Proof.
  eauto using validate_total, validate_complete, validate_prefix.
Qed.

(** Selecting commands: surrounding blanks and case do not matter, and a
    command list is always found. *)
Lemma select_verification_commands_nonempty s : select_verification_commands s <> [].
Proof.
  unfold select_verification_commands. generalize (normalize_language s). intros n.
  destruct (dget VERIFICATION_COMMANDS n) as [cmds|] eqn:E; [|done].
  apply dget_elem in E. intros ->.
  repeat (apply elem_of_cons in E as [E|E]; [simplify_eq|]). inversion E.
Qed.

Lemma normalize_language_nonempty s : normalize_language s <> "".
Proof.
  unfold normalize_language. destruct (dget language_aliases _) as [v|] eqn:E.
  - apply dget_elem in E. intros ->.
    repeat (apply elem_of_cons in E as [E|E]; [simplify_eq|]). inversion E.
  - destruct (String.eqb_spec (lower (strip s)) ""); done.
Qed.
