(* ===== verification/TeamSpace.v ===== *)
(** * Team spaces: role-based permissions and the space registry

    Models [openhands/forgepilot/teamspace/__init__.py].  A space keeps its
    members in an ordered dict; the registry maps space ids to spaces.  The
    registry's methods are functions of the registry that return an outcome
    and the registry left behind.  [space_inv] is what every sequence of
    registry calls preserves; [add_member_can_demote_owner] records that the
    stronger invariant (the owner keeps the OWNER role) does not hold. *)

From S2P Require Import Prelude PyStr PyDict.

(** ** Data *)

Inductive SpaceRole := OWNER | ADMIN | MEMBER | VIEWER.
Inductive SpaceType := PERSONAL | TEAM | SHARED_TEMPLATE.

#[global] Instance SpaceRole_eq_dec : EqDecision SpaceRole.
Proof. solve_decision. Defined.

(** [str(role)] *)
Definition role_str (r : SpaceRole) : string :=
  match r with
  | OWNER => "SpaceRole.OWNER" | ADMIN => "SpaceRole.ADMIN"
  | MEMBER => "SpaceRole.MEMBER" | VIEWER => "SpaceRole.VIEWER"
  end.

Definition ROLE_HIERARCHY (r : SpaceRole) : Z :=
  match r with OWNER => 4 | ADMIN => 3 | MEMBER => 2 | VIEWER => 1 end.

Definition PERMISSION_MATRIX : dict string (list SpaceRole) :=
  [ ("space:read", [VIEWER; MEMBER; ADMIN; OWNER]);
    ("space:write", [MEMBER; ADMIN; OWNER]);
    ("space:manage", [ADMIN; OWNER]);
    ("space:delete", [OWNER]);
    ("task:create", [MEMBER; ADMIN; OWNER]);
    ("task:read", [VIEWER; MEMBER; ADMIN; OWNER]);
    ("task:manage", [ADMIN; OWNER]);
    ("template:read", [VIEWER; MEMBER; ADMIN; OWNER]);
    ("template:write", [ADMIN; OWNER]);
    ("audit:read", [MEMBER; ADMIN; OWNER]);
    ("billing:read", [ADMIN; OWNER]);
    ("billing:manage", [OWNER]) ].

Record SpaceMember := { user_id : string; role : SpaceRole; joined_at : Z }.

Record TeamSpace := {
  space_id : string;
  name : string;
  space_type : SpaceType;
  owner_id : string;
  members : dict string SpaceMember;
  created_at : Z;
  quota_tasks : Z;
  quota_storage_mb : Z;
  is_archived : bool;
}.

Definition with_members (s : TeamSpace) (ms : dict string SpaceMember) : TeamSpace :=
  {| space_id := space_id s; name := name s; space_type := space_type s; owner_id := owner_id s;
     members := ms; created_at := created_at s; quota_tasks := quota_tasks s;
     quota_storage_mb := quota_storage_mb s; is_archived := is_archived s |}.

(** The [after] validator. *)
Definition ensure_owner_is_member (s : TeamSpace) : TeamSpace :=
  if dmem (members s) (owner_id s) then s
  else with_members s (dset (members s) (owner_id s)
         {| user_id := owner_id s; role := OWNER; joined_at := created_at s |}).

(** ** The permission guard of one space *)

Definition get_role (s : TeamSpace) (uid : string) : option SpaceRole :=
  role <$> dget (members s) uid.

Definition can (s : TeamSpace) (uid permission : string) : bool :=
  match get_role s uid with
  | None => false
  | Some r =>
      let allowed_roles := default [] (dget PERMISSION_MATRIX permission) in
      bool_decide (r ∈ allowed_roles)
  end.

Definition require (s : TeamSpace) (uid permission : string) : res unit :=
  if can s uid permission then Ok tt
  else
    let role := match get_role s uid with Some r => role_str r | None => "None" end in
    Raise (PermissionError ("User " +:+ uid +:+ " (role=" +:+ role +:+ ") lacks permission " +:+
      permission +:+ " in space " +:+ space_id s)).

Definition is_at_least (s : TeamSpace) (uid : string) (min_role : SpaceRole) : bool :=
  match get_role s uid with
  | None => false
  | Some r => ROLE_HIERARCHY min_role <=? ROLE_HIERARCHY r
  end.

Definition list_members_with_role (s : TeamSpace) (min_role : SpaceRole) : list string :=
  (filter (fun km => ROLE_HIERARCHY min_role <= ROLE_HIERARCHY (role km.2)) (members s)).*1.

(** ** The registry *)

Definition SpaceRegistry : Type := list (string * TeamSpace).

Definition create_space (sid nm owner : string) (ty : SpaceType) (now : Z) : M SpaceRegistry TeamSpace :=
  spaces <- getM ;;
  if dmem spaces sid then raiseM (ValueError ("Space " +:+ sid +:+ " already exists"))
  else
    let space := ensure_owner_is_member
      {| space_id := sid; name := nm; space_type := ty; owner_id := owner; members := [];
         created_at := now; quota_tasks := 100; quota_storage_mb := 1024; is_archived := false |} in
    putM (dset spaces sid space) ;;; retM space.

Definition get_space (reg : SpaceRegistry) (sid : string) : option TeamSpace := dget reg sid.

Definition list_user_spaces (reg : SpaceRegistry) (uid : string) : list TeamSpace :=
  filter (fun s => dmem (members s) uid = true) (dvals reg).

Definition get_space_or_raise (sid : string) : M SpaceRegistry TeamSpace :=
  spaces <- getM ;;
  match dget spaces sid with
  | None => raiseM (ValueError ("Space " +:+ sid +:+ " not found"))
  | Some s => retM s
  end.

(** The registry after the members of the (shared) space object changed. *)
Definition set_members (sid : string) (ms : dict string SpaceMember) : M SpaceRegistry unit :=
  modifyM (fun reg => dalter (fun s => with_members s ms) reg sid).

Definition add_member (sid uid : string) (r : SpaceRole) (actor : string) (now : Z)
    : M SpaceRegistry unit :=
  space <- get_space_or_raise sid ;;
  liftM (require space actor "space:manage") ;;;
  if decide (r = OWNER)
  then raiseM (PermissionError "OWNER role is fixed at space creation and cannot be granted")
  else set_members sid
         (dset (members space) uid {| user_id := uid; role := r; joined_at := now |}).

Definition remove_member (sid uid actor : string) : M SpaceRegistry unit :=
  space <- get_space_or_raise sid ;;
  liftM (require space actor "space:manage") ;;;
  if decide (uid = owner_id space)
  then raiseM (PermissionError "Cannot remove the space owner")
  else set_members sid (ddel (members space) uid).

Definition change_role (sid uid : string) (new_role : SpaceRole) (actor : string)
    : M SpaceRegistry unit :=
  space <- get_space_or_raise sid ;;
  liftM (require space actor "space:manage") ;;;
  if negb (dmem (members space) uid)
  then raiseM (ValueError ("User " +:+ uid +:+ " is not a member"))
  else if decide (uid = owner_id space)
  then raiseM (PermissionError "Cannot change the space owner role")
  else if decide (new_role = OWNER)
  then raiseM (PermissionError "OWNER role is fixed at space creation and cannot be granted")
  else set_members sid
         (dalter (fun m => {| user_id := user_id m; role := new_role; joined_at := joined_at m |})
            (members space) uid).

(** ** Properties *)

(** The matrix is closed upwards: a role above an allowed role is allowed. *)
Lemma permission_matrix_monotone p r r' roles :
  dget PERMISSION_MATRIX p = Some roles -> r ∈ roles ->
  ROLE_HIERARCHY r <= ROLE_HIERARCHY r' -> r' ∈ roles.
Proof.
  intros Hp Hr Hle.
  assert (forallb (fun row => forallb (fun a => forallb (fun b =>
            negb (bool_decide (a ∈ row.2)) || negb (ROLE_HIERARCHY a <=? ROLE_HIERARCHY b)
            || bool_decide (b ∈ row.2)) [OWNER; ADMIN; MEMBER; VIEWER])
            [OWNER; ADMIN; MEMBER; VIEWER]) PERMISSION_MATRIX = true) as H by by vm_compute.
  rewrite forallb_forall in H. apply dget_elem, list_elem_of_In in Hp. specialize (H _ Hp).
  assert (forall x : SpaceRole, In x [OWNER; ADMIN; MEMBER; VIEWER]) as Hall
    by (intros []; simpl; tauto).
  rewrite forallb_forall in H. specialize (H r (Hall r)).
  rewrite forallb_forall in H. specialize (H r' (Hall r')). simpl in H.
  rewrite bool_decide_eq_true_2 in H by done. rewrite (proj2 (Z.leb_le _ _) Hle) in H.
  by apply bool_decide_eq_true in H.
Qed.

(** What holds of every space: the owner is a member, nobody else is OWNER,
    the keys of the member dict are distinct, and each names its member. *)
Definition space_inv (s : TeamSpace) : Prop :=
  dwf (members s) /\
  owner_id s ∈ dkeys (members s) /\
  (forall u m, dget (members s) u = Some m -> user_id m = u /\ (role m = OWNER -> u = owner_id s)).

Definition registry_inv (reg : SpaceRegistry) : Prop :=
  dwf reg /\ forall sid s, dget reg sid = Some s -> space_id s = sid /\ space_inv s.

(** The operations, as the labels of a step. *)
Inductive op :=
  | OpCreate (sid nm owner : string) (ty : SpaceType) (now : Z)
  | OpAdd (sid uid : string) (r : SpaceRole) (actor : string) (now : Z)
  | OpRemove (sid uid actor : string)
  | OpChange (sid uid : string) (r : SpaceRole) (actor : string).

Definition exec (o : op) (reg : SpaceRegistry) : res unit * SpaceRegistry :=
  match o with
  | OpCreate sid nm owner ty now => (create_space sid nm owner ty now ;;; retM tt) reg
  | OpAdd sid uid r actor now => add_member sid uid r actor now reg
  | OpRemove sid uid actor => remove_member sid uid actor reg
  | OpChange sid uid r actor => change_role sid uid r actor reg
  end.
Definition step (o : op) (reg : SpaceRegistry) : SpaceRegistry := (exec o reg).2.

Ltac unfold_ops :=
  unfold step, exec, create_space, add_member, remove_member, change_role, get_space_or_raise,
    set_members, bindM, getM, putM, retM, raiseM, liftM, modifyM in *; simpl in *.

Lemma registry_inv_with_members reg sid s ms :
  registry_inv reg -> dget reg sid = Some s -> space_inv (with_members s ms) ->
  registry_inv (dalter (fun s => with_members s ms) reg sid).
Proof.
  intros [Hwf Hreg] Hs Hms. split; [by apply dwf_dalter|]. intros sid' s'. rewrite dget_dalter.
  case_decide as E; [subst|apply Hreg]. rewrite Hs. intros [= <-].
  split; [apply (Hreg _ _ Hs)|]. destruct Hms as (? & ? & ?). by split_and!.
Qed.

Lemma space_inv_dset s uid r now :
  space_inv s -> r <> OWNER ->
  space_inv (with_members s (dset (members s) uid {| user_id := uid; role := r; joined_at := now |})).
Proof.
  intros (Hwf & Hown & Hm) Hr. split_and!; simpl.
  - by apply dwf_dset.
  - apply elem_of_dkeys_dset. by right.
  - intros u m. rewrite dget_dset. case_decide; [|apply Hm]. subst. intros [= <-]. done.
Qed.

Lemma space_inv_ddel s uid :
  space_inv s -> uid <> owner_id s -> space_inv (with_members s (ddel (members s) uid)).
Proof.
  intros (Hwf & Hown & Hm) Hne. split_and!; simpl.
  - by apply dwf_ddel.
  - rewrite dkeys_ddel. apply list_elem_of_filter. by split.
  - intros u m. rewrite dget_ddel. case_decide; [done|apply Hm].
Qed.

Lemma space_inv_dalter s uid r :
  space_inv s -> r <> OWNER ->
  space_inv (with_members s (dalter (fun m => {| user_id := user_id m; role := r;
    joined_at := joined_at m |}) (members s) uid)).
Proof.
  intros (Hwf & Hown & Hm) Hr. split_and!; simpl.
  - by apply dwf_dalter.
  - by rewrite dkeys_dalter.
  - intros u m. rewrite dget_dalter. case_decide as E; [subst|apply Hm].
    destruct (dget (members s) u) as [m'|] eqn:Hu; simpl; [|done]. intros [= <-]. simpl.
    split; [apply (Hm _ _ Hu)|done].
Qed.

Lemma space_inv_new sid nm owner ty now :
  space_inv (ensure_owner_is_member {| space_id := sid; name := nm; space_type := ty;
    owner_id := owner; members := []; created_at := now; quota_tasks := 100;
    quota_storage_mb := 1024; is_archived := false |}).
Proof.
  split_and!; simpl; [apply NoDup_singleton|by left|].
  intros u m. case_decide; [|done]. intros [= <-]. done.
Qed.

Lemma step_inv o reg : registry_inv reg -> registry_inv (step o reg).
Proof.
  intros Hinv. pose proof Hinv as [Hwf Hreg].
  destruct o as [sid nm owner ty now|sid uid r actor now|sid uid actor|sid uid r actor]; unfold_ops.
  - destruct (dmem reg sid) eqn:E; simpl; [done|]. split; [by apply dwf_dset|].
    intros sid' s'. rewrite dget_dset. case_decide; [|apply Hreg].
    intros [= <-]. split; [done|]. apply space_inv_new.
  - destruct (dget reg sid) as [s|] eqn:E; [|done]. destruct (require s actor _) as [[]|e]; [|done].
    case_decide; [done|]. eapply registry_inv_with_members; [done..|].
    apply space_inv_dset; [apply (Hreg _ _ E)|done].
  - destruct (dget reg sid) as [s|] eqn:E; [|done]. destruct (require s actor _) as [[]|e]; [|done].
    case_decide; [done|]. eapply registry_inv_with_members; [done..|].
    apply space_inv_ddel; [apply (Hreg _ _ E)|done].
  - destruct (dget reg sid) as [s|] eqn:E; [|done]. destruct (require s actor _) as [[]|e]; [|done].
    destruct (negb _); [done|]. do 2 (case_decide; [done|]).
    eapply registry_inv_with_members; [done..|].
    apply space_inv_dalter; [apply (Hreg _ _ E)|done].
Qed.

(** Who may change a space: the step either leaves the space as it was, or
    the actor could manage it. *)
Definition actor_of (o : op) : option (string * string) :=
  match o with
  | OpCreate _ _ _ _ _ => None
  | OpAdd sid _ _ actor _ | OpRemove sid _ actor | OpChange sid _ _ actor => Some (sid, actor)
  end.

Lemma can_manage s uid : can s uid "space:manage" = true <-> is_at_least s uid ADMIN = true.
Proof.
  unfold can, is_at_least. destruct (get_role s uid) as [[]|]; by vm_compute.
Qed.

Lemma step_frame o reg sid s :
  dget reg sid = Some s -> dget (step o reg) sid <> Some s ->
  exists actor, actor_of o = Some (sid, actor) /\ is_at_least s actor ADMIN = true.
Proof.
  intros Hs. destruct o as [sid' nm owner ty now|sid' uid r actor now|sid' uid actor|sid' uid r actor];
    unfold_ops.
  - destruct (dmem reg sid') eqn:E; simpl; [congruence|]. rewrite dget_dset. case_decide; [|congruence].
    subst. unfold dmem in E. by rewrite Hs in E.
  - destruct (dget reg sid') as [s'|] eqn:E; [|simpl; congruence].
    unfold require. destruct (can s' actor _) eqn:Hc; simpl; [|congruence].
    case_decide; simpl; [congruence|]. rewrite dget_dalter. case_decide; [|congruence].
    intros _. subst. simplify_eq. exists actor. by rewrite <-can_manage.
  - destruct (dget reg sid') as [s'|] eqn:E; [|simpl; congruence].
    unfold require. destruct (can s' actor _) eqn:Hc; simpl; [|congruence].
    case_decide; simpl; [congruence|]. rewrite dget_dalter. case_decide; [|congruence].
    intros _. subst. simplify_eq. exists actor. by rewrite <-can_manage.
  - destruct (dget reg sid') as [s'|] eqn:E; [|simpl; congruence].
    unfold require. destruct (can s' actor _) eqn:Hc; simpl; [|congruence].
    destruct (negb _); [simpl; congruence|]. do 2 (case_decide; simpl; [congruence|]).
    rewrite dget_dalter. case_decide; [|congruence].
    intros _. subst. simplify_eq. exists actor. by rewrite <-can_manage.
Qed.

(** C34: in every registry that a sequence of calls produces from the empty
    one, whatever the callers and whichever calls raise, each space's owner is
    a member of it, no other member holds OWNER, and every member record names
    its own key. *)
Theorem registry_invariant (ops : list op) : registry_inv (run step [] ops).
Proof. apply run_invariant; [by split; [apply dwf_nil|]|]. intros; by apply step_inv. Qed.

(** Authorisation.  If a call changes (or removes) a space of the
    registry, the call is a membership change of that very space and its actor
    holds at least the ADMIN role there; a call that raises changes nothing. *)
Lemma membership_change_authorised (o : op) (reg : SpaceRegistry) :
  (forall sid s, dget reg sid = Some s -> dget (step o reg) sid <> Some s ->
     exists actor, actor_of o = Some (sid, actor) /\ is_at_least s actor ADMIN = true) /\
  (is_ok (exec o reg).1 = false -> step o reg = reg).
Proof.
  split; [intros; by eapply step_frame|].
  destruct o as [sid nm owner ty now|sid uid r actor now|sid uid actor|sid uid r actor]; unfold_ops;
    split_matches.
Qed.

(** The guard is monotone in the role: a member whose role is at least
    that of a member who has a permission has the permission too; a user who
    is not a member has none; and [space:manage] is exactly "at least ADMIN". *)
Lemma can_monotone (s : TeamSpace) (u v p : string) :
  (forall ru rv, get_role s u = Some ru -> get_role s v = Some rv ->
     ROLE_HIERARCHY ru <= ROLE_HIERARCHY rv -> can s u p = true -> can s v p = true) /\
  (get_role s u = None -> can s u p = false) /\
  (can s u "space:manage" = is_at_least s u ADMIN).
Proof.
  split_and!.
  - unfold can. intros ru rv -> -> Hle. rewrite !bool_decide_eq_true.
    destruct (dget PERMISSION_MATRIX p) as [roles|] eqn:E; simpl; [|intros H; inversion H].
    intros. by eapply permission_matrix_monotone.
  - unfold can. by intros ->.
  - apply eq_true_iff_eq, can_manage.
Qed.

(** [add_member] does not protect the owner the way [change_role] and
    [remove_member] do: an ADMIN that an owner appointed can demote the owner
    to VIEWER, after which the owner may not manage the space. *)
Lemma add_member_can_demote_owner :
  exists reg s,
    reg = run step [] [OpCreate "s1" "Core" "alice" TEAM 0; OpAdd "s1" "bob" ADMIN "alice" 1;
                       OpAdd "s1" "alice" VIEWER "bob" 2] /\
    dget reg "s1" = Some s /\ owner_id s = "alice" /\ get_role s "alice" = Some VIEWER /\
    can s "alice" "space:manage" = false /\
    (exec (OpChange "s1" "alice" VIEWER "bob") reg).1
      = Raise (PermissionError "Cannot change the space owner role").
Proof. eexists _, _. split; [reflexivity|]. by vm_compute. Qed.
