(* ===== verification/Orchestration.v ===== *)
(** * Multi-agent orchestration and knowledge injection

    Models [openhands/forgepilot/orchestration/__init__.py]: the agent
    templates, the choice of the next agent by priority, the template registry,
    and the loader that injects project knowledge.  [dispatch] iterates
    [next_agent] the way a driver does; its theorem says which agents a
    template really runs.  Files are read through a parameter
    [read : string -> option string] ([None]: no such file). *)

From S2P Require Import Prelude PyStr PyDict.

(** ** Templates *)

Inductive AgentRole := EXPLORER | IMPLEMENTER | VERIFIER | REPORTER | ORCHESTRATOR.
#[global] Instance AgentRole_eq_dec : EqDecision AgentRole.
Proof. solve_decision. Defined.

Record AgentCapability := {
  role : AgentRole;
  allowed_tools : list string;
  allowed_paths : list string;
  read_only : bool;
  max_self_heal : Z;
  priority : Z;
}.

Record OrchestrationTemplate := {
  template_id : string;
  name : string;
  description : string;
  agents : list AgentCapability;
  handoff_strategy : string;
  requires_confirmation : bool;
  knowledge_injection : bool;
}.

(** An [AgentCapability] with [max_self_heal] at its default 1. *)
Definition agent (r : AgentRole) (tools paths : list string) (ro : bool) (heal prio : Z)
    : AgentCapability :=
  {| role := r; allowed_tools := tools; allowed_paths := paths; read_only := ro;
     max_self_heal := heal; priority := prio |}.

Definition bugfix_template : OrchestrationTemplate :=
  {| template_id := "bugfix"; name := "Bugfix";
     description := "Reproduce → locate → fix → verify → report";
     agents := [
       agent EXPLORER ["cmd.run"; "file.read"; "mcp.sentry"] ["*"] true 1 0;
       agent IMPLEMENTER ["cmd.run"; "file.edit"; "file.create"; "git.commit"] ["src/"; "tests/"] false 2 1;
       agent VERIFIER ["cmd.run"; "file.read"] ["*"] true 1 2;
       agent REPORTER ["file.read"; "delivery.generate"] ["*"] true 1 3 ];
     handoff_strategy := "sequential"; requires_confirmation := false; knowledge_injection := true |}.

Definition review_template : OrchestrationTemplate :=
  {| template_id := "code-review"; name := "Code Review";
     description := "Analyze diff → check for bugs/security/style → report findings";
     agents := [
       agent EXPLORER ["file.read"; "git.diff"; "git.log"] ["*"] true 1 0;
       agent REPORTER ["file.read"; "delivery.generate"] ["*"] true 1 0 ];
     handoff_strategy := "sequential"; requires_confirmation := false; knowledge_injection := true |}.

Definition docs_template : OrchestrationTemplate :=
  {| template_id := "docs"; name := "Documentation";
     description := "Analyze code → generate/update docs → verify links";
     agents := [
       agent EXPLORER ["file.read"; "cmd.run"] ["*"] true 1 0;
       agent IMPLEMENTER ["file.edit"; "file.create"] ["docs/"; "*.md"] false 1 0;
       agent VERIFIER ["cmd.run"] ["docs/"] true 1 0 ];
     handoff_strategy := "sequential"; requires_confirmation := true; knowledge_injection := true |}.

Definition BUILTIN_TEMPLATES : dict string OrchestrationTemplate :=
  [ ("bugfix", bugfix_template); ("code-review", review_template); ("docs", docs_template) ].

(** ** The registry *)

Definition register (reg : dict string OrchestrationTemplate) (t : OrchestrationTemplate)
    : dict string OrchestrationTemplate := dset reg (template_id t) t.
Definition get (reg : dict string OrchestrationTemplate) (tid : string)
    : option OrchestrationTemplate := dget reg tid.
Definition list_templates (reg : dict string OrchestrationTemplate) : list OrchestrationTemplate :=
  dvals reg.

Definition get_priority (t : OrchestrationTemplate) (r : AgentRole) : Z :=
  match list_find (fun a => role a = r) (agents t) with
  | Some (_, a) => priority a
  | None => -1
  end.

Definition next_agent (t : OrchestrationTemplate) (completed_role : option AgentRole)
    : option AgentCapability :=
  let ordered := sort_by priority (agents t) in
  match completed_role with
  | None => head ordered
  | Some r => snd <$> list_find (fun a => priority a > get_priority t r) ordered
  end.

(** ** Knowledge injection *)

Record KnowledgeSource := {
  source_type : string;
  path : string;
  content : string;
  src_priority : Z;
}.

Record KnowledgeContext := { task_id : string; sources : list KnowledgeSource; injected_at : Z }.


Definition assemble_system_prompt_fragment (c : KnowledgeContext) : string :=
  match sources c with
  | [] => ""
  | _ =>
      let block src := [ "### " +:+ source_type src +:+ ": " +:+ path src; strip (content src); "" ] in
      join newline ((newline +:+ "## Project Knowledge (injected)") :: ""
        :: concat (map block (sort_by (fun s => - src_priority s) (sources c))))
  end.

(** The loader's cache; a missing file is not cached. *)
Definition load (read : string -> option string) (p : string) : M (dict string string) (option string) :=
  cache <- getM ;;
  match dget cache p with
  | Some c => retM (Some c)
  | None =>
      match read p with
      | Some c => putM (dset cache p c) ;;; retM (Some c)
      | None => retM None
      end
  end.

Definition sources_to_check (root : string) : list (string * string * Z) :=
  [ ("repo_md", root +:+ "/.forgepilot/microagents/repo.md", 3);
    ("glossary", root +:+ "/.forgepilot/microagents/glossary.md", 2);
    ("setup_sh", root +:+ "/.forgepilot/setup.sh", 1);
    ("conventions", root +:+ "/.forgepilot/conventions.md", 2);
    ("knowledge", root +:+ "/.forgepilot/knowledge.md", 2) ].

Fixpoint load_sources (read : string -> option string) (l : list (string * string * Z))
    : M (dict string string) (list KnowledgeSource) :=
  match l with
  | [] => retM []
  | (ty, p, prio) :: l' =>
      c <- load read p ;;
      rest <- load_sources read l' ;;
      match c with
      | Some text => if String.eqb text "" then retM rest
                     else retM ({| source_type := ty; path := p; content := text; src_priority := prio |} :: rest)
      | None => retM rest
      end
  end.
Definition build_context (read : string -> option string) (tid root : string) (now : Z)
    : M (dict string string) KnowledgeContext :=
  srcs <- load_sources read (sources_to_check root) ;;
  retM {| task_id := tid; sources := srcs; injected_at := now |}.

(** ** Properties of the hand-off *)

(** The driver's loop: dispatch an agent, report its role as completed, ask
    for the next one.  [fuel] bounds the number of dispatches. *)
Fixpoint dispatch (fuel : nat) (t : OrchestrationTemplate) (completed : option AgentRole)
    : list AgentCapability :=
  match fuel with
  | O => []
  | S f => match next_agent t completed with
           | None => []
           | Some a => a :: dispatch f t (Some (role a))
           end
  end.

Lemma list_find_sorted_gt (k : Z) (l : list AgentCapability) :
  StronglySorted (key_le priority) l ->
  match list_find (fun a => priority a > k) l with
  | Some (i, a) => l !! i = Some a /\ priority a > k /\
                   Forall (fun b => priority b > k -> priority a <= priority b) l
  | None => Forall (fun b => priority b <= k) l
  end.
Proof.
  induction 1 as [|a l Hl IH Ha]; simpl; [constructor|]. case_decide as Hk; simpl.
  - split_and!; [done..|]. constructor; [done|]. eapply Forall_impl; [exact Ha|]. done.
  - destruct (list_find _ l) as [[i b]|]; simpl.
    + destruct IH as (? & ? & ?). split_and!; [done..|]. constructor; [lia|done].
    + constructor; [lia|done].
Qed.

(** Asking for the agent after [r] returns one of the template's agents, of
    the least priority above [r]'s; [None] when no agent is above. *)
Lemma next_agent_some t r a :
  next_agent t (Some r) = Some a ->
  a ∈ agents t /\ get_priority t r < priority a /\
  forall b, b ∈ agents t -> get_priority t r < priority b -> priority a <= priority b.
Proof.
  unfold next_agent. pose proof (list_find_sorted_gt (get_priority t r) _ (sort_by_sorted priority (agents t))) as H.
  destruct (list_find _ _) as [[i b]|] eqn:E; simpl; [|done]. intros [= ->].
  destruct H as (Hi & Hgt & Hmin). split_and!.
  - rewrite <-(elem_of_sort_by priority). by eapply list_elem_of_lookup_2.
  - lia.
  - intros b Hb Hlt. rewrite <-(elem_of_sort_by priority) in Hb.
    rewrite Forall_forall in Hmin. apply Hmin; [done|lia].
Qed.

Lemma next_agent_none t r :
  next_agent t (Some r) = None -> forall b, b ∈ agents t -> priority b <= get_priority t r.
Proof.
  unfold next_agent. pose proof (list_find_sorted_gt (get_priority t r) _ (sort_by_sorted priority (agents t))) as H.
  destruct (list_find _ _) as [[i b]|] eqn:E; simpl; [done|]. intros _ b Hb.
  rewrite <-(elem_of_sort_by priority) in Hb. rewrite Forall_forall in H. by apply H.
Qed.

(** When roles are distinct the completed role's priority is its agent's. *)
Lemma get_priority_role t a :
  NoDup (role <$> agents t) -> a ∈ agents t -> get_priority t (role a) = priority a.
Proof.
  unfold get_priority. generalize (agents t) as l. induction l as [|b l IH]; simpl; [by intros _ ?%not_elem_of_nil|].
  rewrite NoDup_cons, elem_of_cons. intros [Hb Hnd] Ha. case_decide as E; simpl.
  - destruct Ha as [->|Ha]; [done|]. exfalso. apply Hb. rewrite E. by apply list_elem_of_fmap_2.
  - destruct Ha as [->|Ha]; [done|]. specialize (IH Hnd Ha).
    destruct (list_find _ l) as [[i c]|]; simpl in *; done.
Qed.

Lemma dispatch_priorities t fuel r a :
  NoDup (role <$> agents t) -> a ∈ dispatch fuel t (Some r) -> get_priority t r < priority a.
Proof.
  intros Hnd. revert r; induction fuel as [|f IH]; intros r; cbn [dispatch]; [by intros ?%not_elem_of_nil|].
  destruct (next_agent t (Some r)) as [b|] eqn:E; [|by intros ?%not_elem_of_nil].
  apply next_agent_some in E as (Hb & Hlt & _). rewrite elem_of_cons. intros [->|Ha]; [done|].
  apply IH in Ha. rewrite get_priority_role in Ha by done. lia.
Qed.

Lemma dispatch_sorted t fuel c :
  NoDup (role <$> agents t) ->
  StronglySorted (fun a b => priority a < priority b) (dispatch fuel t c).
Proof.
  intros Hnd. revert c; induction fuel as [|f IH]; intros c; cbn [dispatch]; [constructor|].
  destruct (next_agent t c) as [b|] eqn:E; [|constructor]. constructor; [apply IH|].
  apply Forall_forall. intros a Ha. apply dispatch_priorities in Ha; [|done].
  assert (b ∈ agents t) as Hb.
  { destruct c as [r|]; [by apply next_agent_some in E as (? & _)|].
    rewrite <-(elem_of_sort_by priority). by apply head_Some_elem_of. }
  by rewrite get_priority_role in Ha.
Qed.

Lemma next_agent_elem t c a : next_agent t c = Some a -> a ∈ agents t.
Proof.
  destruct c as [r|]; intros E; [by apply next_agent_some in E as (? & _)|].
  rewrite <-(elem_of_sort_by priority). by apply head_Some_elem_of.
Qed.
Lemma dispatch_elem t fuel c a : a ∈ dispatch fuel t c -> a ∈ agents t.
Proof.
  revert c; induction fuel as [|f IH]; intros c; cbn [dispatch]; [by intros ?%not_elem_of_nil|].
  destruct (next_agent t c) as [b|] eqn:E; [|by intros ?%not_elem_of_nil].
  rewrite elem_of_cons. intros [->|?]; [by eapply next_agent_elem|eauto].
Qed.

Definition strictly_sorted : list AgentCapability -> Prop :=
  StronglySorted (fun a b => priority a < priority b).

Lemma sorted_strict l : NoDup (priority <$> l) -> StronglySorted (key_le priority) l -> strictly_sorted l.
Proof.
  intros Hnd Hs. induction Hs as [|a l Hl IH Ha]; [constructor|].
  rewrite fmap_cons, NoDup_cons in Hnd. destruct Hnd as [Hn Hnd]. constructor; [by apply IH|].
  apply Forall_forall. intros b Hb. rewrite Forall_forall in Ha. specialize (Ha b Hb).
  unfold key_le in Ha. destruct (decide (priority a = priority b)) as [E|]; [|lia].
  exfalso. apply Hn. rewrite E. by apply list_elem_of_fmap_2.
Qed.

(** In a strictly sorted list the first element above [a] is [a]'s successor. *)
Lemma find_above l1 a l2 :
  strictly_sorted (l1 ++ a :: l2) ->
  snd <$> list_find (fun b => priority b > priority a) (l1 ++ a :: l2) = head l2.
Proof.
  unfold strictly_sorted. rewrite StronglySorted_app. intros (H1 & _ & H2).
  assert (forall b, b ∈ l1 -> ~ priority b > priority a) as Hl1.
  { intros b Hb. specialize (H1 b a Hb ltac:(by left)). lia. }
  clear H1. induction l1 as [|c l1 IH]; simpl.
  - rewrite decide_False by lia. rewrite StronglySorted_cons in H2. destruct H2 as [Ha _].
    destruct l2 as [|b l2]; [done|]. simpl. inversion Ha; subst. by rewrite decide_True by lia.
  - rewrite decide_False by (apply Hl1; by left).
    rewrite <-IH by (intros b Hb; apply Hl1; by right).
    by destruct (list_find _ (l1 ++ a :: l2)) as [[]|].
Qed.

Section dispatch_order.
Variable t : OrchestrationTemplate.
Hypothesis Hroles : NoDup (role <$> agents t).
Hypothesis Hprios : NoDup (priority <$> agents t).

Lemma sorted_agents : strictly_sorted (sort_by priority (agents t)).
Proof.
  apply sorted_strict; [|apply sort_by_sorted]. by rewrite sort_by_perm.
Qed.

Lemma dispatch_after fuel l1 a l2 :
  sort_by priority (agents t) = l1 ++ a :: l2 -> dispatch fuel t (Some (role a)) = take fuel l2.
Proof.
  revert l1 a l2; induction fuel as [|f IH]; intros l1 a l2 E; [done|]. cbn [dispatch].
  assert (a ∈ agents t) as Ha.
  { rewrite <-(elem_of_sort_by priority), E. apply elem_of_app. right. by left. }
  assert (next_agent t (Some (role a)) = head l2) as ->.
  { unfold next_agent. rewrite get_priority_role by done. rewrite E. apply find_above.
    rewrite <-E. apply sorted_agents. }
  destruct l2 as [|b l2]; [done|]. simpl. f_equal.
  apply (IH (l1 ++ [a])). by rewrite E, <-app_assoc.
Qed.

Lemma dispatch_take fuel : dispatch fuel t None = take fuel (sort_by priority (agents t)).
Proof.
  destruct fuel as [|f]; [done|]. cbn [dispatch next_agent].
  destruct (sort_by priority (agents t)) as [|a l] eqn:E; [done|]. simpl. f_equal.
  by apply (dispatch_after f []).
Qed.
End dispatch_order.

(** With distinct roles and priorities, iterating [next_agent] from the
    start dispatches the template's agents in increasing priority, each exactly
    once, and then stops: any number of dispatches is a prefix of the
    priority-sorted agent list, which is a permutation of the agents. *)
Lemma dispatch_runs_agents_in_order (t : OrchestrationTemplate) (fuel : nat)
    (Hroles : NoDup (role <$> agents t)) (Hprios : NoDup (priority <$> agents t)) :
  dispatch fuel t None = take fuel (sort_by priority (agents t)) /\
  sort_by priority (agents t) ≡ₚ agents t /\
  strictly_sorted (sort_by priority (agents t)).
Proof.
  split_and!; [by apply dispatch_take|apply sort_by_perm|by apply sorted_agents].
Qed.
Lemma dispatch_runs_agents_in_order_witness :
  NoDup (role <$> agents bugfix_template) /\ NoDup (priority <$> agents bugfix_template) /\
  role <$> dispatch 10 bugfix_template None = [EXPLORER; IMPLEMENTER; VERIFIER; REPORTER].
Proof.
  assert (NoDup (role <$> agents bugfix_template)) as H1 by (apply (bool_decide_unpack _); vm_compute; exact I).
  assert (NoDup (priority <$> agents bugfix_template)) as H2 by (apply (bool_decide_unpack _); vm_compute; exact I).
  split; [exact H1|]. split; [exact H2|].
  rewrite (proj1 (dispatch_runs_agents_in_order bugfix_template 10 H1 H2)). reflexivity.
Defined.

(** The hand-off stops at the first agent when the agents share a
    priority, because the next agent must have a strictly higher one.  The
    built-in code-review and docs templates leave every priority at its default
    0: whatever the number of dispatches, their reporter, implementer and
    verifier never run, while bugfix runs all four agents. *)
Example builtin_templates_handoff (n : nat) :
  role <$> dispatch (4 + n) bugfix_template None = [EXPLORER; IMPLEMENTER; VERIFIER; REPORTER] /\
  role <$> dispatch (4 + n) review_template None = [EXPLORER] /\
  role <$> dispatch (4 + n) docs_template None = [EXPLORER].
Proof. split_and!; by destruct n. Qed.

(** ** The loader *)

(** A cache only holds what reading returned. *)
Definition cache_ok (read : string -> option string) (cache : dict string string) : Prop :=
  dwf cache /\ forall p c, dget cache p = Some c -> read p = Some c.

(** While the files do not change, [load] is [read], whatever is cached. *)
Lemma load_spec read p cache :
  cache_ok read cache ->
  exists cache', load read p cache = (Ok (read p), cache') /\ cache_ok read cache'.
Proof.
  intros [Hwf Hc]. unfold load, bindM, getM, putM, retM.
  destruct (dget cache p) as [c|] eqn:E.
  - exists cache. rewrite (Hc _ _ E). by split.
  - destruct (read p) as [c|] eqn:Er; [|by exists cache].
    eexists. split; [done|]. split; [by apply dwf_dset|].
    intros p' c'. rewrite dget_dset. case_decide; [|apply Hc]. intros [= <-]. by subst.
Qed.

Lemma load_sources_spec read l cache :
  cache_ok read cache ->
  exists srcs cache', load_sources read l cache = (Ok srcs, cache') /\ cache_ok read cache' /\
    (forall s, s ∈ srcs <-> exists ty p prio, (ty, p, prio) ∈ l /\ read p = Some (content s) /\
       content s <> "" /\ source_type s = ty /\ path s = p /\ src_priority s = prio).
Proof.
  revert cache; induction l as [|[[ty p] prio] l IH]; intros cache Hc; simpl.
  - exists [], cache. split_and!; [done..|]. intros s. split; [by intros ?%not_elem_of_nil|].
    intros (? & ? & ? & ?%not_elem_of_nil & _). done.
  - unfold bindM at 1. destruct (load_spec read p cache Hc) as (c1 & -> & H1).
    unfold bindM. destruct (IH c1 H1) as (srcs & c2 & -> & H2 & Hs).
    destruct (read p) as [text|] eqn:Er.
    + destruct (String.eqb_spec text "") as [->|Hne].
      * exists srcs, c2. split_and!; [done..|]. intros s. rewrite Hs. setoid_rewrite elem_of_cons.
        split; [naive_solver|]. intros (? & ? & ? & [?|?] & ?); [|naive_solver]. simplify_eq/=. naive_solver.
      * eexists _, c2. split_and!; [done..|]. intros s. rewrite elem_of_cons, Hs. setoid_rewrite elem_of_cons.
        split.
        -- intros [->|(? & ? & ? & ? & ?)]; simpl; [|naive_solver]. exists ty, p, prio. naive_solver.
        -- intros (? & ? & ? & [?|?] & Hr & ? & ? & ? & ?); [|right; naive_solver]. left. simplify_eq.
           destruct s; simpl in *. congruence.
    + exists srcs, c2. split_and!; [done..|]. intros s. rewrite Hs. setoid_rewrite elem_of_cons.
      split; [naive_solver|]. intros (? & ? & ? & [?|?] & ?); [|naive_solver]. simplify_eq/=. naive_solver.
Qed.
