(* ===== verification/ToolRegistry.v ===== *)
(** * The tool registry

    Models [openhands/forgepilot/tool_registry/schema.py] and
    [tool_registry/registry.py]: tool entries, mock specs and call records, the
    registry's methods, HTTP request building, health checks and costs.

    The registry's state is the record [ToolRegistry]; a method is a
    computation over it.  [invoke] may run a tool's executor, code that lives
    outside: it is a parameter that acts on a world [W], so that "the executor
    was not run" is "the world is unchanged".  Clock readings and fresh
    identifiers come in through [Env]. *)

From S2P Require Import Prelude PyStr PyDict PyFloat PyVal.
From Stdlib Require Import Ascii.

(** ** schema.py *)

Inductive ToolPermission := READ | WRITE | EXECUTE | CONFIRM.
Inductive ToolExecutionMode := LIVE | MOCK.
Inductive ToolHealthStatus := UNKNOWN | HEALTHY | DEGRADED | UNREACHABLE.

#[global] Instance ToolPermission_eq_dec : EqDecision ToolPermission.
Proof. solve_decision. Defined.
#[global] Instance ToolExecutionMode_eq_dec : EqDecision ToolExecutionMode.
Proof. solve_decision. Defined.
#[global] Instance ToolHealthStatus_eq_dec : EqDecision ToolHealthStatus.
Proof. solve_decision. Defined.

Definition permission_value (p : ToolPermission) : string :=
  match p with READ => "read" | WRITE => "write" | EXECUTE => "execute" | CONFIRM => "confirm" end.
Definition mode_value (m : ToolExecutionMode) : string :=
  match m with LIVE => "live" | MOCK => "mock" end.

Record ToolSchemaRef := { schema_type : string; location : string; checksum : option string }.
Record ToolHealthCheck := { status : ToolHealthStatus; checked_at : Z; detail : option string }.

Record ToolCostBreakdown := {
  model_cost_usd : float;
  ci_cost_usd : float;
  external_api_cost_usd : float;
}.
Definition zero_cost : ToolCostBreakdown :=
  {| model_cost_usd := f0; ci_cost_usd := f0; external_api_cost_usd := f0 |}.
Definition total_cost_usd (c : ToolCostBreakdown) : float :=
  round6 (fadd (fadd (model_cost_usd c) (ci_cost_usd c)) (external_api_cost_usd c)).

Record ToolRegistryEntry := {
  tool_id : string;
  display_name : string;
  provider : string;
  enabled : bool;
  permission : ToolPermission;
  permission_scopes : list string;
  mode : ToolExecutionMode;
  schema_ref : option ToolSchemaRef;
  health_check : option ToolHealthCheck;
  cost : ToolCostBreakdown;
}.

Definition nl : string := String (chr 10) "".

Definition summarize_tool_output (output : string) (max_chars : Z) : string :=
  let normalized := strip output in
  if Z.of_nat (slen normalized) <=? max_chars then normalized
  else
    let keep_head := max_chars / 2 in
    let keep_tail := max_chars - keep_head in
    let head := rstrip (slice_to normalized keep_head) in
    let tail := lstrip (slice_from normalized (- keep_tail)) in
    head +:+ nl +:+ "..." +:+ nl +:+ tail.

(** ** registry.py: data *)

Record ConnectorTemplate := {
  template_id : string;
  t_display_name : string;
  t_provider : string;
  required_env_vars : list string;
  default_permission : ToolPermission;
  schema_location : string;
}.

Record ToolCallRecord := {
  trace_id : string;
  r_tool_id : string;
  started_at : Z;
  duration_ms : Z;
  parameters_summary : string;
  output_summary : string;
  error : option string;
  r_mode : ToolExecutionMode;
}.

Record ToolMockSpec := { m_output : string; m_error : option string; m_duration_ms : Z }.
Definition default_mock : ToolMockSpec :=
  {| m_output := "mock response"; m_error := None; m_duration_ms := 20 |}.

Record HTTPConnectorConfig := {
  connector_id : string;
  base_url : string;
  path : string;
  method : string;
  headers : dict string string;
  query_params : dict string string;
  body : option (dict string pyval);
}.

(** ** Templates and HTTP requests *)

(** [f'{{{{{key}}}}}']: the key between double braces. *)
Definition braces (key : string) : string := "{{" +:+ key +:+ "}}".
Definition render_template (value : string) (variables : dict string pyval) : string :=
  fold_left (fun rendered kv => replace (braces kv.1) (py_str kv.2) rendered) variables value.

Definition is_slash (c : ascii) : bool := Ascii.eqb c "/"%char.

Record HTTPRequest := {
  q_connector_id : string;
  q_method : string;
  q_url : string;
  q_headers : dict string string;
  q_query_params : dict string string;
  q_body : option (dict string pyval);
}.

Definition render_values (variables : dict string pyval) (d : dict string string) : dict string string :=
  map (fun kv => (kv.1, render_template kv.2 variables)) d.

Definition build_http_connector_request (config : HTTPConnectorConfig) (variables : dict string pyval)
    : HTTPRequest :=
  let path := lstrip_by is_slash (render_template (path config) variables) in
  let base_url := rstrip_by is_slash (base_url config) in
  let url := if String.eqb path "" then base_url else base_url +:+ "/" +:+ path in
  {| q_connector_id := connector_id config;
     q_method := upper (method config);
     q_url := url;
     q_headers := render_values variables (headers config);
     q_query_params := render_values variables (query_params config);
     q_body := body config |}.

Definition connector (tid dn prov : string) (vars : list string) (p : ToolPermission) (loc : string)
    : ConnectorTemplate :=
  {| template_id := tid; t_display_name := dn; t_provider := prov; required_env_vars := vars;
     default_permission := p; schema_location := loc |}.

Definition BUILTIN_CONNECTOR_TEMPLATES : list ConnectorTemplate :=
  [ connector "github" "GitHub" "github" ["GITHUB_TOKEN"] CONFIRM "app://github/schema";
    connector "gitlab" "GitLab" "gitlab" ["GITLAB_TOKEN"] CONFIRM "app://gitlab/schema";
    connector "jira" "Jira" "jira" ["JIRA_BASE_URL"; "JIRA_API_TOKEN"] WRITE "app://jira/schema";
    connector "linear" "Linear" "linear" ["LINEAR_API_KEY"] WRITE "app://linear/schema";
    connector "notion" "Notion" "notion" ["NOTION_API_KEY"] WRITE "app://notion/schema";
    connector "sentry" "Sentry" "sentry" ["SENTRY_AUTH_TOKEN"] READ "app://sentry/schema";
    connector "slack" "Slack" "slack" ["SLACK_BOT_TOKEN"] WRITE "app://slack/schema" ].

(** ** The registry *)

Record ToolRegistry := {
  entries : dict string ToolRegistryEntry;
  call_records : list ToolCallRecord;
  mock_specs : dict string ToolMockSpec;
}.

(** What a call reads from its surroundings: a fresh identifier, the time,
    and the elapsed milliseconds. *)
Record Env := { uuid : string; now : Z; elapsed_ms : Z }.

Definition with_entries (r : ToolRegistry) (es : dict string ToolRegistryEntry) : ToolRegistry :=
  {| entries := es; call_records := call_records r; mock_specs := mock_specs r |}.
Definition with_records (r : ToolRegistry) (cs : list ToolCallRecord) : ToolRegistry :=
  {| entries := entries r; call_records := cs; mock_specs := mock_specs r |}.
Definition with_mocks (r : ToolRegistry) (ms : dict string ToolMockSpec) : ToolRegistry :=
  {| entries := entries r; call_records := call_records r; mock_specs := ms |}.

Definition new_registry (es : list ToolRegistryEntry) : ToolRegistry :=
  {| entries := fold_left (fun d e => dset d (tool_id e) e) es []; call_records := []; mock_specs := [] |}.

Definition from_builtin_templates : ToolRegistry :=
  new_registry (map (fun t =>
    {| tool_id := "connector." +:+ template_id t; display_name := t_display_name t;
       provider := t_provider t; enabled := true; permission := default_permission t;
       permission_scopes := [permission_value (default_permission t)]; mode := LIVE;
       schema_ref := Some {| schema_type := "json_schema"; location := schema_location t; checksum := None |};
       health_check := None; cost := zero_cost |}) BUILTIN_CONNECTOR_TEMPLATES).

Definition list_entries (r : ToolRegistry) : list ToolRegistryEntry :=
  omap (dget (entries r)) (sort_str (dkeys (entries r))).

Definition get_entry (tid : string) : M ToolRegistry ToolRegistryEntry :=
  r <- getM ;;
  match dget (entries r) tid with
  | Some e => retM e
  | None => raiseM (KeyError tid)
  end.

Definition register (e : ToolRegistryEntry) : M ToolRegistry ToolRegistryEntry :=
  modifyM (fun r => with_entries r (dset (entries r) (tool_id e) e)) ;;; retM e.

(** Assignment to fields of the entry object held at [tid]. *)
Definition update_entry (tid : string) (f : ToolRegistryEntry -> ToolRegistryEntry)
    : M ToolRegistry ToolRegistryEntry :=
  e <- get_entry tid ;;
  modifyM (fun r => with_entries r (dalter f (entries r) tid)) ;;; retM (f e).

Definition entry_with (en : bool) (p : ToolPermission) (sc : list string) (m : ToolExecutionMode)
    (h : option ToolHealthCheck) (c : ToolCostBreakdown) (e : ToolRegistryEntry) : ToolRegistryEntry :=
  {| tool_id := tool_id e; display_name := display_name e; provider := provider e; enabled := en;
     permission := p; permission_scopes := sc; mode := m; schema_ref := schema_ref e;
     health_check := h; cost := c |}.

Definition put_enabled (en : bool) (e : ToolRegistryEntry) : ToolRegistryEntry :=
  entry_with en (permission e) (permission_scopes e) (mode e) (health_check e) (cost e) e.
Definition put_permission (p : ToolPermission) (e : ToolRegistryEntry) : ToolRegistryEntry :=
  entry_with (enabled e) p (permission_scopes e) (mode e) (health_check e) (cost e) e.
Definition put_scopes (sc : list string) (e : ToolRegistryEntry) : ToolRegistryEntry :=
  entry_with (enabled e) (permission e) sc (mode e) (health_check e) (cost e) e.
Definition put_mode (m : ToolExecutionMode) (e : ToolRegistryEntry) : ToolRegistryEntry :=
  entry_with (enabled e) (permission e) (permission_scopes e) m (health_check e) (cost e) e.

Definition set_enabled (tid : string) (en : bool) : M ToolRegistry ToolRegistryEntry :=
  update_entry tid (put_enabled en).
Definition set_permission (tid : string) (p : ToolPermission) : M ToolRegistry ToolRegistryEntry :=
  update_entry tid (put_permission p).
Definition set_permission_scopes (tid : string) (sc : list string) : M ToolRegistry ToolRegistryEntry :=
  update_entry tid (put_scopes sc).
Definition set_mode (tid : string) (m : ToolExecutionMode) : M ToolRegistry ToolRegistryEntry :=
  update_entry tid (put_mode m).

Definition set_mock_response (tid output : string) (err : option string) (dur : Z)
    : M ToolRegistry ToolMockSpec :=
  get_entry tid ;;;
  let spec := {| m_output := output; m_error := err; m_duration_ms := dur |} in
  modifyM (fun r => with_mocks r (dset (mock_specs r) tid spec)) ;;; retM spec.
Definition clear_mock_response (tid : string) : M ToolRegistry unit :=
  modifyM (fun r => with_mocks r (ddel (mock_specs r) tid)).

(** ** Recording calls *)

Inductive Params := PMap (d : dict string pyval) | PStr (s : string).

Definition params_text (p : Params) : res string :=
  match p with
  | PMap d => json_dumps false (VDict d)
  | PStr s => Ok s
  end.

(** [a or b] on an optional string. *)
Definition or_str (a : option string) (b : string) : string :=
  match a with Some s => if String.eqb s "" then b else s | None => b end.

Definition make_record (env : Env) (r : ToolRegistry) (tid parameters_text output : string) (dur : Z)
    (err : option string) (tr : option string) : ToolCallRecord :=
  {| trace_id := or_str tr (uuid env); r_tool_id := tid; started_at := now env; duration_ms := dur;
     parameters_summary := summarize_tool_output parameters_text 300;
     output_summary := summarize_tool_output output 800;
     error := err;
     r_mode := match dget (entries r) tid with Some e => mode e | None => LIVE end |}.

Definition record_call (env : Env) (tid : string) (parameters : Params) (output : string) (dur : Z)
    (err : option string) (tr : option string) : M ToolRegistry ToolCallRecord :=
  r <- getM ;;
  parameters_text <- liftM (params_text parameters) ;;
  let record := make_record env r tid parameters_text output dur err tr in
  modifyM (fun r => with_records r (call_records r ++ [record])) ;;; retM record.

(** ** Invoking a tool *)

(** How an executor ends: a result; an [Exception], of class [TimeoutError]
    or not; or a [BaseException] that [except Exception] does not catch. *)
Inductive ExecOutcome :=
  | ExecReturn (output : string)
  | ExecException (cls msg : string) (is_timeout_error : bool)
  | ExecBaseException (cls msg : string).

Section invoke.
Context {W : Type}.

Definition Executor : Type := string -> Params -> W -> ExecOutcome * W.

Definition run_executor (ex : Executor) (tid : string) (p : Params) : M (ToolRegistry * W) ExecOutcome :=
  onR (fun w => let '(o, w') := ex tid p w in (Ok o, w')).

Definition record_executor_failure (env : Env) (tid : string) (p : Params) (tr : option string)
    (cls msg : string) : M ToolRegistry ToolCallRecord :=
  record_call env tid p "" (elapsed_ms env) (Some (cls +:+ ": " +:+ msg)) tr.

(** The wall clock decides whether the future's result arrives in time
    ([in_time]).  An exception of class [TimeoutError] raised by the executor
    itself is caught by the same handler as the wait's own timeout.  The whole effect of
    an executor that is late is applied here, although its thread goes on after
    [invoke] has returned: what is recorded and returned does not depend on it. *)
Definition invoke_with_timeout (env : Env) (tid : string) (p : Params) (ex : Executor)
    (tr : option string) (timeout_seconds : float) (in_time : bool) : M (ToolRegistry * W) ToolCallRecord :=
  o <- run_executor ex tid p ;;
  let timed_out := onL (record_call env tid p "" (elapsed_ms env)
    (Some ("executor timed out after " +:+ repr_float timeout_seconds +:+ "s")) tr) in
  if negb in_time then timed_out
  else match o with
       | ExecReturn output => onL (record_call env tid p output (elapsed_ms env) None tr)
       | ExecException cls msg true => timed_out
       | ExecException cls msg false => onL (record_executor_failure env tid p tr cls msg)
       | ExecBaseException cls msg => raiseM (OtherError cls msg)
       end.

Definition invoke (env : Env) (tid : string) (p : Params) (executor : option Executor)
    (tr : option string) (confirmed : bool) (timeout_seconds : option float) (in_time : bool)
    : M (ToolRegistry * W) ToolCallRecord :=
  entry <- onL (get_entry tid) ;;
  if bool_decide (permission entry = CONFIRM) && negb confirmed
  then onL (record_call env tid p "" 0 (Some "confirmation required for CONFIRM tools") tr)
  else
    r <- onL getM ;;
    let mock_spec := dget (mock_specs r) tid in
    let use_mock := bool_decide (mode entry = MOCK) || bool_decide (is_Some mock_spec) in
    if use_mock
    then
      let active_spec := default default_mock mock_spec in
      onL (record_call env tid p (m_output active_spec) (m_duration_ms active_spec) (m_error active_spec) tr)
    else
      match executor with
      | None => onL (record_call env tid p "" 0
                  (Some "live executor is required when mock mode is disabled") tr)
      | Some ex =>
          let direct :=
            o <- run_executor ex tid p ;;
            match o with
            | ExecReturn output => onL (record_call env tid p output (elapsed_ms env) None tr)
            | ExecException cls msg _ => onL (record_executor_failure env tid p tr cls msg)
            | ExecBaseException cls msg => raiseM (OtherError cls msg)
            end in
          match timeout_seconds with
          | Some t => if flt f0 t then invoke_with_timeout env tid p ex tr t in_time else direct
          | None => direct
          end
      end.
End invoke.
Arguments Executor : clear implicits.

(** ** History, previews, health and costs *)

Definition list_call_records (r : ToolRegistry) (tid : option string) : list ToolCallRecord :=
  match tid with
  | None => call_records r
  | Some t => filter (fun c => r_tool_id c = t) (call_records r)
  end.

Definition clear_call_records (tid : option string) : M ToolRegistry Z :=
  r <- getM ;;
  match tid with
  | None => putM (with_records r []) ;;; retM (Z.of_nat (length (call_records r)))
  | Some t =>
      let kept := filter (fun c => r_tool_id c <> t) (call_records r) in
      let dropped := filter (fun c => r_tool_id c = t) (call_records r) in
      putM (with_records r kept) ;;; retM (Z.of_nat (length dropped))
  end.

Definition opt_str (o : option string) : pyval := match o with Some s => VStr s | None => VNone end.
Definition preview_schema (tid : string) : M ToolRegistry (dict string pyval) :=
  entry <- get_entry tid ;;
  retM [ ("tool_id", VStr (tool_id entry)); ("display_name", VStr (display_name entry));
         ("provider", VStr (provider entry)); ("enabled", VBool (enabled entry));
         ("permission", VStr (permission_value (permission entry)));
         ("permission_scopes", VList (map VStr (permission_scopes entry)));
         ("mode", VStr (mode_value (mode entry)));
         ("schema_ref", match schema_ref entry with
                        | Some s => VDict [ ("schema_type", VStr (schema_type s));
                                            ("location", VStr (location s));
                                            ("checksum", opt_str (checksum s)) ]
                        | None => VNone
                        end) ].

Definition health_result (env : Env) (entry : ToolRegistryEntry) (vars : dict string (option string))
    (network_ok version_compatible : bool) : ToolHealthCheck :=
  let template := snd <$> list_find (fun t => t_provider t = provider entry) BUILTIN_CONNECTOR_TEMPLATES in
  let required := match template with Some t => required_env_vars t | None => [] end in
  let missing := filter (fun n => or_str (mjoin (dget vars n)) "" = "") required in
  let '(st, details) :=
    match missing with
    | _ :: _ => (UNREACHABLE, ["missing credentials: " +:+ join ", " missing])
    | [] =>
        let d1 := if network_ok then [] else ["network check failed"] in
        let d2 := if version_compatible then [] else ["version compatibility check failed"] in
        (if network_ok && version_compatible then HEALTHY else DEGRADED, d1 ++ d2)
    end in
  {| status := st; checked_at := now env;
     detail := Some (match details with [] => "ready" | _ => join "; " details end) |}.

Definition set_health (h : ToolHealthCheck) (e : ToolRegistryEntry) : ToolRegistryEntry :=
  entry_with (enabled e) (permission e) (permission_scopes e) (mode e) (Some h) (cost e) e.

Definition run_health_check (env : Env) (tid : string) (vars : dict string (option string))
    (network_ok version_compatible : bool) : M ToolRegistry ToolHealthCheck :=
  entry <- get_entry tid ;;
  let hc := health_result env entry vars network_ok version_compatible in
  update_entry tid (set_health hc) ;;;
  retM hc.

Definition add_cost (c d : ToolCostBreakdown) : ToolCostBreakdown :=
  {| model_cost_usd := round6 (fadd (model_cost_usd c) (model_cost_usd d));
     ci_cost_usd := round6 (fadd (ci_cost_usd c) (ci_cost_usd d));
     external_api_cost_usd := round6 (fadd (external_api_cost_usd c) (external_api_cost_usd d)) |}.

Definition charge (d : ToolCostBreakdown) (e : ToolRegistryEntry) : ToolRegistryEntry :=
  entry_with (enabled e) (permission e) (permission_scopes e) (mode e) (health_check e)
    (add_cost (cost e) d) e.

Definition record_cost (tid : string) (model_cost ci_cost api_cost : float) : M ToolRegistry ToolCostBreakdown :=
  let d := {| model_cost_usd := model_cost; ci_cost_usd := ci_cost; external_api_cost_usd := api_cost |} in
  e <- update_entry tid (charge d) ;;
  retM (cost e).

(** The sum over the entries in the registry's order, rounded at each step. *)
Definition aggregate_costs (r : ToolRegistry) : ToolCostBreakdown :=
  fold_left (fun total e => add_cost total (cost e)) (dvals (entries r)) zero_cost.

(** ** Properties *)

Ltac unfold_monad :=
  unfold bindM, getM, putM, retM, raiseM, liftM, modifyM, onL, onR in *; cbn [fst snd] in *.

Lemma record_call_spec env tid p out dur err tr r :
  record_call env tid p out dur err tr r =
  match params_text p with
  | Ok t => let c := make_record env r tid t out dur err tr in (Ok c, with_records r (call_records r ++ [c]))
  | Raise e => (Raise e, r)
  end.
Proof. unfold record_call. unfold_monad. by destruct (params_text p). Qed.

Lemma get_entry_spec tid r :
  get_entry tid r = (match dget (entries r) tid with Some e => Ok e | None => Raise (KeyError tid) end, r).
Proof. unfold get_entry. unfold_monad. by destruct (dget _ _). Qed.

(** What a call that may be recorded does to the registry: nothing when it
    raises, one record for that tool appended when it returns. *)
Definition recorded (tid : string) (r : ToolRegistry) (m : res ToolCallRecord * ToolRegistry) : Prop :=
  match m with
  | (Ok c, r') => r_tool_id c = tid /\ r' = with_records r (call_records r ++ [c])
  | (Raise _, r') => r' = r
  end.

Lemma record_call_recorded env tid p out dur err tr r :
  recorded tid r (record_call env tid p out dur err tr r).
Proof. rewrite record_call_spec. by destruct (params_text p). Qed.

(** *** Summaries *)

Lemma strip_len s : (slen (strip s) <= slen s)%nat.
Proof.
  unfold strip, rstrip, lstrip. pose proof (rstrip_by_len is_space (lstrip_by is_space s)).
  pose proof (lstrip_by_len is_space s). lia.
Qed.

(** The summary of an output is the stripped output when that fits in
    [max_chars]; otherwise it is a stripped beginning and a stripped end of it
    around an ellipsis line, and is never longer than [max_chars] plus the five
    characters of that line.  (For [max_chars] = 0 the code keeps the whole
    text, because the slice [-0:] is the full string.) *)
Lemma summarize_tool_output_bounded (output : string) (max_chars : Z) (Hpos : 0 < max_chars) :
  (Z.of_nat (slen (strip output)) <= max_chars -> summarize_tool_output output max_chars = strip output) /\
  (max_chars < Z.of_nat (slen (strip output)) ->
     exists h t h' t', summarize_tool_output output max_chars = rstrip h +:+ nl +:+ "..." +:+ nl +:+ lstrip t /\
       strip output = h +:+ h' /\ strip output = t' +:+ t /\
       slen h = Z.to_nat (max_chars / 2) /\ slen t = Z.to_nat (max_chars - max_chars / 2)) /\
  Z.of_nat (slen (summarize_tool_output output max_chars)) <= max_chars + 5.
Proof.
  unfold summarize_tool_output. generalize (strip output) as s. intros s.
  pose proof (Z.div_lt max_chars 2 Hpos ltac:(lia)). pose proof (Z.div_pos max_chars 2 ltac:(lia) ltac:(lia)).
  destruct (Z.leb_spec (Z.of_nat (slen s)) max_chars) as [Hle|Hgt]; [split_and!; [done|lia|lia]|].
  assert (slen (slice_to s (max_chars / 2)) = Z.to_nat (max_chars / 2)) as Hh by (rewrite slice_to_len; lia).
  assert (slen (slice_from s (- (max_chars - max_chars / 2))) = Z.to_nat (max_chars - max_chars / 2)) as Ht
    by (rewrite slice_from_neg_len; lia).
  split_and!; [lia| |].
  - intros _. exists (slice_to s (max_chars / 2)), (slice_from s (- (max_chars - max_chars / 2))).
    exists (sdrop (slice_pos (slen s) (max_chars / 2)) s),
           (stake (slice_pos (slen s) (- (max_chars - max_chars / 2))) s).
    split_and!; try done; unfold slice_to, slice_from; by rewrite stake_sdrop.
  - rewrite !slen_app. unfold rstrip, lstrip.
    pose proof (rstrip_by_len is_space (slice_to s (max_chars / 2))).
    pose proof (lstrip_by_len is_space (slice_from s (- (max_chars - max_chars / 2)))).
    unfold nl. simpl slen. lia.
Qed.
Lemma summarize_tool_output_bounded_witness :
  0 < 6 /\ summarize_tool_output "  abcdefghij " 6 = "abc" +:+ nl +:+ "..." +:+ nl +:+ "hij" /\
  Z.of_nat (slen (summarize_tool_output "  abcdefghij " 6)) <= 6 + 5.
Proof.
  split; [lia|]. split; [reflexivity|].
  apply (proj2 (proj2 (summarize_tool_output_bounded "  abcdefghij " 6 ltac:(lia)))).
Defined.

(** *** Invocation *)

Section invoke_props.
Context {W : Type}.
Implicit Types (r : ToolRegistry) (w : W) (ex : Executor W).

(** The condition under which [invoke] runs the executor. *)
Definition may_run (r : ToolRegistry) (tid : string) (confirmed : bool) : bool :=
  match dget (entries r) tid with
  | None => false
  | Some e => (negb (bool_decide (permission e = CONFIRM)) || confirmed)
              && bool_decide (mode e = LIVE) && bool_decide (dget (mock_specs r) tid = None)
  end.

(** The goals below end in a recorded call: name its outcome. *)
Ltac finish_recorded :=
  cbn [fst snd];
  match goal with
  | |- context [record_call ?env ?tid ?p ?out ?dur ?err ?tr ?r] =>
      pose proof (record_call_recorded env tid p out dur err tr r);
      destruct (record_call env tid p out dur err tr r) as [o r']; by exists (o, r')
  | |- context [Raise ?e] => match goal with |- context [recorded _ ?r] => by exists (Raise e, r) end
  end.

Lemma invoke_not_run env tid p executor tr confirmed tmo in_time r w :
  may_run r tid confirmed = false ->
  exists m, invoke env tid p executor tr confirmed tmo in_time (r, w) = (m.1, (m.2, w)) /\ recorded tid r m.
Proof.
  unfold may_run, invoke. unfold_monad. rewrite get_entry_spec.
  destruct (dget (entries r) tid) as [e|] eqn:E; [|by exists (Raise (KeyError tid), r)].
  intros Hrun.
  destruct (bool_decide (permission e = CONFIRM) && negb confirmed) eqn:Hc.
  { finish_recorded. }
  cbn [fst snd].
  assert (bool_decide (mode e = MOCK) || bool_decide (is_Some (dget (mock_specs r) tid)) = true) as ->.
  { destruct (bool_decide (permission e = CONFIRM)), confirmed; simpl in *; try done;
      destruct (mode e), (dget (mock_specs r) tid); simpl in *; done. }
  finish_recorded.
Qed.

Lemma invoke_run_None env tid p tr confirmed tmo in_time r w :
  exists m, invoke env tid p None tr confirmed tmo in_time (r, w) = (m.1, (m.2, w)) /\ recorded tid r m.
Proof.
  destruct (may_run r tid confirmed) eqn:Hrun; [|by apply invoke_not_run].
  unfold may_run in Hrun. unfold invoke. unfold_monad. rewrite get_entry_spec.
  destruct (dget (entries r) tid) as [e|] eqn:E; [|done].
  destruct (bool_decide (permission e = CONFIRM) && negb confirmed); [finish_recorded|].
  destruct (bool_decide (mode e = MOCK) || _); finish_recorded.
Qed.

Lemma invoke_run_Some env tid p ex tr confirmed tmo in_time r w :
  may_run r tid confirmed = true ->
  exists m, invoke env tid p (Some ex) tr confirmed tmo in_time (r, w) = (m.1, (m.2, (ex tid p w).2)) /\
            recorded tid r m.
Proof.
  unfold may_run, invoke, invoke_with_timeout, run_executor. unfold_monad. rewrite get_entry_spec.
  destruct (dget (entries r) tid) as [e|] eqn:E; [|done]. rewrite !andb_true_iff, !bool_decide_eq_true.
  intros [[Hc Hm] Hs]. cbn [fst snd].
  assert (bool_decide (permission e = CONFIRM) && negb confirmed = false) as ->
    by (destruct (bool_decide (permission e = CONFIRM)), confirmed; done).
  cbn [fst snd]. rewrite Hs, Hm. rewrite (bool_decide_eq_false_2 (LIVE = MOCK)) by done.
  rewrite (bool_decide_eq_false_2 (is_Some None)) by (by intros [? ?]). simpl.
  destruct (ex tid p w) as [o w'] eqn:Eo.
  unfold record_executor_failure.
  destruct tmo as [t|]; [destruct (flt f0 t); [destruct in_time; simpl|]|].
  all: cbn [fst snd]; rewrite ?Eo; destruct o as [out|cls msg []|cls msg]; finish_recorded.
Qed.

(** C35: whatever the tool, the executor, the timeout and the clock,
    [invoke] runs the executor at most once and only when the tool is
    registered, in LIVE mode, has no mock response, and is either not a CONFIRM
    tool or explicitly confirmed; in every other case the world is untouched.
    Either way the registry's entries and mocks are unchanged.  A call that returns
    appends exactly one call record, the returned one, naming the tool; a call that
    raises records nothing, also when the executor has run (it ended in a
    BaseException, or the parameters have no JSON).  The executor's effect counts as
    done when [invoke] returns, also after a timeout, when in truth its thread may still
    be at work. *)
Theorem invoke_gated_and_recorded (env : Env) (tid : string) (p : Params) (executor : option (Executor W))
    (tr : option string) (confirmed : bool) (tmo : option float) (in_time : bool)
    (r : ToolRegistry) (w : W) :
  exists o r' w', invoke env tid p executor tr confirmed tmo in_time (r, w) = (o, (r', w')) /\
    recorded tid r (o, r') /\
    w' = match executor with
         | Some ex => if may_run r tid confirmed then (ex tid p w).2 else w
         | None => w
         end.
Proof.
  destruct executor as [ex|].
  - destruct (may_run r tid confirmed) eqn:Hrun.
    + destruct (invoke_run_Some env tid p ex tr confirmed tmo in_time r w Hrun) as ([o r'] & -> & ?). eauto 6.
    + destruct (invoke_not_run env tid p (Some ex) tr confirmed tmo in_time r w Hrun) as ([o r'] & -> & ?). eauto 6.
  - destruct (invoke_run_None env tid p tr confirmed tmo in_time r w) as ([o r'] & -> & ?). eauto 6.
Qed.
End invoke_props.

(** *** The registry holds what was last written *)

Section history.
Context {W : Type}.

Inductive reg_op :=
  | RegRegister (e : ToolRegistryEntry)
  | RegSetEnabled (tid : string) (b : bool)
  | RegSetPermission (tid : string) (p : ToolPermission)
  | RegSetScopes (tid : string) (sc : list string)
  | RegSetMode (tid : string) (m : ToolExecutionMode)
  | RegHealth (env : Env) (tid : string) (vars : dict string (option string)) (net ver : bool)
  | RegCost (tid : string) (model ci api : float)
  | RegMock (tid out : string) (err : option string) (dur : Z)
  | RegClearMock (tid : string)
  | RegRecord (env : Env) (tid : string) (p : Params) (out : string) (dur : Z) (err tr : option string)
  | RegClearRecords (tid : option string)
  | RegInvoke (env : Env) (tid : string) (p : Params) (ex : option (Executor W)) (tr : option string) (confirmed : bool)
      (timeout : option float) (in_time : bool).

(** The registry and the world after a call, whether it returned or raised. *)
Definition reg_step (o : reg_op) (s : ToolRegistry * W) : ToolRegistry * W :=
  let on (r : ToolRegistry) := (r, s.2) in
  match o with
  | RegRegister e => on (register e s.1).2
  | RegSetEnabled tid b => on (set_enabled tid b s.1).2
  | RegSetPermission tid p => on (set_permission tid p s.1).2
  | RegSetScopes tid sc => on (set_permission_scopes tid sc s.1).2
  | RegSetMode tid m => on (set_mode tid m s.1).2
  | RegHealth env tid vars net ver => on (run_health_check env tid vars net ver s.1).2
  | RegCost tid model ci api => on (record_cost tid model ci api s.1).2
  | RegMock tid out err dur => on (set_mock_response tid out err dur s.1).2
  | RegClearMock tid => on (clear_mock_response tid s.1).2
  | RegRecord env tid p out dur err tr => on (record_call env tid p out dur err tr s.1).2
  | RegClearRecords tid => on (clear_call_records tid s.1).2
  | RegInvoke env tid p ex tr confirmed timeout in_time => (invoke env tid p ex tr confirmed timeout in_time s).2
  end.

(** What a call writes of the entry [tid]. *)
Definition registered (tid : string) (o : reg_op) : option ToolRegistryEntry :=
  match o with RegRegister e => if String.eqb (tool_id e) tid then Some e else None | _ => None end.
Definition wrote_enabled (tid : string) (o : reg_op) : option bool :=
  match o with RegSetEnabled t b => if String.eqb t tid then Some b else None | _ => enabled <$> registered tid o end.
Definition wrote_permission (tid : string) (o : reg_op) : option ToolPermission :=
  match o with RegSetPermission t p => if String.eqb t tid then Some p else None | _ => permission <$> registered tid o end.
Definition wrote_scopes (tid : string) (o : reg_op) : option (list string) :=
  match o with RegSetScopes t sc => if String.eqb t tid then Some sc else None | _ => permission_scopes <$> registered tid o end.
Definition wrote_mode (tid : string) (o : reg_op) : option ToolExecutionMode :=
  match o with RegSetMode t m => if String.eqb t tid then Some m else None | _ => mode <$> registered tid o end.
Inductive written_health := Given (h : option ToolHealthCheck) | Checked (env : Env) (vars : dict string (option string)) (net ver : bool).
Definition wrote_health (tid : string) (o : reg_op) : option written_health :=
  match o with
  | RegHealth env t vars net ver => if String.eqb t tid then Some (Checked env vars net ver) else None
  | _ => (fun e => Given (health_check e)) <$> registered tid o
  end.
Definition last_write {A} (f : reg_op -> option A) (calls : list reg_op) : option A := last (omap f calls).
(** The costs since the last registration, in their order. *)
Definition next_charge (tid : string) (l : list (float * float * float)) (o : reg_op) : list (float * float * float) :=
  match o with
  | RegCost t model ci api => if String.eqb t tid then l ++ [(model, ci, api)] else l
  | _ => match registered tid o with Some _ => [] | None => l end
  end.
Definition charges (tid : string) (calls : list reg_op) : list (float * float * float) := foldl (next_charge tid) [] calls.
Definition rounded_sum (x : float) (l : list float) : float := foldl (fun x y => round6 (fadd x y)) x l.

(** The outcome of a health check of a tool of this provider: unreachable when a
    variable that a connector of the provider requires is missing or empty, healthy
    when both checks succeed, degraded otherwise. *)
Definition lacks (vars : dict string (option string)) (provider name : string) : Prop :=
  exists t, t ∈ BUILTIN_CONNECTOR_TEMPLATES /\ t_provider t = provider /\ name ∈ required_env_vars t
            /\ forall s, dget vars name = Some (Some s) -> s = "".
Definition checked (provider : string) (w : written_health) (h : option ToolHealthCheck) : Prop :=
  match w with
  | Given h' => h = h'
  | Checked env vars net ver =>
      exists hc, h = Some hc /\ checked_at hc = now env
      /\ (status hc = UNREACHABLE <-> exists name, lacks vars provider name)
      /\ (status hc = HEALTHY <-> net = true /\ ver = true /\ forall name, ~ lacks vars provider name)
      /\ (status hc = DEGRADED <-> (net = false \/ ver = false) /\ forall name, ~ lacks vars provider name)
      /\ (detail hc = Some "ready" <-> status hc = HEALTHY)
  end.

(** The entry [e] is what the calls wrote. *)
Record holds (tid : string) (calls : list reg_op) (e : ToolRegistryEntry) : Prop := {
  h_registered : exists e0, last_write (registered tid) calls = Some e0 /\ display_name e = display_name e0 /\ provider e = provider e0
                            /\ schema_ref e = schema_ref e0
                            /\ model_cost_usd (cost e) = rounded_sum (model_cost_usd (cost e0)) ((fun c => c.1.1) <$> charges tid calls)
                            /\ ci_cost_usd (cost e) = rounded_sum (ci_cost_usd (cost e0)) ((fun c => c.1.2) <$> charges tid calls)
                            /\ external_api_cost_usd (cost e) = rounded_sum (external_api_cost_usd (cost e0)) ((fun c => c.2) <$> charges tid calls);
  h_enabled : last_write (wrote_enabled tid) calls = Some (enabled e);
  h_permission : last_write (wrote_permission tid) calls = Some (permission e);
  h_scopes : last_write (wrote_scopes tid) calls = Some (permission_scopes e);
  h_mode : last_write (wrote_mode tid) calls = Some (mode e);
  h_health : exists w, last_write (wrote_health tid) calls = Some w /\ checked (provider e) w (health_check e);
}.

Lemma last_write_snoc {A} (f : reg_op -> option A) calls o :
  last_write f (calls ++ [o]) = match f o with Some x => Some x | None => last_write f calls end.
Proof. unfold last_write. rewrite omap_app. cbn. destruct (f o); [apply last_snoc|by rewrite app_nil_r]. Qed.
Lemma charges_snoc tid calls o : charges tid (calls ++ [o]) = next_charge tid (charges tid calls) o.
Proof. unfold charges. by rewrite foldl_app. Qed.
Lemma rounded_sum_snoc {A} (f : A -> float) x l a : rounded_sum x (f <$> l ++ [a]) = round6 (fadd (rounded_sum x (f <$> l)) (f a)).
Proof. unfold rounded_sum. by rewrite fmap_app, foldl_app. Qed.

(** The entry that a call is about. *)
Definition subject (o : reg_op) : option string :=
  match o with
  | RegRegister e => Some (tool_id e)
  | RegSetEnabled t _ | RegSetPermission t _ | RegSetScopes t _ | RegSetMode t _ | RegHealth _ t _ _ _ | RegCost t _ _ _ => Some t
  | _ => None
  end.
Lemma other_writes tid calls o e : subject o <> Some tid -> holds tid calls e -> holds tid (calls ++ [o]) e.
Proof.
  intros Hs [H1 H2 H3 H4 H5 H6].
  assert (registered tid o = None /\ wrote_enabled tid o = None /\ wrote_permission tid o = None /\ wrote_scopes tid o = None
          /\ wrote_mode tid o = None /\ wrote_health tid o = None /\ next_charge tid (charges tid calls) o = charges tid calls)
    as (E1 & E2 & E3 & E4 & E5 & E6 & E7).
  { destruct o; cbn in *; try done; match goal with |- context [String.eqb ?t tid] => destruct (String.eqb_spec t tid); [congruence|done] end. }
  constructor; rewrite ?charges_snoc, ?last_write_snoc, ?E7, ?E1, ?E2, ?E3, ?E4, ?E5, ?E6; done.
Qed.
Definition registry_wf (r : ToolRegistry) : Prop :=
  dwf (entries r) /\ forall k e, dget (entries r) k = Some e -> tool_id e = k.

Lemma update_entry_spec tid f r :
  update_entry tid f r =
  match dget (entries r) tid with
  | Some e => (Ok (f e), with_entries r (dalter f (entries r) tid))
  | None => (Raise (KeyError tid), r)
  end.
Proof. unfold update_entry. unfold_monad. rewrite get_entry_spec. by destruct (dget _ _). Qed.

Lemma entry_with_id en p sc m h c e : tool_id (entry_with en p sc m h c e) = tool_id e.
Proof. done. Qed.

Lemma health_result_checked env e vars net ver : checked (provider e) (Checked env vars net ver) (Some (health_result env e vars net ver)).
Proof.
  assert (forall n, or_str (mjoin (dget vars n)) "" = "" <-> forall s, dget vars n = Some (Some s) -> s = "") as Hn.
  { intros n. destruct (dget vars n) as [[s|]|]; cbn [mjoin option_join or_str]; [|naive_solver..].
    destruct (String.eqb_spec s ""); naive_solver. }
  set (missing := filter (fun n => or_str (mjoin (dget vars n)) "" = "")
                    (match snd <$> list_find (fun t => t_provider t = provider e) BUILTIN_CONNECTOR_TEMPLATES with
                     | Some t => required_env_vars t | None => [] end)).
  assert (forall n, n ∈ missing <-> lacks vars (provider e) n) as Hm.
  { intros n. unfold missing. rewrite list_elem_of_filter, Hn. unfold lacks. split.
    - intros [Hv Hin]. destruct (list_find _ _) as [[i t]|] eqn:E; [|by apply not_elem_of_nil in Hin].
      apply list_find_Some in E as (E & Hp & _). exists t. split_and!; try done. by eapply list_elem_of_lookup_2.
    - intros (t & Ht & Hp & Hin & Hv). split; [done|].
      assert (snd <$> list_find (fun t => t_provider t = provider e) BUILTIN_CONNECTOR_TEMPLATES = Some t) as ->; [|done]. rewrite <- Hp.
      clear - Ht. cbn in Ht. repeat (apply elem_of_cons in Ht as [->|Ht]; [vm_compute; reflexivity|]). by apply not_elem_of_nil in Ht. }
  eexists. split; [done|]. unfold health_result. fold missing. clearbody missing. destruct missing as [|x l].
  - assert (forall n, ~ lacks vars (provider e) n) as Hnone by (intros n Hl%Hm; by apply not_elem_of_nil in Hl).
    destruct net, ver; cbn; split_and!; try done; split; naive_solver.
  - assert (lacks vars (provider e) x) as Hx by (apply Hm; by left).
    cbn [status checked_at detail]. split_and!; try done; split; try naive_solver.
Qed.

Lemma step_entries o s : entries (reg_step o s).1 =
  match o with
  | RegRegister e => dset (entries s.1) (tool_id e) e
  | RegSetEnabled t b => dalter (put_enabled b) (entries s.1) t
  | RegSetPermission t p => dalter (put_permission p) (entries s.1) t
  | RegSetScopes t sc => dalter (put_scopes sc) (entries s.1) t
  | RegSetMode t m => dalter (put_mode m) (entries s.1) t
  | RegHealth env t vars net ver => dalter (fun e => set_health (health_result env e vars net ver) e) (entries s.1) t
  | RegCost t c1 c2 c3 =>
      dalter (charge {| model_cost_usd := c1; ci_cost_usd := c2; external_api_cost_usd := c3 |}) (entries s.1) t
  | _ => entries s.1
  end.
Proof.
  assert (forall t f, entries (update_entry t f s.1).2 = dalter f (entries s.1) t) as Hu.
  { intros t f. rewrite update_entry_spec. unfold dalter. by destruct (dget (entries s.1) t). }
  destruct o; cbn [reg_step fst]; try done; try apply Hu.
  - unfold run_health_check, bindM. rewrite get_entry_spec. specialize (Hu tid).
    destruct (dget (entries s.1) tid) as [e|] eqn:E; [|unfold dalter; by rewrite E].
    specialize (Hu (set_health (health_result env e vars net ver))). destruct (update_entry _ _ _) as [[]]; cbn [snd retM] in *;
      rewrite Hu; unfold dalter; by rewrite E.
  - unfold record_cost, bindM. specialize (Hu tid (charge {| model_cost_usd := model; ci_cost_usd := ci; external_api_cost_usd := api |})).
    by destruct (update_entry _ _ _) as [[]].
  - unfold set_mock_response, bindM. rewrite get_entry_spec. by destruct (dget (entries s.1) tid).
  - rewrite record_call_spec. by destruct (params_text p).
  - unfold clear_call_records. unfold_monad. by destruct tid.
  - destruct s as [r w]. assert (exists m w', invoke env tid p ex tr confirmed timeout in_time (r, w) = (m.1, (m.2, w')) /\ recorded tid r m)
      as (m & w' & -> & Hr).
    { destruct ex as [ex|]; [destruct (may_run r tid confirmed) eqn:Hrun|].
      - destruct (invoke_run_Some env tid p ex tr confirmed timeout in_time r w Hrun) as (m & ? & ?). by exists m, (ex tid p w).2.
      - destruct (invoke_not_run env tid p (Some ex) tr confirmed timeout in_time r w Hrun) as (m & ? & ?). by exists m, w.
      - destruct (invoke_run_None env tid p tr confirmed timeout in_time r w) as (m & ? & ?). by exists m, w. }
    cbn [fst snd]. destruct m as [[c|x] r']; cbn in Hr; [by destruct Hr as [_ ->]|by subst].
Qed.

Lemma register_holds e calls : holds (tool_id e) (calls ++ [RegRegister e]) e.
Proof.
  assert (registered (tool_id e) (RegRegister e) = Some e) as E by (cbn; by rewrite String.eqb_refl).
  constructor; rewrite ?last_write_snoc.
  - exists e. rewrite charges_snoc. unfold next_charge. rewrite E. done.
  - unfold wrote_enabled. by rewrite E.
  - unfold wrote_permission. by rewrite E.
  - unfold wrote_scopes. by rewrite E.
  - unfold wrote_mode. by rewrite E.
  - unfold wrote_health. rewrite E. by eexists.
Qed.
(** The call [o] changes the entry [e] of [tid] into [e']. *)
Ltac changed tid :=
  constructor; rewrite ?charges_snoc, ?last_write_snoc; cbn [registered wrote_enabled wrote_permission wrote_scopes wrote_mode wrote_health
    next_charge fmap option_fmap option_map]; rewrite ?(String.eqb_refl tid); try done.
Lemma change_holds tid calls e : holds tid calls e ->
  (forall b, holds tid (calls ++ [RegSetEnabled tid b]) (put_enabled b e))
  /\ (forall p, holds tid (calls ++ [RegSetPermission tid p]) (put_permission p e))
  /\ (forall sc, holds tid (calls ++ [RegSetScopes tid sc]) (put_scopes sc e))
  /\ (forall m, holds tid (calls ++ [RegSetMode tid m]) (put_mode m e))
  /\ (forall env vars net ver, holds tid (calls ++ [RegHealth env tid vars net ver]) (set_health (health_result env e vars net ver) e))
  /\ (forall c1 c2 c3, holds tid (calls ++ [RegCost tid c1 c2 c3])
                        (charge {| model_cost_usd := c1; ci_cost_usd := c2; external_api_cost_usd := c3 |} e)).
Proof.
  intros [(e0 & H0 & Hd & Hp & Hs & Hm & Hc & Ha) H2 H3 H4 H5 H6]. split_and!; intros; changed tid; try by exists e0.
  - eexists. split; [done|]. apply health_result_checked.
  - exists e0. rewrite !rounded_sum_snoc. cbn [fst snd charge entry_with cost add_cost model_cost_usd ci_cost_usd external_api_cost_usd].
    by rewrite Hm, Hc, Ha.
Qed.

Definition history_ok (calls : list reg_op) (r : ToolRegistry) : Prop :=
  dwf (entries r) /\ forall tid, match dget (entries r) tid with
                               | Some e => tool_id e = tid /\ holds tid calls e
                               | None => last_write (registered tid) calls = None
                               end.
Lemma step_history o calls s : history_ok calls s.1 -> history_ok (calls ++ [o]) (reg_step o s).1.
Proof.
  intros [Hwf Hall]. unfold history_ok. rewrite step_entries. split; [destruct o; auto using dwf_dset, dwf_dalter|]. intros tid.
  specialize (Hall tid).
  destruct (decide (subject o = Some tid)) as [Hs|Hs].
  - destruct o; cbn in Hs; try done; injection Hs as <-; rewrite ?dget_dset_eq, ?dget_dalter, ?decide_True by done;
      [by split; [|apply register_holds]|..].
    all: destruct (dget (entries s.1) _) as [e|]; cbn [fmap option_fmap option_map]; [|by rewrite last_write_snoc].
    all: destruct Hall as [Hid Hh]; split; [exact Hid|]; by apply (change_holds _ _ _ Hh).
  - assert (dget (entries (reg_step o s).1) tid = dget (entries s.1) tid) as E.
    { rewrite step_entries. destruct o; cbn in Hs; try done; rewrite ?dget_dset, ?dget_dalter, decide_False by congruence; done. }
    rewrite step_entries in E. rewrite E. destruct (dget (entries s.1) tid) as [e|]; [by destruct Hall; split; [|apply other_writes]|].
    rewrite last_write_snoc, Hall. destruct o; try done. cbn in *. destruct (String.eqb_spec (tool_id e) tid); [congruence|done].
Qed.
Lemma run_history ops : forall calls s, history_ok calls s.1 -> history_ok (calls ++ ops) (run reg_step s ops).1.
Proof.
  induction ops as [|o ops IH]; intros calls s H; [by rewrite app_nil_r|]. cbn [run fold_left].
  replace (calls ++ o :: ops) with ((calls ++ [o]) ++ ops) by (by rewrite <- app_assoc). by apply IH, step_history.
Qed.
Lemma new_registry_run es (w : W) : new_registry es = (run reg_step (new_registry [], w) (map RegRegister es)).1.
Proof.
  assert (forall r, (run reg_step (r, w) (map RegRegister es)).1 =
            {| entries := fold_left (fun d e => dset d (tool_id e) e) es (entries r); call_records := call_records r; mock_specs := mock_specs r |})
    as E; [|by rewrite E].
  induction es as [|e es IH]; intros r; [by destruct r|]. cbn [map run fold_left]. etrans; [apply IH|]. done.
Qed.
Lemma registry_history es ops (w : W) : history_ok (map RegRegister es ++ ops) (run reg_step (new_registry es, w) ops).1.
Proof.
  apply run_history. cbn [fst]. rewrite (new_registry_run es w). apply (run_history _ []). by split; [apply dwf_nil|].
Qed.
Lemma never_written tid calls : last_write (registered tid) calls = None -> forall e, RegRegister e ∈ calls -> tool_id e <> tid.
Proof.
  unfold last_write. intros H%last_None e He <-.
  assert (e ∈ omap (registered (tool_id e)) calls) as Hin.
  { apply list_elem_of_omap. exists (RegRegister e). split; [done|]. cbn. by rewrite String.eqb_refl. }
  rewrite H in Hin. by apply not_elem_of_nil in Hin.
Qed.
Lemma omap_dget (d : dict string ToolRegistryEntry) (ks : list string) :
  (forall k, k ∈ ks -> is_Some (dget d k)) ->
  (forall k e, dget d k = Some e -> tool_id e = k) ->
  tool_id <$> omap (dget d) ks = ks.
Proof.
  intros Hks Hid. induction ks as [|k ks IH]; [done|]. simpl.
  destruct (Hks k ltac:(by left)) as [e He]. rewrite He. simpl. rewrite (Hid _ _ He). f_equal.
  apply IH. intros k' ?. apply Hks. by right.
Qed.

Lemma list_entries_ids r : registry_wf r -> tool_id <$> list_entries r = sort_str (dkeys (entries r)).
Proof.
  intros [Hwf Hid]. apply omap_dget; [|done]. intros k. rewrite sort_str_perm. by rewrite dget_is_Some.
Qed.

(** C40: After any sequence of calls of a registry (registrations, changes, health checks,
    costs, mocks, records and invocations, those that raise included) a tool is found
    exactly if it was registered, and its entry holds what was last written: the flag,
    permission, scopes and mode that the last registration or change of that one field
    gave, the name, provider and schema of the last registration, its costs and those
    recorded since then, each sum rounded, and the result of the last health check,
    which is unreachable if and only if a required credential was missing and healthy
    if and only if none was and both checks succeeded.  [list_entries] enumerates just
    these entries, once per tool, in increasing order of tool id. *)
Theorem registry_holds_last_writes (es : list ToolRegistryEntry) (ops : list reg_op) (w : W) :
  let calls := map RegRegister es ++ ops in
  let r := (run reg_step (new_registry es, w) ops).1 in
  (forall tid, (exists e, get_entry tid r = (Ok e, r) /\ tool_id e = tid /\ holds tid calls e)
               \/ get_entry tid r = (Raise (KeyError tid), r) /\ forall e, RegRegister e ∈ calls -> tool_id e <> tid)
  /\ (forall e, e ∈ list_entries r <-> get_entry (tool_id e) r = (Ok e, r))
  /\ StronglySorted String.le (tool_id <$> list_entries r) /\ NoDup (tool_id <$> list_entries r).
Proof.
  intros calls r. destruct (registry_history es ops w) as [Hwf Hall]. fold calls r in Hwf, Hall.
  assert (forall k e, dget (entries r) k = Some e -> tool_id e = k) as Hid.
  { intros k e E. specialize (Hall k). rewrite E in Hall. tauto. }
  split_and!.
  - intros tid. rewrite get_entry_spec. specialize (Hall tid). destruct (dget (entries r) tid) as [e|]; [left; by exists e|right].
    split; [done|]. by apply never_written.
  - intros e. rewrite get_entry_spec. unfold list_entries. rewrite list_elem_of_omap. split.
    + intros (k & _ & Hk). by rewrite (Hid _ _ Hk), Hk.
    + intros H. exists (tool_id e). rewrite sort_str_perm, <- dget_is_Some.
      destruct (dget (entries r) (tool_id e)); [|done]. split; [by eexists|]. congruence.
  - rewrite list_entries_ids by done. apply sort_str_sorted.
  - rewrite list_entries_ids, sort_str_perm by done. apply Hwf.
Qed.
End history.
Arguments reg_op : clear implicits.
