(* ===== verification/PyPath.v ===== *)
(** * POSIX paths: [os.path], [PurePosixPath] and [Path.resolve]

    Pure paths are a root ([""], ["/"] or ["//"]) and the list of their parts,
    the way [pathlib] parses them.  A canonical absolute path is the list of
    its components.  [realpath] follows [posixpath._joinrealpath] (non-strict):
    it walks the components, resolves symbolic links recursively and keeps the
    links already seen, with those still being resolved marked [None].  The
    file system is a parameter: its working directory, its symbolic links and
    the errors a final [stat] makes [Path.resolve] raise. *)

From S2P Require Import Prelude PyStr.
From Stdlib Require Import Ascii.

Definition sep : ascii := "/"%char.
Arguments sep : simpl never.
Definition split_path (s : string) : list string := split_char sep s.
Definition isabs (s : string) : bool := startswith "/" s.

(** ** [os.path.basename] *)

(** The text after the last separator. *)
Definition basename (s : string) : string := List.last (split_path s) "".

(** ** [PurePosixPath] *)

Record PurePath := { root : string; parts : list string }.

Definition path_root (s : string) : string :=
  if isabs s then if startswith "//" s && negb (startswith "///" s) then "//" else "/" else "".

Definition keep_part (c : string) : bool := negb (String.eqb c "") && negb (String.eqb c ".").
Definition is_true_part (c : string) : Prop := keep_part c = true.

(** [Path(s)] *)
Definition mk_path (s : string) : PurePath :=
  {| root := path_root s; parts := List.filter keep_part (split_path s) |}.

(** [str(path)] *)
Definition path_str (p : PurePath) : string :=
  match parts p with
  | [] => if String.eqb (root p) "" then "." else root p
  | ps => root p +:+ join "/" ps
  end.

(** [path / s]: an absolute right operand replaces the left one. *)
Definition path_join (p : PurePath) (s : string) : PurePath :=
  if isabs s then mk_path s else {| root := root p; parts := parts p ++ parts (mk_path s) |}.

(** ** Canonical absolute paths *)

Notation abspath := (list string).

Definition abs_str (p : abspath) : string := "/" +:+ join "/" p.

(** [str(candidate.relative_to(base))] *)
Fixpoint strip_base (base p : abspath) : option (list string) :=
  match base, p with
  | [], _ => Some p
  | b :: base', c :: p' => if String.eqb b c then strip_base base' p' else None
  | _ :: _, [] => None
  end.

(** [posixpath.normpath] on an absolute path: ["."] and empty components
    disappear and [".."] removes the component before it, links or not. *)
Fixpoint normpath (acc : abspath) (rest : list string) : abspath :=
  match rest with
  | [] => acc
  | c :: rest' =>
      if negb (keep_part c) then normpath acc rest'
      else if String.eqb c ".." then normpath (removelast acc) rest'
      else normpath (acc ++ [c]) rest'
  end.

(** ** Symbolic links *)

Record FS := {
  cwd : abspath;
  links : gmap (list string) string;
  stat_error : abspath -> option exn;
}.

Definition has_nul (s : string) : bool := sexists (fun c => ord c =? 0) s.

(** [posixpath.join(base, rest)] for the rest of a split path. *)
Definition join_rest (base : abspath) (rest : list string) : list string :=
  match rest with
  | c :: (_ :: _) as r => if String.eqb c "" then r else base ++ rest
  | _ => base ++ rest
  end.

Notation Seen := (gmap (list string) (option abspath)).

(** [_joinrealpath(path, rest, strict=False, seen)].  [fuel] bounds the nesting
    of links being resolved. *)
Fixpoint joinrealpath (fuel : nat) (fs : FS) (path : abspath) (rest : list string) (seen : Seen)
    : res (abspath * bool * Seen) :=
  match fuel with
  | O => Raise (OtherError "OutOfFuel" "")
  | S f =>
      (fix go (rest : list string) (path : abspath) (seen : Seen) {struct rest} :=
         match rest with
         | [] => Ok (path, true, seen)
         | name :: rest' =>
             if negb (keep_part name) then go rest' path seen
             else if String.eqb name ".." then go rest' (removelast path) seen
             else
               let newpath := path ++ [name] in
               if has_nul name then Raise (ValueError "lstat: embedded null character in path")
               else match links fs !! newpath with
               | None => go rest' newpath seen
               | Some target =>
                   match seen !! newpath with
                   | Some (Some p) => go rest' p seen
                   | Some None => Ok (join_rest newpath rest', false, seen)
                   | None =>
                       match joinrealpath f fs (if isabs target then [] else path)
                               (split_path target) (<[newpath := None]> seen) with
                       | Raise e => Raise e
                       | Ok (p, false, seen') => Ok (join_rest p rest', false, seen')
                       | Ok (p, true, seen') => go rest' p (<[newpath := Some p]> seen')
                       end
                   end
               end
         end) rest path seen
  end.

Definition link_fuel (fs : FS) : nat := S (size (links fs)).

(** [Path(s).resolve()] *)
Definition realpath (fs : FS) (p : PurePath) : res (abspath * bool) :=
  let start := if String.eqb (root p) "" then cwd fs else [] in
  match joinrealpath (link_fuel fs) fs start (parts p) ∅ with
  | Raise e => Raise e
  | Ok (r, ok, _) => Ok (normpath [] r, ok)
  end.

Definition resolve (fs : FS) (p : PurePath) : res abspath :=
  match realpath fs p with
  | Raise e => Raise e
  | Ok (r, _) => match stat_error fs r with Some e => Raise e | None => Ok r end
  end.

(** [Path] of a canonical absolute path *)
Definition abs_path (p : abspath) : PurePath := {| root := "/"; parts := p |}.

(** ** Pure path lemmas *)

Definition no_sep (s : string) : bool := negb (sexists (is_char sep) s).

(** A component of a canonical path. *)
Definition clean (c : string) : bool :=
  keep_part c && negb (String.eqb c "..") && no_sep c.

Definition clean_path (p : list string) : Prop := Forall (fun c => clean c = true) p.

Lemma clean_spec c : clean c = true <-> keep_part c = true /\ c <> ".." /\ no_sep c = true.
Proof.
  unfold clean. rewrite !andb_true_iff, negb_true_iff, String.eqb_neq. tauto.
Qed.

Lemma split_path_no_sep s : Forall (fun c => no_sep c = true) (split_path s).
Proof.
  unfold split_path. induction s as [|c s IH]; cbn [split_char]; [by repeat constructor|].
  destruct (Ascii.eqb_spec sep c) as [<-|Hne]; [by constructor|].
  destruct (split_char sep s) as [|t r] eqn:E; [by destruct (split_char_nonnil sep s)|].
  inversion IH as [|? ? Ht Hr]; subst. constructor; [|done].
  unfold no_sep in *. cbn [sexists]. apply Ascii.eqb_neq in Hne. unfold is_char at 1. by rewrite Hne.
Qed.

Lemma mk_path_parts s : Forall (fun c => keep_part c = true /\ no_sep c = true) (parts (mk_path s)).
Proof.
  apply Forall_forall. intros c. simpl. rewrite list_elem_of_In, filter_In, <-list_elem_of_In.
  intros [Hc ?]. split; [done|]. pose proof (split_path_no_sep s) as Hs.
  rewrite Forall_forall in Hs. by apply Hs.
Qed.

Lemma strip_base_spec base p r : strip_base base p = Some r <-> p = base ++ r.
Proof.
  revert p; induction base as [|b base IH]; intros p; simpl.
  - naive_solver.
  - destruct p as [|c p]; [naive_solver|]. destruct (String.eqb_spec b c) as [->|Hne].
    + rewrite IH. split; congruence.
    + split; congruence.
Qed.

Lemma clean_removelast p : clean_path p -> clean_path (removelast p).
Proof.
  intros H. destruct p as [|c p] using rev_ind; [done|]. rewrite removelast_last.
  by apply Forall_app in H as [? _].
Qed.

Lemma normpath_clean acc rest :
  clean_path acc -> Forall (fun c => no_sep c = true) rest -> clean_path (normpath acc rest).
Proof.
  revert acc; induction rest as [|c rest IH]; intros acc Ha; [done|]. simpl.
  rewrite Forall_cons. intros [Hc Hr]. destruct (keep_part c) eqn:Hk; simpl; [|by apply IH].
  destruct (String.eqb_spec c "..") as [->|Hne]; [by apply IH; [apply clean_removelast|]|].
  apply IH; [|done]. apply Forall_app. split; [done|]. constructor; [|done]. by apply clean_spec.
Qed.

Lemma normpath_id acc p : clean_path p -> normpath acc p = acc ++ p.
Proof.
  revert acc; induction p as [|c p IH]; intros acc; simpl; [by rewrite app_nil_r|].
  unfold clean_path. rewrite Forall_cons. intros [(Hk & Hd & _)%clean_spec Hp]. rewrite Hk. simpl.
  destruct (String.eqb_spec c ".."); [done|]. rewrite IH by done. by rewrite <-app_assoc.
Qed.

Lemma no_sep_sexists c : no_sep c = true -> sexists (is_char sep) c = false.
Proof. unfold no_sep. by rewrite negb_true_iff. Qed.

(** Printing a clean relative path and reading it back. *)
Lemma mk_path_join p :
  clean_path p -> p <> [] -> mk_path (join "/" p) = {| root := ""; parts := p |}.
Proof.
  intros Hp Hne. unfold mk_path, path_root.
  assert (isabs (join "/" p) = false) as ->.
  { destruct p as [|c p]; [done|]. unfold clean_path in Hp. apply Forall_cons in Hp as [(Hk & _ & Hs)%clean_spec _].
    destruct c as [|a c]; [done|]. unfold no_sep in Hs. simpl in Hs.
    rewrite negb_true_iff, orb_false_iff in Hs. destruct Hs as [Ha _]. unfold is_char in Ha.
    assert (forall t, isabs (String a t) = false) as Hi.
    { intros t. unfold isabs. cbn [String.prefix]. destruct (ascii_dec _ _) as [<-|]; [|done]. done. }
    destruct p as [|d p]; [apply Hi|]. rewrite join_cons by done. apply Hi. }
  f_equal. unfold split_path. change "/" with (String sep ""). rewrite split_join.
  - induction Hp as [|c p (Hk & _ & _)%clean_spec Hp IH]; [done|]. simpl. rewrite Hk. f_equal.
    destruct p; [done|]. by apply IH.
  - done.
  - eapply Forall_impl; [exact Hp|]. intros c (_ & _ & ?)%clean_spec. by apply no_sep_sexists.
Qed.

(** ** [joinrealpath]: termination and canonicity *)

(** What is still to be marked: the links that are not in [seen]. *)
Definition unseen (fs : FS) (seen : Seen) : nat := size ((dom (links fs) : gset (list string)) ∖ dom seen).

Definition seen_incl (s s' : Seen) : Prop := (dom s : gset (list string)) ⊆ dom s'.
#[local] Instance seen_incl_preorder : PreOrder seen_incl.
Proof. unfold seen_incl. split; [by intros ?|intros ???; set_solver]. Qed.

Lemma unseen_mono fs s s' : seen_incl s s' -> (unseen fs s' <= unseen fs s)%nat.
Proof. intros H. apply subseteq_size. unfold seen_incl in H. set_solver. Qed.

Lemma unseen_insert fs s p t v :
  links fs !! p = Some t -> s !! p = None -> (unseen fs (<[p := v]> s) < unseen fs s)%nat.
Proof.
  intros Hp Hs. apply subset_size. rewrite dom_insert_L.
  assert (p ∈ (dom (links fs) : gset _)) by by apply elem_of_dom.
  assert (p ∉ (dom s : gset _)) by by apply not_elem_of_dom. set_solver.
Qed.

(** No prefix of the path is a symbolic link. *)
Definition canonical (fs : FS) (p : abspath) : Prop :=
  forall q r, p = q ++ r -> q <> [] -> links fs !! q = None.

Lemma canonical_nil fs : canonical fs [].
Proof. intros q r H Hq. by destruct q. Qed.
Lemma canonical_removelast fs p : canonical fs p -> canonical fs (removelast p).
Proof.
  intros H. destruct p as [|c p _] using rev_ind; [done|]. rewrite removelast_last.
  intros q r -> Hq. apply (H q (r ++ [c])); [by rewrite app_assoc|done].
Qed.
Lemma canonical_snoc fs p c : canonical fs p -> links fs !! (p ++ [c]) = None -> canonical fs (p ++ [c]).
Proof.
  intros Hp Hl q r Heq Hq. destruct r as [|d r _] using rev_ind.
  - rewrite app_nil_r in Heq. by subst.
  - rewrite app_assoc in Heq. apply app_inj_tail in Heq as [-> ->]. by apply (Hp q r).
Qed.

(** The invariant of the walk: current path and cached results are clean and
    canonical. *)
Definition good (fs : FS) (p : abspath) : Prop := clean_path p /\ canonical fs p.
Definition seen_ok (fs : FS) (s : Seen) : Prop := forall k p, s !! k = Some (Some p) -> good fs p.

Lemma good_nil fs : good fs [].
Proof. split; [constructor|apply canonical_nil]. Qed.

Lemma seen_ok_insert fs s k v :
  seen_ok fs s -> (forall p, v = Some p -> good fs p) -> seen_ok fs (<[k := v]> s).
Proof.
  intros Hs Hv k' p. rewrite lookup_insert_Some. naive_solver.
Qed.

Definition jr_post (fs : FS) (seen : Seen) (m : res (abspath * bool * Seen)) : Prop :=
  match m with
  | Raise e => e = ValueError "lstat: embedded null character in path"
  | Ok (p, ok, seen') =>
      seen_ok fs seen' /\ seen_incl seen seen' /\ Forall (fun c => no_sep c = true) p /\
      (ok = true -> good fs p)
  end.

Lemma clean_path_no_sep p : clean_path p -> Forall (fun c => no_sep c = true) p.
Proof. intros H. eapply Forall_impl; [exact H|]. by intros c (? & ? & ?)%clean_spec. Qed.

Lemma join_rest_no_sep p rest :
  Forall (fun c => no_sep c = true) p -> Forall (fun c => no_sep c = true) rest ->
  Forall (fun c => no_sep c = true) (join_rest p rest).
Proof.
  intros Hp Hr. unfold join_rest. destruct rest as [|c [|d rest]]; [by apply Forall_app|by apply Forall_app|].
  destruct (String.eqb c ""); [by apply Forall_cons in Hr as [_ ?]|]. by apply Forall_app.
Qed.

Lemma jr_post_mono fs s s' m : seen_incl s s' -> jr_post fs s' m -> jr_post fs s m.
Proof.
  intros Hi. destruct m as [[[p ok] s'']|e]; [|done]. intros (? & ? & ? & ?).
  split_and!; try done. unfold seen_incl in *. set_solver.
Qed.

(** With more fuel than unseen links, the walk ends, never for lack of fuel. *)
Lemma joinrealpath_post fuel fs path rest seen :
  (unseen fs seen < fuel)%nat -> seen_ok fs seen -> good fs path ->
  Forall (fun c => no_sep c = true) rest ->
  jr_post fs seen (joinrealpath fuel fs path rest seen).
Proof.
  revert path rest seen; induction fuel as [|f IH]; intros path rest seen Hf Hs Hp Hr; [lia|].
  cbn [joinrealpath]. revert path seen Hf Hs Hp.
  induction Hr as [|name rest Hn Hr IHr]; intros path seen Hf Hs Hp.
  { split_and!; try done. apply clean_path_no_sep, Hp. }
  destruct (keep_part name) eqn:Hk; cbn [negb]; [|by apply IHr].
  destruct (String.eqb_spec name "..") as [->|Hne].
  { apply IHr; try done. destruct Hp. split; [by apply clean_removelast|by apply canonical_removelast]. }
  destruct (has_nul name); [done|].
  assert (clean_path (path ++ [name])) as Hclean.
  { apply Forall_app. split; [apply Hp|]. constructor; [|done]. by apply clean_spec. }
  destruct (links fs !! (path ++ [name])) as [target|] eqn:El.
  2:{ apply IHr; try done. split; [done|]. apply canonical_snoc; [apply Hp|done]. }
  destruct (seen !! (path ++ [name])) as [[p|]|] eqn:Es.
  - apply IHr; try done. by eapply Hs.
  - split_and!; try done. apply join_rest_no_sep; [by apply clean_path_no_sep|done].
  - set (s1 := <[path ++ [name] := None]> seen).
    assert (seen_incl seen s1) as Hi1 by (unfold seen_incl, s1; rewrite dom_insert_L; set_solver).
    pose proof (unseen_insert fs seen _ _ None El Es) as Hlt.
    assert (jr_post fs s1 (joinrealpath f fs (if isabs target then [] else path) (split_path target) s1)) as Hrec.
    { apply IH; [unfold s1; lia|by apply seen_ok_insert| |apply split_path_no_sep].
      destruct (isabs target); [apply good_nil|done]. }
    destruct (joinrealpath f fs _ _ s1) as [[[p ok] s2]|e]; [|done].
    destruct Hrec as (Hs2 & Hi2 & Hp2 & Hok). destruct ok.
    + eapply jr_post_mono; [|apply IHr].
      * unfold seen_incl in *. rewrite dom_insert_L. set_solver.
      * eapply Nat.le_lt_trans; [|exact Hf]. apply unseen_mono. unfold seen_incl in *.
        rewrite dom_insert_L. set_solver.
      * apply seen_ok_insert; [done|]. intros ? [= <-]. by apply Hok.
      * by apply Hok.
    + split_and!; try done; [unfold seen_incl in *; set_solver|by apply join_rest_no_sep].
Qed.

(** [realpath] of a path whose parts come from [pathlib]: it raises only for a
    null character, its result is clean, and canonical when no loop was met. *)
Lemma realpath_spec fs p :
  good fs (cwd fs) -> Forall (fun c => no_sep c = true) (parts p) ->
  match realpath fs p with
  | Raise e => e = ValueError "lstat: embedded null character in path"
  | Ok (r, ok) => clean_path r /\ (ok = true -> canonical fs r)
  end.
Proof.
  intros Hc Hp. unfold realpath, link_fuel.
  pose proof (joinrealpath_post (S (size (links fs))) fs
    (if String.eqb (root p) "" then cwd fs else []) (parts p) ∅) as H.
  destruct (joinrealpath _ _ _ _ _) as [[[r ok] s]|e].
  - destruct H as (_ & _ & Hn & Hok).
    + unfold unseen. rewrite dom_empty_L, difference_empty_L, size_dom. lia.
    + intros k q. by rewrite lookup_empty.
    + destruct (String.eqb _ _); [done|apply good_nil].
    + done.
    + split; [apply normpath_clean; [constructor|done]|]. intros ->. destruct (Hok eq_refl) as [Hcl Hcan].
      by rewrite normpath_id.
  - apply H.
    + unfold unseen. rewrite dom_empty_L, difference_empty_L, size_dom. lia.
    + intros k q. by rewrite lookup_empty.
    + destruct (String.eqb _ _); [done|apply good_nil].
    + done.
Qed.

Lemma resolve_clean fs p r :
  good fs (cwd fs) -> Forall (fun c => no_sep c = true) (parts p) -> resolve fs p = Ok r -> clean_path r.
Proof.
  intros Hc Hp. unfold resolve. pose proof (realpath_spec fs p Hc Hp) as H.
  destruct (realpath fs p) as [[q ok]|e]; [|done]. destruct (stat_error fs q); [done|].
  intros [= <-]. apply H.
Qed.
