(* ===== verification/Guard.v ===== *)
(** * Runtime permission enforcement and registry visualisation

    Models [openhands/forgepilot/tool_registry/enforcement.py]: the access
    guard in front of the registry's [invoke], and the Mermaid and JSON-schema
    renderings of the registry.

    A guard is a configuration; the state its methods work on is the shared
    registry, the world the executors act on, and the guard's list of
    violations, as [((registry, world), violations)]. *)

From S2P Require Import Prelude PyStr PyDict PyFloat PyVal Fnmatch PyPath ToolRegistry.
From Stdlib Require Import Ascii.

Record PermissionViolation := {
  v_tool_id : string;
  required_permission : ToolPermission;
  actual_permission : ToolPermission;
  v_detail : string;
}.

Record ToolAccessGuard := {
  workspace_root : option abspath;
  path_allowlist : list string;
  path_blocklist : list string;
  block_on_violation : bool;
}.

(** [ToolAccessGuard(registry, workspace_root=..., ...)] *)
Definition new_guard (fs : FS) (ws : option string) (allow block : option (list string)) : res ToolAccessGuard :=
  let mk r := {| workspace_root := r; path_allowlist := default [] allow;
                 path_blocklist := default [] block; block_on_violation := true |} in
  match ws with
  | None => Ok (mk None)
  | Some s => r <-! resolve fs (mk_path s) ;; Ok (mk (Some r))
  end.

Definition level (p : ToolPermission) : Z :=
  match p with READ => 0 | WRITE => 1 | EXECUTE => 2 | CONFIRM => 2 end.
Definition meets_permission (actual required : ToolPermission) : bool :=
  level required <=? level actual.

(** Backslashes become slashes. *)
Definition backslash : ascii := chr 92.
Definition normalise_separators (s : string) : string :=
  replace (String backslash "") "/" s.

(** The canonical relative path, or the reason why there is none. *)
Definition resolve_target_path (fs : FS) (g : ToolAccessGuard) (raw_path : string)
    : res (PurePath + string) :=
  match workspace_root g with
  | None => Ok (inl (mk_path (replace "/" "/" raw_path)))
  | Some base =>
      let normalised_input := normalise_separators raw_path in
      candidate <-! resolve fs (path_join (abs_path base) normalised_input) ;;
      match strip_base base candidate with
      | None => Ok (inr ("path " +:+ repr raw_path +:+ " escapes workspace (resolved to "
                         +:+ abs_str candidate +:+ ")"))
      | Some rel => Ok (inl (mk_path (replace "/" "/" (path_str {| root := ""; parts := rel |}))))
      end
  end.

Section guard.
Context {W : Type}.

Notation St := ((ToolRegistry * W) * list PermissionViolation)%type.

Definition violate (tid : string) (required actual : ToolPermission) (d : string) : M St bool :=
  onR (modifyM (fun vs => vs ++ [ {| v_tool_id := tid; required_permission := required;
                                     actual_permission := actual; v_detail := d |} ])) ;;;
  retM false.

(** [try: ... except KeyError: ...] *)
Definition try_key {S A} (m : M S A) (h : M S A) : M S A :=
  fun s => match m s with (Raise (KeyError _), s') => h s' | r => r end.

Definition check_path_rules (g : ToolAccessGuard) (tid : string) (required : ToolPermission)
    (entry : ToolRegistryEntry) (resolved_path : string) : M St bool :=
  if existsb (fnmatch resolved_path) (path_blocklist g)
  then violate tid required (permission entry) ("path " +:+ resolved_path +:+ " is blocked")
  else if negb (bool_decide (path_allowlist g = [])) && negb (existsb (fnmatch resolved_path) (path_allowlist g))
  then violate tid required (permission entry) ("path " +:+ resolved_path +:+ " is not in allowlist")
  else retM true.

Definition check (fs : FS) (g : ToolAccessGuard) (tid : string) (required : ToolPermission)
    (target_path : option string) : M St bool :=
  found <- try_key (e <- onL (onL (get_entry tid)) ;; retM (Some e)) (retM None) ;;
  match found with
  | None => violate tid required READ ("unknown tool: " +:+ tid)
  | Some entry =>
      if negb (enabled entry)
      then violate tid required (permission entry) "tool is disabled"
      else if negb (meets_permission (permission entry) required)
      then violate tid required (permission entry)
             ("insufficient permission: need " +:+ permission_value required +:+ ", have " +:+
              permission_value (permission entry))
      else match target_path with
           | None => retM true
           | Some raw =>
               resolved <- liftM (resolve_target_path fs g raw) ;;
               match resolved with
               | inr err_detail => violate tid required (permission entry) err_detail
               | inl p => check_path_rules g tid required entry (path_str p)
               end
           end
  end.

(** [self._violations[-1].detail] *)
Definition latest_detail : M St string :=
  vs <- onR getM ;;
  match List.rev vs with
  | v :: _ => retM (v_detail v)
  | [] => raiseM (OtherError "IndexError" "list index out of range")
  end.

Definition latest_tool : M St string :=
  vs <- onR getM ;;
  match List.rev vs with
  | v :: _ => retM (v_tool_id v)
  | [] => raiseM (OtherError "IndexError" "list index out of range")
  end.

Definition guard_invoke (fs : FS) (g : ToolAccessGuard) (env : Env) (tid : string) (p : Params)
    (executor : option (Executor W)) (tr : option string) (target_path : option string)
    (required : ToolPermission) (confirmed : bool) : M St ToolCallRecord :=
  allowed <- check fs g tid required target_path ;;
  if negb allowed
  then
    d <- latest_detail ;;
    if block_on_violation g
    then t <- latest_tool ;; raiseM (PermissionError ("Tool access denied: " +:+ t +:+ " — " +:+ d))
    else onL (onL (record_call env tid p "" 0 (Some ("permission denied: " +:+ d)) tr))
  else
    entry <- onL (onL (get_entry tid)) ;;
    if bool_decide (permission entry = CONFIRM) && negb confirmed
    then
      violate tid required (permission entry) "confirmation required for CONFIRM tools" ;;;
      if block_on_violation g
      then raiseM (PermissionError ("Tool access denied: " +:+ tid +:+ " — confirmation required"))
      else onL (onL (record_call env tid p "" 0 (Some "confirmation required for CONFIRM tools") tr))
    else onL (invoke env tid p executor tr confirmed None true).
End guard.

(** ** Schema visualisation *)

Inductive SchemaNode :=
  | mk_SchemaNode (sn_name sn_type : string) (sn_required : bool) (sn_children : list SchemaNode)
      (sn_description : string).

Definition dquote : string := String (chr 34) "".

Definition escape_mermaid_label (text : string) : string :=
  replace nl " " (replace dquote "&quot;" text).

Definition safe_id (tid : string) : string :=
  replace ":" "_" (replace "-" "_" (replace "." "_" tid)).

(** [entry.provider or 'unknown'] *)
Definition provider_or_unknown (e : ToolRegistryEntry) : string :=
  if String.eqb (provider e) "" then "unknown" else provider e.

Definition entry_lines (e : ToolRegistryEntry) : list string :=
  let node_id := safe_id (tool_id e) in
  let prov := escape_mermaid_label (provider_or_unknown e) in
  let perm := permission_value (permission e) in
  let status := if enabled e then "enabled" else "disabled" in
  let display := escape_mermaid_label (display_name e) in
  let tid := escape_mermaid_label (tool_id e) in
  ("  " +:+ node_id +:+ "[" +:+ dquote +:+ display +:+ " (" +:+ tid +:+ ")<br/>" +:+
     prov +:+ " | " +:+ perm +:+ " | " +:+ status +:+ dquote +:+ "]") ::
  match schema_ref e with
  | Some s =>
      let schema_id := node_id +:+ "_schema" in
      [ "  " +:+ schema_id +:+ "[(" +:+ dquote +:+ "Schema: " +:+
          escape_mermaid_label (schema_type s) +:+ dquote +:+ ")]";
        "  " +:+ node_id +:+ " --> " +:+ schema_id ]
  | None => []
  end.

Definition entries_to_graph (es : list ToolRegistryEntry) : string :=
  join nl ("graph TD" :: "  TITLE[MCP Tool Registry]" :: concat (map entry_lines es)).

Definition generate_mermaid_registry_graph (r : ToolRegistry) : string :=
  entries_to_graph (list_entries r).

Definition vstrs (l : list string) : pyval := VList (map VStr l).
Definition const_string (s : string) : pyval := VDict [("type", VStr "string"); ("const", VStr s)].

Definition entry_to_json_schema (e : ToolRegistryEntry) : pyval :=
  VDict [
    ("$schema", VStr "https://json-schema.org/draft/2020-12/schema");
    ("title", VStr (display_name e));
    ("type", VStr "object");
    ("properties", VDict [
      ("tool_id", const_string (tool_id e));
      ("provider", const_string (provider e));
      ("permission", VDict [("type", VStr "string");
         ("enum", vstrs (map permission_value [READ; WRITE; EXECUTE; CONFIRM]));
         ("default", VStr (permission_value (permission e)))]);
      ("permission_scopes", VDict [("type", VStr "array"); ("items", VDict [("type", VStr "string")]);
         ("default", vstrs (permission_scopes e))]);
      ("enabled", VDict [("type", VStr "boolean"); ("default", VBool (enabled e))]);
      ("mode", VDict [("type", VStr "string"); ("enum", vstrs (map mode_value [LIVE; MOCK]));
         ("default", VStr (mode_value (mode e)))]);
      ("health_status", VDict [("type", VStr "string");
         ("enum", vstrs ["unknown"; "healthy"; "degraded"; "unreachable"])]) ]) ].

Definition generate_json_schemas (r : ToolRegistry) : dict string pyval :=
  fold_left (fun d e => dset d (tool_id e) (entry_to_json_schema e)) (list_entries r) [].

(** ** What [check] admits *)

Definition rules_ok (g : ToolAccessGuard) (p : string) : Prop :=
  (forall pat, pat ∈ path_blocklist g -> ~ glob (parse_pattern pat) p) /\
  (path_allowlist g = [] \/ exists pat, pat ∈ path_allowlist g /\ glob (parse_pattern pat) p).

Definition rel_str (rel : list string) : string :=
  match rel with [] => "." | _ => join "/" rel end.

(** The canonical form of the target lies under the workspace, by a path
    without [".."], and the rules accept that relative path. *)
Definition path_admitted (fs : FS) (g : ToolAccessGuard) (raw : string) : Prop :=
  match workspace_root g with
  | None => rules_ok g (path_str (mk_path raw))
  | Some base => exists rel,
      resolve fs (path_join (abs_path base) (normalise_separators raw)) = Ok (base ++ rel) /\
      clean_path rel /\ rules_ok g (rel_str rel)
  end.

Definition admitted (fs : FS) (g : ToolAccessGuard) (r : ToolRegistry) (tid : string)
    (required : ToolPermission) (target : option string) : Prop :=
  exists e, dget (entries r) tid = Some e /\ enabled e = true /\ level required <= level (permission e) /\
    (forall raw, target = Some raw -> path_admitted fs g raw).

Definition guard_wf (g : ToolAccessGuard) : Prop :=
  forall base, workspace_root g = Some base -> clean_path base.

Lemma mk_path_no_sep s : Forall (fun c => no_sep c = true) (parts (mk_path s)).
Proof. eapply Forall_impl; [apply mk_path_parts|]. by intros c [_ ?]. Qed.

Lemma new_guard_wf fs ws allow block g :
  good fs (cwd fs) -> new_guard fs ws allow block = Ok g -> guard_wf g /\ block_on_violation g = true.
Proof.
  intros Hfs. unfold new_guard. destruct ws as [s|].
  - destruct (resolve fs (mk_path s)) as [base|e] eqn:E; [|done]. intros [= <-]. split; [|done].
    intros b [= <-]. eapply resolve_clean; [done|apply mk_path_no_sep|exact E].
  - intros [= <-]. split; [|done]. by intros b.
Qed.

Lemma replace_slash s : replace "/" "/" s = s.
Proof.
  rewrite replace_char. induction s as [|c s IH]; [done|]. cbn [smap]. rewrite IH.
  by destruct (Ascii.eqb_spec "/" c) as [<-|].
Qed.

(** Reading back the printed relative path changes nothing. *)
Lemma path_str_relative rel :
  clean_path rel -> path_str (mk_path (path_str {| root := ""; parts := rel |})) = rel_str rel.
Proof.
  intros H. destruct rel as [|c rel]; [done|].
  change (path_str {| root := ""; parts := c :: rel |}) with (join "/" (c :: rel)).
  by rewrite mk_path_join.
Qed.

Lemma rules_ok_bool g p :
  (existsb (fnmatch p) (path_blocklist g) = false /\
   (path_allowlist g = [] \/ existsb (fnmatch p) (path_allowlist g) = true)) <-> rules_ok g p.
Proof.
  unfold rules_ok. rewrite existsb_false, existsb_spec.
  setoid_rewrite fnmatch_spec. setoid_rewrite <-not_true_iff_false. setoid_rewrite fnmatch_spec. done.
Qed.

Lemma candidate_clean fs base raw r :
  good fs (cwd fs) -> clean_path base ->
  resolve fs (path_join (abs_path base) (normalise_separators raw)) = Ok r -> clean_path r.
Proof.
  intros Hfs Hb. apply resolve_clean; [done|].
  unfold path_join. destruct (isabs _); [apply mk_path_no_sep|]. simpl. apply Forall_app.
  split; [by apply clean_path_no_sep|apply mk_path_no_sep].
Qed.

Section guard_props.
Context {W : Type}.
Notation St := ((ToolRegistry * W) * list PermissionViolation)%type.
Implicit Types (r : ToolRegistry) (w : W) (vs : list PermissionViolation).

(** A denial: nothing but one more violation, naming the tool. *)
Definition denied (tid : string) (st : St) (m : res bool * St) : Prop :=
  exists v, m = (Ok false, (st.1, st.2 ++ [v])) /\ v_tool_id v = tid.

Lemma violate_denied tid required actual d (st : St) :
  denied tid st (violate tid required actual d st).
Proof. destruct st. by eexists. Qed.

Lemma check_path_rules_spec g tid required e p (st : St) :
  (rules_ok g p /\ check_path_rules g tid required e p st = (Ok true, st)) \/
  (~ rules_ok g p /\ denied tid st (check_path_rules g tid required e p st)).
Proof.
  unfold check_path_rules. rewrite <-rules_ok_bool.
  destruct (existsb _ (path_blocklist g)); [right; split; [by intros [? _]|apply violate_denied]|].
  case_bool_decide as Ha; simpl; [left; split; [by split; [|left]|done]|].
  destruct (existsb _ (path_allowlist g)); simpl; [left; split; [by split; [|right]|done]|].
  right. split; [by intros [_ [?|?]]|apply violate_denied].
Qed.

(** Whatever the paths, a check that succeeds changes nothing and finds an
    enabled tool of the required level; one that fails records a violation. *)
Lemma check_shape fs g tid required target (st : St) :
  match check fs g tid required target st with
  | (Ok true, st') => st' = st /\ exists e, dget (entries st.1.1) tid = Some e /\ enabled e = true /\
                       level required <= level (permission e)
  | (Ok false, st') => denied tid st (Ok false, st')
  | (Raise e, st') => st' = st
  end.
Proof.
  destruct st as [[r w] vs]. unfold check, try_key. unfold_monad. rewrite get_entry_spec.
  destruct (dget (entries r) tid) as [e|] eqn:E; cbn [fst snd]; [|by eexists].
  destruct (enabled e) eqn:En; cbn [negb]; [|by eexists].
  unfold meets_permission. destruct (Z.leb_spec (level required) (level (permission e))); cbn [negb]; [|by eexists].
  destruct target as [raw|]; [|by eauto].
  destruct (resolve_target_path fs g raw) as [[p|d]|ex]; cbn [fst snd]; [|by eexists|done].
  destruct (check_path_rules_spec g tid required e (path_str p) (r, w, vs)) as [[_ ->]|[_ (v & -> & ?)]].
  - eauto.
  - by eexists.
Qed.

(** [check] decides [admitted]; it raises only when the target path cannot be
    resolved. *)
Lemma check_spec fs g tid required target (st : St) :
  good fs (cwd fs) -> guard_wf g ->
  match check fs g tid required target st with
  | (Ok true, st') => admitted fs g st.1.1 tid required target /\ st' = st
  | (Ok false, st') => ~ admitted fs g st.1.1 tid required target /\
                       denied tid st (Ok false, st')
  | (Raise e, st') => st' = st /\ exists raw base, target = Some raw /\ workspace_root g = Some base /\
                       resolve fs (path_join (abs_path base) (normalise_separators raw)) = Raise e
  end.
Proof.
  intros Hfs Hwf. destruct st as [[r w] vs]. unfold check, try_key. unfold_monad. rewrite get_entry_spec.
  unfold admitted. destruct (dget (entries r) tid) as [e|] eqn:E; cbn [fst snd].
  2:{ split; [by intros (? & ? & _)|by eexists]. }
  destruct (enabled e) eqn:En; cbn [negb].
  2:{ split; [|by eexists]. intros (? & ? & ? & _). congruence. }
  unfold meets_permission. destruct (Z.leb_spec (level required) (level (permission e))) as [Hl|Hl]; cbn [negb].
  2:{ split; [|by eexists]. intros (? & ? & _ & ? & _). simplify_eq. lia. }
  destruct target as [raw|]; [|by split; [exists e; by split_and!|]].
  assert (forall P : Prop, (exists e0, Some e = Some e0 /\ enabled e0 = true /\
      level required <= level (permission e0) /\ (forall raw0, Some raw = Some raw0 -> path_admitted fs g raw0))
      <-> path_admitted fs g raw) as Hiff.
  { intros _. split; [intros (? & ? & _ & _ & Hp); by apply Hp|]. intros. exists e. split_and!; try done.
    by intros ? [= <-]. }
  specialize (Hiff True). unfold resolve_target_path, path_admitted in *.
  destruct (workspace_root g) as [base|] eqn:Eb.
  - destruct (resolve fs _) as [cand|ex] eqn:Er; cbn [rbind fst snd]; [|by eauto 8].
    destruct (strip_base base cand) as [rel|] eqn:Es.
    + apply strip_base_spec in Es as ->.
      assert (clean_path rel) as Hrel.
      { pose proof (candidate_clean fs base raw _ Hfs (Hwf _ Eb) Er) as Hc. by apply Forall_app in Hc as [_ ?]. }
      rewrite replace_slash, path_str_relative by done.
      assert ((exists rel0, Ok (base ++ rel) = Ok (base ++ rel0) /\ clean_path rel0 /\ rules_ok g (rel_str rel0))
              <-> rules_ok g (rel_str rel)) as Hr2.
      { split; [intros (rel0 & [= ->%app_inv_head] & _ & ?); done|eauto]. }
      rewrite Hr2 in Hiff.
      destruct (check_path_rules_spec g tid required e (rel_str rel) (r, w, vs)) as [[Hr ->]|[Hr Hd]].
      * split; [by apply Hiff|done].
      * destruct Hd as (v & -> & ?). split; [by rewrite Hiff|by eexists].
    + split; [|by eexists]. rewrite Hiff. intros (rel & [= ->] & _).
      assert (strip_base base (base ++ rel) = Some rel) as Hs by by apply strip_base_spec. by rewrite Hs in Es.
  - cbn [fst snd]. rewrite replace_slash.
    destruct (check_path_rules_spec g tid required e (path_str (mk_path raw)) (r, w, vs)) as [[Hr ->]|[Hr Hd]].
    + split; [by apply Hiff|done].
    + destruct Hd as (v & -> & ?). split; [by rewrite Hiff|by eexists].
Qed.

Lemma latest_detail_last (st : ToolRegistry * W) vs v :
  latest_detail (st, vs ++ [v]) = (Ok (v_detail v), (st, vs ++ [v])).
Proof. unfold latest_detail. unfold_monad. by rewrite rev_app_distr. Qed.
Lemma latest_tool_last (st : ToolRegistry * W) vs v :
  latest_tool (st, vs ++ [v]) = (Ok (v_tool_id v), (st, vs ++ [v])).
Proof. unfold latest_tool. unfold_monad. by rewrite rev_app_distr. Qed.
End guard_props.

(** ** The guard in front of [invoke] *)

Section guard_invoke_props.
Context {W : Type}.

(** C32: behind the guard a tool's executor runs only for an admitted call:
    the tool is registered, enabled, has the required level, its target path
    resolves inside the workspace and passes the block and allow lists, and a
    CONFIRM tool is confirmed.  Then the call is exactly the registry's
    [invoke] and no violation is recorded.  Otherwise the world and the
    registry are untouched, the caller gets an exception, and unless the path
    itself could not be resolved, that exception is a [PermissionError] and one
    violation naming the tool is recorded. *)
Theorem guard_invoke_safe (fs : FS) (ws : option string) (allow block : option (list string))
    (g : ToolAccessGuard) (env : Env) (tid : string) (p : Params) (executor : option (Executor W))
    (tr target : option string) (required : ToolPermission) (confirmed : bool)
    (r : ToolRegistry) (w : W) (vs : list PermissionViolation)
    (Hfs : good fs (cwd fs)) (Hg : new_guard fs ws allow block = Ok g) :
  let m := guard_invoke fs g env tid p executor tr target required confirmed ((r, w), vs) in
  (admitted fs g r tid required target /\
   (forall e, dget (entries r) tid = Some e -> permission e = CONFIRM -> confirmed = true) /\
   m = let i := invoke env tid p executor tr confirmed None true (r, w) in (i.1, (i.2, vs))) \/
  (exists msg v, m = (Raise (PermissionError msg), ((r, w), vs ++ [v])) /\ v_tool_id v = tid /\
     (admitted fs g r tid required target -> confirmed = false)) \/
  (exists e raw, m = (Raise e, ((r, w), vs)) /\ target = Some raw /\
     ~ admitted fs g r tid required target).
Proof.
  intros m. destruct (new_guard_wf _ _ _ _ _ Hfs Hg) as [Hwf Hblock]. unfold m, guard_invoke. unfold_monad.
  pose proof (check_spec fs g tid required target (r, w, vs) Hfs Hwf) as Hc.
  destruct (check fs g tid required target (r, w, vs)) as [[[]|ex] st'] eqn:Ec; cbn [negb fst snd] in *.
  - destruct Hc as [Hadm ->]. cbn [fst snd]. rewrite get_entry_spec.
    pose proof Hadm as (e & He & _). rewrite He. cbn [fst snd].
    destruct (bool_decide (permission e = CONFIRM) && negb confirmed) eqn:Hconf; cbn [fst snd].
    + right; left. rewrite Hblock. apply andb_true_iff in Hconf as [_ Hn].
      eexists _, _. split; [done|]. split; [done|]. by destruct confirmed.
    + left. split; [done|]. split.
      * intros e' He' Hp. simplify_eq. rewrite bool_decide_eq_true_2 in Hconf by done. by destruct confirmed.
      * cbn [fst snd]. by destruct (invoke _ _ _ _ _ _ _ _ _) as [? ?].
  - right; left. destruct Hc as [Hn (v & [= ->] & Hv)]. rewrite latest_detail_last, Hblock, latest_tool_last.
    eexists _, v. by split_and!.
  - right; right. destruct Hc as (-> & raw & base & -> & Hb & He). eexists _, _. split; [done|]. split; [done|].
    intros (? & _ & _ & _ & Hp). specialize (Hp raw eq_refl). unfold path_admitted in Hp. rewrite Hb in Hp.
    destruct Hp as (rel & Hr & _). congruence.
Qed.
End guard_invoke_props.

(** A workspace with a symbolic link that leads out of it. *)
Definition example_fs : FS :=
  {| cwd := ["home"]; links := {[ ["ws"; "out"] := "../etc" ]}; stat_error := fun _ => None |}.
Definition example_entry : ToolRegistryEntry :=
  {| tool_id := "fs"; display_name := "Files"; provider := "local"; enabled := true; permission := WRITE;
     permission_scopes := []; mode := LIVE; schema_ref := None; health_check := None; cost := zero_cost |}.
Definition example_env : Env := {| uuid := "u"; now := 0; elapsed_ms := 1 |}.
Definition counting_executor : Executor nat := fun _ _ n => (ExecReturn "done", S n).

Lemma guard_invoke_safe_witness :
  let g := {| workspace_root := Some ["ws"]; path_allowlist := []; path_blocklist := ["*.pem"];
              block_on_violation := true |} in
  let call t := guard_invoke example_fs g example_env "fs" (PStr "x") (Some counting_executor) None (Some t)
                  WRITE false ((new_registry [example_entry], 0%nat), []) in
  good example_fs (cwd example_fs) /\ new_guard example_fs (Some "/ws") None (Some ["*.pem"]) = Ok g /\
  (call "a/./b.txt").2.1.2 = 1%nat /\ (call "out/passwd").2.1.2 = 0%nat /\
  (call "a/../../etc").2.1.2 = 0%nat /\ (call "k.pem").2.1.2 = 0%nat /\
  exists (o : res ToolCallRecord) st, call "out/passwd" = (o, st) /\ is_ok o = false.
Proof.
  intros g call.
  assert (good example_fs (cwd example_fs)) as Hgood.
  { split; [by repeat constructor|]. intros q r Hq Hne.
    destruct q as [|a q]; [done|]. injection Hq as <- Hq. by destruct q. }
  assert (new_guard example_fs (Some "/ws") None (Some ["*.pem"]) = Ok g) as Hg by by vm_compute.
  split; [done|]. split; [done|]. split; [by vm_compute|]. split; [by vm_compute|].
  split; [by vm_compute|]. split; [by vm_compute|].
  destruct (guard_invoke_safe example_fs (Some "/ws") None (Some ["*.pem"]) g example_env "fs" (PStr "x")
    (Some counting_executor) None (Some "out/passwd") WRITE false (new_registry [example_entry]) 0%nat []
    Hgood Hg) as [(_ & _ & H)|[(msg & v & H & _)|(e & raw & H & _)]].
  - exfalso. apply (f_equal (fun m => m.2.1.2)) in H. by vm_compute in H.
  - eexists _, _. by split; [exact H|].
  - eexists _, _. by split; [exact H|].
Defined.

(** The guard protects its own entry point only.  A disabled tool that
    [guard_invoke] rejects is run by a direct call of the registry's [invoke],
    which does not look at [enabled]. *)
Example registry_invoke_runs_disabled_tool (fs : FS) (g : ToolAccessGuard) (n : nat) :
  exists r e, dget (entries r) "fs" = Some e /\ enabled e = false /\
    (invoke example_env "fs" (PStr "x") (Some counting_executor) None false None true (r, n)).2.2 = S n /\
    (guard_invoke fs g example_env "fs" (PStr "x") (Some counting_executor) None None READ false
       ((r, n), [])).2.1.2 = n.
Proof.
  exists (new_registry [put_enabled false example_entry]), (put_enabled false example_entry).
  split_and!; try reflexivity. by destruct g as [? ? ? []].
Qed.

(** ** Mermaid: labels cannot break out of their line *)

Definition is_newline (c : ascii) : bool := ord c =? 10.
Definition no_newline (s : string) : bool := negb (sexists is_newline s).

Lemma replace_chars (c : ascii) (new s : string) p :
  sexists p (replace (String c "") new s) =
  sexists (fun x => if Ascii.eqb c x then sexists p new else p x) s.
Proof.
  unfold replace. induction s as [|x s IH]; [done|]. cbn [replace_go sexists String.prefix].
  destruct (ascii_dec c x) as [->|Hne].
  - rewrite Ascii.eqb_refl, (proj2 (prefix_spec "" s)) by by exists s.
    change (slen (String x "") - 1)%nat with 0%nat. by rewrite sexists_app, IH.
  - apply Ascii.eqb_neq in Hne. rewrite Hne. cbn [sexists]. by rewrite IH.
Qed.

Lemma sexists_ext p q s : (forall c, p c = q c) -> sexists p s = sexists q s.
Proof. intros H. induction s as [|c s IH]; cbn [sexists]; [done|]. by rewrite H, IH. Qed.
Lemma sexists_false p s : (forall c, p c = false) -> sexists p s = false.
Proof. intros H. induction s as [|c s IH]; cbn [sexists]; [done|]. by rewrite H. Qed.

Lemma escape_no_newline s : no_newline (escape_mermaid_label s) = true.
Proof.
  unfold no_newline, escape_mermaid_label, nl, dquote. rewrite replace_chars.
  rewrite sexists_false; [done|]. intros c. destruct (Ascii.eqb_spec (chr 10) c) as [<-|Hne]; [done|].
  unfold is_newline. apply Z.eqb_neq. intros E. apply Hne. apply ord_inj. rewrite E. by apply ord_chr.
Qed.

Lemma escape_no_quote s : sexists (fun c => ord c =? 34) (escape_mermaid_label s) = false.
Proof.
  unfold escape_mermaid_label, nl, dquote. rewrite !replace_chars. apply sexists_false. intros c.
  destruct (Ascii.eqb_spec (chr 34) c) as [<-|Hne]; [by vm_compute|].
  destruct (Ascii.eqb_spec (chr 10) c) as [<-|_]; [by vm_compute|].
  apply Z.eqb_neq. intros E. apply Hne. apply ord_inj. rewrite E. by apply ord_chr.
Qed.

Lemma no_newline_app s t : no_newline (s +:+ t) = no_newline s && no_newline t.
Proof. unfold no_newline. by rewrite sexists_app, negb_orb. Qed.

Lemma safe_id_no_newline s : no_newline s = true -> no_newline (safe_id s) = true.
Proof.
  unfold no_newline, safe_id. rewrite !replace_chars, !negb_true_iff. intros H.
  etrans; [|exact H]. apply sexists_ext. intros c.
  repeat case_match; simplify_eq; try done;
    repeat match goal with H : Ascii.eqb _ c = true |- _ => apply Ascii.eqb_eq in H as <- end; done.
Qed.

Lemma count_join_newline l :
  l <> [] -> Forall (fun s => no_newline s = true) l -> S (scount is_newline (join nl l)) = length l.
Proof.
  intros Hne H. induction H as [|s l Hs Hl IH]; [done|].
  assert (scount is_newline s = 0%nat) as Hz.
  { apply scount_0. unfold no_newline in Hs. by apply negb_true_iff in Hs. }
  destruct l as [|t l]; [simpl; by rewrite Hz|].
  rewrite join_cons, !scount_app, Hz by done. change (scount is_newline nl) with 1%nat.
  specialize (IH ltac:(done)). simpl length in *. lia.
Qed.

Lemma entry_lines_no_newline e :
  no_newline (tool_id e) = true -> Forall (fun s => no_newline s = true) (entry_lines e).
Proof.
  intros Ht%safe_id_no_newline. unfold entry_lines.
  assert (forall p, no_newline (permission_value p) = true) as Hp by by intros [].
  constructor; [|destruct (schema_ref e); [|done]; repeat constructor];
    rewrite ?no_newline_app, ?escape_no_newline, ?Ht, ?Hp; [|done..].
  by destruct (enabled e).
Qed.

(** Whatever the display names, providers and schema types contain
    (quotes and line breaks included), the Mermaid graph of tools whose ids have no
    line break consists of the two title lines, one node line per tool, and
    two lines more for each tool with a schema: no label can add a line. *)
Lemma mermaid_lines (es : list ToolRegistryEntry)
    (Hids : Forall (fun e => no_newline (tool_id e) = true) es) :
  S (scount is_newline (entries_to_graph es)) =
  (2 + sum_list (map (fun e => if schema_ref e then 3 else 1) es))%nat.
Proof.
  unfold entries_to_graph. rewrite count_join_newline; [|done|].
  - simpl. do 2 f_equal. clear Hids. induction es as [|e es IH]; [done|].
    simpl. rewrite length_app, IH. by destruct (schema_ref e).
  - do 2 (constructor; [done|]). induction Hids as [|e es He Hes IH]; [constructor|].
    cbn [map concat]. apply Forall_app. split; [by apply entry_lines_no_newline|done].
Qed.
Lemma mermaid_lines_witness :
  no_newline (tool_id example_entry) = true /\
  S (scount is_newline (entries_to_graph [example_entry])) = 3%nat.
Proof. split; [reflexivity|]. apply (mermaid_lines [example_entry]). by repeat constructor. Defined.

(** A tool id is not escaped in a node id: a line break in it adds a line. *)
Example mermaid_id_injection :
  let e := {| tool_id := "x" +:+ nl +:+ "y"; display_name := ""; provider := ""; enabled := true;
              permission := READ; permission_scopes := []; mode := LIVE; schema_ref := None;
              health_check := None; cost := zero_cost |} in
  S (scount is_newline (entries_to_graph [e])) = 4%nat.
Proof. reflexivity. Qed.

(** ** Containment and symbolic links *)

(** C37: when a workspace is set, a target that resolves to a path is under the
    workspace: its canonical form is the workspace followed by components free
    of [".."], ["."] and slashes.  Unless the resolution met a cycle of links,
    no prefix of that path is a symbolic link, so the file the operating system
    reaches through it is that path itself. *)
Theorem target_inside_workspace (fs : FS) (ws : string) (allow block : option (list string))
    (g : ToolAccessGuard) (raw : string) (p : PurePath)
    (Hfs : good fs (cwd fs)) (Hg : new_guard fs (Some ws) allow block = Ok g)
    (Hp : resolve_target_path fs g raw = Ok (inl p)) :
  exists base rel ok, workspace_root g = Some base /\ path_str p = rel_str rel /\ clean_path rel /\
    realpath fs (path_join (abs_path base) (normalise_separators raw)) = Ok (base ++ rel, ok) /\
    (ok = true -> canonical fs (base ++ rel)).
Proof.
  destruct (new_guard_wf _ _ _ _ _ Hfs Hg) as [Hwf _]. unfold new_guard in Hg.
  destruct (resolve fs (mk_path ws)) as [base|] eqn:Eb; [|done].
  assert (workspace_root g = Some base) as Hb by by injection Hg as <-.
  specialize (Hwf _ Hb). unfold resolve_target_path in Hp. rewrite Hb in Hp.
  destruct (resolve fs (path_join _ _)) as [cand|] eqn:Er; [|done]. cbn [rbind] in Hp.
  pose proof (candidate_clean fs base raw cand Hfs Hwf Er) as Hclean.
  destruct (strip_base base cand) as [rel|] eqn:Es; [|done]. apply strip_base_spec in Es as ->.
  apply Forall_app in Hclean as [_ Hrel]. injection Hp as <-.
  unfold resolve in Er.
  pose proof (realpath_spec fs (path_join (abs_path base) (normalise_separators raw)) Hfs) as Hreal.
  destruct (realpath fs _) as [[q ok]|] eqn:Ereal; [|done]. destruct (stat_error fs q); [done|]. injection Er as ->.
  exists base, rel, ok. split_and!; try done.
  - by rewrite replace_slash, path_str_relative.
  - apply Hreal. unfold path_join. destruct (isabs _); [apply mk_path_no_sep|]. simpl. apply Forall_app.
    split; [by apply clean_path_no_sep|apply mk_path_no_sep].
Qed.

Lemma target_inside_workspace_witness :
  exists g p, new_guard example_fs (Some "/ws") None None = Ok g /\
    resolve_target_path example_fs g "x\..\src/./main.py" = Ok (inl p) /\ path_str p = "src/main.py" /\
    exists base rel ok, workspace_root g = Some base /\ path_str p = rel_str rel /\ clean_path rel /\
      realpath example_fs (path_join (abs_path base) (normalise_separators "x\..\src/./main.py"))
        = Ok (base ++ rel, ok) /\ (ok = true -> canonical example_fs (base ++ rel)).
Proof.
  eexists _, _. split; [reflexivity|]. split; [vm_compute; reflexivity|]. split; [reflexivity|].
  eapply (target_inside_workspace example_fs "/ws" None None).
  - split; [by repeat constructor|]. intros q r Hq Hne.
    destruct q as [|a q]; [done|]. injection Hq as <- Hq. by destruct q.
  - reflexivity.
  - vm_compute. reflexivity.
Defined.

(** With a cycle of links before a [".."] the resolved path is only the
    lexical one: here it names a link that leads out of the workspace. *)
Example cycle_hides_a_link :
  let fs := {| cwd := []; links := <[ ["ws"; "a"] := "a" ]> {[ ["ws"; "evil"] := "/etc" ]};
               stat_error := fun _ => None |} in
  let g := {| workspace_root := Some ["ws"]; path_allowlist := []; path_blocklist := [];
              block_on_violation := true |} in
  resolve_target_path fs g "a/../evil" = Ok (inl (mk_path "evil")) /\
  links fs !! ["ws"; "evil"] = Some "/etc".
Proof. by vm_compute. Qed.
