(* ===== verification/Shlex.v ===== *)
(** * [shlex]: splitting and joining shell words

    The state machine of [shlex.shlex.read_token] in POSIX mode with
    [whitespace_split] and no comment characters, which is what [shlex.split]
    runs, and [shlex.quote] and [shlex.join].  Splitting undoes joining. *)

From S2P Require Import Prelude PyStr.
From Stdlib Require Import Ascii.

Definition squote : ascii := chr 39.
Definition dquote_char : ascii := chr 34.
Definition escape_char : ascii := chr 92.

Definition is_ws (c : ascii) : bool :=
  (ord c =? 32) || (ord c =? 9) || (ord c =? 13) || (ord c =? 10).
Definition is_quote (c : ascii) : bool := Ascii.eqb c squote || Ascii.eqb c dquote_char.

(** [' '], ['a'], a quote character, or the escape character together with
    the state to return to. *)
Inductive lex_state :=
  | Blank
  | Word
  | Quoted (q : ascii)
  | Escaped (back : lex_state).

Definition snoc (s : string) (c : ascii) : string := s +:+ String c "".

(** [token] and [quoted] are the variables of the token being read. *)
Fixpoint lex (st : lex_state) (token : string) (quoted : bool) (s : string) : res (list string) :=
  match s with
  | EmptyString =>
      match st with
      | Blank => Ok []
      | Word => Ok (if quoted || negb (String.eqb token "") then [token] else [])
      | Quoted _ => Raise (ValueError "No closing quotation")
      | Escaped _ => Raise (ValueError "No escaped character")
      end
  | String c s' =>
      match st with
      | Blank =>
          if is_ws c then lex Blank token quoted s'
          else if Ascii.eqb c escape_char then lex (Escaped Word) token quoted s'
          else if is_quote c then lex (Quoted c) token quoted s'
          else lex Word (String c "") quoted s'
      | Quoted q =>
          if Ascii.eqb c q then lex Word token true s'
          else if Ascii.eqb c escape_char && Ascii.eqb q dquote_char then lex (Escaped (Quoted q)) token true s'
          else lex (Quoted q) (snoc token c) true s'
      | Escaped back =>
          match back with
          | Quoted q =>
              if negb (Ascii.eqb c escape_char) && negb (Ascii.eqb c q)
              then lex back (snoc (snoc token escape_char) c) quoted s'
              else lex back (snoc token c) quoted s'
          | _ => lex back (snoc token c) quoted s'
          end
      | Word =>
          if is_ws c
          then if quoted || negb (String.eqb token "")
               then ts <-! lex Blank "" false s' ;; Ok (token :: ts)
               else lex Blank token quoted s'
          else if is_quote c then lex (Quoted c) token quoted s'
          else if Ascii.eqb c escape_char then lex (Escaped Word) token quoted s'
          else lex Word (snoc token c) quoted s'
      end
  end.

Definition shlex_split (s : string) : res (list string) := lex Blank "" false s.

(** ** Quoting *)

Definition is_ascii_word (c : ascii) : bool :=
  is_decimal c || is_ascii_upper c || is_ascii_lower c || (ord c =? 95).
(** Not matched by [[^\w@%+=:,./-]] in ASCII mode. *)
Definition safe_char (c : ascii) : bool :=
  is_ascii_word c || existsb (fun k => ord c =? k) [64; 37; 43; 61; 58; 44; 46; 47; 45].

Definition sq : string := String squote "".
Definition quoted_squote : string :=
  sq +:+ String dquote_char "" +:+ sq +:+ String dquote_char "" +:+ sq.

Definition quote (s : string) : string :=
  if String.eqb s "" then sq +:+ sq
  else if sall safe_char s then s
  else sq +:+ replace sq quoted_squote s +:+ sq.

Definition shlex_join (l : list string) : string := join " " (map quote l).

(** ** Splitting undoes joining *)

Lemma safe_char_plain c :
  safe_char c = true -> is_ws c = false /\ is_quote c = false /\ Ascii.eqb c escape_char = false.
Proof. destruct c as [[] [] [] [] [] [] [] []]; by vm_compute. Qed.

Lemma lex_word_safe s : forall tok q rest,
  sall safe_char s = true -> lex Word tok q (s +:+ rest) = lex Word (tok +:+ s) q rest.
Proof.
  induction s as [|c s IH]; intros tok q rest; [by rewrite sapp_nil_r|].
  cbn [sall]. rewrite andb_true_iff. intros [(Hw & Hq & He)%safe_char_plain Hs].
  rewrite sapp_cons. cbn [lex]. rewrite Hw, Hq, He, IH by done. unfold snoc. by rewrite sapp_assoc.
Qed.

Lemma lex_blank_safe s rest :
  s <> "" -> sall safe_char s = true -> lex Blank "" false (s +:+ rest) = lex Word s false rest.
Proof.
  destruct s as [|c s]; [done|]. intros _. cbn [sall]. rewrite andb_true_iff.
  intros [(Hw & Hq & He)%safe_char_plain Hs].
  rewrite sapp_cons. cbn [lex]. rewrite Hw, He, Hq. by rewrite lex_word_safe.
Qed.

Lemma replace_cons_eq c new s :
  replace (String c "") new (String c s) = new +:+ replace (String c "") new s.
Proof.
  unfold replace. cbn [replace_go]. cbn [String.prefix]. destruct (ascii_dec c c); [|done].
  rewrite (proj2 (prefix_spec "" s)) by by exists s. done.
Qed.
Lemma replace_cons_ne c d new s :
  c <> d -> replace (String c "") new (String d s) = String d (replace (String c "") new s).
Proof. intros H. unfold replace. cbn [replace_go]. cbn [String.prefix]. by destruct (ascii_dec c d). Qed.

(** Between single quotes every character stands for itself. *)
Lemma lex_quoted_body s : forall tok rest,
  lex (Quoted squote) tok true (replace sq quoted_squote s +:+ String squote rest)
  = lex Word (tok +:+ s) true rest.
Proof.
  induction s as [|c s IH]; intros tok rest; [by rewrite sapp_nil_r|].
  destruct (Ascii.eqb_spec squote c) as [<-|Hne].
  - unfold sq at 1. rewrite replace_cons_eq.
    transitivity (lex (Quoted squote) (snoc tok squote) true
                    (replace sq quoted_squote s +:+ String squote rest)); [reflexivity|].
    rewrite IH. unfold snoc. by rewrite sapp_assoc.
  - unfold sq at 1. rewrite replace_cons_ne by done. rewrite sapp_cons. cbn [lex].
    rewrite (proj2 (Ascii.eqb_neq c squote)) by congruence.
    change (Ascii.eqb squote dquote_char) with false. rewrite andb_false_r.
    fold sq. rewrite IH. unfold snoc. by rewrite sapp_assoc.
Qed.

Lemma quote_word s : exists q, (q = true \/ s <> "") /\
  forall rest, lex Blank "" false (quote s +:+ rest) = lex Word s q rest.
Proof.
  unfold quote. destruct (String.eqb_spec s "") as [->|Hne]; [exists true; by split; [left|]|].
  destruct (sall safe_char s) eqn:Hs.
  - exists false. split; [by right|]. intros rest. by apply lex_blank_safe.
  - exists true. split; [by left|]. intros rest. rewrite !sapp_assoc. unfold sq at 1 3.
    rewrite !sapp_cons, !sapp_nil_l. cbn [lex].
    change (is_ws squote) with false. change (Ascii.eqb squote escape_char) with false.
    change (is_quote squote) with true. cbn match.
    transitivity (lex (Quoted squote) "" true (replace sq quoted_squote s +:+ String squote rest)).
    { destruct s as [|c s]; [done|]. destruct (Ascii.eqb_spec squote c) as [<-|Hc].
      - unfold sq. rewrite replace_cons_eq. reflexivity.
      - unfold sq. rewrite replace_cons_ne by done. rewrite !sapp_cons. cbn [lex].
        rewrite (proj2 (Ascii.eqb_neq c squote)) by congruence.
        change (Ascii.eqb squote dquote_char) with false. by rewrite andb_false_r. }
    by rewrite lex_quoted_body.
Qed.

(** [shlex.split(shlex.join(l)) == l] for every list of arguments, empty
    arguments, quotes and line breaks included. *)
Lemma shlex_split_join (l : list string) : shlex_split (shlex_join l) = Ok l.
Proof.
  unfold shlex_split, shlex_join. induction l as [|s l IH]; [done|]. cbn [map].
  destruct (quote_word s) as (q & Hq & Hlex).
  assert (q || negb (String.eqb s "") = true) as Hemit.
  { destruct Hq as [->|Hq]; [done|]. apply String.eqb_neq in Hq. by rewrite Hq, orb_true_r. }
  destruct l as [|t l].
  - cbn [map join]. rewrite <-(sapp_nil_r (quote s)), Hlex. cbn [lex]. by rewrite Hemit.
  - rewrite join_cons by done. rewrite Hlex, sapp_cons, sapp_nil_l.
    cbn [lex]. change (is_ws " "%char) with true. cbn match. rewrite Hemit.
    by rewrite IH.
Qed.
