(* ===== verification/ShellTools.v ===== *)
(** * Shell tools

    Models [openhands/forgepilot/tool_registry/shell_tools.py]: rendering a
    command from its spec and parameters, the permission checks (through a
    guard, or inline when there is none), running the command, and the call
    record of each outcome.  [subprocess.run] is a parameter acting on the
    world; the state is the guard's: registry, world and violations. *)

From S2P Require Import Prelude PyStr PyDict PyFloat PyVal PyPath Shlex ToolRegistry Guard.

Record ShellToolSpec := {
  sp_tool_id : string;
  sp_display_name : string;
  command : string;
  args : list string;
  sp_cwd : option string;
  timeout_seconds : Z;
}.

(** The field constraints pydantic enforces ([ge=1, le=1800]). *)
Definition valid_spec (s : ShellToolSpec) : bool :=
  (1 <=? timeout_seconds s) && (timeout_seconds s <=? 1800).

Record ShellToolResult := {
  exit_code : Z;
  stdout : string;
  stderr : string;
  command_line : string;
}.

Definition build_command (spec : ShellToolSpec) (parameters : dict string pyval) : list string :=
  command spec :: map (fun arg => render_template arg parameters) (args spec).

Definition summarize_result (r : ShellToolResult) : string :=
  join nl ([ "command: " +:+ command_line r; "exit_code: " +:+ str_of_Z (exit_code r) ]
    ++ (if String.eqb (stdout r) "" then [] else ["stdout: " +:+ strip (stdout r)])
    ++ (if String.eqb (stderr r) "" then [] else ["stderr: " +:+ strip (stderr r)])).

(** What [subprocess.run] does: the process ends, it times out (with the text
    captured so far, if it is text), or it cannot be started. *)
Inductive RunOutcome :=
  | Completed (returncode : Z) (out err : string)
  | TimeoutExpired (out err : option string)
  | RunRaises (cls msg : string).

(** [detail if not stderr] *)
Definition timeout_stderr (err : option string) (detail : string) : string :=
  match err with
  | Some s => if String.eqb s "" then detail else s
  | None => detail
  end.

Section shell.
Context {W : Type}.

Definition Runner : Type := list string -> string -> Z -> W -> RunOutcome * W.
Notation St := ((ToolRegistry * W) * list PermissionViolation)%type.

(** Record a call and return it with the result. *)
Definition finish (env : Env) (spec : ShellToolSpec) (parameters : dict string pyval) (tr : option string)
    (dur : Z) (result : ShellToolResult) (err : option string) : M St (ShellToolResult * ToolCallRecord) :=
  record <- onL (onL (record_call env (sp_tool_id spec) (PMap parameters) (summarize_result result) dur err tr)) ;;
  retM (result, record).

Definition refuse (env : Env) (spec : ShellToolSpec) (parameters : dict string pyval) (tr : option string)
    (cl : string) (stderr_text err : string) : M St (ShellToolResult * ToolCallRecord) :=
  finish env spec parameters tr 0
    {| exit_code := 126; stdout := ""; stderr := stderr_text; command_line := cl |} (Some err).

(** The checks: the entry, or the refusal to answer with. *)
Definition authorise (fs : FS) (spec : ShellToolSpec) (guard : option ToolAccessGuard)
    : M St (ToolRegistryEntry + string * string) :=
  match guard with
  | Some g =>
      let target := match sp_cwd spec with
                    | Some c => if String.eqb c "" then None else Some c
                    | None => None
                    end in
      allowed <- check fs g (sp_tool_id spec) EXECUTE target ;;
      if negb allowed
      then
        vs <- onR getM ;;
        detail <- (match vs with [] => retM "denied" | _ => latest_detail end) ;;
        retM (inr (detail, detail))
      else entry <- onL (onL (get_entry (sp_tool_id spec))) ;; retM (inl entry)
  | None =>
      found <- try_key (e <- onL (onL (get_entry (sp_tool_id spec))) ;; retM (Some e)) (retM None) ;;
      match found with
      | None => let d := "unknown tool: " +:+ sp_tool_id spec in retM (inr (d, d))
      | Some entry =>
          if negb (enabled entry) then retM (inr ("tool is disabled", "tool is disabled"))
          else if negb (bool_decide (permission entry = EXECUTE) || bool_decide (permission entry = CONFIRM))
          then retM (inr ("permission " +:+ permission_value (permission entry) +:+
                          " does not allow shell execution", "permission denied"))
          else retM (inl entry)
      end
  end.

(** [str(cwd)]: the spec's, else the workspace root, else the process's. *)
Definition run_cwd (fs : FS) (spec : ShellToolSpec) (workspace_root : option PurePath) : string :=
  let fallback := match workspace_root with Some p => path_str p | None => abs_str (cwd fs) end in
  match sp_cwd spec with
  | Some c => if String.eqb c "" then fallback else path_str (mk_path c)
  | None => fallback
  end.

Definition execute_shell_tool (run : Runner) (fs : FS) (env : Env) (spec : ShellToolSpec)
    (parameters : option (dict string pyval)) (tr : option string) (workspace_root : option PurePath)
    (confirmed : bool) (guard : option ToolAccessGuard) : M St (ShellToolResult * ToolCallRecord) :=
  let parameters := default [] parameters in
  let argv := build_command spec parameters in
  let cl := shlex_join argv in
  auth <- authorise fs spec guard ;;
  match auth with
  | inr (stderr_text, err) => refuse env spec parameters tr cl stderr_text err
  | inl entry =>
      if bool_decide (permission entry = CONFIRM) && negb confirmed
      then refuse env spec parameters tr cl "confirmation is required for this tool" "confirmation required"
      else
        o <- onL (onR (fun w => let '(o, w') := run argv (run_cwd fs spec workspace_root) (timeout_seconds spec) w
                                in (Ok o, w'))) ;;
        match o with
        | RunRaises cls msg => raiseM (OtherError cls msg)
        | TimeoutExpired out err =>
            let detail := "timed out after " +:+ str_of_Z (timeout_seconds spec) +:+ "s" in
            finish env spec parameters tr (elapsed_ms env)
              {| exit_code := 124; stdout := default "" out; stderr := timeout_stderr err detail;
                 command_line := cl |} (Some detail)
        | Completed rc out err =>
            finish env spec parameters tr (elapsed_ms env)
              {| exit_code := rc; stdout := out; stderr := err; command_line := cl |}
              (if rc =? 0 then None else Some ("exit code " +:+ str_of_Z rc))
        end
  end.
End shell.
Arguments Runner : clear implicits.

(** ** When the command runs *)

Section shell_props.
Context {W : Type}.
Notation St := ((ToolRegistry * W) * list PermissionViolation)%type.

(** The tool may run shell commands: it exists, is enabled, has an executing
    permission, and is confirmed if it must be. *)
Definition shell_allowed (r : ToolRegistry) (spec : ShellToolSpec) (confirmed : bool) : Prop :=
  exists e, dget (entries r) (sp_tool_id spec) = Some e /\ enabled e = true /\
    (permission e = EXECUTE \/ permission e = CONFIRM /\ confirmed = true).

(** A returned pair of result and record: the record is appended to the call
    records, its error is empty exactly for exit code 0, and the command line
    reads back as the argument vector. *)
Definition shell_recorded (argv : list string) (spec : ShellToolSpec) (r : ToolRegistry)
    (o : res (ShellToolResult * ToolCallRecord)) (r' : ToolRegistry) : Prop :=
  match o with
  | Ok (result, c) =>
      r' = with_records r (call_records r ++ [c]) /\ r_tool_id c = sp_tool_id spec /\
      (error c = None <-> exit_code result = 0) /\ shlex_split (command_line result) = Ok argv
  | Raise _ => r' = r
  end.

Lemma finish_spec env spec ps tr dur result err argv (r : ToolRegistry) (w : W) vs :
  (err = None <-> exit_code result = 0) -> command_line result = shlex_join argv ->
  exists o r', finish env spec ps tr dur result err ((r, w), vs) = (o, ((r', w), vs)) /\
    shell_recorded argv spec r o r' /\ (forall res c, o = Ok (res, c) -> exit_code res = exit_code result).
Proof.
  intros He Hcl. unfold finish. unfold_monad. rewrite record_call_spec.
  destruct (params_text (PMap ps)) as [t|e]; cbn [fst snd]; eexists _, _; (split; [done|]).
  - split; [|by intros ? ? [= <- <-]]. split_and!; try done. by rewrite Hcl, shlex_split_join.
  - split; [done|]. by intros ? ?.
Qed.

Lemma authorise_spec fs spec guard (st : St) :
  match authorise fs spec guard st with
  | (Ok (inl e), st') => st'.1 = st.1 /\ dget (entries st.1.1) (sp_tool_id spec) = Some e /\
                         enabled e = true /\ (permission e = EXECUTE \/ permission e = CONFIRM)
  | (Ok (inr _), st') | (Raise _, st') => st'.1 = st.1
  end.
Proof.
  destruct st as [[r w] vs]. unfold authorise. destruct guard as [g|].
  - unfold bindM. set (target := match sp_cwd spec with Some c => _ | None => _ end). clearbody target.
    pose proof (check_shape fs g (sp_tool_id spec) EXECUTE target (r, w, vs)) as Hc.
    destruct (check _ _ _ _ _ _) as [[[]|ex] st']; cbn [negb].
    + destruct Hc as (-> & e & He & Hen & Hl). unfold_monad. rewrite get_entry_spec. cbn [fst snd] in *.
      rewrite He. cbn [fst snd]. split_and!; try done. by destruct (permission e); simpl in Hl; auto; lia.
    + destruct Hc as (v & [= ->] & _). unfold_monad.
      destruct (vs ++ [v]) eqn:Ev; [done|]. rewrite <-Ev. by rewrite latest_detail_last.
    + by subst.
  - unfold try_key. unfold_monad. rewrite get_entry_spec.
    destruct (dget (entries r) (sp_tool_id spec)) as [e|] eqn:E; cbn [fst snd]; [|done].
    destruct (enabled e) eqn:En; cbn [negb]; [|done].
    repeat case_bool_decide; cbn; by eauto 6.
Qed.

(** Whatever the guard, the parameters and the outcome of the process,
    [execute_shell_tool] runs the command at most once, with the rendered
    arguments, and only for a registered, enabled tool with an executing
    permission that is confirmed if it requires confirmation; otherwise the
    world is untouched and a result has exit code 126.  Every result comes with
    exactly one call record, appended to the registry, whose error is empty
    exactly when the exit code is 0, and its command line splits back into the
    argument vector that was (or would have been) run. *)
Lemma execute_shell_tool_gated (run : Runner W) (fs : FS) (env : Env) (spec : ShellToolSpec)
    (parameters : option (dict string pyval)) (tr : option string) (workspace_root : option PurePath)
    (confirmed : bool) (guard : option ToolAccessGuard)
    (r : ToolRegistry) (w : W) (vs : list PermissionViolation) :
  let argv := build_command spec (default [] parameters) in
  exists o r' w' vs',
    execute_shell_tool run fs env spec parameters tr workspace_root confirmed guard ((r, w), vs)
      = (o, ((r', w'), vs')) /\
    shell_recorded argv spec r o r' /\
    ((w' = w /\ (forall res c, o = Ok (res, c) -> exit_code res = 126)) \/
     (shell_allowed r spec confirmed /\
      w' = (run argv (run_cwd fs spec workspace_root) (timeout_seconds spec) w).2)).
Proof.
  intros argv. unfold execute_shell_tool. fold argv. unfold bindM at 1.
  pose proof (authorise_spec fs spec guard ((r, w), vs)) as Ha.
  destruct (authorise fs spec guard ((r, w), vs)) as [[[e|[d err]]|ex] [st vs']]; cbn [fst snd] in *.
  - destruct Ha as (-> & He & Hen & Hp).
    destruct (bool_decide (permission e = CONFIRM) && negb confirmed) eqn:Hc.
    + edestruct (finish_spec env spec (default [] parameters) tr 0) as (o & r' & Hf & Hr & Hx);
        [| |unfold refuse; rewrite Hf; exists o, r', w, vs'; split_and!; [done|exact Hr|left; by split]]; done.
    + assert (shell_allowed r spec confirmed) as Hall.
      { exists e. split_and!; try done. destruct Hp as [?|Hp]; [by left|right]. split; [done|].
        rewrite bool_decide_eq_true_2 in Hc by done. by destruct confirmed. }
      unfold bindM, onL, onR. cbn [fst snd].
      destruct (run argv _ _ w) as [[rc out err|out err|cls msg] w'] eqn:Er; cbn [fst snd].
      * edestruct (finish_spec env spec (default [] parameters) tr (elapsed_ms env)) as (o & r' & Hf & Hr & _);
          [| |rewrite Hf; exists o, r', w', vs'; split_and!; [done|exact Hr|right; by split]]; [|done].
        simpl. destruct (Z.eqb_spec rc 0); by split.
      * edestruct (finish_spec env spec (default [] parameters) tr (elapsed_ms env)) as (o & r' & Hf & Hr & _);
          [| |rewrite Hf; exists o, r', w', vs'; split_and!; [done|exact Hr|right; by split]]; done.
      * eexists _, _, _, _. split; [done|]. split; [done|]. right. by split.
  - destruct st as [r0 w0]. injection Ha as -> ->.
    edestruct (finish_spec env spec (default [] parameters) tr 0) as (o & r' & Hf & Hr & Hx);
      [| |unfold refuse; rewrite Hf; exists o, r', w, vs'; split_and!; [done|exact Hr|left; by split]]; done.
  - destruct st as [r0 w0]. injection Ha as -> ->. eexists _, _, _, _. split; [done|]. split; [done|]. by left.
Qed.
End shell_props.
