(* ===== verification/PyRegex.v ===== *)
(** * Regular expressions: the part of [re] the program uses

    Syntax trees with character sets, [\b], [^], [$], concatenation, ordered
    choice, greedy and lazy repetition and capturing groups; a parser for the concrete syntax of
    the patterns in the source; the backtracking matcher, as the list of all
    matches in the order in which [re] tries them; [match], [search] and [sub].
    [search_spec] relates the matcher to the usual relation between an
    expression and the text it matches; the lemmas on [leads] compute the first
    match on a text that is not closed. *)

From S2P Require Import Prelude PyStr.
From Stdlib Require Import Ascii.

(** ** Syntax *)

Inductive re :=
  | Eps
  | Set_ (p : ascii -> bool)
  | WordB
  | Bol
  | Eol
  | Seq (r s : re)
  | Alt (r s : re)
  | Star (greedy : bool) (r : re)
  | Grp (n : nat) (r : re).

Definition Plus (greedy : bool) (r : re) : re := Seq r (Star greedy r).
Definition Opt (r : re) : re := Alt r Eps.
(** A literal character, with or without [re.IGNORECASE]. *)
Definition lit (ignorecase : bool) (c : ascii) : re :=
  Set_ (fun d => if ignorecase then Ascii.eqb (lower_char c) (lower_char d) else Ascii.eqb c d).

(** [.]: any character but the line feed. *)
Definition Dot : re := Set_ (fun c => negb (ord c =? 10)).
Definition times (n : nat) (r : re) : re := Nat.iter n (Seq r) Eps.

(** *** Concrete syntax *)

Definition is_c (k : Z) (c : ascii) : bool := ord c =? k.

(** The set an escape such as [\s] stands for. *)
Definition escape_set (c : ascii) : option (ascii -> bool) :=
  if is_c 115 c then Some is_space          (* \s *)
  else if is_c 119 c then Some is_word      (* \w *)
  else if is_c 100 c then Some is_decimal   (* \d *)
  else None.

(** The items of a character class up to its closing bracket: escapes,
    ranges and single characters. *)
Fixpoint class_items (fuel : nat) (s : string) : (ascii -> bool) * string :=
  match fuel with
  | O => (fun _ => false, s)
  | S f =>
      match s with
      | EmptyString => (fun _ => false, "")
      | String c s1 =>
          if is_c 93 c then (fun _ => false, s1)
          else
            let '(lo, s2) :=
              if is_c 92 c then match s1 with String d s2 => (inr d, s2) | _ => (inl c, s1) end
              else (inl c, s1) in
            let item (p : ascii -> bool) (rest : string) :=
              let '(q, out) := class_items f rest in (fun x => p x || q x, out) in
            match lo with
            | inr d => match escape_set d with
                       | Some p => item p s2
                       | None => item (Ascii.eqb d) s2
                       end
            | inl d =>
                match s2 with
                | String m (String hi s3) =>
                    if is_c 45 m && negb (is_c 93 hi)
                    then item (fun x => (ord d <=? ord x) && (ord x <=? ord hi)) s3
                    else item (Ascii.eqb d) s2
                | _ => item (Ascii.eqb d) s2
                end
            end
      end
  end.

Definition char_class (s : string) : re * string :=
  match s with
  | String c s' =>
      if is_c 94 c
      then let '(p, out) := class_items (slen s) s' in (Set_ (fun x => negb (p x)), out)
      else let '(p, out) := class_items (slen s) s in (Set_ p, out)
  | _ => (Set_ (fun _ => false), "")
  end.

(** The count of [{n}], after the opening brace. *)
Fixpoint count_brace (n : nat) (s : string) : option (nat * string) :=
  match s with
  | String c s' =>
      if is_c 125 c then Some (n, s')
      else if is_decimal c then count_brace (10 * n + Z.to_nat (ord c - 48)) s' else None
  | EmptyString => None
  end.

(** [parse_alt] reads alternatives up to a closing parenthesis or the end,
    and returns the number of groups opened so far. *)
Fixpoint parse_alt (fuel : nat) (i : bool) (n : nat) (s : string) : re * nat * string :=
  match fuel with
  | O => (Eps, n, s)
  | S f =>
      let fix seq (f' : nat) (acc : re) (n : nat) (s : string) : re * nat * string :=
        match f' with
        | O => (acc, n, s)
        | S f'' =>
            match s with
            | EmptyString => (acc, n, s)
            | String c s1 =>
                if is_c 41 c || is_c 124 c then (acc, n, s)
                else
                  let '(a, n1, s2) :=
                    if is_c 40 c && startswith "?:" s1
                    then let '(r, n2, s3) := parse_alt f i n (sdrop 2 s1) in
                         (r, n2, String.substring 1 (slen s3) s3)
                    else if is_c 40 c
                    then let '(r, n2, s3) := parse_alt f i (S n) s1 in
                         (Grp (S n) r, n2, String.substring 1 (slen s3) s3)
                    else if is_c 91 c then let '(r, s3) := char_class s1 in (r, n, s3)
                    else if is_c 92 c
                    then match s1 with
                         | String d s3 =>
                             if is_c 98 d then (WordB, n, s3)
                             else match escape_set d with
                                  | Some p => (Set_ p, n, s3)
                                  | None => (lit i d, n, s3)
                                  end
                         | _ => (Eps, n, s1)
                         end
                    else if is_c 94 c then (Bol, n, s1)
                    else if is_c 36 c then (Eol, n, s1)
                    else if is_c 46 c then (Dot, n, s1)
                    else (lit i c, n, s1) in
                  match s2 with
                  | String q s3 =>
                      let lazy := match s3 with String l _ => is_c 63 l | _ => false end in
                      let s4 := if lazy then sdrop 1 s3 else s3 in
                      if is_c 43 q then seq f'' (Seq acc (Plus (negb lazy) a)) n1 s4
                      else if is_c 42 q then seq f'' (Seq acc (Star (negb lazy) a)) n1 s4
                      else if is_c 63 q then seq f'' (Seq acc (Opt a)) n1 s3
                      else if is_c 123 q
                      then match count_brace 0 s3 with
                           | Some (k, s4) => seq f'' (Seq acc (times k a)) n1 s4
                           | None => seq f'' (Seq acc a) n1 s2
                           end
                      else seq f'' (Seq acc a) n1 s2
                  | _ => seq f'' (Seq acc a) n1 s2
                  end
            end
        end in
      let '(r, n1, s1) := seq fuel Eps n s in
      match s1 with
      | String c s2 =>
          if is_c 124 c then let '(r', n2, s3) := parse_alt f i n1 s2 in (Alt r r', n2, s3)
          else (r, n1, s1)
      | _ => (r, n1, s1)
      end
  end.

(** [re.compile(pattern, flags)] for the constructs above; a leading [(?i)]
    sets the flag. *)
Definition compile (ignorecase : bool) (pattern : string) : re :=
  let '(i, body) :=
    if startswith "(?i)" pattern then (true, sdrop 4 pattern) else (ignorecase, pattern) in
  (parse_alt (S (slen body)) i 0 body).1.1.

(** ** Matching *)

(** A position: the character before it, and the text after it. *)
Definition pos : Type := option ascii * string.
Definition caps : Type := list (nat * string).

Definition word_at (o : option ascii) : bool := match o with Some c => is_word c | None => false end.
Definition str_head (s : string) : option ascii := match s with String c _ => Some c | _ => None end.
Definition at_boundary (p : pos) : bool := negb (Bool.eqb (word_at p.1) (word_at (str_head p.2))).

(** The text between two positions of the same string. *)
Definition between (p q : pos) : string := stake (slen p.2 - slen q.2) p.2.

(** Greedy repetition tries more iterations first, lazy repetition fewer; an
    iteration that consumes nothing is not repeated. *)
Fixpoint star_match (greedy : bool) (m : pos * caps -> list (pos * caps)) (fuel : nat) (st : pos * caps)
    : list (pos * caps) :=
  match fuel with
  | O => [st]
  | S f =>
      let more :=
        flat_map (fun st' => if (slen st'.1.2 <? slen st.1.2)%nat then star_match greedy m f st' else []) (m st) in
      if greedy then more ++ [st] else st :: more
  end.

(** [$]: at the end, or before a final line feed. *)
Definition at_end (s : string) : bool :=
  match s with EmptyString => true | String c EmptyString => ord c =? 10 | _ => false end.

Fixpoint re_match (r : re) (st : pos * caps) : list (pos * caps) :=
  match r with
  | Eps => [st]
  | Set_ p =>
      match st.1.2 with
      | String c s => if p c then [((Some c, s), st.2)] else []
      | EmptyString => []
      end
  | WordB => if at_boundary st.1 then [st] else []
  | Bol => match st.1.1 with None => [st] | Some _ => [] end
  | Eol => if at_end st.1.2 then [st] else []
  | Seq r1 r2 => flat_map (re_match r2) (re_match r1 st)
  | Alt r1 r2 => re_match r1 st ++ re_match r2 st
  | Star g r1 => star_match g (re_match r1) (slen st.1.2) st
  | Grp n r1 => map (fun st' => (st'.1, (n, between st.1 st'.1) :: st'.2)) (re_match r1 st)
  end.

(** [re.match(pattern, s)]: the captures of the first match at the start. *)
Definition match_ (r : re) (s : string) : option caps :=
  match re_match r ((None, s), []) with st :: _ => Some st.2 | [] => None end.

Fixpoint search_from (r : re) (prev : option ascii) (s : string) : bool :=
  match re_match r ((prev, s), []) with
  | _ :: _ => true
  | [] => match s with
          | String c s' => search_from r (Some c) s'
          | EmptyString => false
          end
  end.
(** [re.search(pattern, s) is not None] *)
Definition re_search (r : re) (s : string) : bool := search_from r None s.

(** [group(n)] *)
Definition group (n : nat) (cs : caps) : string :=
  match list_find (fun kv => kv.1 = n) cs with Some (_, kv) => kv.2 | None => "" end.

(** [re.sub(repl, s)] for an expression that never matches the empty string:
    each leftmost match is replaced by [repl] of its groups, and the search
    goes on after it.  [skip] counts the characters of the match still to be
    dropped. *)
Fixpoint sub_from (r : re) (repl : caps -> string) (prev : option ascii) (skip : nat) (s : string) : string :=
  match s with
  | EmptyString => ""
  | String c s' =>
      match skip with
      | S k => sub_from r repl (Some c) k s'
      | O =>
          match re_match r ((prev, s), []) with
          | (q, cs) :: _ =>
              match (slen s - slen q.2)%nat with
              | S k => repl cs +:+ sub_from r repl (Some c) k s'
              | O => String c (sub_from r repl (Some c) 0 s')
              end
          | [] => String c (sub_from r repl (Some c) 0 s')
          end
      end
  end.
Definition re_sub (r : re) (repl : caps -> string) (s : string) : string := sub_from r repl None 0 s.

(** ** The relation between an expression and the text it matches *)

Inductive matches : re -> pos -> pos -> Prop :=
  | m_eps p : matches Eps p p
  | m_set (f : ascii -> bool) prev c s : f c = true -> matches (Set_ f) (prev, String c s) (Some c, s)
  | m_wordb p : at_boundary p = true -> matches WordB p p
  | m_bol s : matches Bol (None, s) (None, s)
  | m_eol p : at_end p.2 = true -> matches Eol p p
  | m_seq r1 r2 p q t : matches r1 p q -> matches r2 q t -> matches (Seq r1 r2) p t
  | m_alt_l r1 r2 p q : matches r1 p q -> matches (Alt r1 r2) p q
  | m_alt_r r1 r2 p q : matches r2 p q -> matches (Alt r1 r2) p q
  | m_star_nil g r p : matches (Star g r) p p
  | m_star_cons g r p q t : matches r p q -> matches (Star g r) q t -> matches (Star g r) p t
  | m_grp n r p q : matches r p q -> matches (Grp n r) p q.

(** A position that follows another one in the same text. *)
Definition follows (p q : pos) : Prop :=
  (slen q.2 < slen p.2)%nat \/ p = q.

Lemma follows_trans p q t : follows p q -> follows q t -> follows p t.
Proof. unfold follows. intros [?| ->] [?| <-]; eauto. left. lia. Qed.

Lemma matches_follows r p q : matches r p q -> follows p q.
Proof.
  induction 1; eauto using follows_trans; try by right. left. simpl. lia.
Qed.

Lemma elem_of_flat_map {A B} (f : A -> list B) l y : y ∈ flat_map f l <-> exists x, x ∈ l /\ y ∈ f x.
Proof.
  rewrite list_elem_of_In, in_flat_map. split; intros (x & ? & ?); exists x; by rewrite !list_elem_of_In in *.
Qed.

Lemma star_match_unfold g m f st st' :
  st' ∈ star_match g m (S f) st <->
  st' = st \/ exists x, x ∈ m st /\ (slen x.1.2 < slen st.1.2)%nat /\ st' ∈ star_match g m f x.
Proof.
  assert (st' ∈ flat_map (fun x => if (slen x.1.2 <? slen st.1.2)%nat then star_match g m f x else []) (m st) <->
          exists x, x ∈ m st /\ (slen x.1.2 < slen st.1.2)%nat /\ st' ∈ star_match g m f x) as Hm.
  { rewrite elem_of_flat_map. split.
    - intros (x & Hx & H). destruct (Nat.ltb_spec (slen x.1.2) (slen st.1.2)); [eauto|by apply elem_of_nil in H].
    - intros (x & Hx & Hl & H). exists x. split; [done|]. by rewrite (proj2 (Nat.ltb_lt _ _) Hl). }
  cbn [star_match]. cbv zeta. destruct g; [rewrite elem_of_app, list_elem_of_singleton|rewrite elem_of_cons];
    rewrite Hm; tauto.
Qed.

Lemma star_match_sound g r m :
  (forall st st', st' ∈ m st -> matches r st.1 st'.1) ->
  forall fuel st st', st' ∈ star_match g m fuel st -> matches (Star g r) st.1 st'.1.
Proof.
  intros Hm. induction fuel as [|f IH]; intros st st'.
  - cbn [star_match]. rewrite list_elem_of_singleton. intros ->. constructor.
  - rewrite star_match_unfold. intros [->|(x & Hx & _ & Hin)]; [constructor|].
    econstructor; [by apply Hm|by apply IH].
Qed.

Lemma re_match_sound r st st' : st' ∈ re_match r st -> matches r st.1 st'.1.
Proof.
  revert st st'; induction r as [|p| | | |r1 IH1 r2 IH2|r1 IH1 r2 IH2|g r IH|n r IH]; intros st st'; cbn [re_match].
  - rewrite list_elem_of_singleton. intros ->. constructor.
  - destruct st as [[prev s] cs]. cbn [fst snd]. destruct s as [|c s]; [by intros ?%elem_of_nil|].
    destruct (p c) eqn:E; [|by intros ?%elem_of_nil]. rewrite list_elem_of_singleton. intros ->. by constructor.
  - destruct (at_boundary st.1) eqn:E; [|by intros ?%elem_of_nil]. rewrite list_elem_of_singleton.
    intros ->. by constructor.
  - destruct st as [[[c|] s] cs]; cbn [fst snd]; [by intros ?%elem_of_nil|].
    rewrite list_elem_of_singleton. intros ->. constructor.
  - destruct (at_end st.1.2) eqn:E; [|by intros ?%elem_of_nil]. rewrite list_elem_of_singleton.
    intros ->. by constructor.
  - rewrite elem_of_flat_map. intros (x & Hx & Hy). econstructor; eauto.
  - rewrite elem_of_app. intros [H|H]; [apply m_alt_l|apply m_alt_r]; eauto.
  - by apply star_match_sound.
  - intros H%list_elem_of_In%in_map_iff. destruct H as (x & <- & Hx%list_elem_of_In). constructor. by apply (IH st x).
Qed.

Lemma star_match_complete g r m :
  (forall p q, matches r p q -> forall cs, exists cs', (q, cs') ∈ m (p, cs)) ->
  forall p q, matches (Star g r) p q -> forall fuel cs, (slen p.2 <= fuel)%nat ->
  exists cs', (q, cs') ∈ star_match g m fuel (p, cs).
Proof.
  intros Hm p q H. remember (Star g r) as rs eqn:Er. revert Er.
  induction H as [| | | | | | | |g' r' p|g' r' p q t H1 _ H2 IH|]; try done; intros [= -> ->] fuel cs Hf.
  - exists cs. destruct fuel; [by left|]. apply star_match_unfold. by left.
  - destruct (matches_follows _ _ _ H1) as [Hlt| ->]; [|by apply IH].
    destruct fuel as [|f]; [lia|]. destruct (Hm _ _ H1 cs) as (c1 & Hc1).
    destruct (IH eq_refl f c1 ltac:(lia)) as (c2 & Hc2). exists c2.
    apply star_match_unfold. right. exists (q, c1). auto.
Qed.

Lemma re_match_complete r p q cs : matches r p q -> exists cs', (q, cs') ∈ re_match r (p, cs).
Proof.
  revert p q cs; induction r as [|f| | | |r1 IH1 r2 IH2|r1 IH1 r2 IH2|g r IH|n r IH]; intros p q cs H; cbn [re_match];
    [inversion H; subst; cbn [fst snd]..| |].
  - exists cs. by left.
  - exists cs. rewrite (ltac:(eassumption) : f _ = true). by left.
  - exists cs. rewrite (ltac:(eassumption) : at_boundary _ = true). by left.
  - exists cs. by left.
  - exists cs. rewrite (ltac:(eassumption) : at_end _ = true). by left.
  - edestruct (IH1 _ _ cs ltac:(eassumption)) as (c1 & Hc1). edestruct (IH2 _ _ c1 ltac:(eassumption)) as (c2 & Hc2).
    exists c2. apply elem_of_flat_map. eauto.
  - edestruct (IH1 _ _ cs ltac:(eassumption)) as (c1 & Hc1). exists c1. apply elem_of_app. auto.
  - edestruct (IH2 _ _ cs ltac:(eassumption)) as (c1 & Hc1). exists c1. apply elem_of_app. auto.
  - eapply star_match_complete; eauto.
  - inversion H; subst. edestruct (IH _ _ cs ltac:(eassumption)) as (c1 & Hc1).
    eexists. apply list_elem_of_In, in_map_iff. exists (q, c1). split; [done|by apply list_elem_of_In].
Qed.

Inductive suffix_at : option ascii -> string -> pos -> Prop :=
  | here prev s : suffix_at prev s (prev, s)
  | later prev c s p : suffix_at (Some c) s p -> suffix_at prev (String c s) p.

Lemma re_match_nil r p cs : re_match r (p, cs) = [] <-> forall q, ~ matches r p q.
Proof.
  split.
  - intros E q Hq. destruct (re_match_complete r p q cs Hq) as (cs' & H).
    by eapply not_elem_of_nil, (eq_ind _ (fun l => (q, cs') ∈ l) H _ E).
  - intros H. destruct (re_match r (p, cs)) as [|[q cs'] l] eqn:E; [done|]. exfalso.
    apply (H q). apply (re_match_sound r (p, cs) (q, cs')). rewrite E. by left.
Qed.

(** [search] succeeds exactly when the expression matches somewhere. *)
Lemma search_from_spec r prev s :
  search_from r prev s = true <-> exists p q, suffix_at prev s p /\ matches r p q.
Proof.
  assert (forall prev s, (exists q, matches r (prev, s) q) \/ re_match r ((prev, s), []) = []) as Hdec.
  { intros prev' s'. destruct (re_match r ((prev', s'), [])) as [|[q cs] l] eqn:E; [by right|left].
    exists q. apply (re_match_sound r ((prev', s'), []) (q, cs)). rewrite E. by left. }
  revert prev; induction s as [|c s IH]; intros prev; cbn [search_from].
  - destruct (Hdec prev "") as [(q & Hq)|E].
    + destruct (re_match r _) eqn:E; [by eapply re_match_nil in E|]. split; [|done].
      intros _. exists (prev, ""), q. split; [constructor|done].
    + pose proof E as Hn. rewrite re_match_nil in Hn. rewrite E. split; [done|].
      intros (p & q & Hp & Hq). inversion Hp; subst. by apply Hn in Hq.
  - destruct (Hdec prev (String c s)) as [(q & Hq)|E].
    + destruct (re_match r _) eqn:E; [by eapply re_match_nil in E|]. split; [|done].
      intros _. exists (prev, String c s), q. split; [constructor|done].
    + pose proof E as Hn. rewrite re_match_nil in Hn. rewrite E, IH.
      split; intros (p & q & Hp & Hq); [exists p, q; split; [by constructor|done]|].
      inversion Hp; subst; [by apply Hn in Hq|by eauto].
Qed.

Lemma search_spec r s :
  re_search r s = true <-> exists p q, suffix_at None s p /\ matches r p q.
Proof. apply search_from_spec. Qed.

(** Text in which no character can start a match is left alone. *)
Lemma sub_nomatch r repl prev s :
  (forall p q, suffix_at prev s p -> ~ matches r p q) -> sub_from r repl prev 0 s = s.
Proof.
  revert prev; induction s as [|c s IH]; intros prev H; [done|]. cbn [sub_from].
  assert (re_match r ((prev, String c s), []) = []) as ->
    by (apply re_match_nil; intros q; apply H; constructor).
  rewrite IH; [done|]. intros p q Hp. apply H. by constructor.
Qed.

Lemma re_sub_nomatch r repl s : re_search r s = false -> re_sub r repl s = s.
Proof.
  intros H. apply sub_nomatch. intros p q Hp Hq. apply not_true_iff_false in H. apply H, search_spec. eauto.
Qed.

(** ** Computing the first match

    [leads r st st']: the first match that the matcher finds from [st] ends in
    [st'].  When the first choice of every part succeeds, the first match of
    the whole is the composition of the first matches of the parts. *)

Definition leads (r : re) (st st' : pos * caps) : Prop := exists l, re_match r st = st' :: l.

(** The character before the position reached after [s]. *)
Fixpoint slast (prev : option ascii) (s : string) : option ascii :=
  match s with EmptyString => prev | String c s' => slast (Some c) s' end.
(** [p] holds of no first character of [s]. *)
Definition stops (p : ascii -> bool) (s : string) : Prop :=
  match s with EmptyString => True | String c _ => p c = false end.

Lemma leads_eps st : leads Eps st st.
Proof. by exists []. Qed.
Lemma leads_set (p : ascii -> bool) prev c s cs : p c = true -> leads (Set_ p) ((prev, String c s), cs) ((Some c, s), cs).
Proof. intros H. exists []. cbn. by rewrite H. Qed.
Lemma leads_bol s cs : leads Bol ((None, s), cs) ((None, s), cs).
Proof. by exists []. Qed.
Lemma leads_eol prev cs : leads Eol ((prev, ""), cs) ((prev, ""), cs).
Proof. by exists []. Qed.
Lemma leads_seq r1 r2 st st1 st2 : leads r1 st st1 -> leads r2 st1 st2 -> leads (Seq r1 r2) st st2.
Proof. intros [l1 E1] [l2 E2]. eexists. cbn [re_match]. rewrite E1. cbn [flat_map]. by rewrite E2. Qed.
Lemma leads_grp n r st st' : leads r st st' -> leads (Grp n r) st (st'.1, (n, between st.1 st'.1) :: st'.2).
Proof. intros [l E]. eexists. cbn [re_match]. by rewrite E. Qed.
Lemma leads_alt_l r1 r2 st st' : leads r1 st st' -> leads (Alt r1 r2) st st'.
Proof. intros [l E]. eexists. cbn [re_match]. by rewrite E. Qed.
Lemma leads_alt_r r1 r2 st st' : re_match r1 st = [] -> leads r2 st st' -> leads (Alt r1 r2) st st'.
Proof. intros E1 [l E]. exists l. cbn [re_match]. by rewrite E1, E. Qed.
Lemma leads_opt_skip (p : ascii -> bool) prev s cs : stops p s -> leads (Opt (Set_ p)) ((prev, s), cs) ((prev, s), cs).
Proof. intros H. apply leads_alt_r; [|apply leads_eps]. destruct s; [done|]. cbn in *. by rewrite H. Qed.

Lemma star_match_set_leads (p : ascii -> bool) ds : forall fuel prev rest cs,
  (slen ds <= fuel)%nat -> sall p ds = true -> stops p rest ->
  exists l, star_match true (re_match (Set_ p)) fuel ((prev, ds +:+ rest), cs) = ((slast prev ds, rest), cs) :: l.
Proof.
  induction ds as [|d ds IH]; intros fuel prev rest cs Hf Hp Hs.
  - rewrite sapp_nil_l. cbn [slast]. destruct fuel; [by exists []|].
    exists []. cbn [star_match re_match fst snd]. destruct rest; [done|]. cbn in Hs. by rewrite Hs.
  - cbn [sall] in Hp. apply andb_true_iff in Hp as [Hd Hp]. cbn [slen] in Hf. destruct fuel as [|f]; [lia|].
    rewrite sapp_cons. cbn [star_match re_match fst snd slen]. rewrite Hd. cbn [flat_map fst snd].
    rewrite (proj2 (Nat.ltb_lt _ _)) by lia. destruct (IH f (Some d) rest cs ltac:(lia) Hp Hs) as [l El].
    cbn [re_match] in El. cbv zeta. rewrite El. by eexists.
Qed.

Lemma leads_star (p : ascii -> bool) prev ds rest cs :
  sall p ds = true -> stops p rest ->
  leads (Star true (Set_ p)) ((prev, ds +:+ rest), cs) ((slast prev ds, rest), cs).
Proof. intros Hp Hs. apply star_match_set_leads; [|done..]. cbn [fst snd]. rewrite slen_app. lia. Qed.
Lemma leads_plus (p : ascii -> bool) prev ds rest cs :
  ds <> "" -> sall p ds = true -> stops p rest ->
  leads (Plus true (Set_ p)) ((prev, ds +:+ rest), cs) ((slast prev ds, rest), cs).
Proof.
  intros Hn Hp Hs. destruct ds as [|d ds]; [done|]. cbn [sall] in Hp. apply andb_true_iff in Hp as [Hd Hp].
  rewrite sapp_cons. cbn [slast]. eapply leads_seq; [by apply leads_set|by apply leads_star].
Qed.
Lemma leads_lit prev c s cs : leads (lit false c) ((prev, String c s), cs) ((Some c, s), cs).
Proof. apply leads_set. apply Ascii.eqb_refl. Qed.

Lemma stake_app s t : stake (slen s) (s +:+ t) = s.
Proof. induction s as [|c s IH]; [by destruct t|]. rewrite sapp_cons. cbn. by rewrite IH. Qed.
Lemma between_app prev prev' ds rest : between (prev, ds +:+ rest) (prev', rest) = ds.
Proof. unfold between. cbn [fst snd]. rewrite slen_app, Nat.add_sub. apply stake_app. Qed.
Lemma leads_group n r prev prev' ds rest cs :
  leads r ((prev, ds +:+ rest), cs) ((prev', rest), cs) ->
  leads (Grp n r) ((prev, ds +:+ rest), cs) ((prev', rest), (n, ds) :: cs).
Proof. intros H%(leads_grp n). cbn [fst snd] in H. by rewrite between_app in H. Qed.

Lemma match_leads r s st : leads r ((None, s), []) st -> match_ r s = Some st.2.
Proof. intros [l E]. unfold match_. by rewrite E. Qed.
Lemma match_matches r s q : matches r (None, s) q -> is_Some (match_ r s).
Proof.
  intros H. destruct (re_match_complete r _ _ [] H) as (cs & Hin). unfold match_.
  destruct (re_match r _); [by apply elem_of_nil in Hin|done].
Qed.
Lemma group_cons n m s cs : group n ((m, s) :: cs) = if Nat.eqb m n then s else group n cs.
Proof.
  unfold group. cbn [list_find fst]. destruct (Nat.eqb_spec m n) as [->|Hne].
  - by rewrite decide_True by done.
  - rewrite decide_False by done. by destruct (list_find _ cs) as [[i kv]|].
Qed.
