(* ===== verification/RegexFind.v ===== *)
(** * Searching with groups

    [find_match r s] is [re.search(r, s)] with the groups, and [finditer r s] the
    matches of [re.finditer], each search going on after the match before.  [AnyChar]
    is [.] under [re.DOTALL] and [word w] a literal text.

    [clear w u t] says that [w] does not start inside [u] when [t] follows.  Then a
    search for an expression that starts with [w] passes over [u] ([find_clear]),
    [.*?w] stops where [u] ends ([leads_lazy]) and [split] cuts there
    ([split_once_clear]). *)

From S2P Require Import Prelude PyStr PyRegex.
From Stdlib Require Import Ascii.

Definition AnyChar : re := Set_ (fun _ => true).
Fixpoint word (w : string) : re := match w with EmptyString => Eps | String c w => Seq (lit false c) (word w) end.

Fixpoint find_from (r : re) (prev : option ascii) (s : string) : option (pos * caps) :=
  match re_match r ((prev, s), []) with
  | st :: _ => Some st
  | [] => match s with String c s' => find_from r (Some c) s' | EmptyString => None end
  end.
(** [re.search(r, s)]: the groups of the leftmost match. *)
Definition find_match (r : re) (s : string) : option caps := option_map snd (find_from r None s).

(** [re.finditer(r, s)] for an expression that matches no empty text. *)
Fixpoint find_all (fuel : nat) (r : re) (prev : option ascii) (s : string) : list caps :=
  match fuel with
  | O => []
  | S f => match find_from r prev s with
           | Some ((prev', s'), cs) => cs :: find_all f r prev' s'
           | None => []
           end
  end.
Definition finditer (r : re) (s : string) : list caps := find_all (S (slen s)) r None s.

(** ** Literal texts *)

Lemma leads_word w prev s cs : leads (word w) ((prev, w +:+ s), cs) ((slast prev w, s), cs).
Proof.
  revert prev; induction w as [|c w IH]; intros prev; [apply leads_eps|]. cbn [word slast]. rewrite sapp_cons.
  eapply leads_seq; [apply leads_lit|apply IH].
Qed.
Lemma word_nil w prev s cs : startswith w s = false -> re_match (word w) ((prev, s), cs) = [].
Proof.
  revert prev s; induction w as [|c w IH]; intros prev s; [by destruct s|]. cbn [word re_match fst snd lit]. destruct s as [|d s]; [done|].
  cbn. destruct (ascii_dec c d) as [->|Hne].
  - intros H. rewrite Ascii.eqb_refl. cbn [flat_map]. by rewrite IH.
  - intros _. by rewrite (proj2 (Ascii.eqb_neq _ _)) by done.
Qed.
Lemma seq_word_nil w r prev s cs : startswith w s = false -> re_match (Seq (word w) r) ((prev, s), cs) = [].
Proof. intros H. cbn [re_match]. by rewrite word_nil. Qed.

(** [w] does not start inside [u], read before [t]. *)
Fixpoint clear (w u t : string) : bool :=
  match u with EmptyString => true | String c u' => negb (startswith w (u +:+ t)) && clear w u' t end.

Lemma clear_cons w c u t : clear w (String c u) t = true <-> startswith w (String c (u +:+ t)) = false /\ clear w u t = true.
Proof. cbn [clear]. rewrite sapp_cons, andb_true_iff, negb_true_iff. done. Qed.
Lemma clear_app w u u' t : clear w (u +:+ u') t = clear w u (u' +:+ t) && clear w u' t.
Proof. induction u as [|c u IH]; [done|]. cbn [clear]. rewrite sapp_cons. cbn [clear]. rewrite IH, <- sapp_assoc, sapp_cons. by rewrite andb_assoc. Qed.


Lemma app_cut s t u v : s +:+ t = u +:+ v -> (slen s <= slen u)%nat -> exists x, u = s +:+ x /\ t = x +:+ v.
Proof.
  revert u; induction s as [|c s IH]; intros u E Hl; [by exists u|]. destruct u as [|d u]; [cbn in Hl; lia|].
  rewrite !sapp_cons in E. injection E as -> E. destruct (IH u E) as (x & -> & ->); [cbn in Hl; lia|]. by exists x.
Qed.
(** The text after [u] starts with a character that [w] has at most at its start. *)
Definition apart (w t : string) : bool :=
  match w, t with String _ w', String d _ => negb (sexists (is_char d) w') | _, _ => false end.
Lemma clear_apart w u t : apart w t = true -> contains w u = false -> clear w u t = true.
Proof.
  intros Hw. induction u as [|d u IH]; intros Hu; [done|]. apply clear_cons. assert (contains w u = false) as Hu'.
  { apply not_true_iff_false. intros (x & y & ->)%contains_spec. apply not_true_iff_false in Hu. apply Hu, contains_spec.
    by exists (String d x), y. }
  split; [|by apply IH]. apply not_true_iff_false. intros (x & E)%prefix_spec. change (String d u +:+ t = w +:+ x) in E.
  destruct (Nat.le_gt_cases (slen w) (slen (String d u))) as [Hl|Hl].
  - symmetry in E. apply app_cut in E as (y & Hy & _); [|done]. apply not_true_iff_false in Hu. apply Hu, contains_spec.
    exists "", y. by rewrite Hy.
  - apply app_cut in E as (y & Ew & Ey); [|lia]. destruct y as [|c y]; [rewrite sapp_nil_r in Ew; subst; lia|].
    destruct w as [|c' w]; [done|]. subst t. rewrite !sapp_cons in *. injection Ew as <- Ew.
    unfold apart in Hw. rewrite Ew, sexists_app in Hw. cbn [sexists] in Hw. unfold is_char in Hw.
    by rewrite Ascii.eqb_refl, orb_true_r in Hw.
Qed.
(** The first character of [w] is not in [u]. *)
Lemma clear_free c w u t : sexists (is_char c) u = false -> clear (String c w) u t = true.
Proof.
  induction u as [|d u IH]; intros H; [done|]. cbn [sexists] in H. apply orb_false_iff in H as [H1 H2]. apply clear_cons.
  split; [|by apply IH]. apply not_true_iff_false. intros (x & E)%prefix_spec. injection E as -> _.
  by rewrite (proj2 (Ascii.eqb_eq _ _)) in H1.
Qed.
Lemma clear_contains w u : w <> "" -> contains w u = false -> clear w u "" = true.
Proof.
  intros Hw. induction u as [|d u IH]; intros Hu; [done|]. apply clear_cons. rewrite sapp_nil_r.
  cbn [contains] in Hu. apply orb_false_iff in Hu as [H1 H2]. auto.
Qed.
Lemma split_once_here sep v : split_once sep (sep +:+ v) = Some ("", v).
Proof.
  assert (startswith sep (sep +:+ v) = true) as H by apply startswith_app.
  assert (String.substring (slen sep) (slen (sep +:+ v) - slen sep) (sep +:+ v) = v) as E.
  { rewrite slen_app. replace (slen sep + slen v - slen sep)%nat with (slen v) by lia.
    clear. induction sep as [|c sep IH]; [|exact IH]. rewrite sapp_nil_l. cbn [String.length]. induction v as [|c v IH]; [done|].
    cbn [String.substring String.length]. by rewrite IH. }
  destruct (sep +:+ v) eqn:Es; unfold split_once; fold split_once; rewrite H, E; done.
Qed.
Lemma split_once_clear w u t : clear w u (w +:+ t) = true -> split_once w (u +:+ w +:+ t) = Some (u, t).
Proof.
  induction u as [|c u IH]; [intros _; rewrite sapp_nil_l; apply split_once_here|]. intros [H1 H2]%clear_cons. rewrite sapp_cons. cbn [split_once].
  rewrite H1, (IH H2). done.
Qed.
Lemma split_once_none w u : contains w u = false -> split_once w u = None.
Proof.
  induction u as [|c u IH]; cbn [contains split_once]; intros H; apply orb_false_iff in H as [-> H2]; [done|].
  by rewrite IH.
Qed.

(** ** The leftmost match *)

Lemma find_clear w r u t : clear w u t = true -> forall prev,
  find_from (Seq (word w) r) prev (u +:+ t) = find_from (Seq (word w) r) (slast prev u) t.
Proof.
  induction u as [|c u IH]; intros H prev; [done|]. apply clear_cons in H as [H1 H2]. rewrite sapp_cons. cbn [find_from slast].
  rewrite seq_word_nil by done. by apply IH.
Qed.
Lemma find_leads r prev s st : leads r ((prev, s), []) st -> find_from r prev s = Some st.
Proof. intros [l E]. destruct s; cbn [find_from]; by rewrite E. Qed.
Lemma find_none w r u prev : w <> "" -> clear w u "" = true -> find_from (Seq (word w) r) prev u = None.
Proof.
  intros Hw H. rewrite <- (sapp_nil_r u), find_clear by done. cbn [find_from]. rewrite seq_word_nil; [done|]. by destruct w.
Qed.

(** [(.* ?)w] stops where [w] first stands. *)
Lemma lazy_star k w u t : (forall prev c s cs, startswith w (String c s) = false -> k ((prev, String c s), cs) = []) ->
  clear w u t = true -> forall fuel prev cs (st : pos * caps) l, (slen u <= fuel)%nat ->
  k ((slast prev u, t), cs) = st :: l ->
  exists l', flat_map k (star_match false (re_match AnyChar) fuel ((prev, u +:+ t), cs)) = st :: l'.
Proof.
  intros Hk. induction u as [|c u IH]; intros H fuel prev cs st l Hf E.
  - rewrite sapp_nil_l. cbn [slast] in E. destruct fuel as [|f]; cbn [star_match]; cbv zeta; cbn [flat_map]; rewrite E; by eexists.
  - apply clear_cons in H as [H1 H2]. destruct fuel as [|f]; [cbn in Hf; lia|]. rewrite sapp_cons. cbn [star_match]. cbv zeta.
    cbn [flat_map]. rewrite Hk by done. cbn [re_match AnyChar fst snd flat_map String.length].
    rewrite (proj2 (Nat.ltb_lt _ _)) by lia. rewrite app_nil_r. eapply (IH H2); [cbn in Hf; lia|exact E].
Qed.
Lemma leads_lazy n w u t prev cs : clear w u (w +:+ t) = true ->
  leads (Seq (Grp n (Star false AnyChar)) (word w)) ((prev, u +:+ w +:+ t), cs) ((slast (slast prev u) w, t), (n, u) :: cs).
Proof.
  intros H. set (k := fun st : pos * caps => re_match (word w) (st.1, (n, between (prev, u +:+ w +:+ t) st.1) :: st.2)).
  destruct (leads_word w (slast prev u) t ((n, u) :: cs)) as [l Hl].
  destruct (lazy_star k w u (w +:+ t)) with (fuel := slen (u +:+ w +:+ t)) (prev := prev) (cs := cs)
    (st := ((slast (slast prev u) w, t), (n, u) :: cs)) (l := l) as [l' E]; [|done|rewrite slen_app; lia| |].
  - intros prev' c s cs' Hs. unfold k. cbn [fst snd]. by apply word_nil.
  - unfold k. cbn [fst snd]. by rewrite between_app.
  - exists l'. rewrite <- E. cbn [re_match fst snd]. rewrite flat_map_concat_map, map_map, <- flat_map_concat_map. done.
Qed.

(** ** No match *)

Lemma find_skip r prev c s : re_match r ((prev, String c s), []) = [] -> find_from r prev (String c s) = find_from r (Some c) s.
Proof. cbn [find_from]. by intros ->. Qed.
Lemma search_find r prev s : search_from r prev s = match find_from r prev s with Some _ => true | None => false end.
Proof.
  revert prev; induction s as [|c s IH]; intros prev; cbn [search_from find_from]; (destruct (re_match r _) as [|[]]; [|done]); [done|apply IH].
Qed.
Lemma matches_seq r1 r2 p t : matches (Seq r1 r2) p t -> exists q, matches r1 p q /\ matches r2 q t.
Proof. inversion 1; subst. eauto. Qed.
Lemma matches_grp n r p q : matches (Grp n r) p q -> matches r p q.
Proof. by inversion 1. Qed.
Lemma matches_word w p q : matches (word w) p q -> p.2 = w +:+ q.2.
Proof.
  revert p; induction w as [|c w IH]; intros p H; cbn [word] in H.
  - by inversion H.
  - inversion H as [| | | | |? ? ? q' ? H1 H2| | | | |]; subst. inversion H1; subst. apply IH in H2. cbn [snd] in *. rewrite H2.
    rewrite sapp_cons. f_equal. symmetry. by apply Ascii.eqb_eq.
Qed.
Lemma matches_star_set g (f : ascii -> bool) p q : matches (Star g (Set_ f)) p q -> exists d, p.2 = d +:+ q.2 /\ sall f d = true.
Proof.
  intros H. remember (Star g (Set_ f)) as r eqn:E. induction H as [| | | | | | | |g' r' p|g' r' p q t H1 _ H2 IH|]; try done; injection E as -> ->.
  - by exists "".
  - destruct (IH eq_refl) as (d & E & Hd). inversion H1; subst. cbn [snd] in *. exists (String c d). rewrite E. split; [done|].
    cbn [sall]. by rewrite Hd, andb_true_r.
Qed.
Lemma matches_plus_set g (f : ascii -> bool) p q : matches (Plus g (Set_ f)) p q -> exists d, p.2 = d +:+ q.2 /\ sall f d = true /\ d <> "".
Proof.
  intros H. inversion H as [| | | | |? ? ? q' ? H1 H2| | | | |]; subst. apply matches_star_set in H2 as (d & E & Hd).
  inversion H1; subst. cbn [snd] in *. exists (String c d). rewrite E. split; [done|]. cbn [sall]. by rewrite Hd, andb_true_r.
Qed.
(** Where a run of characters of a class ends is determined. *)
Lemma span_inj (f : ascii -> bool) u v c d s t : sall f u = true -> sall f v = true -> f c = false -> f d = false ->
  u +:+ String c s = v +:+ String d t -> u = v /\ c = d /\ s = t.
Proof.
  revert v; induction u as [|x u IH]; intros [|y v] Hu Hv Hc Hd E; rewrite ?sapp_nil_l, ?sapp_cons in E; injection E as E1 E2; subst; cbn [sall] in *;
    repeat match goal with H : _ && _ = true |- _ => apply andb_true_iff in H as [??] end; [done|congruence..|].
  destruct (IH v) as (-> & -> & ->); done.
Qed.
