(* ===== verification/Approval.v ===== *)
(** * Approval policy

    Models [openhands/forgepilot/control_plane/approval_policy.py]: structural
    analysis of shell commands (tokens, pipeline segments, nested [sh -c]
    payloads), the configurable patterns, sensitive-path matching by components,
    and the approval requests that result. *)

From S2P Require Import Prelude PyStr Fnmatch PyPath Shlex PyRegex.
From Stdlib Require Import Ascii.

Inductive ApprovalReason :=
  | HIGH_RISK_COMMAND | EXTERNAL_NETWORK | DEPLOYMENT_COMMAND | SENSITIVE_FILE_CHANGE.
Inductive ApprovalDecision := APPROVED | REJECTED.

#[global] Instance ApprovalReason_eq_dec : EqDecision ApprovalReason.
Proof. solve_decision. Defined.

Definition reason_value (r : ApprovalReason) : string :=
  match r with
  | HIGH_RISK_COMMAND => "high_risk_command"
  | EXTERNAL_NETWORK => "external_network"
  | DEPLOYMENT_COMMAND => "deployment_command"
  | SENSITIVE_FILE_CHANGE => "sensitive_file_change"
  end.

Record ApprovalRequest := {
  request_id : string;
  subject_type : string;
  subject : string;
  reasons : list ApprovalReason;
  detail : string;
  required : bool;
}.

(** ** Structural command analysis *)

Definition mem (s : string) (l : list string) : bool := existsb (String.eqb s) l.

Definition COMMAND_SEPARATORS : list string := ["|"; "||"; ";"; "&&"; "&"].
Definition SHELL_PROGRAMS : list string := ["sh"; "bash"; "zsh"; "dash"; "ksh"].
Definition MAX_NESTED_DEPTH : nat := 2.
Definition NPM_INSTALL_SUBCOMMANDS : list string := ["install"; "i"; "add"].
Definition KUBECTL_DEPLOY_SUBCOMMANDS : list string := ["apply"; "delete"; "rollout"; "scale"].
Definition HELM_DEPLOY_SUBCOMMANDS : list string := ["install"; "upgrade"; "delete"; "rollback"].
Definition TERRAFORM_DEPLOY_SUBCOMMANDS : list string := ["apply"; "destroy"].

Definition tokenize (command : string) : list string :=
  match shlex_split command with
  | Ok ts => ts
  | Raise _ => split_ws command
  end.

(** [segments[-1].append(token)] and [segments.append([])]: the last segment
    is the one under construction. *)
Fixpoint segments_from (cur : list string) (tokens : list string) : list (list string) :=
  match tokens with
  | [] => [cur]
  | t :: ts => if mem t COMMAND_SEPARATORS then cur :: segments_from [] ts else segments_from (cur ++ [t]) ts
  end.
Definition nonempty {A} (l : list A) : bool := match l with [] => false | _ => true end.
Definition pipeline_segments (tokens : list string) : list (list string) :=
  List.filter nonempty (segments_from [] tokens).

Fixpoint unwrap_sudo (argv : list string) : list string :=
  match argv with
  | a :: (b :: _) as rest =>
      if String.eqb a "sudo" && negb (startswith "-" b) then unwrap_sudo rest else argv
  | _ => argv
  end.
Definition program_of (segment : list string) : string * list string :=
  match unwrap_sudo segment with
  | [] => ("", [])
  | a :: args => (basename a, args)
  end.

Definition is_dash (c : ascii) : bool := ord c =? 45.
(** [-abc], but not [-] or [--long] *)
Definition is_short_flags (arg : string) : bool :=
  startswith "-" arg && (1 <? Z.of_nat (slen arg)) && negb (startswith "--" arg).

Definition is_recursive_rm (args : list string) : bool :=
  existsb (fun arg =>
    String.eqb arg "--recursive" ||
    (is_short_flags arg &&
     (let body := lstrip_by is_dash arg in str_isalpha body && contains "r" (lower body)))) args.

Definition has_recursive_flag (args : list string) : bool :=
  mem "--recursive" args ||
  existsb (fun arg => is_short_flags arg && str_isalpha (lstrip_by is_dash arg) && contains "R" arg) args.

(** [args[:1] == [s]] *)
Definition first_is (s : string) (args : list string) : bool :=
  match args with a :: _ => String.eqb a s | [] => false end.

Definition is_high_risk_segment (program : string) (args : list string) : bool :=
  if String.eqb program "sudo" then true
  else if String.eqb program "rm" then is_recursive_rm args
  else if mem program ["chmod"; "chown"] then has_recursive_flag args
  else if mem program ["dd"; "mkfs"] || startswith "mkfs." program then true
  else if String.eqb program "docker" then first_is "system" args && mem "prune" args
  else false.

Definition is_external_network_segment (program : string) (args : list string) : bool :=
  if mem program ["curl"; "wget"; "ssh"; "scp"; "rsync"] then true
  else match args with
  | [] => false
  | subcommand :: _ =>
      if String.eqb program "npm" then mem subcommand NPM_INSTALL_SUBCOMMANDS
      else if mem program ["pip"; "pip3"] then String.eqb subcommand "install"
      else if String.eqb program "poetry" then String.eqb subcommand "add"
      else false
  end.

Definition is_deployment_segment (program : string) (args : list string) : bool :=
  match args with
  | [] => false
  | subcommand :: _ =>
      if String.eqb program "kubectl" then mem subcommand KUBECTL_DEPLOY_SUBCOMMANDS
      else if String.eqb program "helm" then mem subcommand HELM_DEPLOY_SUBCOMMANDS
      else if String.eqb program "terraform" then mem subcommand TERRAFORM_DEPLOY_SUBCOMMANDS
      else if String.eqb program "docker" then String.eqb subcommand "push"
      else if String.eqb program "git" then String.eqb subcommand "push"
      else if String.eqb program "gh" then String.eqb subcommand "release"
      else if String.eqb program "npm" then String.eqb subcommand "publish"
      else if String.eqb program "twine" then String.eqb subcommand "upload"
      else false
  end.

(** The arguments that follow a [-c]. *)
Fixpoint c_payloads (args : list string) : list string :=
  match args with
  | a :: (b :: _) as rest => if String.eqb a "-c" then b :: c_payloads rest else c_payloads rest
  | _ => []
  end.

(** [levels] is [_MAX_NESTED_DEPTH - depth]. *)
Fixpoint segments_match (predicate : string -> list string -> bool) (levels : nat)
    (segments : list (list string)) : bool :=
  existsb (fun segment =>
    let '(program, args) := program_of segment in
    predicate program args ||
    match levels with
    | O => false
    | S l => mem program SHELL_PROGRAMS &&
             existsb (fun cmd => segments_match predicate l (pipeline_segments (tokenize cmd))) (c_payloads args)
    end) segments.

Definition matches_any (value : string) (patterns : list string) : bool :=
  existsb (fun pattern => re_search (compile true pattern) value) patterns.

Definition command_matches (command : string) (patterns : list string)
    (predicate : string -> list string -> bool) : bool :=
  matches_any command patterns ||
  segments_match predicate MAX_NESTED_DEPTH (pipeline_segments (tokenize command)).

(** ** Sensitive paths *)

(** [PurePosixPath(s).parts]: an absolute path starts with its root. *)
Definition path_parts (s : string) : list string :=
  let p := mk_path s in
  (if String.eqb (root p) "" then [] else [root p]) ++ parts p.

Definition normalise (s : string) : string := replace (String (chr 92) "") "/" s.

Definition pattern_parts (pattern : string) : list string :=
  List.filter (fun c => negb (String.eqb c ".")) (path_parts (normalise pattern)).

Fixpoint parts_match (ps : list string) (pattern : list string) {struct pattern} : bool :=
  match pattern with
  | [] => match ps with [] => true | _ => false end
  | head :: rest =>
      if String.eqb head "**"
      then (fix any_suffix (ps : list string) : bool :=
              parts_match ps rest ||
              match ps with [] => false | _ :: ps' => any_suffix ps' end) ps
      else match ps with
           | [] => false
           | p :: ps' => fnmatch p head && parts_match ps' rest
           end
  end.

Definition path_matches (path_ps : list string) (pattern : string) : bool :=
  parts_match path_ps (pattern_parts pattern).

(** ** The policy *)

Record ApprovalPolicy := {
  high_risk_command_patterns : list string;
  external_network_patterns : list string;
  deployment_command_patterns : list string;
  sensitive_file_patterns : list string;
}.

Definition DEFAULT_APPROVAL_POLICY : ApprovalPolicy := {|
  high_risk_command_patterns :=
    [ "\brm\s+-rf\b"; "\bsudo\b"; "\bchmod\s+-R\b"; "\bchown\s+-R\b"; "\bdd\s+"; "\bmkfs\b";
      "\bdocker\s+system\s+prune\b" ];
  external_network_patterns :=
    [ "\bcurl\s+https?://"; "\bwget\s+https?://"; "\bssh\s+"; "\bscp\s+"; "\brsync\s+";
      "\bnpm\s+install\b"; "\bpip\s+install\b"; "\bpoetry\s+add\b" ];
  deployment_command_patterns :=
    [ "\bkubectl\s+(apply|delete|rollout|scale)\b"; "\bhelm\s+(install|upgrade|delete|rollback)\b";
      "\bterraform\s+(apply|destroy)\b"; "\bdocker\s+push\b"; "\bgit\s+push\b"; "\bgh\s+release\b";
      "\bnpm\s+publish\b"; "\btwine\s+upload\b" ];
  sensitive_file_patterns :=
    [ "**/.env"; "**/.env.*"; "**/*secret*"; "**/*credential*"; "**/secrets/**"; "**/.ssh/**";
      "**/id_rsa"; "**/id_ed25519" ];
|}.

Definition command_reasons (pol : ApprovalPolicy) (command : string) : list ApprovalReason :=
  (if command_matches command (high_risk_command_patterns pol) is_high_risk_segment
   then [HIGH_RISK_COMMAND] else []) ++
  (if command_matches command (external_network_patterns pol) is_external_network_segment
   then [EXTERNAL_NETWORK] else []) ++
  (if command_matches command (deployment_command_patterns pol) is_deployment_segment
   then [DEPLOYMENT_COMMAND] else []).

Definition evaluate_command (pol : ApprovalPolicy) (uuid : string) (command : string)
    : option ApprovalRequest :=
  match command_reasons pol command with
  | [] => None
  | rs => Some {| request_id := uuid; subject_type := "command"; subject := command; reasons := rs;
                  detail := join ", " (map reason_value rs); required := true |}
  end.

Definition evaluate_file_change (pol : ApprovalPolicy) (uuid : string) (path : string)
    : option ApprovalRequest :=
  let normalized := normalise path in
  let posix_path := path_parts normalized in
  if negb (existsb (path_matches posix_path) (sensitive_file_patterns pol)) then None
  else Some {| request_id := uuid; subject_type := "file_change"; subject := normalized;
               reasons := [SENSITIVE_FILE_CHANGE];
               detail := "sensitive file pattern matched: " +:+ normalized; required := true |}.

(** The requests of a batch, commands first; [uuids i] is the fresh
    identifier of the [i]-th evaluation. *)
Fixpoint evaluate_all (eval : string -> string -> option ApprovalRequest) (uuids : nat -> string) (i : nat)
    (l : list string) : list ApprovalRequest :=
  match l with
  | [] => []
  | x :: l' =>
      match eval (uuids i) x with
      | Some r => r :: evaluate_all eval uuids (S i) l'
      | None => evaluate_all eval uuids (S i) l'
      end
  end.
Definition evaluate_batch (pol : ApprovalPolicy) (uuids : nat -> string) (commands file_changes : list string)
    : list ApprovalRequest :=
  evaluate_all (evaluate_command pol) uuids 0 commands ++
  evaluate_all (evaluate_file_change pol) uuids (length commands) file_changes.

(** ** Component-wise matching *)

(** What a pattern of components means: [**] stands for any number of
    components, any other component for one that it matches as a glob. *)
Inductive glob_parts : list string -> list string -> Prop :=
  | gp_nil : glob_parts [] []
  | gp_any pre ps rest : glob_parts rest ps -> glob_parts ("**" :: rest) (pre ++ ps)
  | gp_one h p rest ps : h <> "**" -> glob (parse_pattern h) p -> glob_parts rest ps ->
      glob_parts (h :: rest) (p :: ps).

Lemma parts_match_any rest ps :
  parts_match ps ("**" :: rest) = true <-> exists pre ps', ps = pre ++ ps' /\ parts_match ps' rest = true.
Proof.
  cbn [parts_match]. change (String.eqb "**" "**") with true. cbn match.
  induction ps as [|p ps IH]; rewrite orb_true_iff.
  - split; [intros [?|?]; [by exists [], []|done]|]. intros (pre & ps' & E & H).
    symmetry in E. apply app_eq_nil in E as [-> ->]. by left.
  - rewrite IH. split.
    + intros [H|(pre & ps' & -> & H)]; [by exists [], (p :: ps)|by exists (p :: pre), ps'].
    + intros ([|q pre] & ps' & E & H); simpl in E; [by subst; left|]. right. simplify_eq. by exists pre, ps'.
Qed.

Lemma parts_match_one h rest ps :
  h <> "**" -> parts_match ps (h :: rest) = match ps with [] => false | p :: ps' => fnmatch p h && parts_match ps' rest end.
Proof. intros H. cbn [parts_match]. by rewrite (proj2 (String.eqb_neq _ _) H). Qed.

(** The recursive matcher decides exactly the component-wise glob
    relation: [**] crosses any number of directories, every other pattern
    component matches one path component. *)
Lemma parts_match_spec (ps pattern : list string) :
  parts_match ps pattern = true <-> glob_parts pattern ps.
Proof.
  revert ps; induction pattern as [|h rest IH]; intros ps.
  - simpl. split; [destruct ps; [constructor|done]|by inversion 1].
  - destruct (decide (h = "**")) as [->|Hne].
    + rewrite parts_match_any. split.
      * intros (pre & ps' & -> & H). constructor. by apply IH.
      * inversion 1; subst; [|done]. eexists _, _. split; [done|]. by apply IH.
    + rewrite parts_match_one by done. destruct ps as [|p ps]; [split; [done|by inversion 1]|].
      rewrite andb_true_iff, fnmatch_spec, IH. split; [intros []; by constructor|]. by inversion 1.
Qed.

(** [**/h]: the last component matches. *)
Lemma parts_match_last h ps :
  h <> "**" -> parts_match ps ["**"; h] = match last ps with Some p => fnmatch p h | None => false end.
Proof.
  intros Hh. apply eq_true_iff_eq. rewrite parts_match_any. split.
  - intros (pre & ps' & -> & H). rewrite parts_match_one in H by done.
    destruct ps' as [|p [|]]; [done| |by rewrite andb_false_r in H]. rewrite last_snoc.
    by apply andb_true_iff in H as [? _].
  - destruct (last ps) as [p|] eqn:E; [|done]. intros H. apply last_Some in E as [pre ->].
    exists pre, [p]. split; [done|]. rewrite parts_match_one by done. by rewrite H.
Qed.

(** [**/h/**]: some component matches. *)
Lemma parts_match_inside h ps :
  h <> "**" -> parts_match ps ["**"; h; "**"] = existsb (fun p => fnmatch p h) ps.
Proof.
  intros Hh. apply eq_true_iff_eq. rewrite parts_match_any, existsb_spec. split.
  - intros (pre & ps' & -> & H). rewrite parts_match_one in H by done. destruct ps' as [|p ps']; [done|].
    apply andb_true_iff in H as [H _]. exists p. split; [set_solver|done].
  - intros (p & (pre & post & ->)%list_elem_of_split & H). exists pre, (p :: post). split; [done|].
    rewrite parts_match_one by done. rewrite H. apply parts_match_any. exists post, []. split; [by rewrite app_nil_r|done].
Qed.

(** What the default patterns are after: by the last component, or by any. *)
Definition sensitive_name (name : string) : bool :=
  String.eqb name ".env" || startswith ".env." name || contains "secret" name || contains "credential" name
  || String.eqb name "id_rsa" || String.eqb name "id_ed25519".
Definition sensitive_dir (name : string) : bool := String.eqb name "secrets" || String.eqb name ".ssh".

(** The default policy asks for approval of a file change exactly when the
    file's name is [.env], starts with [.env.], contains "secret" or
    "credential", or is a private key name, or when some component of the path
    (after turning backslashes into slashes) is [secrets] or [.ssh]. *)
Lemma default_sensitive_files (uuid path : string) :
  let ps := path_parts (normalise path) in
  (exists req, evaluate_file_change DEFAULT_APPROVAL_POLICY uuid path = Some req /\
     reasons req = [SENSITIVE_FILE_CHANGE]) <->
  (exists name, last ps = Some name /\ sensitive_name name = true) \/
  (exists c, c ∈ ps /\ sensitive_dir c = true).
Proof.
  intros ps. unfold evaluate_file_change. fold ps.
  assert (existsb (path_matches ps) (sensitive_file_patterns DEFAULT_APPROVAL_POLICY) =
    match last ps with Some n => sensitive_name n | None => false end || existsb sensitive_dir ps) as E.
  { unfold path_matches. cbn [existsb sensitive_file_patterns DEFAULT_APPROVAL_POLICY].
    change (pattern_parts "**/.env") with ["**"; ".env"].
    change (pattern_parts "**/.env.*") with ["**"; ".env." +:+ "*"].
    change (pattern_parts "**/*secret*") with ["**"; String "*"%char ("secret" +:+ "*")].
    change (pattern_parts "**/*credential*") with ["**"; String "*"%char ("credential" +:+ "*")].
    change (pattern_parts "**/secrets/**") with ["**"; "secrets"; "**"].
    change (pattern_parts "**/.ssh/**") with ["**"; ".ssh"; "**"].
    change (pattern_parts "**/id_rsa") with ["**"; "id_rsa"].
    change (pattern_parts "**/id_ed25519") with ["**"; "id_ed25519"].
    rewrite !parts_match_last, !parts_match_inside by done.
    assert (existsb sensitive_dir ps =
            existsb (fun p => fnmatch p "secrets") ps || existsb (fun p => fnmatch p ".ssh") ps) as ->.
    { induction ps as [|p l IH]; [done|]. cbn [existsb]. rewrite IH. unfold sensitive_dir.
      rewrite !fnmatch_plain by done. repeat destruct (String.eqb _ _); repeat destruct (existsb _ _); done. }
    destruct (last ps) as [n|]; [|by rewrite !orb_false_r, !orb_false_l].
    unfold sensitive_name. rewrite fnmatch_prefix, !fnmatch_contains, !fnmatch_plain by done.
    repeat match goal with |- context [existsb ?f ps] => destruct (existsb f ps) end;
    repeat match goal with |- context [String.eqb n ?x] => destruct (String.eqb n x) end;
    destruct (startswith ".env." n), (contains "secret" n), (contains "credential" n); done. }
  assert ((exists name, last ps = Some name /\ sensitive_name name = true) \/ (exists c, c ∈ ps /\ sensitive_dir c = true)
    <-> existsb (path_matches ps) (sensitive_file_patterns DEFAULT_APPROVAL_POLICY) = true) as ->.
  { rewrite E, orb_true_iff, existsb_spec. destruct (last ps); naive_solver. }
  destruct (existsb _ _); simpl; split; [done|by eauto|by intros (? & ? & _)|done].
Qed.

(** ** Commands *)

Definition no_separator (argv : list string) : Prop := Forall (fun t => mem t COMMAND_SEPARATORS = false) argv.

Lemma mem_spec s l : mem s l = true <-> s ∈ l.
Proof.
  unfold mem. rewrite existsb_spec. split.
  - intros (x & Hx & ->%String.eqb_eq). done.
  - intros H. exists s. split; [done|apply String.eqb_refl].
Qed.

Lemma segments_one cur argv : no_separator argv -> segments_from cur argv = [cur ++ argv].
Proof.
  intros H. revert cur; induction H as [|t argv Ht _ IH]; intros cur; cbn [segments_from].
  - by rewrite app_nil_r.
  - rewrite Ht, IH. by rewrite <-app_assoc.
Qed.

Lemma segments_of_join argv :
  argv <> [] -> no_separator argv -> pipeline_segments (tokenize (shlex_join argv)) = [argv].
Proof.
  intros Hne Hs. unfold tokenize, pipeline_segments. rewrite shlex_split_join, segments_one by done.
  by destruct argv.
Qed.

(** A joined command without separators is itself no separator. *)
Lemma join_no_separator argv : no_separator argv -> mem (shlex_join argv) COMMAND_SEPARATORS = false.
Proof.
  intros Hs. apply not_true_iff_false. rewrite mem_spec. intros Hin.
  assert (exists s, s ∈ COMMAND_SEPARATORS /\ shlex_split (shlex_join argv) = Ok [s]) as (s & Hin' & E).
  { exists (shlex_join argv). split; [done|].
    unfold COMMAND_SEPARATORS in Hin. rewrite !elem_of_cons, elem_of_nil in Hin.
    destruct_or! Hin; try done; rewrite Hin; by vm_compute. }
  rewrite shlex_split_join in E. injection E as ->. apply Forall_cons in Hs as [Hs _].
  apply mem_spec in Hin'. congruence.
Qed.

(** [shells] wrapped around a command: [bash -c 'sh -c ...']. *)
Fixpoint wrap (shells : list string) (argv : list string) : list string :=
  match shells with
  | [] => argv
  | sh :: shells' => [sh; "-c"; shlex_join (wrap shells' argv)]
  end.

Definition is_shell (sh : string) : Prop := basename sh ∈ SHELL_PROGRAMS.

Lemma shell_no_separator sh : is_shell sh -> mem sh COMMAND_SEPARATORS = false.
Proof.
  intros H. apply not_true_iff_false. rewrite mem_spec. unfold is_shell in H. intros Hin.
  unfold COMMAND_SEPARATORS in Hin. rewrite !elem_of_cons, elem_of_nil in Hin.
  destruct_or! Hin; try done; subst sh; vm_compute in H; set_solver.
Qed.

Lemma shell_not_sudo sh : is_shell sh -> String.eqb sh "sudo" = false.
Proof.
  intros H. apply String.eqb_neq. intros ->. unfold is_shell in H. vm_compute in H. set_solver.
Qed.

Lemma wrap_no_separator shells argv :
  Forall is_shell shells -> no_separator argv -> no_separator (wrap shells argv).
Proof.
  induction 1 as [|sh shells Hsh Hs IH]; [done|]. intros Ha. cbn [wrap].
  repeat constructor; [by apply shell_no_separator|]. by apply join_no_separator, IH.
Qed.

Lemma segments_match_direct predicate levels argv :
  predicate (program_of argv).1 (program_of argv).2 = true -> segments_match predicate levels [argv] = true.
Proof. intros H. destruct levels; cbn [segments_match existsb]; destruct (program_of argv); simpl in H; by rewrite H. Qed.

Lemma segments_match_wrapped predicate shells argv levels :
  argv <> [] -> no_separator argv -> Forall is_shell shells -> (length shells <= levels)%nat ->
  predicate (program_of argv).1 (program_of argv).2 = true ->
  segments_match predicate levels [wrap shells argv] = true.
Proof.
  intros Hne Hs Hsh. revert levels; induction Hsh as [|sh shells Hsh Hshs IH]; intros levels Hl Hp.
  { by apply segments_match_direct. }
  destruct levels as [|l]; [simpl in Hl; lia|]. simpl in Hl. cbn [wrap segments_match existsb].
  unfold program_of. cbn [unwrap_sudo]. rewrite shell_not_sudo by done. cbn [andb].
  assert (mem (basename sh) SHELL_PROGRAMS = true) as -> by by apply mem_spec.
  cbn [c_payloads existsb]. change (String.eqb "-c" "-c") with true. cbn match. cbn [existsb].
  rewrite segments_of_join; [|by destruct shells|by apply wrap_no_separator].
  rewrite IH by (done || lia). by rewrite orb_true_r.
Qed.

(** Whatever the patterns of the policy, a command whose program and
    arguments a structural check recognises is reported, given as a quoted
    argument list of any content (flags in any order, empty arguments, spaces,
    quotes), directly or wrapped in up to two levels of [sh -c], provided
    no argument is itself one of the separators. *)
Lemma structural_check_sees_through_wrapping (pol : ApprovalPolicy) (uuid : string)
    (shells argv : list string)
    (Hne : argv <> []) (Hsep : no_separator argv) (Hsh : Forall is_shell shells)
    (Hlen : (length shells <= 2)%nat) :
  let '(program, args) := program_of argv in
  let result := evaluate_command pol uuid (shlex_join (wrap shells argv)) in
  (is_high_risk_segment program args = true ->
     exists req, result = Some req /\ HIGH_RISK_COMMAND ∈ reasons req) /\
  (is_external_network_segment program args = true ->
     exists req, result = Some req /\ EXTERNAL_NETWORK ∈ reasons req) /\
  (is_deployment_segment program args = true ->
     exists req, result = Some req /\ DEPLOYMENT_COMMAND ∈ reasons req).
Proof.
  destruct (program_of argv) as [program args] eqn:Ep. cbv zeta.
  assert (forall pats predicate, predicate program args = true ->
    command_matches (shlex_join (wrap shells argv)) pats predicate = true) as Hm.
  { intros pats predicate Hp. unfold command_matches.
    rewrite segments_of_join; [|by destruct shells|by apply wrap_no_separator].
    rewrite segments_match_wrapped; [apply orb_true_r|done..|by rewrite Ep]. }
  unfold evaluate_command, command_reasons.
  split_and!; intros H; rewrite (Hm _ _ H);
    repeat match goal with |- context [command_matches ?a ?b ?c] => destruct (command_matches a b c) end;
    cbn [app]; eexists; (split; [done|]); set_solver.
Qed.

Lemma structural_check_sees_through_wrapping_witness :
  let argv := ["/bin/rm"; ""; "it's"; "-vR"; "x y"] in
  no_separator argv /\ Forall is_shell ["bash"; "/bin/sh"] /\
  exists req, evaluate_command DEFAULT_APPROVAL_POLICY "id" (shlex_join (wrap ["bash"; "/bin/sh"] argv)) = Some req /\
    HIGH_RISK_COMMAND ∈ reasons req.
Proof.
  assert (no_separator ["/bin/rm"; ""; "it's"; "-vR"; "x y"]) as Hs by by repeat constructor.
  assert (Forall is_shell ["bash"; "/bin/sh"]) as Hsh
    by (repeat constructor; vm_compute; set_solver).
  split; [done|]. split; [done|].
  apply (proj1 (structural_check_sees_through_wrapping DEFAULT_APPROVAL_POLICY "id" ["bash"; "/bin/sh"]
    ["/bin/rm"; ""; "it's"; "-vR"; "x y"] ltac:(done) Hs Hsh ltac:(simpl; lia))).
  reflexivity.
Defined.

(** What the structural check does not see.  A separator that no blank
    precedes, a line break, or a quoted separator that is only an argument
    each hide a recursive [rm] from the default policy. *)
Lemma separators_hide_commands (uuid : string) :
  let eval := evaluate_command DEFAULT_APPROVAL_POLICY uuid in
  eval "true ; rm -fr /" <> None /\ eval "true; rm -fr /" = None /\
  eval ("true" +:+ String (chr 10) "" +:+ "rm -fr /") = None /\
  (shlex_split "rm ';' -fr /" = Ok ["rm"; ";"; "-fr"; "/"] /\
   is_high_risk_segment "rm" [";"; "-fr"; "/"] = true /\ eval "rm ';' -fr /" = None).
Proof. by vm_compute. Qed.

Lemma evaluate_all_spec eval (f : string -> string) (g : string -> bool) (P : ApprovalRequest -> Prop) uuids :
  (forall u x, match eval u x with
               | Some r => g x = true /\ subject r = f x /\ P r
               | None => g x = false
               end) ->
  forall i l, map subject (evaluate_all eval uuids i l) = map f (List.filter g l) /\
    Forall P (evaluate_all eval uuids i l).
Proof.
  intros H i l. revert i; induction l as [|x l IH]; intros i; [by split; [|constructor]|].
  cbn [evaluate_all List.filter]. specialize (H (uuids i) x). destruct (IH (S i)) as [IH1 IH2].
  destruct (eval (uuids i) x) as [r|].
  - destruct H as (-> & Hs & Hp). cbn [map]. split; [by rewrite Hs, IH1|by constructor].
  - rewrite H. by split.
Qed.

Lemma evaluate_command_spec pol u c :
  match evaluate_command pol u c with
  | Some r => nonempty (command_reasons pol c) = true /\ subject r = id c /\
      subject_type r = "command" /\ reasons r = command_reasons pol (subject r) /\
      NoDup (reasons r) /\ detail r = join ", " (map reason_value (reasons r))
  | None => nonempty (command_reasons pol c) = false
  end.
Proof.
  unfold evaluate_command.
  assert (NoDup (command_reasons pol c)) as Hnd.
  { unfold command_reasons.
    repeat match goal with |- context [command_matches ?a ?b ?d] => destruct (command_matches a b d) end;
      cbn [app]; repeat constructor; set_solver. }
  destruct (command_reasons pol c) as [|r rs] eqn:E; [done|]. cbn. by rewrite E.
Qed.

Lemma evaluate_file_change_spec pol u f :
  match evaluate_file_change pol u f with
  | Some r => existsb (path_matches (path_parts (normalise f))) (sensitive_file_patterns pol) = true /\
      subject r = normalise f /\ subject_type r = "file_change" /\ reasons r = [SENSITIVE_FILE_CHANGE]
  | None => existsb (path_matches (path_parts (normalise f))) (sensitive_file_patterns pol) = false
  end.
Proof. unfold evaluate_file_change. by destruct (existsb _ _). Qed.

(** A request is made exactly when some category applies; its reasons
    are those categories, each once and in the fixed order, its detail names
    them, and a batch yields the requests of its commands followed by those of
    its file changes. *)
Lemma evaluate_batch_spec (pol : ApprovalPolicy) (uuids : nat -> string) (commands files : list string) :
  exists rc rf, evaluate_batch pol uuids commands files = rc ++ rf /\
    map subject rc = List.filter (fun c => nonempty (command_reasons pol c)) commands /\
    map subject rf = map normalise (List.filter (fun f =>
      existsb (path_matches (path_parts (normalise f))) (sensitive_file_patterns pol)) files) /\
    Forall (fun r => subject_type r = "command" /\ reasons r = command_reasons pol (subject r) /\
              NoDup (reasons r) /\ detail r = join ", " (map reason_value (reasons r))) rc /\
    Forall (fun r => subject_type r = "file_change" /\ reasons r = [SENSITIVE_FILE_CHANGE]) rf.
Proof.
  unfold evaluate_batch. eexists _, _. split; [done|].
  destruct (evaluate_all_spec (evaluate_command pol) id (fun c => nonempty (command_reasons pol c)) _
    uuids (evaluate_command_spec pol) 0 commands) as [H1 H2].
  destruct (evaluate_all_spec (evaluate_file_change pol) normalise (fun f =>
      existsb (path_matches (path_parts (normalise f))) (sensitive_file_patterns pol)) _
    uuids (evaluate_file_change_spec pol) (length commands) files) as [H3 H4].
  rewrite map_id in H1. by split_and!.
Qed.
