(* ===== verification/Budget.v ===== *)
(** * Budget policy

    Models [openhands/forgepilot/control_plane/budget_policy.py] on binary64
    numbers.  The theorems restate the ratio test in terms of the amounts
    themselves: rounding never moves a cost below the budget onto it. *)

From S2P Require Import Prelude PyStr PyFloat FloatDiv.

Inductive BudgetAction := CONTINUE | WARN | PAUSE | DOWNGRADE_MODEL | REQUIRE_APPROVAL.
#[global] Instance BudgetAction_eq_dec : EqDecision BudgetAction.
Proof. solve_decision. Defined.

Record BudgetDecision := {
  action : BudgetAction;
  current_cost_usd : float;
  max_budget_usd : float;
  detail : string;
  target_model : option string;
}.

Record BudgetPolicy := {
  warn_at_ratio : float;
  downgrade_at_ratio : float;
  pause_when_exceeded : bool;
  require_approval_when_exceeded : bool;
  fallback_model : option string;
}.

(** The field constraints [ge=0.0, le=1.0]. *)
Definition valid_policy (p : BudgetPolicy) : bool :=
  fle f0 (warn_at_ratio p) && fle (warn_at_ratio p) f1 &&
  fle f0 (downgrade_at_ratio p) && fle (downgrade_at_ratio p) f1.

Definition default_BudgetPolicy (fallback : option string) : BudgetPolicy :=
  {| warn_at_ratio := float_lit 8 1; downgrade_at_ratio := float_lit 95 2; pause_when_exceeded := true;
     require_approval_when_exceeded := true; fallback_model := fallback |}.

Definition DEFAULT_BUDGET_POLICY : BudgetPolicy := default_BudgetPolicy (Some "gpt-4.1-mini").

(** Truth value of an optional string. *)
Definition has_model (m : option string) : bool :=
  match m with Some s => negb (String.eqb s "") | None => false end.

(** [max_budget_usd is None or max_budget_usd <= 0] *)
Definition no_cap (max_budget : option float) : bool :=
  match max_budget with None => true | Some b => fle b f0 end.

Definition evaluate (p : BudgetPolicy) (cost : float) (max_budget : option float) : BudgetDecision :=
  match max_budget with
  | Some budget =>
      if no_cap max_budget
      then {| action := CONTINUE; current_cost_usd := cost; max_budget_usd := f0;
              detail := "no budget cap configured"; target_model := None |}
      else
        let ratio := fdiv cost budget in
        if fle f1 ratio && require_approval_when_exceeded p
        then {| action := if pause_when_exceeded p then PAUSE else REQUIRE_APPROVAL;
                current_cost_usd := cost; max_budget_usd := budget;
                detail := "budget exceeded; waiting for operator approval"; target_model := fallback_model p |}
        else if fle (downgrade_at_ratio p) ratio && has_model (fallback_model p)
        then {| action := DOWNGRADE_MODEL; current_cost_usd := cost; max_budget_usd := budget;
                detail := "budget near cap; downgrade model for remaining steps";
                target_model := fallback_model p |}
        else if fle (warn_at_ratio p) ratio
        then {| action := WARN; current_cost_usd := cost; max_budget_usd := budget;
                detail := "budget warning threshold reached"; target_model := None |}
        else {| action := CONTINUE; current_cost_usd := cost; max_budget_usd := budget;
                detail := "within budget"; target_model := None |}
  | None => {| action := CONTINUE; current_cost_usd := cost; max_budget_usd := f0;
               detail := "no budget cap configured"; target_model := None |}
  end.

Definition is_stop (a : BudgetAction) : bool :=
  match a with PAUSE | REQUIRE_APPROVAL => true | _ => false end.

(** For every policy, every cost and every positive finite budget (as
    binary64 numbers), the run is stopped exactly when the policy asks for
    approval and the cost has reached the budget; the rounding of the quotient
    never stops a run early nor lets one over the cap.  The cost compared is
    the exact number, infinity stops, a NaN or a negative cost does not. *)
Lemma stop_iff_cost_reaches_budget (p : BudgetPolicy) (cost : float) (m : positive) (e : Z)
    (Hcost : fvalid cost = true) (Hbudget : bounded prec emax m e = true) :
  let budget := S754_finite false m e in
  is_stop (action (evaluate p cost (Some budget))) = fle budget cost && require_approval_when_exceeded p.
Proof.
  intros budget. unfold evaluate, no_cap, budget.
  assert (fle (S754_finite false m e) f0 = false) as -> by done.
  rewrite fle_1_div by done.
  destruct (fle _ cost && require_approval_when_exceeded p); cbn [action].
  - by destruct (pause_when_exceeded p).
  - by repeat case_match.
Qed.

(** 9.999999999999998 of a budget of 10 is not stopped. *)
Lemma stop_iff_cost_reaches_budget_witness :
  exists (cost : float) m e, float_of_Z 10 = S754_finite false m e /\ flt cost (float_of_Z 10) = true /\
    is_stop (action (evaluate DEFAULT_BUDGET_POLICY cost (Some (S754_finite false m e)))) =
      fle (S754_finite false m e) cost && require_approval_when_exceeded DEFAULT_BUDGET_POLICY.
Proof.
  exists (fdiv (float_of_Z 9999999999999998) (float_of_Z (10 ^ 15))). eexists _, _.
  split; [vm_compute; reflexivity|]. split; [vm_compute; reflexivity|].
  apply (stop_iff_cost_reaches_budget DEFAULT_BUDGET_POLICY); vm_compute; reflexivity.
Defined.

(** How severe a decision is. *)
Definition severity (a : BudgetAction) : Z :=
  match a with CONTINUE => 0 | WARN => 1 | DOWNGRADE_MODEL => 2 | REQUIRE_APPROVAL | PAUSE => 3 end.

Lemma fle_trans x y z : fle x y = true -> fle y z = true -> fle x z = true.
Proof.
  unfold fle, SFleb, SFcompare.
  destruct x as [[]|[]| |[] mx ex], y as [[]|[]| |[] my ey], z as [[]|[]| |[] mz ez]; try done.
  all: rewrite ?FloatDiv.pos_compare_cont.
  all: destruct (Z.compare_spec ex ey); try done; destruct (Z.compare_spec ey ez); try done; subst;
    rewrite ?Z.compare_refl; try done;
    repeat match goal with
      | |- context [match (?a ?= ?b) with _ => _ end] => destruct (Z.compare_spec a b); try done
      | |- context [CompOpp (?a ?= ?b)] => destruct (Z.compare_spec a b); cbn [CompOpp]; try done
      end; try lia.
Qed.

(** The decision grows with the ratio: when a cost's ratio to the budget
    is at least another's, under a policy whose downgrade threshold is at least
    its warning threshold and at most 1, the first decision is at least as
    severe as the second. *)
Lemma severity_monotone (p : BudgetPolicy) (c c' : float) (budget : float)
    (Hp : valid_policy p = true) (Hw : fle (warn_at_ratio p) (downgrade_at_ratio p) = true)
    (Hc : fle (fdiv c budget) (fdiv c' budget) = true) :
  severity (action (evaluate p c (Some budget))) <= severity (action (evaluate p c' (Some budget))).
Proof.
  unfold evaluate. destruct (no_cap (Some budget)); [done|].
  set (r := fdiv c budget) in *. set (r' := fdiv c' budget) in *.
  assert (forall t, fle t r = true -> fle t r' = true) as Hmono by (intros t Ht; by eapply fle_trans).
  pose proof (Hmono f1) as H1. pose proof (Hmono (downgrade_at_ratio p)) as H2.
  pose proof (Hmono (warn_at_ratio p)) as H3.
  assert (fle (downgrade_at_ratio p) r = true -> fle (warn_at_ratio p) r' = true) as H4.
  { intros H. apply H3. by eapply fle_trans. }
  destruct (require_approval_when_exceeded p), (pause_when_exceeded p), (has_model (fallback_model p)),
    (fle f1 r), (fle f1 r'), (fle (downgrade_at_ratio p) r), (fle (downgrade_at_ratio p) r'),
    (fle (warn_at_ratio p) r), (fle (warn_at_ratio p) r');
    cbn; try lia; exfalso; naive_solver.
Qed.
Lemma severity_monotone_witness :
  severity (action (evaluate DEFAULT_BUDGET_POLICY (float_of_Z 81) (Some (float_of_Z 100)))) = 1 /\
  severity (action (evaluate DEFAULT_BUDGET_POLICY (float_of_Z 81) (Some (float_of_Z 100)))) <=
  severity (action (evaluate DEFAULT_BUDGET_POLICY (float_of_Z 96) (Some (float_of_Z 100)))).
Proof.
  split; [vm_compute; reflexivity|].
  apply (severity_monotone DEFAULT_BUDGET_POLICY); vm_compute; reflexivity.
Defined.

(** [pause_when_exceeded] alone does not pause: with
    [require_approval_when_exceeded] off, a run over its budget is never
    stopped, whatever the other flag. *)
Lemma pause_needs_approval_flag (p : BudgetPolicy) (cost budget : float) :
  require_approval_when_exceeded p = false -> is_stop (action (evaluate p cost (Some budget))) = false.
Proof.
  intros Hp. unfold evaluate. rewrite Hp, andb_false_r. by repeat case_match.
Qed.
Lemma pause_needs_approval_flag_witness :
  let p := {| warn_at_ratio := float_lit 8 1; downgrade_at_ratio := float_lit 95 2; pause_when_exceeded := true;
              require_approval_when_exceeded := false; fallback_model := None |} in
  is_stop (action (evaluate p (float_of_Z 500) (Some (float_of_Z 100)))) = false /\
  action (evaluate p (float_of_Z 500) (Some (float_of_Z 100))) = WARN.
Proof.
  split; [apply pause_needs_approval_flag; reflexivity|vm_compute; reflexivity].
Defined.
