(* ===== verification/AuditSchema.v ===== *)
(** * Audit events and their exports

    Models [openhands/forgepilot/audit/schema.py]: audit events, the ordered
    timeline, the JSON-lines and CSV exports, and the evidence pack.  The
    reading of the exports back is what the theorems are about: one JSON line
    per event, and a CSV whose rows are exactly the sanitised cells. *)

From S2P Require Import Prelude PyStr PyDict PyFloat PyVal PyTime Csv.
From Stdlib Require Import Ascii.

Inductive AuditEventType :=
  | TASK_CREATED | USER_MESSAGE | MODEL_RESPONSE | COMMAND_RUN | TEST_RESULT | APPROVAL_REQUESTED
  | APPROVAL_DECISION | MODEL | COMMAND | FILE_CHANGE | TOOL_CALL | VERIFICATION | REPORT.
#[global] Instance AuditEventType_eq_dec : EqDecision AuditEventType.
Proof. solve_decision. Defined.

Definition event_type_value (t : AuditEventType) : string :=
  match t with
  | TASK_CREATED => "task_created" | USER_MESSAGE => "user_message" | MODEL_RESPONSE => "model_response"
  | COMMAND_RUN => "command_run" | TEST_RESULT => "test_result" | APPROVAL_REQUESTED => "approval_requested"
  | APPROVAL_DECISION => "approval_decision" | MODEL => "model" | COMMAND => "command"
  | FILE_CHANGE => "file_change" | TOOL_CALL => "tool_call" | VERIFICATION => "verification"
  | REPORT => "report"
  end.

Record AuditEvent := {
  trace_id : string;
  task_id : option string;
  event_type : AuditEventType;
  phase : option string;
  timestamp : datetime;
  summary : string;
  payload : dict string pyval;
  duration_ms : option Z;
  cost_usd : option float;
}.

(** [s or ''] on an optional string. *)
Definition or_empty (o : option string) : string := default "" o.

Definition model_dump_for_export (e : AuditEvent) : dict string pyval :=
  [ ("trace_id", VStr (trace_id e));
    ("task_id", VStr (or_empty (task_id e)));
    ("event_type", VStr (event_type_value (event_type e)));
    ("phase", VStr (or_empty (phase e)));
    ("timestamp", VStr (isoformat (timestamp e)));
    ("summary", VStr (summary e));
    ("duration_ms", match duration_ms e with
                    | Some d => if d =? 0 then VStr "" else VInt d
                    | None => VStr ""
                    end);
    ("cost_usd", match cost_usd e with Some c => VFloat c | None => VStr "" end);
    ("payload", VDict (payload e)) ].

Record TaskEvidencePack := {
  p_task_id : string;
  generated_at : datetime;
  event_count : Z;
  event_types : list string;
  audit_jsonl : string;
  first_event_at : option datetime;
  last_event_at : option datetime;
}.

Definition opt_iso (o : option datetime) : string := match o with Some d => isoformat d | None => "" end.

Definition evidence_dump_for_export (p : TaskEvidencePack) : dict string pyval :=
  [ ("task_id", VStr (p_task_id p)); ("generated_at", VStr (isoformat (generated_at p)));
    ("event_count", VInt (event_count p)); ("event_types", VList (map VStr (event_types p)));
    ("first_event_at", VStr (opt_iso (first_event_at p))); ("last_event_at", VStr (opt_iso (last_event_at p)));
    ("audit_jsonl", VStr (audit_jsonl p)) ].

Definition ordered_timeline (events : list AuditEvent) : res (list AuditEvent) :=
  sorted_by_time timestamp events.

(** ** JSON lines *)

Definition json_line (e : AuditEvent) : res string := json_dumps true (VDict (model_dump_for_export e)).


Definition export_audit_events_jsonl (events : list AuditEvent) : res string :=
  timeline <-! ordered_timeline events ;;
  lines <-! rmap json_line timeline ;;
  Ok (join newline lines).

(** ** CSV *)

Definition is_formula_prefix (c : ascii) : bool :=
  existsb (fun k => ord c =? k) [61; 43; 45; 64; 9; 13].
Definition starts_formula (s : string) : bool :=
  match s with String c _ => is_formula_prefix c | EmptyString => false end.

Definition sanitize_csv_cell (v : pyval) : pyval :=
  match v with
  | VStr s => if starts_formula s then VStr ("'" +:+ s) else v
  | _ => v
  end.

Definition fieldnames : list string :=
  ["trace_id"; "task_id"; "event_type"; "phase"; "timestamp"; "summary"; "duration_ms"; "cost_usd"; "payload"].

(** The text [csv] writes for a value. *)
Definition csv_text (v : pyval) : string := match v with VNone => "" | _ => py_str v end.

Definition csv_values (e : AuditEvent) : res (dict string pyval) :=
  let row := model_dump_for_export e in
  t <-! json_dumps true (VDict (payload e)) ;;
  Ok (map (fun kv => (kv.1, sanitize_csv_cell kv.2)) (dset row "payload" (VStr t))).
(** [DictWriter.writerow]: the cells in the order of [fieldnames]. *)
Definition csv_cells (row : dict string pyval) : list string :=
  map (fun f => csv_text (default VNone (dget row f))) fieldnames.

Fixpoint csv_rows (events : list AuditEvent) : res (list (list string)) :=
  match events with
  | [] => Ok []
  | e :: es => row <-! csv_values e ;; rest <-! csv_rows es ;; Ok (csv_cells row :: rest)
  end.

Definition export_audit_events_csv (events : list AuditEvent) : res string :=
  timeline <-! ordered_timeline events ;;
  rows <-! csv_rows timeline ;;
  Ok (csv_write (fieldnames :: rows)).

(** ** The evidence pack *)

Definition nonempty_id (e : AuditEvent) : option string :=
  match task_id e with
  | Some t => if String.eqb t "" then None else Some t
  | None => None
  end.

Definition build_task_evidence_pack (now : datetime) (events : list AuditEvent) (tid : option string)
    : res TaskEvidencePack :=
  timeline <-! ordered_timeline events ;;
  let inferred := match tid with
                  | Some t => if String.eqb t "" then default "" (head (omap nonempty_id timeline)) else t
                  | None => default "" (head (omap nonempty_id timeline))
                  end in
  jsonl <-! export_audit_events_jsonl timeline ;;
  Ok {| p_task_id := inferred; generated_at := now; event_count := Z.of_nat (length timeline);
        event_types := sort_str (dedup (map (fun e => event_type_value (event_type e)) timeline));
        audit_jsonl := jsonl;
        first_event_at := timestamp <$> head timeline;
        last_event_at := timestamp <$> last timeline |}.

(** ** Properties *)

Definition in_order (l : list AuditEvent) : Prop :=
  StronglySorted (fun x y => instant (timestamp x) <= instant (timestamp y)) l.

Lemma ordered_timeline_spec l l' :
  ordered_timeline l = Ok l' -> l' ≡ₚ l /\ in_order l' /\ ordered_timeline l' = Ok l'.
Proof. apply sorted_by_time_ok. Qed.

Lemma rmap_json_total (l : list AuditEvent) : exists ls, rmap json_line l = Ok ls.
Proof.
  induction l as [|e l [ls IH]]; [by exists []|]. cbn [rmap].
  destruct (json_dumps_total (VDict (model_dump_for_export e))) as [t Ht].
  unfold json_line at 1. rewrite Ht, IH. by eexists.
Qed.

Lemma rmap_Forall2 {A} (f : A -> res string) l ls : rmap f l = Ok ls -> Forall2 (fun x t => f x = Ok t) l ls.
Proof.
  revert ls; induction l as [|x l IH]; intros ls; cbn [rmap]; [by intros [= <-]|].
  destruct (f x) as [t|] eqn:E; cbn [rbind]; [|done]. destruct (rmap f l) as [ts|]; cbn [rbind]; [|done].
  intros [= <-]. constructor; auto.
Qed.

(** A line of printable characters has no line break. *)
Lemma one_line_no_newline s : one_line s = true -> sexists (is_char lf) s = false.
Proof.
  unfold one_line. induction s as [|c s IH]; [done|]. cbn [sall sexists]. rewrite andb_true_iff.
  intros [Hc Hs]. rewrite IH by done. unfold is_char. destruct (Ascii.eqb_spec lf c) as [<-|]; [by vm_compute in Hc|done].
Qed.

Lemma json_lines_no_newline l ls : rmap json_line l = Ok ls -> Forall (fun t => sexists (is_char lf) t = false) ls.
Proof.
  intros H%rmap_Forall2. induction H as [|x t l ls Hx _ IH]; constructor; [|done].
  apply one_line_no_newline. by eapply json_one_line.
Qed.

(** The JSON-lines export succeeds whenever the timestamps compare, and
    is then one line per event: the events in chronological order (a
    permutation, equal timestamps in the given order), the [i]-th line being the
    JSON text of the [i]-th event, whatever line breaks the events contain. *)
Lemma jsonl_one_line_per_event (events : list AuditEvent) :
  match ordered_timeline events with
  | Ok timeline =>
      timeline ≡ₚ events /\ in_order timeline /\
      exists text lines, export_audit_events_jsonl events = Ok text /\
        Forall2 (fun e t => json_line e = Ok t) timeline lines /\
        text = join newline lines /\
        (events <> [] -> split_char lf text = lines)
  | Raise e => export_audit_events_jsonl events = Raise e /\ e = time_error
  end.
Proof.
  unfold export_audit_events_jsonl. destruct (ordered_timeline events) as [tl|e] eqn:E; cbn [rbind].
  - destruct (ordered_timeline_spec _ _ E) as (Hp & Ho & _). split; [done|]. split; [done|].
    destruct (rmap_json_total tl) as [lines Hl]. rewrite Hl. cbn [rbind]. exists (join newline lines), lines.
    pose proof (rmap_Forall2 _ _ _ Hl) as H2. split; [done|]. split; [done|]. split; [done|].
    intros Hne. apply split_join.
    + intros ->. inversion H2; subst. apply Permutation_nil_l in Hp. congruence.
    + by eapply json_lines_no_newline.
  - split; [done|]. unfold ordered_timeline, sorted_by_time in E. destruct (same_kind _ _); congruence.
Qed.

(** *** CSV *)

(** A cell that a spreadsheet does not take for a formula: it does not start
    with a formula character, unless it is the text of a number. *)
Definition safe_cell (e : AuditEvent) (c : string) : Prop :=
  starts_formula c = false \/
  (exists d, duration_ms e = Some d /\ c = str_of_Z d) \/ (exists x, cost_usd e = Some x /\ c = repr_float x).

Lemma sanitize_safe s : exists s', sanitize_csv_cell (VStr s) = VStr s' /\ starts_formula s' = false /\
  (s' = s \/ s' = "'" +:+ s).
Proof.
  cbn [sanitize_csv_cell]. destruct (starts_formula s) eqn:E; eexists; split_and!; eauto.
Qed.

Lemma csv_cells_safe e row :
  csv_values e = Ok row -> length (csv_cells row) = 9%nat /\ Forall (safe_cell e) (csv_cells row).
Proof.
  unfold csv_values. destruct (json_dumps_total (VDict (payload e))) as [t ->]. cbn [rbind]. intros [= <-].
  assert (forall s, safe_cell e (csv_text (sanitize_csv_cell (VStr s)))) as Hs.
  { intros s. destruct (sanitize_safe s) as (s' & -> & ? & _). by left. }
  assert (forall v w x y z u r s q, csv_cells
    [("trace_id", v); ("task_id", w); ("event_type", x); ("phase", y); ("timestamp", z); ("summary", u);
     ("duration_ms", r); ("cost_usd", s); ("payload", q)] = map csv_text [v; w; x; y; z; u; r; s; q])
    as Hcells by reflexivity.
  rewrite Hcells. cbn [map]. split; [done|].
  repeat (constructor; [first [apply Hs|idtac]|]); [| |constructor].
  - destruct (duration_ms e) as [d|] eqn:Ed; [|apply Hs]. destruct (d =? 0); [apply Hs|]. right; left. eauto.
  - destruct (cost_usd e) as [c|] eqn:Ec; [|apply Hs]. right; right. eauto.
Qed.

Lemma csv_rows_total l : exists rows, csv_rows l = Ok rows.
Proof.
  induction l as [|e l [rows IH]]; [by exists []|]. cbn [csv_rows]. unfold csv_values.
  destruct (json_dumps_total (VDict (payload e))) as [t ->]. cbn [rbind]. rewrite IH. by eexists.
Qed.

Lemma csv_rows_Forall2 l rows :
  csv_rows l = Ok rows ->
  Forall2 (fun e cells => (exists row, csv_values e = Ok row /\ cells = csv_cells row) /\
             length cells = 9%nat /\ Forall (safe_cell e) cells) l rows.
Proof.
  revert rows; induction l as [|e l IH]; intros rows; cbn [csv_rows]; [by intros [= <-]|].
  destruct (csv_values e) as [row|] eqn:E; cbn [rbind]; [|done].
  destruct (csv_rows l) as [rest|]; cbn [rbind]; [|done]. intros [= <-].
  destruct (csv_cells_safe e row E). constructor; eauto.
Qed.

(** Reading the CSV export back gives the header followed by one row per
    event in chronological order, each the sanitised cells of its event, nine
    of them: no quote, comma or line break of an event can add or break a row.
    No text cell starts with a character that spreadsheets take for a formula
    (only the two number columns may start with a sign). *)
Lemma csv_reads_back (events timeline : list AuditEvent)
    (Hord : ordered_timeline events = Ok timeline) :
  exists text rows, export_audit_events_csv events = Ok text /\
    csv_read text = fieldnames :: rows /\
    Forall2 (fun e cells => (exists row, csv_values e = Ok row /\ cells = csv_cells row) /\
               length cells = 9%nat /\ Forall (safe_cell e) cells) timeline rows.
Proof.
  unfold export_audit_events_csv. rewrite Hord. cbn [rbind].
  destruct (csv_rows_total timeline) as [rows Hr]. rewrite Hr. cbn [rbind].
  pose proof (csv_rows_Forall2 _ _ Hr) as H2. eexists _, rows. split; [done|]. split; [|done].
  apply csv_read_write. constructor; [simpl; lia|].
  clear -H2. induction H2 as [|e c l ls (_ & Hlen & _) _ IH]; constructor; [lia|done].
Qed.

Definition example_event : AuditEvent :=
  {| trace_id := "t1"; task_id := None; event_type := COMMAND_RUN; phase := Some "execute"; timestamp := utc 0;
     summary := "=1+1," +:+ newline +:+ "x"; payload := [("k", VStr newline)]; duration_ms := Some 0;
     cost_usd := Some f0 |}.
Lemma csv_reads_back_witness :
  ordered_timeline [example_event] = Ok [example_event] /\
  exists text rows, export_audit_events_csv [example_event] = Ok text /\ csv_read text = fieldnames :: rows.
Proof.
  split; [reflexivity|].
  destruct (csv_reads_back [example_event] [example_event] eq_refl) as (text & rows & H1 & H2 & _).
  exists text, rows. by split.
Defined.

(** An evidence pack counts every event once, lists each event type once
    in alphabetical order, and spans the earliest and latest timestamps; its
    task id is the given one, else the first non-empty one in time order; its
    text is the JSON-lines export. *)
Lemma evidence_pack_spec (now : datetime) (events : list AuditEvent) (tid : option string)
    (p : TaskEvidencePack) (Hp : build_task_evidence_pack now events tid = Ok p) :
  event_count p = Z.of_nat (length events) /\
  export_audit_events_jsonl events = Ok (audit_jsonl p) /\
  (forall s, s ∈ event_types p <-> exists e, e ∈ events /\ event_type_value (event_type e) = s) /\
  NoDup (event_types p) /\ StronglySorted String.le (event_types p) /\
  (forall f l, first_event_at p = Some f -> last_event_at p = Some l ->
     forall e, e ∈ events -> instant f <= instant (timestamp e) <= instant l) /\
  (forall t, tid = Some t -> t <> "" -> p_task_id p = t).
Proof.
  unfold build_task_evidence_pack in Hp. destruct (ordered_timeline events) as [tl|] eqn:E; [|done].
  cbn [rbind] in Hp. destruct (ordered_timeline_spec _ _ E) as (Hperm & Ho & Ei).
  assert (export_audit_events_jsonl events = export_audit_events_jsonl tl) as Ej
    by (unfold export_audit_events_jsonl; by rewrite E, Ei).
  destruct (export_audit_events_jsonl tl) as [jsonl|] eqn:Ejs; [|done]. cbn [rbind] in Hp. injection Hp as <-.
  cbn [event_count audit_jsonl event_types first_event_at last_event_at p_task_id]. split_and!.
  - by rewrite Hperm.
  - by rewrite Ej.
  - intros s. rewrite sort_str_perm, elem_of_dedup, list_elem_of_In, in_map_iff.
    setoid_rewrite <-list_elem_of_In. setoid_rewrite <-Hperm. naive_solver.
  - rewrite sort_str_perm. apply NoDup_dedup.
  - apply sort_str_sorted.
  - intros f l Hf Hl e He. rewrite <-Hperm in He.
    destruct tl as [|e0 tl]; [done|]. simpl in Hf. injection Hf as <-.
    destruct (last (e0 :: tl)) as [e1|] eqn:El; [|done]. injection Hl as <-.
    unfold in_order in Ho. split.
    + apply StronglySorted_inv in Ho as [_ Hall]. apply elem_of_cons in He as [->|He]; [lia|].
      rewrite Forall_forall in Hall. by apply Hall.
    + apply last_Some in El as [pre Hpre]. rewrite Hpre in *.
      apply elem_of_app in He as [He|He%list_elem_of_singleton]; [|subst; lia].
      by apply (StronglySorted_app_1_elem_of _ _ _ _ _ Ho He), list_elem_of_singleton.
  - intros t -> Ht. by apply String.eqb_neq in Ht as ->.
Qed.
Lemma evidence_pack_spec_witness :
  exists p, build_task_evidence_pack (utc 5) [example_event] None = Ok p /\ event_count p = 1.
Proof.
  eexists. split; [vm_compute; reflexivity|].
  apply (proj1 (evidence_pack_spec (utc 5) [example_event] None _ ltac:(vm_compute; reflexivity))).
Defined.
