(* ===== verification/Timeline.v ===== *)
(** * The unified audit timeline

    Models [openhands/forgepilot/audit/timeline.py]: unique node ids, the
    windowed buffers of recent commands and model responses, and the timeline
    builder (parents, children, chains, orphans, totals).

    The theorems relate the builder to what it stands for: the buffers to "the
    latest earlier cause within the window", the chains to a partition of the
    events into causal trees. *)

From S2P Require Import Prelude PyStr PyDict PyFloat FloatRound PyVal PyTime AuditSchema.
From Stdlib Require Import Ascii.

Record TimelineLink := { source_id : string; target_id : string; relation : string; l_detail : string }.

Record TimelineNode := {
  event : AuditEvent;
  node_id : string;
  parent_ids : list string;
  child_ids : list string;
  depth : Z;
  chain_label : string;
}.

(** The constructor; an empty id falls back to the trace id. *)
Definition mk_node (e : AuditEvent) (nid : string) (parents : list string) (label : string) : TimelineNode :=
  {| event := e; node_id := if String.eqb nid "" then trace_id e else nid; parent_ids := parents;
     child_ids := []; depth := 0; chain_label := label |}.
Definition add_child (c : string) (n : TimelineNode) : TimelineNode :=
  {| event := event n; node_id := node_id n; parent_ids := parent_ids n; child_ids := child_ids n ++ [c];
     depth := depth n; chain_label := chain_label n |}.

Record TimelineChain := {
  chain_id : string;
  nodes : list TimelineNode;
  started_at : option datetime;
  completed_at : option datetime;
  self_heal_round : Z;
}.

Record AuditTimeline := {
  a_task_id : string;
  chains : list TimelineChain;
  orphan_nodes : list TimelineNode;
  total_cost_usd : float;
  total_duration_ms : Z;
  a_summary : string;
}.

Definition CORRELATION_WINDOW_MS : Z := 5000.
Definition is_model (t : AuditEventType) : bool := bool_decide (t = MODEL \/ t = MODEL_RESPONSE).
Definition is_command (t : AuditEventType) : bool := bool_decide (t = COMMAND \/ t = COMMAND_RUN).
Definition is_verification (t : AuditEventType) : bool := bool_decide (t = VERIFICATION \/ t = TEST_RESULT).

(** ** Node ids *)

(** [occurrences] is the [Counter]. *)
Fixpoint assign_ids (occurrences : dict string Z) (events : list AuditEvent) : list (string * AuditEvent) :=
  match events with
  | [] => []
  | e :: es =>
      let count := default 0 (dget occurrences (trace_id e)) + 1 in
      let nid := if count =? 1 then trace_id e else trace_id e +:+ "#" +:+ str_of_Z count in
      (nid, e) :: assign_ids (dset occurrences (trace_id e) count) es
  end.

Definition assign_unique_node_ids (events : list AuditEvent) : res (list (string * AuditEvent)) :=
  timeline <-! ordered_timeline events ;; Ok (assign_ids [] timeline).

(** ** The buffers of recent events, oldest entry first *)

Definition RecentEvents : Type := list (string * datetime).

(** The loop condition of [_prune]: [delta_ms] is a float ([FloatRound]). *)
Definition too_old (window_ms : Z) (now t : datetime) : bool :=
  let delta := delta_ms (instant now - instant t) in negb (flt delta f0 || fle delta (float_of_Z window_ms)).

Fixpoint prune (window_ms : Z) (now : datetime) (entries : RecentEvents) : RecentEvents :=
  match entries with
  | [] => []
  | (i, t) :: rest => if too_old window_ms now t then prune window_ms now rest else entries
  end.
Definition push (window_ms : Z) (i : string) (t : datetime) (entries : RecentEvents) : RecentEvents :=
  prune window_ms t entries ++ [(i, t)].
Definition latest_within_window (window_ms : Z) (now : datetime) : M RecentEvents (option string) :=
  fun entries => let entries := prune window_ms now entries in (Ok (fst <$> last entries), entries).

(** ** [_find_preceding] *)

Definition may_cause (prev e : AuditEvent) : bool :=
  (is_model (event_type prev) && bool_decide (event_type e = COMMAND_RUN \/ event_type e = COMMAND \/ event_type e = TOOL_CALL))
  || (is_command (event_type prev) && bool_decide (event_type e = FILE_CHANGE))
  || (is_command (event_type prev) && is_verification (event_type e)).
Definition find_preceding (e : AuditEvent) (recent : list AuditEvent) : list string :=
  map trace_id (List.filter (fun prev =>
    let delta := delta_ms (instant (timestamp e) - instant (timestamp prev)) in
    negb (flt delta f0 || flt (float_of_Z CORRELATION_WINDOW_MS) delta) && may_cause prev e) (rev recent)).

(** ** Building the timeline *)

Record builder := {
  nodes_by_id : dict string TimelineNode;
  recent_command : RecentEvents;
  recent_model : RecentEvents;
}.

Definition ask_model (now : datetime) (b : builder) : list string * builder :=
  let '(r, m) := latest_within_window CORRELATION_WINDOW_MS now (recent_model b) in
  (match r with Ok (Some p) => [p] | _ => [] end,
   {| nodes_by_id := nodes_by_id b; recent_command := recent_command b; recent_model := m |}).
Definition ask_command (now : datetime) (b : builder) : list string * builder :=
  let '(r, c) := latest_within_window CORRELATION_WINDOW_MS now (recent_command b) in
  (match r with Ok (Some p) => [p] | _ => [] end,
   {| nodes_by_id := nodes_by_id b; recent_command := c; recent_model := recent_model b |}).

Definition nonempty_list {A} (l : list A) : bool := match l with [] => false | _ => true end.

(** One iteration of the loop over the identified events. *)
Definition build_step (b : builder) (ie : string * AuditEvent) : builder :=
  let '(nid, e) := ie in
  let ty := event_type e in
  let now := timestamp e in
  let '(parents, label, b) :=
    if is_command ty then
      let '(ps, b) := ask_model now b in
      (ps, "", {| nodes_by_id := nodes_by_id b;
                  recent_command := push CORRELATION_WINDOW_MS nid now (recent_command b);
                  recent_model := recent_model b |})
    else if bool_decide (ty = FILE_CHANGE) then let '(ps, b) := ask_command now b in (ps, "", b)
    else if is_verification ty then
      let '(ps, b) := ask_command now b in (ps, if nonempty_list ps then "verify" else "", b)
    else if is_model ty then
      ([], "", {| nodes_by_id := nodes_by_id b; recent_command := recent_command b;
                  recent_model := push CORRELATION_WINDOW_MS nid now (recent_model b) |})
    else if bool_decide (ty = TOOL_CALL) then let '(ps, b) := ask_model now b in (ps, "", b)
    else ([], "", b) in
  {| nodes_by_id := dset (nodes_by_id b) nid (mk_node e nid parents label);
     recent_command := recent_command b; recent_model := recent_model b |}.

Definition build_nodes (identified : list (string * AuditEvent)) : dict string TimelineNode :=
  nodes_by_id (fold_left build_step identified {| nodes_by_id := []; recent_command := []; recent_model := [] |}).

(** Child references, parents in the order of the nodes. *)
Definition wire_node (d : dict string TimelineNode) (n : TimelineNode) : dict string TimelineNode :=
  fold_left (fun d pid => if dmem d pid then dalter (add_child (node_id n)) d pid else d) (parent_ids n) d.
Definition wire_children (d : dict string TimelineNode) : dict string TimelineNode :=
  fold_left wire_node (dvals d) d.

(** [walk_chain]; the top of the stack is the head of the list. *)
Fixpoint walk (fuel : nat) (d : dict string TimelineNode) (visited : gset string) (stack : list string)
    (acc : list TimelineNode) : list TimelineNode * gset string :=
  match fuel with
  | O => (acc, visited)
  | S f =>
      match stack with
      | [] => (acc, visited)
      | nid :: stack =>
          if decide (nid ∈ visited) then walk f d visited stack acc
          else
            let visited := {[nid]} ∪ visited in
            match dget d nid with
            | None => walk f d visited stack acc
            | Some n => walk f d visited (child_ids n ++ stack) (acc ++ [n])
            end
      end
  end.
(** Every step pops one entry, and the children of a node are pushed once. *)
Definition walk_fuel (d : dict string TimelineNode) : nat :=
  2 + sum_list (map (fun n => length (child_ids n)) (dvals d)).
Definition walk_chain (d : dict string TimelineNode) (visited : gset string) (start : string)
    : list TimelineNode * gset string := walk (walk_fuel d) d visited [start] [].

Definition mk_chain (idx : Z) (ns : list TimelineNode) : TimelineChain :=
  {| chain_id := "chain-" +:+ zfill 3 (nat_digits idx); nodes := ns;
     started_at := (fun n => timestamp (event n)) <$> head ns;
     completed_at := (fun n => timestamp (event n)) <$> last ns;
     self_heal_round := 0 |}.

(** The loop over the nodes that starts a chain at each unvisited root. *)
Fixpoint build_chains (d : dict string TimelineNode) (ns : list TimelineNode) (visited : gset string)
    (cs : list TimelineChain) : list TimelineChain * gset string :=
  match ns with
  | [] => (cs, visited)
  | n :: ns' =>
      if negb (nonempty_list (parent_ids n)) && negb (bool_decide (node_id n ∈ visited))
      then let '(chain_nodes, visited) := walk_chain d visited (node_id n) in
           build_chains d ns' visited
             (if nonempty_list chain_nodes then cs ++ [mk_chain (Z.of_nat (length cs) + 1) chain_nodes] else cs)
      else build_chains d ns' visited cs
  end.

Definition count_types (l : list (string * AuditEvent)) : dict string Z :=
  fold_left (fun d ie => let k := event_type_value (event_type ie.2) in dset d k (default 0 (dget d k) + 1)) l [].

Definition timeline_of (identified : list (string * AuditEvent)) : AuditTimeline :=
  match identified with
  | [] => {| a_task_id := ""; chains := []; orphan_nodes := []; total_cost_usd := f0; total_duration_ms := 0;
             a_summary := "No events recorded." |}
  | (_, e0) :: _ =>
      let d := wire_children (build_nodes identified) in
      let '(cs, visited) := build_chains d (dvals d) ∅ [] in
      let parts := map (fun kv => str_of_Z kv.2 +:+ " " +:+ kv.1) (count_types identified) in
      {| a_task_id := or_empty (task_id e0);
         chains := cs;
         orphan_nodes := List.filter (fun n => negb (bool_decide (node_id n ∈ visited))) (dvals d);
         total_cost_usd := py_sum (omap (fun ie => cost_usd ie.2) identified);
         total_duration_ms := foldr Z.add 0 (omap (fun ie => duration_ms ie.2) identified);
         a_summary := str_of_Z (Z.of_nat (length cs)) +:+ " chains: " +:+ join ", " parts |}
  end.

Definition build_timeline (events : list AuditEvent) : res AuditTimeline :=
  identified <-! assign_unique_node_ids events ;; Ok (timeline_of identified).

(** ** Unique ids *)

Definition hash : ascii := "#"%char.
Definition no_hash (s : string) : bool := negb (sexists (is_char hash) s).

(** The id of the [c]-th event of a trace. *)
Definition occurrence_id (t : string) (c : Z) : string := if c =? 1 then t else t +:+ "#" +:+ str_of_Z c.

Lemma split_hash s t u v :
  no_hash s = true -> no_hash t = true -> s +:+ String hash u = t +:+ String hash v -> s = t /\ u = v.
Proof.
  unfold no_hash. rewrite !negb_true_iff. intros Hs Ht E.
  pose proof (f_equal (split_char hash) E) as Es. rewrite !split_char_app in Es by done.
  injection Es as -> _. split; [done|]. apply sapp_inj_l in E. by injection E.
Qed.

Lemma occurrence_id_inj t c t' c' :
  no_hash t = true -> no_hash t' = true -> 1 <= c -> 1 <= c' ->
  occurrence_id t c = occurrence_id t' c' -> t = t' /\ c = c'.
Proof.
  intros Ht Ht' Hc Hc'. unfold occurrence_id.
  assert (forall s u n, no_hash s = true -> s <> u +:+ "#" +:+ n) as Hne.
  { intros s u n Hs ->. unfold no_hash in Hs. rewrite sexists_app, sapp_cons in Hs. cbn [sexists] in Hs.
    change (is_char hash "#") with true in Hs. by rewrite orb_true_r in Hs. }
  destruct (Z.eqb_spec c 1) as [->|H1], (Z.eqb_spec c' 1) as [->|H2].
  - done.
  - intros E. by apply Hne in E.
  - intros E. symmetry in E. by apply Hne in E.
  - intros E. apply split_hash in E as [-> E]; [|done..]. split; [done|]. by apply str_of_Z_inj in E; [|lia..].
Qed.

Lemma assign_ids_spec occ events i :
  Forall (fun e => no_hash (trace_id e) = true) events -> (forall t, 0 <= default 0 (dget occ t)) ->
  i ∈ (assign_ids occ events).*1 ->
  exists t c, i = occurrence_id t c /\ no_hash t = true /\ default 0 (dget occ t) < c.
Proof.
  intros He. revert occ; induction He as [|e es Hh Hes IH]; intros occ Ho; [by intros ?%elem_of_nil|].
  cbn [assign_ids]. rewrite fmap_cons, elem_of_cons. intros [->|Hi].
  - eexists (trace_id e), _. split; [done|]. split; [done|]. lia.
  - destruct (IH (dset occ (trace_id e) (default 0 (dget occ (trace_id e)) + 1))) as (t & c & -> & Ht & Hc); [|done|].
    + intros t. rewrite dget_dset. case_decide; [|done]. simpl. specialize (Ho (trace_id e)). lia.
    + exists t, c. split_and!; [done..|]. rewrite dget_dset in Hc. case_decide; [|done]. subst. simpl in Hc. lia.
Qed.

Lemma assign_ids_NoDup occ events :
  Forall (fun e => no_hash (trace_id e) = true) events -> (forall t, 0 <= default 0 (dget occ t)) ->
  NoDup (assign_ids occ events).*1.
Proof.
  intros He. revert occ; induction He as [|e es Hh Hes IH]; intros occ Ho; [constructor|].
  cbn [assign_ids]. rewrite fmap_cons.
  assert (forall t, 0 <= default 0 (dget (dset occ (trace_id e) (default 0 (dget occ (trace_id e)) + 1)) t)) as Ho'.
  { intros t. rewrite dget_dset. case_decide; [|done]. simpl. specialize (Ho (trace_id e)). lia. }
  constructor; [|by apply IH]. intros Hin. apply assign_ids_spec in Hin as (t & c & E & Ht & Hc); [|done..].
  change (occurrence_id (trace_id e) (default 0 (dget occ (trace_id e)) + 1) = occurrence_id t c) in E.
  pose proof (Ho (trace_id e)). pose proof (Ho' t).
  apply occurrence_id_inj in E as [E1 E2]; [|done..|lia|lia]. subst t c.
  rewrite dget_dset, decide_True in Hc by done. simpl in Hc. lia.
Qed.

Lemma assign_ids_snd occ events : (assign_ids occ events).*2 = events.
Proof. revert occ; induction events as [|e es IH]; intros occ; [done|]. cbn [assign_ids]. rewrite fmap_cons. by rewrite IH. Qed.

(** Node ids keep the events, in time order, and identify them: when no
    trace id contains a [#], the ids of any events (however many share a trace
    id) are pairwise distinct, and the first event of a trace keeps the trace
    id itself. *)
Lemma node_ids_unique (events : list AuditEvent) (identified : list (string * AuditEvent))
    (Hhash : Forall (fun e => no_hash (trace_id e) = true) events)
    (Hids : assign_unique_node_ids events = Ok identified) :
  ordered_timeline events = Ok identified.*2 /\ NoDup identified.*1 /\
  (forall pre i e post, identified = pre ++ (i, e) :: post ->
     (forall e', e' ∈ pre.*2 -> trace_id e' <> trace_id e) -> i = trace_id e).
Proof.
  unfold assign_unique_node_ids in Hids. destruct (ordered_timeline events) as [tl|] eqn:E; [|done].
  cbn [rbind] in Hids. injection Hids as <-. rewrite assign_ids_snd.
  destruct (ordered_timeline_spec _ _ E) as (Hp & _ & _).
  split; [done|]. split; [apply assign_ids_NoDup; [by rewrite Hp|done]|].
  assert (forall occ pre i e post, assign_ids occ tl = pre ++ (i, e) :: post ->
    (forall e', e' ∈ pre.*2 -> trace_id e' <> trace_id e) -> dget occ (trace_id e) = None -> i = trace_id e) as H.
  { clear. induction tl as [|e0 tl IH]; intros occ pre i e post E; [by destruct pre|].
    cbn [assign_ids] in E. destruct pre as [|[i0 e1] pre]; simpl in E.
    - injection E as <- <- _. intros _ ->. done.
    - injection E as _ <- E. intros Hne Hocc. eapply (IH _ _ _ _ _ E).
      + intros e' He'. apply Hne. by right.
      + rewrite dget_dset. rewrite decide_False; [done|]. apply Hne. by left. }
  intros pre i e post E' Hne. by eapply (H []).
Qed.

Definition traced (t : string) : AuditEvent :=
  {| trace_id := t; task_id := None; event_type := COMMAND; phase := None; timestamp := utc 0;
     summary := ""; payload := []; duration_ms := None; cost_usd := None |}.
Lemma node_ids_unique_witness :
  exists l, assign_unique_node_ids [traced "a"; traced "b"; traced "a"] = Ok l /\
    l.*1 = ["a"; "b"; "a#2"] /\ NoDup l.*1.
Proof.
  eexists. split; [reflexivity|]. split; [reflexivity|].
  apply (node_ids_unique [traced "a"; traced "b"; traced "a"] _ ltac:(by repeat constructor) eq_refl).
Defined.

(** A trace id that looks like a numbered one breaks uniqueness: three
    events get two ids, and the timeline loses one of them. *)
Example hash_in_trace_id_loses_event :
  let events := [traced "a"; traced "a"; traced "a#2"] in
  (exists l, assign_unique_node_ids events = Ok l /\ l.*1 = ["a"; "a#2"; "a#2"]) /\
  (exists t, build_timeline events = Ok t /\
     sum_list (map (fun c => length (nodes c)) (chains t)) = 2%nat /\ orphan_nodes t = []).
Proof. split; eexists; split; by vm_compute. Qed.

(** ** Parents: what the buffers compute *)

Notation identified_event := (string * AuditEvent)%type.
Definition time_of (ie : identified_event) : Z := instant (timestamp ie.2).

(** The events that may cause an event of type [ty]. *)
Definition causes (ty : AuditEventType) : option (AuditEventType -> bool) :=
  if is_command ty then Some is_model
  else if bool_decide (ty = FILE_CHANGE) then Some is_command
  else if is_verification ty then Some is_command
  else if is_model ty then None
  else if bool_decide (ty = TOOL_CALL) then Some is_model
  else None.

Definition of_type (p : AuditEventType -> bool) (l : list identified_event) : list identified_event :=
  List.filter (fun ie => p (event_type ie.2)) l.

(** The specification: the latest earlier event of the causing type, if it is
    at most five seconds old. *)
Definition latest_cause (p : AuditEventType -> bool) (prev : list identified_event) (now : Z) : list string :=
  match last (of_type p prev) with
  | Some ie => if now - time_of ie <=? CORRELATION_WINDOW_MS * 1000 then [ie.1] else []
  | None => []
  end.
Definition spec_parents (prev : list identified_event) (e : AuditEvent) : list string :=
  match causes (event_type e) with
  | Some p => latest_cause p prev (instant (timestamp e))
  | None => []
  end.
Definition spec_label (parents : list string) (e : AuditEvent) : string :=
  if is_verification (event_type e) && nonempty_list parents then "verify" else "".

Fixpoint spec_nodes (prev l : list identified_event) : list (string * TimelineNode) :=
  match l with
  | [] => []
  | (i, e) :: l' =>
      let ps := spec_parents prev e in
      (i, mk_node e i ps (spec_label ps e)) :: spec_nodes (prev ++ [(i, e)]) l'
  end.

Definition stamps (l : list identified_event) : RecentEvents := map (fun ie => (ie.1, timestamp ie.2)) l.

(** A buffer holds all of the events pushed, but for a prefix of old ones. *)
Definition buffer_ok (pushed : list identified_event) (now : Z) (entries : RecentEvents) : Prop :=
  exists dropped kept, pushed = dropped ++ kept /\ entries = stamps kept /\
    Forall (fun ie => CORRELATION_WINDOW_MS * 1000 < now - time_of ie) dropped.

Definition by_time (l : list identified_event) : Prop :=
  StronglySorted (fun x y => time_of x <= time_of y) l.

(** The rounded milliseconds decide as the exact microseconds do. *)
Lemma too_old_us now t : too_old CORRELATION_WINDOW_MS now t = (CORRELATION_WINDOW_MS * 1000 <? instant now - instant t).
Proof. unfold too_old. change CORRELATION_WINDOW_MS with 5000. rewrite delta_ms_5000. by rewrite Z.ltb_antisym. Qed.

Lemma prune_ok pushed now0 now d entries :
  buffer_ok pushed now0 entries -> now0 <= now -> now = instant d ->
  buffer_ok pushed now (prune CORRELATION_WINDOW_MS d entries).
Proof.
  intros (dropped & kept & -> & -> & Hd0) Hle ->.
  assert (Forall (fun ie => CORRELATION_WINDOW_MS * 1000 < instant d - time_of ie) dropped) as Hd
    by (eapply Forall_impl; [exact Hd0|]; simpl; lia).
  clear Hd0 Hle now0. revert dropped Hd. induction kept as [|ie kept IH]; intros dropped Hd.
  - by exists dropped, [].
  - cbn [stamps map prune]. rewrite too_old_us. fold (time_of ie). destruct (Z.ltb_spec (CORRELATION_WINDOW_MS * 1000) (instant d - time_of ie)).
    + destruct (IH (dropped ++ [ie])) as (dr & k & E & Ek & Hdr).
      { apply Forall_app. split; [done|]. repeat constructor. lia. }
      exists dr, k. split_and!; [|done..]. rewrite <-E. by rewrite <-app_assoc.
    + by exists dropped, (ie :: kept).
Qed.

Lemma prune_latest p prev now0 d entries :
  buffer_ok (of_type p prev) now0 entries -> now0 <= instant d -> by_time (of_type p prev) ->
  fst <$> last (prune CORRELATION_WINDOW_MS d entries) = head (latest_cause p prev (instant d)).
Proof.
  intros Hb Hle Hs. unfold latest_cause. destruct Hb as (dropped & kept & E & -> & Hd0).
  assert (Forall (fun ie => CORRELATION_WINDOW_MS * 1000 < instant d - time_of ie) dropped) as Hd
    by (eapply Forall_impl; [exact Hd0|]; simpl; lia).
  rewrite E in *. clear E Hd0 Hle now0. revert dropped Hd Hs. induction kept as [|ie kept IH]; intros dropped Hd Hs.
  - rewrite app_nil_r. cbn [stamps map prune]. destruct (last dropped) as [ie|] eqn:El; [|done].
    apply last_Some in El as [pre ->]. apply Forall_app in Hd as [_ Hd]. apply Forall_cons in Hd as [Hd _].
    destruct (Z.leb_spec (instant d - time_of ie) (CORRELATION_WINDOW_MS * 1000)); [lia|done].
  - cbn [stamps map prune]. rewrite too_old_us. fold (time_of ie).
    destruct (Z.ltb_spec (CORRELATION_WINDOW_MS * 1000) (instant d - time_of ie)) as [Hold|Hnew].
    + fold (stamps kept). rewrite (IH (dropped ++ [ie])); [by rewrite <-app_assoc| |by rewrite <-app_assoc].
      apply Forall_app. split; [done|]. repeat constructor. lia.
    + change ((ie.1, timestamp ie.2) :: map _ kept) with (stamps (ie :: kept)).
      assert (is_Some (last (ie :: kept))) as [je Hj] by (apply last_is_Some; done).
      rewrite last_app, Hj. assert (last (stamps (ie :: kept)) = Some (je.1, timestamp je.2)) as ->.
      { unfold stamps. by rewrite map_last, Hj || rewrite fmap_last, Hj. }
      assert (time_of ie <= time_of je) as Hij.
      { apply StronglySorted_app_1_r in Hs. apply last_Some in Hj as [[|x pre] Hj]; simpl in Hj.
        - injection Hj as -> _. lia.
        - injection Hj as -> ->. apply StronglySorted_inv in Hs as [_ Hs]. rewrite Forall_forall in Hs.
          apply Hs, elem_of_app. right. by left. }
      destruct (Z.leb_spec (instant d - time_of je) (CORRELATION_WINDOW_MS * 1000)); [done|lia].
Qed.

Lemma push_ok pushed now0 i e entries :
  buffer_ok pushed now0 entries -> now0 <= instant (timestamp e) ->
  buffer_ok (pushed ++ [(i, e)]) (instant (timestamp e)) (push CORRELATION_WINDOW_MS i (timestamp e) entries).
Proof.
  intros Hb Hle. destruct (prune_ok _ _ _ (timestamp e) _ Hb Hle eq_refl) as (dr & k & -> & Ek & Hd).
  exists dr, (k ++ [(i, e)]). split_and!; [by rewrite <-app_assoc| |done].
  unfold push, stamps in *. by rewrite Ek, map_app.
Qed.

Lemma by_time_filter p l : by_time l -> by_time (of_type p l).
Proof.
  unfold by_time, of_type. induction 1 as [|x l Hl IH Hx]; [constructor|]. cbn [List.filter].
  destruct (p (event_type x.2)); [|done]. constructor; [done|].
  rewrite Forall_forall in *. intros y Hy. apply Hx. rewrite list_elem_of_In, filter_In in Hy.
  apply list_elem_of_In, Hy.
Qed.

Lemma of_type_snoc p prev i e :
  of_type p (prev ++ [(i, e)]) = of_type p prev ++ (if p (event_type e) then [(i, e)] else []).
Proof. unfold of_type. rewrite List.filter_app. simpl. by destruct (p (event_type e)). Qed.

Lemma buffer_ok_later pushed now now' entries :
  buffer_ok pushed now entries -> now <= now' -> buffer_ok pushed now' entries.
Proof.
  intros (dr & k & -> & -> & Hd) Hle. exists dr, k. split_and!; [done..|].
  eapply Forall_impl; [exact Hd|]. simpl; lia.
Qed.

(** The state of the loop after the events [prev]. *)
Definition builder_ok (prev : list identified_event) (now : Z) (b : builder) : Prop :=
  buffer_ok (of_type is_command prev) now (recent_command b) /\
  buffer_ok (of_type is_model prev) now (recent_model b).

Lemma latest_cause_singleton p prev now :
  match head (latest_cause p prev now) with Some x => [x] | None => [] end = latest_cause p prev now.
Proof. unfold latest_cause. destruct (last _); [|done]. by destruct (_ <=? _). Qed.

Lemma ask_command_spec prev now0 d b :
  builder_ok prev now0 b -> now0 <= instant d -> by_time prev ->
  (ask_command d b).1 = latest_cause is_command prev (instant d) /\
  builder_ok prev (instant d) (ask_command d b).2 /\
  nodes_by_id (ask_command d b).2 = nodes_by_id b.
Proof.
  intros [Hc Hm] Hle Hs. unfold ask_command, latest_within_window. cbn [fst snd].
  rewrite (prune_latest is_command prev now0 d _ Hc Hle (by_time_filter _ _ Hs)).
  split; [|split; [split; cbn|done]].
  - rewrite <-latest_cause_singleton at 2. by destruct (head _).
  - by eapply prune_ok.
  - by eapply buffer_ok_later.
Qed.
Lemma ask_model_spec prev now0 d b :
  builder_ok prev now0 b -> now0 <= instant d -> by_time prev ->
  (ask_model d b).1 = latest_cause is_model prev (instant d) /\
  builder_ok prev (instant d) (ask_model d b).2 /\
  nodes_by_id (ask_model d b).2 = nodes_by_id b.
Proof.
  intros [Hc Hm] Hle Hs. unfold ask_model, latest_within_window. cbn [fst snd].
  rewrite (prune_latest is_model prev now0 d _ Hm Hle (by_time_filter _ _ Hs)).
  split; [|split; [split; cbn|done]].
  - rewrite <-latest_cause_singleton at 2. by destruct (head _).
  - by eapply buffer_ok_later.
  - by eapply prune_ok.
Qed.

Lemma builder_ok_skip prev now i e b :
  is_command (event_type e) = false -> is_model (event_type e) = false ->
  builder_ok prev now b -> builder_ok (prev ++ [(i, e)]) now b.
Proof. intros Hc Hm [H1 H2]. split; by rewrite of_type_snoc, ?Hc, ?Hm, app_nil_r. Qed.

Lemma is_command_eq t : is_command t = match t with COMMAND | COMMAND_RUN => true | _ => false end.
Proof. by destruct t. Qed.
Lemma is_model_eq t : is_model t = match t with MODEL | MODEL_RESPONSE => true | _ => false end.
Proof. by destruct t. Qed.
Lemma is_verification_eq t : is_verification t = match t with VERIFICATION | TEST_RESULT => true | _ => false end.
Proof. by destruct t. Qed.
Lemma is_file_change_eq t : bool_decide (t = FILE_CHANGE) = match t with FILE_CHANGE => true | _ => false end.
Proof. by destruct t. Qed.
Lemma is_tool_call_eq t : bool_decide (t = TOOL_CALL) = match t with TOOL_CALL => true | _ => false end.
Proof. by destruct t. Qed.

Lemma build_step_spec prev now0 b i e :
  builder_ok prev now0 b -> now0 <= instant (timestamp e) -> by_time prev ->
  builder_ok (prev ++ [(i, e)]) (instant (timestamp e)) (build_step b (i, e)) /\
  nodes_by_id (build_step b (i, e)) =
    dset (nodes_by_id b) i (mk_node e i (spec_parents prev e) (spec_label (spec_parents prev e) e)).
Proof.
  intros Hb Hle Hs.
  destruct (ask_command_spec prev now0 (timestamp e) b Hb Hle Hs) as (C1 & C2 & C3).
  destruct (ask_model_spec prev now0 (timestamp e) b Hb Hle Hs) as (M1 & M2 & M3).
  assert (builder_ok prev (instant (timestamp e)) b) as Hb'.
  { destruct Hb as [H1 H2]. split; by eapply buffer_ok_later. }
  unfold build_step, spec_parents, causes, spec_label.
  destruct (ask_command (timestamp e) b) as [pc bc], (ask_model (timestamp e) b) as [pm bm].
  cbn [fst snd] in *. subst pc pm.
  rewrite !is_command_eq, !is_verification_eq, !is_model_eq, !is_file_change_eq, !is_tool_call_eq.
  destruct (event_type e) eqn:Et; cbn -[latest_cause push mk_node];
    (split; [|by rewrite ?C3, ?M3]); unfold builder_ok; cbn -[push of_type];
    rewrite !of_type_snoc, is_command_eq, is_model_eq, Et; cbn -[push]; rewrite ?app_nil_r;
    (split; [first [apply Hb'|apply C2|apply M2|eapply push_ok; [apply M2|done]|eapply push_ok; [apply Hb|done]]|
             first [apply Hb'|apply C2|apply M2|eapply push_ok; [apply Hb|done]]]).
Qed.

Lemma build_nodes_from prev l b now0 :
  builder_ok prev now0 b -> by_time (prev ++ l) -> (forall ie, ie ∈ l -> now0 <= time_of ie) ->
  NoDup (dkeys (nodes_by_id b) ++ l.*1) ->
  nodes_by_id (fold_left build_step l b) = nodes_by_id b ++ spec_nodes prev l.
Proof.
  revert prev b now0; induction l as [|[i e] l IH]; intros prev b now0 Hb Hs Hnow Hnd.
  { cbn. by rewrite app_nil_r. }
  cbn [fold_left spec_nodes].
  destruct (build_step_spec prev now0 b i e Hb) as [Hb' En].
  { apply (Hnow (i, e)). by left. }
  { by apply StronglySorted_app_1_l in Hs. }
  rewrite (dset_app (nodes_by_id b)) in En.
  2:{ intros Hin. rewrite fmap_cons in Hnd. apply NoDup_app in Hnd as (_ & Hd & _). apply (Hd i Hin). by left. }
  rewrite (IH (prev ++ [(i, e)]) _ _ Hb'), En.
  - by rewrite <-app_assoc.
  - by rewrite <-app_assoc.
  - intros ie Hie. apply StronglySorted_app_1_r, StronglySorted_inv in Hs as [_ Hs].
    rewrite Forall_forall in Hs. by apply Hs.
  - rewrite En. unfold dkeys in *. rewrite fmap_app, <-app_assoc. done.
Qed.

Lemma build_nodes_spec identified :
  by_time identified -> NoDup identified.*1 -> build_nodes identified = spec_nodes [] identified.
Proof.
  intros Hs Hnd. destruct identified as [|ie l]; [done|]. unfold build_nodes.
  rewrite (build_nodes_from [] (ie :: l) _ (time_of ie)); [done| |done| |done].
  - split; by exists [], [].
  - intros je [->|Hj]%elem_of_cons; [lia|]. apply StronglySorted_inv in Hs as [_ Hs].
    rewrite Forall_forall in Hs. by apply Hs.
Qed.

(** ** Walking the child references *)

Section walking.
Variable d : dict string TimelineNode.
Hypothesis d_wf : dwf d.

Definition children (x : string) : list string := match dget d x with Some n => child_ids n | None => [] end.

(** The children still to be pushed. *)
Definition pending (visited : gset string) : nat :=
  sum_list (map (fun kn => length (child_ids kn.2)) (filter (fun kn => kn.1 ∉ visited) d)).

Lemma filter_visit (l : dict string TimelineNode) (visited : gset string) x :
  x ∉ l.*1 -> filter (fun kn => kn.1 ∉ ({[x]} ∪ visited : gset string)) l = filter (fun kn => kn.1 ∉ visited) l.
Proof.
  induction l as [|[k n] l IH]; [done|]. rewrite fmap_cons, not_elem_of_cons. intros [Hk Hl]. rewrite !filter_cons, IH by done.
  cbn [fst] in *. destruct (decide (k ∉ visited)); [rewrite decide_True by set_solver|rewrite decide_False by set_solver]; done.
Qed.

Lemma pending_visit (l : dict string TimelineNode) visited x :
  NoDup l.*1 -> x ∉ visited ->
  (sum_list (map (fun kn => length (child_ids kn.2)) (filter (fun kn => kn.1 ∉ ({[x]} ∪ visited : gset string)) l)) +
   length (match dget l x with Some n => child_ids n | None => [] end))%nat =
  sum_list (map (fun kn => length (child_ids kn.2)) (filter (fun kn => kn.1 ∉ visited) l)).
Proof.
  intros Hnd Hx. induction l as [|[k n] l IH]; [done|].
  rewrite fmap_cons in Hnd. apply NoDup_cons in Hnd as [Hk Hnd]. cbn [dget]. rewrite !filter_cons.
  destruct (decide (x = k)) as [<-|Hne].
  - rewrite decide_False by set_solver. rewrite !decide_True by done. cbn [map sum_list sum_list_with].
    rewrite filter_visit by done. cbn. lia.
  - specialize (IH Hnd). cbn [fst]. destruct (decide (k ∉ visited)) as [Hv|Hv].
    + rewrite decide_True by set_solver. cbn [map sum_list sum_list_with] in *. cbn. cbn in IH. lia.
    + rewrite decide_False by set_solver. done.
Qed.

Definition walk_post (visited : gset string) (stack : list string) (acc : list TimelineNode)
    (r : list TimelineNode * gset string) : Prop :=
  visited ⊆ r.2 /\ (forall x, x ∈ stack -> x ∈ r.2) /\
  (forall x c, x ∈ r.2 -> x ∉ visited -> c ∈ children x -> c ∈ r.2) /\
  exists ks, r.1 = acc ++ omap (dget d) ks /\ NoDup ks /\
    (forall k, k ∈ ks <-> k ∈ r.2 /\ k ∉ visited /\ is_Some (dget d k)) /\
    (forall k, k ∈ ks -> k ∈ stack \/ exists k', k' ∈ ks /\ k ∈ children k').

Lemma walk_spec fuel visited stack acc :
  (length stack + pending visited < fuel)%nat -> walk_post visited stack acc (walk fuel d visited stack acc).
Proof.
  revert visited stack acc; induction fuel as [|f IH]; intros visited stack acc Hf; [lia|]. cbn [walk].
  destruct stack as [|x stack].
  { split_and!; [done|by intros ? ?%elem_of_nil|by intros; exfalso; eauto|]. exists []. cbn. rewrite app_nil_r.
    split_and!; [done|constructor| |by intros ? ?%elem_of_nil].
    intros k. split; [by intros ?%elem_of_nil|]. intros (? & ? & _). done. }
  destruct (decide (x ∈ visited)) as [Hx|Hx].
  { destruct (IH visited stack acc) as (H1 & H2 & H3 & ks & H4 & H5 & H6 & H7); [simpl in Hf; lia|].
    split_and!; [done| |done|].
    - intros y [->|Hy]%elem_of_cons; [by apply H1|by apply H2].
    - exists ks. split_and!; try done. intros k Hk. destruct (H7 k Hk); [left; by right|by right]. }
  pose proof (pending_visit d visited x d_wf Hx) as Hp. unfold pending in Hf. fold (children x) in Hp.
  set (v1 := {[x]} ∪ visited) in *.
  assert (exists stack' acc', (match dget d x with
      | Some n => walk f d v1 (child_ids n ++ stack) (acc ++ [n])
      | None => walk f d v1 stack acc end) = walk f d v1 stack' acc' /\
    stack' = children x ++ stack /\ acc' = acc ++ omap (dget d) [x]) as (stack' & acc' & -> & -> & ->).
  { unfold children. cbn. destruct (dget d x) as [n|]; cbn; rewrite ?app_nil_r; eauto. }
  destruct (IH v1 (children x ++ stack) (acc ++ omap (dget d) [x])) as (H1 & H2 & H3 & ks & H4 & H5 & H6 & H7).
  { unfold pending. rewrite length_app. simpl in Hf. fold v1 in Hp. lia. }
  assert (x ∉ ks) as Hxks by (rewrite H6; set_solver).
  assert (x ∈ (walk f d v1 (children x ++ stack) (acc ++ omap (dget d) [x])).2) as Hxr by set_solver.
  split_and!.
  - set_solver.
  - intros y [->|Hy]%elem_of_cons; [done|]. apply H2. set_solver.
  - intros y c Hy Hv Hc. destruct (decide (y = x)) as [->|Hne]; [apply H2; set_solver|].
    apply (H3 y); [done|set_solver|done].
  - destruct (dget d x) as [n|] eqn:En.
    + exists (x :: ks). split_and!.
      * rewrite H4. cbn. rewrite En. by rewrite <-app_assoc.
      * by constructor.
      * intros k. rewrite elem_of_cons, H6. split.
        -- intros [->|(? & ? & ?)]; [split_and!; [done|done|by eexists]|split_and!; [done|set_solver|done]].
        -- intros (Hk & Hkv & Hs). destruct (decide (k = x)); [by left|right]. split_and!; [done|set_solver|done].
      * intros k [->|Hk]%elem_of_cons; [left; by left|]. destruct (H7 k Hk) as [Hs|(k' & Hk' & Hc)].
        -- apply elem_of_app in Hs as [Hs|Hs]; [|left; by right]. right. exists x. split; [by left|done].
        -- right. exists k'. split; [by right|done].
    + exists ks. split_and!; [rewrite H4; cbn; by rewrite En, app_nil_r|done| |].
      * intros k. rewrite H6. split; intros (Hk & Hkv & Hs); (split_and!; [done| |done]); [set_solver|].
        intros [->%elem_of_singleton|]%elem_of_union; [by rewrite En in Hs; destruct Hs|done].
      * intros k Hk. destruct (H7 k Hk) as [Hs|?]; [|by right]. unfold children in Hs. rewrite En in Hs.
        left. set_solver.
Qed.

Lemma walk_chain_spec visited start : walk_post visited [start] [] (walk_chain d visited start).
Proof.
  apply walk_spec. unfold walk_fuel, pending. simpl length.
  assert (forall l : dict string TimelineNode,
    (sum_list (map (fun kn => length (child_ids kn.2)) (filter (fun kn => kn.1 ∉ visited) l)) <=
     sum_list (map (fun n => length (child_ids n)) (dvals l)))%nat) as H.
  { induction l as [|kn l IH]; [done|]. rewrite filter_cons. unfold dvals in *. rewrite fmap_cons. cbn in *.
    case_decide; cbn in *; lia. }
  specialize (H d). lia.
Qed.

(** *** All the chains *)

(** A chain is a walk: its nodes are distinct, its first node is a root, and
    every other node's parent is in the chain. *)
Definition chains_cover (cs : list TimelineChain) (visited : gset string) : Prop :=
  exists kss, map nodes cs = map (omap (dget d)) kss /\ NoDup (concat kss) /\
    (forall k, k ∈ concat kss <-> k ∈ visited /\ is_Some (dget d k)) /\
    Forall (fun ks => exists r, r ∈ ks /\ (exists n, dget d r = Some n /\ parent_ids n = []) /\
      forall k, k ∈ ks -> k = r \/ exists k', k' ∈ ks /\ k ∈ children k') kss.

Lemma build_chains_spec ns visited cs :
  (forall n, n ∈ ns -> dget d (node_id n) = Some n) ->
  chains_cover cs visited -> (forall x c, x ∈ visited -> c ∈ children x -> c ∈ visited) ->
  let r := build_chains d ns visited cs in
  chains_cover r.1 r.2 /\ visited ⊆ r.2 /\ (forall x c, x ∈ r.2 -> c ∈ children x -> c ∈ r.2) /\
  (forall n, n ∈ ns -> parent_ids n = [] -> node_id n ∈ r.2).
Proof.
  revert visited cs; induction ns as [|n ns IH]; intros visited cs Hns Hc Hcl; cbn [build_chains].
  { split_and!; [done|done|done|by intros ? ?%elem_of_nil]. }
  assert (forall m, m ∈ ns -> dget d (node_id m) = Some m) as Hns' by (intros; apply Hns; by right).
  destruct (parent_ids n) as [|p ps] eqn:Ep; cbn [nonempty_list negb andb].
  2:{ destruct (IH visited cs Hns' Hc Hcl) as (H1 & H2 & H3 & H4). split_and!; [done..|].
      intros m [->|Hm]%elem_of_cons Hpm; [congruence|by apply H4]. }
  case_bool_decide as Hv; cbn [negb].
  { destruct (IH visited cs Hns' Hc Hcl) as (H1 & H2 & H3 & H4). split_and!; [done..|].
    intros m [->|Hm]%elem_of_cons Hpm; [by apply H2|by apply H4]. }
  destruct (walk_chain_spec visited (node_id n)) as (W1 & W2 & W3 & ks & W4 & W5 & W6 & W7).
  destruct (walk_chain d visited (node_id n)) as [cn v']. cbn [fst snd] in *. subst cn.
  pose proof (Hns n ltac:(by left)) as Hn.
  assert (node_id n ∈ ks) as Hin by (apply W6; split_and!; [apply W2; by left|done|by eexists]).
  assert (nonempty_list ([] ++ omap (dget d) ks) = true) as ->.
  { cbn. apply list_elem_of_split in Hin as (l1 & l2 & ->). rewrite omap_app. cbn. rewrite Hn.
    by destruct (omap _ l1). }
  assert (chains_cover (cs ++ [mk_chain (Z.of_nat (length cs) + 1) ([] ++ omap (dget d) ks)]) v') as Hc'.
  { destruct Hc as (kss & C1 & C2 & C3 & C4). exists (kss ++ [ks]). split_and!.
    - rewrite !map_app. by rewrite C1.
    - rewrite concat_app. cbn. rewrite app_nil_r. apply NoDup_app. split_and!; [done| |done].
      intros k Hk Hk'. apply C3 in Hk as [Hk _]. apply W6 in Hk' as (_ & Hk' & _). done.
    - intros k. rewrite concat_app, elem_of_app. cbn. rewrite app_nil_r, C3, W6. split.
      + intros [[? ?]|(? & ? & ?)]; split; try done. by apply W1.
      + intros [Hk Hs]. destruct (decide (k ∈ visited)); [by left|by right].
    - apply Forall_app. split; [done|]. constructor; [|done]. exists (node_id n). split; [done|]. split; [eauto|].
      intros k Hk. destruct (W7 k Hk) as [->%list_elem_of_singleton|?]; [by left|by right]. }
  assert (forall x c, x ∈ v' -> c ∈ children x -> c ∈ v') as Hcl'.
  { intros x c Hx Hch. destruct (decide (x ∈ visited)) as [Hxv|Hxv]; [apply W1; by eapply Hcl|by eapply W3]. }
  destruct (IH v' _ Hns' Hc' Hcl') as (H1 & H2 & H3 & H4). split_and!; [done|set_solver|done|].
  intros m [->|Hm]%elem_of_cons Hpm; [apply H2, W2; by left|by apply H4].
Qed.
End walking.

(** ** Wiring the children *)

(** The same node with the children [P] added. *)
Definition extends (P : string -> Prop) (n n' : TimelineNode) : Prop :=
  event n' = event n /\ node_id n' = node_id n /\ parent_ids n' = parent_ids n /\
  forall c, c ∈ child_ids n' <-> c ∈ child_ids n \/ P c.
Definition wired (P : string -> string -> Prop) (d d' : dict string TimelineNode) : Prop :=
  dkeys d' = dkeys d /\
  forall k n, dget d k = Some n -> exists n', dget d' k = Some n' /\ extends (P k) n n'.

Lemma wired_trans P Q R d1 d2 d3 :
  wired P d1 d2 -> wired Q d2 d3 -> (forall k c, R k c <-> P k c \/ Q k c) -> wired R d1 d3.
Proof.
  intros [K1 W1] [K2 W2] HR. split; [congruence|]. intros k n Hn.
  destruct (W1 k n Hn) as (n2 & H2 & E2 & I2 & P2 & C2). destruct (W2 k n2 H2) as (n3 & H3 & E3 & I3 & P3 & C3).
  exists n3. split; [done|]. split_and!; try congruence. intros c. rewrite C3, C2, HR. tauto.
Qed.

Lemma wired_refl P d : (forall k c, ~ P k c) -> wired P d d.
Proof.
  intros HP. split; [done|]. intros k n Hn. exists n. split; [done|]. split_and!; try done. intros c.
  split; [by left|]. intros [?|?]; [done|]. exfalso. by eapply HP.
Qed.

Lemma wired_one c pid d :
  wired (fun k x => x = c /\ k = pid) d (if dmem d pid then dalter (add_child c) d pid else d).
Proof.
  destruct (dmem d pid) eqn:Em.
  - split; [apply dkeys_dalter|]. intros k n Hn. rewrite dget_dalter. case_decide as E.
    + subst. rewrite Hn. eexists. split; [done|]. split_and!; try done. intros x. cbn [child_ids add_child].
      rewrite elem_of_app, list_elem_of_singleton. naive_solver.
    + exists n. split; [done|]. split_and!; try done. intros x. naive_solver.
  - split; [done|]. intros k n Hn. exists n. split; [done|]. split_and!; try done. intros x.
    split; [by left|]. intros [?|[_ ->]]; [done|]. unfold dmem in Em. by rewrite Hn in Em.
Qed.

Lemma wire_node_spec d n : wired (fun k x => x = node_id n /\ k ∈ parent_ids n) d (wire_node d n).
Proof.
  unfold wire_node. generalize (node_id n) as c. intros c. revert d.
  induction (parent_ids n) as [|p ps IH]; intros d; cbn [fold_left].
  - apply wired_refl. intros k x [_ H]. by apply elem_of_nil in H.
  - eapply wired_trans; [apply (wired_one c p)|apply IH|]. intros k x. cbn. rewrite elem_of_cons. naive_solver.
Qed.

Lemma wire_nodes_spec ns d :
  wired (fun k x => exists m, m ∈ ns /\ node_id m = x /\ k ∈ parent_ids m) d (fold_left wire_node ns d).
Proof.
  revert d; induction ns as [|n ns IH]; intros d; cbn [fold_left].
  - apply wired_refl. intros k x (m & H & _). by apply elem_of_nil in H.
  - eapply wired_trans; [apply wire_node_spec|apply IH|]. intros k x. cbn. split.
    + intros (m & [->|Hm]%elem_of_cons & <- & Hk); [by left|right; eauto].
    + intros [[-> Hk]|(m & Hm & Hx & Hk)]; [exists n|exists m]; split_and!; try done; [by left|by right].
Qed.

(** ** The timeline is a partition of the events into causal trees *)

Lemma spec_nodes_keys prev l : (spec_nodes prev l).*1 = l.*1.
Proof. revert prev; induction l as [|[i e] l IH]; intros prev; [done|]. cbn [spec_nodes]. rewrite !fmap_cons. by rewrite IH. Qed.

Lemma spec_nodes_elem prev pre i e post :
  (i, mk_node e i (spec_parents (prev ++ pre) e) (spec_label (spec_parents (prev ++ pre) e) e))
    ∈ spec_nodes prev (pre ++ (i, e) :: post).
Proof.
  revert prev; induction pre as [|[j f] pre IH]; intros prev; cbn [app spec_nodes].
  - rewrite app_nil_r. by left.
  - right. specialize (IH (prev ++ [(j, f)])). rewrite <-app_assoc in IH. apply IH.
Qed.

Lemma spec_nodes_inv prev l k n :
  (k, n) ∈ spec_nodes prev l -> exists pre e post, l = pre ++ (k, e) :: post /\ event n = e /\
    parent_ids n = spec_parents (prev ++ pre) e /\ child_ids n = [] /\
    node_id n = if String.eqb k "" then trace_id e else k.
Proof.
  revert prev; induction l as [|[i e] l IH]; intros prev; cbn [spec_nodes]; [by intros ?%elem_of_nil|].
  intros [E|H]%elem_of_cons.
  - injection E as -> ->. exists [], e, l. split_and!; try done. by rewrite app_nil_r.
  - destruct (IH _ H) as (pre & f & post & -> & ? & Hp & ? & ?). exists ((i, e) :: pre), f, post.
    split_and!; try done. rewrite Hp. by rewrite <-app_assoc.
Qed.

Lemma spec_parents_earlier prev e : spec_parents prev e = [] \/ exists p, spec_parents prev e = [p] /\ p ∈ prev.*1.
Proof.
  unfold spec_parents. destruct (causes _) as [p|]; [|by left]. unfold latest_cause.
  destruct (last (of_type p prev)) as [ie|] eqn:El; [|by left]. destruct (_ <=? _); [right|by left].
  exists ie.1. split; [done|]. apply list_elem_of_fmap_2. apply last_Some in El as [l' El].
  assert (ie ∈ of_type p prev) as Hin by (rewrite El; set_solver).
  rewrite list_elem_of_In in *. by apply filter_In in Hin as [? _].
Qed.

Lemma assign_ids_empty occ events e :
  (forall t, 0 <= default 0 (dget occ t)) -> ("", e) ∈ assign_ids occ events -> trace_id e = "".
Proof.
  revert occ; induction events as [|f fs IH]; intros occ Ho; [by intros ?%elem_of_nil|]. cbn [assign_ids].
  intros [E|H]%elem_of_cons.
  - injection E as Hi ->. destruct (_ =? 1); [done|]. by destruct (trace_id f).
  - eapply IH; [|exact H]. intros t. rewrite dget_dset. case_decide; [|done]. simpl.
    specialize (Ho (trace_id f)). lia.
Qed.

Lemma omap_dget_keys (d : dict string TimelineNode) : dwf d -> omap (dget d) (dkeys d) = dvals d.
Proof.
  intros Hd. assert (forall l, l ⊆ d -> omap (dget d) l.*1 = l.*2) as H; [|by apply H].
  induction l as [|[k n] l IH]; intros Hl; [done|]. rewrite !fmap_cons. cbn.
  rewrite (elem_of_dget d k n) by (done || set_solver). by rewrite IH by set_solver.
Qed.

Lemma concat_omap (d : dict string TimelineNode) kss : concat (map (omap (dget d)) kss) = omap (dget d) (concat kss).
Proof. induction kss as [|ks kss IH]; [done|]. cbn. by rewrite IH, omap_app. Qed.

(** Two tables with the same keys and nodes of the same events. *)
Lemma map_events_eq (d d0 : dict string TimelineNode) :
  dwf d -> dkeys d = dkeys d0 ->
  (forall k n, dget d0 k = Some n -> exists n', dget d k = Some n' /\ event n' = event n) ->
  map event (dvals d) = map event (dvals d0).
Proof.
  intros Hd Hk Hev. assert (dwf d0) as Hd0 by (unfold dwf; by rewrite <-Hk).
  assert (forall l l0, l ⊆ d -> l0 ⊆ d0 -> l.*1 = l0.*1 -> map event l.*2 = map event l0.*2) as H; [|by apply H].
  induction l as [|[k n] l IH]; intros [|[k0 n0] l0] Hl Hl0 E; try done.
  injection E as -> E. change (event n :: map event l.*2 = event n0 :: map event l0.*2). rewrite (IH l0) by (done || set_solver). f_equal.
  destruct (Hev k0 n0) as (n' & Hn' & He); [apply elem_of_dget; [done|set_solver]|].
  rewrite (elem_of_dget d k0 n) in Hn' by (done || set_solver). congruence.
Qed.

Lemma timeline_of_chains identified :
  identified <> [] ->
  let d := wire_children (build_nodes identified) in
  let r := build_chains d (dvals d) ∅ [] in
  chains (timeline_of identified) = r.1 /\
  orphan_nodes (timeline_of identified) = List.filter (fun n => negb (bool_decide (node_id n ∈ r.2))) (dvals d).
Proof.
  intros Hne d r. unfold timeline_of. destruct identified as [|[i0 e0] rest]; [done|].
  fold d. fold r. by destruct r.
Qed.

Section timeline_facts.
Variable identified : list identified_event.
Hypothesis ids_distinct : NoDup identified.*1.
Hypothesis in_time : by_time identified.
Hypothesis empty_ids : forall e, ("", e) ∈ identified -> trace_id e = "".

Let d0 := build_nodes identified.
Let d := wire_children d0.

Lemma d0_eq : d0 = spec_nodes [] identified.
Proof. by apply build_nodes_spec. Qed.
Lemma d0_keys : dkeys d0 = identified.*1.
Proof. rewrite d0_eq. apply spec_nodes_keys. Qed.
Lemma d_wired : wired (fun k x => exists m, m ∈ dvals d0 /\ node_id m = x /\ k ∈ parent_ids m) d0 d.
Proof. apply wire_nodes_spec. Qed.
Lemma d0_dwf : dwf d0.
Proof. unfold dwf. by rewrite d0_keys. Qed.
Lemma d_dwf : dwf d.
Proof. unfold dwf. rewrite (proj1 d_wired). apply d0_dwf. Qed.

(** The node of an identified event. *)
Lemma node_of pre i e post :
  identified = pre ++ (i, e) :: post ->
  exists n, dget d i = Some n /\ event n = e /\ node_id n = i /\ parent_ids n = spec_parents pre e /\
    (forall c, c ∈ child_ids n <-> exists m, m ∈ dvals d0 /\ node_id m = c /\ i ∈ parent_ids m).
Proof.
  intros E. pose proof (spec_nodes_elem [] pre i e post) as Hin. cbn [app] in Hin. rewrite <-E, <-d0_eq in Hin.
  apply (elem_of_dget d0) in Hin; [|apply d0_dwf].
  destruct (proj2 d_wired _ _ Hin) as (n & Hn & He & Hi & Hp & Hc). exists n. split; [done|].
  split; [done|]. split.
  - rewrite Hi. cbn. destruct (String.eqb_spec i "") as [->|]; [|done]. apply empty_ids. rewrite E. set_solver.
  - split; [done|]. intros c. rewrite Hc. cbn. split; [intros [?%elem_of_nil|?]; done|by right].
Qed.

Lemma node_inv i n : dget d i = Some n -> exists pre e post, identified = pre ++ (i, e) :: post /\ event n = e.
Proof.
  intros Hn. assert (i ∈ identified.*1) as Hi.
  { rewrite <-d0_keys, <-(proj1 d_wired), <-dget_is_Some. by eexists. }
  apply list_elem_of_fmap in Hi as ([j e] & -> & He). apply list_elem_of_split in He as (pre & post & E).
  exists pre, e, post. split; [done|]. destruct (node_of _ _ _ _ E) as (n' & Hn' & He' & _). cbn in *. congruence.
Qed.

Lemma d_ids k n : dget d k = Some n -> node_id n = k.
Proof.
  intros Hn. destruct (node_inv k n Hn) as (pre & e & post & E & _).
  destruct (node_of _ _ _ _ E) as (n' & Hn' & _ & Hi & _). congruence.
Qed.

Lemma dvals_get n : n ∈ dvals d -> dget d (node_id n) = Some n.
Proof.
  intros Hn. apply list_elem_of_fmap in Hn as ([k m] & -> & Hin). apply elem_of_dget in Hin; [|apply d_dwf].
  cbn. by rewrite (d_ids _ _ Hin).
Qed.

(** The child references are the converse of the parent references. *)
Lemma children_iff p c n : dget d c = Some n -> p ∈ parent_ids n -> c ∈ children d p.
Proof.
  intros Hn Hp. destruct (node_inv c n Hn) as (pre & e & post & E & _).
  destruct (node_of _ _ _ _ E) as (n' & Hn' & _ & Hi & Hpar & _). assert (n' = n) as -> by congruence.
  destruct (spec_parents_earlier pre e) as [H0|(q & Hq & Hqin)].
  { rewrite Hpar, H0 in Hp. by apply elem_of_nil in Hp. }
  rewrite Hpar, Hq in Hp. apply list_elem_of_singleton in Hp as ->.
  apply list_elem_of_fmap in Hqin as ([q' f] & -> & Hf). cbn in *. apply list_elem_of_split in Hf as (p1 & p2 & ->).
  rewrite <-app_assoc in E. cbn in E. destruct (node_of p1 q' f _ E) as (m & Hm & _ & _ & _ & Hc).
  unfold children. rewrite Hm. apply Hc.
  pose proof (spec_nodes_elem [] (p1 ++ (q', f) :: p2) c e post) as Hin. cbn [app] in Hin.
  rewrite <-app_assoc in Hin. cbn in Hin. rewrite <-E, <-d0_eq in Hin.
  exists (mk_node e c (spec_parents (p1 ++ (q', f) :: p2) e) (spec_label (spec_parents (p1 ++ (q', f) :: p2) e) e)).
  split; [by apply (list_elem_of_fmap_2 snd) in Hin|]. split.
  - cbn. destruct (String.eqb_spec c "") as [->|]; [|done]. apply empty_ids. rewrite E. set_solver.
  - cbn. rewrite Hq. by left.
Qed.

Lemma children_parent p c n : dget d c = Some n -> c ∈ children d p -> parent_ids n = [p].
Proof.
  intros Hn Hc. unfold children in Hc. destruct (dget d p) as [m|] eqn:Hm; [|by apply elem_of_nil in Hc].
  destruct (node_inv p m Hm) as (pre & e & post & E & _). destruct (node_of _ _ _ _ E) as (m' & Hm' & _ & _ & _ & Hcs).
  assert (m' = m) as -> by congruence. apply Hcs in Hc as (n0 & Hn0 & Hi & Hp).
  apply list_elem_of_fmap in Hn0 as ([k n1] & -> & Hin). cbn in *.
  pose proof Hin as Hget. apply elem_of_dget in Hget; [|apply d0_dwf].
  rewrite d0_eq in Hin. apply spec_nodes_inv in Hin as (pr & f & po & Ef & _ & Hpar & _ & Hid).
  assert (k = c) as ->.
  { rewrite <-Hi, Hid. destruct (String.eqb_spec k "") as [->|]; [|done]. symmetry. apply empty_ids. rewrite Ef. set_solver. }
  destruct (proj2 d_wired _ _ Hget) as (n2 & Hn2 & _ & _ & Hp2 & _). assert (n2 = n) as -> by congruence.
  rewrite Hp2, Hpar in *. destruct (spec_parents_earlier ([] ++ pr) f) as [H0|(q & Hq & _)].
  - rewrite H0 in Hp. by apply elem_of_nil in Hp.
  - rewrite Hq in *. by apply list_elem_of_singleton in Hp as ->.
Qed.

Definition chain_ok (c : TimelineChain) : Prop :=
  exists root, root ∈ nodes c /\ parent_ids root = [] /\
    forall n, n ∈ nodes c -> n = root \/ exists p, parent_ids n = [p] /\ p ∈ node_id <$> nodes c.

Lemma all_visited : 
  let r := build_chains d (dvals d) ∅ [] in
  chains_cover d r.1 r.2 /\ forall i, i ∈ identified.*1 -> i ∈ r.2.
Proof.
  intros r. destruct (build_chains_spec d d_dwf (dvals d) ∅ []) as (H1 & _ & H3 & H4).
  - intros n Hn. by apply dvals_get.
  - exists []. split_and!; [done|constructor| |constructor]. intros k. cbn. split; [by intros ?%elem_of_nil|].
    by intros [? _].
  - by intros.
  - fold r in H1, H3, H4. split; [done|].
    assert (forall l post, identified = l ++ post -> forall i, i ∈ l.*1 -> i ∈ r.2) as H.
    { induction l as [|[i e] pre IH] using rev_ind; intros post E j Hj; [by apply elem_of_nil in Hj|].
      rewrite <-app_assoc in E. cbn in E. rewrite fmap_app in Hj. apply elem_of_app in Hj as [Hj|Hj]; [by eapply IH|].
      apply list_elem_of_singleton in Hj as ->. cbn.
      destruct (node_of _ _ _ _ E) as (n & Hn & _ & Hid & Hpar & _).
      destruct (spec_parents_earlier pre e) as [H0|(p & Hp & Hin)].
      - rewrite <-Hid. apply H4; [|congruence]. apply dget_elem in Hn. by apply (list_elem_of_fmap_2 snd) in Hn.
      - apply (H3 p); [by eapply IH|]. eapply children_iff; [exact Hn|]. rewrite Hpar, Hp. by left. }
    intros i Hi. apply (H identified []); [by rewrite app_nil_r|done].
Qed.

Lemma chains_partition :
  let r := build_chains d (dvals d) ∅ [] in
  concat (map nodes r.1) ≡ₚ dvals d /\ Forall chain_ok r.1 /\
  List.filter (fun n => negb (bool_decide (node_id n ∈ r.2))) (dvals d) = [].
Proof.
  intros r. pose proof all_visited as Hv. cbv zeta in Hv. fold r in Hv. clearbody r.
  destruct Hv as [(kss & C1 & C2 & C3 & C4) Hall].
  assert (forall k, is_Some (dget d k) <-> k ∈ identified.*1) as Hkeys.
  { intros k. rewrite dget_is_Some, (proj1 d_wired), d0_keys. done. }
  split_and!.
  - rewrite C1, concat_omap. rewrite <-(omap_dget_keys d d_dwf). apply omap_Permutation, NoDup_Permutation.
    + done.
    + apply d_dwf.
    + intros k. rewrite C3, <-dget_is_Some. split; [tauto|]. intros Hs. split; [|done]. by apply Hall, Hkeys.
  - assert (forall ks, ks ∈ kss -> forall k, k ∈ ks -> is_Some (dget d k)) as Hsome.
    { intros ks Hks k Hk. apply (C3 k). rewrite list_elem_of_In, in_concat. setoid_rewrite <-list_elem_of_In. eauto. }
    clear C2 C3. revert C1 Hsome. generalize (r.1) as cs. intros cs. revert cs.
    induction C4 as [|ks kss (root & Hroot & (n0 & Hn0 & Hp0) & Hks) _ IH]; intros [|c cs] C1 Hsome; try done.
    injection C1 as Ec Ecs. constructor; [|apply IH; [done|]; intros ks' Hks'; apply Hsome; by right].
    assert (forall n, n ∈ nodes c <-> exists k, k ∈ ks /\ dget d k = Some n) as Hnodes.
    { intros n. rewrite Ec, list_elem_of_omap. done. }
    exists n0. split_and!; [apply Hnodes; eauto|done|]. intros n (k & Hk & Hn)%Hnodes.
    destruct (Hks k Hk) as [->|(p & Hp & Hch)]; [left; congruence|right]. exists p.
    split; [by eapply children_parent|]. destruct (Hsome ks ltac:(by left) p Hp) as [m Hm].
    rewrite <-(d_ids _ _ Hm). apply list_elem_of_fmap_2, Hnodes. eauto.
  - assert (forall l, (forall n, n ∈ l -> node_id n ∈ r.2) ->
      List.filter (fun n => negb (bool_decide (node_id n ∈ r.2))) l = []) as Hf.
    { induction l as [|n l IH]; intros Hl; [done|]. cbn. rewrite bool_decide_eq_true_2 by (apply Hl; by left). cbn.
      apply IH. intros m Hm. apply Hl. by right. }
    apply Hf. intros n Hn. apply Hall, Hkeys. apply dvals_get in Hn. by eexists.
Qed.
Lemma dvals_ids : map node_id (dvals d) = identified.*1.
Proof.
  rewrite <-d0_keys, <-(proj1 d_wired). unfold dvals, dkeys.
  assert (forall l, l ⊆ d -> map node_id l.*2 = l.*1) as H; [|by apply H].
  induction l as [|[k n] l IH]; intros Hl; [done|]. change (node_id n :: map node_id l.*2 = k :: l.*1).
  rewrite IH by set_solver. f_equal. apply d_ids, elem_of_dget; [apply d_dwf|set_solver].
Qed.

Lemma dvals_events : map event (dvals d) = identified.*2.
Proof.
  assert (forall prev l, map event (spec_nodes prev l).*2 = l.*2) as H0.
  { intros prev l. revert prev. induction l as [|[i e] l IH]; intros prev; [done|].
    cbn [spec_nodes]. change (e :: map event (spec_nodes (prev ++ [(i, e)]) l).*2 = e :: l.*2). by rewrite IH. }
  rewrite <-(H0 []), <-d0_eq. apply (fun H => map_events_eq d d0 d_dwf (proj1 d_wired) H).
  intros k n Hn. destruct (proj2 d_wired k n Hn) as (n' & Hn' & He & _). eauto.
Qed.
End timeline_facts.

(** What [assign_unique_node_ids] gives [build_timeline]. *)
Lemma identified_facts events identified :
  Forall (fun e => no_hash (trace_id e) = true) events -> assign_unique_node_ids events = Ok identified ->
  identified.*2 ≡ₚ events /\ NoDup identified.*1 /\ by_time identified /\
  (forall e, ("", e) ∈ identified -> trace_id e = "").
Proof.
  intros Hhash Hids. unfold assign_unique_node_ids in Hids.
  destruct (ordered_timeline events) as [tl|] eqn:E; [|done]. cbn [rbind] in Hids. injection Hids as <-.
  destruct (ordered_timeline_spec _ _ E) as (Hp & Ho & _). split_and!.
  - by rewrite assign_ids_snd.
  - apply assign_ids_NoDup; [by rewrite Hp|done].
  - unfold by_time. assert (forall l : list identified_event, in_order l.*2 -> StronglySorted (fun x y => time_of x <= time_of y) l) as H.
    { induction l as [|x l IH]; intros Hl; [constructor|]. rewrite fmap_cons in Hl.
      apply StronglySorted_inv in Hl as [Hl Hx]. constructor; [by apply IH|]. by rewrite Forall_fmap in Hx. }
    apply H. by rewrite assign_ids_snd.
  - intros e. by apply assign_ids_empty.
Qed.

(** The parents in the timeline are the causes the window promises: with
    the pruned buffers, the nodes built are exactly those of the specification
    that looks, for each event, at all the earlier events and takes the latest
    one of the causing type (a model response for commands and tool calls, a
    command for file changes and verifications) if it is at most five seconds
    older. *)
Lemma parents_are_latest_causes (events : list AuditEvent) (identified : list identified_event)
    (Hhash : Forall (fun e => no_hash (trace_id e) = true) events)
    (Hids : assign_unique_node_ids events = Ok identified) :
  build_nodes identified = spec_nodes [] identified /\
  forall pre i e post, identified = pre ++ (i, e) :: post ->
    exists n, dget (build_nodes identified) i = Some n /\ event n = e /\ parent_ids n = spec_parents pre e.
Proof.
  destruct (identified_facts _ _ Hhash Hids) as (_ & Hnd & Hs & _).
  rewrite build_nodes_spec by done. split; [done|]. intros pre i e post E.
  eexists. split_and!.
  - apply elem_of_dget.
    + unfold dwf, dkeys. by rewrite spec_nodes_keys.
    + rewrite E. apply (spec_nodes_elem []).
  - done.
  - done.
Qed.

Definition typed (t : string) (ty : AuditEventType) (s : Z) : AuditEvent :=
  {| trace_id := t; task_id := Some "task"; event_type := ty; phase := None; timestamp := utc (s * 1000000);
     summary := ""; payload := []; duration_ms := Some 5; cost_usd := None |}.
(** Out of order, two model responses sharing a trace id, and a verification
    that comes too late. *)
Definition session : list AuditEvent :=
  [typed "c" COMMAND_RUN 2; typed "m" MODEL 0; typed "m" MODEL 1; typed "f" FILE_CHANGE 7; typed "v" VERIFICATION 8].

Lemma parents_are_latest_causes_witness :
  exists l, assign_unique_node_ids session = Ok l /\ build_nodes l = spec_nodes [] l /\
    map (fun kn => (kn.1, parent_ids kn.2)) (build_nodes l)
    = [("m", []); ("m#2", []); ("c", ["m#2"]); ("f", ["c"]); ("v", [])].
Proof.
  eexists. split; [reflexivity|]. split; [|reflexivity].
  apply (parents_are_latest_causes session _ ltac:(by repeat constructor) eq_refl).
Defined.

Lemma pairs_eq {A B} (l l' : list (A * B)) : l.*1 = l'.*1 -> l.*2 = l'.*2 -> l = l'.
Proof.
  revert l'; induction l as [|[x y] l IH]; intros [|[x' y'] l'] H1 H2; try done.
  injection H1 as -> H1. injection H2 as -> H2. by rewrite (IH l').
Qed.

(** The nodes of the chains are the identified events. *)
Lemma timeline_nodes events identified :
  Forall (fun e => no_hash (trace_id e) = true) events -> assign_unique_node_ids events = Ok identified ->
  map (fun n => (node_id n, event n)) (concat (map nodes (chains (timeline_of identified)))) ≡ₚ identified /\
  orphan_nodes (timeline_of identified) = [] /\ Forall chain_ok (chains (timeline_of identified)).
Proof.
  intros Hhash Hids. destruct (identified_facts _ _ Hhash Hids) as (_ & Hnd & Hs & Hempty).
  destruct (decide (identified = [])) as [->|Hne]; [split_and!; by constructor|].
  destruct (timeline_of_chains identified Hne) as [-> ->].
  destruct (chains_partition identified Hnd Hs Hempty) as (P1 & P2 & P3). split_and!; [|done..].
  rewrite (Permutation_map _ P1). match goal with |- ?x ≡ₚ ?y => enough (x = y) as -> by done end. apply pairs_eq.
  - change (map (fun n => (node_id n, event n))) with (fmap (M := list) (fun n => (node_id n, event n))).
    rewrite <-list_fmap_compose. by apply dvals_ids.
  - change (map (fun n => (node_id n, event n))) with (fmap (M := list) (fun n => (node_id n, event n))).
    rewrite <-list_fmap_compose. by apply dvals_events.
Qed.

(** C33: the timeline loses no event and shows none twice: when no trace id
    contains a [#], the chains contain every node exactly once and there are no
    orphans; a chain has one root and every other node has its only parent in
    the same chain. *)
Theorem timeline_partition (events : list AuditEvent) (t : AuditTimeline)
    (Hhash : Forall (fun e => no_hash (trace_id e) = true) events)
    (Ht : build_timeline events = Ok t) :
  map event (concat (map nodes (chains t))) ≡ₚ events /\
  NoDup (map node_id (concat (map nodes (chains t)))) /\
  orphan_nodes t = [] /\ Forall chain_ok (chains t).
Proof.
  unfold build_timeline in Ht. destruct (assign_unique_node_ids events) as [identified|] eqn:Hids; [|done].
  cbn [rbind] in Ht. injection Ht as <-.
  destruct (identified_facts _ _ Hhash Hids) as (Hp & Hnd & _ & _).
  destruct (timeline_nodes _ _ Hhash Hids) as (P & P2 & P3). split_and!; [| |done..].
  - rewrite <-Hp. apply (Permutation_map snd) in P. by rewrite map_map in P.
  - apply (Permutation_map fst) in P. rewrite map_map in P. by rewrite P.
Qed.

Lemma timeline_partition_witness :
  exists t, build_timeline session = Ok t /\ map chain_id (chains t) = ["chain-001"; "chain-002"; "chain-003"] /\
    map event (concat (map nodes (chains t))) ≡ₚ session /\
    NoDup (map node_id (concat (map nodes (chains t)))) /\
    orphan_nodes t = [] /\ Forall chain_ok (chains t).
Proof.
  eexists. split; [reflexivity|]. split; [reflexivity|].
  apply (timeline_partition session _ ltac:(by repeat constructor) eq_refl).
Defined.

(** [completed_at] is the time of the last node the walk reaches, which
    need not be the latest one: a file change three seconds in, and a chain
    completed after two. *)
Example completed_at_not_latest :
  exists t c,
    build_timeline [typed "m" MODEL 0; typed "c" COMMAND 1; typed "t" TOOL_CALL 2; typed "f" FILE_CHANGE 3] = Ok t /\
    chains t = [c] /\ map node_id (nodes c) = ["m"; "c"; "f"; "t"] /\
    completed_at c = Some (utc 2000000) /\ exists n, n ∈ nodes c /\ timestamp (event n) = utc 3000000.
Proof.
  do 2 eexists. split; [reflexivity|]. split; [reflexivity|]. split; [reflexivity|]. split; [reflexivity|].
  eexists. split; [do 2 right; left|reflexivity].
Qed.

Example total_cost_is_compensated : py_sum (repeat (float_lit 1 1) 10) = f1.
Proof. by vm_compute. Qed.
