(* ===== verification/HarnessAction.v ===== *)
(** * Harness actions

    Models [openhands/forgepilot/harness/action_schema.py]: how the execution
    harness classifies a runtime action (its type, the permission it needs,
    its target, whether it must be confirmed).

    A runtime action is a Python object the harness reads through its class
    name, [getattr] and [repr] only; that is what [RuntimeAction] holds. *)

From S2P Require Import Prelude PyStr PyDict PyVal Shlex ToolRegistry.
From Stdlib Require Import Ascii.

Inductive HarnessActionType := TERMINAL | FILE_READ | FILE_WRITE | FILE_PATCH | GIT | MCP_TOOL | UNKNOWN_ACTION.
#[global] Instance HarnessActionType_eq_dec : EqDecision HarnessActionType.
Proof. solve_decision. Defined.

Definition action_type_value (t : HarnessActionType) : string :=
  match t with
  | TERMINAL => "terminal" | FILE_READ => "file_read" | FILE_WRITE => "file_write"
  | FILE_PATCH => "file_patch" | GIT => "git" | MCP_TOOL => "mcp_tool" | UNKNOWN_ACTION => "unknown"
  end.

Record HarnessAction := {
  action_type : HarnessActionType;
  h_permission : ToolPermission;
  target : string;
  input : dict string pyval;
  raw_action_name : string;
  requires_confirmation : bool;
}.

Definition confirmation_subject (a : HarnessAction) : string :=
  action_type_value (action_type a) +:+ ":" +:+ target a.

Record RuntimeAction := {
  class_name : string;
  attrs : dict string pyval;
  action_repr : string;
}.
Definition getattr (a : RuntimeAction) (name : string) (dflt : pyval) : pyval :=
  default dflt (dget (attrs a) name).

(** ** Permissions of MCP tools *)

(** A value of the permission mapping: text, a [ToolPermission], a mapping, or
    anything else. *)
Inductive perm_spec :=
  | PText (s : string)
  | PPerm (p : ToolPermission)
  | PMapping (d : list (string * perm_spec))
  | POther.

(** [ToolPermission(value)] *)
Definition permission_of_value (s : string) : option ToolPermission :=
  if String.eqb s "read" then Some READ else if String.eqb s "write" then Some WRITE
  else if String.eqb s "execute" then Some EXECUTE else if String.eqb s "confirm" then Some CONFIRM
  else None.

Definition coerce_permission (v : perm_spec) (dflt : ToolPermission) : ToolPermission :=
  match v with
  | PPerm p => p
  | PText s => default dflt (permission_of_value s)
  | _ => dflt
  end.

Definition separators : list string := ["."; ":"; "/"; "__"].
Definition mcp_lookup_keys (tool_name : string) : list string :=
  dedup (tool_name :: omap (fun sep => fst <$> split_once sep tool_name) separators).

Definition mcp_permission_from_mapping (tool_name : string) (permissions : dict string perm_spec)
    (dflt : ToolPermission) : ToolPermission :=
  let fix go (keys : list string) : ToolPermission :=
    match keys with
    | [] => dflt
    | key :: keys =>
        match dget permissions key with
        | None => go keys
        | Some (PMapping d) => coerce_permission (default (PPerm dflt) (dget d "permission")) dflt
        | Some v => coerce_permission v dflt
        end
    end in
  go (mcp_lookup_keys tool_name).

(** ** Classification *)

Definition is_git_command (command : string) : bool :=
  let parts := match shlex_split command with Ok l => l | Raise _ => split_ws (strip command) end in
  match parts with
  | [] => false
  | p :: _ => String.eqb p "git" || endswith p "/git"
  end.

Definition target_from_command (command : string) (cwd : pyval) : string :=
  strip ((if truth cwd then py_str cwd +:+ ": " else "") +:+ command).

Definition action_from_runtime_action (a : RuntimeAction) (mcp_permissions : dict string perm_spec) : HarnessAction :=
  let name := class_name a in
  if String.eqb name "CmdRunAction" then
    let command := py_str (getattr a "command" (VStr "")) in
    {| action_type := if is_git_command command then GIT else TERMINAL;
       h_permission := EXECUTE;
       target := target_from_command command (getattr a "cwd" VNone);
       input := [ ("command", VStr command); ("cwd", getattr a "cwd" VNone);
                  ("blocking", getattr a "blocking" (VBool false)); ("is_input", getattr a "is_input" (VBool false)) ];
       raw_action_name := name; requires_confirmation := true |}
  else if String.eqb name "FileReadAction" then
    let path := py_str (getattr a "path" (VStr "")) in
    {| action_type := FILE_READ; h_permission := READ; target := path;
       input := [ ("path", VStr path); ("start", getattr a "start" (VInt 0)); ("end", getattr a "end" (VInt (-1))) ];
       raw_action_name := name; requires_confirmation := false |}
  else if String.eqb name "FileWriteAction" then
    let path := py_str (getattr a "path" (VStr "")) in
    {| action_type := FILE_WRITE; h_permission := WRITE; target := path;
       input := [ ("path", VStr path); ("content", getattr a "content" (VStr ""));
                  ("start", getattr a "start" (VInt 0)); ("end", getattr a "end" (VInt (-1))) ];
       raw_action_name := name; requires_confirmation := true |}
  else if String.eqb name "FileEditAction" then
    let path := py_str (getattr a "path" (VStr "")) in
    {| action_type := FILE_PATCH; h_permission := WRITE; target := path;
       input := [ ("path", VStr path); ("command", getattr a "command" (VStr ""));
                  ("content", getattr a "content" (VStr "")); ("file_text", getattr a "file_text" VNone);
                  ("old_str", getattr a "old_str" VNone); ("new_str", getattr a "new_str" VNone);
                  ("insert_line", getattr a "insert_line" VNone) ];
       raw_action_name := name; requires_confirmation := true |}
  else if String.eqb name "MCPAction" then
    let tool_name := py_str (getattr a "name" (VStr "")) in
    let permission := mcp_permission_from_mapping tool_name mcp_permissions READ in
    {| action_type := MCP_TOOL; h_permission := permission; target := tool_name;
       input := [ ("name", VStr tool_name); ("arguments", getattr a "arguments" (VDict [])) ];
       raw_action_name := name;
       requires_confirmation := bool_decide (permission = EXECUTE \/ permission = CONFIRM) |}
  else
    {| action_type := UNKNOWN_ACTION; h_permission := READ; target := name;
       input := [ ("repr", VStr (action_repr a)) ]; raw_action_name := name; requires_confirmation := false |}.

(** ** Properties *)

(** The keys tried: the tool's own name first, then its prefixes, each once. *)
Lemma mcp_lookup_keys_spec tool :
  head (mcp_lookup_keys tool) = Some tool /\ NoDup (mcp_lookup_keys tool) /\
  forall k, k ∈ mcp_lookup_keys tool <->
    k = tool \/ exists sep rest, sep ∈ separators /\ split_once sep tool = Some (k, rest).
Proof.
  unfold mcp_lookup_keys. split; [done|]. split; [apply NoDup_dedup|]. intros k.
  rewrite elem_of_dedup, elem_of_cons, list_elem_of_omap. f_equiv. split.
  - intros (sep & Hs & E). destruct (split_once sep tool) as [[x r]|] eqn:Es; [|done]. cbn in E. simplify_eq. eauto.
  - intros (sep & r & Hs & E). exists sep. by rewrite E.
Qed.

(** What the mapping says for a key. *)
Definition spec_permission (dflt : ToolPermission) (v : perm_spec) : ToolPermission :=
  match v with
  | PMapping d => coerce_permission (default (PPerm dflt) (dget d "permission")) dflt
  | v => coerce_permission v dflt
  end.

Lemma mcp_permission_spec tool perms dflt :
  mcp_permission_from_mapping tool perms dflt
  = default dflt (spec_permission dflt <$> head (omap (dget perms) (mcp_lookup_keys tool))).
Proof.
  unfold mcp_permission_from_mapping. induction (mcp_lookup_keys tool) as [|k ks IH]; [done|]. cbn.
  destruct (dget perms k) as [v|]; [|done]. by destruct v.
Qed.

Lemma permission_of_value_spec s p : permission_of_value s = Some p <-> s = permission_value p.
Proof.
  unfold permission_of_value. repeat (case_match; [rewrite String.eqb_eq in *; subst|]); split; intros E; simplify_eq; try done;
    try (by destruct p); destruct p; cbn in *; by subst.
Qed.

(** Nothing that executes slips past confirmation by its class: an action
    that needs EXECUTE or CONFIRM, and every file write or edit, requires
    confirmation; what does not is a read, an MCP tool mapped to READ or WRITE,
    or an action of a class the harness does not know, which it treats as a
    READ of its class name. *)
Lemma confirmation_by_class (a : RuntimeAction) (perms : dict string perm_spec) :
  let h := action_from_runtime_action a perms in
  (h_permission h = EXECUTE \/ h_permission h = CONFIRM \/ action_type h = FILE_WRITE \/ action_type h = FILE_PATCH ->
     requires_confirmation h = true) /\
  (requires_confirmation h = false ->
     action_type h = FILE_READ \/ action_type h = UNKNOWN_ACTION /\ h_permission h = READ /\ target h = class_name a \/
     action_type h = MCP_TOOL /\ (h_permission h = READ \/ h_permission h = WRITE)) /\
  (action_type h = UNKNOWN_ACTION <->
     class_name a ∉ ["CmdRunAction"; "FileReadAction"; "FileWriteAction"; "FileEditAction"; "MCPAction"]).
Proof.
  unfold action_from_runtime_action. rewrite !not_elem_of_cons.
  repeat (case_match; [rewrite String.eqb_eq in *|rewrite String.eqb_neq in *]);
    cbn -[mcp_permission_from_mapping].
  - split; [done|]. split; [done|]. split; [by destruct (is_git_command _)|naive_solver].
  - naive_solver.
  - naive_solver.
  - naive_solver.
  - destruct (mcp_permission_from_mapping _ _ _); cbn -[mcp_permission_from_mapping]; naive_solver.
  - split; [naive_solver|]. split; [naive_solver|]. split; [|done]. intros _. split_and!; try done. set_solver.
Qed.

Example lookup_keys : mcp_lookup_keys "github.issues:list__all" = ["github.issues:list__all"; "github"; "github.issues"; "github.issues:list"].
Proof. reflexivity. Qed.
Example git_by_path : is_git_command "/usr/bin/git push" = true /\ is_git_command "git 'unclosed" = true /\
  is_git_command "env git push" = false.
Proof. vm_compute. split_and!; reflexivity. Qed.
