(* ===== verification/Redact.v ===== *)
(** * Observations and redaction

    Models [openhands/forgepilot/harness/observation.py]: the observation of an
    executed action, the redaction of its input (sensitive keys, inline
    secrets, credentials in URLs) and the summary of the runtime's result.

    The two patterns are compiled from their source text by [PyRegex.compile].
    A runtime result is read through its class name, three attributes and
    [str] only; that is what [RuntimeResult] holds ([None] is the option). *)

From S2P Require Import Prelude PyStr PyDict PyVal PyTime PyRegex ToolRegistry HarnessAction.
From Stdlib Require Import Ascii.

Inductive HarnessObservationStatus := SUCCESS | ERROR | DENIED | CONFIRMATION_REQUIRED.
#[global] Instance HarnessObservationStatus_eq_dec : EqDecision HarnessObservationStatus.
Proof. solve_decision. Defined.
Definition observation_status_value (s : HarnessObservationStatus) : string :=
  match s with
  | SUCCESS => "success" | ERROR => "error" | DENIED => "denied"
  | CONFIRMATION_REQUIRED => "confirmation_required"
  end.

Record HarnessObservation := {
  o_trace_id : string;
  o_action_type : HarnessActionType;
  o_permission : ToolPermission;
  o_target : string;
  redacted_input : dict string pyval;
  o_status : HarnessObservationStatus;
  latency_ms : Z;
  output_summary : string;
  error : option string;
  o_timestamp : datetime;
}.

(** ** Redaction *)

Definition SENSITIVE_KEY_PARTS : list string :=
  ["api_key"; "apikey"; "authorization"; "credential"; "password"; "refresh_token"; "secret"; "token"].
Definition INLINE_SECRET_PATTERN : re :=
  compile false "(?i)\b(api[_-]?key|authorization|password|secret|token)\s*[:=]\s*([^\s,;]+)".
Definition URL_USERINFO_PATTERN : re :=
  compile false "([a-zA-Z][a-zA-Z0-9+.\-]*://)[^/\s@]+:[^/\s@]+@".

Definition is_sensitive_key (key : string) : bool :=
  let normalized := replace "-" "_" (lower key) in
  existsb (fun part => contains part normalized) SENSITIVE_KEY_PARTS.

Definition scrub (value : string) : string :=
  let scrubbed := re_sub INLINE_SECRET_PATTERN (fun cs => group 1 cs +:+ "=[REDACTED]") value in
  re_sub URL_USERINFO_PATTERN (fun cs => group 1 cs +:+ "[REDACTED]@") scrubbed.

Fixpoint redact_payload (value : pyval) : pyval :=
  match value with
  | VDict d =>
      VDict (map (fun kv => (kv.1, if is_sensitive_key kv.1 then VStr "[REDACTED]" else redact_payload kv.2)) d)
  | VList l | VTuple l => VList (map redact_payload l)
  | VStr s => VStr (scrub s)
  | v => v
  end.

(** [redact_payload] on the input of an action. *)
Definition redact_input (d : dict string pyval) : dict string pyval :=
  match redact_payload (VDict d) with VDict d' => d' | _ => [] end.

(** ** Runtime results *)

Record RuntimeResult := {
  result_class : string;
  content_attr : option pyval;
  output_summary_attr : option pyval;
  error_attr : option pyval;
  result_str : string;
}.

Definition summarize_runtime_output (result : option RuntimeResult) (max_chars : Z) : string :=
  match result with
  | None => ""
  | Some r =>
      match content_attr r, output_summary_attr r with
      | Some c, _ => summarize_tool_output (py_str c) max_chars
      | None, Some o => summarize_tool_output (py_str o) max_chars
      | None, None => summarize_tool_output (result_str r) max_chars
      end
  end.

Definition is_error_observation (result : option RuntimeResult) : bool :=
  match result with Some r => String.eqb (result_class r) "ErrorObservation" | None => false end.

Definition status_from_runtime_output (result : option RuntimeResult) : HarnessObservationStatus :=
  if is_error_observation result then ERROR
  else
    let error := match result with Some r => default (VBool false) (error_attr r) | None => VBool false end in
    match error with
    | VBool b => if b then ERROR else SUCCESS
    | v => if truth v then ERROR else SUCCESS
    end.

(** ** Properties *)

Definition in_key_set (k : string) : Prop := is_sensitive_key k = true.

(** Two values that differ only in what sensitive keys hold (and in tuples
    standing for lists). *)
Inductive same_public : pyval -> pyval -> Prop :=
  | sp_refl v : same_public v v
  | sp_list l l' : Forall2 same_public l l' -> same_public (VList l) (VList l')
  | sp_tuple l l' : Forall2 same_public l l' -> same_public (VTuple l) (VTuple l')
  | sp_dict d d' :
      Forall2 (fun kv kv' => kv.1 = kv'.1 /\ (in_key_set kv.1 \/ same_public kv.2 kv'.2)) d d' ->
      same_public (VDict d) (VDict d').

Lemma map_Forall2_eq {A B} (f : A -> B) (R : A -> A -> Prop) l l' :
  Forall2 R l l' -> Forall (fun x => forall y, R x y -> f x = f y) l -> map f l = map f l'.
Proof.
  induction 1 as [|x y l l' Hxy Hl IH]; intros Hf; [done|]. apply Forall_cons in Hf as [Hx Hf]. cbn.
  by rewrite (Hx y Hxy), IH.
Qed.

Lemma redact_same_public v : forall w, same_public v w -> redact_payload v = redact_payload w.
Proof.
  induction v as [| | | | |l IH|l IH|d IH|] using pyval_nested_ind; intros w Hw; inversion Hw; subst; try done;
    cbn -[is_sensitive_key]; f_equal.
  - by eapply map_Forall2_eq.
  - by eapply map_Forall2_eq.
  - eapply map_Forall2_eq; [done|]. eapply Forall_impl; [exact IH|]. intros [k x] Hx [k' y] [E Hk].
    cbn -[is_sensitive_key] in *. subst k'.
    f_equal. destruct (is_sensitive_key k) eqn:Es; [done|]. destruct Hk as [Hk|Hk]; [|by apply Hx].
    unfold in_key_set in Hk. congruence.
Qed.

#[global] Instance redact_payload_proper : Proper (same_public ==> eq) redact_payload.
Proof. intros v w. apply redact_same_public. Qed.

(** No sensitive key of the redacted value holds anything but the marker. *)
Fixpoint keys_redacted (v : pyval) : Prop :=
  match v with
  | VDict d =>
      (fix go (d : list (string * pyval)) : Prop :=
         match d with
         | [] => True
         | kv :: d' => (if is_sensitive_key kv.1 then kv.2 = VStr "[REDACTED]" else keys_redacted kv.2) /\ go d'
         end) d
  | VList l | VTuple l =>
      (fix go (l : list pyval) : Prop :=
         match l with [] => True | v :: l' => keys_redacted v /\ go l' end) l
  | _ => True
  end.

Lemma redact_keys_redacted v : keys_redacted (redact_payload v).
Proof.
  induction v as [| | | | |l IH|l IH|d IH|] using pyval_nested_ind; cbn -[is_sensitive_key]; try done.
  - by induction IH.
  - by induction IH.
  - induction IH as [|[k x] d Hx _ IHd]; [done|]. cbn -[is_sensitive_key] in *. split; [|done]. by destruct (is_sensitive_key k).
Qed.

(** C39: what a sensitive key holds never reaches the log: two payloads that
    agree except on the values under sensitive keys, at any depth, are redacted
    to the same value, in which every sensitive key holds the marker. *)
Theorem redaction_hides_sensitive_keys (v w : pyval) (H : same_public v w) :
  redact_payload v = redact_payload w /\ keys_redacted (redact_payload v).
Proof. split; [by rewrite H|apply redact_keys_redacted]. Qed.

Lemma redaction_hides_sensitive_keys_witness :
  let v s := VDict [("cwd", VStr "/w"); ("env", VList [VDict [("GITHUB-Token", VStr s)]])] in
  redact_payload (v "hunter2") = redact_payload (v "swordfish") /\ keys_redacted (redact_payload (v "hunter2")).
Proof.
  apply redaction_hides_sensitive_keys. apply sp_dict. constructor; [by split; [|right; constructor]|].
  constructor; [|constructor]. split; [done|right]. apply sp_list. constructor; [|constructor].
  apply sp_dict. constructor; [|constructor]. split; [done|]. left. reflexivity.
Defined.

(** Text in which neither pattern matches is kept. *)
Lemma scrub_public s :
  re_search INLINE_SECRET_PATTERN s = false -> re_search URL_USERINFO_PATTERN s = false -> scrub s = s.
Proof. intros H1 H2. unfold scrub. rewrite (re_sub_nomatch _ _ _ H1). by apply re_sub_nomatch. Qed.

