(* ===== verification/Confirmation.v ===== *)
(** * Confirmation tokens

    Models [openhands/forgepilot/harness/confirmation.py]: the gate that issues
    one-time confirmation tokens and consumes them.  The clock (microseconds,
    UTC) and the fresh token text are inputs of the operations.

    The theorems: pruning cannot be observed (the gate refines one that keeps
    every token), and a token is accepted exactly when it was issued for that
    subject, has not expired and has not been accepted before. *)

From S2P Require Import Prelude PyStr PyDict PyTime.

Record ConfirmationToken := {
  token : string;
  subject : string;
  issued_at : datetime;
  expires_at : option datetime;
  consumed_at : option datetime;
}.
Definition consumed (c : ConfirmationToken) : bool := match consumed_at c with Some _ => true | None => false end.

Definition ConfirmationGate : Type := dict string ConfirmationToken.
Definition new_gate : ConfirmationGate := [].

(** [expires_at is not None and now > expires_at] *)
Definition expired (now : Z) (c : ConfirmationToken) : bool :=
  match expires_at c with Some d => instant d <? now | None => false end.
Definition stale (now : Z) (c : ConfirmationToken) : bool := consumed c || expired now c.

Definition prune (now : Z) (g : ConfirmationGate) : ConfirmationGate :=
  let stale_tokens := map fst (List.filter (fun kv => stale now kv.2) g) in
  fold_left ddel stale_tokens g.

(** [now + timedelta(seconds=ttl_seconds)], within the range of [datetime]. *)
Definition expiry (now : Z) (ttl_seconds : option Z) : res (option datetime) :=
  match ttl_seconds with
  | None => Ok None
  | Some s =>
      if 999999999 <? Z.abs (s / 86400)
      then Raise (OtherError "OverflowError"
                    ("days=" +:+ str_of_Z (s / 86400) +:+ "; must have magnitude <= 999999999"))
      else
        let t := now + s * 1000000 in
        if (days_from_civil 1 1 1 * day_us <=? t) && (t <? days_from_civil 10000 1 1 * day_us)
        then Ok (Some (utc t))
        else Raise (OtherError "OverflowError" "date value out of range")
  end.

(** [issue(subject, ttl_seconds=...)] with [now] and the fresh [uuid4().hex]. *)
Definition issue (subj : string) (ttl_seconds : option Z) (now : Z) (fresh : string) : M ConfirmationGate ConfirmationToken :=
  modifyM (prune now) ;;;
  exp <- liftM (expiry now ttl_seconds) ;;
  let confirmation := {| token := fresh; subject := subj; issued_at := utc now; expires_at := exp; consumed_at := None |} in
  modifyM (fun g => dset g fresh confirmation) ;;;
  retM confirmation.

Definition mark_consumed (now : Z) (c : ConfirmationToken) : ConfirmationToken :=
  {| token := token c; subject := subject c; issued_at := issued_at c; expires_at := expires_at c;
     consumed_at := Some (utc now) |}.

Definition subject_differs (subj : option string) (c : ConfirmationToken) : bool :=
  match subj with Some s => negb (String.eqb (subject c) s) | None => false end.

(** [consume(token, subject=...)] *)
Definition consume (tok : string) (subj : option string) (now : Z) : M ConfirmationGate bool :=
  fun g =>
    match dget g tok with
    | None => (Ok false, g)
    | Some confirmation =>
        if consumed confirmation then (Ok false, g)
        else if subject_differs subj confirmation then (Ok false, g)
        else if expired now confirmation then (Ok false, g)
        else (Ok true, dalter (mark_consumed now) g tok)
    end.

(** ** Sequences of calls *)

Inductive gate_op :=
  | Issue (tok subj : string) (ttl_seconds : option Z) (now : Z)
  | Consume (tok : string) (subj : option string) (now : Z).
Inductive gate_result :=
  | Issued (r : res ConfirmationToken)
  | Answered (b : bool).

Definition op_time (o : gate_op) : Z := match o with Issue _ _ _ t => t | Consume _ _ t => t end.
Definition is_true_answer (r : res bool) : bool := match r with Ok b => b | Raise _ => false end.

Definition gate_step (g : ConfirmationGate) (o : gate_op) : gate_result * ConfirmationGate :=
  match o with
  | Issue tok subj ttl now => let '(r, g) := issue subj ttl now tok g in (Issued r, g)
  | Consume tok subj now => let '(r, g) := consume tok subj now g in (Answered (is_true_answer r), g)
  end.

(** The specification keeps every token. *)
Definition spec_step (g : ConfirmationGate) (o : gate_op) : gate_result * ConfirmationGate :=
  match o with
  | Issue tok subj ttl now =>
      match expiry now ttl with
      | Ok exp =>
          let c := {| token := tok; subject := subj; issued_at := utc now; expires_at := exp; consumed_at := None |} in
          (Issued (Ok c), dset g tok c)
      | Raise e => (Issued (Raise e), g)
      end
  | Consume tok subj now => let '(r, g) := consume tok subj now g in (Answered (is_true_answer r), g)
  end.

(** A clock that does not go back. *)
Definition clock_ok (ops : list gate_op) : Prop := StronglySorted (fun a b => op_time a <= op_time b) ops.

(** ** Pruning cannot be observed *)

Lemma dget_fold_ddel (ks : list string) (g : ConfirmationGate) k :
  dget (fold_left ddel ks g) k = if decide (k ∈ ks) then None else dget g k.
Proof.
  revert g; induction ks as [|x ks IH]; intros g; cbn [fold_left].
  - rewrite decide_False; [done|]. apply not_elem_of_nil.
  - rewrite IH, dget_ddel. destruct (decide (k ∈ ks)) as [H|H]; [by rewrite decide_True by by right|].
    destruct (decide (x = k)) as [->|Hne]; [by rewrite decide_True by by left|].
    rewrite decide_False; [done|]. rewrite elem_of_cons. naive_solver.
Qed.

Lemma dget_prune now g k c :
  dwf g -> dget g k = Some c -> dget (prune now g) k = if stale now c then None else Some c.
Proof.
  intros Hg Hk. unfold prune. rewrite dget_fold_ddel, Hk. destruct (stale now c) eqn:Es; [apply decide_True|apply decide_False].
  - apply list_elem_of_In, in_map_iff. exists (k, c). split; [done|]. apply filter_In. split; [|done].
    apply list_elem_of_In. by apply dget_elem.
  - intros Hin. apply list_elem_of_In, in_map_iff in Hin as ([k' c'] & Hk' & [Hin Hs]%filter_In). cbn in *. subst k'.
    apply list_elem_of_In, elem_of_dget in Hin; [|done]. congruence.
Qed.

Lemma dget_prune_None now g k : dget g k = None -> dget (prune now g) k = None.
Proof. intros Hk. unfold prune. rewrite dget_fold_ddel, Hk. by case_decide. Qed.

Lemma dwf_prune now g : dwf g -> dwf (prune now g).
Proof.
  unfold prune. generalize (map fst (List.filter (fun kv => stale now kv.2) g)) as ks. intros ks. revert g.
  induction ks as [|k ks IH]; intros g Hg; [done|]. apply IH. by apply dwf_ddel.
Qed.

(** The pruned gate holds what the specification holds, but for tokens that
    are stale at [now]. *)
Definition pruned_from (now : Z) (g h : ConfirmationGate) : Prop :=
  dwf g /\ forall k,
    match dget h k with
    | None => dget g k = None
    | Some c => dget g k = Some c \/ (dget g k = None /\ stale now c = true)
    end.

Lemma stale_mono now now' c : now <= now' -> stale now c = true -> stale now' c = true.
Proof.
  unfold stale, expired. destruct (consumed c); [done|]. destruct (expires_at c) as [d|]; [|done]. cbn.
  rewrite !Z.ltb_lt. lia.
Qed.

Lemma pruned_later now now' g h : now <= now' -> pruned_from now g h -> pruned_from now' g h.
Proof.
  intros Hle [Hg H]. split; [done|]. intros k. specialize (H k). destruct (dget h k); [|done].
  destruct H as [?|[? ?]]; [by left|right]. split; [done|]. by eapply stale_mono.
Qed.

Lemma prune_pruned now g h : pruned_from now g h -> pruned_from now (prune now g) h.
Proof.
  intros [Hg H]. split; [by apply dwf_prune|]. intros k. specialize (H k). destruct (dget h k) as [c|].
  - destruct H as [H|[H Hs]]; [|right; split; [by apply dget_prune_None|done]].
    rewrite (dget_prune now g k c) by done. destruct (stale now c); [by right|by left].
  - by apply dget_prune_None.
Qed.

Lemma pruned_dset now g h k c : pruned_from now g h -> pruned_from now (dset g k c) (dset h k c).
Proof.
  intros [Hg H]. split; [by apply dwf_dset|]. intros k'. rewrite !dget_dset. case_decide; [by left|apply H].
Qed.
Lemma pruned_dalter now g h k f c :
  pruned_from now g h -> dget g k = Some c -> pruned_from now (dalter f g k) (dalter f h k).
Proof.
  intros [Hg H] Hk. split; [by apply dwf_dalter|]. intros k'. rewrite !dget_dalter. pose proof (H k') as Hk'.
  destruct (decide (k = k')) as [->|Hne]; [|done]. rewrite Hk in *. destruct (dget h k'); [|done].
  left. cbn. destruct Hk' as [E|[E _]]; simplify_eq; done.
Qed.

Lemma consume_pruned now g h tok subj :
  pruned_from now g h ->
  (consume tok subj now g).1 = (consume tok subj now h).1 /\
  pruned_from now (consume tok subj now g).2 (consume tok subj now h).2.
Proof.
  intros Hgh. pose proof (proj2 Hgh tok) as Ht. unfold consume. destruct (dget h tok) as [c|] eqn:Eh.
  - destruct Ht as [Ht|[Ht Hs]]; rewrite Ht.
    + destruct (consumed c); [done|]. destruct (subject_differs subj c); [done|]. destruct (expired now c); [done|].
      split; [done|]. by eapply pruned_dalter.
    + unfold stale in Hs. destruct (consumed c); [done|]. cbn in Hs. rewrite Hs. by destruct (subject_differs subj c).
  - by rewrite Ht.
Qed.

Lemma step_pruned now0 g h o :
  pruned_from now0 g h -> now0 <= op_time o ->
  (gate_step g o).1 = (spec_step h o).1 /\ pruned_from (op_time o) (gate_step g o).2 (spec_step h o).2.
Proof.
  intros Hgh Hle. apply (pruned_later _ (op_time o)) in Hgh; [|done]. destruct o as [tok subj ttl now|tok subj now]; cbn [op_time] in *.
  - unfold gate_step, spec_step, issue, bindM, modifyM, liftM, retM.
    destruct (expiry now ttl); cbn; (split; [done|]); [apply pruned_dset|]; by apply prune_pruned.
  - destruct (consume_pruned now g h tok subj Hgh) as [E Hp]. unfold gate_step, spec_step.
    destruct (consume tok subj now g), (consume tok subj now h). cbn in *. by subst.
Qed.

Lemma clock_ok_prefix ops o : clock_ok (ops ++ [o]) -> clock_ok ops.
Proof. apply StronglySorted_app_1_l. Qed.
Lemma clock_ok_last ops o o' : clock_ok (ops ++ [o]) -> o' ∈ ops -> op_time o' <= op_time o.
Proof.
  induction ops as [|x ops IH]; cbn; [by intros _ ?%elem_of_nil|]. intros [Hs Hx]%StronglySorted_inv.
  rewrite Forall_forall in Hx. intros [->|Ho]%elem_of_cons; [apply Hx; set_solver|by apply IH].
Qed.

(** The simulation: whatever the time, if it is not before the calls made. *)
Lemma run_new ops :
  clock_ok ops -> (transcript gate_step new_gate ops).1 = (transcript spec_step new_gate ops).1.
Proof.
  apply (transcript_simulation gate_step spec_step clock_ok
           (fun hist g h => forall now, (forall o, o ∈ hist -> op_time o <= now) -> pruned_from now g h)).
  - apply clock_ok_prefix.
  - intros hist o g h Hc HR. destruct (step_pruned (op_time o) g h o) as [E Hp]; [|lia|].
    { apply HR. intros o' Ho'. by eapply clock_ok_last. }
    split; [done|]. intros now Hnow. eapply pruned_later; [|exact Hp]. apply Hnow. set_solver.
  - intros now _. split; [constructor|done].
Qed.

(** Pruning cannot be observed: over any sequence of calls with a clock
    that does not go back, the gate gives the same tokens and the same answers
    as a gate that never forgets a token. *)
Lemma prune_unobservable (ops : list gate_op) (Hclock : clock_ok ops) :
  (transcript gate_step new_gate ops).1 = (transcript spec_step new_gate ops).1.
Proof. by apply run_new. Qed.

Definition example_ops : list gate_op :=
  [ Issue "t1" "git:push" (Some 300) 0; Issue "t2" "git:push" (Some 1) 0; Consume "t1" (Some "terminal:ls") 1000000;
    Consume "t1" (Some "git:push") 1000000; Issue "t3" "x" None 5000000; Consume "t1" (Some "git:push") 6000000;
    Consume "t2" None 6000000; Consume "t3" (Some "x") 7000000 ].
Lemma example_clock : clock_ok example_ops.
Proof. by repeat constructor. Qed.

Lemma prune_unobservable_witness :
  (transcript gate_step new_gate example_ops).1 = (transcript spec_step new_gate example_ops).1 /\
  omap (fun r => match r with Answered b => Some b | _ => None end) (transcript gate_step new_gate example_ops).1
  = [false; true; false; false; true] /\
  dkeys (transcript gate_step new_gate example_ops).2 = ["t3"].
Proof. split; [apply (prune_unobservable example_ops example_clock)|]. split; reflexivity. Defined.

(** ** Which tokens are accepted *)

Definition issued_tokens (ops : list gate_op) : list string :=
  omap (fun o => match o with Issue k _ _ _ => Some k | _ => None end) ops.
Definition accepted_in (ops : list gate_op) (rs : list gate_result) : list string :=
  omap (fun p => match p with (Consume k _ _, Answered true) => Some k | _ => None end) (zip ops rs).
(** The tokens accepted in the course of [ops]. *)
Definition accepted (ops : list gate_op) : list string := accepted_in ops (transcript gate_step new_gate ops).1.

Definition spec_after (ops : list gate_op) : ConfirmationGate := (transcript spec_step new_gate ops).2.
Definition spec_accepted (ops : list gate_op) : list string := accepted_in ops (transcript spec_step new_gate ops).1.

Lemma spec_accepted_snoc ops o :
  spec_accepted (ops ++ [o]) = spec_accepted ops ++
    match o, (spec_step (spec_after ops) o).1 with Consume k _ _, Answered true => [k] | _, _ => [] end.
Proof.
  unfold spec_accepted, accepted_in. rewrite transcript_snoc. cbn [fst].
  rewrite zip_with_app by (by rewrite transcript_length). rewrite omap_app. f_equal. cbn -[spec_step].
  fold (spec_after ops). destruct o as [|k subj now]; [done|]. by destruct (spec_step (spec_after ops) (Consume k subj now)).1 as [|[]].
Qed.

Definition issued_as (ops : list gate_op) (k s : string) (exp : option datetime) : Prop :=
  exists ttl t0, Issue k s ttl t0 ∈ ops /\ expiry t0 ttl = Ok exp.

Lemma issued_as_token ops k s exp : issued_as ops k s exp -> k ∈ issued_tokens ops.
Proof. intros (ttl & t0 & H & _). apply list_elem_of_omap. by exists (Issue k s ttl t0). Qed.

(** What the keeping gate holds after [ops]. *)
Definition spec_inv (ops : list gate_op) : Prop :=
  (forall k s exp, issued_as ops k s exp ->
     exists c, dget (spec_after ops) k = Some c /\ subject c = s /\ expires_at c = exp) /\
  (forall k c, dget (spec_after ops) k = Some c ->
     issued_as ops k (subject c) (expires_at c) /\ (consumed c = true <-> k ∈ spec_accepted ops)) /\
  spec_accepted ops ⊆ issued_tokens ops.

Lemma spec_after_snoc ops o : spec_after (ops ++ [o]) = (spec_step (spec_after ops) o).2.
Proof. unfold spec_after. by rewrite transcript_snoc. Qed.
Lemma issued_as_snoc ops o k s exp :
  issued_as (ops ++ [o]) k s exp <->
  issued_as ops k s exp \/ exists ttl t0, o = Issue k s ttl t0 /\ expiry t0 ttl = Ok exp.
Proof. unfold issued_as. setoid_rewrite elem_of_app. setoid_rewrite list_elem_of_singleton. naive_solver. Qed.
Lemma issued_tokens_snoc ops o :
  issued_tokens (ops ++ [o]) = issued_tokens ops ++ match o with Issue k _ _ _ => [k] | _ => [] end.
Proof. unfold issued_tokens. rewrite omap_app. by destruct o. Qed.

Lemma spec_inv_issue ops tok s ttl now :
  spec_inv ops -> tok ∉ issued_tokens ops -> spec_inv (ops ++ [Issue tok s ttl now]).
Proof.
  intros (I1 & I2 & I3) Hf. unfold spec_inv. setoid_rewrite issued_as_snoc.
  rewrite spec_after_snoc, spec_accepted_snoc, issued_tokens_snoc. cbn [spec_step].
  destruct (expiry now ttl) as [exp0|e] eqn:Ee; cbn [fst snd]; rewrite app_nil_r.
  - split; [|split; [|set_solver]].
    + intros k s' exp [H|(ttl' & t0 & [= <- <- <- <-] & He)].
      * rewrite dget_dset_ne by (intros ->; by apply Hf, (issued_as_token _ _ s' exp)). by apply I1.
      * rewrite dget_dset_eq. eexists. split; [done|]. split; [done|]. cbn. congruence.
    + intros k c. rewrite dget_dset. destruct (decide (tok = k)) as [<-|Hne].
      * intros [= <-]. cbn. split; [right; eauto|]. split; [done|]. intros Hk. by apply I3 in Hk.
      * intros Hk. destruct (I2 k c Hk). split; [by left|done].
  - split; [|split; [|set_solver]].
    + intros k s' exp [H|(ttl' & t0 & [= <- <- <- <-] & He)]; [by apply I1|congruence].
    + intros k c Hk. destruct (I2 k c Hk). split; [by left|done].
Qed.

Lemma consume_true tok subj now h :
  (spec_step h (Consume tok subj now)).1 = Answered true <->
  exists c, dget h tok = Some c /\ consumed c = false /\ (subj = None \/ subj = Some (subject c)) /\
    (forall d, expires_at c = Some d -> now <= instant d).
Proof.
  cbn [spec_step]. unfold consume. destruct (dget h tok) as [c|]; [|split; [done|naive_solver]].
  assert (subject_differs subj c = false <-> subj = None \/ subj = Some (subject c)) as Hs.
  { destruct subj as [s|]; cbn; [|naive_solver]. rewrite negb_false_iff, String.eqb_eq. naive_solver. }
  assert (expired now c = false <-> forall d, expires_at c = Some d -> now <= instant d) as He.
  { unfold expired. destruct (expires_at c) as [d|]; [|naive_solver]. rewrite Z.ltb_ge. naive_solver. }
  destruct (consumed c) eqn:Ec; cbn.
  { split; [done|]. intros (c' & [= <-] & ? & _). congruence. }
  destruct (subject_differs subj c), (expired now c); cbn; (split; [|intros (c' & [= <-] & _ & H1 & H2)]);
    try done; try (exfalso; naive_solver); intros _; naive_solver.
Qed.

Lemma spec_inv_consume ops tok subj now :
  spec_inv ops -> spec_inv (ops ++ [Consume tok subj now]).
Proof.
  intros (I1 & I2 & I3). unfold spec_inv. setoid_rewrite issued_as_snoc.
  rewrite spec_after_snoc, spec_accepted_snoc, issued_tokens_snoc, app_nil_r.
  pose proof (consume_true tok subj now (spec_after ops)) as Ht. cbn [spec_step] in *.
  unfold consume in *. destruct (dget (spec_after ops) tok) as [c|] eqn:Ec.
  2:{ cbn. rewrite app_nil_r. naive_solver. }
  destruct (consumed c) eqn:E1; [cbn; rewrite app_nil_r; naive_solver|].
  destruct (subject_differs subj c); [cbn; rewrite app_nil_r; naive_solver|].
  destruct (expired now c); [cbn; rewrite app_nil_r; naive_solver|]. cbn [fst snd is_true_answer] in *.
  split; [|split].
  - intros k s exp [H|(? & ? & ? & _)]; [|done]. destruct (I1 k s exp H) as (c' & Hc' & Hs & He).
    rewrite dget_dalter. case_decide; [subst k|by exists c']. rewrite Hc'. cbn. eexists. split; [done|]. done.
  - intros k c'. rewrite dget_dalter, elem_of_app, list_elem_of_singleton. case_decide as E.
    + subst k. rewrite Ec. cbn. intros [= <-]. destruct (I2 tok c Ec) as [H _]. split; [by left|].
      split; [by right|done].
    + intros Hc'. destruct (I2 k c' Hc') as [H1 H2]. split; [by left|]. rewrite H2. naive_solver.
  - intros k [Hk|Hk%list_elem_of_singleton]%elem_of_app; [by apply I3|subst k].
    destruct (I2 tok c Ec) as [H _]. by eapply issued_as_token.
Qed.

Lemma spec_inv_run ops : NoDup (issued_tokens ops) -> spec_inv ops.
Proof.
  induction ops as [|o ops IH] using rev_ind; intros Hnd.
  - split_and!; [|done|done]. intros k s exp (? & ? & H & _). by apply elem_of_nil in H.
  - rewrite issued_tokens_snoc in Hnd. apply NoDup_app in Hnd as (Hnd & Hd & _).
    destruct o; [|by apply spec_inv_consume, IH]. apply spec_inv_issue; [by apply IH|].
    intros Hin. apply (Hd _ Hin). by left.
Qed.

(** C2: a token is a one-time pass: when token texts are fresh and the clock
    does not go back, [consume] accepts a token exactly when it was issued
    before, for that subject (or no subject is asked for), has not expired, and
    has not been accepted before, however calls for other tokens intervene. *)
Theorem token_accepted_iff (ops : list gate_op) (tok : string) (subj : option string) (now : Z)
    (Hclock : clock_ok (ops ++ [Consume tok subj now])) (Hfresh : NoDup (issued_tokens ops)) :
  (gate_step (transcript gate_step new_gate ops).2 (Consume tok subj now)).1 = Answered true <->
  exists s exp, issued_as ops tok s exp /\ (subj = None \/ subj = Some s) /\
    (forall d, exp = Some d -> now <= instant d) /\ tok ∉ accepted ops.
Proof.
  pose proof (run_new _ Hclock) as E. rewrite !transcript_snoc in E. cbn [fst] in E.
  apply app_inj_tail in E as [E0 E]. rewrite E. fold (spec_after ops).
  assert (accepted ops = spec_accepted ops) as -> by (unfold accepted, spec_accepted; by rewrite E0).
  destruct (spec_inv_run ops Hfresh) as (I1 & I2 & I3). rewrite consume_true. split.
  - intros (c & Hc & Hn & Hs & He). destruct (I2 tok c Hc) as [H Ha]. exists (subject c), (expires_at c).
    split_and!; [done..|]. rewrite <-Ha. congruence.
  - intros (s & exp & Hi & Hs & He & Ha). destruct (I1 _ _ _ Hi) as (c & Hc & <- & <-).
    exists c. split_and!; [done| |done..]. apply not_true_iff_false. by rewrite (proj2 (I2 tok c Hc)).
Qed.

Lemma token_accepted_iff_witness :
  let ops := take 3 example_ops in
  (gate_step (transcript gate_step new_gate ops).2 (Consume "t1" (Some "git:push") 1000000)).1 = Answered true.
Proof.
  cbv zeta. apply (token_accepted_iff (take 3 example_ops) "t1" (Some "git:push") 1000000).
  - by repeat constructor.
  - change (NoDup ["t1"; "t2"]). repeat (constructor; [set_solver|]). constructor.
  - exists "git:push", (Some (utc 300000000)). split_and!.
    + exists (Some 300), 0. split; [by left|reflexivity].
    + by right.
    + intros d [= <-]. unfold instant; cbn; lia.
    + change (accepted (take 3 example_ops)) with ([] : list string). apply not_elem_of_nil.
Defined.

(** ** What the gate promises to its clients

    The harness only consumes tokens, and whoever talks to the user issues
    them; what they rely on is that a token is [live] from its issue until it is
    accepted, and that acceptance takes a live token. *)

Class Authority (G : Type) := {
  issue_token : string -> option Z -> Z -> string -> M G ConfirmationToken;
  consume_token : string -> option string -> Z -> M G bool;
  live : G -> string -> Prop;
}.
Class AuthorityLaws (G : Type) `{Authority G} : Prop := {
  consume_total tok subj now g : exists b, outcome (consume_token tok subj now g) = Ok b;
  consume_accepts tok subj now g :
    outcome (consume_token tok subj now g) = Ok true ->
    live g tok /\ forall k, live (after (consume_token tok subj now g)) k <-> live g k /\ k <> tok;
  consume_refuses tok subj now g :
    outcome (consume_token tok subj now g) = Ok false -> after (consume_token tok subj now g) = g;
  issue_lives subj ttl now tok g k :
    live (after (issue_token subj ttl now tok g)) k -> live g k \/ k = tok;
}.

#[global] Instance gate_authority : Authority ConfirmationGate := {
  issue_token := issue;
  consume_token := consume;
  live g k := exists c, dget g k = Some c /\ consumed c = false;
}.

Lemma dget_issue subj ttl now tok g k c :
  dget (after (issue subj ttl now tok g)) k = Some c -> dget g k = Some c \/ k = tok.
Proof.
  assert (dget (prune now g) k = Some c -> dget g k = Some c) as Hp.
  { unfold prune. rewrite dget_fold_ddel. by case_decide. }
  unfold issue, bindM, modifyM, liftM, retM. destruct (expiry now ttl); cbn; [|by auto].
  rewrite dget_dset. case_decide; auto.
Qed.

#[global] Instance gate_authority_laws : AuthorityLaws ConfirmationGate.
Proof.
  split; unfold consume_token, issue_token, live, gate_authority, outcome, after; cbn.
  - intros tok subj now g. unfold consume. repeat case_match; by eexists.
  - intros tok subj now g. unfold consume. destruct (dget g tok) as [c|] eqn:Ec; [|done].
    destruct (consumed c) eqn:E1; [done|]. destruct (subject_differs subj c); [done|]. destruct (expired now c); [done|].
    intros _. split; [by exists c|]. intros k. cbn. rewrite dget_dalter. case_decide as E.
    + subst k. rewrite Ec. split; [|by intros [_ ?]]. by intros (c' & [= <-] & ?).
    + naive_solver.
  - intros tok subj now g. unfold consume. by repeat case_match.
  - intros subj ttl now tok g k (c & Hc & Hn). destruct (dget_issue _ _ _ _ _ _ _ Hc) as [?| ->]; [left; by exists c|by right].
Qed.

Lemma new_gate_empty k : ~ live new_gate k.
Proof. intros Hk. cbn in Hk. by destruct Hk as (c & Hc & _). Qed.
