(* ===== verification/HarnessService.v ===== *)
(** * The execution harness

    Models [openhands/forgepilot/harness/policy.py], [harness/audit.py] and
    [harness/service.py]: the policy decision on an action, the preflight
    checks (policy, confirmation state, confirmation token), running the
    executor, and the observation and audit event of every outcome.

    The state of an [ExecutionHarness] is its gate and its audit events; the
    executor is a parameter acting on a world [W].  [execute_async] is the same
    two steps with a suspension between them, in which other executions may
    run: [Interleaving] below. *)

From S2P Require Import Prelude PyStr PyDict PyVal PyTime Fnmatch ToolRegistry HarnessAction Redact Confirmation AuditSchema.

(** ** policy.py *)

Record PolicyDecision := {
  allowed : bool;
  d_permission : ToolPermission;
  d_requires_confirmation : bool;
  reason : string;
}.

Record HarnessPolicy := {
  allowed_permissions : list ToolPermission;
  blocked_targets : list string;
  require_confirmation_for : list ToolPermission;
  block_unknown_actions : bool;
}.
Definition default_policy : HarnessPolicy :=
  {| allowed_permissions := [READ; WRITE; EXECUTE; CONFIRM]; blocked_targets := [];
     require_confirmation_for := [CONFIRM]; block_unknown_actions := false |}.

Definition deny (p : ToolPermission) (why : string) : PolicyDecision :=
  {| allowed := false; d_permission := p; d_requires_confirmation := false; reason := why |}.

Definition evaluate (policy : HarnessPolicy) (action : HarnessAction) : PolicyDecision :=
  if block_unknown_actions policy && String.eqb (action_type_value (action_type action)) "unknown"
  then deny (h_permission action) "unknown action type"
  else if negb (bool_decide (h_permission action ∈ allowed_permissions policy))
  then deny (h_permission action) ("permission " +:+ permission_value (h_permission action) +:+ " is not allowed")
  else if existsb (fun pattern => fnmatch (target action) pattern) (blocked_targets policy)
  then deny (h_permission action) ("target " +:+ target action +:+ " is blocked by policy")
  else {| allowed := true; d_permission := h_permission action;
          d_requires_confirmation := requires_confirmation action
            || bool_decide (h_permission action ∈ require_confirmation_for policy);
          reason := "allowed" |}.

(** ** audit.py *)

Definition audit_event_type (o : HarnessObservation) : AuditEventType :=
  if bool_decide (o_status o = CONFIRMATION_REQUIRED) then APPROVAL_REQUESTED
  else if bool_decide (o_action_type o = TERMINAL \/ o_action_type o = GIT) then COMMAND_RUN
  else if bool_decide (o_action_type o = FILE_WRITE \/ o_action_type o = FILE_PATCH) then FILE_CHANGE
  else TOOL_CALL.

Definition audit_event_from_observation (o : HarnessObservation) (task : option string) : AuditEvent :=
  {| trace_id := o_trace_id o;
     AuditSchema.task_id := task;
     event_type := audit_event_type o;
     phase := Some "execute";
     timestamp := o_timestamp o;
     summary := action_type_value (o_action_type o) +:+ " " +:+ observation_status_value (o_status o) +:+ ": " +:+ o_target o;
     payload :=
       [ ("action_type", VStr (action_type_value (o_action_type o)));
         ("permission_level", VStr (permission_value (o_permission o)));
         ("target", VStr (o_target o));
         ("redacted_input", VDict (redacted_input o));
         ("status", VStr (observation_status_value (o_status o)));
         ("latency_ms", VInt (latency_ms o));
         ("output_summary", VStr (output_summary o));
         ("error", match error o with Some e => VStr e | None => VNone end) ];
     duration_ms := Some (latency_ms o);
     cost_usd := None |}.

(** ** service.py *)

Record HarnessExecutionResult := {
  observation : HarnessObservation;
  audit_event : AuditEvent;
  runtime_observation : option RuntimeResult;
}.

Record ExecutionHarness := {
  policy : HarnessPolicy;
  task_id : option string;
  mcp_permissions : dict string perm_spec;
}.
(** What the harness mutates; [G] is its confirmation gate. *)
Record HarnessState (G : Type) := {
  confirmation_gate : G;
  audit_events : list AuditEvent;
}.
Arguments confirmation_gate {G} _.
Arguments audit_events {G} _.

(** The arguments of one call. *)
Record Request := {
  action : RuntimeAction;
  confirmation_token : option string;
  r_task_id : option string;
  r_mcp_permissions : dict string perm_spec;
}.
(** What a call reads from outside: the clock in [consume], the fresh trace id
    and timestamp of the observation, and the measured latency. *)
Record Outside := {
  consume_now : Z;
  fresh_trace : string;
  observed_at : datetime;
  measured_ms : Z;
}.

(** [_ui_confirmation_state]; an enumeration member is a [VObj] whose text is
    its value. *)
Definition ui_confirmation_state (a : RuntimeAction) : option string :=
  match getattr a "confirmation_state" VNone with VNone => None | v => Some (py_str v) end.

Section service.
Context {G : Type} `{Authority G}.
Notation HarnessState := (HarnessState G).

Definition audit_events_by_task (s : HarnessState) (task : string) : list AuditEvent :=
  List.filter (fun e => bool_decide (AuditSchema.task_id e = Some task)) (audit_events s).

Definition record_result (h : ExecutionHarness) (req : Request) (out : Outside) (ha : HarnessAction)
    (st : HarnessObservationStatus) (lat : Z) (outsum : string) (err : option string)
    (runtime : option RuntimeResult) : M HarnessState HarnessExecutionResult :=
  fun s =>
    let o := {| o_trace_id := fresh_trace out; o_action_type := action_type ha; o_permission := h_permission ha;
                o_target := target ha; redacted_input := redact_input (input ha); o_status := st;
                latency_ms := lat; output_summary := outsum; error := err; o_timestamp := observed_at out |} in
    let event := audit_event_from_observation o
      (match r_task_id req with Some t => Some t | None => task_id h end) in
    (Ok {| observation := o; audit_event := event; runtime_observation := runtime |},
     {| confirmation_gate := confirmation_gate s; audit_events := audit_events s ++ [event] |}).

(** [confirmation_token and self.confirmation_gate.consume(...)] *)
Definition try_token (req : Request) (out : Outside) (ha : HarnessAction) : M HarnessState bool :=
  fun s =>
    match confirmation_token req with
    | None => (Ok false, s)
    | Some tok =>
        if String.eqb tok "" then (Ok false, s)
        else let '(r, g) := consume_token tok (Some (confirmation_subject ha)) (consume_now out) (confirmation_gate s) in
             (r, {| confirmation_gate := g; audit_events := audit_events s |})
    end.

Definition preflight_result (h : ExecutionHarness) (req : Request) (out : Outside) (ha : HarnessAction)
    (decision : PolicyDecision) : M HarnessState (option HarnessExecutionResult) :=
  let refuse st why :=
    r <- record_result h req out ha st 0 why (Some why) None ;; retM (Some r) in
  if negb (allowed decision) then refuse DENIED (reason decision)
  else if negb (d_requires_confirmation decision) then retM None
  else if bool_decide (ui_confirmation_state (action req) = Some "rejected") then refuse DENIED "confirmation rejected"
  else if bool_decide (ui_confirmation_state (action req) = Some "confirmed") then retM None
  else
    ok <- try_token req out ha ;;
    if ok then retM None else refuse CONFIRMATION_REQUIRED "confirmation required".

Definition runtime_error_text (result : option RuntimeResult) : option string :=
  match result with
  | None => None
  | Some r =>
      if String.eqb (result_class r) "ErrorObservation"
      then Some (py_str (default (VStr "runtime error") (content_attr r)))
      else match default VNone (error_attr r) with
           | VBool b => if b then Some (summarize_runtime_output result 1200) else None
           | e => if truth e then Some (py_str e) else None
           end
  end.

(** The classified action of a request. *)
Definition classified (h : ExecutionHarness) (req : Request) : HarnessAction :=
  action_from_runtime_action (action req)
    (match r_mcp_permissions req with [] => mcp_permissions h | p => p end).

(** Up to the call of the executor: the refusal, or [None] to go on. *)
Definition begin_execution (h : ExecutionHarness) (req : Request) (out : Outside)
    : M HarnessState (option HarnessExecutionResult) :=
  let ha := classified h req in
  preflight_result h req out ha (evaluate (policy h) ha).

(** What an executor does: it returns, or raises an [Exception] whose [str] is
    given. *)
Inductive ExecOutcome :=
  | Returned (r : option RuntimeResult)
  | Raised (text : string).

(** After the executor. *)
Definition finish_execution (h : ExecutionHarness) (req : Request) (out : Outside) (x : ExecOutcome)
    : M HarnessState HarnessExecutionResult :=
  let ha := classified h req in
  match x with
  | Raised text => record_result h req out ha ERROR (measured_ms out) "" (Some text) None
  | Returned r =>
      record_result h req out ha (status_from_runtime_output r) (measured_ms out)
        (summarize_runtime_output r 1200) (runtime_error_text r) r
  end.

(** *** When an action may run *)

(** When an action may run: the policy allows it, and either it needs no
    confirmation, or the user confirmed it, or did not reject it and the token
    is accepted. *)
Definition may_run (h : ExecutionHarness) (req : Request) (out : Outside) (g : G) : bool :=
  let ha := classified h req in
  let d := evaluate (policy h) ha in
  allowed d &&
  (negb (d_requires_confirmation d)
   || bool_decide (ui_confirmation_state (action req) = Some "confirmed")
   || negb (bool_decide (ui_confirmation_state (action req) = Some "rejected")) &&
      match confirmation_token req with
      | Some tok => negb (String.eqb tok "") &&
                    is_true_answer (outcome (consume_token tok (Some (confirmation_subject ha)) (consume_now out) g))
      | None => false
      end).

(** Why an action that may not run is refused. *)
Definition refusal_status (h : ExecutionHarness) (req : Request) : HarnessObservationStatus :=
  if allowed (evaluate (policy h) (classified h req)) &&
     negb (bool_decide (ui_confirmation_state (action req) = Some "rejected"))
  then CONFIRMATION_REQUIRED else DENIED.

Context `{!AuthorityLaws G}.

Lemma begin_spec h req out s :
  let r := begin_execution h req out s in
  if may_run h req out (confirmation_gate s)
  then r.1 = Ok None /\ audit_events r.2 = audit_events s
  else exists res, r.1 = Ok (Some res) /\ audit_events r.2 = audit_events s ++ [audit_event res] /\
    o_status (observation res) = refusal_status h req /\ runtime_observation res = None.
Proof.
  unfold begin_execution, may_run, refusal_status, preflight_result, record_result, bindM, retM. cbv zeta.
  destruct (allowed _); cbn [negb andb orb]; [|by eexists].
  destruct (d_requires_confirmation _); cbn [negb andb orb]; [|done].
  destruct (bool_decide (ui_confirmation_state (action req) = Some "rejected")) eqn:Er; cbn [negb andb orb].
  - apply bool_decide_eq_true in Er. rewrite Er. by eexists.
  - destruct (bool_decide (ui_confirmation_state (action req) = Some "confirmed")); cbn [negb andb orb]; [done|].
    unfold try_token. destruct (confirmation_token req) as [tok|]; [|by eexists].
    destruct (String.eqb tok ""); cbn [negb andb]; [by eexists|].
    destruct (consume_total tok (Some (confirmation_subject (classified h req))) (consume_now out) (confirmation_gate s)) as [b Hb].
    destruct (consume_token _ _ _ _) as [r g]. cbn in Hb. subst r. destruct b; [done|by eexists].
Qed.

Lemma finish_execution_spec h req out x s :
  exists res, (finish_execution h req out x s).1 = Ok res /\
    audit_events (finish_execution h req out x s).2 = audit_events s ++ [audit_event res] /\
    confirmation_gate (finish_execution h req out x s).2 = confirmation_gate s /\
    runtime_observation res = match x with Returned r => r | Raised _ => None end.
Proof. destruct x as [r|]; eexists; split_and!; cbn; done. Qed.

Section execution.
Context {W : Type}.
Variable executor : RuntimeAction -> W -> ExecOutcome * W.

Definition execute (h : ExecutionHarness) (req : Request) (out : Outside)
    : M (HarnessState * W) HarnessExecutionResult :=
  preflight <- onL (begin_execution h req out) ;;
  match preflight with
  | Some refusal => retM refusal
  | None =>
      x <- onR (fun w => let '(x, w) := executor (action req) w in (Ok x, w)) ;;
      onL (finish_execution h req out x)
  end.

(** C1: the harness is the only way through, and everything leaves a trace: a
    call runs the executor exactly when the policy allows the action and its
    confirmation is not needed, given by the user, or paid for by a valid token
    of that very action; otherwise the world is untouched and the answer says
    DENIED or CONFIRMATION_REQUIRED. Either way the call answers, whatever the
    executor raises, and appends exactly one audit event, the one in the
    answer. *)
Theorem execute_gated (h : ExecutionHarness) (req : Request) (out : Outside) (s : HarnessState) (w : W) :
  exists res, (execute h req out (s, w)).1 = Ok res /\
    audit_events (execute h req out (s, w)).2.1 = audit_events s ++ [audit_event res] /\
    if may_run h req out (confirmation_gate s)
    then (execute h req out (s, w)).2.2 = (executor (action req) w).2 /\
         runtime_observation res = match (executor (action req) w).1 with Returned r => r | Raised _ => None end
    else (execute h req out (s, w)).2.2 = w /\ o_status (observation res) = refusal_status h req /\
         runtime_observation res = None.
Proof.
  pose proof (begin_spec h req out s) as Hb. cbv zeta in Hb. unfold execute, bindM, onL, onR. cbn [fst snd].
  destruct (may_run h req out (confirmation_gate s)); destruct (begin_execution h req out s) as [r s']; cbn [fst snd] in Hb.
  - destruct Hb as [-> Hev]. cbn [fst snd]. destruct (executor (action req) w) as [x w']. cbn [fst snd].
    destruct (finish_execution_spec h req out x s') as (res & H1 & H2 & _ & H4).
    destruct (finish_execution h req out x s') as [rr s'']. cbn [fst snd] in *. subst rr.
    exists res. by rewrite H2, Hev.
  - destruct Hb as (res & -> & Hev & Hst & Hrt). by exists res.
Qed.
End execution.

(** ** Concurrent executions

    [execute_async] awaits the executor: between [begin_execution] and
    [finish_execution] of one call, others begin, finish and issue tokens. *)

Section interleaving.
Variable init_gate : G.
Hypothesis init_gate_empty : forall k, ~ live init_gate k.
Variable h : ExecutionHarness.

(** The call passes only on the strength of its token. *)
Definition needs_token (req : Request) : bool :=
  let d := evaluate (policy h) (classified h req) in
  d_requires_confirmation d && negb (bool_decide (ui_confirmation_state (action req) = Some "confirmed")).

Record AsyncState := {
  hs : HarnessState;
  running : list (Request * Outside);
  issued : list string;
  passed_by : list string;
  started : nat;
}.
Definition async_init : AsyncState :=
  {| hs := {| confirmation_gate := init_gate; audit_events := [] |}; running := []; issued := []; passed_by := []; started := 0 |}.

Inductive async_step (s : AsyncState) : AsyncState -> Prop :=
  | a_issue subj ttl now tok r g :
      tok ∉ issued s -> issue_token subj ttl now tok (confirmation_gate (hs s)) = (r, g) ->
      async_step s {| hs := {| confirmation_gate := g; audit_events := audit_events (hs s) |}; running := running s;
                      issued := tok :: issued s; passed_by := passed_by s; started := started s |}
  | a_refuse req out res s' :
      begin_execution h req out (hs s) = (Ok (Some res), s') ->
      async_step s {| hs := s'; running := running s; issued := issued s; passed_by := passed_by s;
                      started := S (started s) |}
  | a_start req out s' :
      begin_execution h req out (hs s) = (Ok None, s') ->
      async_step s {| hs := s'; running := running s ++ [(req, out)]; issued := issued s;
                      passed_by := (if needs_token req then [or_empty (confirmation_token req)] else []) ++ passed_by s;
                      started := S (started s) |}
  | a_finish req out pre post x res s' :
      running s = pre ++ (req, out) :: post -> finish_execution h req out x (hs s) = (Ok res, s') ->
      async_step s {| hs := s'; running := pre ++ post; issued := issued s; passed_by := passed_by s;
                      started := started s |}.

(** Live tokens were issued and let no call pass yet, and every call begun is
    recorded or running. *)
Definition async_inv (s : AsyncState) : Prop :=
  NoDup (passed_by s) /\ passed_by s ⊆ issued s /\
  (forall k, live (confirmation_gate (hs s)) k -> k ∈ issued s /\ k ∉ passed_by s) /\
  (length (audit_events (hs s)) + length (running s) = started s)%nat.

Lemma begin_gate req out s r s' :
  begin_execution h req out s = (Ok r, s') ->
  match r with
  | None =>
      if needs_token req
      then exists tok, confirmation_token req = Some tok /\ live (confirmation_gate s) tok /\
             forall k, live (confirmation_gate s') k <-> live (confirmation_gate s) k /\ k <> tok
      else confirmation_gate s' = confirmation_gate s
  | Some _ => confirmation_gate s' = confirmation_gate s
  end.
Proof.
  unfold begin_execution, preflight_result, needs_token, record_result, bindM, retM. cbv zeta.
  destruct (allowed _) eqn:Ea; cbn [negb andb orb]; [|by intros [= <- <-]].
  destruct (d_requires_confirmation _); cbn [negb andb orb]; [|by intros [= <- <-]].
  destruct (bool_decide (ui_confirmation_state (action req) = Some "rejected")) eqn:Er; cbn [negb andb orb].
  { by intros [= <- <-]. }
  destruct (bool_decide (ui_confirmation_state (action req) = Some "confirmed")); cbn [negb andb orb].
  { by intros [= <- <-]. }
  unfold try_token. destruct (confirmation_token req) as [tok|]; [|by intros [= <- <-]].
  destruct (String.eqb tok ""); [by intros [= <- <-]|].
  pose proof (consume_accepts tok (Some (confirmation_subject (classified h req))) (consume_now out) (confirmation_gate s)) as Ha.
  pose proof (consume_refuses tok (Some (confirmation_subject (classified h req))) (consume_now out) (confirmation_gate s)) as Hr.
  destruct (consume_token tok _ _ _) as [[[]|e] g]; cbn in Ha, Hr; [| |done].
  - destruct Ha as [Hl Hk]; [done|]. intros [= <- <-]. by exists tok.
  - rewrite Hr by done. by intros [= <- <-].
Qed.

Lemma begin_events req out s r s' :
  begin_execution h req out s = (Ok r, s') ->
  length (audit_events s') = match r with Some _ => S (length (audit_events s)) | None => length (audit_events s) end.
Proof.
  intros E. pose proof (begin_spec h req out s) as Hb. cbv zeta in Hb. rewrite E in Hb. cbn [fst snd] in Hb.
  destruct (may_run h req out (confirmation_gate s)).
  - destruct Hb as [[= ->] Hev]. by rewrite Hev.
  - destruct Hb as (res & [= ->] & Hev & _). rewrite Hev, length_app. cbn. lia.
Qed.

Lemma async_step_inv s s' : async_step s s' -> async_inv s -> async_inv s'.
Proof.
  intros Hstep (I1 & I2 & I3 & I4). destruct Hstep as [subj ttl now tok r g Hf Ei|req out res s' Eb|req out s' Eb|req out pre post x res s' Er Ef];
    unfold async_inv; cbn.
  - pose proof (issue_lives subj ttl now tok (confirmation_gate (hs s))) as Hl. rewrite Ei in Hl. cbn in Hl.
    split_and!; [done|set_solver| |done]. intros k [Hk| ->]%Hl.
    + destruct (I3 k Hk). set_solver.
    + split; [by left|]. intros Hin. apply Hf, I2, Hin.
  - pose proof (begin_gate _ _ _ _ _ Eb) as Hg. cbn in Hg. rewrite Hg, (begin_events _ _ _ _ _ Eb). split_and!; [done..|lia].
  - pose proof (begin_gate _ _ _ _ _ Eb) as Hg. cbn in Hg. rewrite (begin_events _ _ _ _ _ Eb), length_app.
    destruct (needs_token req); [|rewrite Hg; cbn; split_and!; [done..|lia]].
    destruct Hg as (tok & -> & Hl & Hg). cbn. destruct (I3 tok Hl) as [Hi Hp].
    split_and!; [by constructor|set_solver| |lia]. intros k [Hk Hne]%Hg. destruct (I3 k Hk). split; [done|]. set_solver.
  - destruct (finish_execution_spec h req out x (hs s)) as (res' & H1 & H2 & H3 & _). rewrite Ef in *. cbn in *.
    rewrite H3, H2, length_app. rewrite Er, !length_app in *. cbn in *. split_and!; [done..|lia].
Qed.

(** C38: concurrent executions cannot share a confirmation: in every
    interleaving of issued tokens, beginnings and endings of executions, with
    fresh token texts, each token lets at most one execution pass, only issued
    tokens do, and every execution begun is recorded in the audit trail exactly
    once or still running. *)
Theorem async_token_single_use (s : AsyncState) (Hreach : rtc async_step async_init s) :
  NoDup (passed_by s) /\ passed_by s ⊆ issued s /\
  (length (audit_events (hs s)) + length (running s) = started s)%nat.
Proof.
  assert (async_inv s) as (H1 & H2 & _ & H4); [|done].
  assert (async_inv async_init) as Hi by (split_and!; [constructor|done| |done]; intros k Hk; by apply init_gate_empty in Hk).
  revert Hi. induction Hreach as [|x y z Hxy _ IH]; intros Hi; [done|]. apply IH. by eapply async_step_inv.
Qed.
End interleaving.
End service.

(** *** A run *)

Definition shell_action (command : string) : RuntimeAction :=
  {| class_name := "CmdRunAction"; attrs := [("command", VStr command)]; action_repr := "CmdRunAction" |}.
Definition example_harness : ExecutionHarness := {| policy := default_policy; task_id := Some "t1"; mcp_permissions := [] |}.
Definition example_request (tok : option string) : Request :=
  {| action := shell_action "git push"; confirmation_token := tok; r_task_id := None; r_mcp_permissions := [] |}.
Definition at_second (s : Z) : Outside :=
  {| consume_now := s * 1000000; fresh_trace := "trace"; observed_at := utc (s * 1000000); measured_ms := 12 |}.

(** The same push without a token and with a valid one. *)
Definition counting (a : RuntimeAction) (n : nat) : ExecOutcome * nat := (Raised "remote hung up", S n).
Definition one_token : HarnessState ConfirmationGate :=
  {| confirmation_gate := after (issue "git:git push" (Some 300) 0 "tok" new_gate); audit_events := [] |}.
Lemma execute_gated_witness :
  (exists res, outcome (execute counting example_harness (example_request None) (at_second 1) (one_token, 0%nat)) = Ok res /\
     (after (execute counting example_harness (example_request None) (at_second 1) (one_token, 0%nat))).2 = 0%nat /\
     o_status (observation res) = CONFIRMATION_REQUIRED) /\
  (exists res, outcome (execute counting example_harness (example_request (Some "tok")) (at_second 1) (one_token, 0%nat)) = Ok res /\
     (after (execute counting example_harness (example_request (Some "tok")) (at_second 1) (one_token, 0%nat))).2 = 1%nat /\
     error (observation res) = Some "remote hung up").
Proof.
  split.
  - destruct (execute_gated counting example_harness (example_request None) (at_second 1) one_token 0%nat) as (res & H1 & _ & H3 & H4 & _).
    exists res. split; [exact H1|]. split; [exact H3|exact H4].
  - destruct (execute_gated counting example_harness (example_request (Some "tok")) (at_second 1) one_token 0%nat) as (res & H1 & _ & H3 & _).
    exists res. split; [exact H1|]. split; [exact H3|]. vm_compute in H1. by injection H1 as <-.
Defined.

(** A token issued, used by one call, and refused to a second one that begins
    while the first is running. *)
Lemma async_token_single_use_witness :
  exists s, rtc (async_step example_harness) (async_init new_gate) s /\
    passed_by s = ["tok"] /\ length (running s) = 1%nat /\ started s = 2%nat /\
    map event_type (audit_events (hs s)) = [APPROVAL_REQUESTED] /\
    NoDup (passed_by s) /\ passed_by s ⊆ issued s.
Proof.
  assert (exists s, rtc (async_step example_harness) (async_init new_gate) s /\
    passed_by s = ["tok"] /\ length (running s) = 1%nat /\ started s = 2%nat /\
    map event_type (audit_events (hs s)) = [APPROVAL_REQUESTED]) as (s & Hr & H1 & H2 & H3 & H4).
  { eexists. split.
    - eapply rtc_l; [eapply (a_issue _ _ "git:git push" (Some 300) 0 "tok"); [apply not_elem_of_nil|vm_compute; reflexivity]|].
      eapply rtc_l; [eapply (a_start _ _ (example_request (Some "tok")) (at_second 1)); vm_compute; reflexivity|].
      eapply rtc_l; [eapply (a_refuse _ _ (example_request (Some "tok")) (at_second 2)); vm_compute; reflexivity|].
      apply rtc_refl.
    - split_and!; reflexivity. }
  exists s. split_and!; [exact Hr|exact H1|exact H2|exact H3|exact H4|..];
    apply (async_token_single_use new_gate new_gate_empty example_harness _ Hr).
Defined.

(** ** What redaction does not cover *)

(** The target of a command is the command itself, and the target is logged as
    it is: a password on the command line is redacted in the input and kept in
    the target and in the event's summary. *)
Example target_is_not_redacted :
  exists res, (execute (W := unit) (fun _ w => (Returned None, w)) example_harness
      {| action := {| class_name := "CmdRunAction"; action_repr := "";
                      attrs := [("command", VStr "mysql --password=hunter2"); ("confirmation_state", VObj "ActionConfirmationStatus" "confirmed")] |};
         confirmation_token := None; r_task_id := None; r_mcp_permissions := [] |} (at_second 1)
      ({| confirmation_gate := new_gate; audit_events := [] |}, tt)).1 = Ok res /\
    dget (redacted_input (observation res)) "command" = Some (VStr "mysql --password=[REDACTED]") /\
    dget (payload (audit_event res)) "target" = Some (VStr "mysql --password=hunter2").
Proof. eexists. split; [reflexivity|]. split; vm_compute; reflexivity. Qed.

(** Secrets the patterns miss: a name joined to other words by an underscore,
    a scheme before the credential, a URL with a token and no password. *)
Example scrub_leaks :
  scrub "export GITHUB_TOKEN=ghp_abc" = "export GITHUB_TOKEN=ghp_abc" /\
  scrub "curl -H 'Authorization: Bearer abc'" = "curl -H 'Authorization=[REDACTED] abc'" /\
  scrub "git clone https://ghp_abc@host/r.git" = "git clone https://ghp_abc@host/r.git".
Proof. vm_compute. split_and!; reflexivity. Qed.
