(* ===== verification/Metrics.v ===== *)
(** * Metrics of a model

    Models [openhands/llm/metrics.py], what a model has cost so far: costs,
    latencies and token counts, with their running totals; and how events carry
    them as dictionaries ([events/serialization/event.py]).  Costs are binary64
    floats, token counts unbounded integers.  The clock of [Cost] is an argument. *)

From S2P Require Import Prelude PyStr PyList PyDict PyFloat PyVal.

(** ** The data *)

Record Cost := { c_model : string; cost : float; timestamp : float }.
Record ResponseLatency := { l_model : string; latency : float; l_response_id : string }.
Record TokenUsage := {
  u_model : string; prompt_tokens : Z; completion_tokens : Z; cache_read_tokens : Z; cache_write_tokens : Z;
  context_window : Z; per_turn_token : Z; u_response_id : string;
}.
Definition no_usage (model : string) : TokenUsage :=
  {| u_model := model; prompt_tokens := 0; completion_tokens := 0; cache_read_tokens := 0; cache_write_tokens := 0;
     context_window := 0; per_turn_token := 0; u_response_id := "" |}.
(** [TokenUsage.__add__] *)
Definition usage_add (u other : TokenUsage) : TokenUsage :=
  {| u_model := u_model u;
     prompt_tokens := prompt_tokens u + prompt_tokens other;
     completion_tokens := completion_tokens u + completion_tokens other;
     cache_read_tokens := cache_read_tokens u + cache_read_tokens other;
     cache_write_tokens := cache_write_tokens u + cache_write_tokens other;
     context_window := Z.max (context_window u) (context_window other);
     per_turn_token := per_turn_token other;
     u_response_id := u_response_id u |}.

Record Metrics := {
  accumulated_cost : float;
  max_budget_per_task : option float;
  costs : list Cost;
  response_latencies : list ResponseLatency;
  model_name : string;
  token_usages : list TokenUsage;
  accumulated_token_usage : TokenUsage;
}.
Definition new_metrics (model_name : string) : Metrics :=
  {| accumulated_cost := f0; max_budget_per_task := None; costs := []; response_latencies := []; model_name := model_name;
     token_usages := []; accumulated_token_usage := no_usage model_name |}.

Definition with_cost (total : float) (l : list Cost) (m : Metrics) : Metrics :=
  {| accumulated_cost := total; max_budget_per_task := max_budget_per_task m; costs := l; response_latencies := response_latencies m;
     model_name := model_name m; token_usages := token_usages m; accumulated_token_usage := accumulated_token_usage m |}.
Definition with_max_budget (b : option float) (m : Metrics) : Metrics :=
  {| accumulated_cost := accumulated_cost m; max_budget_per_task := b; costs := costs m; response_latencies := response_latencies m;
     model_name := model_name m; token_usages := token_usages m; accumulated_token_usage := accumulated_token_usage m |}.
Definition with_latencies (l : list ResponseLatency) (m : Metrics) : Metrics :=
  {| accumulated_cost := accumulated_cost m; max_budget_per_task := max_budget_per_task m; costs := costs m; response_latencies := l;
     model_name := model_name m; token_usages := token_usages m; accumulated_token_usage := accumulated_token_usage m |}.
Definition with_usages (l : list TokenUsage) (total : TokenUsage) (m : Metrics) : Metrics :=
  {| accumulated_cost := accumulated_cost m; max_budget_per_task := max_budget_per_task m; costs := costs m;
     response_latencies := response_latencies m; model_name := model_name m; token_usages := l; accumulated_token_usage := total |}.

(** ** Operations *)

(** The setter of [accumulated_cost] *)
Definition set_accumulated_cost (value : float) (m : Metrics) : res Metrics :=
  if flt value f0 then Raise (ValueError "Total cost cannot be negative.") else Ok (with_cost value (costs m) m).
Definition add_cost (now value : float) (m : Metrics) : res Metrics :=
  if flt value f0 then Raise (ValueError "Added cost cannot be negative.")
  else Ok (with_cost (fadd (accumulated_cost m) value) (costs m ++ [{| c_model := model_name m; cost := value; timestamp := now |}]) m).
(** [max(0.0, value)] keeps its first argument unless the second is greater. *)
Definition at_least_zero (value : float) : float := if flt f0 value then value else f0.
Definition add_response_latency (value : float) (response_id : string) (m : Metrics) : Metrics :=
  with_latencies (response_latencies m ++ [{| l_model := model_name m; latency := at_least_zero value; l_response_id := response_id |}]) m.
Definition usage (model : string) (prompt completion cache_read cache_write window : Z) (response_id : string) : TokenUsage :=
  {| u_model := model; prompt_tokens := prompt; completion_tokens := completion; cache_read_tokens := cache_read;
     cache_write_tokens := cache_write; context_window := window; per_turn_token := prompt + completion; u_response_id := response_id |}.
Definition add_token_usage (prompt completion cache_read cache_write window : Z) (response_id : string) (m : Metrics) : Metrics :=
  with_usages (token_usages m ++ [usage (model_name m) prompt completion cache_read cache_write window response_id])
    (usage_add (accumulated_token_usage m) (usage (model_name m) prompt completion cache_read cache_write window "")) m.
Definition merge (other m : Metrics) : Metrics :=
  {| accumulated_cost := fadd (accumulated_cost m) (accumulated_cost other);
     max_budget_per_task := match max_budget_per_task m with Some b => Some b | None => max_budget_per_task other end;
     costs := costs m ++ costs other;
     response_latencies := response_latencies m ++ response_latencies other;
     model_name := model_name m;
     token_usages := token_usages m ++ token_usages other;
     accumulated_token_usage := usage_add (accumulated_token_usage m) (accumulated_token_usage other) |}.
Definition usage_sub (model : string) (u base : TokenUsage) : TokenUsage :=
  {| u_model := model;
     prompt_tokens := prompt_tokens u - prompt_tokens base;
     completion_tokens := completion_tokens u - completion_tokens base;
     cache_read_tokens := cache_read_tokens u - cache_read_tokens base;
     cache_write_tokens := cache_write_tokens u - cache_write_tokens base;
     context_window := context_window u; per_turn_token := 0; u_response_id := "" |}.
(** Only the costs are selected by their time; of the others the first ones are
    skipped. *)
Definition costs_since (baseline l : list Cost) : list Cost :=
  match last baseline with
  | Some c => List.filter (fun x => flt (timestamp c) (timestamp x)) l
  | None => l
  end.
Definition diff (baseline m : Metrics) : Metrics :=
  {| accumulated_cost := fsub (accumulated_cost m) (accumulated_cost baseline);
     max_budget_per_task := None;
     costs := costs_since (costs baseline) (costs m);
     response_latencies := drop (length (response_latencies baseline)) (response_latencies m);
     model_name := model_name m;
     token_usages := drop (length (token_usages baseline)) (token_usages m);
     accumulated_token_usage := usage_sub (model_name m) (accumulated_token_usage m) (accumulated_token_usage baseline) |}.

(** ** As dictionaries *)

Definition dump_cost (c : Cost) : pyval :=
  VDict [("model", VStr (c_model c)); ("cost", VFloat (cost c)); ("timestamp", VFloat (timestamp c))].
Definition dump_latency (l : ResponseLatency) : pyval :=
  VDict [("model", VStr (l_model l)); ("latency", VFloat (latency l)); ("response_id", VStr (l_response_id l))].
Definition dump_usage (u : TokenUsage) : pyval :=
  VDict [("model", VStr (u_model u)); ("prompt_tokens", VInt (prompt_tokens u)); ("completion_tokens", VInt (completion_tokens u));
         ("cache_read_tokens", VInt (cache_read_tokens u)); ("cache_write_tokens", VInt (cache_write_tokens u));
         ("context_window", VInt (context_window u)); ("per_turn_token", VInt (per_turn_token u)); ("response_id", VStr (u_response_id u))].
Definition get (m : Metrics) : pyval :=
  VDict [("accumulated_cost", VFloat (accumulated_cost m));
         ("max_budget_per_task", match max_budget_per_task m with Some b => VFloat b | None => VNone end);
         ("accumulated_token_usage", dump_usage (accumulated_token_usage m));
         ("costs", VList (map dump_cost (costs m)));
         ("response_latencies", VList (map dump_latency (response_latencies m)));
         ("token_usages", VList (map dump_usage (token_usages m)))].
(** [log] *)
Definition log (m : Metrics) : string :=
  match get m with
  | VDict d => String.concat "" (map (fun kv => kv.1 +:+ ": " +:+ py_str kv.2 +:+ newline) d)
  | _ => ""
  end.

(** Reading them back, as [event_from_dict] does.  Pydantic makes what it can of
    the values of the fields; a missing field of [TokenUsage] has its default. *)
Class Validator := { as_str : pyval -> res string; as_int : pyval -> res Z; as_float : pyval -> res float }.
Class ValidatorLaws `{Validator} := {
  as_str_of s : as_str (VStr s) = Ok s;
  as_int_of z : as_int (VInt z) = Ok z;
  as_float_of x : as_float (VFloat x) = Ok x;
}.
(** The strict validator, which makes nothing of any other value *)
Definition ValidationError {A} : res A := Raise (OtherError "ValidationError" "").
Definition strict : Validator :=
  {| as_str v := match v with VStr s => Ok s | _ => ValidationError end;
     as_int v := match v with VInt z => Ok z | _ => ValidationError end;
     as_float v := match v with VFloat x => Ok x | _ => ValidationError end |}.
Lemma strict_laws : @ValidatorLaws strict.
Proof. by constructor. Qed.

Section reading.
Context `{Validator}.
Definition field {A} (f : pyval -> res A) (default : option A) (d : dict string pyval) (k : string) : res A :=
  match dget d k, default with Some v, _ => f v | None, Some x => Ok x | None, None => ValidationError end.
(** [Cost( **v )], where [v] is not a dictionary of keyword arguments *)
Definition not_a_mapping {A} : res A := Raise (TypeError "argument after ** must be a mapping").
Definition read_cost (now : float) (v : pyval) : res Cost :=
  match v with
  | VDict d => mo <-! field as_str None d "model" ;; c <-! field as_float None d "cost" ;; t <-! field as_float (Some now) d "timestamp" ;;
               Ok {| c_model := mo; cost := c; timestamp := t |}
  | _ => not_a_mapping
  end.
Definition read_latency (v : pyval) : res ResponseLatency :=
  match v with
  | VDict d => mo <-! field as_str None d "model" ;; l <-! field as_float None d "latency" ;; i <-! field as_str None d "response_id" ;;
               Ok {| l_model := mo; latency := l; l_response_id := i |}
  | _ => not_a_mapping
  end.
Definition read_usage (v : pyval) : res TokenUsage :=
  match v with
  | VDict d =>
      let tokens k := field as_int (Some 0) d k in
      mo <-! field as_str (Some "") d "model" ;;
      p <-! tokens "prompt_tokens" ;; c <-! tokens "completion_tokens" ;;
      cr <-! tokens "cache_read_tokens" ;; cw <-! tokens "cache_write_tokens" ;;
      w <-! tokens "context_window" ;; t <-! tokens "per_turn_token" ;; i <-! field as_str (Some "") d "response_id" ;;
      Ok {| u_model := mo; prompt_tokens := p; completion_tokens := c; cache_read_tokens := cr; cache_write_tokens := cw;
            context_window := w; per_turn_token := t; u_response_id := i |}
  | _ => not_a_mapping
  end.
Fixpoint read_all {A} (f : pyval -> res A) (l : list pyval) : res (list A) :=
  match l with [] => Ok [] | v :: l => x <-! f v ;; xs <-! read_all f l ;; Ok (x :: xs) end.
(** The values that the setters store unchecked are those of the annotated types. *)
Definition list_field {A} (f : pyval -> res A) (d : dict string pyval) (k : string) : res (list A) :=
  match dget d k with Some (VList l) => read_all f l | None => Ok [] | Some _ => Raise ill_typed end.
Definition float_of (v : pyval) : res float := match v with VFloat x => Ok x | VInt z => Ok (float_of_Z z) | _ => Raise ill_typed end.
(** What is not a dictionary counts as no metrics. *)
Definition metrics_from_value (now : float) (v : pyval) : res Metrics :=
  let m := new_metrics "default" in
  match v with
  | VDict d =>
      c <-! match dget d "accumulated_cost" with Some v => float_of v | None => Ok f0 end ;;
      m <-! set_accumulated_cost c m ;;
      b <-! match dget d "max_budget_per_task" with
            | None | Some VNone => Ok None
            | Some v => x <-! float_of v ;; Ok (Some x)
            end ;;
      l <-! list_field (read_cost now) d "costs" ;;
      ls <-! list_field read_latency d "response_latencies" ;;
      us <-! list_field read_usage d "token_usages" ;;
      total <-! match dget d "accumulated_token_usage" with Some v => read_usage v | None => Ok (accumulated_token_usage m) end ;;
      Ok (with_usages us total (with_latencies ls (with_max_budget b (with_cost (accumulated_cost m) l m))))
  | _ => Ok m
  end.
End reading.

(** ** Totals *)

Definition sum_tokens (f : TokenUsage -> Z) (l : list TokenUsage) : Z := foldr (fun u n => f u + n) 0 l.
Definition largest_window (l : list TokenUsage) : Z := foldr (fun u n => Z.max (context_window u) n) 0 l.
Definition totals (u : TokenUsage) (l : list TokenUsage) : Prop :=
  prompt_tokens u = sum_tokens prompt_tokens l /\ completion_tokens u = sum_tokens completion_tokens l
  /\ cache_read_tokens u = sum_tokens cache_read_tokens l /\ cache_write_tokens u = sum_tokens cache_write_tokens l
  /\ context_window u = largest_window l.
(** The running totals are those of the calls on record. *)
Definition consistent (m : Metrics) : Prop := totals (accumulated_token_usage m) (token_usages m).

Lemma sum_tokens_app f l k : sum_tokens f (l ++ k) = sum_tokens f l + sum_tokens f k.
Proof. unfold sum_tokens. induction l as [|u l IH]; cbn [app foldr]; lia. Qed.
Lemma largest_window_nonneg l : 0 <= largest_window l.
Proof. unfold largest_window. induction l as [|u l IH]; cbn [foldr]; lia. Qed.
Lemma largest_window_app l k : largest_window (l ++ k) = Z.max (largest_window l) (largest_window k).
Proof.
  induction l as [|u l IH]; cbn [app]; [pose proof (largest_window_nonneg k); unfold largest_window in *; cbn [foldr]; lia|].
  unfold largest_window in *. cbn [foldr]. lia.
Qed.
Lemma totals_add u v l k : totals u l -> totals v k -> totals (usage_add u v) (l ++ k).
Proof.
  intros (G1 & G2 & G3 & G4 & G5) (H1 & H2 & H3 & H4 & H5). unfold totals. rewrite !sum_tokens_app, largest_window_app, <- G1, <- G2, <- G3,
    <- G4, <- G5, <- H1, <- H2, <- H3, <- H4, <- H5. done.
Qed.

Lemma new_consistent model : consistent (new_metrics model).
Proof. repeat split. Qed.
Lemma merge_consistent m other : consistent m -> consistent other -> consistent (merge other m).
Proof. apply totals_add. Qed.
Lemma add_usage_consistent p c r w cw i m : 0 <= cw -> consistent m -> consistent (add_token_usage p c r w cw i m).
Proof. intros Hw H. apply totals_add; [done|]. repeat split; cbn; lia. Qed.

(** *** Read back *)

Definition with_model_name (model : string) (m : Metrics) : Metrics :=
  {| accumulated_cost := accumulated_cost m; max_budget_per_task := max_budget_per_task m; costs := costs m;
     response_latencies := response_latencies m; model_name := model; token_usages := token_usages m;
     accumulated_token_usage := accumulated_token_usage m |}.
Lemma read_all_map {A} (f : pyval -> res A) (g : A -> pyval) (l : list A) : (forall x, f (g x) = Ok x) -> read_all f (map g l) = Ok l.
Proof. intros H. induction l as [|x l IH]; [done|]. cbn [map read_all]. by rewrite H, IH. Qed.
Section read_back.
Context `{ValidatorLaws}.
Lemma read_dump_cost now c : read_cost now (dump_cost c) = Ok c.
Proof.
  destruct c as [mo c t]. change (mo' <-! as_str (VStr mo) ;; c' <-! as_float (VFloat c) ;; t' <-! as_float (VFloat t) ;;
    Ok {| c_model := mo'; cost := c'; timestamp := t' |} = Ok {| c_model := mo; cost := c; timestamp := t |}).
  by rewrite as_str_of, !as_float_of.
Qed.
Lemma read_dump_latency l : read_latency (dump_latency l) = Ok l.
Proof.
  destruct l as [mo l i]. change (mo' <-! as_str (VStr mo) ;; l' <-! as_float (VFloat l) ;; i' <-! as_str (VStr i) ;;
    Ok {| l_model := mo'; latency := l'; l_response_id := i' |} = Ok {| l_model := mo; latency := l; l_response_id := i |}).
  by rewrite !as_str_of, as_float_of.
Qed.
Lemma read_dump_usage u : read_usage (dump_usage u) = Ok u.
Proof.
  destruct u as [mo p c r w cw t i]. unfold read_usage, dump_usage. cbv zeta.
  cbn [u_model prompt_tokens completion_tokens cache_read_tokens cache_write_tokens context_window per_turn_token u_response_id].
  repeat match goal with |- context [field ?f ?d ?l ?k] =>
    let v := eval cbv in (dget l k) in match v with Some ?x => change (field f d l k) with (f x) end end.
  by rewrite !as_str_of, !as_int_of.
Qed.
(** The metrics that an event carries are read back, but for the name of the model. *)
Lemma metrics_round_trip now m : flt (accumulated_cost m) f0 = false -> metrics_from_value now (get m) = Ok (with_model_name "default" m).
Proof.
  intros Hc. unfold metrics_from_value, get.
  match goal with |- context [dget ?d "accumulated_cost"] => set (D := d) end.
  change (dget D "accumulated_cost") with (Some (VFloat (accumulated_cost m))). cbn [rbind float_of]. unfold set_accumulated_cost. rewrite Hc.
  cbn [rbind].
  change (list_field (read_cost now) D "costs") with (read_all (read_cost now) (map dump_cost (costs m))).
  change (list_field read_latency D "response_latencies") with (read_all read_latency (map dump_latency (response_latencies m))).
  change (list_field read_usage D "token_usages") with (read_all read_usage (map dump_usage (token_usages m))).
  change (dget D "accumulated_token_usage") with (Some (dump_usage (accumulated_token_usage m))).
  change (dget D "max_budget_per_task") with (Some match max_budget_per_task m with Some b => VFloat b | None => VNone end).
  rewrite !read_all_map, read_dump_usage by auto using read_dump_usage, read_dump_latency, read_dump_cost. by destruct m as [? [] ? ? ? ? ?].
Qed.
Lemma negative_not_read now m : flt (accumulated_cost m) f0 = true ->
  metrics_from_value now (get m) = Raise (ValueError "Total cost cannot be negative.").
Proof.
  intros Hc. unfold metrics_from_value, get. match goal with |- context [dget ?d "accumulated_cost"] => set (D := d) end.
  change (dget D "accumulated_cost") with (Some (VFloat (accumulated_cost m))). cbn [rbind float_of]. unfold set_accumulated_cost. by rewrite Hc.
Qed.
End read_back.

(** ** What was recorded since a snapshot *)

Inductive charge :=
  | Spent (now value : float)
  | Took (value : float) (response_id : string)
  | Used (prompt completion cache_read cache_write window : Z) (response_id : string).
Definition record (e : charge) (m : Metrics) : res Metrics :=
  match e with
  | Spent now value => add_cost now value m
  | Took value response_id => Ok (add_response_latency value response_id m)
  | Used p c r w cw response_id => Ok (add_token_usage p c r w cw response_id m)
  end.
Fixpoint record_all (l : list charge) (m : Metrics) : res Metrics :=
  match l with [] => Ok m | e :: l => m <-! record e m ;; record_all l m end.

Definition cost_of (model : string) (e : charge) : option Cost :=
  match e with Spent now value => Some {| c_model := model; cost := value; timestamp := now |} | _ => None end.
Definition latency_of (model : string) (e : charge) : option ResponseLatency :=
  match e with Took value i => Some {| l_model := model; latency := at_least_zero value; l_response_id := i |} | _ => None end.
Definition usage_of (model : string) (e : charge) : option TokenUsage :=
  match e with Used p c r w cw i => Some (usage model p c r w cw i) | _ => None end.

(** [m'] is [m] after the entries [l]. *)
Definition extended (l : list charge) (m m' : Metrics) : Prop :=
  model_name m' = model_name m
  /\ max_budget_per_task m' = max_budget_per_task m
  /\ accumulated_cost m' = foldl fadd (accumulated_cost m) (map cost (omap (cost_of (model_name m)) l))
  /\ costs m' = costs m ++ omap (cost_of (model_name m)) l
  /\ response_latencies m' = response_latencies m ++ omap (latency_of (model_name m)) l
  /\ token_usages m' = token_usages m ++ omap (usage_of (model_name m)) l
  /\ forall f, f ∈ [prompt_tokens; completion_tokens; cache_read_tokens; cache_write_tokens] ->
       f (accumulated_token_usage m') = f (accumulated_token_usage m) + sum_tokens f (omap (usage_of (model_name m)) l).
Lemma record_extended e m m' : record e m = Ok m' -> extended [e] m m'.
Proof.
  destruct e as [now value|value i|p c r w cw i]; cbn [record].
  - unfold add_cost. destruct (flt value f0); [done|]. intros [= <-]. repeat split; cbn; rewrite ?app_nil_r; try done. intros; lia.
  - intros [= <-]. repeat split; cbn; rewrite ?app_nil_r; try done. intros; lia.
  - intros [= <-]. repeat split; cbn; rewrite ?app_nil_r; try done. intros f Hf.
    repeat (apply elem_of_cons in Hf as [->|Hf]; [cbn; lia|]). by apply elem_of_nil in Hf.
Qed.
Lemma extended_trans l k a b c : extended l a b -> extended k b c -> extended (l ++ k) a c.
Proof.
  intros (A1 & A2 & A3 & A4 & A5 & A6 & A7) (B1 & B2 & B3 & B4 & B5 & B6 & B7). rewrite A1 in *. unfold extended.
  rewrite !omap_app, map_app, foldl_app, <- A3, B4, A4, B5, A5, B6, A6, !app_assoc, B1, B2, A2. repeat split; [done|].
  intros f Hf. rewrite sum_tokens_app, (B7 f Hf), (A7 f Hf). lia.
Qed.
Lemma record_all_extended l : forall m m', record_all l m = Ok m' -> extended l m m'.
Proof.
  induction l as [|e l IH]; intros m m'; cbn [record_all].
  - intros [= <-]. repeat split; cbn; rewrite ?app_nil_r; try done. intros; lia.
  - destruct (record e m) as [m1|] eqn:E; cbn [rbind]; [|done]. intros H. apply (extended_trans [e] l m m1); eauto using record_extended.
Qed.

(** Every entry on record is not later than the last one. *)
Definition in_order (l : list Cost) : Prop :=
  match last l with Some c => Forall (fun x => flt (timestamp c) (timestamp x) = false) l | None => True end.

Lemma costs_since_app old new : in_order old -> costs_since old (old ++ new) = costs_since old new.
Proof.
  unfold costs_since, in_order. destruct (last old) eqn:E; [|by apply last_None in E as ->]. intros H. rewrite List.filter_app.
  by rewrite (proj2 (filter_none _ old)).
Qed.

(** [diff] gives what was recorded since the snapshot, and nothing else: its
    token usages, latencies and the totals of its tokens are those of the entries
    recorded since; of their costs it has the ones later than the last cost of the
    snapshot, if the clock did not run backwards before; and the budget that the
    snapshot carried is no part of it. *)
Lemma diff_is_what_was_recorded l m m' (H : record_all l m = Ok m') (Ho : in_order (costs m)) :
  let d := diff m m' in let model := model_name m in
  model_name d = model /\ max_budget_per_task d = None
  /\ token_usages d = omap (usage_of model) l /\ response_latencies d = omap (latency_of model) l
  /\ costs d = costs_since (costs m) (omap (cost_of model) l)
  /\ (forall f, f ∈ [prompt_tokens; completion_tokens; cache_read_tokens; cache_write_tokens] ->
       f (accumulated_token_usage d) = sum_tokens f (token_usages d))
  /\ per_turn_token (accumulated_token_usage d) = 0.
Proof.
  destruct (record_all_extended _ _ _ H) as (E1 & E2 & E3 & E4 & E5 & E6 & E7). cbn [diff model_name max_budget_per_task token_usages
    response_latencies costs accumulated_token_usage]. rewrite E4, E5, E6, !drop_app_length. split_and!; try done.
  - by apply costs_since_app.
  - intros f Hf. pose proof (E7 f Hf) as E. revert E. repeat (apply elem_of_cons in Hf as [->|Hf]; [cbn; lia|]). by apply elem_of_nil in Hf.
Qed.
Definition before_delegation : Metrics :=
  with_usages [usage "m" 10 2 0 0 1000 "a"] (usage "m" 10 2 0 0 1000 "")
    (with_cost f1 [{| c_model := "m"; cost := f1; timestamp := f1 |}] (new_metrics "m")).
Definition delegated : list charge := [Took f1 "b"; Spent (float_of_Z 2) (float_of_Z 3); Used 7 5 1 0 2000 "b"].
Lemma diff_is_what_was_recorded_witness :
  exists m', record_all delegated before_delegation = Ok m' /\ map cost (costs (diff before_delegation m')) = [float_of_Z 3]
             /\ map prompt_tokens (token_usages (diff before_delegation m')) = [7].
Proof.
  eexists. split; [vm_compute; reflexivity|].
  match goal with |- context [diff _ ?m'] => destruct (diff_is_what_was_recorded delegated before_delegation m') as (_ & _ & Hu & _ & Hc & _) end.
  - vm_compute. reflexivity.
  - repeat constructor.
  - rewrite Hu, Hc. split; vm_compute; reflexivity.
Defined.

(** ** Where the code and its words differ *)

(** A cost in the same tick of the clock as the last one of the snapshot is missing
    from the difference, whose total and whose usages have it. *)
Lemma cost_in_the_same_tick_is_lost :
  match record_all [Spent f1 (float_of_Z 3); Used 7 5 1 0 2000 "b"] before_delegation with
  | Ok m' => let d := diff before_delegation m' in
             costs d = [] /\ accumulated_cost d = float_of_Z 3 /\ length (token_usages d) = 1%nat
  | Raise _ => False
  end.
Proof. vm_compute. auto. Qed.
(** Merging the metrics of a model that was never called clears the tokens of the
    last turn. *)
Lemma idle_model_clears_the_turn :
  per_turn_token (accumulated_token_usage (merge (new_metrics "draft") (merge (add_token_usage 10 2 0 0 100 "a" (new_metrics "m")) (new_metrics "default")))) = 0.
Proof. reflexivity. Qed.
