(* ===== verification/Events.v ===== *)
(** * Events of the runtime

    Models the event classes under [openhands/events]: [event.py],
    [action/*.py], [observation/*.py], [recall_type.py] and the action and
    observation types of [core/schema].

    [body] has a constructor for every dataclass, with its fields in their
    order; the field [action] or [observation] that every class fixes to its
    type is [event_type].  [event] adds what the base class keeps in underscore
    attributes.  [asdict] is [dataclasses.asdict], and [event_eq] the [==] that
    dataclasses generate: the same class and equal fields.  It ignores the
    underscore attributes, so that events with different ids, sources or times
    can be equal.  The file ends with lists of events ordered by id. *)

From S2P Require Import Prelude Metrics PyStr PyDict PyFloat PyVal.

(** ** Enumerations, as their values *)

Inductive EventSource := AGENT | USER | ENVIRONMENT.
Definition source_value (s : EventSource) : string :=
  match s with AGENT => "agent" | USER => "user" | ENVIRONMENT => "environment" end.
Inductive FileEditSource := EDIT_LLM_BASED | EDIT_OH_ACI.
Definition edit_source_value (s : FileEditSource) : string :=
  match s with EDIT_LLM_BASED => "llm_based_edit" | EDIT_OH_ACI => "oh_aci" end.
Inductive FileReadSource := READ_OH_ACI | READ_DEFAULT.
Definition read_source_value (s : FileReadSource) : string :=
  match s with READ_OH_ACI => "oh_aci" | READ_DEFAULT => "default" end.
Inductive RecallType := WORKSPACE_CONTEXT | KNOWLEDGE.
Definition recall_value (r : RecallType) : string :=
  match r with WORKSPACE_CONTEXT => "workspace_context" | KNOWLEDGE => "knowledge" end.
Inductive ActionConfirmationStatus := CONFIRMED | REJECTED | AWAITING_CONFIRMATION.
Definition confirmation_value (c : ActionConfirmationStatus) : string :=
  match c with CONFIRMED => "confirmed" | REJECTED => "rejected" | AWAITING_CONFIRMATION => "awaiting_confirmation" end.
Inductive ActionSecurityRisk := RISK_UNKNOWN | RISK_LOW | RISK_MEDIUM | RISK_HIGH.
Definition risk_value (r : ActionSecurityRisk) : Z :=
  match r with RISK_UNKNOWN => -1 | RISK_LOW => 0 | RISK_MEDIUM => 1 | RISK_HIGH => 2 end.

#[export] Instance EventSource_eq : EqDecision EventSource. Proof. solve_decision. Defined.
#[export] Instance FileEditSource_eq : EqDecision FileEditSource. Proof. solve_decision. Defined.
#[export] Instance RecallType_eq : EqDecision RecallType. Proof. solve_decision. Defined.
#[export] Instance ActionConfirmationStatus_eq : EqDecision ActionConfirmationStatus. Proof. solve_decision. Defined.
#[export] Instance ActionSecurityRisk_eq : EqDecision ActionSecurityRisk. Proof. solve_decision. Defined.

(** ** Parts of observations *)

Record CmdOutputMetadata := {
  exit_code : Z;
  pid : Z;
  username : option string;
  hostname : option string;
  working_dir : option string;
  py_interpreter_path : option string;
  prefix_ : string;
  suffix_ : string;
}.
Definition default_metadata : CmdOutputMetadata :=
  {| exit_code := -1; pid := -1; username := None; hostname := None; working_dir := None;
     py_interpreter_path := None; prefix_ := ""; suffix_ := "" |}.
Record MicroagentKnowledge := { mk_name : string; mk_trigger : string; mk_content : string }.

(** ** The dataclasses *)

Inductive body :=
  (* actions *)
  | NullAction
  | CmdRunAction (command : string) (is_input : bool) (thought : string) (blocking is_static : bool)
      (cwd : option string) (hidden : bool) (confirmation_state : ActionConfirmationStatus)
      (security_risk : ActionSecurityRisk)
  | IPythonRunCellAction (code thought : string) (include_extra : bool)
      (confirmation_state : ActionConfirmationStatus) (security_risk : ActionSecurityRisk) (kernel_init_code : string)
  | BrowseURLAction (url thought : string) (security_risk : ActionSecurityRisk) (return_axtree : bool)
  | BrowseInteractiveAction (browser_actions thought browsergym_send_msg_to_user : string)
      (security_risk : ActionSecurityRisk) (return_axtree : bool)
  | FileReadAction (path : string) (start end_ : Z) (thought : string) (security_risk : ActionSecurityRisk)
      (impl_source : FileReadSource) (view_range : option (list Z))
  | FileWriteAction (path content : string) (start end_ : Z) (thought : string) (security_risk : ActionSecurityRisk)
  | FileEditAction (path command : string) (file_text old_str new_str : option string) (insert_line : option Z)
      (content : string) (start end_ : Z) (thought : string) (security_risk : ActionSecurityRisk)
      (impl_source : FileEditSource)
  | AgentThinkAction (thought : string)
  | AgentFinishAction (final_thought : string) (outputs : dict string pyval) (thought : string)
  | AgentRejectAction (outputs : dict string pyval) (thought : string)
  | AgentDelegateAction (agent : string) (inputs : dict string pyval) (thought : string)
  | RecallAction (recall_type : RecallType) (query thought : string)
  | ChangeAgentStateAction (agent_state thought : string)
  | MessageAction (content : string) (file_urls image_urls : option (list string)) (wait_for_response : bool)
      (security_risk : ActionSecurityRisk)
  | SystemMessageAction (content : string) (tools : option (list pyval)) (openhands_version agent_class : option string)
  | CondensationAction (forgotten_event_ids : option (list Z)) (forgotten_events_start_id forgotten_events_end_id : option Z)
      (summary : option string) (summary_offset : option Z)
  | CondensationRequestAction
  | MCPAction (name : string) (arguments : dict string pyval) (thought : string) (security_risk : ActionSecurityRisk)
  | TaskTrackingAction (command : string) (task_list : list (dict string pyval)) (thought : string)
  | LoopRecoveryAction (option : Z)
  (* observations *)
  | NullObservation (content : string)
  | CmdOutputObservation (content command : string) (metadata : CmdOutputMetadata) (hidden : bool)
  | IPythonRunCellObservation (content code : string) (image_urls : option (list string))
  | BrowserOutputObservation (content url trigger_by_action screenshot : string) (screenshot_path : option string)
      (set_of_marks : string) (error : bool) (goal_image_urls open_pages_urls : list string) (active_page_index : Z)
      (dom_object axtree_object extra_element_properties : dict string pyval)
      (last_browser_action last_browser_action_error focused_element_bid : string) (filter_visible_only : bool)
  | FileReadObservation (content path : string) (impl_source : FileReadSource)
  | FileWriteObservation (content path : string)
  | FileEditObservation (content path : string) (prev_exist : bool) (old_content new_content : option string)
      (impl_source : FileEditSource) (diff _diff_cache : option string)
  | AgentDelegateObservation (content : string) (outputs : dict string pyval)
  | SuccessObservation (content : string)
  | ErrorObservation (content error_id : string)
  | AgentStateChangedObservation (content agent_state reason : string)
  | UserRejectObservation (content : string)
  | AgentCondensationObservation (content : string)
  | AgentThinkObservation (content : string)
  | RecallObservation (content : string) (recall_type : RecallType)
      (repo_name repo_directory repo_branch repo_instructions : string) (runtime_hosts : dict string Z)
      (additional_agent_instructions date : string) (custom_secrets_descriptions : dict string string)
      (conversation_instructions working_dir : string) (microagent_knowledge : list MicroagentKnowledge)
  | MCPObservation (content name : string) (arguments : dict string pyval)
  | FileDownloadObservation (content file_path : string)
  | TaskTrackingObservation (content command : string) (task_list : list (dict string pyval))
  | LoopDetectionObservation (content : string).

(** [ToolCallMetadata] ([tool.py]); litellm's [ModelResponse] is kept as the value that
    it dumps. *)
Record CallMetadata := {
  cm_function_name : string;
  cm_tool_call_id : string;
  cm_model_response : pyval;
  cm_total_calls_in_response : Z;
}.

(** An event; attributes that were never set are [None]. *)
Record event := {
  _id : option Z;
  _timestamp : option string;
  _source : option EventSource;
  _cause : option Z;
  _timeout : option float;
  _llm_metrics : option Metrics;
  _tool_call_metadata : option CallMetadata;
  _response_id : option string;
  data : body;
}.
(** A freshly constructed event. *)
Definition new_event (b : body) : event :=
  {| _id := None; _timestamp := None; _source := None; _cause := None; _timeout := None; _llm_metrics := None;
     _tool_call_metadata := None; _response_id := None; data := b |}.

Definition INVALID_ID : Z := -1.
Definition event_id (e : event) : Z := default INVALID_ID (_id e).
Definition with_data (e : event) (b : body) : event :=
  {| _id := _id e; _timestamp := _timestamp e; _source := _source e; _cause := _cause e; _timeout := _timeout e;
     _llm_metrics := _llm_metrics e; _tool_call_metadata := _tool_call_metadata e; _response_id := _response_id e; data := b |}.

(** ** Classes *)

Definition is_action (b : body) : bool :=
  match b with
  | NullAction | CmdRunAction _ _ _ _ _ _ _ _ _ | IPythonRunCellAction _ _ _ _ _ _ | BrowseURLAction _ _ _ _
  | BrowseInteractiveAction _ _ _ _ _ | FileReadAction _ _ _ _ _ _ _ | FileWriteAction _ _ _ _ _ _
  | FileEditAction _ _ _ _ _ _ _ _ _ _ _ _ | AgentThinkAction _ | AgentFinishAction _ _ _ | AgentRejectAction _ _
  | AgentDelegateAction _ _ _ | RecallAction _ _ _ | ChangeAgentStateAction _ _ | MessageAction _ _ _ _ _
  | SystemMessageAction _ _ _ _ | CondensationAction _ _ _ _ _ | CondensationRequestAction | MCPAction _ _ _ _
  | TaskTrackingAction _ _ _ | LoopRecoveryAction _ => true
  | _ => false
  end.
Definition is_observation (b : body) : bool := negb (is_action b).

(** The [ActionType] or [ObservationType] of the class. *)
Definition event_type (b : body) : string :=
  match b with
  | NullAction | NullObservation _ => "null"
  | CmdRunAction _ _ _ _ _ _ _ _ _ | CmdOutputObservation _ _ _ _ => "run"
  | IPythonRunCellAction _ _ _ _ _ _ | IPythonRunCellObservation _ _ _ => "run_ipython"
  | BrowseURLAction _ _ _ _ | BrowserOutputObservation _ _ _ _ _ _ _ _ _ _ _ _ _ _ _ _ _ => "browse"
  | BrowseInteractiveAction _ _ _ _ _ => "browse_interactive"
  | FileReadAction _ _ _ _ _ _ _ | FileReadObservation _ _ _ => "read"
  | FileWriteAction _ _ _ _ _ _ | FileWriteObservation _ _ => "write"
  | FileEditAction _ _ _ _ _ _ _ _ _ _ _ _ | FileEditObservation _ _ _ _ _ _ _ _ => "edit"
  | AgentThinkAction _ | AgentThinkObservation _ => "think"
  | AgentFinishAction _ _ _ => "finish"
  | AgentRejectAction _ _ => "reject"
  | AgentDelegateAction _ _ _ | AgentDelegateObservation _ _ => "delegate"
  | RecallAction _ _ _ | RecallObservation _ _ _ _ _ _ _ _ _ _ _ _ _ => "recall"
  | ChangeAgentStateAction _ _ => "change_agent_state"
  | MessageAction _ _ _ _ _ => "message"
  | SystemMessageAction _ _ _ _ => "system"
  | CondensationAction _ _ _ _ _ => "condensation"
  | CondensationRequestAction => "condensation_request"
  | MCPAction _ _ _ _ => "call_tool_mcp"
  | TaskTrackingAction _ _ _ | TaskTrackingObservation _ _ _ => "task_tracking"
  | LoopRecoveryAction _ => "loop_recovery"
  | SuccessObservation _ => "success"
  | ErrorObservation _ _ => "error"
  | AgentStateChangedObservation _ _ _ => "agent_state_changed"
  | UserRejectObservation _ => "user_rejected"
  | AgentCondensationObservation _ => "condense"
  | MCPObservation _ _ _ => "mcp"
  | FileDownloadObservation _ _ => "download"
  | LoopDetectionObservation _ => "loop_detection"
  end.

(** [observation.content] *)
Definition obs_content (b : body) : option string :=
  match b with
  | NullObservation c | CmdOutputObservation c _ _ _ | IPythonRunCellObservation c _ _
  | BrowserOutputObservation c _ _ _ _ _ _ _ _ _ _ _ _ _ _ _ _ | FileReadObservation c _ _
  | FileWriteObservation c _ | FileEditObservation c _ _ _ _ _ _ _ | AgentDelegateObservation c _ | SuccessObservation c
  | ErrorObservation c _ | AgentStateChangedObservation c _ _ | UserRejectObservation c | AgentCondensationObservation c
  | AgentThinkObservation c | RecallObservation c _ _ _ _ _ _ _ _ _ _ _ _ | MCPObservation c _ _
  | FileDownloadObservation c _ | TaskTrackingObservation c _ _ | LoopDetectionObservation c => Some c
  | _ => None
  end.

(** ** [dataclasses.asdict] *)

Definition vopt {A} (f : A -> pyval) (o : option A) : pyval := match o with Some a => f a | None => VNone end.
Definition vstrs (l : list string) : pyval := VList (map VStr l).
Definition vints (l : list Z) : pyval := VList (map VInt l).
Definition vtasks (l : list (dict string pyval)) : pyval := VList (map VDict l).
Definition vrisk (r : ActionSecurityRisk) : pyval := VInt (risk_value r).

Definition metadata_dict (m : CmdOutputMetadata) : dict string pyval :=
  [ ("exit_code", VInt (exit_code m)); ("pid", VInt (pid m)); ("username", vopt VStr (username m));
    ("hostname", vopt VStr (hostname m)); ("working_dir", vopt VStr (working_dir m));
    ("py_interpreter_path", vopt VStr (py_interpreter_path m)); ("prefix", VStr (prefix_ m)); ("suffix", VStr (suffix_ m)) ].
Definition knowledge_dict (k : MicroagentKnowledge) : dict string pyval :=
  [("name", VStr (mk_name k)); ("trigger", VStr (mk_trigger k)); ("content", VStr (mk_content k))].

Definition asdict (b : body) : dict string pyval :=
  let act := ("action", VStr (event_type b)) in
  let obs := ("observation", VStr (event_type b)) in
  match b with
  | NullAction | CondensationRequestAction => [act]
  | CmdRunAction command is_input thought blocking is_static cwd hidden conf risk =>
      [ ("command", VStr command); ("is_input", VBool is_input); ("thought", VStr thought); ("blocking", VBool blocking);
        ("is_static", VBool is_static); ("cwd", vopt VStr cwd); ("hidden", VBool hidden); act;
        ("confirmation_state", VStr (confirmation_value conf)); ("security_risk", vrisk risk) ]
  | IPythonRunCellAction code thought include_extra conf risk kernel_init_code =>
      [ ("code", VStr code); ("thought", VStr thought); ("include_extra", VBool include_extra); act;
        ("confirmation_state", VStr (confirmation_value conf)); ("security_risk", vrisk risk);
        ("kernel_init_code", VStr kernel_init_code) ]
  | BrowseURLAction url thought risk return_axtree =>
      [("url", VStr url); ("thought", VStr thought); act; ("security_risk", vrisk risk); ("return_axtree", VBool return_axtree)]
  | BrowseInteractiveAction browser_actions thought msg risk return_axtree =>
      [ ("browser_actions", VStr browser_actions); ("thought", VStr thought); ("browsergym_send_msg_to_user", VStr msg); act;
        ("security_risk", vrisk risk); ("return_axtree", VBool return_axtree) ]
  | FileReadAction path start end_ thought risk impl_source view_range =>
      [ ("path", VStr path); ("start", VInt start); ("end", VInt end_); ("thought", VStr thought); act;
        ("security_risk", vrisk risk); ("impl_source", VStr (read_source_value impl_source)); ("view_range", vopt vints view_range) ]
  | FileWriteAction path content start end_ thought risk =>
      [ ("path", VStr path); ("content", VStr content); ("start", VInt start); ("end", VInt end_); ("thought", VStr thought); act;
        ("security_risk", vrisk risk) ]
  | FileEditAction path command file_text old_str new_str insert_line content start end_ thought risk impl_source =>
      [ ("path", VStr path); ("command", VStr command); ("file_text", vopt VStr file_text); ("old_str", vopt VStr old_str);
        ("new_str", vopt VStr new_str); ("insert_line", vopt VInt insert_line); ("content", VStr content); ("start", VInt start);
        ("end", VInt end_); ("thought", VStr thought); act; ("security_risk", vrisk risk);
        ("impl_source", VStr (edit_source_value impl_source)) ]
  | AgentThinkAction thought => [("thought", VStr thought); act]
  | AgentFinishAction final_thought outputs thought =>
      [("final_thought", VStr final_thought); ("outputs", VDict outputs); ("thought", VStr thought); act]
  | AgentRejectAction outputs thought => [("outputs", VDict outputs); ("thought", VStr thought); act]
  | AgentDelegateAction agent inputs thought =>
      [("agent", VStr agent); ("inputs", VDict inputs); ("thought", VStr thought); act]
  | RecallAction recall_type query thought =>
      [("recall_type", VStr (recall_value recall_type)); ("query", VStr query); ("thought", VStr thought); act]
  | ChangeAgentStateAction agent_state thought => [("agent_state", VStr agent_state); ("thought", VStr thought); act]
  | MessageAction content file_urls image_urls wait risk =>
      [ ("content", VStr content); ("file_urls", vopt vstrs file_urls); ("image_urls", vopt vstrs image_urls);
        ("wait_for_response", VBool wait); act; ("security_risk", vrisk risk) ]
  | SystemMessageAction content tools version agent_class =>
      [ ("content", VStr content); ("tools", vopt VList tools); ("openhands_version", vopt VStr version);
        ("agent_class", vopt VStr agent_class); act ]
  | CondensationAction ids start_id end_id summary offset =>
      [ act; ("forgotten_event_ids", vopt vints ids); ("forgotten_events_start_id", vopt VInt start_id);
        ("forgotten_events_end_id", vopt VInt end_id); ("summary", vopt VStr summary); ("summary_offset", vopt VInt offset) ]
  | MCPAction name arguments thought risk =>
      [("name", VStr name); ("arguments", VDict arguments); ("thought", VStr thought); act; ("security_risk", vrisk risk)]
  | TaskTrackingAction command tasks thought =>
      [("command", VStr command); ("task_list", vtasks tasks); ("thought", VStr thought); act]
  | LoopRecoveryAction o => [("option", VInt o); act]
  | NullObservation c | SuccessObservation c | UserRejectObservation c | AgentCondensationObservation c
  | AgentThinkObservation c | LoopDetectionObservation c => [("content", VStr c); obs]
  | CmdOutputObservation c command metadata hidden =>
      [("content", VStr c); ("command", VStr command); obs; ("metadata", VDict (metadata_dict metadata)); ("hidden", VBool hidden)]
  | IPythonRunCellObservation c code image_urls =>
      [("content", VStr c); ("code", VStr code); obs; ("image_urls", vopt vstrs image_urls)]
  | BrowserOutputObservation c url trigger shot shot_path marks error goals pages page dom axtree extra act_ act_err bid vis =>
      [ ("content", VStr c); ("url", VStr url); ("trigger_by_action", VStr trigger); ("screenshot", VStr shot);
        ("screenshot_path", vopt VStr shot_path); ("set_of_marks", VStr marks); ("error", VBool error); obs;
        ("goal_image_urls", vstrs goals); ("open_pages_urls", vstrs pages); ("active_page_index", VInt page);
        ("dom_object", VDict dom); ("axtree_object", VDict axtree); ("extra_element_properties", VDict extra);
        ("last_browser_action", VStr act_); ("last_browser_action_error", VStr act_err); ("focused_element_bid", VStr bid);
        ("filter_visible_only", VBool vis) ]
  | FileReadObservation c path impl_source =>
      [("content", VStr c); ("path", VStr path); obs; ("impl_source", VStr (read_source_value impl_source))]
  | FileWriteObservation c path => [("content", VStr c); ("path", VStr path); obs]
  | FileEditObservation c path prev_exist old_content new_content impl_source diff cache =>
      [ ("content", VStr c); ("path", VStr path); ("prev_exist", VBool prev_exist); ("old_content", vopt VStr old_content);
        ("new_content", vopt VStr new_content); obs; ("impl_source", VStr (edit_source_value impl_source));
        ("diff", vopt VStr diff); ("_diff_cache", vopt VStr cache) ]
  | AgentDelegateObservation c outputs => [("content", VStr c); ("outputs", VDict outputs); obs]
  | ErrorObservation c error_id => [("content", VStr c); obs; ("error_id", VStr error_id)]
  | AgentStateChangedObservation c agent_state reason =>
      [("content", VStr c); ("agent_state", VStr agent_state); ("reason", VStr reason); obs]
  | RecallObservation c recall_type name dir branch instr hosts additional date secrets conv wd knowledge =>
      [ ("content", VStr c); ("recall_type", VStr (recall_value recall_type)); obs; ("repo_name", VStr name);
        ("repo_directory", VStr dir); ("repo_branch", VStr branch); ("repo_instructions", VStr instr);
        ("runtime_hosts", VDict (map (fun kv => (kv.1, VInt kv.2)) hosts)); ("additional_agent_instructions", VStr additional);
        ("date", VStr date); ("custom_secrets_descriptions", VDict (map (fun kv => (kv.1, VStr kv.2)) secrets));
        ("conversation_instructions", VStr conv); ("working_dir", VStr wd);
        ("microagent_knowledge", VList (map (fun k => VDict (knowledge_dict k)) knowledge)) ]
  | MCPObservation c name arguments => [("content", VStr c); obs; ("name", VStr name); ("arguments", VDict arguments)]
  | FileDownloadObservation c file_path => [("content", VStr c); ("file_path", VStr file_path); obs]
  | TaskTrackingObservation c command tasks =>
      [("content", VStr c); obs; ("command", VStr command); ("task_list", vtasks tasks)]
  end.

(** ** [==] *)

Definition same_class (a b : body) : bool :=
  Bool.eqb (is_action a) (is_action b) && String.eqb (event_type a) (event_type b).
Definition body_eq (a b : body) : bool := same_class a b && py_eq (VList (dvals (asdict a))) (VList (dvals (asdict b))).
Definition event_eq (a b : event) : bool := body_eq (data a) (data b).

(** Messages of the user and of the agent. *)
Definition is_user_message (e : event) : bool :=
  match data e with MessageAction _ _ _ _ _ => bool_decide (_source e = Some USER) | _ => false end.
Definition is_agent_message (e : event) : bool :=
  match data e with MessageAction _ _ _ _ _ => bool_decide (_source e = Some AGENT) | _ => false end.

(** ** [CondensationAction] *)

Definition validate_field_polymorphism (ids : option (list Z)) (start_id end_id : option Z) (summary : option string)
    (offset : option Z) : bool :=
  xorb (bool_decide (is_Some ids)) (bool_decide (is_Some start_id) && bool_decide (is_Some end_id))
  && Bool.eqb (bool_decide (is_Some summary)) (bool_decide (is_Some offset)).
Definition invalid_configuration : exn := ValueError "Invalid configuration of the optional fields.".

(** The constructor, with [__post_init__]. *)
Definition condensation_action ids start_id end_id summary offset : res body :=
  if validate_field_polymorphism ids start_id end_id summary offset
  then Ok (CondensationAction ids start_id end_id summary offset) else Raise invalid_configuration.

(** The property [forgotten]; the last case never occurs. *)
Definition forgotten (ids : option (list Z)) (start_id end_id : option Z) (summary : option string) (offset : option Z) :
    res (list Z) :=
  if validate_field_polymorphism ids start_id end_id summary offset then
    match ids, start_id, end_id with
    | Some l, _, _ => Ok l
    | None, Some s, Some e => Ok (seqZ s (e + 1 - s))
    | _, _, _ => Raise invalid_configuration
    end
  else Raise invalid_configuration.

(** ** The property [message] *)

Definition message (b : body) : res string :=
  match b with
  | NullAction => Ok "No action"
  | CmdRunAction command _ _ _ _ _ _ _ _ => Ok ("Running command: " +:+ command)
  | IPythonRunCellAction code _ _ _ _ _ => Ok ("Running Python code interactively: " +:+ code)
  | BrowseURLAction url _ _ _ => Ok ("I am browsing the URL: " +:+ url)
  | BrowseInteractiveAction actions _ _ _ _ =>
      Ok ("I am interacting with the browser:" +:+ newline +:+ "```" +:+ newline +:+ actions +:+ newline +:+ "```")
  | FileReadAction path _ _ _ _ _ _ => Ok ("Reading file: " +:+ path)
  | FileWriteAction path _ _ _ _ _ => Ok ("Writing file: " +:+ path)
  | FileEditAction _ _ _ _ _ _ _ _ _ _ _ _ | LoopRecoveryAction _ | LoopDetectionObservation _ => Ok ""
  | AgentThinkAction thought => Ok ("I am thinking...: " +:+ thought)
  | AgentFinishAction _ _ thought => Ok (if String.eqb thought "" then "All done! What's next on the agenda?" else thought)
  | AgentRejectAction outputs _ =>
      match dget outputs "reason" with
      | None => Ok "Task is rejected by the agent."
      | Some (VStr reason) => Ok ("Task is rejected by the agent. Reason: " +:+ reason)
      | Some _ => Raise (TypeError "can only concatenate str to str")
      end
  | AgentDelegateAction agent _ _ => Ok ("I'm asking " +:+ agent +:+ " for help with this task.")
  | RecallAction _ query _ => Ok ("Retrieving content for: " +:+ slice_to query 50)
  | ChangeAgentStateAction agent_state _ => Ok ("Agent state changed to " +:+ agent_state)
  | MessageAction content _ _ _ _ | SystemMessageAction content _ _ _ => Ok content
  | CondensationAction ids start_id end_id summary offset =>
      match summary with
      | Some s => if String.eqb s "" then
                    l <-! forgotten ids start_id end_id summary offset ;;
                    Ok ("Condenser is dropping the events: " +:+ py_repr (vints l) +:+ ".")
                  else Ok ("Summary: " +:+ s)
      | None => l <-! forgotten ids start_id end_id summary offset ;;
                Ok ("Condenser is dropping the events: " +:+ py_repr (vints l) +:+ ".")
      end
  | CondensationRequestAction => Ok "Requesting a condensation of the conversation history."
  | MCPAction name arguments _ _ =>
      Ok ("I am interacting with the MCP server with name:" +:+ newline +:+ "```" +:+ newline +:+ name +:+ newline +:+ "```"
          +:+ newline +:+ "and arguments:" +:+ newline +:+ "```" +:+ newline +:+ py_repr (VDict arguments) +:+ newline +:+ "```")
  | TaskTrackingAction _ tasks _ =>
      Ok match tasks with
         | [] => "Clearing the task list."
         | [_] => "Managing 1 task item."
         | _ => "Managing " +:+ str_of_Z (Z.of_nat (length tasks)) +:+ " task items."
         end
  | NullObservation _ => Ok "No observation"
  | CmdOutputObservation _ command metadata _ =>
      Ok ("Command `" +:+ command +:+ "` executed with exit code " +:+ str_of_Z (exit_code metadata) +:+ ".")
  | IPythonRunCellObservation _ _ _ => Ok "Code executed in IPython cell."
  | BrowserOutputObservation _ url _ _ _ _ _ _ _ _ _ _ _ _ _ _ _ => Ok ("Visited " +:+ url)
  | FileReadObservation _ path _ => Ok ("I read the file " +:+ path +:+ ".")
  | FileWriteObservation _ path => Ok ("I wrote to the file " +:+ path +:+ ".")
  | FileEditObservation _ path _ _ _ _ _ _ => Ok ("I edited the file " +:+ path +:+ ".")
  | AgentDelegateObservation _ _ | AgentStateChangedObservation _ _ _ => Ok ""
  | RecallObservation _ recall_type _ _ _ _ _ _ _ _ _ _ _ =>
      Ok (if decide (recall_type = WORKSPACE_CONTEXT) then "Added workspace context" else "Added microagent knowledge")
  | FileDownloadObservation _ file_path => Ok ("Downloaded the file at location: " +:+ file_path)
  | SuccessObservation c | ErrorObservation c _ | UserRejectObservation c | AgentCondensationObservation c
  | AgentThinkObservation c | MCPObservation c _ _ | TaskTrackingObservation c _ _ => Ok c
  end.

(** [set_hard_timeout]; only [CmdRunAction] has a field [blocking]. *)
Definition set_hard_timeout (value : option float) (blocking : bool) (e : event) : event :=
  {| _id := _id e; _timestamp := _timestamp e; _source := _source e; _cause := _cause e; _timeout := value;
     _llm_metrics := _llm_metrics e; _tool_call_metadata := _tool_call_metadata e; _response_id := _response_id e;
     data := match data e with
             | CmdRunAction command is_input thought _ is_static cwd hidden conf risk =>
                 CmdRunAction command is_input thought blocking is_static cwd hidden conf risk
             | b => b
             end |}.

(** ** [truncate_content] of [events/serialization/event.py]; [None] is no limit *)

Definition truncation_note : string := newline +:+ "[... Observation truncated due to length ...]" +:+ newline.
Definition truncate_content (content : string) (max_chars : option Z) : string :=
  match max_chars with
  | None => content
  | Some n =>
      if (Z.of_nat (slen content) <=? n) || (n <? 0) then content
      else let half := n / 2 in slice_to content half +:+ truncation_note +:+ slice_from content (- half)
  end.

(** ** Lists of events with increasing ids

    What the event store yields is such a list; it is determined by its members,
    and filtering and splitting keep the order. *)

Definition ids_increase (l : list event) : Prop := StronglySorted (fun a b => event_id a < event_id b) l.

Lemma filter_part (p : event -> bool) a b :
  (forall e, e ∈ a -> p e = false) -> (forall e, e ∈ b -> p e = true) -> List.filter p (a ++ b) = b.
Proof.
  intros Ha Hb. rewrite List.filter_app. rewrite (List.filter_ext_in p (fun _ => false) a), (List.filter_ext_in p (fun _ => true) b).
  - by rewrite List.filter_false, List.filter_true.
  - intros e He. apply Hb. by apply list_elem_of_In.
  - intros e He. apply Ha. by apply list_elem_of_In.
Qed.
Lemma increase_filter (p : event -> bool) l : ids_increase l -> ids_increase (List.filter p l).
Proof.
  induction 1 as [|e l Hl IH He]; cbn [List.filter]; [constructor|]. destruct (p e); [|done]. constructor; [done|].
  rewrite Forall_forall in *. intros a Ha. apply He. apply list_elem_of_In, List.filter_In in Ha as [Ha _]. by apply list_elem_of_In.
Qed.
Lemma increase_app a b x y : ids_increase (a ++ b) -> x ∈ a -> y ∈ b -> event_id x < event_id y.
Proof. intros H Hx Hy. by eapply StronglySorted_app_1_elem_of in H. Qed.
Lemma filter_filter (p q : event -> bool) l : List.filter p (List.filter q l) = List.filter (fun e => q e && p e) l.
Proof.
  induction l as [|e l IH]; [done|]. cbn [List.filter]. destruct (q e); cbn [List.filter andb]; rewrite IH; [|done].
  by destruct (p e).
Qed.
Lemma increase_unique l1 l2 : ids_increase l1 -> ids_increase l2 -> (forall e, e ∈ l1 <-> e ∈ l2) -> l1 = l2.
Proof.
  intros H1. revert l2. induction H1 as [|a l1 H1 IH Ha]; intros l2 H2 He.
  - destruct l2 as [|b l2]; [done|]. by destruct (not_elem_of_nil b); apply He; left.
  - destruct H2 as [|b l2 H2 Hb]; [by destruct (not_elem_of_nil a); apply He; left|]. rewrite Forall_forall in Ha, Hb.
    assert (a = b) as ->.
    { pose proof (proj1 (He a) ltac:(left)) as Hab. pose proof (proj2 (He b) ltac:(left)) as Hba.
      apply elem_of_cons in Hab as [|Hab]; [done|]. apply elem_of_cons in Hba as [|Hba]; [done|].
      specialize (Ha b Hba). specialize (Hb a Hab). lia. }
    f_equal. apply IH; [done|]. intros e. specialize (He e). rewrite !elem_of_cons in He.
    split; intros Hin; [destruct (proj1 He (or_intror Hin)) as [->|]|destruct (proj2 He (or_intror Hin)) as [->|]]; try done;
      [specialize (Ha b Hin)|specialize (Hb b Hin)]; lia.
Qed.
Lemma increase_join a b : ids_increase a -> ids_increase b -> (forall x y, x ∈ a -> y ∈ b -> event_id x < event_id y) -> ids_increase (a ++ b).
Proof. intros Ha Hb Hab. by apply StronglySorted_app. Qed.
Lemma elem_of_filter_list (p : event -> bool) l e : e ∈ List.filter p l <-> p e = true /\ e ∈ l.
Proof. rewrite list_elem_of_In, List.filter_In, <- list_elem_of_In. naive_solver. Qed.
