(* ===== verification/EventStream.v ===== *)
(** * Audit events from the live event stream

    Models [openhands/forgepilot/audit/event_stream.py]: the conversion of the
    runtime's events into audit events.

    [stream_event] has a constructor for each event class the conversion
    distinguishes, with the attributes it reads; [attr] tells enumeration
    members from plain values, as [_enum_value] does.  [EventBase] holds what
    every event has, with the two readings the conversion may fall back on:
    [id(event)] and the clock. *)

From S2P Require Import Prelude PyStr PyDict PyVal PyTime AuditSchema.

Inductive attr :=
  | Plain (v : pyval)
  | Member (value : pyval).
Definition enum_value (a : attr) : pyval := match a with Plain v => v | Member v => v end.

Record EventBase := {
  response_id : option string;
  event_id : Z;
  object_id : Z;
  ev_timestamp : option string;
  read_at : Z;
  source : attr;
}.

Inductive stream_event :=
  | MessageAction (b : EventBase) (content : string)
  | CmdRunAction (b : EventBase) (command : string) (cwd : option string) (blocking : bool)
      (security_risk confirmation_state : attr)
  | CmdOutputObservation (b : EventBase) (command content : string) (metadata : option (Z * option string))
  | FileEditAction (b : EventBase) (path action : string) (security_risk : attr)
  | FileWriteAction (b : EventBase) (path action : string) (security_risk : attr)
  | FileEditObservation (b : EventBase) (path : string) (diff : option string) (content : string)
  | FileWriteObservation (b : EventBase) (path content : string)
  | MCPAction (b : EventBase) (name : string) (arguments : dict string pyval)
  | MCPObservation (b : EventBase) (name : string) (arguments : dict string pyval) (content : string)
  | UserRejectObservation (b : EventBase) (content : string)
  | OtherEvent (b : EventBase).

Definition base (e : stream_event) : EventBase :=
  match e with
  | MessageAction b _ | CmdRunAction b _ _ _ _ _ | CmdOutputObservation b _ _ _ | FileEditAction b _ _ _
  | FileWriteAction b _ _ _ | FileEditObservation b _ _ _ | FileWriteObservation b _ _ | MCPAction b _ _
  | MCPObservation b _ _ _ | UserRejectObservation b _ | OtherEvent b => b
  end.

(** ** Helpers *)

Definition TEST_COMMAND_MARKERS : list string :=
  ["pytest"; "pre-commit"; "npm test"; "npm run test"; "npm run build"; "mvn test"; "gradle test"; "go test"; "cargo test"].
Definition looks_like_test_command (command : string) : bool :=
  let normalized := lower command in existsb (fun marker => contains marker normalized) TEST_COMMAND_MARKERS.

Definition truncate (value : string) (max_chars : Z) : string :=
  if Z.of_nat (slen value) <=? max_chars then value
  else
    let keep := max_chars / 2 in
    slice_to value keep +:+ newline +:+ "..." +:+ newline +:+ slice_from value (- keep).

Definition event_trace_id (b : EventBase) : string :=
  let by_id := if event_id b =? -1 then "event-" +:+ str_of_Z (object_id b) else "event-" +:+ str_of_Z (event_id b) in
  match response_id b with
  | Some r => if String.eqb r "" then by_id else r
  | None => by_id
  end.

Definition event_timestamp (b : EventBase) : res datetime :=
  match ev_timestamp b with
  | Some t => if String.eqb t "" then Ok (utc (read_at b)) else fromisoformat t
  | None => Ok (utc (read_at b))
  end.

Definition opt_str (o : option string) : pyval := match o with Some s => VStr s | None => VNone end.
Definition is_str (v : pyval) (s : string) : bool := match v with VStr t => String.eqb t s | _ => false end.

(** ** The conversion *)

(** The events of one stream event: [first_seen] says whether a user message
    came before. *)
Definition convert (task : option string) (first_seen : bool) (e : stream_event) : res (list AuditEvent) :=
  ts <-! event_timestamp (base e) ;;
  let tid := event_trace_id (base e) in
  let mk t ty ph sm pl :=
    {| trace_id := t; task_id := task; event_type := ty; phase := Some ph; timestamp := ts; summary := sm;
       payload := pl; duration_ms := None; cost_usd := None |} in
  Ok match e with
     | MessageAction b content =>
         let src := enum_value (source b) in
         if is_str src "user" then
           (if first_seen then [] else [mk tid TASK_CREATED "plan" (truncate content 300) [("source", VStr "user")]])
           ++ [mk tid USER_MESSAGE "plan" (truncate content 300) [("source", VStr "user")]]
         else if is_str src "agent"
         then [mk tid MODEL_RESPONSE "execute" (truncate content 300) [("source", VStr "agent")]]
         else []
     | CmdRunAction b command cwd blocking risk conf =>
         mk tid COMMAND_RUN "execute" command
           [ ("command", VStr command); ("cwd", opt_str cwd); ("blocking", VBool blocking);
             ("security_risk", enum_value risk); ("confirmation_state", enum_value conf) ]
         :: (if is_str (enum_value conf) "awaiting_confirmation"
             then [mk (tid +:+ ":approval") APPROVAL_REQUESTED "execute" ("Approval requested for command: " +:+ command)
                     [("subject_type", VStr "command"); ("command", VStr command); ("security_risk", enum_value risk)]]
             else [])
     | CmdOutputObservation b command content metadata =>
         let is_test := looks_like_test_command command in
         [mk tid (if is_test then TEST_RESULT else COMMAND_RUN) (if is_test then "verify" else "execute") command
            [ ("command", VStr command);
              ("exit_code", match metadata with Some m => VInt m.1 | None => VNone end);
              ("working_dir", match metadata with Some m => opt_str m.2 | None => VNone end);
              ("output", VStr (truncate content 1200)) ]]
     | FileEditAction b path action risk | FileWriteAction b path action risk =>
         [mk tid FILE_CHANGE "execute" ("Change requested for " +:+ path)
            [("path", VStr path); ("action", VStr action); ("security_risk", enum_value risk)]]
     | FileEditObservation b path diff content =>
         [mk tid FILE_CHANGE "execute" ("Changed " +:+ path)
            [("path", VStr path); ("diff", opt_str diff); ("content", VStr (truncate content 1200))]]
     | FileWriteObservation b path content =>
         [mk tid FILE_CHANGE "execute" ("Changed " +:+ path)
            [("path", VStr path); ("diff", VNone); ("content", VStr (truncate content 1200))]]
     | MCPAction b name arguments =>
         [mk tid TOOL_CALL "execute" ("MCP tool call: " +:+ name) [("tool", VStr name); ("arguments", VDict arguments)]]
     | MCPObservation b name arguments content =>
         [mk tid TOOL_CALL "execute" ("MCP tool result: " +:+ name)
            [("tool", VStr name); ("arguments", VDict arguments); ("output", VStr (truncate content 1200))]]
     | UserRejectObservation b content =>
         [mk tid APPROVAL_DECISION "execute" "Approval rejected by user"
            [("decision", VStr "rejected"); ("message", VStr content)]]
     | OtherEvent b => []
     end.

Definition is_user_message (e : stream_event) : bool :=
  match e with MessageAction b _ => is_str (enum_value (source b)) "user" | _ => false end.

Fixpoint convert_from (task : option string) (first_seen : bool) (events : list stream_event) : res (list AuditEvent) :=
  match events with
  | [] => Ok []
  | e :: events =>
      l <-! convert task first_seen e ;;
      ls <-! convert_from task (first_seen || is_user_message e) events ;;
      Ok (l ++ ls)
  end.
Definition audit_events_from_event_stream (events : list stream_event) (task : option string) : res (list AuditEvent) :=
  convert_from task false events.

(** ** Properties *)

Definition of_kind (t : AuditEventType) (l : list AuditEvent) : list AuditEvent :=
  List.filter (fun e => bool_decide (event_type e = t)) l.

Lemma of_kind_app t l l' : of_kind t (l ++ l') = of_kind t l ++ of_kind t l'.
Proof. apply List.filter_app. Qed.

(** The conversion of a stream, event by event. *)
Lemma convert_from_spec task seen events l :
  convert_from task seen events = Ok l ->
  exists ls, l = concat ls /\
    Forall2 (fun e l => exists seen', convert task seen' e = Ok l) events ls.
Proof.
  revert seen l; induction events as [|e events IH]; intros seen l; cbn [convert_from].
  - intros [= <-]. by exists [].
  - destruct (convert task seen e) as [le|] eqn:Ee; [|done]. cbn [rbind].
    destruct (convert_from task (seen || is_user_message e) events) as [lr|] eqn:Er; [|done]. cbn [rbind]. intros [= <-].
    destruct (IH _ _ Er) as (ls & -> & H). exists (le :: ls). split; [done|]. constructor; [by exists seen|done].
Qed.

(** What one event adds of the events that stand for user messages. *)
Lemma convert_user task seen e l :
  convert task seen e = Ok l ->
  length (of_kind USER_MESSAGE l) = (if is_user_message e then 1 else 0)%nat /\
  length (of_kind TASK_CREATED l) = (if is_user_message e && negb seen then 1 else 0)%nat.
Proof.
  unfold convert. destruct (event_timestamp (base e)) as [ts|]; [|done]. cbn [rbind]. intros [= <-].
  destruct e; cbn -[truncate looks_like_test_command]; try done.
  - destruct (is_str _ "user"); [by destruct seen|]. by destruct (is_str _ "agent").
  - by destruct (is_str _ _).
  - by destruct (looks_like_test_command _).
Qed.

Lemma convert_from_user task seen events l :
  convert_from task seen events = Ok l ->
  length (of_kind USER_MESSAGE l) = length (List.filter is_user_message events) /\
  length (of_kind TASK_CREATED l) = (if existsb is_user_message events && negb seen then 1 else 0)%nat.
Proof.
  revert seen l; induction events as [|e events IH]; intros seen l; cbn [convert_from].
  - intros [= <-]. done.
  - destruct (convert task seen e) as [le|] eqn:Ee; [|done]. cbn [rbind].
    destruct (convert_from task (seen || is_user_message e) events) as [lr|] eqn:Er; [|done]. cbn [rbind]. intros [= <-].
    destruct (convert_user _ _ _ _ Ee) as [H1 H2], (IH _ _ Er) as [H3 H4].
    rewrite !of_kind_app, !length_app, H1, H2, H3, H4. cbn [List.filter existsb].
    destruct (is_user_message e), seen; cbn; rewrite ?andb_false_r, ?andb_true_r; done || (split; [done|lia]).
Qed.

(** A command that fails a test run is recorded as a failed test. *)
Definition test_output (e : stream_event) : option Z :=
  match e with
  | CmdOutputObservation _ command _ (Some m) => if looks_like_test_command command then Some m.1 else None
  | _ => None
  end.

Lemma convert_test task seen e l code :
  convert task seen e = Ok l -> test_output e = Some code ->
  exists a, l = [a] /\ event_type a = TEST_RESULT /\ dget (payload a) "exit_code" = Some (VInt code).
Proof.
  unfold convert. destruct (event_timestamp (base e)) as [ts|]; [|done]. cbn [rbind]. intros [= <-].
  destruct e; cbn -[truncate looks_like_test_command]; try done. destruct metadata as [[c wd]|]; [|done].
  destruct (looks_like_test_command command); [|done]. intros [= <-]. by eexists.
Qed.

(** The conversation opens the audit trail and none of it is lost: whatever
    the stream, each user message gives one USER_MESSAGE event, exactly one
    TASK_CREATED event is made if there is a user message at all (none
    otherwise), and the conversion fails only if some timestamp is not an ISO
    date. *)
Lemma user_messages_recorded (events : list stream_event) (task : option string) :
  match audit_events_from_event_stream events task with
  | Ok l =>
      length (of_kind USER_MESSAGE l) = length (List.filter is_user_message events) /\
      length (of_kind TASK_CREATED l) = (if existsb is_user_message events then 1 else 0)%nat
  | Raise e => exists ev s, ev ∈ events /\ ev_timestamp (base ev) = Some s /\ fromisoformat s = Raise e
  end.
Proof.
  unfold audit_events_from_event_stream. destruct (convert_from task false events) as [l|e] eqn:E.
  - destruct (convert_from_user _ _ _ _ E) as [H1 H2]. by rewrite andb_true_r in H2.
  - revert E. generalize false as seen. induction events as [|ev events IH]; intros seen; cbn [convert_from]; [done|].
    unfold convert. destruct (event_timestamp (base ev)) as [ts|x] eqn:Et; cbn [rbind].
    + destruct (convert_from task _ events) as [|y] eqn:Er; [done|]. cbn [rbind]. intros [= <-].
      destruct (IH _ Er) as (ev' & s & Hin & H). exists ev', s. split; [by right|done].
    + intros [= <-]. unfold event_timestamp in Et. destruct (ev_timestamp (base ev)) as [s|] eqn:Es; [|done].
      destruct (String.eqb s ""); [done|]. exists ev, s. split; [by left|done].
Qed.

(** ** Naive and aware timestamps *)

Definition at_time (ts : option string) (src : string) : EventBase :=
  {| response_id := None; event_id := 1; object_id := 7; ev_timestamp := ts; read_at := 1000000; source := Member (VStr src) |}.
(** Stream timestamps have no offset; an event without one gets the clock in
    UTC.  The two do not compare, so no timeline can be built. *)
Example mixed_timestamps :
  exists l, audit_events_from_event_stream
      [MessageAction (at_time (Some "2026-01-01T00:00:00") "user") "hi"; MessageAction (at_time None "agent") "ok"] None = Ok l /\
    ordered_timeline l = Raise (TypeError "can't compare offset-naive and offset-aware datetimes").
Proof. eexists. split; vm_compute; reflexivity. Qed.
