(* ===== verification/Replay.v ===== *)
(** * The audit replay

    Models [openhands/forgepilot/audit/replay.py]: the risk queues, the replay
    summary of a task's events and its Markdown. *)

From S2P Require Import Prelude PyStr PyDict PyFloat PyVal PyTime Events AuditSchema Timeline EventStream.

Record ReplayRiskQueue := { name : string; event_ids : list string; q_reason : string }.

Record AuditReplaySummary := {
  r_task_id : string;
  r_event_count : Z;
  chain_count : Z;
  r_total_cost_usd : float;
  r_total_duration_ms : Z;
  r_event_types : list string;
  risk_queues : list ReplayRiskQueue;
  timeline : AuditTimeline;
  r_audit_jsonl : string;
}.

Definition bullet (name : string) (rest : string) : string := "- `" +:+ name +:+ "`" +:+ rest.

Definition render_markdown (s : AuditReplaySummary) : string :=
  join newline
    ([ "# ForgePilot Audit Replay"; "";
       "- Task ID: `" +:+ r_task_id s +:+ "`";
       "- Events: " +:+ str_of_Z (r_event_count s);
       "- Chains: " +:+ str_of_Z (chain_count s);
       "- Total Cost USD: " +:+ format_fixed 6 (r_total_cost_usd s);
       "- Total Duration MS: " +:+ str_of_Z (r_total_duration_ms s);
       ""; "## Event Types"; "" ]
     ++ map (fun t => bullet t "") (r_event_types s)
     ++ [""; "## Risk Queues"; ""]
     ++ match risk_queues s with [] => ["No risk queues."] | _ => [] end
     ++ map (fun q =>
          let joined := match event_ids q with [] => "-" | ids => join ", " ids end in
          bullet (name q) (": " +:+ q_reason q +:+ " (" +:+ joined +:+ ")")) (risk_queues s)
     ++ [""; "## Chains"; ""]
     ++ map (fun c =>
          bullet (chain_id c) (": " +:+ join " -> " (map (fun n => event_type_value (event_type (event n))) (nodes c))))
          (chains (timeline s))
     ++ [""]).

Definition FAILED_STATUSES : list string := ["failed"; "fail"; "error"].

(** [payload.get(key, default)] *)
Definition payload_get (e : AuditEvent) (key : string) (dflt : pyval) : pyval := default dflt (dget (payload e) key).

Definition is_failed_verification (e : AuditEvent) : bool :=
  if bool_decide (lower (py_str (payload_get e "status" (VStr ""))) ∈ FAILED_STATUSES) then true
  else match payload_get e "exit_code" VNone with
       | VNone => false
       | v => negb (String.eqb (py_str v) "0")
       end.

Definition is_high_risk_command_event (e : AuditEvent) : bool :=
  let risk := payload_get e "security_risk" (payload_get e "risk" (VStr "")) in
  String.eqb (lower (py_str risk)) "high".

(** The node ids of the events that satisfy [p]. *)
Definition ids_where (p : AuditEvent -> bool) (identified : list (string * AuditEvent)) : list string :=
  map fst (List.filter (fun ie => p ie.2) identified).

Definition is_approval_request (e : AuditEvent) : bool := bool_decide (event_type e = APPROVAL_REQUESTED).
Definition failed_check (e : AuditEvent) : bool :=
  bool_decide (event_type e = TEST_RESULT \/ event_type e = VERIFICATION) && is_failed_verification e.
Definition high_risk_command (e : AuditEvent) : bool :=
  bool_decide (event_type e = COMMAND \/ event_type e = COMMAND_RUN) && is_high_risk_command_event e.

Definition queue (nm : string) (ids : list string) (why : string) : list ReplayRiskQueue :=
  match ids with [] => [] | _ => [{| name := nm; event_ids := ids; q_reason := why |}] end.

Definition risk_queues_of (events : list AuditEvent) : res (list ReplayRiskQueue) :=
  identified <-! assign_unique_node_ids events ;;
  Ok (queue "approval_required" (ids_where is_approval_request identified)
        "Task requested human approval before continuing."
      ++ queue "failed_verification" (ids_where failed_check identified)
           "Verification or test events reported failure."
      ++ queue "high_risk_command" (ids_where high_risk_command identified)
           "Command events were marked high risk by policy.").

(** [now] is the evidence pack's [generated_at]. *)
Definition build_audit_replay_summary (now : datetime) (events : list AuditEvent) : res AuditReplaySummary :=
  evidence <-! build_task_evidence_pack now events None ;;
  tl <-! build_timeline events ;;
  queues <-! risk_queues_of events ;;
  Ok {| r_task_id := p_task_id evidence; r_event_count := event_count evidence;
        chain_count := Z.of_nat (length (chains tl)); r_total_cost_usd := total_cost_usd tl;
        r_total_duration_ms := total_duration_ms tl; r_event_types := event_types evidence;
        risk_queues := queues; timeline := tl; r_audit_jsonl := audit_jsonl evidence |}.

(** ** Properties *)

Lemma elem_of_ids_where p identified i :
  i ∈ ids_where p identified <-> exists e, (i, e) ∈ identified /\ p e = true.
Proof.
  unfold ids_where. rewrite list_elem_of_In, in_map_iff. split.
  - intros ([j e] & <- & [Hin Hp]%filter_In). exists e. by rewrite list_elem_of_In.
  - intros (e & Hin & Hp). exists (i, e). split; [done|]. apply filter_In. by rewrite <-list_elem_of_In.
Qed.

Lemma elem_of_queue q nm ids why : q ∈ queue nm ids why <-> ids <> [] /\ q = {| name := nm; event_ids := ids; q_reason := why |}.
Proof. unfold queue. destruct ids; [split; [by intros ?%elem_of_nil|naive_solver]|]. rewrite list_elem_of_singleton. naive_solver. Qed.

(** The predicate a queue stands for. *)
Definition queue_predicate (nm : string) : AuditEvent -> bool :=
  if String.eqb nm "approval_required" then is_approval_request
  else if String.eqb nm "failed_verification" then failed_check
  else if String.eqb nm "high_risk_command" then high_risk_command
  else fun _ => false.

Lemma risk_queues_facts identified :
  let qs := queue "approval_required" (ids_where is_approval_request identified) "Task requested human approval before continuing."
      ++ queue "failed_verification" (ids_where failed_check identified) "Verification or test events reported failure."
      ++ queue "high_risk_command" (ids_where high_risk_command identified) "Command events were marked high risk by policy." in
  (forall q, q ∈ qs -> event_ids q = ids_where (queue_predicate (name q)) identified /\ event_ids q <> []) /\
  (forall nm, (exists q, q ∈ qs /\ name q = nm) <-> ids_where (queue_predicate nm) identified <> []).
Proof.
  intros qs. assert (forall q, q ∈ qs <-> event_ids q = ids_where (queue_predicate (name q)) identified /\ event_ids q <> [] /\
    (name q, q_reason q) ∈ [("approval_required", "Task requested human approval before continuing.");
      ("failed_verification", "Verification or test events reported failure.");
      ("high_risk_command", "Command events were marked high risk by policy.")]) as H.
  { intros [nm ids why]. unfold qs. rewrite !elem_of_app, !elem_of_queue, !elem_of_cons, elem_of_nil. cbn [name event_ids q_reason].
    split.
    - intros [(? & [= -> -> ->])|[(? & [= -> -> ->])|(? & [= -> -> ->])]]; naive_solver.
    - intros (-> & Hne & [[= -> ->]|[[= -> ->]|[[= -> ->]|[]]]]); naive_solver. }
  split.
  - intros q Hq. apply H in Hq. tauto.
  - intros nm. split.
    + intros (q & Hq & <-). apply H in Hq as (<- & Hne & _). done.
    + intros Hne.
      assert (exists why, (nm, why) ∈ [("approval_required", "Task requested human approval before continuing.");
        ("failed_verification", "Verification or test events reported failure.");
        ("high_risk_command", "Command events were marked high risk by policy.")]) as [why Hw].
      { clear H. unfold queue_predicate in Hne. setoid_rewrite elem_of_cons. setoid_rewrite elem_of_cons. setoid_rewrite elem_of_cons.
        destruct (String.eqb_spec nm "approval_required") as [E|_]; [rewrite E; by eauto|].
        destruct (String.eqb_spec nm "failed_verification") as [E|_]; [rewrite E; by eauto|].
        destruct (String.eqb_spec nm "high_risk_command") as [E|_]; [rewrite E; by eauto|].
        exfalso. apply Hne. unfold ids_where. clear. by induction identified. }
      exists {| name := nm; event_ids := ids_where (queue_predicate nm) identified; q_reason := why |}. by rewrite H.
Qed.

(** The risk queues point into the timeline: in the replay of any events
    whose trace ids contain no [#], a queue of a name exists exactly when some
    event calls for it (an approval request, a failed test or verification, a
    high-risk command), and its ids are exactly the ids of the timeline nodes of
    those events, each once. *)
Lemma risk_queues_point_into_timeline (now : datetime) (events : list AuditEvent) (s : AuditReplaySummary)
    (Hhash : Forall (fun e => no_hash (trace_id e) = true) events)
    (Hs : build_audit_replay_summary now events = Ok s) :
  (forall nm, (exists q, q ∈ risk_queues s /\ name q = nm) <-> exists e, e ∈ events /\ queue_predicate nm e = true) /\
  (forall q, q ∈ risk_queues s -> NoDup (event_ids q) /\
     forall i, i ∈ event_ids q <->
       exists n, n ∈ concat (map nodes (chains (timeline s))) /\ node_id n = i /\ queue_predicate (name q) (event n) = true).
Proof.
  unfold build_audit_replay_summary in Hs. destruct (build_task_evidence_pack now events None); [|done]. cbn [rbind] in Hs.
  unfold build_timeline, risk_queues_of in Hs. destruct (assign_unique_node_ids events) as [identified|] eqn:Hids; [|done].
  cbn [rbind] in Hs. injection Hs as <-. cbn [risk_queues timeline].
  destruct (identified_facts _ _ Hhash Hids) as (Hp & Hnd & _ & _).
  destruct (timeline_nodes _ _ Hhash Hids) as (Hn & _ & _).
  destruct (risk_queues_facts identified) as [Q1 Q2]. split.
  - intros nm. rewrite Q2. split.
    + intros Hne. destruct (ids_where (queue_predicate nm) identified) as [|i ids] eqn:E; [done|].
      assert (i ∈ ids_where (queue_predicate nm) identified) as (e & Hin & He)%elem_of_ids_where by (rewrite E; by left).
      exists e. split; [|done]. rewrite <-Hp. by apply (list_elem_of_fmap_2 snd) in Hin.
    + intros (e & Hin & He). rewrite <-Hp in Hin. apply list_elem_of_fmap in Hin as ([i e'] & -> & Hin).
      assert (i ∈ ids_where (queue_predicate nm) identified) as Hi by (apply elem_of_ids_where; eauto).
      intros E. rewrite E in Hi. by apply elem_of_nil in Hi.
  - intros q Hq. destruct (Q1 q Hq) as [-> _]. split.
    + unfold ids_where. clear -Hnd. induction identified as [|[i e] l IH]; [constructor|].
      rewrite fmap_cons in Hnd. apply NoDup_cons in Hnd as [Hi Hnd]. cbn. destruct (queue_predicate _ e); [|by apply IH].
      cbn. constructor; [|by apply IH]. intros (e' & Hin & _)%elem_of_ids_where. apply Hi.
      by apply (list_elem_of_fmap_2 fst) in Hin.
    + assert (forall i e, (i, e) ∈ identified <->
        exists n, n ∈ concat (map nodes (chains (timeline_of identified))) /\ node_id n = i /\ event n = e) as Hin.
      { intros i e. rewrite <-(elem_of_Permutation_proper _ _ _ Hn), list_elem_of_In, in_map_iff.
        setoid_rewrite <-list_elem_of_In. naive_solver. }
      intros i. rewrite elem_of_ids_where. setoid_rewrite Hin. naive_solver.
Qed.

(** A test run that fails, an approval request and a command of the live
    stream. *)
Definition failing_session : list AuditEvent :=
  [ typed "m" MODEL_RESPONSE 0;
    {| trace_id := "m"; task_id := None; event_type := TEST_RESULT; phase := Some "verify"; timestamp := utc 1000000;
       summary := "pytest"; payload := [("exit_code", VInt 1)]; duration_ms := None; cost_usd := None |};
    typed "a" APPROVAL_REQUESTED 2 ].
Lemma risk_queues_point_into_timeline_witness :
  exists s, build_audit_replay_summary (utc 0) failing_session = Ok s /\
    map (fun q => (name q, event_ids q)) (risk_queues s) = [("approval_required", ["a"]); ("failed_verification", ["m#2"])] /\
    forall nm, (exists q, q ∈ risk_queues s /\ name q = nm) <-> exists e, e ∈ failing_session /\ queue_predicate nm e = true.
Proof.
  eexists. split; [reflexivity|]. split; [reflexivity|].
  apply (risk_queues_point_into_timeline (utc 0) failing_session _ ltac:(by repeat constructor) eq_refl).
Defined.

(** ** Live commands *)

Definition typed_risk (e : stream_event) : Prop :=
  match e with CmdRunAction _ _ _ _ risk _ => exists r, risk = Member (VInt (risk_value r)) | _ => True end.

Lemma convert_no_high_risk task seen e l :
  typed_risk e -> convert task seen e = Ok l -> Forall (fun a => high_risk_command a = false) l.
Proof.
  intros Ht. unfold convert. destruct (event_timestamp (base e)) as [ts|]; [|done]. cbn [rbind]. intros [= <-].
  destruct e; cbn -[truncate looks_like_test_command]; try by repeat constructor.
  - destruct (is_str _ "user"); [by destruct seen; repeat constructor|]. destruct (is_str _ "agent"); by repeat constructor.
  - destruct Ht as [r ->]. constructor; [by destruct r|]. destruct (is_str _ _); by repeat constructor.
  - destruct (looks_like_test_command command); by repeat constructor.
Qed.

(** A live command is never queued as high risk: the stream's risk is an
    integer enumeration ([HIGH] is 2), the queue looks for the text [high], so
    no replay of events converted from a live stream has a queue of high-risk
    commands, whatever the risk of its commands. *)
Lemma live_high_risk_never_queued (events : list stream_event) (task : option string) (l : list AuditEvent)
    (now : datetime) (s : AuditReplaySummary)
    (Htyped : Forall typed_risk events) (Hl : audit_events_from_event_stream events task = Ok l)
    (Hs : build_audit_replay_summary now l = Ok s) :
  forall q, q ∈ risk_queues s -> name q <> "high_risk_command".
Proof.
  apply convert_from_spec in Hl as (ls & -> & H2).
  assert (Forall (fun a => high_risk_command a = false) (concat ls)) as Hall.
  { clear Hs. apply Forall_concat. induction H2 as [|e l events ls [seen He] _ IH]; [constructor|]. apply Forall_cons in Htyped as [Ht Hts].
    constructor; [by eapply convert_no_high_risk|by apply IH]. }
  intros q Hq Hname. unfold build_audit_replay_summary in Hs.
  destruct (build_task_evidence_pack now (concat ls) None); [|done]. cbn [rbind] in Hs.
  unfold build_timeline, risk_queues_of in Hs. destruct (assign_unique_node_ids (concat ls)) as [identified|] eqn:Hids; [|done].
  cbn [rbind] in Hs. injection Hs as <-. cbn [risk_queues] in Hq. destruct (risk_queues_facts identified) as [Q1 _].
  destruct (Q1 q Hq) as [E Hne]. rewrite Hname in E. destruct (event_ids q) as [|i ids]; [done|].
  assert (i ∈ ids_where (queue_predicate "high_risk_command") identified) as (e & Hin & He)%elem_of_ids_where by (rewrite <-E; by left).
  apply (list_elem_of_fmap_2 snd) in Hin. cbn in Hin. rewrite Forall_forall in Hall.
  unfold assign_unique_node_ids in Hids. destruct (ordered_timeline (concat ls)) as [tl|] eqn:Et; [|done].
  cbn [rbind] in Hids. injection Hids as <-. rewrite assign_ids_snd in Hin.
  destruct (ordered_timeline_spec _ _ Et) as (Hp & _). rewrite Hp in Hin. apply Hall in Hin. change (high_risk_command e = true) in He. congruence.
Qed.

Definition dangerous_stream : list stream_event :=
  [CmdRunAction (at_time (Some "2026-01-01T00:00:00") "agent") "rm -rf /" None false
     (Member (VInt (risk_value RISK_HIGH))) (Member (VStr "confirmed"))].
Lemma live_high_risk_never_queued_witness :
  exists l s, audit_events_from_event_stream dangerous_stream None = Ok l /\
    build_audit_replay_summary (utc 0) l = Ok s /\ risk_queues s = [] /\
    forall q, q ∈ risk_queues s -> name q <> "high_risk_command".
Proof.
  eexists _, _. split; [vm_compute; reflexivity|]. split; [vm_compute; reflexivity|]. split; [reflexivity|].
  eapply (live_high_risk_never_queued dangerous_stream None _ (utc 0)); [|vm_compute; reflexivity|vm_compute; reflexivity].
  constructor; [|constructor]. by exists RISK_HIGH.
Defined.
