(* ===== verification/Delivery.v ===== *)
(** * Delivery artifacts

    Models [openhands/forgepilot/delivery/__init__.py]: file changes and test
    results collected from a task's events, the commit message, the body of the
    pull request, and the artifact that holds them.

    Payload values are dynamic.  Where the code puts one into a field, pydantic
    validates it: [as_str], [as_bool] and [as_int] stand for its lax validators
    of the three types (the value, or [None] for a ValidationError, whose text
    is not modelled). *)

From S2P Require Import Prelude PyStr PyDict PyFloat PyVal PyTime EventStream AuditSchema Timeline.

Record FileChangeSummary := {
  path : string;
  action : string;
  lines_added : pyval;
  lines_removed : pyval;
  description : string;
}.

Record TestResult := {
  t_name : string;
  t_passed : bool;
  t_duration_ms : Z;
  t_output : string;
  t_error : string;
}.

Record TestReport := {
  total : Z;
  passed : Z;
  failed : Z;
  skipped : Z;
  rep_duration_ms : Z;
  results : list TestResult;
}.
Definition new_report : TestReport :=
  {| total := 0; passed := 0; failed := 0; skipped := 0; rep_duration_ms := 0; results := [] |}.

(** Both counts are non-negative; the division of integers is rounded once. *)
Definition pass_rate (r : TestReport) : float :=
  if total r =? 0 then f1 else float_of_ratio false (passed r) (total r).

Record PRDescription := { title : string; body : string; labels : list string; reviewers : list string }.
Record ReplayLink := { url : string; link_task_id : string; expires_at : option datetime }.
Record DeliveryArtifact := {
  d_task_id : string;
  task_title : string;
  generated_at : datetime;
  pr_description : PRDescription;
  test_report : TestReport;
  replay_link : ReplayLink;
  file_changes : list FileChangeSummary;
  commit_message : string;
  d_summary : string;
}.

Definition validation_error : exn := OtherError "ValidationError" "".
Definition checked {A} (o : option A) : res A := match o with Some a => Ok a | None => Raise validation_error end.


(** [a + b] on numbers (a boolean counts as 0 or 1); anything else does not add
    to a number. *)
Definition as_number (v : pyval) : option (Z + float) :=
  match v with
  | VInt z => Some (inl z)
  | VBool b => Some (inl (if b then 1 else 0))
  | VFloat x => Some (inr x)
  | _ => None
  end.
Definition number_float (n : Z + float) : float := match n with inl z => float_of_Z z | inr x => x end.
Definition py_iadd (a b : pyval) : res pyval :=
  match as_number a, as_number b with
  | Some (inl x), Some (inl y) => Ok (VInt (x + y))
  | Some x, Some y => Ok (VFloat (fadd (number_float x) (number_float y)))
  | _, _ => Raise (TypeError ("unsupported operand type(s) for +=: '" +:+ type_name a +:+ "' and '" +:+ type_name b +:+ "'"))
  end.

Section delivery.
Variable as_str : pyval -> option string.
Variable as_bool : pyval -> option bool.
Variable as_int : pyval -> option Z.

Definition get (d : dict string pyval) (key : string) (dflt : pyval) : pyval := default dflt (dget d key).

(** The loop of [_extract_file_changes]; the key of [changes] is a path that
    passed validation. *)
Definition current_change (changes : dict string FileChangeSummary) (key : string) (e : AuditEvent) : res FileChangeSummary :=
  match dget changes key with
  | Some c => Ok c
  | None =>
      act <-! checked (as_str (get (payload e) "action" (VStr "modified"))) ;;
      Ok {| path := key; action := act; lines_added := VInt 0; lines_removed := VInt 0; description := summary e |}
  end.
Definition update_change (changes : dict string FileChangeSummary) (key : string) (e : AuditEvent)
    : res (dict string FileChangeSummary) :=
  current <-! current_change changes key e ;;
  added <-! py_iadd (lines_added current) (get (payload e) "lines_added" (VInt 0)) ;;
  removed <-! py_iadd (lines_removed current) (get (payload e) "lines_removed" (VInt 0)) ;;
  Ok (dset changes key {| path := path current; action := action current; lines_added := added;
                          lines_removed := removed; description := description current |}).
Definition add_change (changes : dict string FileChangeSummary) (e : AuditEvent) : res (dict string FileChangeSummary) :=
  if negb (bool_decide (event_type e = FILE_CHANGE)) then Ok changes
  else
    let p := get (payload e) "path" (VStr "") in
    if negb (truth p) then Ok changes
    else
      match p with
      | VList _ | VDict _ => Raise (TypeError ("unhashable type: '" +:+ type_name p +:+ "'"))
      | _ => key <-! checked (as_str p) ;; update_change changes key e
      end.
Fixpoint foldM {S A} (f : S -> A -> res S) (s : S) (l : list A) : res S :=
  match l with
  | [] => Ok s
  | x :: l => s' <-! f s x ;; foldM f s' l
  end.
Definition extract_file_changes (events : list AuditEvent) : res (list FileChangeSummary) :=
  changes <-! foldM add_change [] events ;; Ok (dvals changes).

Definition add_result (r : TestReport) (t : pyval) : res TestReport :=
  match t with
  | VDict d =>
      nm <-! checked (as_str (get d "name" (VStr "unnamed"))) ;;
      ok <-! checked (as_bool (get d "passed" (VBool true))) ;;
      dur <-! checked (as_int (get d "duration_ms" (VInt 0))) ;;
      out <-! checked (as_str (get d "output" (VStr ""))) ;;
      err <-! checked (as_str (get d "error" (VStr ""))) ;;
      Ok {| total := total r + 1; passed := if ok : bool then passed r + 1 else passed r;
            failed := if ok then failed r else failed r + 1; skipped := skipped r;
            rep_duration_ms := rep_duration_ms r;
            results := results r ++ [{| t_name := nm; t_passed := ok; t_duration_ms := dur; t_output := out; t_error := err |}] |}
  | _ => Raise (OtherError "AttributeError" ("'" +:+ type_name t +:+ "' object has no attribute 'get'"))
  end.
Definition add_verification (r : TestReport) (e : AuditEvent) : res TestReport :=
  if negb (bool_decide (event_type e = VERIFICATION)) then Ok r
  else
    r <-! match get (payload e) "tests" (VList []) with
          | VList l => foldM add_result r l
          | _ => Ok r
          end ;;
    Ok {| total := total r; passed := passed r; failed := failed r; skipped := skipped r;
          rep_duration_ms := rep_duration_ms r + default 0 (duration_ms e); results := results r |}.
Definition extract_test_results (events : list AuditEvent) : res TestReport := foldM add_verification new_report events.

Definition generate_commit_message (title : string) (changes : list FileChangeSummary) : string :=
  let scope := join ", " (map path (take 3 changes)) in
  let scope :=
    if (3 <? length changes)%nat
    then scope +:+ " (+" +:+ str_of_Z (Z.of_nat (length changes) - 3) +:+ " more)" else scope in
  "forgepilot: " +:+ title +:+ newline +:+ newline +:+ "Affected: " +:+ scope.

Definition emoji (act : string) : string :=
  if String.eqb act "added" then "+" else if String.eqb act "modified" then "~"
  else if String.eqb act "deleted" then "-" else if String.eqb act "renamed" then "→" else "?".
Definition no_tests_line : string := "Verification commands ran successfully (see audit replay).".

Definition generate_pr_body (objective : string) (changes : list FileChangeSummary) (report : TestReport)
    (tl : AuditTimeline) : string :=
  join newline
    (["## Summary"; ""; objective; ""; "## Changes"; ""]
     ++ map (fun c => "- `" +:+ emoji (action c) +:+ "` `" +:+ path c +:+ "` - " +:+ description c) changes
     ++ [""; "## Verification"; ""]
     ++ (if 0 <? total report
         then ("**" +:+ str_of_Z (passed report) +:+ "/" +:+ str_of_Z (total report) +:+ " tests passed** (" +:+
               format_percent (pass_rate report) +:+ " pass rate)")
              :: map (fun r => "- FAIL: `" +:+ t_name r +:+ "` — " +:+ t_error r)
                   (List.filter (fun r => negb (t_passed r)) (results report))
         else [no_tests_line])
     ++ [""; "## Audit Replay"; ""; "Full execution trace: " +:+ a_summary tl;
         "Cost: $" +:+ format_fixed 4 (total_cost_usd tl) +:+ " | Duration: " +:+ str_of_Z (total_duration_ms tl) +:+ "ms";
         ""; "---"; "Generated by ForgePilot Studio"]).

(** [now] is the artifact's [generated_at]; the lists of labels and reviewers
    are empty when they are not given. *)
Definition generate_delivery_artifact (now : datetime) (task title objective : string) (events : list AuditEvent)
    (replay_base_url : string) (git_pr_labels git_reviewers : list string) : res DeliveryArtifact :=
  sorted_events <-! ordered_timeline events ;;
  tl <-! build_timeline sorted_events ;;
  changes <-! extract_file_changes sorted_events ;;
  report <-! extract_test_results sorted_events ;;
  Ok {| d_task_id := task; task_title := title; generated_at := now;
        pr_description := {| title := "forgepilot: " +:+ title; body := generate_pr_body objective changes report tl;
                             labels := git_pr_labels; reviewers := git_reviewers |};
        test_report := report;
        replay_link := {| url := replay_base_url +:+ "/" +:+ task; link_task_id := task; expires_at := None |};
        file_changes := changes;
        commit_message := generate_commit_message title changes;
        d_summary := a_summary tl |}.

(** ** Properties *)

Lemma foldM_invariant {S A} (P : S -> Prop) (f : S -> A -> res S) s l s' :
  P s -> (forall s x s', x ∈ l -> P s -> f s x = Ok s' -> P s') -> foldM f s l = Ok s' -> P s'.
Proof.
  revert s; induction l as [|x l IH]; intros s Hs Hf; cbn [foldM]; [by intros [= <-]|].
  destruct (f s x) as [s1|] eqn:E; [|done]. cbn [rbind]. apply IH.
  - eapply Hf; [by left|done|done].
  - intros s2 y s3 Hy. apply Hf. by right.
Qed.

(** A report counts its results. *)
Definition report_ok (r : TestReport) : Prop :=
  total r = passed r + failed r /\ total r = Z.of_nat (length (results r)) /\
  passed r = Z.of_nat (length (List.filter t_passed (results r))) /\ skipped r = 0.

Lemma add_result_ok r t r' : report_ok r -> add_result r t = Ok r' -> report_ok r'.
Proof.
  intros (H1 & H2 & H3 & H4). unfold add_result. destruct t; try done. unfold checked.
  repeat (case_match; [|done]; cbn [rbind]). cbn. intros [= <-]. unfold report_ok. cbn.
  rewrite List.filter_app, !length_app. cbn. case_match; cbn; lia.
Qed.

Lemma add_verification_ok r e r' : report_ok r -> add_verification r e = Ok r' -> report_ok r'.
Proof.
  intros Hr. unfold add_verification. destruct (negb _); [by intros [= <-]|].
  destruct (match get (payload e) "tests" (VList []) with VList l => foldM add_result r l | _ => Ok r end) as [r1|] eqn:E; [|done].
  cbn [rbind]. intros [= <-]. enough (report_ok r1) as H by exact H.
  destruct (get (payload e) "tests" (VList [])); try (by injection E as <-).
  eapply foldM_invariant; [exact Hr| |exact E]. intros s x s' _. apply add_result_ok.
Qed.

(** The changes are keyed by their path. *)
Definition changes_ok (changes : dict string FileChangeSummary) : Prop :=
  dwf changes /\ Forall (fun kc => path kc.2 = kc.1) changes.

Lemma update_change_ok changes key e changes' :
  changes_ok changes -> update_change changes key e = Ok changes' -> changes_ok changes'.
Proof.
  intros [Hw Hp]. unfold update_change. destruct (current_change changes key e) as [cur|] eqn:Ec; [|done]. cbn [rbind].
  assert (path cur = key) as Hk.
  { unfold current_change in Ec. destruct (dget changes key) as [c|] eqn:Ed.
    - injection Ec as <-. apply dget_elem in Ed. rewrite Forall_forall in Hp. by apply Hp in Ed.
    - destruct (checked _); [|done]. by injection Ec as <-. }
  destruct (py_iadd (lines_added cur) _) as [x|]; [|done]. cbn [rbind].
  destruct (py_iadd (lines_removed cur) _) as [y|]; [|done]. cbn [rbind]. intros [= <-].
  split; [by apply dwf_dset|by apply Forall_dset].
Qed.

Lemma add_change_ok changes e changes' : changes_ok changes -> add_change changes e = Ok changes' -> changes_ok changes'.
Proof.
  intros Hc. unfold add_change. destruct (negb _); [by intros [= <-]|]. destruct (negb (truth _)); [by intros [= <-]|].
  intros E. enough (exists key, update_change changes key e = Ok changes') as [key Hk] by by eapply update_change_ok.
  destruct (checked (as_str (get (payload e) "path" (VStr "")))) as [key|];
    (destruct (get (payload e) "path" (VStr "")); try done; by exists key).
Qed.

(** The delivery artifact is consistent: the report's totals are the counts
    of the results it lists, no path appears twice among the file changes, the
    commit message names the first three of them and how many more there are,
    and the body of the pull request reports failures exactly when there are
    any. *)
Lemma delivery_consistent (now : datetime) (task title objective : string) (events : list AuditEvent) (base : string)
    (git_pr_labels git_reviewers : list string) (a : DeliveryArtifact)
    (Ha : generate_delivery_artifact now task title objective events base git_pr_labels git_reviewers = Ok a) :
  report_ok (test_report a) /\ NoDup (map path (file_changes a)) /\
  commit_message a = generate_commit_message title (file_changes a) /\
  (failed (test_report a) = 0 <-> List.filter (fun r => negb (t_passed r)) (results (test_report a)) = []).
Proof.
  unfold generate_delivery_artifact in Ha. destruct (ordered_timeline events) as [sorted|]; [|done]. cbn [rbind] in Ha.
  destruct (build_timeline sorted) as [tl|]; [|done]. cbn [rbind] in Ha.
  unfold extract_file_changes in Ha. destruct (foldM add_change [] sorted) as [changes|] eqn:Ec; [|done]. cbn [rbind] in Ha.
  destruct (extract_test_results sorted) as [report|] eqn:Er; [|done]. cbn [rbind] in Ha. injection Ha as <-. cbn.
  assert (report_ok report) as Hr.
  { eapply foldM_invariant; [|intros s x s' _; apply add_verification_ok|exact Er]. done. }
  assert (changes_ok changes) as [Hw Hp].
  { eapply foldM_invariant; [|intros s x s' _; apply add_change_ok|exact Ec]. split; constructor. }
  split; [done|]. split; [|split; [done|]].
  - assert (map path (dvals changes) = dkeys changes) as ->; [|done]. clear Hw Ec. unfold dvals, dkeys.
    induction Hp as [|kc l Hk _ IH]; [done|]. cbn. f_equal; [done|exact IH].
  - destruct Hr as (H1 & H2 & H3 & _).
    assert (forall l, length l = (length (List.filter t_passed l) + length (List.filter (fun r => negb (t_passed r)) l))%nat) as Hl.
    { induction l as [|r l IH]; [done|]. cbn. destruct (t_passed r); cbn; lia. }
    specialize (Hl (results report)). split.
    + intros H0. apply length_zero_iff_nil. lia.
    + intros H0. rewrite H0 in Hl. cbn in Hl. lia.
Qed.
Lemma join_contains sep l x : x ∈ l -> exists u v, join sep l = u +:+ x +:+ v.
Proof.
  intros (l1 & l2 & ->)%list_elem_of_split.
  induction l1 as [|y l1 (u & v & IH)]; cbn [app].
  - destruct l2 as [|y l2]; [exists "", ""; by rewrite sapp_nil_r|]. rewrite join_cons by done. by exists "", (sep +:+ join sep (y :: l2)).
  - rewrite join_cons by (by destruct l1). rewrite IH. exists (y +:+ sep +:+ u), v. by rewrite !sapp_assoc.
Qed.

Lemma convert_no_verification tid seen e l :
  convert tid seen e = Ok l -> Forall (fun a => event_type a <> VERIFICATION) l.
Proof.
  unfold convert. destruct (event_timestamp _) as [ts|]; [|done]. cbn [rbind]. intros [= <-].
  destruct e; cbn -[truncate looks_like_test_command]; try by repeat constructor.
  - destruct (is_str _ "user"); [by destruct seen; repeat constructor|]. destruct (is_str _ "agent"); by repeat constructor.
  - constructor; [done|]. destruct (is_str _ _); by repeat constructor.
  - destruct (looks_like_test_command command); by repeat constructor.
Qed.

(** The delivery of a live session never mentions a failed test: test runs
    of the event stream become TEST_RESULT events, the report reads
    VERIFICATION events only, so the artifact of any events converted from a
    stream reports no test and its pull request says that verification
    succeeded, whatever the exit codes were. *)
Lemma live_tests_never_reported (now : datetime) (task title objective : string) (events : list stream_event)
    (tid : option string) (l : list AuditEvent) (base : string) (git_pr_labels git_reviewers : list string) (a : DeliveryArtifact)
    (Hl : audit_events_from_event_stream events tid = Ok l)
    (Ha : generate_delivery_artifact now task title objective l base git_pr_labels git_reviewers = Ok a) :
  total (test_report a) = 0 /\ failed (test_report a) = 0 /\ results (test_report a) = [] /\
  contains no_tests_line (body (pr_description a)) = true.
Proof.
  assert (Forall (fun a => event_type a <> VERIFICATION) l) as Hall.
  { apply convert_from_spec in Hl as (ls & -> & H2). clear Ha. apply Forall_concat.
    induction H2 as [|e x es ls [seen He] _ IH]; constructor; [by eapply convert_no_verification|done]. }
  unfold generate_delivery_artifact in Ha. destruct (ordered_timeline l) as [sorted|] eqn:Eo; [|done]. cbn [rbind] in Ha.
  destruct (ordered_timeline_spec _ _ Eo) as (Hp & _). rewrite <-Hp in Hall. rewrite Forall_forall in Hall.
  destruct (build_timeline sorted) as [tl|]; [|done]. cbn [rbind] in Ha.
  destruct (extract_file_changes sorted) as [changes|]; [|done]. cbn [rbind] in Ha.
  destruct (extract_test_results sorted) as [report|] eqn:Er; [|done]. cbn [rbind] in Ha. injection Ha as <-. cbn [test_report pr_description body].
  assert (report = new_report) as ->.
  { eapply (foldM_invariant (fun r => r = new_report)); [done| |exact Er]. intros s x s' Hx ->. unfold add_verification.
    rewrite bool_decide_eq_false_2 by by apply Hall. by intros [= <-]. }
  split_and!; [done..|]. apply contains_spec. unfold generate_pr_body. cbn [total new_report]. rewrite Z.ltb_irrefl.
  apply join_contains. rewrite !elem_of_app. right. right. right. left. by left.
Qed.
End delivery.

(** ** A delivery *)

(** The validators on the values that occur below. *)
Definition str_validator (v : pyval) : option string := match v with VStr s => Some s | _ => None end.
Definition bool_validator (v : pyval) : option bool := match v with VBool b => Some b | _ => None end.
Definition int_validator (v : pyval) : option Z := match v with VInt z => Some z | _ => None end.

Definition delivered : list AuditEvent :=
  let ev t ty s pl :=
    {| trace_id := t; AuditSchema.task_id := Some "task"; event_type := ty; phase := None; timestamp := utc s;
       summary := "changed"; payload := pl; duration_ms := Some 10; cost_usd := None |} in
  [ ev "v" VERIFICATION 5
      [("tests", VList [VDict [("name", VStr "a")]; VDict [("name", VStr "b"); ("passed", VBool false); ("error", VStr "boom")]])];
    ev "f" FILE_CHANGE 1 [("path", VStr "x.py"); ("lines_added", VInt 3)];
    ev "g" FILE_CHANGE 2 [("path", VStr "x.py"); ("lines_added", VInt 4); ("lines_removed", VInt 1)] ].

Lemma delivery_consistent_witness :
  exists a, generate_delivery_artifact str_validator bool_validator int_validator (utc 0) "task" "t" "o" delivered "u" [] [] = Ok a /\
    map path (file_changes a) = ["x.py"] /\ map lines_added (file_changes a) = [VInt 7] /\
    failed (test_report a) = 1 /\ report_ok (test_report a) /\ NoDup (map path (file_changes a)).
Proof.
  eexists. split; [vm_compute; reflexivity|]. split; [reflexivity|]. split; [reflexivity|]. split; [reflexivity|].
  pose proof (fun a H => delivery_consistent str_validator bool_validator int_validator (utc 0) "task" "t" "o" delivered "u" [] [] a H) as H.
  split; (eapply H; vm_compute; reflexivity).
Defined.

Definition failing_stream : list stream_event :=
  [CmdOutputObservation (at_time (Some "2026-01-01T00:00:00") "agent") "pytest -q" "1 failed" (Some (1, None))].
Lemma live_tests_never_reported_witness :
  exists l a, audit_events_from_event_stream failing_stream None = Ok l /\
    generate_delivery_artifact str_validator bool_validator int_validator (utc 0) "task" "t" "o" l "u" [] [] = Ok a /\
    map (fun e => dget (payload e) "exit_code") l = [Some (VInt 1)] /\
    contains no_tests_line (body (pr_description a)) = true.
Proof.
  assert (exists l a, audit_events_from_event_stream failing_stream None = Ok l /\
    generate_delivery_artifact str_validator bool_validator int_validator (utc 0) "task" "t" "o" l "u" [] [] = Ok a /\
    map (fun e => dget (payload e) "exit_code") l = [Some (VInt 1)]) as (l & a & Hl & Ha & He).
  { eexists _, _. split; [vm_compute; reflexivity|]. split; [vm_compute; reflexivity|]. reflexivity. }
  exists l, a. split; [exact Hl|]. split; [exact Ha|]. split; [exact He|].
  apply (live_tests_never_reported str_validator bool_validator int_validator (utc 0) "task" "t" "o" failing_stream None l
           "u" [] [] a Hl Ha).
Defined.
