(* ===== verification/Platform.v ===== *)
(** * Platform services

    Models [openhands/forgepilot/platform/__init__.py]: trace contexts and
    structured logging, the audit exporter, and tenants with their billing
    plans and quotas.

    Fresh identifiers and clock readings are inputs ([Fresh]).  A log handler is
    a function of the entry acting on a world [W] that may raise; the state of
    the tenant registry is the ordered dictionary of its tenants. *)

From S2P Require Import Prelude PyStr PyDict PyFloat PyVal PyTime Csv AuditSchema.
From Stdlib Require Import Ascii.

Record Fresh := { hex_a : string; hex_b : string; now : datetime }.

(** [x or y] on optional text *)
Definition text_or (o : option string) (dflt : string) : string :=
  match o with Some s => if String.eqb s "" then dflt else s | None => dflt end.
Definition nonempty_text (o : option string) : option string :=
  match o with Some s => if String.eqb s "" then None else Some s | None => None end.

(** ** Trace contexts and the logger *)

Record TraceContext := {
  c_trace_id : string;
  c_span_id : string;
  c_task_id : option string;
  c_space_id : option string;
}.
Definition new_trace_context (f : Fresh) (tr task space : option string) : TraceContext :=
  {| c_trace_id := text_or tr (hex_a f); c_span_id := stake 16 (hex_b f); c_task_id := task; c_space_id := space |}.

Definition augment (c : TraceContext) (extra : dict string pyval) : dict string pyval :=
  let base := [("trace_id", VStr (c_trace_id c)); ("span_id", VStr (c_span_id c))] in
  let base := match nonempty_text (c_task_id c) with Some t => dset base "task_id" (VStr t) | None => base end in
  let base := match nonempty_text (c_space_id c) with Some t => dset base "space_id" (VStr t) | None => base end in
  dupdate base extra.

Definition child_span (f : Fresh) : string := stake 16 (hex_a f).

Inductive LogLevel := DEBUG | INFO | WARN | ERROR.
Record StructuredLogEntry := {
  l_trace_id : string;
  span_id : string;
  l_timestamp : datetime;
  level : LogLevel;
  service : string;
  component : string;
  message : string;
  context : dict string pyval;
  l_task_id : option string;
  l_space_id : option string;
}.

Section logging.
Context {W : Type}.
Definition Handler : Type := StructuredLogEntry -> W -> res unit * W.

(** The logger: its service and handlers, with the failures the standard
    library's logger is told about. *)
Record StructuredLogger := { l_service : string; handlers : list Handler }.

(** Each handler runs; a failing one is reported and the next one runs. *)
Fixpoint run_handlers (hs : list Handler) (entry : StructuredLogEntry) (w : W) : list exn * W :=
  match hs with
  | [] => ([], w)
  | h :: hs =>
      let '(r, w) := h entry w in
      let '(fails, w) := run_handlers hs entry w in
      (match r with Raise e => e :: fails | Ok _ => fails end, w)
  end.

Definition log (lg : StructuredLogger) (f : Fresh) (lv : LogLevel) (msg : string) (tc : option TraceContext)
    (comp : string) (ctx : dict string pyval) (w : W) : StructuredLogEntry * list exn * W :=
  let c := match tc with Some c => c | None => new_trace_context f None None None end in
  let entry := {| l_trace_id := c_trace_id c; span_id := c_span_id c; l_timestamp := now f; level := lv;
                  service := l_service lg; component := comp; message := msg; context := ctx;
                  l_task_id := c_task_id c; l_space_id := c_space_id c |} in
  let '(fails, w) := run_handlers (handlers lg) entry w in
  (entry, fails, w).

Definition debug lg f msg := log lg f DEBUG msg.
Definition info lg f msg := log lg f INFO msg.
Definition warn lg f msg := log lg f WARN msg.
Definition log_error lg f msg := log lg f ERROR msg.

(** Handlers see the world in order, whatever the others do. *)
Lemma run_handlers_world hs entry w :
  (run_handlers hs entry w).2 = fold_left (fun w h => (h entry w).2) hs w.
Proof.
  revert w; induction hs as [|h hs IH]; intros w; [done|]. cbn. destruct (h entry w) as [r w'].
  specialize (IH w'). by destruct (run_handlers hs entry w').
Qed.
End logging.
Arguments StructuredLogger : clear implicits.

(** ** The audit exporter *)

Inductive ExportFormat := JSONL | CSV | PARQUET.

Record ObjectStorageConfig := {
  endpoint : string; bucket : string; region : string; access_key : string; secret_key : string; prefix : string;
}.
Record AuditExportJob := {
  job_id : string;
  j_space_id : string;
  j_started_at : datetime;
  j_completed_at : option datetime;
  format : ExportFormat;
  j_event_count : Z;
  object_key : string;
  j_status : string;
  j_error : option string;
}.
Record AuditArchivalPolicy := {
  a_space_id : string;
  retention_days : Z;
  export_format : ExportFormat;
  auto_archive : bool;
  archive_after_days : Z;
  destination : option ObjectStorageConfig;
}.

Definition count_newlines (s : string) : Z := Z.of_nat (scount (is_char lf) s).

(** [AuditExporter(config).export(...)]; the warning goes to the platform's
    logger. *)
Definition export {W} (platform_logger : StructuredLogger W) (f : Fresh) (events_jsonl space : string) (fmt : ExportFormat)
    (w : W) : AuditExportJob * W :=
  let job :=
    {| job_id := hex_a f; j_space_id := space; j_started_at := now f; j_completed_at := None; format := fmt;
       j_event_count := if String.eqb events_jsonl "" then 0 else count_newlines events_jsonl + 1;
       object_key := ""; j_status := "not_implemented";
       j_error := Some ("AuditExporter does not implement object-storage upload yet; " +:+
                        "events were NOT archived. Integrate a real S3 client before " +:+
                        "treating audit archives as durable.") |} in
  let '(_, _, w) := warn platform_logger f "audit_export_not_implemented" None "audit_exporter"
    [("job_id", VStr (job_id job)); ("space_id", VStr space); ("event_count", VInt (j_event_count job))] w in
  (job, w).

Definition archive_events {W} (platform_logger : StructuredLogger W) (f : Fresh) (events_jsonl : string)
    (p : AuditArchivalPolicy) (w : W) : option AuditExportJob * W :=
  match auto_archive p, destination p with
  | true, Some _ => let '(job, w) := export platform_logger f events_jsonl (a_space_id p) (export_format p) w in (Some job, w)
  | _, _ => (None, w)
  end.

(** ** Tenants *)

Inductive BillingTier := FREE | STARTER | TEAM | BUSINESS | ENTERPRISE.
Inductive TenantRole := TENANT_OWNER | TENANT_ADMIN | BILLING_ADMIN | SPACE_ADMIN | MEMBER | VIEWER.

Record BillingPlan := {
  tier : BillingTier;
  max_spaces : Z;
  max_members : Z;
  max_tasks_per_month : Z;
  max_cost_per_month_usd : float;
  model_access : list string;
  audit_retention_days : Z;
  mcp_enabled : bool;
  team_spaces_enabled : bool;
  delivery_reports_enabled : bool;
}.
Definition plan_of (t : BillingTier) (spaces members tasks : Z) (cost : float) (models : list string) (days : Z)
    (teams reports : bool) : BillingPlan :=
  {| tier := t; max_spaces := spaces; max_members := members; max_tasks_per_month := tasks; max_cost_per_month_usd := cost;
     model_access := models; audit_retention_days := days; mcp_enabled := true; team_spaces_enabled := teams;
     delivery_reports_enabled := reports |}.
Definition default_models : list string := ["openai/gpt-4.1"].

Definition PLANS (t : BillingTier) : BillingPlan :=
  match t with
  | FREE => plan_of FREE 1 5 100 (float_of_Z 50) default_models 30 false false
  | STARTER => plan_of STARTER 3 10 500 (float_of_Z 200) ["openai/gpt-4.1"; "anthropic/claude-sonnet-4-6"] 90 false false
  | TEAM => plan_of TEAM 10 50 2000 (float_of_Z 1000)
              ["openai/gpt-4.1"; "anthropic/claude-sonnet-4-6"; "anthropic/claude-opus-4-7"] 180 true true
  | BUSINESS => plan_of BUSINESS 50 200 10000 (float_of_Z 5000) default_models 365 true true
  | ENTERPRISE => plan_of ENTERPRISE (-1) (-1) (-1) (float_of_Z (-1)) default_models 2555 true true
  end.

Record Tenant := {
  tenant_id : string;
  t_name : string;
  billing_tier : BillingTier;
  created_at : datetime;
  members : dict string TenantRole;
  spaces : list string;
  cost_current_month_usd : float;
  tasks_this_month : Z;
}.
Definition plan (t : Tenant) : BillingPlan := PLANS (billing_tier t).

Definition can_create_space (t : Tenant) : bool :=
  if max_spaces (plan t) <? 0 then true else Z.of_nat (length (spaces t)) <? max_spaces (plan t).
Definition can_add_member (t : Tenant) : bool :=
  if max_members (plan t) <? 0 then true else Z.of_nat (length (members t)) <? max_members (plan t).
Definition is_over_budget (t : Tenant) : bool :=
  if flt (max_cost_per_month_usd (plan t)) f0 then false
  else fle (max_cost_per_month_usd (plan t)) (cost_current_month_usd t).
Definition is_over_task_limit (t : Tenant) : bool :=
  if max_tasks_per_month (plan t) <? 0 then false else max_tasks_per_month (plan t) <=? tasks_this_month t.
Definition record_task_cost (cost : float) (t : Tenant) : Tenant :=
  {| tenant_id := tenant_id t; t_name := t_name t; billing_tier := billing_tier t; created_at := created_at t;
     members := members t; spaces := spaces t; cost_current_month_usd := fadd (cost_current_month_usd t) cost;
     tasks_this_month := tasks_this_month t + 1 |}.

Definition TenantRegistry : Type := dict string Tenant.

Definition create_tenant (f : Fresh) (tid name : string) (bt : BillingTier) (owner : string) : M TenantRegistry Tenant :=
  fun reg =>
    let t := {| tenant_id := tid; t_name := name; billing_tier := bt; created_at := now f;
                members := if String.eqb owner "" then [] else [(owner, TENANT_OWNER)]; spaces := [];
                cost_current_month_usd := f0; tasks_this_month := 0 |} in
    (Ok t, dset reg tid t).
Definition get_tenant (reg : TenantRegistry) (tid : string) : option Tenant := dget reg tid.
Definition check_task_quota (reg : TenantRegistry) (tid : string) : bool :=
  match get_tenant reg tid with
  | None => false
  | Some t => if is_over_budget t then false else if is_over_task_limit t then false else true
  end.

(** ** Properties *)

Lemma scount_join (l : list string) :
  l <> [] -> Forall (fun t => sexists (is_char lf) t = false) l -> S (scount (is_char lf) (join newline l)) = length l.
Proof.
  intros Hne Hl. induction Hl as [|t l Ht Hl IH]; [done|]. destruct l as [|t' l].
  - change (join newline [t]) with t. by rewrite (proj2 (scount_0 _ _) Ht).
  - rewrite join_cons by done. rewrite !scount_app, (proj2 (scount_0 _ _) Ht). cbn [length] in *. by rewrite <-IH.
Qed.

(** The exporter counts events: given the JSON lines of any events, the job
    says how many events there were (whatever line breaks they contain) and
    that they were not archived; the only effect is the warning in the log. *)
Lemma export_counts_events {W} (lg : StructuredLogger W) (f : Fresh) (events : list AuditEvent) (text space : string)
    (fmt : ExportFormat) (w : W) (Ht : export_audit_events_jsonl events = Ok text) :
  j_event_count (export lg f text space fmt w).1 = Z.of_nat (length events) /\
  j_status (export lg f text space fmt w).1 = "not_implemented" /\
  j_completed_at (export lg f text space fmt w).1 = None /\
  exists entry, level entry = WARN /\ component entry = "audit_exporter" /\
    (export lg f text space fmt w).2 = fold_left (fun w h => (h entry w).2) (handlers lg) w.
Proof.
  unfold export, warn, log. cbn zeta.
  set (cnt := if String.eqb text "" then 0 else count_newlines text + 1). cbn [j_event_count job_id].
  match goal with |- context [run_handlers _ ?e _] => set (entry := e) end.
  pose proof (run_handlers_world (handlers lg) entry w) as Hw. destruct (run_handlers (handlers lg) entry w) as [fails w'].
  cbn in *. split; [|split; [done|split; [done|by exists entry]]].
  unfold export_audit_events_jsonl in Ht. destruct (ordered_timeline events) as [tl|] eqn:E; [|done]. cbn [rbind] in Ht.
  destruct (rmap json_line tl) as [lines|] eqn:El; [|done]. cbn [rbind] in Ht. injection Ht as <-.
  destruct (ordered_timeline_spec _ _ E) as (Hp & _). rewrite <-Hp.
  pose proof (json_lines_no_newline _ _ El) as Hn. pose proof (Forall2_length _ _ _ (rmap_Forall2 _ _ _ El)) as Hlen.
  subst cnt. rewrite Hlen. destruct lines as [|t lines]; [done|].
  destruct (String.eqb_spec (join newline (t :: lines)) "") as [E0|_].
  - exfalso. apply rmap_Forall2 in El. inversion El as [|e ? ? ? He]; subst.
    assert (t = "") as -> by (destruct lines; [done|]; rewrite join_cons in E0 by done; by destruct t).
    unfold json_line in He. cbn [json_dumps] in He. by destruct (rmap _ _) in He.
  - unfold count_newlines. rewrite <-(scount_join (t :: lines)) by done. lia.
Qed.

Definition quiet_logger : StructuredLogger (list string) :=
  {| l_service := "forgepilot"; handlers := [fun e w => (Raise (RuntimeError "down"), w); fun e w => (Ok tt, w ++ [message e])] |}.
Lemma export_counts_events_witness :
  exists text, export_audit_events_jsonl [example_event; example_event] = Ok text /\
    let r := export quiet_logger {| hex_a := "aa"; hex_b := "bb"; now := utc 0 |} text "space" JSONL [] in
    j_event_count r.1 = 2 /\ r.2 = ["audit_export_not_implemented"].
Proof.
  eexists. split; [vm_compute; reflexivity|]. split; [|vm_compute; reflexivity].
  apply (export_counts_events quiet_logger {| hex_a := "aa"; hex_b := "bb"; now := utc 0 |} [example_event; example_event]).
  vm_compute. reflexivity.
Defined.

(** *** Quotas *)

(** A task runs only if the quota allows it, and is then recorded. *)
Definition run_task (tid : string) (reg : TenantRegistry) (cost : float) : TenantRegistry :=
  if check_task_quota reg tid then dalter (record_task_cost cost) reg tid else reg.

Definition within_limit (t : Tenant) : Prop :=
  0 <= max_tasks_per_month (plan t) -> tasks_this_month t <= max_tasks_per_month (plan t).

Lemma run_task_spec tid reg cost t :
  get_tenant reg tid = Some t ->
  get_tenant (run_task tid reg cost) tid = Some (if check_task_quota reg tid then record_task_cost cost t else t).
Proof.
  unfold run_task, get_tenant. intros Ht. destruct (check_task_quota reg tid); [|done].
  by rewrite dget_dalter, decide_True, Ht.
Qed.

(** Quotas bound usage: when every task of a tenant is admitted by
    [check_task_quota] and then recorded, its task count never exceeds the limit
    of its plan, for any costs; the check admits a task exactly when the tenant
    exists, its tasks are below the limit (or unlimited) and its cost is below
    the plan's (or unlimited). *)
Lemma quota_bounds_tasks (tid : string) (reg : TenantRegistry) (t : Tenant) (costs : list float)
    (Ht : get_tenant reg tid = Some t) (Hstart : within_limit t) :
  (exists t', get_tenant (fold_left (run_task tid) costs reg) tid = Some t' /\ plan t' = plan t /\
     within_limit t' /\ tasks_this_month t <= tasks_this_month t' <= tasks_this_month t + Z.of_nat (length costs)) /\
  (check_task_quota reg tid = true <->
     (max_tasks_per_month (plan t) < 0 \/ tasks_this_month t < max_tasks_per_month (plan t)) /\
     (flt (max_cost_per_month_usd (plan t)) f0 = true \/ fle (max_cost_per_month_usd (plan t)) (cost_current_month_usd t) = false)).
Proof.
  assert (forall reg t, get_tenant reg tid = Some t -> check_task_quota reg tid = true <->
     (max_tasks_per_month (plan t) < 0 \/ tasks_this_month t < max_tasks_per_month (plan t)) /\
     (flt (max_cost_per_month_usd (plan t)) f0 = true \/ fle (max_cost_per_month_usd (plan t)) (cost_current_month_usd t) = false)) as Hq.
  { clear. intros reg t Ht. unfold check_task_quota, is_over_budget, is_over_task_limit. rewrite Ht.
    destruct (flt _ _), (fle _ _), (Z.ltb_spec (max_tasks_per_month (plan t)) 0),
      (Z.leb_spec (max_tasks_per_month (plan t)) (tasks_this_month t)); naive_solver lia. }
  split; [|by apply Hq]. revert reg t Ht Hstart. induction costs as [|c costs IH]; intros reg t Ht Hstart; cbn [fold_left length].
  - exists t. split_and!; [done|done|done|lia|lia].
  - pose proof (run_task_spec tid reg c t Ht) as Ht'. destruct (check_task_quota reg tid) eqn:Ec.
    + apply (Hq _ _ Ht) in Ec as [Hl _]. destruct (IH _ _ Ht') as (t' & H1 & H2 & H3 & H4 & H5).
      { unfold within_limit. change (plan (record_task_cost c t)) with (plan t). cbn. lia. }
      exists t'. cbn in H4, H5. split_and!; [done|done|done|lia|lia].
    + destruct (IH _ _ Ht' Hstart) as (t' & H1 & H2 & H3 & H4 & H5). exists t'. split_and!; [done..|lia].
Qed.

Definition one_free_tenant : TenantRegistry :=
  (create_tenant {| hex_a := ""; hex_b := ""; now := utc 0 |} "t" "T" FREE "owner" []).2.
Lemma quota_bounds_tasks_witness :
  exists t, get_tenant one_free_tenant "t" = Some t /\
    exists t', get_tenant (fold_left (run_task "t") (repeat f0 120) one_free_tenant) "t" = Some t' /\
      tasks_this_month t' = 100 /\ within_limit t'.
Proof.
  eexists. split; [reflexivity|].
  destruct (quota_bounds_tasks "t" one_free_tenant _ (repeat f0 120) eq_refl ltac:(unfold within_limit; cbn; lia)) as [(t' & H1 & _ & H3 & _) _].
  exists t'. split; [exact H1|]. split; [|exact H3]. vm_compute in H1. by injection H1 as <-.
Defined.

(** The two highest tiers do not name their models and get the free tier's. *)
Example paid_tiers_lose_models :
  model_access (PLANS BUSINESS) = model_access (PLANS FREE) /\ model_access (PLANS ENTERPRISE) = model_access (PLANS FREE) /\
  length (model_access (PLANS STARTER)) = 2%nat /\ length (model_access (PLANS TEAM)) = 3%nat.
Proof. done. Qed.

(** Creating a tenant under an existing id forgets its usage. *)
Example create_tenant_resets_usage :
  let f := {| hex_a := ""; hex_b := ""; now := utc 0 |} in
  let used := dalter (record_task_cost (float_of_Z 60)) one_free_tenant "t" in
  check_task_quota used "t" = false /\
  check_task_quota (create_tenant f "t" "again" FREE "" used).2 "t" = true.
Proof. by vm_compute. Qed.
