(* ===== verification/Providers.v ===== *)
(** * Runtime and model providers

    Models [openhands/forgepilot/runtime_providers/registry.py] and
    [openhands/forgepilot/llm_gateway/provider_registry.py]: the two fixed
    tables and the lookups in them. *)

From S2P Require Import Prelude PyStr.
From Stdlib Require Import Ascii.

(** ** Runtime providers *)

Record RuntimeProviderSpec := {
  name : string;
  runtime_class : string;
  supports_network_policy : bool;
  supports_resource_quota : bool;
}.
Definition RUNTIME_PROVIDERS : list RuntimeProviderSpec :=
  [ {| name := "local"; runtime_class := "CLIRuntime"; supports_network_policy := false; supports_resource_quota := false |};
    {| name := "docker"; runtime_class := "DockerRuntime"; supports_network_policy := true; supports_resource_quota := true |};
    {| name := "kubernetes"; runtime_class := "KubernetesRuntime"; supports_network_policy := true; supports_resource_quota := true |};
    {| name := "remote"; runtime_class := "RemoteRuntime"; supports_network_policy := true; supports_resource_quota := true |} ].
Definition list_runtime_providers : list RuntimeProviderSpec := RUNTIME_PROVIDERS.
Definition get_runtime_provider (nm : string) : option RuntimeProviderSpec :=
  List.find (fun p => String.eqb (name p) (lower (strip nm))) RUNTIME_PROVIDERS.

(** ** Model providers *)

Record LLMGatewayProvider := { provider_id : string; display_name : string; default_base_url : string }.
Definition PROVIDERS : list LLMGatewayProvider :=
  [ {| provider_id := "openai"; display_name := "OpenAI"; default_base_url := "https://api.openai.com/v1" |};
    {| provider_id := "anthropic"; display_name := "Anthropic"; default_base_url := "https://api.anthropic.com" |};
    {| provider_id := "ollama"; display_name := "Ollama"; default_base_url := "http://localhost:11434/v1" |};
    {| provider_id := "litellm"; display_name := "LiteLLM"; default_base_url := "http://localhost:4000/v1" |};
    {| provider_id := "forgepilot"; display_name := "ForgePilot Gateway"; default_base_url := "https://llm.forgepilot.local/v1" |} ].
Definition list_gateway_providers : list LLMGatewayProvider := PROVIDERS.
Definition detect_provider (model_identifier : string) : option LLMGatewayProvider :=
  match split_once "/" model_identifier with
  | None => None
  | Some (p, _) => List.find (fun q => String.eqb (provider_id q) (lower (strip p))) PROVIDERS
  end.
Definition normalize_model_identifier (model_identifier : string) : string :=
  match split_once "/" model_identifier with
  | None => strip model_identifier
  | Some (_, m) => strip m
  end.

(** ** Properties *)

Definition slash : ascii := "/"%char.

Lemma substring_all s : String.substring 0 (slen s) s = s.
Proof. induction s as [|c s IH]; [done|]. cbn. by rewrite IH. Qed.

Lemma split_once_slash p m : sexists (is_char slash) p = false -> split_once "/" (p +:+ "/" +:+ m) = Some (p, m).
Proof.
  induction p as [|c p IH]; intros Hp.
  - change (split_once "/" (String slash m) = Some ("", m)). cbn [split_once].
    change (startswith "/" (String slash m)) with (startswith "" m). replace (startswith "" m) with true by by destruct m.
    change (String.substring (slen "/") (slen (String slash m) - slen "/") (String slash m))
      with (String.substring 0 (slen m - 0) m). by rewrite Nat.sub_0_r, substring_all.
  - cbn [sexists] in Hp. apply orb_false_iff in Hp as [Hc Hp]. rewrite sapp_cons. cbn [split_once].
    assert (startswith "/" (String c (p +:+ "/" +:+ m)) = false) as ->.
    { cbn. unfold is_char, slash in Hc. destruct (Ascii.eqb_spec "/" c) as [<-|]; [by vm_compute in Hc|].
      by case_match. }
    rewrite IH by done. done.
Qed.

(** A prefixed model is routed to the provider of its prefix, under the rest of
    its name, which may contain slashes. *)
Lemma prefixed_model p m :
  p ∈ map provider_id PROVIDERS ->
  provider_id <$> detect_provider (p +:+ "/" +:+ m) = Some p /\ normalize_model_identifier (p +:+ "/" +:+ m) = strip m.
Proof.
  intros Hp. unfold detect_provider, normalize_model_identifier. rewrite split_once_slash.
  - split; [|done]. cbn in Hp. rewrite !elem_of_cons, elem_of_nil in Hp.
    by destruct Hp as [->|[->|[->|[->|[->|[]]]]]].
  - cbn in Hp. rewrite !elem_of_cons, elem_of_nil in Hp. by destruct Hp as [->|[->|[->|[->|[->|[]]]]]].
Qed.

Example lookups :
  runtime_class <$> get_runtime_provider " Docker " = Some "DockerRuntime" /\
  get_runtime_provider "podman" = None /\
  detect_provider "gpt-4" = None /\
  normalize_model_identifier "openai/org/gpt-4 " = "org/gpt-4".
Proof. by vm_compute. Qed.
