(* ===== verification/Stuck.v ===== *)
(** * The stuck detector

    Models [openhands/controller/stuck.py].  [is_stuck] is the method, over the
    history of the state, with [stuck_analysis] as its own state.

    The events picked from the end of the history keep their positions, since
    [list.index] finds the object itself before it compares: [py_index] stops
    at the position of the event it is asked for, or earlier at an equal one.

    [is_stuck_iff] is the specification of the verdict, [loops_detected] says
    that an agent that goes on repeating itself is caught, and
    [analysis_points_to_loop] where the reported index points. *)

From S2P Require Import Prelude PyStr PyList PyDict PyVal Events.
From Stdlib Require Import Ascii.

Definition SYNTAX_ERROR_MESSAGES : list string :=
  [ "SyntaxError: unterminated string literal (detected at line";
    "SyntaxError: invalid syntax. Perhaps you forgot a comma?";
    "SyntaxError: incomplete input" ].

Record StuckAnalysis := { loop_type : string; loop_repeat_times : Z; loop_start_idx : Z }.

(** ** Comparing and picking events *)

Definition lines_of (s : string) : list string := split_char (chr 10) s.

Definition eq_no_pid (obj1 obj2 : event) : bool :=
  match data obj1, data obj2 with
  | IPythonRunCellAction code1 _ _ _ _ _, IPythonRunCellAction code2 _ _ _ _ _ =>
      if contains "edit_file_by_replace(" code1 && contains "edit_file_by_replace(" code2
      then (2 <? length (lines_of code1))%nat && bool_decide (take 3 (lines_of code1) = take 3 (lines_of code2))
      else event_eq obj1 obj2
  | CmdOutputObservation _ command1 metadata1 _, CmdOutputObservation _ command2 metadata2 _ =>
      String.eqb command1 command2 && (exit_code metadata1 =? exit_code metadata2)
  | _, _ => event_eq obj1 obj2
  end.

Definition is_null (e : event) : bool :=
  match data e with NullAction | NullObservation _ => true | _ => false end.
Definition is_condensation (e : event) : bool :=
  match data e with AgentCondensationObservation _ => true | _ => false end.
Definition is_error (e : event) : bool := match data e with ErrorObservation _ _ => true | _ => false end.
Definition ipython_content (e : event) : option string :=
  match data e with IPythonRunCellObservation content _ _ => Some content | _ => None end.
Definition ev_is_action (e : event) : bool := is_action (data e).
Definition ev_is_observation (e : event) : bool := is_observation (data e).

Definition relevant (e : event) : bool := negb (is_user_message e || is_null e).

Notation positioned := (nat * event)%type.
Definition enumerate (l : list event) : list positioned := imap pair l.

(** [l.index(x)], [x] being the object at position [pos]. *)
Fixpoint py_index (pos : nat) (x : event) (l : list event) : option nat :=
  match l, pos with
  | [], _ => None
  | _ :: _, O => Some O
  | e :: l', S p => if event_eq e x then Some O else S <$> py_index p x l'
  end.

(** The loops that pick the last [k] actions and [k] observations. *)
Fixpoint collect (k : nat) (l : list positioned) (acts obs : list positioned) : list positioned * list positioned :=
  match l with
  | [] => (acts, obs)
  | e :: l' =>
      let '(acts, obs) :=
        if ev_is_action e.2 && (length acts <? k)%nat then (acts ++ [e], obs)
        else if ev_is_observation e.2 && (length obs <? k)%nat then (acts, obs ++ [e])
        else (acts, obs) in
      if (length acts =? k)%nat && (length obs =? k)%nat then (acts, obs) else collect k l' acts obs
  end.

(** [StuckAnalysis(ty, n, filtered_history.index(acts[-1]) + offset)] *)
Definition analysis_at (ty : string) (n : Z) (acts : list positioned) (filtered : list event) (offset : Z) :
    res (option StuckAnalysis) :=
  match last acts with
  | Some (p, x) =>
      match py_index p x filtered with
      | Some i => Ok (Some {| loop_type := ty; loop_repeat_times := n; loop_start_idx := Z.of_nat i + offset |})
      | None => Raise (ValueError "x not in list")
      end
  | None => Raise (OtherError "IndexError" "list index out of range")
  end.

(** [all(self._eq_no_pid(l[0], x) for x in l)] *)
Definition alike (l : list event) : bool := match l with [] => true | x :: _ => forallb (eq_no_pid x) l end.

(** ** The five scenarios *)

Definition repeating_action_observation (acts obs : list positioned) (filtered : list event) (offset : Z) :
    res (option StuckAnalysis) :=
  if (length acts =? 4)%nat && (length obs =? 4)%nat && alike (map snd acts) && alike (map snd obs)
  then analysis_at "repeating_action_observation" 4 acts filtered offset else Ok None.

(** [lines[-k]] of a list that is long enough. *)
Definition from_end (k : nat) (lines : list string) : string := default "" (lines !! (length lines - k)%nat).
Definition one_value (l : list string) : bool := (length (dedup l) =? 1)%nat.

Definition check_for_consistent_invalid_syntax (contents : list string) (error_message : string) : bool :=
  let check content :=
    let lines := lines_of (strip content) in
    if (length lines <? 6)%nat then None
    else
      let line1 := strip (default "" (head lines)) in
      if negb (startswith "Cell In[1], line" line1) then None
      else Some (line1,
        if startswith "[Jupyter Python interpreter:" (from_end 1 lines)
           && startswith "[Jupyter current working directory:" (from_end 2 lines)
           && contains error_message (from_end 3 lines)
        then Some (from_end 1 (take (length lines - 2) lines)) else None) in
  match mapM check contents with
  | None => false
  | Some results =>
      let valid := omap snd results in
      one_value (map fst results) && (length valid =? 3)%nat && one_value valid
  end.

Definition check_for_consistent_line_error (contents : list string) (error_message : string) : bool :=
  let check content :=
    let lines := lines_of (strip content) in
    if (length lines <? 3)%nat then None
    else if negb (startswith "[Jupyter current working directory:" (from_end 2 lines)
                  && startswith "[Jupyter Python interpreter:" (from_end 1 lines)) then None
    else Some (if contains error_message (from_end 3 lines) then Some (from_end 3 lines) else None) in
  match mapM check contents with
  | None => false
  | Some results => let error_lines := omap (fun x => x) results in (length error_lines =? 3)%nat && one_value error_lines
  end.

Definition consistent_syntax_error (contents : list string) (error_message : string) : bool :=
  if startswith "SyntaxError: unterminated string literal (detected at line" error_message
  then check_for_consistent_line_error contents error_message
  else bool_decide (error_message ∈ ["SyntaxError: invalid syntax. Perhaps you forgot a comma?"; "SyntaxError: incomplete input"])
       && check_for_consistent_invalid_syntax contents error_message.

Definition all_fail (last3 : list event) : bool :=
  forallb is_error last3
  || match mapM ipython_content last3 with
     | Some contents => existsb (consistent_syntax_error contents) SYNTAX_ERROR_MESSAGES
     | None => false
     end.

Definition repeating_action_error (acts obs : list positioned) (filtered : list event) (offset : Z) :
    res (option StuckAnalysis) :=
  if (length acts <? 3)%nat || (length obs <? 3)%nat then Ok None
  else if alike (take 3 (map snd acts)) && all_fail (take 3 (map snd obs))
  then analysis_at "repeating_action_error" 3 acts filtered offset else Ok None.

(** [filtered[i + 1 : j]] *)
Definition between (i j : nat) (filtered : list event) : list event := drop (S i) (take j filtered).

Definition lastn {A} (k : nat) (l : list A) : list A := drop (length l - k) l.

Definition monologue (filtered : list event) (offset : Z) : option StuckAnalysis :=
  let messages := List.filter (fun e => is_agent_message e.2) (enumerate filtered) in
  if (3 <=? length messages)%nat then
    match lastn 3 messages with
    | [a; b; c] =>
        if forallb (fun x => event_eq a.2 x.2) [a; b; c] && negb (existsb ev_is_observation (between a.1 c.1 filtered))
        then Some {| loop_type := "monologue"; loop_repeat_times := 3; loop_start_idx := Z.of_nat a.1 + offset |} else None
    | _ => None
    end
  else None.

Definition alternate (l : list event) : bool :=
  match l with
  | [e0; e1; e2; e3; e4; e5] => eq_no_pid e0 e2 && eq_no_pid e0 e4 && eq_no_pid e1 e3 && eq_no_pid e1 e5
  | _ => false
  end.

Definition action_observation_pattern (filtered : list event) (offset : Z) : res (option StuckAnalysis) :=
  let '(acts, obs) := collect 6 (rev (enumerate filtered)) [] [] in
  if (length acts =? 6)%nat && (length obs =? 6)%nat && alternate (map snd acts) && alternate (map snd obs)
  then analysis_at "repeating_action_observation_pattern" 3 acts filtered offset else Ok None.

(** The first pair of consecutive condensation events with nothing between. *)
Fixpoint adjacent_condensations (filtered : list event) (l : list positioned) : option nat :=
  match l with
  | a :: ((b :: _) as rest) =>
      if existsb (fun e => negb (is_condensation e)) (between a.1 b.1 filtered)
      then adjacent_condensations filtered rest else Some a.1
  | _ => None
  end.

Definition context_window_error (filtered : list event) (offset : Z) : option StuckAnalysis :=
  let condensations := List.filter (fun e => is_condensation e.2) (enumerate filtered) in
  if (length condensations <? 10)%nat then None
  else
    i ← adjacent_condensations filtered (lastn 10 condensations);
    Some {| loop_type := "context_window_error"; loop_repeat_times := 2; loop_start_idx := Z.of_nat i + offset |}.

(** ** [is_stuck] *)

(** The offset and the history to check: in interactive mode what follows the
    last user message. *)
Fixpoint last_user_msg_from (reversed : list event) (n : nat) (i : nat) : Z :=
  match reversed with
  | [] => -1
  | e :: l => if is_user_message e then Z.of_nat (n - i - 1) else last_user_msg_from l n (S i)
  end.
Definition last_user_msg_idx (history : list event) : Z := last_user_msg_from (rev history) (length history) 0.

Definition filtered_history_offset (headless_mode : bool) (history : list event) : Z :=
  if headless_mode then 0 else last_user_msg_idx history + 1.
Definition filtered_history (headless_mode : bool) (history : list event) : list event :=
  List.filter relevant (drop (Z.to_nat (filtered_history_offset headless_mode history)) history).

(** A scenario that applies sets the analysis and ends the method. *)
Definition try_scenario (r : res (option StuckAnalysis)) (k : M (option StuckAnalysis) bool) : M (option StuckAnalysis) bool :=
  fun st => match r with
            | Ok (Some a) => (Ok true, Some a)
            | Ok None => k st
            | Raise e => (Raise e, st)
            end.

Definition is_stuck (headless_mode : bool) (history : list event) : M (option StuckAnalysis) bool :=
  let offset := filtered_history_offset headless_mode history in
  let filtered := filtered_history headless_mode history in
  if (length filtered <? 3)%nat then retM false
  else
    let '(last_actions, last_observations) := collect 4 (rev (enumerate filtered)) [] [] in
    try_scenario (repeating_action_observation last_actions last_observations filtered offset)
    (try_scenario (repeating_action_error last_actions last_observations filtered offset)
    (try_scenario (Ok (monologue filtered offset))
    (try_scenario (if (6 <=? length filtered)%nat then action_observation_pattern filtered offset else Ok None)
    (try_scenario (Ok (if (10 <=? length filtered)%nat then context_window_error filtered offset else None))
    (putM None ;;; retM false))))).

(** ** Picking events *)

Lemma collect_full k l acts obs : length acts = k -> length obs = k -> collect k l acts obs = (acts, obs).
Proof.
  intros <- Ho. destruct l as [|e l]; [done|]. cbn [collect]. rewrite Ho, Nat.ltb_irrefl, !andb_false_r.
  by rewrite Ho, Nat.eqb_refl.
Qed.
(** Stopping early changes nothing. *)
Lemma collect_step k l acts obs :
  (if (length acts =? k)%nat && (length obs =? k)%nat then (acts, obs) else collect k l acts obs) = collect k l acts obs.
Proof.
  destruct (Nat.eqb_spec (length acts) k), (Nat.eqb_spec (length obs) k); try done. cbn. by rewrite collect_full.
Qed.

Lemma collect_spec k l acts obs :
  (length acts <= k)%nat -> (length obs <= k)%nat ->
  collect k l acts obs =
    (acts ++ take (k - length acts) (List.filter (fun e => ev_is_action e.2) l),
     obs ++ take (k - length obs) (List.filter (fun e => ev_is_observation e.2) l)).
Proof.
  assert (forall (xs : list positioned) e m, (length xs < k)%nat ->
    xs ++ take (k - length xs) (e :: m) = (xs ++ [e]) ++ take (k - length (xs ++ [e])) m) as Hpush.
  { intros xs e m H. rewrite length_app. cbn [length]. replace (k - length xs)%nat with (S (k - (length xs + 1)))%nat by lia.
    by rewrite <-app_assoc. }
  assert (forall (xs m m' : list positioned), (k <= length xs)%nat -> xs ++ take (k - length xs) m = xs ++ take (k - length xs) m') as Hfull.
  { intros xs m m' H. by replace (k - length xs)%nat with 0%nat by lia. }
  revert acts obs. induction l as [|e l IH]; intros acts obs Ha Ho.
  - cbn. by rewrite !take_nil, !app_nil_r.
  - cbn [collect List.filter]. assert (ev_is_observation e.2 = negb (ev_is_action e.2)) as -> by done.
    destruct (ev_is_action e.2); cbn [negb andb].
    + destruct (Nat.ltb_spec (length acts) k); rewrite collect_step, IH; try rewrite Hpush by done;
        rewrite ?length_app; cbn [length]; try done; try lia. f_equal. by apply Hfull.
    + destruct (Nat.ltb_spec (length obs) k); rewrite collect_step, IH; try rewrite Hpush by done;
        rewrite ?length_app; cbn [length]; try done; try lia. f_equal. by apply Hfull.
Qed.

(** The last [k] events of a kind, the latest first. *)
Definition recent (p : event -> bool) (k : nat) (filtered : list event) : list event := take k (List.filter p (rev filtered)).
Definition picked (k : nat) (filtered : list event) : list positioned * list positioned :=
  collect k (rev (enumerate filtered)) [] [].

Lemma snd_enumerate l : map snd (enumerate l) = l.
Proof.
  unfold enumerate. apply list_eq. intros i. change (map snd (imap pair l)) with (snd <$> imap pair l).
  rewrite list_lookup_fmap, list_lookup_imap. by destruct (l !! i).
Qed.
Lemma elem_of_enumerate l p x : (p, x) ∈ enumerate l <-> l !! p = Some x.
Proof.
  unfold enumerate. rewrite elem_of_lookup_imap. split.
  - intros (i & y & [= -> ->] & H). done.
  - intros H. by exists p, x.
Qed.
Lemma map_snd_filter (p : event -> bool) (l : list positioned) :
  map snd (List.filter (fun e => p e.2) l) = List.filter p (map snd l).
Proof. induction l as [|e l IH]; [done|]. cbn. destruct (p e.2); cbn; by rewrite IH. Qed.
Lemma map_snd_take k (l : list positioned) : map snd (take k l) = take k (map snd l).
Proof. revert k. induction l as [|e l IH]; intros [|k]; cbn; [done..|by rewrite IH]. Qed.

Lemma picked_eq k filtered :
  picked k filtered = (take k (List.filter (fun e => ev_is_action e.2) (rev (enumerate filtered))),
                       take k (List.filter (fun e => ev_is_observation e.2) (rev (enumerate filtered)))).
Proof. unfold picked. rewrite collect_spec by (cbn; lia). cbn. by rewrite !Nat.sub_0_r. Qed.
Lemma picked_recent k filtered :
  map snd (picked k filtered).1 = recent ev_is_action k filtered /\
  map snd (picked k filtered).2 = recent ev_is_observation k filtered.
Proof. rewrite picked_eq. cbn. unfold recent. by rewrite !map_snd_take, !map_snd_filter, !map_rev, !snd_enumerate. Qed.
Lemma picked_lookup k filtered p x : (p, x) ∈ (picked k filtered).1 -> filtered !! p = Some x.
Proof.
  rewrite picked_eq. cbn. intros H. apply elem_of_take in H as (i & H & _). apply list_elem_of_lookup_2 in H.
  apply list_elem_of_In, filter_In in H as [H _]. apply in_rev, list_elem_of_In in H. by apply elem_of_enumerate.
Qed.

(** The index that is found: the first equal event, or the event itself. *)
Lemma py_index_spec pos x l :
  l !! pos = Some x -> exists i, py_index pos x l = Some i /\ (i <= pos)%nat.
Proof.
  revert pos. induction l as [|e l IH]; intros [|pos] H; simplify_eq/=; [by exists 0%nat|].
  destruct (event_eq e x); [exists 0%nat; split; [done|lia]|].
  destruct (IH pos H) as (i & -> & Hi). exists (S i). split; [done|lia].
Qed.

Lemma analysis_at_ok ty n k filtered offset :
  (picked k filtered).1 <> [] ->
  exists i, (i < length filtered)%nat /\ analysis_at ty n (picked k filtered).1 filtered offset =
    Ok (Some {| loop_type := ty; loop_repeat_times := n; loop_start_idx := Z.of_nat i + offset |}).
Proof.
  intros Hne. unfold analysis_at. destruct (last (picked k filtered).1) as [[p x]|] eqn:E.
  - apply last_Some in E as [l E]. assert (filtered !! p = Some x) as Hx.
    { apply (picked_lookup k). rewrite E. set_solver. }
    destruct (py_index_spec _ _ _ Hx) as (i & -> & Hi). apply lookup_lt_Some in Hx. exists i. split; [lia|done].
  - by apply last_None in E.
Qed.

(** ** What each scenario decides *)

Definition repeats_steps (l : list event) : Prop :=
  length (recent ev_is_action 4 l) = 4%nat /\ length (recent ev_is_observation 4 l) = 4%nat /\
  alike (recent ev_is_action 4 l) = true /\ alike (recent ev_is_observation 4 l) = true.
Definition repeats_errors (l : list event) : Prop :=
  length (recent ev_is_action 3 l) = 3%nat /\ length (recent ev_is_observation 3 l) = 3%nat /\
  alike (recent ev_is_action 3 l) = true /\ all_fail (recent ev_is_observation 3 l) = true.
Definition alternates (l : list event) : Prop :=
  alternate (recent ev_is_action 6 l) = true /\ alternate (recent ev_is_observation 6 l) = true.
(** The last three agent messages are equal, with no observation between. *)
Definition talks_to_itself (l : list event) : Prop :=
  exists pre m1 gap1 m2 gap2 m3 post, l = pre ++ m1 :: gap1 ++ m2 :: gap2 ++ m3 :: post /\
    is_agent_message m1 = true /\ is_agent_message m2 = true /\ is_agent_message m3 = true /\
    Forall (fun e => is_agent_message e = false) (gap1 ++ gap2 ++ post) /\
    Forall (fun e => ev_is_observation e = false) (gap1 ++ gap2) /\
    event_eq m1 m1 = true /\ event_eq m1 m2 = true /\ event_eq m1 m3 = true.
(** At least ten condensations, and two neighbours among the last ten. *)
Definition condenses_in_vain (l : list event) : Prop :=
  (10 <= length (List.filter is_condensation l))%nat /\
  exists pre c1 c2 post, l = pre ++ c1 :: c2 :: post /\ is_condensation c1 = true /\ is_condensation c2 = true /\
    (length (List.filter is_condensation post) <= 8)%nat.

(** ** The scenarios decide what they stand for *)

(** A scenario as a decision, with an analysis that points into the history. *)
Definition decides (P : Prop) (filtered : list event) (offset : Z) (r : res (option StuckAnalysis)) : Prop :=
  match r with
  | Ok (Some a) => P /\ offset <= loop_start_idx a < offset + Z.of_nat (length filtered)
  | Ok None => ~ P
  | Raise _ => False
  end.

Lemma analysis_decides (P : Prop) ty n k filtered offset :
  P -> (0 < length (picked k filtered).1)%nat -> decides P filtered offset (analysis_at ty n (picked k filtered).1 filtered offset).
Proof.
  intros HP Hl. destruct (analysis_at_ok ty n k filtered offset) as (i & Hi & ->); [intros E; by rewrite E in Hl; inversion Hl|].
  split; [done|]. cbn. lia.
Qed.

Lemma picked_length k filtered :
  length (picked k filtered).1 = length (recent ev_is_action k filtered) /\
  length (picked k filtered).2 = length (recent ev_is_observation k filtered).
Proof. destruct (picked_recent k filtered) as [<- <-]. by rewrite !length_map. Qed.

Lemma recent_take p i k l : (i <= k)%nat -> take i (recent p k l) = recent p i l.
Proof. intros H. unfold recent. rewrite take_take. by rewrite Nat.min_l. Qed.

Lemma recent_shorter p i k l : (i <= k)%nat -> length (recent p i l) = Nat.min i (length (recent p k l)).
Proof. intros H. rewrite <-(recent_take p i k) by done. apply length_take. Qed.

Lemma steps_decides filtered offset :
  decides (repeats_steps filtered) filtered offset
    (repeating_action_observation (picked 4 filtered).1 (picked 4 filtered).2 filtered offset).
Proof.
  unfold repeating_action_observation, repeats_steps. destruct (picked_length 4 filtered) as [<- <-].
  destruct (picked_recent 4 filtered) as [<- <-].
  destruct (Nat.eqb_spec (length (picked 4 filtered).1) 4); [|cbn; tauto].
  destruct (Nat.eqb_spec (length (picked 4 filtered).2) 4); [|cbn; tauto].
  destruct (alike (map snd (picked 4 filtered).1)) eqn:E1; [|cbn; naive_solver].
  destruct (alike (map snd (picked 4 filtered).2)) eqn:E2; [|cbn; naive_solver].
  cbn [andb]. apply analysis_decides; [done|lia].
Qed.

Lemma errors_decides filtered offset :
  decides (repeats_errors filtered) filtered offset
    (repeating_action_error (picked 4 filtered).1 (picked 4 filtered).2 filtered offset).
Proof.
  unfold repeating_action_error, repeats_errors. destruct (picked_length 4 filtered) as [L1 L2].
  destruct (picked_recent 4 filtered) as [-> ->]. rewrite !recent_take by lia.
  rewrite !(recent_shorter _ 3 4) by lia. rewrite <-L1, <-L2.
  destruct (Nat.ltb_spec (length (picked 4 filtered).1) 3); [cbn [orb decides]; lia|].
  destruct (Nat.ltb_spec (length (picked 4 filtered).2) 3); [cbn [orb decides]; lia|]. cbn [orb].
  destruct (alike (recent ev_is_action 3 filtered)) eqn:E1; [|cbn; naive_solver].
  destruct (all_fail (recent ev_is_observation 3 filtered)) eqn:E2; [|cbn; naive_solver].
  cbn [andb]. apply analysis_decides; [split_and!; done || lia|lia].
Qed.

Lemma alternate_length l : alternate l = true -> length l = 6%nat.
Proof. by destruct l as [|? [|? [|? [|? [|? [|? [|? ?]]]]]]]. Qed.

Lemma pattern_decides filtered offset :
  decides (alternates filtered) filtered offset (action_observation_pattern filtered offset).
Proof.
  unfold action_observation_pattern, alternates. fold (picked 6 filtered).
  pose proof (picked_length 6 filtered) as [L1 L2]. destruct (picked_recent 6 filtered) as [E1 E2].
  pose proof (fun P ty n => analysis_decides P ty n 6 filtered offset) as Ha.
  destruct (picked 6 filtered) as [acts obs]. cbn [fst snd] in *. rewrite L1, L2, E1, E2.
  destruct (alternate (recent ev_is_action 6 filtered)) eqn:A1; [|rewrite andb_false_r; cbn; naive_solver].
  destruct (alternate (recent ev_is_observation 6 filtered)) eqn:A2; [|rewrite andb_false_r; cbn; naive_solver].
  rewrite !alternate_length by done. cbn [andb Nat.eqb]. apply Ha; [done|]. rewrite L1, alternate_length by done. lia.
Qed.

(** Splitting a list at an element of a filtered list. *)
Lemma filter_split {A} (q : A -> bool) L l1 x l2 :
  List.filter q L = l1 ++ x :: l2 ->
  exists L1 L2, L = L1 ++ x :: L2 /\ List.filter q L1 = l1 /\ List.filter q L2 = l2 /\ q x = true.
Proof.
  revert l1. induction L as [|y L IH]; intros l1 H; cbn in H; [by destruct l1|].
  destruct (q y) eqn:E.
  - destruct l1 as [|z l1]; simplify_eq/=.
    + exists [], L. by split_and!.
    + destruct (IH l1) as (L1 & L2 & -> & <- & <- & Hx); [done|]. exists (z :: L1), L2. split_and!; [done| |done..]. cbn. by rewrite E.
  - destruct (IH l1 H) as (L1 & L2 & -> & <- & <- & Hx). exists (y :: L1), L2. split_and!; [done| |done..]. cbn. by rewrite E.
Qed.
Lemma filter_lastn {A} (l : list A) k : (k <= length l)%nat -> exists l1, l = l1 ++ lastn k l /\ length (lastn k l) = k.
Proof.
  intros H. exists (take (length l - k) l). unfold lastn. rewrite take_drop. split; [done|]. rewrite length_drop. lia.
Qed.
Lemma lastn_app {A} (l1 l2 : list A) k : length l2 = k -> lastn k (l1 ++ l2) = l2.
Proof. intros <-. unfold lastn. rewrite length_app. replace (length l1 + length l2 - length l2)%nat with (length l1) by lia. apply drop_app_length. Qed.

(** Positions count the events before. *)
Definition enumerate_at (n : nat) (l : list event) : list positioned := imap (fun i x => ((n + i)%nat, x)) l.
Lemma enumerate_at_cons n x l : enumerate_at n (x :: l) = (n, x) :: enumerate_at (S n) l.
Proof.
  unfold enumerate_at. rewrite imap_cons. f_equal; [f_equal; lia|]. apply imap_ext. intros. cbn. f_equal. lia.
Qed.
Lemma enumerate_at_app n l1 l2 : enumerate_at n (l1 ++ l2) = enumerate_at n l1 ++ enumerate_at (n + length l1) l2.
Proof.
  unfold enumerate_at. rewrite imap_app. f_equal. apply imap_ext. intros. cbn. f_equal. lia.
Qed.
Lemma enumerate_eq l : enumerate l = enumerate_at 0 l.
Proof. done. Qed.
Lemma filter_enumerate_none (q : event -> bool) n l :
  Forall (fun e => q e = false) l -> List.filter (fun e : positioned => q e.2) (enumerate_at n l) = [].
Proof.
  intros H. revert n. induction H as [|x l Hx _ IH]; intros n; [done|]. rewrite enumerate_at_cons. cbn. rewrite Hx. apply IH.
Qed.
Lemma enumerate_at_split n l E1 a E2 :
  enumerate_at n l = E1 ++ a :: E2 ->
  exists l1 l2, l = l1 ++ a.2 :: l2 /\ E1 = enumerate_at n l1 /\ E2 = enumerate_at (S a.1) l2 /\ a.1 = (n + length l1)%nat.
Proof.
  revert n E1. induction l as [|x l IH]; intros n E1 H; [by destruct E1|]. rewrite enumerate_at_cons in H.
  destruct E1 as [|e E1]; simplify_eq/=.
  - exists [], l. split_and!; [done..|cbn; lia].
  - destruct (IH (S n) E1) as (l1 & l2 & -> & -> & -> & Ha); [done|]. exists (x :: l1), l2. split_and!; [done| |done|cbn; lia].
    by rewrite enumerate_at_cons.
Qed.
Lemma length_filter_enumerate (q : event -> bool) n l :
  length (List.filter (fun e : positioned => q e.2) (enumerate_at n l)) = length (List.filter q l).
Proof.
  revert n. induction l as [|x l IH]; intros n; [done|]. rewrite enumerate_at_cons. cbn. destruct (q x); cbn; by rewrite IH.
Qed.
Lemma between_list_app pre x gap y post :
  between (length pre) (length pre + S (length gap)) (pre ++ x :: gap ++ y :: post) = gap.
Proof.
  unfold between. rewrite take_app_add, drop_app_ge by (cbn; lia). replace (S (length pre) - length pre)%nat with 1%nat by lia.
  cbn. by rewrite take_app_length.
Qed.

Lemma messages_of pre m1 gap1 m2 gap2 m3 post :
  is_agent_message m1 = true -> is_agent_message m2 = true -> is_agent_message m3 = true ->
  Forall (fun e => is_agent_message e = false) (gap1 ++ gap2 ++ post) ->
  let l := pre ++ m1 :: gap1 ++ m2 :: gap2 ++ m3 :: post in
  exists C n1 n2 n3, List.filter (fun e : positioned => is_agent_message e.2) (enumerate l) = C ++ [(n1, m1); (n2, m2); (n3, m3)] /\
    n1 = length pre /\ between n1 n3 l = gap1 ++ m2 :: gap2.
Proof.
  intros H1 H2 H3 Hg l. apply Forall_app in Hg as [Hg1 Hg]. apply Forall_app in Hg as [Hg2 Hg3].
  rewrite enumerate_eq. unfold l. rewrite enumerate_at_app, enumerate_at_cons, enumerate_at_app, enumerate_at_cons,
    enumerate_at_app, enumerate_at_cons. rewrite !List.filter_app. cbn [List.filter snd]. rewrite H1. cbn [List.filter].
  rewrite List.filter_app. cbn [List.filter snd]. rewrite H2, List.filter_app. cbn [List.filter snd].
  rewrite H3, (filter_enumerate_none is_agent_message _ gap1), (filter_enumerate_none is_agent_message _ gap2),
    (filter_enumerate_none is_agent_message _ post) by done. do 4 eexists. split; [reflexivity|]. split; [done|].
  match goal with |- between _ ?n _ = _ => replace n with (length pre + S (length (gap1 ++ m2 :: gap2)))%nat by (rewrite length_app; cbn; lia) end.
  pose proof (between_list_app pre m1 (gap1 ++ m2 :: gap2) m3 post) as E. by rewrite <-app_assoc in E.
Qed.

Lemma monologue_decides filtered offset : decides (talks_to_itself filtered) filtered offset (Ok (monologue filtered offset)).
Proof.
  unfold monologue. set (messages := List.filter _ _).
  destruct (Nat.leb_spec 3 (length messages)) as [Hl|Hl].
  - unfold messages in Hl. rewrite enumerate_eq, length_filter_enumerate in Hl.
    destruct (filter_lastn _ _ Hl) as (l1 & E & E3). destruct (lastn 3 _) as [|m1 [|m2 [|m3 [|]]]] eqn:El in E, E3; try done.
    apply filter_split in E as (pre & L & E & _ & E2 & H1). apply (filter_split _ _ [] m2) in E2 as (gap1 & L2 & -> & Eg1 & E2 & H2).
    apply (filter_split _ _ [] m3) in E2 as (gap2 & post & -> & Eg2 & Ep & H3). apply filter_none in Eg1, Eg2, Ep.
    destruct (messages_of pre m1 gap1 m2 gap2 m3 post H1 H2 H3) as (C & n1 & n2 & n3 & Em & Hn & Hb).
    { by rewrite !Forall_app. }
    rewrite <-E in Em, Hb. unfold messages. rewrite Em, lastn_app by done. cbn [fst snd]. rewrite Hb.
    destruct (forallb _ _ && negb _) eqn:Ec.
    + apply andb_true_iff in Ec as [Ec Eb]. cbn in Ec. rewrite !andb_true_iff in Ec. destruct Ec as (Ha & Hb' & Hc & _).
      apply negb_true_iff in Eb. rewrite existsb_false in Eb. split.
      * exists pre, m1, gap1, m2, gap2, m3, post. split_and!; try done; [by rewrite !Forall_app|].
        apply Forall_forall. intros x Hx. apply Eb. set_solver.
      * cbn. rewrite Hn, E, length_app. cbn. lia.
    + intros (pre' & m1' & gap1' & m2' & gap2' & m3' & post' & E' & H1' & H2' & H3' & Hg & Ho & Q1 & Q2 & Q3).
      destruct (messages_of pre' m1' gap1' m2' gap2' m3' post' H1' H2' H3' Hg) as (C' & n1' & n2' & n3' & Em' & Hn' & Hb'').
      rewrite <-E' in Em', Hb''. rewrite Em' in Em. apply app_inj_2 in Em as [_ Em]; [|done]. simplify_eq.
      assert (existsb ev_is_observation (gap1 ++ m2 :: gap2) = false) as Hno.
      { match goal with E : length pre' = length pre |- _ => rewrite E in Hb'' end. rewrite <-Hb, Hb''. apply existsb_false. intros x Hx. rewrite Forall_forall in Ho.
        apply elem_of_app in Hx as [Hx|Hx]; [apply Ho; set_solver|]. apply elem_of_cons in Hx as [->|Hx]; [|apply Ho; set_solver].
        unfold is_agent_message, ev_is_observation in *. by destruct (data m2). }
      rewrite Hno in Ec. cbn in Ec. by rewrite Q1, Q2, Q3 in Ec.
  - intros (pre & m1 & gap1 & m2 & gap2 & m3 & post & E & H1 & H2 & H3 & Hg & _).
    destruct (messages_of pre m1 gap1 m2 gap2 m3 post H1 H2 H3 Hg) as (C & n1 & n2 & n3 & Em & _).
    rewrite <-E in Em. fold messages in Em. rewrite Em, length_app in Hl. cbn in Hl. lia.
Qed.

Lemma adjacent_spec filtered l :
  match adjacent_condensations filtered l with
  | Some i => exists C1 a b C2, l = C1 ++ a :: b :: C2 /\ i = a.1 /\
                existsb (fun e => negb (is_condensation e)) (between a.1 b.1 filtered) = false
  | None => forall C1 a b C2, l = C1 ++ a :: b :: C2 ->
                existsb (fun e => negb (is_condensation e)) (between a.1 b.1 filtered) = true
  end.
Proof.
  induction l as [|a l IH]; [intros C1 a b C2 H; by destruct C1|]. destruct l as [|b l].
  - intros C1 x y C2 H. destruct C1 as [|? [|]]; simplify_eq/=.
  - change (adjacent_condensations filtered (a :: b :: l)) with
      (if existsb (fun e => negb (is_condensation e)) (between a.1 b.1 filtered)
       then adjacent_condensations filtered (b :: l) else Some a.1).
    destruct (existsb _ (between a.1 b.1 filtered)) eqn:E; [|by exists [], a, b, l].
    destruct (adjacent_condensations filtered (b :: l)).
    + destruct IH as (C1 & x & y & C2 & E' & IH). exists (a :: C1), x, y, C2. by rewrite E'.
    + intros [|z C1] x y C2 H; simplify_eq/=; [done|]. eapply IH. done.
Qed.

(** Consecutive condensations have no condensation between them. *)
Lemma condensations_split l C1 a b C2 :
  List.filter (fun e : positioned => is_condensation e.2) (enumerate l) = C1 ++ a :: b :: C2 ->
  exists pre gap post, l = pre ++ a.2 :: gap ++ b.2 :: post /\ a.1 = length pre /\
    b.1 = (length pre + S (length gap))%nat /\ Forall (fun e => is_condensation e = false) gap /\
    length (List.filter is_condensation post) = length C2 /\ is_condensation a.2 = true /\ is_condensation b.2 = true.
Proof.
  intros E. rewrite enumerate_eq in E. apply filter_split in E as (E1 & E2 & E & _ & Eb & Ha).
  apply (filter_split _ _ []) in Eb as (G & E3 & -> & Eg & E3' & Hb).
  apply enumerate_at_split in E as (pre & l2 & -> & -> & E & Hn). symmetry in E.
  apply enumerate_at_split in E as (gap & post & -> & -> & -> & Hm). cbn in Hn.
  exists pre, gap, post. split_and!; try done; [lia| |by rewrite <-E3', length_filter_enumerate].
  apply filter_none. apply length_zero_iff_nil. erewrite <-(length_filter_enumerate is_condensation). by rewrite Eg.
Qed.

Lemma context_window_decides filtered offset :
  decides (condenses_in_vain filtered) filtered offset (Ok (context_window_error filtered offset)).
Proof.
  unfold context_window_error, condenses_in_vain. rewrite enumerate_eq, length_filter_enumerate, <-enumerate_eq.
  set (C := List.filter (fun e : positioned => is_condensation e.2) (enumerate filtered)).
  assert (length C = length (List.filter is_condensation filtered)) as Hlen.
  { unfold C. by rewrite enumerate_eq, length_filter_enumerate. }
  destruct (Nat.ltb_spec (length (List.filter is_condensation filtered)) 10) as [Hl|Hl]; [cbn; lia|].
  destruct (filter_lastn C 10 ltac:(lia)) as (C0 & EC & EL). pose proof (adjacent_spec filtered (lastn 10 C)) as Ha.
  destruct (adjacent_condensations filtered (lastn 10 C)) as [i|]; cbn [mbind option_bind].
  - destruct Ha as (C1 & a & b & C2 & E & -> & Hno). rewrite E in EC, EL. rewrite app_assoc in EC.
    destruct (condensations_split _ _ _ _ _ EC) as (pre & gap & post & Ef & Ea & Eb & Hg & Hp & Hca & Hcb).
    assert (gap = []) as ->.
    { rewrite Ef, Ea, Eb, between_list_app in Hno. destruct gap as [|g gap]; [done|]. apply Forall_cons in Hg as [Hg _].
      cbn in Hno. by rewrite Hg in Hno. }
    split.
    + split; [done|]. exists pre, a.2, b.2, post. split_and!; try done. rewrite Hp. rewrite length_app in EL. cbn in EL. lia.
    + cbn [loop_start_idx]. rewrite Ef, Ea, length_app. cbn [length]. lia.
  - intros [_ (pre & c1 & c2 & post & E & H1 & H2 & Hp)].
    assert (exists C1 C2, C = C1 ++ (length pre, c1) :: (S (length pre), c2) :: C2 /\ (length C2 <= 8)%nat) as (C1 & C2 & E2 & H8).
    { unfold C. rewrite E, enumerate_eq, enumerate_at_app, !enumerate_at_cons, List.filter_app. cbn [List.filter snd].
      rewrite H1, H2. do 2 eexists. split; [reflexivity|]. by rewrite length_filter_enumerate. }
    assert (exists C1', lastn 10 C = C1' ++ (length pre, c1) :: (S (length pre), c2) :: C2) as [C1' E3].
    { unfold lastn. rewrite E2, length_app. cbn [length]. exists (drop (length C1 + S (S (length C2)) - 10) C1).
      rewrite drop_app. f_equal. replace (_ - 10 - length C1)%nat with 0%nat by lia. done. }
    specialize (Ha _ _ _ _ E3). cbn [fst] in Ha. rewrite E in Ha.
    pose proof (between_list_app pre c1 [] c2 post) as Eb. cbn [length app] in Eb.
    replace (length pre + 1)%nat with (S (length pre)) in Eb by lia. by rewrite Eb in Ha.
Qed.

(** ** The verdict *)

Definition stuck (l : list event) : Prop :=
  repeats_steps l \/ repeats_errors l \/ talks_to_itself l \/ alternates l \/ condenses_in_vain l.

Lemma recent_length p k l : (length (recent p k l) <= length (List.filter p l))%nat.
Proof.
  unfold recent. rewrite length_take. etransitivity; [apply Nat.le_min_r|]. rewrite List.filter_rev, length_rev. done.
Qed.
Lemma actions_and_observations l :
  (length (List.filter ev_is_action l) + length (List.filter ev_is_observation l) = length l)%nat.
Proof.
  induction l as [|e l IH]; [done|]. cbn. change (ev_is_observation e) with (negb (ev_is_action e)).
  destruct (ev_is_action e); cbn; lia.
Qed.
Lemma recent_both k l : (length (recent ev_is_action k l) + length (recent ev_is_observation k l) <= length l)%nat.
Proof.
  pose proof (recent_length ev_is_action k l). pose proof (recent_length ev_is_observation k l).
  pose proof (actions_and_observations l). lia.
Qed.
Lemma alternates_long l : alternates l -> (6 <= length l)%nat.
Proof. intros [H1 H2]. apply alternate_length in H1, H2. pose proof (recent_both 6 l). lia. Qed.
Lemma in_vain_long l : condenses_in_vain l -> (10 <= length l)%nat.
Proof. intros [H _]. pose proof (filter_length_le is_condensation l). lia. Qed.
Lemma stuck_long l : stuck l -> (3 <= length l)%nat.
Proof.
  intros [H|[H|[H|[H|H]]]].
  - destruct H as (H1 & H2 & _). pose proof (recent_both 4 l). lia.
  - destruct H as (H1 & H2 & _). pose proof (recent_both 3 l). lia.
  - destruct H as (pre & m1 & g1 & m2 & g2 & m3 & post & -> & _). rewrite !length_app. cbn. rewrite !length_app. cbn.
    rewrite !length_app. cbn. lia.
  - apply alternates_long in H. lia.
  - apply in_vain_long in H. lia.
Qed.

(** Trying a scenario, and the rest when it does not apply. *)
Definition verdict (P : Prop) (filtered : list event) (offset : Z) (out : res bool * option StuckAnalysis) : Prop :=
  match out with
  | (Ok true, Some a) => P /\ offset <= loop_start_idx a < offset + Z.of_nat (length filtered)
  | (Ok false, None) => ~ P
  | _ => False
  end.
#[local] Instance verdict_proper : Proper (iff ==> eq ==> eq ==> eq ==> iff) verdict.
Proof. intros P Q HPQ ? l -> ? o -> ? [[[]|] [a|]] ->; cbn; by rewrite ?HPQ. Qed.
Lemma verdict_try P Q filtered offset r k st :
  decides P filtered offset r -> verdict Q filtered offset (k st) -> verdict (P \/ Q) filtered offset (try_scenario r k st).
Proof.
  intros Hr Hk. unfold try_scenario, decides, verdict in *. destruct r as [[a|]|]; [tauto| |done].
  destruct (k st) as [[[]|] [|]]; tauto.
Qed.
Lemma decides_guard P filtered offset (b : bool) r :
  (P -> b = true) -> decides P filtered offset r -> decides P filtered offset (if b then r else Ok None).
Proof. intros H Hr. destruct b; [done|]. intros HP. by apply H in HP. Qed.

Lemma or_false_r (P : Prop) : P \/ False <-> P.
Proof. tauto. Qed.

Lemma is_stuck_spec headless_mode history st :
  let filtered := filtered_history headless_mode history in
  let offset := filtered_history_offset headless_mode history in
  exists b st', is_stuck headless_mode history st = (Ok b, st') /\ (b = true <-> stuck filtered) /\
    (b = true -> exists a, st' = Some a /\ offset <= loop_start_idx a < offset + Z.of_nat (length filtered)) /\
    (b = false -> st' = if (length filtered <? 3)%nat then st else None).
Proof.
  intros filtered offset. unfold is_stuck. fold filtered offset. destruct (Nat.ltb_spec (length filtered) 3) as [Hs|Hs].
  - exists false, st. split_and!; [done| |done..]. split; [done|]. intros H. apply stuck_long in H. lia.
  - fold (picked 4 filtered). assert (exists acts obs, picked 4 filtered = (acts, obs)) as (acts & obs & E) by (destruct (picked 4 filtered); eauto).
    rewrite E. pose proof (steps_decides filtered offset) as D1. pose proof (errors_decides filtered offset) as D2.
    rewrite E in D1, D2. cbn [fst snd] in D1, D2.
    match goal with |- exists b st', ?m = _ /\ _ => assert (verdict (stuck filtered) filtered offset m) as Hv end.
    { unfold stuck. apply verdict_try; [done|]. apply verdict_try; [done|]. apply verdict_try; [apply monologue_decides|].
      apply verdict_try; [|rewrite <-(or_false_r (condenses_in_vain filtered)); apply verdict_try].
      - apply decides_guard; [|apply pattern_decides]. intros H. apply Nat.leb_le. by apply alternates_long.
      - destruct (Nat.leb_spec 10 (length filtered)); [apply context_window_decides|]. intros H'. apply in_vain_long in H'. lia.
      - cbn. tauto. }
    match goal with |- exists b st', ?m = _ /\ _ => destruct m as [[[]|] [a|]] end; try done.
    + destruct Hv. exists true, (Some a). split_and!; try done. intros _. by exists a.
    + exists false, None. by split_and!.
Qed.

(** C28: the detector never fails; it answers yes exactly when one of the five
    patterns ends the part of the history it looks at, with an analysis that
    points into that part, and no without an analysis (one from before is kept
    when fewer than three events are looked at). *)
Theorem is_stuck_iff headless_mode history st :
  let filtered := filtered_history headless_mode history in
  let offset := filtered_history_offset headless_mode history in
  exists b st', is_stuck headless_mode history st = (Ok b, st') /\ (b = true <-> stuck filtered) /\
    (b = true -> exists a, st' = Some a /\ offset <= loop_start_idx a < offset + Z.of_nat (length filtered)) /\
    (b = false -> st' = if (length filtered <? 3)%nat then st else None).
Proof. apply is_stuck_spec. Qed.

(** ** Loops at the end of the history *)

Lemma recent_app p k l s : length (recent p k s) = k -> recent p k (l ++ s) = recent p k s.
Proof.
  unfold recent. intros H. rewrite rev_app_distr, List.filter_app. rewrite length_take in H. apply take_app_le. lia.
Qed.
(** A pattern at the end is seen whatever comes before. *)
Lemma stuck_app l s : stuck s -> stuck (l ++ s).
Proof.
  intros [H|[H|[H|[H|H]]]].
  - left. unfold repeats_steps in *. destruct H as (H1 & H2 & H). by rewrite !recent_app.
  - right; left. unfold repeats_errors in *. destruct H as (H1 & H2 & H). by rewrite !recent_app.
  - right; right; left. destruct H as (pre & m1 & g1 & m2 & g2 & m3 & post & -> & H).
    exists (l ++ pre), m1, g1, m2, g2, m3, post. split; [by rewrite <-app_assoc|done].
  - do 3 right; left. unfold alternates in *. destruct H as [H1 H2].
    rewrite !recent_app; [done|by apply alternate_length..].
  - do 4 right. destruct H as (H & pre & c1 & c2 & post & -> & Hc). split.
    + rewrite List.filter_app, length_app. lia.
    + exists (l ++ pre), c1, c2, post. split; [by rewrite <-app_assoc|done].
Qed.

Lemma last_user_msg_from_app s l n i :
  Forall (fun e => is_user_message e = false) s -> last_user_msg_from (s ++ l) n i = last_user_msg_from l n (i + length s).
Proof.
  intros H. revert i. induction H as [|e s He _ IH]; intros i; cbn; [by rewrite Nat.add_0_r|].
  rewrite He, IH. f_equal. lia.
Qed.
Lemma last_user_msg_from_bound l n i : (i + length l <= n)%nat -> -1 <= last_user_msg_from l n i < Z.of_nat n - Z.of_nat i \/ last_user_msg_from l n i = -1.
Proof.
  revert i. induction l as [|e l IH]; intros i H; cbn in *; [by right|]. destruct (is_user_message e); [left; lia|].
  destruct (IH (S i) ltac:(lia)); [left; lia|by right].
Qed.
(** The part that is looked at includes everything after the last user message. *)
Lemma filtered_history_app headless_mode h s :
  Forall (fun e => relevant e = true) s ->
  exists h', filtered_history headless_mode (h ++ s) = h' ++ s.
Proof.
  intros Hs. assert (List.filter relevant s = s) as Ef.
  { induction Hs as [|e s He _ IH]; cbn; [done|]. by rewrite He, IH. }
  unfold filtered_history, filtered_history_offset. destruct headless_mode.
  - exists (List.filter relevant h). by rewrite drop_0, List.filter_app, Ef.
  - unfold last_user_msg_idx. rewrite rev_app_distr, last_user_msg_from_app.
    + rewrite length_app, length_rev. set (i := last_user_msg_from _ _ _).
      assert (i + 1 <= Z.of_nat (length h)) as Hi.
      { pose proof (last_user_msg_from_bound (rev h) (length h + length s) (0 + length s)) as H. rewrite length_rev in H.
        fold i in H. specialize (H ltac:(lia)). lia. }
      rewrite drop_app_le by lia. eexists. by rewrite List.filter_app, Ef.
    + apply Forall_rev. eapply Forall_impl; [exact Hs|]. intros e He. unfold relevant in He. by destruct (is_user_message e).
Qed.

(** Whatever the history was, once it ends with one of the patterns (and no
    user message interrupts it) the detector says so, in both modes. *)
Lemma loops_detected headless_mode h s st :
  Forall (fun e => relevant e = true) s -> stuck s ->
  outcome (is_stuck headless_mode (h ++ s) st) = Ok true.
Proof.
  intros Hs Hp. destruct (filtered_history_app headless_mode h s Hs) as [h' E].
  destruct (is_stuck_spec headless_mode (h ++ s) st) as (b & st' & -> & Hb & _). rewrite E in Hb.
  cbn. f_equal. apply Hb. by apply stuck_app.
Qed.

(** ** Instances *)

Definition said (source : EventSource) (text : string) : event :=
  {| _id := None; _timestamp := None; _source := Some source; _cause := None; _timeout := None; _llm_metrics := None;
     _tool_call_metadata := None; _response_id := None; data := MessageAction text None None false RISK_UNKNOWN |}.
Definition ran (command : string) : event :=
  new_event (CmdRunAction command false "" false false None false CONFIRMED RISK_UNKNOWN).
Definition printed (command output : string) : event := new_event (CmdOutputObservation output command default_metadata false).

(** Four rounds of the same command, with different output every time. *)
Definition four_rounds : list event :=
  [ran "ls"; printed "ls" "a"; ran "ls"; printed "ls" "b"; ran "ls"; printed "ls" "c"; ran "ls"; printed "ls" "d"].

Lemma loops_detected_witness :
  exists s, Forall (fun e => relevant e = true) s /\ stuck s /\
    outcome (is_stuck false ([said USER "list the files"] ++ s) None) = Ok true.
Proof.
  assert (Forall (fun e => relevant e = true) four_rounds) as H1 by (unfold four_rounds; repeat constructor).
  assert (stuck four_rounds) as H2 by (left; unfold repeats_steps; split_and!; by vm_compute).
  exists four_rounds. split_and!; [exact H1|exact H2|]. exact (loops_detected false [said USER "list the files"] four_rounds None H1 H2).
Defined.

(** The loop is reported to start at the first equal event, even when that one
    came long before the loop: here the first event after the user message, not
    the fourth. *)
Example loop_start_before_loop :
  after (is_stuck false ([said USER "go"; ran "ls"; printed "ls" "x"; ran "make"; printed "make" "done"] ++ four_rounds) None)
  = Some {| loop_type := "repeating_action_observation"; loop_repeat_times := 4; loop_start_idx := 1 |}.
Proof. by vm_compute. Qed.
