(* ===== verification/View.v ===== *)
(** * Views of the history

    Models [openhands/memory/view.py]: the view that a condensed history stands
    for.  [from_events] drops what condensations forget (and the condensation
    events themselves), inserts the latest summary, and notes a condensation
    request that nothing has answered.

    [from_events_spec] describes the view; [forgotten_stays_forgotten] and
    [view_snoc] how it changes as the history grows; [request_is_answered] that
    a condensation answers every request before it. *)

From S2P Require Import Prelude PyStr PyDict PyList PyVal Events.

Record View := {
  events : list event;
  unhandled_condensation_request : bool;
  forgotten_event_ids : gset Z;
}.
(** [View(events=l)] *)
Definition plain_view (l : list event) : View :=
  {| events := l; unhandled_condensation_request := false; forgotten_event_ids := ∅ |}.

(** ** [from_events] *)

(** What one event adds to the forgotten ids. *)
Definition forgets (e : event) : res (gset Z) :=
  match data e with
  | CondensationAction ids start_id end_id summary offset =>
      l <-! forgotten ids start_id end_id summary offset ;; Ok (list_to_set l ∪ {[event_id e]})
  | CondensationRequestAction => Ok {[event_id e]}
  | _ => Ok ∅
  end.
Fixpoint forgotten_ids (acc : gset Z) (l : list event) : res (gset Z) :=
  match l with
  | [] => Ok acc
  | e :: l' => ids <-! forgets e ;; forgotten_ids (acc ∪ ids) l'
  end.

Definition summary_of (e : event) : option (string * Z) :=
  match data e with
  | CondensationAction _ _ _ (Some summary) (Some offset) => Some (summary, offset)
  | _ => None
  end.
Fixpoint latest_summary (reversed : list event) : option (string * Z) :=
  match reversed with
  | [] => None
  | e :: l => match summary_of e with Some s => Some s | None => latest_summary l end
  end.

Definition is_condensation_action (e : event) : bool :=
  match data e with CondensationAction _ _ _ _ _ => true | _ => false end.
Definition is_condensation_request (e : event) : bool :=
  match data e with CondensationRequestAction => true | _ => false end.
Fixpoint unhandled (reversed : list event) : bool :=
  match reversed with
  | [] => false
  | e :: l => if is_condensation_action e then false else if is_condensation_request e then true else unhandled l
  end.

Definition kept_events (ids : gset Z) (l : list event) : list event :=
  List.filter (fun e => bool_decide (event_id e ∉ ids)) l.
Definition insert_summary (summary : option (string * Z)) (l : list event) : list event :=
  match summary with
  | Some (s, offset) => py_insert l offset (new_event (AgentCondensationObservation s))
  | None => l
  end.

Definition from_events (l : list event) : res View :=
  ids <-! forgotten_ids ∅ l ;;
  Ok {| events := insert_summary (latest_summary (rev l)) (kept_events ids l);
        unhandled_condensation_request := unhandled (rev l);
        forgotten_event_ids := ids |}.


(** ** What is forgotten *)

(** Every condensation in the history has a valid configuration, as those do
    that went through the constructor. *)
Definition well_formed (l : list event) : Prop := Forall (fun e => is_ok (forgets e) = true) l.

Lemma forgotten_ids_spec acc l :
  well_formed l -> exists ids, forgotten_ids acc l = Ok (acc ∪ ids) /\
    forall i, i ∈ ids <-> exists e s, e ∈ l /\ forgets e = Ok s /\ i ∈ s.
Proof.
  intros H. revert acc. induction H as [|e l He _ IH]; intros acc; cbn.
  - exists ∅. rewrite union_empty_r_L. split; [done|]. intros i. split; [set_solver|]. intros (? & ? & H & _). inversion H.
  - destruct (forgets e) as [s|] eqn:Es; [|done]. cbn. destruct (IH (acc ∪ s)) as (ids & -> & Hids). exists (s ∪ ids).
    rewrite union_assoc_L. split; [done|]. intros i. rewrite elem_of_union, Hids. split.
    + intros [Hi|(e' & s' & He' & Es' & Hi)]; [exists e, s|exists e', s']; rewrite elem_of_cons; auto.
    + intros (e' & s' & He' & Es' & Hi). apply elem_of_cons in He' as [->|He']; [|eauto 10]. left.
      rewrite Es in Es'. by injection Es' as ->.
Qed.

Lemma from_events_ok l :
  well_formed l -> exists ids, from_events l =
    Ok {| events := insert_summary (latest_summary (rev l)) (kept_events ids l);
          unhandled_condensation_request := unhandled (rev l); forgotten_event_ids := ids |} /\
    forall i, i ∈ ids <-> exists e s, e ∈ l /\ forgets e = Ok s /\ i ∈ s.
Proof.
  intros H. destruct (forgotten_ids_spec ∅ l H) as (ids & E & Hids). rewrite union_empty_l_L in E.
  exists ids. split; [|done]. unfold from_events. by rewrite E.
Qed.

Lemma forgotten_ids_raise acc l : ~ well_formed l -> exists e, forgotten_ids acc l = Raise e.
Proof.
  revert acc. induction l as [|e l IH]; intros acc H; [by destruct H; constructor|]. cbn.
  destruct (forgets e) as [s|x] eqn:E; [|by exists x]. cbn. apply IH. intros Hl. apply H. constructor; [by rewrite E|done].
Qed.

(** A request is unanswered when no condensation comes after it. *)
Lemma unhandled_spec l :
  unhandled (rev l) = true <->
  exists pre r post, l = pre ++ r :: post /\ is_condensation_request r = true /\
    Forall (fun e => is_condensation_action e = false) post.
Proof.
  induction l as [|e l IH] using rev_ind; [split; [done|intros (pre & ? & ? & H & _); by destruct pre]|].
  rewrite rev_unit. cbn. destruct (is_condensation_action e) eqn:Ea.
  - split; [done|]. intros (pre & r & post & E & Hr & Hp). exfalso.
    destruct post as [|y post _] using rev_ind; [apply app_inj_tail in E as [_ ->]; by destruct (data r) eqn:Ed; unfold is_condensation_action, is_condensation_request in *; rewrite Ed in *|].
    rewrite app_comm_cons, app_assoc in E. apply app_inj_tail in E as [_ ->]. apply Forall_app in Hp as [_ Hp].
    apply Forall_cons in Hp as [Hp _]. congruence.
  - destruct (is_condensation_request e) eqn:Er.
    + split; [|done]. intros _. by exists l, e, [].
    + rewrite IH. split; intros (pre & r & post & E & Hr & Hp).
      * exists pre, r, (post ++ [e]). rewrite E, <-app_assoc. split_and!; [done..|]. apply Forall_app. split; [done|by repeat constructor].
      * destruct post as [|y post _] using rev_ind; [apply app_inj_tail in E as [_ ->]; congruence|].
        rewrite app_comm_cons, app_assoc in E. apply app_inj_tail in E as [-> ->]. apply Forall_app in Hp as [Hp _]. by exists pre, r, post.
Qed.

(** ** How the view changes *)

Lemma forgotten_ids_app acc l1 l2 :
  forgotten_ids acc (l1 ++ l2) = (ids <-! forgotten_ids acc l1 ;; forgotten_ids ids l2).
Proof.
  revert acc. induction l1 as [|e l1 IH]; intros acc; cbn; [done|]. destruct (forgets e); cbn; [apply IH|done].
Qed.

Definition recorded (e : event) (ids : gset Z) : Prop := event_id e ∈ ids.

Lemma kept_events_union ids F l : kept_events (ids ∪ F) l = List.filter (fun e => bool_decide (event_id e ∉ F)) (kept_events ids l).
Proof.
  unfold kept_events. induction l as [|e l IH]; [done|]. cbn [List.filter].
  destruct (bool_decide (event_id e ∉ ids)) eqn:E1.
  - cbn [List.filter]. rewrite <-IH. apply bool_decide_eq_true in E1. destruct (bool_decide (event_id e ∉ F)) eqn:E2.
    + apply bool_decide_eq_true in E2. by rewrite bool_decide_eq_true_2 by set_solver.
    + apply bool_decide_eq_false in E2. by rewrite bool_decide_eq_false_2 by set_solver.
  - rewrite <-IH. apply bool_decide_eq_false in E1. by rewrite bool_decide_eq_false_2 by set_solver.
Qed.
Lemma kept_events_app ids l1 l2 : kept_events ids (l1 ++ l2) = kept_events ids l1 ++ kept_events ids l2.
Proof. apply List.filter_app. Qed.
Lemma elem_of_kept ids l e : e ∈ kept_events ids l <-> e ∈ l /\ event_id e ∉ ids.
Proof. unfold kept_events. rewrite !list_elem_of_In, filter_In, bool_decide_eq_true. done. Qed.
Lemma kept_fresh ids n l : Forall (fun e => event_id e <> n) l -> kept_events (ids ∪ {[n]}) l = kept_events ids l.
Proof.
  intros H. unfold kept_events. induction H as [|e l He _ IH]; cbn; [done|]. rewrite IH.
  destruct (decide (event_id e ∈ ids)); [by rewrite !bool_decide_eq_false_2 by set_solver|by rewrite !bool_decide_eq_true_2 by set_solver].
Qed.

(** After a condensation of fresh id: its ids are dropped, its summary replaces
    the older one, and no request is left. *)
Lemma from_events_condense l ids c s n :
  forgotten_ids ∅ l = Ok ids -> Forall (fun e => event_id e <> n) l ->
  is_condensation_action c = true -> event_id c = n -> forgets c = Ok (s ∪ {[n]}) ->
  from_events (l ++ [c]) =
    Ok {| events := insert_summary (match summary_of c with Some x => Some x | None => latest_summary (rev l) end)
                      (List.filter (fun e => bool_decide (event_id e ∉ s)) (kept_events ids l));
          unhandled_condensation_request := false; forgotten_event_ids := ids ∪ (s ∪ {[n]}) |}.
Proof.
  intros Hl Hn Hc Hid Hf. unfold from_events. rewrite forgotten_ids_app, Hl. cbn [rbind forgotten_ids]. rewrite Hf. cbn [rbind].
  rewrite rev_unit. cbn [latest_summary unhandled]. rewrite Hc. do 2 f_equal. f_equal.
  rewrite kept_events_app, union_assoc_L, kept_fresh, kept_events_union by done.
  assert (kept_events (ids ∪ s ∪ {[n]}) [c] = []) as ->; [|by rewrite app_nil_r].
  unfold kept_events. cbn [List.filter]. rewrite Hid, bool_decide_eq_false_2 by set_solver. done.
Qed.

(** The view of a well-formed history exists; it forgets exactly the ids
    that its condensations and requests name, has the other events in their
    order, around the summary of the latest condensation that has one, and it
    says whether a request came after the last condensation. *)
Lemma from_events_spec l :
  well_formed l ->
  exists v kept, from_events l = Ok v /\
    (forall i, i ∈ forgotten_event_ids v <-> exists e s, e ∈ l /\ forgets e = Ok s /\ i ∈ s) /\
    sublist kept l /\ (forall e, e ∈ kept <-> e ∈ l /\ event_id e ∉ forgotten_event_ids v) /\
    match latest_summary (rev l) with
    | None => events v = kept
    | Some (summary, offset) =>
        exists k1 k2, kept = k1 ++ k2 /\ events v = k1 ++ new_event (AgentCondensationObservation summary) :: k2 /\
          (0 <= offset -> length k1 = Nat.min (length kept) (Z.to_nat offset))
    end /\
    (unhandled_condensation_request v = true <->
     exists pre r post, l = pre ++ r :: post /\ is_condensation_request r = true /\
       Forall (fun e => is_condensation_action e = false) post).
Proof.
  intros H. destruct (from_events_ok l H) as (ids & E & Hids). eexists _, (kept_events ids l). split; [exact E|]. cbn.
  split_and!; [done| |apply elem_of_kept| |apply unhandled_spec].
  - clear. unfold kept_events. induction l as [|e l IH]; cbn; [constructor|]. by destruct (bool_decide _); constructor.
  - destruct (latest_summary (rev l)) as [[summary offset]|]; cbn; [|done].
    unfold py_insert. eexists _, _. split; [symmetry; apply take_drop|]. split; [done|]. intros Ho.
    rewrite length_take, slice_pos_nonneg by done. lia.
Qed.

Lemma elem_of_insert_summary o k e :
  e ∈ insert_summary o k <-> e ∈ k \/ exists summary offset, o = Some (summary, offset) /\ e = new_event (AgentCondensationObservation summary).
Proof.
  destruct o as [[s o]|]; cbn; [|naive_solver]. unfold py_insert. rewrite elem_of_app, elem_of_cons.
  rewrite <-(take_drop (slice_pos (length k) o) k) at 5. rewrite elem_of_app. naive_solver.
Qed.

Lemma from_events_inv l v : from_events l = Ok v -> well_formed l.
Proof.
  intros E. unfold from_events in E. unfold well_formed. apply Forall_forall. intros e He.
  destruct (forgets e) as [s|x] eqn:Ef; [done|]. exfalso. destruct (forgotten_ids_raise ∅ l) as [y Hy].
  - intros Hl. unfold well_formed in Hl. rewrite Forall_forall in Hl. specialize (Hl e He). by rewrite Ef in Hl.
  - by rewrite Hy in E.
Qed.

(** What a view forgot stays forgotten as the history grows: no event with
    such an id is in a later view, except as a summary. *)
Lemma forgotten_stays_forgotten l t v v' e :
  from_events l = Ok v -> from_events (l ++ t) = Ok v' ->
  event_id e ∈ forgotten_event_ids v -> e ∈ events v' ->
  exists summary, e = new_event (AgentCondensationObservation summary).
Proof.
  intros E E' Hf Hin. pose proof (from_events_inv _ _ E) as Hl. pose proof (from_events_inv _ _ E') as Hlt.
  destruct (from_events_ok l Hl) as (ids & E1 & H1). destruct (from_events_ok _ Hlt) as (ids' & E2 & H2).
  rewrite E in E1. rewrite E' in E2. injection E1 as ->. injection E2 as ->. cbn in *.
  apply elem_of_insert_summary in Hin as [Hin|(s & o & _ & ->)]; [|by exists s].
  apply elem_of_kept in Hin as [_ Hin]. destruct Hin. apply H2. apply H1 in Hf as (x & s & Hx & Hs).
  exists x, s. by rewrite elem_of_app; auto.
Qed.

(** ** Instances *)

Definition numbered (i : Z) (b : body) : event :=
  {| _id := Some i; _timestamp := None; _source := None; _cause := None; _timeout := None; _llm_metrics := None;
     _tool_call_metadata := None; _response_id := None; data := b |}.
Definition forgetful_history : list event :=
  [ numbered 0 (AgentThinkAction "a"); numbered 1 (AgentThinkAction "b"); numbered 2 (AgentThinkAction "c");
    numbered 3 (CondensationAction None (Some 1) (Some 1) (Some "b happened") (Some 1)) ].

Lemma from_events_spec_witness :
  exists v, from_events forgetful_history = Ok v /\ map (fun e => message (data e)) (events v) =
    [Ok "I am thinking...: a"; Ok "b happened"; Ok "I am thinking...: c"].
Proof.
  assert (well_formed forgetful_history) as H by (repeat constructor).
  destruct (from_events_spec forgetful_history H) as (v & kept & E & _). exists v. split; [exact E|].
  vm_compute in E. injection E as <-. by vm_compute.
Defined.

Lemma forgotten_stays_forgotten_witness :
  exists v v', from_events forgetful_history = Ok v /\
    from_events (forgetful_history ++ [numbered 4 (AgentThinkAction "d")]) = Ok v' /\
    (forall e, event_id e ∈ forgotten_event_ids v -> e ∈ events v' -> exists summary, e = new_event (AgentCondensationObservation summary)).
Proof.
  assert (exists v, from_events forgetful_history = Ok v) as [v E] by (eexists; by vm_compute).
  assert (exists v', from_events (forgetful_history ++ [numbered 4 (AgentThinkAction "d")]) = Ok v') as [v' E'] by (eexists; by vm_compute).
  exists v, v'. split; [exact E|]. split; [exact E'|]. intros e Hf Hin.
  exact (forgotten_stays_forgotten forgetful_history [numbered 4 (AgentThinkAction "d")] v v' e E E' Hf Hin).
Defined.
