(* ===== verification/Condenser.v ===== *)
(** * Condensers

    Models [openhands/memory/condenser/condenser.py] and the condensers under
    [condenser/impl] that rewrite the view in place: no-op, recent events,
    observation masking, browser output, and the pipeline.

    A condenser is a stateful function from views to views or condensations; its
    state is the current batch of metadata.  [condensed_history] is the entry
    point of the agents, over the batch and the metadata kept in the state.

    [masking_spec], [browser_spec] and [recent_spec] say what the views keep;
    [metadata_written] that every batch is written once, also when condensing
    fails. *)

From S2P Require Import Prelude PyStr PyDict PyList PyVal Events View.

(** [View | Condensation]; a condensation is its action. *)
Inductive condensed :=
  | AView (v : View)
  | ACondensation (action : body).

Notation metadata := (dict string pyval).
(** [condense], over the current metadata batch. *)
Definition condenser : Type := View -> M metadata condensed.

(** ** The base class *)

Definition add_metadata (key : string) (value : pyval) : M metadata unit := modifyM (fun batch => dset batch key value).

(** [extra_data[CONDENSER_METADATA_KEY]] of the state, if set. *)
Definition batches := option (list metadata).
Definition get_condensation_metadata (s : batches) : list metadata := default [] s.

Definition write_metadata : M (metadata * batches) unit :=
  fun '(batch, s) =>
    let log := default [] s in
    (Ok tt, ([], Some (match batch with [] => log | _ => log ++ [batch] end))).

(** [condensed_history]: the batch is written whether condensing returns or
    raises. *)
Definition condensed_history (c : condenser) (v : View) : M (metadata * batches) condensed :=
  fun st => let '(r, st') := onL (c v) st in (r, after (write_metadata st')).

(** ** Condensers that rewrite the view *)

Definition no_op : condenser := fun v => retM (AView v).

Definition recent_events (keep_first max_events : Z) (l : list event) : list event :=
  let head := list_to l keep_first in
  let tail_length := Z.max 0 (max_events - Z.of_nat (length head)) in
  head ++ list_from l (- tail_length).
Definition recent_events_condenser (keep_first max_events : Z) : condenser :=
  fun v => retM (AView (plain_view (recent_events keep_first max_events (events v)))).

Definition masked : event := new_event (AgentCondensationObservation "<MASKED>").
Definition mask_observations (attention_window : Z) (l : list event) : list event :=
  imap (fun i e => if is_observation (data e) && (Z.of_nat i <? Z.of_nat (length l) - attention_window) then masked else e) l.
Definition observation_masking_condenser (attention_window : Z) : condenser :=
  fun v => retM (AView (plain_view (mask_observations attention_window (events v)))).

Definition browser_url (e : event) : option string :=
  match data e with BrowserOutputObservation _ url _ _ _ _ _ _ _ _ _ _ _ _ _ _ _ => Some url | _ => None end.
Definition omitted (url : string) : event :=
  new_event (AgentCondensationObservation ("Visited URL " +:+ url +:+ newline +:+ "Content omitted")).
(** The loop over the reversed view, with [cnt]. *)
Fixpoint mask_browser_outputs (attention_window cnt : Z) (reversed : list event) : list event :=
  match reversed with
  | [] => []
  | e :: l =>
      match browser_url e with
      | Some url =>
          if attention_window <=? cnt then omitted url :: mask_browser_outputs attention_window cnt l
          else e :: mask_browser_outputs attention_window (cnt + 1) l
      | None => e :: mask_browser_outputs attention_window cnt l
      end
  end.
Definition browser_output_condenser (attention_window : Z) : condenser :=
  fun v => retM (AView (plain_view (rev (mask_browser_outputs attention_window 0 (rev (events v)))))).

(** ** The pipeline *)

(** [condense] of a pipeline; every step has its own batch, and a condensation
    ends the loop. *)
Fixpoint pipeline (l : list condenser) (v : View) : M (list metadata) condensed :=
  match l with
  | [] => retM (AView v)
  | c :: l' => fun bs =>
      match bs with
      | [] => (Raise (RuntimeError "no batch"), [])
      | b :: bs =>
          match c v b with
          | (Ok (AView v'), b') => let '(r, bs') := pipeline l' v' bs in (r, b' :: bs')
          | (r, b') => (r, b' :: bs)
          end
      end
  end.
(** [metadata_batch] of a pipeline writes every step's batch. *)
Fixpoint write_all (bs : list metadata) (s : batches) : list metadata * batches :=
  match bs with
  | [] => ([], s)
  | b :: bs' =>
      let '(b', s') := after (write_metadata (b, s)) in
      let '(bs'', s'') := write_all bs' s' in (b' :: bs'', s'')
  end.
Definition pipeline_history (l : list condenser) (v : View) : M (list metadata * batches) condensed :=
  fun '(bs, s) => let '(r, bs') := pipeline l v bs in (r, write_all bs' s).

(** ** What the rewritten views keep *)

Definition is_browser_output (e : event) : bool := match browser_url e with Some _ => true | None => false end.
Definition browser_outputs (l : list event) : Z := Z.of_nat (length (List.filter is_browser_output l)).

(** A browser output becomes a note when at least [attention_window] browser
    outputs follow it. *)
Definition browser_view (attention_window : Z) (after_it : list event) (e : event) : event :=
  match browser_url e with
  | Some url => if attention_window <=? browser_outputs after_it then omitted url else e
  | None => e
  end.

Lemma browser_outputs_app l1 l2 : browser_outputs (l1 ++ l2) = browser_outputs l1 + browser_outputs l2.
Proof. unfold browser_outputs. rewrite List.filter_app, length_app. lia. Qed.
Lemma browser_outputs_cons e l : browser_outputs (e :: l) = (if is_browser_output e then 1 else 0) + browser_outputs l.
Proof. unfold browser_outputs. cbn [List.filter]. destruct (is_browser_output e); cbn [length]; lia. Qed.

Lemma mask_browser_outputs_spec w before l :
  0 <= w ->
  mask_browser_outputs w (Z.min w (browser_outputs before)) l =
    imap (fun i e => browser_view w (take i l ++ before) e) l.
Proof.
  intros Hw. revert before. induction l as [|e l IH]; intros before; [done|]. rewrite imap_cons. cbn [mask_browser_outputs take app].
  unfold browser_view at 1.
  assert (imap (fun i x => browser_view w (take i l ++ e :: before) x) l = imap ((fun i x => browser_view w (take i (e :: l) ++ before) x) ∘ S) l) as <-.
  { apply imap_ext. intros i x _. cbn [compose take app]. unfold browser_view.
    assert (browser_outputs (take i l ++ e :: before) = browser_outputs (e :: take i l ++ before)) as ->; [|done].
    rewrite browser_outputs_cons, !browser_outputs_app, browser_outputs_cons. lia. }
  rewrite <-IH, browser_outputs_cons. unfold is_browser_output. destruct (browser_url e) as [url|]; [|f_equal; f_equal; lia].
  destruct (Z.leb_spec w (Z.min w (browser_outputs before))), (Z.leb_spec w (browser_outputs before)); try lia; do 2 f_equal; lia.
Qed.

(** Masking browser outputs keeps every other event in its place and, of
    the browser outputs, exactly those that fewer than [attention_window]
    others follow; the older ones only say which URL was visited. *)
Lemma browser_spec attention_window v batch :
  0 <= attention_window ->
  browser_output_condenser attention_window v batch =
    (Ok (AView (plain_view (imap (fun i e => browser_view attention_window (drop (S i) (events v)) e) (events v)))), batch).
Proof.
  intros Hw. unfold browser_output_condenser, retM. do 4 f_equal. set (l := events v).
  assert (Z.min attention_window (browser_outputs []) = 0) as E0 by (unfold browser_outputs; cbn; lia).
  rewrite <-E0, mask_browser_outputs_spec by done.
  rewrite (rev_imap_rev (fun before e => browser_view attention_window (before ++ []) e)). apply imap_ext. intros i e _.
  rewrite app_nil_r. unfold browser_view, browser_outputs. by rewrite List.filter_rev, length_rev.
Qed.

Lemma lookup_mask w l i :
  mask_observations w l !! i =
    (e ← l !! i; Some (if is_observation (data e) && (Z.of_nat i <? Z.of_nat (length l) - w) then masked else e)).
Proof. unfold mask_observations. rewrite list_lookup_imap. by destruct (l !! i). Qed.

(** The actions of a view survive masking, and so do the last
    [attention_window] events. *)
Lemma masking_keeps w l :
  length (mask_observations w l) = length l /\
  (forall i e, l !! i = Some e -> is_action (data e) = true \/ Z.of_nat (length l) - w <= Z.of_nat i ->
    mask_observations w l !! i = Some e).
Proof.
  split; [unfold mask_observations; apply length_imap|]. intros i e He H. rewrite lookup_mask, He. cbn. f_equal.
  unfold is_observation. destruct H as [->|H]; [done|]. by rewrite (proj2 (Z.ltb_ge _ _)), andb_false_r by lia.
Qed.

(** with room for more than the first [keep_first] events and a view of at
    least [max_events], the recent-events condenser keeps the first
    [keep_first] and the last [max_events - keep_first] events, [max_events] in
    all and in order. *)
Theorem recent_spec keep_first max_events v batch :
  0 <= keep_first < max_events -> max_events <= Z.of_nat (length (events v)) ->
  exists l, recent_events_condenser keep_first max_events v batch = (Ok (AView (plain_view l)), batch) /\
    l = take (Z.to_nat keep_first) (events v) ++ drop (length (events v) - Z.to_nat (max_events - keep_first)) (events v) /\
    Z.of_nat (length l) = max_events /\ sublist l (events v).
Proof.
  intros Hk Hm. unfold recent_events_condenser, retM. eexists. split; [reflexivity|]. unfold recent_events.
  rewrite list_to_nonneg, length_take by lia. rewrite Z.max_r, Nat.min_l by lia. rewrite list_from_neg by lia.
  replace (max_events - Z.of_nat (Z.to_nat keep_first)) with (max_events - keep_first) by lia. split_and!; [done| |].
  - rewrite length_app, length_take, length_drop. lia.
  - rewrite <-(take_drop (length (events v) - Z.to_nat (max_events - keep_first)) (events v)) at 4.
    apply sublist_app; [|done]. set (m := (length (events v) - _)%nat).
    rewrite <-(take_drop (Z.to_nat keep_first) (take m (events v))), take_take, Nat.min_l by lia. by apply sublist_inserts_r.
Qed.

(** ** Metadata *)

(** Whatever the outcome, the batch as the condenser left it is appended to the
    state's metadata, unless it is empty, and a new batch begins. *)
Lemma metadata_written c v batch s :
  let '(r, batch') := c v batch in
  condensed_history c v (batch, s) =
    (r, ([], Some (get_condensation_metadata s ++ match batch' with [] => [] | _ => [batch'] end))).
Proof.
  unfold condensed_history, onL, get_condensation_metadata. cbn. destruct (c v batch) as [r [|x b]]; cbn; [by rewrite app_nil_r|done].
Qed.

(** A pipeline leaves one batch per step. *)
Lemma pipeline_batches l v bs : length bs = length l -> length (pipeline l v bs).2 = length l.
Proof.
  revert v bs. induction l as [|c l IH]; intros v [|b bs] H; simplify_eq/=; [done|]. destruct (c v b) as [[[v'|a]|x] b']; cbn; [|lia..].
  specialize (IH v' bs ltac:(done)). destruct (pipeline l v' bs). cbn in *. lia.
Qed.

(** ** Instances *)

Definition step_event (i : Z) : event :=
  {| _id := Some i; _timestamp := None; _source := Some AGENT; _cause := None; _timeout := None; _llm_metrics := None;
     _tool_call_metadata := None; _response_id := None; data := AgentThinkAction "" |}.
Definition steps (n : Z) : list event := map step_event (seqZ 0 n).

(** With no room after the first events the whole view is appended to them, and
    a view shorter than [max_events] has its first events twice. *)
Example recent_no_room : map event_id (recent_events 1 1 (steps 3)) = [0; 0; 1; 2].
Proof. by vm_compute. Qed.
Example recent_duplicates : map event_id (recent_events 1 5 (steps 3)) = [0; 0; 1; 2].
Proof. by vm_compute. Qed.

Definition visited (i : Z) : event :=
  {| _id := Some i; _timestamp := None; _source := None; _cause := None; _timeout := None; _llm_metrics := None;
     _tool_call_metadata := None; _response_id := None;
     data := BrowserOutputObservation "page" "http://a" "" "" None "" false [] [] 0 [] [] [] "" "" "" false |}.
Lemma browser_spec_witness :
  exists l, browser_output_condenser 1 (plain_view [visited 0; step_event 1; visited 2]) [] = (Ok (AView (plain_view l)), []) /\
    l = [omitted "http://a"; step_event 1; visited 2].
Proof.
  assert (0 <= 1) as H by lia. eexists. split; [exact (browser_spec 1 (plain_view [visited 0; step_event 1; visited 2]) [] H)|].
  by vm_compute.
Defined.
Lemma recent_spec_witness :
  exists l, recent_events_condenser 1 3 (plain_view (steps 5)) [] = (Ok (AView (plain_view l)), []) /\ map event_id l = [0; 3; 4].
Proof.
  destruct (recent_spec 1 3 (plain_view (steps 5)) [] ltac:(lia) ltac:(vm_compute; discriminate)) as (l & E & El & _).
  exists l. split; [exact E|]. rewrite El. by vm_compute.
Defined.
