(* ===== verification/RollingCondenser.v ===== *)
(** * Rolling condensers

    Models [RollingCondenser] of [openhands/memory/condenser/condenser.py] and
    its implementations under [condenser/impl]: amortized forgetting, LLM
    summarizing, structured summary, LLM attention and conversation window.

    [RollingCondenser] is the interface, [RollingLaws] what an implementation
    promises: once a condensation is in the history, the view that follows needs
    no other.  [settle_terminates] is what this gives a client: an agent that
    records condensations until it gets a view records at most one.  The content is in
    the implementations, which discharge the laws under a condition [able] without
    which they fail ([summarizing_fails]).  [amortized_loop] says of the amortized
    condenser, without such a condition, exactly what comes of the agent's loop.

    The LLM is a function from what it is sent to an answer or an error; the
    text of an event ([str(event)]) is a parameter of the prompts. *)

From S2P Require Import Prelude PyStr PyDict PyList PyVal Events View Condenser.

(** ** The interface *)

Class RollingCondenser (C : Type) := {
  should_condense : C -> View -> bool;
  get_condensation : C -> View -> M metadata body;
}.

Definition condense `{RollingCondenser C} (c : C) : condenser :=
  fun v => if should_condense c v then action <- get_condensation c v ;; retM (ACondensation action) else retM (AView v).

(** A condensation as it enters the event stream. *)
Definition stamped (n : Z) (action : body) : event :=
  {| _id := Some n; _timestamp := None; _source := Some AGENT; _cause := None; _timeout := None; _llm_metrics := None;
     _tool_call_metadata := None; _response_id := None; data := action |}.

(** Ids grow along the history, as the event stream hands them out. *)
Record history_ok (l : list event) : Prop := {
  hist_well_formed : well_formed l;
  hist_ids : StronglySorted Z.lt (map event_id l);
  hist_nonneg : Forall (fun e => 0 <= event_id e) l;
}.

Class RollingLaws (C : Type) `{RollingCondenser C} (inv : C -> list event -> Prop) (able : C -> View -> Prop) : Prop := {
  inv_history : forall c l, inv c l -> history_ok l;
  condensation_shrinks : forall c l v batch,
    inv c l -> from_events l = Ok v -> should_condense c v = true -> able c v ->
    exists action batch', get_condensation c v batch = (Ok action, batch') /\
      forall n, 0 <= n -> Forall (fun e => event_id e < n) l ->
        inv c (l ++ [stamped n action]) /\
        exists v', from_events (l ++ [stamped n action]) = Ok v' /\ should_condense c v' = false;
}.

(** ** The agent's use of a condenser

    [CodeActAgent.step] returns a condensation as its action; the controller
    records it and steps again.  [settle] is that loop, up to the view the agent
    goes on with; [None] is a loop that did not end. *)
Fixpoint settle `{RollingCondenser C} (fuel : nat) (c : C) (l : list event) (n : Z) (batch : metadata) :
    option (res (list event * View)) :=
  match fuel with
  | O => None
  | S fuel =>
      match from_events l with
      | Raise e => Some (Raise e)
      | Ok v =>
          match condense c v batch with
          | (Raise e, _) => Some (Raise e)
          | (Ok (AView v'), _) => Some (Ok (l, v'))
          | (Ok (ACondensation action), batch') => settle fuel c (l ++ [stamped n action]) (n + 1) batch'
          end
      end
  end.

Section client.
Context `{Hlaws : RollingLaws C inv able}.

(** The agent's loop over a rolling condenser ends with a view that needs no
    condensation, after recording at most one. *)
Lemma settle_terminates c l n batch v :
  inv c l -> from_events l = Ok v -> (should_condense c v = true -> able c v) ->
  0 <= n -> Forall (fun e => event_id e < n) l ->
  exists l' v', settle 2 c l n batch = Some (Ok (l', v')) /\ from_events l' = Ok v' /\ should_condense c v' = false /\
    inv c l' /\ (l' = l \/ exists action, l' = l ++ [stamped n action]).
Proof.
  intros Hi Ev Ha Hn Hfresh. cbn [settle]. rewrite Ev. unfold condense. destruct (should_condense c v) eqn:Es.
  - destruct (condensation_shrinks c l v batch Hi Ev Es (Ha eq_refl)) as (action & batch' & Eg & Hg).
    destruct (Hg n Hn Hfresh) as (Hi' & v' & Ev' & Es'). unfold bindM, retM. rewrite Eg. cbn. rewrite Ev', Es'.
    exists (l ++ [stamped n action]), v'. split_and!; try done. right. by exists action.
  - exists l, v. split_and!; try done. by left.
Qed.
End client.

(** ** Minimum and maximum *)

Definition py_min (l : list Z) : res Z :=
  match l with [] => Raise (ValueError "min() iterable argument is empty") | x :: l' => Ok (fold_left Z.min l' x) end.
Definition py_max (l : list Z) : res Z :=
  match l with [] => Raise (ValueError "max() iterable argument is empty") | x :: l' => Ok (fold_left Z.max l' x) end.

Lemma fold_min_spec l x : fold_left Z.min l x ∈ x :: l /\ forall y, y ∈ x :: l -> fold_left Z.min l x <= y.
Proof.
  revert x. induction l as [|z l IH]; intros x; cbn; [split; [set_solver|intros y Hy; apply list_elem_of_singleton in Hy; lia]|].
  destruct (IH (Z.min x z)) as [H1 H2]. split.
  - apply elem_of_cons in H1 as [E|H1]; [|set_solver]. rewrite E. destruct (Z.min_spec x z) as [[_ ->]|[_ ->]]; set_solver.
  - intros y Hy. assert (Z.min x z <= y \/ y ∈ l) as [Hle|Hl]; [|specialize (H2 (Z.min x z)); rewrite elem_of_cons in H2; lia|apply H2; set_solver].
    apply elem_of_cons in Hy as [->|Hy]; [lia|]. apply elem_of_cons in Hy as [->|Hy]; [lia|]. by right.
Qed.
Lemma py_min_spec l : l <> [] -> exists m, py_min l = Ok m /\ m ∈ l /\ forall y, y ∈ l -> m <= y.
Proof. destruct l as [|x l]; [done|]. intros _. exists (fold_left Z.min l x). split; [done|]. apply fold_min_spec. Qed.
Lemma fold_max_min l x : fold_left Z.max l x = - fold_left Z.min (map Z.opp l) (- x).
Proof. revert x. induction l as [|z l IH]; intros x; cbn; [lia|]. rewrite IH. f_equal. f_equal. lia. Qed.
Lemma py_max_spec l : l <> [] -> exists m, py_max l = Ok m /\ m ∈ l /\ forall y, y ∈ l -> y <= m.
Proof.
  destruct l as [|x l]; [done|]. intros _. eexists. split; [reflexivity|]. rewrite fold_max_min.
  destruct (fold_min_spec (map Z.opp l) (- x)) as [H1 H2]. change (- x :: map Z.opp l) with (map Z.opp (x :: l)) in *. split.
  - apply list_elem_of_In, in_map_iff in H1 as (y & Ey & Hy). rewrite <-Ey, Z.opp_involutive. by apply list_elem_of_In.
  - intros y Hy. assert (- y ∈ map Z.opp (x :: l)) as H by (by apply list_elem_of_In, in_map, list_elem_of_In). specialize (H2 _ H). lia.
Qed.

(** ** Forgetting a middle part *)

Lemma sorted_filter (p : event -> bool) l :
  StronglySorted Z.lt (map event_id l) -> StronglySorted Z.lt (map event_id (List.filter p l)).
Proof.
  induction l as [|e l IH]; cbn; [done|]. intros H. apply StronglySorted_inv in H as [Hs Hf].
  destruct (p e); cbn; [|auto]. constructor; [auto|]. rewrite Forall_forall in *. intros i Hi. apply Hf.
  apply list_elem_of_In, in_map_iff in Hi as (x & <- & Hx). apply filter_In in Hx as [Hx _].
  apply list_elem_of_In, in_map_iff. by exists x.
Qed.
Lemma sorted_app_inv (l1 l2 : list Z) :
  StronglySorted Z.lt (l1 ++ l2) ->
  StronglySorted Z.lt l1 /\ StronglySorted Z.lt l2 /\ forall x y, x ∈ l1 -> y ∈ l2 -> x < y.
Proof.
  induction l1 as [|x l1 IH]; cbn; [intros H; split_and!; [constructor|done|]; intros ? ? Hx; inversion Hx|].
  intros H. apply StronglySorted_inv in H as [Hs Hf]. destruct (IH Hs) as (H1 & H2 & H3). apply Forall_app in Hf as [Hf1 Hf2].
  split_and!; [by constructor|done|]. intros a b Ha Hb. apply elem_of_cons in Ha as [->|Ha]; [|auto].
  rewrite Forall_forall in Hf2. auto.
Qed.
Lemma elem_of_ids e l : e ∈ l -> event_id e ∈ map event_id l.
Proof. intros H. apply list_elem_of_In, in_map. by apply list_elem_of_In. Qed.
Lemma elem_of_ids_inv i l : i ∈ map event_id l -> exists e, event_id e = i /\ e ∈ l.
Proof. intros H. apply list_elem_of_In, in_map_iff in H as (e & E & H). exists e. by rewrite list_elem_of_In. Qed.
Lemma filter_all {A} (p : A -> bool) l : Forall (fun x => p x = true) l -> List.filter p l = l.
Proof. induction 1 as [|x l Hx _ IH]; cbn; [done|]. by rewrite Hx, IH. Qed.
Lemma filter_nothing {A} (p : A -> bool) l : Forall (fun x => p x = false) l -> List.filter p l = [].
Proof. induction 1 as [|x l Hx _ IH]; cbn; [done|]. by rewrite Hx, IH. Qed.

(** A set of ids that contains the ids of the middle and no other. *)
Lemma drop_middle (s : gset Z) hd mid tl :
  (forall e, e ∈ mid -> event_id e ∈ s) -> (forall e, e ∈ hd -> event_id e ∉ s) -> (forall e, e ∈ tl -> event_id e ∉ s) ->
  List.filter (fun e => bool_decide (event_id e ∉ s)) (hd ++ mid ++ tl) = hd ++ tl.
Proof.
  intros Hm Hh Ht. rewrite !List.filter_app, (filter_all _ hd), (filter_nothing _ mid), (filter_all _ tl); [done|..];
    apply Forall_forall; intros e He.
  - apply bool_decide_eq_true. auto.
  - apply bool_decide_eq_false. intros H. by apply H, Hm.
  - apply bool_decide_eq_true. auto.
Qed.

(** The range from the least to the greatest id of the middle. *)
Lemma drop_range hd mid tl lo hi :
  StronglySorted Z.lt (map event_id (hd ++ mid ++ tl)) ->
  lo ∈ map event_id mid -> hi ∈ map event_id mid -> (forall i, i ∈ map event_id mid -> lo <= i <= hi) ->
  List.filter (fun e => bool_decide (event_id e ∉ (list_to_set (seqZ lo (hi + 1 - lo)) : gset Z))) (hd ++ mid ++ tl) = hd ++ tl.
Proof.
  intros Hs Hlo Hhi Hm. rewrite !map_app in Hs. apply sorted_app_inv in Hs as (_ & Hs & H1).
  apply sorted_app_inv in Hs as (_ & _ & H2).
  assert (forall i, i ∈ (list_to_set (seqZ lo (hi + 1 - lo)) : gset Z) <-> lo <= i <= hi) as Hr.
  { intros i. rewrite elem_of_list_to_set, elem_of_seqZ. lia. }
  apply drop_middle; intros e He; rewrite Hr; apply elem_of_ids in He; [auto|..]; intros [Ha Hb].
  - specialize (H1 _ lo He). rewrite elem_of_app in H1. specialize (H1 (or_introl Hlo)). lia.
  - specialize (H2 hi _ Hhi He). lia.
Qed.

Lemma history_ok_snoc l c n :
  history_ok l -> is_ok (forgets c) = true -> event_id c = n -> 0 <= n -> Forall (fun e => event_id e < n) l ->
  history_ok (l ++ [c]).
Proof.
  intros [H1 H2 H3] Hc Hid Hn Hf. constructor.
  - apply Forall_app. split; [done|by repeat constructor].
  - rewrite map_app. cbn [map]. rewrite Hid. clear -H2 Hf. induction l as [|e l IH]; cbn; [by repeat constructor|].
    apply Forall_cons in Hf as [He Hf]. cbn in H2. apply StronglySorted_inv in H2 as [Hs Ha]. constructor; [auto|].
    apply Forall_app. split; [done|by repeat constructor].
  - apply Forall_app. split; [done|]. repeat constructor. lia.
Qed.
Lemma fresh_ne (l : list event) n : Forall (fun e => event_id e < n) l -> Forall (fun e => event_id e <> n) l.
Proof. intros H. eapply Forall_impl; [exact H|]. intros e He. simpl in He. lia. Qed.

(** ** Condensers with a size limit *)

Record sized := { max_size : Z; keep_first : Z }.
(** The checks of the constructors; the amortized and attention condensers show
    [keep_first] in the last message. *)
Definition new_sized (max_size keep_first : Z) (shown : Z) : res sized :=
  if max_size / 2 <=? keep_first
  then Raise (ValueError ("keep_first (" +:+ str_of_Z keep_first +:+ ") must be less than half of max_size (" +:+ str_of_Z max_size +:+ ")"))
  else if keep_first <? 0 then Raise (ValueError ("keep_first (" +:+ str_of_Z keep_first +:+ ") cannot be negative"))
  else if max_size <? 1 then Raise (ValueError ("max_size (" +:+ str_of_Z shown +:+ ") cannot be non-positive"))
  else Ok {| max_size := max_size; keep_first := keep_first |}.
Definition sized_ok (c : sized) : Prop := 0 <= keep_first c < max_size c / 2.
Definition over_limit (c : sized) (v : View) : bool :=
  (max_size c <? Z.of_nat (length (events v))) || unhandled_condensation_request v.

Lemma half_size c : sized_ok c -> 0 < max_size c / 2 <= max_size c.
Proof.
  intros [H1 H2]. pose proof (Z.div_mod (max_size c) 2 ltac:(lia)). pose proof (Z.mod_pos_bound (max_size c) 2 ltac:(lia)). lia.
Qed.
Lemma new_sized_ok m k shown c : new_sized m k shown = Ok c -> sized_ok c /\ max_size c = m /\ keep_first c = k.
Proof.
  unfold new_sized, sized_ok. destruct (Z.leb_spec (m / 2) k); [done|]. destruct (Z.ltb_spec k 0); [done|].
  destruct (m <? 1); [done|]. intros [= <-]. cbn. lia.
Qed.

(** ** Amortized forgetting *)

Record AmortizedForgetting := { am_size : sized }.

Definition amortized_condensation (c : AmortizedForgetting) (v : View) : M metadata body :=
  let target_size := max_size (am_size c) / 2 in
  let head := list_to (events v) (keep_first (am_size c)) in
  let events_from_tail := target_size - Z.of_nat (length head) in
  let tail := list_from (events v) (- events_from_tail) in
  let event_ids_to_keep := map event_id (head ++ tail) in
  let event_ids_to_forget := List.filter (fun i => bool_decide (i ∉ event_ids_to_keep)) (map event_id (events v)) in
  liftM (lo <-! py_min event_ids_to_forget ;; hi <-! py_max event_ids_to_forget ;;
         condensation_action None (Some lo) (Some hi) None None).

#[export] Instance amortized_rolling : RollingCondenser AmortizedForgetting :=
  {| should_condense := fun c => over_limit (am_size c); get_condensation := amortized_condensation |}.

(** The events that stay: the first [k] and the last [t]. *)
Definition ends (k t : nat) (l : list event) : list event := take k l ++ drop (length l - t) l.
Definition middle (k t : nat) (l : list event) : list event := drop k (take (length l - t) l).
Lemma ends_middle k t l : (k + t <= length l)%nat -> l = take k l ++ middle k t l ++ drop (length l - t) l.
Proof.
  intros H. unfold middle. rewrite <-(take_drop (length l - t) l) at 1. rewrite <-(take_drop k (take (length l - t) l)) at 1.
  rewrite take_take, Nat.min_l by lia. by rewrite <-app_assoc.
Qed.
Lemma length_ends k t l : (k + t <= length l)%nat -> length (ends k t l) = (k + t)%nat.
Proof. intros H. unfold ends. rewrite length_app, length_take, length_drop. lia. Qed.
Lemma length_middle k t l : length (middle k t l) = (length l - t - k)%nat.
Proof. unfold middle. rewrite length_drop, length_take. lia. Qed.

Lemma ids_outside k t l :
  (k + t <= length l)%nat -> StronglySorted Z.lt (map event_id l) ->
  List.filter (fun i => bool_decide (i ∉ map event_id (ends k t l))) (map event_id l) = map event_id (middle k t l).
Proof.
  intros Hl Hs. pose proof (ends_middle k t l Hl) as E. unfold ends. set (hd := take k l) in *. set (tl := drop _ l) in *.
  set (mid := middle k t l) in *. assert (map event_id l = map event_id hd ++ map event_id mid ++ map event_id tl) as El
    by (rewrite <- !map_app; by rewrite <-E). rewrite El in *. rewrite map_app.
  apply sorted_app_inv in Hs as (_ & Hs & H1). apply sorted_app_inv in Hs as (_ & _ & H2).
  rewrite !List.filter_app, (filter_nothing _ (map event_id hd)), (filter_all _ (map event_id mid)), (filter_nothing _ (map event_id tl)).
  - by rewrite app_nil_r.
  - apply Forall_forall. intros i Hi. apply bool_decide_eq_false. rewrite elem_of_app. tauto.
  - apply Forall_forall. intros i Hi. apply bool_decide_eq_true. rewrite elem_of_app. intros [H|H].
    + specialize (H1 i i H). rewrite elem_of_app in H1. specialize (H1 (or_introl Hi)). lia.
    + specialize (H2 i i Hi H). lia.
  - apply Forall_forall. intros i Hi. apply bool_decide_eq_false. rewrite elem_of_app. tauto.
Qed.

Lemma extremes k t l :
  (k + t < length l)%nat ->
  exists lo hi, py_min (map event_id (middle k t l)) = Ok lo /\ py_max (map event_id (middle k t l)) = Ok hi /\
    lo ∈ map event_id (middle k t l) /\ hi ∈ map event_id (middle k t l) /\
    (forall i, i ∈ map event_id (middle k t l) -> lo <= i <= hi).
Proof.
  intros Hl. assert (map event_id (middle k t l) <> []) as Hne.
  { intros E. apply (f_equal length) in E. rewrite length_map, length_middle in E. cbn in E. lia. }
  destruct (py_min_spec _ Hne) as (lo & ? & ? & Hlo). destruct (py_max_spec _ Hne) as (hi & ? & ? & Hhi).
  exists lo, hi. split_and!; try done. intros i Hi. split; auto.
Qed.

(** The range of a middle part leaves the two ends. *)
Lemma drop_range_ends k t l lo hi :
  (k + t < length l)%nat -> StronglySorted Z.lt (map event_id l) ->
  lo ∈ map event_id (middle k t l) -> hi ∈ map event_id (middle k t l) -> (forall i, i ∈ map event_id (middle k t l) -> lo <= i <= hi) ->
  List.filter (fun e => bool_decide (event_id e ∉ (list_to_set (seqZ lo (hi + 1 - lo)) : gset Z))) l = ends k t l.
Proof.
  intros Hl Hs H1 H2 H3. pose proof (ends_middle k t l ltac:(lia)) as E. rewrite E in Hs.
  etransitivity; [|by apply (drop_range (take k l) (middle k t l) (drop (length l - t) l) lo hi)]. by rewrite <-E.
Qed.

Definition amortized_inv (c : AmortizedForgetting) (l : list event) : Prop :=
  sized_ok (am_size c) /\ history_ok l /\ latest_summary (rev l) = None.
Definition amortized_able (c : AmortizedForgetting) (v : View) : Prop :=
  max_size (am_size c) / 2 < Z.of_nat (length (events v)).
(** The numbers of first and last events that are kept. *)
Definition am_first (c : AmortizedForgetting) : nat := Z.to_nat (keep_first (am_size c)).
Definition am_last (c : AmortizedForgetting) : nat := Z.to_nat (max_size (am_size c) / 2 - keep_first (am_size c)).

Lemma amortized_action c v batch :
  sized_ok (am_size c) -> StronglySorted Z.lt (map event_id (events v)) -> amortized_able c v ->
  exists lo hi, amortized_condensation c v batch = (Ok (CondensationAction None (Some lo) (Some hi) None None), batch) /\
    lo ∈ map event_id (middle (am_first c) (am_last c) (events v)) /\ hi ∈ map event_id (middle (am_first c) (am_last c) (events v)) /\
    (forall i, i ∈ map event_id (middle (am_first c) (am_last c) (events v)) -> lo <= i <= hi).
Proof.
  intros [Hk Hm] Hs Ha. unfold amortized_able, am_first, am_last in *. destruct (am_size c) as [m k] eqn:Ec. cbn [max_size keep_first] in *.
  set (L := events v) in *. destruct (extremes (Z.to_nat k) (Z.to_nat (m / 2 - k)) L ltac:(lia)) as (lo & hi & E1 & E2 & H).
  exists lo, hi. split; [|done]. unfold amortized_condensation. rewrite Ec. cbn [max_size keep_first].
  rewrite list_to_nonneg, length_take by lia. fold L.
  rewrite Nat.min_l, Z2Nat.id, list_from_neg by lia. fold (ends (Z.to_nat k) (Z.to_nat (m / 2 - k)) L).
  rewrite ids_outside, E1, E2 by (done || lia). done.
Qed.

Lemma amortized_view c l v batch :
  amortized_inv c l -> from_events l = Ok v -> amortized_able c v ->
  exists action, amortized_condensation c v batch = (Ok action, batch) /\
    forall n, 0 <= n -> Forall (fun e => event_id e < n) l ->
      amortized_inv c (l ++ [stamped n action]) /\
      exists v', from_events (l ++ [stamped n action]) = Ok v' /\ unhandled_condensation_request v' = false /\
        events v' = ends (am_first c) (am_last c) (events v).
Proof.
  intros (Hc & Hok & Hsum) Ev Ha. pose proof (from_events_inv _ _ Ev) as Hwf. destruct (forgotten_ids_spec ∅ l Hwf) as (ids & Ei & _).
  assert (events v = kept_events (∅ ∪ ids) l) as Ek.
  { unfold from_events in Ev. rewrite Ei in Ev. cbn in Ev. injection Ev as <-. by rewrite Hsum. }
  assert (StronglySorted Z.lt (map event_id (events v))) as Hs by (rewrite Ek; apply sorted_filter, Hok).
  destruct (amortized_action c v batch Hc Hs Ha) as (lo & hi & Eg & Hlo & Hhi & Hr). eexists. split; [exact Eg|]. intros n Hn Hf.
  set (a := stamped n _). assert (forgets a = Ok (list_to_set (seqZ lo (hi + 1 - lo)) ∪ {[n]})) as Hfa by done. split.
  - split_and!; [done|by eapply history_ok_snoc; rewrite ?Hfa|]. by rewrite rev_unit.
  - rewrite (from_events_condense l (∅ ∪ ids) a (list_to_set (seqZ lo (hi + 1 - lo))) n) by (try done; by apply fresh_ne).
    eexists. split_and!; [reflexivity|done|]. cbn [events summary_of a stamped data]. rewrite Hsum. cbn [insert_summary]. rewrite <-Ek.
    apply drop_range_ends; try done. destruct Hc. unfold amortized_able, am_first, am_last in *. lia.
Qed.

Lemma ends_fit c v (k t : nat) :
  Z.of_nat (k + t) <= max_size c -> (k + t <= length (events v))%nat -> forall v', unhandled_condensation_request v' = false ->
  events v' = ends k t (events v) -> over_limit c v' = false.
Proof. intros H Hl v' Hu E. unfold over_limit. rewrite Hu, E, length_ends by done. rewrite orb_false_r. apply Z.ltb_ge. lia. Qed.

#[export] Instance amortized_laws : RollingLaws AmortizedForgetting amortized_inv amortized_able.
Proof.
  constructor; [by intros c l (_ & ? & _)|]. intros c l v batch Hi Ev _ Ha.
  destruct (amortized_view c l v batch Hi Ev Ha) as (action & Eg & H). exists action, batch. split; [done|]. intros n Hn Hf.
  destruct (H n Hn Hf) as (Hi' & v' & Ev' & Hu & El). split; [done|]. exists v'. split; [done|]. destruct Hi as (Hs & _).
  pose proof (half_size _ Hs). destruct Hs as [Hk Hm].
  unfold amortized_able, am_first, am_last in *. eapply ends_fit; [| |exact Hu|exact El]; [|lia].
  lia.
Qed.

(** ** Condensers that summarise *)

Definition is_summary (e : event) : bool := match data e with AgentCondensationObservation _ => true | _ => false end.

(** [str(event)] *)
Class EventStr := event_str : event -> string.

Definition dquote : string := String (chr 34) "".
Definition summarizing_prompt : string :=
  "You are maintaining a context-aware state summary for an interactive agent.
You will be given a list of events corresponding to actions taken by the agent, and the most recent previous summary if one exists.
If the events being summarized contain ANY task-tracking, you MUST include a TASK_TRACKING section to maintain continuity.
When referencing tasks make sure to preserve exact task IDs and statuses.

Track:

USER_CONTEXT: (Preserve essential user requirements, goals, and clarifications in concise form)

TASK_TRACKING: {Active tasks, their IDs and statuses - PRESERVE TASK IDs}

COMPLETED: (Tasks completed so far, with brief results)
PENDING: (Tasks that still need to be done)
CURRENT_STATE: (Current variables, data structures, or relevant state)

For code-specific tasks, also include:
CODE_STATE: {File paths, function signatures, data structures}
TESTS: {Failing cases, error messages, outputs}
CHANGES: {Code edits, variable updates}
DEPS: {Dependencies, imports, external calls}
VERSION_CONTROL_STATUS: {Repository state, current branch, PR status, commit history}

PRIORITIZE:
1. Adapt tracking format to match the actual task type
2. Capture key user requirements and goals
3. Distinguish between completed and pending tasks
4. Keep all sections concise and relevant

SKIP: Tracking irrelevant details for the current task type

Example formats:

For code tasks:
USER_CONTEXT: Fix FITS card float representation issue
COMPLETED: Modified mod_float() in card.py, all tests passing
PENDING: Create PR, update documentation
CODE_STATE: mod_float() in card.py updated
TESTS: test_format() passed
CHANGES: str(val) replaces f"
  +:+ dquote +:+ "{val:.16G}"
  +:+ dquote +:+ "
DEPS: None modified
VERSION_CONTROL_STATUS: Branch: fix-float-precision, Latest commit: a1b2c3d

For other tasks:
USER_CONTEXT: Write 20 haikus based on coin flip results
COMPLETED: 15 haikus written for results [T,H,T,H,T,H,T,T,H,T,H,T,H,T,H]
PENDING: 5 more haikus needed
CURRENT_STATE: Last flip: Heads, Haiku count: 15/20".
Definition structured_prompt : string :=
  "You are maintaining a context-aware state summary for an interactive software agent. This summary is critical because it:
1. Preserves essential context when conversation history grows too large
2. Prevents lost work when the session length exceeds token limits
3. Helps maintain continuity across multiple interactions

You will be given:
- A list of events (actions taken by the agent)
- The most recent previous summary (if one exists)

Capture all relevant information, especially:
- User requirements that were explicitly stated
- Work that has been completed
- Tasks that remain pending
- Current state of code, variables, and data structures
- The status of any version control operations".

Section summarising.
Context `{EventStr}.

(** The prompt: the previous summary and the events that are forgotten, each
    truncated. *)
Definition forgotten_text (max_event_length : Z) (e : event) : string :=
  "<EVENT id=" +:+ str_of_Z (event_id e) +:+ ">" +:+ newline +:+ truncate_content (event_str e) (Some max_event_length)
  +:+ newline +:+ "</EVENT>" +:+ newline.
Definition full_prompt (header footer previous : string) (max_event_length : Z) (forgotten_events : list event) : string :=
  header +:+ newline +:+ newline
  +:+ "<PREVIOUS SUMMARY>" +:+ newline +:+ truncate_content previous (Some max_event_length) +:+ newline
  +:+ "</PREVIOUS SUMMARY>" +:+ newline +:+ newline +:+ newline
  +:+ join "" (map (forgotten_text max_event_length) forgotten_events) +:+ footer.

(** The text of the previous summary and the events to forget. *)
Definition to_summarise (c : sized) (v : View) : res (string * list event) :=
  let head := list_to (events v) (keep_first c) in
  let events_from_tail := max_size c / 2 - Z.of_nat (length head) - 1 in
  e <-! py_nth (events v) (keep_first c) ;;
  let previous := match data e with AgentCondensationObservation content => content | _ => "No events summarized" end in
  Ok (previous, List.filter (fun e => negb (is_summary e)) (slice_list (events v) (keep_first c) (- events_from_tail))).

(** The condensation, once the summary is there. *)
Definition summary_action (c : sized) (forgotten_events : list event) (summary : option string) : res body :=
  lo <-! py_min (map event_id forgotten_events) ;; hi <-! py_max (map event_id forgotten_events) ;;
  condensation_action None (Some lo) (Some hi) summary (Some (keep_first c)).

(** The answer of the LLM: the summary, [response.model_dump()] and
    [llm.metrics.get()]. *)
Record LLMResponse := { reply_content : option string; reply_dump : pyval; reply_metrics : pyval }.

Record LLMSummarizing := { ls_size : sized; ls_max_event_length : Z; ls_completion : string -> res LLMResponse }.

Definition summarizing_condensation (c : LLMSummarizing) (v : View) : M metadata body :=
  parts <- liftM (to_summarise (ls_size c) v) ;;
  let '(previous, forgotten_events) := parts in
  response <- liftM (ls_completion c (full_prompt summarizing_prompt "Now summarize the events using the rules above."
                       previous (ls_max_event_length c) forgotten_events)) ;;
  add_metadata "response" (reply_dump response) ;;;
  add_metadata "metrics" (reply_metrics response) ;;;
  liftM (summary_action (ls_size c) forgotten_events (reply_content response)).

#[export] Instance summarizing_rolling : RollingCondenser LLMSummarizing :=
  {| should_condense := fun c => over_limit (ls_size c); get_condensation := summarizing_condensation |}.

(** *** Structured summaries *)

Record StateSummary := {
  user_context : string;
  completed_tasks : string;
  pending_tasks : string;
  current_state : string;
  files_modified : string;
  function_changes : string;
  data_structures : string;
  tests_written : string;
  tests_passing : string;
  failing_tests : string;
  error_messages : string;
  branch_created : string;
  branch_name : string;
  commits_made : string;
  pr_created : string;
  pr_status : string;
  dependencies : string;
  other_relevant_context : string;
}.
Definition empty_summary : StateSummary :=
  {| user_context := ""; completed_tasks := ""; pending_tasks := ""; current_state := ""; files_modified := ""; function_changes := ""; data_structures := ""; tests_written := ""; tests_passing := ""; failing_tests := ""; error_messages := ""; branch_created := ""; branch_name := ""; commits_made := ""; pr_created := ""; pr_status := ""; dependencies := ""; other_relevant_context := "" |}.

Definition summary_str (s : StateSummary) : string :=
  join (newline +:+ newline)
    [ "# State Summary";
      "## Core Information";
      "**User Context**: " +:+ user_context s;
      "**Completed Tasks**: " +:+ completed_tasks s;
      "**Pending Tasks**: " +:+ pending_tasks s;
      "**Current State**: " +:+ current_state s;
      "## Code Changes";
      "**Files Modified**: " +:+ files_modified s;
      "**Function Changes**: " +:+ function_changes s;
      "**Data Structures**: " +:+ data_structures s;
      "**Dependencies**: " +:+ dependencies s;
      "## Testing Status";
      "**Tests Written**: " +:+ tests_written s;
      "**Tests Passing**: " +:+ tests_passing s;
      "**Failing Tests**: " +:+ failing_tests s;
      "**Error Messages**: " +:+ error_messages s;
      "## Version Control";
      "**Branch Created**: " +:+ branch_created s;
      "**Branch Name**: " +:+ branch_name s;
      "**Commits Made**: " +:+ commits_made s;
      "**PR Created**: " +:+ pr_created s;
      "**PR Status**: " +:+ pr_status s;
      "## Additional Context";
      "**Other Relevant Context**: " +:+ other_relevant_context s ].

(** The tool calls of the answer, and the parameter [parse_summary] that reads
    the arguments of one ([json.loads] and pydantic's validation). *)
Record StructuredResponse := { tool_calls : list (string * string); s_dump : pyval; s_metrics : pyval }.
Record StructuredSummary := {
  ss_size : sized;
  ss_max_event_length : Z;
  ss_completion : string -> res StructuredResponse;
  parse_summary : string -> option StateSummary;
}.

(** The first call of the tool; an answer without a readable one counts as an
    empty summary. *)
Definition summary_from_tools (c : StructuredSummary) (response : StructuredResponse) : StateSummary :=
  match List.find (fun t => String.eqb t.1 "create_state_summary") (tool_calls response) with
  | Some t => default empty_summary (parse_summary c t.2)
  | None => empty_summary
  end.

Definition structured_condensation (c : StructuredSummary) (v : View) : M metadata body :=
  parts <- liftM (to_summarise (ss_size c) v) ;;
  let '(previous, forgotten_events) := parts in
  response <- liftM (ss_completion c (full_prompt structured_prompt "" previous (ss_max_event_length c) forgotten_events)) ;;
  add_metadata "response" (s_dump response) ;;;
  add_metadata "metrics" (s_metrics response) ;;;
  liftM (summary_action (ss_size c) forgotten_events (Some (summary_str (summary_from_tools c response)))).

#[export] Instance structured_rolling : RollingCondenser StructuredSummary :=
  {| should_condense := fun c => over_limit (ss_size c); get_condensation := structured_condensation |}.

End summarising.

Definition summarising_inv (c : sized) (l : list event) : Prop :=
  sized_ok c /\ history_ok l /\ Forall (fun e => is_summary e = false) l /\
  (latest_summary (rev l) = None \/ exists s, latest_summary (rev l) = Some (s, keep_first c)).
(** Room for an event after the summary, and more events than will be kept. *)
Definition summarising_able (c : sized) (v : View) : Prop :=
  keep_first c + 2 <= max_size c / 2 /\ max_size c / 2 < Z.of_nat (length (events v)).
Definition sum_first (c : sized) : nat := Z.to_nat (keep_first c).
Definition sum_last (c : sized) : nat := Z.to_nat (max_size c / 2 - keep_first c - 1).

Lemma kept_plain ids l : Forall (fun e => is_summary e = false) l -> Forall (fun e => is_summary e = false) (kept_events ids l).
Proof. rewrite !Forall_forall. intros H e He. apply elem_of_kept in He as [He _]. auto. Qed.

Lemma middle_insert {A} (k t : nat) (l : list A) x :
  (k + t <= length l)%nat ->
  drop k (take (length (take k l ++ x :: drop k l) - t) (take k l ++ x :: drop k l)) = x :: drop k (take (length l - t) l).
Proof.
  intros H. assert (length (take k l) = k) as Ek by (rewrite length_take; lia).
  rewrite length_app, Ek. cbn [length]. rewrite length_drop, take_app, Ek, take_ge by lia.
  rewrite drop_app_length' by done. replace (k + S (length l - k) - t - k)%nat with (S (length l - t - k)) by lia.
  cbn [take]. f_equal. rewrite skipn_firstn_comm. done.
Qed.

Lemma to_summarise_spec c l ids :
  summarising_inv c l -> forgotten_ids ∅ l = Ok ids ->
  let kept := kept_events ids l in
  let v_events := insert_summary (latest_summary (rev l)) kept in
  keep_first c + 2 <= max_size c / 2 -> max_size c / 2 < Z.of_nat (length v_events) ->
  (sum_first c + sum_last c < length kept)%nat /\
  forall u f, exists previous,
    to_summarise c {| events := v_events; unhandled_condensation_request := u; forgotten_event_ids := f |} =
      Ok (previous, middle (sum_first c) (sum_last c) kept).
Proof.
  intros ([Hk Hm] & Hok & Hp & Hs) Ei kept v_events Hroom Hlen.
  assert (sum_first c + sum_last c < length kept)%nat as Hl.
  { unfold v_events, sum_first, sum_last in *. destruct Hs as [E|[s E]]; rewrite E in Hlen; cbn [insert_summary] in Hlen; [lia|].
    rewrite py_insert_length in Hlen. lia. }
  split; [done|]. intros u f. unfold to_summarise. cbn [events]. rewrite list_to_nonneg, length_take by done. rewrite py_nth_nonneg by done.
  unfold sum_first, sum_last in *. set (k := Z.to_nat (keep_first c)) in *.
  assert (length (take k kept) = k) as Ek by (rewrite length_take; lia).
  assert (forall n, (n <= length kept)%nat -> List.filter (fun e => negb (is_summary e)) (drop k (take n kept)) = drop k (take n kept)) as Hall.
  { intros n Hn. apply filter_all. apply Forall_drop, Forall_take. eapply Forall_impl; [by apply kept_plain|]. intros e He. simpl in He. by rewrite He. }
  destruct Hs as [E|[s E]]; unfold v_events in *; rewrite E in *; cbn [insert_summary] in *.
  - destruct (lookup_lt_is_Some_2 kept k ltac:(lia)) as [e He]. rewrite He. cbn [rbind].
    rewrite Nat.min_l by lia. replace (Z.of_nat k) with (keep_first c) by lia. rewrite slice_list_neg by lia. eexists. do 2 f_equal.
    apply Hall. lia.
  - rewrite py_insert_nonneg by done. fold k. clear Hlen. rewrite lookup_app_r by lia. rewrite Ek, Nat.sub_diag. cbn [lookup list_lookup rbind data new_event].
    eexists. do 2 f_equal. rewrite length_app, Ek. cbn [length]. rewrite Nat.min_l by lia. replace (Z.of_nat k) with (keep_first c) by lia.
    rewrite slice_list_neg by lia. fold k. rewrite middle_insert by lia. cbn [List.filter is_summary data new_event negb]. apply Hall. lia.
Qed.

Lemma ends_insert {A} (k t : nat) (l : list A) x :
  (k + t <= length l)%nat ->
  take k (take k l ++ x :: drop k l) = take k l /\
  drop (length (take k l ++ x :: drop k l) - t) (take k l ++ x :: drop k l) = drop (length l - t) l.
Proof.
  intros H. assert (length (take k l) = k) as Ek by (rewrite length_take; lia). split; [by rewrite take_app_length'|].
  rewrite length_app, Ek. cbn [length]. rewrite length_drop, drop_app_ge by lia. rewrite Ek.
  replace (k + S (length l - k) - t - k)%nat with (S (length l - k - t)) by lia. cbn [drop]. rewrite drop_drop. f_equal. lia.
Qed.

(** Whatever the summary is, the condensation keeps the ends of the view around
    it, [max_size / 2] events in all. *)
Lemma summarising_view c l v :
  summarising_inv c l -> from_events l = Ok v -> summarising_able c v ->
  exists previous forgotten_events,
    to_summarise c v = Ok (previous, forgotten_events) /\
    forall s, exists action, summary_action c forgotten_events (Some s) = Ok action /\
      forall n, 0 <= n -> Forall (fun e => event_id e < n) l ->
        summarising_inv c (l ++ [stamped n action]) /\
        exists v', from_events (l ++ [stamped n action]) = Ok v' /\ over_limit c v' = false /\
          events v' = take (sum_first c) (events v) ++ new_event (AgentCondensationObservation s)
                      :: drop (length (events v) - sum_last c) (events v).
Proof.
  intros Hinv Ev [Hroom Hlen]. pose proof (from_events_inv _ _ Ev) as Hwf. destruct (forgotten_ids_spec ∅ l Hwf) as (ids & Ei & _).
  set (ids' := ∅ ∪ ids) in *. unfold from_events in Ev. rewrite Ei in Ev. cbn [rbind] in Ev. injection Ev as <-. cbn [events] in *.
  destruct (to_summarise_spec c l ids' Hinv Ei Hroom Hlen) as [Hl Hsum]. destruct (Hsum (unhandled (rev l)) ids') as [previous Es].
  set (kept := kept_events ids' l) in *. exists previous, (middle (sum_first c) (sum_last c) kept). split; [exact Es|]. intros s.
  destruct (extremes (sum_first c) (sum_last c) kept Hl) as (lo & hi & E1 & E2 & Hlo & Hhi & Hr).
  exists (CondensationAction None (Some lo) (Some hi) (Some s) (Some (keep_first c))).
  split; [unfold summary_action; by rewrite E1, E2|]. intros n Hn Hf. set (a := stamped n _).
  assert (forgets a = Ok (list_to_set (seqZ lo (hi + 1 - lo)) ∪ {[n]})) as Hfa by done.
  destruct Hinv as (Hc & Hok & Hp & Hs). pose proof Hc as [Hk Hm]. split.
  - split_and!; [done|by eapply history_ok_snoc; rewrite ?Hfa|apply Forall_app; split; [done|by repeat constructor]|].
    right. exists s. by rewrite rev_unit.
  - rewrite (from_events_condense l ids' a (list_to_set (seqZ lo (hi + 1 - lo))) n) by (try done; by apply fresh_ne).
    eexists. split; [reflexivity|]. cbn [summary_of a stamped data insert_summary]. fold kept.
    rewrite (drop_range_ends (sum_first c) (sum_last c)) by (try done; apply sorted_filter, Hok).
    assert (py_insert (ends (sum_first c) (sum_last c) kept) (keep_first c) (new_event (AgentCondensationObservation s)) =
      take (sum_first c) kept ++ new_event (AgentCondensationObservation s) :: drop (length kept - sum_last c) kept) as ->.
    { rewrite py_insert_nonneg by done. fold (sum_first c). unfold ends.
      assert (length (take (sum_first c) kept) = sum_first c) as Ek by (rewrite length_take; lia).
      by rewrite take_app_length', drop_app_length'. }
    split.
    + unfold over_limit. cbn [events unhandled_condensation_request]. rewrite orb_false_r. apply Z.ltb_ge.
      rewrite length_app. cbn [length]. rewrite length_take, length_drop. pose proof (half_size c Hc).
      unfold sum_first, sum_last in *. lia.
    + cbn [events]. destruct Hs as [E|[s' E]]; rewrite E; cbn [insert_summary]; [done|].
      rewrite py_insert_nonneg by done. fold (sum_first c).
      destruct (ends_insert (sum_first c) (sum_last c) kept (new_event (AgentCondensationObservation s')) ltac:(lia)) as [-> ->]. done.
Qed.

Section summarising_laws.
Context `{EventStr}.

(** The LLM answers, with a text. *)
Definition answers (completion : string -> res LLMResponse) : Prop :=
  forall prompt, exists r s, completion prompt = Ok r /\ reply_content r = Some s.
Definition ls_able (c : LLMSummarizing) (v : View) : Prop := summarising_able (ls_size c) v /\ answers (ls_completion c).
#[export] Instance summarizing_laws : RollingLaws LLMSummarizing (fun c => summarising_inv (ls_size c)) ls_able.
Proof.
  constructor; [by intros c l (_ & ? & _)|]. intros c l v batch Hi Ev _ [Ha Hans].
  destruct (summarising_view _ l v Hi Ev Ha) as (previous & f & Ep & H'). cbn [get_condensation summarizing_rolling].
  unfold summarizing_condensation, bindM, liftM. rewrite Ep.
  destruct (Hans (full_prompt summarizing_prompt "Now summarize the events using the rules above." previous (ls_max_event_length c) f)) as (r & s & -> & Es).
  cbn. rewrite Es. destruct (H' s) as (action & -> & Hv). eexists _, _. split; [reflexivity|]. intros n Hn Hf.
  destruct (Hv n Hn Hf) as (Hi' & v' & Ev' & Ho & _). split; [done|]. by exists v'.
Qed.

Definition ss_able (c : StructuredSummary) (v : View) : Prop :=
  summarising_able (ss_size c) v /\ forall prompt, is_ok (ss_completion c prompt) = true.
#[export] Instance structured_laws : RollingLaws StructuredSummary (fun c => summarising_inv (ss_size c)) ss_able.
Proof.
  constructor; [by intros c l (_ & ? & _)|]. intros c l v batch Hi Ev _ [Ha Hans].
  destruct (summarising_view _ l v Hi Ev Ha) as (previous & f & Ep & H'). cbn [get_condensation structured_rolling].
  unfold structured_condensation, bindM, liftM. rewrite Ep.
  specialize (Hans (full_prompt structured_prompt "" previous (ss_max_event_length c) f)).
  destruct (ss_completion c _) as [r|]; [|done]. cbn -[summary_str].
  destruct (H' (summary_str (summary_from_tools c r))) as (action & -> & Hv). eexists _, _. split; [reflexivity|]. intros n Hn Hf.
  destruct (Hv n Hn Hf) as (Hi' & v' & Ev' & Ho & _). split; [done|]. by exists v'.
Qed.
End summarising_laws.

(** ** What the condensations do *)

(** Recording the condensation of an amortized-forgetting condenser leaves
    exactly the first [keep_first] and the last events of the view,
    [max_size / 2] in all. *)
Lemma amortized_keeps_ends m k c l v batch n :
  new_sized m k k = Ok c -> history_ok l -> latest_summary (rev l) = None -> from_events l = Ok v ->
  m / 2 < Z.of_nat (length (events v)) -> 0 <= n -> Forall (fun e => event_id e < n) l ->
  exists action v', get_condensation {| am_size := c |} v batch = (Ok action, batch) /\
    from_events (l ++ [stamped n action]) = Ok v' /\
    events v' = take (Z.to_nat k) (events v) ++ drop (length (events v) - Z.to_nat (m / 2 - k)) (events v) /\
    Z.of_nat (length (events v')) = m / 2 /\ unhandled_condensation_request v' = false.
Proof.
  intros Hc Hok Hsum Ev Hlen Hn Hf. apply new_sized_ok in Hc as (Hc & <- & <-). pose proof Hc as [Hk Hm].
  destruct (amortized_view {| am_size := c |} l v batch) as (action & Eg & H); [done..|].
  destruct (H n Hn Hf) as (_ & v' & Ev' & Hu & El). exists action, v'. split_and!; try done.
  rewrite El. unfold am_first, am_last. cbn [am_size]. rewrite length_ends; lia.
Qed.

(** When the LLM answers with a text, recording the condensation of an
    LLM-summarizing condenser leaves the first [keep_first] events, that text
    in place of everything between (an earlier summary included), and the last
    events, [max_size / 2] in all; and the answer is in the metadata. *)
Lemma summarizing_keeps_ends `{EventStr} c l v batch n :
  summarising_inv (ls_size c) l -> from_events l = Ok v -> ls_able c v ->
  0 <= n -> Forall (fun e => event_id e < n) l ->
  exists action batch' s v', get_condensation c v batch = (Ok action, batch') /\
    from_events (l ++ [stamped n action]) = Ok v' /\
    events v' = take (Z.to_nat (keep_first (ls_size c))) (events v) ++ new_event (AgentCondensationObservation s)
                :: drop (length (events v) - sum_last (ls_size c)) (events v) /\
    Z.of_nat (length (events v')) = max_size (ls_size c) / 2 /\
    exists prompt r, ls_completion c prompt = Ok r /\ reply_content r = Some s /\
      dget batch' "response" = Some (reply_dump r) /\ dget batch' "metrics" = Some (reply_metrics r).
Proof.
  intros Hi Ev [Ha Hans] Hn Hf. destruct (summarising_view _ l v Hi Ev Ha) as (previous & f & Ep & H').
  destruct (Hans (full_prompt summarizing_prompt "Now summarize the events using the rules above." previous (ls_max_event_length c) f)) as (r & s & Er & Es).
  destruct (H' s) as (action & Ea & Hv). destruct (Hv n Hn Hf) as (_ & v' & Ev' & _ & El).
  exists action, (dset (dset batch "response" (reply_dump r)) "metrics" (reply_metrics r)), s, v'. split_and!; [|done|done| |].
  - cbn [get_condensation summarizing_rolling]. unfold summarizing_condensation, bindM, liftM. rewrite Ep, Er. cbn. by rewrite Es, Ea.
  - destruct Hi as ([Hk Hm] & _), Ha as [Hroom Hlen]. rewrite El, length_app. cbn [length]. rewrite length_take, length_drop.
    unfold sum_first, sum_last. lia.
  - exists (full_prompt summarizing_prompt "Now summarize the events using the rules above." previous (ls_max_event_length c) f), r.
    split_and!; try done; [|by rewrite dget_dset_eq]. by rewrite dget_dset_ne, dget_dset_eq.
Qed.

(** A view of at most [max_size / 2] events, which only a condensation
    request makes the amortized condenser condense, is an error: there is no
    event to forget. *)
Lemma amortized_fails m k c v batch :
  new_sized m k k = Ok c -> Z.of_nat (length (events v)) <= m / 2 ->
  get_condensation {| am_size := c |} v batch = (Raise (ValueError "min() iterable argument is empty"), batch).
Proof.
  intros Hc Hlen. apply new_sized_ok in Hc as ([Hk Hm] & <- & <-). cbn [get_condensation amortized_rolling].
  unfold amortized_condensation. cbn [am_size]. rewrite list_to_nonneg, length_take by lia.
  assert (0 < max_size c / 2 - Z.of_nat (Z.to_nat (keep_first c) `min` length (events v))) as Ht by lia. rewrite list_from_neg by done.
  rewrite (filter_nothing _ (map event_id (events v))); [done|]. apply Forall_forall. intros i Hi. apply bool_decide_eq_false.
  intros Hn. apply Hn. apply elem_of_ids_inv in Hi as (e & <- & He). apply elem_of_ids. apply elem_of_app.
  set (j := (length (events v) - _)%nat).
  destruct (decide (length (events v) <= Z.to_nat (keep_first c))%nat) as [Hs|Hs]; [left; by rewrite take_ge|].
  assert (j <= Z.to_nat (keep_first c))%nat as Hj by lia. rewrite <-(take_drop j (events v)), elem_of_app in He.
  destruct He as [He|He]; [left|by right]. apply elem_of_take in He as (p & Hp & Hlt). apply elem_of_take. exists p. split; [done|lia].
Qed.

(** A summarizing condenser whose [keep_first] is one below half of
    [max_size], which its constructor accepts, never condenses: it asks the LLM
    to summarise nothing and then fails. *)
Lemma summarizing_fails `{EventStr} m k shown c v batch max_event_length completion prompt_ok :
  new_sized m k shown = Ok c -> k + 1 = m / 2 -> k < Z.of_nat (length (events v)) ->
  (forall prompt, completion prompt = Ok (prompt_ok prompt)) ->
  outcome (get_condensation {| ls_size := c; ls_max_event_length := max_event_length; ls_completion := completion |} v batch)
  = Raise (ValueError "min() iterable argument is empty").
Proof.
  intros Hc Hkm Hlen Hp. apply new_sized_ok in Hc as ([Hk Hm] & <- & <-). cbn [get_condensation summarizing_rolling].
  unfold summarizing_condensation, to_summarise, bindM, liftM. cbn [ls_size]. rewrite py_nth_nonneg by done.
  destruct (lookup_lt_is_Some_2 (events v) (Z.to_nat (keep_first c)) ltac:(lia)) as [e He]. rewrite He. cbn [rbind].
  rewrite list_to_nonneg, length_take, Nat.min_l by lia.
  replace (- (max_size c / 2 - Z.of_nat (Z.to_nat (keep_first c)) - 1)) with 0 by lia.
  assert (slice_list (events v) (keep_first c) 0 = []) as -> by (unfold slice_list; rewrite (slice_pos_nonneg _ 0) by lia; rewrite Nat.min_0_r; apply drop_nil).
  cbn [List.filter ls_completion]. rewrite Hp. done.
Qed.

(** C36: An agent with an amortized condenser, on a history whose ids grow and that has no
    summaries of other condensers, records no condensation and gets the whole view when it has at most
    [max_size] events and no unanswered request to condense; it records exactly one
    and gets the first [keep_first] and the last events of the view, half of
    [max_size] in all, when the view has more than [max_size] events, or more than half
    of that and an unanswered request, and needs no second one; and it fails on a
    request when the view has at most half of [max_size]. *)
Theorem amortized_loop m k c l v batch n :
  new_sized m k k = Ok c -> history_ok l -> latest_summary (rev l) = None -> from_events l = Ok v ->
  0 <= n -> Forall (fun e => event_id e < n) l ->
  let size := Z.of_nat (length (events v)) in
  (size <= m -> unhandled_condensation_request v = false -> settle 2 {| am_size := c |} l n batch = Some (Ok (l, v)))
  /\ (m < size \/ m / 2 < size /\ unhandled_condensation_request v = true ->
      exists action v', settle 2 {| am_size := c |} l n batch = Some (Ok (l ++ [stamped n action], v'))
        /\ events v' = take (Z.to_nat k) (events v) ++ drop (length (events v) - Z.to_nat (m / 2 - k)) (events v)
        /\ Z.of_nat (length (events v')) = m / 2)
  /\ (size <= m / 2 -> unhandled_condensation_request v = true ->
      settle 2 {| am_size := c |} l n batch = Some (Raise (ValueError "min() iterable argument is empty"))).
Proof.
  intros Hc Hok Hsum Ev Hn Hf size. pose proof (new_sized_ok _ _ _ _ Hc) as (Hs & Em & Ek). pose proof (half_size _ Hs) as Hhalf. rewrite Em in Hhalf.
  assert (forall v0, should_condense {| am_size := c |} v0 = (m <? Z.of_nat (length (events v0))) || unhandled_condensation_request v0) as Hsc
    by (intros v0; cbn; unfold over_limit; by rewrite Em).
  cbn [settle]. rewrite Ev. unfold condense. rewrite Hsc. fold size. split_and!.
  - intros Hle ->. by rewrite (proj2 (Z.ltb_ge m size) Hle).
  - intros Hlarge. assert ((m <? size) || unhandled_condensation_request v = true) as ->.
    { apply orb_true_iff. destruct Hlarge as [H|[_ H]]; [left; by apply Z.ltb_lt|by right]. }
    destruct (amortized_keeps_ends m k c l v batch n Hc Hok Hsum Ev) as (action & v' & Eg & Ev' & El & Hlen & Hu); [unfold size in *; lia|done..|].
    unfold bindM, retM. rewrite Eg. cbn beta iota. rewrite Ev', Hsc, Hlen, Hu, (proj2 (Z.ltb_ge m (m / 2))) by lia. by exists action, v'.
  - intros Hle Hu. rewrite Hu, orb_true_r. unfold bindM. by rewrite (amortized_fails m k c v batch Hc Hle).
Qed.

(** ** Instances *)

#[local] Instance some_str : EventStr := fun _ => "".
Definition thinking (i : Z) : event := stamped i (AgentThinkAction "").
Definition thoughts (n : Z) : list event := map thinking (seqZ 0 n).
Definition request (i : Z) : event := stamped i CondensationRequestAction.
Definition view_of (l : list event) : View := match from_events l with Ok v => v | Raise _ => plain_view [] end.
Definition echo (text : string) : string -> res LLMResponse :=
  fun _ => Ok {| reply_content := Some text; reply_dump := VStr text; reply_metrics := VNone |}.
Definition six_at_most : sized := {| max_size := 6; keep_first := 1 |}.

Ltac concrete_history := constructor; [repeat constructor|repeat constructor; by vm_compute|repeat constructor; by vm_compute].

Lemma amortized_keeps_ends_witness :
  exists action v', get_condensation {| am_size := six_at_most |} (view_of (thoughts 7)) [] = (Ok action, []) /\
    from_events (thoughts 7 ++ [stamped 7 action]) = Ok v' /\ map event_id (events v') = [0; 5; 6].
Proof.
  assert (history_ok (thoughts 7)) as Hok by concrete_history.
  assert (Forall (fun e => event_id e < 7) (thoughts 7)) as Hf by (repeat constructor; by vm_compute).
  destruct (amortized_keeps_ends 6 1 six_at_most (thoughts 7) (view_of (thoughts 7)) [] 7) as (action & v' & Eg & Ev & El & _);
    [by vm_compute|exact Hok|by vm_compute|by vm_compute|by vm_compute|lia|exact Hf|].
  exists action, v'. split; [exact Eg|]. split; [exact Ev|]. rewrite El. by vm_compute.
Defined.

Definition summarizer : LLMSummarizing := {| ls_size := six_at_most; ls_max_event_length := 10000; ls_completion := echo "so far" |}.
Lemma summarizer_inv : summarising_inv (ls_size summarizer) (thoughts 7).
Proof. split_and!; [split; by vm_compute|concrete_history|repeat constructor|by left]. Qed.
Lemma summarizer_able : ls_able summarizer (view_of (thoughts 7)).
Proof. split; [split; by vm_compute|]. intros prompt. by eexists _, "so far". Qed.

Lemma summarizing_keeps_ends_witness :
  exists action batch s v', get_condensation summarizer (view_of (thoughts 7)) [] = (Ok action, batch) /\
    from_events (thoughts 7 ++ [stamped 7 action]) = Ok v' /\
    map event_id (events v') = [0; -1; 6] /\ exists prompt r, ls_completion summarizer prompt = Ok r /\ reply_content r = Some s.
Proof.
  assert (Forall (fun e => event_id e < 7) (thoughts 7)) as Hf by (repeat constructor; by vm_compute).
  destruct (summarizing_keeps_ends summarizer (thoughts 7) (view_of (thoughts 7)) [] 7) as (action & batch & s & v' & Eg & Ev & El & _ & prompt & r & Er & Es & _);
    [exact summarizer_inv|by vm_compute|exact summarizer_able|lia|exact Hf|].
  exists action, batch, s, v'. split; [exact Eg|]. split; [exact Ev|]. split; [rewrite El; by vm_compute|]. exists prompt, r. split; [exact Er|exact Es].
Defined.

Lemma settle_terminates_witness :
  exists l' v', settle 2 summarizer (thoughts 7) 7 [] = Some (Ok (l', v')) /\ from_events l' = Ok v' /\ length (events v') = 3%nat.
Proof.
  assert (Forall (fun e => event_id e < 7) (thoughts 7)) as Hf by (repeat constructor; by vm_compute).
  destruct (settle_terminates summarizer (thoughts 7) 7 [] (view_of (thoughts 7))) as (l' & v' & Es & Ev & _);
    [exact summarizer_inv|by vm_compute|intros _; exact summarizer_able|lia|exact Hf|].
  exists l', v'. split; [exact Es|]. split; [exact Ev|]. vm_compute in Es. by injection Es as <- <-.
Defined.

Lemma amortized_loop_witness :
  exists action v', settle 2 {| am_size := six_at_most |} (thoughts 7) 7 [] = Some (Ok (thoughts 7 ++ [stamped 7 action], v'))
                    /\ map event_id (events v') = [0; 5; 6].
Proof.
  assert (history_ok (thoughts 7)) as Hok by concrete_history.
  assert (Forall (fun e => event_id e < 7) (thoughts 7)) as Hf by (repeat constructor; by vm_compute).
  destruct (amortized_loop 6 1 six_at_most (thoughts 7) (view_of (thoughts 7)) [] 7) as (_ & H & _);
    [by vm_compute|exact Hok|by vm_compute|by vm_compute|lia|exact Hf|].
  destruct H as (action & v' & Es & El & _); [left; by vm_compute|]. exists action, v'. split; [exact Es|]. rewrite El. by vm_compute.
Defined.
(** A request on a short view. *)
Lemma amortized_fails_witness :
  should_condense {| am_size := six_at_most |} (view_of (thoughts 2 ++ [request 2])) = true /\
  get_condensation {| am_size := six_at_most |} (view_of (thoughts 2 ++ [request 2])) [] =
    (Raise (ValueError "min() iterable argument is empty"), []).
Proof.
  split; [by vm_compute|]. apply (amortized_fails 6 1); [by vm_compute|by vm_compute].
Defined.

Lemma summarizing_fails_witness :
  let c := {| ls_size := {| max_size := 4; keep_first := 1 |}; ls_max_event_length := 10000; ls_completion := echo "so far" |} in
  new_sized 4 1 4 = Ok (ls_size c) /\ should_condense c (view_of (thoughts 5)) = true /\
  outcome (get_condensation c (view_of (thoughts 5)) []) = Raise (ValueError "min() iterable argument is empty").
Proof.
  split; [by vm_compute|]. split; [by vm_compute|].
  apply (summarizing_fails 4 1 4 _ _ _ _ _ (fun _ => {| reply_content := Some "so far"; reply_dump := VStr "so far"; reply_metrics := VNone |}));
    [by vm_compute|by vm_compute|by vm_compute|intros prompt; reflexivity].
Defined.
