(* ===== verification/SelectingCondenser.v ===== *)
(** * Condensers that select events

    Models [llm_attention_condenser.py] and [conversation_window_condenser.py]
    under [openhands/memory/condenser/impl].

    The attention condenser keeps what an LLM ranks first; [attention_bound]
    holds whatever the LLM answers.  The window condenser keeps the essential
    first events and about half of the rest; [window_keeps] says which.  Both
    implement [RollingLaws]. *)

From S2P Require Import Prelude PyStr PyDict PyList PyVal Events View Condenser RollingCondenser.

(** ** LLM attention *)

Definition attention_prompt : string :=
  "You will be given a list of actions, observations, and thoughts from a coding agent.
        Each item in the list has an identifier. Please sort the identifiers in order of how important the
        contents of the item are for the next step of the coding agent's task, from most important to least
        important.".

(** [la_select] stands for the completion and the validation of its answer: the
    ranked ids, and [llm.metrics.get()]. *)
Record LLMAttention := { la_size : sized; la_select : list string -> res (list Z * pyval) }.

Fixpoint item_texts (l : list event) : res (list string) :=
  match l with
  | [] => Ok []
  | e :: l' =>
      text <-! message (data e) ;; texts <-! item_texts l' ;;
      Ok (("<ID>" +:+ str_of_Z (event_id e) +:+ "</ID>" +:+ newline +:+ "<CONTENT>" +:+ text +:+ "</CONTENT>") :: texts)
  end.
(** The loop that fills the ids up from the end of the view. *)
Fixpoint fill_up (events_from_tail : Z) (response_ids : list Z) (reversed : list event) : list Z :=
  match reversed with
  | [] => response_ids
  | e :: l =>
      if events_from_tail <=? Z.of_nat (length response_ids) then response_ids
      else fill_up events_from_tail (if bool_decide (event_id e ∈ response_ids) then response_ids else response_ids ++ [event_id e]) l
  end.
Definition head_event_ids (c : sized) (v : View) : list Z := map event_id (list_to (events v) (keep_first c)).
Definition response_ids (c : sized) (v : View) (ranked : list Z) : list Z :=
  let head := head_event_ids c v in
  let events_from_tail := max_size c / 2 - Z.of_nat (length head) in
  fill_up events_from_tail (list_to (List.filter (fun i => bool_decide (i ∉ head)) ranked) events_from_tail) (rev (events v)).

Definition attention_condensation (c : LLMAttention) (v : View) : M metadata body :=
  texts <- liftM (item_texts (events v)) ;;
  response <- liftM (la_select c (attention_prompt :: texts)) ;;
  add_metadata "metrics" response.2 ;;;
  let ids := response_ids (la_size c) v response.1 in
  liftM (condensation_action
    (Some (map event_id (List.filter (fun e => bool_decide (event_id e ∉ ids) && bool_decide (event_id e ∉ head_event_ids (la_size c) v)) (events v))))
    None None None None).

#[export] Instance attention_rolling : RollingCondenser LLMAttention :=
  {| should_condense := fun c => over_limit (la_size c); get_condensation := attention_condensation |}.

(** ** Conversation window *)

Inductive ConversationWindow := conversation_window.

Definition is_system_message (e : event) : bool := match data e with SystemMessageAction _ _ _ _ => true | _ => false end.
Definition message_content (e : event) : string := match data e with MessageAction content _ _ _ _ => content | _ => "" end.
Definition is_recall_of (query : string) (e : event) : bool :=
  match data e with RecallAction _ q _ => String.eqb q query | _ => false end.
Definition is_obs (e : event) : bool := is_observation (data e).

(** What follows the first element that satisfies [p], with that element. *)
Fixpoint find_after {A} (p : A -> bool) (l : list A) : option (A * list A) :=
  match l with [] => None | x :: l' => if p x then Some (x, l') else find_after p l' end.

(** The recall of the first user message, and its observation. *)
Definition recall_events (first_user_msg : event) (rest : list event) : list Z :=
  match find_after (is_recall_of (message_content first_user_msg)) rest with
  | None => []
  | Some (recall_action, rest') =>
      event_id recall_action ::
      match List.find (fun o => is_obs o && bool_decide (_cause o = Some (event_id recall_action))) rest' with
      | Some recall_observation => [event_id recall_observation]
      | None => []
      end
  end.
Definition essential_events (l : list event) (first_user_msg : event) (rest : list event) : list Z :=
  match List.find is_system_message l with Some e => [event_id e] | None => [] end
  ++ event_id first_user_msg :: recall_events first_user_msg rest.

(** The number of observations that a slice begins with. *)
Fixpoint leading_observations (l : list event) : nat :=
  match l with [] => O | e :: l' => if is_obs e then S (leading_observations l') else O end.
Definition first_valid_event_index (l : list event) (essential : list Z) : nat :=
  let total_events := Z.of_nat (length l) in
  let num_non_essential_events := total_events - Z.of_nat (length essential) in
  let num_recent_to_keep := Z.max 1 (num_non_essential_events / 2) in
  let slice_start_index := Z.to_nat (Z.max 0 (total_events - num_recent_to_keep)) in
  (slice_start_index + leading_observations (drop slice_start_index l))%nat.

Definition window_forgotten (l : list event) (essential : list Z) : list Z :=
  let keep := essential ++ map event_id (drop (first_valid_event_index l essential) l) in
  sort_by (fun i => i) (dedup (List.filter (fun i => bool_decide (i ∉ keep)) (map event_id l))).

Definition window_action (forgotten_ids : list Z) : res body :=
  match forgotten_ids with
  | first :: _ =>
      let last := List.last forgotten_ids first in
      if (1 <? length forgotten_ids)%nat && (last - first =? Z.of_nat (length forgotten_ids) - 1)
      then condensation_action None (Some first) (Some last) None None
      else condensation_action (Some forgotten_ids) None None None None
  | [] => condensation_action (Some []) None None None None
  end.

Definition window_condensation (v : View) : res body :=
  match find_after is_user_message (events v) with
  | None => condensation_action (Some []) None None None None
  | Some (first_user_msg, rest) => window_action (window_forgotten (events v) (essential_events (events v) first_user_msg rest))
  end.

#[export] Instance window_rolling : RollingCondenser ConversationWindow :=
  {| should_condense := fun _ v => unhandled_condensation_request v; get_condensation := fun _ v => liftM (window_condensation v) |}.

(** ** Recording a condensation without a summary *)

Definition plain_inv (l : list event) : Prop := history_ok l /\ latest_summary (rev l) = None.

Lemma record_plain l v n a s :
  plain_inv l -> from_events l = Ok v -> is_condensation_action (stamped n a) = true -> summary_of (stamped n a) = None ->
  forgets (stamped n a) = Ok (s ∪ {[n]}) -> 0 <= n -> Forall (fun e => event_id e < n) l ->
  plain_inv (l ++ [stamped n a]) /\
  exists v', from_events (l ++ [stamped n a]) = Ok v' /\ unhandled_condensation_request v' = false /\
    events v' = List.filter (fun e => bool_decide (event_id e ∉ s)) (events v).
Proof.
  intros [Hok Hsum] Ev Hc Hs Hfa Hn Hf. pose proof (from_events_inv _ _ Ev) as Hwf.
  destruct (forgotten_ids_spec ∅ l Hwf) as (ids & Ei & _). split.
  - split; [by eapply history_ok_snoc; rewrite ?Hfa|]. rewrite rev_unit. cbn [latest_summary]. by rewrite Hs.
  - rewrite (from_events_condense l (∅ ∪ ids) _ s n) by (try done; by apply fresh_ne). eexists. split_and!; [reflexivity|done|].
    cbn [events]. rewrite Hs, Hsum. cbn [insert_summary]. unfold from_events in Ev. rewrite Ei in Ev. cbn in Ev. injection Ev as <-.
    cbn [events]. by rewrite Hsum.
Qed.

Lemma sorted_ids_view l v : plain_inv l -> from_events l = Ok v -> StronglySorted Z.lt (map event_id (events v)).
Proof.
  intros [Hok Hsum] Ev. pose proof (from_events_inv _ _ Ev) as Hwf. destruct (forgotten_ids_spec ∅ l Hwf) as (ids & Ei & _).
  unfold from_events in Ev. rewrite Ei in Ev. cbn in Ev. injection Ev as <-. cbn [events]. rewrite Hsum. apply sorted_filter, Hok.
Qed.
Lemma sorted_NoDup (l : list Z) : StronglySorted Z.lt l -> NoDup l.
Proof.
  induction 1 as [|x l Hs IH Hf]; constructor; [|done]. intros H. rewrite Forall_forall in Hf. apply Hf in H. lia.
Qed.

(** ** LLM attention: bounds *)

Lemma fill_up_length t ids l : Z.of_nat (length ids) <= t -> Z.of_nat (length (fill_up t ids l)) <= t.
Proof.
  revert ids. induction l as [|e l IH]; intros ids H; cbn; [done|]. destruct (Z.leb_spec t (Z.of_nat (length ids))); [done|].
  apply IH. destruct (bool_decide _); [done|]. rewrite length_app. cbn. lia.
Qed.
Lemma count_ids (l : list event) (S : list Z) :
  NoDup (map event_id l) -> (forall e, e ∈ l -> event_id e ∈ S) -> (length l <= length S)%nat.
Proof.
  intros Hn Hs. rewrite <-(length_map event_id). apply NoDup_incl_length; [by apply NoDup_ListNoDup|].
  intros i Hi. apply list_elem_of_In. apply list_elem_of_In in Hi. apply elem_of_ids_inv in Hi as (e & <- & He). auto.
Qed.
Lemma NoDup_filter_ids (p : event -> bool) l : NoDup (map event_id l) -> NoDup (map event_id (List.filter p l)).
Proof.
  induction l as [|e l IH]; cbn; [done|]. intros H. apply NoDup_cons in H as [He H]. destruct (p e); cbn; [|auto]. constructor; [|auto].
  intros Hi. apply He. apply elem_of_ids_inv in Hi as (x & <- & Hx). apply elem_of_ids. apply list_elem_of_In in Hx.
  apply filter_In in Hx as [Hx _]. by apply list_elem_of_In.
Qed.

Definition keeps (c : sized) (v : View) (ids : list Z) (e : event) : bool :=
  bool_decide (event_id e ∈ ids) || bool_decide (event_id e ∈ head_event_ids c v).

Lemma keeps_bound c v ranked :
  sized_ok c -> NoDup (map event_id (events v)) ->
  Z.of_nat (length (List.filter (keeps c v (response_ids c v ranked)) (events v))) <= max_size c / 2.
Proof.
  intros [Hk Hm] Hn. set (ids := response_ids c v ranked). pose proof (count_ids (List.filter (keeps c v ids) (events v)) (ids ++ head_event_ids c v)) as Hc.
  assert (length (head_event_ids c v) <= Z.to_nat (keep_first c))%nat as Hh.
  { unfold head_event_ids. rewrite length_map, list_to_nonneg, length_take by done. lia. }
  assert (Z.of_nat (length ids) <= max_size c / 2 - Z.of_nat (length (head_event_ids c v))) as Hi.
  { unfold ids, response_ids. apply fill_up_length. rewrite list_to_nonneg, length_take by lia. lia. }
  rewrite length_app in Hc. enough (length (List.filter (keeps c v ids) (events v)) <= length ids + length (head_event_ids c v))%nat by lia.
  apply Hc; [by apply NoDup_filter_ids|]. intros e He. apply list_elem_of_In, filter_In in He as [_ He]. apply orb_true_iff in He.
  rewrite !bool_decide_eq_true in He. by apply elem_of_app.
Qed.

Definition attention_able (c : LLMAttention) (v : View) : Prop :=
  Forall (fun e => is_ok (message (data e)) = true) (events v) /\ forall texts, is_ok (la_select c texts) = true.

Lemma item_texts_ok l : Forall (fun e => is_ok (message (data e)) = true) l -> exists texts, item_texts l = Ok texts.
Proof.
  induction 1 as [|e l He _ [texts IH]]; cbn; [by exists []|]. destruct (message (data e)); [|done]. cbn. rewrite IH. cbn. eauto.
Qed.

Lemma attention_view c l v batch :
  sized_ok (la_size c) -> plain_inv l -> from_events l = Ok v -> attention_able c v ->
  exists action batch' ranked, attention_condensation c v batch = (Ok action, batch') /\
    forall n, 0 <= n -> Forall (fun e => event_id e < n) l ->
      plain_inv (l ++ [stamped n action]) /\
      exists v', from_events (l ++ [stamped n action]) = Ok v' /\ unhandled_condensation_request v' = false /\
        events v' = List.filter (keeps (la_size c) v (response_ids (la_size c) v ranked)) (events v).
Proof.
  intros Hc Hi Ev [Hm Hs]. destruct (item_texts_ok _ Hm) as [texts Et]. unfold attention_condensation, bindM, liftM. rewrite Et.
  specialize (Hs (attention_prompt :: texts)). destruct (la_select c _) as [[ranked metrics]|]; [|done]. cbn.
  do 2 eexists. exists ranked. split; [reflexivity|]. intros n Hn Hf.
  set (ids := response_ids _ _ _). set (F := map event_id _).
  destruct (record_plain l v n (CondensationAction (Some F) None None None None) (list_to_set F) Hi Ev) as (Hi' & v' & Ev' & Hu & El); [done..|].
  split; [done|]. exists v'. split_and!; [done..|]. rewrite El. apply filter_ext_in. intros e He. apply list_elem_of_In in He.
  unfold keeps. rewrite <-bool_decide_or. apply bool_decide_ext. rewrite elem_of_list_to_set. split.
  - intros Hn'. destruct (decide (event_id e ∈ ids)); [by left|]. destruct (decide (event_id e ∈ head_event_ids (la_size c) v)); [by right|].
    destruct Hn'. apply elem_of_ids. apply list_elem_of_In, filter_In. split; [by apply list_elem_of_In|].
    by rewrite !bool_decide_eq_true_2.
  - intros Hk HF. apply elem_of_ids_inv in HF as (e' & Ee & He'). apply list_elem_of_In, filter_In in He' as [_ He'].
    apply andb_true_iff in He'. rewrite !bool_decide_eq_true, Ee in He'. tauto.
Qed.

#[export] Instance attention_laws :
  RollingLaws LLMAttention (fun c l => sized_ok (la_size c) /\ plain_inv l) attention_able.
Proof.
  constructor; [by intros c l (_ & ? & _)|]. intros c l v batch [Hc Hi] Ev _ Ha.
  destruct (attention_view c l v batch Hc Hi Ev Ha) as (action & batch' & ranked & Eg & H). exists action, batch'. split; [done|].
  intros n Hn Hf. destruct (H n Hn Hf) as (Hi' & v' & Ev' & Hu & El). split; [done|]. exists v'. split; [done|].
  cbn. unfold over_limit. rewrite Hu, orb_false_r. apply Z.ltb_ge. rewrite El. pose proof (half_size _ Hc).
  pose proof (keeps_bound (la_size c) v ranked Hc (sorted_NoDup _ (sorted_ids_view _ _ Hi Ev))). lia.
Qed.

(** Whatever ids the LLM answers with, recording the condensation leaves at
    most [max_size / 2] events of the view, in their order, among them the first
    [keep_first]. *)
Lemma attention_bound c l v batch n :
  sized_ok (la_size c) -> plain_inv l -> from_events l = Ok v -> attention_able c v ->
  0 <= n -> Forall (fun e => event_id e < n) l ->
  exists action batch' v', get_condensation c v batch = (Ok action, batch') /\
    from_events (l ++ [stamped n action]) = Ok v' /\ sublist (events v') (events v) /\
    Z.of_nat (length (events v')) <= max_size (la_size c) / 2 /\
    (forall e, e ∈ take (Z.to_nat (keep_first (la_size c))) (events v) -> e ∈ events v').
Proof.
  intros Hc Hi Ev Ha Hn Hf. destruct (attention_view c l v batch Hc Hi Ev Ha) as (action & batch' & ranked & Eg & H).
  destruct (H n Hn Hf) as (_ & v' & Ev' & _ & El). exists action, batch', v'. rewrite El. split_and!; try done.
  - clear. induction (events v) as [|e l IH]; cbn; [constructor|]. by destruct (keeps _ _ _ e); constructor.
  - apply keeps_bound; [done|]. apply sorted_NoDup. by eapply sorted_ids_view.
  - intros e He. apply list_elem_of_In, filter_In. split.
    + apply list_elem_of_In. apply elem_of_take in He as (i & He & _). by apply list_elem_of_lookup_2 in He.
    + unfold keeps. apply orb_true_iff. right. apply bool_decide_eq_true. unfold head_event_ids. apply elem_of_ids.
      rewrite list_to_nonneg; [done|]. destruct Hc. lia.
Qed.

(** ** Conversation window: what is kept *)

Lemma sorted_run (x : Z) l :
  StronglySorted Z.lt (x :: l) -> x + Z.of_nat (length l) <= List.last (x :: l) x /\
  (List.last (x :: l) x = x + Z.of_nat (length l) -> x :: l = seqZ x (Z.of_nat (S (length l)))).
Proof.
  revert x. induction l as [|y l IH]; intros x H.
  - cbn. split; [lia|]. intros _. done.
  - apply StronglySorted_inv in H as [Hs Hf]. apply Forall_cons in Hf as [Hxy _]. destruct (IH y Hs) as [H1 H2].
    assert (forall d, List.last (x :: y :: l) d = List.last (y :: l) y) as El.
    { intros d. cbn [List.last]. clear. revert y. induction l as [|z l IH]; intros y; [done|]. cbn [List.last] in *. destruct l; [done|]. apply IH. }
    rewrite El. cbn [length]. split; [lia|]. intros E. rewrite H2 by lia. rewrite (seqZ_cons x) by lia. f_equal. f_equal; lia.
Qed.

Lemma strictly_sorted (l : list Z) : StronglySorted (key_le (fun i : Z => i)) l -> NoDup l -> StronglySorted Z.lt l.
Proof.
  induction 1 as [|x l Hs IH Hf]; intros Hn; constructor; apply NoDup_cons in Hn as [Hx Hn]; [auto|].
  rewrite Forall_forall in *. intros y Hy. assert (x <= y) by (by apply Hf). assert (x <> y) by (intros ->; done). lia.
Qed.
Lemma window_forgotten_sorted l essential : StronglySorted Z.lt (window_forgotten l essential).
Proof.
  unfold window_forgotten. apply strictly_sorted; [apply sort_by_sorted|]. rewrite sort_by_perm. apply NoDup_dedup.
Qed.
Lemma elem_of_window_forgotten l essential i :
  i ∈ window_forgotten l essential <->
  i ∈ map event_id l /\ i ∉ essential ++ map event_id (drop (first_valid_event_index l essential) l).
Proof.
  unfold window_forgotten. rewrite elem_of_sort_by, elem_of_dedup, list_elem_of_In, filter_In, bool_decide_eq_true, <-list_elem_of_In. done.
Qed.

(** Both forms of the condensation forget exactly the given ids. *)
Lemma window_action_forgets ids :
  StronglySorted Z.lt ids ->
  exists action, window_action ids = Ok action /\ forall n, is_condensation_action (stamped n action) = true /\
    summary_of (stamped n action) = None /\ forgets (stamped n action) = Ok (list_to_set ids ∪ {[n]}).
Proof.
  intros Hs. unfold window_action. destruct ids as [|x l]; [by eexists|].
  destruct (_ && _) eqn:E; [|by eexists]. eexists. split; [reflexivity|]. intros n. split_and!; [done..|].
  apply andb_true_iff in E as [_ E]. apply Z.eqb_eq in E. destruct (sorted_run x l Hs) as [_ Hr]. cbn [length] in E.
  assert (List.last (x :: l) x = x + Z.of_nat (length l)) as El by lia. rewrite El, (Hr El).
  transitivity (Ok (list_to_set (seqZ x (x + Z.of_nat (length l) + 1 - x)) ∪ {[n]} : gset Z)); [done|]. do 4 f_equal. lia.
Qed.

(** What the window keeps of a view: the essential events and those from the
    first valid index on. *)
Definition essential_of (l : list event) : option (list Z) :=
  match find_after is_user_message l with
  | Some (first_user_msg, rest) => Some (essential_events l first_user_msg rest)
  | None => None
  end.
Definition window_view (l : list event) : list event :=
  match essential_of l with
  | Some essential =>
      List.filter (fun e => bool_decide (event_id e ∈ essential ++ map event_id (drop (first_valid_event_index l essential) l))) l
  | None => l
  end.

Lemma window_records c l v batch :
  plain_inv l -> from_events l = Ok v ->
  exists action, get_condensation (c : ConversationWindow) v batch = (Ok action, batch) /\
    forall n, 0 <= n -> Forall (fun e => event_id e < n) l ->
      plain_inv (l ++ [stamped n action]) /\
      exists v', from_events (l ++ [stamped n action]) = Ok v' /\ unhandled_condensation_request v' = false /\
        events v' = window_view (events v).
Proof.
  intros Hi Ev. cbn [get_condensation window_rolling]. unfold window_condensation, window_view, essential_of, liftM.
  destruct (find_after is_user_message (events v)) as [[u rest]|].
  - set (essential := essential_events _ _ _).
    destruct (window_action_forgets _ (window_forgotten_sorted (events v) essential)) as (action & -> & Ha). exists action. split; [done|].
    intros n Hn Hf. destruct (Ha n) as (H1 & H2 & H3).
    destruct (record_plain l v n action _ Hi Ev H1 H2 H3 Hn Hf) as (Hi' & v' & Ev' & Hu & El). split; [done|]. exists v'. split_and!; [done..|].
    rewrite El. apply filter_ext_in. intros e He. apply list_elem_of_In in He. apply bool_decide_ext.
    rewrite elem_of_list_to_set, elem_of_window_forgotten. apply elem_of_ids in He.
    destruct (decide (event_id e ∈ essential ++ map event_id (drop (first_valid_event_index (events v) essential) (events v)))); tauto.
  - eexists. split; [reflexivity|]. intros n Hn Hf.
    destruct (record_plain l v n (CondensationAction (Some []) None None None None) ∅ Hi Ev) as (Hi' & v' & Ev' & Hu & El); try done.
    split; [done|]. exists v'. split_and!; [done..|]. rewrite El. apply filter_all. apply Forall_forall. intros e _.
    apply bool_decide_eq_true. set_solver.
Qed.

#[export] Instance window_laws : RollingLaws ConversationWindow (fun _ => plain_inv) (fun _ _ => True).
Proof.
  constructor; [by intros c l [? _]|]. intros c l v batch Hi Ev _ _.
  destruct (window_records c l v batch Hi Ev) as (action & Eg & H). exists action, batch. split; [done|]. intros n Hn Hf.
  destruct (H n Hn Hf) as (Hi' & v' & Ev' & Hu & _). split; [done|]. by exists v'.
Qed.

Lemma leading_observations_spec l :
  match drop (leading_observations l) l with [] => True | e :: _ => is_obs e = false end.
Proof. induction l as [|e l IH]; cbn; [done|]. destruct (is_obs e) eqn:E; [done|]. cbn. done. Qed.

Lemma find_after_spec {A} (p : A -> bool) l :
  match find_after p l with
  | Some (x, rest) => exists pre, l = pre ++ x :: rest /\ p x = true /\ Forall (fun y => p y = false) pre
  | None => Forall (fun y => p y = false) l
  end.
Proof.
  induction l as [|y l IH]; cbn; [constructor|]. destruct (p y) eqn:E; [exists []; by split_and!|].
  destruct (find_after p l) as [[x rest]|]; [|by constructor]. destruct IH as (pre & -> & Hx & Hp). exists (y :: pre). by split_and!; [| |constructor].
Qed.

(** Recording the condensation of the conversation window keeps, in order,
    the essential events (the system message, the first user message, its
    recall and the recall's observation) and everything from an index on which
    no observation stands, at most half of the rest; without a user message it
    forgets nothing.  The request is answered. *)
Lemma window_keeps v l batch n :
  plain_inv l -> from_events l = Ok v -> 0 <= n -> Forall (fun e => event_id e < n) l ->
  exists action v', get_condensation conversation_window v batch = (Ok action, batch) /\
    from_events (l ++ [stamped n action]) = Ok v' /\ should_condense conversation_window v' = false /\
    match find_after is_user_message (events v) with
    | None => events v' = events v
    | Some (first_user_msg, rest) =>
        exists essential (i : nat), essential = essential_events (events v) first_user_msg rest /\
          (forall e, e ∈ events v' <-> e ∈ events v /\ (event_id e ∈ essential \/ event_id e ∈ map event_id (drop i (events v)))) /\
          sublist (events v') (events v) /\
          match drop i (events v) with [] => True | e :: _ => is_observation (data e) = false end /\
          Z.of_nat (length (drop i (events v))) <= Z.max 1 ((Z.of_nat (length (events v)) - Z.of_nat (length essential)) / 2)
    end.
Proof.
  intros Hi Ev Hn Hf. destruct (window_records conversation_window l v batch Hi Ev) as (action & Eg & H).
  destruct (H n Hn Hf) as (_ & v' & Ev' & Hu & El). exists action, v'. split_and!; [done..|]. rewrite El. unfold window_view, essential_of.
  destruct (find_after is_user_message (events v)) as [[u rest]|]; [|done]. set (essential := essential_events _ _ _).
  exists essential, (first_valid_event_index (events v) essential). split; [done|]. split_and!.
  - intros e. rewrite list_elem_of_In, filter_In, <-list_elem_of_In, bool_decide_eq_true, elem_of_app. done.
  - generalize (essential ++ map event_id (drop (first_valid_event_index (events v) essential) (events v))). intros S. clear.
    induction (events v) as [|e l IH]; cbn; [constructor|]. by destruct (bool_decide _); constructor.
  - unfold first_valid_event_index. rewrite <-drop_drop. apply leading_observations_spec.
  - unfold first_valid_event_index. rewrite length_drop. lia.
Qed.

(** ** Instances *)

Definition told (i : Z) (text : string) : event :=
  {| _id := Some i; _timestamp := None; _source := Some USER; _cause := None; _timeout := None; _llm_metrics := None;
     _tool_call_metadata := None; _response_id := None; data := MessageAction text None None false RISK_UNKNOWN |}.
Definition observed (i cause : Z) : event :=
  {| _id := Some i; _timestamp := None; _source := None; _cause := Some cause; _timeout := None; _llm_metrics := None;
     _tool_call_metadata := None; _response_id := None; data := SuccessObservation "" |}.
Definition conversation : list event :=
  [ told 0 "task"; stamped 1 (RecallAction KNOWLEDGE "task" ""); observed 2 1; thinking 3; observed 4 3; thinking 5; observed 6 5;
    thinking 7; observed 8 7; request 9 ].

Lemma window_keeps_witness :
  exists action v', get_condensation conversation_window (view_of conversation) [] = (Ok action, []) /\
    from_events (conversation ++ [stamped 10 action]) = Ok v' /\ map event_id (events v') = [0; 1; 2; 7; 8] /\
    unhandled_condensation_request (view_of conversation) = true /\ unhandled_condensation_request v' = false.
Proof.
  assert (plain_inv conversation) as Hi by (split; [concrete_history|by vm_compute]).
  assert (Forall (fun e => event_id e < 10) conversation) as Hf by (repeat constructor; by vm_compute).
  destruct (window_keeps (view_of conversation) conversation [] 10 Hi ltac:(by vm_compute) ltac:(lia) Hf) as (action & v' & Eg & Ev & Hu & _).
  exists action, v'. split; [exact Eg|]. split; [exact Ev|]. vm_compute in Eg. injection Eg as <-. vm_compute in Ev. injection Ev as <-.
  by vm_compute.
Defined.

(** An LLM that names one event over and over. *)
Definition stubborn : LLMAttention := {| la_size := six_at_most; la_select := fun _ => Ok ([3; 3; 3; 3], VNone) |}.
Lemma attention_bound_witness :
  exists action batch v', get_condensation stubborn (view_of (thoughts 7)) [] = (Ok action, batch) /\
    from_events (thoughts 7 ++ [stamped 7 action]) = Ok v' /\ map event_id (events v') = [0; 3].
Proof.
  assert (sized_ok (la_size stubborn)) as Hc by (split; by vm_compute).
  assert (plain_inv (thoughts 7)) as Hi by (split; [concrete_history|by vm_compute]).
  assert (attention_able stubborn (view_of (thoughts 7))) as Ha by (split; [repeat constructor|done]).
  assert (Forall (fun e => event_id e < 7) (thoughts 7)) as Hf by (repeat constructor; by vm_compute).
  destruct (attention_bound stubborn (thoughts 7) (view_of (thoughts 7)) [] 7 Hc Hi ltac:(by vm_compute) Ha ltac:(lia) Hf) as (action & batch & v' & Eg & Ev & _).
  exists action, batch, v'. split; [exact Eg|]. split; [exact Ev|]. vm_compute in Eg. injection Eg as <- _. vm_compute in Ev. injection Ev as <-. by vm_compute.
Defined.

(** Calls made together: the window begins with the second call, and keeps the
    observation of the first, which it forgot. *)
Definition parallel_calls : list event :=
  [told 0 "task"; thinking 1; observed 2 1; thinking 3; thinking 4; observed 5 3; observed 6 4; request 7].
Example window_splits_parallel_calls : map event_id (window_view (events (view_of parallel_calls))) = [0; 4; 5; 6].
Proof. by vm_compute. Qed.
