(* ===== verification/PatchHeader.v ===== *)
(** * Patches: regular expressions, splitting and headers

    Models [resolver/patching/snippets.py] and the headers of
    [resolver/patching/patch.py].

    The header parsers delete the lines they have looked at from the list they
    were given, and [parse_patch] hands what is left to the parser of the
    changes: they are computations on the list of remaining lines.  The patterns
    are the source's own, compiled by [PyRegex]. *)

From S2P Require Import Prelude PyStr PyRegex.
From Stdlib Require Import Ascii.

(** ** Data *)

Inductive Version := VersionStr (s : string) | VersionInt (z : Z).
#[export] Instance Version_eq : EqDecision Version. Proof. solve_decision. Defined.

Record header := {
  index_path : option string;
  old_path : string;
  old_version : option Version;
  new_path : string;
  new_version : option Version;
}.
#[export] Instance header_eq : EqDecision header. Proof. solve_decision. Defined.

(** ** Splitting a list of lines at the lines that match *)

Definition matches_line (regex : re) (line : string) : bool := bool_decide (is_Some (match_ regex line)).

Fixpoint findall_from (i : nat) (items : list string) (regex : re) : list nat :=
  match items with
  | [] => []
  | x :: items' => if matches_line regex x then i :: findall_from (S i) items' regex
                   else findall_from (S i) items' regex
  end.
Definition findall_regex (items : list string) (regex : re) : list nat := findall_from 0 items regex.

(** The chunks between consecutive indices, and the one after the last. *)
Fixpoint chunks (items : list string) (indices : list nat) : list (list string) :=
  match indices with
  | [] => []
  | i :: rest =>
      match rest with
      | [] => [drop i items]
      | j :: _ => drop i (take j items) :: chunks items rest
      end
  end.
Definition split_by_regex (items : list string) (regex : re) : list (list string) :=
  match findall_regex items regex with
  | [] => [items]
  | (i :: _) as indices => take i items :: chunks items indices
  end.

Definition found (items : list string) (regex : re) : bool :=
  match findall_regex items regex with [] => false | _ => true end.

(** ** Patterns *)

Definition tab : string := String (chr 9) "".
Definition file_timestamp_str : string := "(.+?)(?:" +:+ tab +:+ "|:|  +)(.*)".

Definition diffcmd_header : re := compile false "^diff.* (.+) (.+)$".
Definition unified_header_index : re := compile false "^Index: (.+)$".
Definition unified_header_old_line : re := compile false ("^--- " +:+ file_timestamp_str +:+ "$").
Definition unified_header_new_line : re := compile false ("^\+\+\+ " +:+ file_timestamp_str +:+ "$").
Definition unified_hunk_start : re := compile false "^@@ -(\d+),?(\d*) \+(\d+),?(\d*) @@(.*)$".

Definition context_header_old_line : re := compile false ("^\*\*\* " +:+ file_timestamp_str +:+ "$").
Definition context_header_new_line : re := compile false ("^--- " +:+ file_timestamp_str +:+ "$").
Definition context_hunk_start : re := compile false "^\*\*\*\*\*\*\*\*\*\*\*\*\*\*\*$".
Definition context_hunk_old : re := compile false "^\*\*\* (\d+),?(\d*) \*\*\*\*$".
Definition context_hunk_new : re := compile false "^--- (\d+),?(\d*) ----$".
Definition context_change : re := compile false "^([-+ !]) (.*)$".

Definition ed_hunk_start : re := compile false "^(\d+),?(\d*)([acd])$".
Definition ed_hunk_end : re := compile false "^.$".
Definition rcs_ed_hunk_start : re := compile false "^([ad])(\d+) ?(\d*)$".

Definition default_hunk_start : re := compile false "^(\d+),?(\d*)([acd])(\d+),?(\d*)$".
Definition default_change : re := compile false "^([><]) (.*)$".

Definition git_diffcmd_header : re := compile false "^diff --git a/(.+) b/(.+)$".
Definition git_header_index : re := compile false "^index ([a-f0-9]+)..([a-f0-9]+) ?(\d*)$".
Definition git_header_old_line : re := compile false "^--- (.+)$".
Definition git_header_new_line : re := compile false "^\+\+\+ (.+)$".
Definition git_header_binary_file : re := compile false "^Binary files (.+) and (.+) differ".
Definition git_binary_patch_start : re := compile false "^GIT binary patch$".
Definition git_binary_literal_start : re := compile false "^literal (\d+)$".
Definition git_binary_delta_start : re := compile false "^delta (\d+)$".
Definition base85string : re := compile false "^[0-9A-Za-z!#$%&()*+;<=>?@^_`{|}~-]+$".

Definition svn_header_index : re := unified_header_index.
Definition svn_header_timestamp_version : re := compile false "\((?:working copy|revision (\d+))\)".
Definition svn_header_timestamp : re := compile false ".*(\(.*\))$".

Definition cvs_header_index : re := unified_header_index.
Definition cvs_header_rcs : re := compile false "^RCS file: (.+)(?:,\w{1}$|$)".
Definition cvs_header_timestamp : re := compile false ("(.+)" +:+ tab +:+ "([\d.]+)").
Definition cvs_header_timestamp_colon : re := compile false (":([\d.]+)" +:+ tab +:+ "(.+)").
Definition old_cvs_diffcmd_header : re := compile false "^diff.* (.+):(.*) (.+):(.*)$".

(** ** Headers *)

Definition nonempty_str (s : string) : option string := if String.eqb s "" then None else Some s.
Definition remove_prefix2 (p s : string) : string := if startswith p s then sdrop 2 s else s.

(** The loop shared by unified and context headers: an old line directly
    followed by a new line. *)
Fixpoint header_pair (old_line new_line : re) (lines : list string) : option header * list string :=
  match lines with
  | [] => (None, lines)
  | l0 :: rest =>
      match rest with
      | [] => (None, lines)
      | l1 :: rest' =>
          match match_ old_line l0 with
          | None => header_pair old_line new_line rest
          | Some o =>
              match match_ new_line l1 with
              | None => header_pair old_line new_line rest'
              | Some n =>
                  (Some {| index_path := None;
                           old_path := group 1 o; old_version := VersionStr <$> nonempty_str (group 2 o);
                           new_path := group 1 n; new_version := VersionStr <$> nonempty_str (group 2 n) |}, rest')
              end
          end
      end
  end.
Definition parse_unified_header : M (list string) (option header) := fun lines =>
  if negb (found lines unified_header_new_line) then (Ok None, lines)
  else let '(h, rest) := header_pair unified_header_old_line unified_header_new_line lines in (Ok h, rest).
Definition parse_context_header : M (list string) (option header) := fun lines =>
  if negb (found lines context_header_old_line) then (Ok None, lines)
  else let '(h, rest) := header_pair context_header_old_line context_header_new_line lines in (Ok h, rest).

(** Deleting lines up to and including the first one that matches. *)
Fixpoint take_match (regex : re) (lines : list string) : option caps * list string :=
  match lines with
  | [] => (None, [])
  | l :: rest => match match_ regex l with Some g => (Some g, rest) | None => take_match regex rest end
  end.

Definition parse_diffcmd_header : M (list string) (option header) := fun lines =>
  if negb (found lines diffcmd_header) then (Ok None, lines)
  else match take_match diffcmd_header lines with
       | (Some d, rest) => (Ok (Some {| index_path := None; old_path := group 1 d; old_version := None;
                                        new_path := group 2 d; new_version := None |}), rest)
       | (None, rest) => (Ok None, rest)
       end.

(** The local variables of [parse_git_header]. *)
Record git_state := {
  g_old_version : option string;
  g_new_version : option string;
  g_old_path : option string;
  g_new_path : option string;
  g_cmd_old_path : option string;
  g_cmd_new_path : option string;
}.
Definition git_state0 : git_state :=
  {| g_old_version := None; g_new_version := None; g_old_path := None; g_new_path := None;
     g_cmd_old_path := None; g_cmd_new_path := None |}.
(** One line: the new state, or a [continue] that skips the test for a
    complete header. *)
Definition git_line (line : string) (s : git_state) : git_state * bool :=
  match match_ git_diffcmd_header line with
  | Some hm => ({| g_old_version := g_old_version s; g_new_version := g_new_version s; g_old_path := g_old_path s;
                   g_new_path := g_new_path s; g_cmd_old_path := Some (group 1 hm);
                   g_cmd_new_path := Some (group 2 hm) |}, true)
  | None =>
      match match_ git_header_index line with
      | Some g => ({| g_old_version := Some (group 1 g); g_new_version := Some (group 2 g); g_old_path := g_old_path s;
                      g_new_path := g_new_path s; g_cmd_old_path := g_cmd_old_path s;
                      g_cmd_new_path := g_cmd_new_path s |}, true)
      | None =>
          let op := match match_ git_header_old_line line with Some o => Some (group 1 o) | None => g_old_path s end in
          let np := match match_ git_header_new_line line with Some n => Some (group 1 n) | None => g_new_path s end in
          let '(op, np) := match match_ git_header_binary_file line with
                           | Some b => (Some (group 1 b), Some (group 2 b))
                           | None => (op, np)
                           end in
          ({| g_old_version := g_old_version s; g_new_version := g_new_version s; g_old_path := op; g_new_path := np;
              g_cmd_old_path := g_cmd_old_path s; g_cmd_new_path := g_cmd_new_path s |}, false)
      end
  end.
Definition truthy (o : option string) : option string := o ≫= nonempty_str.

Fixpoint git_lines (lines : list string) (s : git_state) : git_state + header :=
  match lines with
  | [] => inl s
  | line :: rest =>
      let '(s', continue) := git_line line s in
      match (if continue : bool then None else truthy (g_old_path s')), truthy (g_new_path s') with
      | Some o, Some n =>
          inr {| index_path := None;
                 old_path := remove_prefix2 "a/" o; old_version := VersionStr <$> g_old_version s';
                 new_path := remove_prefix2 "b/" n; new_version := VersionStr <$> g_new_version s' |}
      | _, _ => git_lines rest s'
      end
  end.
Definition git_header_of (lines : list string) : option header :=
  match git_lines lines git_state0 with
  | inr h => Some h
  | inl s =>
      match truthy (g_cmd_old_path s), truthy (g_cmd_new_path s), truthy (g_old_version s), truthy (g_new_version s) with
      | Some o, Some n, Some ov, Some nv =>
          Some {| index_path := None;
                  old_path := if String.eqb ov "0000000" then "/dev/null" else remove_prefix2 "a/" o;
                  old_version := Some (VersionStr ov);
                  new_path := if String.eqb nv "0000000" then "/dev/null" else remove_prefix2 "b/" n;
                  new_version := Some (VersionStr nv) |}
      | _, _, _, _ => None
      end
  end.
(** [parse_git_header] only reads the lines. *)
Definition parse_git_header : M (list string) (option header) := fun lines => (Ok (git_header_of lines), lines).

Fixpoint first_header (check : list (re * M (list string) (option header))) : M (list string) (option header) :=
  fun lines =>
    match check with
    | [] => (Ok None, lines)
    | (regex, parser) :: rest => if found lines regex then parser lines else first_header rest lines
    end.
Definition parse_diff_header : M (list string) (option header) :=
  first_header
    [ (unified_header_new_line, parse_unified_header);
      (context_header_old_line, parse_context_header);
      (diffcmd_header, parse_diffcmd_header);
      (git_header_new_line, parse_git_header) ].

(** A header that names only the path of the index line. *)
Definition index_only (path : string) : header :=
  {| index_path := Some path; old_path := path; old_version := None; new_path := path; new_version := None |}.

(** [m and m.group(1)] read as an integer. *)
Definition revision (s : string) : res (option Z) :=
  match match_ svn_header_timestamp_version s with
  | Some g => match nonempty_str (group 1 g) with
              | Some d => z <-! py_int d ;; Ok (Some z)
              | None => Ok None
              end
  | None => Ok None
  end.
(** The path without its timestamp, and the revision that stands in the
    version or in the path. *)
Definition svn_path_version (path : string) (version : option Version) : res (string * option Z) :=
  match version with
  | Some (VersionStr v) => z <-! revision v ;; Ok (path, z)
  | Some (VersionInt z) => Ok (path, Some z)
  | None =>
      if String.eqb path "" then Ok (path, None)
      else match match_ svn_header_timestamp path with
           | Some ts => z <-! revision (group 1 ts) ;; Ok (slice_to path (- Z.of_nat (slen (group 1 ts))), z)
           | None => Ok (path, None)
           end
  end.
Definition parse_svn_header : M (list string) (option header) := fun lines =>
  if negb (found lines svn_header_index) then (Ok None, lines)
  else match take_match svn_header_index lines with
       | (None, rest) => (Ok None, rest)
       | (Some i, rest) =>
           (diff_header <- parse_diff_header ;;
            match diff_header with
            | None => retM (Some (index_only (group 1 i)))
            | Some dh =>
                o <- liftM (svn_path_version (old_path dh) (old_version dh)) ;;
                n <- liftM (svn_path_version (new_path dh) (new_version dh)) ;;
                retM (Some {| index_path := Some (group 1 i); old_path := o.1; old_version := VersionInt <$> o.2;
                              new_path := n.1; new_version := VersionInt <$> n.2 |})
            end) rest
       end.

Definition cvs_version (version : option Version) : option Version :=
  match version with
  | Some (VersionStr v) =>
      match match_ cvs_header_timestamp v with
      | Some e => Some (VersionStr (group 2 e))
      | None => match match_ cvs_header_timestamp_colon v with
                | Some e => Some (VersionStr (group 1 e))
                | None => version
                end
      end
  | _ => version
  end.
Definition parse_cvs_header : M (list string) (option header) := fun lines =>
  if found lines cvs_header_rcs
  then match take_match cvs_header_index lines with
       | (None, rest) => (Ok None, rest)
       | (Some i, rest) =>
           (diff_header <- parse_diff_header ;;
            match diff_header with
            | Some dh =>
                retM (Some {| index_path := Some (group 1 i);
                              old_path := old_path dh; old_version := cvs_version (old_version dh);
                              new_path := new_path dh; new_version := cvs_version (new_version dh) |})
            | None => retM (Some (index_only (group 1 i)))
            end) rest
       end
  else if found lines old_cvs_diffcmd_header
  then match take_match cvs_header_index lines with
       | (None, rest) => (Ok None, rest)
       | (Some i, []) => (Raise (OtherError "IndexError" "list index out of range"), [])
       | (Some i, (l :: _) as rest) =>
           match match_ old_cvs_diffcmd_header l with
           | None => (Ok (Some (index_only (group 1 i))), rest)
           | Some d =>
               (_ <- parse_diff_header ;;
                retM (Some {| index_path := Some (group 1 i);
                              old_path := group 1 d; old_version := VersionStr <$> nonempty_str (group 2 d);
                              new_path := group 3 d; new_version := VersionStr <$> nonempty_str (group 4 d) |})) rest
           end
       end
  else (Ok None, lines).

(** Headers in a repository diff: with a [diff --git] line, the prefixes of
    the paths are removed once more. *)
Definition scm_parser (parser : M (list string) (option header)) : M (list string) (option header) := fun lines =>
  if found lines git_diffcmd_header
  then (res <- parser ;;
        retM (match res with
              | Some h => Some {| index_path := index_path h;
                                  old_path := remove_prefix2 "a/" (old_path h); old_version := old_version h;
                                  new_path := remove_prefix2 "b/" (new_path h); new_version := new_version h |}
              | None => None
              end)) lines
  else parser lines.
Definition parse_scm_header : M (list string) (option header) :=
  first_header
    [ (git_header_index, scm_parser parse_git_header);
      (old_cvs_diffcmd_header, scm_parser parse_cvs_header);
      (cvs_header_rcs, scm_parser parse_cvs_header);
      (svn_header_index, scm_parser parse_svn_header) ].

Definition parse_header : M (list string) (option header) :=
  h <- parse_scm_header ;;
  match h with
  | None => parse_diff_header
  | Some h => retM (Some h)
  end.

(** ** Splitting undoes putting blocks together *)

Section split.
Context (regex : re).

Definition quiet (l : list string) : Prop := Forall (fun x => matches_line regex x = false) l.
(** A block: a line that matches and lines that do not. *)
Definition block_ok (b : string * list string) : Prop := matches_line regex b.1 = true /\ quiet b.2.
Definition block_lines (b : string * list string) : list string := b.1 :: b.2.
Fixpoint positions (k : nat) (bs : list (string * list string)) : list nat :=
  match bs with [] => [] | b :: rest => k :: positions (k + length (block_lines b)) rest end.

Lemma findall_from_app i a b : findall_from i (a ++ b) regex = findall_from i a regex ++ findall_from (i + length a) b regex.
Proof.
  revert i; induction a as [|x a IH]; intros i; cbn [app findall_from length]; [by rewrite Nat.add_0_r|].
  rewrite IH. replace (S i + length a)%nat with (i + S (length a))%nat by lia. by destruct (matches_line regex x).
Qed.
Lemma findall_quiet i l : quiet l -> findall_from i l regex = [].
Proof. intros H. revert i; induction H as [|x l Hx Hl IH]; intros i; cbn [findall_from]; [done|]. by rewrite Hx. Qed.
Lemma findall_blocks bs : forall i, Forall block_ok bs ->
  findall_from i (flat_map block_lines bs) regex = positions i bs.
Proof.
  induction bs as [|[h b] bs IH]; intros i H; [done|]. apply Forall_cons in H as [[Hh Hb] H].
  cbn [flat_map positions]. rewrite findall_from_app, IH by done. cbn [block_lines fst snd findall_from] in *.
  by rewrite Hh, findall_quiet.
Qed.
Lemma chunks_blocks bs : forall pre, chunks (pre ++ flat_map block_lines bs) (positions (length pre) bs) = map block_lines bs.
Proof.
  induction bs as [|b bs IH]; intros pre; [done|]. cbn [positions flat_map map chunks].
  specialize (IH (pre ++ block_lines b)). rewrite length_app, <-app_assoc in IH. destruct bs as [|b' bs].
  - cbn [positions flat_map map]. by rewrite drop_app_length, app_nil_r.
  - cbn [positions] in IH |- *. rewrite IH. f_equal. rewrite app_assoc, <-length_app.
    by rewrite take_app_length, drop_app_length.
Qed.
Lemma split_blocks pre bs : quiet pre -> Forall block_ok bs -> bs <> [] ->
  split_by_regex (pre ++ flat_map block_lines bs) regex = pre :: map block_lines bs.
Proof.
  intros Hp Hb Hn. unfold split_by_regex, findall_regex. rewrite findall_from_app, findall_quiet by done.
  rewrite app_nil_l, Nat.add_0_l, findall_blocks by done.
  destruct bs as [|b bs]; [done|]. cbn [positions].
  rewrite take_app_length. f_equal. apply (chunks_blocks (b :: bs)).
Qed.
Lemma split_quiet l : quiet l -> split_by_regex l regex = [l].
Proof. intros H. unfold split_by_regex, findall_regex. by rewrite findall_quiet. Qed.
Lemma found_spec l : found l regex = existsb (matches_line regex) l.
Proof.
  unfold found, findall_regex. generalize 0%nat. induction l as [|x l IH]; intros i; cbn [findall_from existsb]; [done|].
  destruct (matches_line regex x); [done|apply IH].
Qed.
Lemma take_match_quiet l : quiet l -> take_match regex l = (None, []).
Proof.
  induction 1 as [|x l Hx Hl IH]; [done|]. cbn [take_match]. unfold matches_line in Hx.
  apply bool_decide_eq_false in Hx. destruct (match_ regex x); [by destruct Hx|done].
Qed.
Lemma matches_line_some x g : match_ regex x = Some g -> matches_line regex x = true.
Proof. intros E. unfold matches_line. rewrite E. by apply bool_decide_eq_true. Qed.
End split.
