(* ===== verification/PatchDiff.v ===== *)
(** * Patches: the lists of changes

    Models the diff parsers of [resolver/patching/patch.py] (unified, context,
    default, ed, RCS ed and git binary) and [parse_patch].

    A change says which line of the old text it removes ([old]), which line of
    the new text it adds ([new]), or both for a line of context.  The parsers
    count lines in local variables that outlive a hunk; those are records here.
    [zlib.decompress] is a parameter. *)

From S2P Require Import Prelude PyStr PyRegex PatchHeader.
From Stdlib Require Import Ascii.

(** The text of a line, or the bytes of a binary file. *)
Inductive payload := Txt (s : string) | Bin (b : string).
(** [Change.hunk]: a number; the parser of binary diffs puts removed data there. *)
Inductive hunk_ref := HunkNo (n : Z) | HunkData (b : string).
#[export] Instance payload_eq : EqDecision payload. Proof. solve_decision. Defined.
#[export] Instance hunk_ref_eq : EqDecision hunk_ref. Proof. solve_decision. Defined.

Record Change := { old : option Z; new : option Z; line : option payload; hunk : option hunk_ref }.
#[export] Instance Change_eq : EqDecision Change. Proof. solve_decision. Defined.

Record diffobj := { diff_header : option header; changes : option (list Change); text : string }.
#[export] Instance diffobj_eq : EqDecision diffobj. Proof. solve_decision. Defined.

Definition change (o n : option Z) (l : string) (hunk_n : nat) : Change :=
  {| old := o; new := n; line := Some (Txt l); hunk := Some (HunkNo (Z.of_nat hunk_n)) |}.
Definition removal (o : Z) (hunk_n : nat) : Change :=
  {| old := Some o; new := None; line := None; hunk := Some (HunkNo (Z.of_nat hunk_n)) |}.

(** [if len(changes) > 0: return changes; return None] *)
Definition some_changes (l : list Change) : option (list Change) := match l with [] => None | _ => Some l end.
Definition int_or (default : Z) (s : string) : res Z := if String.eqb s "" then Ok default else py_int s.

(** [raise exceptions.ParseException(msg, hunk_n)] *)
Definition parse_exception {A} (msg : string) (hunk_n : nat) : res A :=
  Raise (OtherError "ParseException" (msg +:+ ", in hunk #" +:+ str_of_Z (Z.of_nat hunk_n))).
Definition unbound {A} (name : string) : res A :=
  Raise (OtherError "UnboundLocalError"
           ("cannot access local variable '" +:+ name +:+ "' where it is not associated with a value")).

(** The loop over hunks: a computation on the local variables per hunk. *)
Fixpoint each_hunk {T A} (body : nat -> list A -> T -> res T) (hunk_n : nat) (hunks : list (list A)) (s : T) : res T :=
  match hunks with
  | [] => Ok s
  | h :: rest => s' <-! body hunk_n h s ;; each_hunk body (S hunk_n) rest s'
  end.

(** ** Unified diffs *)

Record unified_state := { u_old : Z; u_old_len : Z; u_new : Z; u_new_len : Z; u_changes : list Change }.

(** The lines of a hunk, from [r] old and [i] new lines on. *)
Fixpoint unified_lines (s : unified_state) (hunk_n : nat) (r i : Z) (lines : list string) : list Change :=
  match lines with
  | [] => []
  | n :: rest =>
      let kind := match n with String c _ => c | EmptyString => chr 32 end in
      let l := sdrop 1 n in
      if is_c 45 kind && (negb (r =? u_old_len s) || (r =? 0))
      then change (Some (u_old s + r)) None l hunk_n :: unified_lines s hunk_n (r + 1) i rest
      else if is_c 43 kind && (negb (i =? u_new_len s) || (i =? 0))
      then change None (Some (u_new s + i)) l hunk_n :: unified_lines s hunk_n r (i + 1) rest
      else if is_c 32 kind
      then change (Some (u_old s + r)) (Some (u_new s + i)) l hunk_n :: unified_lines s hunk_n (r + 1) (i + 1) rest
      else unified_lines s hunk_n r i rest
  end.
Definition unified_hunk (hunk_n : nat) (h : list string) (s : unified_state) : res unified_state :=
  let '(m, rest) := take_match unified_hunk_start h in
  s' <-! match m with
         | None => Ok s
         | Some g =>
             o <-! py_int (group 1 g) ;; ol <-! int_or 1 (group 2 g) ;;
             n <-! py_int (group 3 g) ;; nl <-! int_or 1 (group 4 g) ;;
             Ok {| u_old := o; u_old_len := ol; u_new := n; u_new_len := nl; u_changes := u_changes s |}
         end ;;
  Ok {| u_old := u_old s'; u_old_len := u_old_len s'; u_new := u_new s'; u_new_len := u_new_len s';
        u_changes := u_changes s' ++ unified_lines s' hunk_n 0 0 rest |}.
Definition parse_unified_diff (lines : list string) : res (option (list Change)) :=
  s <-! each_hunk unified_hunk 0 (split_by_regex lines unified_hunk_start)
          {| u_old := 0; u_old_len := 0; u_new := 0; u_new_len := 0; u_changes := [] |} ;;
  Ok (some_changes (u_changes s)).

(** ** Default diffs *)

Record default_state := {
  d_old : Z; d_old_len : Z; d_new : Z; d_new_len : Z; d_r : Z; d_i : Z; d_changes : list Change }.

Definition range_len (start : Z) (last : string) : res Z :=
  if String.eqb last "" then Ok 0 else z <-! py_int last ;; Ok (z - start + 1).
Definition default_line (hunk_n : nat) (l : string) (s : default_state) : res default_state :=
  match match_ default_hunk_start l, match_ default_change l with
  | Some h, _ =>
      o <-! py_int (group 1 h) ;; ol <-! range_len o (group 2 h) ;;
      n <-! py_int (group 4 h) ;; nl <-! range_len n (group 5 h) ;;
      Ok {| d_old := o; d_old_len := ol; d_new := n; d_new_len := nl;
            d_r := d_r s; d_i := d_i s; d_changes := d_changes s |}
  | None, Some c =>
      let kind := group 1 c in let txt := group 2 c in
      if String.eqb kind "<" && (negb (d_r s =? d_old_len s) || (d_r s =? 0))
      then Ok {| d_old := d_old s; d_old_len := d_old_len s; d_new := d_new s; d_new_len := d_new_len s;
                 d_r := d_r s + 1; d_i := d_i s;
                 d_changes := d_changes s ++ [change (Some (d_old s + d_r s)) None txt hunk_n] |}
      else if String.eqb kind ">" && (negb (d_i s =? d_new_len s) || (d_i s =? 0))
      then Ok {| d_old := d_old s; d_old_len := d_old_len s; d_new := d_new s; d_new_len := d_new_len s;
                 d_r := d_r s; d_i := d_i s + 1;
                 d_changes := d_changes s ++ [change None (Some (d_new s + d_i s)) txt hunk_n] |}
      else Ok s
  | None, None => Ok s
  end.
Fixpoint default_lines (hunk_n : nat) (h : list string) (s : default_state) : res default_state :=
  match h with
  | [] => Ok s
  | l :: rest => s' <-! default_line hunk_n l s ;; default_lines hunk_n rest s'
  end.
Definition default_hunk (hunk_n : nat) (h : list string) (s : default_state) : res default_state :=
  match h with
  | [] => Ok s
  | _ => default_lines hunk_n h
           {| d_old := d_old s; d_old_len := d_old_len s; d_new := d_new s; d_new_len := d_new_len s;
              d_r := 0; d_i := 0; d_changes := d_changes s |}
  end.
Definition parse_default_diff (lines : list string) : res (option (list Change)) :=
  s <-! each_hunk default_hunk 0 (split_by_regex lines default_hunk_start)
          {| d_old := 0; d_old_len := 0; d_new := 0; d_new_len := 0; d_r := 0; d_i := 0; d_changes := [] |} ;;
  Ok (some_changes (d_changes s)).

(** ** Context diffs *)

(** [old_len] and [new_len] have no value before the first hunk sets them. *)
Record context_state := {
  c_old : Z; c_old_len : option Z; c_new : Z; c_new_len : option Z; c_changes : list Change }.

(** Reading a local variable that may have no value. *)
Definition local (name : string) (v : option Z) : res Z := match v with Some z => Ok z | None => unbound name end.
Definition with_changes (s : context_state) (l : list Change) : context_state :=
  {| c_old := c_old s; c_old_len := c_old_len s; c_new := c_new s; c_new_len := c_new_len s; c_changes := c_changes s ++ l |}.

(** [x != len or x == 0] *)
Definition within (x : Z) (name : string) (len : option Z) : res bool :=
  v <-! local name len ;; Ok (negb (x =? v) || (x =? 0)).
(** [(j != old_len and k != new_len) or (j == 0 or k == 0)] *)
Definition both_within (s : context_state) (j k : Z) : res bool :=
  ol <-! local "old_len" (c_old_len s) ;;
  both <-! (if j =? ol then Ok false
            else nl <-! local "new_len" (c_new_len s) ;; Ok (negb (k =? nl))) ;;
  Ok (both || (j =? 0) || (k =? 0)).

Definition cons_ok (c : Change) (r : res (list Change)) : res (list Change) := l <-! r ;; Ok (c :: l).

(** Only one of the two parts has lines: removals ([kind_in] is [-]) or
    insertions ([+]). *)
Fixpoint one_sided (s : context_state) (hunk_n : nat) (removing : bool) (j k : Z) (lines : list string) : res (list Change) :=
  match lines with
  | [] => Ok []
  | l :: rest =>
      match match_ context_change l with
      | None => one_sided s hunk_n removing j k rest
      | Some c =>
          let kind := group 1 c in let txt := group 2 c in
          take <-! (if String.eqb kind (if removing then "-" else "+")
                    then if removing then within j "old_len" (c_old_len s) else within k "new_len" (c_new_len s)
                    else Ok false) ;;
          if take : bool then
            if removing
            then cons_ok (change (Some (c_old s + j)) None txt hunk_n) (one_sided s hunk_n removing (j + 1) k rest)
            else cons_ok (change None (Some (c_new s + k)) txt hunk_n) (one_sided s hunk_n removing j (k + 1) rest)
          else
            same <-! (if String.eqb kind " " then both_within s j k else Ok false) ;;
            if same : bool then
              cons_ok (change (Some (c_old s + j)) (Some (c_new s + k)) txt hunk_n)
                (one_sided s hunk_n removing (j + 1) (k + 1) rest)
            else if String.eqb kind (if removing then "+" else "-") || String.eqb kind "!"
            then parse_exception ("Got unexpected change in removal hunk: " +:+ kind) hunk_n
            else one_sided s hunk_n removing j k rest
      end
  end.

(** Both parts have lines; [None] when they cannot be matched up. *)
Definition okcons (c : Change) (r : res (option (list Change))) : res (option (list Change)) :=
  o <-! r ;; Ok (cons c <$> o).
Fixpoint two_sided (s : context_state) (hunk_n : nat) (old_hunk : list string)
    : list string -> Z -> Z -> res (option (list Change)) :=
  match old_hunk with
  | [] => fun _ _ _ => Ok (Some [])
  | ol :: orest =>
      fix inner (new_hunk : list string) (j k : Z) {struct new_hunk} : res (option (list Change)) :=
        match new_hunk with
        | [] => Ok (Some [])
        | nl :: nrest =>
            let oc := match_ context_change ol in
            let nc := match_ context_change nl in
            let okind := match oc with Some g => group 1 g | None => "" end in
            let nkind := match nc with Some g => group 1 g | None => "" end in
            let oline := match oc with Some g => group 2 g | None => "" end in
            let nline := match nc with Some g => group 2 g | None => "" end in
            if bool_decide (oc = None) && bool_decide (nc = None) then two_sided s hunk_n orest nrest j k
            else if String.eqb okind " " && String.eqb nkind " " && String.eqb oline nline
            then okcons (change (Some (c_old s + j)) (Some (c_new s + k)) oline hunk_n)
                   (two_sided s hunk_n orest nrest (j + 1) (k + 1))
            else
              gone <-! (if String.eqb okind "-" then Ok true
                        else if String.eqb okind "!" then within j "old_len" (c_old_len s) else Ok false) ;;
              if gone : bool
              then okcons (change (Some (c_old s + j)) None oline hunk_n) (two_sided s hunk_n orest new_hunk (j + 1) k)
              else
                added <-! (if String.eqb nkind "+" then Ok true
                           else if String.eqb nkind "!" then within k "new_len" (c_new_len s) else Ok false) ;;
                if added : bool
                then okcons (change None (Some (c_new s + k)) nline hunk_n) (inner nrest j (k + 1))
                else Ok None
        end
  end.

(** The two range lines of a hunk. *)
Definition context_ranges (old_hunk new_hunk : list string) (s : context_state)
    : res (list string * list string * context_state) :=
  match take_match context_hunk_old old_hunk with
  | (None, orest) => Ok (orest, new_hunk, s)
  | (Some o, orest) =>
      co <-! py_int (group 1 o) ;; ce <-! py_int (group 2 o) ;;
      let s1 := {| c_old := co; c_old_len := Some (ce + 1 - co); c_new := c_new s; c_new_len := c_new_len s;
                   c_changes := c_changes s |} in
      match take_match context_hunk_new new_hunk with
      | (None, nrest) => Ok (orest, nrest, s1)
      | (Some n, nrest) =>
          cn <-! py_int (group 1 n) ;; ne <-! py_int (group 2 n) ;;
          Ok (orest, nrest,
              {| c_old := co; c_old_len := Some (ce + 1 - co); c_new := cn; c_new_len := Some (ne + 1 - cn);
                 c_changes := c_changes s |})
      end
  end.

(** One hunk; [None] when the parser gives up and returns [None]. *)
Definition context_hunk (hunk_n : nat) (h : list string) (st : option context_state) : res (option context_state) :=
  match st, h with
  | None, _ => Ok None
  | _, [] => Ok st
  | Some s, _ =>
      match split_by_regex h context_hunk_new with
      | [old_hunk; new_hunk] =>
          rs <-! context_ranges old_hunk new_hunk s ;;
          let '(old_rest, new_rest, s') := rs in
          match old_rest, new_rest with
          | _ :: _, [] => l <-! one_sided s' hunk_n true 0 0 old_rest ;; Ok (Some (with_changes s' l))
          | [], _ :: _ => l <-! one_sided s' hunk_n false 0 0 new_rest ;; Ok (Some (with_changes s' l))
          | _, _ => o <-! two_sided s' hunk_n old_rest new_rest 0 0 ;; Ok (with_changes s' <$> o)
          end
      | _ => parse_exception "Context diff invalid" hunk_n
      end
  end.
Definition parse_context_diff (lines : list string) : res (option (list Change)) :=
  st <-! each_hunk context_hunk 0 (split_by_regex lines context_hunk_start)
           (Some {| c_old := 0; c_old_len := None; c_new := 0; c_new_len := None; c_changes := [] |}) ;;
  Ok (st ≫= fun s => some_changes (c_changes s)).

(** ** Ed scripts *)

Record ed_state := { e_r : Z; e_i : Z; e_changes : list Change }.

(** Removing lines [o], [o + 1], ... up to [o_end]. *)
Definition removals (o o_end : Z) (hunk_n : nat) : list Change :=
  map (fun k => removal (o + k) hunk_n) (seqZ 0 (o_end - o + 1)).
Definition ed_remove (o o_end : Z) (hunk_n : nat) (s : ed_state) : ed_state :=
  {| e_r := e_r s + Z.max 0 (o_end - o + 1); e_i := e_i s; e_changes := e_changes s ++ removals o o_end hunk_n |}.
Definition ed_add (n : Z) (l : string) (hunk_n : nat) (s : ed_state) : ed_state :=
  {| e_r := e_r s; e_i := e_i s + 1; e_changes := e_changes s ++ [change None (Some n) l hunk_n] |}.

(** The text lines after an [a] or [c] command, down to the end of the hunk:
    the first line of a [c] command removes the old ones ([pending]). *)
Fixpoint ed_text (kind : string) (o : Z) (pending : option Z) (j : Z) (hunk_n : nat) (h : list string) (s : ed_state)
    : ed_state :=
  match h with
  | [] => s
  | l :: rest =>
      if matches_line ed_hunk_end l then ed_text kind o pending j hunk_n rest s
      else if String.eqb kind "c"
      then
        let o_end := match pending with Some e => e | None => o - 1 end in
        let s1 := ed_remove o o_end hunk_n s in
        let k := Z.max 0 (o_end - o + 1) in
        ed_text kind o None (j + 1) hunk_n rest (ed_add (o - e_r s1 + e_i s1 + k + j) l hunk_n s1)
      else if String.eqb kind "a"
      then ed_text kind o pending j hunk_n rest (ed_add (o - e_r s + e_i s + 1) l hunk_n s)
      else ed_text kind o pending j hunk_n rest s
  end.
(** Lines up to a command are skipped; a [d] command goes on with the lines
    after it, the others take the whole hunk. *)
Fixpoint ed_lines (hunk_n : nat) (h : list string) (s : ed_state) : res ed_state :=
  match h with
  | [] => Ok s
  | l :: rest =>
      match match_ ed_hunk_start l with
      | None => ed_lines hunk_n rest s
      | Some g =>
          o <-! py_int (group 1 g) ;; o_end <-! int_or o (group 2 g) ;;
          let kind := group 3 g in
          if String.eqb kind "d" then ed_lines hunk_n rest (ed_remove o o_end hunk_n s)
          else Ok (ed_text kind o (Some o_end) 0 hunk_n rest s)
      end
  end.
Definition parse_ed_diff (lines : list string) : res (option (list Change)) :=
  s <-! each_hunk ed_lines 0 (rev (split_by_regex lines ed_hunk_start)) {| e_r := 0; e_i := 0; e_changes := [] |} ;;
  Ok (some_changes (e_changes s)).

(** ** RCS ed scripts *)

(** [size] lines are still to be added by the command that was read last. *)
Fixpoint rcs_lines (hunk_n : nat) (o j size total : Z) (h : list string) (acc : list Change) : res (list Change * Z) :=
  match h with
  | [] => Ok (acc, total)
  | l :: rest =>
      if 0 <? size
      then rcs_lines hunk_n o (j + 1) (size - 1) total rest (acc ++ [change None (Some (o + j)) l hunk_n])
      else
        match match_ rcs_ed_hunk_start l with
        | None => rcs_lines hunk_n o j 0 total rest acc
        | Some g =>
            o' <-! py_int (group 2 g) ;; size' <-! int_or 0 (group 3 g) ;;
            if String.eqb (group 1 g) "a"
            then rcs_lines hunk_n (o' + total + 1) j size' (total + size') rest acc
            else rcs_lines hunk_n o' (j + size') 0 (total - size') rest
                   (acc ++ map (fun k => removal (o' + j + k) hunk_n) (seqZ 0 size'))
        end
  end.
Definition rcs_hunk (hunk_n : nat) (h : list string) (s : list Change * Z) : res (list Change * Z) :=
  rcs_lines hunk_n 0 0 0 s.2 h s.1.
Definition parse_rcs_ed_diff (lines : list string) : res (option (list Change)) :=
  s <-! each_hunk rcs_hunk 0 (split_by_regex lines rcs_ed_hunk_start) ([], 0) ;;
  Ok (some_changes s.1).

(** ** Git binary diffs *)

(** The alphabet of [base64.b85encode], and [base64.b85decode]. *)
Definition b85alphabet : string :=
  "0123456789ABCDEFGHIJKLMNOPQRSTUVWXYZabcdefghijklmnopqrstuvwxyz!#$%&()*+-;<=>?@^_`{|}~".
Fixpoint index_of (c : ascii) (s : string) : option Z :=
  match s with
  | EmptyString => None
  | String d s' => if Ascii.eqb c d then Some 0 else Z.succ <$> index_of c s'
  end.
Fixpoint b85_value (at_ : Z) (acc : Z) (s : string) : res Z :=
  match s with
  | EmptyString => Ok acc
  | String c s' =>
      match index_of c b85alphabet with
      | Some v => b85_value (at_ + 1) (acc * 85 + v) s'
      | None => Raise (ValueError ("bad base85 character at position " +:+ str_of_Z at_))
      end
  end.
Definition pack32 (z : Z) : string :=
  String (chr (z / 16777216 mod 256)) (String (chr (z / 65536 mod 256)) (String (chr (z / 256 mod 256)) (String (chr (z mod 256)) ""))).
Fixpoint b85_chunks (fuel : nat) (at_ : Z) (s : string) : res string :=
  match fuel, s with
  | S f, String _ _ =>
      v <-! b85_value at_ 0 (stake 5 s) ;;
      if 4294967296 <=? v
      then Raise (ValueError ("base85 overflow in hunk starting at byte " +:+ str_of_Z at_))
      else r <-! b85_chunks f (at_ + 5) (sdrop 5 s) ;; Ok (pack32 v +:+ r)
  | _, _ => Ok ""
  end.
Definition b85decode (s : string) : res string :=
  let padding := ((5 - slen s mod 5) mod 5)%nat in
  let padded := s +:+ Nat.iter padding (String (chr 126)) "" in
  out <-! b85_chunks (slen padded) 0 padded ;; Ok (stake (slen out - padding) out).

Section binary.
(** [zlib.decompress] *)
Context (decompress : string -> res string).

(** The [literal] block that is being read: its size and the text so far. *)
Record literal := { l_size : Z; l_encoded : string }.
Definition no_literal : literal := {| l_size := 0; l_encoded := "" |}.

Definition literal_text (l : literal) (line : string) (found : string -> Change) : res (literal * list Change) :=
  if matches_line base85string line
  then if (6 <=? slen line)%nat && (Nat.eqb ((slen line - 1) mod 5) 0)
       then Ok ({| l_size := l_size l; l_encoded := l_encoded l +:+ sdrop 1 line |}, [])
       else Raise (OtherError "AssertionError" "")
  else if String.eqb line ""
  then if String.eqb (l_encoded l) "" then Ok (no_literal, [])
       else decoded <-! b85decode (l_encoded l) ;; data <-! decompress decoded ;;
            if l_size l =? Z.of_nat (slen data) then Ok (no_literal, [found data])
            else Raise (OtherError "AssertionError" "")
  else Ok (no_literal, []).

Record binary_state := {
  b_versions : bool; b_paths : bool; b_new : literal; b_old : literal; b_changes : list Change }.

(** The second half of an iteration, on the removed file. *)
Definition binary_old (s : binary_state) (line : string) : res binary_state :=
  let keep l cs := {| b_versions := b_versions s; b_paths := b_paths s; b_new := b_new s; b_old := l;
                      b_changes := b_changes s ++ cs |} in
  if l_size (b_old s) =? 0
  then match match_ git_binary_literal_start line with
       | Some g => z <-! py_int (group 1 g) ;; Ok (keep {| l_size := z; l_encoded := l_encoded (b_old s) |} [])
       | None => Ok s
       end
  else r <-! literal_text (b_old s) line
                (fun data => {| old := Some 0; new := None; line := None; hunk := Some (HunkData data) |}) ;;
       Ok (keep r.1 r.2).
(** One line; [continue] skips the half for the removed file. *)
Definition binary_line (s : binary_state) (line : string) : res binary_state :=
  let set p v l cs := {| b_versions := v; b_paths := p; b_new := l; b_old := b_old s; b_changes := b_changes s ++ cs |} in
  if negb (b_paths s) && matches_line git_diffcmd_header line then Ok (set true (b_versions s) (b_new s) [])
  else if negb (b_versions s) && matches_line git_header_index line then Ok (set (b_paths s) true (b_new s) [])
  else if l_size (b_new s) =? 0
  then match match_ git_binary_literal_start line with
       | Some g => z <-! py_int (group 1 g) ;;
                   Ok (set (b_paths s) (b_versions s) {| l_size := z; l_encoded := l_encoded (b_new s) |} [])
       | None => if matches_line git_binary_delta_start line then Ok s else binary_old s line
       end
  else r <-! literal_text (b_new s) line
                (fun data => {| old := None; new := Some 0; line := Some (Bin data); hunk := None |}) ;;
       binary_old (set (b_paths s) (b_versions s) r.1 r.2) line.
Fixpoint binary_lines (s : binary_state) (lines : list string) : res binary_state :=
  match lines with
  | [] => Ok s
  | l :: rest => s' <-! binary_line s l ;; binary_lines s' rest
  end.
Definition parse_git_binary_diff (lines : list string) : res (option (list Change)) :=
  s <-! binary_lines {| b_versions := false; b_paths := false; b_new := no_literal; b_old := no_literal;
                        b_changes := [] |} lines ;;
  Ok (Some (b_changes s)).

(** ** [parse_diff] and [parse_patch] *)

Fixpoint first_diff (check : list (re * (list string -> res (option (list Change))))) (lines : list string)
    : res (option (list Change)) :=
  match check with
  | [] => Ok None
  | (regex, parser) :: rest => if found lines regex then parser lines else first_diff rest lines
  end.
Definition parse_diff : list string -> res (option (list Change)) :=
  first_diff
    [ (unified_hunk_start, parse_unified_diff);
      (context_hunk_start, parse_context_diff);
      (default_hunk_start, parse_default_diff);
      (ed_hunk_start, parse_ed_diff);
      (rcs_ed_hunk_start, parse_rcs_ed_diff);
      (git_binary_patch_start, parse_git_binary_diff) ].

(** [x if len(x) == 0 else x.splitlines()[0]] *)
Definition first_line (x : string) : string := match splitlines x with l :: _ => l | [] => x end.

(** The first pattern that cuts the text into more than one part. *)
Fixpoint split_patch (check : list re) (lines : list string) : list (list string) :=
  match check with
  | [] => [lines]
  | c :: rest => match split_by_regex lines c with
                 | (_ :: _ :: _) as diffs => diffs
                 | _ => split_patch rest lines
                 end
  end.
Definition patch_check : list re :=
  [ unified_header_index; diffcmd_header; cvs_header_rcs; git_header_index; context_header_old_line;
    unified_header_old_line ].

(** One part of the patch; the parser of the changes gets the lines that the
    parser of the header has left. *)
Definition parse_part (diff : list string) : res (option diffobj) :=
  let '(h, rest) := parse_header diff in
  h <-! h ;; d <-! parse_diff rest ;;
  match h, d with
  | None, None | None, Some [] => Ok None
  | _, _ => Ok (Some {| diff_header := h; changes := d; text := join newline diff +:+ newline |})
  end.
(** The generator: what it yields, and the exception that ends it. *)
Fixpoint yield_parts (diffs : list (list string)) : list diffobj * option exn :=
  match diffs with
  | [] => ([], None)
  | diff :: rest =>
      match parse_part diff with
      | Raise e => ([], Some e)
      | Ok None => yield_parts rest
      | Ok (Some d) => let '(ds, e) := yield_parts rest in (d :: ds, e)
      end
  end.
Definition parse_patch_lines (lines : list string) : list diffobj * option exn :=
  yield_parts (split_patch patch_check (map first_line lines)).
Definition parse_patch (txt : string) : list diffobj * option exn := parse_patch_lines (splitlines txt).

End binary.
