(* ===== verification/PatchApply.v ===== *)
(** * Patches: applying changes to a text

    Models [resolver/patching/apply.py] without the call of the external
    [patch] program ([use_patch]).

    An edit script is the specification: what happens to each line of the old
    text.  [changes_of] are the changes a diff lists for it, [old_text] and
    [new_text] the texts before and after. *)

From S2P Require Import Prelude PyStr PyList PatchHeader PatchDiff.
From Stdlib Require Import Ascii.

(** ** The code *)

(** [del lines[k]] *)
Definition py_del {A} (l : list A) (k : Z) : res (list A) :=
  let i := if k <? 0 then k + Z.of_nat (length l) else k in
  if (i <? 0) || (Z.of_nat (length l) <=? i)
  then Raise (OtherError "IndexError" "list assignment index out of range")
  else Ok (take (Z.to_nat i) l ++ drop (S (Z.to_nat i)) l).

(** [str.format] of a line; the [repr] of bytes. *)
Definition byte_repr (q c : ascii) : string :=
  if 127 <=? ord c then "\x" +:+ String (hex_char (ord c / 16)) (String (hex_char (ord c mod 16)) "") else repr_char q c.
Fixpoint bytes_body (q : ascii) (b : string) : string :=
  match b with EmptyString => "" | String c b' => byte_repr q c +:+ bytes_body q b' end.
Definition bytes_repr (b : string) : string :=
  let q := if sexists (fun c => ord c =? 39) b && negb (sexists (fun c => ord c =? 34) b) then chr 34 else chr 39 in
  String (chr 98) (String q (bytes_body q b +:+ String q "")).
Definition format_payload (p : payload) : string := match p with Txt s => s | Bin b => bytes_repr b end.

(** [' '.join(line.split())] *)
Definition normalized_text (s : string) : string := join " " (split_ws s).
Definition normalized (p : payload) : res string :=
  match p with
  | Txt s => Ok (normalized_text s)
  | Bin b => match split_ws b with
             | [] => Ok ""
             | _ => Raise (TypeError "sequence item 0: expected str instance, bytes found")
             end
  end.

(** [', in hunk #{n}'] when the hunk is known *)
Definition hunk_exception {A} (msg : string) (h : option hunk_ref) : res A :=
  Raise (OtherError "HunkApplyException"
           (msg +:+ match h with
                    | Some (HunkNo n) => ", in hunk #" +:+ str_of_Z n
                    | Some (HunkData b) => ", in hunk #" +:+ bytes_repr b
                    | None => ""
                    end)).

Definition _reverse (changes : list Change) : list Change :=
  map (fun c => {| old := new c; new := old c; line := line c; hunk := hunk c |}) changes.

(** The source text has to match the line of the diff. *)
Definition check_change (lines : list payload) (c : Change) : res unit :=
  match old c, line c with
  | Some o, Some l =>
      if Z.of_nat (length lines) <? o
      then hunk_exception ("context line " +:+ str_of_Z o +:+ ", " +:+ String (chr 34) (format_payload l)
                           +:+ String (chr 34) " does not exist in source") (hunk c)
      else
        sl <-! py_nth lines (o - 1) ;;
        if bool_decide (sl = l) then Ok tt
        else
          normalized_line <-! normalized l ;;
          normalized_source <-! normalized sl ;;
          if String.eqb normalized_line normalized_source then Ok tt
          else hunk_exception ("context line " +:+ str_of_Z o +:+ ", " +:+ String (chr 34) (format_payload l)
                 +:+ String (chr 34) " does not match " +:+ String (chr 34) (format_payload sl) +:+ String (chr 34) "") (hunk c)
  | _, _ => Ok tt
  end.
Fixpoint check_changes (lines : list payload) (cs : list Change) : res unit :=
  match cs with
  | [] => Ok tt
  | c :: rest => _ <-! check_change lines c ;; check_changes lines rest
  end.

(** [r] lines have been removed and [i] inserted. *)
Fixpoint apply_changes (lines : list (option payload)) (r i : Z) (cs : list Change) : res (list (option payload)) :=
  match cs with
  | [] => Ok lines
  | c :: rest =>
      match old c, new c with
      | Some o, None => lines' <-! py_del lines (o - 1 - r + i) ;; apply_changes lines' (r + 1) i rest
      | None, Some n => apply_changes (py_insert lines (n - 1) (line c)) r (i + 1) rest
      | _, _ => apply_changes lines r i rest
      end
  end.

(** A diff without changes cannot be iterated over. *)
Definition apply_diff (diff : diffobj) (lines : list payload) (reverse : bool) : res (list (option payload)) :=
  match changes diff with
  | None => Raise (TypeError "'NoneType' object is not iterable")
  | Some cs =>
      let cs := if reverse then _reverse cs else cs in
      _ <-! check_changes lines cs ;; apply_changes (Some <$> lines) 0 0 cs
  end.

(** ** Edit scripts *)

(** What happens to a line: the text of the source may differ from the text in
    the diff by white space. *)
Inductive edit :=
  | Keep (src pat : string)
  | Del (src pat : string)
  | Add (l : string).

Definition old_line (e : edit) : list string := match e with Keep s _ | Del s _ => [s] | Add _ => [] end.
Definition new_line (e : edit) : list string := match e with Keep s _ => [s] | Del _ _ => [] | Add l => [l] end.
Definition olds (b : list edit) : list string := flat_map old_line b.
Definition news (b : list edit) : list string := flat_map new_line b.
Definition edit_ok (e : edit) : Prop :=
  match e with Keep s p | Del s p => s = p \/ normalized_text s = normalized_text p | Add _ => True end.

(** A hunk: the unchanged lines before it that the diff does not show, and
    its lines. *)
Record piece := { skipped : list string; body : list edit }.
Definition old_of (ps : list piece) (tail : list string) : list string :=
  flat_map (fun p => skipped p ++ olds (body p)) ps ++ tail.
Definition new_of (ps : list piece) (tail : list string) : list string :=
  flat_map (fun p => skipped p ++ news (body p)) ps ++ tail.

Fixpoint body_changes (hunk_n : nat) (o n : Z) (b : list edit) : list Change :=
  match b with
  | [] => []
  | Keep _ p :: rest => change (Some o) (Some n) p hunk_n :: body_changes hunk_n (o + 1) (n + 1) rest
  | Del _ p :: rest => change (Some o) None p hunk_n :: body_changes hunk_n (o + 1) n rest
  | Add l :: rest => change None (Some n) l hunk_n :: body_changes hunk_n o (n + 1) rest
  end.
(** [o] and [n]: the numbers of the next lines of the old and the new text. *)
Fixpoint changes_of (hunk_n : nat) (o n : Z) (ps : list piece) : list Change :=
  match ps with
  | [] => []
  | p :: rest =>
      let o := o + Z.of_nat (length (skipped p)) in
      let n := n + Z.of_nat (length (skipped p)) in
      body_changes hunk_n o n (body p) ++
      changes_of (S hunk_n) (o + Z.of_nat (length (olds (body p)))) (n + Z.of_nat (length (news (body p)))) rest
  end.

Definition inverse_edit (e : edit) : edit :=
  match e with Keep s p => Keep s p | Del _ p => Add p | Add l => Del l l end.
Definition inverse (ps : list piece) : list piece :=
  map (fun p => {| skipped := skipped p; body := map inverse_edit (body p) |}) ps.

Definition txt (l : list string) : list payload := Txt <$> l.

(** [apply_diff] on a text instead of its lines *)
Definition apply_diff_text (diff : diffobj) (s : string) (reverse : bool) : res (list (option payload)) :=
  apply_diff diff (txt (splitlines s)) reverse.

(** ** Lemmas *)

Lemma olds_app a b : olds (a ++ b) = olds a ++ olds b.
Proof. apply flat_map_app. Qed.
Lemma py_del_at {A} (a : list A) x b k : k = Z.of_nat (length a) -> py_del (a ++ x :: b) k = Ok (a ++ b).
Proof.
  intros ->. unfold py_del. rewrite !(proj2 (Z.ltb_ge (Z.of_nat (length a)) 0)) by lia. cbv zeta.
  rewrite (proj2 (Z.leb_gt _ _)) by (rewrite length_app; cbn; lia).
  cbn [orb]. rewrite Nat2Z.id, take_app_length. f_equal. f_equal.
  by rewrite <-Nat.add_1_r, <-drop_drop, drop_app_length.
Qed.
Lemma py_insert_at {A} (a b : list A) x k : k = Z.of_nat (length a) -> py_insert (a ++ b) k x = a ++ x :: b.
Proof. intros ->. rewrite py_insert_nonneg by lia. by rewrite Nat2Z.id, take_app_length, drop_app_length. Qed.
Lemma py_nth_at {A} (a : list A) x b k : k = Z.of_nat (length a) -> py_nth (a ++ x :: b) k = Ok x.
Proof. intros ->. rewrite py_nth_nonneg by lia. by rewrite Nat2Z.id, list_lookup_middle. Qed.

(** The numbers that one hunk's changes need: [o] is the next line of the old
    text, [n] the next line of the new one. *)
Definition otxt (l : list string) : list (option payload) := Some <$> txt l.
Lemma otxt_app a b : otxt (a ++ b) = otxt a ++ otxt b.
Proof. unfold otxt, txt. by rewrite !fmap_app. Qed.
Lemma otxt_length l : length (otxt l) = length l.
Proof. unfold otxt, txt. by rewrite !length_fmap. Qed.

Lemma check_line (pre rest : list string) s p o n h :
  o = Z.of_nat (length pre) + 1 -> edit_ok (Keep s p) ->
  check_change (txt (pre ++ s :: rest)) (change (Some o) n p h) = Ok tt.
Proof.
  intros -> Hok. unfold check_change, change. cbn [old line hunk].
  rewrite (proj2 (Z.ltb_ge _ _)) by (unfold txt; rewrite length_fmap, length_app; cbn; lia).
  unfold txt. rewrite fmap_app, fmap_cons.
  rewrite (py_nth_at (Txt <$> pre)) by (rewrite length_fmap; lia). cbn [rbind].
  destruct (decide (s = p)) as [->|Hne]; [by rewrite bool_decide_true|].
  rewrite bool_decide_false by congruence. cbn [normalized rbind].
  destruct Hok as [?|E]; [done|]. by rewrite E, String.eqb_refl.
Qed.

Lemma check_changes_app lines a b :
  check_changes lines (a ++ b) = (_ <-! check_changes lines a ;; check_changes lines b).
Proof.
  induction a as [|c a IH]; [done|]. cbn [app check_changes]. rewrite IH. by destruct (check_change lines c).
Qed.
Lemma check_body h b : forall pre rest o n,
  Forall edit_ok b -> o = Z.of_nat (length pre) + 1 ->
  check_changes (txt (pre ++ olds b ++ rest)) (body_changes h o n b) = Ok tt.
Proof.
  induction b as [|e b IH]; intros pre rest o n Hb Ho; [done|]. apply Forall_cons in Hb as [He Hb].
  destruct e as [s p|s p|l]; cbn [body_changes olds flat_map old_line app].
  - cbn [check_changes]. rewrite check_line by done. cbn [rbind].
    replace (pre ++ s :: flat_map old_line b ++ rest) with ((pre ++ [s]) ++ olds b ++ rest) by (by rewrite <-app_assoc).
    apply IH; [done|]. rewrite length_app. cbn. lia.
  - cbn [check_changes]. rewrite check_line by done. cbn [rbind].
    replace (pre ++ s :: flat_map old_line b ++ rest) with ((pre ++ [s]) ++ olds b ++ rest) by (by rewrite <-app_assoc).
    apply IH; [done|]. rewrite length_app. cbn. lia.
  - cbn [check_changes]. unfold check_change at 1. cbn [old line change rbind]. by apply IH.
Qed.

(** The state of the loop: [r] removed and [i] inserted lines shift the old
    numbers to the new ones. *)
Lemma apply_body h b : forall pre rest o n r i cs,
  n = Z.of_nat (length pre) + 1 -> o - r + i = n ->
  exists r' i',
    apply_changes (otxt (pre ++ olds b ++ rest)) r i (body_changes h o n b ++ cs) =
    apply_changes (otxt (pre ++ news b ++ rest)) r' i' cs /\
    (o + Z.of_nat (length (olds b))) - r' + i' = n + Z.of_nat (length (news b)).
Proof.
  induction b as [|e b IH]; intros pre rest o n r i cs Hn Hr.
  { exists r, i. cbn. split; [done|lia]. }
  assert (forall s x, pre ++ s :: x = (pre ++ [s]) ++ x) as Hmv by (intros; by rewrite <-app_assoc).
  destruct e as [s p|s p|l]; cbn [body_changes olds news flat_map old_line new_line app apply_changes old new change line]; fold (olds b) (news b).
  - rewrite (Hmv s (olds b ++ rest)), (Hmv s (news b ++ rest)).
    destruct (IH (pre ++ [s]) rest (o + 1) (n + 1) r i cs) as (r' & i' & E & H);
      [rewrite length_app; cbn; lia|lia|]. exists r', i'. split; [exact E|]. cbn [length]. lia.
  - rewrite otxt_app. change (otxt (s :: olds b ++ rest)) with (Some (Txt s) :: otxt (olds b ++ rest)).
    rewrite py_del_at by (rewrite otxt_length; lia). cbn [rbind]. rewrite <-otxt_app.
    destruct (IH pre rest (o + 1) n (r + 1) i cs) as (r' & i' & E & H); [done|lia|].
    exists r', i'. split; [exact E|cbn [length]; lia].
  - rewrite otxt_app, py_insert_at by (rewrite otxt_length; lia).
    destruct (IH (pre ++ [l]) rest o (n + 1) r (i + 1) cs) as (r' & i' & E & H);
      [rewrite length_app; cbn; lia|lia|].
    exists r', i'. split; [|cbn [length]; lia]. rewrite (Hmv l (news b ++ rest)), <-E. f_equal. rewrite !otxt_app, <-app_assoc. done.
Qed.

Definition pieces_ok (ps : list piece) : Prop := Forall (fun p => Forall edit_ok (body p)) ps.

Lemma old_of_cons p ps tail : old_of (p :: ps) tail = skipped p ++ olds (body p) ++ old_of ps tail.
Proof. unfold old_of. cbn [flat_map]. by rewrite <- !app_assoc. Qed.
Lemma new_of_cons p ps tail : new_of (p :: ps) tail = skipped p ++ news (body p) ++ new_of ps tail.
Proof. unfold new_of. cbn [flat_map]. by rewrite <- !app_assoc. Qed.

Lemma check_pieces ps : forall h pre tail o n,
  pieces_ok ps -> o = Z.of_nat (length pre) + 1 ->
  check_changes (txt (pre ++ old_of ps tail)) (changes_of h o n ps) = Ok tt.
Proof.
  induction ps as [|p ps IH]; intros h pre tail o n Hps Ho; [done|]. apply Forall_cons in Hps as [Hp Hps].
  cbn [changes_of]. cbv zeta. rewrite check_changes_app, old_of_cons.
  rewrite (app_assoc pre (skipped p)), check_body by (done || rewrite length_app; lia). cbn [rbind].
  rewrite (app_assoc _ (olds (body p))). apply IH; [done|]. rewrite !length_app. lia.
Qed.

Lemma apply_pieces ps : forall h pre tail o n r i,
  n = Z.of_nat (length pre) + 1 -> o - r + i = n ->
  apply_changes (otxt (pre ++ old_of ps tail)) r i (changes_of h o n ps) = Ok (otxt (pre ++ new_of ps tail)).
Proof.
  induction ps as [|p ps IH]; intros h pre tail o n r i Hn Hr; [done|].
  cbn [changes_of]. cbv zeta. rewrite old_of_cons, new_of_cons, !(app_assoc pre (skipped p)).
  edestruct apply_body as (r' & i' & E & H); [| |rewrite E].
  - rewrite length_app. lia.
  - lia.
  - rewrite !(app_assoc _ (news (body p))). apply IH; [rewrite !length_app; lia|]. lia.
Qed.

(** Applying the changes of a script turns the old text into the new one. *)
Lemma apply_script d ps tail :
  changes d = Some (changes_of 1 1 1 ps) -> pieces_ok ps ->
  apply_diff d (txt (old_of ps tail)) false = Ok (otxt (new_of ps tail)).
Proof.
  intros Hd Hok. unfold apply_diff. rewrite Hd. cbv zeta.
  pose proof (check_pieces ps 1 [] tail 1 1 Hok eq_refl) as Hc. cbn [app] in Hc. rewrite Hc. cbn [rbind].
  by apply (apply_pieces ps 1 []).
Qed.

Lemma inverse_body_changes h b : forall o n, body_changes h n o (map inverse_edit b) = _reverse (body_changes h o n b).
Proof. induction b as [|[s p|s p|l] b IH]; intros o n; cbn; rewrite ?IH; done. Qed.
Lemma olds_inverse b : olds (map inverse_edit b) = news b.
Proof. induction b as [|[s p|s p|l] b IH]; [done|cbn; f_equal; exact IH|exact IH|cbn; f_equal; exact IH]. Qed.
Lemma news_inverse_length b : length (news (map inverse_edit b)) = length (olds b).
Proof. induction b as [|[s p|s p|l] b IH]; [done|cbn; f_equal; exact IH|cbn; f_equal; exact IH|exact IH]. Qed.
Lemma inverse_changes ps : forall h o n, changes_of h n o (inverse ps) = _reverse (changes_of h o n ps).
Proof.
  induction ps as [|p ps IH]; intros h o n; [done|]. cbn [inverse map changes_of skipped body]. cbv zeta.
  unfold _reverse. rewrite map_app. f_equal; [apply inverse_body_changes|].
  rewrite olds_inverse, news_inverse_length. apply IH.
Qed.
Lemma old_of_inverse ps tail : old_of (inverse ps) tail = new_of ps tail.
Proof.
  induction ps as [|p ps IH]; [done|]. unfold inverse in *. cbn [map].
  rewrite old_of_cons, new_of_cons. cbn [skipped body]. by rewrite olds_inverse, IH.
Qed.
(** The removed lines of the diff are those of the text. *)
Definition exact_removals (b : list edit) : Prop := Forall (fun e => match e with Del s p => s = p | _ => True end) b.
Lemma news_inverse b : exact_removals b -> news (map inverse_edit b) = olds b.
Proof.
  induction 1 as [|[s q|s q|l] b He Hb IHb]; [done|cbn; f_equal; exact IHb|cbn; rewrite He; f_equal; exact IHb|exact IHb].
Qed.
Lemma new_of_inverse ps tail : Forall (fun p => exact_removals (body p)) ps -> new_of (inverse ps) tail = old_of ps tail.
Proof.
  induction 1 as [|p ps Hp Hps IH]; [done|]. unfold inverse in *. cbn [map].
  rewrite old_of_cons, new_of_cons. cbn [skipped body]. by rewrite news_inverse, IH.
Qed.
Lemma inverse_ok ps : pieces_ok ps -> pieces_ok (inverse ps).
Proof.
  unfold pieces_ok, inverse. rewrite Forall_map. intros H. eapply Forall_impl; [exact H|]. cbn. intros p Hp.
  rewrite Forall_map. eapply Forall_impl; [exact Hp|]. intros [s q|s q|l] He; cbn in *; auto.
Qed.

(** ** Properties *)

(** The line of the source that a change names is the line in the diff, up to
    white space. *)
Definition fits (lines : list string) (c : Change) : Prop :=
  match old c, line c with
  | Some o, Some (Txt l) =>
      exists s, lines !! Z.to_nat (o - 1) = Some s /\ (s = l \/ normalized_text s = normalized_text l)
  | _, _ => True
  end.
(** A change of a text diff, with line numbers from 1 on. *)
Definition text_change (c : Change) : Prop :=
  match old c, line c with Some o, Some (Txt _) => 1 <= o | Some _, Some (Bin _) => False | _, _ => True end.

Lemma check_change_spec lines c : text_change c ->
  (fits lines c /\ check_change (txt lines) c = Ok tt) \/
  (~ fits lines c /\ exists msg, check_change (txt lines) c = Raise (OtherError "HunkApplyException" msg)).
Proof.
  unfold text_change, fits, check_change. destruct (old c) as [o|]; [|by left].
  destruct (line c) as [[l|b]|]; [|done|by left]. intros Ho.
  assert (length (txt lines) = length lines) as -> by apply length_fmap.
  destruct (Z.ltb_spec (Z.of_nat (length lines)) o) as [Hlt|Hle].
  { right. split; [|unfold hunk_exception; eauto]. intros (s & Hs & _). apply lookup_lt_Some in Hs. lia. }
  destruct (lookup_lt_is_Some_2 lines (Z.to_nat (o - 1)) ltac:(lia)) as [s Hs].
  rewrite py_nth_nonneg by lia. unfold txt. rewrite list_lookup_fmap, Hs. cbn [fmap option_fmap option_map rbind].
  case_bool_decide as E; [left; split; [injection E as ->; eauto|done]|].
  cbn [normalized rbind]. destruct (String.eqb_spec (normalized_text l) (normalized_text s)) as [En|En].
  - left. split; [|done]. eauto.
  - right. split; [|unfold hunk_exception; eauto]. intros (s' & Hs' & [->|He]); [|congruence].
    injection Hs' as ->. done.
Qed.
Lemma check_changes_spec lines cs : Forall text_change cs ->
  (Forall (fits lines) cs /\ check_changes (txt lines) cs = Ok tt) \/
  (~ Forall (fits lines) cs /\ exists msg, check_changes (txt lines) cs = Raise (OtherError "HunkApplyException" msg)).
Proof.
  induction 1 as [|c cs Hc Hcs IH]; [by left|]. cbn [check_changes].
  destruct (check_change_spec lines c Hc) as [[Hf ->]|(Hf & msg & ->)]; cbn [rbind].
  - destruct IH as [[Hl ->]|(Hl & msg & ->)]; [by left; auto|right]. split; [|eauto]. intros H. by inversion H.
  - right. split; [|eauto]. intros H. by inversion H.
Qed.

(** A diff is applied only to a text that it fits: the context and the
    removed lines are looked up before anything is changed, and one that is not
    there, up to white space, ends the call with [HunkApplyException]. *)
Lemma apply_checks_context d lines (reverse : bool) cs :
  changes d = Some cs -> let cs' := if reverse then _reverse cs else cs in
  Forall text_change cs' ->
  (Forall (fits lines) cs' -> apply_diff d (txt lines) reverse = apply_changes (otxt lines) 0 0 cs') /\
  (~ Forall (fits lines) cs' -> exists msg, apply_diff d (txt lines) reverse = Raise (OtherError "HunkApplyException" msg)).
Proof.
  cbv zeta. intros Hd Ht. unfold apply_diff. rewrite Hd. cbv zeta.
  destruct (check_changes_spec lines _ Ht) as [[Hf E]|(Hf & msg & E)]; rewrite E; cbn [rbind]; split; intros H; done || eauto.
Qed.

(** Undoing a diff: applied in reverse to the new text it gives back the
    old text, to the letter where the removed lines of the diff are those of the
    text. *)
Lemma reverse_restores d ps tail :
  changes d = Some (changes_of 1 1 1 ps) -> pieces_ok ps -> Forall (fun p => exact_removals (body p)) ps ->
  apply_diff d (txt (old_of ps tail)) false = Ok (otxt (new_of ps tail)) /\
  apply_diff d (txt (new_of ps tail)) true = Ok (otxt (old_of ps tail)).
Proof.
  intros Hd Hok Hex. split; [by apply apply_script|].
  pose proof (apply_script {| diff_header := None; changes := Some (changes_of 1 1 1 (inverse ps)); text := "" |} (inverse ps) tail
    eq_refl (inverse_ok ps Hok)) as H.
  rewrite old_of_inverse, new_of_inverse in H by done. rewrite <-H. unfold apply_diff. rewrite Hd. cbn [changes].
  by rewrite inverse_changes.
Qed.

Definition sample_script : list piece :=
  [ {| skipped := ["a"; "b"]; body := [Keep "c" "c"; Del "d" "d"; Add "D"; Add "E"; Keep "f" "f"] |};
    {| skipped := ["g"]; body := [Keep "h  i" "h i"; Del "j" "j"] |} ].
Definition sample_diff : diffobj := {| diff_header := None; changes := Some (changes_of 1 1 1 sample_script); text := "" |}.
Lemma reverse_restores_witness :
  apply_diff sample_diff (txt ["a"; "b"; "c"; "d"; "f"; "g"; "h  i"; "j"; "k"]) false =
    Ok (otxt ["a"; "b"; "c"; "D"; "E"; "f"; "g"; "h  i"; "k"]) /\
  apply_diff sample_diff (txt ["a"; "b"; "c"; "D"; "E"; "f"; "g"; "h  i"; "k"]) true =
    Ok (otxt ["a"; "b"; "c"; "d"; "f"; "g"; "h  i"; "j"; "k"]).
Proof.
  apply (reverse_restores sample_diff sample_script ["k"]); [reflexivity| |].
  - repeat constructor; by right.
  - repeat constructor.
Defined.

Definition misfit : Change := change (Some 2) None "x" 1.
Lemma apply_checks_context_witness :
  exists msg, apply_diff {| diff_header := None; changes := Some [misfit]; text := "" |} (txt ["a"; "y"]) false =
    Raise (OtherError "HunkApplyException" msg).
Proof.
  eapply (apply_checks_context {| diff_header := None; changes := Some [misfit]; text := "" |} _ false); [reflexivity| |].
  - repeat constructor; done.
  - intros H. apply Forall_cons in H as [(s & Hs & [E|E]) _]; injection Hs as <-; vm_compute in E; discriminate.
Defined.
