(* ===== verification/PatchRoundtrip.v ===== *)
(** * Patches: what git prints is read back and applied

    [render_hunks] prints an edit script as a unified diff, [render_file] as the
    part of a git patch for one file.  [parse_unified_diff] reads the changes of
    the script back from the printed hunks, so that applying them turns the old
    text into the new one, and [parse_patch] finds the parts of all the files. *)

From S2P Require Import Prelude PyStr PyList PyRegex PatchHeader PatchDiff PatchApply.
From Stdlib Require Import Ascii.

(** ** Printing *)

Definition space : string := " ".
Definition print_edit (e : edit) : string :=
  match e with Keep _ p => " " +:+ p | Del _ p => "-" +:+ p | Add l => "+" +:+ l end.
(** A range: its first line, or the line before it when it is empty. *)
Definition print_range (start len : Z) : string :=
  str_of_Z (if len =? 0 then start - 1 else start) +:+ (if len =? 1 then "" else "," +:+ str_of_Z len).
Definition hunk_line (o ol n nl : Z) (heading : string) : string :=
  "@@ -" +:+ print_range o ol +:+ " +" +:+ print_range n nl +:+ " @@" +:+ heading.
Fixpoint render_hunks (heading : nat -> string) (hunk_n : nat) (o n : Z) (ps : list piece) : list string :=
  match ps with
  | [] => []
  | p :: rest =>
      let o := o + Z.of_nat (length (skipped p)) in
      let n := n + Z.of_nat (length (skipped p)) in
      let ol := Z.of_nat (length (olds (body p))) in
      let nl := Z.of_nat (length (news (body p))) in
      (hunk_line o ol n nl (heading hunk_n) :: map print_edit (body p)) ++
      render_hunks heading (S hunk_n) (o + ol) (n + nl) rest
  end.

(** ** Reading a hunk line *)

Definition seqs (l : list re) : re := fold_left Seq l Eps.
Definition number_re : re := Seq Eps (Plus true (Set_ is_decimal)).
Definition numbers_re : re := Seq Eps (Star true (Set_ is_decimal)).
Definition lit_ (z : Z) : re := lit false (chr z).
Lemma unified_hunk_start_eq :
  unified_hunk_start =
  seqs [Bol; lit_ 64; lit_ 64; lit_ 32; lit_ 45; Grp 1 number_re; Opt (lit_ 44); Grp 2 numbers_re; lit_ 32; lit_ 43;
        Grp 3 number_re; Opt (lit_ 44); Grp 4 numbers_re; lit_ 32; lit_ 64; lit_ 64; Grp 5 (Seq Eps (Star true Dot)); Eol].
Proof. reflexivity. Qed.

(** A line without line feeds: what [.] matches. *)
Definition no_newline (s : string) : bool := sall (fun c => negb (ord c =? 10)) s.

Lemma leads_seq_lit X st prev z s cs :
  leads X st ((prev, String (chr z) s), cs) -> leads (Seq X (lit_ z)) st ((Some (chr z), s), cs).
Proof. intros H. eapply leads_seq; [exact H|]. apply leads_lit. Qed.

(** [(\d+),?(\d* )] on a printed range. *)
Lemma leads_range X st prev i o len rest cs :
  0 <= o -> 0 <= len -> 1 <= o \/ len <> 0 ->
  leads X st ((prev, print_range o len +:+ rest), cs) -> stops is_decimal rest -> stops (Ascii.eqb (chr 44)) rest ->
  exists prev', leads (Seq (Seq (Seq X (Grp i number_re)) (Opt (lit_ 44))) (Grp (S i) numbers_re)) st
    ((prev', rest), (S i, if len =? 1 then "" else str_of_Z len) :: (i, str_of_Z (if len =? 0 then o - 1 else o)) :: cs).
Proof.
  intros Ho Hl Hz HX Hd Hc. set (a := if len =? 0 then o - 1 else o).
  assert (0 <= a) as Ha by (unfold a; destruct (Z.eqb_spec len 0); lia).
  destruct (str_of_Z_digits a Ha) as [Da Na]. destruct (str_of_Z_digits len Hl) as [Dl Nl].
  unfold print_range in HX. fold a in HX. rewrite sapp_assoc in HX. destruct (Z.eqb_spec len 1) as [->|Hne].
  - rewrite sapp_nil_l in HX. eexists. eapply leads_seq; [eapply leads_seq; [eapply leads_seq; [exact HX|]|]|].
    + apply leads_group. eapply leads_seq; [apply leads_eps|]. by apply leads_plus.
    + by apply leads_opt_skip.
    + apply (leads_group _ _ _ _ ""). eapply leads_seq; [apply leads_eps|]. by apply leads_star.
  - rewrite sapp_assoc, sapp_cons, sapp_nil_l in HX. eexists. eapply leads_seq; [eapply leads_seq; [eapply leads_seq; [exact HX|]|]|].
    + apply leads_group. eapply leads_seq; [apply leads_eps|]. by apply leads_plus.
    + apply leads_alt_l, leads_lit.
    + apply leads_group. eapply leads_seq; [apply leads_eps|]. by apply leads_star.
Qed.

Lemma leads_rest X st prev i s cs :
  no_newline s = true -> leads X st ((prev, s), cs) ->
  exists prev', leads (Seq (Seq X (Grp i (Seq Eps (Star true Dot)))) Eol) st ((prev', ""), (i, s) :: cs).
Proof.
  intros Hs HX. eexists. eapply leads_seq; [eapply leads_seq; [exact HX|]|apply leads_eol].
  rewrite <-(sapp_nil_r s) at 1. apply leads_group. eapply leads_seq; [apply leads_eps|]. by apply leads_star.
Qed.

Definition count_str (len : Z) : string := if len =? 1 then "" else str_of_Z len.
Definition first_str (o len : Z) : string := str_of_Z (if len =? 0 then o - 1 else o).

Lemma match_hunk_line o ol n nl heading :
  1 <= o -> 0 <= ol -> 1 <= n -> 0 <= nl -> no_newline heading = true ->
  match_ unified_hunk_start (hunk_line o ol n nl heading) =
  Some [(5%nat, heading); (4%nat, count_str nl); (3%nat, first_str n nl); (2%nat, count_str ol); (1%nat, first_str o ol)].
Proof.
  intros Ho Hol Hn Hnl Hh. rewrite unified_hunk_start_eq. unfold seqs. cbn [fold_left]. unfold hunk_line.
  assert (leads (Seq (Seq (Seq (Seq (Seq Eps Bol) (lit_ 64)) (lit_ 64)) (lit_ 32)) (lit_ 45))
    ((None, "@@ -" +:+ print_range o ol +:+ " +" +:+ print_range n nl +:+ " @@" +:+ heading), [])
    ((Some (chr 45), print_range o ol +:+ " +" +:+ print_range n nl +:+ " @@" +:+ heading), [])) as H1.
  { rewrite !sapp_cons, sapp_nil_l. repeat eapply leads_seq_lit. eapply leads_seq; [apply leads_eps|apply leads_bol]. }
  eapply (leads_range _ _ _ 1) in H1 as [p1 H1]; [|lia|lia|lia|done|done].
  change (leads ?X ?s ((p1, " +" +:+ ?t), ?cs)) with (leads X s ((p1, String (chr 32) (String (chr 43) t)), cs)) in H1.
  apply leads_seq_lit, leads_seq_lit in H1.
  eapply (leads_range _ _ _ 3) in H1 as [p2 H1]; [|lia|lia|lia|done|done].
  change (leads ?X ?s ((p2, " @@" +:+ ?t), ?cs))
    with (leads X s ((p2, String (chr 32) (String (chr 64) (String (chr 64) t))), cs)) in H1.
  do 3 apply leads_seq_lit in H1. eapply (leads_rest _ _ _ 5) in H1 as [p3 H1]; [|done].
  by rewrite (match_leads _ _ _ H1).
Qed.

(** ** Reading hunks *)

Lemma body_quiet b : quiet unified_hunk_start (map print_edit b).
Proof. apply Forall_map, Forall_true. intros [s p|s p|l]; reflexivity. Qed.

Lemma body_changes_cong h b : forall o o' n n',
  (olds b <> [] -> o = o') -> (news b <> [] -> n = n') -> body_changes h o n b = body_changes h o' n' b.
Proof.
  induction b as [|[s p|s p|l] b IH]; intros o o' n n' Ho Hn; [done|..]; cbn [body_changes].
  - rewrite Ho, Hn by done. done.
  - rewrite Ho by done. f_equal. by apply IH.
  - rewrite Hn by done. f_equal. by apply IH.
Qed.

Lemma unified_body s h b : forall r i,
  0 <= r -> 0 <= i -> r + Z.of_nat (length (olds b)) = u_old_len s -> i + Z.of_nat (length (news b)) = u_new_len s ->
  unified_lines s h r i (map print_edit b) = body_changes h (u_old s + r) (u_new s + i) b.
Proof.
  induction b as [|e b IH]; intros r i Hr Hi Ho Hn; [done|].
  destruct e as [s0 p|s0 p|l]; cbn [map print_edit body_changes olds news flat_map old_line new_line app length] in *;
    fold (olds b) (news b) in *; rewrite sapp_cons, sapp_nil_l; cbn [unified_lines]; cbv zeta;
    cbn [sdrop].
  - change (is_c 45 " ") with false. change (is_c 43 " ") with false. change (is_c 32 " ") with true. cbn [andb].
    rewrite IH by lia. do 2 f_equal; lia.
  - change (is_c 45 "-") with true. cbn [andb]. destruct (Z.eqb_spec r (u_old_len s)); [lia|]. cbn [negb orb].
    rewrite IH by lia. do 2 f_equal; lia.
  - change (is_c 45 "+") with false. change (is_c 43 "+") with true. cbn [andb].
    destruct (Z.eqb_spec i (u_new_len s)); [lia|]. cbn [negb orb]. rewrite IH by lia. do 2 f_equal; lia.
Qed.

Lemma int_count len : 0 <= len < 2 ^ 64 -> int_or 1 (count_str len) = Ok len.
Proof.
  intros H. unfold int_or, count_str. destruct (Z.eqb_spec len 1) as [->|Hne]; [done|].
  destruct (str_of_Z_digits len ltac:(lia)) as [_ Hn]. by rewrite (proj2 (String.eqb_neq _ _) Hn), py_int_str.
Qed.
Lemma int_first o len : 1 <= o < 2 ^ 64 -> py_int (first_str o len) = Ok (if len =? 0 then o - 1 else o).
Proof. intros H. unfold first_str. apply py_int_str. destruct (len =? 0); lia. Qed.

Lemma unified_hunk_read h o n b heading s :
  1 <= o -> 1 <= n -> no_newline heading = true ->
  let ol := Z.of_nat (length (olds b)) in let nl := Z.of_nat (length (news b)) in
  o + ol < 2 ^ 64 -> n + nl < 2 ^ 64 ->
  exists s', unified_hunk h (hunk_line o ol n nl heading :: map print_edit b) s = Ok s' /\
             u_changes s' = u_changes s ++ body_changes h o n b.
Proof.
  cbv zeta. intros Ho Hn Hh Hol Hnl. unfold unified_hunk. cbn [take_match]. rewrite match_hunk_line by (done || lia).
  cbv zeta beta iota. rewrite !group_cons. cbn [Nat.eqb].
  rewrite int_first by lia. cbn [rbind]. rewrite int_count by lia. cbn [rbind].
  rewrite int_first by lia. cbn [rbind]. rewrite int_count by lia. cbn [rbind]. eexists. split; [reflexivity|].
  cbn [u_changes]. f_equal. rewrite unified_body by (cbn [u_old_len u_new_len]; lia). cbn [u_old u_new].
  rewrite !Z.add_0_r. apply body_changes_cong; intros H.
  - destruct (olds b); [done|]. by rewrite (proj2 (Z.eqb_neq _ 0)) by (cbn; lia).
  - destruct (news b); [done|]. by rewrite (proj2 (Z.eqb_neq _ 0)) by (cbn; lia).
Qed.

(** The blocks of a printed script: a hunk line and the lines under it. *)
Fixpoint hunk_blocks (heading : nat -> string) (hunk_n : nat) (o n : Z) (ps : list piece) : list (string * list string) :=
  match ps with
  | [] => []
  | p :: rest =>
      let o := o + Z.of_nat (length (skipped p)) in
      let n := n + Z.of_nat (length (skipped p)) in
      let ol := Z.of_nat (length (olds (body p))) in
      let nl := Z.of_nat (length (news (body p))) in
      (hunk_line o ol n nl (heading hunk_n), map print_edit (body p)) ::
      hunk_blocks heading (S hunk_n) (o + ol) (n + nl) rest
  end.
Lemma render_blocks heading ps : forall h o n,
  render_hunks heading h o n ps = flat_map block_lines (hunk_blocks heading h o n ps).
Proof.
  induction ps as [|p ps IH]; intros h o n; [done|]. cbn [render_hunks hunk_blocks flat_map]. cbv zeta. by rewrite IH.
Qed.

Lemma hunk_blocks_ok heading ps : forall h o n,
  (forall k, no_newline (heading k) = true) -> 1 <= o -> 1 <= n ->
  Forall (block_ok unified_hunk_start) (hunk_blocks heading h o n ps).
Proof.
  induction ps as [|p ps IH]; intros h o n Hh Ho Hn; cbn [hunk_blocks]; cbv zeta; constructor.
  - split; [|apply body_quiet]. eapply matches_line_some, match_hunk_line; done || lia.
  - apply IH; done || lia.
Qed.

Lemma each_hunk_read heading ps : forall h o n s,
  (forall k, no_newline (heading k) = true) -> 1 <= o -> 1 <= n ->
  o + Z.of_nat (length (old_of ps [])) < 2 ^ 64 -> n + Z.of_nat (length (new_of ps [])) < 2 ^ 64 ->
  exists s', each_hunk unified_hunk h (map block_lines (hunk_blocks heading h o n ps)) s = Ok s' /\
             u_changes s' = u_changes s ++ changes_of h o n ps.
Proof.
  induction ps as [|p ps IH]; intros h o n s Hh Ho Hn Hol Hnl.
  { exists s. split; [done|]. cbn. by rewrite app_nil_r. }
  rewrite old_of_cons, !length_app in Hol. rewrite new_of_cons, !length_app in Hnl.
  cbn [hunk_blocks map each_hunk changes_of]. cbv zeta. unfold block_lines at 1. cbn [fst snd].
  set (o' := o + Z.of_nat (length (skipped p))). set (n' := n + Z.of_nat (length (skipped p))).
  destruct (unified_hunk_read h o' n' (body p) (heading h) s ltac:(lia) ltac:(lia) (Hh h) ltac:(lia) ltac:(lia))
    as (s1 & E1 & C1). rewrite E1. cbn [rbind].
  edestruct (IH (S h) (o' + Z.of_nat (length (olds (body p)))) (n' + Z.of_nat (length (news (body p)))) s1 Hh)
    as (s2 & E2 & C2); [lia..|]. rewrite E2.
  exists s2. split; [done|]. by rewrite C2, C1, app_assoc.
Qed.

(** Reading back a printed script, after lines that start no hunk. *)
Lemma parse_unified_render heading pre ps :
  quiet unified_hunk_start pre -> (forall k, no_newline (heading k) = true) ->
  Z.of_nat (length (old_of ps [])) < 2 ^ 63 -> Z.of_nat (length (new_of ps [])) < 2 ^ 63 ->
  parse_unified_diff (pre ++ render_hunks heading 1 1 1 ps) = Ok (some_changes (changes_of 1 1 1 ps)).
Proof.
  intros Hp Hh Ho Hn. rewrite render_blocks. unfold parse_unified_diff.
  set (s0 := {| u_old := 0; u_old_len := 0; u_new := 0; u_new_len := 0; u_changes := [] |}).
  assert (unified_hunk 0 pre s0 = Ok s0) as H0 by (unfold unified_hunk; by rewrite take_match_quiet).
  assert (split_by_regex (pre ++ flat_map block_lines (hunk_blocks heading 1 1 1 ps)) unified_hunk_start =
          pre :: map block_lines (hunk_blocks heading 1 1 1 ps)) as ->.
  { destruct ps as [|p ps]; [cbn [hunk_blocks flat_map map]; rewrite app_nil_r; by apply split_quiet|]. apply split_blocks; [done| |done].
    by apply hunk_blocks_ok. }
  cbn [each_hunk]. rewrite H0. cbn [rbind].
  destruct (each_hunk_read heading ps 1 1 1 s0 Hh ltac:(lia) ltac:(lia) ltac:(lia) ltac:(lia)) as (s' & E & C).
  rewrite E.
  cbn [rbind]. by rewrite C.
Qed.

(** ** Git patches *)

Inductive file_kind := Modified | Created | Deleted.
Record file_patch := {
  fp_kind : file_kind;
  fp_path : string;
  fp_old_hash : string;
  fp_new_hash : string;
  fp_mode : string;
  fp_heading : nat -> string;
  fp_pieces : list piece;
}.
Definition old_name (f : file_patch) : string :=
  match fp_kind f with Created => "/dev/null" | _ => "a/" +:+ fp_path f end.
Definition new_name (f : file_patch) : string :=
  match fp_kind f with Deleted => "/dev/null" | _ => "b/" +:+ fp_path f end.
Definition git_line0 (f : file_patch) : string := "diff --git a/" +:+ fp_path f +:+ " b/" +:+ fp_path f.
(** The mode stands on the index line when the file stays. *)
Definition git_index (f : file_patch) : string :=
  "index " +:+ fp_old_hash f +:+ ".." +:+ fp_new_hash f +:+
  match fp_kind f with Modified => " " +:+ fp_mode f | _ => "" end.
Definition git_mode (f : file_patch) : list string :=
  match fp_kind f with
  | Modified => []
  | Created => ["new file mode " +:+ fp_mode f]
  | Deleted => ["deleted file mode " +:+ fp_mode f]
  end.
Definition git_rest (f : file_patch) : list string :=
  git_mode f ++ [git_index f; "--- " +:+ old_name f; "+++ " +:+ new_name f] ++
  render_hunks (fp_heading f) 1 1 1 (fp_pieces f).
Definition render_file (f : file_patch) : list string := git_line0 f :: git_rest f.
Definition render_patch (fs : list file_patch) : string :=
  String.concat "" (map (fun l => l +:+ newline) (flat_map render_file fs)).

Definition is_hex (c : ascii) : bool := in_range 97 102 c || is_decimal c.
(** The part of a patch that [parse_patch] is expected to find. *)
Definition path_name (kind_gone : bool) (p : string) : string := if kind_gone then "/dev/null" else p.
Definition file_diff (f : file_patch) : diffobj :=
  {| diff_header := Some {|
       index_path := None;
       old_path := match fp_kind f with Created => "/dev/null" | _ => fp_path f end;
       old_version := Some (VersionStr (fp_old_hash f));
       new_path := match fp_kind f with Deleted => "/dev/null" | _ => fp_path f end;
       new_version := Some (VersionStr (fp_new_hash f)) |};
     changes := Some (changes_of 1 1 1 (fp_pieces f));
     text := join newline (render_file f) +:+ newline |}.

Definition edit_lines_ok (e : edit) : Prop :=
  match e with Keep _ p | Del _ p => unbroken p = true | Add l => unbroken l = true end.
Record file_ok (f : file_patch) : Prop := {
  ok_path : unbroken (fp_path f) = true /\ fp_path f <> "" /\
            startswith "a/" (fp_path f) = false /\ startswith "b/" (fp_path f) = false;
  ok_hash : sall is_hex (fp_old_hash f) = true /\ fp_old_hash f <> "" /\
            sall is_hex (fp_new_hash f) = true /\ fp_new_hash f <> "";
  ok_mode : sall is_decimal (fp_mode f) = true;
  ok_heading : forall k, unbroken (fp_heading f k) = true;
  ok_pieces : fp_pieces f <> [] /\ Forall (fun p => body p <> [] /\ Forall edit_lines_ok (body p)) (fp_pieces f);
  ok_size : Z.of_nat (length (old_of (fp_pieces f) [])) < 2 ^ 63 /\ Z.of_nat (length (new_of (fp_pieces f) [])) < 2 ^ 63;
}.

(** *** Matching the header lines *)

Lemma m_star_all g (p : ascii -> bool) s : forall prev t, sall p s = true ->
  matches (Star g (Set_ p)) (prev, s +:+ t) (slast prev s, t).
Proof.
  induction s as [|c s IH]; intros prev t Hs; [constructor|]. cbn [sall] in Hs. apply andb_true_iff in Hs as [Hc Hs].
  rewrite sapp_cons. cbn [slast]. econstructor; [by constructor|by apply IH].
Qed.
Lemma m_plus_all g (p : ascii -> bool) s prev t : sall p s = true -> s <> "" ->
  matches (Plus g (Set_ p)) (prev, s +:+ t) (slast prev s, t).
Proof.
  destruct s as [|c s]; [done|]. cbn [sall]. intros [Hc Hs]%andb_true_iff _. rewrite sapp_cons. cbn [slast].
  econstructor; [by constructor|by apply m_star_all].
Qed.
Lemma m_lits zs : forall X p prev t, matches X p (prev, fold_right (fun z s => String (chr z) s) t zs) ->
  exists prev', matches (fold_left (fun a z => Seq a (lit_ z)) zs X) p (prev', t).
Proof.
  induction zs as [|z zs IH]; intros X p prev t H; [by eexists|]. cbn [fold_left fold_right] in *.
  eapply IH. econstructor; [exact H|]. constructor. apply Ascii.eqb_refl.
Qed.
Lemma m_any X p prev n s t : no_newline s = true -> s <> "" -> matches X p (prev, s +:+ t) ->
  exists prev', matches (Seq X (Grp n (Seq Eps (Plus true Dot)))) p (prev', t).
Proof. intros Hs Hn H. eexists. econstructor; [exact H|]. constructor. econstructor; [constructor|by apply m_plus_all]. Qed.
Lemma m_stars g X p prev (f : ascii -> bool) s t : matches X p (prev, s +:+ t) -> sall f s = true ->
  exists prev', matches (Seq X (Star g (Set_ f))) p (prev', t).
Proof. intros H Hs. eexists. econstructor; [exact H|by apply m_star_all]. Qed.
Lemma m_end X p prev : matches X p (prev, "") -> matches (Seq X Eol) p (prev, "").
Proof. intros H. econstructor; [exact H|]. by constructor. Qed.
Lemma m_any_end X p prev n s : no_newline s = true -> s <> "" -> matches X p (prev, s) ->
  exists prev', matches (Seq (Seq X (Grp n (Seq Eps (Plus true Dot)))) Eol) p (prev', "").
Proof.
  intros Hs Hn H. rewrite <-(sapp_nil_r s) in H. destruct (m_any X p prev n s "" Hs Hn H) as [prev' H'].
  eexists. by apply m_end.
Qed.
Lemma m_start s : matches (Seq Eps Bol) (None, s) (None, s).
Proof. econstructor; constructor. Qed.

Fixpoint codes (s : string) : list Z := match s with EmptyString => [] | String c s' => ord c :: codes s' end.
Lemma codes_app s t : fold_right (fun z s => String (chr z) s) t (codes s) = s +:+ t.
Proof. induction s as [|c s IH]; [done|]. cbn [codes fold_right]. by rewrite chr_ord, IH. Qed.
Definition lits (s : string) (X : re) : re := fold_left (fun a z => Seq a (lit_ z)) (codes s) X.
Lemma m_text s X p prev t : matches X p (prev, s +:+ t) -> exists prev', matches (lits s X) p (prev', t).
Proof.
  intros H. apply (m_lits (codes s) X p prev t). by rewrite codes_app.
Qed.

Definition any_re (n : nat) : re := Grp n (Seq Eps (Plus true Dot)).
Lemma diffcmd_header_eq :
  diffcmd_header = Seq (Seq (lits " " (Seq (lits " " (Seq (lits "diff" (Seq Eps Bol)) (Star true Dot))) (any_re 1))) (any_re 2)) Eol.
Proof. reflexivity. Qed.
Lemma git_diffcmd_header_eq :
  git_diffcmd_header = Seq (Seq (lits " b/" (Seq (lits "diff --git a/" (Seq Eps Bol)) (any_re 1))) (any_re 2)) Eol.
Proof. reflexivity. Qed.
Lemma git_header_old_line_eq : git_header_old_line = Seq (Seq (lits "--- " (Seq Eps Bol)) (any_re 1)) Eol.
Proof. reflexivity. Qed.
Lemma git_header_new_line_eq : git_header_new_line = Seq (Seq (lits "+++ " (Seq Eps Bol)) (any_re 1)) Eol.
Proof. reflexivity. Qed.
Definition hex_set : re := Set_ (fun x => ((ord (chr 97) <=? ord x) && (ord x <=? ord (chr 102))) || (((ord (chr 48) <=? ord x) && (ord x <=? ord (chr 57))) || false)).
Lemma git_header_index_eq :
  git_header_index = Seq (Seq (Seq (Seq (Seq (Seq (Seq (lits "index " (Seq Eps Bol)) (Grp 1 (Seq Eps (Plus true hex_set)))) Dot) Dot)
    (Grp 2 (Seq Eps (Plus true hex_set)))) (Opt (lit_ 32))) (Grp 3 numbers_re)) Eol.
Proof. reflexivity. Qed.

Lemma unbroken_no_newline s : unbroken s = true -> no_newline s = true.
Proof.
  unfold unbroken, no_newline. rewrite negb_true_iff. intros H. rewrite sall_sexists, negb_true_iff.
  induction s as [|c s IH]; [done|]. cbn [sexists] in *. apply orb_false_iff in H as [Hc Hs]. rewrite IH by done.
  rewrite orb_false_r, negb_involutive. unfold is_line_break, in_range in Hc. apply Z.eqb_neq. intros E. by rewrite E in Hc.
Qed.

Lemma leads_lits zs : forall X st prev t cs, leads X st ((prev, fold_right (fun z s => String (chr z) s) t zs), cs) ->
  exists prev', leads (fold_left (fun a z => Seq a (lit_ z)) zs X) st ((prev', t), cs).
Proof.
  induction zs as [|z zs IH]; intros X st prev t cs H; [by eexists|]. cbn [fold_left fold_right] in *.
  eapply IH. by apply leads_seq_lit in H.
Qed.
Lemma leads_text s X st prev t cs : leads X st ((prev, s +:+ t), cs) -> exists prev', leads (lits s X) st ((prev', t), cs).
Proof. intros H. apply (leads_lits (codes s) X st prev t cs). by rewrite codes_app. Qed.
Lemma leads_start s : leads (Seq Eps Bol) ((None, s), []) ((None, s), []).
Proof. eapply leads_seq; [apply leads_eps|apply leads_bol]. Qed.
Lemma leads_plus_group n (p : ascii -> bool) X st prev ds rest cs :
  leads X st ((prev, ds +:+ rest), cs) -> ds <> "" -> sall p ds = true -> stops p rest ->
  exists prev', leads (Seq X (Grp n (Seq Eps (Plus true (Set_ p))))) st ((prev', rest), (n, ds) :: cs).
Proof.
  intros H Hn Hs Hr. eexists. eapply leads_seq; [exact H|]. apply leads_group.
  eapply leads_seq; [apply leads_eps|by apply leads_plus].
Qed.

Lemma match_name_line re_ prefix x :
  re_ = Seq (Seq (lits prefix (Seq Eps Bol)) (any_re 1)) Eol -> no_newline x = true -> x <> "" ->
  match_ re_ (prefix +:+ x) = Some [(1%nat, x)].
Proof.
  intros -> Hs Hn. destruct (leads_text prefix _ _ _ _ _ (leads_start (prefix +:+ x))) as [p1 H1].
  rewrite <-(sapp_nil_r x) in H1 at 2. eapply (leads_plus_group 1) in H1 as [p2 H2]; [|done..].
  assert (leads (Seq (Seq (lits prefix (Seq Eps Bol)) (any_re 1)) Eol) ((None, prefix +:+ x), []) ((p2, ""), [(1%nat, x)])) as H3.
  { eapply leads_seq; [exact H2|apply leads_eol]. }
  by rewrite (match_leads _ _ _ H3).
Qed.

Lemma truthy_some s : s <> "" -> truthy (Some s) = Some s.
Proof. intros H. cbn. unfold nonempty_str. by rewrite (proj2 (String.eqb_neq _ _) H). Qed.
Lemma remove_prefix_again p q : slen p = 2%nat -> startswith p q = false -> remove_prefix2 p (remove_prefix2 p (p +:+ q)) = q.
Proof.
  intros Hl Hq. unfold remove_prefix2 at 2. rewrite (proj2 (prefix_spec p (p +:+ q))) by eauto.
  destruct p as [|a [|b [|c p]]]; try done. rewrite !sapp_cons, sapp_nil_l.
  cbn [sdrop]. unfold remove_prefix2. by rewrite Hq.
Qed.
Lemma found_in x l regex : x ∈ l -> matches_line regex x = true -> found l regex = true.
Proof. intros Hx Hm. rewrite found_spec. apply existsb_spec. eauto. Qed.

Section file.
Context (f : file_patch) (Hf : file_ok f).

Lemma path_ok : no_newline (fp_path f) = true /\ fp_path f <> "".
Proof. destruct (ok_path f Hf) as (H & Hn & _). split; [by apply unbroken_no_newline|done]. Qed.

Lemma line0_diffcmd : matches_line diffcmd_header (git_line0 f) = true.
Proof.
  destruct path_ok as [Hp Hn]. apply bool_decide_eq_true.
  assert (exists q, matches diffcmd_header (None, git_line0 f) q) as [q Hq]; [|by eapply match_matches].
  rewrite diffcmd_header_eq. unfold git_line0.
  change ("diff --git a/" +:+ fp_path f +:+ " b/" +:+ fp_path f)
    with ("diff" +:+ " --git" +:+ " " +:+ ("a/" +:+ fp_path f +:+ " " +:+ "b/" +:+ fp_path f)).
  destruct (m_text "diff" _ _ _ _ (m_start ("diff" +:+ " --git" +:+ " " +:+ ("a/" +:+ fp_path f +:+ " " +:+ "b/" +:+ fp_path f))))
    as [p1 H1].
  apply (m_stars true _ _ _ (fun c => negb (ord c =? 10))) in H1 as [p2 H2]; [|done].
  apply m_text in H2 as [p3 H3].
  apply (m_any _ _ _ 1 ("a/" +:+ fp_path f) (" " +:+ "b/" +:+ fp_path f)) in H3 as [p4 H4]; [|done..].
  apply m_text in H4 as [p5 H5]. apply (m_any_end _ _ _ 2) in H5 as [p6 H6]; [|done..]. by eexists.
Qed.
Lemma line0_git : matches_line git_diffcmd_header (git_line0 f) = true.
Proof.
  destruct path_ok as [Hp Hn]. apply bool_decide_eq_true.
  assert (exists q, matches git_diffcmd_header (None, git_line0 f) q) as [q Hq]; [|by eapply match_matches].
  rewrite git_diffcmd_header_eq. unfold git_line0.
  destruct (m_text "diff --git a/" _ _ _ _ (m_start ("diff --git a/" +:+ fp_path f +:+ " b/" +:+ fp_path f))) as [p1 H1].
  apply (m_any _ _ _ 1) in H1 as [p2 H2]; [|done..]. apply m_text in H2 as [p3 H3].
  apply (m_any_end _ _ _ 2) in H3 as [p4 H4]; [|done..]. by eexists.
Qed.

(** A set of characters that has the hexadecimal digits and no others. *)
Lemma index_tail : exists tail, git_index f = "index " +:+ (fp_old_hash f +:+ ".." +:+ fp_new_hash f +:+ tail) /\
  ((tail = "" \/ tail = " " +:+ fp_mode f)).
Proof. unfold git_index. destruct (fp_kind f); eauto. Qed.
Lemma match_index : exists m, match_ git_header_index (git_index f) = Some [(3%nat, m); (2%nat, fp_new_hash f); (1%nat, fp_old_hash f)].
Proof.
  destruct index_tail as (tail & -> & Ht). destruct (ok_hash f Hf) as (H1 & N1 & H2 & N2).
  assert (forall s, sall is_hex s = true -> sall (fun x => in_range 97 102 x || (in_range 48 57 x || false)) s = true) as Hhex.
  { intros s. apply sall_impl. intros c. unfold is_hex, is_decimal. by rewrite orb_false_r. }
  rewrite git_header_index_eq.
  destruct (leads_text "index " _ _ _ _ _ (leads_start ("index " +:+ (fp_old_hash f +:+ ".." +:+ fp_new_hash f +:+ tail)))) as [p1 L1].
  eapply (leads_plus_group 1) in L1 as [p2 L2]; [|done|by apply Hhex|done].
  assert (forall X st prev c t cs, ord c <> 10 -> leads X st ((prev, String c t), cs) -> leads (Seq X Dot) st ((Some c, t), cs)) as Hdot.
  { intros X st prev c t cs Hc H. eapply leads_seq; [exact H|]. apply leads_set. apply negb_true_iff. by apply Z.eqb_neq. }
  apply Hdot in L2; [|done]. apply Hdot in L2; [|done].
  eapply (leads_plus_group 2) in L2 as [p3 L3]; [|done|by apply Hhex|by destruct Ht as [->| ->]].
  match type of L3 with leads ?X _ _ =>
  assert (exists p4 m, leads (Seq (Seq (Seq X (Opt (lit_ 32))) (Grp 3 numbers_re)) Eol)
    ((None, "index " +:+ (fp_old_hash f +:+ ".." +:+ fp_new_hash f +:+ tail)), [])
    ((p4, ""), [(3%nat, m); (2%nat, fp_new_hash f); (1%nat, fp_old_hash f)])) as (p4 & m & L4) end.
  { destruct Ht as [->| ->]; do 2 eexists.
    - eapply leads_seq; [eapply leads_seq; [eapply leads_seq; [exact L3|by apply leads_opt_skip]|]|apply leads_eol].
      apply (leads_group _ _ _ _ ""). eapply leads_seq; [apply leads_eps|by apply (leads_star _ _ "")].
    - eapply leads_seq; [eapply leads_seq; [eapply leads_seq; [exact L3|apply leads_alt_l, leads_lit]|]|apply leads_eol].
      rewrite <-(sapp_nil_r (fp_mode f)). apply leads_group. eapply leads_seq; [apply leads_eps|].
      apply leads_star; [apply (ok_mode f Hf)|done]. }
  exists m. exact (match_leads _ _ _ L4).
Qed.

Lemma names_ok : (no_newline (old_name f) = true /\ old_name f <> "") /\ (no_newline (new_name f) = true /\ new_name f <> "").
Proof. destruct path_ok as [Hp Hn]. unfold old_name, new_name. destruct (fp_kind f); repeat split; done. Qed.

(** The lines of a file's part, without the first one, start no other part. *)
Lemma rest_quiet (regex : re) :
  (forall c s, c ∈ [chr 110; chr 105; chr 45; chr 43; chr 64; chr 32] -> matches_line regex (String c s) = false) ->
  (forall s, matches_line regex ("deleted" +:+ s) = false) ->
  quiet regex (git_rest f).
Proof.
  intros Hc Hd.
  assert (forall h o n ps, quiet regex (render_hunks (fp_heading f) h o n ps)) as Hr.
  { intros h o n ps. revert h o n. induction ps as [|p ps IH]; intros h o n; [constructor|]. cbn [render_hunks]. cbv zeta.
    apply Forall_app. split; [|apply IH]. constructor; [apply Hc; set_solver|].
    apply Forall_map, Forall_true. intros [s q|s q|l]; apply Hc; set_solver. }
  unfold git_rest, git_mode. destruct (fp_kind f); cbn [app]; repeat (constructor; [apply Hc; set_solver|]); try apply Hr.
  constructor; [apply Hd|]. repeat (constructor; [apply Hc; set_solver|]). apply Hr.
Qed.
Lemma rest_quiet_index : quiet unified_header_index (git_rest f).
Proof. apply rest_quiet; [|done]. intros c s Hc. repeat (apply elem_of_cons in Hc as [->|Hc]; [reflexivity|]). by apply elem_of_nil in Hc. Qed.
Lemma rest_quiet_diffcmd : quiet diffcmd_header (git_rest f).
Proof. apply rest_quiet; [|done]. intros c s Hc. repeat (apply elem_of_cons in Hc as [->|Hc]; [reflexivity|]). by apply elem_of_nil in Hc. Qed.

Lemma git_header_read :
  git_header_of (render_file f) =
  Some {| index_path := None;
          old_path := remove_prefix2 "a/" (old_name f); old_version := Some (VersionStr (fp_old_hash f));
          new_path := remove_prefix2 "b/" (new_name f); new_version := Some (VersionStr (fp_new_hash f)) |}.
Proof.
  destruct names_ok as [[Ho No] [Hn Nn]]. destruct match_index as [m Hm]. pose proof line0_git as H0.
  apply bool_decide_eq_true in H0 as [g Hg]. unfold git_header_of, render_file, git_rest.
  cbn [git_lines]. unfold git_line at 1. rewrite Hg. cbn [g_old_path g_new_path].
  match goal with |- context [git_lines (git_mode f ++ ?rest) ?s] =>
    assert (git_lines (git_mode f ++ rest) s = git_lines rest s) as -> by (unfold git_mode; by destruct (fp_kind f)) end.
  cbn [app git_lines truthy option_bind mbind]. unfold git_line at 1.
  assert (match_ git_diffcmd_header (git_index f) = None) as -> by reflexivity. rewrite Hm.
  rewrite !group_cons. cbn [Nat.eqb g_old_version g_new_version g_old_path g_new_path g_cmd_old_path g_cmd_new_path truthy option_bind mbind].
  unfold git_line at 1.
  assert (forall x, match_ git_diffcmd_header ("--- " +:+ x) = None /\ match_ git_header_index ("--- " +:+ x) = None /\
                    match_ git_header_new_line ("--- " +:+ x) = None /\ match_ git_header_binary_file ("--- " +:+ x) = None)
    as Hold by (intros x; repeat split; reflexivity).
  destruct (Hold (old_name f)) as (-> & -> & -> & ->).
  rewrite (match_name_line _ _ _ git_header_old_line_eq) by done. rewrite group_cons.
  cbn [Nat.eqb g_old_version g_new_version g_old_path g_new_path g_cmd_old_path g_cmd_new_path].
  rewrite (truthy_some (old_name f)) by done.
  cbn [truthy option_bind mbind]. unfold git_line at 1.
  assert (forall x, match_ git_diffcmd_header ("+++ " +:+ x) = None /\ match_ git_header_index ("+++ " +:+ x) = None /\
                    match_ git_header_old_line ("+++ " +:+ x) = None /\ match_ git_header_binary_file ("+++ " +:+ x) = None)
    as Hnew by (intros x; repeat split; reflexivity).
  destruct (Hnew (new_name f)) as (-> & -> & -> & ->).
  rewrite (match_name_line _ _ _ git_header_new_line_eq) by done. rewrite group_cons.
  cbn [Nat.eqb g_old_version g_new_version g_old_path g_new_path g_cmd_old_path g_cmd_new_path].
  rewrite (truthy_some (old_name f)) by done.
  rewrite (truthy_some (new_name f)) by done.
  done.
Qed.

Lemma part_header : parse_header (render_file f) = (Ok (diff_header (file_diff f)), render_file f).
Proof.
  destruct match_index as [m Hm]. destruct (ok_path f Hf) as (_ & _ & Ha & Hb).
  unfold parse_header, bindM, parse_scm_header. cbn [first_header].
  rewrite (found_in (git_index f) (render_file f) git_header_index); [|unfold render_file, git_rest; set_solver|by eapply matches_line_some].
  unfold scm_parser. rewrite (found_in (git_line0 f) _ git_diffcmd_header); [|by left|exact line0_git].
  unfold bindM, parse_git_header. rewrite git_header_read. unfold retM. cbn [index_path old_path new_path old_version new_version].
  unfold file_diff, old_name, new_name. cbn [diff_header]. destruct (fp_kind f); rewrite ?remove_prefix_again; done.
Qed.

Lemma headings_ok : forall k, no_newline (fp_heading f k) = true.
Proof. intros k. apply unbroken_no_newline, (ok_heading f Hf). Qed.

(** The lines before the first hunk. *)
Definition preamble : list string :=
  git_line0 f :: git_mode f ++ [git_index f; "--- " +:+ old_name f; "+++ " +:+ new_name f].
Lemma render_file_split : render_file f = preamble ++ render_hunks (fp_heading f) 1 1 1 (fp_pieces f).
Proof. unfold render_file, git_rest, preamble. cbn [app]. by rewrite <-app_assoc. Qed.
Lemma preamble_quiet : quiet unified_hunk_start preamble.
Proof.
  unfold preamble, git_mode. destruct (fp_kind f); repeat (constructor; [reflexivity|]); constructor.
Qed.
Lemma changes_nonempty : some_changes (changes_of 1 1 1 (fp_pieces f)) = Some (changes_of 1 1 1 (fp_pieces f)).
Proof.
  destruct (ok_pieces f Hf) as [Hn Hp]. destruct (fp_pieces f) as [|p ps]; [done|].
  apply Forall_cons in Hp as [[Hb _] _]. cbn [changes_of]. cbv zeta. destruct (body p) as [|[s q|s q|l] b]; done.
Qed.

Lemma part_changes decompress : parse_diff decompress (render_file f) = Ok (Some (changes_of 1 1 1 (fp_pieces f))).
Proof.
  destruct (ok_size f Hf) as [So Sn]. unfold parse_diff. cbn [first_diff].
  rewrite found_spec, render_file_split, existsb_app.
  assert (existsb (matches_line unified_hunk_start) (render_hunks (fp_heading f) 1 1 1 (fp_pieces f)) = true) as ->.
  { destruct (ok_pieces f Hf) as [Hn _]. rewrite render_blocks.
    pose proof (hunk_blocks_ok (fp_heading f) (fp_pieces f) 1 1 1 headings_ok ltac:(lia) ltac:(lia)) as Hb.
    destruct (fp_pieces f) as [|p ps]; [done|]. cbn [hunk_blocks flat_map] in *. cbv zeta in *.
    apply Forall_cons in Hb as [[Hb _] _]. cbn [block_lines fst snd app existsb] in *. by rewrite Hb. }
  rewrite orb_true_r, parse_unified_render by (done || apply preamble_quiet || apply headings_ok).
  f_equal. apply changes_nonempty.
Qed.

Lemma part_read decompress : parse_part decompress (render_file f) = Ok (Some (file_diff f)).
Proof. unfold parse_part. rewrite part_header. cbn [rbind]. by rewrite part_changes. Qed.

(** Every line of the part is one line. *)
Lemma sall_unbroken (p : ascii -> bool) s : (forall c, p c = true -> is_line_break c = false) -> sall p s = true -> unbroken s = true.
Proof.
  intros Hp. unfold unbroken. rewrite negb_true_iff. induction s as [|c s IH]; [done|]. cbn [sall sexists].
  intros [Hc Hs]%andb_true_iff. by rewrite Hp, IH.
Qed.
Lemma unbroken_app s t : unbroken s = true -> unbroken t = true -> unbroken (s +:+ t) = true.
Proof. unfold unbroken. rewrite !negb_true_iff, sexists_app. by intros -> ->. Qed.

Ltac unbroken := repeat lazymatch goal with |- unbroken (_ +:+ _) = true => apply unbroken_app end; try reflexivity; try done.

Lemma decimal_unbroken s : sall is_decimal s = true -> unbroken s = true.
Proof.
  apply sall_unbroken. intros c. unfold is_decimal, is_line_break, in_range. intros [H1 H2]%andb_true_iff.
  apply Z.leb_le in H1, H2.
  rewrite !orb_false_iff, !andb_false_iff, Z.eqb_neq, !Z.leb_gt. lia.
Qed.
Lemma hex_unbroken s : sall is_hex s = true -> unbroken s = true.
Proof.
  apply sall_unbroken. intros c. unfold is_hex, is_decimal, is_line_break, in_range. intros [H|H]%orb_true_iff;
    apply andb_true_iff in H as [H1 H2]; apply Z.leb_le in H1, H2;
    rewrite !orb_false_iff, !andb_false_iff, Z.eqb_neq, !Z.leb_gt; lia.
Qed.
Lemma range_unbroken o len : 1 <= o -> 0 <= len -> unbroken (print_range o len) = true.
Proof.
  intros Ho Hl. unfold print_range. apply unbroken_app.
  - apply decimal_unbroken, str_of_Z_digits. destruct (len =? 0); lia.
  - destruct (len =? 1); [done|]. unbroken. by apply decimal_unbroken, str_of_Z_digits.
Qed.
Lemma hunks_unbroken heading ps : forall h o n,
  (forall k, unbroken (heading k) = true) -> Forall (fun p => body p <> [] /\ Forall edit_lines_ok (body p)) ps ->
  1 <= o -> 1 <= n -> Forall (fun l => unbroken l = true) (render_hunks heading h o n ps).
Proof.
  induction ps as [|p ps IH]; intros h o n Hh Hp Ho Hn; [constructor|]. apply Forall_cons in Hp as [[_ Hb] Hp].
  cbn [render_hunks]. cbv zeta. apply Forall_app. split; [constructor|].
  - unfold hunk_line. unbroken; apply range_unbroken; lia.
  - apply Forall_map. eapply Forall_impl; [exact Hb|]. intros [s q|s q|l] He; cbn [print_edit]; unbroken.
  - apply IH; done || lia.
Qed.
Lemma part_unbroken : Forall (fun l => unbroken l = true) (render_file f).
Proof.
  destruct (ok_path f Hf) as (Hp & _). destruct (ok_hash f Hf) as (H1 & _ & H2 & _). pose proof (ok_mode f Hf) as Hm.
  apply hex_unbroken in H1, H2. apply decimal_unbroken in Hm. rewrite render_file_split. apply Forall_app. split.
  - unfold preamble, git_mode, git_line0, git_index, old_name, new_name.
    destruct (fp_kind f); cbn [app]; repeat (apply Forall_cons; split); try apply Forall_nil_2; unbroken.
  - apply hunks_unbroken; [apply (ok_heading f Hf)|apply (ok_pieces f Hf)|lia|lia].
Qed.
End file.

Lemma first_line_id x : unbroken x = true -> first_line x = x.
Proof.
  intros H. unfold first_line. destruct (decide (x = "")) as [->|Hn]; [done|]. by rewrite splitlines_one.
Qed.

Lemma yield_read decompress fs : Forall file_ok fs ->
  yield_parts decompress (map render_file fs) = (map file_diff fs, None).
Proof.
  induction 1 as [|f fs Hf Hfs IH]; [done|]. cbn [map yield_parts]. rewrite part_read by done. by rewrite IH.
Qed.

Lemma parse_patch_render decompress fs : Forall file_ok fs ->
  parse_patch decompress (render_patch fs) = (map file_diff fs, None).
Proof.
  intros Hfs. unfold parse_patch, render_patch.
  assert (Forall (fun l => unbroken l = true) (flat_map render_file fs)) as Hone.
  { induction Hfs as [|f fs Hf Hfs IH]; [constructor|]. cbn [flat_map]. apply Forall_app. split; [by apply part_unbroken|done]. }
  rewrite splitlines_join by done. unfold parse_patch_lines.
  assert (map first_line (flat_map render_file fs) = flat_map render_file fs) as ->.
  { induction Hone as [|l ls Hl Hls IH]; [done|]. cbn [map]. by rewrite first_line_id, IH. }
  destruct fs as [|f0 fs]; [done|]. set (all := f0 :: fs) in *.
  assert (flat_map render_file all = flat_map block_lines (map (fun f => (git_line0 f, git_rest f)) all)) as E.
  { clear. induction all as [|f all IH]; [done|]. cbn [flat_map map]. by rewrite IH. }
  assert (map block_lines (map (fun f => (git_line0 f, git_rest f)) all) = map render_file all) as Eb by (by rewrite map_map).
  assert (split_patch patch_check (flat_map render_file all) = [] :: map render_file all) as ->.
  { unfold patch_check. cbn [split_patch]. rewrite split_quiet.
    - rewrite E, <-Eb. pose proof (split_blocks diffcmd_header [] (map (fun f => (git_line0 f, git_rest f)) all)) as Hs.
      rewrite app_nil_l in Hs. rewrite Hs; [done|constructor| |done].
      apply Forall_map. eapply Forall_impl; [exact Hfs|]. intros f Hf. split; [by apply line0_diffcmd|by apply rest_quiet_diffcmd].
    - clear -Hfs. induction Hfs as [|f fs' Hf Hfs' IH]; [constructor|]. cbn [flat_map]. apply Forall_app. split; [|exact IH].
      constructor; [reflexivity|by apply rest_quiet_index]. }
  cbn [yield_parts]. change (parse_part decompress []) with (Ok (@None diffobj)). cbv iota beta. by apply yield_read.
Qed.

(** ** The round trip *)


Definition changed_file : file_patch :=
  {| fp_kind := Modified; fp_path := "src/main.py"; fp_old_hash := "3b18e51"; fp_new_hash := "9ab2f00"; fp_mode := "100644";
     fp_heading := fun _ => " def main():"; fp_pieces := sample_script |}.
Definition created_file : file_patch :=
  {| fp_kind := Created; fp_path := "new file.txt"; fp_old_hash := "0000000"; fp_new_hash := "257cc56"; fp_mode := "100644";
     fp_heading := fun _ => ""; fp_pieces := [ {| skipped := []; body := [Add "x"; Add ""] |} ] |}.

(** *** Where the code and its intent part *)

(** A file below a directory [a]: both parsers of the header take a prefix
    [a/] off the path of the diff. *)
Example prefix_removed_twice :
  parse_header ["diff --git a/a/foo.py b/a/foo.py"; "index 3b18e51..9ab2f00 100644"; "--- a/a/foo.py"; "+++ b/a/foo.py"] =
  (Ok (Some {| index_path := None; old_path := "foo.py"; old_version := Some (VersionStr "3b18e51");
               new_path := "a/foo.py"; new_version := Some (VersionStr "9ab2f00") |}),
   ["diff --git a/a/foo.py b/a/foo.py"; "index 3b18e51..9ab2f00 100644"; "--- a/a/foo.py"; "+++ b/a/foo.py"]).
Proof. vm_compute. reflexivity. Qed.

(** A removed line that reads like the header of a file cuts a diff without a
    [diff] line in two, and is lost. *)
Example removed_comment_lost :
  changes <$> fst (parse_patch_lines (fun _ => Ok "")
    ["--- q.sql  1"; "+++ q.sql  2"; "@@ -1,2 +1 @@"; " select 1"; "--- note: old"]) =
  [Some [change (Some 1) (Some 1) "select 1" 1]].
Proof. vm_compute. reflexivity. Qed.

(** An empty line after a hunk counts as a line of context, although the hunk
    is complete; at the end of the file the diff can then not be applied. *)
Example blank_line_after_hunk :
  match parse_unified_diff ["@@ -1 +1 @@"; "-x"; "+y"; ""] with
  | Ok cs => apply_diff {| diff_header := None; changes := cs; text := "" |} (txt ["x"]) false
  | Raise e => Raise e
  end = Raise (OtherError "HunkApplyException"
          ("context line 2, " +:+ String (chr 34) (String (chr 34) " does not exist in source, in hunk #1"))).
Proof. vm_compute. reflexivity. Qed.

(** A range of one line in a context diff has no second number. *)
Example one_line_context_range :
  parse_context_diff ["***************"; "*** 1 ****"; "! a"; "--- 1 ----"; "! b"] =
  Raise (ValueError "invalid literal for int() with base 10: ''").
Proof. vm_compute. reflexivity. Qed.

(** Removed lines left when the new part of a context hunk is used up are lost. *)
Example context_removal_lost :
  parse_context_diff ["***************"; "*** 1,2 ****"; "  a"; "- b"; "--- 1,2 ----"; "+ x"; "  a"] =
  Ok (Some [change None (Some 1) "x" 1; change (Some 1) (Some 2) "a" 1]).
Proof. vm_compute. reflexivity. Qed.

(** A line of one character that an ed script adds is taken for the end mark. *)
Example ed_one_character_line :
  parse_ed_diff ["1a"; "x"; "yy"; "."] = Ok (Some [change None (Some 2) "yy" 0]).
Proof. vm_compute. reflexivity. Qed.

(** The second literal of a binary diff, the content of the old file, is
    reported as added like the first one. *)
Example binary_old_content_added :
  parse_git_binary_diff (fun s => Ok s) ["GIT binary patch"; "literal 4"; "DVPa!s"; ""; "literal 4"; "DcX)Yv"; ""] =
  Ok (Some [ {| old := None; new := Some 0; line := Some (Bin "abcd"); hunk := None |};
             {| old := None; new := Some 0; line := Some (Bin "wxyz"); hunk := None |} ]).
Proof. vm_compute. reflexivity. Qed.
