(* ===== verification/Serialization.v ===== *)
(** * Events as dictionaries

    Models [events/serialization]: [event_to_dict], [event_from_dict],
    [action_from_dict], [observation_from_dict] and the handling of old
    formats.

    The constructor of a dataclass is its table of fields with their defaults
    ([action_fields], [observation_fields]) and [bind_args], Python's matching
    of keyword arguments.  Python does not check the types of the values;
    [body] has no place for a value of another type, so that such a call is
    [ill_typed] here.  Tool-call metadata and LLM metrics are read from their
    dictionaries with the strict validator of [Metrics] in place of pydantic's. *)

From S2P Require Import Prelude Metrics PyStr PyDict PyFloat PyVal Events.

Definition MAX_CMD_OUTPUT_SIZE : Z := 30000.

Definition malformed (msg : string) : exn := OtherError "LLMMalformedActionError" msg.

(** ** Constructors *)

Definition no_default : option pyval := None.
Definition str_ (s : string) : option pyval := Some (VStr s).
Definition none_ : option pyval := Some VNone.
Definition risk_ : string * option pyval := ("security_risk", Some (vrisk RISK_UNKNOWN)).
Definition thought_ : string * option pyval := ("thought", str_ "").

#[local] Existing Instance strict.
#[local] Existing Instance strict_laws.

Section serialization.
(** [get_version()], and [ast.literal_eval] on the text of a dictionary *)
Context (version : string) (literal_eval : string -> option (dict string pyval)).

Definition action_fields (t : string) : option (list (string * option pyval)) :=
  dget
    [ ("null", []); ("condensation_request", []);
      ("run", [("command", None); ("is_input", Some (VBool false)); thought_; ("blocking", Some (VBool false));
               ("is_static", Some (VBool false)); ("cwd", none_); ("hidden", Some (VBool false));
               ("confirmation_state", str_ "confirmed"); risk_]);
      ("run_ipython", [("code", None); thought_; ("include_extra", Some (VBool true)); ("confirmation_state", str_ "confirmed");
                       risk_; ("kernel_init_code", str_ "")]);
      ("browse", [("url", None); thought_; risk_; ("return_axtree", Some (VBool false))]);
      ("browse_interactive", [("browser_actions", None); thought_; ("browsergym_send_msg_to_user", str_ ""); risk_;
                              ("return_axtree", Some (VBool false))]);
      ("read", [("path", None); ("start", Some (VInt 0)); ("end", Some (VInt (-1))); thought_; risk_;
                ("impl_source", str_ "default"); ("view_range", none_)]);
      ("write", [("path", None); ("content", None); ("start", Some (VInt 0)); ("end", Some (VInt (-1))); thought_; risk_]);
      ("edit", [("path", None); ("command", str_ ""); ("file_text", none_); ("old_str", none_); ("new_str", none_);
                ("insert_line", none_); ("content", str_ ""); ("start", Some (VInt 1)); ("end", Some (VInt (-1))); thought_;
                risk_; ("impl_source", str_ "oh_aci")]);
      ("think", [thought_]);
      ("finish", [("final_thought", str_ ""); ("outputs", Some (VDict [])); thought_]);
      ("reject", [("outputs", Some (VDict [])); thought_]);
      ("delegate", [("agent", None); ("inputs", None); thought_]);
      ("recall", [("recall_type", None); ("query", str_ ""); thought_]);
      ("change_agent_state", [("agent_state", None); thought_]);
      ("message", [("content", None); ("file_urls", none_); ("image_urls", none_); ("wait_for_response", Some (VBool false)); risk_]);
      ("system", [("content", None); ("tools", none_); ("openhands_version", str_ version); ("agent_class", none_)]);
      ("condensation", [("forgotten_event_ids", none_); ("forgotten_events_start_id", none_); ("forgotten_events_end_id", none_);
                        ("summary", none_); ("summary_offset", none_)]);
      ("call_tool_mcp", [("name", None); ("arguments", Some (VDict [])); thought_; risk_]);
      ("task_tracking", [("command", str_ "view"); ("task_list", Some (VList [])); thought_]);
      ("loop_recovery", [("option", Some (VInt 1))]) ] t.

(** The fields of an observation after [content]. *)
Definition observation_fields (t : string) : option (list (string * option pyval)) :=
  dget
    [ ("null", []); ("success", []); ("user_rejected", []); ("condense", []); ("think", []); ("loop_detection", []);
      ("run", [("command", None); ("metadata", none_); ("hidden", Some (VBool false))]);
      ("run_ipython", [("code", None); ("image_urls", none_)]);
      ("browse", [("url", None); ("trigger_by_action", None); ("screenshot", str_ ""); ("screenshot_path", none_);
                  ("set_of_marks", str_ ""); ("error", Some (VBool false)); ("goal_image_urls", Some (VList []));
                  ("open_pages_urls", Some (VList [])); ("active_page_index", Some (VInt (-1))); ("dom_object", Some (VDict []));
                  ("axtree_object", Some (VDict [])); ("extra_element_properties", Some (VDict []));
                  ("last_browser_action", str_ ""); ("last_browser_action_error", str_ ""); ("focused_element_bid", str_ "");
                  ("filter_visible_only", Some (VBool false))]);
      ("read", [("path", None); ("impl_source", str_ "default")]);
      ("write", [("path", None)]);
      ("edit", [("path", str_ ""); ("prev_exist", Some (VBool false)); ("old_content", none_); ("new_content", none_);
                ("impl_source", str_ "llm_based_edit"); ("diff", none_); ("_diff_cache", none_)]);
      ("delegate", [("outputs", None)]);
      ("error", [("error_id", str_ "")]);
      ("agent_state_changed", [("agent_state", None); ("reason", str_ "")]);
      ("recall", [("recall_type", None); ("repo_name", str_ ""); ("repo_directory", str_ ""); ("repo_branch", str_ "");
                  ("repo_instructions", str_ ""); ("runtime_hosts", Some (VDict [])); ("additional_agent_instructions", str_ "");
                  ("date", str_ ""); ("custom_secrets_descriptions", Some (VDict [])); ("conversation_instructions", str_ "");
                  ("working_dir", str_ ""); ("microagent_knowledge", Some (VList []))]);
      ("mcp", [("name", str_ ""); ("arguments", Some (VDict []))]);
      ("download", [("file_path", None)]);
      ("task_tracking", [("command", str_ ""); ("task_list", Some (VList []))]) ] t.

(** Keyword arguments: none that the class does not know, and every field
    without a default.  [CmdOutputObservation] takes any further ones
    ([kwargs]). *)
Fixpoint bind_fields (fields : list (string * option pyval)) (kwargs : dict string pyval) : res (list pyval) :=
  match fields with
  | [] => Ok []
  | (name, d) :: rest =>
      match dget kwargs name, d with
      | Some v, _ | None, Some v => vs <-! bind_fields rest kwargs ;; Ok (v :: vs)
      | None, None => Raise (TypeError ("missing a required argument: '" +:+ name +:+ "'"))
      end
  end.
Definition bind_args (any : bool) (fields : list (string * option pyval)) (kwargs : dict string pyval) : res (list pyval) :=
  match List.find (fun kv => negb (dmem fields kv.1)) kwargs with
  | Some kv => if any then bind_fields fields kwargs
               else Raise (TypeError ("got an unexpected keyword argument '" +:+ kv.1 +:+ "'"))
  | None => bind_fields fields kwargs
  end.

(** *** Values of a type *)

Definition dec_opt {A} (f : pyval -> option A) (v : pyval) : option (option A) :=
  match v with VNone => Some None | _ => Some <$> f v end.
Definition dec_str (v : pyval) : option string := match v with VStr s => Some s | _ => None end.
Definition dec_bool (v : pyval) : option bool := match v with VBool b => Some b | _ => None end.
Definition dec_int (v : pyval) : option Z := match v with VInt z => Some z | _ => None end.
Definition dec_dict (v : pyval) : option (dict string pyval) := match v with VDict d => Some d | _ => None end.
Definition dec_list {A} (f : pyval -> option A) (v : pyval) : option (list A) :=
  match v with VList l => mapM f l | _ => None end.
Definition dec_map {A} (f : pyval -> option A) (v : pyval) : option (dict string A) :=
  match v with VDict d => mapM (fun kv => pair kv.1 <$> f kv.2) d | _ => None end.
Definition dec_enum {A} (value : A -> pyval) (all : list A) (v : pyval) : option A := List.find (fun a => py_eq (value a) v) all.
Definition dec_risk : pyval -> option ActionSecurityRisk :=
  dec_enum vrisk [RISK_UNKNOWN; RISK_LOW; RISK_MEDIUM; RISK_HIGH].
Definition dec_conf : pyval -> option ActionConfirmationStatus :=
  dec_enum (fun c => VStr (confirmation_value c)) [CONFIRMED; REJECTED; AWAITING_CONFIRMATION].
Definition dec_recall : pyval -> option RecallType := dec_enum (fun r => VStr (recall_value r)) [WORKSPACE_CONTEXT; KNOWLEDGE].
Definition dec_edit_source : pyval -> option FileEditSource :=
  dec_enum (fun r => VStr (edit_source_value r)) [EDIT_LLM_BASED; EDIT_OH_ACI].
Definition dec_read_source : pyval -> option FileReadSource :=
  dec_enum (fun r => VStr (read_source_value r)) [READ_OH_ACI; READ_DEFAULT].

Definition dec_metadata (v : pyval) : option CmdOutputMetadata :=
  match v with
  | VDict d =>
      match bind_args false
              [("exit_code", Some (VInt (-1))); ("pid", Some (VInt (-1))); ("username", none_); ("hostname", none_);
               ("working_dir", none_); ("py_interpreter_path", none_); ("prefix", str_ ""); ("suffix", str_ "")] d with
      | Ok [e; p; u; h; w; i; pre; suf] =>
          e ← dec_int e; p ← dec_int p; u ← dec_opt dec_str u; h ← dec_opt dec_str h; w ← dec_opt dec_str w;
          i ← dec_opt dec_str i; pre ← dec_str pre; suf ← dec_str suf;
          Some {| exit_code := e; pid := p; username := u; hostname := h; working_dir := w; py_interpreter_path := i;
                  prefix_ := pre; suffix_ := suf |}
      | _ => None
      end
  | _ => Some default_metadata
  end.
Definition dec_knowledge (v : pyval) : option MicroagentKnowledge :=
  match v with
  | VDict d =>
      match bind_args false [("name", None); ("trigger", None); ("content", None)] d with
      | Ok [n; t; c] => n ← dec_str n; t ← dec_str t; c ← dec_str c; Some {| mk_name := n; mk_trigger := t; mk_content := c |}
      | _ => None
      end
  | _ => None
  end.

(** *** From the values of the fields to the object *)

Definition dec_tasks : pyval -> option (list (dict string pyval)) := dec_list dec_dict.
Definition dec_strs : pyval -> option (list string) := dec_list dec_str.
Definition dec_ints : pyval -> option (list Z) := dec_list dec_int.

Definition build_file_action (t : string) (vs : list pyval) : option body :=
  match vs with
  | [path; start; end_; thought; risk; impl; range] =>
      path ← dec_str path; start ← dec_int start; end_ ← dec_int end_; thought ← dec_str thought; risk ← dec_risk risk;
      impl ← dec_read_source impl; range ← dec_opt dec_ints range;
      Some (FileReadAction path start end_ thought risk impl range)
  | [path; content; start; end_; thought; risk] =>
      path ← dec_str path; content ← dec_str content; start ← dec_int start; end_ ← dec_int end_; thought ← dec_str thought;
      risk ← dec_risk risk; Some (FileWriteAction path content start end_ thought risk)
  | [path; command; text; old_; new_; line; content; start; end_; thought; risk; impl] =>
      path ← dec_str path; command ← dec_str command; text ← dec_opt dec_str text; old_ ← dec_opt dec_str old_;
      new_ ← dec_opt dec_str new_; line ← dec_opt dec_int line; content ← dec_str content; start ← dec_int start;
      end_ ← dec_int end_; thought ← dec_str thought; risk ← dec_risk risk; impl ← dec_edit_source impl;
      Some (FileEditAction path command text old_ new_ line content start end_ thought risk impl)
  | _ => None
  end.
Definition build_action (t : string) (vs : list pyval) : option body :=
  let ty s := String.eqb t s in
  if ty "null" then Some NullAction
  else if ty "condensation_request" then Some CondensationRequestAction
  else if ty "run" then
    match vs with
    | [c; i; th; bl; st; cwd; h; conf; risk] =>
        c ← dec_str c; i ← dec_bool i; th ← dec_str th; bl ← dec_bool bl; st ← dec_bool st; cwd ← dec_opt dec_str cwd;
        h ← dec_bool h; conf ← dec_conf conf; risk ← dec_risk risk; Some (CmdRunAction c i th bl st cwd h conf risk)
    | _ => None
    end
  else if ty "run_ipython" then
    match vs with
    | [c; th; ex; conf; risk; k] =>
        c ← dec_str c; th ← dec_str th; ex ← dec_bool ex; conf ← dec_conf conf; risk ← dec_risk risk; k ← dec_str k;
        Some (IPythonRunCellAction c th ex conf risk k)
    | _ => None
    end
  else if ty "browse" then
    match vs with
    | [u; th; risk; ax] =>
        u ← dec_str u; th ← dec_str th; risk ← dec_risk risk; ax ← dec_bool ax; Some (BrowseURLAction u th risk ax)
    | _ => None
    end
  else if ty "browse_interactive" then
    match vs with
    | [a; th; m; risk; ax] =>
        a ← dec_str a; th ← dec_str th; m ← dec_str m; risk ← dec_risk risk; ax ← dec_bool ax;
        Some (BrowseInteractiveAction a th m risk ax)
    | _ => None
    end
  else if ty "read" || ty "write" || ty "edit" then build_file_action t vs
  else if ty "think" then match vs with [th] => AgentThinkAction <$> dec_str th | _ => None end
  else if ty "finish" then
    match vs with
    | [f; o; th] => f ← dec_str f; o ← dec_dict o; th ← dec_str th; Some (AgentFinishAction f o th)
    | _ => None
    end
  else if ty "reject" then
    match vs with [o; th] => o ← dec_dict o; th ← dec_str th; Some (AgentRejectAction o th) | _ => None end
  else if ty "delegate" then
    match vs with
    | [a; i; th] => a ← dec_str a; i ← dec_dict i; th ← dec_str th; Some (AgentDelegateAction a i th)
    | _ => None
    end
  else if ty "recall" then
    match vs with
    | [r; q; th] => r ← dec_recall r; q ← dec_str q; th ← dec_str th; Some (RecallAction r q th)
    | _ => None
    end
  else if ty "change_agent_state" then
    match vs with [a; th] => a ← dec_str a; th ← dec_str th; Some (ChangeAgentStateAction a th) | _ => None end
  else if ty "message" then
    match vs with
    | [c; fu; iu; w; risk] =>
        c ← dec_str c; fu ← dec_opt dec_strs fu; iu ← dec_opt dec_strs iu; w ← dec_bool w; risk ← dec_risk risk;
        Some (MessageAction c fu iu w risk)
    | _ => None
    end
  else if ty "system" then
    match vs with
    | [c; tools; v; a] =>
        c ← dec_str c; tools ← dec_opt (dec_list Some) tools; v ← dec_opt dec_str v; a ← dec_opt dec_str a;
        Some (SystemMessageAction c tools v a)
    | _ => None
    end
  else if ty "condensation" then
    match vs with
    | [ids; s; e; sm; off] =>
        ids ← dec_opt dec_ints ids; s ← dec_opt dec_int s; e ← dec_opt dec_int e; sm ← dec_opt dec_str sm;
        off ← dec_opt dec_int off; Some (CondensationAction ids s e sm off)
    | _ => None
    end
  else if ty "call_tool_mcp" then
    match vs with
    | [n; a; th; risk] =>
        n ← dec_str n; a ← dec_dict a; th ← dec_str th; risk ← dec_risk risk; Some (MCPAction n a th risk)
    | _ => None
    end
  else if ty "task_tracking" then
    match vs with
    | [c; l; th] => c ← dec_str c; l ← dec_tasks l; th ← dec_str th; Some (TaskTrackingAction c l th)
    | _ => None
    end
  else if ty "loop_recovery" then match vs with [o] => LoopRecoveryAction <$> dec_int o | _ => None end
  else None.

Definition build_browser_output (content : string) (vs : list pyval) : option body :=
  match vs with
  | [u; tr; sh; shp; mk; er; gi; op; ap; dom; ax; ex; la; lae; fe; vis] =>
      u ← dec_str u; tr ← dec_str tr; sh ← dec_str sh; shp ← dec_opt dec_str shp; mk ← dec_str mk; er ← dec_bool er;
      gi ← dec_strs gi; op ← dec_strs op; ap ← dec_int ap; dom ← dec_dict dom; ax ← dec_dict ax; ex ← dec_dict ex;
      la ← dec_str la; lae ← dec_str lae; fe ← dec_str fe; vis ← dec_bool vis;
      Some (BrowserOutputObservation content u tr sh shp mk er gi op ap dom ax ex la lae fe vis)
  | _ => None
  end.
Definition build_recall (content : string) (vs : list pyval) : option body :=
  match vs with
  | [rt; n; dir; br; ins; hosts; add; date; sec; conv; wd; kn] =>
      rt ← dec_recall rt; n ← dec_str n; dir ← dec_str dir; br ← dec_str br; ins ← dec_str ins; hosts ← dec_map dec_int hosts;
      add ← dec_str add; date ← dec_str date; sec ← dec_map dec_str sec; conv ← dec_str conv; wd ← dec_str wd;
      kn ← dec_list dec_knowledge kn; Some (RecallObservation content rt n dir br ins hosts add date sec conv wd kn)
  | _ => None
  end.
Definition build_observation (t : string) (content : string) (vs : list pyval) : option body :=
  let ty s := String.eqb t s in
  match vs with
  | [] =>
      if ty "null" then Some (NullObservation content)
      else if ty "success" then Some (SuccessObservation content)
      else if ty "user_rejected" then Some (UserRejectObservation content)
      else if ty "condense" then Some (AgentCondensationObservation content)
      else if ty "think" then Some (AgentThinkObservation content)
      else if ty "loop_detection" then Some (LoopDetectionObservation content)
      else None
  | [a] =>
      if ty "write" then FileWriteObservation content <$> dec_str a
      else if ty "delegate" then AgentDelegateObservation content <$> dec_dict a
      else if ty "error" then ErrorObservation content <$> dec_str a
      else if ty "download" then FileDownloadObservation content <$> dec_str a
      else None
  | [a; b] =>
      if ty "run_ipython" then a ← dec_str a; b ← dec_opt dec_strs b; Some (IPythonRunCellObservation content a b)
      else if ty "read" then a ← dec_str a; b ← dec_read_source b; Some (FileReadObservation content a b)
      else if ty "agent_state_changed" then a ← dec_str a; b ← dec_str b; Some (AgentStateChangedObservation content a b)
      else if ty "mcp" then a ← dec_str a; b ← dec_dict b; Some (MCPObservation content a b)
      else if ty "task_tracking" then a ← dec_str a; b ← dec_tasks b; Some (TaskTrackingObservation content a b)
      else None
  | [a; b; c] =>
      if ty "run" then
        a ← dec_str a; b ← dec_metadata b; c ← dec_bool c;
        Some (CmdOutputObservation (if c : bool then content else truncate_content content (Some MAX_CMD_OUTPUT_SIZE)) a b c)
      else None
  | [p; pe; oc; nc; src; df; dc] =>
      if ty "edit" then
        p ← dec_str p; pe ← dec_bool pe; oc ← dec_opt dec_str oc; nc ← dec_opt dec_str nc; src ← dec_edit_source src;
        df ← dec_opt dec_str df; dc ← dec_opt dec_str dc; Some (FileEditObservation content p pe oc nc src df dc)
      else None
  | _ => if ty "browse" then build_browser_output content vs else if ty "recall" then build_recall content vs else None
  end.

(** [action_class( **args)]; a [TypeError] becomes [LLMMalformedActionError],
    other exceptions of the constructor pass. *)
Definition construct_action (t : string) (fields : list (string * option pyval)) (args : dict string pyval) : res body :=
  match bind_args false fields args with
  | Raise (TypeError m) => Raise (malformed m)
  | Raise e => Raise e
  | Ok vs =>
      match build_action t vs with
      | None => Raise ill_typed
      | Some (CondensationAction ids s e sm off) => condensation_action ids s e sm off
      | Some b => Ok b
      end
  end.

(** ** Old formats *)

Definition rename (old_ new_ : string) (d : dict string pyval) : dict string pyval :=
  match dget d old_ with Some v => dset (ddel d old_) new_ v | None => d end.
Definition file_editor_prefix : string := "print(file_editor(**".
Definition handle_action_deprecated_args (args : dict string pyval) : dict string pyval :=
  let args := ddel (ddel args "keep_prompt") "task_completed" in
  match dget args "translated_ipython_code" with
  | None => args
  | Some code =>
      let args := ddel args "translated_ipython_code" in
      let args :=
        match code with
        | VStr c =>
            if startswith file_editor_prefix c && endswith c "))"
            then match literal_eval (slice_to (sdrop (slen file_editor_prefix) c) (-2)) with
                 | Some d => dupdate args d
                 | None => args
                 end
            else args
        | _ => args
        end in
      match dget args "command" with
      | Some (VStr c) => if String.eqb c "view" then ddel args "command" else args
      | _ => args
      end
  end.

(** The arguments as the constructor gets them, and the timestamp that older
    formats kept among them. *)
Definition prepare_args (args : dict string pyval) : dict string pyval * option pyval :=
  let timestamp := dget args "timestamp" in
  let args := ddel args "timestamp" in
  let args := match dget args "is_confirmed" with
              | Some VNone | None => ddel args "is_confirmed"
              | Some v => dset (ddel args "is_confirmed") "confirmation_state" v
              end in
  let args := rename "images_urls" "image_urls" args in
  let args := match dget args "security_risk" with
              | Some VNone | None => args
              | Some v => match dec_risk v with
                          | Some r => dset args "security_risk" (vrisk r)
                          | None => ddel args "security_risk"
                          end
              end in
  (handle_action_deprecated_args args, timestamp).

Definition dec_timeout (v : pyval) : option float :=
  match v with VFloat x => Some x | VInt z => Some (float_of_Z z) | _ => None end.
Definition set_timestamp (ts : option string) (e : event) : event :=
  {| _id := _id e; _timestamp := ts; _source := _source e; _cause := _cause e; _timeout := _timeout e;
     _llm_metrics := _llm_metrics e; _tool_call_metadata := _tool_call_metadata e; _response_id := _response_id e;
     data := data e |}.

Definition action_from_dict (action : dict string pyval) : res event :=
  match dget action "action" with
  | None => Raise (malformed "'action' key is not found")
  | Some (VStr t) =>
      match action_fields t with
      | None => Raise (malformed "the action is not defined")
      | Some fields =>
          match match dget action "args" with None => Some [] | Some v => dec_dict v end with
          | None => Raise ill_typed
          | Some args =>
              let '(args, timestamp) := prepare_args args in
              b <-! construct_action t fields args ;;
              let e := new_event b in
              let e := match dget action "timeout" with
                       | Some v => set_hard_timeout (dec_timeout v)
                                     (match dget args "blocking" with Some (VBool x) => x | _ => false end) e
                       | None => e
                       end in
              Ok match timestamp with
                 | Some v => if truth v then set_timestamp (dec_str v) e else e
                 | None => e
                 end
          end
      end
  | Some _ => Raise (malformed "the action is not defined")
  end.

Definition update_metadata (v : option pyval) (key : string) (x : pyval) : pyval :=
  match v with Some (VDict d) => VDict (dset d key x) | _ => VDict [(key, x)] end.
Definition handle_observation_deprecated_extras (extras : dict string pyval) : dict string pyval :=
  let move key field extras :=
    match dget extras key with
    | Some v => dset (ddel extras key) "metadata" (update_metadata (dget extras "metadata") field v)
    | None => extras
    end in
  ddel (move "command_id" "pid" (move "exit_code" "exit_code" extras)) "formatted_output_and_error".

Definition observation_from_dict (observation : dict string pyval) : res event :=
  match dget observation "observation" with
  | None => Raise (KeyError "'observation' key is not found")
  | Some (VStr t) =>
      match observation_fields t with
      | None => Raise (KeyError "the observation is not defined")
      | Some fields =>
          match match dget observation "extras" with None => Some [] | Some v => dec_dict v end,
                match dget observation "content" with None => Some "" | Some v => dec_str v end with
          | Some extras, Some content =>
              let extras := handle_observation_deprecated_extras extras in
              _ <-! (match dget extras "recall_type" with
                     | Some v => if String.eqb t "recall" && negb (bool_decide (is_Some (dec_recall v)))
                                 then Raise (ValueError "not a valid RecallType") else Ok tt
                     | None => Ok tt
                     end) ;;
              vs <-! bind_args (String.eqb t "run") fields extras ;;
              match build_observation t content vs with
              | Some b => Ok (new_event b)
              | None => Raise ill_typed
              end
          | _, _ => Raise ill_typed
          end
      end
  | Some _ => Raise (KeyError "the observation is not defined")
  end.

(** ** [event_to_dict] *)

(** [asdict] without the top-level keys. *)
Definition props (b : body) : dict string pyval := ddel (ddel (asdict b) "action") "observation".
(** [event.success] *)
Definition success (b : body) : option bool :=
  match b with
  | CmdOutputObservation _ _ m _ => Some (exit_code m =? 0)
  | IPythonRunCellObservation _ _ _ => Some true
  | _ => None
  end.
Definition entry (key : string) (v : option pyval) : dict string pyval :=
  match v with Some v => [(key, v)] | None => [] end.

(** The keys of [TOP_KEYS], in their order. *)
Definition top_level (id timestamp source cause tool_call_metadata llm_metrics : option pyval) (msg : string) (action : bool)
    (ty : string) : dict string pyval :=
  entry "id" id ++ entry "timestamp" timestamp ++ entry "source" source ++ [("message", VStr msg)] ++
  entry "cause" cause ++ [(if action then "action" else "observation", VStr ty)] ++
  entry "tool_call_metadata" tool_call_metadata ++ entry "llm_metrics" llm_metrics.

(** [ToolCallMetadata.model_dump] *)
Definition dump_call_metadata (m : CallMetadata) : pyval :=
  VDict [("function_name", VStr (cm_function_name m)); ("tool_call_id", VStr (cm_tool_call_id m));
         ("model_response", cm_model_response m); ("total_calls_in_response", VInt (cm_total_calls_in_response m))].

Definition event_to_dict (e : event) : res (dict string pyval) :=
  msg <-! message (data e) ;;
  let id := if event_id e =? INVALID_ID then None else Some (VInt (event_id e)) in
  let top := top_level id (VStr <$> _timestamp e) ((fun s => VStr (source_value s)) <$> _source e) (VInt <$> _cause e)
               (dump_call_metadata <$> _tool_call_metadata e) (get <$> _llm_metrics e) msg (is_action (data e)) (event_type (data e)) in
  Ok (top ++
      if is_action (data e)
      then ("args", VDict (props (data e))) :: entry "timeout" (VFloat <$> _timeout e)
      else [ ("content", default (VStr "") (dget (props (data e)) "content"));
             ("extras", VDict (ddel (props (data e)) "content")) ] ++
           entry "success" (VBool <$> success (data e))).

(** ** [event_from_dict] *)

Definition dec_source : pyval -> option EventSource :=
  dec_enum (fun s => VStr (source_value s)) [AGENT; USER; ENVIRONMENT].
(** [ToolCallMetadata( **value )], validated strictly *)
Definition read_call_metadata (v : pyval) : res CallMetadata :=
  match v with
  | VDict d =>
      f <-! field as_str None d "function_name" ;; i <-! field as_str None d "tool_call_id" ;;
      r <-! field Ok None d "model_response" ;; n <-! field as_int None d "total_calls_in_response" ;;
      Ok {| cm_function_name := f; cm_tool_call_id := i; cm_model_response := r; cm_total_calls_in_response := n |}
  | _ => not_a_mapping
  end.
(** The metrics of a dictionary.  A cost without a time gets that of the reading, which
    is not modelled: [Metrics.get] writes the times of all of them. *)
Definition read_metrics (v : pyval) : res Metrics := metrics_from_value S754_nan v.
(** An attribute that is set if its key is there. *)
Definition attribute {A} (read : pyval -> res A) (d : dict string pyval) (k : string) (unset : option A) : res (option A) :=
  match dget d k with Some v => x <-! read v ;; Ok (Some x) | None => Ok unset end.
Definition event_from_dict (d : dict string pyval) : res event :=
  evt <-! (if dmem d "action" then action_from_dict d
           else if dmem d "observation" then observation_from_dict d
           else Raise (ValueError "Unknown event type")) ;;
  source <-! (match dget d "source" with
              | Some v => match dec_source v with Some s => Ok (Some s) | None => Raise (ValueError "not a valid EventSource") end
              | None => Ok (_source evt)
              end) ;;
  tool_call_metadata <-! attribute read_call_metadata d "tool_call_metadata" (_tool_call_metadata evt) ;;
  llm_metrics <-! attribute read_metrics d "llm_metrics" (_llm_metrics evt) ;;
  Ok {| _id := match dget d "id" with Some v => dec_int v | None => _id evt end;
        _timestamp := match dget d "timestamp" with Some v => dec_str v | None => _timestamp evt end;
        _source := source;
        _cause := match dget d "cause" with Some v => dec_int v | None => _cause evt end;
        _timeout := _timeout evt;
        _llm_metrics := llm_metrics;
        _tool_call_metadata := tool_call_metadata;
        _response_id := _response_id evt;
        data := data evt |}.
End serialization.

(** ** Lemmas *)

Lemma dec_opt_str o : dec_opt dec_str (vopt VStr o) = Some o. Proof. by destruct o. Qed.
Lemma dec_opt_int o : dec_opt dec_int (vopt VInt o) = Some o. Proof. by destruct o. Qed.
Lemma dec_list_map {A} (f : pyval -> option A) (g : A -> pyval) l :
  (forall a, f (g a) = Some a) -> dec_list f (VList (map g l)) = Some l.
Proof.
  intros H. cbn [dec_list]. induction l as [|a l IH]; [done|]. cbn [map mapM]. unfold mapM in *. cbn. rewrite H. cbn.
  by rewrite IH.
Qed.
Lemma dec_strs_ok l : dec_strs (vstrs l) = Some l. Proof. by apply dec_list_map. Qed.
Lemma dec_ints_ok l : dec_ints (vints l) = Some l. Proof. by apply dec_list_map. Qed.
Lemma dec_tasks_ok l : dec_tasks (vtasks l) = Some l. Proof. by apply dec_list_map. Qed.
Lemma dec_opt_strs o : dec_opt dec_strs (vopt vstrs o) = Some o.
Proof. destruct o; [|done]. cbn [vopt]. change (dec_opt dec_strs (vstrs l)) with (Some <$> dec_strs (vstrs l)). by rewrite dec_strs_ok. Qed.
Lemma dec_opt_ints o : dec_opt dec_ints (vopt vints o) = Some o.
Proof. destruct o; [|done]. cbn [vopt]. change (dec_opt dec_ints (vints l)) with (Some <$> dec_ints (vints l)). by rewrite dec_ints_ok. Qed.
Lemma dec_opt_list o : dec_opt (dec_list Some) (vopt VList o) = Some o.
Proof.
  destruct o as [l|]; [|done]. cbn [vopt]. change (dec_opt (dec_list Some) (VList l)) with (Some <$> dec_list Some (VList l)).
  pose proof (dec_list_map Some (fun x => x) l (fun _ => eq_refl)) as H. rewrite map_id in H. by rewrite H.
Qed.
Lemma dec_map_ok {A} (f : pyval -> option A) (g : A -> pyval) (d : dict string A) :
  (forall a, f (g a) = Some a) -> dec_map f (VDict (map (fun kv => (kv.1, g kv.2)) d)) = Some d.
Proof.
  intros H. cbn [dec_map]. induction d as [|[k a] d IH]; [done|]. cbn [map mapM]. unfold mapM in *. cbn. rewrite H. cbn.
  by rewrite IH.
Qed.
Lemma dec_knowledge_ok l : dec_list dec_knowledge (VList (map (fun k => VDict (knowledge_dict k)) l)) = Some l.
Proof. apply dec_list_map. by intros []. Qed.
Lemma dec_metadata_ok m : dec_metadata (VDict (metadata_dict m)) = Some m.
Proof. destruct m as [e p u h w i pre suf]. by destruct u, h, w, i. Qed.

Lemma dec_str_ok x : dec_str (VStr x) = Some x. Proof. done. Qed.
Lemma dec_bool_ok x : dec_bool (VBool x) = Some x. Proof. done. Qed.
Lemma dec_int_ok x : dec_int (VInt x) = Some x. Proof. done. Qed.
Lemma dec_dict_ok x : dec_dict (VDict x) = Some x. Proof. done. Qed.
#[export] Hint Rewrite dec_str_ok dec_bool_ok dec_int_ok dec_dict_ok dec_opt_str dec_opt_int dec_strs_ok dec_ints_ok dec_tasks_ok dec_opt_strs dec_opt_ints dec_opt_list
  dec_knowledge_ok dec_metadata_ok : serialized.

Lemma stake_prefix n s t : slen s = n -> stake n (s +:+ t) = s.
Proof. intros <-. induction s as [|c s IH]; [by destruct t|]. rewrite sapp_cons. cbn [slen stake]. by rewrite IH. Qed.
Lemma sdrop_prefix n s t : slen s = n -> sdrop n (s +:+ t) = t.
Proof. intros <-. induction s as [|c s IH]; [by destruct t|]. rewrite sapp_cons. cbn [slen sdrop]. by rewrite IH. Qed.
(** A cut text is longer than the bound, and is cut to itself. *)
Lemma truncate_content_idem c n : 2 <= n ->
  truncate_content (truncate_content c (Some n)) (Some n) = truncate_content c (Some n).
Proof.
  intros Hn. unfold truncate_content at 2 3. destruct (Z.ltb_spec n 0) as [|_]; [lia|]. rewrite orb_false_r.
  destruct (Z.leb_spec (Z.of_nat (slen c)) n) as [H|H].
  { unfold truncate_content. destruct (Z.leb_spec (Z.of_nat (slen c)) n) as [_|]; [done|lia]. }
  cbv zeta. assert (1 <= n / 2 /\ 2 * (n / 2) <= n <= 2 * (n / 2) + 1) as Hh.
  { pose proof (Z.div_mod n 2). pose proof (Z.mod_pos_bound n 2). lia. }
  set (h := n / 2) in *. set (a := slice_to c h). set (b := slice_from c (- h)).
  assert (slen a = Z.to_nat h) as Ha by (unfold a; rewrite slice_to_len; lia).
  assert (slen b = Z.to_nat h) as Hb by (unfold b; rewrite slice_from_neg_len; lia).
  unfold truncate_content. fold h. destruct (Z.ltb_spec n 0) as [|_]; [lia|]. rewrite orb_false_r.
  destruct (Z.leb_spec (Z.of_nat (slen (a +:+ truncation_note +:+ b))) n) as [|_]; [done|].
  unfold slice_to, slice_from, slice_pos. rewrite !slen_app, Ha, Hb.
  destruct (Z.ltb_spec h 0) as [|_]; [lia|]. destruct (Z.ltb_spec (- h) 0) as [_|]; [|lia].
  rewrite stake_prefix by lia. do 2 f_equal. rewrite <- sapp_assoc. apply sdrop_prefix. rewrite slen_app. lia.
Qed.

(** What [asdict] gives of a class is what its constructor takes. *)
Definition constructible (b : body) : Prop :=
  match b with
  | CondensationAction ids s e sm off => validate_field_polymorphism ids s e sm off = true
  | _ => True
  end.

(** The constructor of [CmdOutputObservation] cuts a long output that is not
    hidden. *)
Definition stored_body (b : body) : body :=
  match b with
  | CmdOutputObservation c command m hidden =>
      CmdOutputObservation (if hidden then c else truncate_content c (Some MAX_CMD_OUTPUT_SIZE)) command m hidden
  | _ => b
  end.

Section roundtrip.
Context (version : string) (literal_eval : string -> option (dict string pyval)).

Definition blocking_of (args : dict string pyval) : bool := match dget args "blocking" with Some (VBool x) => x | _ => false end.

Lemma construct_props b : is_action b = true -> constructible b ->
  exists fields args,
    action_fields version (event_type b) = Some fields /\
    prepare_args literal_eval (props b) = (args, None) /\
    construct_action (event_type b) fields args = Ok b /\
    forall t, set_hard_timeout t (blocking_of args) (new_event b) =
      {| _id := None; _timestamp := None; _source := None; _cause := None; _timeout := t; _llm_metrics := None;
         _tool_call_metadata := None; _response_id := None; data := b |}.
Proof.
  intros Ha Hc. destruct b; try discriminate Ha;
    repeat match goal with
           | r : ActionSecurityRisk |- _ => destruct r
           | r : ActionConfirmationStatus |- _ => destruct r
           | r : FileReadSource |- _ => destruct r
           | r : FileEditSource |- _ => destruct r
           | r : RecallType |- _ => destruct r
           end;
    do 2 eexists; (split; [reflexivity|]);
    (split; [lazy -[vopt vstrs vints vtasks]; reflexivity|]); (split; [|intros t; reflexivity]);
    unfold construct_action;
    lazy -[dec_str dec_bool dec_int dec_dict dec_opt dec_strs dec_ints dec_tasks dec_list vopt vstrs vints vtasks condensation_action];
    repeat (progress (autorewrite with serialized; cbv beta iota)); try reflexivity.
  cbn [constructible] in Hc. unfold condensation_action. by rewrite Hc.
Qed.

Lemma construct_extras b : is_observation b = true ->
  exists content fields vs,
    dget (props b) "content" = Some (VStr content) /\
    observation_fields (event_type b) = Some fields /\
    (match dget (handle_observation_deprecated_extras (ddel (props b) "content")) "recall_type" with
     | Some v => String.eqb (event_type b) "recall" && negb (bool_decide (is_Some (dec_recall v)))
     | None => false
     end = false) /\
    bind_args (String.eqb (event_type b) "run") fields (handle_observation_deprecated_extras (ddel (props b) "content")) = Ok vs /\
    build_observation (event_type b) content vs = Some (stored_body b).
Proof.
  intros Ho. destruct b; try discriminate Ho;
    repeat match goal with
           | r : FileReadSource |- _ => destruct r
           | r : FileEditSource |- _ => destruct r
           | r : RecallType |- _ => destruct r
           end;
    do 3 eexists; (split; [reflexivity|]); (split; [reflexivity|]); (split; [reflexivity|]);
    (split; [lazy -[vopt vstrs vtasks knowledge_dict metadata_dict]; reflexivity|]);
    lazy -[dec_str dec_bool dec_int dec_dict dec_opt dec_strs dec_tasks dec_list dec_map dec_knowledge dec_metadata vopt vstrs
           vtasks knowledge_dict metadata_dict stored_body truncate_content MAX_CMD_OUTPUT_SIZE];
    repeat (progress (autorewrite with serialized; cbv beta iota)); try reflexivity.
  all: match goal with |- context [dec_map dec_int ?v] =>
         replace (dec_map dec_int v) with (Some runtime_hosts) by (symmetry; by apply (dec_map_ok dec_int VInt)) end;
       match goal with |- context [dec_map dec_str ?v] =>
         replace (dec_map dec_str v) with (Some custom_secrets_descriptions) by (symmetry; by apply (dec_map_ok dec_str VStr)) end;
       reflexivity.
Qed.

(** An event as it is after it has been stored and read back. *)
Definition stored (e : event) : event :=
  {| _id := if event_id e =? INVALID_ID then None else Some (event_id e); _timestamp := _timestamp e; _source := _source e;
     _cause := _cause e; _timeout := if is_action (data e) then _timeout e else None; _llm_metrics := with_model_name "default" <$> _llm_metrics e;
     _tool_call_metadata := _tool_call_metadata e; _response_id := None; data := stored_body (data e) |}.

Lemma dget_app {A} (a b : dict string A) k : dget (a ++ b) k = match dget a k with Some v => Some v | None => dget b k end.
Proof. induction a as [|[k' v] a IH]; [done|]. cbn [app dget]. by destruct (decide (k = k')). Qed.
Lemma dec_source_ok s : dec_source (VStr (source_value s)) = Some s.
Proof. by destruct s. Qed.
Lemma top_level_keys id ts src cause tcm llm msg action ty :
  let d := top_level id ts src cause tcm llm msg action ty in
  dget d "id" = id /\ dget d "timestamp" = ts /\ dget d "source" = src /\ dget d "cause" = cause /\
  dget d "tool_call_metadata" = tcm /\ dget d "llm_metrics" = llm /\
  dget d "action" = (if action then Some (VStr ty) else None) /\
  dget d "observation" = (if action then None else Some (VStr ty)) /\
  dget d "args" = None /\ dget d "timeout" = None /\ dget d "content" = None /\ dget d "extras" = None.
Proof. cbv zeta. destruct action, id, ts, src, cause, tcm, llm; repeat split; reflexivity. Qed.

Lemma match_source (o : option EventSource) :
  match (fun s => VStr (source_value s)) <$> o with
  | Some v => match dec_source v with Some s => Ok (Some s) | None => Raise (ValueError "not a valid EventSource") end
  | None => Ok None
  end = Ok o.
Proof. destruct o as [s|]; [|done]. cbn [fmap option_fmap option_map]. by rewrite dec_source_ok. Qed.
(** The attributes of pydantic classes.  Metrics with a negative cost are not read. *)
Definition negative_cost : exn := ValueError "Total cost cannot be negative.".
Definition negative_metrics (e : event) : bool := match _llm_metrics e with Some m => flt (accumulated_cost m) f0 | None => false end.
Definition readable_metrics (e : event) : bool := negb (negative_metrics e).
Lemma read_dump_call_metadata m : read_call_metadata (dump_call_metadata m) = Ok m.
Proof. by destruct m. Qed.
Lemma read_metrics_get m : read_metrics (get m) = if flt (accumulated_cost m) f0 then Raise negative_cost else Ok (with_model_name "default" m).
Proof.
  unfold read_metrics. destruct (flt (accumulated_cost m) f0) eqn:E; [|by apply metrics_round_trip].
  by apply negative_not_read.
Qed.
Lemma attribute_metadata d e : dget d "tool_call_metadata" = dump_call_metadata <$> _tool_call_metadata e ->
  attribute read_call_metadata d "tool_call_metadata" None = Ok (_tool_call_metadata e).
Proof.
  unfold attribute. intros ->. destruct (_tool_call_metadata e) as [m|]; [|done]. cbn [fmap option_fmap option_map].
  by rewrite read_dump_call_metadata.
Qed.
Lemma attribute_metrics d e : dget d "llm_metrics" = get <$> _llm_metrics e ->
  attribute read_metrics d "llm_metrics" None =
  if negative_metrics e then Raise negative_cost else Ok (with_model_name "default" <$> _llm_metrics e).
Proof.
  unfold attribute, negative_metrics. intros ->. destruct (_llm_metrics e) as [m|]; [|done]. cbn [fmap option_fmap option_map].
  rewrite read_metrics_get. by destruct (flt _ _).
Qed.
(** The attributes that every event has. *)
Lemma event_from_dict_top e b evt msg rest t :
  let d := top_level (if event_id e =? INVALID_ID then None else Some (VInt (event_id e))) (VStr <$> _timestamp e)
             ((fun s => VStr (source_value s)) <$> _source e) (VInt <$> _cause e) (dump_call_metadata <$> _tool_call_metadata e) (get <$> _llm_metrics e) msg
             (is_action b) (event_type b) ++ rest in
  (forall k, k ∈ ["id"; "timestamp"; "source"; "cause"; "tool_call_metadata"; "llm_metrics"; "action"; "observation"] ->
             dget rest k = None) ->
  (if is_action b then action_from_dict version literal_eval d else observation_from_dict d) = Ok evt ->
  evt = {| _id := None; _timestamp := None; _source := None; _cause := None; _timeout := t; _llm_metrics := None;
           _tool_call_metadata := None; _response_id := None; data := data evt |} ->
  event_from_dict version literal_eval d =
  if readable_metrics e
  then Ok {| _id := if event_id e =? INVALID_ID then None else Some (event_id e); _timestamp := _timestamp e; _source := _source e;
             _cause := _cause e; _timeout := t; _llm_metrics := with_model_name "default" <$> _llm_metrics e;
             _tool_call_metadata := _tool_call_metadata e; _response_id := None; data := data evt |}
  else Raise negative_cost.
Proof.
  cbv zeta. intros Hrest Hevt Heq. unfold event_from_dict, dmem.
  match goal with |- context [top_level ?a ?b ?c ?d ?e ?f ?g ?h ?i] => pose proof (top_level_keys a b c d e f g h i) as Hk end.
  cbv zeta in Hk. destruct Hk as (Kid & Kts & Ksrc & Kcause & Ktcm & Kllm & Kact & Kobs & _).
  match goal with |- context [attribute read_metrics ?d _ _] => set (D := d) in * end.
  assert (dget D "tool_call_metadata" = dump_call_metadata <$> _tool_call_metadata e) as Dtcm.
  { unfold D. rewrite dget_app, Ktcm, Hrest by set_solver. by destruct (_tool_call_metadata e). }
  assert (dget D "llm_metrics" = get <$> _llm_metrics e) as Dllm.
  { unfold D. rewrite dget_app, Kllm, Hrest by set_solver. by destruct (_llm_metrics e). }
  replace (dget D "action") with (if is_action b then Some (VStr (event_type b)) else None)
    by (unfold D; rewrite dget_app, Kact, Hrest by set_solver; by destruct (is_action b)).
  replace (dget D "observation") with (if is_action b then None else Some (VStr (event_type b)))
    by (unfold D; rewrite dget_app, Kobs, Hrest by set_solver; by destruct (is_action b)).
  replace (dget D "id") with (if event_id e =? INVALID_ID then None else Some (VInt (event_id e)))
    by (unfold D; rewrite dget_app, Kid, Hrest by set_solver; by destruct (_ =? _)).
  replace (dget D "timestamp") with (VStr <$> _timestamp e)
    by (unfold D; rewrite dget_app, Kts, Hrest by set_solver; by destruct (_timestamp e)).
  replace (dget D "source") with ((fun s => VStr (source_value s)) <$> _source e)
    by (unfold D; rewrite dget_app, Ksrc, Hrest by set_solver; by destruct (_source e)).
  replace (dget D "cause") with (VInt <$> _cause e)
    by (unfold D; rewrite dget_app, Kcause, Hrest by set_solver; by destruct (_cause e)).
  clearbody D. clear Hrest Kid Kts Ksrc Kcause Ktcm Kllm Kact Kobs.
  match goal with |- rbind ?m _ = _ => replace m with (Ok evt) by (rewrite <- Hevt; by destruct (is_action b)) end.
  clear Hevt. cbn [rbind]. rewrite Heq. cbn [_id _timestamp _source _cause _timeout _llm_metrics _tool_call_metadata _response_id data].
  rewrite match_source. cbn [rbind]. rewrite (attribute_metadata D e Dtcm). cbn [rbind].
  rewrite (attribute_metrics D e Dllm). unfold readable_metrics. destruct (negative_metrics e); [done|]. cbn [rbind negb].
  f_equal. f_equal.
  - by destruct (event_id e =? INVALID_ID).
  - by destruct (_timestamp e).
  - by destruct (_cause e).
Qed.

Lemma dget_args (a : pyval) rest : dget (("args", a) :: rest) "args" = Some a.
Proof. done. Qed.
Lemma dget_timeout (a : pyval) t : dget (("args", a) :: entry "timeout" t) "timeout" = t.
Proof. by destruct t. Qed.
Definition top_keys : list string :=
  ["id"; "timestamp"; "source"; "cause"; "tool_call_metadata"; "llm_metrics"; "action"; "observation"].
Lemma rest_keys_action (a : pyval) t : forall k, k ∈ top_keys -> dget (("args", a) :: entry "timeout" t) k = None.
Proof. intros k Hk. apply list_elem_of_In in Hk. destruct t; repeat (destruct Hk as [<-|Hk]; [reflexivity|]); done. Qed.
Lemma rest_keys_observation (c x : pyval) s :
  forall k, k ∈ top_keys -> dget (("content", c) :: ("extras", x) :: entry "success" s) k = None.
Proof. intros k Hk. apply list_elem_of_In in Hk. destruct s; repeat (destruct Hk as [<-|Hk]; [reflexivity|]); done. Qed.
Lemma dget_content (c : pyval) rest : dget (("content", c) :: rest) "content" = Some c.
Proof. done. Qed.
Lemma dget_extras (c x : pyval) rest : dget (("content", c) :: ("extras", x) :: rest) "extras" = Some x.
Proof. done. Qed.
Lemma event_to_from e d : event_to_dict e = Ok d -> constructible (data e) ->
  event_from_dict version literal_eval d = if readable_metrics e then Ok (stored e) else Raise negative_cost.
Proof.
  intros H Hc. unfold event_to_dict in H. destruct (message (data e)) as [msg|]; [|discriminate H]. cbn [rbind] in H.
  cbv zeta in H. injection H as <-. unfold stored. destruct (is_action (data e)) eqn:Ha.
  - destruct (construct_props (data e) Ha Hc) as (fields & args & Hf & Hp & Hcon & Ht).
    replace (stored_body (data e)) with (data e) by (by destruct (data e)).
    eassert _ as Hk; [exact (event_from_dict_top e (data e)
      {| _id := None; _timestamp := None; _source := None; _cause := None; _timeout := _timeout e; _llm_metrics := None;
         _tool_call_metadata := None; _response_id := None; data := data e |} msg
      (("args", VDict (props (data e))) :: entry "timeout" (VFloat <$> _timeout e)) (_timeout e))|].
    rewrite Ha in Hk. apply Hk; [|clear Hk|done].
    + by apply rest_keys_action.
    + unfold action_from_dict.
      match goal with |- context [top_level ?a ?b ?c ?d ?e ?f ?g ?h ?i] => pose proof (top_level_keys a b c d e f g h i) as Hk end.
      cbv zeta in Hk. destruct Hk as (_ & _ & _ & _ & _ & _ & Kact & _ & Kargs & Ktime & _).
      rewrite !dget_app, Kact, Kargs, Ktime. clear Kact Kargs Ktime. cbv iota beta. rewrite Hf. rewrite dget_args. cbn [dec_dict]. rewrite Hp.
      rewrite Hcon. cbn [rbind]. rewrite dget_timeout. f_equal. destruct (_timeout e); [|done]. apply Ht.
  - destruct (construct_extras (data e)) as (content & fields & vs & Hcont & Hf & Hrt & Hb & Hbuild).
    { by destruct (data e). }
    eassert _ as Hk; [exact (event_from_dict_top e (data e) (new_event (stored_body (data e))) msg
      (("content", default (VStr "") (dget (props (data e)) "content")) :: ("extras", VDict (ddel (props (data e)) "content")) ::
       entry "success" (VBool <$> success (data e))) None)|].
    rewrite Ha in Hk. apply Hk; [|clear Hk|done].
    + by apply rest_keys_observation.
    + unfold observation_from_dict.
      match goal with |- context [top_level ?a ?b ?c ?d ?e ?f ?g ?h ?i] => pose proof (top_level_keys a b c d e f g h i) as Hk end.
      cbv zeta in Hk. destruct Hk as (_ & _ & _ & _ & _ & _ & _ & Kobs & _ & _ & Kcont & Kextras).
      rewrite !dget_app, Kobs, Kcont, Kextras. clear Kobs Kcont Kextras. cbv iota beta. rewrite Hf, Hcont, dget_content, dget_extras.
      unfold default, id. cbn [dec_str dec_dict]. rewrite Hb. cbn [rbind]. rewrite Hbuild.
      by destruct (dget _ "recall_type"); [rewrite Hrt|].
Qed.
Lemma stored_stored e : stored (stored e) = stored e.
Proof.
  unfold stored. cbn [data _id _timestamp _source _cause _timeout _llm_metrics _tool_call_metadata _response_id]. f_equal.
  - unfold event_id. cbn [_id]. destruct (Z.eqb_spec (default INVALID_ID (_id e)) INVALID_ID) as [|Hne]; [done|].
    unfold default at 1 3. apply Z.eqb_neq in Hne. unfold default, id in *. by rewrite Hne.
  - by destruct (data e).
  - by destruct (_llm_metrics e).
  - destruct (data e); try done. cbn [stored_body]. destruct hidden; [done|]. by rewrite truncate_content_idem.
Qed.
Lemma stored_dict e : stored_body (data e) = data e -> event_to_dict (stored e) = event_to_dict e.
Proof.
  intros Hb. unfold event_to_dict, stored. cbn [data _timestamp _source _cause _timeout _llm_metrics _tool_call_metadata]. rewrite Hb.
  destruct (message (data e)) as [msg|]; [|done]. cbn [rbind].
  assert ((get <$> (with_model_name "default" <$> _llm_metrics e)) = get <$> _llm_metrics e) as -> by (by destruct (_llm_metrics e)).
  assert (forall i, event_id {| _id := if i =? INVALID_ID then None else Some i; _timestamp := _timestamp e; _source := _source e; _cause := _cause e;
            _timeout := if is_action (data e) then _timeout e else None; _llm_metrics := with_model_name "default" <$> _llm_metrics e;
            _tool_call_metadata := _tool_call_metadata e; _response_id := None; data := data e |} = i) as Hid.
  { intros i. unfold event_id. cbn [_id]. destruct (Z.eqb_spec i INVALID_ID) as [->|]; done. }
  rewrite Hid. by destruct (is_action (data e)).
Qed.
(** C12: An event that has been stored is read back as itself, except for what
    [stored] says: a long output is cut, the response id is lost and so is the
    timeout of an observation, and the metrics are those of the model "default".
    Reading what was stored a second time changes nothing more; and unless an output
    was cut, the second dictionary is the first.  Needed are a condensation that
    pydantic accepts ([constructible]; it is checked when it is made) and metrics
    whose cost is not negative. *)
Theorem event_round_trip e d : event_to_dict e = Ok d -> constructible (data e) -> readable_metrics e = true ->
  event_from_dict version literal_eval d = Ok (stored e) /\ stored (stored e) = stored e /\
  (stored_body (data e) = data e -> event_to_dict (stored e) = Ok d).
Proof.
  intros H Hc Hm. split_and!; [by rewrite (event_to_from e d H Hc), Hm|apply stored_stored|].
  intros Hb. by rewrite stored_dict.
Qed.
End roundtrip.

Definition sample_event : event :=
  {| _id := Some 7; _timestamp := Some "2026-01-02T03:04:05"; _source := Some AGENT; _cause := Some 5; _timeout := Some (float_of_Z 2);
     _llm_metrics := Some (new_metrics "default");
     _tool_call_metadata := Some {| cm_function_name := "execute_bash"; cm_tool_call_id := "call_1"; cm_model_response := VDict [];
                                    cm_total_calls_in_response := 1 |};
     _response_id := None;
     data := CmdRunAction "ls" false "look" true false None false AWAITING_CONFIRMATION RISK_HIGH |}.
Lemma event_round_trip_witness :
  exists d, event_to_dict sample_event = Ok d /\ event_from_dict "1.0" (fun _ => None) d = Ok sample_event.
Proof.
  eexists. split; [reflexivity|].
  refine (proj1 (event_round_trip "1.0" (fun _ => None) sample_event _ _ _ _)); [reflexivity|exact I|reflexivity].
Defined.
