(* ===== verification/FileStore.v ===== *)
(** * File stores

    Models [storage/files.py] (the interface), [storage/memory.py] (the store
    in memory) and [storage/locations.py] (where a conversation keeps its
    files).

    A file holds the value that its JSON text denotes: the code writes with
    [json.dumps] and reads with [json.loads].  [FileStoreLaws] is what the event
    store relies on. *)

From Stdlib Require Import Ascii.
From S2P Require Import Prelude PyStr PyDict PyVal.

Definition file_not_found (path : string) : exn := OtherError "FileNotFoundError" path.

(** ** The interface *)

Class FileStore (F : Type) := {
  fs_write : string -> pyval -> F -> F;
  fs_read : string -> F -> res pyval;
  fs_list : string -> F -> res (list string);
  fs_delete : string -> F -> F;
}.

Definition stored_at {F} `{FileStore F} (path : string) (f : F) (v : pyval) : Prop := fs_read path f = Ok v.
Definition exists_at {F} `{FileStore F} (path : string) (f : F) : Prop := exists v, stored_at path f v.
Definition slash : ascii := "/"%char.
Definition no_slash (s : string) : bool := negb (sexists (is_char slash) s).

(** What is read is what was written last; a directory lists its own files, and
    beside them only stored files below it and further directories. *)
Class FileStoreLaws (F : Type) `{FileStore F} := {
  read_write_eq path v f : fs_read path (fs_write path v f) = Ok v;
  read_write_ne path path' v f : path <> path' -> fs_read path' (fs_write path v f) = fs_read path' f;
  read_missing path f e : fs_read path f = Raise e -> e = file_not_found path;
  list_files dir f : ~ exists_at dir f ->
    match fs_list dir f with
    | Ok l =>
        (forall name, name <> "" -> no_slash name = true -> dir +:+ name ∈ l <-> exists_at (dir +:+ name) f) /\
        (forall p, p ∈ l -> (startswith dir p = true /\ exists_at p f) \/ endswith p "/" = true)
    | Raise e => (exists p, e = file_not_found p) /\
                 forall name, name <> "" -> no_slash name = true -> ~ exists_at (dir +:+ name) f
    end;
}.

(** ** [InMemoryFileStore] *)

Definition InMemoryFileStore : Type := dict string pyval.

Definition mem_write (path : string) (contents : pyval) (files : InMemoryFileStore) : InMemoryFileStore := dset files path contents.
Definition mem_read (path : string) (files : InMemoryFileStore) : res pyval :=
  match dget files path with Some v => Ok v | None => Raise (file_not_found path) end.

(** [os.path.join(path, part)] for a relative [part]. *)
Definition join_path (path part : string) : string :=
  if String.eqb path "" || endswith path "/" then path +:+ part else path +:+ "/" +:+ part.
Definition path_parts (path file : string) : list string :=
  match split_char slash (sdrop (slen path) file) with
  | "" :: rest => rest
  | parts => parts
  end.
Fixpoint mem_list_go (path : string) (keys : list string) (files : list string) : res (list string) :=
  match keys with
  | [] => Ok files
  | file :: keys =>
      if startswith path file then
        match path_parts path file with
        | [] => Raise (OtherError "IndexError" "list index out of range")
        | [_] => mem_list_go path keys (files ++ [file])
        | part :: _ =>
            let dir_path := join_path path part in
            let dir_path := if endswith dir_path "/" then dir_path else dir_path +:+ "/" in
            mem_list_go path keys (if bool_decide (dir_path ∈ files) then files else files ++ [dir_path])
        end
      else mem_list_go path keys files
  end.
Definition mem_list (path : string) (files : InMemoryFileStore) : res (list string) := mem_list_go path (dkeys files) [].
Definition mem_delete (path : string) (files : InMemoryFileStore) : InMemoryFileStore :=
  filter (fun kv => startswith path kv.1 = false) files.

#[export] Instance mem_store : FileStore InMemoryFileStore :=
  {| fs_write := mem_write; fs_read := mem_read; fs_list := mem_list; fs_delete := mem_delete |}.

(** ** Locations *)

Definition CONVERSATION_BASE_DIR : string := "sessions".
Definition get_conversation_dir (sid : string) (user_id : option string) : string :=
  match user_id with
  | Some u => if String.eqb u "" then CONVERSATION_BASE_DIR +:+ "/" +:+ sid +:+ "/"
              else "users/" +:+ u +:+ "/conversations/" +:+ sid +:+ "/"
  | None => CONVERSATION_BASE_DIR +:+ "/" +:+ sid +:+ "/"
  end.
Definition get_conversation_events_dir (sid : string) (user_id : option string) : string :=
  get_conversation_dir sid user_id +:+ "events/".
Definition get_conversation_event_filename (sid : string) (id : Z) (user_id : option string) : string :=
  get_conversation_events_dir sid user_id +:+ (str_of_Z id +:+ ".json").

(** ** Lemmas *)

Lemma mem_exists path (f : InMemoryFileStore) : exists_at path f <-> path ∈ dkeys f.
Proof.
  unfold exists_at, stored_at. cbn [fs_read mem_store]. unfold mem_read. rewrite <- dget_is_Some. split.
  - intros [v H]. destruct (dget f path); [by eexists|done].
  - intros [v ->]. by eexists.
Qed.
Lemma last_slash dir name u : name <> "" -> dir +:+ name = u +:+ "/" -> sexists (is_char slash) name = true.
Proof.
  intros Hn. revert u; induction dir as [|c dir IH]; intros u; rewrite ?sapp_nil_l, ?sapp_cons.
  - intros ->. by rewrite sexists_app, orb_true_r.
  - destruct u as [|d u]; rewrite ?sapp_nil_l, ?sapp_cons; intros [= -> E]; [|by apply (IH u)].
    by destruct dir, name.
Qed.
Lemma sdrop_app s t : sdrop (slen s) (s +:+ t) = t.
Proof. induction s as [|c s IH]; [by destruct t|]. rewrite sapp_cons. cbn [slen sdrop]. by rewrite IH. Qed.
Lemma path_parts_name dir name : name <> "" -> no_slash name = true -> path_parts dir (dir +:+ name) = [name].
Proof.
  intros Hn Hs. unfold path_parts. rewrite sdrop_app. apply negb_true_iff in Hs. rewrite split_char_none by done. by destruct name.
Qed.
Lemma path_parts_ne dir file : startswith dir file = true -> file <> dir -> path_parts dir file <> [].
Proof.
  intros [u ->]%prefix_spec Hne. unfold path_parts. rewrite sdrop_app. destruct u as [|c u].
  { by rewrite sapp_nil_r in Hne. }
  cbn [split_char]. destruct (Ascii.eqb slash c) eqn:E.
  - apply split_char_nonnil.
  - pose proof (split_char_nonnil "/" u). by destruct (split_char slash u).
Qed.
Lemma dir_path_slash p : endswith (if endswith p "/" then p else p +:+ "/") "/" = true.
Proof. destruct (endswith p "/") eqn:E; [done|]. apply endswith_spec. by exists p. Qed.

Lemma mem_list_go_spec dir keys files : dir ∉ keys ->
  exists l, mem_list_go dir keys files = Ok l /\ files ⊆ l /\
    (forall p, p ∈ l -> p ∈ files \/ (startswith dir p = true /\ p ∈ keys) \/ endswith p "/" = true) /\
    (forall p part, p ∈ keys -> startswith dir p = true -> path_parts dir p = [part] -> p ∈ l).
Proof.
  revert files; induction keys as [|k keys IH]; intros files Hd; cbn [mem_list_go].
  { exists files. split_and!; [done|done|by left|by intros ? ? ?%not_elem_of_nil]. }
  apply not_elem_of_cons in Hd as [Hk Hd]. destruct (startswith dir k) eqn:E.
  - pose proof (path_parts_ne dir k E ltac:(congruence)) as Hne.
    destruct (path_parts dir k) as [|part [|part' rest]] eqn:Ep; [done| |].
    + destruct (IH (files ++ [k]) Hd) as (l & -> & Hsub & Hl & Hin). exists l. split_and!; [done|set_solver| |].
      * intros p Hp. apply Hl in Hp as [[? | ->%list_elem_of_singleton]%elem_of_app|[[? ?]|?]]; set_solver.
      * intros p q [-> | ?]%elem_of_cons ? ?; [set_solver|by eapply Hin].
    + match goal with |- context [mem_list_go dir keys ?fs] => destruct (IH fs Hd) as (l & -> & Hsub & Hl & Hin) end.
      exists l. split_and!; [done|case_bool_decide; set_solver| |].
      * intros p Hp. apply Hl in Hp as [Hp|[[? ?]|?]]; [|set_solver|by auto].
        case_bool_decide; [by left|]. apply elem_of_app in Hp as [? | ->%list_elem_of_singleton]; [by left|].
        right; right. apply dir_path_slash.
      * intros p q [-> | ?]%elem_of_cons ? Hq; [congruence|by eapply Hin].
  - destruct (IH files Hd) as (l & -> & Hsub & Hl & Hin). exists l. split_and!; [done|done|set_solver|].
    intros p q [-> | ?]%elem_of_cons ? ?; [congruence|by eapply Hin].
Qed.

#[export] Instance mem_laws : FileStoreLaws InMemoryFileStore.
Proof.
  split; cbn [fs_write fs_read fs_list mem_store]; unfold mem_read, mem_write.
  - intros path v f. by rewrite dget_dset_eq.
  - intros path path' v f Hne. by rewrite dget_dset_ne.
  - intros path f e. destruct (dget f path); congruence.
  - intros dir f Hd. rewrite mem_exists in Hd. unfold mem_list.
    destruct (mem_list_go_spec dir (dkeys f) [] Hd) as (l & -> & _ & Hl & Hin). split.
    + intros name Hn Hs. rewrite mem_exists. split.
      * intros Hp. apply Hl in Hp as [Hp|[[_ ?]|He]]; [by apply not_elem_of_nil in Hp|done|].
        exfalso. apply endswith_spec in He as [u Hu]. apply negb_true_iff in Hs.
        assert (sexists (is_char slash) name = true); [|congruence].
        by apply last_slash with dir u.
      * intros Hk. eapply Hin; [done|by apply prefix_spec; eexists|by apply path_parts_name].
    + intros p Hp. apply Hl in Hp as [Hp|[[? ?]|?]]; [by apply not_elem_of_nil in Hp| |by right]. left. by rewrite mem_exists.
Qed.
