(* ===== verification/EventStore.v ===== *)
(** * The event store

    Models [events/event_filter.py], [events/event_store_abc.py],
    [events/event_store.py] and the state of [events/stream.py] but its threads:
    what [add_event] writes and publishes, what [search_events] reads, and to
    whom the queue delivers.

    A generator is the list of what it yields and the exception that ends it.
    [isinstance(event, cls)] is a predicate on the body; [should_continue], the
    process's shutdown flag, is taken to stay true; [text] is the JSON text that
    a query is looked up in. *)

From Stdlib Require Import Ascii.
From S2P Require Import Prelude PyStr PyDict PyList PyVal Events Serialization FileStore.

(** ** [EventFilter] *)

Definition event_class : Type := body -> bool.

Record EventFilter := {
  exclude_hidden : bool;
  query : option string;
  include_types : option (list event_class);
  exclude_types : option (list event_class);
  source : option string;
  start_date : option string;
  end_date : option string;
}.
Definition no_filter : EventFilter :=
  {| exclude_hidden := false; query := None; include_types := None; exclude_types := None; source := None; start_date := None;
     end_date := None |}.

Definition isinstance (e : event) (types : list event_class) : bool := existsb (fun c => c (data e)) types.
(** [getattr(event, 'hidden', False)] *)
Definition hidden_attr (e : event) : bool :=
  match data e with
  | CmdRunAction _ _ _ _ _ _ hidden _ _ => hidden
  | CmdOutputObservation _ _ _ hidden => hidden
  | _ => false
  end.
Definition given (o : option string) : option string := match o with Some "" => None | _ => o end.

Section store.
Context (text : dict string pyval -> string).
Context (version : string) (literal_eval : string -> option (dict string pyval)).

Definition str_lt (s t : string) : bool := match String.compare s t with Lt => true | _ => false end.

Definition include (f : EventFilter) (e : event) : res bool :=
  if match include_types f with Some (_ :: _ as l) => negb (isinstance e l) | _ => false end then Ok false
  else if match exclude_types f with Some l => isinstance e l | None => false end then Ok false
  else if match given (source f) with
          | Some s => match _source e with None => true | Some s' => negb (String.eqb (source_value s') s) end
          | None => false
          end then Ok false
  else if match given (start_date f), _timestamp e with Some d, Some t => str_lt t d | _, _ => false end then Ok false
  else if match given (end_date f), _timestamp e with Some d, Some t => str_lt d t | _, _ => false end then Ok false
  else if exclude_hidden f && hidden_attr e then Ok false
  else match given (query f) with
       | Some q => d <-! event_to_dict e ;; Ok (contains (lower q) (lower (text d)))
       | None => Ok true
       end.
Definition exclude (f : EventFilter) (e : event) : res bool := b <-! include f e ;; Ok (negb b).

(** ** Names and ids *)

(** [int(s)]: white space around, a sign, digits with single underscores. *)
Fixpoint int_body (digit : bool) (s : string) : bool :=
  match s with
  | EmptyString => digit
  | String c s => if is_decimal c then int_body true s
                  else if is_char "_"%char c && digit then int_body false s else false
  end.
Definition int_of_str (s : string) : res Z :=
  let s := strip s in
  let '(sign, digits) := match s with
                         | String c s' => if is_char "-"%char c then (-1, s') else if is_char "+"%char c then (1, s') else (1, s)
                         | EmptyString => (1, s)
                         end in
  if int_body false digits then n <-! py_int (replace "_" "" digits) ;; Ok (sign * n)
  else Raise (ValueError "invalid literal for int() with base 10").

Definition get_id_from_filename (filename : string) : Z :=
  match int_of_str (hd "" (split_char "."%char (List.last (split_char slash filename) ""))) with
  | Ok id => id
  | Raise _ => -1
  end.

(** ** Pages of the cache *)

Definition cache_size : Z := 25.
Record CachePage := { p_events : option (list pyval); p_start : Z; p_end : Z }.
Definition dummy_page : CachePage := {| p_events := None; p_start := 1; p_end := -1 |}.
Definition covers (p : CachePage) (global_index : Z) : bool :=
  if global_index <? p_start p then false else if p_end p <=? global_index then false else true.
Definition decode (v : pyval) : res event :=
  match v with VDict d => event_from_dict version literal_eval d | _ => Raise ill_typed end.
Definition page_event (p : CachePage) (global_index : Z) : res (option event) :=
  match p_events p with
  | None | Some [] => Ok None
  | Some l => v <-! py_nth l (global_index - p_start p) ;; e <-! decode v ;; Ok (Some e)
  end.

(** ** The store *)

Context {F : Type} `{FileStore F} (sid : string) (user_id : option string).

Definition filename_for_id (id : Z) : string := get_conversation_event_filename sid id user_id.
Definition filename_for_cache (start end_ : Z) : string :=
  get_conversation_dir sid user_id +:+ ("event_cache/" +:+ (str_of_Z start +:+ ("-" +:+ (str_of_Z end_ +:+ ".json")))).

(** [_calculate_cur_id]; exceptions other than [FileNotFoundError] pass. *)
Definition calculate_cur_id (f : F) : res Z :=
  match fs_list (get_conversation_events_dir sid user_id) f with
  | Raise (OtherError "FileNotFoundError" _) | Ok [] => Ok 0
  | Raise e => Raise e
  | Ok events => Ok (foldl (fun max_id s => let id := get_id_from_filename s in if max_id <=? id then id else max_id) (-1) events + 1)
  end.

(** [search_events] and [get_event] read the files. *)
Definition get_event (f : F) (id : Z) : res event := v <-! fs_read (filename_for_id id) f ;; decode v.

Definition load_cache_page (f : F) (start end_ : Z) : res CachePage :=
  match fs_read (filename_for_cache start end_) f with
  | Ok (VList l) => Ok {| p_events := Some l; p_start := start; p_end := end_ |}
  | Ok _ => Raise ill_typed
  | Raise _ => Ok {| p_events := None; p_start := start; p_end := end_ |}
  end.
Definition load_cache_page_for_index (f : F) (index : Z) : res CachePage :=
  let index := index - index mod cache_size in load_cache_page f index (index + cache_size).

Definition is_not_found (e : exn) : bool := match e with OtherError cls _ => String.eqb cls "FileNotFoundError" | _ => false end.
(** The event at an index, and the page in hand afterwards. *)
Definition event_at (f : F) (page : CachePage) (index : Z) : res (option event * CachePage) :=
  page <-! (if covers page index then Ok page else load_cache_page_for_index f index) ;;
  event <-! page_event page index ;;
  match event with
  | Some e => Ok (Some e, page)
  | None => match get_event f index with
            | Ok e => Ok (Some e, page)
            | Raise x => if is_not_found x then Ok (None, page) else Raise x
            end
  end.

Definition gen (A : Type) : Type := list A * option exn.
Definition yielding {A} (a : A) (g : gen A) : gen A := (a :: g.1, g.2).
Definition limit_reached (limit : option Z) (num_results : Z) : bool :=
  match limit with Some l => negb (l =? 0) && (l <=? num_results) | None => false end.

Fixpoint search_go (f : F) (filter : option EventFilter) (limit : option Z) (page : CachePage) (num_results : Z) (indices : list Z)
    : gen event :=
  match indices with
  | [] => ([], None)
  | index :: indices =>
      match event_at f page index with
      | Raise x => ([], Some x)
      | Ok (None, page) => search_go f filter limit page num_results indices
      | Ok (Some event, page) =>
          match match filter with Some fl => include fl event | None => Ok true end with
          | Raise x => ([], Some x)
          | Ok false => search_go f filter limit page num_results indices
          | Ok true =>
              yielding event (if limit_reached limit (num_results + 1) then ([], None)
                              else search_go f filter limit page (num_results + 1) indices)
          end
      end
  end.

(** [range(start, end)] and [range(end - 1, start - 1, -1)]; [end_id] is
    exclusive here. *)
Definition indices (start_id end_id : Z) (reverse : bool) : list Z :=
  let l := seqZ start_id (end_id - start_id) in if reverse then rev l else l.
Definition exclusive_end (cur_id : Z) (end_id : option Z) : Z := match end_id with None => cur_id | Some e => e + 1 end.
Definition search_events (f : F) (cur_id start_id : Z) (end_id : option Z) (reverse : bool) (filter : option EventFilter)
    (limit : option Z) : gen event :=
  search_go f filter limit dummy_page 0 (indices start_id (exclusive_end cur_id end_id) reverse).

(** [get_latest_event], [filtered_events_by_source], [get_matching_events] *)
Definition get_latest_event (f : F) (cur_id : Z) : res event := get_event f (cur_id - 1).
Definition filtered_events_by_source (f : F) (cur_id : Z) (src : EventSource) : gen event :=
  let g := search_events f cur_id 0 None false None None in
  (filter (fun e => _source e = Some src) g.1, g.2).
Definition matching_filter (q : option string) (types : option (list event_class)) (src start_ end_ : option string) : EventFilter :=
  {| exclude_hidden := false; query := q; include_types := types; exclude_types := None; source := src; start_date := start_;
     end_date := end_ |}.
(** [list(islice(events, limit))]: an exception after [limit] events is not met. *)
Definition islice (g : gen event) (limit : Z) : res (list event) :=
  match g.2 with
  | Some x => if limit <=? Z.of_nat (length g.1) then Ok (take (Z.to_nat limit) g.1) else Raise x
  | None => Ok (take (Z.to_nat limit) g.1)
  end.
Definition get_matching_events (f : F) (cur_id : Z) (q : option string) (types : option (list event_class))
    (src start_ end_ : option string) (start_id limit : Z) (reverse : bool) : res (list event) :=
  if (limit <? 1) || (100 <? limit) then Raise (ValueError "Limit must be between 1 and 100")
  else islice (search_events f cur_id start_id None reverse (Some (matching_filter q types src start_ end_)) None) limit.

(** ** [EventStream] *)

Record EventStream := {
  file_store : F;
  _cur_id : option Z;
  _queue : list event;
  _write_page_cache : list (dict string pyval);
  secrets : dict string string;
}.
Definition new_stream (f : F) : EventStream :=
  {| file_store := f; _cur_id := None; _queue := []; _write_page_cache := []; secrets := [] |}.

Definition with_files (f : F) (s : EventStream) : EventStream :=
  {| file_store := f; _cur_id := _cur_id s; _queue := _queue s; _write_page_cache := _write_page_cache s; secrets := secrets s |}.
Definition with_cur_id (id : Z) (s : EventStream) : EventStream :=
  {| file_store := file_store s; _cur_id := Some id; _queue := _queue s; _write_page_cache := _write_page_cache s;
     secrets := secrets s |}.
Definition with_page (p : list (dict string pyval)) (s : EventStream) : EventStream :=
  {| file_store := file_store s; _cur_id := _cur_id s; _queue := _queue s; _write_page_cache := p; secrets := secrets s |}.
Definition put (e : event) (s : EventStream) : EventStream :=
  {| file_store := file_store s; _cur_id := _cur_id s; _queue := _queue s ++ [e]; _write_page_cache := _write_page_cache s;
     secrets := secrets s |}.
Definition with_secrets (d : dict string string) (s : EventStream) : EventStream :=
  {| file_store := file_store s; _cur_id := _cur_id s; _queue := _queue s; _write_page_cache := _write_page_cache s; secrets := d |}.
Definition set_secrets (d : dict string string) (s : EventStream) : EventStream := with_secrets d s.
Definition update_secrets (d : dict string string) (s : EventStream) : EventStream := with_secrets (dupdate (secrets s) d) s.

(** The property [cur_id]: calculated once, then kept. *)
Definition cur_id : M EventStream Z :=
  fun s => match _cur_id s with
           | Some id => (Ok id, s)
           | None => match calculate_cur_id (file_store s) with
                     | Ok id => (Ok id, with_cur_id id s)
                     | Raise x => (Raise x, s)
                     end
           end.

(** *** Secrets *)

(** [str.replace]; the empty string is found before every character and at the
    end. *)
Fixpoint interleave (new s : string) : string :=
  match s with EmptyString => new | String c s' => new +:+ String c (interleave new s') end.
Definition str_replace (old new s : string) : string :=
  if String.eqb old "" then interleave new s else replace old new s.
Definition TOP_LEVEL_PROTECTED_FIELDS : list string :=
  ["timestamp"; "id"; "source"; "cause"; "action"; "observation"; "message"].
Definition hide (values : list string) (s : string) : string := foldl (fun s secret => str_replace secret "<secret_hidden>" s) s values.
Fixpoint replace_in (values : list string) (v : pyval) : pyval :=
  match v with
  | VDict d => VDict (map (fun kv => (kv.1, replace_in values kv.2)) d)
  | VStr s => VStr (hide values s)
  | v => v
  end.
Definition replace_secrets (values : list string) (d : dict string pyval) : dict string pyval :=
  map (fun kv => if bool_decide (kv.1 ∈ TOP_LEVEL_PROTECTED_FIELDS) then kv else (kv.1, replace_in values kv.2)) d.

(** *** [add_event] *)

(** [_store_cache_page]: only a full page is written. *)
Definition store_cache_page (page : list (dict string pyval)) : M EventStream unit :=
  fun s =>
    if Z.of_nat (length page) <? cache_size then (Ok tt, s)
    else match hd_error page with
         | Some d => match dget d "id" with
                     | Some (VInt start) =>
                         (Ok tt, with_files (fs_write (filename_for_cache start (start + cache_size)) (VList (map VDict page))
                                               (file_store s)) s)
                     | Some _ => (Raise ill_typed, s)
                     | None => (Raise (KeyError "id"), s)
                     end
         | None => (Raise (OtherError "IndexError" "list index out of range"), s)
         end.

Definition stamped (now : string) (src : EventSource) (id : Z) (e : event) : event :=
  {| _id := Some id; _timestamp := Some now; _source := Some src; _cause := _cause e; _timeout := _timeout e;
     _llm_metrics := _llm_metrics e; _tool_call_metadata := _tool_call_metadata e; _response_id := _response_id e; data := data e |}.

(** The argument with its new attributes is the answer; the copy that was
    written is published. *)
Definition add_event (now : string) (e : event) (src : EventSource) : M EventStream event :=
  if negb (event_id e =? INVALID_ID) then raiseM (ValueError "Event already has an ID")
  else
    id <- cur_id ;;
    modifyM (with_cur_id (id + 1)) ;;;
    s <- getM ;;
    let e := stamped now src id e in
    d <- liftM (event_to_dict e) ;;
    let d := replace_secrets (dvals (secrets s)) d in
    copy <- liftM (event_from_dict version literal_eval d) ;;
    let page := _write_page_cache s ++ [d] in
    modifyM (with_page (if Z.of_nat (length page) =? cache_size then [] else page)) ;;;
    match _id copy with
    | Some id => modifyM (fun s => with_files (fs_write (filename_for_id id) (VDict d) (file_store s)) s) ;;;
                 store_cache_page page
    | None => retM tt
    end ;;;
    modifyM (put copy) ;;;
    retM e.

End store.
