(* ===== verification/EventLog.v ===== *)
(** * What the event store keeps

    The invariants of [EventStore]: [coherent] (a page of the cache repeats the
    event files), [page_of] (the page being filled holds the latest events) and
    [tidy] (the directory holds the events below the current id).  They hold
    under [add_event], and from them follows that the cache is invisible, that
    the store reads back what it published, and that a store opened again goes
    on where the old one stopped. *)

From S2P Require Import Prelude Metrics PyStr PyDict PyList PyVal Events Serialization FileStore EventStore.
From Stdlib Require Import Ascii.

(** ** Names of files *)

Lemma decimal_not_dash a b x y :
  sall is_decimal a = true -> sall is_decimal b = true -> a +:+ ("-" +:+ x) = b +:+ ("-" +:+ y) -> a = b.
Proof.
  revert b; induction a as [|c a IH]; intros [|d b]; cbn [sall]; rewrite ?sapp_nil_l, ?sapp_cons, ?andb_true_iff; try done.
  - intros _ [Hd _] [= <- _]. by vm_compute in Hd.
  - intros [Hc _] _ [= -> _]. by vm_compute in Hc.
  - intros [_ Ha] [_ Hb] [= -> E]. f_equal. by apply (IH b).
Qed.

Lemma decimal_free c s : sall is_decimal s = true -> is_decimal c = false -> sexists (is_char c) s = false.
Proof.
  intros Hs Hc. induction s as [|d s IH]; [done|]. cbn [sall sexists] in *. apply andb_true_iff in Hs as [Hd Hs].
  rewrite (IH Hs), orb_false_r. unfold is_char. apply Ascii.eqb_neq. congruence.
Qed.
Lemma last_component x name : no_slash name = true -> List.last (split_char slash ((x +:+ "/") +:+ name)) "" = name.
Proof.
  intros Hn. apply negb_true_iff in Hn. assert (exists l, l <> [] /\ split_char slash ((x +:+ "/") +:+ name) = l ++ [name]) as (l & _ & ->).
  { induction x as [|c x (l & Hl & IH)].
    - exists [""]. split; [done|]. change (("" +:+ "/") +:+ name) with (String slash name). cbn [split_char]. rewrite Ascii.eqb_refl.
      by rewrite split_char_none.
    - rewrite !sapp_cons. cbn [split_char]. destruct (Ascii.eqb slash c).
      + exists ("" :: l). by rewrite IH.
      + rewrite IH. destruct l as [|t l]; [done|]. by exists (String c t :: l). }
  by rewrite List.last_last.
Qed.
Lemma strip_solid s : sall (fun c => negb (is_space c)) s = true -> strip s = s.
Proof.
  assert (forall t, sall (fun c => negb (is_space c)) t = true -> rstrip t = t) as Hr.
  { intros t. unfold rstrip. induction t as [|c t IH]; [done|]. cbn [sall rstrip_by]. rewrite andb_true_iff, negb_true_iff.
    intros [Hc Ht]. rewrite (IH Ht). destruct t; [by rewrite Hc|done]. }
  intros Hs. unfold strip. destruct s as [|c s]; [done|]. unfold lstrip. cbn [lstrip_by].
  pose proof Hs as [Hc%negb_true_iff _]%andb_true_iff. rewrite Hc. by apply Hr.
Qed.
Lemma strip_decimal s : sall is_decimal s = true -> strip s = s.
Proof. intros Hs. apply strip_solid. revert Hs. apply sall_impl. intros [[][][][][][][][]]; by vm_compute. Qed.
Lemma int_body_decimal b s : sall is_decimal s = true -> (b = true \/ s <> "") -> int_body b s = true.
Proof.
  revert b; induction s as [|c s IH]; intros b Hs Hb; cbn [int_body sall] in *; [by destruct Hb|].
  apply andb_true_iff in Hs as [-> Hs]. apply IH; auto.
Qed.
Lemma decimal_no_underscore s : sall is_decimal s = true -> replace "_" "" s = s.
Proof.
  intros Hd. apply replace_nomatch; [done|]. destruct (contains "_" s) eqn:Eu; [|done]. apply contains_spec in Eu as (u & v & ->).
  rewrite !sall_app in Hd. cbn in Hd. by rewrite andb_false_r in Hd.
Qed.
Lemma int_of_digits z : 0 <= z < 2 ^ 64 -> int_of_str (str_of_Z z) = Ok z.
Proof.
  intros Hz. destruct (str_of_Z_digits z ltac:(lia)) as [Hd Hne]. pose proof (py_int_str z Hz) as Hp.
  unfold int_of_str. rewrite strip_decimal by done. destruct (str_of_Z z) as [|c s] eqn:E; [done|].
  assert (is_decimal c = true) as Hc by (by apply andb_true_iff in Hd as [? _]).
  assert (forall d, is_decimal d = false -> is_char d c = false) as Hch.
  { intros d Hd'. unfold is_char. apply Ascii.eqb_neq. congruence. }
  rewrite !Hch by done. rewrite int_body_decimal by auto. rewrite decimal_no_underscore by done. rewrite Hp. cbn [rbind]. f_equal. lia.
Qed.
Lemma id_of_dir p : endswith p "/" = true -> get_id_from_filename p = -1.
Proof.
  intros [u ->]%endswith_spec. unfold get_id_from_filename. pose proof (last_component u "" eq_refl) as E. rewrite sapp_nil_r in E.
  by rewrite E.
Qed.

Section names.
Context (sid : string) (user_id : option string).
Notation file := (filename_for_id sid user_id).
Notation cache := (filename_for_cache sid user_id).

Lemma file_inj a b : file a = file b -> a = b.
Proof.
  unfold filename_for_id, get_conversation_event_filename. intros E%sapp_inj_l%sapp_inj_r. by apply str_of_Z_injective.
Qed.
Lemma file_cache a s e : file a <> cache s e.
Proof.
  unfold filename_for_id, filename_for_cache, get_conversation_event_filename, get_conversation_events_dir. intros E.
  rewrite sapp_assoc in E. by apply sapp_inj_l in E.
Qed.
Lemma cache_inj s e s' e' : 0 <= s -> cache s e = cache s' e' -> s = s'.
Proof.
  intros Hs E%sapp_inj_l%sapp_inj_l. destruct (str_of_Z_digits s Hs) as [Hd _]. destruct (Z_lt_le_dec s' 0) as [Hs'|Hs'].
  - unfold str_of_Z at 3 in E. rewrite (proj2 (Z.ltb_lt s' 0) Hs') in E.
    destruct (str_of_Z s) as [|c t] eqn:Ec; [by destruct (str_of_Z_digits s Hs)|]. rewrite !sapp_cons in E. injection E as -> _.
    cbn [sall] in Hd. by apply andb_true_iff in Hd as [Hd _].
  - destruct (str_of_Z_digits s' Hs') as [Hd' _]. apply str_of_Z_injective. by eapply decimal_not_dash.
Qed.
Lemma cache_dir s e : startswith (get_conversation_events_dir sid user_id) (cache s e) = false.
Proof.
  destruct (startswith _ _) eqn:E; [|done]. apply prefix_spec in E as [u E].
  unfold filename_for_cache, get_conversation_events_dir in E. rewrite sapp_assoc in E. by apply sapp_inj_l in E.
Qed.
End names.

(** ** Dictionaries keep their ids *)

Lemma dget_map_key {A} (f : string * A -> A) (d : dict string A) k :
  dget (map (fun kv => (kv.1, f kv)) d) k = (fun v => f (k, v)) <$> dget d k.
Proof.
  induction d as [|[k' v] d IH]; [done|]. cbn [map dget fst]. destruct (decide (k = k')) as [->|]; [done|]. apply IH.
Qed.
Lemma replace_secrets_id values d : dget (replace_secrets values d) "id" = dget d "id".
Proof.
  unfold replace_secrets. rewrite (map_ext _ (fun kv => (kv.1, if bool_decide (kv.1 ∈ TOP_LEVEL_PROTECTED_FIELDS) then kv.2
    else replace_in values kv.2))) by (intros [k v]; by destruct (bool_decide _)).
  rewrite (dget_map_key (fun kv => if bool_decide (kv.1 ∈ TOP_LEVEL_PROTECTED_FIELDS) then kv.2 else replace_in values kv.2)).
  cbn [fst snd]. rewrite bool_decide_true by (unfold TOP_LEVEL_PROTECTED_FIELDS; set_solver). by destruct (dget d "id").
Qed.
Lemma event_to_dict_id e d : event_to_dict e = Ok d -> event_id e <> INVALID_ID -> dget d "id" = Some (VInt (event_id e)).
Proof.
  unfold event_to_dict. intros H Hne. destruct (message (data e)) as [msg|]; [|done]. cbn [rbind] in H. cbv zeta in H.
  injection H as <-. rewrite dget_app.
  match goal with |- context [top_level ?a ?b ?c ?d ?e ?f ?g ?h ?i] => destruct (top_level_keys a b c d e f g h i) as [-> _] end.
  by rewrite (proj2 (Z.eqb_neq _ _) Hne).
Qed.
Lemma event_from_dict_id version le d e id :
  event_from_dict version le d = Ok e -> dget d "id" = Some (VInt id) -> _id e = Some id.
Proof.
  unfold event_from_dict. intros H Hid. destruct (if dmem d "action" then _ else _) as [evt|]; [|done]. cbn [rbind] in H.
  destruct (match dget d "source" with Some _ => _ | None => _ end) as [src|]; [|done]. cbn [rbind] in H.
  destruct (attribute read_call_metadata _ _ _) as [tcm|]; [|done]. cbn [rbind] in H.
  destruct (attribute read_metrics _ _ _) as [llm|]; [|done]. cbn [rbind] in H. injection H as <-.
  cbn [_id]. by rewrite Hid.
Qed.

(** Decoding fails, but not as a missing file does. *)
Definition never_missing {A} (m : res A) : Prop := match m with Ok _ => True | Raise x => is_not_found x = false end.
Lemma never_missing_bind {A B} (m : res A) (k : A -> res B) :
  never_missing m -> (forall a, never_missing (k a)) -> never_missing (rbind m k).
Proof. destruct m; cbn; auto. Qed.
Lemma bind_fields_error fields kwargs x : bind_fields fields kwargs = Raise x -> exists m, x = TypeError m.
Proof.
  induction fields as [|[name d] fields IH]; cbn [bind_fields]; [done|].
  destruct (dget kwargs name), d; try destruct (bind_fields fields kwargs); cbn [rbind]; intros [= <-]; eauto.
Qed.
Lemma bind_args_error any fields kwargs x : bind_args any fields kwargs = Raise x -> exists m, x = TypeError m.
Proof.
  unfold bind_args. destruct (List.find _ _) as [kv|]; [destruct any|]; eauto using bind_fields_error.
  intros [= <-]. eauto.
Qed.
Lemma construct_action_found t fields args : never_missing (construct_action t fields args).
Proof.
  unfold construct_action. destruct (bind_args false fields args) as [vs|x] eqn:E.
  - destruct (build_action t vs) as [b|]; [|done]. destruct b; try done. unfold condensation_action.
    by destruct (validate_field_polymorphism _ _ _ _ _).
  - apply bind_args_error in E as [m ->]. done.
Qed.
Lemma action_from_dict_found version le d : never_missing (action_from_dict version le d).
Proof.
  unfold action_from_dict. destruct (dget d "action") as [[]|]; try done.
  destruct (action_fields version s); [|done].
  destruct (match dget d "args" with Some _ => _ | None => _ end); [|done]. destruct (prepare_args le l0).
  apply never_missing_bind; [apply construct_action_found|done].
Qed.
Lemma observation_from_dict_found d : never_missing (observation_from_dict d).
Proof.
  unfold observation_from_dict. destruct (dget d "observation") as [[]|]; try done.
  destruct (observation_fields s); [|done].
  destruct (match dget d "extras" with Some _ => _ | None => _ end); [|done].
  destruct (match dget d "content" with Some _ => _ | None => _ end); [|done].
  apply never_missing_bind; [|intros _; apply never_missing_bind].
  - destruct (dget _ "recall_type"); [|done]. by destruct (String.eqb s "recall" && _).
  - destruct (bind_args _ _ _) eqn:E; [done|]. by apply bind_args_error in E as [m ->].
  - intros vs. by destruct (build_observation _ _ _).
Qed.
(** The attributes of pydantic classes *)
Lemma field_found {A} (f : pyval -> res A) o d k : (forall v, never_missing (f v)) -> never_missing (field f o d k).
Proof. intros Hf. unfold field. destruct (dget d k); [apply Hf|by destruct o]. Qed.
Lemma strict_found : (forall v, never_missing (@as_str strict v)) /\ (forall v, never_missing (@as_int strict v)) /\
  (forall v, never_missing (@as_float strict v)).
Proof. split_and!; by intros []. Qed.
Lemma read_all_found {A} (f : pyval -> res A) l : (forall v, never_missing (f v)) -> never_missing (read_all f l).
Proof.
  intros Hf. induction l as [|v l IH]; [done|]. cbn [read_all]. apply never_missing_bind; [apply Hf|intros x].
  by apply never_missing_bind.
Qed.
Lemma list_field_found {A} (f : pyval -> res A) d k : (forall v, never_missing (f v)) -> never_missing (list_field f d k).
Proof. intros Hf. unfold list_field. destruct (dget d k) as [[]|]; try done. by apply read_all_found. Qed.
Ltac found :=
  repeat match goal with
  | |- never_missing (rbind _ _) => apply never_missing_bind; [|intros ?]
  | |- never_missing (field _ _ _ _) => apply field_found
  | |- never_missing (list_field _ _ _) => apply list_field_found
  | |- forall v, never_missing (as_str v) => apply strict_found
  | |- forall v, never_missing (as_int v) => apply strict_found
  | |- forall v, never_missing (as_float v) => apply strict_found
  | |- never_missing (float_of ?v) => by destruct v
  | |- never_missing (Ok _) => exact I
  | |- never_missing not_a_mapping => reflexivity
  | |- never_missing ValidationError => reflexivity
  end; try done.
Lemma read_cost_found now v : never_missing (@read_cost strict now v).
Proof. destruct v; cbn [read_cost]; found. Qed.
Lemma read_latency_found v : never_missing (@read_latency strict v).
Proof. destruct v; cbn [read_latency]; found. Qed.
Lemma read_usage_found v : never_missing (@read_usage strict v).
Proof. destruct v; cbn [read_usage]; found. Qed.
Lemma read_metrics_found v : never_missing (read_metrics v).
Proof.
  unfold read_metrics. destruct v; try done. cbn [metrics_from_value]. found.
  - destruct (dget _ _) as [[]|]; done.
  - unfold set_accumulated_cost. by destruct (PyFloat.flt _ _).
  - destruct (dget _ _) as [[]|]; done.
  - apply read_cost_found.
  - apply read_latency_found.
  - apply read_usage_found.
  - destruct (dget _ _); [apply read_usage_found|done].
Qed.
Lemma attribute_found {A} (f : pyval -> res A) d k o : (forall v, never_missing (f v)) -> never_missing (attribute f d k o).
Proof. intros Hf. unfold attribute. destruct (dget d k); [|done]. by apply never_missing_bind. Qed.
Lemma read_call_metadata_found v : never_missing (read_call_metadata v).
Proof. destruct v; cbn [read_call_metadata]; found. Qed.
Lemma decode_found version le v : never_missing (decode version le v).
Proof.
  unfold decode. destruct v; try done. unfold event_from_dict.
  apply never_missing_bind; [|intros evt; apply never_missing_bind; [|intros src; apply never_missing_bind; [|intros m; apply never_missing_bind]]].
  - destruct (dmem _ "action"); [apply action_from_dict_found|]. destruct (dmem _ "observation"); [|done].
    apply observation_from_dict_found.
  - destruct (dget _ "source") as [w|]; [|done]. by destruct (dec_source w).
  - apply attribute_found, read_call_metadata_found.
  - apply attribute_found, read_metrics_found.
  - done.
Qed.

(** ** The invariants *)

Section log.
Context (text : dict string pyval -> string) (version : string) (literal_eval : string -> option (dict string pyval)).
Context {F : Type} `{FileStoreLaws F} (sid : string) (user_id : option string).
Notation file := (filename_for_id sid user_id).
Notation cache s := (filename_for_cache sid user_id s (s + cache_size)).
Notation decode := (decode version literal_eval).
Notation get_event := (get_event version literal_eval sid user_id).
Notation search_go := (search_go text version literal_eval sid user_id).
Notation search_events := (search_events text version literal_eval sid user_id).
Notation include := (include text).
Implicit Types f : F.

(** A page of [n] events from [start] repeats their files. *)
Definition repeats f (start : Z) (ds : list (dict string pyval)) : Prop :=
  forall i d, ds !! i = Some d -> stored_at (file (start + Z.of_nat i)) f (VDict d).
Definition coherent f : Prop :=
  forall start v, stored_at (cache start) f v ->
    exists ds, v = VList (map VDict ds) /\ Z.of_nat (length ds) = cache_size /\ repeats f start ds.

(** *** The cache is invisible *)

(** [search_events] without its cache. *)
Definition event_in_file f (index : Z) : res (option event) :=
  match get_event f index with
  | Ok e => Ok (Some e)
  | Raise x => if is_not_found x then Ok None else Raise x
  end.
Fixpoint search_files f (filter : option EventFilter) (limit : option Z) (num_results : Z) (indices : list Z) : gen event :=
  match indices with
  | [] => ([], None)
  | index :: indices =>
      match event_in_file f index with
      | Raise x => ([], Some x)
      | Ok None => search_files f filter limit num_results indices
      | Ok (Some event) =>
          match match filter with Some fl => include fl event | None => Ok true end with
          | Raise x => ([], Some x)
          | Ok false => search_files f filter limit num_results indices
          | Ok true =>
              yielding event (if limit_reached limit (num_results + 1) then ([], None)
                              else search_files f filter limit (num_results + 1) indices)
          end
      end
  end.

Definition page_ok f (p : CachePage) : Prop :=
  match p_events p with
  | None => True
  | Some l => exists ds, l = map VDict ds /\ Z.of_nat (length ds) = cache_size /\ p_end p = p_start p + cache_size /\
                         repeats f (p_start p) ds
  end.

Lemma load_page_ok f index : coherent f ->
  exists p, load_cache_page_for_index sid user_id f index = Ok p /\ page_ok f p /\ covers p index = true.
Proof.
  intros Hc. unfold load_cache_page_for_index, load_cache_page.
  pose proof (Z.mod_pos_bound index cache_size ltac:(done)) as Hm.
  assert (forall ev, covers {| p_events := ev; p_start := index - index mod cache_size;
                               p_end := index - index mod cache_size + cache_size |} index = true) as Hcov.
  { intros ev. unfold covers. cbn [p_start p_end]. destruct (Z.ltb_spec index (index - index mod cache_size)) as [|_]; [lia|].
    destruct (Z.leb_spec (index - index mod cache_size + cache_size) index) as [|_]; [lia|done]. }
  destruct (fs_read _ f) as [v|] eqn:E.
  - destruct (Hc _ _ E) as (ds & -> & Hl & Hr). eexists. split; [done|]. split; [|done]. exists ds. done.
  - eexists. done.
Qed.
Lemma page_event_ok f p index : page_ok f p -> covers p index = true ->
  page_event version literal_eval p index = Ok None \/
  page_event version literal_eval p index = (e <-! get_event f index ;; Ok (Some e)) /\ exists_at (file index) f.
Proof.
  unfold page_ok, page_event, covers. intros Hp Hcov. destruct (p_events p) as [l|]; [|by left]. destruct Hp as (ds & -> & Hl & He & Hr).
  destruct (Z.ltb_spec index (p_start p)); [done|]. destruct (Z.leb_spec (p_end p) index); [done|].
  right. destruct (lookup_lt_is_Some_2 ds (Z.to_nat (index - p_start p))) as [d Hd]; [lia|].
  assert (map VDict ds <> []) by (by destruct ds). pose proof (Hr _ _ Hd) as Hf. rewrite Z2Nat.id in Hf by lia.
  replace (p_start p + (index - p_start p)) with index in Hf by lia. split; [|by eexists].
  destruct (map VDict ds) as [|v l] eqn:Em; [done|]. rewrite <- Em. unfold py_nth.
  destruct (Z.ltb_spec (index - p_start p) 0) as [|_]; [lia|]. destruct (Z.ltb_spec (index - p_start p) 0) as [|_]; [lia|].
  rewrite list_lookup_fmap, Hd. cbn [fmap option_fmap option_map rbind]. unfold EventStore.get_event. by rewrite Hf.
Qed.

Lemma event_at_ok f p index : coherent f -> page_ok f p ->
  match event_at version literal_eval sid user_id f p index with
  | Ok (o, p') => event_in_file f index = Ok o /\ page_ok f p'
  | Raise x => event_in_file f index = Raise x
  end.
Proof.
  intros Hc Hp. unfold event_at.
  assert (exists q, (if covers p index then Ok p else load_cache_page_for_index sid user_id f index) = Ok q /\ page_ok f q /\
                    covers q index = true) as (q & -> & Hq & Hcov).
  { destruct (covers p index) eqn:E; [by exists p|by apply load_page_ok]. }
  cbn [rbind]. destruct (page_event_ok f q index Hq Hcov) as [-> | [-> [v Hv]]]; cbn [rbind].
  - unfold event_in_file. destruct (get_event f index) as [e|x]; [done|]. by destruct (is_not_found x).
  - unfold event_in_file, EventStore.get_event. rewrite Hv. cbn [rbind]. pose proof (decode_found version literal_eval v) as Hd.
    destruct (decode v) as [e|x]; cbn [rbind]; [done|]. cbn in Hd. by rewrite Hd.
Qed.

Lemma search_go_files f filter limit l : coherent f -> forall p n, page_ok f p ->
  search_go f filter limit p n l = search_files f filter limit n l.
Proof.
  intros Hc. induction l as [|index l IH]; intros p n Hp; [done|]. cbn [EventStore.search_go search_files].
  pose proof (event_at_ok f p index Hc Hp) as Ha. destruct (event_at version literal_eval sid user_id f p index) as [[o p']|x].
  - destruct Ha as [-> Hp']. destruct o as [e|]; [|by apply IH].
    destruct (match filter with Some _ => _ | None => _ end) as [[]|]; [|by apply IH|done].
    destruct (limit_reached limit (n + 1)); [done|]. by rewrite (IH p').
  - by rewrite Ha.
Qed.
(** *** Adding an event *)

Notation stream := (EventStream (F := F)).
Implicit Types s : stream.
Notation cur_id := (cur_id sid user_id).
Notation add_event := (add_event version literal_eval sid user_id).

Definition cur_is s (n : Z) : Prop :=
  match _cur_id s with Some id => id = n | None => calculate_cur_id sid user_id (file_store s) = Ok n end.
(** The page being filled repeats the latest events. *)
Definition page_of f (n : Z) (page : list (dict string pyval)) : Prop :=
  Z.of_nat (length page) < cache_size /\ Z.of_nat (length page) <= n /\ repeats f (n - Z.of_nat (length page)) page /\
  (forall d, hd_error page = Some d -> dget d "id" = Some (VInt (n - Z.of_nat (length page)))).
(** The directory of the events holds the events below [n] and nothing else;
    the last is there. *)
Definition tidy f (n : Z) : Prop :=
  0 <= n /\ ~ exists_at (get_conversation_events_dir sid user_id) f /\
  (forall p, startswith (get_conversation_events_dir sid user_id) p = true -> exists_at p f -> exists id, 0 <= id < n /\ p = file id) /\
  (n = 0 \/ exists_at (file (n - 1)) f).
Definition wf s (n : Z) : Prop :=
  cur_is s n /\ coherent (file_store s) /\ page_of (file_store s) n (_write_page_cache s) /\ tidy (file_store s) n.

(** What a successful [add_event] does to the files. *)
Definition written (n : Z) (d : dict string pyval) (page : list (dict string pyval)) f : F :=
  let f := fs_write (file n) (VDict d) f in
  if Z.of_nat (length page) <? cache_size then f
  else let start := n + 1 - cache_size in fs_write (cache start) (VList (map VDict page)) f.

Lemma cur_id_run s n : cur_is s n ->
  exists s', cur_id s = (Ok n, s') /\ file_store s' = file_store s /\ _cur_id s' = Some n /\ _queue s' = _queue s /\
             _write_page_cache s' = _write_page_cache s /\ secrets s' = secrets s.
Proof.
  unfold cur_is, EventStore.cur_id. destruct (_cur_id s) as [id|] eqn:E.
  - intros ->. by exists s.
  - intros ->. by eexists.
Qed.

Lemma page_id_first f n page d : page_of f n page -> dget d "id" = Some (VInt n) ->
  Z.of_nat (length (page ++ [d])) = cache_size ->
  exists d0, hd_error (page ++ [d]) = Some d0 /\ dget d0 "id" = Some (VInt (n + 1 - cache_size)).
Proof.
  intros (_ & _ & _ & Hhd) Hd. rewrite length_app. cbn [length]. intros Hl. destruct page as [|d0 page]; [done|].
  exists d0. split; [done|]. rewrite (Hhd d0) by done. do 2 f_equal. lia.
Qed.

Lemma add_event_run now e src s n e' s' : wf s n -> add_event now e src s = (Ok e', s') ->
  exists d0 copy, e' = stamped now src n e /\ event_to_dict e' = Ok d0 /\
    let d := replace_secrets (dvals (secrets s)) d0 in
    let page := _write_page_cache s ++ [d] in
    dget d "id" = Some (VInt n) /\ decode (VDict d) = Ok copy /\
    file_store s' = written n d page (file_store s) /\ _cur_id s' = Some (n + 1) /\ _queue s' = _queue s ++ [copy] /\
    _write_page_cache s' = (if Z.of_nat (length page) =? cache_size then [] else page) /\ secrets s' = secrets s.
Proof.
  intros (Hcur & Hcoh & Hpage & Hn & _) Hrun. unfold EventStore.add_event in Hrun.
  destruct (negb (event_id e =? INVALID_ID)); [done|]. unfold bindM in Hrun.
  destruct (cur_id_run s n Hcur) as (s1 & E1 & Ef & Ec & Eq & Ep & Es). rewrite E1 in Hrun. cbn [modifyM getM liftM] in Hrun.
  destruct (event_to_dict (stamped now src n e)) as [d0|] eqn:Ed; [|done]. cbn [with_cur_id secrets _write_page_cache] in Hrun.
  rewrite Es, Ep in Hrun. set (d := replace_secrets (dvals (secrets s)) d0) in *.
  assert (dget d "id" = Some (VInt n)) as Hid.
  { unfold d. rewrite replace_secrets_id. apply (event_to_dict_id _ _ Ed). cbn. unfold INVALID_ID. lia. }
  destruct (event_from_dict version literal_eval d) as [copy|] eqn:Edec; [|done].
  rewrite (event_from_dict_id _ _ _ _ _ Edec Hid) in Hrun. unfold modifyM in Hrun. cbv beta iota zeta in Hrun.
  unfold store_cache_page in Hrun. exists d0, copy. cbv zeta. fold d.
  pose proof Hpage as (Hlt & _).
  destruct (Z.ltb_spec (Z.of_nat (length (_write_page_cache s ++ [d]))) cache_size) as [Hl|Hl];
    (destruct (Z.eqb_spec (Z.of_nat (length (_write_page_cache s ++ [d]))) cache_size) as [He|He]).
  - lia.
  - injection Hrun as <- <-. cbn [put with_files file_store with_page with_cur_id _queue]. rewrite Ef, Eq. unfold written.
    by rewrite (proj2 (Z.ltb_lt _ _) Hl).
  - destruct (page_id_first _ _ _ _ Hpage Hid He) as (dh & Eh & Ehid). rewrite Eh, Ehid in Hrun. injection Hrun as <- <-.
    cbn [put with_files file_store with_page with_cur_id _queue]. rewrite Ef, Eq. unfold written.
    by rewrite (proj2 (Z.ltb_ge _ _) Hl).
  - exfalso. rewrite length_app in *. cbn [length] in *. lia.
Qed.

Lemma tidy_below f n id : tidy f n -> exists_at (file id) f -> 0 <= id < n.
Proof.
  intros (_ & _ & Ht & _) He. destruct (Ht (file id)) as (id' & Hid & E); [|done|].
  - apply prefix_spec. by eexists.
  - by apply file_inj in E as ->.
Qed.
Lemma written_file f n d page a : 0 <= n + 1 - cache_size \/ Z.of_nat (length page) < cache_size ->
  fs_read (file a) (written n d page f) = if decide (a = n) then Ok (VDict d) else fs_read (file a) f.
Proof.
  intros Hn. unfold written. assert (fs_read (file a) (fs_write (file n) (VDict d) f) = if decide (a = n) then Ok (VDict d) else fs_read (file a) f) as Hf.
  { destruct (decide (a = n)) as [->|Hne]; [by rewrite read_write_eq|]. rewrite read_write_ne; [done|].
    intros E. by apply file_inj in E. }
  destruct (Z.of_nat (length page) <? cache_size); [done|]. rewrite read_write_ne; [done|]. intros E. symmetry in E. by apply file_cache in E.
Qed.
Lemma written_cache f n d page start v : 0 <= n + 1 - cache_size \/ Z.of_nat (length page) < cache_size ->
  stored_at (cache start) (written n d page f) v ->
  stored_at (cache start) f v \/
  (start = n + 1 - cache_size /\ cache_size <= Z.of_nat (length page) /\ v = VList (map VDict page)).
Proof.
  unfold stored_at, written. intros Hn.
  assert (fs_read (cache start) (fs_write (file n) (VDict d) f) = fs_read (cache start) f) as Hf.
  { apply read_write_ne. apply file_cache. }
  destruct (Z.ltb_spec (Z.of_nat (length page)) cache_size) as [Hl|Hl].
  - rewrite Hf. by left.
  - destruct (decide (start = n + 1 - cache_size)) as [->|Hne].
    + rewrite read_write_eq. intros [= <-]. by right.
    + rewrite read_write_ne; [rewrite Hf; by left|]. intros E. apply cache_inj in E; [done|lia].
Qed.
Lemma repeats_written f n d page start ds : 0 <= n + 1 - cache_size \/ Z.of_nat (length page) < cache_size ->
  tidy f n -> repeats f start ds -> repeats (written n d page f) start ds.
Proof.
  intros Hn Ht Hr i d' Hi. specialize (Hr i d' Hi). pose proof (tidy_below f n (start + Z.of_nat i) Ht ltac:(by eexists)).
  unfold stored_at. rewrite written_file by done. by rewrite decide_False by lia.
Qed.
Lemma repeats_snoc f start ds d :
  repeats f start ds -> stored_at (file (start + Z.of_nat (length ds))) f (VDict d) -> repeats f start (ds ++ [d]).
Proof.
  intros Hr Hd i d' Hi. apply lookup_app_Some in Hi as [Hi|[Hge Hi]]; [by apply Hr|].
  apply list_lookup_singleton_Some in Hi as [Hi <-]. by replace i with (length ds) by lia.
Qed.

Lemma written_exists f n d page p : exists_at p (written n d page f) ->
  p = file n \/ (exists start, p = cache start) \/ exists_at p f.
Proof.
  unfold exists_at, stored_at, written. intros [v Hv].
  destruct (decide (p = file n)) as [|Hf]; [by left|]. destruct (Z.of_nat (length page) <? cache_size).
  - rewrite read_write_ne in Hv by done. eauto.
  - destruct (decide (p = cache (n + 1 - cache_size))) as [|Hc]; [eauto|]. rewrite !read_write_ne in Hv by done. eauto.
Qed.

(** One more event, on files as [wf] has them. *)
Section one_more.
Context f (n : Z) d page (Hcoh : coherent f) (Hpage : page_of f n page) (Htidy : tidy f n) (Hid : dget d "id" = Some (VInt n)).
Notation page' := (page ++ [d]).
Notation f' := (written n d page' f).
Notation start := (n - Z.of_nat (length page)).

Lemma next_length : Z.of_nat (length page') = Z.of_nat (length page) + 1.
Proof. rewrite length_app. cbn [length]. lia. Qed.
Lemma next_start : 0 <= n + 1 - cache_size \/ Z.of_nat (length page') < cache_size.
Proof. destruct Hpage as (? & ? & _). rewrite next_length. unfold cache_size in *. lia. Qed.
Lemma next_repeats : repeats f' start page'.
Proof.
  destruct Hpage as (_ & _ & Hr & _). apply repeats_snoc; [apply repeats_written; auto using next_start|]. unfold stored_at.
  replace (start + _) with n by lia. rewrite written_file by apply next_start. by rewrite decide_True.
Qed.
Lemma next_coherent : coherent f'.
Proof.
  intros st v Hv. apply written_cache in Hv as [Hv|(-> & Hge & ->)]; [| |apply next_start].
  - destruct (Hcoh _ _ Hv) as (ds & -> & ? & ?). exists ds. split_and!; try done. apply repeats_written; auto using next_start.
  - destruct Hpage as (? & _). rewrite next_length in Hge. exists page'. split_and!; [done|rewrite next_length; lia|].
    replace (n + 1 - cache_size) with start by lia. apply next_repeats.
Qed.
Lemma next_page : page_of f' (n + 1) (if Z.of_nat (length page') =? cache_size then [] else page').
Proof.
  destruct Hpage as (Hlt & Hle & _ & Hhd). destruct Htidy as (Hn & _). rewrite next_length.
  destruct (Z.eqb_spec (Z.of_nat (length page) + 1) cache_size) as [|Hne].
  - split_and!; cbn [length]; try done. lia.
  - unfold page_of. rewrite next_length. split_and!; try lia.
    + replace (n + 1 - (Z.of_nat (length page) + 1)) with start by lia. apply next_repeats.
    + replace (n + 1 - (Z.of_nat (length page) + 1)) with start by lia. intros d'.
      destruct page as [|d0 rest]; [|by apply Hhd]. intros [= <-]. cbn [length]. by replace (n - Z.of_nat 0) with n by lia.
Qed.
Lemma file_not_dir id : file id <> get_conversation_events_dir sid user_id.
Proof.
  unfold filename_for_id, get_conversation_event_filename. intros E. apply (f_equal slen) in E. rewrite !slen_app in E. cbn in E. lia.
Qed.
Lemma next_tidy : tidy f' (n + 1).
Proof.
  destruct Htidy as (Hn & Hd & Hdir & _). split_and!; [lia| | |right].
  - intros He. apply written_exists in He as [E|[[st E]|He]]; [by apply (file_not_dir n)| |done].
    pose proof (cache_dir sid user_id st (st + cache_size)) as Hc. rewrite <- E in Hc.
    by rewrite (proj2 (prefix_spec _ _)) in Hc by (exists ""; by rewrite sapp_nil_r).
  - intros p Hp He. apply written_exists in He as [->|[[st ->]|He]].
    + exists n. split; [lia|done].
    + by rewrite cache_dir in Hp.
    + destruct (Hdir p Hp He) as (id & ? & ->). exists id. split; [lia|done].
  - eexists. unfold stored_at. replace (n + 1 - 1) with n by lia. rewrite written_file by apply next_start. by rewrite decide_True.
Qed.
End one_more.

Lemma add_event_wf now e src s n e' s' : wf s n -> add_event now e src s = (Ok e', s') -> wf s' (n + 1).
Proof.
  intros Hwf Hrun. destruct (add_event_run _ _ _ _ _ _ _ Hwf Hrun) as (d0 & copy & _ & _ & Hd). cbv zeta in Hd.
  destruct Hd as (Hid & _ & Hf & Hc & _ & Hp & _). destruct Hwf as (_ & Hcoh & Hpage & Htidy). unfold wf, cur_is.
  rewrite Hc, Hf, Hp. split_and!; [done|by apply next_coherent|by apply next_page|by apply next_tidy].
Qed.

(** *** Opening a store again *)

Lemma id_of_file id : 0 <= id < 2 ^ 64 -> get_id_from_filename (file id) = id.
Proof.
  intros Hid. destruct (str_of_Z_digits id ltac:(lia)) as [Hd Hne].
  unfold get_id_from_filename, filename_for_id, get_conversation_event_filename, get_conversation_events_dir.
  replace (get_conversation_dir sid user_id +:+ "events/") with ((get_conversation_dir sid user_id +:+ "events") +:+ "/")
    by by rewrite sapp_assoc.
  rewrite last_component.
  - rewrite split_char_app by (by apply decimal_free). cbn [hd]. by rewrite int_of_digits.
  - apply negb_true_iff. rewrite sexists_app. by rewrite decimal_free.
Qed.
Lemma event_name_ok id : 0 <= id -> str_of_Z id +:+ ".json" <> "" /\ no_slash (str_of_Z id +:+ ".json") = true.
Proof.
  intros Hid. destruct (str_of_Z_digits id Hid) as [Hd Hne]. split; [by destruct (str_of_Z id)|].
  unfold no_slash. apply negb_true_iff. rewrite sexists_app. by rewrite decimal_free.
Qed.
Lemma max_go_spec n (l : list string) m : m < n -> (forall s : string, s ∈ l -> get_id_from_filename s < n) -> (m = n - 1 \/ exists s : string, s ∈ l /\ get_id_from_filename s = n - 1) ->
  foldl (fun max_id (s : string) => let id := get_id_from_filename s in if max_id <=? id then id else max_id) m l = n - 1.
Proof.
  revert m; induction l as [|s l IH]; intros m Hm Hl He; cbn [foldl].
  { destruct He as [|(s & Hs%not_elem_of_nil & _)]; [done|done]. }
  pose proof (Hl s ltac:(set_solver)). apply IH.
  - cbv zeta. destruct (m <=? get_id_from_filename s); lia.
  - intros t Ht. apply Hl. set_solver.
  - cbv zeta. destruct He as [He|(t & [Ht|Ht]%elem_of_cons & E)]; [left|left|by eauto];
      destruct (Z.leb_spec m (get_id_from_filename s)); subst; lia.
Qed.
(** The id after the last file. *)
Lemma calculate_cur_id_tidy f n : tidy f n -> n < 2 ^ 64 -> calculate_cur_id sid user_id f = Ok n.
Proof.
  intros Ht Hn. pose proof Ht as (H0n & Hd & Hdir & Hlast). unfold calculate_cur_id.
  pose proof (list_files _ f Hd) as Hl. destruct (fs_list (get_conversation_events_dir sid user_id) f) as [l|x].
  - destruct Hl as [Hname Hl].
    assert (forall s : string, s ∈ l -> get_id_from_filename s < Z.max n 0 \/ get_id_from_filename s = -1) as Hids.
    { intros s Hs. destruct (Hl s Hs) as [[Hp He]|He].
      - destruct (Hdir s Hp He) as (id & ? & ->). rewrite id_of_file by lia. lia.
      - right. by apply id_of_dir. }
    destruct Hlast as [->|Hlast].
    + destruct l as [|t0 l]; [done|]. f_equal. pose proof (max_go_spec 0 (t0 :: l) (-1) ltac:(lia)) as E. cbv zeta in E.
      rewrite E; [done| |by left]. intros t Ht'. destruct (Hids t Ht'); lia.
    + assert (file (n - 1) ∈ l) as Hin.
      { apply Hname; [| |done].
        - apply event_name_ok. apply (tidy_below f n _ Ht Hlast).
        - apply event_name_ok. apply (tidy_below f n _ Ht Hlast). }
      pose proof (tidy_below f n (n - 1) Ht Hlast).
      destruct l as [|t0 l]; [by apply not_elem_of_nil in Hin|]. f_equal.
      pose proof (max_go_spec n (t0 :: l) (-1) ltac:(lia)) as E. cbv zeta in E. rewrite E; [lia| |].
      * intros t Ht'. destruct (Hids t Ht'); lia.
      * right. exists (file (n - 1)). split; [done|]. apply id_of_file. lia.
  - destruct Hl as [[p ->] Hnone]. cbn. destruct Hlast as [->|Hlast]; [done|]. exfalso. eapply Hnone; [| |done].
    + apply event_name_ok. apply (tidy_below f n _ Ht Hlast).
    + apply event_name_ok. apply (tidy_below f n _ Ht Hlast).
Qed.

Lemma page_of_nil f n : 0 <= n -> page_of f n [].
Proof. intros Hn. unfold page_of. by cbn [length]. Qed.
Lemma reopened_wf s n : wf s n -> n < 2 ^ 64 -> wf (new_stream (file_store s)) n.
Proof.
  intros (_ & Hcoh & _ & Ht) Hn. split_and!; try done.
  - unfold cur_is. cbn [new_stream _cur_id file_store]. by apply calculate_cur_id_tidy.
  - apply page_of_nil. by destruct Ht.
Qed.

(** *** What is published is what is read *)

(** A sequence of calls. *)
Fixpoint add_events (l : list (string * event * EventSource)) : M stream unit :=
  match l with
  | [] => retM tt
  | (now, e, src) :: l => add_event now e src ;;; add_events l
  end.

Lemma add_event_published now e src s n e' s' : wf s n -> add_event now e src s = (Ok e', s') ->
  exists copy, _queue s' = _queue s ++ [copy] /\ get_event (file_store s') n = Ok copy /\ event_id e' = n /\ event_id copy = n /\
    forall id, id <> n -> get_event (file_store s') id = get_event (file_store s) id.
Proof.
  intros Hwf Hrun. destruct (add_event_run _ _ _ _ _ _ _ Hwf Hrun) as (d0 & copy & -> & _ & Hd). cbv zeta in Hd.
  destruct Hd as (Hid & Hdec & Hf & _ & Hq & _). destruct Hwf as (_ & _ & Hpage & Ht). exists copy. unfold EventStore.get_event. rewrite Hf.
  split_and!; [done| |done| |].
  - rewrite written_file by by eapply next_start. by rewrite decide_True.
  - unfold event_id. by rewrite (event_from_dict_id _ _ _ _ _ Hdec Hid).
  - intros id Hne. rewrite written_file by by eapply next_start. by rewrite decide_False.
Qed.

Lemma add_events_published l : forall s n s', wf s n -> add_events l s = (Ok tt, s') ->
  exists copies, length copies = length l /\ wf s' (n + Z.of_nat (length l)) /\ _queue s' = _queue s ++ copies /\
    (forall i e, copies !! i = Some e -> get_event (file_store s') (n + Z.of_nat i) = Ok e /\ event_id e = n + Z.of_nat i) /\
    forall id, id < n -> get_event (file_store s') id = get_event (file_store s) id.
Proof.
  induction l as [|[[now e] src] l IH]; intros s n s' Hwf Hrun; cbn [add_events] in Hrun.
  - injection Hrun as <-. exists []. rewrite Z.add_0_r, app_nil_r. by split_and!.
  - unfold bindM in Hrun. destruct (add_event now e src s) as [[e'|x] s1] eqn:E; [|done].
    destruct (add_event_published _ _ _ _ _ _ _ Hwf E) as (copy & Hq & Hg & _ & Hid & Hold). pose proof (add_event_wf _ _ _ _ _ _ _ Hwf E) as Hwf1.
    destruct (IH s1 (n + 1) s' Hwf1 Hrun) as (copies & Hl & Hwf' & Hq' & Hnew & Hold').
    exists (copy :: copies). cbn [length]. split_and!.
    + by rewrite Hl.
    + by replace (n + Z.of_nat (S (length l))) with (n + 1 + Z.of_nat (length l)) by lia.
    + by rewrite Hq', Hq, <- app_assoc.
    + intros [|i] e0; cbn [lookup list_lookup].
      * intros [= <-]. rewrite Z.add_0_r. by rewrite Hold' by lia.
      * intros Hi. replace (n + Z.of_nat (S i)) with (n + 1 + Z.of_nat i) by lia. by apply Hnew.
    + intros id Hlt. rewrite Hold' by lia. apply Hold. lia.
Qed.
Lemma search_files_all f copies k start :
  (forall i e, copies !! i = Some e -> get_event f (start + Z.of_nat i) = Ok e) ->
  search_files f None None k (seqZ start (Z.of_nat (length copies))) = (copies, None).
Proof.
  revert k start; induction copies as [|c copies IH]; intros k start Hg; [done|]. cbn [length].
  rewrite seqZ_cons by lia. cbn [search_files]. unfold event_in_file. pose proof (Hg 0%nat c eq_refl) as H0'. rewrite Z.add_0_r in H0'.
  rewrite H0'. cbn [limit_reached]. replace (Z.pred (Z.of_nat (S (length copies)))) with (Z.of_nat (length copies)) by lia.
  rewrite IH; [done|]. intros i e Hi. replace (Z.succ start + Z.of_nat i) with (start + Z.of_nat (S i)) by lia. by apply (Hg (S i)).
Qed.

(** C8: The cache pages are invisible: after any sequence of successful
    [add_event]s on a well-formed stream (an empty one is: [empty_wf]) a search, of
    any range, order, filter and limit, yields what reading the event files one by
    one yields, with the same error if one is met; also when the stream is opened
    again.  (After an [add_event] that fails it need not: [gap_duplicates_event].) *)
Theorem search_cache_invisible l s n s' start_id end_id reverse filter limit : wf s n -> add_events l s = (Ok tt, s') ->
  let n' := n + Z.of_nat (length l) in
  cur_is s' n' /\ (n' < 2 ^ 64 -> cur_is (new_stream (file_store s')) n') /\
  search_events (file_store s') n' start_id end_id reverse filter limit =
  search_files (file_store s') filter limit 0 (indices start_id (exclusive_end n' end_id) reverse).
Proof.
  intros Hwf Hrun n'. destruct (add_events_published l s n s' Hwf Hrun) as (copies & _ & Hwf' & _).
  pose proof Hwf' as (Hcur & Hc & _). split_and!; [done|by intros Hn; apply reopened_wf|by apply search_go_files].
Qed.

(** C7: The store reads back what it published: after any sequence of
    successful [add_event]s, and also when the store is opened again, the ids
    go on without a gap and a search from the first new id yields exactly the
    events that were put on the queue, in their order. *)
Theorem published_is_read l s n s' : wf s n -> n + Z.of_nat (length l) < 2 ^ 64 -> add_events l s = (Ok tt, s') ->
  let n' := n + Z.of_nat (length l) in
  exists copies, length copies = length l /\ _queue s' = _queue s ++ copies /\
    search_events (file_store s') n' n None false None None = (copies, None) /\
    wf s' n' /\ wf (new_stream (file_store s')) n'.
Proof.
  intros Hwf Hn Hrun n'. destruct (add_events_published l s n s' Hwf Hrun) as (copies & Hl & Hwf' & Hq & Hnew & _).
  exists copies. split_and!; [done|done| |done|by apply reopened_wf].
  destruct Hwf' as (_ & Hc & _). unfold EventStore.search_events. rewrite search_go_files by done. unfold indices, exclusive_end.
  replace (n' - n) with (Z.of_nat (length copies)) by lia. apply search_files_all.
  intros i e Hi. by apply Hnew.
Qed.
End log.

(** An empty store in memory. *)
Lemma empty_wf : wf "s" None (new_stream ([] : InMemoryFileStore)) 0.
Proof.
  unfold wf, tidy. split_and!; [done|by intros start v Hv|done|done|by intros [v Hv]|by intros p _ [v Hv]|by left].
Qed.
Definition say (text : string) : event := new_event (MessageAction text None None false RISK_UNKNOWN).
(** A rejection whose reason is not a string has no message. *)
Definition bad_event : event := new_event (AgentRejectAction [("reason", VInt 3)] "").
Definition memory_stream (l : list (string * event * EventSource)) : EventStream (F := InMemoryFileStore) :=
  after (add_events "1" (fun _ => None) "s" None l (new_stream [])).
Lemma published_is_read_witness :
  exists copies, search_events (fun _ => "") "1" (fun _ => None) "s" None
      (file_store (memory_stream [("t1", say "a", USER); ("t2", say "b", AGENT)])) 2 0 None false None None = (copies, None) /\
    map event_id copies = [0; 1].
Proof.
  destruct (published_is_read (fun _ => "") "1" (fun _ => None) "s" None [("t1", say "a", USER); ("t2", say "b", AGENT)] (new_stream []) 0
    (memory_stream [("t1", say "a", USER); ("t2", say "b", AGENT)]) empty_wf) as (copies & _ & Hq & Hs & _).
  - by vm_compute.
  - by vm_compute.
  - exists copies. split; [exact Hs|]. change (copies) with (_queue (new_stream ([] : InMemoryFileStore)) ++ copies).
    exact (eq_trans (f_equal (map event_id) (eq_sym Hq)) ltac:(by vm_compute)).
Defined.
(** Thirty events, of which 25 are in a page. *)
Definition thirty : list (string * event * EventSource) := repeat ("t", say "x", USER) 30.
Lemma search_cache_invisible_witness :
  let f := file_store (memory_stream thirty) in
  dmem f (filename_for_cache "s" None 0 25) = true /\
  search_events (fun _ => "") "1" (fun _ => None) "s" None f 30 20 None false None (Some 8) =
  search_files (fun _ => "") "1" (fun _ => None) "s" None f None (Some 8) 0 (indices 20 (exclusive_end 30 None) false).
Proof.
  split; [by vm_compute|].
  exact (proj2 (proj2 (search_cache_invisible (fun _ => "") "1" (fun _ => None) "s" None thirty (new_stream []) 0
    (memory_stream thirty) 20 None false None (Some 8) empty_wf ltac:(by vm_compute)))).
Defined.

(** *** An event that cannot be written leaves a gap that the cache closes *)

Fixpoint add_all (l : list event) (s : EventStream (F := InMemoryFileStore)) : EventStream :=
  match l with
  | [] => s
  | e :: l => add_all l (after (add_event "1" (fun _ => None) "s" None "t" e AGENT s))
  end.
(** The id of the failing event is used up, the page of 25 events spans 26 ids,
    and it is read as if it spanned 25: the event after it is found twice. *)
Example gap_duplicates_event :
  let s := add_all (say "0" :: bad_event :: repeat (say "x") 25) (new_stream []) in
  let ids := map event_id (search_events (fun _ => "") "1" (fun _ => None) "s" None (file_store s) 27 0 None false None None).1 in
  map event_id (_queue s) = 0 :: seqZ 2 25 /\ ids = 0 :: seqZ 2 24 ++ [25; 26].
Proof. by vm_compute. Qed.

(** Secrets are replaced in the strings of dictionaries, not in those of lists;
    the message, which repeats the arguments, is not touched. *)
Example secret_in_message_kept :
  let d := [("message", VStr "Running command: login hunter2"); ("args", VDict [("command", VStr "login hunter2");
            ("urls", VList [VStr "http://hunter2@host"])])] in
  replace_secrets ["hunter2"] d =
  [("message", VStr "Running command: login hunter2"); ("args", VDict [("command", VStr "login <secret_hidden>");
    ("urls", VList [VStr "http://hunter2@host"])])].
Proof. by vm_compute. Qed.
