(* ===== verification/NestedStore.v ===== *)
(** * The event store behind HTTP

    Models the route [search_events] of [server/routes/conversation.py], which
    serves pages of an event store, and [events/nested_event_store.py], the
    client that puts the pages together again.

    The client's loop runs on fuel; [nested_search_terminates] gives the number
    of requests that is enough.  The query string carries its parameters without
    loss, and so does the body its dictionaries. *)

From S2P Require Import Prelude PyStr PyDict PyList PyVal Events Serialization FileStore EventStore EventLog.

(** ** The route *)

Record params := { q_start_id : Z; q_end_id : option Z; q_reverse : bool; q_limit : option Z }.

(** A page, or what reading another answer as one leads to: status 404 ends the
    search, any other error answer has no [events]. *)
Inductive response :=
  | Page (events : list (dict string pyval)) (has_more : bool)
  | NotFound
  | Failed (e : exn).

Fixpoint dicts (l : list event) : res (list (dict string pyval)) :=
  match l with
  | [] => Ok []
  | e :: l => d <-! event_to_dict e ;; ds <-! dicts l ;; Ok (d :: ds)
  end.

Definition no_events : exn := KeyError "events".
Definition no_json : exn := OtherError "JSONDecodeError" "Expecting value".

Section nested.
Context (text : dict string pyval -> string) (version : string) (literal_eval : string -> option (dict string pyval)).
Notation decode d := (event_from_dict version literal_eval d).

Section route.
Context {F : Type} `{FileStoreLaws F} (sid : string) (user_id : option string).

Definition page_limit (p : params) : Z := default 20 (q_limit p).
Definition search_route (f : F) (p : params) : response :=
  let limit := page_limit p in
  if (limit <? 0) || (100 <? limit) then Failed no_events
  else match calculate_cur_id sid user_id f with
       | Raise _ => Failed no_json
       | Ok cur =>
           let '(events, error) := search_events text version literal_eval sid user_id f cur (q_start_id p) (q_end_id p)
                                     (q_reverse p) None (Some (limit + 1)) in
           match error with
           | Some _ => Failed no_json
           | None =>
               let has_more := limit <? Z.of_nat (length events) in
               match dicts (if has_more then list_to events limit else events) with
               | Ok ds => Page ds has_more
               | Raise _ => Failed no_json
               end
           end
       end.
End route.

(** ** The client *)

Section client.
Context (get : params -> response) (filter : option EventFilter).

Definition included (e : event) : res bool := match filter with None => Ok true | Some fl => include text fl e end.

(** One page: what is yielded, and the cursors and the limit afterwards unless
    the search ends in it. *)
Fixpoint read_page (reverse : bool) (end_id : option Z) (results : list (dict string pyval)) (page_min_id : option Z)
    (forward_next_start : Z) (limit : option Z) : gen event * option (option Z * Z * option Z) :=
  match results with
  | [] => (([], None), Some (page_min_id, forward_next_start, limit))
  | result :: results =>
      match decode result with
      | Raise x => (([], Some x), None)
      | Ok e =>
          let id := event_id e in
          let page_min_id := if reverse then Some (match page_min_id with None => id | Some m => Z.min m id end) else page_min_id in
          let forward_next_start := if reverse then forward_next_start else Z.max forward_next_start (id + 1) in
          match included e with
          | Raise x => (([], Some x), None)
          | Ok b =>
              if bool_decide (end_id = Some id) then ((if b then [e] else [], None), None)
              else if negb b then read_page reverse end_id results page_min_id forward_next_start limit
              else match limit with
                   | Some l => if l - 1 <=? 0 then (([e], None), None)
                               else let '(g, st) := read_page reverse end_id results page_min_id forward_next_start (Some (l - 1)) in
                                    (yielding e g, st)
                   | None => let '(g, st) := read_page reverse end_id results page_min_id forward_next_start None in
                             (yielding e g, st)
                   end
          end
      end
  end.

(** [None]: more requests than [fuel]. *)
Fixpoint nested_search_events (fuel : nat) (start_cursor : Z) (end_cursor : option Z) (end_id : option Z) (reverse : bool)
    (limit : option Z) : option (gen event) :=
  match fuel with
  | O => None
  | S fuel =>
      let p := {| q_start_id := start_cursor; q_end_id := if reverse then end_cursor else None; q_reverse := reverse;
                  q_limit := Z.min 100 <$> limit |} in
      match get p with
      | NotFound => Some ([], None)
      | Failed x => Some ([], Some x)
      | Page events has_more =>
          match read_page reverse end_id events None start_cursor limit with
          | (g, None) => Some g
          | (g, Some (page_min_id, forward_next_start, limit)) =>
              if has_more then
                let end_cursor := match page_min_id with Some m => if reverse then Some (m - 1) else end_cursor | None => end_cursor end in
                let start_cursor := if reverse then start_cursor else forward_next_start in
                rest ← nested_search_events fuel start_cursor end_cursor end_id reverse limit;
                Some (g.1 ++ rest.1, rest.2)
              else Some g
          end
      end
  end.

(** [get_event], [get_latest_event], [get_latest_event_id] *)
Definition no_event : exn := file_not_found "no_event".
Definition first_of (g : option (gen event)) : option (res event) :=
  g ← g; Some (match g with ([], Some x) | (_ :: _, Some x) => Raise x | (e :: _, None) => Ok e | ([], None) => Raise no_event end).
End client.

Definition nested_get_event (get : params -> response) (fuel : nat) (id : Z) : option (res event) :=
  first_of (nested_search_events get None fuel id None None false (Some 1)).
Definition nested_get_latest_event (get : params -> response) (fuel : nat) : option (res event) :=
  first_of (nested_search_events get None fuel 0 None None true (Some 1)).
Definition nested_get_latest_event_id (get : params -> response) (fuel : nat) : option (res Z) :=
  r ← nested_get_latest_event get fuel; Some (e <-! r ;; Ok (event_id e)).
End nested.

(** ** The reference: selecting from a list of events *)

Section select.
Context (text : dict string pyval -> string).

Fixpoint select (filter : option EventFilter) (limit : option Z) (l : list event) : gen event :=
  match l with
  | [] => ([], None)
  | e :: l =>
      match included text filter e with
      | Raise x => ([], Some x)
      | Ok false => select filter limit l
      | Ok true =>
          match limit with
          | Some n => if n - 1 <=? 0 then ([e], None) else yielding e (select filter (Some (n - 1)) l)
          | None => yielding e (select filter None l)
          end
      end
  end.

Definition positive (limit : option Z) : Prop := match limit with Some l => 1 <= l | None => True end.

Lemma select_app_done filter limit l l' : (exists x, (select filter limit l).2 = Some x) ->
  select filter limit (l ++ l') = select filter limit l.
Proof.
  revert limit; induction l as [|e l IH]; intros limit; cbn [select app]; [by intros [x Hx]|].
  destruct (included text filter e) as [[]|]; [|apply IH|done].
  destruct limit as [n|]; [destruct (n - 1 <=? 0); [done|]|]; cbn [yielding snd]; intros Hx; by rewrite IH.
Qed.
End select.

(** ** A server that serves a list of events *)

Definition in_range (start_id : Z) (end_id : option Z) (e : event) : bool :=
  (start_id <=? event_id e) && match end_id with Some m => event_id e <=? m | None => true end.
Definition range_of (l : list event) (start_id : Z) (end_id : option Z) (reverse : bool) : list event :=
  let l := List.filter (in_range start_id end_id) l in if reverse then rev l else l.

Record serves (version : string) (literal_eval : string -> option (dict string pyval)) (get : params -> response) (l : list event)
    : Prop := {
  served_sorted : ids_increase l;
  served_page p : 1 <= page_limit p <= 100 ->
    let m := range_of l (q_start_id p) (q_end_id p) (q_reverse p) in
    exists ds, get p = Page ds (page_limit p <? Z.of_nat (length m)) /\
      Forall2 (fun d e => event_from_dict version literal_eval d = Ok e) ds (take (Z.to_nat (page_limit p)) m);
}.

Definition min_of (reverse : bool) (m : option Z) (l : list event) : option Z :=
  if reverse then foldl (fun m e => Some (match m with None => event_id e | Some m => Z.min m (event_id e) end)) m l else m.
Definition next_of (reverse : bool) (n : Z) (l : list event) : Z :=
  if reverse then n else foldl (fun n e => Z.max n (event_id e + 1)) n l.

(** *** The next page goes on where this one stopped *)

Lemma next_of_spec n l : (forall e, e ∈ l -> event_id e < next_of false n l) /\ n <= next_of false n l /\
  (forall x, n <= x -> (forall e, e ∈ l -> event_id e < x) -> next_of false n l <= x).
Proof.
  revert n; induction l as [|e l IH]; intros n; cbn [next_of foldl].
  - split_and!; [by intros e ?%not_elem_of_nil|lia|auto].
  - destruct (IH (Z.max n (event_id e + 1))) as (H1 & H2 & H3). cbn [next_of] in *. split_and!.
    + intros a [->|Ha]%elem_of_cons; [lia|by apply H1].
    + lia.
    + intros x Hx Hall. apply H3; [|intros a Ha; apply Hall; set_solver]. pose proof (Hall e ltac:(set_solver)). lia.
Qed.
Lemma min_of_spec m l : l <> [] -> exists x, min_of true m l = Some x /\ (forall e, e ∈ l -> x <= event_id e) /\
  (exists e, e ∈ l /\ (x = event_id e \/ m = Some x)) /\ match m with Some y => x <= y | None => True end.
Proof.
  revert m; induction l as [|e l IH]; intros m Hne; [done|]. cbn [min_of foldl].
  set (m' := match m with None => event_id e | Some y => Z.min y (event_id e) end).
  destruct l as [|e' l].
  - exists m'. cbn [foldl]. split_and!; [done| | |].
    + intros a ->%list_elem_of_singleton. unfold m'. destruct m; lia.
    + exists e. split; [set_solver|]. unfold m'. destruct m as [y|]; [|by left].
      destruct (Z.min_spec y (event_id e)) as [[_ ->]|[_ ->]]; auto.
    + unfold m'. destruct m; [lia|done].
  - destruct (IH (Some m')) as (x & Hx & Hle & (a & Ha & Hxa) & Hy); [done|]. cbn [min_of] in Hx. exists x. split_and!; [done| | |].
    + intros b [->|Hb]%elem_of_cons; [|by apply Hle]. assert (m' <= event_id e) by (unfold m'; destruct m; lia). lia.
    + destruct Hxa as [Hxa|Hxa]; [exists a; set_solver|]. injection Hxa as Hxa. exists e. split; [set_solver|]. rewrite <- Hxa. unfold m'. destruct m as [y|]; [|by left].
      destruct (Z.min_spec y (event_id e)) as [[_ ->]|[_ ->]]; auto.
    + destruct m; [|done]. unfold m' in Hy. lia.
Qed.

Lemma range_of_filter l start_id end_id reverse :
  range_of l start_id end_id reverse = List.filter (in_range start_id end_id) (if reverse then rev l else l).
Proof. unfold range_of. destruct reverse; [|done]. by rewrite List.filter_rev. Qed.
Lemma in_range_of e l start_id end_id reverse : e ∈ range_of l start_id end_id reverse -> in_range start_id end_id e = true.
Proof. rewrite range_of_filter. intros He%list_elem_of_In%List.filter_In. by destruct He. Qed.
Lemma in_range_iff start_id end_id e :
  in_range start_id end_id e = true <-> start_id <= event_id e /\ match end_id with Some m => event_id e <= m | None => True end.
Proof. unfold in_range. rewrite andb_true_iff, Z.leb_le. destruct end_id; [by rewrite Z.leb_le|naive_solver]. Qed.
Lemma in_range_false start_id end_id e :
  event_id e < start_id \/ match end_id with Some m => m < event_id e | None => False end -> in_range start_id end_id e = false.
Proof. intros He. apply not_true_is_false. rewrite in_range_iff. destruct end_id; lia. Qed.

Lemma range_narrow l s e s' e' reverse :
  (forall a, in_range s' e' a = true -> in_range s e a = true) ->
  range_of l s' e' reverse = List.filter (in_range s' e') (range_of l s e reverse).
Proof.
  intros Hsub. rewrite !range_of_filter, filter_filter. apply List.filter_ext. intros a. specialize (Hsub a).
  destruct (in_range s' e' a); [by rewrite Hsub|by rewrite andb_false_r].
Qed.
Lemma next_range l start_id a b : ids_increase l -> range_of l start_id None false = a ++ b ->
  range_of l (next_of false start_id a) None false = b.
Proof.
  intros Hl Hm. destruct (next_of_spec start_id a) as (Hlt & Hle & Hmin). rewrite (range_narrow l start_id None).
  - rewrite Hm. apply filter_part.
    + intros e He. apply in_range_false. left. by apply Hlt.
    + intros e He. apply in_range_iff. split; [|done]. apply Hmin.
      * assert (in_range start_id None e = true) as Hr by (apply (in_range_of e l start_id None false); rewrite Hm; set_solver).
        by apply in_range_iff in Hr as [? _].
      * intros e' He'. apply (increase_app a b); [|done|done]. rewrite <- Hm. by apply increase_filter.
  - intros e. rewrite !in_range_iff. lia.
Qed.
Lemma next_range_reverse l start_id end_id a b : ids_increase l -> range_of l start_id end_id true = a ++ b -> a <> [] ->
  exists x, min_of true None a = Some x /\ range_of l start_id (Some (x - 1)) true = b.
Proof.
  intros Hl Hm Ha. destruct (min_of_spec None a Ha) as (x & Hx & Hle & (e0 & He0 & Hx0) & _). exists x. split; [done|].
  destruct Hx0 as [Hx0|]; [|done].
  assert (in_range start_id end_id e0 = true) as Hr0 by (apply (in_range_of e0 l start_id end_id true); rewrite Hm; set_solver).
  apply in_range_iff in Hr0 as [Hs0 He0']. rewrite (range_narrow l start_id end_id).
  - rewrite Hm. apply filter_part.
    + intros e He. apply in_range_false. right. specialize (Hle e He). lia.
    + intros e He.
      assert (in_range start_id end_id e = true) as Hr by (apply (in_range_of e l start_id end_id true); rewrite Hm; set_solver).
      apply in_range_iff in Hr as [? _]. apply in_range_iff. split; [done|].
      assert (event_id e < event_id e0); [|lia].
      apply (increase_app (rev b) (rev a)).
      * rewrite <- rev_app_distr, <- Hm. unfold range_of. rewrite rev_involutive. by apply increase_filter.
      * by apply list_elem_of_In, in_rev; rewrite rev_involutive; apply list_elem_of_In.
      * by apply list_elem_of_In, in_rev; rewrite rev_involutive; apply list_elem_of_In.
  - intros e. rewrite !in_range_iff. destruct end_id; lia.
Qed.

Section client_correct.
Context (text : dict string pyval -> string) (version : string) (literal_eval : string -> option (dict string pyval)).
Context (get : params -> response) (filter : option EventFilter).
Notation read_page := (read_page text version literal_eval filter).
Notation decodes := (Forall2 (fun d e => event_from_dict version literal_eval d = Ok e)).

(** A page is a part of the selection. *)
Lemma read_page_select reverse ds l : decodes ds l -> forall m n limit l',
  match read_page reverse None ds m n limit with
  | (g, None) => select text filter limit (l ++ l') = g
  | (g, Some (m', n', limit')) =>
      g.2 = None /\ m' = min_of reverse m l /\ n' = next_of reverse n l /\ (positive limit -> positive limit') /\
      select text filter limit (l ++ l') = (g.1 ++ (select text filter limit' l').1, (select text filter limit' l').2)
  end.
Proof.
  induction 1 as [|d e ds l Hd _ IH]; intros m n limit l'; cbn [NestedStore.read_page app select].
  { split_and!; try done; [by destruct reverse|by destruct reverse|by destruct (select _ _ _ _)]. }
  rewrite Hd. destruct (included text filter e) as [[]|x] eqn:Ei; [| |done]; cbv zeta; rewrite bool_decide_false by done; cbn [negb].
  - destruct limit as [k|]; [destruct (Z.leb_spec (k - 1) 0) as [|Hk]; [done|]|].
    + match goal with |- context [NestedStore.read_page _ _ _ _ _ _ ds ?m1 ?n1 ?k1] => specialize (IH m1 n1 k1 l') end.
      destruct (read_page reverse None ds _ _ _) as [g [[[m' n'] limit']|]].
      * destruct IH as (Hg & -> & -> & Hp & ->). cbn [yielding fst snd]. split_and!; try done; [by destruct reverse..|].
        intros _. apply Hp. cbn. lia.
      * by rewrite IH.
    + match goal with |- context [NestedStore.read_page _ _ _ _ _ _ ds ?m1 ?n1 ?k1] => specialize (IH m1 n1 k1 l') end.
      destruct (read_page reverse None ds _ _ _) as [g [[[m' n'] limit']|]].
      * destruct IH as (Hg & -> & -> & Hp & ->). cbn [yielding fst snd]. split_and!; try done; by destruct reverse.
      * by rewrite IH.
  - match goal with |- context [NestedStore.read_page _ _ _ _ _ _ ds ?m1 ?n1 ?k1] => specialize (IH m1 n1 k1 l') end.
    destruct (read_page reverse None ds _ _ _) as [g [[[m' n'] limit']|]]; [|done].
    destruct IH as (Hg & -> & -> & Hp & ->). split_and!; try done; by destruct reverse.
Qed.

(** *** The loop *)

Lemma page_limit_range limit s e reverse : positive limit ->
  1 <= page_limit {| q_start_id := s; q_end_id := e; q_reverse := reverse; q_limit := Z.min 100 <$> limit |} <= 100.
Proof. unfold page_limit. destruct limit; cbn; lia. Qed.

Lemma nested_search_select l (reverse : bool) : serves version literal_eval get l -> forall fuel start_id end_cursor limit, positive limit ->
  let m := range_of l start_id (if reverse then end_cursor else None) reverse in
  (length m < fuel)%nat ->
  nested_search_events text version literal_eval get filter fuel start_id end_cursor None reverse limit = Some (select text filter limit m).
Proof.
  intros [Hsort Hserve]. induction fuel as [|fuel IH]; intros start_id end_cursor limit Hlim m Hfuel; [lia|].
  cbn [nested_search_events]. set (p := {| q_start_id := start_id |}). pose proof (page_limit_range limit start_id
    (if reverse then end_cursor else None) reverse Hlim) as Hp. fold p in Hp.
  destruct (Hserve p Hp) as (ds & -> & Hds). cbn [q_start_id q_end_id q_reverse p] in Hds. fold m in Hds. set (k := Z.to_nat (page_limit p)) in *.
  pose proof (read_page_select reverse ds (take k m) Hds None start_id limit (drop k m)) as Hsel. rewrite take_drop in Hsel.
  change (range_of l (q_start_id p) (q_end_id p) (q_reverse p)) with m.
  destruct (read_page reverse None ds None start_id limit) as [g [[[m' n'] limit']|]]; [|by rewrite Hsel].
  destruct Hsel as (Hg & -> & -> & Hlim' & ->). destruct (Z.ltb_spec (page_limit p) (Z.of_nat (length m))) as [Hmore|Hmore].
  - assert (m = take k m ++ drop k m) as Hm by by rewrite take_drop.
    assert (length (drop k m) < fuel)%nat as Hlen by (rewrite length_drop; unfold k; lia).
    destruct reverse.
    + destruct (next_range_reverse l start_id end_cursor (take k m) (drop k m) Hsort Hm) as (x & -> & Hr).
      { intros E. apply (f_equal (length (A:=event))) in E. rewrite length_take in E. change (length (A:=event) []) with 0%nat in E. unfold k in E. lia. }
      rewrite (IH start_id (Some (x - 1)) limit'); [|auto|by rewrite Hr]. by rewrite Hr.
    + pose proof (next_range l start_id (take k m) (drop k m) Hsort Hm) as Hr.
      rewrite (IH _ end_cursor limit'); [|auto|by rewrite Hr]. by rewrite Hr.
  - rewrite drop_ge by (unfold k; lia). cbn [select]. cbn [fst snd]. rewrite app_nil_r. destruct g as [ys x]. cbn in Hg |- *. by rewrite Hg.
Qed.
End client_correct.

(** ** The route over an event store serves its events *)

Section over_store.
Context (text : dict string pyval -> string) (version : string) (literal_eval : string -> option (dict string pyval)).
Context {F : Type} `{FileStoreLaws F} (sid : string) (user_id : option string).
Notation get_event := (get_event version literal_eval sid user_id).
Notation event_in_file := (event_in_file version literal_eval sid user_id).
Notation search_files := (search_files text version literal_eval sid user_id).
Implicit Types f : F.

(** An event survives the trip over HTTP; [event_round_trip] says which do. *)
Definition transmissible (e : event) : Prop :=
  exists d, event_to_dict e = Ok d /\ event_from_dict version literal_eval d = Ok e.
(** The files hold the events [l] and no others. *)
Record holds f (n : Z) (l : list event) : Prop := {
  held_sorted : ids_increase l;
  held_event e : e ∈ l -> 0 <= event_id e < n /\ get_event f (event_id e) = Ok e /\ transmissible e;
  held_only id : (forall e, e ∈ l -> event_id e <> id) -> event_in_file f id = Ok None;
}.

Definition file_event f (id : Z) : option event := match event_in_file f id with Ok o => o | Raise _ => None end.
Lemma holds_at f n l id : holds f n l ->
  event_in_file f id = Ok (file_event f id) /\ forall e, file_event f id = Some e <-> e ∈ l /\ event_id e = id.
Proof.
  intros [_ Hev Honly]. unfold file_event. destruct (decide (Exists (fun e => event_id e = id) l)) as [Hex|Hno].
  - apply Exists_exists in Hex as (e & He & <-). destruct (Hev e He) as (_ & Hg & _).
    assert (event_in_file f (event_id e) = Ok (Some e)) as E by (unfold EventLog.event_in_file; by rewrite Hg).
    rewrite E. split; [done|]. intros e'. split; [by intros [= <-]|]. intros [He' Hid]. destruct (Hev e' He') as (_ & Hg' & _).
    rewrite Hid, Hg in Hg'. congruence.
  - assert (forall e, e ∈ l -> event_id e <> id) as Hn.
    { intros e He E. apply Hno, Exists_exists. eauto. }
    rewrite (Honly id Hn). split; [done|]. intros e. split; [done|]. intros [He E]. by destruct (Hn e He).
Qed.

Lemma search_files_select f n l filter idx : holds f n l -> forall limit k, match limit with Some L => 0 <= k < L | None => True end ->
  search_files f filter limit k idx = select text filter ((fun L => L - k) <$> limit) (omap (file_event f) idx).
Proof.
  intros Hh. induction idx as [|i idx IH]; intros limit k Hk; [done|]. cbn [EventLog.search_files omap list_omap].
  destruct (holds_at f n l i Hh) as [-> _]. destruct (file_event f i) as [e|]; [|by apply IH]. cbn [select].
  unfold included.
  destruct filter as [fl|]; [destruct (include text fl e) as [[]|]; [|by apply IH|done]|];
    (destruct limit as [L|]; cbn [fmap option_fmap option_map limit_reached] in *; [|by rewrite IH];
     destruct (Z.eqb_spec L 0), (Z.leb_spec L (k + 1)), (Z.leb_spec (L - k - 1) 0); try lia; cbn [negb andb]; try done;
     rewrite IH by lia; cbn [fmap option_fmap option_map]; by replace (L - k - 1) with (L - (k + 1)) by lia).
Qed.
Lemma omap_seqZ f n l start_id end_id : holds f n l ->
  omap (file_event f) (seqZ start_id (exclusive_end n end_id - start_id)) = List.filter (in_range start_id end_id) l.
Proof.
  intros Hh. apply increase_unique.
  - generalize (exclusive_end n end_id - start_id). intros m. remember (Z.to_nat m) as j eqn:Ej. revert start_id m Ej.
    induction j as [|j IH]; intros st m Ej.
    + unfold seqZ. rewrite <- Ej. constructor.
    + rewrite seqZ_cons by lia. cbn [omap list_omap]. specialize (IH (Z.succ st) (Z.pred m) ltac:(lia)).
      destruct (file_event f st) as [e|] eqn:E; [|done]. constructor; [done|]. apply Forall_forall. intros a Ha.
      apply list_elem_of_omap in Ha as (i & Hi & Ea). apply elem_of_seqZ in Hi.
      apply (holds_at f n l st Hh) in E as [_ E]. apply (holds_at f n l i Hh) in Ea as [_ Ea]. lia.
  - apply increase_filter, Hh.
  - intros e. rewrite list_elem_of_omap. split.
    + intros (i & Hi & E). apply elem_of_seqZ in Hi. apply (holds_at f n l i Hh) in E as [He Hid].
      rewrite list_elem_of_In, List.filter_In, <- list_elem_of_In. split; [done|]. rewrite in_range_iff. unfold exclusive_end in Hi.
      destruct end_id; lia.
    + intros He%list_elem_of_In%List.filter_In. destruct He as [He%list_elem_of_In Hr]. exists (event_id e).
      apply in_range_iff in Hr. destruct (held_event f n l Hh e He) as (Hid & _ & _). split.
      * apply elem_of_seqZ. unfold exclusive_end. destruct end_id; lia.
      * by apply (holds_at f n l _ Hh).
Qed.
Lemma direct_select f n l filter limit start_id end_id reverse : coherent sid user_id f -> holds f n l -> positive limit ->
  search_events text version literal_eval sid user_id f n start_id end_id reverse filter limit =
  select text filter limit (range_of l start_id end_id reverse).
Proof.
  intros Hc Hh Hp. unfold EventStore.search_events. rewrite search_go_files by done. rewrite (search_files_select f n l) by
    (try done; destruct limit; cbn in Hp; lia).
  assert ((fun L => L - 0) <$> limit = limit) as -> by (destruct limit; cbn; [by rewrite Z.sub_0_r|done]).
  f_equal. unfold indices, range_of. destruct reverse; [|by apply omap_seqZ]. rewrite <- (omap_seqZ f n l) by done.
  generalize (seqZ start_id (exclusive_end n end_id - start_id)). intros idx. induction idx as [|i idx IH]; [done|].
  cbn [rev]. rewrite omap_app, IH. cbn [omap list_omap]. destruct (file_event f i); [done|]. by rewrite app_nil_r.
Qed.

(** *** The route *)

Lemma dicts_transmitted l : Forall transmissible l ->
  exists ds, dicts l = Ok ds /\ Forall2 (fun d e => event_from_dict version literal_eval d = Ok e) ds l.
Proof.
  induction 1 as [|e l (d & Hd & Hb) _ (ds & Hds & IH)]; cbn [dicts]; [by exists []|]. rewrite Hd. cbn [rbind]. rewrite Hds.
  exists (d :: ds). split; [done|by constructor].
Qed.
Lemma select_all limit l : positive limit ->
  select text None limit l = (match limit with Some L => take (Z.to_nat L) l | None => l end, None).
Proof.
  revert limit; induction l as [|e l IH]; intros limit Hp; cbn [select included]; [by destruct limit; rewrite ?take_nil|].
  destruct limit as [L|]; [|by rewrite IH]. cbn in Hp. destruct (Z.leb_spec (L - 1) 0).
  - by replace L with 1 by lia.
  - rewrite IH by (cbn; lia). by replace (Z.to_nat L) with (S (Z.to_nat (L - 1))) by lia.
Qed.
Lemma route_serves f n l : coherent sid user_id f -> tidy sid user_id f n -> n < 2 ^ 64 -> holds f n l ->
  serves version literal_eval (search_route text version literal_eval sid user_id f) l.
Proof.
  intros Hc Ht Hn Hh. split; [apply Hh|]. intros p Hp m. unfold search_route.
  destruct (Z.ltb_spec (page_limit p) 0) as [|_]; [lia|]. destruct (Z.ltb_spec 100 (page_limit p)) as [|_]; [lia|]. cbn [orb].
  rewrite (calculate_cur_id_tidy literal_eval sid user_id f n) by done. rewrite (direct_select f n l) by (try done; cbn; lia). fold m.
  rewrite select_all by (cbn; lia). set (k := page_limit p) in *. rewrite length_take.
  assert (Forall transmissible m) as Hm.
  { apply Forall_forall. intros e He. apply (held_event f n l Hh). unfold m in He. rewrite range_of_filter in He.
    apply list_elem_of_In, List.filter_In in He as [He _]. destruct (q_reverse p); [apply in_rev in He|]; by apply list_elem_of_In. }
  assert (k <? Z.of_nat (Z.to_nat (k + 1) `min` length m) = (k <? Z.of_nat (length m))) as ->.
  { destruct (Z.ltb_spec k (Z.of_nat (length m))), (Z.ltb_spec k (Z.of_nat (Z.to_nat (k + 1) `min` length m))); lia. }
  assert ((if k <? Z.of_nat (length m) then list_to (take (Z.to_nat (k + 1)) m) k else take (Z.to_nat (k + 1)) m) = take (Z.to_nat k) m) as ->.
  { destruct (Z.ltb_spec k (Z.of_nat (length m))).
    - rewrite list_to_nonneg by lia. rewrite take_take. f_equal. lia.
    - by rewrite !take_ge by lia. }
  destruct (dicts_transmitted (take (Z.to_nat k) m)) as (ds & -> & Hds); [by apply Forall_take|]. by exists ds.
Qed.

(** C27: Fetching a conversation page by page over HTTP is the same as searching
    its store: for any first id, direction, filter and positive limit, the
    client ends after at most as many requests as there are events, plus one,
    and yields what a direct search yields, with its error if it meets one. *)
Theorem nested_search_is_direct f n l filter start_id (reverse : bool) limit fuel :
  coherent sid user_id f -> tidy sid user_id f n -> n < 2 ^ 64 -> holds f n l -> positive limit -> (length l < fuel)%nat ->
  nested_search_events text version literal_eval (search_route text version literal_eval sid user_id f) filter fuel
    start_id None None reverse limit =
  Some (search_events text version literal_eval sid user_id f n start_id None reverse filter limit).
Proof.
  intros Hc Ht Hn Hh Hp Hfuel. rewrite (direct_select f n l) by done.
  rewrite (nested_search_select text version literal_eval _ filter l reverse); [by destruct reverse|by eapply route_serves|done|].
  rewrite range_of_filter. eapply Nat.le_lt_trans; [apply List.filter_length_le|]. destruct reverse; by rewrite ?length_rev.
Qed.

(** A store filled by [add_event] holds what it published. *)
Lemma published_holds l s s' : wf sid user_id s 0 -> add_events version literal_eval sid user_id l s = (Ok tt, s') ->
  exists copies, _queue s' = _queue s ++ copies /\ wf sid user_id s' (Z.of_nat (length l)) /\
    (Forall transmissible copies -> holds (file_store s') (Z.of_nat (length l)) copies).
Proof.
  intros Hwf Hrun. destruct (add_events_published version literal_eval sid user_id l s 0 s' Hwf Hrun) as (copies & Hl & Hwf' & Hq & Hev & _).
  exists copies. split_and!; [done|done|]. intros Htr. rewrite Forall_forall in Htr. split.
  - clear Hq Htr Hl. assert (forall i e, copies !! i = Some e -> event_id e = 0 + Z.of_nat i) as Hid by (intros i e He; by destruct (Hev i e He)).
    clear Hev. revert Hid. generalize 0. induction copies as [|c copies IH]; intros o Hid; [constructor|]. constructor.
    + apply (IH (o + 1)). intros i e He. rewrite (Hid (S i) e He). lia.
    + apply Forall_forall. intros e [i He]%list_elem_of_lookup. rewrite (Hid (S i) e He), (Hid 0%nat c eq_refl). lia.
  - intros e He. pose proof He as [i Hi]%list_elem_of_lookup. destruct (Hev i e Hi) as [Hg ->].
    apply lookup_lt_Some in Hi. split_and!; [lia|lia|done|by apply Htr].
  - intros id Hid. unfold EventLog.event_in_file, EventStore.get_event.
    destruct (fs_read (filename_for_id sid user_id id) (file_store s')) as [v|x] eqn:E; cbn [rbind].
    + exfalso. pose proof (tidy_below sid user_id _ _ id (proj2 (proj2 (proj2 Hwf'))) ltac:(by eexists)) as Hb.
      destruct (lookup_lt_is_Some_2 copies (Z.to_nat id)) as [e He]; [lia|]. destruct (Hev _ _ He) as [_ Hi].
      apply (Hid e); [by apply list_elem_of_lookup_2 in He|]. lia.
    + by rewrite (read_missing _ _ _ E).
Qed.
End over_store.

(** Three events, fetched in pages of two from the last one down. *)
Lemma nested_search_is_direct_witness :
  let s := memory_stream [("t1", say "a", USER); ("t2", say "b", AGENT); ("t3", say "c", USER)] in
  nested_search_events (fun _ => "") "1" (fun _ => None) (search_route (fun _ => "") "1" (fun _ => None) "s" None (file_store s)) None 4
    0 None None true (Some 2) =
  Some (search_events (fun _ => "") "1" (fun _ => None) "s" None (file_store s) 3 0 None true None (Some 2)).
Proof.
  intros s. set (l := [("t1", say "a", USER); ("t2", say "b", AGENT); ("t3", say "c", USER)]).
  assert (add_events "1" (fun _ => None) "s" None l (new_stream []) = (Ok tt, s)) as Hrun by by vm_compute.
  destruct (published_holds "1" (fun _ => None) "s" None l (new_stream []) s empty_wf Hrun) as (copies & Hq & Hwf & Hh).
  eassert (copies = _) as E by (refine (eq_trans (eq_sym Hq) _); vm_compute; reflexivity).
  assert (Forall (transmissible "1" (fun _ => None)) copies) as Htr.
  { rewrite E. do 3 (constructor; [eexists; split; [vm_compute; reflexivity|vm_compute; reflexivity]|]). constructor. }
  apply (nested_search_is_direct (fun _ => "") "1" (fun _ => None) "s" None (file_store s) 3 copies None 0 true (Some 2) 4).
  - apply Hwf.
  - apply Hwf.
  - lia.
  - by apply Hh.
  - cbn. lia.
  - rewrite E. cbn. lia.
Defined.

(** *** What differs from the store *)

(** A limit of 0 means no limit to the store; over HTTP it asks for empty pages
    for ever. *)
Lemma limit_zero_never_ends text version le (get : params -> response) filter start_id fuel :
  (forall p, q_limit p = Some 0 -> get p = Page [] true) ->
  nested_search_events text version le get filter fuel start_id None None false (Some 0) = None.
Proof.
  intros Hget. induction fuel as [|fuel IH]; [done|]. cbn [nested_search_events]. rewrite Hget by done. cbn [read_page].
  by rewrite IH.
Qed.
Example route_answers_limit_zero :
  let s := memory_stream [("t1", say "a", USER)] in
  search_route (fun _ => "") "1" (fun _ => None) "s" None (file_store s)
    {| q_start_id := 0; q_end_id := None; q_reverse := false; q_limit := Some 0 |} = Page [] true.
Proof. by vm_compute. Qed.
(** Backwards, [end_id] is the last id to yield for the store and the place to
    stop for the client. *)
Example reverse_end_id_differs :
  let s := memory_stream [("t1", say "a", USER); ("t2", say "b", AGENT); ("t3", say "c", USER)] in
  map event_id (search_events (fun _ => "") "1" (fun _ => None) "s" None (file_store s) 3 0 (Some 1) true None None).1 = [1; 0] /\
  map event_id (default ([], None) (nested_search_events (fun _ => "") "1" (fun _ => None)
    (search_route (fun _ => "") "1" (fun _ => None) "s" None (file_store s)) None 4 0 None (Some 1) true None)).1 = [2; 1].
Proof. by vm_compute. Qed.
