(* ===== verification/FnCall.v ===== *)
(** * Function calls as text: [openhands/llm/fn_call_converter.py]

    For a model without function calling, [convert_fncall_messages_to_non_fncall_messages]
    writes the calls and their results into the text of the conversation, and
    [convert_non_fncall_messages_to_fncall_messages] reads them back from it,
    checking the call of the model against the tools.  A message is the dictionary
    the code handles; a tool is a record of the fields of a [ChatCompletionToolParam]
    that the code reads.  Both converters work on a deep copy of the messages, so that
    an assignment inside a content list changes this copy: the handlers return the
    converted message together with the message as the assignments leave it.

    Parameters: [windows] is [sys.platform == 'win32'], and [repr_set] the text
    of a set of strings, whose order Python leaves open. *)

From S2P Require Import Prelude PyStr PyDict PyFloat PyVal PyRegex PyJson RegexFind EventStore FnCallText.
From Stdlib Require Import Ascii.

(** ** Values of any type *)


Definition no_attribute (v : pyval) (a : string) : exn :=
  OtherError "AttributeError" ("'" +:+ type_name v +:+ "' object has no attribute '" +:+ a +:+ "'").
Definition get (d : dict string pyval) (k : string) : res pyval := match dget d k with Some v => Ok v | None => Raise (KeyError k) end.
(** [v[k]] *)
Definition item (v : pyval) (k : string) : res pyval :=
  match v with
  | VDict d => get d k
  | VList _ | VTuple _ => Raise (TypeError (type_name v +:+ " indices must be integers or slices, not str"))
  | VStr _ => Raise (TypeError "string indices must be integers, not 'str'")
  | _ => Raise (TypeError ("'" +:+ type_name v +:+ "' object is not subscriptable"))
  end.
(** [v[k] = x] *)
Definition set_item (v : pyval) (k : string) (x : pyval) : res pyval :=
  match v with
  | VDict d => Ok (VDict (dset d k x))
  | _ => Raise (TypeError ("'" +:+ type_name v +:+ "' object does not support item assignment"))
  end.
(** [k in v] *)
Definition has_key (v : pyval) (k : string) : res bool :=
  match v with
  | VDict d => Ok (dmem d k)
  | VStr s => Ok (contains k s)
  | VList l | VTuple l => Ok (existsb (fun x => py_eq x (VStr k)) l)
  | _ => Raise (TypeError ("argument of type '" +:+ type_name v +:+ "' is not iterable"))
  end.
(** [v += s]: a list is extended by the characters. *)
Fixpoint chars (s : string) : list pyval := match s with EmptyString => [] | String c s => VStr (String c "") :: chars s end.
Definition add_text (v : pyval) (s : string) : res pyval :=
  match v with
  | VStr t => Ok (VStr (t +:+ s))
  | VList l => Ok (VList (l ++ chars s))
  | _ => Raise (TypeError ("unsupported operand type(s) for +=: '" +:+ type_name v +:+ "' and 'str'"))
  end.
Definition text_method (a : string) (f : string -> string) (v : pyval) : res pyval :=
  match v with VStr s => Ok (VStr (f s)) | _ => Raise (no_attribute v a) end.
Definition is_text (v : pyval) : bool := py_eq v (VStr "text").
(** [v['type'] == 'text'] *)
Definition text_item (v : pyval) : res bool := t <-! item v "type" ;; Ok (is_text t).
(** [v.get('type') == 'text'] *)
Definition text_get (v : pyval) : res bool :=
  match v with VDict d => Ok (is_text (default VNone (dget d "type"))) | _ => Raise (no_attribute v "get") end.
Definition text_part (s : string) : pyval := VDict [("type", VStr "text"); ("text", VStr s)].
(** [v['text'] = f(v['text'])] *)
Definition edit_text (f : pyval -> res pyval) (v : pyval) : res pyval := t <-! item v "text" ;; t <-! f t ;; set_item v "text" t.

Fixpoint traverse {A B} (f : A -> res B) (l : list A) : res (list B) :=
  match l with [] => Ok [] | x :: l => y <-! f x ;; ys <-! traverse f l ;; Ok (y :: ys) end.

(** [json.dumps(v, indent=2)] *)
Fixpoint spaces (n : nat) : string := match n with O => "" | S n => String " " (spaces n) end.
Fixpoint json_indent (level : nat) (v : pyval) : res string :=
  let inside := newline +:+ spaces (2 * S level) in
  let close := newline +:+ spaces (2 * level) in
  match v with
  | VList (_ :: _ as l) | VTuple (_ :: _ as l) =>
      ts <-! rmap (json_indent (S level)) l ;; Ok ("[" +:+ inside +:+ join ("," +:+ inside) ts +:+ close +:+ "]")
  | VDict (_ :: _ as d) =>
      ts <-! rmap (fun kv => t <-! json_indent (S level) kv.2 ;; Ok (ascii_string kv.1 +:+ ": " +:+ t)) d ;;
      Ok ("{" +:+ inside +:+ join ("," +:+ inside) ts +:+ close +:+ "}")
  | _ => json_ascii v
  end.

Definition conversion_error {A} (msg : string) : res A := Raise (OtherError "FunctionCallConversionError" msg).
Definition validation_error {A} (msg : string) : res A := Raise (OtherError "FunctionCallValidationError" msg).
Definition assertion_error {A} (msg : string) : res A := Raise (OtherError "AssertionError" msg).
Definition class_repr (v : pyval) : string := "<class '" +:+ type_name v +:+ "'>".
Definition unexpected_content {A} (content : pyval) : res A :=
  conversion_error ("Unexpected content type " +:+ class_repr content +:+ ". Expected str or list. Content: " +:+ py_str content).

(** [f(l[-1])] in place of the last item. *)
Definition edit_last (f : pyval -> res pyval) (l : list pyval) : res (list pyval) :=
  match l with [] => Ok [] | _ => x <-! f (List.last l VNone) ;; Ok (removelast l ++ [x]) end.
(** [content and content[-1]['type'] == 'text'] *)
Definition last_is_text (l : list pyval) : res bool := match l with [] => Ok false | _ => text_item (List.last l VNone) end.

(** ** Tools *)

Definition EXECUTE_BASH_TOOL_NAME : string := "execute_bash".
Definition STR_REPLACE_EDITOR_TOOL_NAME : string := "str_replace_editor".
Definition BROWSER_TOOL_NAME : string := "browser".
Definition FINISH_TOOL_NAME : string := "finish".
Definition LLM_BASED_EDIT_TOOL_NAME : string := "edit_file".

Record ParamInfo := { p_type : option pyval; p_description : option string; p_enum : option (list pyval) }.
Record Parameters := { properties : option (dict string ParamInfo); required : option (list string) }.
Record Tool := { tool_type : string; fn_name : string; fn_description : option string; fn_parameters : option Parameters }.

Definition is_function (t : Tool) : bool := String.eqb (tool_type t) "function".

(** *** The example shown to the model *)

Section prompts.
Context (windows : bool).

Definition refine_prompt (prompt : string) : string := if windows then replace "bash" "powershell" prompt else prompt.

Definition available_tools (tools : list Tool) : list string :=
  filter (fun n => n ∈ [EXECUTE_BASH_TOOL_NAME; STR_REPLACE_EDITOR_TOOL_NAME; BROWSER_TOOL_NAME; FINISH_TOOL_NAME; LLM_BASED_EDIT_TOOL_NAME])
    (map fn_name (List.filter is_function tools)).

Definition get_example_for_tools (tools : list Tool) : string :=
  let has n := bool_decide (n ∈ available_tools tools) in
  let part (b : bool) (s : string) := if b then s else "" in
  let bash := has "execute_bash" in
  match available_tools tools with
  | [] => ""
  | _ =>
      refine_prompt (lstrip (
        example_opening
        +:+ part bash execute_bash_check_dir
        +:+ (if has "str_replace_editor" then str_replace_editor_create_file else part (has "edit_file") edit_file_create_file)
        +:+ part bash execute_bash_run_server
        +:+ part (has "browser") browser_view_page
        +:+ part bash execute_bash_kill_server
        +:+ (if has "str_replace_editor" then str_replace_editor_edit_file else part (has "edit_file") edit_file_edit_file)
        +:+ part bash execute_bash_run_server_again
        +:+ part (has "finish") finish_example
        +:+ example_closing))
  end.
Definition IN_CONTEXT_LEARNING_EXAMPLE_PREFIX (tools : list Tool) : string := get_example_for_tools tools.
End prompts.

(** *** Their description *)

Definition describe_param (required_params : list string) (j : nat) (kv : string * ParamInfo) : string :=
  let '(param_name, param_info) := kv in
  let param_status := if bool_decide (param_name ∈ required_params) then "required" else "optional" in
  let param_type := default (VStr "string") (p_type param_info) in
  let desc := default "No description provided" (p_description param_info) in
  let desc := match p_enum param_info with
              | Some l => desc +:+ newline +:+ "Allowed values: [" +:+ join ", " (map (fun v => "`" +:+ py_str v +:+ "`") l) +:+ "]"
              | None => desc
              end in
  "  (" +:+ str_of_Z (Z.of_nat j + 1) +:+ ") " +:+ param_name +:+ " (" +:+ py_str param_type +:+ ", " +:+ param_status +:+ "): " +:+ desc +:+ newline.

Definition describe_tool (i : nat) (t : Tool) : res string :=
  if negb (is_function t) then assertion_error "" else
  description <-! (match fn_description t with Some d => Ok d | None => Raise (KeyError "description") end) ;;
  let n := str_of_Z (Z.of_nat i + 1) in
  Ok ((if (0 <? i)%nat then newline else "")
      +:+ "---- BEGIN FUNCTION #" +:+ n +:+ ": " +:+ fn_name t +:+ " ----" +:+ newline
      +:+ "Description: " +:+ description +:+ newline
      +:+ match fn_parameters t with
          | Some p => "Parameters:" +:+ newline
                      +:+ join "" (imap (describe_param (default [] (required p))) (default [] (properties p)))
          | None => "No parameters are required for this function." +:+ newline
          end
      +:+ "---- END FUNCTION #" +:+ n +:+ " ----" +:+ newline).

Fixpoint describe_from (i : nat) (tools : list Tool) : res string :=
  match tools with [] => Ok "" | t :: ts => s <-! describe_tool i t ;; r <-! describe_from (S i) ts ;; Ok (s +:+ r) end.
Definition convert_tools_to_description (tools : list Tool) : res string := describe_from 0 tools.

(** ** To text *)

Notation message := (dict string pyval) (only parsing).

Definition param_text (v : pyval) : res string :=
  match v with VList _ | VDict _ => json_ascii v | _ => Ok (py_str v) end.
Definition param_line (kv : string * pyval) : res string :=
  t <-! param_text kv.2 ;; Ok ("<parameter=" +:+ kv.1 +:+ ">" +:+ t +:+ "</parameter>" +:+ newline).

Definition convert_tool_call_to_string (tool_call : pyval) : res string :=
  has_function <-! has_key tool_call "function" ;;
  if negb has_function then conversion_error "Tool call must contain 'function' key." else
  has_id <-! has_key tool_call "id" ;;
  if negb has_id then conversion_error "Tool call must contain 'id' key." else
  has_type <-! has_key tool_call "type" ;;
  if negb has_type then conversion_error "Tool call must contain 'type' key." else
  type <-! item tool_call "type" ;;
  if negb (py_eq type (VStr "function")) then conversion_error "Tool call type must be 'function'." else
  function <-! item tool_call "function" ;;
  name <-! item function "name" ;;
  arguments <-! item function "arguments" ;;
  match arguments with
  | VStr text =>
      match json_loads text with
      | None => conversion_error ("Failed to parse arguments as JSON. Arguments: " +:+ text)
      | Some (VDict args) => lines <-! rmap param_line args ;; Ok ("<function=" +:+ py_str name +:+ ">" +:+ newline +:+ join "" lines +:+ "</function>")
      | Some v => Raise (no_attribute v "items")
      end
  | _ => Raise (TypeError ("the JSON object must be str, bytes or bytearray, not " +:+ type_name arguments))
  end.

(** What becomes of the content of a system message. *)
Definition system_content (suffix : string) (content : pyval) : res pyval :=
  match content with
  | VStr s => Ok (VStr (s +:+ suffix))
  | VList l =>
      b <-! last_is_text l ;;
      if b then l' <-! edit_last (edit_text (fun t => add_text t suffix)) l ;; Ok (VList l')
      else Ok (VList (l ++ [text_part suffix]))
  | _ => unexpected_content content
  end.

(** [example + t + IN_CONTEXT_LEARNING_EXAMPLE_SUFFIX] *)
Definition with_example (example : string) (t : pyval) : res pyval :=
  match t with
  | VStr s => Ok (VStr (example +:+ s +:+ IN_CONTEXT_LEARNING_EXAMPLE_SUFFIX))
  | _ => Raise (TypeError ("can only concatenate str (not '" +:+ type_name t +:+ "') to str"))
  end.
(** The first user message: the converted content, and the content that the
    message itself is left with. *)
Definition first_user_content (example : string) (content : pyval) : res (pyval * pyval) :=
  match content with
  | VStr s => Ok (VStr (example +:+ s +:+ IN_CONTEXT_LEARNING_EXAMPLE_SUFFIX), content)
  | VList l =>
      b <-! (match l with [] => Ok false | x :: _ => text_item x end) ;;
      match l with
      | x :: r => if b then x' <-! edit_text (with_example example) x ;; Ok (VList (x' :: r), VList (x' :: r))
                  else Ok (VList (text_part example :: l ++ [text_part IN_CONTEXT_LEARNING_EXAMPLE_SUFFIX]), content)
      | [] => Ok (VList [text_part example; text_part IN_CONTEXT_LEARNING_EXAMPLE_SUFFIX], content)
      end
  | _ => unexpected_content content
  end.

Definition blank_line : string := newline +:+ newline.
Definition call_content (tool_content : string) (content : pyval) : res pyval :=
  match content with
  | VStr s => Ok (VStr (lstrip (s +:+ blank_line +:+ tool_content)))
  | VList l =>
      b <-! last_is_text l ;;
      if b then l' <-! edit_last (edit_text (fun t => t <-! add_text t (blank_line +:+ tool_content) ;; text_method "lstrip" lstrip t)) l ;; Ok (VList l')
      else Ok (VList (l ++ [text_part tool_content]))
  | _ => unexpected_content content
  end.

(** The first item of type text, edited in place; [None] when there is none. *)
Fixpoint edit_first_text (f : pyval -> res pyval) (l : list pyval) : res (option (list pyval)) :=
  match l with
  | [] => Ok None
  | x :: l =>
      b <-! text_item x ;;
      if b then x' <-! edit_text f x ;; Ok (Some (x' :: l))
      else o <-! edit_first_text f l ;; Ok (option_map (cons x) o)
  end.
Definition prefix_text (prefix : string) (t : pyval) : res pyval :=
  match t with
  | VStr s => Ok (VStr (prefix +:+ s))
  | _ => Raise (TypeError ("can only concatenate str (not '" +:+ type_name t +:+ "') to str"))
  end.
Definition ephemeral : pyval := VDict [("type", VStr "ephemeral")].
(** The result of a tool: again both contents.  The cache mark goes to the last item,
    which is an item of the message itself unless its content was empty. *)
Definition tool_content (tool_name : string) (cached : bool) (content : pyval) : res (pyval * pyval) :=
  let prefix := "EXECUTION RESULT of [" +:+ tool_name +:+ "]:" +:+ newline in
  let mark l := if cached then edit_last (fun x => set_item x "cache_control" ephemeral) l else Ok l in
  match content with
  | VStr s => if cached then Raise (TypeError "'str' object does not support item assignment") else Ok (VStr (prefix +:+ s), content)
  | VList l =>
      o <-! edit_first_text (prefix_text prefix) l ;;
      match o with
      | Some l => l <-! mark l ;; Ok (VList l, VList l)
      | None => out <-! mark (text_part prefix :: l) ;; Ok (VList out, VList (drop 1 out))
      end
  | _ => unexpected_content content
  end.

Section to_text.
Context (windows : bool) (tools : list Tool) (system_prompt_suffix : string) (add_in_context_learning_example : bool).

(** One assistant message; [raw] are the messages at this point. *)
Definition convert_assistant (raw : list message) (m : message) (content : pyval) : res pyval :=
  match default VNone (dget m "tool_calls") with
  | VNone => Ok content
  | calls =>
      l <-! (match calls with
             | VList l | VTuple l => Ok l
             | VStr s => Ok (chars s)
             | VDict [_] => Raise (KeyError "0")
             | VDict d => Ok (map snd d)
             | _ => Raise (TypeError ("object of type '" +:+ type_name calls +:+ "' has no len()"))
             end) ;;
      match l with
      | [call] =>
          match convert_tool_call_to_string call with
          | Ok s => call_content s content
          | Raise (OtherError "FunctionCallConversionError" _) =>
              text <-! json_indent 0 (VList (map VDict raw)) ;;
              conversion_error ("Failed to convert tool call to string." +:+ newline +:+ "Current tool call: " +:+ py_str call
                                +:+ "." +:+ newline +:+ "Raw messages: " +:+ text)
          | Raise e => Raise e
          end
      | _ => conversion_error ("Expected exactly one tool call in the message. More than one tool call is not supported. But got "
                               +:+ str_of_Z (Z.of_nat (length l)) +:+ " tool calls. Content: " +:+ py_str content)
      end
  end.

(** One message: the converted one, the message as it is left, and whether a first
    user message has been met. *)
Definition convert_fncall_message (raw : list message) (first : bool) (m : message) : res (message * message * bool) :=
  role <-! get m "role" ;;
  content <-! get m "content" ;;
  let out r c := [("role", VStr r); ("content", c)] in
  (* the message after its content list was changed in place *)
  let left c := match content with VList _ => dset m "content" c | _ => m end in
  if py_eq role (VStr "system") then
    c <-! system_content system_prompt_suffix content ;; Ok (out "system" c, left c, first)
  else if py_eq role (VStr "user") then
    if negb first && add_in_context_learning_example then
      match IN_CONTEXT_LEARNING_EXAMPLE_PREFIX windows tools with
      | EmptyString => Ok (out "user" content, m, true)
      | example => cc <-! first_user_content example content ;; Ok (out "user" cc.1, left cc.2, true)
      end
    else Ok (out "user" content, m, first)
  else if py_eq role (VStr "assistant") then
    c <-! convert_assistant raw m content ;; Ok (out "assistant" c, left c, first)
  else if py_eq role (VStr "tool") then
    cc <-! tool_content (py_str (default (VStr "function") (dget m "name"))) (dmem m "cache_control") content ;;
    Ok (out "user" cc.1, left cc.2, first)
  else conversion_error ("Unexpected role " +:+ py_str role +:+ ". Expected system, user, assistant or tool.").

Fixpoint convert_fncall_from (done : list message) (first : bool) (messages : list message) : res (list message) :=
  match messages with
  | [] => Ok []
  | m :: rest =>
      r <-! convert_fncall_message (done ++ m :: rest) first m ;;
      outs <-! convert_fncall_from (done ++ [r.1.2]) r.2 rest ;;
      Ok (r.1.1 :: outs)
  end.
End to_text.

Definition convert_fncall_messages_to_non_fncall_messages (windows : bool) (messages : list message) (tools : list Tool)
    (add_in_context_learning_example : bool) : res (list message) :=
  formatted_tools <-! convert_tools_to_description tools ;;
  convert_fncall_from windows tools (FnCallText.system_prompt_suffix formatted_tools) add_in_context_learning_example [] false messages.

(** ** From text *)

Definition FN_REGEX : re :=
  Seq (word "<function=") (Seq (Grp 1 (Plus true (Set_ (fun c => negb (is_c 62 c)))))
    (Seq (word (">" +:+ newline)) (Seq (Grp 2 (Star false AnyChar)) (word "</function>")))).
Definition FN_PARAM_REGEX : re :=
  Seq (word "<parameter=") (Seq (Grp 1 (Plus true (Set_ (fun c => negb (is_c 62 c)))))
    (Seq (word ">") (Seq (Grp 2 (Star false AnyChar)) (word "</parameter>")))).
Definition TOOL_RESULT_REGEX : re :=
  Seq (word "EXECUTION RESULT of [") (Seq (Seq (Grp 1 (Star false AnyChar)) (word ("]:" +:+ newline))) (Grp 2 (Star true AnyChar))).
Definition is_name_char (c : ascii) : bool := in_range 97 122 c || in_range 65 90 c || in_range 48 57 c || is_c 95 c.
Definition MALFORMED_PARAM : re :=
  Seq (word "<parameter=") (Seq (Grp 1 (Plus true (Set_ is_name_char)))
    (Seq (word "=") (Seq (Grp 2 (Star true (Set_ (fun c => negb (is_c 60 c))))) (word "</parameter>")))).

Definition _normalize_parameter_tags (fn_body : string) : string :=
  re_sub MALFORMED_PARAM (fun cs => "<parameter=" +:+ group 1 cs +:+ ">" +:+ group 2 cs +:+ "</parameter>") fn_body.

(** [s.count(sub) == 1] *)
Definition occurs_once (sub s : string) : bool :=
  match split_once sub s with Some (_, r) => negb (contains sub r) | None => false end.
Definition _fix_stopword (content : string) : string :=
  if occurs_once "<function=" content then
    if endswith content "</" then rstrip content +:+ "function>" else content +:+ newline +:+ "</function>"
  else content.
(** [_fix_stopword(v)] for any value *)
Definition fix_stopword_value (v : pyval) : res pyval :=
  match v with
  | VStr s => Ok (VStr (_fix_stopword s))
  | _ =>
      found <-! has_key v "<function=" ;;
      match v with
      | VList l | VTuple l => if (length (List.filter (py_eq (VStr "<function=")) l) =? 1)%nat then Raise (no_attribute v "endswith") else Ok v
      | _ => if found then Raise (no_attribute v "count") else Ok v
      end
  end.
(** [s.split(sep)[0]] and [s.replace(old, '', 1)] *)
Definition split_first (sep s : string) : string := match split_once sep s with Some (u, _) => u | None => s end.
Definition remove_first (old s : string) : string := match split_once old s with Some (u, v) => u +:+ v | None => s end.

(** *** The parameters of a call *)

Section params.
Context (repr_set : list string -> string).

(** The value of a parameter of the given type. *)
Definition typed_value (type : pyval) (param_name param_value : string) : res pyval :=
  if py_eq type (VStr "integer") then
    match int_of_str param_value with
    | Ok z => Ok (VInt z)
    | Raise _ => validation_error ("Parameter '" +:+ param_name +:+ "' is expected to be an integer.")
    end
  else if py_eq type (VStr "array") then
    match json_loads param_value with
    | Some v => Ok v
    | None => validation_error ("Parameter '" +:+ param_name +:+ "' is expected to be an array.")
    end
  else Ok (VStr param_value).

(** [matching_tool['parameters']['properties'][param_name]] *)
Definition param_info (t : Tool) (param_name : string) : res ParamInfo :=
  match fn_parameters t with
  | None => Raise (KeyError "parameters")
  | Some p => match properties p with
              | None => Raise (KeyError "properties")
              | Some d => match dget d param_name with Some i => Ok i | None => Raise (KeyError param_name) end
              end
  end.
Definition known_params (t : Tool) : dict string ParamInfo := default [] (fn_parameters t ≫= properties).
Definition required_params (t : Tool) : list string := default [] (fn_parameters t ≫= required).

Definition convert_param (t : Tool) (name : string) (cs : caps) : res (string * pyval) :=
  let param_name := group 1 cs in
  let allowed_params := dkeys (known_params t) in
  if bool_decide (allowed_params <> []) && negb (bool_decide (param_name ∈ allowed_params)) then
    validation_error ("Parameter '" +:+ param_name +:+ "' is not allowed for function '" +:+ name +:+ "'. "
                      +:+ "Allowed parameters: " +:+ repr_set allowed_params)
  else
  param_value <-! (match dget (known_params t) param_name with
                   | Some i => typed_value (default (VStr "string") (p_type i)) param_name (group 2 cs)
                   | None => Ok (VStr (group 2 cs))
                   end) ;;
  info <-! param_info t param_name ;;
  match p_enum info with
  | Some values =>
      if existsb (py_eq param_value) values then Ok (param_name, param_value)
      else validation_error ("Parameter '" +:+ param_name +:+ "' is expected to be one of " +:+ py_repr (VList values) +:+ ".")
  | None => Ok (param_name, param_value)
  end.

Fixpoint collect_params (t : Tool) (name : string) (params : dict string pyval) (matches : list caps) : res (dict string pyval) :=
  match matches with
  | [] => Ok params
  | cs :: matches => kv <-! convert_param t name cs ;; collect_params t name (dset params kv.1 kv.2) matches
  end.
Definition _extract_and_validate_params (t : Tool) (matches : list caps) (name : string) : res (dict string pyval) :=
  params <-! collect_params t name [] matches ;;
  match List.filter (fun k => negb (dmem params k)) (remove_dups (required_params t)) with
  | [] => Ok params
  | missing => validation_error ("Missing required parameters for function '" +:+ name +:+ "': " +:+ repr_set missing)
  end.
End params.

(** *** The messages *)

Section from_text.
Context (windows : bool) (repr_set : list string -> string) (tools : list Tool) (system_prompt_suffix : string).

Definition strip_system_suffix (t : pyval) : res pyval := text_method "split" (split_first system_prompt_suffix) t.
Definition plain_system_content (content : pyval) : res pyval :=
  match content with
  | VStr s => strip_system_suffix content
  | VList l => b <-! last_is_text l ;; if b then l' <-! edit_last (edit_text strip_system_suffix) l ;; Ok (VList l') else Ok content
  | _ => Ok content
  end.

Definition without_example (s : string) : string :=
  let example := IN_CONTEXT_LEARNING_EXAMPLE_PREFIX windows tools in
  let s := if startswith example s then remove_first example s else s in
  if endswith s IN_CONTEXT_LEARNING_EXAMPLE_SUFFIX then remove_first IN_CONTEXT_LEARNING_EXAMPLE_SUFFIX s else s.
Definition plain_first_content (content : pyval) : res pyval :=
  match content with
  | VStr s => Ok (VStr (without_example s))
  | VList l =>
      l' <-! traverse (fun x => b <-! text_item x ;; if b then edit_text (text_method "startswith" without_example) x else Ok x) l ;;
      Ok (VList l')
  | _ => unexpected_content content
  end.

(** [re.search(r, v)] for any value *)
Definition search_value (r : re) (v : pyval) : res (option caps) :=
  match v with VStr s => Ok (find_match r s) | _ => Raise (TypeError ("expected string or bytes-like object, got '" +:+ type_name v +:+ "'")) end.
(** The match in the first item of type text that has one. *)
Fixpoint search_items (r : re) (l : list pyval) : res (option caps) :=
  match l with
  | [] => Ok None
  | x :: l =>
      b <-! text_get x ;;
      if b then t <-! item x "text" ;; o <-! search_value r t ;; match o with Some cs => Ok (Some cs) | None => search_items r l end
      else search_items r l
  end.
Definition tool_call_id (n : Z) : string := "toolu_" +:+ zfill 2 (str_of_Z n).

Definition user_message (counter : Z) (content : pyval) : res message :=
  result <-! (match content with
              | VStr s => Ok (find_match TOOL_RESULT_REGEX s)
              | VList l => search_items TOOL_RESULT_REGEX l
              | _ => unexpected_content content
              end) ;;
  match result with
  | None => Ok [("role", VStr "user"); ("content", content)]
  | Some cs =>
      let tool_result := strip (group 2 cs) in
      tool_content <-! (match content with VList l => _ <-! traverse text_get l ;; Ok (VList [text_part tool_result]) | _ => Ok (VStr tool_result) end) ;;
      Ok [("role", VStr "tool"); ("name", VStr (group 1 cs)); ("content", tool_content); ("tool_call_id", VStr (tool_call_id (counter - 1)))]
  end.

(** The call in the content of an assistant message, and the content with the stop
    word restored. *)
Definition assistant_match (content : pyval) : res (option caps * pyval) :=
  match content with
  | VStr s => let s := _fix_stopword s in Ok (find_match FN_REGEX s, VStr s)
  | VList l =>
      b <-! last_is_text l ;;
      l <-! (if b then edit_last (edit_text fix_stopword_value) l else Ok l) ;;
      fn_match <-! (if b then t <-! item (List.last l VNone) "text" ;; search_value FN_REGEX t else Ok None) ;;
      anywhere <-! search_items FN_REGEX l ;;
      match anywhere, fn_match with
      | Some _, None => conversion_error ("Expecting function call in the LAST index of content list. But got content=" +:+ py_str (VList l))
      | _, _ => Ok (fn_match, VList l)
      end
  | _ => unexpected_content content
  end.
Definition before_call (s : string) : string := strip (split_first "<function=" s).
Definition content_before_call (content : pyval) : res pyval :=
  match content with
  | VStr s => Ok (VStr (before_call s))
  | VList l => l' <-! edit_last (edit_text (text_method "split" before_call)) l ;; Ok (VList l')
  | _ => unexpected_content content
  end.

Definition read_call (counter : Z) (cs : caps) : res pyval :=
  let name := group 1 cs in
  let fn_body := _normalize_parameter_tags (group 2 cs) in
  match List.find (fun t => is_function t && String.eqb (fn_name t) name) tools with
  | None => validation_error ("Function '" +:+ name +:+ "' not found in available tools: "
                              +:+ py_repr (VList (map (fun t => VStr (fn_name t)) (List.filter is_function tools))))
  | Some matching_tool =>
      params <-! _extract_and_validate_params repr_set matching_tool (finditer FN_PARAM_REGEX fn_body) name ;;
      arguments <-! json_ascii (VDict params) ;;
      Ok (VDict [("index", VInt 1); ("id", VStr (tool_call_id counter)); ("type", VStr "function");
                 ("function", VDict [("name", VStr name); ("arguments", VStr arguments)])])
  end.

(** An assistant message; the content of the message itself changes with its list. *)
Definition assistant_message (counter : Z) (m : message) (content : pyval) : res (message * Z) :=
  r <-! assistant_match content ;;
  match r.1 with
  | Some cs =>
      call <-! read_call counter cs ;;
      c <-! content_before_call r.2 ;;
      Ok ([("role", VStr "assistant"); ("content", c); ("tool_calls", VList [call])], counter + 1)
  | None => Ok (match r.2 with VList _ => dset m "content" r.2 | _ => m end, counter)
  end.

Definition convert_non_fncall_message (st : Z * bool) (m : message) : res (message * (Z * bool)) :=
  let '(counter, first) := st in
  role <-! get m "role" ;;
  content <-! get m "content" ;;
  let content := if truth content then content else VStr "" in
  if py_eq role (VStr "system") then
    c <-! plain_system_content content ;; Ok ([("role", VStr "system"); ("content", c)], st)
  else if py_eq role (VStr "user") then
    c <-! (if first then Ok content else plain_first_content content) ;;
    out <-! user_message counter c ;; Ok (out, (counter, true))
  else if py_eq role (VStr "assistant") then
    out <-! assistant_message counter m content ;; Ok (out.1, (out.2, first))
  else conversion_error ("Unexpected role " +:+ py_str role +:+ ". Expected system, user, or assistant in non-function calling messages.").

Fixpoint convert_non_fncall_from (st : Z * bool) (messages : list message) : res (list message) :=
  match messages with
  | [] => Ok []
  | m :: messages =>
      r <-! convert_non_fncall_message st m ;;
      outs <-! convert_non_fncall_from r.2 messages ;;
      Ok (r.1 :: outs)
  end.
End from_text.

Definition convert_non_fncall_messages_to_fncall_messages (windows : bool) (repr_set : list string -> string)
    (messages : list message) (tools : list Tool) : res (list message) :=
  formatted_tools <-! convert_tools_to_description tools ;;
  convert_non_fncall_from windows repr_set tools (FnCallText.system_prompt_suffix formatted_tools) (1, false) messages.

(** ** One call per message *)

(** A key of [pending_tool_calls]: any hashable value. *)
Definition hashed (v : pyval) : res pyval :=
  match v with VList _ | VDict _ => Raise (TypeError ("unhashable type: '" +:+ type_name v +:+ "'")) | _ => Ok v end.
Notation pending := (list (pyval * message)) (only parsing).
Fixpoint pending_set (p : pending) (k : pyval) (m : message) : pending :=
  match p with
  | [] => [(k, m)]
  | (k', m') :: p => if py_eq k' k then (k', m) :: p else (k', m') :: pending_set p k m
  end.
Fixpoint pending_pop (p : pending) (k : pyval) : option (message * pending) :=
  match p with
  | [] => None
  | (k', m) :: p => if py_eq k' k then Some (m, p) else '(m', p') ← pending_pop p k; Some (m', (k', m) :: p')
  end.
(** The values over which [for] and [len] go. *)
Definition sequence (v : pyval) : res (list pyval) :=
  match v with
  | VList l | VTuple l => Ok l
  | VStr s => Ok (chars s)
  | VDict d => Ok (map (fun kv => VStr kv.1) d)
  | _ => Raise (TypeError ("object of type '" +:+ type_name v +:+ "' has no len()"))
  end.
Fixpoint split_calls (content : pyval) (i : nat) (calls : list pyval) (p : pending) : res pending :=
  match calls with
  | [] => Ok p
  | call :: calls =>
      id <-! item call "id" ;;
      id <-! hashed id ;;
      split_calls content (S i) calls
        (pending_set p id [("role", VStr "assistant"); ("content", if (i =? 0)%nat then content else VStr ""); ("tool_calls", VList [call])])
  end.
Definition pending_repr (p : pending) : string :=
  "pending_tool_calls={" +:+ join ", " (map (fun kv => py_repr kv.1 +:+ ": " +:+ py_repr (VDict kv.2)) p) +:+ "}".

(** One message: the messages that it adds, and the calls that wait for a result. *)
Definition split_message (p : pending) (m : message) : res (list message * pending) :=
  role <-! get m "role" ;;
  content <-! get m "content" ;;
  if py_eq role (VStr "assistant") then
    let calls := default VNone (dget m "tool_calls") in
    l <-! (if truth calls then sequence calls else Ok []) ;;
    if (1 <? length l)%nat then p <-! split_calls content 0 l p ;; Ok ([], p) else Ok ([m], p)
  else if py_eq role (VStr "tool") then
    id <-! get m "tool_call_id" ;;
    id <-! hashed id ;;
    match pending_pop p id with
    | Some (call, p) => Ok ([call; m], p)
    | None => match p with [] => Ok ([m], p) | _ => assertion_error ("Found pending tool calls but not found in pending list: " +:+ pending_repr p) end
    end
  else match p with
       | [] => Ok ([m], p)
       | _ => assertion_error ("Found pending tool calls but not expect to handle it with role " +:+ py_str role
                               +:+ ": " +:+ pending_repr p +:+ ", message=" +:+ py_repr (VDict m))
       end.
Fixpoint split_from (p : pending) (messages : list message) : res (list message * pending) :=
  match messages with
  | [] => Ok ([], p)
  | m :: messages => r <-! split_message p m ;; r' <-! split_from r.2 messages ;; Ok (r.1 ++ r'.1, r'.2)
  end.
Definition convert_from_multiple_tool_calls_to_single_tool_call_messages (messages : list message) (ignore_final_tool_result : bool)
    : res (list message) :=
  r <-! split_from [] messages ;;
  match r.2 with
  | (_ :: _) as p =>
      if ignore_final_tool_result then Ok r.1
      else conversion_error ("Found pending tool calls but no tool result: " +:+ pending_repr p)
  | [] => Ok r.1
  end.
