(* ===== verification/FnCallRoundtrip.v ===== *)
(** * Function calls written as text are read back

    A conversation of system, user and assistant messages, calls of declared tools
    and their results is converted to text and back without a change
    ([calls_survive_the_text]), when no text holds the marks of the format and each
    argument fits the type that its tool declares. *)

From S2P Require Import Prelude PyStr PyDict PyFloat PyVal PyRegex PyJson RegexFind EventStore EventLog FnCallText FnCall.
From Stdlib Require Import Ascii.

(** ** Conversations *)

Inductive entry :=
  | System (s : string)
  | User (s : string)
  | Say (s : string)
  | Call (s name : string) (args : dict string pyval)
  | Result (name s : string).

Definition json_text (v : pyval) : string := match json_ascii v with Ok t => t | Raise _ => "" end.
Definition call_value (counter : Z) (name arguments : string) : pyval :=
  VDict [("index", VInt 1); ("id", VStr (tool_call_id counter)); ("type", VStr "function");
         ("function", VDict [("name", VStr name); ("arguments", VStr arguments)])].
Definition entry_message (counter : Z) (e : entry) : dict string pyval :=
  match e with
  | System s => [("role", VStr "system"); ("content", VStr s)]
  | User s => [("role", VStr "user"); ("content", VStr s)]
  | Say s => [("role", VStr "assistant"); ("content", VStr s)]
  | Call s name args =>
      [("role", VStr "assistant"); ("content", VStr s); ("tool_calls", VList [call_value counter name (json_text (VDict args))])]
  | Result name s =>
      [("role", VStr "tool"); ("name", VStr name); ("content", VStr s); ("tool_call_id", VStr (tool_call_id (counter - 1)))]
  end.
Definition calls_after (counter : Z) (e : entry) : Z := match e with Call _ _ _ => counter + 1 | _ => counter end.
Fixpoint entry_messages (counter : Z) (l : list entry) : list (dict string pyval) :=
  match l with [] => [] | e :: l => entry_message counter e :: entry_messages (calls_after counter e) l end.

(** *** Which conversations *)

(** A value of the type that a parameter declares. *)
Inductive fits (type : pyval) : pyval -> Prop :=
  | fits_text s : py_eq type (VStr "integer") = false -> py_eq type (VStr "array") = false -> fits type (VStr s)
  | fits_int z : py_eq type (VStr "integer") = true -> - 2 ^ 64 < z < 2 ^ 64 -> fits type (VInt z)
  | fits_list l : py_eq type (VStr "integer") = false -> py_eq type (VStr "array") = true -> plain (VList l) -> fits type (VList l).

Definition unmarked (x : string) : Prop :=
  contains "</parameter>" x = false /\ contains "</function>" x = false /\ contains "<parameter=" x = false.
Record arg_ok (t : Tool) (kv : string * pyval) (x : string) : Prop := {
  arg_name : kv.1 <> "" /\ sall is_name_char kv.1 = true;
  arg_text : param_text kv.2 = Ok x;
  arg_unmarked : unmarked x;
  arg_declared : exists i, dget (known_params t) kv.1 = Some i /\ fits (default (VStr "string") (p_type i)) kv.2 /\
                           forall values, p_enum i = Some values -> existsb (py_eq kv.2) values = true;
}.
Definition declared (tools : list Tool) (name : string) : option Tool :=
  List.find (fun t => is_function t && String.eqb (fn_name t) name) tools.
Definition call_ok (tools : list Tool) (name : string) (args : dict string pyval) : Prop :=
  name <> "" /\ sall (fun c => negb (is_c 62 c)) name = true /\
  exists t xs, declared tools name = Some t /\ Forall2 (arg_ok t) args xs /\ NoDup (map fst args) /\
               forall k, k ∈ required_params t -> k ∈ map fst args.

Definition stripped (s : string) : Prop := strip s = s.
Definition result_mark : string := "EXECUTION RESULT of [".
Definition entry_ok (tools : list Tool) (suffix : string) (first : bool) (e : entry) : Prop :=
  match e with
  | System s => clear suffix s suffix = true
  | User s => contains result_mark s = false /\
              (first = false -> clear IN_CONTEXT_LEARNING_EXAMPLE_SUFFIX s IN_CONTEXT_LEARNING_EXAMPLE_SUFFIX = true /\
                                endswith s IN_CONTEXT_LEARNING_EXAMPLE_SUFFIX = false)
  | Say s => contains "<function=" s = false
  | Call s name args => stripped s /\ contains "<function=" s = false /\ call_ok tools name args
  | Result name s => first = true /\ stripped s /\ contains ("]:" +:+ newline) name = false
  end.
Definition met_user (first : bool) (e : entry) : bool := match e with User _ => true | _ => first end.
Fixpoint conversation_ok (tools : list Tool) (suffix : string) (first : bool) (l : list entry) : Prop :=
  match l with [] => True | e :: l => entry_ok tools suffix first e /\ conversation_ok tools suffix (met_user first e) l end.

(** ** The text of a call *)

Definition block (kx : string * string) : string := "<parameter=" +:+ kx.1 +:+ ">" +:+ kx.2 +:+ "</parameter>" +:+ newline.
Fixpoint body (kxs : list (string * string)) : string := match kxs with [] => "" | kx :: r => block kx +:+ body r end.
Definition open_call (name : string) (kxs : list (string * string)) : string :=
  "<function=" +:+ name +:+ ">" +:+ newline +:+ body kxs.
Definition call_text (name : string) (kxs : list (string * string)) : string := open_call name kxs +:+ "</function>".
Definition block_ok (kx : string * string) : Prop := (kx.1 <> "" /\ sall is_name_char kx.1 = true) /\ unmarked kx.2.

Lemma name_char_free c k : is_name_char c = false -> sall is_name_char k = true -> sexists (is_char c) k = false.
Proof.
  intros Hc. induction k as [|d k IH]; [done|]. cbn [sall sexists]. intros [Hd Hk]%andb_true_iff. rewrite IH by done.
  unfold is_char. destruct (Ascii.eqb_spec c d) as [->|]; [congruence|done].
Qed.

(** A block followed by anything holds a mark only where it is written. *)
Lemma clear_value w k x t : match w with String c w' => is_name_char c = false /\ c <> ">"%char /\ c <> "="%char | _ => False end ->
  apart w "<" = true -> sall is_name_char k = true -> contains w x = false -> clear w (k +:+ ">" +:+ x) (String "<" t) = true.
Proof.
  intros Hc Hw Hk Hx. destruct w as [|c w]; [done|]. destruct Hc as (Hc & Hgt & _). rewrite clear_app, andb_true_iff. split.
  - apply clear_free. by apply name_char_free.
  - change (">" +:+ x) with (String ">" x). apply clear_cons. split.
    + apply not_true_iff_false. intros (y & E)%prefix_spec. injection E as E _. done.
    + apply clear_apart; [by destruct w|done].
Qed.
Lemma clear_function_block kx t : block_ok kx -> clear "</function>" (block kx) t = true.
Proof.
  intros [[_ Hk] (_ & Hx & _)]. unfold block. rewrite <- (sapp_assoc kx.1), <- (sapp_assoc (kx.1 +:+ _)), (sapp_assoc kx.1).
  rewrite clear_app, andb_true_iff. split; [reflexivity|]. rewrite clear_app, andb_true_iff. split; [|reflexivity].
  rewrite sapp_assoc. change ("</parameter>" +:+ ?y) with (String "<" ("/parameter>" +:+ y)). by apply clear_value.
Qed.
Lemma clear_function_body kxs t : Forall block_ok kxs -> clear "</function>" (body kxs) t = true.
Proof.
  induction 1 as [|kx kxs Hkx _ IH]; [done|]. cbn [body]. rewrite clear_app, andb_true_iff. split; [by apply clear_function_block|done].
Qed.
(** After its first character, no further block starts in a block. *)
Lemma clear_param_block kx t : block_ok kx ->
  clear "<parameter=" ("parameter=" +:+ kx.1 +:+ ">" +:+ kx.2 +:+ "</parameter>" +:+ newline) t = true.
Proof.
  intros [[_ Hk] (_ & _ & Hx)]. rewrite <- (sapp_assoc kx.1), <- (sapp_assoc (kx.1 +:+ _)), (sapp_assoc kx.1).
  rewrite clear_app, andb_true_iff. split; [reflexivity|]. rewrite clear_app, andb_true_iff. split; [|reflexivity].
  rewrite sapp_assoc. change ("</parameter>" +:+ ?y) with (String "<" ("/parameter>" +:+ y)). by apply clear_value.
Qed.
Lemma name_not_gt k : sall is_name_char k = true -> sall (fun c => negb (is_c 62 c)) k = true.
Proof. apply sall_impl. intros c. destruct c as [[][][][][][][][]]; vm_compute; done. Qed.

Definition param_caps (kx : string * string) : caps := [(2%nat, kx.2); (1%nat, kx.1)].
Lemma leads_param prev kx t : block_ok kx ->
  exists prev', leads FN_PARAM_REGEX ((prev, block kx +:+ t), []) ((prev', newline +:+ t), param_caps kx).
Proof.
  intros [[Hne Hk] (Hx & _ & _)]. eexists. unfold FN_PARAM_REGEX, block. rewrite !sapp_assoc.
  eapply leads_seq; [apply leads_word|]. eapply leads_seq.
  { apply leads_group, leads_plus; [done|by apply name_not_gt|done]. }
  eapply leads_seq; [apply (leads_word ">")|]. apply leads_lazy. by apply clear_apart.
Qed.
Lemma find_params kxs tail : contains "<parameter=" tail = false -> Forall block_ok kxs -> forall fuel prev u, (length kxs < fuel)%nat ->
  clear "<parameter=" u (body kxs +:+ tail) = true -> find_all fuel FN_PARAM_REGEX prev (u +:+ body kxs +:+ tail) = map param_caps kxs.
Proof.
  intros Ht. induction 1 as [|kx kxs Hkx Hall IH]; intros fuel prev u Hf Hu; (destruct fuel as [|f]; [cbn in Hf; lia|]); cbn [find_all body map].
  - unfold FN_PARAM_REGEX. rewrite find_clear by done. rewrite find_none; [done|done|]. by apply clear_contains.
  - cbn [body] in Hu. rewrite sapp_assoc in *. unfold FN_PARAM_REGEX at 1. rewrite find_clear by done. fold FN_PARAM_REGEX.
    destruct (leads_param (slast prev u) kx (body kxs +:+ tail) Hkx) as [prev' Hl]. rewrite (find_leads _ _ _ _ Hl).
    f_equal. apply IH; [cbn in Hf; lia|]. done.
Qed.
Lemma body_length kxs : (length kxs <= slen (body kxs))%nat.
Proof. induction kxs as [|kx kxs IH]; [done|]. cbn [body length]. rewrite slen_app. unfold block. cbn [String.length]. rewrite sapp_cons. cbn [String.length]. lia. Qed.
Lemma finditer_body kxs tail : contains "<parameter=" tail = false -> Forall block_ok kxs ->
  finditer FN_PARAM_REGEX (body kxs +:+ tail) = map param_caps kxs.
Proof.
  intros Ht H. unfold finditer. apply (find_params kxs tail Ht H _ None ""); [|done]. pose proof (body_length kxs). rewrite slen_app. lia.
Qed.

(** A well-formed block is not malformed. *)
Lemma block_not_malformed prev kx t : block_ok kx -> re_match MALFORMED_PARAM ((prev, block kx +:+ t), []) = [].
Proof.
  intros [[Hne Hk] _]. apply re_match_nil. intros q H. unfold MALFORMED_PARAM, block in H. rewrite !sapp_assoc in H.
  apply matches_seq in H as (q1 & H1 & H). apply matches_word in H1. cbn [snd] in H1. apply sapp_inj_l in H1.
  apply matches_seq in H as (q2 & H2 & H). apply matches_grp, matches_plus_set in H2 as (d & Ed & Hd & _).
  apply matches_seq in H as (q3 & H3 & _). apply matches_word in H3. rewrite H3 in Ed.
  rewrite <- H1 in Ed. change (">" +:+ ?x) with (String ">" x) in Ed. change ("=" +:+ ?x) with (String "=" x) in Ed.
  apply (span_inj is_name_char) in Ed as (_ & Ed & _); [discriminate Ed|done..].
Qed.
Lemma body_normal kxs tail : clear "<parameter=" tail "" = true -> Forall block_ok kxs ->
  _normalize_parameter_tags (body kxs +:+ tail) = body kxs +:+ tail.
Proof.
  intros Ht H. unfold _normalize_parameter_tags. apply re_sub_nomatch. unfold re_search. rewrite search_find.
  enough (forall prev, find_from MALFORMED_PARAM prev (body kxs +:+ tail) = None) as E by (by rewrite E).
  induction H as [|kx kxs Hkx _ IH]; intros prev; cbn [body].
  { unfold MALFORMED_PARAM. by rewrite find_none. }
  rewrite sapp_assoc.
  assert (block kx +:+ body kxs +:+ tail = String "<" (("parameter=" +:+ kx.1 +:+ ">" +:+ kx.2 +:+ "</parameter>" +:+ newline) +:+ body kxs +:+ tail)) as E.
  { unfold block. done. }
  pose proof (block_not_malformed prev kx (body kxs +:+ tail) Hkx) as Hn. rewrite E in *. rewrite find_skip by done.
  unfold MALFORMED_PARAM. rewrite find_clear by (by apply clear_param_block). apply IH.
Qed.

(** ** The call is found in its message *)

Definition closing (tail : string) : Prop := tail = "" \/ tail = newline +:+ "</function>".
Lemma find_call pre name kxs gap tail : clear "<function=" pre (open_call name kxs +:+ gap +:+ "</function>" +:+ tail) = true ->
  name <> "" -> sall (fun c => negb (is_c 62 c)) name = true -> Forall block_ok kxs -> clear "</function>" gap ("</function>" +:+ tail) = true ->
  find_match FN_REGEX (pre +:+ open_call name kxs +:+ gap +:+ "</function>" +:+ tail) = Some [(2%nat, body kxs +:+ gap); (1%nat, name)].
Proof.
  intros Hpre Hne Hgt Hk Hgap.
  assert (exists p, leads FN_REGEX ((slast None pre, open_call name kxs +:+ gap +:+ "</function>" +:+ tail), [])
                      (p, [(2%nat, body kxs +:+ gap); (1%nat, name)])) as [p Hl].
  { eexists. unfold FN_REGEX, open_call. rewrite !sapp_assoc. eapply leads_seq; [apply leads_word|].
    eapply leads_seq; [by apply leads_group, leads_plus|]. eapply leads_seq; [rewrite <- (sapp_assoc ">"); apply leads_word|].
    rewrite <- (sapp_assoc (body kxs)). apply leads_lazy. rewrite clear_app, Hgap, andb_true_r. by apply clear_function_body. }
  unfold find_match, FN_REGEX. rewrite find_clear by done. fold FN_REGEX. by rewrite (find_leads _ _ _ _ Hl).
Qed.
Lemma fix_stopword_tail s : exists tail, _fix_stopword (s +:+ "</function>") = s +:+ "</function>" +:+ tail.
Proof.
  unfold _fix_stopword. destruct (occurs_once _ _); [|exists ""; by rewrite sapp_nil_r].
  destruct (endswith (s +:+ "</function>") "</") eqn:E; [|by exists (newline +:+ "</function>"); rewrite sapp_assoc].
  exfalso. apply endswith_spec in E as (u & E). change "</function>" with ("</function" +:+ ">") in E. change "</" with ("<" +:+ "/") in E.
  rewrite <- !sapp_assoc in E. assert (slen (s +:+ "</function") = slen (u +:+ "<")) as Hl.
  { apply (f_equal slen) in E. rewrite !slen_app in *. cbn [String.length] in *. lia. }
  by apply sapp_inj_len in E as [_ E].
Qed.

Lemma lstrip_by_same p s : slen (lstrip_by p s) = slen s -> lstrip_by p s = s.
Proof.
  destruct s as [|c s]; [done|]. cbn [lstrip_by]. destruct (p c); [|done]. pose proof (lstrip_by_len p s). cbn [String.length]. lia.
Qed.
Lemma strip_edges s : stripped s -> lstrip s = s /\ rstrip s = s.
Proof.
  intros E. unfold stripped, strip in E. assert (lstrip s = s) as El; [|by rewrite El in E].
  apply lstrip_by_same. pose proof (lstrip_by_len is_space s). pose proof (rstrip_by_len is_space (lstrip s)).
  unfold rstrip, lstrip in *. rewrite E in *. lia.
Qed.
(** The text before the call. *)
Definition lead (s : string) : string := if String.eqb s "" then "" else s +:+ blank_line.
Lemma lstrip_id s r : stripped s -> s <> "" -> lstrip (s +:+ r) = s +:+ r.
Proof.
  intros [Hl _]%strip_edges Hne. destruct s as [|c s]; [done|]. pose proof (lstrip_by_head is_space (String c s)) as Hc.
  unfold lstrip in *. rewrite Hl in Hc. rewrite sapp_cons. cbn [lstrip_by]. by rewrite Hc.
Qed.
Lemma lstrip_call s name kxs : stripped s -> lstrip (s +:+ blank_line +:+ call_text name kxs) = lead s +:+ call_text name kxs.
Proof.
  intros Hs. unfold lead. destruct (String.eqb_spec s "") as [->|Hne]; [reflexivity|]. by rewrite lstrip_id, sapp_assoc.
Qed.
Lemma strip_lead s : stripped s -> strip (lead s) = s.
Proof.
  intros Hs. unfold lead. destruct (String.eqb_spec s "") as [->|Hne]; [done|]. unfold strip. rewrite lstrip_id by done.
  unfold rstrip. rewrite rstrip_by_app by done. apply strip_edges, Hs.
Qed.
Lemma clear_lead s name kxs tail : contains "<function=" s = false -> clear "<function=" (lead s) (open_call name kxs +:+ tail) = true.
Proof.
  intros Hs. unfold lead. destruct (String.eqb s ""); [done|]. rewrite clear_app, andb_true_iff. split; [|reflexivity].
  unfold blank_line. rewrite !sapp_assoc. change (newline +:+ ?y) with (String (chr 10) y). by apply clear_apart.
Qed.
Lemma before_call_text s name kxs tail : stripped s -> contains "<function=" s = false ->
  before_call (lead s +:+ open_call name kxs +:+ tail) = s.
Proof.
  intros Hs Hc. unfold before_call, split_first. pose proof (clear_lead s name kxs tail Hc) as H. unfold open_call in *.
  rewrite !sapp_assoc in *. rewrite split_once_clear by done. by apply strip_lead.
Qed.

(** ** The arguments are read back *)

Lemma int_of_str_opp z : 0 < z < 2 ^ 64 -> int_of_str (str_of_Z (- z)) = Ok (- z).
Proof.
  intros Hz. destruct (str_of_Z_digits z ltac:(lia)) as [Hd Hne]. pose proof (py_int_str z ltac:(lia)) as Hp.
  assert (str_of_Z (- z) = String "-" (str_of_Z z)) as ->.
  { unfold str_of_Z. destruct (Z.ltb_spec (- z) 0); [|lia]. destruct (Z.ltb_spec z 0); [lia|]. by rewrite Z.opp_involutive. }
  unfold int_of_str. rewrite strip_solid.
  - change (is_char "-" "-") with true. cbv iota. rewrite int_body_decimal by auto. rewrite decimal_no_underscore, Hp by done.
    reflexivity.
  - cbn [sall]. apply andb_true_iff. split; [done|]. revert Hd. apply sall_impl. intros [[][][][][][][][]]; by vm_compute.
Qed.
Lemma fits_reads type k v x : fits type v -> param_text v = Ok x -> typed_value type k x = Ok v.
Proof.
  intros [s H1 H2|z H1 Hz|l H1 H2 Hp]; unfold typed_value; rewrite H1, ?H2; cbn [param_text].
  - by intros [= <-].
  - intros [= <-]. cbn [py_str py_repr]. destruct (Z.ltb_spec z 0).
    + rewrite <- (Z.opp_involutive z), int_of_str_opp by lia. done.
    + by rewrite int_of_digits by lia.
  - intros E. destruct (json_loads_dumps _ Hp) as (t & Et & El). rewrite E in Et. injection Et as <-. by rewrite El.
Qed.

Definition arg_caps (args : dict string pyval) (xs : list string) : list (string * string) := zip (map fst args) xs.
Section arguments.
Context (repr_set : list string -> string) (t : Tool) (name : string).

Lemma args_blocks args xs : Forall2 (arg_ok t) args xs -> Forall block_ok (arg_caps args xs).
Proof. induction 1 as [|kv x args xs H _ IH]; [done|]. constructor; [|done]. by destruct H. Qed.
Lemma convert_arg kv x : arg_ok t kv x -> convert_param repr_set t name (param_caps (kv.1, x)) = Ok kv.
Proof.
  destruct kv as [k v]. intros [_ Hx _ (i & Hi & Hf & He)]. cbn [fst snd] in *. unfold convert_param.
  change (group 1 (param_caps (k, x))) with k. change (group 2 (param_caps (k, x))) with x.
  assert (k ∈ dkeys (known_params t)) as Hk by (apply dget_is_Some; by eexists).
  rewrite (bool_decide_true (k ∈ _)), andb_false_r by done. rewrite Hi, (fits_reads _ _ _ _ Hf Hx). cbn [rbind].
  assert (param_info t k = Ok i) as ->.
  { unfold param_info, known_params in *. destruct (fn_parameters t) as [p|]; [|done]. cbn in Hi.
    destruct (properties p) as [d|]; [|done]. cbn in Hi. by rewrite Hi. }
  cbn [rbind]. destruct (p_enum i) as [values|]; [|done]. by rewrite He.
Qed.
Lemma collect_args args xs : Forall2 (arg_ok t) args xs -> forall params, NoDup (map fst (params ++ args)) ->
  collect_params repr_set t name params (map param_caps (arg_caps args xs)) = Ok (params ++ args).
Proof.
  induction 1 as [|kv x args xs H _ IH]; intros params Hnd; [by rewrite app_nil_r|]. cbn [arg_caps zip map collect_params].
  change (zip_with pair (map fst args) xs) with (arg_caps args xs). rewrite (convert_arg _ _ H). cbn [rbind].
  rewrite dset_app, <- surjective_pairing.
  - rewrite IH; [by rewrite <- app_assoc|by rewrite <- app_assoc].
  - unfold dkeys. intros Hin. rewrite map_app in Hnd. apply NoDup_app in Hnd as (_ & Hdis & _). apply (Hdis _ Hin). by left.
Qed.
Lemma extract_args args xs : Forall2 (arg_ok t) args xs -> NoDup (map fst args) ->
  (forall k, k ∈ required_params t -> k ∈ map fst args) ->
  _extract_and_validate_params repr_set t (map param_caps (arg_caps args xs)) name = Ok args.
Proof.
  intros H Hnd Hreq. unfold _extract_and_validate_params. rewrite (collect_args _ _ H []) by done. cbn [rbind app].
  assert (List.filter (fun k => negb (dmem args k)) (remove_dups (required_params t)) = []) as ->; [|done].
  destruct (List.filter _ _) as [|k l] eqn:E; [done|]. exfalso. assert (In k (k :: l)) as Hk by (by left).
  rewrite <- E in Hk. apply filter_In in Hk as [Hk Hm]. apply negb_true_iff in Hm. apply not_true_iff_false in Hm.
  apply Hm, dmem_spec, Hreq. by apply elem_of_remove_dups, list_elem_of_In.
Qed.
End arguments.

Lemma args_plain t args xs : Forall2 (arg_ok t) args xs -> NoDup (map fst args) -> plain (VDict args).
Proof.
  intros H Hnd. constructor; [done|]. induction H as [|kv x args xs H _ IH]; constructor.
  - destruct H as [_ _ _ (i & _ & Hf & _)]. destruct Hf; [constructor|constructor|done].
  - apply IH. by inversion Hnd.
Qed.
Lemma args_lines t args xs : Forall2 (arg_ok t) args xs -> exists lines, rmap param_line args = Ok lines /\ join "" lines = body (arg_caps args xs).
Proof.
  induction 1 as [|kv x args xs H _ (lines & E & Ej)]; [by exists []|]. exists (block (kv.1, x) :: lines). cbn [rmap].
  unfold param_line at 1. rewrite (arg_text _ _ _ H). cbn [rbind]. rewrite E. split; [done|].
  cbn [arg_caps map zip body]. change (zip_with pair (map fst args) xs) with (arg_caps args xs). rewrite <- Ej.
  destruct lines; [by rewrite sapp_nil_r|]. by rewrite join_cons.
Qed.
Lemma call_to_text counter t name args xs : Forall2 (arg_ok t) args xs -> NoDup (map fst args) ->
  convert_tool_call_to_string (call_value counter name (json_text (VDict args))) = Ok (call_text name (arg_caps args xs)).
Proof.
  intros H Hnd. destruct (json_loads_dumps _ (args_plain _ _ _ H Hnd)) as (text & Et & El). unfold json_text. rewrite Et.
  destruct (args_lines _ _ _ H) as (lines & E & Ej).
  change (convert_tool_call_to_string (call_value counter name text)) with
    (match json_loads text with
     | None => conversion_error ("Failed to parse arguments as JSON. Arguments: " +:+ text)
     | Some (VDict args) => lines <-! rmap param_line args ;; Ok ("<function=" +:+ name +:+ ">" +:+ newline +:+ join "" lines +:+ "</function>")
     | Some v => Raise (no_attribute v "items")
     end).
  rewrite El, E. cbn [rbind]. unfold call_text, open_call. by rewrite Ej, !sapp_assoc.
Qed.

(** ** One message there and back *)

Section conversation.
Context (windows : bool) (repr_set : list string -> string) (tools : list Tool) (suffix : string).

Lemma read_call_text counter name args xs t gap : declared tools name = Some t -> Forall2 (arg_ok t) args xs -> NoDup (map fst args) ->
  (forall k, k ∈ required_params t -> k ∈ map fst args) -> contains "<parameter=" gap = false ->
  read_call repr_set tools counter [(2%nat, body (arg_caps args xs) +:+ gap); (1%nat, name)] =
  Ok (call_value counter name (json_text (VDict args))).
Proof.
  intros Ht H Hnd Hreq Hg. unfold read_call. change (group 1 _) with name. change (group 2 _) with (body (arg_caps args xs) +:+ gap).
  cbv zeta. unfold declared in Ht. rewrite Ht. pose proof (args_blocks _ _ _ H) as Hb.
  rewrite body_normal, finditer_body by (by apply clear_contains || done).
  rewrite (extract_args _ _ _ _ _ H) by done. cbn [rbind].
  destruct (json_loads_dumps _ (args_plain _ _ _ H Hnd)) as (text & Et & El). unfold json_text. by rewrite Et.
Qed.

Lemma remove_first_app old s : remove_first old (old +:+ s) = s.
Proof. unfold remove_first. by rewrite split_once_here. Qed.
Lemma remove_first_end old s : clear old s old = true -> remove_first old (s +:+ old) = s.
Proof.
  intros H. unfold remove_first. pose proof (split_once_clear old s "") as E. rewrite sapp_nil_r in E. rewrite E by done.
  by rewrite sapp_nil_r.
Qed.
Lemma example_roundtrip s : clear IN_CONTEXT_LEARNING_EXAMPLE_SUFFIX s IN_CONTEXT_LEARNING_EXAMPLE_SUFFIX = true ->
  without_example windows tools (IN_CONTEXT_LEARNING_EXAMPLE_PREFIX windows tools +:+ s +:+ IN_CONTEXT_LEARNING_EXAMPLE_SUFFIX) = s.
Proof.
  intros Hs. unfold without_example. rewrite startswith_app, remove_first_app.
  rewrite (proj2 (endswith_spec _ _)) by (by eexists). by apply remove_first_end.
Qed.
Lemma no_example_roundtrip s : IN_CONTEXT_LEARNING_EXAMPLE_PREFIX windows tools = "" ->
  endswith s IN_CONTEXT_LEARNING_EXAMPLE_SUFFIX = false -> without_example windows tools s = s.
Proof.
  intros Hp Hs. unfold without_example. rewrite Hp. pose proof (remove_first_app "" s) as E. rewrite sapp_nil_l in E. rewrite E.
  assert ((if startswith "" s then s else s) = s) as -> by (by destruct (startswith _ _)). by rewrite Hs.
Qed.

Lemma no_result s : contains result_mark s = false -> find_match TOOL_RESULT_REGEX s = None.
Proof. intros H. unfold find_match, TOOL_RESULT_REGEX. rewrite find_none; [done|done|]. by apply clear_contains. Qed.
Lemma no_call s : contains "<function=" s = false -> _fix_stopword s = s /\ find_match FN_REGEX s = None.
Proof.
  intros H. split.
  - unfold _fix_stopword, occurs_once. by rewrite split_once_none.
  - unfold find_match, FN_REGEX. rewrite find_none; [done|done|]. by apply clear_contains.
Qed.
Lemma find_result name s : contains ("]:" +:+ newline) name = false ->
  find_match TOOL_RESULT_REGEX ("EXECUTION RESULT of [" +:+ name +:+ "]:" +:+ newline +:+ s) = Some [(2%nat, s); (1%nat, name)].
Proof.
  intros H. assert (exists p, leads TOOL_RESULT_REGEX ((None, "EXECUTION RESULT of [" +:+ name +:+ "]:" +:+ newline +:+ s), [])
                               (p, [(2%nat, s); (1%nat, name)])) as [p Hl].
  { eexists. unfold TOOL_RESULT_REGEX. eapply leads_seq; [apply leads_word|]. eapply leads_seq.
    - rewrite <- (sapp_assoc "]:"). apply leads_lazy. by apply clear_apart.
    - rewrite <- (sapp_nil_r s) at 1. apply leads_group, leads_star; [|done]. clear. by induction s. }
  unfold find_match. by rewrite (find_leads _ _ _ _ Hl).
Qed.

(** The content of a message with text survives [content or '']. *)
Lemma kept s : (if truth (VStr s) then VStr s else VStr "") = VStr s.
Proof. cbn [truth]. by destruct (String.eqb_spec s "") as [->|]. Qed.

Definition said (role s : string) : dict string pyval := [("role", VStr role); ("content", VStr s)].
Lemma from_text st role s : convert_non_fncall_message windows repr_set tools suffix st (said role s) =
  if String.eqb role "system" then
    c <-! plain_system_content suffix (VStr s) ;; Ok ([("role", VStr "system"); ("content", c)], st)
  else if String.eqb role "user" then
    c <-! (if st.2 then Ok (VStr s) else plain_first_content windows tools (VStr s)) ;;
    out <-! user_message st.1 c ;; Ok (out, (st.1, true))
  else if String.eqb role "assistant" then
    out <-! assistant_message repr_set tools st.1 (said role s) (VStr s) ;; Ok (out.1, (out.2, st.2))
  else conversion_error ("Unexpected role " +:+ role +:+ ". Expected system, user, or assistant in non-function calling messages.").
Proof.
  destruct st as [counter first]. unfold convert_non_fncall_message. change (get (said role s) "role") with (Ok (VStr role)).
  change (get (said role s) "content") with (Ok (VStr s)). cbn [rbind]. rewrite kept. reflexivity.
Qed.
Lemma system_content_back s : clear suffix s suffix = true -> plain_system_content suffix (VStr (s +:+ suffix)) = Ok (VStr s).
Proof.
  intros H. unfold plain_system_content, strip_system_suffix, text_method, split_first.
  pose proof (split_once_clear suffix s "") as E. rewrite sapp_nil_r in E. by rewrite E.
Qed.

Definition there_and_back (counter : Z) (first : bool) (e : entry) : Prop :=
  forall raw, exists out left,
    convert_fncall_message windows tools suffix true raw first (entry_message counter e) = Ok (out, left, met_user first e) /\
    convert_non_fncall_message windows repr_set tools suffix (counter, first) out =
    Ok (entry_message counter e, (calls_after counter e, met_user first e)).

Lemma system_roundtrip counter first s : entry_ok tools suffix first (System s) -> there_and_back counter first (System s).
Proof.
  intros H raw. exists (said "system" (s +:+ suffix)). eexists. split; [reflexivity|]. rewrite from_text. cbn [String.eqb].
  change ("system" =? "system")%string with true. cbv iota. by rewrite system_content_back.
Qed.
Lemma user_back counter s : contains result_mark s = false -> user_message counter (VStr s) = Ok (said "user" s).
Proof. intros H. unfold user_message. cbn [rbind]. by rewrite no_result. Qed.
Lemma user_roundtrip counter first s : entry_ok tools suffix first (User s) -> there_and_back counter first (User s).
Proof.
  intros [Hm Hf] raw. set (example := IN_CONTEXT_LEARNING_EXAMPLE_PREFIX windows tools).
  assert (convert_fncall_message windows tools suffix true raw first (entry_message counter (User s)) =
          if first then Ok (said "user" s, said "user" s, true)
          else match example with
               | EmptyString => Ok (said "user" s, said "user" s, true)
               | _ => Ok (said "user" (example +:+ s +:+ IN_CONTEXT_LEARNING_EXAMPLE_SUFFIX), said "user" s, true)
               end) as ->.
  { unfold convert_fncall_message. change (get _ "role") with (Ok (VStr "user")). change (get _ "content") with (Ok (VStr s)).
    cbn [rbind]. change (py_eq (VStr "user") (VStr "system")) with false. change (py_eq (VStr "user") (VStr "user")) with true.
    cbv iota zeta. fold example. destruct first; [done|]. cbn [negb andb]. by destruct example. }
  destruct first.
  - do 2 eexists. split; [reflexivity|]. rewrite from_text. change ("user" =? "system")%string with false.
    change ("user" =? "user")%string with true. cbn [snd fst rbind]. by rewrite user_back.
  - destruct (Hf eq_refl) as [Hc He]. destruct example as [|c example'] eqn:Ee; (do 2 eexists; split; [reflexivity|]); rewrite from_text;
      change ("user" =? "system")%string with false; change ("user" =? "user")%string with true; cbn [snd fst plain_first_content rbind].
    + rewrite no_example_roundtrip by done. by rewrite user_back.
    + rewrite <- Ee. unfold example. rewrite example_roundtrip by done. by rewrite user_back.
Qed.
Lemma say_roundtrip counter first s : entry_ok tools suffix first (Say s) -> there_and_back counter first (Say s).
Proof.
  intros H raw. exists (said "assistant" s), (said "assistant" s). split; [reflexivity|]. rewrite from_text.
  change ("assistant" =? "system")%string with false. change ("assistant" =? "user")%string with false.
  change ("assistant" =? "assistant")%string with true. cbv iota. destruct (no_call s H) as [E1 E2].
  unfold assistant_message, assistant_match. rewrite E1. cbv zeta. rewrite E2. reflexivity.
Qed.
Lemma result_roundtrip counter first name s : entry_ok tools suffix first (Result name s) -> there_and_back counter first (Result name s).
Proof.
  intros (-> & Hs & Hn) raw. exists (said "user" ("EXECUTION RESULT of [" +:+ name +:+ "]:" +:+ newline +:+ s)). eexists.
  split.
  - unfold convert_fncall_message. change (get _ "role") with (Ok (VStr "tool")). change (get _ "content") with (Ok (VStr s)).
    cbn [rbind]. unfold tool_content. change (dmem _ "cache_control") with false.
    change (py_str (default _ (dget _ "name"))) with name. cbv iota zeta.
    change (py_eq (VStr "tool") (VStr "system")) with false. change (py_eq (VStr "tool") (VStr "user")) with false.
    change (py_eq (VStr "tool") (VStr "assistant")) with false. change (py_eq (VStr "tool") (VStr "tool")) with true. cbv iota zeta.
    cbn [rbind fst snd]. rewrite !sapp_assoc. reflexivity.
  - rewrite from_text. change ("user" =? "system")%string with false. change ("user" =? "user")%string with true.
    cbn [snd fst rbind]. unfold user_message. cbn [rbind]. rewrite find_result by done. change (group 2 _) with s. change (group 1 _) with name.
    cbn [rbind]. by rewrite Hs.
Qed.
(** The text of a call, as the stop word is restored in it; a newline may follow the
    arguments. *)
Lemma call_read counter m s name args t xs text gap tail : stripped s -> contains "<function=" s = false ->
  name <> "" -> sall (fun c => negb (is_c 62 c)) name = true -> declared tools name = Some t -> Forall2 (arg_ok t) args xs ->
  NoDup (map fst args) -> (forall k, k ∈ required_params t -> k ∈ map fst args) -> gap = "" \/ gap = newline ->
  _fix_stopword text = lead s +:+ open_call name (arg_caps args xs) +:+ gap +:+ "</function>" +:+ tail ->
  assistant_message repr_set tools counter m (VStr text) = Ok (entry_message counter (Call s name args), counter + 1).
Proof.
  intros Hs Hc Hne Hgt Ht Ha Hnd Hreq Hg E. unfold assistant_message, assistant_match. rewrite E. cbv zeta.
  assert (clear "</function>" gap ("</function>" +:+ tail) = true /\ contains "<parameter=" gap = false) as [Hg1 Hg2].
  { destruct Hg as [-> | ->]; split; reflexivity. }
  rewrite find_call by (by eauto using clear_lead, args_blocks). cbn [rbind fst snd].
  rewrite (read_call_text _ _ _ _ t) by done. cbn [rbind content_before_call]. by rewrite before_call_text.
Qed.
Lemma call_roundtrip counter first s name args : entry_ok tools suffix first (Call s name args) -> there_and_back counter first (Call s name args).
Proof.
  intros (Hs & Hc & Hne & Hgt & t & xs & Ht & Ha & Hnd & Hreq) raw. set (kxs := arg_caps args xs).
  exists (said "assistant" (lead s +:+ call_text name kxs)). eexists. split.
  - unfold convert_fncall_message. change (get _ "role") with (Ok (VStr "assistant")). change (get _ "content") with (Ok (VStr s)).
    cbn [rbind].
    change (py_eq (VStr "assistant") (VStr "system")) with false. change (py_eq (VStr "assistant") (VStr "user")) with false.
    change (py_eq (VStr "assistant") (VStr "assistant")) with true. cbv iota zeta. unfold convert_assistant.
    change (default VNone (dget (entry_message counter (Call s name args)) "tool_calls")) with
      (VList [call_value counter name (json_text (VDict args))]).
    cbn [rbind]. rewrite (call_to_text _ _ _ _ _ Ha) by done. cbn [call_content rbind]. by rewrite lstrip_call.
  - rewrite from_text. change ("assistant" =? "system")%string with false. change ("assistant" =? "user")%string with false.
    change ("assistant" =? "assistant")%string with true. cbv iota. cbn [fst snd].
    destruct (fix_stopword_tail (lead s +:+ open_call name kxs)) as [tail E]. rewrite !sapp_assoc in E.
    by rewrite (call_read _ _ s name args t xs _ "" tail) by auto.
Qed.

Lemma entry_roundtrip counter first e : entry_ok tools suffix first e -> there_and_back counter first e.
Proof. destruct e; auto using system_roundtrip, user_roundtrip, say_roundtrip, call_roundtrip, result_roundtrip. Qed.
Lemma conversation_roundtrip l : forall done counter first, conversation_ok tools suffix first l ->
  exists txt, convert_fncall_from windows tools suffix true done first (entry_messages counter l) = Ok txt /\
              convert_non_fncall_from windows repr_set tools suffix (counter, first) txt = Ok (entry_messages counter l).
Proof.
  induction l as [|e l IH]; intros done counter first; [by exists []|]. intros [He Hl]. cbn [entry_messages].
  destruct (entry_roundtrip counter first e He (done ++ entry_message counter e :: entry_messages (calls_after counter e) l)) as (out & left & E1 & E2).
  destruct (IH (done ++ [left]) (calls_after counter e) _ Hl) as (txt & E3 & E4). exists (out :: txt).
  cbn [convert_fncall_from convert_non_fncall_from]. rewrite E1. cbn [rbind fst snd]. rewrite E3, E2. cbn [rbind fst snd]. by rewrite E4.
Qed.
End conversation.


(** A conversation with a call of two arguments, a result and an answer. *)
Definition bash_tool : Tool :=
  {| tool_type := "function"; fn_name := "execute_bash"; fn_description := Some "Run a command.";
     fn_parameters := Some
       {| properties := Some [("command", {| p_type := Some (VStr "string"); p_description := Some "The command"; p_enum := None |});
                              ("timeout", {| p_type := Some (VStr "integer"); p_description := None; p_enum := Some [VInt 5; VInt 60] |})];
          required := Some ["command"] |} |}.
Definition tools_text (tools : list Tool) : string := match convert_tools_to_description tools with Ok d => d | Raise _ => "" end.
Definition shell_session : list entry :=
  [System "You are a helpful agent."; User "How many files are here?";
   Call "Let me look." "execute_bash" [("command", VStr ("ls -1" +:+ newline +:+ "wc -l < x")); ("timeout", VInt 60)];
   Result "execute_bash" "a.txt"; Say "One file."; User "Thanks."].
Lemma shell_session_ok : conversation_ok [bash_tool] (system_prompt_suffix (tools_text [bash_tool])) false shell_session.
Proof.
  cbn [conversation_ok shell_session entry_ok met_user]. split; [vm_compute; reflexivity|].
  split; [split; [reflexivity|]; intros _; split; vm_compute; reflexivity|].
  split; [|repeat split; try reflexivity; intros [=]]. split; [reflexivity|]. split; [reflexivity|]. split; [done|]. split; [reflexivity|].
  exists bash_tool, ["ls -1" +:+ newline +:+ "wc -l < x"; "60"]. split; [reflexivity|]. split; [|split].
  - constructor; [|constructor; [|constructor]]; (constructor; [split; [done|reflexivity]|reflexivity|repeat split; reflexivity|]).
    + eexists. split; [reflexivity|]. split; [by constructor|done].
    + eexists. split; [reflexivity|]. split; [by constructor|]. intros values [= <-]. reflexivity.
  - repeat constructor; set_solver.
  - intros k [->|[]%elem_of_nil]%elem_of_cons. by left.
Qed.
