(* ===== verification/FnCallSafety.v ===== *)
(** * What the function-call converter lets through

    [calls_are_validated]: every call that the converter reads out of an answer names
    a declared tool, and its arguments are declared, converted as far as the converter
    does (integers and JSON for arrays) and among the listed values, with none of the
    required ones missing.  [calls_split_once]: breaking
    up messages with several calls loses and repeats no call.  The examples at the
    end show inputs on which the converter does something else than it says. *)

From S2P Require Import Prelude PyStr PyDict PyFloat PyVal PyRegex PyJson RegexFind EventStore EventLog FnCallText FnCall FnCallRoundtrip.
From Stdlib Require Import Ascii Sorting.Sorted.

(** ** Validation *)

(** A value that the declaration of its parameter admits. *)
Definition valid_value (i : ParamInfo) (v : pyval) : Prop :=
  let type := default (VStr "string") (p_type i) in
  (if py_eq type (VStr "integer") then exists z, v = VInt z
   else if py_eq type (VStr "array") then exists text, json_loads text = Some v
   else exists s, v = VStr s) /\
  forall values, p_enum i = Some values -> existsb (py_eq v) values = true.
Definition valid_params (t : Tool) (params : dict string pyval) : Prop :=
  dwf params /\
  (forall k v, dget params k = Some v -> exists i, dget (known_params t) k = Some i /\ valid_value i v) /\
  (forall k, k ∈ required_params t -> k ∈ dkeys params).

Section validation.
Context (windows : bool) (repr_set : list string -> string) (tools : list Tool).

Lemma typed_value_valid type k x v : typed_value type k x = Ok v ->
  if py_eq type (VStr "integer") then exists z, v = VInt z
  else if py_eq type (VStr "array") then exists text, json_loads text = Some v else exists s, v = VStr s.
Proof.
  unfold typed_value. destruct (py_eq type _).
  - destruct (int_of_str x); [|done]. intros [= <-]. eauto.
  - destruct (py_eq type _); [|intros [= <-]; eauto]. destruct (json_loads x) eqn:E; [|done]. intros [= <-]. eauto.
Qed.
Lemma param_info_known t k i : param_info t k = Ok i -> dget (known_params t) k = Some i.
Proof.
  unfold param_info, known_params. destruct (fn_parameters t) as [p|]; [|done]. cbn. destruct (properties p) as [d|]; [|done]. cbn.
  destruct (dget d k); [|done]. by intros [= ->].
Qed.
Lemma convert_param_valid t name cs kv : convert_param repr_set t name cs = Ok kv ->
  exists i, dget (known_params t) kv.1 = Some i /\ valid_value i kv.2.
Proof.
  unfold convert_param. destruct (_ && _); [done|].
  set (r := match dget (known_params t) (group 1 cs) with Some i => _ | None => _ end).
  destruct r as [v|] eqn:Ev; cbn [rbind]; [|done]. destruct (param_info t (group 1 cs)) as [i|] eqn:Ei; cbn [rbind]; [|done].
  apply param_info_known in Ei. unfold r in Ev. rewrite Ei in Ev. apply typed_value_valid in Ev.
  destruct (p_enum i) as [values|] eqn:Een.
  - destruct (existsb _ values) eqn:Ex; [|done]. intros [= <-]. exists i. split; [done|]. split; [done|].
    intros values'. rewrite Een. by intros [= <-].
  - intros [= <-]. exists i. split; [done|]. split; [done|]. intros values'. by rewrite Een.
Qed.
Lemma collect_params_valid t name matches : forall params params',
  dwf params /\ (forall k v, dget params k = Some v -> exists i, dget (known_params t) k = Some i /\ valid_value i v) ->
  collect_params repr_set t name params matches = Ok params' ->
  dwf params' /\ (forall k v, dget params' k = Some v -> exists i, dget (known_params t) k = Some i /\ valid_value i v).
Proof.
  induction matches as [|cs matches IH]; intros params params' [Hw Hv]; cbn [collect_params]; [by intros [= <-]|].
  destruct (convert_param repr_set t name cs) as [kv|] eqn:E; cbn [rbind]; [|done]. apply IH. apply convert_param_valid in E.
  split; [by apply dwf_dset|]. intros k v. rewrite dget_dset. case_decide; [intros [= <-]; by subst|apply Hv].
Qed.
Lemma extract_valid t matches name params : _extract_and_validate_params repr_set t matches name = Ok params -> valid_params t params.
Proof.
  unfold _extract_and_validate_params. destruct (collect_params _ _ _ _ _) as [ps|] eqn:E; cbn [rbind]; [|done].
  destruct (List.filter _ _) eqn:Ef; [|done]. intros [= <-]. apply collect_params_valid in E as [Hw Hv]; [|by split; [constructor|]].
  split; [done|]. split; [done|]. intros k Hk. apply dmem_spec. destruct (dmem ps k) eqn:Em; [done|]. exfalso.
  eapply (in_nil (a := k)). rewrite <- Ef. apply filter_In. split; [by apply list_elem_of_In, elem_of_remove_dups|]. by rewrite Em.
Qed.

(** A list of one call of a declared tool with arguments that it admits. *)
Definition valid_call (calls : pyval) : Prop :=
  exists counter name params text t, calls = VList [call_value counter name text] /\ json_ascii (VDict params) = Ok text /\
    declared tools name = Some t /\ valid_params t params.
Lemma read_call_valid counter cs call : read_call repr_set tools counter cs = Ok call -> valid_call (VList [call]).
Proof.
  unfold read_call. cbv zeta. fold (declared tools (group 1 cs)). destruct (declared _ _) as [t|] eqn:Et; [|done].
  destruct (_extract_and_validate_params _ _ _ _) as [params|] eqn:Ep; cbn [rbind]; [|done].
  destruct (json_ascii _) as [text|] eqn:Ej; cbn [rbind]; [|done]. intros [= <-].
  exists counter, (group 1 cs), params, text, t. do 3 (split; [done|]). by eapply extract_valid.
Qed.

Definition checked_call (m out : dict string pyval) : Prop :=
  forall calls, dget out "tool_calls" = Some calls -> dget m "tool_calls" = Some calls \/ valid_call calls.
Lemma message_checked suffix st m r : convert_non_fncall_message windows repr_set tools suffix st m = Ok r -> checked_call m r.1.
Proof.
  unfold convert_non_fncall_message. destruct st as [counter first]. destruct (get m "role") as [role|]; cbn [rbind]; [|done].
  destruct (get m "content") as [content|]; cbn [rbind]; [|done]. generalize (if truth content then content else VStr ""); clear content; intros content.
  destruct (py_eq role (VStr "system")).
  { destruct (plain_system_content _ _); cbn [rbind]; [|done]. intros [= <-] calls. done. }
  destruct (py_eq role (VStr "user")).
  { destruct (if first then _ else _) as [c|]; cbn [rbind]; [|done]. destruct (user_message counter c) as [out|] eqn:E; cbn [rbind]; [|done].
    intros [= <-] calls. unfold user_message in E. destruct (match c with VStr _ => _ | _ => _ end) as [[cs|]|]; cbn [rbind] in E; [|by simplify_eq|done].
    destruct (match c with VList _ => _ | _ => _ end); cbn [rbind] in E; [|done]. by simplify_eq. }
  destruct (py_eq role (VStr "assistant")); [|done]. unfold assistant_message.
  destruct (assistant_match content) as [[o c]|]; cbn [rbind fst snd]; [|done]. destruct o as [cs|].
  - destruct (read_call _ _ _ _) as [call|] eqn:E; cbn [rbind]; [|done]. destruct (content_before_call c) as [c'|]; cbn [rbind]; [|done].
    intros [= <-] calls [= <-]. right. by apply read_call_valid in E.
  - intros [= <-] calls. cbn [fst]. destruct c; rewrite ?dget_dset_ne by done; by left.
Qed.
Lemma messages_checked suffix ms : forall st outs, convert_non_fncall_from windows repr_set tools suffix st ms = Ok outs ->
  Forall2 checked_call ms outs.
Proof.
  induction ms as [|m ms IH]; intros st outs; cbn [convert_non_fncall_from]; [intros [= <-]; constructor|].
  destruct (convert_non_fncall_message _ _ _ _ _ _) as [r|] eqn:E; cbn [rbind]; [|done].
  destruct (convert_non_fncall_from _ _ _ _ _ _) as [outs'|] eqn:E'; cbn [rbind]; [|done]. intros [= <-].
  constructor; [by eapply message_checked|by eapply IH].
Qed.
End validation.

(** C15: The answer of the model is the last message converted, and every call that is
    read from the text names a declared tool and passes it declared parameters only,
    with all required ones present; a parameter declared as an integer is an
    integer, one declared as an array is the JSON value of its text, whatever kind of
    value that is ([number_for_an_array]), every other is a text, also one declared as
    a number, boolean or object; and a value is one of those that are listed for it, if
    any are.  Anything else is an error. *)
Theorem calls_are_validated windows repr_set messages tools outs
    (H : convert_non_fncall_messages_to_fncall_messages windows repr_set messages tools = Ok outs) :
  Forall2 (checked_call tools) messages outs.
Proof.
  unfold convert_non_fncall_messages_to_fncall_messages in H. destruct (convert_tools_to_description tools); cbn [rbind] in H; [|done].
  by eapply messages_checked.
Qed.
Lemma calls_are_validated_witness : exists outs, Forall2 (checked_call [bash_tool])
  [[("role", VStr "assistant"); ("content", VStr ("<function=execute_bash>" +:+ newline +:+ "<parameter=command=ls</parameter>"))]] outs /\
  map (fun m => dmem m "tool_calls") outs = [true].
Proof.
  eexists. split; [|shelve].
  apply (calls_are_validated false (fun _ => "{}") _ [bash_tool]). vm_compute. reflexivity. Unshelve. vm_compute. reflexivity.
Defined.

(** ** Messages with several calls *)

Definition calls_of (m : dict string pyval) : list pyval :=
  match dget m "role" with
  | Some r => if py_eq r (VStr "assistant") then
                let calls := default VNone (dget m "tool_calls") in
                match (if truth calls then sequence calls else Ok []) with Ok l => l | Raise _ => [] end
              else []
  | None => []
  end.
Definition call_id (call : pyval) : pyval := match item call "id" with Ok v => v | Raise _ => VNone end.
Definition differ (a b : pyval) : Prop := py_eq a b = false.
(** The ids of the calls that are broken up. *)
Definition broken_up (m : dict string pyval) : list pyval := let l := calls_of m in if (1 <? length l)%nat then l else [].
Definition broken_ids (ms : list (dict string pyval)) : list pyval := map call_id (flat_map broken_up ms).

Definition single_call (kv : pyval * dict string pyval) (call : pyval) : Prop :=
  exists content, kv.2 = [("role", VStr "assistant"); ("content", content); ("tool_calls", VList [call])] /\ item call "id" = Ok kv.1.
Lemma single_calls_of kv call : single_call kv call -> calls_of kv.2 = [call].
Proof. intros (content & -> & _). reflexivity. Qed.
Lemma hashed_same v w : hashed v = Ok w -> v = w.
Proof. unfold hashed. destruct v; congruence. Qed.
Lemma pending_set_new p k m : Forall (fun kv => differ kv.1 k) p -> pending_set p k m = p ++ [(k, m)].
Proof. unfold differ. induction 1 as [|[k' m'] p Hk _ IH]; [done|]. cbn [pending_set fst] in *. by rewrite Hk, IH. Qed.
Lemma pending_pop_split p k m p' : pending_pop p k = Some (m, p') -> exists p1 k' p2, p = p1 ++ (k', m) :: p2 /\ p' = p1 ++ p2.
Proof.
  revert m p'; induction p as [|[k' m'] p IH]; intros m p'; cbn [pending_pop]; [done|]. destruct (py_eq k' k).
  - intros [= <- <-]. by exists [], k', p.
  - destruct (pending_pop p k) as [[m2 p2]|]; cbn; [|done]. intros [= <- <-]. destruct (IH _ _ eq_refl) as (p1 & k2 & p3 & -> & ->).
    by exists ((k', m') :: p1), k2, p3.
Qed.
Lemma differ_sublist l k : sublist k l -> StronglySorted differ l -> StronglySorted differ k.
Proof.
  induction 1 as [|x k l Hs IH|x k l Hs IH]; intros H; [constructor| |]; inversion H as [|? ? Hl Hx]; subst; [|by apply IH].
  constructor; [by apply IH|]. rewrite Forall_forall in Hx |- *. intros y Hy. apply Hx. eapply elem_of_submseteq; [exact Hy|].
  by apply sublist_submseteq.
Qed.
Lemma differ_new ids id rest : StronglySorted differ (ids ++ id :: rest) -> Forall (fun k => differ k id) ids.
Proof.
  induction ids as [|k ids IH]; [constructor|]. intros H. inversion H as [|? ? Hl Hx]; subst. constructor; [|by apply IH].
  rewrite Forall_forall in Hx. apply Hx. set_solver.
Qed.
Lemma split_calls_spec content rest calls : forall i p cs p', StronglySorted differ (map fst p ++ map call_id calls ++ rest) ->
  Forall2 single_call p cs -> split_calls content i calls p = Ok p' ->
  Forall2 single_call p' (cs ++ calls) /\ map fst p' = map fst p ++ map call_id calls.
Proof.
  induction calls as [|call calls IH]; intros i p cs p' Hd Hp; cbn [split_calls]; [intros [= <-]; by rewrite !app_nil_r|].
  destruct (item call "id") as [id|] eqn:Ei; cbn [rbind]; [|done]. destruct (hashed id) as [id'|] eqn:Eh; cbn [rbind]; [|done].
  apply hashed_same in Eh as <-. assert (call_id call = id) as Ec by (unfold call_id; by rewrite Ei). cbn [map] in Hd. rewrite Ec in Hd.
  rewrite pending_set_new by (apply differ_new in Hd; by apply List.Forall_map in Hd).
  intros H. apply (IH _ _ (cs ++ [call])) in H as [H1 H2].
  - split; [by rewrite <- app_assoc in H1|]. rewrite H2, map_app, <- app_assoc. cbn [map app fst]. by rewrite Ec.
  - rewrite map_app, <- app_assoc. exact Hd.
  - apply Forall2_app; [done|]. constructor; [|constructor]. by eexists.
Qed.

Definition one_call (m : dict string pyval) : Prop := (length (calls_of m) <= 1)%nat.
Lemma split_message_spec rest p cs m r : StronglySorted differ (map fst p ++ map call_id (broken_up m) ++ rest) ->
  Forall2 single_call p cs -> split_message p m = Ok r ->
  exists cs', Forall2 single_call r.2 cs' /\ flat_map calls_of r.1 ++ cs' ≡ₚ cs ++ calls_of m /\
              Forall one_call r.1 /\ StronglySorted differ (map fst r.2 ++ rest).
Proof.
  intros Hd Hp. unfold split_message, get. destruct (dget m "role") as [role|] eqn:Er; cbn [rbind]; [|done].
  destruct (dget m "content") as [content|]; cbn [rbind]; [|done].
  assert (sublist (map fst p ++ rest) (map fst p ++ map call_id (broken_up m) ++ rest)) as Hsub.
  { apply sublist_app; [done|]. by apply sublist_inserts_l. }
  assert (py_eq role (VStr "assistant") = false -> calls_of m = []) as Hnone by (unfold calls_of; rewrite Er; by intros ->).
  assert (py_eq role (VStr "assistant") = false -> exists cs', Forall2 single_call p cs' /\
            flat_map calls_of [m] ++ cs' ≡ₚ cs ++ calls_of m /\ Forall one_call [m] /\ StronglySorted differ (map fst p ++ rest)) as Hpass.
  { intros E. exists cs. split; [done|]. cbn [flat_map]. rewrite (Hnone E), !app_nil_r. split; [done|].
    split; [constructor; [unfold one_call; by rewrite (Hnone E); cbn; lia|constructor]|by eapply differ_sublist]. }
  destruct (py_eq role (VStr "assistant")) eqn:Ea.
  { assert (calls_of m = match (let calls := default VNone (dget m "tool_calls") in if truth calls then sequence calls else Ok []) with
                         | Ok l => l | Raise _ => [] end) as Ecs by (unfold calls_of; by rewrite Er, Ea).
    cbv zeta in Ecs |- *. destruct (if truth _ then _ else _) as [l|]; cbn [rbind]; [|done]. unfold broken_up in Hd. cbv zeta in Hd.
    rewrite Ecs in *. destruct (1 <? length l)%nat eqn:El.
    - destruct (split_calls content 0 l p) as [p'|] eqn:Es; cbn [rbind]; [|done]. intros [= <-]. cbn [fst snd flat_map app].
      destruct (split_calls_spec _ _ _ _ _ _ _ Hd Hp Es) as [H1 H2]. exists (cs ++ l). split; [done|]. split; [done|].
      split; [constructor|]. by rewrite H2, <- app_assoc.
    - intros [= <-]. cbn [fst snd flat_map]. exists cs. split; [done|]. rewrite Ecs, app_nil_r. split; [apply Permutation_app_comm|].
      split; [constructor; [|constructor]; unfold one_call; rewrite Ecs; apply Nat.ltb_ge in El; lia|exact Hd]. }
  destruct (py_eq role (VStr "tool")).
  - destruct (dget m "tool_call_id") as [id|]; cbn [rbind]; [|done]. destruct (hashed id) as [id'|]; cbn [rbind]; [|done].
    destruct (pending_pop p id') as [[call p']|] eqn:Ep; [|destruct p; [intros [= <-]; by apply Hpass|done]].
    intros [= <-]. cbn [fst snd flat_map]. apply pending_pop_split in Ep as (p1 & k & p2 & -> & ->).
    apply Forall2_app_inv_l in Hp as (c1 & c2' & H1 & H2 & ->). inversion H2 as [|? c ? c2 Hc H3]; subst.
    exists (c1 ++ c2). split; [by apply Forall2_app|]. rewrite (single_calls_of _ _ Hc : calls_of call = _), (Hnone eq_refl), !app_nil_r.
    split; [cbn; by rewrite Permutation_middle|]. split.
    + constructor; [unfold one_call; by rewrite (single_calls_of _ _ Hc : calls_of call = _)|]. constructor; [|constructor].
      unfold one_call. rewrite (Hnone eq_refl). cbn. lia.
    + eapply differ_sublist; [|exact Hd]. rewrite !map_app. cbn [map]. rewrite <- !app_assoc. apply sublist_app; [done|].
      cbn [app fst]. apply sublist_cons. apply sublist_app; [done|]. by apply sublist_inserts_l.
  - destruct p; [intros [= <-]; by apply Hpass|done].
Qed.
Lemma split_from_spec ms : forall p cs r, StronglySorted differ (map fst p ++ broken_ids ms) ->
  Forall2 single_call p cs -> split_from p ms = Ok r ->
  exists cs', Forall2 single_call r.2 cs' /\ flat_map calls_of r.1 ++ cs' ≡ₚ cs ++ flat_map calls_of ms /\ Forall one_call r.1.
Proof.
  induction ms as [|m ms IH]; intros p cs r Hd Hp; cbn [split_from].
  { intros [= <-]. exists cs. cbn. rewrite app_nil_r. auto. }
  unfold broken_ids in Hd. cbn [flat_map] in Hd. rewrite map_app in Hd.
  destruct (split_message p m) as [r1|] eqn:E1; cbn [rbind]; [|done]. destruct (split_from r1.2 ms) as [r2|] eqn:E2; cbn [rbind]; [|done].
  intros [= <-]. cbn [fst snd]. destruct (split_message_spec _ _ _ _ _ Hd Hp E1) as (c1 & H1 & P1 & O1 & S1).
  destruct (IH _ _ _ S1 H1 E2) as (c2 & H2 & P2 & O2). exists c2. split; [done|]. split; [|by apply Forall_app].
  rewrite flat_map_app, <- app_assoc, P2. cbn [flat_map]. rewrite !app_assoc. by rewrite P1.
Qed.

(** Breaking up messages with several calls neither loses nor repeats a call, and
    leaves no message with more than one, when the calls that are broken up have
    different ids. *)
Lemma calls_split_once messages outs (Hd : StronglySorted differ (broken_ids messages))
    (H : convert_from_multiple_tool_calls_to_single_tool_call_messages messages false = Ok outs) :
  flat_map calls_of outs ≡ₚ flat_map calls_of messages /\ Forall one_call outs.
Proof.
  unfold convert_from_multiple_tool_calls_to_single_tool_call_messages in H. destruct (split_from [] messages) as [[out p]|] eqn:E; cbn [rbind snd fst] in H; [|done].
  destruct p as [|kv p]; [|done]. injection H as <-. destruct (split_from_spec messages [] [] _ Hd (proj2 (Forall2_nil _) I) E) as (cs & Hcs & Hp & Ho).
  inversion Hcs; subst. cbn [fst snd app] in *. by rewrite app_nil_r in Hp.
Qed.

Definition bash_call (id command : string) : pyval :=
  VDict [("id", VStr id); ("type", VStr "function");
         ("function", VDict [("name", VStr "execute_bash"); ("arguments", VStr (json_text (VDict [("command", VStr command)])))])].
Definition bash_result (id text : string) : dict string pyval :=
  [("role", VStr "tool"); ("name", VStr "execute_bash"); ("content", VStr text); ("tool_call_id", VStr id)].
(** Two calls in one message, answered in the other order. *)
Definition two_calls : list (dict string pyval) :=
  [said "user" "Go.";
   [("role", VStr "assistant"); ("content", VStr "Both."); ("tool_calls", VList [bash_call "a" "ls"; bash_call "b" "pwd"])];
   bash_result "b" "/"; bash_result "a" "x.txt"; said "user" "Thanks."].
Definition two_calls_split : list (dict string pyval) :=
  match convert_from_multiple_tool_calls_to_single_tool_call_messages two_calls false with Ok outs => outs | Raise _ => [] end.
Lemma calls_split_once_witness :
  flat_map calls_of two_calls_split ≡ₚ flat_map calls_of two_calls /\ Forall one_call two_calls_split.
Proof.
  apply calls_split_once; [|vm_compute; reflexivity].
  change (broken_ids two_calls) with [VStr "a"; VStr "b"]. repeat constructor.
Defined.

(** ** Where the code and its words differ *)

Definition no_parameters : Tool := {| tool_type := "function"; fn_name := "finish"; fn_description := Some "End."; fn_parameters := None |}.
Definition answer (name body : string) : list (dict string pyval) :=
  [said "assistant" ("<function=" +:+ name +:+ ">" +:+ newline +:+ body +:+ newline +:+ "</function>")].
(** A parameter for a tool that declares none is a [KeyError], not a
    [FunctionCallValidationError] that the model could be told about. *)
Lemma undeclared_parameter_crashes : forall repr_set,
  convert_non_fncall_messages_to_fncall_messages false repr_set (answer "finish" "<parameter=message>done</parameter>") [no_parameters] =
  Raise (KeyError "parameters").
Proof. reflexivity. Qed.

Definition array_tool : Tool :=
  {| tool_type := "function"; fn_name := "pick"; fn_description := Some "Pick.";
     fn_parameters := Some {| properties := Some [("items", {| p_type := Some (VStr "array"); p_description := None; p_enum := None |})];
                              required := None |} |}.
(** Any JSON text is taken for an array. *)
Lemma number_for_an_array : forall repr_set,
  is_ok (convert_non_fncall_messages_to_fncall_messages false repr_set (answer "pick" "<parameter=items>7</parameter>") [array_tool]) = true.
Proof. reflexivity. Qed.

(** The cache mark of a tool message with a text content cannot be set. *)
Lemma cached_text_crashes :
  convert_fncall_messages_to_non_fncall_messages false [dset (bash_result "a" "x.txt") "cache_control" ephemeral] [bash_tool] true =
  Raise (TypeError "'str' object does not support item assignment").
Proof. reflexivity. Qed.

(** A user who quotes a result speaks as a tool. *)
Lemma quoted_result_becomes_a_tool : forall repr_set,
  convert_non_fncall_messages_to_fncall_messages false repr_set
    [said "user" ("I saw EXECUTION RESULT of [execute_bash]:" +:+ newline +:+ "ok")] [no_parameters] =
  Ok [[("role", VStr "tool"); ("name", VStr "execute_bash"); ("content", VStr "ok"); ("tool_call_id", VStr "toolu_00")]].
Proof. vm_compute. reflexivity. Qed.
