(* ===== verification/Message.v ===== *)
(** * Messages for the model: [openhands/core/message.py]

    [Message] and its contents, and [serialize_model], the dictionary that is sent.
    [ToolCall] is what the program reads of a [ChatCompletionMessageToolCall]. *)

From S2P Require Import Prelude PyStr PyDict PyFloat PyVal.

Record ToolCall := { call_id : option string; function_name : option string; function_arguments : string }.
Inductive Content :=
  | TextContent (text : string) (cache_prompt : bool)
  | ImageContent (image_urls : list string) (cache_prompt : bool).
Record Message := {
  role : string;
  content : list Content;
  cache_enabled : bool;
  vision_enabled : bool;
  function_calling_enabled : bool;
  tool_calls : option (list ToolCall);
  tool_call_id : option string;
  name : option string;
  force_string_serializer : bool;
}.
(** [Message(role=role, content=content)] *)
Definition new_message (role_ : string) (content_ : list Content) : Message :=
  {| role := role_; content := content_; cache_enabled := false; vision_enabled := false; function_calling_enabled := false;
     tool_calls := None; tool_call_id := None; name := None; force_string_serializer := false |}.
Definition text (s : string) : Content := TextContent s false.
Definition with_content (m : Message) (c : list Content) : Message :=
  {| role := role m; content := c; cache_enabled := cache_enabled m; vision_enabled := vision_enabled m;
     function_calling_enabled := function_calling_enabled m; tool_calls := tool_calls m; tool_call_id := tool_call_id m;
     name := name m; force_string_serializer := force_string_serializer m |}.
Definition with_tool_calls (m : Message) (l : option (list ToolCall)) : Message :=
  {| role := role m; content := content m; cache_enabled := cache_enabled m; vision_enabled := vision_enabled m;
     function_calling_enabled := function_calling_enabled m; tool_calls := l; tool_call_id := tool_call_id m;
     name := name m; force_string_serializer := force_string_serializer m |}.

Definition contains_image (m : Message) : bool := existsb (fun c => match c with ImageContent _ _ => true | _ => false end) (content m).
Definition cached (c : Content) : bool := match c with TextContent _ b | ImageContent _ b => b end.

(** ** Serialisation *)

Definition ephemeral : pyval := VDict [("type", VStr "ephemeral")].
Definition text_data (s : string) (cache : bool) : pyval :=
  VDict ([("type", VStr "text"); ("text", VStr s)] ++ (if cache then [("cache_control", ephemeral)] else [])).
Fixpoint image_data (urls : list string) (cache : bool) : list pyval :=
  match urls with
  | [] => []
  | url :: urls =>
      VDict ([("type", VStr "image_url"); ("image_url", VDict [("url", VStr url)])]
             ++ (match urls with [] => if cache then [("cache_control", ephemeral)] else [] | _ => [] end))
      :: image_data urls cache
  end.
(** The items of one content; [tool] messages carry the cache mark themselves, and
    images are sent only to a model with vision. *)
Definition content_data (tool vision : bool) (c : Content) : list pyval :=
  match c with
  | TextContent s b => [text_data s (b && negb tool)]
  | ImageContent urls b => if vision then image_data urls (b && negb tool) else []
  end.

Definition optional (o : option string) : pyval := match o with Some s => VStr s | None => VNone end.
Definition call_data (c : ToolCall) : pyval :=
  VDict [("id", optional (call_id c)); ("type", VStr "function");
         ("function", VDict [("name", optional (function_name c)); ("arguments", VStr (function_arguments c))])].
Definition add_tool_call_keys (m : Message) (d : dict string pyval) : res (dict string pyval) :=
  let d := match tool_calls m with Some l => dset d "tool_calls" (VList (map call_data l)) | None => d end in
  match tool_call_id m with
  | Some i => match name m with
              | Some n => Ok (dset (dset d "tool_call_id" (VStr i)) "name" (VStr n))
              | None => Raise (OtherError "AssertionError" "name is required when tool_call_id is not None")
              end
  | None => Ok d
  end.
Definition string_serializer (m : Message) : res (dict string pyval) :=
  let texts := omap (fun c => match c with TextContent s _ => Some s | _ => None end) (content m) in
  add_tool_call_keys m [("content", VStr (join newline texts)); ("role", VStr (role m))].
Definition list_serializer (m : Message) : res (dict string pyval) :=
  let tool := String.eqb (role m) "tool" in
  add_tool_call_keys m
    ([("content", VList (flat_map (content_data tool (vision_enabled m)) (content m))); ("role", VStr (role m))]
     ++ (if tool && existsb cached (content m) then [("cache_control", ephemeral)] else [])).
Definition serialize_model (m : Message) : res (dict string pyval) :=
  if negb (force_string_serializer m) && (cache_enabled m || vision_enabled m || function_calling_enabled m)
  then list_serializer m else string_serializer m.
