(* ===== verification/ConversationMemory.v ===== *)
(** * From events to messages: [openhands/memory/conversation_memory.py]

    [process_events] turns the condensed history into the messages for the model.
    The calls of a response wait in [pending] until each of them has its result; then
    the message with the calls is emitted, followed by the results.  The code changes
    the events it is given: it inserts a system message and the first user message, and
    moves the answer of a finishing agent into its thought; [process_events] returns
    the events as it leaves them.

    Parameters: [metadata_of] reads the [ToolCallMetadata] that an event carries, with
    the response of the model (an object of litellm); the prompt manager, which
    renders templates; [str_event], the [str] of an event. *)

From S2P Require Import Prelude PyStr PyDict PyFloat PyVal Events Serialization Message.

(** ** What is read of a response *)

Record AssistantMessage := { msg_role : option string; msg_content : option string; msg_tool_calls : option (list ToolCall) }.
Record ModelResponse := { response_id : string; choices : list AssistantMessage }.
Record ToolCallMetadata := { tm_function_name : string; tm_tool_call_id : string; model_response : ModelResponse }.
(** [response.choices[0].message] *)
Definition first_choice (r : ModelResponse) : res AssistantMessage :=
  match choices r with m :: _ => Ok m | [] => Raise (OtherError "IndexError" "list index out of range") end.

Record RepositoryInfo := { ri_repo_name : string; ri_repo_directory : string; ri_branch_name : option string }.
Record RuntimeInfo := {
  rt_date : string;
  rt_available_hosts : dict string Z;
  rt_additional_agent_instructions : string;
  rt_custom_secrets_descriptions : dict string string;
  rt_working_dir : string;
}.
Record AgentConfig := {
  enable_som_visual_browsing : bool;
  enable_prompt_extensions : bool;
  disabled_microagents : list string;
}.

Definition value_error {A} (msg : string) : res A := Raise (ValueError msg).
Definition from_user (e : event) : bool := bool_decide (_source e = Some USER).
Definition from_agent (e : event) : bool := bool_decide (_source e = Some AGENT).

Definition is_system_message (e : event) : bool := match data e with SystemMessageAction _ _ _ _ => true | _ => false end.
Definition is_user_message (e : event) : bool := match data e with MessageAction _ _ _ _ _ => from_user e | _ => false end.

(** [_is_valid_image_url(url)] *)
Definition is_valid_image_url (url : string) : bool := negb (String.eqb url "") && negb (String.eqb (strip url) "").

Section memory.
Context (metadata_of : CallMetadata -> ToolCallMetadata).
Context (config : AgentConfig).
Context (build_workspace_context : option RepositoryInfo -> RuntimeInfo -> option string -> string -> string).
Context (build_microagent_info : list MicroagentKnowledge -> string).
Context (system_message : string) (str_event : event -> string).
Context (max_message_chars : option Z) (vision_is_active : bool).

Definition metadata (e : event) : option ToolCallMetadata := metadata_of <$> _tool_call_metadata e.
Definition user_text (s : string) : Message := new_message "user" [text s].

(** ** Actions *)

Definition tool_based (e : event) : bool :=
  match data e with
  | AgentDelegateAction _ _ _ | AgentThinkAction _ | IPythonRunCellAction _ _ _ _ _ _ | FileEditAction _ _ _ _ _ _ _ _ _ _ _ _
  | FileReadAction _ _ _ _ _ _ _ | BrowseInteractiveAction _ _ _ _ _ | BrowseURLAction _ _ _ _ | MCPAction _ _ _ _
  | TaskTrackingAction _ _ _ => true
  | CmdRunAction _ _ _ _ _ _ _ _ _ => from_agent e
  | _ => false
  end.

Definition valid_role (r : string) : bool := bool_decide (r ∈ ["user"; "system"; "assistant"; "tool"]).
(** The message of the model that holds the calls. *)
Definition calls_message (m : AssistantMessage) : res Message :=
  let r := default "assistant" (msg_role m) in
  if valid_role r then
    Ok (with_tool_calls
          (new_message r match msg_content m with
                         | Some c => if String.eqb (strip c) "" then [] else [text c]
                         | None => []
                         end) (msg_tool_calls m))
  else Raise (OtherError "ValidationError" "Message").

(** The thought of a finished agent takes up what the model said beside the call. *)
Definition finish_thought (thought : string) (m : AssistantMessage) : string :=
  let content := default "" (msg_content m) in
  if String.eqb thought "" then content
  else if String.eqb thought content then thought else thought +:+ newline +:+ content.
Definition without_metadata (e : event) (b : body) : event :=
  {| _id := _id e; _timestamp := _timestamp e; _source := _source e; _cause := _cause e; _timeout := _timeout e;
     _llm_metrics := _llm_metrics e; _tool_call_metadata := None; _response_id := _response_id e; data := b |}.

Fixpoint numbered_images (idx : Z) (urls : list string) : list Content :=
  match urls with
  | [] => []
  | url :: urls =>
      (if vision_is_active then [text ("Image " +:+ str_of_Z (idx + 1) +:+ ":")] else [])
      ++ ImageContent [url] false :: numbered_images (idx + 1) urls
  end.
Definition image_content (user : bool) (urls : option (list string)) : list Content :=
  match urls with
  | Some (_ :: _ as l) => if user then numbered_images 0 l else [ImageContent l false]
  | _ => []
  end.

(** The messages of an action, the calls that wait, and the action as it is left. *)
Definition process_action (e : event) (pending : dict string Message) : res (list Message * dict string Message * event) :=
  let role := if from_user e then "user" else "assistant" in
  if tool_based e then
    match metadata e with
    | None =>
        if from_user e then Ok ([user_text ("User requested to read file: " +:+ str_event e)], pending, e)
        else Raise (OtherError "AssertionError" ("Tool call metadata should NOT be None when function calling is enabled for agent actions. Action: "
                                                 +:+ str_event e))
    | Some t =>
        m <-! first_choice (model_response t) ;;
        msg <-! calls_message m ;;
        Ok ([], dset pending (response_id (model_response t)) msg, e)
    end
  else
    match data e with
    | AgentFinishAction final_thought outputs thought =>
        match metadata e with
        | Some t =>
            m <-! first_choice (model_response t) ;;
            let thought := finish_thought thought m in
            Ok ([new_message role [text thought]], pending, without_metadata e (AgentFinishAction final_thought outputs thought))
        | None => Ok ([new_message role [text thought]], pending, e)
        end
    | MessageAction content _ image_urls _ _ =>
        Ok ([new_message role (text content :: image_content (from_user e) image_urls)], pending, e)
    | CmdRunAction command _ _ _ _ _ _ _ _ =>
        if from_user e then Ok ([user_text ("User executed the command:" +:+ newline +:+ command)], pending, e) else Ok ([], pending, e)
    | SystemMessageAction content _ _ _ => Ok ([new_message "system" [text content]], pending, e)
    | _ => Ok ([], pending, e)
    end.

(** ** Observations *)

(** [CmdOutputObservation.to_agent_observation] *)
Definition nonempty (o : option string) (f : string -> string) : string :=
  match o with Some (String _ _ as s) => f s | _ => "" end.
Definition to_agent_observation (content : string) (m : CmdOutputMetadata) : string :=
  prefix_ m +:+ content +:+ suffix_ m
  +:+ nonempty (working_dir m) (fun s => newline +:+ "[Current working directory: " +:+ s +:+ "]")
  +:+ nonempty (py_interpreter_path m) (fun s => newline +:+ "[Python interpreter: " +:+ s +:+ "]")
  +:+ (if exit_code m =? -1 then "" else newline +:+ "[Command finished with exit code " +:+ str_of_Z (exit_code m) +:+ "]").

Definition truncated (s : string) : string := truncate_content s max_message_chars.

(** The cell's output without the text of its images, and its images. *)
Definition image_line (line : string) : string :=
  if contains "![image](data:image/png;base64," line then "![image](data:image/png;base64, ...) already displayed to user" else line.
Definition cell_content (content : string) (image_urls : option (list string)) : list Content :=
  let t := truncated (join newline (map image_line (split_char (chr 10) content))) in
  match image_urls with
  | Some (_ :: _ as urls) =>
      let valid := List.filter is_valid_image_url urls in
      let invalid_count := Z.of_nat (length urls) - Z.of_nat (length valid) in
      match valid with
      | _ :: _ =>
          [text (if vision_is_active && (0 <? invalid_count)
                 then t +:+ newline +:+ newline +:+ "Note: " +:+ str_of_Z invalid_count
                        +:+ " invalid or empty image(s) were filtered from this output. The agent may need to use alternative methods to access visual information."
                 else t); ImageContent valid false]
      | [] =>
          [text (if vision_is_active
                 then t +:+ newline +:+ newline +:+ "Note: All " +:+ str_of_Z (Z.of_nat (length urls))
                        +:+ " image(s) in this output were invalid or empty and have been filtered. The agent should use alternative methods to access visual information."
                 else t)]
      end
  | _ => [text t]
  end.

(** A page, with its screenshot when set-of-marks browsing is on. *)
Definition page_content (content trigger_by_action screenshot set_of_marks : string) : list Content :=
  if String.eqb trigger_by_action "browse_interactive" && enable_som_visual_browsing config then
    let t := if vision_is_active
             then content +:+ "Image: Current webpage screenshot (Note that only visible portion of webpage is present in the screenshot. However, the Accessibility tree contains information from the entire webpage.)" +:+ newline
             else content in
    let '(url, type) := if negb (String.eqb set_of_marks "") then (set_of_marks, "set of marks")
                        else if negb (String.eqb screenshot "") then (screenshot, "screenshot") else ("", "None") in
    if is_valid_image_url url then [text t; ImageContent [url] false]
    else if vision_is_active && negb (String.eqb url "") then
      [text (t +:+ newline +:+ newline +:+ "Note: The " +:+ type +:+ " for this webpage was invalid or empty and has been filtered. The agent should use alternative methods to access visual information about the webpage.")]
    else if vision_is_active then
      [text (t +:+ newline +:+ newline +:+ "Note: No visual information (screenshot or set of marks) is available for this webpage. The agent should rely on the text content above.")]
    else [text t]
  else [text content].

(** *** Recalled knowledge *)

Definition enabled (l : list MicroagentKnowledge) : list MicroagentKnowledge :=
  List.filter (fun a => negb (bool_decide (mk_name a ∈ disabled_microagents config))) l.
Definition has_agent_in_earlier_events (agent_name : string) (earlier : list event) : bool :=
  existsb (fun e => match data e with
                    | RecallObservation _ _ _ _ _ _ _ _ _ _ _ _ l => existsb (fun a => String.eqb (mk_name a) agent_name) l
                    | _ => false
                    end) earlier.
Definition filter_agents_in_microagent_obs (l : list MicroagentKnowledge) (earlier : list event) : list MicroagentKnowledge :=
  List.filter (fun a => negb (has_agent_in_earlier_events (mk_name a) earlier)) l.

Definition filled (s : string) : bool := negb (String.eqb s "").
Definition optional_text (s : string) : option string := if filled s then Some s else None.
Definition workspace_content (repo_name repo_directory repo_branch repo_instructions : string) (runtime_hosts : dict string Z)
    (additional_agent_instructions date : string) (custom_secrets_descriptions : dict string string)
    (conversation_instructions working_dir : string) (knowledge : list MicroagentKnowledge) : list Content :=
  let repo_info := if filled repo_name || filled repo_directory
                   then Some {| ri_repo_name := repo_name; ri_repo_directory := repo_directory; ri_branch_name := optional_text repo_branch |}
                   else None in
  let hosts := match runtime_hosts with [] => filled additional_agent_instructions | _ => true end in
  let runtime_info := {| rt_date := date; rt_available_hosts := if hosts then runtime_hosts else [];
                         rt_additional_agent_instructions := if hosts then additional_agent_instructions else "";
                         rt_custom_secrets_descriptions := custom_secrets_descriptions; rt_working_dir := working_dir |} in
  let has_repo_info := match repo_info with Some _ => true | None => false end in
  let has_runtime_info := filled date || match custom_secrets_descriptions with [] => false | _ => true end in
  let has_repo_instructions := filled (strip repo_instructions) in
  let filtered_agents := enabled knowledge in
  (if has_repo_info || has_runtime_info || has_repo_instructions || filled conversation_instructions
   then [text (build_workspace_context repo_info runtime_info (optional_text conversation_instructions) repo_instructions)] else [])
  ++ match filtered_agents with [] => [] | _ => [text (build_microagent_info filtered_agents)] end.

(** *** One observation *)

(** The classes that [_process_observation] does not know. *)
Definition unknown_class (b : body) : string :=
  match b with
  | NullObservation _ => "openhands.events.observation.empty.NullObservation"
  | FileWriteObservation _ _ => "openhands.events.observation.files.FileWriteObservation"
  | SuccessObservation _ => "openhands.events.observation.success.SuccessObservation"
  | AgentStateChangedObservation _ _ _ => "openhands.events.observation.agent.AgentStateChangedObservation"
  | _ => ""
  end.
(** [TextContent(text=truncate_content(v, max_message_chars))] for a [v] that is no text. *)
Definition size (v : pyval) : option nat :=
  match v with VList l | VTuple l => Some (length l) | VDict d => Some (length d) | _ => None end.
Definition untruncatable {A} (v : pyval) : res A :=
  let invalid := Raise (OtherError "ValidationError" "TextContent") in
  match max_message_chars, size v with
  | None, _ => invalid
  | Some n, None => if n <? 0 then invalid else Raise (TypeError ("object of type '" +:+ type_name v +:+ "' has no len()"))
  | Some n, Some k => if (n <? 0) || (Z.of_nat k <=? n) then invalid else Raise (TypeError "truncate_content")
  end.

(** The content of its message; no message at all ([None]); or a message that is
    returned whatever call it answers ([inr]). *)
Definition observation_content (earlier : list event) (e : event) : res (option (list Content + Message)) :=
  let show s := Ok (Some (inl [text s])) in
  match data e with
  | CmdOutputObservation content _ m _ =>
      match _tool_call_metadata e with
      | None => show (truncated (newline +:+ "Observed result of command executed by user:" +:+ newline +:+ to_agent_observation content m))
      | Some _ => show (truncated (to_agent_observation content m))
      end
  | IPythonRunCellObservation content _ image_urls => Ok (Some (inl (cell_content content image_urls)))
  | FileEditObservation _ _ _ _ _ _ _ _ => show (truncated (str_event e))
  | FileReadObservation content _ _ => show content
  | BrowserOutputObservation content _ trigger screenshot _ marks _ _ _ _ _ _ _ _ _ _ _ =>
      Ok (Some (inl (page_content content trigger screenshot marks)))
  | AgentDelegateObservation content outputs =>
      match default (VStr content) (dget outputs "content") with
      | VStr s => show (truncated s)
      | v => untruncatable v
      end
  | MCPObservation content _ _ | AgentThinkObservation content | TaskTrackingObservation content _ _
  | AgentCondensationObservation content | FileDownloadObservation content _ => show (truncated content)
  | ErrorObservation content _ => show (truncated content +:+ newline +:+ "[Error occurred in processing last action]")
  | UserRejectObservation content =>
      show ("OBSERVATION:" +:+ newline +:+ truncated content +:+ newline +:+ "[Last action has been rejected by the user]")
  | LoopDetectionObservation _ => Ok None
  | RecallObservation _ recall_type repo_name repo_directory repo_branch repo_instructions runtime_hosts
      additional_agent_instructions date custom_secrets_descriptions conversation_instructions working_dir knowledge =>
      if negb (enable_prompt_extensions config) then Ok None
      else match recall_type with
           | WORKSPACE_CONTEXT =>
               match workspace_content repo_name repo_directory repo_branch repo_instructions runtime_hosts
                       additional_agent_instructions date custom_secrets_descriptions conversation_instructions working_dir knowledge with
               | [] => Ok None
               | l => Ok (Some (inl l))
               end
           | KNOWLEDGE =>
               match enabled (filter_agents_in_microagent_obs knowledge earlier) with
               | [] => Ok None
               | l => Ok (Some (inr (user_text (build_microagent_info l))))
               end
           end
  | b => value_error ("Unknown observation type: <class '" +:+ unknown_class b +:+ "'>")
  end.

Definition tool_message (t : ToolCallMetadata) (content : list Content) : Message :=
  {| role := "tool"; content := content; cache_enabled := false; vision_enabled := false; function_calling_enabled := false;
     tool_calls := None; tool_call_id := Some (tm_tool_call_id t); name := Some (tm_function_name t); force_string_serializer := false |}.
(** The messages of an observation, and the results of calls so far. *)
Definition process_observation (earlier : list event) (e : event) (results : dict string Message) : res (list Message * dict string Message) :=
  c <-! observation_content earlier e ;;
  match c with
  | None => Ok ([], results)
  | Some (inr m) => Ok ([m], results)
  | Some (inl content) =>
      match metadata e with
      | Some t => Ok ([], dset results (tm_tool_call_id t) (tool_message t content))
      | None => Ok ([new_message "user" content], results)
      end
  end.

(** ** The calls whose results are all there *)

Definition has_result (results : dict string Message) (c : ToolCall) : bool :=
  match call_id c with Some i => dmem results i | None => false end.
Fixpoint take_results (results : dict string Message) (calls : list ToolCall) : res (list Message * dict string Message) :=
  match calls with
  | [] => Ok ([], results)
  | c :: calls =>
      let i := default "None" (call_id c) in
      match call_id c ≫= dget results with
      | Some m => r <-! take_results (ddel results i) calls ;; Ok (m :: r.1, r.2)
      | None => Raise (KeyError i)
      end
  end.
(** The messages of the complete responses, the responses that still wait, the results
    that are left. *)
Fixpoint complete_calls (pending results : dict string Message) : res (list Message * dict string Message * dict string Message) :=
  match pending with
  | [] => Ok ([], [], results)
  | (response, m) :: pending =>
      match tool_calls m with
      | None => Raise (OtherError "AssertionError" "Tool calls should NOT be None when function calling is enabled & the message is considered pending tool call. ")
      | Some calls =>
          if forallb (has_result results) calls then
            r <-! take_results results calls ;;
            rest <-! complete_calls pending r.2 ;;
            Ok (m :: r.1 ++ rest.1.1, rest.1.2, rest.2)
          else rest <-! complete_calls pending results ;; Ok (rest.1.1, (response, m) :: rest.1.2, rest.2)
      end
  end.

(** One event: its messages, the calls and results that wait, the event as it is left. *)
Record Waiting := { pending : dict string Message; results : dict string Message }.
Definition process_event (earlier : list event) (e : event) (w : Waiting) : res (list Message * Waiting * event) :=
  r <-! (if is_action (data e) then
           r <-! process_action e (pending w) ;; Ok (r.1.1, {| pending := r.1.2; results := results w |}, r.2)
         else
           r <-! process_observation earlier e (results w) ;; Ok (r.1, {| pending := pending w; results := r.2 |}, e)) ;;
  let w := r.1.2 in
  done <-! complete_calls (pending w) (results w) ;;
  Ok (r.1.1 ++ done.1.1, {| pending := done.1.2; results := done.2 |}, r.2).
Fixpoint process_from (earlier : list event) (w : Waiting) (events : list event) : res (list Message * list event) :=
  match events with
  | [] => Ok ([], earlier)
  | e :: events =>
      r <-! process_event earlier e w ;;
      rest <-! process_from (earlier ++ [r.2]) r.1.2 events ;;
      Ok (r.1.1 ++ rest.1, rest.2)
  end.

(** ** Before and after *)

Definition ensure_system_message (events : list event) : list event :=
  if existsb is_system_message events || String.eqb system_message "" then events
  else new_event (SystemMessageAction system_message None None None) :: events.
Definition ensure_initial_user_message (events : list event) (initial : event) (forgotten : list Z) : list event :=
  match events with
  | [] => []
  | first :: rest =>
      if bool_decide (event_id initial ∈ forgotten) then events
      else match rest with
           | second :: _ => if is_user_message second then events else first :: initial :: rest
           | [] => [first; initial]
           end
  end.

(** [_filter_unmatched_tool_calls] *)
Definition truthy (o : option string) : option string := match o with Some (String _ _) => o | _ => None end.
Definition calls_in (m : Message) : list ToolCall := default [] (tool_calls m).
Definition tool_call_ids (ms : list Message) : list string :=
  flat_map (fun m => if String.eqb (role m) "assistant" then omap (fun c => truthy (call_id c)) (calls_in m) else []) ms.
Definition tool_response_ids (ms : list Message) : list string :=
  omap (fun m => if String.eqb (role m) "tool" then truthy (tool_call_id m) else None) ms.
Definition answered (ids : list string) (c : ToolCall) : bool :=
  match call_id c with Some i => bool_decide (i ∈ ids) | None => false end.
Definition matched_message (calls responses : list string) (m : Message) : list Message :=
  match (if String.eqb (role m) "tool" then truthy (tool_call_id m) else None) with
  | Some i => if bool_decide (i ∈ calls) then [m] else []
  | None =>
      if String.eqb (role m) "assistant" && negb (bool_decide (calls_in m = [])) then
        if forallb (answered responses) (calls_in m) then [m]
        else match List.filter (answered responses) (calls_in m) with
             | [] => []
             | l => [with_tool_calls m (Some l)]
             end
      else [m]
  end.
Definition filter_unmatched_tool_calls (ms : list Message) : list Message :=
  flat_map (matched_message (tool_call_ids ms) (tool_response_ids ms)) ms.

(** [_apply_user_message_formatting] *)
Fixpoint separate (l : list Content) : list Content :=
  match l with
  | [] => []
  | TextContent s b :: l => TextContent (newline +:+ newline +:+ s) b :: l
  | c :: l => c :: separate l
  end.
Fixpoint format_from (prev_role : option string) (ms : list Message) : list Message :=
  match ms with
  | [] => []
  | m :: ms =>
      (if String.eqb (role m) "user" && bool_decide (prev_role = Some "user") then with_content m (separate (content m)) else m)
      :: format_from (Some (role m)) ms
  end.
Definition apply_user_message_formatting (ms : list Message) : list Message := format_from None ms.

(** The messages, and the list of events as it is left. *)
Definition process_events (condensed_history : list event) (initial_user_action : event) (forgotten_event_ids : list Z)
    : res (list Message * list event) :=
  let events := ensure_initial_user_message (ensure_system_message condensed_history) initial_user_action forgotten_event_ids in
  r <-! process_from [] {| pending := []; results := [] |} events ;;
  Ok (apply_user_message_formatting (filter_unmatched_tool_calls r.1), r.2).
End memory.

(** [apply_prompt_caching] *)
Definition with_cache (c : Content) : Content :=
  match c with TextContent s _ => TextContent s true | ImageContent l _ => ImageContent l true end.
Definition cache_last (m : Message) : res Message :=
  match content m with
  | [] => Raise (OtherError "IndexError" "list index out of range")
  | l => Ok (with_content m (removelast l ++ [with_cache (List.last l (text ""))]))
  end.
(** The last message of a user or a tool, found from the end. *)
Fixpoint cache_first_of (ms : list Message) : res (list Message) :=
  match ms with
  | [] => Ok []
  | m :: ms => if String.eqb (role m) "user" || String.eqb (role m) "tool" then m <-! cache_last m ;; Ok (m :: ms)
               else ms <-! cache_first_of ms ;; Ok (m :: ms)
  end.
Definition apply_prompt_caching (ms : list Message) : res (list Message) :=
  ms <-! (match ms with
          | m :: rest => if String.eqb (role m) "system" then m <-! cache_last m ;; Ok (m :: rest) else Ok ms
          | [] => Ok []
          end) ;;
  r <-! cache_first_of (rev ms) ;; Ok (rev r).
