(* ===== verification/ConversationSpec.v ===== *)
(** * What the conversation memory sends to the model

    [calls_answered_in_place]: in the messages of [process_events] each message with
    calls is directly followed by the results of these calls, in their order, and there
    are no other results; the final filter for unmatched calls removes nothing.
    [conversation_opens]: the messages start with the system message and the first
    message of the user.  [processing_is_repeatable]: the events that [process_events]
    leaves behind give the same messages again. *)

From S2P Require Import Prelude PyStr PyDict PyFloat PyVal Events Serialization Message ConversationMemory.

(** ** The protocol of calls and results *)

Definition result_of (c : ToolCall) (m : Message) : Prop :=
  role m = "tool" /\ tool_calls m = None /\ exists i, call_id c = Some i /\ i <> "" /\ tool_call_id m = Some i.
Inductive protocol : list Message -> Prop :=
  | protocol_nil : protocol []
  | protocol_plain m ms : tool_calls m = None -> role m <> "tool" -> protocol ms -> protocol (m :: ms)
  | protocol_calls m calls rs ms : role m = "assistant" -> tool_calls m = Some calls -> Forall2 result_of calls rs ->
      protocol ms -> protocol (m :: rs ++ ms).

Lemma protocol_app ms ms' : protocol ms -> protocol ms' -> protocol (ms ++ ms').
Proof.
  induction 1 as [|m ms Ht Hr _ IH|m calls rs ms Hr Ht Hrs _ IH]; intros H'; [done|by apply protocol_plain; auto|].
  rewrite <- app_comm_cons, <- app_assoc. eapply protocol_calls; eauto.
Qed.
Lemma protocol_one m : tool_calls m = None -> role m <> "tool" -> protocol [m].
Proof. intros Ht Hr. by apply protocol_plain; [..|constructor]. Qed.

(** What keeps the roles and the calls keeps the protocol. *)
Definition same_calls (m m' : Message) : Prop := role m' = role m /\ tool_calls m' = tool_calls m /\ tool_call_id m' = tool_call_id m.
Lemma protocol_same ms ms' : Forall2 same_calls ms ms' -> protocol ms -> protocol ms'.
Proof.
  intros Hs H. revert ms' Hs. induction H as [|m ms Ht Hr _ IH|m calls rs ms Hr Ht Hrs _ IH]; intros ms' Hs.
  - inversion Hs. constructor.
  - inversion Hs as [|? m' ? ms2 (E1 & E2 & E3) Hs']; subst. apply protocol_plain; [congruence..|by apply IH].
  - inversion Hs as [|? m' ? ms2 (E1 & E2 & E3) Hs']; subst. apply Forall2_app_inv_l in Hs' as (rs' & ms3 & Hrs' & Hms & ->).
    apply (protocol_calls _ calls); [congruence..| |by apply IH]. clear -Hrs Hrs'. revert rs' Hrs'.
    induction Hrs as [|c r calls rs Hc _ IH]; intros rs' Hrs'; inversion Hrs' as [|? r' ? rs2 (E1 & E2 & E3) H]; subst; constructor; [|by apply IH].
    destruct Hc as (H1 & H2 & i & H3 & H4 & H5). split; [congruence|]. split; [congruence|]. exists i. split; [done|]. split; [done|congruence].
Qed.

Lemma truthy_id i : i <> "" -> truthy (Some i) = Some i.
Proof. by destruct i. Qed.
Lemma calls_in_some m l : tool_calls m = Some l -> calls_in m = l.
Proof. unfold calls_in. by intros ->. Qed.
Lemma matched_tool calls responses r i : role r = "tool" -> tool_call_id r = Some i -> i <> "" -> i ∈ calls ->
  matched_message calls responses r = [r].
Proof.
  intros Hr Hi Hne Hin. unfold matched_message. rewrite Hr. change (String.eqb "tool" "tool") with true. cbv iota.
  rewrite Hi, truthy_id by done. by rewrite bool_decide_true.
Qed.
(** Where every call has its result, the filter keeps everything. *)
Lemma filter_keeps calls responses ms : protocol ms -> tool_call_ids ms ⊆ calls -> tool_response_ids ms ⊆ responses ->
  flat_map (matched_message calls responses) ms = ms.
Proof.
  induction 1 as [|m ms Ht Hr _ IH|m cs rs ms Hr Ht Hrs _ IH]; intros Hc Hp; [done| |].
  - cbn [flat_map]. unfold matched_message. rewrite (proj2 (String.eqb_neq _ _) Hr). unfold calls_in. rewrite Ht. cbn [default].
    rewrite bool_decide_true, andb_false_r by done. cbn [app]. f_equal. apply IH.
    + intros i Hi. apply Hc. unfold tool_call_ids. cbn [flat_map]. apply elem_of_app. by right.
    + unfold tool_response_ids in *. cbn [omap list_omap] in Hp. by rewrite (proj2 (String.eqb_neq _ _) Hr) in Hp.
  - assert (forall c, c ∈ cs -> exists i, call_id c = Some i /\ i <> "" /\ i ∈ calls /\ i ∈ responses) as Hids.
    { intros c Hin. apply list_elem_of_lookup in Hin as [k Hk]. destruct (Forall2_lookup_l _ _ _ _ _ Hrs Hk) as (r & Hkr & Hres).
      destruct Hres as (Hrole & _ & i & Hi & Hne & Hri). exists i. split; [done|]. split; [done|]. split.
      - apply Hc. unfold tool_call_ids. cbn [flat_map]. apply elem_of_app. left. rewrite Hr. cbn. rewrite (calls_in_some _ _ Ht).
        apply list_elem_of_omap. exists c. split; [by eapply list_elem_of_lookup_2|]. rewrite Hi. by apply truthy_id.
      - apply Hp. unfold tool_response_ids. apply list_elem_of_omap. exists r. split.
        + right. apply elem_of_app. left. by eapply list_elem_of_lookup_2.
        + rewrite Hrole, Hri. by apply truthy_id. }
    cbn [flat_map]. rewrite flat_map_app. rewrite IH.
    + assert (matched_message calls responses m = [m]) as ->.
      { unfold matched_message. rewrite Hr. cbn. rewrite (calls_in_some _ _ Ht). destruct (bool_decide (cs = [])); [done|]. cbn [negb].
        assert (forallb (answered responses) cs = true) as ->; [|done]. apply forallb_forall. intros c Hin%list_elem_of_In.
        destruct (Hids c Hin) as (i & Hi & _ & _ & Hir). unfold answered. rewrite Hi. by apply bool_decide_true. }
      cbn [app]. f_equal. f_equal. clear -Hrs Hids. induction Hrs as [|c r cs rs (Hrole & _ & i & Hi & Hne & Hri) _ IH]; [done|].
      destruct (Hids c ltac:(by left)) as (i' & Hi' & _ & Hic & _). rewrite Hi in Hi'. injection Hi' as <-.
      cbn [flat_map]. rewrite (matched_tool _ _ r i) by done. cbn [app]. f_equal. apply IH. intros c' Hc'. apply Hids. by right.
    + intros i Hi. apply Hc. unfold tool_call_ids. cbn [flat_map]. rewrite flat_map_app. apply elem_of_app. right. apply elem_of_app. by right.
    + intros i Hi. apply Hp. unfold tool_response_ids. rewrite (omap_app _ (m :: rs) ms : omap _ (m :: rs ++ ms) = _). apply elem_of_app. by right.
Qed.
Lemma format_same prev ms : Forall2 same_calls ms (format_from prev ms).
Proof. revert prev; induction ms as [|m ms IH]; intros prev; constructor; [by case_match|apply IH]. Qed.

(** ** The messages follow the protocol *)

Section protocol.
Context (metadata_of : CallMetadata -> ToolCallMetadata) (config : AgentConfig).
Context (build_workspace_context : option RepositoryInfo -> RuntimeInfo -> option string -> string -> string).
Context (build_microagent_info : list MicroagentKnowledge -> string).
Context (system_message : string) (str_event : event -> string) (max_message_chars : option Z) (vision_is_active : bool).

(** Models answer as assistants, and ids are not empty. *)
Definition proper_metadata : Prop := forall v,
  tm_tool_call_id (metadata_of v) <> "" /\ Forall (fun m => default "assistant" (msg_role m) = "assistant") (choices (model_response (metadata_of v))).
Context (Hm : proper_metadata).

Definition result_ok (km : string * Message) : Prop :=
  km.1 <> "" /\ role km.2 = "tool" /\ tool_calls km.2 = None /\ tool_call_id km.2 = Some km.1.
Definition calls_ok (km : string * Message) : Prop := role km.2 = "assistant".
Definition wait_ok (w : Waiting) : Prop := Forall calls_ok (pending w) /\ Forall result_ok (results w).

Lemma take_results_protocol calls : forall results out, Forall result_ok results ->
  take_results results calls = Ok out -> Forall2 result_of calls out.1 /\ Forall result_ok out.2.
Proof.
  induction calls as [|c calls IH]; intros results out Hr; cbn [take_results]; [intros [= <-]; by split|].
  destruct (call_id c) as [i|] eqn:Ei; cbn [mbind option_bind]; [|done]. destruct (dget results i) as [m|] eqn:Em; [|done].
  change (default _ (Some i)) with i. destruct (take_results (ddel results i) calls) as [r|] eqn:E; cbn [rbind]; [|done].
  intros [= <-]. cbn [fst snd]. apply IH in E as [H1 H2]; [|by apply Forall_ddel]. split; [|done]. constructor; [|done].
  apply dget_elem in Em. rewrite Forall_forall in Hr. destruct (Hr _ Em) as (Hne & Hrole & Htc & Hid).
  split; [done|]. split; [done|]. by exists i.
Qed.
Lemma complete_calls_protocol pending : forall results out, Forall calls_ok pending -> Forall result_ok results ->
  complete_calls pending results = Ok out -> protocol out.1.1 /\ Forall calls_ok out.1.2 /\ Forall result_ok out.2.
Proof.
  induction pending as [|[k m] pending IH]; intros results out Hp Hr; cbn [complete_calls]; [intros [= <-]; repeat split; by try constructor|].
  inversion Hp as [|? ? Hrole Hp']; subst. destruct (tool_calls m) as [calls|] eqn:Et; [|done].
  destruct (forallb (has_result results) calls).
  - destruct (take_results results calls) as [r|] eqn:E; cbn [rbind]; [|done]. apply take_results_protocol in E as [H1 H2]; [|done].
    destruct (complete_calls pending r.2) as [rest|] eqn:E'; cbn [rbind]; [|done]. intros [= <-]. cbn [fst snd].
    apply IH in E' as (H3 & H4 & H5); [|done..]. split; [|done]. by eapply protocol_calls.
  - destruct (complete_calls pending results) as [rest|] eqn:E'; cbn [rbind]; [|done]. intros [= <-]. cbn [fst snd].
    apply IH in E' as (H3 & H4 & H5); [|done..]. split; [done|]. split; [by constructor|done].
Qed.

Notation process_action' := (process_action metadata_of str_event vision_is_active).
Notation process_observation' := (process_observation metadata_of config build_workspace_context build_microagent_info str_event
                                    max_message_chars vision_is_active).
Notation process_event' := (process_event metadata_of config build_workspace_context build_microagent_info str_event
                                    max_message_chars vision_is_active).
Notation process_from' := (process_from metadata_of config build_workspace_context build_microagent_info str_event
                                    max_message_chars vision_is_active).

Lemma plain_one r c : r <> "tool" -> protocol [new_message r c].
Proof. intros H. by apply protocol_one. Qed.
Lemma process_action_protocol e pending out : Forall calls_ok pending -> process_action' e pending = Ok out ->
  protocol out.1.1 /\ Forall calls_ok out.1.2.
Proof.
  intros Hp. unfold process_action. set (r := if from_user e then "user" else "assistant").
  assert (r <> "tool") as Hr by (unfold r; by destruct (from_user e)).
  destruct (tool_based e).
  - destruct (metadata metadata_of e) as [t|] eqn:Et.
    + destruct (first_choice (model_response t)) as [m|] eqn:Ec; cbn [rbind]; [|done].
      destruct (calls_message m) as [msg|] eqn:Em; cbn [rbind]; [|done]. intros [= <-]. cbn [fst snd]. split; [constructor|].
      apply Forall_dset; [done|]. unfold calls_ok. cbn [snd]. unfold metadata in Et. destruct (_tool_call_metadata e) as [v|]; [|done].
      injection Et as <-. destruct (Hm v) as [_ Hc]. unfold first_choice in Ec. destruct (choices _) as [|m' l]; [done|]. injection Ec as <-.
      inversion Hc as [|? ? Hrole _]; subst. unfold calls_message in Em. rewrite Hrole in Em. by injection Em as <-.
    + destruct (from_user e); [|done]. intros [= <-]. split; [by apply plain_one|done].
  - destruct (data e); try (intros [= <-]; split; [first [by apply plain_one|by constructor]|done]).
    + destruct (from_user e); intros [= <-]; (split; [first [by apply plain_one|by constructor]|done]).
    + destruct (metadata metadata_of e) as [t|]; [|intros [= <-]; split; [by apply plain_one|done]].
      destruct (first_choice _) as [m|]; cbn [rbind]; [|done]. intros [= <-]. split; [by apply plain_one|done].
Qed.
Lemma recalled_plain earlier e m : observation_content config build_workspace_context build_microagent_info str_event
    max_message_chars vision_is_active earlier e = Ok (Some (inr m)) -> protocol [m].
Proof.
  unfold observation_content. destruct (data e); try done.
  { by destruct (_tool_call_metadata e). }
  { unfold untruncatable. destruct (default _ _); try done; by repeat case_match. }
  destruct (negb _); [done|]. destruct recall_type.
  - by destruct (workspace_content _ _ _ _ _ _ _ _ _ _ _ _ _ _).
  - destruct (enabled config _); [done|]. intros [= <-]. by apply plain_one.
Qed.
Lemma process_observation_protocol earlier e results out : Forall result_ok results ->
  process_observation' earlier e results = Ok out -> protocol out.1 /\ Forall result_ok out.2.
Proof.
  intros Hr. unfold process_observation. destruct (observation_content _ _ _ _ _ _ _ _) as [c|] eqn:Ec; cbn [rbind]; [|done].
  destruct c as [[content|m]|].
  - destruct (metadata metadata_of e) as [t|] eqn:Et; intros [= <-]; (split; [first [by apply plain_one|by constructor]|try done]).
    apply Forall_dset; [done|]. unfold metadata in Et. destruct (_tool_call_metadata e) as [v|]; [|done]. injection Et as <-.
    split; [apply Hm|done].
  - intros [= <-]. split; [by eapply recalled_plain|done].
  - intros [= <-]. split; [constructor|done].
Qed.
Lemma process_event_protocol earlier e w out : wait_ok w -> process_event' earlier e w = Ok out -> protocol out.1.1 /\ wait_ok out.1.2.
Proof.
  intros [Hp Hr]. unfold process_event.
  set (step := if is_action (data e) then _ else _). assert (forall r, step = Ok r -> protocol r.1.1 /\ wait_ok r.1.2) as Hstep.
  { intros r. unfold step. destruct (is_action (data e)).
    - destruct (process_action _ _ _ _ _) as [r'|] eqn:E; cbn [rbind]; [|done]. intros [= <-].
      apply process_action_protocol in E as [H1 H2]; [|done]. by split.
    - destruct (process_observation _ _ _ _ _ _ _ _ _ _) as [r'|] eqn:E; cbn [rbind]; [|done]. intros [= <-].
      apply process_observation_protocol in E as [H1 H2]; [|done]. by split. }
  destruct step as [r|]; cbn [rbind]; [|done]. destruct (Hstep r eq_refl) as [H1 [H2 H3]]. cbv zeta.
  destruct (complete_calls _ _) as [d|] eqn:E; cbn [rbind]; [|done]. intros [= <-].
  apply complete_calls_protocol in E as (H4 & H5 & H6); [|done..]. split; [by apply protocol_app|by split].
Qed.
Lemma process_from_protocol events : forall earlier w out, wait_ok w -> process_from' earlier w events = Ok out -> protocol out.1.
Proof.
  induction events as [|e events IH]; intros earlier w out Hw; cbn [process_from]; [intros [= <-]; constructor|].
  destruct (process_event _ _ _ _ _ _ _ _ _ _) as [r|] eqn:E; cbn [rbind]; [|done]. apply process_event_protocol in E as [H1 H2]; [|done].
  destruct (process_from _ _ _ _ _ _ _ _ _ _) as [rest|] eqn:E'; cbn [rbind]; [|done]. intros [= <-]. cbn [fst].
  apply protocol_app; [done|by eapply IH].
Qed.
End protocol.

(** C4: in the messages that [process_events] makes of any events, each message with
    calls is directly followed by the results of exactly these calls, in their order, and
    there are no other results: no call is unanswered and no result unasked for.  The
    final filter for unmatched calls has nothing to remove. *)
Theorem calls_answered_in_place metadata_of config context microagents prompt str_event max_chars vision events initial forgotten msgs left
    (Hm : proper_metadata metadata_of)
    (H : process_events metadata_of config context microagents prompt str_event max_chars vision events initial forgotten = Ok (msgs, left)) :
  protocol msgs /\ exists raw, filter_unmatched_tool_calls raw = raw /\ msgs = apply_user_message_formatting raw.
Proof.
  unfold process_events in H. destruct (process_from _ _ _ _ _ _ _ _ _ _) as [r|] eqn:E; cbn [rbind] in H; [|done]. injection H as <- <-.
  eapply process_from_protocol in E; [|done|by split; constructor].
  assert (filter_unmatched_tool_calls r.1 = r.1) as Ef by (by apply filter_keeps).
  rewrite Ef. split; [|by exists r.1]. eapply protocol_same; [apply format_same|done].
Qed.

(** ** How the conversation opens *)

Section opening.
Context (metadata_of : CallMetadata -> ToolCallMetadata) (config : AgentConfig).
Context (build_workspace_context : option RepositoryInfo -> RuntimeInfo -> option string -> string -> string).
Context (build_microagent_info : list MicroagentKnowledge -> string).
Context (system_message : string) (str_event : event -> string) (max_message_chars : option Z) (vision_is_active : bool).
Notation process_event' := (process_event metadata_of config build_workspace_context build_microagent_info str_event
                                    max_message_chars vision_is_active).
Notation process_from' := (process_from metadata_of config build_workspace_context build_microagent_info str_event
                                    max_message_chars vision_is_active).
Notation process_events' := (process_events metadata_of config build_workspace_context build_microagent_info system_message str_event
                                    max_message_chars vision_is_active).
Definition nothing_waits : Waiting := {| pending := []; results := [] |}.

Definition system_text (e : event) : string := match data e with SystemMessageAction content _ _ _ => content | _ => "" end.
Lemma system_first earlier e : is_system_message e = true ->
  process_event' earlier e nothing_waits = Ok ([new_message "system" [text (system_text e)]], nothing_waits, e).
Proof. unfold process_event, is_system_message, process_action, system_text. destruct (data e) eqn:E; try done. by unfold tool_based; rewrite E. Qed.
(** The message that shows a message of the user. *)
Definition user_content (e : event) : list Content :=
  match data e with
  | MessageAction content _ image_urls _ _ => text content :: image_content vision_is_active true image_urls
  | _ => []
  end.
Lemma user_first earlier e : is_user_message e = true ->
  process_event' earlier e nothing_waits = Ok ([new_message "user" (user_content e)], nothing_waits, e).
Proof.
  unfold process_event, is_user_message, process_action, user_content. destruct (data e) eqn:E; try done. intros Hu.
  unfold tool_based. rewrite E, Hu. done.
Qed.
(** The events that are processed start with a system message and one of the user. *)
Lemma events_open events initial forgotten :
  (exists e rest, ensure_system_message system_message events = e :: rest /\ is_system_message e = true) ->
  is_user_message initial = true -> event_id initial ∉ forgotten ->
  exists e u rest, ensure_initial_user_message (ensure_system_message system_message events) initial forgotten = e :: u :: rest /\
    is_system_message e = true /\ is_user_message u = true.
Proof.
  intros (e & rest & -> & He) Hi Hf. unfold ensure_initial_user_message. rewrite bool_decide_false by done.
  destruct rest as [|u rest]; [by exists e, initial, []|]. destruct (is_user_message u) eqn:Hu; [by exists e, u, rest|by exists e, initial, (u :: rest)].
Qed.
Lemma opening_kept e u ms :
  apply_user_message_formatting (filter_unmatched_tool_calls (new_message "system" e :: new_message "user" u :: ms)) =
  new_message "system" e :: new_message "user" u ::
  format_from (Some "user") (flat_map (matched_message (tool_call_ids (new_message "system" e :: new_message "user" u :: ms))
                                                       (tool_response_ids (new_message "system" e :: new_message "user" u :: ms))) ms).
Proof. reflexivity. Qed.
End opening.

(** Unless the first message of the user was forgotten, the messages open with the
    system message and a message of the user, whatever the history begins with: a
    missing system message is made from the prompt, a missing user message is put back. *)
Lemma conversation_opens metadata_of config context microagents prompt str_event max_chars vision events initial forgotten msgs left
    (Hs : existsb is_system_message events = true -> exists e rest, events = e :: rest /\ is_system_message e = true)
    (Hp : prompt <> "") (Hi : is_user_message initial = true) (Hf : event_id initial ∉ forgotten)
    (H : process_events metadata_of config context microagents prompt str_event max_chars vision events initial forgotten = Ok (msgs, left)) :
  exists e u later rest, left = e :: u :: later /\ is_system_message e = true /\ is_user_message u = true /\
    msgs = new_message "system" [text (system_text e)] :: new_message "user" (user_content vision u) :: rest.
Proof.
  destruct (events_open prompt events initial forgotten) as (e & u & rest & E & He & Hu); [|done..|].
  { unfold ensure_system_message. destruct (existsb is_system_message events) eqn:Es; [by apply Hs|].
    rewrite (proj2 (String.eqb_neq _ _) Hp). by do 2 eexists. }
  unfold process_events in H. rewrite E in H. cbn [process_from] in H. change {| pending := []; results := [] |} with nothing_waits in H.
  rewrite system_first in H by done. cbn [rbind fst snd] in H. rewrite user_first in H by done. cbn [rbind fst snd app] in H.
  destruct (process_from _ _ _ _ _ _ _ _ _ _) as [r|] eqn:Er; cbn [rbind fst snd app] in H; [|done].
  rewrite opening_kept in H. injection H as <- <-. destruct r as [ms l]. cbn [snd fst].
  assert (exists later, l = e :: u :: later) as [later ->]; [|by exists e, u, later; eexists].
  assert (forall evs earlier w out, process_from metadata_of config context microagents str_event max_chars vision earlier w evs = Ok out ->
            exists later, out.2 = earlier ++ later) as Hpre.
  { clear. induction evs as [|e evs IH]; intros earlier w out; cbn [process_from]; [intros [= <-]; exists []; by rewrite app_nil_r|].
    destruct (process_event _ _ _ _ _ _ _ _ _ _) as [r|]; cbn [rbind]; [|done]. destruct (process_from _ _ _ _ _ _ _ _ _ _) as [o|] eqn:Eo; cbn [rbind]; [|done].
    intros [= <-]. apply IH in Eo as [later El]. cbn [snd]. rewrite El, <- app_assoc. by eexists. }
  apply Hpre in Er as [later El]. by exists later.
Qed.

(** ** Processing twice *)

Section again.
Context (metadata_of : CallMetadata -> ToolCallMetadata) (config : AgentConfig).
Context (build_workspace_context : option RepositoryInfo -> RuntimeInfo -> option string -> string -> string).
Context (build_microagent_info : list MicroagentKnowledge -> string).
Context (system_message : string) (str_event : event -> string) (max_message_chars : option Z) (vision_is_active : bool).
Notation process_event' := (process_event metadata_of config build_workspace_context build_microagent_info str_event
                                    max_message_chars vision_is_active).
Notation process_from' := (process_from metadata_of config build_workspace_context build_microagent_info str_event
                                    max_message_chars vision_is_active).

(** The event that is left behind gives the same messages. *)
Lemma action_again e p out : process_action metadata_of str_event vision_is_active e p = Ok out ->
  process_action metadata_of str_event vision_is_active out.2 p = Ok out /\ is_action (data out.2) = is_action (data e) /\
  is_system_message out.2 = is_system_message e /\ is_user_message out.2 = is_user_message e.
Proof.
  intros H. assert (out.2 = e \/ exists a b t, data e = AgentFinishAction a b t /\
    exists t', out = ([new_message (if from_user e then "user" else "assistant") [text t']], p, without_metadata e (AgentFinishAction a b t'))) as Hout.
  { unfold process_action in H. destruct (tool_based e) eqn:Et.
    - left. destruct (metadata metadata_of e) as [t|]; [|destruct (from_user e); [by injection H as <-|done]].
      destruct (first_choice _) as [m|]; cbn [rbind] in H; [|done]. destruct (calls_message m); cbn [rbind] in H; [|done]. by injection H as <-.
    - destruct (data e) eqn:Ed; try (left; by injection H as <-).
      + left. destruct (from_user e); by injection H as <-.
      + destruct (metadata metadata_of e) as [t|]; [|left; by injection H as <-]. right. do 3 eexists. split; [done|].
        destruct (first_choice _) as [m|]; cbn [rbind] in H; [|done]. injection H as <-. by eexists. }
  destruct Hout as [E|(a & b & t & Ed & t' & ->)]; [by rewrite E|]. cbn [snd]. split; [done|].
  unfold is_system_message, is_user_message. by rewrite Ed.
Qed.
Lemma event_again earlier e w out : process_event' earlier e w = Ok out ->
  process_event' earlier out.2 w = Ok out /\ is_system_message out.2 = is_system_message e /\ is_user_message out.2 = is_user_message e.
Proof.
  unfold process_event. destruct (is_action (data e)) eqn:Ea.
  - destruct (process_action _ _ _ _ _) as [r|] eqn:E; cbn [rbind]; [|done]. cbv zeta. cbn [fst snd].
    destruct (complete_calls _ _) as [d|] eqn:Ed; cbn [rbind]; [|done]. intros [= <-]. cbn [snd].
    apply action_again in E as (E1 & E2 & E3 & E4). rewrite E2, Ea, E1. cbn [rbind fst snd]. by rewrite Ed.
  - destruct (process_observation _ _ _ _ _ _ _ _ _ _) as [r|] eqn:E; cbn [rbind]; [|done]. cbv zeta. cbn [fst snd].
    destruct (complete_calls _ _) as [d|] eqn:Ed; cbn [rbind]; [|done]. intros [= <-]. cbn [snd]. rewrite Ea, E. cbn [rbind fst snd].
    by rewrite Ed.
Qed.
Definition alike (e e' : event) : Prop := is_system_message e' = is_system_message e /\ is_user_message e' = is_user_message e.
Lemma from_again events : forall earlier w out, process_from' earlier w events = Ok out ->
  exists later, out.2 = earlier ++ later /\ process_from' earlier w later = Ok out /\ Forall2 alike events later.
Proof.
  induction events as [|e events IH]; intros earlier w out; cbn [process_from].
  { intros [= <-]. exists []. cbn. by rewrite app_nil_r. }
  destruct (process_event _ _ _ _ _ _ _ _ _ _) as [r|] eqn:E; cbn [rbind]; [|done].
  destruct (process_from _ _ _ _ _ _ _ _ _ _) as [o|] eqn:Eo; cbn [rbind]; [|done]. intros [= <-]. cbn [fst snd].
  apply IH in Eo as (later & El & E2 & Ha). apply event_again in E as (E1 & Hs & Hu). exists (r.2 :: later).
  split; [by rewrite El, <- app_assoc|]. split; [|by constructor]. cbn [process_from]. rewrite E1. cbn [rbind]. by rewrite E2.
Qed.
Lemma alike_system events later : Forall2 alike events later -> existsb is_system_message later = existsb is_system_message events.
Proof. induction 1 as [|e e' events later [Hs _] _ IH]; [done|]. cbn [existsb]. by rewrite Hs, IH. Qed.
Lemma user_insert_keeps (p : event -> bool) events initial forgotten : existsb p events = true ->
  existsb p (ensure_initial_user_message events initial forgotten) = true.
Proof.
  rewrite !existsb_spec. intros (x & Hx & Hp). exists x. split; [|done]. unfold ensure_initial_user_message.
  destruct events as [|e rest]; [done|]. destruct (bool_decide _); [done|]. apply elem_of_cons in Hx as [->|Hx].
  - destruct rest as [|u rest]; [by left|]. destruct (is_user_message u); by left.
  - destruct rest as [|u rest]; [by apply elem_of_nil in Hx|]. destruct (is_user_message u); right; [done|by right].
Qed.
Lemma system_settled events : existsb is_system_message (ensure_system_message system_message events) = true \/ system_message = "".
Proof.
  unfold ensure_system_message. destruct (existsb is_system_message events) eqn:E; [by left|]. cbn [orb].
  destruct (String.eqb_spec system_message ""); [by right|by left].
Qed.
(** The first message of the user is in its place, or was forgotten. *)
Definition user_settled (initial : event) (forgotten : list Z) (events : list event) : Prop :=
  match events with
  | [] => True
  | _ :: rest => bool_decide (event_id initial ∈ forgotten) = true \/ match rest with u :: _ => is_user_message u = true | [] => False end
  end.
Lemma insert_settles events initial forgotten : is_user_message initial = true ->
  user_settled initial forgotten (ensure_initial_user_message events initial forgotten).
Proof.
  intros Hi. unfold ensure_initial_user_message. destruct events as [|e rest]; [done|].
  destruct (bool_decide _) eqn:E; [by left|]. destruct rest as [|u rest]; [by right|]. destruct (is_user_message u) eqn:Hu; by right.
Qed.
Lemma settled_kept events initial forgotten : user_settled initial forgotten events -> ensure_initial_user_message events initial forgotten = events.
Proof.
  unfold user_settled, ensure_initial_user_message. destruct events as [|e rest]; [done|]. intros [->|H]; [done|].
  destruct rest as [|u rest]; [done|]. rewrite H. by destruct (bool_decide _).
Qed.
Lemma alike_settled initial forgotten events later : Forall2 alike events later ->
  user_settled initial forgotten events -> user_settled initial forgotten later.
Proof.
  intros H. inversion H as [|e e' rest rest' _ Hr]; subst; [done|]. intros [Hf|Hu]; [by left|right].
  inversion Hr as [|u u' ? ? [_ E] _]; subst; [done|]. by rewrite E.
Qed.
Lemma ensured_again events initial forgotten later : is_user_message initial = true ->
  Forall2 alike (ensure_initial_user_message (ensure_system_message system_message events) initial forgotten) later ->
  ensure_initial_user_message (ensure_system_message system_message later) initial forgotten = later.
Proof.
  intros Hi H. assert (ensure_system_message system_message later = later) as ->.
  { unfold ensure_system_message. rewrite (alike_system _ _ H). destruct (system_settled events) as [Hs| ->]; [|by rewrite orb_true_r].
    by rewrite user_insert_keeps. }
  apply settled_kept. eapply alike_settled; [done|]. by apply insert_settles.
Qed.
End again.

(** Processing is repeatable: the events that [process_events] leaves behind, with
    the messages it inserted and the thoughts it rewrote, give the same messages and
    are left as they are. *)
Lemma processing_is_repeatable metadata_of config context microagents prompt str_event max_chars vision events initial forgotten msgs left
    (Hi : is_user_message initial = true)
    (H : process_events metadata_of config context microagents prompt str_event max_chars vision events initial forgotten = Ok (msgs, left)) :
  process_events metadata_of config context microagents prompt str_event max_chars vision left initial forgotten = Ok (msgs, left).
Proof.
  unfold process_events in *. destruct (process_from _ _ _ _ _ _ _ _ _ _) as [r|] eqn:E; cbn [rbind] in H; [|done]. injection H as <- <-.
  apply from_again in E as (later & El & E2 & Ha). cbn [app] in El. rewrite El, (ensured_again _ _ _ _ _ Hi Ha), E2. cbn [rbind]. by rewrite El.
Qed.

(** ** A session *)

(** The metadata of the call [i] of a shell command. *)
Definition shell_metadata (m : CallMetadata) : ToolCallMetadata :=
  let i := match cm_tool_call_id m with "" => "call" | i => i end in
  {| tm_function_name := "execute_bash"; tm_tool_call_id := i;
     model_response :=
       {| response_id := "r" +:+ i;
          choices := [{| msg_role := None; msg_content := Some "Looking.";
                         msg_tool_calls := Some [{| call_id := Some i; function_name := Some "execute_bash"; function_arguments := "{}" |}] |}] |} |}.
Definition shell_config : AgentConfig := {| enable_som_visual_browsing := false; enable_prompt_extensions := false; disabled_microagents := [] |}.
Definition shell_event (src : EventSource) (m : option CallMetadata) (b : body) : event :=
  {| _id := None; _timestamp := None; _source := Some src; _cause := None; _timeout := None; _llm_metrics := None;
     _tool_call_metadata := m; _response_id := None; data := b |}.
Definition call_of (i : string) : CallMetadata :=
  {| cm_function_name := "execute_bash"; cm_tool_call_id := i; cm_model_response := VNone; cm_total_calls_in_response := 1 |}.
Definition ask : event := shell_event USER None (MessageAction "List the files." None None false RISK_UNKNOWN).
Definition shell_history : list event :=
  [shell_event AGENT (Some (call_of "a")) (CmdRunAction "ls" false "" false false None false CONFIRMED RISK_LOW);
   shell_event AGENT (Some (call_of "a")) (CmdOutputObservation "x.txt" "ls" default_metadata false);
   shell_event AGENT (Some (call_of "b")) (AgentThinkAction "One more.");
   shell_event AGENT (Some (call_of "c")) (AgentFinishAction "" [] "Done.")].
Definition shell_messages : res (list Message * list event) :=
  process_events shell_metadata shell_config (fun _ _ _ _ => "") (fun _ => "") "You help." (fun _ => "") (Some 1000) false shell_history ask [].
Definition messages_of (r : res (list Message * list event)) : list Message := match r with Ok (ms, _) => ms | Raise _ => [] end.
Definition events_of (r : res (list Message * list event)) : list event := match r with Ok (_, es) => es | Raise _ => [] end.
Lemma shell_metadata_proper : proper_metadata shell_metadata.
Proof. intros v. split; [by destruct v as [? [|c s] ? ?]|]. by repeat constructor. Qed.
Lemma shell_messages_ok : shell_messages = Ok (messages_of shell_messages, events_of shell_messages).
Proof. reflexivity. Qed.
Lemma calls_answered_in_place_witness :
  protocol (messages_of shell_messages) /\
  exists raw, filter_unmatched_tool_calls raw = raw /\ messages_of shell_messages = apply_user_message_formatting raw.
Proof. exact (calls_answered_in_place _ _ _ _ _ _ _ _ _ _ _ _ _ shell_metadata_proper shell_messages_ok). Defined.
Lemma conversation_opens_witness : exists e u later rest, events_of shell_messages = e :: u :: later /\
  is_system_message e = true /\ is_user_message u = true /\
  messages_of shell_messages = new_message "system" [text (system_text e)] :: new_message "user" (user_content false u) :: rest.
Proof.
  apply (conversation_opens shell_metadata shell_config (fun _ _ _ _ => "") (fun _ => "") "You help." (fun _ => "") (Some 1000) false
           shell_history ask []); [intros Hs; discriminate Hs|discriminate|reflexivity|apply not_elem_of_nil|reflexivity].
Defined.
Lemma processing_is_repeatable_witness :
  process_events shell_metadata shell_config (fun _ _ _ _ => "") (fun _ => "") "You help." (fun _ => "") (Some 1000) false
    (events_of shell_messages) ask [] = shell_messages.
Proof.
  exact (processing_is_repeatable shell_metadata shell_config (fun _ _ _ _ => "") (fun _ => "") "You help." (fun _ => "") (Some 1000) false
           shell_history ask [] (messages_of shell_messages) (events_of shell_messages) eq_refl shell_messages_ok).
Defined.

(** ** Where the code and its words differ *)

Definition plain_events (metadata : CallMetadata -> ToolCallMetadata) (l : list event) : res (list Message * list event) :=
  process_events metadata shell_config (fun _ _ _ _ => "") (fun _ => "") "You help." (fun _ => "") (Some 1000) false l ask [].
(** A response with the calls of the given ids. *)
Definition response_with (ids : list string) (m : CallMetadata) : ToolCallMetadata :=
  {| tm_function_name := "execute_bash"; tm_tool_call_id := cm_tool_call_id m;
     model_response :=
       {| response_id := "r";
          choices := [{| msg_role := None; msg_content := Some "Looking.";
                         msg_tool_calls := Some (map (fun i => {| call_id := Some i; function_name := Some "execute_bash"; function_arguments := "{}" |}) ids) |}] |} |}.
Definition run (i : string) : event := shell_event AGENT (Some (call_of i)) (CmdRunAction "ls" false "" false false None false CONFIRMED RISK_LOW).
Definition output (i : string) : event := shell_event AGENT (Some (call_of i)) (CmdOutputObservation "x.txt" "ls" default_metadata false).

(** Of two calls in one response only the first was answered: neither the calls nor the
    result that is there reach the model, and the filter that would keep the answered
    call has nothing to keep. *)
Lemma partial_results_vanish :
  map role (messages_of (plain_events (response_with ["a"; "b"]) [run "a"; run "b"; output "a"])) = ["system"; "user"].
Proof. reflexivity. Qed.
(** Two calls with one id. *)
Lemma repeated_id_crashes : plain_events (response_with ["a"; "a"]) [run "a"; output "a"] = Raise (KeyError "a").
Proof. reflexivity. Qed.
(** The observation of a [FileWriteAction], which the runtime does return. *)
Lemma written_file_crashes :
  plain_events shell_metadata [shell_event AGENT None (FileWriteObservation "" "x.txt")] =
  Raise (ValueError "Unknown observation type: <class 'openhands.events.observation.files.FileWriteObservation'>").
Proof. reflexivity. Qed.
(** A cell that the user ran is announced as a request to read a file. *)
Lemma cell_announced_as_file :
  exists t, last (messages_of (plain_events shell_metadata [shell_event USER None (IPythonRunCellAction "1" "" false CONFIRMED RISK_LOW "")])) =
            Some (new_message "user" [text (newline +:+ newline +:+ "User requested to read file: " +:+ t)]).
Proof. exists "". reflexivity. Qed.
