(* ===== verification/State.v ===== *)
(** * The state of an agent

    Models [controller/state/control_flags.py], [controller/state/state.py],
    [controller/state/state_tracker.py] and [controller/replay.py].

    The control flags are shared between an agent and its delegate, and are
    kept apart from [State].  [history_without_delegates] is what [_init_history]
    makes of the events it finds; [init_history_spec] says what that is when no
    delegation lies inside another one, and [nested_delegates_leak] what it is
    otherwise. *)

From S2P Require Import Prelude PyStr PyDict PyFloat PyList PyVal Events Serialization FileStore EventStore EventLog View Stuck.

(** ** Control flags *)

Record IterationControlFlag := { i_limit_increase_amount : Z; i_current_value : Z; i_max_value : Z; i_hit_limit : bool }.
Record BudgetControlFlag := {
  b_limit_increase_amount : float; b_current_value : float; b_max_value : float; b_hit_limit : bool }.

Definition i_with (current max : Z) (hit : bool) (f : IterationControlFlag) : IterationControlFlag :=
  {| i_limit_increase_amount := i_limit_increase_amount f; i_current_value := current; i_max_value := max; i_hit_limit := hit |}.
Definition b_with (current max : float) (hit : bool) (f : BudgetControlFlag) : BudgetControlFlag :=
  {| b_limit_increase_amount := b_limit_increase_amount f; b_current_value := current; b_max_value := max; b_hit_limit := hit |}.

Definition i_reached_limit : M IterationControlFlag bool :=
  fun f => let hit := i_max_value f <=? i_current_value f in (Ok hit, i_with (i_current_value f) (i_max_value f) hit f).
Definition b_reached_limit : M BudgetControlFlag bool :=
  fun f => let hit := fle (b_max_value f) (b_current_value f) in (Ok hit, b_with (b_current_value f) (b_max_value f) hit f).

Definition i_increase_limit (headless_mode : bool) (f : IterationControlFlag) : IterationControlFlag :=
  if negb headless_mode && i_hit_limit f
  then i_with (i_current_value f) (i_max_value f + i_limit_increase_amount f) false f else f.
Definition b_increase_limit (headless_mode : bool) (f : BudgetControlFlag) : BudgetControlFlag :=
  if b_hit_limit f then b_with (b_current_value f) (fadd (b_current_value f) (b_limit_increase_amount f)) false f else f.

Definition max_iteration_error (f : IterationControlFlag) : exn :=
  RuntimeError ("Agent reached maximum iteration. Current iteration: " +:+ str_of_Z (i_current_value f) +:+ ", max iteration: "
                +:+ str_of_Z (i_max_value f)).
Definition max_budget_error (f : BudgetControlFlag) : exn :=
  RuntimeError ("Agent reached maximum budget for conversation.Current budget: " +:+ format_fixed 2 (b_current_value f)
                +:+ ", max budget: " +:+ format_fixed 2 (b_max_value f)).

Definition i_step : M IterationControlFlag unit :=
  reached <- i_reached_limit ;;
  f <- getM ;;
  if reached : bool then raiseM (max_iteration_error f)
  else putM (i_with (i_current_value f + 1) (i_max_value f) (i_hit_limit f) f).
Definition b_step : M BudgetControlFlag unit :=
  reached <- b_reached_limit ;;
  f <- getM ;;
  if reached : bool then raiseM (max_budget_error f) else retM tt.

(** The flags of a conversation. *)
Record Flags := { iteration_flag : IterationControlFlag; budget_flag : option BudgetControlFlag }.
Definition new_flags (max_iterations : Z) (max_budget_per_task : option float) : Flags :=
  {| iteration_flag := {| i_limit_increase_amount := max_iterations; i_current_value := 0; i_max_value := max_iterations;
                          i_hit_limit := false |};
     budget_flag := match max_budget_per_task with
                    | Some x => if ftruth x then Some {| b_limit_increase_amount := x; b_current_value := f0; b_max_value := x;
                                                         b_hit_limit := false |} else None
                    | None => None
                    end |}.
Definition with_iteration (f : IterationControlFlag) (c : Flags) : Flags := {| iteration_flag := f; budget_flag := budget_flag c |}.
Definition with_budget (f : option BudgetControlFlag) (c : Flags) : Flags := {| iteration_flag := iteration_flag c; budget_flag := f |}.

Definition maybe_increase_control_flags_limits (headless_mode : bool) (c : Flags) : Flags :=
  {| iteration_flag := i_increase_limit headless_mode (iteration_flag c);
     budget_flag := b_increase_limit headless_mode <$> budget_flag c |}.
(** [run_control_flags]: an iteration is counted even when the budget stops it. *)
Definition run_control_flags : M Flags unit :=
  fun c => let '(r, f) := i_step (iteration_flag c) in
           let c := with_iteration f c in
           match r, budget_flag c with
           | Raise e, _ => (Raise e, c)
           | Ok _, None => (Ok tt, c)
           | Ok _, Some b => let '(r, b) := b_step b in (r, with_budget (Some b) c)
           end.
Definition sync_budget_flag_with_metrics (accumulated_cost : float) (c : Flags) : Flags :=
  with_budget ((fun b => b_with accumulated_cost (b_max_value b) (b_hit_limit b) b) <$> budget_flag c) c.

(** ** [State] *)

Record State := {
  session_id : string;
  confirmation_mode : bool;
  history : list event;
  inputs : dict string pyval;
  outputs : dict string pyval;
  agent_state : string;
  resume_state : option string;
  delegate_level : Z;
  start_id : Z;
  end_id : Z;
  parent_iteration : Z;
  last_error : string;
  view_cache : Z * option View;
}.

Notation LOADING := "loading". Notation RUNNING := "running". Notation AWAITING_USER_INPUT := "awaiting_user_input".
Notation PAUSED := "paused". Notation STOPPED := "stopped". Notation FINISHED := "finished". Notation REJECTED_ := "rejected".
Notation ERROR := "error". Notation AWAITING_USER_CONFIRMATION := "awaiting_user_confirmation".
Notation USER_CONFIRMED := "user_confirmed". Notation USER_REJECTED := "user_rejected". Notation RATE_LIMITED := "rate_limited".

Definition no_view : Z * option View := (-1, None).
Definition set_history (l : list event) (s : State) : State :=
  {| session_id := session_id s; confirmation_mode := confirmation_mode s; history := l; inputs := inputs s; outputs := outputs s;
     agent_state := agent_state s; resume_state := resume_state s; delegate_level := delegate_level s; start_id := start_id s;
     end_id := end_id s; parent_iteration := parent_iteration s; last_error := last_error s; view_cache := view_cache s |}.
Definition set_agent_state (a : string) (s : State) : State :=
  {| session_id := session_id s; confirmation_mode := confirmation_mode s; history := history s; inputs := inputs s;
     outputs := outputs s; agent_state := a; resume_state := resume_state s; delegate_level := delegate_level s;
     start_id := start_id s; end_id := end_id s; parent_iteration := parent_iteration s; last_error := last_error s;
     view_cache := view_cache s |}.
Definition set_resume_state (a : option string) (s : State) : State :=
  {| session_id := session_id s; confirmation_mode := confirmation_mode s; history := history s; inputs := inputs s;
     outputs := outputs s; agent_state := agent_state s; resume_state := a; delegate_level := delegate_level s;
     start_id := start_id s; end_id := end_id s; parent_iteration := parent_iteration s; last_error := last_error s;
     view_cache := view_cache s |}.
Definition set_outputs (d : dict string pyval) (s : State) : State :=
  {| session_id := session_id s; confirmation_mode := confirmation_mode s; history := history s; inputs := inputs s; outputs := d;
     agent_state := agent_state s; resume_state := resume_state s; delegate_level := delegate_level s; start_id := start_id s;
     end_id := end_id s; parent_iteration := parent_iteration s; last_error := last_error s; view_cache := view_cache s |}.
Definition set_ids (first last : Z) (s : State) : State :=
  {| session_id := session_id s; confirmation_mode := confirmation_mode s; history := history s; inputs := inputs s;
     outputs := outputs s; agent_state := agent_state s; resume_state := resume_state s; delegate_level := delegate_level s;
     start_id := first; end_id := last; parent_iteration := parent_iteration s; last_error := last_error s;
     view_cache := view_cache s |}.
Definition set_last_error (e : string) (s : State) : State :=
  {| session_id := session_id s; confirmation_mode := confirmation_mode s; history := history s; inputs := inputs s;
     outputs := outputs s; agent_state := agent_state s; resume_state := resume_state s; delegate_level := delegate_level s;
     start_id := start_id s; end_id := end_id s; parent_iteration := parent_iteration s; last_error := e;
     view_cache := view_cache s |}.
Definition set_view_cache (c : Z * option View) (s : State) : State :=
  {| session_id := session_id s; confirmation_mode := confirmation_mode s; history := history s; inputs := inputs s;
     outputs := outputs s; agent_state := agent_state s; resume_state := resume_state s; delegate_level := delegate_level s;
     start_id := start_id s; end_id := end_id s; parent_iteration := parent_iteration s; last_error := last_error s;
     view_cache := c |}.

(** The property [view]: cached under the length of the history. *)
Definition view : M State View :=
  fun s =>
    let checksum := Z.of_nat (length (history s)) in
    if checksum =? (view_cache s).1
    then match (view_cache s).2 with
         | Some v => (Ok v, s)
         | None => (Raise (OtherError "AttributeError" "'State' object has no attribute '_view'"), s)
         end
    else match from_events (history s) with
         | Ok v => (Ok v, set_view_cache (checksum, Some v) s)
         | Raise e => (Raise e, set_view_cache (checksum, (view_cache s).2) s)
         end.

(** [get_current_user_intent] on the events of the view. *)
Fixpoint user_intent (reversed : list event) (last_user_message : option string) (images : option (list string))
    : option string * option (list string) :=
  match reversed with
  | [] => (last_user_message, images)
  | e :: l =>
      match data e with
      | MessageAction content _ image_urls _ _ =>
          if bool_decide (_source e = Some USER) then user_intent l (Some content) image_urls
          else user_intent l last_user_message images
      | AgentFinishAction _ _ _ =>
          match last_user_message with Some m => (Some m, None) | None => user_intent l last_user_message images end
      | _ => user_intent l last_user_message images
      end
  end.
Definition get_current_user_intent : M State (option string * option (list string)) :=
  v <- view ;; retM (user_intent (rev (events v)) None (Some [])).
Definition get_last_agent_message : M State (option event) := v <- view ;; retM (List.find is_agent_message (rev (events v))).
Definition get_last_user_message : M State (option event) := v <- view ;; retM (List.find is_user_message (rev (events v))).
Definition get_local_step (c : Flags) (s : State) : Z :=
  let current := i_current_value (iteration_flag c) in if parent_iteration s =? 0 then current else current - parent_iteration s.

(** [__getstate__] and [restore_from_session]. *)
Definition RESUMABLE_STATES : list string := [RUNNING; PAUSED; AWAITING_USER_INPUT; FINISHED].
Definition pickled (s : State) : State := set_view_cache no_view (set_history [] s).
Definition restored (s : State) : State :=
  set_agent_state LOADING
    (set_resume_state (if bool_decide (agent_state s ∈ RESUMABLE_STATES) then Some (agent_state s) else None) s).

(** ** [StateTracker] *)

Definition is_backend_event (b : body) : bool :=
  match b with
  | NullAction | NullObservation _ | ChangeAgentStateAction _ _ | AgentStateChangedObservation _ _ _ => true
  | _ => false
  end.
Definition agent_history_filter : EventFilter :=
  {| exclude_hidden := true; query := None; include_types := None; exclude_types := Some [is_backend_event]; source := None;
     start_date := None; end_date := None |}.

Definition set_initial_state (id : string) (state : option State) (confirmation : bool) : State :=
  match state with
  | Some s => if start_id s <=? -1 then set_ids 0 (end_id s) s else s
  | None =>
      {| session_id := if endswith id "-delegate" then slice_to id (-9) else id; confirmation_mode := confirmation; history := [];
         inputs := []; outputs := []; agent_state := LOADING; resume_state := None; delegate_level := 0; start_id := 0; end_id := -1;
         parent_iteration := 100; last_error := ""; view_cache := no_view |}
  end.

(** *** Events of delegates *)

(** The matched pairs of action and observation, innermost first. *)
Fixpoint delegate_pairs (events : list event) (unmatched : list Z) : list (Z * Z) :=
  match events with
  | [] => []
  | e :: l =>
      match data e with
      | AgentDelegateAction _ _ _ => delegate_pairs l (event_id e :: unmatched)
      | AgentDelegateObservation _ _ =>
          match unmatched with
          | [] => delegate_pairs l []
          | a :: unmatched => (a, event_id e) :: delegate_pairs l unmatched
          end
      | _ => delegate_pairs l unmatched
      end
  end.
(** [sorted] on pairs. *)
Definition sort_ranges (l : list (Z * Z)) : list (Z * Z) := sort_by fst (sort_by snd l).

Fixpoint index_after (end_id : Z) (i : nat) (events : list event) (n : nat) : nat :=
  match events with
  | [] => n
  | e :: l => if end_id <? event_id e then i else index_after end_id (S i) l n
  end.
Fixpoint filter_ranges (events : list event) (ranges : list (Z * Z)) (current_idx : nat) : list event :=
  match ranges with
  | [] => drop current_idx events
  | (start_id, end_id) :: ranges =>
      List.filter (fun e => event_id e <? start_id) (drop current_idx events) ++
      List.filter (fun e => (event_id e =? start_id) || (event_id e =? end_id)) events ++
      filter_ranges events ranges (index_after end_id 0 events (length events))
  end.
Definition history_without_delegates (events : list event) : list event :=
  match sort_ranges (delegate_pairs events []) with
  | [] => events
  | ranges => filter_ranges events ranges 0
  end.

Section tracker.
Context (text : dict string pyval -> string) (version : string) (literal_eval : string -> option (dict string pyval)).
Context {F : Type} `{FileStore F} (sid : string) (user_id : option string).

Definition history_range (s : State) (cur_id : Z) : Z * Z :=
  (if 0 <=? start_id s then start_id s else 0, if 0 <=? end_id s then end_id s else cur_id - 1).
Definition history_events (f : F) (cur_id first last : Z) : res (list event) :=
  match search_events text version literal_eval sid user_id f cur_id first (Some last) false (Some agent_history_filter) None with
  | (events, None) => Ok events
  | (_, Some e) => Raise e
  end.
Definition init_history (f : F) (cur_id : Z) (s : State) : res State :=
  let '(first, last) := history_range s cur_id in
  if last + 1 <? first then Ok (set_history [] s)
  else events <-! history_events f cur_id first last ;;
       (* [start_id] is also the variable of the loop over the ranges *)
       let first := match List.last (sort_ranges (delegate_pairs events [])) (first, last) with (a, _) => a end in
       Ok (set_ids first (end_id s) (set_history (history_without_delegates events) s)).
Definition close_history (f : F) (cur_id : Z) (s : State) : res State :=
  let '(first, last) := history_range s cur_id in
  events <-! history_events f cur_id first last ;; Ok (set_history events s).
Definition add_history (e : event) (s : State) : res State :=
  b <-! include text agent_history_filter e ;; Ok (if b : bool then set_history (history s ++ [e]) s else s).
End tracker.

(** ** [ReplayManager] *)

Record ReplayManager := { replay_events : list event; replay_mode : bool; replay_index : nat }.

Definition replayed_event (e : event) : bool :=
  negb (bool_decide (_source e = Some ENVIRONMENT)) && match data e with NullObservation _ => false | _ => true end.
Definition without_wait (e : event) : event :=
  match data e with
  | MessageAction c fu iu true r => with_data e (MessageAction c fu iu false r)
  | _ => e
  end.
(** All events but the last. *)
Fixpoint clear_waits (l : list event) : list event :=
  match l with [] => [] | [e] => [e] | e :: l => without_wait e :: clear_waits l end.
Definition new_replay (events : option (list event)) : ReplayManager :=
  let l := clear_waits (List.filter replayed_event (default [] events)) in
  {| replay_events := l; replay_mode := match l with [] => false | _ => true end; replay_index := 0 |}.
Definition at_index (i : nat) (r : ReplayManager) : ReplayManager :=
  {| replay_events := replay_events r; replay_mode := replay_mode r; replay_index := i |}.
Definition replayable (r : ReplayManager) : bool :=
  match replay_events r !! replay_index r with Some e => is_action (data e) | None => false end.
(** The loop of [should_replay] over the events that are left. *)
Fixpoint skip_observations (l : list event) (i : nat) : nat :=
  match l with [] => i | e :: l => if is_action (data e) then i else skip_observations l (S i) end.
Definition should_replay : M ReplayManager bool :=
  fun r => if negb (replay_mode r) then (Ok false, r)
           else let r := at_index (skip_observations (drop (replay_index r) (replay_events r)) (replay_index r)) r in (Ok (replayable r), r).
Definition replay_step : M ReplayManager event :=
  fun r => match replay_events r !! replay_index r with
           | Some e => if is_action (data e) then (Ok e, at_index (S (replay_index r)) r)
                       else (Raise (OtherError "AssertionError" ""), r)
           | None => (Raise (OtherError "IndexError" "list index out of range"), r)
           end.
Fixpoint get_replay_events (version : string) (literal_eval : string -> option (dict string pyval))
    (trajectory : list (dict string pyval)) : res (list event) :=
  match trajectory with
  | [] => Ok []
  | item :: l =>
      e <-! event_from_dict version literal_eval item ;;
      rest <-! get_replay_events version literal_eval l ;;
      Ok (if bool_decide (_source e = Some ENVIRONMENT) then rest
          else {| _id := None; _timestamp := _timestamp e; _source := _source e; _cause := _cause e; _timeout := _timeout e;
                  _llm_metrics := _llm_metrics e; _tool_call_metadata := _tool_call_metadata e; _response_id := _response_id e;
                  data := data e |} :: rest)
  end.

(** ** The history of an agent with delegates *)

Definition inside (ranges : list (Z * Z)) (e : event) : bool := existsb (fun r => (r.1 <? event_id e) && (event_id e <? r.2)) ranges.
(** Delegations one after the other, after the id [lo]. *)
Fixpoint separated (lo : Z) (ranges : list (Z * Z)) : Prop :=
  match ranges with [] => True | (a, b) :: ranges => lo < a < b /\ separated b ranges end.

Lemma inside_after ranges lo e : separated lo ranges -> event_id e <= lo -> inside ranges e = false.
Proof.
  revert lo; induction ranges as [|[a b] ranges IH]; intros lo; [done|]. cbn [separated inside existsb fst snd]. intros [Hab Hs] He.
  apply orb_false_iff. split; [|apply (IH b); [done|lia]]. destruct (Z.ltb_spec a (event_id e)); [lia|done].
Qed.
Lemma index_after_spec b l : ids_increase l -> forall pre i, length pre = i ->
  drop (index_after b i l (i + length l)) (pre ++ l) = List.filter (fun e => b <? event_id e) l.
Proof.
  induction 1 as [|e l Hl IH He]; intros pre i Hpre; cbn [index_after List.filter].
  - rewrite drop_ge; [done|]. rewrite length_app. cbn [length]. lia.
  - destruct (Z.ltb_spec b (event_id e)) as [Hb|Hb].
    + rewrite drop_app_length' by done. f_equal. symmetry. apply List.forallb_filter_id, forallb_forall. intros a Ha%list_elem_of_In.
      rewrite Forall_forall in He. specialize (He a Ha). lia.
    + specialize (IH (pre ++ [e]) (S i)). rewrite <- app_assoc in IH. cbn [app] in IH. cbn [length].
      replace (i + S (length l))%nat with (S i + length l)%nat by lia. apply IH. rewrite length_app. cbn [length]. lia.
Qed.
Lemma filter_ranges_spec l ranges : ids_increase l -> forall lo idx, separated lo ranges ->
  drop idx l = List.filter (fun e => lo <? event_id e) l ->
  filter_ranges l ranges idx = List.filter (fun e => (lo <? event_id e) && negb (inside ranges e)) l.
Proof.
  intros Hl. induction ranges as [|[a b] ranges IH]; intros lo idx Hsep Hidx; cbn [filter_ranges].
  - rewrite Hidx. apply List.filter_ext. intros e. by rewrite andb_true_r.
  - destruct Hsep as [Hab Hsep]. rewrite Hidx, filter_filter.
    rewrite (IH b) by (try done; by apply (index_after_spec b l Hl [] 0)).
    apply increase_unique; [|by apply increase_filter|].
    + repeat apply increase_join; try by apply increase_filter.
      * intros x y. rewrite !elem_of_filter_list, !orb_true_iff, !andb_true_iff, !Z.eqb_eq. lia.
      * intros x y. rewrite elem_of_app, !elem_of_filter_list, !orb_true_iff, !andb_true_iff, !Z.eqb_eq. lia.
    + intros e. rewrite !elem_of_app, !elem_of_filter_list. cbn [inside existsb fst snd].
      pose proof (inside_after ranges b e Hsep) as Hafter.
      rewrite !negb_orb, !andb_true_iff, !orb_true_iff, !negb_true_iff, andb_false_iff, !Z.eqb_eq, !Z.ltb_lt, !Z.ltb_ge. fold (inside ranges e).
      cut (lo < event_id e < a \/ (event_id e = a \/ event_id e = b) \/ (b < event_id e /\ inside ranges e = false) <->
           lo < event_id e /\ (event_id e <= a \/ b <= event_id e) /\ inside ranges e = false); [tauto|].
      destruct (Z.le_gt_cases (event_id e) b) as [Hle|Hgt]; [rewrite (Hafter Hle)|]; split.
      * intros [?|[[?|?]|[? _]]]; split_and!; (lia || done).
      * intros (? & ? & _). assert (lo < event_id e < a \/ event_id e = a \/ event_id e = b) by lia. tauto.
      * intros [?|[[?|?]|[? ?]]]; split_and!; (lia || done).
      * intros (? & ? & ?). right; right. split; [lia|done].
Qed.

(** The history that is restored for an agent: of the events in its range,
    those strictly between a delegation and its answer are left out and all
    others are kept once and in order, provided that no delegation lies inside
    another one. *)
Lemma init_history_spec l : ids_increase l -> Forall (fun e => 0 <= event_id e) l ->
  separated (-1) (sort_ranges (delegate_pairs l [])) ->
  history_without_delegates l = List.filter (fun e => negb (inside (sort_ranges (delegate_pairs l [])) e)) l.
Proof.
  intros Hl Hpos Hsep. rewrite Forall_forall in Hpos. unfold history_without_delegates.
  assert (forall e, In e l -> (-1 <? event_id e) = true) as Hlow.
  { intros e He%list_elem_of_In. specialize (Hpos e He). lia. }
  destruct (sort_ranges (delegate_pairs l [])) as [|r ranges] eqn:E.
  - symmetry. apply List.forallb_filter_id, forallb_forall. done.
  - rewrite (filter_ranges_spec l (r :: ranges) Hl (-1) 0 Hsep).
    + apply List.filter_ext_in. intros e He. by rewrite Hlow.
    + symmetry. cbn [drop]. by apply List.forallb_filter_id, forallb_forall.
Qed.



Definition delegation (i : Z) : event := numbered i (AgentDelegateAction "helper" [] "").
Definition delegated (i : Z) : event := numbered i (AgentDelegateObservation "" []).
Definition message_event (i : Z) : event := numbered i (MessageAction "m" None None false RISK_UNKNOWN).
Definition delegating_history : list event :=
  [message_event 0; delegation 1; message_event 2; delegated 3; message_event 4; delegation 5; message_event 6; delegated 7].
Lemma init_history_spec_witness :
  history_without_delegates delegating_history =
  List.filter (fun e => negb (inside (sort_ranges (delegate_pairs delegating_history [])) e)) delegating_history.
Proof.
  apply (init_history_spec delegating_history).
  - unfold delegating_history, ids_increase. repeat constructor.
  - unfold delegating_history. repeat constructor; by vm_compute.
  - by vm_compute.
Defined.
Example delegated_work_hidden : map event_id (history_without_delegates delegating_history) = [0; 1; 3; 4; 5; 7].
Proof. by vm_compute. Qed.

(** The pair of a delegation inside another one is added after the outer pair,
    and what followed it is added again. *)
Example nested_delegates_leak :
  map event_id (history_without_delegates
    [message_event 0; delegation 1; delegation 2; message_event 3; delegated 4; message_event 5; delegated 6; message_event 7])
  = [0; 1; 6; 2; 4; 5; 6; 7].
Proof. by vm_compute. Qed.

(** The loop over the ranges assigns to the variable that is then stored as the
    start of the history: what lies before the last delegation is gone when the
    history is built again, as [close] does. *)
Definition restored_state : State := set_initial_state "s" None false.
Definition filled (l : list body) : EventStream (F := InMemoryFileStore) :=
  after (add_events "1" (fun _ => None) "s" None (map (fun b => ("t", new_event b, AGENT)) l) (new_stream [])).
Example start_of_history_lost :
  let f := file_store (filled (map data delegating_history)) in
  (s <-! init_history (fun _ => "") "1" (fun _ => None) "s" None f 8 restored_state ;; Ok (start_id s)) = Ok 5 /\
  (s <-! init_history (fun _ => "") "1" (fun _ => None) "s" None f 8 restored_state ;;
   s <-! close_history (fun _ => "") "1" (fun _ => None) "s" None f 8 s ;; Ok (map event_id (history s))) = Ok [5; 6; 7].
Proof. by vm_compute. Qed.

(** The view is cached under the length of the history: cutting the history and
    letting it grow to its old length leaves the agent with the old view. *)
Example view_stale :
  let s := set_history [message_event 0; message_event 1] restored_state in
  let s := after (view s) in
  let s := set_history [message_event 0; message_event 2] s in
  (fun v => map event_id (events v)) <$> (match outcome (view s) with Ok v => Some v | _ => None end) = Some [0; 1].
Proof. by vm_compute. Qed.

(** ** Control flags *)

(** A step is counted when, and only when, it is below the limit. *)
Lemma i_step_spec f :
  i_step f = if i_max_value f <=? i_current_value f
             then (Raise (max_iteration_error f), i_with (i_current_value f) (i_max_value f) true f)
             else (Ok tt, i_with (i_current_value f + 1) (i_max_value f) false f).
Proof. unfold i_step, i_reached_limit, bindM, getM, putM. by destruct (i_max_value f <=? i_current_value f). Qed.
Lemma b_step_spec f :
  b_step f = if fle (b_max_value f) (b_current_value f)
             then (Raise (max_budget_error f), b_with (b_current_value f) (b_max_value f) true f)
             else (Ok tt, b_with (b_current_value f) (b_max_value f) false f).
Proof. unfold b_step, b_reached_limit, bindM, getM, retM. by destruct (fle (b_max_value f) (b_current_value f)). Qed.

(** ** Replay *)

(** Replaying until [should_replay] says no. *)
Fixpoint replay_all (fuel : nat) (r : ReplayManager) : option (list event) :=
  match fuel with
  | O => None
  | S fuel =>
      match should_replay r with
      | (Ok true, r) => match replay_step r with
                        | (Ok e, r) => cons e <$> replay_all fuel r
                        | (Raise _, _) => None
                        end
      | _ => Some []
      end
  end.
Lemma skip_observations_spec l i :
  let j := skip_observations l i in
  (i <= j)%nat /\ List.filter ev_is_action l = List.filter ev_is_action (drop (j - i) l) /\
  match drop (j - i) l with [] => True | e :: _ => is_action (data e) = true end.
Proof.
  revert i; induction l as [|e l IH]; intros i; cbn [skip_observations].
  - rewrite drop_nil. split_and!; [lia|done|done].
  - destruct (is_action (data e)) eqn:E.
    + rewrite Nat.sub_diag. by split_and!.
    + destruct (IH (S i)) as (H1 & H2 & H3). replace (skip_observations l (S i) - i)%nat with (S (skip_observations l (S i) - S i)) by lia.
      cbn [drop List.filter]. unfold ev_is_action at 1. rewrite E. split_and!; [lia|done|done].
Qed.
Lemma replay_all_spec l fuel i : (length l < fuel + i)%nat -> (i <= length l)%nat ->
  replay_all fuel {| replay_events := l; replay_mode := true; replay_index := i |} = Some (List.filter ev_is_action (drop i l)).
Proof.
  revert i; induction fuel as [|fuel IH]; intros i Hf Hi; [lia|]. cbn [replay_all]. unfold should_replay. cbn [replay_mode negb replay_index replay_events].
  destruct (skip_observations_spec (drop i l) i) as (Hj & Hfil & Hhd). rewrite drop_drop in Hfil, Hhd.
  set (j := skip_observations (drop i l) i) in *. replace (i + (j - i))%nat with j in * by lia. rewrite Hfil.
  unfold replayable. cbn [at_index replay_index replay_events]. destruct (drop j l) as [|e rest] eqn:Ed.
  - assert (length l <= j)%nat by (apply (f_equal length) in Ed; rewrite length_drop in Ed; cbn in Ed; lia).
    by rewrite lookup_ge_None_2.
  - assert (l !! j = Some e) as Hl by (rewrite <- (Nat.add_0_r j), <- lookup_drop, Ed; done).
    rewrite Hl, Hhd. unfold replay_step. cbn [at_index replay_index replay_events]. rewrite Hl, Hhd. cbn [at_index replay_events replay_mode].
    unfold at_index. cbn [replay_events replay_mode]. pose proof (lookup_lt_Some _ _ _ Hl). rewrite IH by lia.
    assert (drop (S j) l = rest) as ->.
    { replace (S j) with (j + 1)%nat by lia. rewrite <- drop_drop, Ed. done. }
    cbn [List.filter]. unfold ev_is_action at 2. by rewrite Hhd.
Qed.

(** A trajectory is replayed to its end, and what is replayed are its
    actions in their order, each once: the events of the environment and the
    observations are left out, and no message but the last event waits for a
    response. *)
Lemma replay_in_order l fuel : (length l < fuel)%nat ->
  replay_all fuel (new_replay (Some l)) = Some (List.filter ev_is_action (clear_waits (List.filter replayed_event l))).
Proof.
  intros Hf. unfold new_replay. cbn [default]. unfold id. destruct (clear_waits (List.filter replayed_event l)) as [|e rest] eqn:E.
  - by destruct fuel; [lia|].
  - rewrite replay_all_spec; [done| |lia]. rewrite <- E.
    assert (forall k, length (clear_waits k) = length k) as -> by
      (intros k; induction k as [|a k IH]; [done|]; destruct k; [done|]; cbn [clear_waits length] in *; by rewrite IH).
    pose proof (List.filter_length_le replayed_event l). lia.
Qed.
Lemma replay_in_order_witness :
  replay_all 9 (new_replay (Some delegating_history)) =
  Some (List.filter ev_is_action (clear_waits (List.filter replayed_event delegating_history))).
Proof. apply (replay_in_order delegating_history 9). cbn. lia. Defined.
