(* ===== verification/Controller.v ===== *)
(** * The agent controller

    Models [controller/agent_controller.py]: the reactions of a controller to
    the events of its stream ([on_event]) and the step of its agent ([_step]).

    Parameters: the agents ([agent_step], [agent_reset], their system messages
    and the registry of their classes), the class hierarchy of the LLM library's
    exceptions ([is_a], by class name), the security analyzer, the metrics of
    the conversation, and the clock.  An agent reads its state; what it writes
    into it (the cached view, [extra_data]) is not modelled, nor are logging and
    the pickled state that [save_state] writes.

    All calls happen one after the other, as on the thread of the subscriber.
    The control flags are one object shared by a controller and its delegates.
    [confirmation_state] is a field of two classes of actions and a dynamic
    attribute of the others ([Act]): the copy that the stream publishes has the
    fields only.  Strings being Latin-1, the warning sign and the check mark in
    the messages about loops are left out. *)

From S2P Require Import Prelude Metrics PyStr PyDict PyFloat PyList PyVal Events Serialization FileStore EventStore Stuck State.

(** ** Actions as objects *)

Record Act := { ev : event; dynamic_confirmation : option ActionConfirmationStatus }.

Definition runnable (b : body) : bool :=
  match b with
  | CmdRunAction _ _ _ _ _ _ _ _ _ | IPythonRunCellAction _ _ _ _ _ _ | BrowseURLAction _ _ _ _ | BrowseInteractiveAction _ _ _ _ _
  | FileReadAction _ _ _ _ _ _ _ | FileWriteAction _ _ _ _ _ _ | FileEditAction _ _ _ _ _ _ _ _ _ _ _ _ | MCPAction _ _ _ _ => true
  | _ => false
  end.

Definition field_confirmation (b : body) : option ActionConfirmationStatus :=
  match b with
  | CmdRunAction _ _ _ _ _ _ _ conf _ => Some conf
  | IPythonRunCellAction _ _ _ conf _ _ => Some conf
  | _ => None
  end.
(** [getattr(action, 'confirmation_state', None)] *)
Definition confirmation_state (a : Act) : option ActionConfirmationStatus :=
  match field_confirmation (data (ev a)) with Some c => Some c | None => dynamic_confirmation a end.
Definition set_confirmation_state (c : ActionConfirmationStatus) (a : Act) : Act :=
  match data (ev a) with
  | CmdRunAction command is_input thought blocking is_static cwd hidden _ risk =>
      {| ev := with_data (ev a) (CmdRunAction command is_input thought blocking is_static cwd hidden c risk);
         dynamic_confirmation := dynamic_confirmation a |}
  | IPythonRunCellAction code thought include_extra _ risk init =>
      {| ev := with_data (ev a) (IPythonRunCellAction code thought include_extra c risk init);
         dynamic_confirmation := dynamic_confirmation a |}
  | _ => {| ev := ev a; dynamic_confirmation := Some c |}
  end.

(** [action.security_risk], where the class has it. *)
Definition security_risk (b : body) : option ActionSecurityRisk :=
  match b with
  | CmdRunAction _ _ _ _ _ _ _ _ r | IPythonRunCellAction _ _ _ _ r _ | BrowseURLAction _ _ r _ | BrowseInteractiveAction _ _ _ r _
  | FileReadAction _ _ _ _ r _ _ | FileWriteAction _ _ _ _ _ r | FileEditAction _ _ _ _ _ _ _ _ _ _ r _ | MessageAction _ _ _ _ r
  | MCPAction _ _ _ r => Some r
  | _ => None
  end.
Definition set_security_risk (r : ActionSecurityRisk) (b : body) : body :=
  match b with
  | CmdRunAction c i t bl st cwd h conf _ => CmdRunAction c i t bl st cwd h conf r
  | IPythonRunCellAction c t x conf _ k => IPythonRunCellAction c t x conf r k
  | BrowseURLAction u t _ a => BrowseURLAction u t r a
  | BrowseInteractiveAction x t m _ a => BrowseInteractiveAction x t m r a
  | FileReadAction p s e t _ i v => FileReadAction p s e t r i v
  | FileWriteAction p c s e t _ => FileWriteAction p c s e t r
  | FileEditAction p c ft o n l ct s e t _ i => FileEditAction p c ft o n l ct s e t r i
  | MessageAction c f i w _ => MessageAction c f i w r
  | MCPAction n a t _ => MCPAction n a t r
  | b => b
  end.
(** [action.thought = ''], where the class has it. *)
Definition clear_thought (b : body) : body :=
  match b with
  | CmdRunAction c i _ bl st cwd h conf r => CmdRunAction c i "" bl st cwd h conf r
  | IPythonRunCellAction c _ x conf r k => IPythonRunCellAction c "" x conf r k
  | BrowseURLAction u _ r a => BrowseURLAction u "" r a
  | BrowseInteractiveAction x _ m r a => BrowseInteractiveAction x "" m r a
  | FileReadAction p s e _ r i v => FileReadAction p s e "" r i v
  | FileWriteAction p c s e _ r => FileWriteAction p c s e "" r
  | FileEditAction p c ft o n l ct s e _ r i => FileEditAction p c ft o n l ct s e "" r i
  | AgentThinkAction _ => AgentThinkAction ""
  | AgentFinishAction f o _ => AgentFinishAction f o ""
  | AgentRejectAction o _ => AgentRejectAction o ""
  | AgentDelegateAction a i _ => AgentDelegateAction a i ""
  | RecallAction r q _ => RecallAction r q ""
  | ChangeAgentStateAction a _ => ChangeAgentStateAction a ""
  | MCPAction n a _ r => MCPAction n a "" r
  | TaskTrackingAction c l _ => TaskTrackingAction c l ""
  | b => b
  end.
Definition with_ids (id cause : option Z) (metadata : option CallMetadata) (e : event) : event :=
  {| _id := id; _timestamp := _timestamp e; _source := _source e; _cause := cause; _timeout := _timeout e;
     _llm_metrics := _llm_metrics e; _tool_call_metadata := metadata; _response_id := _response_id e; data := data e |}.
Definition with_source (s : option EventSource) (e : event) : event :=
  {| _id := _id e; _timestamp := _timestamp e; _source := s; _cause := _cause e; _timeout := _timeout e;
     _llm_metrics := _llm_metrics e; _tool_call_metadata := _tool_call_metadata e; _response_id := _response_id e; data := data e |}.
Definition with_metrics (m : Metrics) (e : event) : event :=
  {| _id := _id e; _timestamp := _timestamp e; _source := _source e; _cause := _cause e; _timeout := _timeout e;
     _llm_metrics := Some m; _tool_call_metadata := _tool_call_metadata e; _response_id := _response_id e; data := data e |}.

(** ** Exceptions *)

Definition exn_name (e : exn) : string :=
  match e with
  | KeyError _ => "KeyError" | ValueError _ => "ValueError" | PermissionError _ => "PermissionError" | TypeError _ => "TypeError"
  | RuntimeError _ => "RuntimeError" | OtherError cls _ => cls
  end.
Definition exn_str (e : exn) : string :=
  match e with
  | KeyError key => repr key
  | ValueError m | PermissionError m | TypeError m | RuntimeError m | OtherError _ m => m
  end.

(** ** The controller *)

Record AgentConfig := { enable_stuck_detection : bool; enable_history_truncation : bool; cli_mode : bool }.

Inductive Controller := Ctrl {
  ctl_id : string;
  agent_name : string;
  config : AgentConfig;
  state : State;
  pending_action : option Act;
  delegate : option Controller;
  stuck_analysis : option StuckAnalysis;
  cached_first_user_message : option event;
  replay_manager : ReplayManager;
  ctl_confirmation_mode : bool;
  is_delegate : bool;
  closed : bool;
}.

Definition set_state (s : State) (c : Controller) : Controller :=
  Ctrl (ctl_id c) (agent_name c) (config c) s (pending_action c) (delegate c) (stuck_analysis c) (cached_first_user_message c)
       (replay_manager c) (ctl_confirmation_mode c) (is_delegate c) (closed c).
Definition set_pending (a : option Act) (c : Controller) : Controller :=
  Ctrl (ctl_id c) (agent_name c) (config c) (state c) a (delegate c) (stuck_analysis c) (cached_first_user_message c)
       (replay_manager c) (ctl_confirmation_mode c) (is_delegate c) (closed c).
Definition set_delegate (d : option Controller) (c : Controller) : Controller :=
  Ctrl (ctl_id c) (agent_name c) (config c) (state c) (pending_action c) d (stuck_analysis c) (cached_first_user_message c)
       (replay_manager c) (ctl_confirmation_mode c) (is_delegate c) (closed c).
Definition set_stuck_analysis (a : option StuckAnalysis) (c : Controller) : Controller :=
  Ctrl (ctl_id c) (agent_name c) (config c) (state c) (pending_action c) (delegate c) a (cached_first_user_message c)
       (replay_manager c) (ctl_confirmation_mode c) (is_delegate c) (closed c).
Definition set_cached (e : option event) (c : Controller) : Controller :=
  Ctrl (ctl_id c) (agent_name c) (config c) (state c) (pending_action c) (delegate c) (stuck_analysis c) e
       (replay_manager c) (ctl_confirmation_mode c) (is_delegate c) (closed c).
Definition set_replay (r : ReplayManager) (c : Controller) : Controller :=
  Ctrl (ctl_id c) (agent_name c) (config c) (state c) (pending_action c) (delegate c) (stuck_analysis c) (cached_first_user_message c)
       r (ctl_confirmation_mode c) (is_delegate c) (closed c).
Definition set_closed (c : Controller) : Controller :=
  Ctrl (ctl_id c) (agent_name c) (config c) (state c) (pending_action c) (delegate c) (stuck_analysis c) (cached_first_user_message c)
       (replay_manager c) (ctl_confirmation_mode c) (is_delegate c) true.

Definition ERROR_ACTION_NOT_EXECUTED_STOPPED_ID : string := "AGENT_ERROR$ERROR_ACTION_NOT_EXECUTED_STOPPED".
Definition ERROR_ACTION_NOT_EXECUTED_ERROR_ID : string := "AGENT_ERROR$ERROR_ACTION_NOT_EXECUTED_ERROR".
Definition ERROR_ACTION_NOT_EXECUTED_STOPPED : string := "Stop button pressed. The action has not been executed.".
Definition ERROR_ACTION_NOT_EXECUTED_ERROR : string :=
  "The action has not been executed due to a runtime error. The runtime system may have crashed and restarted due to resource constraints. Any previously established system state, dependencies, or environment variables may have been lost.".

(** [==] of [ToolCallMetadata], and of two that may be missing. *)
Definition metadata_eq (a b : CallMetadata) : bool :=
  String.eqb (cm_function_name a) (cm_function_name b) && String.eqb (cm_tool_call_id a) (cm_tool_call_id b) &&
  py_eq (cm_model_response a) (cm_model_response b) && (cm_total_calls_in_response a =? cm_total_calls_in_response b).
Definition opt_eq (a b : option CallMetadata) : bool :=
  match a, b with Some x, Some y => metadata_eq x y | None, None => true | _, _ => false end.

Section controller.
Context (text : dict string pyval -> string) (version : string) (literal_eval : string -> option (dict string pyval)).
Context {F : Type} `{FileStore F} (sid : string) (user_id : option string).
(** The agents and what they work with. *)
Context {A : Type} (agent_step : string -> State -> A -> res (option event) * A) (agent_reset : string -> A -> A).
Context (system_message : string -> AgentConfig -> option event) (get_cls : string -> res string) (agent_configs : dict string AgentConfig).
Context (accumulated_cost : A -> float) (frontend_metrics : A -> option float -> Metrics).
Context (security_analyzer : option (event -> A -> res ActionSecurityRisk * A)).
Context (is_a : exn -> string -> bool) (retries_exhausted : exn -> bool) (status_callback headless_mode : bool).
Context (clock : Z -> string).

Record World := {
  stream : EventStream (F := F);
  flags : Flags;
  agents : A;
  statuses : list (string * string);
}.
Notation C := (World * Controller)%type.

Definition with_stream (s : EventStream) (w : World) : World :=
  {| stream := s; flags := flags w; agents := agents w; statuses := statuses w |}.
Definition with_flags (f : Flags) (w : World) : World :=
  {| stream := stream w; flags := f; agents := agents w; statuses := statuses w |}.
Definition with_agents (a : A) (w : World) : World :=
  {| stream := stream w; flags := flags w; agents := a; statuses := statuses w |}.
Definition with_status (x : string * string) (w : World) : World :=
  {| stream := stream w; flags := flags w; agents := agents w; statuses := statuses w ++ [x] |}.

Definition self : M C Controller := fun s => (Ok s.2, s).
Definition world : M C World := fun s => (Ok s.1, s).
Definition update (f : Controller -> Controller) : M C unit := fun s => (Ok tt, (s.1, f s.2)).
Definition update_state (f : State -> State) : M C unit := update (fun c => set_state (f (state c)) c).
Definition change_state (f : State -> res State) : M C unit :=
  fun s => match f (state s.2) with
           | Ok st => (Ok tt, (s.1, set_state st s.2))
           | Raise x => (Raise x, s)
           end.
Definition update_world (f : World -> World) : M C unit := fun s => (Ok tt, (f s.1, s.2)).
Definition on_stream {X} (m : M (EventStream (F := F)) X) : M C X :=
  fun s => let '(r, st) := m (stream s.1) in (r, (with_stream st s.1, s.2)).
Definition on_flags (m : M Flags unit) : M C unit :=
  fun s => let '(r, fl) := m (flags s.1) in (r, (with_flags fl s.1, s.2)).
(** A method of the delegate, if there is one. *)
Definition on_delegate (m : M C unit) : M C unit :=
  fun s => match delegate s.2 with
           | None => (Ok tt, s)
           | Some d => let '(r, (w, d)) := m (s.1, d) in (r, (w, set_delegate (Some d) s.2))
           end.

Definition get_agent_state : M C string := c <- self ;; retM (agent_state (state c)).

(** [event_stream.add_event]. *)
Definition publish (e : event) (src : EventSource) : M C event :=
  s <- world ;; on_stream (add_event version literal_eval sid user_id (clock (default 0 (_cur_id (stream s)))) e src).
(** The attributes that the argument has after a failed [add_event]. *)
Definition half_published (before after : EventStream (F := F)) (src : EventSource) (e : event) : event :=
  if negb (event_id e =? INVALID_ID) then e
  else let e' := stamped (clock (default 0 (_cur_id before))) src 0 e in
       {| _id := Z.pred <$> _cur_id after; _timestamp := _timestamp e'; _source := _source e'; _cause := _cause e'; _timeout := _timeout e';
          _llm_metrics := _llm_metrics e'; _tool_call_metadata := _tool_call_metadata e'; _response_id := _response_id e';
          data := data e' |}.
(** [add_event] with the pending action itself, which gets its attributes. *)
Definition publish_pending (src : EventSource) : M C unit :=
  fun s => match pending_action s.2 with
           | None => (Ok tt, s)
           | Some a =>
               let '(r, s') := publish (ev a) src s in
               let e := match r with Ok e => e | Raise _ => half_published (stream s.1) (stream s'.1) src (ev a) end in
               ((_ <-! r ;; Ok tt), (s'.1, set_pending (Some {| ev := e; dynamic_confirmation := dynamic_confirmation a |}) s'.2))
           end.
Definition stream_events (first : Z) : M C (gen event) :=
  id <- on_stream (cur_id sid user_id) ;;
  w <- world ;;
  retM (search_events text version literal_eval sid user_id (file_store (stream w)) id first None false None None).

(** *** [_reset], [set_agent_state_to] *)

Definition is_end_state (s : string) : bool := String.eqb s STOPPED || String.eqb s ERROR.
Definition has_observation_for (metadata : option CallMetadata) (l : list event) : bool :=
  existsb (fun e => is_observation (data e) && opt_eq (_tool_call_metadata e) metadata) l.

Definition reset_ : M C unit :=
  c <- self ;;
  match pending_action c with
  | Some a =>
      let metadata := _tool_call_metadata (ev a) in
      if has_observation_for metadata (history (state c)) then retM tt
      else
        let '(content, id) := if String.eqb (agent_state (state c)) STOPPED
                              then (ERROR_ACTION_NOT_EXECUTED_STOPPED, ERROR_ACTION_NOT_EXECUTED_STOPPED_ID)
                              else (ERROR_ACTION_NOT_EXECUTED_ERROR, ERROR_ACTION_NOT_EXECUTED_ERROR_ID) in
        publish (with_ids None (Some (event_id (ev a))) metadata (new_event (ErrorObservation content id))) AGENT ;;; retM tt
  | None => retM tt
  end ;;;
  update (set_pending None) ;;;
  update_world (fun w => with_agents (agent_reset (agent_name c) (agents w)) w).

Definition set_agent_state_to (new_state : string) : M C unit :=
  old_state <- get_agent_state ;;
  if String.eqb new_state old_state then retM tt
  else
    update_state (set_agent_state new_state) ;;;
    (if is_end_state new_state then reset_ else retM tt) ;;;
    (if String.eqb old_state ERROR && String.eqb new_state RUNNING
     then update_world (fun w => with_flags (maybe_increase_control_flags_limits headless_mode (flags w)) w) else retM tt) ;;;
    c <- self ;;
    match pending_action c with
    | Some a =>
        if String.eqb new_state USER_CONFIRMED || String.eqb new_state USER_REJECTED then
          let e := ev a in
          let a := {| ev := with_data e (clear_thought (data e)); dynamic_confirmation := dynamic_confirmation a |} in
          let a := set_confirmation_state (if String.eqb new_state USER_CONFIRMED then CONFIRMED else REJECTED) a in
          let a := {| ev := with_ids None (_cause (ev a)) (_tool_call_metadata (ev a)) (ev a);
                      dynamic_confirmation := dynamic_confirmation a |} in
          update (set_pending (Some a)) ;;;
          publish_pending AGENT
        else retM tt
    | None => retM tt
    end ;;;
    c <- self ;;
    publish (new_event (AgentStateChangedObservation "" (agent_state (state c))
                          (if String.eqb new_state ERROR then last_error (state c) else ""))) ENVIRONMENT ;;;
    retM tt.

(** *** Errors *)

Definition STATUS_ERROR : string := "STATUS$ERROR".
Definition STATUS_RATE_LIMITED : string := "CHAT_INTERFACE$AGENT_RATE_LIMITED_STOPPED_MESSAGE".
(** The status of an exception, when it replaces the last error. *)
Definition llm_status (e : exn) : option string :=
  if is_a e "AuthenticationError" then Some "STATUS$ERROR_LLM_AUTHENTICATION"
  else if is_a e "ServiceUnavailableError" || is_a e "APIConnectionError" || is_a e "APIError"
  then Some "STATUS$ERROR_LLM_SERVICE_UNAVAILABLE"
  else if is_a e "InternalServerError" then Some "STATUS$ERROR_LLM_INTERNAL_SERVER_ERROR"
  else if is_a e "BadRequestError" && contains "ExceededBudget" (exn_str e) then Some "STATUS$ERROR_LLM_OUT_OF_CREDITS"
  else if is_a e "ContentPolicyViolationError" || (is_a e "BadRequestError" && contains "ContentPolicyViolationError" (exn_str e))
  then Some "STATUS$ERROR_LLM_CONTENT_POLICY_VIOLATION"
  else None.

Definition react_to_exception (e : exn) : M C unit :=
  update_state (set_last_error (exn_name e +:+ ": " +:+ exn_str e)) ;;;
  c <- self ;;
  if negb (status_callback && negb (is_delegate c)) then set_agent_state_to ERROR
  else match llm_status e with
       | Some st =>
           update_state (set_last_error st) ;;;
           update_world (with_status (st, st)) ;;;
           set_agent_state_to ERROR
       | None =>
           if is_a e "RateLimitError" then
             if retries_exhausted e
             then update_state (set_last_error STATUS_RATE_LIMITED) ;;; set_agent_state_to ERROR
             else set_agent_state_to RATE_LIMITED
           else
             c <- self ;;
             update_world (with_status (STATUS_ERROR, last_error (state c))) ;;;
             set_agent_state_to ERROR
       end.

(** *** Recovery from a loop *)

Definition truncate_memory_to_point (recovery_point : Z) : M C unit :=
  c <- self ;;
  let all_events := history (state c) in
  if Z.of_nat (length all_events) <=? recovery_point then retM tt
  else
    let kept := list_to all_events recovery_point in
    update_state (fun s => set_ids (start_id s) (match last kept with Some e => event_id e | None => -1 end) (set_history kept s)) ;;;
    update (set_cached None).

Definition loop_recovery_completed : string :=
  "Loop recovery completed. Agent has been reset to before the loop." +:+ newline +:+
  "You can now provide new instructions to continue." +:+ newline.
Definition perform_loop_recovery (a : StuckAnalysis) : M C unit :=
  truncate_memory_to_point (loop_start_idx a) ;;;
  set_agent_state_to AWAITING_USER_INPUT ;;;
  publish (new_event (LoopDetectionObservation loop_recovery_completed)) ENVIRONMENT ;;;
  retM tt.

(** [attempt_loop_recovery] of the command line. *)
Definition loop_detected (a : StuckAnalysis) (iteration : Z) : string :=
  "Agent detected in a loop!" +:+ newline +:+ "Loop type: " +:+ loop_type a +:+ newline +:+
  "Loop detected at iteration " +:+ str_of_Z iteration +:+ newline +:+ newline +:+ "Recovery options:" +:+ newline +:+
  "/resume 1. Restart from before loop (preserves " +:+ str_of_Z (loop_start_idx a) +:+ " events)" +:+ newline +:+
  "/resume 2. Restart with last user message (reuses your most recent instruction)" +:+ newline +:+ "/exit. Quit directly" +:+ newline +:+
  newline +:+ "The agent has been paused. Type '/resume 1', '/resume 2', or '/exit' to choose an option." +:+ newline.
Definition attempt_loop_recovery : M C bool :=
  c <- self ;;
  match stuck_analysis c with
  | None => retM false
  | Some a =>
      w <- world ;;
      publish (new_event (LoopDetectionObservation (loop_detected a (i_current_value (iteration_flag (flags w)))))) ENVIRONMENT ;;;
      publish (new_event (ChangeAgentStateAction PAUSED "")) ENVIRONMENT ;;;
      retM true
  end.

(** *** Messages *)

Definition first_user_message : M C (option event) :=
  c <- self ;;
  match cached_first_user_message c with
  | Some e => retM (Some e)
  | None =>
      g <- stream_events (start_id (state c)) ;;
      match List.find is_user_message g.1, g.2 with
      | Some e, _ => update (set_cached (Some e)) ;;; retM (Some e)
      | None, Some x => raiseM x
      | None, None => retM None
      end
  end.

Definition handle_message_action (e : event) (content : string) (wait_for_response : bool) : M C unit :=
  if bool_decide (_source e = Some USER) then
    first <- first_user_message ;;
    let recall_type := match first with
                       | Some f => if event_id e =? event_id f then WORKSPACE_CONTEXT else KNOWLEDGE
                       | None => KNOWLEDGE
                       end in
    let recall := {| ev := new_event (RecallAction recall_type content ""); dynamic_confirmation := None |} in
    update (set_pending (Some recall)) ;;;
    publish_pending USER ;;;
    st <- get_agent_state ;;
    (if String.eqb st RUNNING then retM tt else set_agent_state_to RUNNING)
  else if bool_decide (_source e = Some AGENT) && wait_for_response then set_agent_state_to AWAITING_USER_INPUT
  else retM tt.

(** [_restart_with_last_user_message]; its call of [_handle_action] is always on
    a user message. *)
Definition restarting (content : string) : string :=
  newline +:+ "Restarting with your last instruction: " +:+ content +:+ newline +:+ "Agent is now continuing with the same task..." +:+ newline.
Definition restart_with_last_user_message (a : StuckAnalysis) : M C unit :=
  c <- self ;;
  match List.find is_user_message (rev (history (state c))) with
  | Some m =>
      match data m with
      | MessageAction content _ _ _ _ =>
          truncate_memory_to_point (loop_start_idx a) ;;;
          set_agent_state_to RUNNING ;;;
          publish (new_event (LoopDetectionObservation (restarting content))) ENVIRONMENT ;;;
          handle_message_action (with_source (Some USER) (new_event (MessageAction content None None false RISK_UNKNOWN))) content false
      | _ => retM tt
      end
  | None => perform_loop_recovery a
  end.
Definition handle_loop_recovery_action (option : Z) : M C unit :=
  c <- self ;;
  match stuck_analysis c with
  | None => retM tt
  | Some a => if option =? 1 then perform_loop_recovery a
              else if option =? 2 then restart_with_last_user_message a
              else if option =? 3 then set_agent_state_to STOPPED
              else retM tt
  end.

(** *** Making a controller, delegates *)

Definition content_attr (b : body) : string :=
  match b with SystemMessageAction content _ _ _ | MessageAction content _ _ _ _ => content | b => default "" (obs_content b) end.
Definition begins_session (e : event) : bool :=
  is_user_message e || match data e with SystemMessageAction _ _ _ _ => true | _ => false end.
Definition add_system_message : M C unit :=
  c <- self ;;
  g <- stream_events (start_id (state c)) ;;
  match List.find begins_session g.1, g.2 with
  | Some _, _ => retM tt
  | None, Some x => raiseM x
  | None, None =>
      match system_message (agent_name c) (config c) with
      | Some e => if String.eqb (content_attr (data e)) "" then retM tt else publish e AGENT ;;; retM tt
      | None => retM tt
      end
  end.

Definition new_controller (id name : string) (conf : AgentConfig) (initial_state : option State) (confirmation delegated : bool)
    (replay : option (list event)) : Controller :=
  Ctrl id name conf (set_initial_state id initial_state confirmation) None None None None (new_replay replay) confirmation delegated false.
(** What [__init__] does besides: the history from the stream, the system message. *)
Definition init_controller : M C unit :=
  id <- on_stream (cur_id sid user_id) ;;
  w <- world ;;
  change_state (init_history text version literal_eval sid user_id (file_store (stream w)) id) ;;;
  add_system_message.

Definition delegate_state (c : Controller) (inputs : dict string pyval) (latest_event_id current : Z) : State :=
  {| session_id := if endswith (ctl_id c) "-delegate" then slice_to (ctl_id c) (-9) else ctl_id c; confirmation_mode := false;
     history := []; inputs := inputs; outputs := []; agent_state := LOADING; resume_state := None;
     delegate_level := delegate_level (state c) + 1; start_id := latest_event_id + 1; end_id := -1; parent_iteration := current;
     last_error := ""; view_cache := no_view |}.
Definition start_delegate (agent : string) (inputs : dict string pyval) : M C unit :=
  c <- self ;;
  cls <- liftM (get_cls agent) ;;
  id <- on_stream (cur_id sid user_id) ;;
  w <- world ;;
  let st := delegate_state c inputs (id - 1) (i_current_value (iteration_flag (flags w))) in
  let d := new_controller (ctl_id c +:+ "-delegate") cls (default (config c) (dget agent_configs agent)) (Some st) false true None in
  fun s => let '(r, (w, d)) := init_controller (s.1, d) in
           (r, (w, match r with Ok _ => set_delegate (Some d) s.2 | Raise _ => s.2 end)).

Definition close : M C unit :=
  set_agent_state_to STOPPED ;;;
  id <- on_stream (cur_id sid user_id) ;;
  w <- world ;;
  change_state (close_history text version literal_eval sid user_id (file_store (stream w)) id) ;;;
  update set_closed.

Definition is_delegation (e : event) : bool := match data e with AgentDelegateAction _ _ _ => true | _ => false end.
Definition formatted_output (outputs : dict string pyval) : string :=
  join ", " (map (fun kv => kv.1 +:+ ": " +:+ py_str kv.2) (List.filter (fun kv => negb (String.eqb kv.1 "metrics")) outputs)).
Definition end_delegate : M C unit :=
  c <- self ;;
  match delegate c with
  | None => retM tt
  | Some d =>
      let delegate_state := agent_state (state d) in
      on_delegate close ;;;
      let content := if String.eqb delegate_state FINISHED || String.eqb delegate_state REJECTED_
                     then agent_name d +:+ " finishes task with " +:+ formatted_output (outputs (state d))
                     else agent_name d +:+ " encountered an error during execution." in
      let content := "Delegated agent finished with result:" +:+ newline +:+ newline +:+ content in
      let metadata := match List.find is_delegation (rev (history (state c))) with Some e => _tool_call_metadata e | None => None end in
      publish (with_ids None None metadata (new_event (AgentDelegateObservation content (outputs (state d))))) AGENT ;;;
      update (set_delegate None)
  end.

(** *** [_handle_action], [_handle_observation], [should_step] *)

Definition handle_action (e : event) : M C unit :=
  match data e with
  | ChangeAgentStateAction new_state _ => set_agent_state_to new_state
  | MessageAction content _ _ wait_for_response _ => handle_message_action e content wait_for_response
  | AgentDelegateAction agent inputs _ =>
      start_delegate agent inputs ;;;
      match dget inputs "task" with
      | None => retM tt
      | Some (VStr task) =>
          publish (new_event (MessageAction ("TASK: " +:+ task) None None false RISK_UNKNOWN)) USER ;;;
          on_delegate (set_agent_state_to RUNNING)
      | Some _ => raiseM (TypeError "can only concatenate str to str")
      end
  | AgentFinishAction _ outputs _ => update_state (set_outputs outputs) ;;; set_agent_state_to FINISHED
  | AgentRejectAction outputs _ => update_state (set_outputs outputs) ;;; set_agent_state_to REJECTED_
  | LoopRecoveryAction option => handle_loop_recovery_action option
  | _ => retM tt
  end.

Definition handle_observation (e : event) : M C unit :=
  c <- self ;;
  match pending_action c with
  | Some a =>
      if bool_decide (Some (event_id (ev a)) = _cause e) then
        if String.eqb (agent_state (state c)) AWAITING_USER_CONFIRMATION then retM tt
        else
          update (set_pending None) ;;;
          (if String.eqb (agent_state (state c)) USER_CONFIRMED then set_agent_state_to RUNNING else retM tt) ;;;
          st <- get_agent_state ;;
          (if String.eqb st USER_REJECTED then set_agent_state_to AWAITING_USER_INPUT else retM tt)
      else retM tt
  | None => retM tt
  end.

Definition should_step (c : Controller) (e : event) : bool :=
  match delegate c with
  | Some _ => false
  | None =>
      match data e with
      | MessageAction _ _ _ _ _ => is_user_message e || negb (String.eqb (agent_state (state c)) AWAITING_USER_INPUT)
      | AgentDelegateAction _ _ _ | CondensationAction _ _ _ _ _ | CondensationRequestAction => true
      | NullObservation _ => match _cause e with Some cause => 0 <? cause | None => false end
      | AgentStateChangedObservation _ _ _ => false
      | b => is_observation b
      end
  end.

(** *** The step *)

(** The detector of the delegate is asked first. *)
Fixpoint is_stuck_ (c : Controller) : res bool * Controller :=
  let '(r, c) := match delegate c with
                 | None => (Ok false, c)
                 | Some d => let '(r, d) := is_stuck_ d in (r, set_delegate (Some d) c)
                 end in
  match r with
  | Ok false => let '(r, a) := is_stuck headless_mode (history (state c)) (stuck_analysis c) in (r, set_stuck_analysis a c)
  | _ => (r, c)
  end.

(** The errors of an agent that it is told about. *)
Definition agent_errors : list string :=
  ["LLMMalformedActionError"; "LLMNoActionError"; "LLMResponseError"; "FunctionCallValidationError"; "FunctionCallNotExistsError"].
Definition llm_errors : list string := ["ContextWindowExceededError"; "BadRequestError"; "OpenAIError"].
Definition context_window_exceeded (e : exn) : bool :=
  let error_str := lower (exn_str e) in
  existsb (fun s => contains s error_str)
    ["contextwindowexceedederror"; "prompt is too long"; "input length and `max_tokens` exceed context limit";
     "please reduce the length of"; "the request exceeds the available context size"; "context length exceeded"] ||
  (contains "sambanovaexception" error_str && contains "maximum context length" error_str) || is_a e "ContextWindowExceededError".
Definition tool_call_invalid (e : exn) : bool :=
  let error_str := lower (exn_str e) in
  is_a e "BadRequestError" && contains "tool call validation failed" error_str &&
  (contains "missing properties" error_str || contains "missing required" error_str).
Definition context_window_exceed_error : exn :=
  OtherError "LLMContextWindowExceedError"
    "Conversation history longer than LLM context window limit. Consider turning on enable_history_truncation config to avoid this error".

(** The action of the agent, or [None] when its error is dealt with. *)
Definition ask_agent : M C (option event) := fun s =>
  let c := s.2 in
  let '(r, a) := agent_step (agent_name c) (state c) (agents s.1) in
  let s := (with_agents a s.1, c) in
  let told b := (publish (new_event b) AGENT ;;; retM None) s in
  match r with
  | Ok (Some e) => (Ok (Some (with_source (Some AGENT) e)), s)
  | _ =>
      let e := match r with Raise e => e | Ok _ => OtherError "LLMNoActionError" "No action was returned" end in
      if existsb (is_a e) agent_errors then told (ErrorObservation (exn_str e) "")
      else if existsb (is_a e) llm_errors then
        if context_window_exceeded e then
          if enable_history_truncation (config c) then told CondensationRequestAction else (Raise context_window_exceed_error, s)
        else if tool_call_invalid e then
          told (ErrorObservation ("Tool call validation failed: " +:+ exn_str e +:+
                                  ". Please check the tool parameters and try again.") "")
        else (Raise e, s)
      else (Raise e, s)
  end.
Definition next_action : M C (option event) :=
  fun s =>
    let '(r, m) := should_replay (replay_manager s.2) in
    let s := (s.1, set_replay m s.2) in
    match r with
    | Ok true => let '(r, m) := replay_step (replay_manager s.2) in ((e <-! r ;; Ok (Some e)), (s.1, set_replay m s.2))
    | Ok false => ask_agent s
    | Raise e => (Raise e, s)
    end.

(** The eight classes that [_step] lists are the runnable ones. *)
Definition confirmed_class (b : body) : bool := runnable b.
Definition handle_security_analyzer (e : event) : M C event :=
  fun s =>
    let risk r := match security_risk (data e) with Some _ => with_data e (set_security_risk r (data e)) | None => e end in
    match security_analyzer, security_risk (data e) with
    | Some analyze, Some _ => let '(r, a) := analyze e (agents s.1) in
                              (Ok (risk match r with Ok r => r | Raise _ => RISK_UNKNOWN end), (with_agents a s.1, s.2))
    | Some _, None => (Ok e, s)
    | None, _ => (Ok (risk RISK_UNKNOWN), s)
    end.
Definition asks_confirmation (c : Controller) (risk : ActionSecurityRisk) : bool :=
  cli_mode (config c) ||
  ((bool_decide (risk = RISK_HIGH) || (bool_decide (risk = RISK_UNKNOWN) && match security_analyzer with Some _ => false | None => true end))
   && ctl_confirmation_mode c).
Definition gated (e : event) : M C Act :=
  c <- self ;;
  let a := {| ev := e; dynamic_confirmation := None |} in
  if State.confirmation_mode (state c) && confirmed_class (data e) then
    e <- handle_security_analyzer e ;;
    c <- self ;;
    let a := {| ev := e; dynamic_confirmation := None |} in
    retM (if asks_confirmation c (default RISK_UNKNOWN (security_risk (data e)))
          then set_confirmation_state AWAITING_CONFIRMATION a else a)
  else retM a.

Definition prepare_metrics (w : World) (e : event) : event :=
  with_metrics (frontend_metrics (agents w) (b_max_value <$> budget_flag (flags w))) e.

Definition is_null_action (b : body) : bool := match b with NullAction => true | _ => false end.
(** The last part of [_step]; an action that is pending is the pending one. *)
Definition publish_action (a : Act) : M C unit :=
  if is_null_action (data (ev a)) then retM tt
  else
    (if bool_decide (confirmation_state a = Some AWAITING_CONFIRMATION)
     then set_agent_state_to AWAITING_USER_CONFIRMATION else retM tt) ;;;
    w <- world ;;
    let e := prepare_metrics w (ev a) in
    let a := {| ev := e; dynamic_confirmation := dynamic_confirmation a |} in
    match _source e with
    | Some src => if runnable (data e) then update (set_pending (Some a)) ;;; publish_pending src
                  else publish e src ;;; retM tt
    | None => raiseM (OtherError "AttributeError" "no attribute '_source'")
    end.
Definition take_action (e : event) : M C unit :=
  if runnable (data e) then a <- gated e ;; update (set_pending (Some a)) ;;; publish_action a
  else publish_action {| ev := e; dynamic_confirmation := None |}.

Definition is_stuck_now : M C bool := fun s => let '(r, c) := is_stuck_ s.2 in (r, (s.1, c)).
Definition stuck_in_loop : exn := OtherError "AgentStuckInLoopError" "Agent got stuck in a loop".
(** The flags, then the action. *)
Definition act_within_limits : M C unit :=
  fun s => match on_flags run_control_flags s with
           | (Raise e, s) => react_to_exception e s
           | (Ok _, s) => (action <- next_action ;;
                           match action with Some e => take_action e | None => retM tt end) s
           end.
(** [_step] *)
Definition step_ : M C unit :=
  c <- self ;;
  if negb (String.eqb (agent_state (state c)) RUNNING) then retM tt
  else match pending_action c with
  | Some _ => retM tt
  | None =>
      update_world (fun w => with_flags (sync_budget_flag_with_metrics (accumulated_cost (agents w)) (flags w)) w) ;;;
      stuck <- (if enable_stuck_detection (config c) then is_stuck_now else retM false) ;;
      if stuck : bool then react_to_exception stuck_in_loop else act_within_limits
  end.

Definition reported_classes : list string :=
  ["Timeout"; "APIError"; "BadRequestError"; "NotFoundError"; "InternalServerError"; "AuthenticationError"; "RateLimitError";
   "ContentPolicyViolationError"; "LLMContextWindowExceedError"].
Definition reported (e : exn) : exn :=
  if existsb (is_a e) reported_classes then e
  else RuntimeError ("There was an unexpected error while running the agent: " +:+ exn_name e +:+
                     ". You can refresh the page or ask the agent to try again.").
Definition step_with_exception_handling : M C unit :=
  fun s => match step_ s with
           | (Raise e, s) => react_to_exception (reported e) s
           | (Ok _, s) => (Ok tt, s)
           end.

(** *** Events *)

(** [_on_event] *)
Definition on_event_ (e : event) : M C unit :=
  if hidden_attr e then retM tt
  else
    change_state (add_history text e) ;;;
    (if is_action (data e) then handle_action e else handle_observation e) ;;;
    c <- self ;;
    if should_step c e then step_with_exception_handling else retM tt.

(** The delegate is still at work. *)
Definition forwards_to (d : Controller) : bool :=
  negb (bool_decide (agent_state (state d) ∈ [FINISHED; ERROR; REJECTED_])) ||
  contains "RuntimeError: Agent reached maximum iteration." (last_error (state d)) ||
  contains "RuntimeError:Agent reached maximum budget for conversation" (last_error (state d)).
Definition on_event (e : event) : M C unit :=
  c <- self ;;
  match delegate c with
  | Some d => if forwards_to d then on_delegate (on_event_ e) else end_delegate
  | None => on_event_ e
  end.

(** One event of the queue; the error of a subscriber is logged. *)
Definition unqueued (s : EventStream (F := F)) : EventStream (F := F) :=
  {| file_store := file_store s; _cur_id := _cur_id s; _queue := tail (_queue s); _write_page_cache := _write_page_cache s;
     secrets := secrets s |}.
Definition process_queue : M C unit :=
  fun s => match _queue (stream s.1) with
           | [] => (Ok tt, s)
           | e :: _ => (Ok tt, (on_event e (with_stream (unqueued (stream s.1)) s.1, s.2)).2)
           end.
End controller.
