(* ===== verification/ControllerSafety.v ===== *)
(** * What a controller can and cannot do

    Theorems about [Controller].  Most are proved with relations between the
    states before and after an operation ([steps]) that only have to be checked
    for the parts all operations are made of ([Framed]).

    [iterations_bounded]: the iteration limit bounds the calls of the agents;
    [budget_stops_the_agent]: none is called once the budget is spent.
    [commands_confirmed]: in confirmation mode no event but a confirmation lets a
    command pass the gate; [RuntimeGate] goes on from there.
    [failed_step_stops] and [action_waits_for_user]: the states the agent is left
    in. *)

From S2P Require Import Prelude Metrics PyStr PyDict PyFloat PyList PyVal Events Serialization FileStore EventStore Stuck State Controller.

Create HintDb framed.
(** Goes through a computation. *)
Ltac walk :=
  repeat match goal with
  | |- steps _ (update (set_pending (Some _)) ;;; (_ <- publish_pending _ _ _ _ _ _ ;; _)) => apply steps_assoc; [typeclasses eauto| |intros ?]
  | |- steps _ (update (set_pending (Some _)) ;;; publish_pending _ _ _ _ _ _) => idtac
  | |- steps _ (bindM _ _) => apply steps_bind; [typeclasses eauto| |intros ?]
  | |- steps _ (retM _) => apply steps_ret; typeclasses eauto
  | |- steps _ (raiseM _) => apply steps_raise; typeclasses eauto
  | |- steps _ (liftM _) => apply steps_lift; typeclasses eauto
  | |- steps _ (match ?x with _ => _ end) => destruct x eqn:?
  end; eauto with framed.

(** ** Actions *)

Definition is_command (b : body) : bool :=
  match b with CmdRunAction _ _ _ _ _ _ _ _ _ | IPythonRunCellAction _ _ _ _ _ _ => true | _ => false end.

Lemma set_confirmation_command c a :
  is_command (data (ev (set_confirmation_state c a))) = is_command (data (ev a)) /\
  (is_command (data (ev a)) = true -> field_confirmation (data (ev (set_confirmation_state c a))) = Some c).
Proof. unfold set_confirmation_state. destruct (data (ev a)) eqn:E; cbn [ev data with_data]; by rewrite ?E. Qed.

(** *** A command that is read is the one that was written *)

Lemma construct_condensation fields args b : construct_action "condensation" fields args = Ok b -> is_command b = false.
Proof.
  unfold construct_action. destruct (bind_args false fields args) as [vs|[]]; try done.
  change (build_action "condensation" vs) with
    (match vs with
     | [ids; s; e; sm; off] =>
         ids ← dec_opt dec_ints ids; s ← dec_opt dec_int s; e ← dec_opt dec_int e; sm ← dec_opt dec_str sm; off ← dec_opt dec_int off;
         Some (CondensationAction ids s e sm off)
     | _ => None
     end).
  destruct vs as [|? [|? [|? [|? [|? [|? ?]]]]]]; try done. unfold mbind, option_bind.
  destruct (dec_opt dec_ints _); [|done]. destruct (dec_opt dec_int _); [|done]. destruct (dec_opt dec_int _); [|done].
  destruct (dec_opt dec_str _); [|done]. destruct (dec_opt dec_int _); [|done].
  unfold condensation_action. destruct (validate_field_polymorphism _ _ _ _ _); by intros [= <-].
Qed.
Section stored.
Context (version : string) (literal_eval : string -> option (dict string pyval)).
Lemma set_hard_timeout_command t b e : is_command (data (set_hard_timeout t b e)) = is_command (data e).
Proof. unfold set_hard_timeout. by destruct (data e). Qed.
Lemma from_condensation d copy : dget d "action" = Some (VStr "condensation") ->
  event_from_dict version literal_eval d = Ok copy -> is_command (data copy) = false.
Proof.
  intros Ha. unfold event_from_dict, dmem, action_from_dict. rewrite Ha. cbn [action_fields].
  destruct (action_fields version "condensation") as [fields|]; [|done].
  destruct (match dget d "args" with Some _ => _ | None => _ end) as [args|]; [|done].
  destruct (prepare_args literal_eval args) as [args' ts].
  destruct (construct_action "condensation" fields args') as [b|] eqn:Eb; cbn [rbind]; [|done]. apply construct_condensation in Eb.
  destruct (match dget d "source" with Some _ => _ | None => _ end); cbn [rbind]; [|done].
  destruct (attribute read_call_metadata _ _ _); cbn [rbind]; [|done].
  destruct (attribute read_metrics _ _ _); cbn [rbind]; [|done]. intros [= <-]. cbn [data].
  assert (forall v e, is_command (data e) = false -> is_command (data (set_timestamp v e)) = false) as Hts by by intros v [].
  assert (is_command (data match dget d "timeout" with
            | Some v => set_hard_timeout (dec_timeout v) match dget args' "blocking" with Some (VBool x) => x | _ => false end (new_event b)
            | None => new_event b end) = false) as Hb.
  { destruct (dget d "timeout"); [|done]. by rewrite set_hard_timeout_command. }
  destruct ts as [v|]; [|done]. destruct (truth v); [|done]. by apply Hts.
Qed.
Lemma stored_command e d copy : event_to_dict e = Ok d -> event_from_dict version literal_eval d = Ok copy ->
  is_command (data copy) = true -> data copy = data e.
Proof.
  intros Hd Hc Hcmd. assert (constructible (data e) \/ event_type (data e) = "condensation") as [Hok|Ht].
  { destruct (data e); (by right) || by left. }
  - rewrite (event_to_from version literal_eval e d Hd Hok) in Hc. destruct (readable_metrics e); [|done]. injection Hc as <-. cbn [stored data] in *.
    destruct (data e); cbn [stored_body is_command] in *; done.
  - exfalso. unfold event_to_dict in Hd. destruct (message (data e)); [|done]. cbn [rbind] in Hd. cbv zeta in Hd. injection Hd as <-.
    apply from_condensation in Hc; [by rewrite Hc in Hcmd|]. rewrite dget_app.
    match goal with |- context [top_level ?a ?b ?c ?d ?e ?f ?g ?h ?i] => destruct (top_level_keys a b c d e f g h i) as (_&_&_&_&_&_&->&_) end.
    rewrite Ht. by destruct (data e).
Qed.
End stored.

Section safety.
Context (text : dict string pyval -> string) (version : string) (literal_eval : string -> option (dict string pyval)).
Context {F : Type} `{FileStore F} (sid : string) (user_id : option string).
Context {A : Type} (agent_step : string -> State -> A -> res (option event) * A) (agent_reset : string -> A -> A).
Context (system_message : string -> AgentConfig -> option event) (get_cls : string -> res string) (agent_configs : dict string AgentConfig).
Context (accumulated_cost : A -> float) (frontend_metrics : A -> option float -> Metrics).
Context (security_analyzer : option (event -> A -> res ActionSecurityRisk * A)).
Context (is_a : exn -> string -> bool) (retries_exhausted : exn -> bool) (status_callback headless_mode : bool).
Context (clock : Z -> string).
Notation World := (World (F := F) (A := A)).
Notation C := (World * Controller)%type.
Notation publish := (publish version literal_eval sid user_id (A := A) clock).
Notation publish_pending := (publish_pending version literal_eval sid user_id (A := A) clock).
Notation set_agent_state_to := (set_agent_state_to version literal_eval sid user_id agent_reset headless_mode clock).
Notation stream_events := (stream_events text version literal_eval sid user_id (A := A)).
Notation react_to_exception := (react_to_exception version literal_eval sid user_id agent_reset is_a retries_exhausted status_callback headless_mode clock).
Notation first_user_message := (first_user_message text version literal_eval sid user_id (A := A)).
Notation handle_message_action := (handle_message_action text version literal_eval sid user_id agent_reset headless_mode clock).
Notation perform_loop_recovery := (perform_loop_recovery version literal_eval sid user_id agent_reset headless_mode clock).
Notation restart_with_last_user_message := (restart_with_last_user_message text version literal_eval sid user_id agent_reset headless_mode clock).
Notation handle_loop_recovery_action := (handle_loop_recovery_action text version literal_eval sid user_id agent_reset headless_mode clock).
Notation add_system_message := (add_system_message text version literal_eval sid user_id system_message clock).
Notation init_controller := (init_controller text version literal_eval sid user_id system_message clock).
Notation start_delegate := (start_delegate text version literal_eval sid user_id system_message get_cls agent_configs clock).
Notation close := (close text version literal_eval sid user_id agent_reset headless_mode clock).
Notation end_delegate := (end_delegate text version literal_eval sid user_id agent_reset headless_mode clock).
Notation handle_action := (handle_action text version literal_eval sid user_id agent_reset system_message get_cls agent_configs headless_mode clock).
Notation handle_observation := (handle_observation version literal_eval sid user_id agent_reset headless_mode clock).
Notation is_stuck_ := (is_stuck_ headless_mode).
Notation is_stuck_now := (is_stuck_now headless_mode).
Notation handle_security_analyzer := (handle_security_analyzer security_analyzer).
Notation gated := (gated security_analyzer).
Notation publish_action := (publish_action version literal_eval sid user_id agent_reset frontend_metrics headless_mode clock).
Notation take_action := (take_action version literal_eval sid user_id agent_reset frontend_metrics security_analyzer headless_mode clock).
Notation ask_agent := (ask_agent version literal_eval sid user_id agent_step is_a clock).
Notation next_action := (next_action version literal_eval sid user_id agent_step is_a clock).
Notation act_within_limits := (act_within_limits version literal_eval sid user_id agent_step agent_reset frontend_metrics security_analyzer
  is_a retries_exhausted status_callback headless_mode clock).
Notation step_ := (step_ version literal_eval sid user_id agent_step agent_reset accumulated_cost frontend_metrics security_analyzer is_a
  retries_exhausted status_callback headless_mode clock).
Notation step_with_exception_handling := (step_with_exception_handling version literal_eval sid user_id agent_step agent_reset accumulated_cost
  frontend_metrics security_analyzer is_a retries_exhausted status_callback headless_mode clock).
Notation on_event := (on_event text version literal_eval sid user_id agent_step agent_reset system_message get_cls agent_configs accumulated_cost
  frontend_metrics security_analyzer is_a retries_exhausted status_callback headless_mode clock).
Notation on_event_ := (on_event_ text version literal_eval sid user_id agent_step agent_reset system_message get_cls agent_configs accumulated_cost
  frontend_metrics security_analyzer is_a retries_exhausted status_callback headless_mode clock).
Notation reset_ := (reset_ version literal_eval sid user_id agent_reset clock).
Implicit Types s : C.

(** *** Publishing *)

Lemma publish_frame e src s :
  let s' := (publish e src s).2 in s'.2 = s.2 /\ flags s'.1 = flags s.1 /\ agents s'.1 = agents s.1 /\ statuses s'.1 = statuses s.1.
Proof. unfold Controller.publish, bindM, world, on_stream. by destruct (add_event _ _ _ _ _ _ _ _). Qed.

Lemma publish_pending_eq src s :
  exists a, (publish_pending src s).2 = match pending_action s.2 with
                                        | None => s
                                        | Some x => (update (set_pending a) (publish (ev x) src s).2).2
                                        end.
Proof.
  unfold Controller.publish_pending. destruct (Controller.pending_action s.2) as [x|]; [|by exists None].
  destruct (publish (ev x) src s) as [r s']. eexists. cbn [snd]. unfold update. reflexivity.
Qed.

(** *** Relations that hold along the operations of a controller *)

Record same_modes (c c' : Controller) : Prop := {
  same_config : config c' = config c;
  same_mode : ctl_confirmation_mode c' = ctl_confirmation_mode c;
  same_state_mode : State.confirmation_mode (state c') = State.confirmation_mode (state c);
  same_no_delegate : delegate c = None -> delegate c' = None;
}.

(** [R] holds across the parts that the operations are made of; a command is
    published only if it is [allowed]. *)
Class Framed (R : C -> C -> Prop) (allowed : body -> Prop) : Prop := {
  framed_pre :: PreOrder R;
  framed_publish e src : (is_command (data e) = true -> allowed (data e)) -> steps R (publish e src);
  framed_update f : (forall c, same_modes c (f c)) -> steps R (update f);
  framed_reset name : steps R (update_world (fun w => with_agents (agent_reset name (agents w)) w));
  framed_increase : steps R (update_world (fun w => with_flags (maybe_increase_control_flags_limits headless_mode (flags w)) w));
  framed_sync : steps R (update_world (fun w => with_flags (sync_budget_flag_with_metrics (accumulated_cost (agents w)) (flags w)) w));
  framed_status x : steps R (update_world (with_status x));
  framed_cur_id : steps R (on_stream (cur_id sid user_id));
  framed_on_delegate m : steps R m -> steps R (on_delegate m);
}.

Section framed.
Context R allowed `{!Framed R allowed}.
Lemma framed_update_state f : (forall st, State.confirmation_mode (f st) = State.confirmation_mode st) -> steps R (update_state f).
Proof. intros Hf. apply framed_update. intros []. by split; cbn. Qed.
Lemma framed_change_state f :
  (forall st st', f st = Ok st' -> State.confirmation_mode st' = State.confirmation_mode st) -> steps R (change_state f).
Proof.
  intros Hf s.
  pose proof (framed_update (fun c => match f (state c) with Ok st => set_state st c | Raise _ => c end)) as Hu.
  specialize (fun Hs => Hu Hs s). unfold change_state. unfold update in Hu. cbn [snd] in Hu. destruct (f (state s.2)) eqn:E.
  - apply Hu. intros c. destruct (f (state c)) eqn:Ec; [|by split]. specialize (Hf _ _ Ec). destruct c. by split.
  - by apply framed_pre.
Qed.
Lemma framed_self : steps R self. Proof. by intros s. Qed.
Lemma framed_world : steps R world. Proof. by intros s. Qed.

Local Hint Resolve framed_self framed_world framed_reset framed_increase framed_sync framed_status framed_cur_id framed_on_delegate : framed.
Local Hint Extern 1 (steps _ (update_state _)) => apply framed_update_state; by intros [] : framed.
Local Hint Extern 1 (steps _ (update _)) => apply framed_update; intros []; by split; cbn : framed.
Local Hint Extern 1 (steps _ (publish _ _)) => apply framed_publish; done : framed.
Lemma framed_get_agent_state : steps R get_agent_state.
Proof. unfold get_agent_state. walk. Qed.
Local Hint Resolve framed_get_agent_state : framed.
Lemma framed_publish_pending a src : (is_command (data (ev a)) = true -> allowed (data (ev a))) ->
  steps R (update (set_pending (Some a)) ;;; publish_pending src).
Proof.
  intros Ha s. unfold bindM at 1. cbn [update].
  destruct (publish_pending_eq src (s.1, set_pending (Some a) s.2)) as [a' ->]. destruct s as [w []]. cbn [snd set_pending Controller.pending_action].
  match goal with |- R ?s (update _ (publish _ _ ?s').2).2 => transitivity s'; [|transitivity (publish (ev a) src s').2] end.
  - by apply (framed_update (set_pending (Some a))); intros []; split.
  - by apply framed_publish.
  - by apply (framed_update (set_pending a')); intros []; split.
Qed.

Local Hint Extern 1 (steps _ (update (set_pending (Some _)) ;;; publish_pending _)) => apply framed_publish_pending; try done : framed.
Lemma framed_reset_ : steps R reset_.
Proof. unfold Controller.reset_. walk. Qed.
Local Hint Resolve framed_reset_ : framed.

Definition allowed_when (c : ActionConfirmationStatus) : Prop :=
  forall b, is_command b = true -> field_confirmation b = Some c -> allowed b.
Lemma framed_set_agent_state new_state : (new_state = USER_CONFIRMED -> allowed_when CONFIRMED) -> allowed_when REJECTED ->
  steps R (set_agent_state_to new_state).
Proof.
  intros Hc Hr. unfold Controller.set_agent_state_to. walk. apply framed_publish_pending. intros Hcmd. cbn [ev data with_ids] in *.
  match goal with |- context [set_confirmation_state ?c ?a] => destruct (set_confirmation_command c a) as [E1 E2] end.
  rewrite E1 in Hcmd. specialize (E2 Hcmd). rewrite Hcmd in E1. destruct (String.eqb_spec new_state USER_CONFIRMED) as [->|_].
  - by apply Hc.
  - by apply Hr.
Qed.

(** From here on rejected commands may be published. *)
Context (Hrejected : allowed_when REJECTED).
Lemma framed_set_state new_state : new_state <> USER_CONFIRMED -> steps R (set_agent_state_to new_state).
Proof. intros Hne. by apply framed_set_agent_state. Qed.
Hint Extern 1 (steps _ (set_agent_state_to _)) => apply framed_set_state; discriminate : framed.

Lemma framed_react e : steps R (react_to_exception e).
Proof. unfold Controller.react_to_exception. walk. Qed.
Lemma framed_truncate n : steps R (truncate_memory_to_point n).
Proof. unfold truncate_memory_to_point. walk. Qed.
Local Hint Resolve framed_react framed_truncate : framed.
Lemma framed_loop_recovery a : steps R (perform_loop_recovery a).
Proof. unfold Controller.perform_loop_recovery. walk. Qed.
Local Hint Resolve framed_loop_recovery : framed.
Lemma framed_stream_events first : steps R (stream_events first).
Proof. unfold Controller.stream_events. walk. Qed.
Local Hint Resolve framed_stream_events : framed.
Lemma framed_first_user_message : steps R first_user_message.
Proof. unfold Controller.first_user_message. walk. Qed.
Local Hint Resolve framed_first_user_message : framed.
Lemma framed_message_action e content w : steps R (handle_message_action e content w).
Proof. unfold Controller.handle_message_action. walk. Qed.
Local Hint Resolve framed_message_action : framed.
Lemma framed_restart a : steps R (restart_with_last_user_message a).
Proof. unfold Controller.restart_with_last_user_message. walk. Qed.
Local Hint Resolve framed_restart : framed.
Lemma framed_loop_recovery_action o : steps R (handle_loop_recovery_action o).
Proof. unfold Controller.handle_loop_recovery_action. walk. Qed.
Local Hint Resolve framed_loop_recovery_action : framed.
Lemma framed_close : steps R close.
Proof.
  unfold Controller.close. walk. apply framed_change_state. unfold close_history. intros st st'.
  destruct (history_range st _) as [first last]. destruct (history_events _ _ _ _ _ _ _ _); [|done]. by intros [= <-].
Qed.
Local Hint Resolve framed_close : framed.
Lemma framed_end_delegate : steps R end_delegate.
Proof. unfold Controller.end_delegate. walk. Qed.
Lemma framed_observation e : steps R (handle_observation e).
Proof. unfold Controller.handle_observation. walk. Qed.
Local Hint Resolve framed_observation framed_end_delegate : framed.

Lemma framed_handle_action e : (forall t, data e = ChangeAgentStateAction USER_CONFIRMED t -> allowed_when CONFIRMED) ->
  (is_delegation e = true -> forall agent inputs, steps R (start_delegate agent inputs)) -> steps R (handle_action e).
Proof.
  intros Hc Hd. unfold Controller.handle_action. destruct (data e) eqn:E; walk.
  - apply Hd. unfold is_delegation. by rewrite E.
  - apply framed_set_agent_state; [|done]. intros ->. by eapply Hc.
Qed.

Lemma is_stuck_modes c : same_modes c (is_stuck_ c).2.
Proof.
  destruct c as [? ? ? ? ? d]. cbn [Controller.is_stuck_ delegate]. destruct d as [d|].
  - destruct (is_stuck_ d) as [[[]|] d']; cbn [snd]; [by split|destruct (is_stuck _ _ _); by split|by split].
  - destruct (is_stuck _ _ _). by split.
Qed.
Lemma framed_is_stuck : steps R is_stuck_now.
Proof.
  intros s. unfold Controller.is_stuck_now.
  pose proof (framed_update (fun c => (is_stuck_ c).2) (fun c => is_stuck_modes c) s) as Hu. unfold update in Hu. cbn [snd] in Hu.
  by destruct (is_stuck_ s.2).
Qed.
Local Hint Resolve framed_is_stuck : framed.
Lemma framed_add_history e : steps R (change_state (add_history text e)).
Proof.
  apply framed_change_state. unfold add_history. intros st st'. destruct (include _ _ _) as [[]|]; cbn [rbind]; by intros [= <-].
Qed.
Local Hint Resolve framed_add_history : framed.
(** What remains to be shown of the actions. *)
Context (Hact : steps R act_within_limits).
Lemma framed_step : steps R step_.
Proof. unfold Controller.step_. walk. Qed.
Lemma framed_step_handled : steps R step_with_exception_handling.
Proof.
  intros s. unfold Controller.step_with_exception_handling. pose proof (framed_step s) as Hs.
  destruct (step_ s) as [[[]|e] s']; [done|]. cbn [snd] in Hs. etrans; [done|]. apply framed_react.
Qed.
Local Hint Resolve framed_step_handled : framed.
Lemma framed_on_event e : (forall t, data e = ChangeAgentStateAction USER_CONFIRMED t -> allowed_when CONFIRMED) ->
  (is_delegation e = true -> forall agent inputs, steps R (start_delegate agent inputs)) -> steps R (on_event e).
Proof.
  intros Hc Hd. pose proof (framed_handle_action e Hc Hd). assert (steps R (on_event_ e)).
  { unfold Controller.on_event_. walk. }
  unfold Controller.on_event. walk.
Qed.
End framed.
Local Hint Resolve framed_self framed_world framed_reset framed_increase framed_sync framed_status framed_cur_id framed_on_delegate
  framed_get_agent_state framed_reset_ framed_react framed_stream_events framed_step_handled : framed.
Local Hint Extern 1 (steps _ (update_state _)) => eapply framed_update_state; by intros [] : framed.
Local Hint Extern 1 (steps _ (update _)) => eapply framed_update; intros []; by split; cbn : framed.
Local Hint Extern 1 (steps _ (publish _ _)) => eapply framed_publish; done : framed.

(** ** The limit on iterations *)

Section iterations.
(** [calls] counts the calls of agents; an analyzer does not call them. *)
Context (calls : A -> Z) (Hstep : forall name st a, calls (agent_step name st a).2 <= calls a + 1).
Context (Hreset : forall name a, calls (agent_reset name a) <= calls a).
Context (Hanalyze : forall analyze, security_analyzer = Some analyze -> forall e a, calls (analyze e a).2 <= calls a).
Context (Hheadless : headless_mode = true).

Definition asked (w : World) : Z := calls (agents w).
Definition counted (w : World) : Z := i_current_value (iteration_flag (flags w)).
Definition limit (w : World) : Z := i_max_value (iteration_flag (flags w)).
(** Calls are counted, and the count stays within the limit. *)
Definition within (s s' : C) : Prop :=
  asked s'.1 + counted s.1 <= asked s.1 + counted s'.1 /\ limit s'.1 = limit s.1 /\
  (counted s.1 <= limit s.1 -> counted s'.1 <= limit s'.1).

Lemma within_same s s' : flags s'.1 = flags s.1 -> agents s'.1 = agents s.1 -> within s s'.
Proof. unfold within, asked, counted, limit. intros -> ->. lia. Qed.
Lemma within_less s s' : iteration_flag (flags s'.1) = iteration_flag (flags s.1) -> asked s'.1 <= asked s.1 -> within s s'.
Proof. unfold within, counted, limit. intros ->. lia. Qed.
#[local] Instance within_pre : PreOrder within.
Proof. split; [intros s; by apply within_same|]. unfold within. intros x y z. lia. Qed.
#[local] Instance within_framed : Framed within (fun _ => True).
Proof.
  split; try typeclasses eauto.
  - intros e src _ s. destruct (publish_frame e src s) as (_ & ? & ? & _). by apply within_same.
  - intros f _ s. by apply within_same.
  - intros name s. apply within_less; [done|]. apply Hreset.
  - intros s. apply within_less; [|done]. cbn. unfold i_increase_limit. by rewrite Hheadless.
  - intros s. by apply within_less.
  - intros x s. by apply within_same.
  - intros s. unfold on_stream. destruct (cur_id _ _ _). by apply within_same.
  - intros m Hm s. unfold on_delegate. destruct (delegate s.2) as [d|]; [|by apply within_same].
    specialize (Hm (s.1, d)). by destruct (m _) as [r [w d']].
Qed.
Local Hint Resolve within_framed : framed.
Lemma within_set_state x : steps within (set_agent_state_to x).
Proof. by apply (framed_set_agent_state within (fun _ => True)). Qed.
Lemma within_publish e src : steps within (publish e src).
Proof. by apply framed_publish. Qed.
Lemma within_pending a src : steps within (update (set_pending (Some a)) ;;; publish_pending src).
Proof. by apply (framed_publish_pending within (fun _ => True)). Qed.
Local Hint Resolve within_set_state within_publish within_pending : framed.
Lemma within_analyzer e : steps within (handle_security_analyzer e).
Proof.
  intros s. unfold Controller.handle_security_analyzer. pose proof Hanalyze as Ha. destruct security_analyzer as [analyze|]; [|by apply within_same].
  destruct (security_risk (data e)); [|by apply within_same]. specialize (Ha _ eq_refl e (agents s.1)).
  destruct (analyze e (agents s.1)). by apply within_less.
Qed.
Lemma within_take_action e : steps within (take_action e).
Proof. unfold Controller.take_action, Controller.gated, Controller.publish_action. pose proof within_analyzer. walk. Qed.
Local Hint Resolve within_take_action : framed.

(** One call more than [s]. *)
Definition after_call (s s' : C) : Prop := exists s2, flags s2.1 = flags s.1 /\ asked s2.1 <= asked s.1 + 1 /\ within s2 s'.
Lemma ask_agent_calls s : after_call s (ask_agent s).2.
Proof.
  unfold Controller.ask_agent. pose proof (Hstep (agent_name s.2) (state s.2) (agents s.1)) as Hc.
  destruct (agent_step _ _ _) as [r a]. cbn [snd] in Hc. exists (with_agents a s.1, s.2). split_and!; [done|done|].
  assert (forall b, within (with_agents a s.1, s.2) ((publish (new_event b) AGENT ;;; retM (@None event)) (with_agents a s.1, s.2)).2) as Ht.
  { intros b. generalize (with_agents a s.1, s.2). change (steps within (publish (new_event b) AGENT ;;; retM (@None event))). walk. }
  destruct r as [[e|]|x]; cbn [snd]; [by apply within_same|..];
    repeat match goal with |- context [if ?b then _ else _] => destruct b end; try apply Ht; by apply within_same.
Qed.
Lemma next_action_calls s : after_call s (next_action s).2.
Proof.
  unfold Controller.next_action. destruct (should_replay _) as [r m].
  set (s1 := (s.1, set_replay m s.2)). destruct r as [[]|x]; cbn [snd].
  - destruct (replay_step _) as [r m']. exists s1. split_and!; [done|unfold asked; cbn; lia|by apply within_same].
  - exact (ask_agent_calls s1).
  - exists s1. split_and!; [done|unfold asked; cbn; lia|by apply within_same].
Qed.
Lemma run_control_flags_counts f :
  match run_control_flags f with
  | (r, f') =>
      i_max_value (iteration_flag f') = i_max_value (iteration_flag f) /\
      i_current_value (iteration_flag f) <= i_current_value (iteration_flag f') /\
      (i_current_value (iteration_flag f) <= i_max_value (iteration_flag f) ->
       i_current_value (iteration_flag f') <= i_max_value (iteration_flag f')) /\
      (r = Ok tt -> i_current_value (iteration_flag f') = i_current_value (iteration_flag f) + 1)
  end.
Proof.
  unfold run_control_flags. rewrite i_step_spec.
  destruct (Z.leb_spec (i_max_value (iteration_flag f)) (i_current_value (iteration_flag f))).
  - cbn. split_and!; try lia. done.
  - cbn [budget_flag with_iteration]. destruct (budget_flag f) as [b|]; [destruct (b_step b) as [rb b']|]; cbn; split_and!; lia.
Qed.
Lemma within_act : steps within act_within_limits.
Proof.
  intros s. unfold Controller.act_within_limits, on_flags. pose proof (run_control_flags_counts (flags s.1)) as Hf.
  destruct (run_control_flags (flags s.1)) as [r f]. destruct Hf as (Hm & Hle & Hlim & Hone).
  destruct r as [[]|x].
  - specialize (Hone eq_refl). set (s1 := (with_flags f s.1, s.2)). destruct (next_action_calls s1) as (s2 & Ef & Ha & Hw).
    assert (within s (next_action s1).2) as Hn.
    { unfold within, asked, counted, limit in *. rewrite !Ef in Hw. cbn in Ha, Hw. lia. }
    unfold bindM. destruct (next_action s1) as [[a|x] s3]; cbn [snd] in *; [|done].
    etrans; [done|]. destruct a as [e|]; [apply within_take_action|done].
  - assert (within s (with_flags f s.1, s.2)) as Hw by (unfold within, asked, counted, limit; cbn; lia).
    etrans; [exact Hw|]. by apply (framed_react within (fun _ => True)).
Qed.
Lemma within_start_delegate agent inputs : steps within (start_delegate agent inputs).
Proof.
  unfold Controller.start_delegate. walk. intros s.
  match goal with |- context [new_controller ?a ?b ?c ?d ?e ?f ?g] => generalize (new_controller a b c d e f g) end. intros d.
  assert (steps within init_controller) as Hi.
  { unfold Controller.init_controller, Controller.add_system_message. walk. apply (framed_change_state within (fun _ => True)). unfold init_history.
    intros st st'. destruct (history_range st _) as [first last]. destruct (_ <? first); [by intros [= <-]|].
    destruct (history_events _ _ _ _ _ _ _ _); [|done]. by intros [= <-]. }
  specialize (Hi (s.1, d)). destruct (init_controller (s.1, d)) as [r [w d']]. exact Hi.
Qed.
(** C5: The limit on iterations holds for an agent and all its delegates
    together.  In headless mode, whatever events a controller handles, and
    whatever fails, the agents are called at most as many times as there are
    iterations left. *)
Theorem iterations_bounded es s : counted s.1 <= limit s.1 ->
  let s' := foldl (fun s e => (on_event e s).2) s es in asked s'.1 - asked s.1 <= limit s.1 - counted s.1.
Proof.
  intros Hle s'. assert (within s s') as Hw; [|unfold within in Hw; lia].
  unfold s'. clear s' Hle. revert s. induction es as [|e es IH]; intros s; cbn [foldl]; [done|].
  etrans; [|apply IH]. apply (framed_on_event within (fun _ => True)); try done.
  - apply within_act.
  - intros _. apply within_start_delegate.
Qed.
End iterations.

(** ** Commands and confirmations *)

Section confirmations.
(** The commands of a queue that no gate holds back. *)
Definition runs_command (e : event) : bool :=
  is_command (data e) &&
  match field_confirmation (data e) with Some AWAITING_CONFIRMATION | Some REJECTED => false | _ => true end.
Definition commands (w : World) : nat := length (List.filter runs_command (_queue (stream w))).
Definition held (b : body) : Prop := runs_command (new_event b) = false.
(** A conversation that asks before every command. *)
Definition asking (s : C) : Prop :=
  secrets (stream s.1) = [] /\ State.confirmation_mode (state s.2) = true /\ ctl_confirmation_mode s.2 = true /\ delegate s.2 = None /\
  (security_analyzer = None \/ cli_mode (config s.2) = true).
(** No more than [n] commands are added. *)
Definition adds (n : nat) (s s' : C) : Prop := asking s -> asking s' /\ (commands s'.1 <= commands s.1 + n)%nat.

Lemma adds_trans n m s1 s2 s3 : adds n s1 s2 -> adds m s2 s3 -> adds (n + m) s1 s3.
Proof. unfold adds. intros H1 H2 Ha. destruct (H1 Ha) as [Ha2 ?]. destruct (H2 Ha2). split; [done|lia]. Qed.
#[local] Instance adds_pre : PreOrder (adds 0).
Proof. split; [intros s ?; by split; [|lia]|]. intros x y z. apply (adds_trans 0 0). Qed.
Lemma adds_same s s' : stream s'.1 = stream s.1 -> same_modes s.2 s'.2 -> adds 0 s s'.
Proof.
  intros Es [Hc Hm Hs Hd] (? & ? & ? & ? & ?). unfold asking, commands. rewrite Es, Hc, Hm, Hs. split_and!; auto. lia.
Qed.

Lemma cur_id_frame (st : EventStream (F := F)) :
  let st' := (cur_id sid user_id st).2 in secrets st' = secrets st /\ _queue st' = _queue st.
Proof. unfold cur_id. destruct (_cur_id st); [done|]. by destruct (calculate_cur_id _ _ _). Qed.
Lemma store_cache_page_frame page (st : EventStream (F := F)) :
  let st' := (store_cache_page sid user_id page st).2 in secrets st' = secrets st /\ _queue st' = _queue st.
Proof.
  unfold store_cache_page. destruct (_ <? _); [done|]. destruct (hd_error page) as [d|]; [|done]. by destruct (dget d "id") as [[]|].
Qed.
Lemma replace_no_secrets d : replace_secrets [] d = d.
Proof.
  assert (forall v, replace_in [] v = v) as Hin.
  { fix IH 1. intros v. destruct v as [| | | | | | |d'|]; try reflexivity. cbn [replace_in]. f_equal. induction d' as [|[k v] d' IHd]; [done|]. cbn [map fst snd].
    f_equal; [|exact IHd]. by rewrite IH. }
  unfold replace_secrets. rewrite <- (map_id d) at 2. apply map_ext. intros [k v]. cbn [fst snd]. rewrite Hin. by destruct (bool_decide _).
Qed.
(** The copy of a command is that command. *)
Lemma add_event_command now e src (st st' : EventStream (F := F)) r : secrets st = [] ->
  add_event version literal_eval sid user_id now e src st = (r, st') ->
  secrets st' = [] /\
  (_queue st' = _queue st \/
   exists copy, _queue st' = _queue st ++ [copy] /\ (is_command (data copy) = true -> data copy = data e)).
Proof.
  intros Hsec Hrun. unfold add_event in Hrun. destruct (negb (event_id e =? INVALID_ID)).
  { injection Hrun as <- <-. by split; [|left]. }
  unfold bindM at 1 in Hrun. destruct (cur_id_frame st) as [Es Eq]. rewrite Hsec in Es.
  destruct (cur_id sid user_id st) as [[id|x] st1]; cbn [snd] in *; [|injection Hrun as <- <-; by split; [|left]].
  unfold bindM, modifyM, getM, liftM in Hrun. destruct (event_to_dict (stamped now src id e)) as [d|] eqn:Ed; cbv zeta in Hrun;
    [|injection Hrun as <- <-; by split; [|left]].
  cbn [secrets with_cur_id] in Hrun. rewrite Es in Hrun. unfold dvals in Hrun. cbn [map] in Hrun. rewrite replace_no_secrets in Hrun.
  destruct (event_from_dict version literal_eval d) as [copy|] eqn:Ec; [|injection Hrun as <- <-; by split; [|left]].
  pose proof (stored_command version literal_eval (stamped now src id e) d copy Ed Ec) as Hcmd. cbn [data stamped] in Hcmd.
  destruct (_id copy) as [i|].
  - match type of Hrun with context [store_cache_page _ _ ?p ?s] => destruct (store_cache_page_frame p s) as [E3 Q3] end.
    destruct (store_cache_page _ _ _ _) as [[[]|] st4]; cbn [snd secrets with_files with_page with_cur_id _queue] in *; injection Hrun as <- <-.
    + split; [by cbn; rewrite E3|]. right. exists copy. split; [cbn; by rewrite Q3, Eq|done].
    + split; [by rewrite E3|]. left. by rewrite Q3.
  - injection Hrun as <- <-. split; [done|]. right. exists copy. split; [cbn; by rewrite Eq|done].
Qed.
Lemma adds_publish e src : steps (adds (if runs_command e then 1 else 0)) (publish e src).
Proof.
  intros s (Hsec & Hrest). unfold Controller.publish, bindM, world, on_stream.
  destruct (add_event _ _ _ _ _ _ _ (stream s.1)) as [r st'] eqn:Erun. destruct (add_event_command _ _ _ _ _ _ Hsec Erun) as [Hsec' Hq].
  cbn [snd fst]. unfold asking, commands. cbn [stream with_stream fst snd].
  split; [by split|]. destruct Hq as [->|(copy & -> & Hc)]; [lia|]. rewrite List.filter_app, length_app. cbn [List.filter].
  destruct (runs_command copy) eqn:Er; cbn [length]; [|lia]. unfold runs_command in *. apply andb_true_iff in Er as [Ec Er].
  specialize (Hc Ec). rewrite <- Hc, Ec. cbn [andb]. rewrite Er. lia.
Qed.
#[local] Instance adds_framed : Framed (adds 0) held.
Proof.
  split; try typeclasses eauto.
  - intros e src He. pose proof (adds_publish e src) as Hp. replace (runs_command e) with false in Hp; [done|].
    unfold held, runs_command in *. cbn [data new_event] in He. destruct (is_command (data e)); [|done]. by rewrite He.
  - intros f Hf s. by apply adds_same.
  - intros name s. by apply adds_same; [|split].
  - intros s. by apply adds_same; [|split].
  - intros s. by apply adds_same; [|split].
  - intros x s. by apply adds_same; [|split].
  - intros s (Hsec & Hrest). unfold on_stream. destruct (cur_id_frame (stream s.1)) as [Es Eq].
    destruct (cur_id _ _ _) as [r st]. cbn [snd] in *. unfold asking, commands. cbn [fst snd stream with_stream]. rewrite Es, Eq.
    split; [by split|lia].
  - intros m _ s Ha. pose proof Ha as (_ & _ & _ & Hd & _). unfold on_delegate. rewrite Hd. cbn [snd]. split; [done|lia].
Qed.
Local Hint Resolve adds_framed : framed.
Lemma held_when c : c = AWAITING_CONFIRMATION \/ c = REJECTED -> allowed_when held c.
Proof. intros Hc b Hb Hf. unfold held, runs_command. cbn [data new_event]. rewrite Hb, Hf. by destruct Hc as [-> | ->]. Qed.
Lemma adds_set_state x : x <> USER_CONFIRMED -> steps (adds 0) (set_agent_state_to x).
Proof. intros Hx. apply (framed_set_state (adds 0) held); [|done]. apply held_when. by right. Qed.
Lemma adds_publish_action a : (is_command (data (ev a)) = true -> held (data (ev a))) -> steps (adds 0) (publish_action a).
Proof.
  intros Ha. pose proof (adds_set_state AWAITING_USER_CONFIRMATION ltac:(done)). unfold Controller.publish_action. walk.
  by apply (framed_publish_pending (adds 0) held).
Qed.
(** An action apart from the mark of the confirmation and its level of risk. *)
Definition unmarked (b : body) : body :=
  data (ev (set_confirmation_state CONFIRMED {| ev := new_event (set_security_risk RISK_UNKNOWN b); dynamic_confirmation := None |})).
Lemma unmarked_risk r b : unmarked (set_security_risk r b) = unmarked b.
Proof. by destruct b. Qed.
Lemma unmarked_confirmation c a : unmarked (data (ev (set_confirmation_state c a))) = unmarked (data (ev a)).
Proof. unfold set_confirmation_state. destruct (data (ev a)) eqn:E; cbn [ev data with_data]; by rewrite ?E. Qed.
(** The analyzer says that the risk is high. *)
Definition found_risky (e : event) (s : C) : Prop :=
  is_Some (security_risk (data e)) /\ exists analyze, security_analyzer = Some analyze /\ (analyze e (agents s.1)).1 = Ok RISK_HIGH.
Lemma security_analyzer_spec e s : exists e' a',
  handle_security_analyzer e s = (Ok e', (with_agents a' s.1, s.2)) /\
  (security_analyzer = None -> default RISK_UNKNOWN (security_risk (data e')) = RISK_UNKNOWN) /\
  (found_risky e s -> security_risk (data e') = Some RISK_HIGH) /\
  runnable (data e') = runnable (data e) /\ _source e' = _source e /\ unmarked (data e') = unmarked (data e).
Proof.
  assert (s = (with_agents (agents s.1) s.1, s.2)) as Hs by by destruct s as [[] ?].
  assert (forall r, let e' := with_data e (set_security_risk r (data e)) in
            runnable (data e') = runnable (data e) /\ _source e' = _source e /\ unmarked (data e') = unmarked (data e)) as Hset
    by (intros r; cbn [data with_data _source]; rewrite unmarked_risk; by destruct (data e)).
  unfold Controller.handle_security_analyzer, found_risky. destruct security_analyzer as [analyze|].
  - destruct (security_risk (data e)) as [risk|] eqn:Er.
    + destruct (analyze e (agents s.1)) as [r a] eqn:Ea. do 2 eexists. split_and!; try reflexivity; try done; try apply Hset.
      intros (_ & ? & [= <-] & Hh). rewrite Ea in Hh. cbn [fst] in Hh. rewrite Hh. cbn [data with_data]. by destruct (data e).
    + exists e, (agents s.1). rewrite <- Hs. split_and!; try done. by intros ([? ?] & _).
  - eexists _, (agents s.1). rewrite <- Hs. split; [done|]. split_and!.
    + intros _. destruct (data e) eqn:E; cbn; by rewrite ?E.
    + by intros (_ & ? & ? & _).
    + destruct (security_risk (data e)); [apply Hset|done].
    + destruct (security_risk (data e)); [apply Hset|done].
    + destruct (security_risk (data e)); [apply Hset|done].
Qed.
(** In confirmation mode the controller asks: always without an analyzer or on the
    command line, else when the analyzer finds the action risky. *)
Definition asks (e : event) (s : C) : Prop :=
  State.confirmation_mode (state s.2) = true /\ ctl_confirmation_mode s.2 = true /\
  (security_analyzer = None \/ cli_mode (config s.2) = true \/ found_risky e s).
Lemma asking_asks e s : asking s -> asks e s.
Proof. intros (_ & Hmode & Hctl & _ & Hask). split_and!; tauto. Qed.
Lemma gated_spec e s : asks e s -> runnable (data e) = true -> exists e' a',
  gated e s = (Ok (set_confirmation_state AWAITING_CONFIRMATION {| ev := e'; dynamic_confirmation := None |}), (with_agents a' s.1, s.2)) /\
  runnable (data e') = true /\ _source e' = _source e /\ unmarked (data e') = unmarked (data e).
Proof.
  intros (Hmode & Hctl & Hask) Hr. unfold Controller.gated, bindM, self, confirmed_class. rewrite Hmode, Hr. cbn [andb].
  destruct (security_analyzer_spec e s) as (e' & a' & -> & Hrisk & Hhigh & Hr' & Hs' & Hu).
  assert (asks_confirmation security_analyzer s.2 (default RISK_UNKNOWN (security_risk (data e'))) = true) as Hasks.
  { unfold asks_confirmation. destruct Hask as [Hn | [-> | Hf]]; [|done|].
    - rewrite (Hrisk Hn), Hn, Hctl. cbn. apply orb_true_r.
    - rewrite (Hhigh Hf), Hctl. cbn. apply orb_true_r. }
  cbn [snd]. rewrite Hasks. exists e', a'. by rewrite Hr'.
Qed.
Lemma gated_held e s : asking s -> runnable (data e) = true ->
  let '(r, s') := gated e s in
  adds 0 s s' /\ match r with Ok a => is_command (data (ev a)) = true -> held (data (ev a)) | Raise _ => True end.
Proof.
  intros Ha Hr. destruct (gated_spec e s (asking_asks e s Ha) Hr) as (e' & a' & -> & _). split; [by apply adds_same; [|split]|]. intros Hc.
  match goal with |- context [set_confirmation_state ?c ?a] => destruct (set_confirmation_command c a) as [E1 E2] end.
  rewrite E1 in Hc. specialize (E2 Hc). rewrite Hc in E1. by eapply held_when; [left| |].
Qed.
Lemma adds_take_action e : steps (adds 0) (take_action e).
Proof.
  unfold Controller.take_action. destruct (runnable (data e)) eqn:Hr.
  - intros s Ha. revert Ha. fold (adds 0 s ((a <- gated e ;; update (set_pending (Some a)) ;;; publish_action a) s).2).
    destruct (decide (asking s)) as [Ha|]; [|done].
    pose proof (gated_held e s Ha Hr) as Hg. apply steps_bind_at; [typeclasses eauto|by destruct (gated e s); destruct Hg|].
    intros a s' E. rewrite E in Hg. destruct Hg as [_ Hg]. pose proof (adds_publish_action a Hg). walk.
  - apply adds_publish_action. cbn [ev]. intros Hc. by destruct (data e).
Qed.
Lemma adds_react e : steps (adds 0) (react_to_exception e).
Proof. apply (framed_react (adds 0) held). apply held_when. by right. Qed.
Local Hint Resolve adds_take_action adds_react : framed.
Lemma adds_ask_agent : steps (adds 0) ask_agent.
Proof.
  intros s. unfold Controller.ask_agent. destruct (agent_step _ _ _) as [r a].
  assert (adds 0 s (with_agents a s.1, s.2)) as Hs by by apply adds_same; [|split].
  assert (forall b, is_command b = false -> adds 0 s ((publish (new_event b) AGENT ;;; retM (@None event)) (with_agents a s.1, s.2)).2) as Ht.
  { intros b Hb. etrans; [exact Hs|]. generalize (with_agents a s.1, s.2).
    change (steps (adds 0) (publish (new_event b) AGENT ;;; retM (@None event))). walk. apply framed_publish. cbn. by rewrite Hb. }
  destruct r as [[e|]|x]; cbn [snd]; [done|..];
    repeat match goal with |- context [if ?b then _ else _] => destruct b end; try (by apply Ht); done.
Qed.
Lemma adds_next_action : steps (adds 0) next_action.
Proof.
  intros s. unfold Controller.next_action. destruct (should_replay _) as [r m].
  assert (adds 0 s (s.1, set_replay m s.2)) as Hs by by apply adds_same; [|destruct s as [? []]; split].
  destruct r as [[]|x]; cbn [snd]; [|etrans; [exact Hs|apply adds_ask_agent]|done].
  destruct (replay_step _) as [r m']. etrans; [exact Hs|]. by apply adds_same; [|destruct s as [? []]; split].
Qed.
Local Hint Resolve adds_next_action : framed.
Lemma adds_act : steps (adds 0) act_within_limits.
Proof.
  intros s. unfold Controller.act_within_limits, on_flags. destruct (run_control_flags _) as [r f].
  assert (adds 0 s (with_flags f s.1, s.2)) as Hs by by apply adds_same; [|split].
  etrans; [exact Hs|]. generalize (with_flags f s.1, s.2). intros s1. destruct r; [|apply adds_react].
  revert s1. fold (steps (adds 0) (action <- next_action ;; match action with Some e => take_action e | None => retM tt end)). walk.
Qed.
Lemma adds_event e : is_delegation e = false -> (forall t, data e <> ChangeAgentStateAction USER_CONFIRMED t) -> steps (adds 0) (on_event e).
Proof.
  intros Hd Hc. apply (framed_on_event (adds 0) held); [apply held_when; by right|apply adds_act|..].
  - intros t E. by destruct (Hc t).
  - by rewrite Hd.
Qed.

(** *** A confirmation *)

Lemma adds_update_state f : (forall st, State.confirmation_mode (f st) = State.confirmation_mode st) -> steps (adds 0) (update_state f).
Proof. apply (framed_update_state (adds 0) held). Qed.

Lemma adds_bind {X Y} n m (f : M C X) (k : X -> M C Y) :
  steps (adds n) f -> (forall x, steps (adds m) (k x)) -> steps (adds (n + m)) (bindM f k).
Proof.
  intros Hf Hk s. unfold bindM. specialize (Hf s). destruct (f s) as [[x|e] s']; cbn [snd] in *.
  - eapply adds_trans; [done|apply Hk].
  - intros Ha. destruct (Hf Ha). split; [done|lia].
Qed.
Lemma adds_first {X Y} (f : M C X) (k : X -> M C Y) :
  steps (adds 1) f -> (forall x, steps (adds 0) (k x)) -> steps (adds 1) (bindM f k).
Proof. apply (adds_bind 1 0). Qed.
Lemma adds_then {X Y} (f : M C X) (k : X -> M C Y) :
  steps (adds 0) f -> (forall x, steps (adds 1) (k x)) -> steps (adds 1) (bindM f k).
Proof. apply (adds_bind 0 1). Qed.
Lemma adds_weaken {X} (f : M C X) : steps (adds 0) f -> steps (adds 1) f.
Proof. intros Hf s Ha. destruct (Hf s Ha). split; [done|lia]. Qed.
Lemma adds_publish_pending src : steps (adds 1) (publish_pending src).
Proof.
  intros s. destruct (publish_pending_eq src s) as [a ->]. destruct (Controller.pending_action s.2) as [x|]; [|by apply (adds_weaken (retM tt)); walk].
  eapply (adds_trans 1 0); [|apply (framed_update (set_pending a)); intros []; by split].
  intros Ha. destruct (adds_publish (ev x) src s Ha). split; [done|]. destruct (runs_command (ev x)); lia.
Qed.
Lemma adds_confirmation : steps (adds 1) (set_agent_state_to USER_CONFIRMED).
Proof.
  unfold Controller.set_agent_state_to. apply adds_then; [walk|]. intros old. destruct (String.eqb _ _); [apply adds_weaken; walk|].
  apply adds_then; [by apply adds_update_state|intros _]. apply adds_then; [walk|intros _]. apply adds_then; [walk|intros _]. apply adds_then; [walk|intros c].
  apply adds_first; [|intros _; walk].
  destruct (Controller.pending_action c) as [a|]; [|apply adds_weaken; walk]. cbn [String.eqb Ascii.eqb Bool.eqb orb].
  apply adds_then; [walk|intros _]. apply adds_publish_pending.
Qed.

Definition confirms (e : event) : nat := match data e with ChangeAgentStateAction s _ => if String.eqb s USER_CONFIRMED then 1 else 0 | _ => 0 end.
Lemma adds_on_event e : is_delegation e = false -> steps (adds (confirms e)) (on_event e).
Proof.
  intros Hd. destruct (data e) eqn:E; unfold confirms; rewrite E; try (apply adds_event; [done|by intros t; rewrite E]).
  destruct (String.eqb_spec agent_state USER_CONFIRMED) as [->|Hne]; [|apply adds_event; [done|intros t; rewrite E; congruence]].
  intros s Ha. pose proof Ha as (_ & _ & _ & Hnone & _). revert Ha.
  replace (on_event e s) with (on_event_ e s) by (unfold Controller.on_event, bindM, self; by rewrite Hnone).
  revert s Hnone. intros s _. revert s. fold (steps (adds 1) (on_event_ e)). unfold Controller.on_event_, hidden_attr. rewrite E.
  apply adds_then; [by apply (framed_add_history (adds 0) held)|intros _]. cbn [is_action].
  apply adds_first; [unfold Controller.handle_action; rewrite E; apply adds_confirmation|intros _].
  pose proof (framed_step_handled (adds 0) held ltac:(apply held_when; by right) adds_act). walk.
Qed.

(** Events put into the queue no more commands than they confirm. *)
Lemma commands_confirmed es s : asking s -> Forall (fun e => is_delegation e = false) es ->
  let s' := foldl (fun s e => (on_event e s).2) s es in
  (commands s'.1 <= commands s.1 + list_sum (map confirms es))%nat.
Proof.
  intros Ha Hes s'. cut (adds (list_sum (map confirms es)) s s'); [intros H'; by destruct (H' Ha)|]. unfold s'. clear s' Ha.
  revert s. induction Hes as [|e es He Hes IH]; intros s; cbn [foldl map list_sum foldr]; [by apply adds_pre|].
  eapply adds_trans; [by apply adds_on_event|apply IH].
Qed.
End confirmations.

(** ** The state that is set *)

(** Only the pending action and the world change. *)
Definition only_pending (s s' : C) : Prop := exists a, s'.2 = set_pending a s.2.
#[local] Instance only_pending_pre : PreOrder only_pending.
Proof.
  split; [intros [w []]; by eexists|]. intros x y z [a E1] [b E2]. exists b. rewrite E2, E1. by destruct (x.2).
Qed.
Lemma only_pending_same s s' : s'.2 = s.2 -> only_pending s s'.
Proof. intros E. exists (Controller.pending_action s.2). rewrite E. by destruct (s.2). Qed.
Lemma only_pending_publish e src : steps only_pending (publish e src).
Proof. intros s. apply only_pending_same, publish_frame. Qed.
Lemma only_pending_pending src : steps only_pending (publish_pending src).
Proof.
  intros s. destruct (publish_pending_eq src s) as [a ->]. destruct (Controller.pending_action s.2) as [x|]; [|done].
  exists a. cbn [snd update]. by destruct (publish_frame (ev x) src s) as [-> _].
Qed.
Lemma only_pending_update a : steps only_pending (update (F := F) (A := A) (set_pending a)).
Proof. intros s. by exists a. Qed.
Lemma only_pending_world f : steps only_pending (update_world (F := F) (A := A) f).
Proof. intros s. by apply only_pending_same. Qed.
Lemma only_pending_self : steps only_pending self. Proof. by intros s. Qed.
Local Hint Resolve only_pending_publish only_pending_pending only_pending_update only_pending_world only_pending_self : framed.
Lemma only_pending_reset : steps only_pending reset_.
Proof. unfold Controller.reset_. walk. Qed.
Local Hint Resolve only_pending_reset : framed.

(** The agent is in the new state even if an event could not be published. *)
Lemma set_agent_state_spec x s : let s' := (set_agent_state_to x s).2 in
  exists a, s'.2 = set_pending a (set_state (set_agent_state x (state s.2)) s.2).
Proof.
  cbv zeta. unfold Controller.set_agent_state_to, get_agent_state.
  unfold bindM at 1 2. unfold self at 1. cbv beta iota. unfold retM at 1. destruct (String.eqb_spec x (agent_state (state s.2))) as [->|_].
  { exists (Controller.pending_action s.2). cbn [snd]. destruct s as [w []]. cbn. f_equal. by destruct state. }
  set (rest := (if is_end_state x then _ else _)). unfold bindM at 1. cbn [update_state update]. cbn [fst snd].
  match goal with |- exists a, (?m ?s0).2.2 = _ => assert (steps only_pending m) as Hm; [|destruct (Hm s0) as [a ->]; by exists a] end.
  subst rest. walk. apply steps_bind; [typeclasses eauto| |intros _]; eauto with framed.
Qed.
Lemma state_after_set x s : agent_state (state (set_agent_state_to x s).2.2) = x.
Proof. destruct (set_agent_state_spec x s) as [a ->]. by destruct s as [w []]. Qed.

Lemma react_stops e s : agent_state (state (react_to_exception e s).2.2) ∈ [ERROR; RATE_LIMITED].
Proof.
  unfold Controller.react_to_exception, bindM, update_state, update, self, update_world. cbn [fst snd].
  repeat match goal with
  | |- context [if ?b then _ else _] => destruct b
  | |- context [match llm_status ?a ?b with _ => _ end] => destruct (llm_status a b)
  end; rewrite state_after_set; repeat first [apply list_elem_of_here|apply list_elem_of_further].
Qed.

(** C31: Nothing that fails in a step leaves the agent running: when [_step]
    raises, whatever raised (the agent, the replay, the detector, the stream), the
    agent is in an error or rate-limited state after
    [_step_with_exception_handling], even if that cannot be published. *)
Theorem failed_step_stops e s s1 : step_ s = (Raise e, s1) ->
  agent_state (state (step_with_exception_handling s).2.2) ∈ [ERROR; RATE_LIMITED].
Proof. intros Hs. unfold Controller.step_with_exception_handling. rewrite Hs. apply react_stops. Qed.

(** ** The budget *)

Section budget.
Context (calls : A -> Z) (Hreset : forall name a, calls (agent_reset name a) <= calls a).

Definition spent_up (w : World) : Prop :=
  exists b, budget_flag (flags w) = Some b /\ fle (b_max_value b) (accumulated_cost (agents w)) = true.
(** The agents are not called. *)
Definition calm (s s' : C) : Prop := calls (agents s'.1) <= calls (agents s.1).
#[local] Instance calm_pre : PreOrder calm.
Proof. split; [intros s; unfold calm; lia|]. unfold calm. intros x y z. lia. Qed.
#[local] Instance calm_framed : Framed calm (fun _ => True).
Proof.
  split; try typeclasses eauto; try (intros; intros s; unfold calm; cbn; lia).
  - intros e src _ s. destruct (publish_frame e src s) as (_ & _ & E & _). unfold calm. rewrite E. lia.
  - intros name s. apply Hreset.
  - intros s. unfold on_stream. destruct (cur_id _ _ _). unfold calm. cbn. lia.
  - intros m Hm s. unfold on_delegate. destruct (delegate s.2) as [d|]; [|unfold calm; cbn; lia].
    specialize (Hm (s.1, d)). by destruct (m _) as [r [w d']].
Qed.
Lemma react_calm e s : calm s (react_to_exception e s).2.
Proof. by apply (framed_react calm (fun _ => True)). Qed.
Lemma flags_over_budget f b : budget_flag f = Some b -> fle (b_max_value b) (b_current_value b) = true ->
  exists e f', run_control_flags f = (Raise e, f').
Proof.
  intros Hb Hm. unfold run_control_flags. rewrite i_step_spec.
  destruct (_ <=? _); [by eexists _, _|]. cbn [budget_flag with_iteration]. rewrite Hb.
  unfold b_step, b_reached_limit, bindM. rewrite Hm. cbv iota beta zeta. by eexists _, _.
Qed.
Lemma act_over_budget s b : budget_flag (flags s.1) = Some b -> fle (b_max_value b) (b_current_value b) = true ->
  calm s (act_within_limits s).2 /\ agent_state (state (act_within_limits s).2.2) ∈ [ERROR; RATE_LIMITED].
Proof.
  intros Hb Hm. destruct (flags_over_budget _ _ Hb Hm) as (e & f' & E). unfold Controller.act_within_limits, on_flags. rewrite E.
  split; [|apply react_stops]. exact (react_calm e (with_flags f' s.1, s.2)).
Qed.

(** C6: A conversation that has cost as much as its budget does not go on: the next
    step of any agent in it leaves the models alone, and ends in an error or
    rate-limited state instead of an action, whatever else is wrong. *)
Theorem budget_stops_the_agent s : spent_up s.1 -> agent_state (state s.2) = RUNNING -> Controller.pending_action s.2 = None ->
  let s' := (step_with_exception_handling s).2 in
  calls (agents s'.1) <= calls (agents s.1) /\ agent_state (state s'.2) ∈ [ERROR; RATE_LIMITED].
Proof.
  intros (b & Hb & Hm) Hr Hp. cbv zeta. unfold Controller.step_with_exception_handling, Controller.step_, bindM, self. rewrite Hr, Hp.
  change (RUNNING =? RUNNING)%string with true. cbn [negb]. unfold update_world. cbn [fst snd].
  set (w := with_flags (sync_budget_flag_with_metrics (accumulated_cost (agents s.1)) (flags s.1)) s.1). set (b' := b_with (accumulated_cost (agents s.1)) (b_max_value b) (b_hit_limit b) b).
  assert (budget_flag (flags w) = Some b') as Hb' by (cbn; by rewrite Hb).
  assert (forall c, calm s (act_within_limits (w, c)).2 /\ agent_state (state (act_within_limits (w, c)).2.2) ∈ [ERROR; RATE_LIMITED]) as Hact
    by (intros c; exact (act_over_budget (w, c) b' Hb' Hm)).
  assert (forall e s1, calm s s1 -> calm s (react_to_exception e s1).2 /\ agent_state (state (react_to_exception e s1).2.2) ∈ [ERROR; RATE_LIMITED]) as He.
  { intros e s1 H1. split; [|apply react_stops]. etrans; [exact H1|apply react_calm]. }
  match goal with |- context [match ?m with _ => _ end] => assert (calm s m.2 /\ (is_ok m.1 = true -> agent_state (state m.2.2) ∈ [ERROR; RATE_LIMITED])) as Hgood end.
  { assert (forall c, calm s (w, c)) as Hw by (intros c; unfold calm; cbn; lia). destruct (enable_stuck_detection _).
    - unfold Controller.is_stuck_now. cbn [snd]. destruct (is_stuck_ s.2) as [[[]|e] c]; cbn [fst snd]; [by split; [apply He|intros _; apply react_stops]| |by split].
      destruct (Hact c) as [H1 H2]. split; [exact H1|intros _; exact H2].
    - unfold retM. cbn [fst snd]. destruct (Hact s.2) as [H1 H2]. split; [exact H1|intros _; exact H2]. }
  match goal with |- context [match ?m with _ => _ end] => destruct m as [[[]|e] s1] end; cbn [fst snd is_ok] in *.
  - destruct Hgood as [H1 H2]. split; [exact H1|by apply H2].
  - apply He, Hgood.
Qed.
End budget.

(** ** Waiting for the user *)

Definition awaiting (a : Act) (s : C) : Prop :=
  agent_state (state s.2) = AWAITING_USER_CONFIRMATION /\ Controller.pending_action s.2 = Some a /\ delegate s.2 = None.
(** What [on_event] adds to the history. *)
Definition remembered (o : event) (st : State) : State := match add_history text o st with Ok st => st | Raise _ => st end.
Lemma observation_ignored a o s : awaiting a s -> is_observation (data o) = true ->
  (on_event o s).2 = (s.1, if hidden_attr o then s.2 else set_state (remembered o (state s.2)) s.2).
Proof.
  intros (Hst & Hp & Hd) Ho. unfold Controller.on_event, bindM at 1, self at 1. rewrite Hd. unfold Controller.on_event_.
  destruct (hidden_attr o); [by destruct s|]. unfold is_observation in Ho. apply negb_true_iff in Ho.
  unfold bindM at 1, change_state, remembered. destruct (add_history text o (state s.2)) as [st|] eqn:Eh; cbn [snd]; [|by destruct s as [? []]].
  assert (agent_state st = AWAITING_USER_CONFIRMATION) as Hst'.
  { unfold add_history in Eh. destruct (include _ _ _) as [[]|]; cbn in Eh; by simplify_eq. }
  set (s1 := (s.1, set_state st s.2)).
  assert (Controller.pending_action s1.2 = Some a /\ state s1.2 = st) as [Hp1 Hs1] by (unfold s1; destruct s as [w []]; by cbn in *).
  rewrite Ho. unfold bindM at 1. unfold Controller.handle_observation. unfold bindM at 1, self at 1. rewrite Hp1, Hs1, Hst'.
  replace ((if bool_decide (Some (event_id (ev a)) = _cause o) then
              if String.eqb AWAITING_USER_CONFIRMATION AWAITING_USER_CONFIRMATION then retM tt else _ else retM tt) s1) with (Ok tt, s1)
    by by destruct (bool_decide _).
  unfold bindM at 1, self at 1. destruct (should_step _ _); [|done].
  unfold Controller.step_with_exception_handling, Controller.step_, bindM, self. by rewrite Hs1, Hst'.
Qed.

Lemma add_event_data now e src (st st' : EventStream (F := F)) e' :
  add_event version literal_eval sid user_id now e src st = (Ok e', st') -> data e' = data e.
Proof.
  unfold add_event. destruct (negb (event_id e =? INVALID_ID)); [done|]. unfold bindM at 1. destruct (cur_id _ _ _) as [[id|] st1]; [|done].
  unfold bindM, modifyM, getM, liftM. destruct (event_to_dict _) as [d|]; [|done]. destruct (event_from_dict _ _ _) as [copy|]; [|done].
  cbv zeta. destruct (_id copy); [destruct (store_cache_page _ _ _ _) as [[[]|] ?]; [|done]|]; by intros [= <- <-].
Qed.
Lemma publish_pending_spec a src s : Controller.pending_action s.2 = Some a ->
  exists e, (publish_pending src s).2.2 = set_pending (Some {| ev := e; dynamic_confirmation := dynamic_confirmation a |}) s.2 /\
            data e = data (ev a).
Proof.
  intros Hp. unfold Controller.publish_pending. rewrite Hp. destruct (publish_frame (ev a) src s) as [Hf _].
  destruct (publish (ev a) src s) as [r s'] eqn:E. cbn [snd] in *. eexists. rewrite Hf. split; [reflexivity|].
  destruct r as [e|x].
  - unfold Controller.publish, bindM, world, on_stream in E.
    destruct (add_event _ _ _ _ _ _ _ _) as [r st'] eqn:Ea. injection E as -> <-. by apply add_event_data in Ea.
  - unfold half_published. by destruct (negb (event_id (ev a) =? INVALID_ID)).
Qed.
Lemma confirmation_set c a : confirmation_state (set_confirmation_state c a) = Some c.
Proof.
  unfold confirmation_state, set_confirmation_state. destruct (data (ev a)) eqn:E; cbn [ev data with_data field_confirmation]; rewrite ?E; done.
Qed.
Lemma set_confirmation_same c a : let a' := set_confirmation_state c a in
  runnable (data (ev a')) = runnable (data (ev a)) /\ _source (ev a') = _source (ev a).
Proof. unfold set_confirmation_state. destruct (data (ev a)) eqn:E; cbn [ev data with_data _source]; by rewrite ?E. Qed.
Lemma runnable_not_null b : runnable b = true -> is_null_action b = false. Proof. by destruct b. Qed.
(** Only the world changes. *)
Definition same_controller (s s' : C) : Prop := s'.2 = s.2.
#[local] Instance same_controller_pre : PreOrder same_controller.
Proof. split; [by intros s|]. unfold same_controller. intros x y z. congruence. Qed.
Lemma same_publish e src : steps same_controller (publish e src).
Proof. intros s. apply publish_frame. Qed.
Lemma same_self : steps same_controller self. Proof. by intros s. Qed.
Local Hint Resolve same_publish same_self : framed.
Lemma set_awaiting s :
  (set_agent_state_to AWAITING_USER_CONFIRMATION s).2.2 = set_state (set_agent_state AWAITING_USER_CONFIRMATION (state s.2)) s.2.
Proof.
  unfold Controller.set_agent_state_to, get_agent_state. unfold bindM at 1 2. unfold self at 1. cbv beta iota. unfold retM at 1.
  destruct (String.eqb_spec AWAITING_USER_CONFIRMATION (agent_state (state s.2))) as [E|_].
  { cbn [snd]. destruct s as [w []]. cbn in *. f_equal. rewrite E. by destruct state. }
  unfold bindM at 1. cbn [update_state update fst snd].
  match goal with |- (?m ?s0).2.2 = _ => assert (steps same_controller m) as Hm; [|exact (Hm s0)] end.
  rewrite andb_false_r. change (is_end_state AWAITING_USER_CONFIRMATION) with false. cbv iota. walk; done.
Qed.
Lemma publish_action_waits a src s : runnable (data (ev a)) = true -> confirmation_state a = Some AWAITING_CONFIRMATION ->
  _source (ev a) = Some src -> delegate s.2 = None -> Controller.pending_action s.2 = Some a ->
  exists a', awaiting a' (publish_action a s).2 /\ confirmation_state a' = Some AWAITING_CONFIRMATION /\ data (ev a') = data (ev a).
Proof.
  intros Hr Hc Hs Hd Hp. unfold Controller.publish_action. rewrite (runnable_not_null _ Hr), Hc, bool_decide_true by done.
  unfold bindM at 1. pose proof (set_awaiting s) as Hset.
  destruct (set_agent_state_to _ s) as [[[]|x] s1]; cbn [snd] in *.
  - unfold bindM at 1, world. cbn [prepare_metrics with_metrics _source data]. rewrite Hs, Hr. unfold bindM, update. cbn [fst snd].
    match goal with |- exists a', awaiting a' (publish_pending _ ?s2).2 /\ _ =>
      destruct (publish_pending_spec (Controller.Build_Act (prepare_metrics frontend_metrics s1.1 (ev a)) (dynamic_confirmation a)) src s2)
        as (e & E & Hdata) end.
    { by rewrite Hset; destruct s as [w []]. }
    eexists. unfold awaiting. rewrite E, Hset. cbn [ev data] in *.
    split; [split_and!; [by destruct s as [w []]|by destruct s as [w []]|by destruct s as [w []]; cbn in *]|].
    unfold confirmation_state. cbn [ev dynamic_confirmation]. by rewrite Hdata.
  - exists a. unfold awaiting. rewrite Hset. split; [|done]. destruct s as [w []]. by cbn in *.
Qed.

(** C29: In confirmation mode, without a delegate, a runnable action waits for the user
    whenever the controller has to ask: without a security analyzer, on the command
    line, or when the analyzer finds the action risky.  Once it is taken the agent
    awaits the confirmation of this action, which is the pending one, changed only in
    its mark of confirmation and its risk; and no observations, however many, change
    that or let the agent do anything but remember them. *)
Theorem action_waits_for_user e src os s : asks e s -> delegate s.2 = None -> runnable (data e) = true -> _source e = Some src ->
  Forall (fun o => is_observation (data o) = true) os ->
  let s1 := (take_action e s).2 in
  let s2 := foldl (fun s o => (on_event o s).2) s1 os in
  exists a, awaiting a s2 /\ confirmation_state a = Some AWAITING_CONFIRMATION /\ unmarked (data (ev a)) = unmarked (data e) /\ s2.1 = s1.1.
Proof.
  intros Ha Hd Hr Hsrc Hos. cbv zeta.
  assert (exists a, awaiting a (take_action e s).2 /\ confirmation_state a = Some AWAITING_CONFIRMATION /\ unmarked (data (ev a)) = unmarked (data e))
    as (a & Haw & Hc & Hu).
  { unfold Controller.take_action. rewrite Hr. destruct (gated_spec e s Ha Hr) as (e' & a' & E & Hr' & Hs' & Hu).
    unfold bindM at 1. rewrite E. unfold bindM at 1. cbn [update fst snd].
    destruct (set_confirmation_same AWAITING_CONFIRMATION {| ev := e'; dynamic_confirmation := None |}) as [Er Es]. cbn [ev] in *.
    edestruct publish_action_waits as (x & H1 & H2 & H3);
      [| | | | |exists x; split; [exact H1|]; split; [exact H2|]; by rewrite H3, unmarked_confirmation]; try apply confirmation_set.
    - by rewrite Er.
    - by rewrite Es, Hs'.
    - by destruct s as [w []].
    - by destruct s as [w []]. }
  exists a. generalize (take_action e s).2, Haw. clear Haw. intros s1. revert s1.
  induction Hos as [|o os Ho Hos IH]; intros s1 Haw; cbn [foldl]; [done|]. pose proof (observation_ignored a o s1 Haw Ho) as E.
  assert (awaiting a (on_event o s1).2) as Haw'.
  { rewrite E. destruct Haw as (Hst & Hp & Hd'). destruct (hidden_attr o); [done|]. unfold awaiting. cbn [snd].
    assert (agent_state (remembered o (state s1.2)) = AWAITING_USER_CONFIRMATION) as Hrem.
    { unfold remembered, add_history. destruct (include _ _ _) as [[]|]; by cbn. }
    destruct s1 as [w []]. by cbn in *. }
  destruct (IH _ Haw') as (? & ? & ? & E1). split_and!; try done. rewrite E1. by rewrite E.
Qed.
End safety.

(** ** A conversation *)

(** An agent that always does the same. *)
Definition always (b : body) : string -> State -> nat -> res (option event) * nat := fun _ _ n => (Ok (Some (new_event b)), S n).
Definition no_is_a (e : exn) (cls : string) : bool := String.eqb (exn_name e) cls.
Definition clock0 (id : Z) : string := "2026-01-01T00:00:00".
Definition plain_config : AgentConfig := {| enable_stuck_detection := false; enable_history_truncation := true; cli_mode := false |}.
Definition conversation0 : World (F := InMemoryFileStore) (A := nat) * Controller :=
  ({| stream := new_stream []; flags := new_flags 10 None; agents := 0%nat; statuses := [] |},
   new_controller "s" "CodeActAgent" plain_config None true false None).
Definition from_user (b : body) : event := with_source (Some USER) (new_event b).
Definition hello : event := from_user (MessageAction "hello" None None false RISK_UNKNOWN).
(** The answer to the recall of [hello], which has the id 0. *)
Definition recalled : event :=
  with_ids (Some 100) (Some 0) None (new_event (RecallObservation "" KNOWLEDGE "" "" "" "" [] "" "" [] "" "" [])).
Definition user_says (state : string) : event := from_user (ChangeAgentStateAction state "").
Definition list_files_command : body := CmdRunAction "ls" false "" false false None false CONFIRMED RISK_LOW.
Definition write_file : body := FileWriteAction "/etc/hosts" "x" 0 (-1) "" RISK_HIGH.


Lemma iterations_bounded_witness :
  let s' := foldl (fun s e => (on_event (fun _ => "") "1" (fun _ => None) "s" None (always list_files_command) (fun _ n => n) (fun _ _ => None)
    (fun name => Ok name) [] (fun _ => f0) (fun _ _ => new_metrics "default") None no_is_a (fun _ => false) false true clock0 e s).2)
    conversation0 [hello; recalled; user_says USER_CONFIRMED] in
  asked Z.of_nat s'.1 - asked Z.of_nat conversation0.1 <= limit conversation0.1 - counted conversation0.1.
Proof.
  apply iterations_bounded.
  - intros name st n. cbn [always snd]. lia.
  - intros name n. lia.
  - intros analyze Ha. discriminate Ha.
  - reflexivity.
  - by vm_compute.
Defined.
Definition running0 : World (F := InMemoryFileStore) (A := nat) * Controller :=
  (conversation0.1, set_state (set_agent_state RUNNING (state conversation0.2)) conversation0.2).
Definition crashing : string -> State -> nat -> res (option event) * nat := fun _ _ n => (Raise (RuntimeError "boom"), n).
Lemma failed_step_stops_witness :
  agent_state (state (step_with_exception_handling "1" (fun _ => None) "s" None crashing (fun _ n => n) (fun _ => f0) (fun _ _ => new_metrics "default") None
    no_is_a (fun _ => false) false true clock0 running0).2.2) ∈ [ERROR; RATE_LIMITED].
Proof.
  refine (failed_step_stops "1" (fun _ => None) "s" None crashing (fun _ n => n) (fun _ => f0) (fun _ _ => new_metrics "default") None no_is_a
    (fun _ => false) false true clock0 (RuntimeError "boom") running0 _ _).
  vm_compute. reflexivity.
Defined.
Lemma action_waits_for_user_witness :
  exists a, awaiting a (foldl (fun s o => (on_event (fun _ => "") "1" (fun _ => None) "s" None (always write_file) (fun _ n => n)
    (fun _ _ => None) (fun name => Ok name) [] (fun _ => f0) (fun _ _ => new_metrics "default") None no_is_a (fun _ => false) false true clock0 o s).2)
    (take_action "1" (fun _ => None) "s" None (fun _ n => n) (fun _ _ => new_metrics "default") None true clock0
       (with_source (Some AGENT) (new_event write_file)) running0).2 [recalled]).
Proof.
  edestruct (action_waits_for_user (fun _ => "") "1" (fun _ => None) "s" None (always write_file) (fun _ n => n) (fun _ _ => None)
    (fun name => Ok name) [] (fun _ => f0) (fun _ _ => new_metrics "default") None no_is_a (fun _ => false) false true clock0
    (with_source (Some AGENT) (new_event write_file)) AGENT [recalled] running0) as (a & Ha & _).
  - unfold asks. split_and!; try reflexivity. by left.
  - reflexivity.
  - reflexivity.
  - reflexivity.
  - repeat constructor.
  - exists a. exact Ha.
Defined.

(** Five calls at a price of one, and a budget of four. *)
Definition over_budget : World (F := InMemoryFileStore) (A := nat) * Controller :=
  ({| stream := new_stream []; flags := new_flags 10 (Some (float_of_Z 4)); agents := 5%nat; statuses := [] |},
   set_state (set_agent_state RUNNING (state conversation0.2)) conversation0.2).
Lemma budget_stops_the_agent_witness :
  let s' := (step_with_exception_handling "1" (fun _ => None) "s" None (always list_files_command) (fun _ n => n) (fun n => float_of_Z (Z.of_nat n))
    (fun _ _ => new_metrics "default") None no_is_a (fun _ => false) false true clock0 over_budget).2 in
  Z.of_nat (agents s'.1) <= 5 /\ agent_state (state s'.2) ∈ [ERROR; RATE_LIMITED].
Proof.
  apply (budget_stops_the_agent "1" (fun _ => None) "s" None (always list_files_command) (fun _ n => n) (fun n => float_of_Z (Z.of_nat n))
    (fun _ _ => new_metrics "default") None no_is_a (fun _ => false) false true clock0 Z.of_nat).
  - intros name n. lia.
  - eexists. split; [reflexivity|]. vm_compute. reflexivity.
  - reflexivity.
  - reflexivity.
Defined.
