(* ===== verification/AgentTools.v ===== *)
(** * The tools of the agents

    The tools that [openhands/agenthub/codeact_agent/tools] and
    [readonly_agent/tools] offer to the model, as the JSON values that are sent;
    [refine_prompt] of [tools/prompt.py]; [CodeActAgent._get_tools] and
    [readonly_agent/function_calling.py]'s [get_tools]; [check_tools] of
    [llm/llm_utils.py].

    Parameters: the platform, and the environment's [SANDBOX_VOLUMES] and current
    directory.  In the texts, [bars] and [tildes] put quotation marks where the
    text has bars or tildes.

    The tools of [loc_agent] are not here: a text of theirs has a character that
    the strings of this development have not. *)

From S2P Require Import Prelude PyStr PyDict PyVal PyPath Events FnCallText FnCall.
From Stdlib Require Import Ascii.

Definition tildes (s : string) : string := smap (fun c => if Ascii.eqb c "~" then chr 34 else c) s.

(** [re.sub(r'\bword\b', repl, s, flags=re.IGNORECASE)] for a word in lower
    case; [prev] says whether the character before is one of a word. *)
Fixpoint sub_word (word repl : string) (prev : bool) (skip : nat) (s : string) : string :=
  match s with
  | EmptyString => ""
  | String c s' =>
      match skip with
      | S n => sub_word word repl (is_word c) n s'
      | O =>
          if negb prev && String.eqb (lower (stake (slen word) s)) word
             && match sdrop (slen word) s with String d _ => negb (is_word d) | EmptyString => true end
          then repl +:+ sub_word word repl (is_word c) (slen word - 1) s'
          else String c (sub_word word repl (is_word c) 0 s')
      end
  end.

(** [os.path.abspath] *)
Definition os_abspath (cwd : list string) (p : string) : string :=
  if isabs p then (if startswith "//" p && negb (startswith "///" p) then "/" else "") +:+ abs_str (normpath [] (split_char "/" p))
  else abs_str (normpath cwd (split_char "/" p)).

Definition TASK_TRACKER_TOOL_NAME : string := "task_tracker".
Definition DEFAULT_WORKSPACE_MOUNT_PATH_IN_SANDBOX : string := "/workspace".

Section tools.
Context (windows : bool) (sandbox_volumes : option string) (cwd : list string).

(** The second pattern of the source also asks for no underscore before, which
    the word boundary implies. *)
Definition refine_prompt (prompt : string) : string :=
  if windows then sub_word "bash" "powershell" false 0 (sub_word "execute_bash" "execute_powershell" false 0 prompt) else prompt.

(** *** [codeact_agent/tools/security_utils.py] *)

Definition SECURITY_RISK_DESC : string :=
  "The LLM's assessment of the safety risk of this action. See the SECURITY_RISK_ASSESSMENT section in the system prompt for risk level definitions.".

Definition RISK_LEVELS : list string := ["LOW"; "MEDIUM"; "HIGH"].

(** *** [codeact_agent/tools/bash.py] *)

Definition DETAILED_BASH_DESCRIPTION : string :=
  bars "Execute a bash command in the terminal within a persistent shell session.


### Command Execution
* One command at a time: You can only execute one bash command at a time. If you need to run multiple commands sequentially, use `&&` or `;` to chain them together.
* Persistent session: Commands execute in a persistent shell session where environment variables, virtual environments, and working directory persist between commands.
* Soft timeout: Commands have a soft timeout of 10 seconds, once that's reached, you have the option to continue or interrupt the command (see section below for details)
* Shell options: Do NOT use `set -e`, `set -eu`, or `set -euo pipefail` in shell scripts or commands in this environment. The runtime may not support them and can cause unusable shell sessions. If you want to run multi-line bash commands, write the commands to a file and then run it, instead.

### Long-running Commands
* For commands that may run indefinitely, run them in the background and redirect output to a file, e.g. `python3 app.py > server.log 2>&1 &`.
* For commands that may run for a long time (e.g. installation or testing commands), or commands that run for a fixed amount of time (e.g. sleep), you should set the |timeout| parameter of your function call to an appropriate value.
* If a bash command returns exit code `-1`, this means the process hit the soft timeout and is not yet finished. By setting `is_input` to `true`, you can:
  - Send empty `command` to retrieve additional logs
  - Send text (set `command` to the text) to STDIN of the running process
  - Send control commands like `C-c` (Ctrl+C), `C-d` (Ctrl+D), or `C-z` (Ctrl+Z) to interrupt the process
  - If you do C-c, you can re-start the process with a longer |timeout| parameter to let it run to completion

### Best Practices
* Directory verification: Before creating new directories or files, first verify the parent directory exists and is the correct location.
* Directory management: Try to maintain working directory by using absolute paths and avoiding excessive use of `cd`.

### Output Handling
* Output truncation: If the output exceeds a maximum length, it will be truncated before being returned.
".

Definition SHORT_BASH_DESCRIPTION : string :=
  bars "Execute a bash command in the terminal.
* Long running commands: For commands that may run indefinitely, it should be run in the background and the output should be redirected to a file, e.g. command = `python3 app.py > server.log 2>&1 &`. For commands that need to run for a specific duration, you can set the |timeout| argument to specify a hard timeout in seconds.
* Interact with running process: If a bash command returns exit code `-1`, this means the process is not yet finished. By setting `is_input` to `true`, the assistant can interact with the running process and send empty `command` to retrieve any additional logs, or send additional text (set `command` to the text) to STDIN of the running process, or send command like `C-c` (Ctrl+C), `C-d` (Ctrl+D), `C-z` (Ctrl+Z) to interrupt the process.
* One command at a time: You can only execute one bash command at a time. If you need to run multiple commands sequentially, you can use `&&` or `;` to chain them together.".

Definition create_cmd_run_tool (use_short_description : bool) : pyval :=
  let description := if use_short_description then SHORT_BASH_DESCRIPTION else DETAILED_BASH_DESCRIPTION in
  VDict [("type", VStr "function");
  ("function", VDict [("name", VStr EXECUTE_BASH_TOOL_NAME);
    ("description", VStr (refine_prompt description));
    ("parameters", VDict [("type", VStr "object");
      ("properties", VDict [("command", VDict [("type", VStr "string");
          ("description", VStr (refine_prompt "The bash command to execute. Can be empty string to view additional logs when previous exit code is `-1`. Can be `C-c` (Ctrl+C) to interrupt the currently running process. Note: You can only execute one bash command at a time. If you need to run multiple commands sequentially, you can use `&&` or `;` to chain them together."))]);
        ("is_input", VDict [("type", VStr "string");
          ("description", VStr (refine_prompt "If True, the command is an input to the running process. If False, the command is a bash command to be executed in the terminal. Default is False."));
          ("enum", VList [VStr "true"; VStr "false"])]);
        ("timeout", VDict [("type", VStr "number");
          ("description", VStr "Optional. Sets a hard timeout in seconds for the command execution. If not provided, the command will use the default soft timeout behavior.")]);
        ("security_risk", VDict [("type", VStr "string");
          ("description", VStr SECURITY_RISK_DESC);
          ("enum", vstrs RISK_LEVELS)])]);
      ("required", VList [VStr "command"; VStr "security_risk"])])])].

(** *** [codeact_agent/tools/browser.py] *)

Definition BROWSER_DESCRIPTION : string :=
  bars "Interact with the browser using Python code. Use it ONLY when you need to interact with a webpage.

See the description of |code| parameter for more details.

Multiple actions can be provided at once, but will be executed sequentially without any feedback from the page.
More than 2-3 actions usually leads to failure or unexpected behavior. Example:
fill('a12', 'example with |quotes|')
click('a51')
click('48', button='middle', modifiers=['Shift'])

You can also use the browser to view pdf, png, jpg files.
You should first check the content of /tmp/oh-server-url to get the server url, and then use it to view the file by `goto(|{server_url}/view?path={absolute_file_path}|)`.
For example: `goto(|http://localhost:8000/view?path=/workspace/test_document.pdf|)`
Note: The file should be downloaded to the local machine first before using the browser to view it.
".

Definition BROWSER_TOOL_DESCRIPTION : string :=
  tildes "
The following 15 functions are available. Nothing else is supported.

goto(url: str)
    Description: Navigate to a url.
    Examples:
        goto('http://www.example.com')

go_back()
    Description: Navigate to the previous page in history.
    Examples:
        go_back()

go_forward()
    Description: Navigate to the next page in history.
    Examples:
        go_forward()

noop(wait_ms: float = 1000)
    Description: Do nothing, and optionally wait for the given time (in milliseconds).
    You can use this to get the current page content and/or wait for the page to load.
    Examples:
        noop()

        noop(500)

scroll(delta_x: float, delta_y: float)
    Description: Scroll horizontally and vertically. Amounts in pixels, positive for right or down scrolling, negative for left or up scrolling. Dispatches a wheel event.
    Examples:
        scroll(0, 200)

        scroll(-50.2, -100.5)

fill(bid: str, value: str)
    Description: Fill out a form field. It focuses the element and triggers an input event with the entered text. It works for <input>, <textarea> and [contenteditable] elements.
    Examples:
        fill('237', 'example value')

        fill('45', 'multi-line
example')

        fill('a12', 'example with ~quotes~')

select_option(bid: str, options: str | list[str])
    Description: Select one or multiple options in a <select> element. You can specify option value or label to select. Multiple options can be selected.
    Examples:
        select_option('a48', 'blue')

        select_option('c48', ['red', 'green', 'blue'])

click(bid: str, button: Literal['left', 'middle', 'right'] = 'left', modifiers: list[typing.Literal['Alt', 'Control', 'ControlOrMeta', 'Meta', 'Shift']] = [])
    Description: Click an element.
    Examples:
        click('a51')

        click('b22', button='right')

        click('48', button='middle', modifiers=['Shift'])

dblclick(bid: str, button: Literal['left', 'middle', 'right'] = 'left', modifiers: list[typing.Literal['Alt', 'Control', 'ControlOrMeta', 'Meta', 'Shift']] = [])
    Description: Double click an element.
    Examples:
        dblclick('12')

        dblclick('ca42', button='right')

        dblclick('178', button='middle', modifiers=['Shift'])

hover(bid: str)
    Description: Hover over an element.
    Examples:
        hover('b8')

press(bid: str, key_comb: str)
    Description: Focus the matching element and press a combination of keys. It accepts the logical key names that are emitted in the keyboardEvent.key property of the keyboard events: Backquote, Minus, Equal, Backslash, Backspace, Tab, Delete, Escape, ArrowDown, End, Enter, Home, Insert, PageDown, PageUp, ArrowRight, ArrowUp, F1 - F12, Digit0 - Digit9, KeyA - KeyZ, etc. You can alternatively specify a single character you'd like to produce such as ~a~ or ~#~. Following modification shortcuts are also supported: Shift, Control, Alt, Meta, ShiftLeft, ControlOrMeta. ControlOrMeta resolves to Control on Windows and Linux and to Meta on macOS.
    Examples:
        press('88', 'Backspace')

        press('a26', 'ControlOrMeta+a')

        press('a61', 'Meta+Shift+t')

focus(bid: str)
    Description: Focus the matching element.
    Examples:
        focus('b455')

clear(bid: str)
    Description: Clear the input field.
    Examples:
        clear('996')

drag_and_drop(from_bid: str, to_bid: str)
    Description: Perform a drag & drop. Hover the element that will be dragged. Press left mouse button. Move mouse to the element that will receive the drop. Release left mouse button.
    Examples:
        drag_and_drop('56', '498')

upload_file(bid: str, file: str | list[str])
    Description: Click an element and wait for a ~filechooser~ event, then select one or multiple input files for upload. Relative file paths are resolved relative to the current working directory. An empty list clears the selected files.
    Examples:
        upload_file('572', '/home/user/my_receipt.pdf')

        upload_file('63', ['/home/bob/Documents/image.jpg', '/home/bob/Documents/file.zip'])
".

Definition BrowserTool : pyval :=
  VDict [("type", VStr "function");
  ("function", VDict [("name", VStr BROWSER_TOOL_NAME);
    ("description", VStr BROWSER_DESCRIPTION);
    ("parameters", VDict [("type", VStr "object");
      ("properties", VDict [("code", VDict [("type", VStr "string");
          ("description", VStr ("The Python code that interacts with the browser.
" +:+ BROWSER_TOOL_DESCRIPTION))]);
        ("security_risk", VDict [("type", VStr "string");
          ("description", VStr SECURITY_RISK_DESC);
          ("enum", vstrs RISK_LEVELS)])]);
      ("required", VList [VStr "code"; VStr "security_risk"])])])].

(** *** [codeact_agent/tools/condensation_request.py] *)

Definition CONDENSATION_REQUEST_DESCRIPTION : string :=
  "Request a condensation of the conversation history when the context becomes too long or when you need to focus on the most relevant information.".

Definition CondensationRequestTool : pyval :=
  VDict [("type", VStr "function");
  ("function", VDict [("name", VStr "request_condensation");
    ("description", VStr CONDENSATION_REQUEST_DESCRIPTION);
    ("parameters", VDict [("type", VStr "object");
      ("properties", VDict []);
      ("required", VList [])])])].

(** *** [codeact_agent/tools/finish.py] *)

Definition FINISH_DESCRIPTION : string :=
  "Signals the completion of the current task or conversation.

Use this tool when:
- You have successfully completed the user's requested task
- You cannot proceed further due to technical limitations or missing information

The message should include:
- A clear summary of actions taken and their results
- Any next steps for the user
- Explanation if you're unable to complete the task
- Any follow-up questions if more information is needed
".

Definition FinishTool : pyval :=
  VDict [("type", VStr "function");
  ("function", VDict [("name", VStr FINISH_TOOL_NAME);
    ("description", VStr FINISH_DESCRIPTION);
    ("parameters", VDict [("type", VStr "object");
      ("required", VList [VStr "message"]);
      ("properties", VDict [("message", VDict [("type", VStr "string");
          ("description", VStr "Final message to send to the user")])])])])].

(** *** [codeact_agent/tools/ipython.py] *)

Definition IPYTHON_DESCRIPTION : string :=
  "Run a cell of Python code in an IPython environment.
* The assistant should define variables and import packages before using them.
* The variable defined in the IPython environment will not be available outside the IPython environment (e.g., in terminal).
".

Definition IPythonTool : pyval :=
  VDict [("type", VStr "function");
  ("function", VDict [("name", VStr "execute_ipython_cell");
    ("description", VStr IPYTHON_DESCRIPTION);
    ("parameters", VDict [("type", VStr "object");
      ("properties", VDict [("code", VDict [("type", VStr "string");
          ("description", VStr "The Python code to execute. Supports magic commands like %pip.")]);
        ("security_risk", VDict [("type", VStr "string");
          ("description", VStr SECURITY_RISK_DESC);
          ("enum", vstrs RISK_LEVELS)])]);
      ("required", VList [VStr "code"; VStr "security_risk"])])])].

(** *** [codeact_agent/tools/llm_based_edit.py] *)

Definition FILE_EDIT_DESCRIPTION : string :=
  tildes "Edit a file in plain-text format.
* The assistant can edit files by specifying the file path and providing a draft of the new file content.
* The draft content doesn't need to be exactly the same as the existing file; the assistant may skip unchanged lines using comments like `# ... existing code ...` to indicate unchanged sections.
* IMPORTANT: For large files (e.g., > 300 lines), specify the range of lines to edit using `start` and `end` (1-indexed, inclusive). The range should be smaller than 300 lines.
* -1 indicates the last line of the file when used as the `start` or `end` value.
* Keep at least one unchanged line before the changed section and after the changed section wherever possible.
* Make sure to set the `start` and `end` to include all the lines in the original file referred to in the draft of the new file content. Failure to do so will result in bad edits.
* To append to a file, set both `start` and `end` to `-1`.
* If the file doesn't exist, a new file will be created with the provided content.
* IMPORTANT: Make sure you include all the required indentations for each line of code in the draft, otherwise the edited code will be incorrectly indented.
* IMPORTANT: Make sure that the first line of the draft is also properly indented and has the required whitespaces.
* IMPORTANT: NEVER include or make references to lines from outside the `start` and `end` range in the draft.
* IMPORTANT: Start the content with a comment in the format: #EDIT: Reason for edit
* IMPORTANT: If you are not appending to the file, avoid setting `start` and `end` to the same value.

**Example 1: general edit for short files**
For example, given an existing file `/path/to/file.py` that looks like this:
(this is the beginning of the file)
1|class MyClass:
2|    def __init__(self):
3|        self.x = 1
4|        self.y = 2
5|        self.z = 3
6|
7|print(MyClass().z)
8|print(MyClass().x)
(this is the end of the file)

The assistant wants to edit the file to look like this:
(this is the beginning of the file)
1|class MyClass:
2|    def __init__(self):
3|        self.x = 1
4|        self.y = 2
5|
6|print(MyClass().y)
(this is the end of the file)

The assistant may produce an edit action like this:
path=~/path/to/file.txt~ start=1 end=-1
content=```
#EDIT: I want to change the value of y to 2
class MyClass:
    def __init__(self):
        # ... existing code ...
        self.y = 2

print(MyClass().y)
```

**Example 2: append to file for short files**
For example, given an existing file `/path/to/file.py` that looks like this:
(this is the beginning of the file)
1|class MyClass:
2|    def __init__(self):
3|        self.x = 1
4|        self.y = 2
5|        self.z = 3
6|
7|print(MyClass().z)
8|print(MyClass().x)
(this is the end of the file)

To append the following lines to the file:
```python
#EDIT: I want to print the value of y
print(MyClass().y)
```

The assistant may produce an edit action like this:
path=~/path/to/file.txt~ start=-1 end=-1
content=```
print(MyClass().y)
```

**Example 3: edit for long files**

Given an existing file `/path/to/file.py` that looks like this:
(1000 more lines above)
1001|class MyClass:
1002|    def __init__(self):
1003|        self.x = 1
1004|        self.y = 2
1005|        self.z = 3
1006|
1007|print(MyClass().z)
1008|print(MyClass().x)
(2000 more lines below)

The assistant wants to edit the file to look like this:

(1000 more lines above)
1001|class MyClass:
1002|    def __init__(self):
1003|        self.x = 1
1004|        self.y = 2
1005|
1006|print(MyClass().y)
(2000 more lines below)

The assistant may produce an edit action like this:
path=~/path/to/file.txt~ start=1002 end=1008
content=```
#EDIT: I want to change the value of y to 2
    def __init__(self):
        # no changes before
        self.y = 2
        # self.z is removed

# MyClass().z is removed
print(MyClass().y)
```
".

Definition LLMBasedFileEditTool : pyval :=
  VDict [("type", VStr "function");
  ("function", VDict [("name", VStr "edit_file");
    ("description", VStr FILE_EDIT_DESCRIPTION);
    ("parameters", VDict [("type", VStr "object");
      ("properties", VDict [("path", VDict [("type", VStr "string");
          ("description", VStr "The absolute path to the file to be edited.")]);
        ("content", VDict [("type", VStr "string");
          ("description", VStr "A draft of the new content for the file being edited. Note that the assistant may skip unchanged lines.")]);
        ("start", VDict [("type", VStr "integer");
          ("description", VStr "The starting line number for the edit (1-indexed, inclusive). Default is 1.")]);
        ("end", VDict [("type", VStr "integer");
          ("description", VStr "The ending line number for the edit (1-indexed, inclusive). Default is -1 (end of file).")]);
        ("security_risk", VDict [("type", VStr "string");
          ("description", VStr SECURITY_RISK_DESC);
          ("enum", vstrs RISK_LEVELS)])]);
      ("required", VList [VStr "path"; VStr "content"; VStr "security_risk"])])])].

(** *** [codeact_agent/tools/str_replace_editor.py] *)

Definition DETAILED_STR_REPLACE_EDITOR_DESCRIPTION : string :=
  bars "Custom editing tool for viewing, creating and editing files in plain-text format
* State is persistent across command calls and discussions with the user
* If `path` is a text file, `view` displays the result of applying `cat -n`. If `path` is a directory, `view` lists non-hidden files and directories up to 2 levels deep
* The following binary file extensions can be viewed in Markdown format: [|.xlsx|, |.pptx|, |.wav|, |.mp3|, |.m4a|, |.flac|, |.pdf|, |.docx|]. IT DOES NOT HANDLE IMAGES.
* The `create` command cannot be used if the specified `path` already exists as a file
* If a `command` generates a long output, it will be truncated and marked with `<response clipped>`
* The `undo_edit` command will revert the last edit made to the file at `path`
* This tool can be used for creating and editing files in plain-text format.


Before using this tool:
1. Use the view tool to understand the file's contents and context
2. Verify the directory path is correct (only applicable when creating new files):
   - Use the view tool to verify the parent directory exists and is the correct location

When making edits:
   - Ensure the edit results in idiomatic, correct code
   - Do not leave the code in a broken state
   - Always use absolute file paths (starting with /)

CRITICAL REQUIREMENTS FOR USING THIS TOOL:

1. EXACT MATCHING: The `old_str` parameter must match EXACTLY one or more consecutive lines from the file, including all whitespace and indentation. The tool will fail if `old_str` matches multiple locations or doesn't match exactly with the file content.

2. UNIQUENESS: The `old_str` must uniquely identify a single instance in the file:
   - Include sufficient context before and after the change point (3-5 lines recommended)
   - If not unique, the replacement will not be performed

3. REPLACEMENT: The `new_str` parameter should contain the edited lines that replace the `old_str`. Both strings must be different.

Remember: when making multiple file edits in a row to the same file, you should prefer to send all edits in a single message with multiple calls to this tool, rather than multiple messages with a single call each.
".

Definition SHORT_STR_REPLACE_EDITOR_DESCRIPTION : string :=
  "Custom editing tool for viewing, creating and editing files in plain-text format
* State is persistent across command calls and discussions with the user
* If `path` is a file, `view` displays the result of applying `cat -n`. If `path` is a directory, `view` lists non-hidden files and directories up to 2 levels deep
* The `create` command cannot be used if the specified `path` already exists as a file
* If a `command` generates a long output, it will be truncated and marked with `<response clipped>`
* The `undo_edit` command will revert the last edit made to the file at `path`
Notes for using the `str_replace` command:
* The `old_str` parameter should match EXACTLY one or more consecutive lines from the original file. Be mindful of whitespaces!
* If the `old_str` parameter is not unique in the file, the replacement will not be performed. Make sure to include enough context in `old_str` to make it unique
* The `new_str` parameter should contain the edited lines that should replace the `old_str`
".

(** The first mount [host:/workspace] of [SANDBOX_VOLUMES]. *)
Definition workspace_mount (mount : string) : option string :=
  match split_char ":" mount with
  | host :: target :: _ => if String.eqb target "/workspace" then Some (os_abspath cwd host) else None
  | _ => None
  end.
Definition _get_workspace_mount_path_from_env (runtime_type : option string) : string :=
  if bool_decide (runtime_type = Some "local" \/ runtime_type = Some "cli") then
    match sandbox_volumes with
    | Some (String _ _ as volumes) => default (abs_str cwd) (head (omap workspace_mount (split_char "," volumes)))
    | _ => abs_str cwd
    end
  else DEFAULT_WORKSPACE_MOUNT_PATH_IN_SANDBOX.

Definition create_str_replace_editor_tool (use_short_description : bool) (workspace_mount_path_in_sandbox runtime_type : option string) : pyval :=
  let workspace_mount_path_in_sandbox :=
    match workspace_mount_path_in_sandbox with Some p => p | None => _get_workspace_mount_path_from_env runtime_type end in
  let description := if use_short_description then SHORT_STR_REPLACE_EDITOR_DESCRIPTION else DETAILED_STR_REPLACE_EDITOR_DESCRIPTION in
  VDict [("type", VStr "function");
  ("function", VDict [("name", VStr STR_REPLACE_EDITOR_TOOL_NAME);
    ("description", VStr description);
    ("parameters", VDict [("type", VStr "object");
      ("properties", VDict [("command", VDict [("description", VStr "The commands to run. Allowed options are: `view`, `create`, `str_replace`, `insert`, `undo_edit`.");
          ("enum", VList [VStr "view"; VStr "create"; VStr "str_replace"; VStr "insert"; VStr "undo_edit"]);
          ("type", VStr "string")]);
        ("path", VDict [("description", VStr ("Absolute path to file or directory, e.g. `" +:+ workspace_mount_path_in_sandbox +:+ "/file.py` or `" +:+ workspace_mount_path_in_sandbox +:+ "`."));
          ("type", VStr "string")]);
        ("file_text", VDict [("description", VStr "Required parameter of `create` command, with the content of the file to be created.");
          ("type", VStr "string")]);
        ("old_str", VDict [("description", VStr "Required parameter of `str_replace` command containing the string in `path` to replace.");
          ("type", VStr "string")]);
        ("new_str", VDict [("description", VStr "Optional parameter of `str_replace` command containing the new string (if not given, no string will be added). Required parameter of `insert` command containing the string to insert.");
          ("type", VStr "string")]);
        ("insert_line", VDict [("description", VStr "Required parameter of `insert` command. The `new_str` will be inserted AFTER the line `insert_line` of `path`.");
          ("type", VStr "integer")]);
        ("view_range", VDict [("description", VStr "Optional parameter of `view` command when `path` points to a file. If none is given, the full file is shown. If provided, the file will be shown in the indicated line number range, e.g. [11, 12] will show lines 11 and 12. Indexing at 1 to start. Setting `[start_line, -1]` shows all lines from `start_line` to the end of the file.");
          ("items", VDict [("type", VStr "integer")]);
          ("type", VStr "array")]);
        ("security_risk", VDict [("type", VStr "string");
          ("description", VStr SECURITY_RISK_DESC);
          ("enum", vstrs RISK_LEVELS)])]);
      ("required", VList [VStr "command"; VStr "path"; VStr "security_risk"])])])].

(** *** [codeact_agent/tools/task_tracker.py] *)

Definition DETAILED_TASK_TRACKER_DESCRIPTION : string :=
  bars "This tool provides structured task management capabilities for development workflows.
It enables systematic tracking of work items, progress monitoring, and efficient
organization of complex development activities.

The tool maintains visibility into project status and helps communicate
progress effectively to users.

## Application Guidelines

Utilize this tool in the following situations:

1. Multi-phase development work - When projects involve multiple sequential or
   parallel activities
2. Complex implementation tasks - Work requiring systematic planning and
   coordination across multiple components
3. Explicit user request for task organization - When users specifically ask
   for structured task management
4. Multiple concurrent requirements - When users present several work items
   that need coordination
5. Project initiation - Capture and organize user requirements at project start
6. Work commencement - Update task status to in_progress before beginning
   implementation. Maintain focus by limiting active work to one task
7. Task completion - Update status to done and identify any additional work
   that emerged during implementation

## Situations Where Tool Usage Is Unnecessary

Avoid using this tool when:

1. Single atomic tasks that require no decomposition
2. Trivial operations where tracking adds no organizational value
3. Simple activities completable in minimal steps
4. Pure information exchange or discussion

Note: For single straightforward tasks, proceed with direct implementation
rather than creating tracking overhead.

## Usage Scenarios

**Scenario A: Feature Development with Validation**
User request: |Build a user authentication system with login/logout functionality.
Don't forget to include input validation and error handling!|

Response approach: I'll implement a user authentication system with comprehensive
validation. Let me organize this work systematically.

*Task breakdown includes:*
1. Design authentication API endpoints and data models
2. Implement user login/logout controllers with session management
3. Add client-side form validation and error display
4. Create backend input sanitization and security checks
5. Implement comprehensive error handling for edge cases
6. Perform integration testing and fix any issues

**Scenario B: Codebase Refactoring**
User request: |I need to update all instances of the method 'fetchData' to
'retrieveInformation' throughout the entire project|

Response approach: Let me first analyze your codebase to identify all locations
where 'fetchData' appears.

*After code analysis*

I've located 12 occurrences of 'fetchData' across 6 files in your project.
I'll create a systematic plan to update these references.

*Organized task list includes specific file-by-file updates*

**Scenario C: Multi-feature Development**
User request: |Set up a blog platform with these components: admin dashboard,
article management, comment system, and user profiles.|

Response approach: I'll help build your blog platform. Let me break down these
components into manageable implementation phases.

*Creates structured plan with each feature decomposed into specific development tasks*

## Counter-examples - Direct Implementation Preferred

**Counter-example A: Simple inquiry**
User request: |What's the syntax for a for loop in JavaScript?|

Response approach: Here's how to write a for loop in JavaScript:

```javascript
for (let i = 0; i < array.length; i++) {
    console.log(array[i]);
}
```

*No task tracking needed - single informational response*

**Counter-example B: Minor modification**
User request: |Please add a docstring to the processPayment function explaining
its parameters.|

Response approach: I'll add a docstring to explain the processPayment function.

*Direct edit without task tracking for simple modification*

## Status Management and Workflow

1. **Status Values**: Track work using these states:
   - todo: Not yet initiated
   - in_progress: Currently active (maintain single focus)
   - done: Successfully completed

2. **Workflow Practices**:
   - Update status dynamically as work progresses
   - Mark completion immediately upon task finish
   - Limit active work to ONE task at any given time
   - Complete current activities before initiating new ones
   - Remove obsolete tasks from tracking entirely

3. **Completion Criteria**:
   - Mark tasks as done only when fully achieved
   - Keep status as in_progress if errors, blocks, or partial completion exist
   - Create new tasks for discovered issues or dependencies
   - Never mark done when:
       - Test suites are failing
       - Implementation remains incomplete
       - Unresolved errors persist
       - Required resources are unavailable

4. **Task Organization**:
   - Write precise, actionable descriptions
   - Decompose complex work into manageable units
   - Use descriptive, clear naming conventions

When uncertain, favor using this tool. Proactive task management demonstrates
systematic approach and ensures comprehensive requirement fulfillment.
".

Definition SHORT_TASK_TRACKER_DESCRIPTION : string :=
  "Provides structured task management for development workflows, enabling progress
tracking and systematic organization of complex coding activities.

* Apply to multi-phase projects (3+ distinct steps) or when managing multiple user requirements
* Update status (todo/in_progress/done) dynamically throughout work
* Maintain single active task focus at any time
* Mark completion immediately upon task finish
* Decompose complex work into manageable, actionable units
".

Definition create_task_tracker_tool (use_short_description : bool) : pyval :=
  let description := if use_short_description then SHORT_TASK_TRACKER_DESCRIPTION else DETAILED_TASK_TRACKER_DESCRIPTION in
  VDict [("type", VStr "function");
  ("function", VDict [("name", VStr TASK_TRACKER_TOOL_NAME);
    ("description", VStr description);
    ("parameters", VDict [("type", VStr "object");
      ("properties", VDict [("command", VDict [("type", VStr "string");
          ("enum", VList [VStr "view"; VStr "plan"]);
          ("description", VStr "The command to execute. `view` shows the current task list. `plan` creates or updates the task list based on provided requirements and progress. Always `view` the current list before making changes.")]);
        ("task_list", VDict [("type", VStr "array");
          ("description", VStr "The full task list. Required parameter of `plan` command.");
          ("items", VDict [("type", VStr "object");
            ("properties", VDict [("id", VDict [("type", VStr "string");
                ("description", VStr "Unique task identifier")]);
              ("title", VDict [("type", VStr "string");
                ("description", VStr "Brief task description")]);
              ("status", VDict [("type", VStr "string");
                ("description", VStr "Current task status");
                ("enum", VList [VStr "todo"; VStr "in_progress"; VStr "done"])]);
              ("notes", VDict [("type", VStr "string");
                ("description", VStr "Optional additional context or details")])]);
            ("required", VList [VStr "title"; VStr "status"; VStr "id"]);
            ("additionalProperties", VBool false)])])]);
      ("required", VList [VStr "command"]);
      ("additionalProperties", VBool false)])])].

(** *** [codeact_agent/tools/think.py] *)

Definition THINK_DESCRIPTION : string :=
  "Use the tool to think about something. It will not obtain new information or make any changes to the repository, but just log the thought. Use it when complex reasoning or brainstorming is needed.

Common use cases:
1. When exploring a repository and discovering the source of a bug, call this tool to brainstorm several unique ways of fixing the bug, and assess which change(s) are likely to be simplest and most effective.
2. After receiving test results, use this tool to brainstorm ways to fix failing tests.
3. When planning a complex refactoring, use this tool to outline different approaches and their tradeoffs.
4. When designing a new feature, use this tool to think through architecture decisions and implementation details.
5. When debugging a complex issue, use this tool to organize your thoughts and hypotheses.

The tool simply logs your thought process for better transparency and does not execute any code or make changes.".

Definition ThinkTool : pyval :=
  VDict [("type", VStr "function");
  ("function", VDict [("name", VStr "think");
    ("description", VStr THINK_DESCRIPTION);
    ("parameters", VDict [("type", VStr "object");
      ("properties", VDict [("thought", VDict [("type", VStr "string");
          ("description", VStr "The thought to log.")])]);
      ("required", VList [VStr "thought"])])])].

(** *** [readonly_agent/tools] *)

Definition GLOB_DESCRIPTION : string :=
  bars "Fast file pattern matching tool.
* Supports glob patterns like |**/*.js| or |src/**/*.ts|
* Use this tool when you need to find files by name patterns
* Returns matching file paths sorted by modification time
* Only the first 100 results are returned. Consider narrowing your search with stricter glob patterns or provide path parameter if you need more results.
* When you are doing an open ended search that may require multiple rounds of globbing and grepping, use the Agent tool instead
".

Definition GlobTool : pyval :=
  VDict [("type", VStr "function");
  ("function", VDict [("name", VStr "glob");
    ("description", VStr GLOB_DESCRIPTION);
    ("parameters", VDict [("type", VStr "object");
      ("properties", VDict [("pattern", VDict [("type", VStr "string");
          ("description", VStr (bars "The glob pattern to match files (e.g., |**/*.js|, |src/**/*.ts|)"))]);
        ("path", VDict [("type", VStr "string");
          ("description", VStr "The directory (absolute path) to search in. Defaults to the current working directory.")])]);
      ("required", VList [VStr "pattern"])])])].

Definition GREP_DESCRIPTION : string :=
  bars "Fast content search tool.
* Searches file contents using regular expressions
* Supports full regex syntax (eg. |log.*Error|, |function\s+\w+|, etc.)
* Filter files by pattern with the include parameter (eg. |*.js|, |*.{ts,tsx}|)
* Returns matching file paths sorted by modification time.
* Only the first 100 results are returned. Consider narrowing your search with stricter regex patterns or provide path parameter if you need more results.
* Use this tool when you need to find files containing specific patterns
* When you are doing an open ended search that may require multiple rounds of globbing and grepping, use the Agent tool instead
".

Definition GrepTool : pyval :=
  VDict [("type", VStr "function");
  ("function", VDict [("name", VStr "grep");
    ("description", VStr GREP_DESCRIPTION);
    ("parameters", VDict [("type", VStr "object");
      ("properties", VDict [("pattern", VDict [("type", VStr "string");
          ("description", VStr "The regex pattern to search for in file contents")]);
        ("path", VDict [("type", VStr "string");
          ("description", VStr "The directory (absolute path) to search in. Defaults to the current working directory.")]);
        ("include", VDict [("type", VStr "string");
          ("description", VStr (bars "Optional file pattern to filter which files to search (e.g., |*.js|, |*.{ts,tsx}|)"))])]);
      ("required", VList [VStr "pattern"])])])].

Definition VIEW_DESCRIPTION : string :=
  "Reads a file or list directories from the local filesystem.
* The path parameter must be an absolute path, not a relative path.
* If `path` is a file, `view` displays the result of applying `cat -n`; if `path` is a directory, `view` lists non-hidden files and directories up to 2 levels deep.
* You can optionally specify a line range to view (especially handy for long files), but it's recommended to read the whole file by not providing this parameter.
* For image files, the tool will display the image for you.
* For large files that exceed the display limit:
  - The output will be truncated and marked with `<response clipped>`
  - Use the `view_range` parameter to view specific sections after the truncation point
".

Definition ViewTool : pyval :=
  VDict [("type", VStr "function");
  ("function", VDict [("name", VStr "view");
    ("description", VStr VIEW_DESCRIPTION);
    ("parameters", VDict [("type", VStr "object");
      ("properties", VDict [("path", VDict [("type", VStr "string");
          ("description", VStr "The absolute path to the file to read or directory to list")]);
        ("view_range", VDict [("description", VStr "Optional parameter of `view` command when `path` points to a *file*. If none is given, the full file is shown. If provided, the file will be shown in the indicated line number range, e.g. [11, 12] will show lines 11 and 12. Indexing at 1 to start. Setting `[start_line, -1]` shows all lines from `start_line` to the end of the file.");
          ("items", VDict [("type", VStr "integer")]);
          ("type", VStr "array")])]);
      ("required", VList [VStr "path"])])])].

(** ** Which tools an agent offers *)

Record ToolConfig := {
  enable_cmd : bool; enable_think : bool; enable_finish : bool; enable_condensation_request : bool; enable_browsing : bool;
  enable_jupyter : bool; enable_plan_mode : bool; enable_llm_editor : bool; enable_editor : bool;
  runtime : option string;
  model : string;
}.

Definition SHORT_TOOL_DESCRIPTION_LLM_SUBSTRS : list string := ["gpt-4"; "o3"; "o1"; "o4"].
(** [CodeActAgent._get_tools] *)
Definition _get_tools (c : ToolConfig) : list pyval :=
  let use_short_tool_desc := existsb (fun sub => contains sub (model c)) SHORT_TOOL_DESCRIPTION_LLM_SUBSTRS in
  let tool (b : bool) (t : pyval) := if b then [t] else [] in
  tool (enable_cmd c) (create_cmd_run_tool use_short_tool_desc)
  ++ tool (enable_think c) ThinkTool
  ++ tool (enable_finish c) FinishTool
  ++ tool (enable_condensation_request c) CondensationRequestTool
  ++ tool (enable_browsing c && negb windows) BrowserTool
  ++ tool (enable_jupyter c) IPythonTool
  ++ tool (enable_plan_mode c) (create_task_tracker_tool use_short_tool_desc)
  ++ (if enable_llm_editor c then [LLMBasedFileEditTool]
      else tool (enable_editor c) (create_str_replace_editor_tool use_short_tool_desc None (runtime c))).

(** [get_tools] of the read-only agent *)
Definition readonly_tools : list pyval := [ThinkTool; FinishTool; GrepTool; GlobTool; ViewTool].
End tools.

(** ** [check_tools]: what Gemini models do not understand is taken out *)

Definition undeletable {A} (v : pyval) : res A := Raise (TypeError ("'" +:+ type_name v +:+ "' object does not support item deletion")).
(** [if key in v: del v[key]] *)
Definition del_key (key : string) (v : pyval) : res pyval :=
  match v with
  | VDict d => Ok (VDict (ddel d key))
  | _ => b <-! has_key v key ;; if b then undeletable v else Ok v
  end.
Definition supported_formats : list pyval := [VStr "enum"; VStr "date-time"].
Definition check_property (prop : pyval) : res pyval :=
  prop <-! del_key "default" prop ;;
  match prop with
  | VDict d =>
      match dget d "format" with
      | Some f => Ok (if py_eq (default VNone (dget d "type")) (VStr "string") && negb (existsb (py_eq f) supported_formats)
                      then VDict (ddel d "format") else prop)
      | None => Ok prop
      end
  | _ => Raise (no_attribute prop "get")
  end.
(** [if key in v: v[key] = f(v[key])] *)
Definition at_key (key : string) (f : pyval -> res pyval) (v : pyval) : res pyval :=
  b <-! has_key v key ;;
  if (b : bool) then x <-! item v key ;; x <-! f x ;; set_item v key x else Ok v.
Definition check_properties (v : pyval) : res pyval :=
  match v with
  | VDict d => d <-! traverse (fun kv : string * pyval => x <-! check_property kv.2 ;; Ok (kv.1, x)) d ;; Ok (VDict d)
  | _ => Raise (no_attribute v "items")
  end.
Definition check_tools (tools : list pyval) (model : string) : res (list pyval) :=
  if contains "gemini" (lower model) then traverse (at_key "function" (at_key "parameters" (at_key "properties" check_properties))) tools
  else Ok tools.

(** ** Reading a tool *)

(** [tool['function']['name']] *)
Definition tool_name (tool : pyval) : res pyval := f <-! item tool "function" ;; item f "name".
