(* ===== verification/CodeAct.v ===== *)
(** * The function-calling agents

    Models [openhands/agenthub/codeact_agent/function_calling.py] and its two
    relatives, [readonly_agent/function_calling.py] and
    [loc_agent/function_calling.py]; the steps of the agents ([codeact_agent.py],
    [readonly_agent.py], [loc_agent.py]) and what they inherit from
    [controller/agent.py].

    A response of the model becomes actions, one for each tool call; the agent
    hands them out one per step, and asks the model again when none is left.

    Parameters: [pack] is the metadata of a call as an event carries it, the
    inverse of [metadata_of] of [ConversationMemory]; [set_repr] is the text of a
    set of strings, whose order is not determined; the version; the condenser; the
    model, a function of the messages, the tools and its own state, which may
    fail.  What an action is given that its annotations do not allow is
    [ill_typed], as in [Serialization]. *)

From S2P Require Import Prelude PyStr PyDict PyFloat PyVal PyJson Shlex Events Serialization.
From S2P Require Import Controller Message ConversationMemory View Condenser State FnCallText FnCall AgentTools.
From Stdlib Require Import Ascii.

(** ** [float(v)] *)

Fixpoint drop_underscores (after_digit : bool) (s : string) : option string :=
  match s with
  | EmptyString => Some ""
  | String c s' =>
      if ord c =? 95 then
        match s' with
        | String d _ => if after_digit && is_digit d then drop_underscores false s' else None
        | EmptyString => None
        end
      else String c <$> drop_underscores (is_digit c) s'
  end.
Definition unsigned_float (neg : bool) (s : string) : option float :=
  if bool_decide (lower s ∈ ["inf"; "infinity"]) then Some (S754_infinity neg)
  else if String.eqb (lower s) "nan" then Some S754_nan
  else
    s ← drop_underscores false s;
    let '(digits, rest) := take_digits s in
    let '(frac, rest) := match rest with String "." r => take_digits r | _ => ("", rest) end in
    let '(e, rest) := read_exp rest in
    if String.eqb rest "" && negb (String.eqb (digits +:+ frac) "") then Some (float_of_decimal neg digits frac (default 0 e)) else None.
Definition float_of_string (s : string) : option float :=
  match strip s with
  | String "-" s => unsigned_float true s
  | String "+" s => unsigned_float false s
  | s => unsigned_float false s
  end.
Definition py_float (v : pyval) : res float :=
  match v with
  | VFloat x => Ok x
  | VBool b => Ok (float_of_Z (bool_Z b))
  | VInt z => let x := float_of_Z z in
              if is_finite x then Ok x else Raise (OtherError "OverflowError" "int too large to convert to float")
  | VStr s => match float_of_string s with
              | Some x => Ok x
              | None => Raise (ValueError ("could not convert string to float: " +:+ py_repr v))
              end
  | _ => Raise (TypeError ("float() argument must be a string or a real number, not '" +:+ type_name v +:+ "'"))
  end.

(** ** Thoughts *)

(** [action.thought], where the class has it. *)
Definition thought_field (b : body) : option string :=
  match b with
  | CmdRunAction _ _ t _ _ _ _ _ _ | IPythonRunCellAction _ t _ _ _ _ | BrowseURLAction _ t _ _ | BrowseInteractiveAction _ t _ _ _
  | FileReadAction _ _ _ t _ _ _ | FileWriteAction _ _ _ _ t _ | FileEditAction _ _ _ _ _ _ _ _ _ t _ _ | AgentThinkAction t
  | AgentFinishAction _ _ t | AgentRejectAction _ t | AgentDelegateAction _ _ t | RecallAction _ _ t | ChangeAgentStateAction _ t
  | MCPAction _ _ t _ | TaskTrackingAction _ _ t => Some t
  | _ => None
  end.
Definition with_thought (t : string) (b : body) : body :=
  match b with
  | CmdRunAction c i _ bl st cwd h conf r => CmdRunAction c i t bl st cwd h conf r
  | IPythonRunCellAction c _ x conf r k => IPythonRunCellAction c t x conf r k
  | BrowseURLAction u _ r a => BrowseURLAction u t r a
  | BrowseInteractiveAction x _ m r a => BrowseInteractiveAction x t m r a
  | FileReadAction p s e _ r i v => FileReadAction p s e t r i v
  | FileWriteAction p c s e _ r => FileWriteAction p c s e t r
  | FileEditAction p c ft o n l ct s e _ r i => FileEditAction p c ft o n l ct s e t r i
  | AgentThinkAction _ => AgentThinkAction t
  | AgentFinishAction f o _ => AgentFinishAction f o t
  | AgentRejectAction o _ => AgentRejectAction o t
  | AgentDelegateAction a i _ => AgentDelegateAction a i t
  | RecallAction r q _ => RecallAction r q t
  | ChangeAgentStateAction a _ => ChangeAgentStateAction a t
  | MCPAction n a _ r => MCPAction n a t r
  | TaskTrackingAction c l _ => TaskTrackingAction c l t
  | b => b
  end.
Definition combine_thought (b : body) (thought : string) : body :=
  match thought_field b with
  | None => b
  | Some own =>
      if String.eqb thought "" then b
      else with_thought (if String.eqb own "" then thought else thought +:+ newline +:+ own) b
  end.

(** What the model said beside the calls: a text, or the texts of a list. *)
Fixpoint add_texts (thought : string) (l : list pyval) : res string :=
  match l with
  | [] => Ok thought
  | msg :: l =>
      t <-! text_item msg ;;
      if (t : bool) then
        text <-! item msg "text" ;;
        match text with
        | VStr s => add_texts (thought +:+ s) l
        | v => Raise (TypeError ("can only concatenate str (not '" +:+ type_name v +:+ "') to str"))
        end
      else add_texts thought l
  end.
Definition thought_of (content : pyval) : res string :=
  match content with VStr s => Ok s | VList l => add_texts "" l | _ => Ok "" end.

(** ** Arguments *)

(** [arguments.get(k, d)] *)
Definition get_or (v : pyval) (k : string) (d : pyval) : res pyval :=
  match v with VDict a => Ok (default d (dget a k)) | _ => Raise (no_attribute v "get") end.
Definition name_text (name : option string) : string := default "None" name.
Definition require (k : string) (name : option string) (arguments : pyval) : res unit :=
  b <-! has_key arguments k ;;
  if (b : bool) then Ok tt
  else validation_error (bars "Missing required argument |" +:+ k +:+ bars "| in tool call " +:+ name_text name).

Section function_calling.
Context (pack : ToolCallMetadata -> nat -> CallMetadata) (set_repr : list string -> string) (version : string).
Context (sandbox_volumes : option string) (cwd : list string).

(** A constructor call with keyword arguments. *)
Definition make (t : string) (kwargs : dict string pyval) : res body :=
  match action_fields version t with
  | Some fields => vs <-! bind_args false fields kwargs ;;
                   match build_action t vs with Some b => Ok b | None => Raise ill_typed end
  | None => Raise ill_typed
  end.

Definition RISKS : list (string * ActionSecurityRisk) := [("LOW", RISK_LOW); ("MEDIUM", RISK_MEDIUM); ("HIGH", RISK_HIGH)].
(** [set_security_risk]; an unknown level is ignored with a warning. *)
Definition set_security_risk (arguments : pyval) (b : body) : res body :=
  given <-! has_key arguments "security_risk" ;;
  if (given : bool) then
    level <-! item arguments "security_risk" ;;
    Ok (match List.find (fun kv => py_eq level (VStr kv.1)) RISKS with
        | Some kv => Controller.set_security_risk kv.2 b
        | None => b
        end)
  else Ok b.

(** ** The tools of CodeAct *)

Definition run_command (name : option string) (arguments : pyval) : res event :=
  u <-! require "command" name arguments ;;
  is_input <-! get_or arguments "is_input" (VStr "false") ;;
  command <-! item arguments "command" ;;
  b <-! make "run" [("command", command); ("is_input", VBool (py_eq is_input (VStr "true")))] ;;
  timed <-! has_key arguments "timeout" ;;
  e <-! (if (timed : bool) then
           timeout <-! item arguments "timeout" ;;
           match py_float timeout with
           | Ok x => Ok (set_hard_timeout (Some x) true (new_event b))
           | Raise (ValueError _) => validation_error ("Invalid float passed to 'timeout' argument: " +:+ py_str timeout)
           | Raise e => Raise e
           end
         else Ok (new_event b)) ;;
  b <-! set_security_risk arguments (data e) ;; Ok (with_data e b).

Definition run_cell (name : option string) (arguments : pyval) : res body :=
  u <-! require "code" name arguments ;;
  code <-! item arguments "code" ;;
  b <-! make "run_ipython" [("code", code)] ;; set_security_risk arguments b.

Definition delegate_to_browser (arguments : pyval) : res body :=
  make "delegate" [("agent", VStr "BrowsingAgent"); ("inputs", arguments)].

Definition finish (arguments : pyval) : res body :=
  message <-! get_or arguments "message" (VStr "") ;; make "finish" [("final_thought", message)].

Definition llm_based_edit (name : option string) (arguments : pyval) : res body :=
  u <-! require "path" name arguments ;;
  u <-! require "content" name arguments ;;
  path <-! item arguments "path" ;; content <-! item arguments "content" ;;
  start <-! get_or arguments "start" (VInt 1) ;; end_ <-! get_or arguments "end" (VInt (-1)) ;;
  impl <-! get_or arguments "impl_source" (VStr (edit_source_value EDIT_LLM_BASED)) ;;
  make "edit" [("path", path); ("content", content); ("start", start); ("end", end_); ("impl_source", impl)].

(** [create_str_replace_editor_tool()['function']['parameters']['properties'].keys()] *)
Definition valid_params : res (list string) :=
  f <-! item (create_str_replace_editor_tool sandbox_volumes cwd false None None) "function" ;;
  p <-! item f "parameters" ;; p <-! item p "properties" ;;
  match p with VDict d => Ok (dkeys d) | _ => Raise (no_attribute p "keys") end.
Fixpoint editor_kwargs (valid_params : list string) (name : option string) (other_kwargs : dict string pyval) : res (dict string pyval) :=
  match other_kwargs with
  | [] => Ok []
  | (key, value) :: rest =>
      if bool_decide (key ∈ valid_params) then
        kwargs <-! editor_kwargs valid_params name rest ;;
        Ok (if String.eqb key "security_risk" then kwargs else (key, value) :: kwargs)
      else validation_error ("Unexpected argument " +:+ key +:+ " in tool call " +:+ name_text name
                             +:+ ". Allowed arguments are: " +:+ set_repr valid_params)
  end.
Definition str_replace_editor (name : option string) (arguments : pyval) : res body :=
  u <-! require "command" name arguments ;;
  u <-! require "path" name arguments ;;
  path <-! item arguments "path" ;; command <-! item arguments "command" ;;
  match arguments with
  | VDict d =>
      let other_kwargs := ddel (ddel d "command") "path" in
      b <-! (if py_eq command (VStr "view") then
               make "read" [("path", path); ("impl_source", VStr (read_source_value READ_OH_ACI));
                            ("view_range", default VNone (dget other_kwargs "view_range"))]
             else
               params <-! valid_params ;;
               kwargs <-! editor_kwargs params name (ddel other_kwargs "view_range") ;;
               make "edit" ([("path", path); ("command", command); ("impl_source", VStr (edit_source_value EDIT_OH_ACI))] ++ kwargs)) ;;
      set_security_risk arguments b
  | _ => Raise (no_attribute arguments "items")
  end.

Definition think (arguments : pyval) : res body :=
  thought <-! get_or arguments "thought" (VStr "") ;; make "think" [("thought", thought)].

Definition browse (name : option string) (arguments : pyval) : res body :=
  u <-! require "code" name arguments ;;
  code <-! item arguments "code" ;;
  b <-! make "browse_interactive" [("browser_actions", code)] ;; set_security_risk arguments b.

Fixpoint normalize_tasks (i : nat) (tasks : list pyval) : res (list pyval) :=
  match tasks with
  | [] => Ok []
  | VDict task :: tasks =>
      let field k d := (k, default (VStr d) (dget task k)) in
      l <-! normalize_tasks (S i) tasks ;;
      Ok (VDict [field "id" ("task-" +:+ str_of_Z (Z.of_nat i + 1)); field "title" "Untitled task"; field "status" "todo"; field "notes" ""]
          :: l)
  | task :: _ =>
      validation_error ("Unexpected task format in task_list: " +:+ class_repr task +:+ ". Each task should be a dictionary.")
  end.
(** With the value that the loop over the tasks leaves in [i], the variable of
    the loop over the calls. *)
Definition track_tasks (name : option string) (arguments : pyval) (i : nat) : res (body * nat) :=
  u <-! require "command" name arguments ;;
  command <-! item arguments "command" ;;
  listed <-! has_key arguments "task_list" ;;
  if py_eq command (VStr "plan") && negb listed then
    validation_error (bars "Missing required argument |task_list| for |plan| command in tool call " +:+ name_text name)
  else
    raw_task_list <-! get_or arguments "task_list" (VList []) ;;
    match raw_task_list with
    | VList l =>
        tasks <-! normalize_tasks 0 l ;;
        command <-! item arguments "command" ;;
        b <-! make "task_tracking" [("command", command); ("task_list", VList tasks)] ;;
        Ok (b, match l with [] => i | _ => length l - 1 end)%nat
    | v => validation_error (bars "Invalid format for |task_list|. Expected a list but got " +:+ class_repr v +:+ ".")
    end.

Definition mcp_call (name : string) (arguments : pyval) : res body :=
  make "call_tool_mcp" [("name", VStr name); ("arguments", arguments)].
Definition not_registered {A} (name : option string) (arguments : pyval) : res A :=
  Raise (OtherError "FunctionCallNotExistsError"
           ("Tool " +:+ name_text name +:+ " is not registered. (arguments: " +:+ py_str arguments
            +:+ "). Please check the tool name and retry with an existing tool.")).

(** The chain of the names: the action, and [i] as it is left. *)
Definition keeping (i : nat) (b : res body) : res (event * nat) := b <-! b ;; Ok (new_event b, i).
Definition mcp_or_error (mcp_tool_names : list string) (name : option string) (arguments : pyval) (i : nat) : res (event * nat) :=
  match name with
  | Some n => if bool_decide (n ∈ mcp_tool_names) then keeping i (mcp_call n arguments) else not_registered name arguments
  | None => not_registered name arguments
  end.
Definition codeact_action (mcp_tool_names : list string) (name : option string) (arguments : pyval) (i : nat) : res (event * nat) :=
  let named n := bool_decide (name = Some n) in
  if named EXECUTE_BASH_TOOL_NAME then e <-! run_command name arguments ;; Ok (e, i)
  else if named "execute_ipython_cell" then keeping i (run_cell name arguments)
  else if named "delegate_to_browsing_agent" then keeping i (delegate_to_browser arguments)
  else if named FINISH_TOOL_NAME then keeping i (finish arguments)
  else if named LLM_BASED_EDIT_TOOL_NAME then keeping i (llm_based_edit name arguments)
  else if named STR_REPLACE_EDITOR_TOOL_NAME then keeping i (str_replace_editor name arguments)
  else if named "think" then keeping i (think arguments)
  else if named "request_condensation" then keeping i (make "condensation_request" [])
  else if named BROWSER_TOOL_NAME then keeping i (browse name arguments)
  else if named TASK_TRACKER_TOOL_NAME then r <-! track_tasks name arguments i ;; Ok (new_event r.1, r.2)
  else mcp_or_error mcp_tool_names name arguments i.

(** ** The tools of the read-only agent *)

(** [shlex.quote(v)] *)
Definition quote_value (v : pyval) : res string :=
  match v with
  | VStr s => Ok (quote s)
  | _ => if truth v then Raise (TypeError ("expected string or bytes-like object, got '" +:+ type_name v +:+ "'")) else Ok "''"
  end.
Definition echoed (what complete_cmd : string) : string :=
  bars "echo |Below are the execution results of the " +:+ what +:+ " command: " +:+ complete_cmd +:+ newline +:+ bars "|; "
  +:+ complete_cmd.
Definition grep_cmd (quoted_pattern quoted_path quoted_include : string) : string :=
  "rg -li " +:+ quoted_pattern +:+ " --sortr=modified" +:+ quoted_include +:+ " " +:+ quoted_path +:+ " | head -n 100".
Definition grep_to_cmdrun (pattern path include : pyval) : res string :=
  quoted_pattern <-! quote_value pattern ;;
  path_arg <-! (if truth path then quote_value path else Ok ".") ;;
  glob <-! (if truth include then q <-! quote_value include ;; Ok (" --glob " +:+ q) else Ok "") ;;
  Ok (echoed "search" (grep_cmd quoted_pattern path_arg glob)).
Definition glob_cmd (quoted_pattern quoted_path : string) : string :=
  "rg --files " +:+ quoted_path +:+ " -g " +:+ quoted_pattern +:+ " --sortr=modified | head -n 100".
Definition glob_to_cmdrun (pattern path : pyval) : res string :=
  quoted_path <-! quote_value path ;;
  quoted_pattern <-! quote_value pattern ;;
  Ok (echoed "glob" (glob_cmd quoted_pattern quoted_path)).

Definition view_file (name : option string) (arguments : pyval) : res body :=
  u <-! require "path" name arguments ;;
  path <-! item arguments "path" ;; range <-! get_or arguments "view_range" VNone ;;
  make "read" [("path", path); ("impl_source", VStr (read_source_value READ_OH_ACI)); ("view_range", range)].
Definition search_command (cmd : string) : res body := make "run" [("command", VStr cmd); ("is_input", VBool false)].
Definition grep (name : option string) (arguments : pyval) : res body :=
  u <-! require "pattern" name arguments ;;
  pattern <-! item arguments "pattern" ;;
  path <-! get_or arguments "path" VNone ;; include <-! get_or arguments "include" VNone ;;
  cmd <-! grep_to_cmdrun pattern path include ;; search_command cmd.
Definition glob (name : option string) (arguments : pyval) : res body :=
  u <-! require "pattern" name arguments ;;
  pattern <-! item arguments "pattern" ;;
  path <-! get_or arguments "path" (VStr ".") ;;
  cmd <-! glob_to_cmdrun pattern path ;; search_command cmd.
Definition readonly_action (mcp_tool_names : list string) (name : option string) (arguments : pyval) (i : nat) : res (event * nat) :=
  let named n := bool_decide (name = Some n) in
  if named FINISH_TOOL_NAME then keeping i (finish arguments)
  else if named "view" then keeping i (view_file name arguments)
  else if named "think" then keeping i (think arguments)
  else if named "grep" then keeping i (grep name arguments)
  else if named "glob" then keeping i (glob name arguments)
  else mcp_or_error mcp_tool_names name arguments i.

(** ** The tools of the localization agent *)

Definition ALL_FUNCTIONS : list string := ["explore_tree_structure"; "search_code_snippets"; "get_entity_contents"].
Definition loc_action (name : option string) (arguments : pyval) (i : nat) : res (event * nat) :=
  if bool_decide (name ∈ map Some ALL_FUNCTIONS) then
    keeping i (make "run_ipython" [("code", VStr ("print(" +:+ name_text name +:+ "(**" +:+ py_str arguments +:+ "))"))])
  else if bool_decide (name = Some FINISH_TOOL_NAME) then keeping i (finish arguments)
  else not_registered name arguments.

(** ** From a response to actions *)

Inductive AgentKind := CodeAct | ReadOnly | Loc.
Definition tool_action (kind : AgentKind) (mcp_tool_names : list string) : option string -> pyval -> nat -> res (event * nat) :=
  match kind with
  | CodeAct => codeact_action mcp_tool_names
  | ReadOnly => readonly_action mcp_tool_names
  | Loc => loc_action
  end.
Definition parse_error {A} (kind : AgentKind) (arguments : string) : res A :=
  let msg := "Failed to parse tool call arguments: " +:+ arguments in
  match kind with Loc => Raise (RuntimeError msg) | _ => validation_error msg end.

Definition with_metadata (m : option CallMetadata) (e : event) : event :=
  {| _id := _id e; _timestamp := _timestamp e; _source := _source e; _cause := _cause e; _timeout := _timeout e;
     _llm_metrics := _llm_metrics e; _tool_call_metadata := m; _response_id := _response_id e; data := data e |}.
Definition with_response_id (r : option string) (e : event) : event :=
  {| _id := _id e; _timestamp := _timestamp e; _source := _source e; _cause := _cause e; _timeout := _timeout e;
     _llm_metrics := _llm_metrics e; _tool_call_metadata := _tool_call_metadata e; _response_id := r; data := data e |}.
(** [ToolCallMetadata(...)]: both names are strings. *)
Definition call_metadata (response : ModelResponse) (total : nat) (c : ToolCall) : res CallMetadata :=
  match function_name c, call_id c with
  | Some f, Some id => Ok (pack {| tm_function_name := f; tm_tool_call_id := id; model_response := response |} total)
  | _, _ => Raise (OtherError "ValidationError" "ToolCallMetadata")
  end.
Definition call_to_action (kind : AgentKind) (mcp_tool_names : list string) (response : ModelResponse) (total : nat) (thought : string)
    (i : nat) (c : ToolCall) : res event :=
  match json_loads (function_arguments c) with
  | None => parse_error kind (function_arguments c)
  | Some arguments =>
      r <-! tool_action kind mcp_tool_names (function_name c) arguments i ;;
      let e := if decide (r.2 = 0%nat) then with_data r.1 (combine_thought (data r.1) thought) else r.1 in
      m <-! call_metadata response total c ;;
      Ok (with_metadata (Some m) e)
  end.
Fixpoint calls_to_actions (kind : AgentKind) (mcp_tool_names : list string) (response : ModelResponse) (total : nat) (thought : string)
    (i : nat) (calls : list ToolCall) : res (list event) :=
  match calls with
  | [] => Ok []
  | c :: calls =>
      e <-! call_to_action kind mcp_tool_names response total thought i c ;;
      l <-! calls_to_actions kind mcp_tool_names response total thought (S i) calls ;; Ok (e :: l)
  end.
Definition content_value (m : AssistantMessage) : pyval := match msg_content m with Some s => VStr s | None => VNone end.
Definition said_message (m : AssistantMessage) : event := new_event (MessageAction (default "" (msg_content m)) None None true RISK_UNKNOWN).
Definition response_to_actions (kind : AgentKind) (mcp_tool_names : list string) (response : ModelResponse) : res (list event) :=
  match choices response with
  | [m] =>
      actions <-! (match msg_tool_calls m with
                   | Some ((_ :: _) as calls) =>
                       thought <-! thought_of (content_value m) ;;
                       calls_to_actions kind mcp_tool_names response (length calls) thought 0 calls
                   | _ => Ok [said_message m]
                   end) ;;
      Ok (map (with_response_id (Some (response_id response))) actions)
  | _ => assertion_error "Only one choice is supported for now"
  end.

(** ** The agent *)

Record Agent := { pending_actions : list event; complete : bool; tools : list pyval; mcp_tools : dict string pyval }.
Definition with_pending (l : list event) (a : Agent) : Agent :=
  {| pending_actions := l; complete := complete a; tools := tools a; mcp_tools := mcp_tools a |}.
Definition reset (a : Agent) : Agent := {| pending_actions := []; complete := false; tools := tools a; mcp_tools := mcp_tools a |}.
(** The tools of [CodeActAgent] and [ReadOnlyAgent] come from their [_get_tools],
    those of [LocAgent] are set by its constructor. *)
Definition new_agent (tools : list pyval) : Agent := {| pending_actions := []; complete := false; tools := tools; mcp_tools := [] |}.

(** [set_mcp_tools]; the first log line reads every name before anything is
    added.  [ReadOnlyAgent] ignores them. *)
Definition named_tool (tool : pyval) : res (string * pyval) :=
  name <-! tool_name tool ;;
  match name with VStr n => Ok (n, tool) | _ => Raise ill_typed end.
Definition add_mcp_tool (a : Agent) (nt : string * pyval) : Agent :=
  if dmem (mcp_tools a) nt.1 then a
  else {| pending_actions := pending_actions a; complete := complete a; tools := tools a ++ [nt.2];
          mcp_tools := dset (mcp_tools a) nt.1 nt.2 |}.
Definition set_mcp_tools (kind : AgentKind) (tools : list (dict string pyval)) : M Agent unit := fun a =>
  match kind with
  | ReadOnly => (Ok tt, a)
  | _ => match traverse named_tool (map VDict tools) with
         | Ok l => (Ok tt, foldl add_mcp_tool a l)
         | Raise e => (Raise e, a)
         end
  end.

(** [get_system_message]: [prompt] is the rendered system prompt, or nothing when
    that fails. *)
Definition get_system_message (name : string) (prompt : option string) (a : Agent) : option event :=
  match prompt with
  | Some content => Some (Controller.with_source (Some AGENT) (new_event (SystemMessageAction content (Some (tools a)) (Some version) (Some name))))
  | None => None
  end.

(** *** One step *)

Context (L : Type) (completion : list Message -> list pyval -> L -> res ModelResponse * L).
Context (kind : AgentKind) (model : string) (condense : condenser) (caching : bool).
Context (metadata_of : CallMetadata -> ToolCallMetadata) (config : AgentConfig).
Context (build_workspace_context : option RepositoryInfo -> RuntimeInfo -> option string -> string -> string).
Context (build_microagent_info : list MicroagentKnowledge -> string).
Context (system_message : string) (str_event : event -> string) (max_message_chars : option Z) (vision_is_active : bool).

(** The agent, the state it is given, the metadata of the condenser, the model. *)
Record Session := { agent : Agent; given : State; condensing : dict string pyval * batches; llm : L }.
Definition with_agent (a : Agent) (s : Session) : Session :=
  {| agent := a; given := given s; condensing := condensing s; llm := llm s |}.
Definition on_state {X} (m : M State X) : M Session X := fun s =>
  let '(r, st) := m (given s) in (r, {| agent := agent s; given := st; condensing := condensing s; llm := llm s |}).
Definition on_condensing {X} (m : M (dict string pyval * batches) X) : M Session X := fun s =>
  let '(r, c) := m (condensing s) in (r, {| agent := agent s; given := given s; condensing := c; llm := llm s |}).
Definition on_llm {X} (m : M L X) : M Session X := fun s =>
  let '(r, l) := m (llm s) in (r, {| agent := agent s; given := given s; condensing := condensing s; llm := l |}).

Definition _get_initial_user_message (history : list event) : res event :=
  match List.find is_user_message history with
  | Some e => Ok e
  | None => Raise (ValueError "Initial user message not found in history. Please report this issue.")
  end.
(** Processing also clears the metadata of finish actions that the history keeps;
    that is not carried back, since it changes nothing the next time
    ([ConversationSpec.processing_is_repeatable]). *)
Definition _get_messages (events : list event) (initial_user_message : event) (forgotten_event_ids : list Z) : res (list Message) :=
  r <-! process_events metadata_of config build_workspace_context build_microagent_info system_message str_event max_message_chars
          vision_is_active events initial_user_message forgotten_event_ids ;;
  if caching then apply_prompt_caching r.1 else Ok r.1.

Definition pop_pending : M Session event := fun s =>
  match pending_actions (agent s) with
  | e :: l => (Ok e, with_agent (with_pending l (agent s)) s)
  | [] => (Raise (OtherError "IndexError" "pop from an empty deque"), s)
  end.
Definition asks_to_exit (e : event) : bool :=
  match data e with MessageAction content _ _ _ _ => String.eqb (strip content) "/exit" | _ => false end.
Definition mcp_tool_names (a : Agent) : list string := dkeys (mcp_tools a).
(** The metadata of the request that [state.to_llm_metadata] adds for logging is
    not an input of [completion]. *)
Definition ask_model (v : View) : M Session event :=
  s <- getM ;;
  initial_user_message <- liftM (_get_initial_user_message (history (given s))) ;;
  messages <- liftM (_get_messages (View.events v) initial_user_message (elements (forgotten_event_ids v))) ;;
  offered <- liftM (check_tools (tools (agent s)) model) ;;
  response <- on_llm (completion messages offered) ;;
  actions <- liftM (response_to_actions kind (mcp_tool_names (agent s)) response) ;;
  modifyM (fun s => with_agent (with_pending (pending_actions (agent s) ++ actions) (agent s)) s) ;;;
  pop_pending.
Definition step : M Session event := fun s =>
  match pending_actions (agent s) with
  | _ :: _ => pop_pending s
  | [] =>
      (latest_user_message <- on_state get_last_user_message ;;
       if from_option asks_to_exit false latest_user_message then retM (new_event (AgentFinishAction "" [] ""))
       else
         v <- on_state view ;;
         c <- on_condensing (condensed_history condense v) ;;
         match c with
         | AView v => ask_model v
         | ACondensation action => retM (new_event action)
         end) s
  end.
End function_calling.

(** ** The registry of agents *)

Definition register {A} (name : string) (agent_cls : A) (registry : dict string A) : res (dict string A) :=
  if dmem registry name then Raise (OtherError "AgentAlreadyRegisteredError" ("Agent class already registered under '" +:+ name +:+ "'"))
  else Ok (dset registry name agent_cls).
Definition get_cls {A} (name : string) (registry : dict string A) : res A :=
  match dget registry name with
  | Some c => Ok c
  | None => Raise (OtherError "AgentNotRegisteredError" ("No agent class registered under '" +:+ name +:+ "'"))
  end.
Definition list_agents {A} (registry : dict string A) : res (list string) :=
  match registry with
  | [] => Raise (OtherError "AgentNotRegisteredError" "No agent class registered")
  | _ => Ok (dkeys registry)
  end.
