(* ===== verification/CodeActSpec.v ===== *)
(** * Properties of the function-calling agents

    [calls_become_actions]: a response becomes one action for each of its calls, in
    their order.  [response_is_handed_out]: these actions come out one per step, and
    the model is not asked before they are used up.  [offered_tools_are_understood]:
    arguments that fit what CodeAct declares of a tool are never refused.
    [readonly_agent_searches]: the actions of the read-only agent, and the form of its
    commands, an [echo] and a search whose arguments are quoted.

    At the end, what the functions do where they do not do what they mean to. *)

From S2P Require Import Prelude PyStr PyDict PyFloat PyVal PyJson Shlex Events Serialization.
From S2P Require Import Message ConversationMemory View Condenser State FnCallText FnCall AgentTools ConversationSpec CodeAct.
From Stdlib Require Import Ascii.

Section spec.
Context (pack : ToolCallMetadata -> nat -> CallMetadata) (set_repr : list string -> string) (version : string).
Context (sandbox_volumes : option string) (cwd : list string).
Notation tool_action := (tool_action set_repr version sandbox_volumes cwd).
Notation call_to_action := (call_to_action pack set_repr version sandbox_volumes cwd).
Notation calls_to_actions := (calls_to_actions pack set_repr version sandbox_volumes cwd).
Notation response_to_actions := (response_to_actions pack set_repr version sandbox_volumes cwd).

(** ** One action for each call *)

(** The action that a call at index [i] becomes: what its tool makes of the
    arguments, with the thought if the index is left at zero. *)
Definition becomes (kind : AgentKind) (names : list string) (r : ModelResponse) (total : nat) (thought : string) (i : nat)
    (c : ToolCall) (e : event) : Prop :=
  exists f id arguments made left,
    function_name c = Some f /\ call_id c = Some id /\ json_loads (function_arguments c) = Some arguments
    /\ tool_action kind names (Some f) arguments i = Ok (made, left)
    /\ data e = (if decide (left = 0%nat) then combine_thought (data made) thought else data made)
    /\ _tool_call_metadata e = Some (pack {| tm_function_name := f; tm_tool_call_id := id; model_response := r |} total)
    /\ _timeout e = _timeout made.

Lemma call_becomes kind names r total thought i c e :
  call_to_action kind names r total thought i c = Ok e -> becomes kind names r total thought i c e.
Proof.
  unfold CodeAct.call_to_action, becomes. destruct (json_loads _) as [arguments|] eqn:Ej; [|by destruct kind].
  destruct (tool_action _ _ _ _ _) as [[made left]|x] eqn:Et; [|done]. cbn [rbind fst snd].
  unfold call_metadata. destruct (function_name c) as [f|] eqn:Ef; [|done]. destruct (call_id c) as [id|] eqn:Ei; [|done].
  cbn [rbind]. intros [= <-]. exists f, id, arguments, made, left. split_and!; try done; by case_decide.
Qed.
Lemma calls_become kind names r total thought calls : forall i actions,
  calls_to_actions kind names r total thought i calls = Ok actions ->
  length actions = length calls
  /\ forall n c e, calls !! n = Some c -> actions !! n = Some e -> becomes kind names r total thought (i + n) c e.
Proof.
  induction calls as [|c calls IH]; intros i actions; cbn [CodeAct.calls_to_actions]; [by intros [= <-]|].
  destruct (call_to_action _ _ _ _ _ _ _) as [e|x] eqn:Ec; [|done]. cbn [rbind].
  destruct (calls_to_actions _ _ _ _ _ _ _) as [l|x] eqn:El; [|done]. intros [= <-].
  apply IH in El as [Hlen Hl]. split; [by cbn; f_equal|].
  intros [|n] c' e' Hc He; cbn in Hc, He; simplify_eq.
  - rewrite Nat.add_0_r. by apply call_becomes.
  - rewrite Nat.add_succ_r. by apply (Hl n).
Qed.

(** Only the task tracker moves the index. *)
Lemma index_kept kind names name arguments i made left :
  name <> Some TASK_TRACKER_TOOL_NAME \/ kind <> CodeAct ->
  tool_action kind names name arguments i = Ok (made, left) -> left = i.
Proof.
  assert (forall (b : res body), keeping i b = Ok (made, left) -> left = i) as Hk by (by intros [b|x] [= _ ->]).
  assert (forall names, mcp_or_error version names name arguments i = Ok (made, left) -> left = i) as Hm.
  { intros l. unfold mcp_or_error. destruct name as [n|]; [|done]. case_bool_decide; [by apply Hk|done]. }
  intros Hn. destruct kind; cbn [CodeAct.tool_action].
  - destruct Hn as [Hn|]; [|done]. unfold codeact_action. cbv zeta.
    destruct (bool_decide (name = Some EXECUTE_BASH_TOOL_NAME)).
    { by destruct (run_command _ _ _) as [e|x]; [intros [= _ ->]|]. }
    rewrite (bool_decide_eq_false_2 (name = Some TASK_TRACKER_TOOL_NAME)) by done.
    repeat (destruct (bool_decide _); [by apply Hk|]). apply Hm.
  - unfold readonly_action. cbv zeta. repeat (destruct (bool_decide _); [by apply Hk|]). apply Hm.
  - unfold loc_action. repeat (destruct (bool_decide _); [by apply Hk|]). done.
Qed.

Lemma response_becomes kind names r m calls actions :
  choices r = [m] -> msg_tool_calls m = Some calls -> calls <> [] -> response_to_actions kind names r = Ok actions ->
  length actions = length calls
  /\ forall n c e, calls !! n = Some c -> actions !! n = Some e ->
     _response_id e = Some (response_id r)
     /\ exists thought, thought_of (content_value m) = Ok thought /\ becomes kind names r (length calls) thought n c e.
Proof.
  intros Hr Hm Hne. unfold CodeAct.response_to_actions. rewrite Hr, Hm. destruct calls as [|c0 calls]; [done|].
  destruct (thought_of _) as [thought|x]; [|done]. cbn [rbind].
  destruct (calls_to_actions _ _ _ _ _ _ _) as [l|x] eqn:El; [|done]. intros [= <-].
  apply calls_become in El as [Hlen Hl]. split; [by rewrite length_map|].
  intros n c e Hc (e' & -> & He)%list_lookup_fmap_Some. split; [done|]. exists thought. split; [done|].
  specialize (Hl n c e' Hc He). destruct Hl as (f & id & arguments & made & left & ?). by exists f, id, arguments, made, left.
Qed.

(** C19: A response of the model that holds tool calls becomes, whenever the
    agent accepts it, exactly one action for each call, in the order of the
    calls: the n-th action is what the tool of the n-th call makes of its
    arguments, and it carries the call's own id and function name, the whole
    response with the number of its calls, and the id of the response.  The text
    beside the calls is added to the thought of the first action and to that of
    no other; only a call of the task tracker, whose loop reuses the index, can
    move it.  This is so for all three agents. *)
Theorem calls_become_actions kind names r m calls actions
  (Hone : choices r = [m]) (Hcalls : msg_tool_calls m = Some calls) (Hsome : calls <> [])
  (Hok : response_to_actions kind names r = Ok actions) :
  length actions = length calls
  /\ forall n c e, calls !! n = Some c -> actions !! n = Some e ->
     _response_id e = Some (response_id r)
     /\ exists f id arguments made left thought,
          function_name c = Some f /\ call_id c = Some id /\ json_loads (function_arguments c) = Some arguments
          /\ thought_of (content_value m) = Ok thought
          /\ _tool_call_metadata e
             = Some (pack {| tm_function_name := f; tm_tool_call_id := id; model_response := r |} (length calls))
          /\ tool_action kind names (Some f) arguments n = Ok (made, left)
          /\ data e = (if decide (left = 0%nat) then combine_thought (data made) thought else data made)
          /\ (f <> TASK_TRACKER_TOOL_NAME \/ kind <> CodeAct -> left = n).
Proof.
  destruct (response_becomes kind names r m calls actions Hone Hcalls Hsome Hok) as [Hlen Hl]. split; [done|].
  intros n c e Hc He. destruct (Hl n c e Hc He) as (Hr & thought & Ht & f & id & arguments & made & left & Hf & Hi & Hj & Ha & Hd & Hm & _).
  split; [done|]. exists f, id, arguments, made, left, thought. split_and!; try done.
  intros Hn. eapply index_kept; [|done]. destruct Hn; [left; congruence|by right].
Qed.
End spec.

Definition two_calls : ModelResponse :=
  {| response_id := "r1";
     choices := [{| msg_role := Some "assistant"; msg_content := Some "First look.";
                    msg_tool_calls := Some [{| call_id := Some "a"; function_name := Some "execute_bash";
                                               function_arguments := bars "{|command|: |ls|, |security_risk|: |LOW|}" |};
                                            {| call_id := Some "b"; function_name := Some "think";
                                               function_arguments := bars "{|thought|: |hm|}" |}] |}] |}.
Definition pack_id (t : ToolCallMetadata) (n : nat) : CallMetadata :=
  {| cm_function_name := tm_function_name t; cm_tool_call_id := tm_tool_call_id t; cm_model_response := VNone;
     cm_total_calls_in_response := Z.of_nat n |}.
Definition two_actions : list event :=
  match response_to_actions pack_id (fun _ => "") "1.0" None [] CodeAct [] two_calls with Ok l => l | Raise _ => [] end.

Lemma calls_become_actions_witness :
  map data two_actions = [CmdRunAction "ls" false "First look." false false None false CONFIRMED RISK_LOW; AgentThinkAction "hm"]
  /\ map (fun e => (fun m => (cm_tool_call_id m, cm_total_calls_in_response m)) <$> _tool_call_metadata e) two_actions = [Some ("a", 2); Some ("b", 2)]
  /\ length two_actions = 2%nat.
Proof.
  split_and!; [vm_compute; reflexivity|vm_compute; reflexivity|].
  edestruct (calls_become_actions pack_id (fun _ => "") "1.0" None [] CodeAct [] two_calls) as [Hlen _].
  - reflexivity.
  - reflexivity.
  - done.
  - vm_compute. reflexivity.
  - exact Hlen.
Defined.

(** ** Actions are handed out one per step *)

Section steps.
Context (pack : ToolCallMetadata -> nat -> CallMetadata) (set_repr : list string -> string) (version : string).
Context (sandbox_volumes : option string) (cwd : list string).
Context (L : Type) (completion : list Message -> list pyval -> L -> res ModelResponse * L).
Context (kind : AgentKind) (model : string) (condense : condenser) (caching : bool).
Context (metadata_of : CallMetadata -> ToolCallMetadata) (config : AgentConfig).
Context (build_workspace_context : option RepositoryInfo -> RuntimeInfo -> option string -> string -> string).
Context (build_microagent_info : list MicroagentKnowledge -> string).
Context (system_message : string) (str_event : event -> string) (max_message_chars : option Z) (vision_is_active : bool).
Notation response_to_actions := (response_to_actions pack set_repr version sandbox_volumes cwd).
Notation step := (step pack set_repr version sandbox_volumes cwd L completion kind model condense caching metadata_of config
  build_workspace_context build_microagent_info system_message str_event max_message_chars vision_is_active).
Notation Session := (Session L).

(** The controller's steps, each with the state it passes then. *)
Definition with_given (st : State) (s : Session) : Session :=
  {| agent := agent L s; given := st; condensing := condensing L s; llm := llm L s |}.
Fixpoint step_with (states : list State) : M Session (list event) :=
  match states with
  | [] => retM []
  | st :: states => modifyM (with_given st) ;;; (e <- step ;; (l <- step_with states ;; retM (e :: l)))
  end.

Lemma pending_come_first states : forall l s, pending_actions (agent L s) = l -> length states = length l ->
  exists s', step_with states s = (Ok l, s') /\ pending_actions (agent L s') = [] /\ llm L s' = llm L s
             /\ condensing L s' = condensing L s.
Proof.
  induction states as [|st states IH]; intros l s Hl Hlen; destruct l as [|e l]; try done; [by exists s|].
  cbn [step_with]. unfold bindM, modifyM, CodeAct.step. cbn [agent with_given]. rewrite Hl. unfold pop_pending. cbn [agent with_given].
  rewrite Hl.
  destruct (IH l (with_agent L (with_pending l (agent L s)) (with_given st s)) eq_refl) as (s' & -> & Hp & Hm & Hc); [by injection Hlen|].
  by exists s'.
Qed.

Lemma ask_model_fills v s e s' :
  ask_model pack set_repr version sandbox_volumes cwd L completion kind model caching metadata_of config build_workspace_context
    build_microagent_info system_message str_event max_message_chars vision_is_active v s = (Ok e, s') ->
  exists messages offered r actions,
    completion messages offered (llm L s) = (Ok r, llm L s')
    /\ check_tools (tools (agent L s)) model = Ok offered
    /\ response_to_actions kind (mcp_tool_names (agent L s)) r = Ok actions
    /\ pending_actions (agent L s) ++ actions = e :: pending_actions (agent L s').
Proof.
  unfold ask_model, bindM, getM, liftM, modifyM, on_llm, pop_pending.
  destruct (_get_initial_user_message _) as [m|x]; [|done]. destruct (_get_messages _ _ _ _ _ _ _ _ _ _ _ _) as [messages|x]; [|done].
  destruct (check_tools _ _) as [offered|x] eqn:Eo; [|done]. destruct (completion _ _ _) as [[r|x] l] eqn:Ec; [|done].
  destruct (response_to_actions _ _ _) as [actions|x] eqn:Ea; [|done]. cbn [agent with_agent with_pending pending_actions].
  destruct (pending_actions (agent L s) ++ actions) as [|e0 rest] eqn:Ep; [done|]. intros [= <- <-].
  by exists messages, offered, r, actions.
Qed.

(** A step of an agent with nothing pending either ends the conversation
    (the last thing the user said is [/exit]) or condenses the history, and
    leaves nothing pending; or it asks the model once, with the tools it has,
    and returns the first action of the response.  In that case the next steps,
    whatever the states they are given, return the other actions of this
    response one by one and in order, without asking the model, condensing or
    failing, until none is pending and the model is asked again. *)
Lemma response_is_handed_out s e s' (Hempty : pending_actions (agent L s) = []) (Hstep : step s = (Ok e, s')) :
  (pending_actions (agent L s') = [] /\ llm L s' = llm L s
   /\ (e = new_event (AgentFinishAction "" [] "")
       \/ exists v, (condensed_history condense v (condensing L s)) = (Ok (ACondensation (data e)), condensing L s')))
  \/ (exists messages offered r,
        completion messages offered (llm L s) = (Ok r, llm L s')
        /\ check_tools (tools (agent L s)) model = Ok offered
        /\ response_to_actions kind (mcp_tool_names (agent L s)) r = Ok (e :: pending_actions (agent L s'))
        /\ forall states, length states = length (pending_actions (agent L s')) ->
           exists s'', step_with states s' = (Ok (pending_actions (agent L s')), s'')
                       /\ pending_actions (agent L s'') = [] /\ llm L s'' = llm L s' /\ condensing L s'' = condensing L s').
Proof.
  revert Hstep. unfold CodeAct.step. rewrite Hempty. unfold bindM, on_state, on_condensing.
  destruct (get_last_user_message (given L s)) as [[latest|x] st]; [|done].
  destruct (from_option asks_to_exit false latest). { intros [= <- <-]. left. by split_and!; [| |left]. }
  cbn [given agent condensing llm]. destruct (view st) as [[v|x] st']; [|done]. cbn [given agent condensing llm].
  destruct (condensed_history condense v (condensing L s)) as [[[v'|action]|x] c] eqn:Ec; [| |done].
  - intros (messages & offered & r & actions & Hc & Ho & Ha & Hp)%ask_model_fills. cbn [agent llm] in *.
    rewrite Hempty in Hp. cbn in Hp. subst actions. right. exists messages, offered, r. split_and!; try done.
    intros states Hlen. by apply pending_come_first.
  - intros [= <- <-]. left. split_and!; [done|done|]. right. by exists v.
Qed.
End steps.

Definition ask_state : State := set_history [ask] (set_initial_state "s" None false).
Definition sample_step : M (Session nat) event :=
  step pack_id (fun _ => "") "1.0" None [] nat (fun _ _ n => (Ok two_calls, S n)) CodeAct "m" no_op false shell_metadata shell_config
    (fun _ _ _ _ => "") (fun _ => "") "You help." (fun _ => "") (Some 1000) false.
Definition sample_session : Session nat :=
  {| agent := new_agent readonly_tools; given := ask_state; condensing := ([], None); llm := 0%nat |}.
Definition sample_result : res event * Session nat := sample_step sample_session.
Definition first_action : event := match sample_result.1 with Ok e => e | Raise _ => ask end.

Lemma response_is_handed_out_witness :
  data <$> pending_actions (agent nat sample_result.2) = [AgentThinkAction "hm"]
  /\ exists s'', step_with pack_id (fun _ => "") "1.0" None [] nat (fun _ _ n => (Ok two_calls, S n)) CodeAct "m" no_op false
                  shell_metadata shell_config (fun _ _ _ _ => "") (fun _ => "") "You help." (fun _ => "") (Some 1000) false
                  [ask_state] sample_result.2
                = (Ok (pending_actions (agent nat sample_result.2)), s'')
                /\ pending_actions (agent nat s'') = [] /\ llm nat s'' = llm nat sample_result.2.
Proof.
  split; [vm_compute; reflexivity|].
  destruct (response_is_handed_out pack_id (fun _ => "") "1.0" None [] nat (fun _ _ n => (Ok two_calls, S n)) CodeAct "m" no_op false
              shell_metadata shell_config (fun _ _ _ _ => "") (fun _ => "") "You help." (fun _ => "") (Some 1000) false
              sample_session first_action sample_result.2 eq_refl) as [[Hp _]|(messages & offered & r & _ & _ & _ & Hs)].
  - vm_compute. reflexivity.
  - vm_compute in Hp. discriminate Hp.
  - destruct (Hs [ask_state]) as (s'' & H1 & H2 & H3 & _); [vm_compute; reflexivity|]. by exists s''.
Defined.

(** ** The read-only agent *)

Definition grep_words (pattern directory : string) (include : option string) : list string :=
  ["rg"; "-li"; pattern; "--sortr=modified"] ++ match include with Some g => ["--glob"; g] | None => [] end ++ [directory].
Definition glob_words (pattern directory : string) : list string := ["rg"; "--files"; directory; "-g"; pattern; "--sortr=modified"].
(** The command line shows itself, and is a call of [rg] with the given words,
    cut after a hundred lines. *)
Definition search_of (command : string) (words : list string) : Prop :=
  exists what, command = echoed what (shlex_join words +:+ " | head -n 100") /\ shlex_split (shlex_join words) = Ok words.
Definition reads_only (b : body) : Prop :=
  match b with
  | AgentFinishAction _ _ _ | FileReadAction _ _ _ _ _ _ _ | AgentThinkAction _ | MessageAction _ _ _ _ _ => True
  | CmdRunAction command is_input _ _ _ _ _ _ _ =>
      is_input = false /\ exists pattern directory,
        search_of command (glob_words pattern directory) \/ exists include, search_of command (grep_words pattern directory include)
  | _ => False
  end.

Lemma reads_combine b thought : reads_only b -> reads_only (combine_thought b thought).
Proof. unfold combine_thought. destruct b; try done; cbn [thought_field]; by destruct (String.eqb thought ""). Qed.

Lemma quoted v q : quote_value v = Ok q -> exists s, q = quote s.
Proof.
  destruct v; cbn [quote_value]; try (destruct (truth _); [done|]); intros [= <-]; try (by exists ""). by eexists.
Qed.
Lemma grep_search pattern path include cmd : grep_to_cmdrun pattern path include = Ok cmd ->
  exists p d g, search_of cmd (grep_words p d g).
Proof.
  unfold grep_to_cmdrun. destruct (quote_value pattern) as [qp|] eqn:Ep; [|done]. apply quoted in Ep as [p ->]. cbn [rbind].
  assert (forall q, (if truth path then quote_value path else Ok ".") = Ok q -> exists d, q = quote d) as Hd.
  { intros q. destruct (truth path); [apply quoted|]. intros [= <-]. by exists ".". }
  destruct (if truth path then _ else _) as [qd|] eqn:Ed; [|done]. destruct (Hd qd eq_refl) as [d ->]. cbn [rbind]. clear Hd Ed.
  assert (forall q, (if truth include then q <-! quote_value include ;; Ok (" --glob " +:+ q) else Ok "") = Ok q ->
            exists g, q = match g with Some g => " --glob " +:+ quote g | None => "" end) as Hg.
  { intros q. destruct (truth include); [|intros [= <-]; by exists None].
    destruct (quote_value include) as [qg|] eqn:Eg; [|done]. apply quoted in Eg as [g ->]. intros [= <-]. by exists (Some g). }
  destruct (if truth include then _ else _) as [qg|] eqn:Eg; [|done]. destruct (Hg qg eq_refl) as [g ->]. cbn [rbind].
  intros [= <-]. exists p, d, g, "search". split; [|apply shlex_split_join]. f_equal.
  unfold grep_cmd, shlex_join, grep_words. destruct g as [g|]; cbn [map app join]; rewrite !sapp_assoc; reflexivity.
Qed.
Lemma glob_search pattern path cmd : glob_to_cmdrun pattern path = Ok cmd -> exists p d, search_of cmd (glob_words p d).
Proof.
  unfold glob_to_cmdrun. destruct (quote_value path) as [qd|] eqn:Ed; [|done]. apply quoted in Ed as [d ->]. cbn [rbind].
  destruct (quote_value pattern) as [qp|] eqn:Ep; [|done]. apply quoted in Ep as [p ->]. cbn [rbind].
  intros [= <-]. exists p, d, "glob". split; [|apply shlex_split_join]. f_equal.
  unfold glob_cmd, shlex_join, glob_words. cbn [map app join]. rewrite !sapp_assoc. reflexivity.
Qed.

Section readonly.
Context (version : string).
Notation make := (make version).
Lemma make_search cmd : make "run" [("command", VStr cmd); ("is_input", VBool false)]
  = Ok (CmdRunAction cmd false "" false false None false CONFIRMED RISK_UNKNOWN).
Proof. reflexivity. Qed.
Lemma finish_reads arguments b : finish version arguments = Ok b -> reads_only b.
Proof.
  unfold finish. destruct (get_or _ _ _) as [v|]; [|done]. cbn [rbind].
  change (make "finish" [("final_thought", v)])
    with (match (f ← dec_str v; Some (AgentFinishAction f [] "")) with Some b => Ok b | None => Raise ill_typed end).
  destruct (dec_str v); [|done]. by intros [= <-].
Qed.
Lemma think_reads arguments b : think version arguments = Ok b -> reads_only b.
Proof.
  unfold think. destruct (get_or _ _ _) as [v|]; [|done]. cbn [rbind].
  change (make "think" [("thought", v)]) with (match AgentThinkAction <$> dec_str v with Some b => Ok b | None => Raise ill_typed end).
  destruct (dec_str v); [|done]. by intros [= <-].
Qed.
Lemma view_reads name arguments b : view_file version name arguments = Ok b -> reads_only b.
Proof.
  unfold view_file. destruct (require _ _ _); [|done]. cbn [rbind]. destruct (item _ _) as [p|]; [|done]. cbn [rbind].
  destruct (get_or _ _ _) as [r|]; [|done]. cbn [rbind].
  change (make "read" [("path", p); ("impl_source", VStr (read_source_value READ_OH_ACI)); ("view_range", r)])
    with (match (p ← dec_str p; r ← dec_opt dec_ints r; Some (FileReadAction p 0 (-1) "" RISK_UNKNOWN READ_OH_ACI r)) with
          | Some b => Ok b | None => Raise ill_typed end).
  destruct (dec_str p); [|done]. cbn. destruct (dec_opt dec_ints r); [|done]. by intros [= <-].
Qed.
Lemma grep_reads name arguments b : grep version name arguments = Ok b -> reads_only b.
Proof.
  unfold grep. destruct (require _ _ _); [|done]. cbn [rbind]. destruct (item _ _) as [p|]; [|done]. cbn [rbind].
  destruct (get_or _ "path" _) as [d|]; [|done]. cbn [rbind]. destruct (get_or _ "include" _) as [g|]; [|done]. cbn [rbind].
  destruct (grep_to_cmdrun p d g) as [cmd|] eqn:E; [|done]. cbn [rbind]. unfold search_command. rewrite make_search. intros [= <-].
  apply grep_search in E as (p' & d' & g' & H). split; [done|]. exists p', d'. right. by exists g'.
Qed.
Lemma glob_reads name arguments b : glob version name arguments = Ok b -> reads_only b.
Proof.
  unfold glob. destruct (require _ _ _); [|done]. cbn [rbind]. destruct (item _ _) as [p|]; [|done]. cbn [rbind].
  destruct (get_or _ _ _) as [d|]; [|done]. cbn [rbind].
  destruct (glob_to_cmdrun p d) as [cmd|] eqn:E; [|done]. cbn [rbind]. unfold search_command. rewrite make_search. intros [= <-].
  apply glob_search in E as (p' & d' & H). split; [done|]. exists p', d'. by left.
Qed.
Lemma readonly_reads name arguments i made idx : readonly_action version [] name arguments i = Ok (made, idx) -> reads_only (data made).
Proof.
  assert (forall r : res body, (forall b, r = Ok b -> reads_only b) -> keeping i r = Ok (made, idx) -> reads_only (data made)) as Hk.
  { intros [b|x] Hr; [|done]. intros [= <- _]. by apply Hr. }
  unfold readonly_action. cbv zeta.
  repeat (destruct (bool_decide _);
    [apply Hk; intros b; first [apply finish_reads|apply view_reads|apply think_reads|apply grep_reads|apply glob_reads]|]).
  by destruct name.
Qed.
End readonly.


Definition search_response (pattern : string) : ModelResponse :=
  {| response_id := "r2";
     choices := [{| msg_role := None; msg_content := None;
                    msg_tool_calls := Some [{| call_id := Some "g"; function_name := Some "grep";
                                               function_arguments := bars "{|pattern|: |" +:+ pattern +:+ bars "|}" |}] |}] |}.
Definition searches (pattern : string) : res (list event) :=
  response_to_actions pack_id (fun _ => "") "1.0" None [] ReadOnly [] (search_response pattern).
Definition search_actions (pattern : string) : list event := match searches pattern with Ok l => l | Raise _ => [] end.

(** ** Where the code and its words differ *)

Definition commands_of (l : list event) : list string :=
  omap (fun e => match data e with CmdRunAction c _ _ _ _ _ _ _ _ => Some c | _ => None end) l.
(** The command line that is shown first stands between double quotes, where the
    single quotes around the pattern protect nothing: a shell runs what the
    pattern substitutes, before the search. *)
Lemma shown_command_is_expanded :
  commands_of (search_actions "$(id)") =
  [bars "echo |Below are the execution results of the search command: rg -li '$(id)' --sortr=modified . " +:+ bars "" +:+ "| head -n 100"
   +:+ newline +:+ bars "|; " +:+ "rg -li '$(id)' --sortr=modified . | head -n 100"].
Proof. vm_compute. reflexivity. Qed.
(** A pattern that begins with a dash is an option of [rg], and [--pre] names a
    program that [rg] runs on every file. *)
Lemma pattern_is_an_option :
  exists shown, commands_of (search_actions "--pre=./x") = [shown +:+ "rg -li --pre=./x --sortr=modified . | head -n 100"].
Proof.
  exists (bars "echo |Below are the execution results of the search command: " +:+ "rg -li --pre=./x --sortr=modified . | head -n 100"
          +:+ newline +:+ bars "|; ").
  vm_compute. reflexivity.
Qed.

Definition track (n : nat) : ToolCall :=
  {| call_id := Some "t"; function_name := Some TASK_TRACKER_TOOL_NAME;
     function_arguments := bars "{|command|: |plan|, |task_list|: [" +:+ join ", " (replicate n "{}") +:+ "]}" |}.
Definition think_call : ToolCall :=
  {| call_id := Some "h"; function_name := Some "think"; function_arguments := bars "{|thought|: |hm|}" |}.
Definition thoughts_of (calls : list ToolCall) : list (option string) :=
  match response_to_actions pack_id (fun _ => "") "1.0" None [] CodeAct []
          {| response_id := "r"; choices := [{| msg_role := None; msg_content := Some "Plan."; msg_tool_calls := Some calls |}] |} with
  | Ok l => map (fun e => thought_field (data e)) l
  | Raise _ => []
  end.
(** The loop over the tasks reuses the index of the loop over the calls: the
    thought is lost when the first call plans two tasks, and said twice when a
    later one plans a single task. *)
Lemma tasks_move_the_thought :
  thoughts_of [track 2; think_call] = [Some ""; Some "hm"]
  /\ thoughts_of [track 1; think_call] = [Some "Plan."; Some "hm"]
  /\ thoughts_of [think_call; track 1] = [Some ("Plan." +:+ newline +:+ "hm"); Some "Plan."].
Proof. split_and!; vm_compute; reflexivity. Qed.
(** The arguments of a call may be any JSON value; one that is not an object is
    not reported to the model as a malformed call, but ends in a [TypeError] or an
    [AttributeError], on which the controller stops with an error. *)
Lemma list_arguments_crash :
  codeact_action (fun _ => "") "1.0" None [] [] (Some "think") (VList []) 0 = Raise (no_attribute (VList []) "get").
Proof. vm_compute. reflexivity. Qed.
