(* ===== verification/ToolSchema.v ===== *)
(** * What a tool declares, and what is made of its calls

    The JSON schema of a tool's parameters, read into types; and
    [offered_tools_are_understood]: for every configuration of a CodeAct agent,
    [codeact_agent/function_calling.py] turns every call that fits the schema of
    an offered tool into an action, but for the calls that [refused] lists, which a
    schema allows and the code raises on. *)

From S2P Require Import Prelude PyStr PyDict PyFloat PyVal Events Serialization FnCallText FnCall AgentTools CodeAct.
From Stdlib Require Import Ascii.

(** ** Schemas *)

Inductive jtype := JStr (enum : option (list string)) | JInt | JNum | JObj | JArr (items : jtype).
Fixpoint read_type (fuel : nat) (schema : pyval) : option jtype :=
  match fuel, schema with
  | S f, VDict d =>
      t ← dget d "type"; t ← dec_str t;
      if String.eqb t "string" then
        match dget d "enum" with Some l => l ← dec_strs l; Some (JStr (Some l)) | None => Some (JStr None) end
      else if String.eqb t "integer" then Some JInt
      else if String.eqb t "number" then Some JNum
      else if String.eqb t "object" then Some JObj
      else if String.eqb t "array" then items ← dget d "items"; JArr <$> read_type f items
      else None
  | _, _ => None
  end.
(** [sig_closed]: no further arguments, that is "additionalProperties" is false. *)
Record Signature := { sig_name : string; sig_params : dict string jtype; sig_required : list string; sig_closed : bool }.
Definition signature (tool : pyval) : option Signature :=
  d ← dec_dict tool; f ← dget d "function"; f ← dec_dict f;
  name ← dget f "name"; name ← dec_str name;
  p ← dget f "parameters"; p ← dec_dict p;
  props ← dget p "properties"; props ← dec_dict props;
  params ← mapM (fun kv => pair kv.1 <$> read_type 2 kv.2) props;
  required ← dget p "required"; required ← dec_strs required;
  Some {| sig_name := name; sig_params := params; sig_required := required;
          sig_closed := match dget p "additionalProperties" with Some (VBool b) => negb b | _ => false end |}.

(** Values of a type.  An integer is one that JSON writes without a fraction; of an
    object's own schema (that of a task) nothing is asked. *)
Fixpoint fits (t : jtype) (v : pyval) : bool :=
  match t, v with
  | JStr None, VStr _ | JInt, VInt _ | JNum, VFloat _ | JNum, VInt _ | JObj, VDict _ => true
  | JStr (Some l), VStr s => bool_decide (s ∈ l)
  | JArr t, VList l => forallb (fits t) l
  | _, _ => false
  end.
Definition accepts (sg : Signature) (args : dict string pyval) : bool :=
  forallb (dmem args) (sig_required sg)
  && forallb (fun kv : string * pyval => match dget (sig_params sg) kv.1 with Some t => fits t kv.2 | None => negb (sig_closed sg) end) args.

Section accepts.
Context (sg : Signature) (args : dict string pyval) (Hacc : accepts sg args = true).
Lemma accepts_fits k t v : dget (sig_params sg) k = Some t -> dget args k = Some v -> fits t v = true.
Proof.
  intros Ht Hv%dget_elem. pose proof Hacc as [_ Hf]%andb_true_iff. rewrite forallb_forall in Hf.
  specialize (Hf (k, v) (proj1 (list_elem_of_In _ _) Hv)). cbn [fst snd] in Hf. by rewrite Ht in Hf.
Qed.
Lemma accepts_required k t : k ∈ sig_required sg -> dget (sig_params sg) k = Some t -> exists v, dget args k = Some v /\ fits t v = true.
Proof.
  intros Hk Ht. pose proof Hacc as [Hr _]%andb_true_iff. rewrite forallb_forall in Hr.
  specialize (Hr k (proj1 (list_elem_of_In _ _) Hk)). unfold dmem in Hr. destruct (dget args k) as [v|] eqn:Hv; [|done].
  exists v. split; [done|]. by eapply accepts_fits.
Qed.
End accepts.
Lemma fits_str o v : fits (JStr o) v = true -> exists s, v = VStr s.
Proof. destruct o, v; try done; by eexists. Qed.
Lemma fits_int v : fits JInt v = true -> exists z, v = VInt z.
Proof. destruct v; try done; by eexists. Qed.
Lemma fits_ints v : fits (JArr JInt) v = true -> exists l, v = VList (map VInt l).
Proof.
  destruct v as [| | | | |l| | |]; try done. cbn. induction l as [|x l IH]; [by exists []|]. cbn.
  intros [(z & ->)%fits_int (l' & [= ->])%IH]%andb_true_iff. by exists (z :: l').
Qed.
Lemma fits_num v : fits JNum v = true -> (exists x, v = VFloat x) \/ exists z, v = VInt z.
Proof. destruct v; try done; [right|left]; by eexists. Qed.
Lemma fits_objs v : fits (JArr JObj) v = true -> exists l, v = VList (map VDict l).
Proof.
  destruct v as [| | | | |l| | |]; try done. cbn. induction l as [|x l IH]; [by exists []|]. cbn.
  intros [Hx (l' & [= ->])%IH]%andb_true_iff. destruct x; try done. by exists (d :: l').
Qed.

(** ** The signatures of the tools *)

Notation risk := ("security_risk", JStr (Some RISK_LEVELS)).
Definition sig_command : Signature :=
  {| sig_name := EXECUTE_BASH_TOOL_NAME;
     sig_params := [("command", JStr None); ("is_input", JStr (Some ["true"; "false"])); ("timeout", JNum); risk];
     sig_required := ["command"; "security_risk"]; sig_closed := false |}.
Definition sig_code (name : string) : Signature :=
  {| sig_name := name; sig_params := [("code", JStr None); risk]; sig_required := ["code"; "security_risk"]; sig_closed := false |}.
Definition sig_text (name param : string) : Signature :=
  {| sig_name := name; sig_params := [(param, JStr None)]; sig_required := [param]; sig_closed := false |}.
Definition sig_condense : Signature := {| sig_name := "request_condensation"; sig_params := []; sig_required := []; sig_closed := false |}.
Definition sig_tasks : Signature :=
  {| sig_name := TASK_TRACKER_TOOL_NAME; sig_params := [("command", JStr (Some ["view"; "plan"])); ("task_list", JArr JObj)];
     sig_required := ["command"]; sig_closed := true |}.
Definition sig_edit : Signature :=
  {| sig_name := LLM_BASED_EDIT_TOOL_NAME;
     sig_params := [("path", JStr None); ("content", JStr None); ("start", JInt); ("end", JInt); risk];
     sig_required := ["path"; "content"; "security_risk"]; sig_closed := false |}.
Definition sig_editor : Signature :=
  {| sig_name := STR_REPLACE_EDITOR_TOOL_NAME;
     sig_params := [("command", JStr (Some ["view"; "create"; "str_replace"; "insert"; "undo_edit"])); ("path", JStr None);
                    ("file_text", JStr None); ("old_str", JStr None); ("new_str", JStr None); ("insert_line", JInt);
                    ("view_range", JArr JInt); risk];
     sig_required := ["command"; "path"; "security_risk"]; sig_closed := false |}.

(** The calls that a schema allows and the code refuses: a plan without its tasks; an
    argument of the editor that it does not declare, unless it views; and a timeout
    that no float can hold. *)
Definition refused (sg : Signature) (args : dict string pyval) : bool :=
  if String.eqb (sig_name sg) TASK_TRACKER_TOOL_NAME then
    match dget args "command" with Some (VStr c) => String.eqb c "plan" && negb (dmem args "task_list") | _ => false end
  else if String.eqb (sig_name sg) STR_REPLACE_EDITOR_TOOL_NAME then
    negb (match dget args "command" with Some (VStr c) => String.eqb c "view" | _ => false end)
    && existsb (fun k => bool_decide (k ∉ dkeys (sig_params sg))) (dkeys args)
  else if String.eqb (sig_name sg) EXECUTE_BASH_TOOL_NAME then
    match dget args "timeout" with Some (VInt z) => negb (is_finite (float_of_Z z)) | _ => false end
  else false.

Ltac member := repeat first [apply list_elem_of_here | apply list_elem_of_further].
Lemma offered_signatures windows sandbox_volumes cwd c tool :
  tool ∈ _get_tools windows sandbox_volumes cwd c ->
  exists sg, signature tool = Some sg
  /\ sg ∈ [sig_command; sig_text "think" "thought"; sig_text FINISH_TOOL_NAME "message"; sig_condense; sig_code BROWSER_TOOL_NAME;
            sig_code "execute_ipython_cell"; sig_tasks; sig_edit; sig_editor].
Proof.
  assert (forall (sg : Signature) (l : list Signature), signature tool = Some sg -> sg ∈ l ->
            exists sg, signature tool = Some sg /\ sg ∈ l) as Hs by (intros sg l; by exists sg).
  assert (forall (b : bool) (t : pyval), tool ∈ (if b then [t] else []) -> tool = t) as Ht.
  { intros [] t H; [by apply list_elem_of_singleton in H|by apply not_elem_of_nil in H]. }
  unfold _get_tools. cbv zeta. rewrite !elem_of_app. set (short := existsb _ _). clearbody short.
  intros [H|[H|[H|[H|[H|[H|[H|H]]]]]]].
  1-7: apply Ht in H; subst tool; eapply Hs; [reflexivity|member].
  destruct (enable_llm_editor c); [apply (Ht true) in H|apply Ht in H]; subst tool; (eapply Hs; [reflexivity|member]).
Qed.

(** ** What the code makes of arguments that fit *)

Section understood.
Context (set_repr : list string -> string) (version : string) (windows : bool) (sandbox_volumes : option string) (cwd : list string).
Notation make := (make version).

Lemma has_arg (args : dict string pyval) k v : dget args k = Some v -> has_key (VDict args) k = Ok true.
Proof. intros H. cbn. unfold dmem. by rewrite H. Qed.
Lemma item_arg (args : dict string pyval) k v : dget args k = Some v -> item (VDict args) k = Ok v.
Proof. intros H. cbn. unfold get. by rewrite H. Qed.
Lemma require_arg (args : dict string pyval) k name v : dget args k = Some v -> require k name (VDict args) = Ok tt.
Proof. intros H. unfold require. by rewrite (has_arg _ _ _ H). Qed.
(** Any level of risk is taken or ignored. *)
Lemma risk_total args b : exists b', set_security_risk (VDict args) b = Ok b' /\ is_action b' = is_action b.
Proof.
  unfold set_security_risk. cbn [has_key rbind]. unfold dmem. destruct (dget args "security_risk") as [v|] eqn:E; [|by exists b].
  rewrite (item_arg _ _ _ E). cbn [rbind]. destruct (List.find _ _) as [[k r]|]; [|by exists b].
  eexists. split; [done|]. by destruct b.
Qed.

(** An outcome that is an action. *)
Definition acts (r : res body) : Prop := exists b, r = Ok b /\ is_action b = true.
Lemma acts_ok b : is_action b = true -> acts (Ok b). Proof. by exists b. Qed.
Lemma acts_risk args r : acts r -> acts (b <-! r ;; set_security_risk (VDict args) b).
Proof.
  intros (b & -> & Hb). cbn [rbind]. destruct (risk_total args b) as (b' & -> & Hb'). exists b'. split; [done|congruence].
Qed.
Lemma acts_keeping i r : acts r -> exists e left, keeping i r = Ok (e, left) /\ is_action (data e) = true.
Proof. intros (b & -> & Hb). by exists (new_event b), i. Qed.

Ltac args H := rewrite ?(require_arg _ _ _ _ H), ?(item_arg _ _ _ H); cbn [rbind].

Lemma cell_acts args name code : dget args "code" = Some (VStr code) -> acts (run_cell version name (VDict args)).
Proof. intros H. unfold run_cell. args H. apply acts_risk. by apply acts_ok. Qed.
Lemma browse_acts args name code : dget args "code" = Some (VStr code) -> acts (browse version name (VDict args)).
Proof. intros H. unfold browse. args H. apply acts_risk. by apply acts_ok. Qed.
Lemma finish_acts args m : dget args "message" = Some (VStr m) -> acts (finish version (VDict args)).
Proof. intros H. unfold finish, get_or. rewrite H. by apply acts_ok. Qed.
Lemma think_acts args m : dget args "thought" = Some (VStr m) -> acts (think version (VDict args)).
Proof. intros H. unfold think, get_or. rewrite H. by apply acts_ok. Qed.
Lemma edit_acts args name path content (start end_ : option Z) :
  dget args "path" = Some (VStr path) -> dget args "content" = Some (VStr content) -> dget args "impl_source" = None ->
  dget args "start" = VInt <$> start -> dget args "end" = VInt <$> end_ -> acts (llm_based_edit version name (VDict args)).
Proof.
  intros Hp Hc Hi Hs He. unfold llm_based_edit. args Hp. args Hc. unfold get_or.
  rewrite Hs, He, Hi. cbn [rbind]. destruct start, end_; by apply acts_ok.
Qed.
Lemma command_refuses args name command z : dget args "command" = Some (VStr command) -> dget args "timeout" = Some (VInt z) ->
  is_finite (float_of_Z z) = false -> exists x, run_command version name (VDict args) = Raise x.
Proof.
  intros Hc Ht Hz. unfold run_command. args Hc. unfold get_or. cbn [rbind]. args Hc. set (is_input := py_eq _ _).
  change (make "run" _) with
    (Ok (CmdRunAction command is_input "" false false None false CONFIRMED RISK_UNKNOWN) : res body).
  cbn [rbind]. rewrite (has_arg _ _ _ Ht), (item_arg _ _ _ Ht). cbn [rbind py_float]. rewrite Hz. by eexists.
Qed.
Lemma command_acts args name command :
  dget args "command" = Some (VStr command) -> (forall v, dget args "timeout" = Some v -> exists x, py_float v = Ok x) ->
  exists e, run_command version name (VDict args) = Ok e /\ is_action (data e) = true.
Proof.
  intros Hc Ht. unfold run_command. args Hc. unfold get_or. cbn [rbind]. args Hc.
  set (is_input := py_eq _ _).
  change (make "run" _) with
    (Ok (CmdRunAction command is_input "" false false None false CONFIRMED RISK_UNKNOWN) : res body).
  cbn [rbind has_key]. unfold dmem. destruct (dget args "timeout") as [v|] eqn:E.
  - rewrite (item_arg _ _ _ E). cbn [rbind]. destruct (Ht v eq_refl) as [x ->]. cbn [rbind].
    destruct (risk_total args (data (set_hard_timeout (Some x) true
      (new_event (CmdRunAction command is_input "" false false None false CONFIRMED RISK_UNKNOWN))))) as (b & -> & Hb).
    by eexists.
  - cbn [rbind]. destruct (risk_total args (data (new_event (CmdRunAction command is_input "" false false None false CONFIRMED RISK_UNKNOWN))))
      as (b & -> & Hb). by eexists.
Qed.

(** *** The editor *)

Definition edit_fields : list (string * option pyval) := Eval cbv in default [] (action_fields "" "edit").

Lemma editor_params : valid_params sandbox_volumes cwd
  = Ok ["command"; "path"; "file_text"; "old_str"; "new_str"; "insert_line"; "view_range"; "security_risk"].
Proof. reflexivity. Qed.
Lemma editor_kwargs_get params name other : Forall (fun kv => kv.1 ∈ params) other ->
  exists kwargs, editor_kwargs set_repr params name other = Ok kwargs
  /\ (forall k, dget kwargs k = if decide (k = "security_risk") then None else dget other k)
  /\ forall k, k ∈ dkeys kwargs -> k ∈ dkeys other /\ k <> "security_risk".
Proof.
  induction 1 as [|[k v] other Hk Ho (kwargs & E & Hg & Hd)]; cbn [editor_kwargs].
  - exists []. split_and!; [done| |by intros k Hk%not_elem_of_nil]. intros k. by case_decide.
  - cbn [fst] in Hk. rewrite bool_decide_eq_true_2 by done. rewrite E. cbn [rbind].
    destruct (String.eqb_spec k "security_risk") as [->|Hne].
    + exists kwargs. split_and!; [done| |].
      * intros k. rewrite Hg. cbn [dget]. repeat case_decide; congruence.
      * intros k' (H1 & H2)%Hd. split; [by right|done].
    + exists ((k, v) :: kwargs). split_and!; [done| |].
      * intros k'. cbn [dget]. rewrite Hg. repeat case_decide; congruence.
      * intros k' [->|Hk']%elem_of_cons; [split; [by left|done]|]. apply Hd in Hk' as [H1 H2]. split; [by right|done].
Qed.
(** The further arguments of an edit, in any order. *)
Lemma make_edit path command kwargs (text old_ new_ : option string) (line : option Z) :
  (forall k, k ∈ dkeys kwargs -> k ∈ ["file_text"; "old_str"; "new_str"; "insert_line"]) ->
  dget kwargs "file_text" = VStr <$> text -> dget kwargs "old_str" = VStr <$> old_ -> dget kwargs "new_str" = VStr <$> new_ ->
  dget kwargs "insert_line" = VInt <$> line ->
  make "edit" ([("path", VStr path); ("command", VStr command); ("impl_source", VStr (edit_source_value EDIT_OH_ACI))] ++ kwargs)
  = Ok (FileEditAction path command text old_ new_ line "" 1 (-1) "" RISK_UNKNOWN EDIT_OH_ACI).
Proof.
  intros Hk Ht Ho Hn Hl.
  assert (forall k, k ∉ ["file_text"; "old_str"; "new_str"; "insert_line"] -> dget kwargs k = None) as Hnone.
  { intros k Hk'. apply dget_None. by intros H%Hk. }
  set (given := [("path", VStr path); ("command", VStr command); ("impl_source", VStr (edit_source_value EDIT_OH_ACI))]).
  assert (forall k, k ∉ ["path"; "command"; "impl_source"] -> dget (given ++ kwargs) k = dget kwargs k) as Hrest.
  { intros k Hk'. cbn. repeat (rewrite decide_False by (intros ->; apply Hk'; literal)). done. }
  unfold CodeAct.make. change (action_fields version "edit") with (Some edit_fields). cbv iota beta. unfold bind_args.
  replace (List.find _ _) with (@None (string * pyval)).
  - cbn [bind_fields edit_fields]. change (dget (given ++ kwargs) "path") with (Some (VStr path)).
    change (dget (given ++ kwargs) "command") with (Some (VStr command)).
    change (dget (given ++ kwargs) "impl_source") with (Some (VStr (edit_source_value EDIT_OH_ACI))).
    rewrite !Hrest by literal. rewrite Ht, Ho, Hn, Hl, !Hnone by literal.
    by destruct text, old_, new_, line.
  - symmetry. destruct (List.find _ _) as [[k v]|] eqn:E; [|done]. apply List.find_some in E as [Hin Hd]. exfalso.
    apply list_elem_of_In, elem_of_app in Hin as [Hin|Hin].
    + unfold given in Hin. repeat (apply elem_of_cons in Hin as [[= -> ->]|Hin]; [vm_compute in Hd; done|]). by apply not_elem_of_nil in Hin.
    + assert (k ∈ dkeys kwargs) as Hkk by (apply list_elem_of_fmap; by exists (k, v)).
      apply Hk in Hkk. repeat (apply elem_of_cons in Hkk as [->|Hkk]; [vm_compute in Hd; done|]). by apply not_elem_of_nil in Hkk.
Qed.

Lemma editor_acts args name path command (text old_ new_ : option string) (line : option Z) (range : option (list Z)) :
  (command <> "view" -> forall k, k ∈ dkeys args -> k ∈ ["command"; "path"; "file_text"; "old_str"; "new_str"; "insert_line"; "view_range"; "security_risk"]) ->
  dget args "path" = Some (VStr path) -> dget args "command" = Some (VStr command) ->
  dget args "file_text" = VStr <$> text -> dget args "old_str" = VStr <$> old_ -> dget args "new_str" = VStr <$> new_ ->
  dget args "insert_line" = VInt <$> line -> dget args "view_range" = (fun l => VList (map VInt l)) <$> range ->
  acts (str_replace_editor set_repr version sandbox_volumes cwd name (VDict args)).
Proof.
  intros Hk Hp Hc Ht Ho Hn Hl Hr. unfold str_replace_editor. args Hc. args Hp. args Hc. apply acts_risk.
  assert (forall k, k ∉ ["command"; "path"] -> dget (ddel (ddel args "command") "path") k = dget args k) as Hother.
  { intros k Hkk. rewrite !dget_ddel, !decide_False; [done| |]; intros <-; apply Hkk; literal. }
  change (py_eq (VStr command) (VStr "view")) with (String.eqb command "view"). destruct (String.eqb_spec command "view") as [->|Hview].
  - rewrite Hother, Hr by literal. destruct range as [l|]; [|by apply acts_ok]. cbn [fmap option_fmap option_map default from_option].
    assert (dec_ints (VList (map VInt l)) = Some l) as Hl'.
    { unfold dec_ints. cbn [dec_list]. clear. induction l as [|z l IH]; [done|]. cbn. by rewrite IH. }
    match goal with |- acts (make _ ?kwargs) => change (make "read" kwargs) with
      (match (range ← Some <$> dec_ints (VList (map VInt l)); Some (FileReadAction path 0 (-1) "" RISK_UNKNOWN READ_OH_ACI range)) with
       | Some b => Ok b | None => Raise ill_typed end) end.
    rewrite Hl'. by apply acts_ok.
  - specialize (Hk Hview). rewrite editor_params. cbn [rbind].
    edestruct (editor_kwargs_get ["command"; "path"; "file_text"; "old_str"; "new_str"; "insert_line"; "view_range"; "security_risk"] name
      (ddel (ddel (ddel args "command") "path") "view_range")) as (kwargs & -> & Hg & Hd).
    { apply Forall_forall. intros [k v] Hin. apply Hk. apply list_elem_of_fmap. exists (k, v). split; [done|].
      by apply list_elem_of_filter in Hin as [_ [_ [_ Hin]%list_elem_of_filter]%list_elem_of_filter]. }
    cbn [rbind]. rewrite (make_edit path command kwargs text old_ new_ line); [by apply acts_ok| | | | |].
    2-5: rewrite Hg, decide_False by done; rewrite dget_ddel, decide_False by done; by rewrite Hother by literal.
    intros k [Hin Hne]%Hd. rewrite !dkeys_ddel in Hin.
    apply list_elem_of_filter in Hin as [H1 [H2 [H3 Hin]%list_elem_of_filter]%list_elem_of_filter]. apply Hk in Hin.
    clear - Hin Hne H1 H2 H3. set_solver.
Qed.

(** An argument that is not declared, of a command that does not view. *)
Lemma editor_kwargs_unknown params name k other : k ∉ params -> k ∈ dkeys other -> exists x, editor_kwargs set_repr params name other = Raise x.
Proof.
  intros Hk. induction other as [|[k' v] other IH]; [by intros H%not_elem_of_nil|]. cbn [editor_kwargs].
  destruct (bool_decide_reflect (k' ∈ params)) as [Hin|]; [|intros _; by eexists].
  intros [->|Ho]%elem_of_cons; [done|]. destruct (IH Ho) as [x ->]. by exists x.
Qed.
Lemma editor_refuses args name path command k :
  dget args "path" = Some (VStr path) -> dget args "command" = Some (VStr command) -> command <> "view" ->
  k ∈ dkeys args -> k ∉ dkeys (sig_params sig_editor) ->
  exists x, str_replace_editor set_repr version sandbox_volumes cwd name (VDict args) = Raise x.
Proof.
  intros Hp Hc Hview Hk Hn. unfold str_replace_editor. args Hc. args Hp. args Hc.
  change (py_eq (VStr command) (VStr "view")) with (String.eqb command "view"). rewrite (proj2 (String.eqb_neq _ _) Hview), editor_params. cbn [rbind].
  destruct (editor_kwargs_unknown ["command"; "path"; "file_text"; "old_str"; "new_str"; "insert_line"; "view_range"; "security_risk"] name k
              (ddel (ddel (ddel args "command") "path") "view_range")) as [x ->]; [exact Hn| |by exists x].
  rewrite !dkeys_ddel, !list_elem_of_filter. cbn in Hn. set_solver.
Qed.

(** *** The task tracker *)

Lemma normalize_total l : forall i, exists tasks, normalize_tasks i (map VDict l) = Ok (map VDict tasks).
Proof.
  induction l as [|d l IH]; intros i; [by exists []|]. cbn [map normalize_tasks]. destruct (IH (S i)) as [tasks ->]. cbn [rbind].
  match goal with |- context [VDict ?d :: _] => by exists (d :: tasks) end.
Qed.
Lemma tasks_act args name command i : dget args "command" = Some (VStr command) ->
  (command = "plan" -> dmem args "task_list" = true) -> (forall v, dget args "task_list" = Some v -> exists l, v = VList (map VDict l)) ->
  exists b left, track_tasks version name (VDict args) i = Ok (b, left) /\ is_action b = true.
Proof.
  intros Hc Hp Hl. unfold track_tasks. args Hc. cbn [has_key rbind].
  replace (py_eq (VStr command) (VStr "plan") && negb (dmem args "task_list")) with false.
  - unfold get_or. cbn [rbind].
    assert (exists l, default (VList []) (dget args "task_list") = VList (map VDict l)) as [l ->].
    { destruct (dget args "task_list") as [v|]; [by apply Hl|by exists []]. }
    destruct (normalize_total l 0) as [tasks Hn]. cbn [rbind]. rewrite Hn. cbn [rbind]. args Hc.
    assert (make "task_tracking" [("command", VStr command); ("task_list", VList (map VDict tasks))] = Ok (TaskTrackingAction command tasks "")) as ->.
    { assert (dec_tasks (VList (map VDict tasks)) = Some tasks) as Ht.
      { unfold dec_tasks. cbn [dec_list]. clear. induction tasks as [|d l IH]; [done|]. cbn. by rewrite IH. }
      change (make "task_tracking" [("command", VStr command); ("task_list", VList (map VDict tasks))]) with
        (match (l ← dec_tasks (VList (map VDict tasks)); Some (TaskTrackingAction command l "")) with
         | Some b => Ok b | None => Raise ill_typed end).
      by rewrite Ht. }
    cbn [rbind]. by eexists _, _.
  - symmetry. apply andb_false_iff. destruct (decide (command = "plan")) as [Hpl|Hne]; [right; by rewrite (Hp Hpl)|].
    left. cbn. by apply String.eqb_neq.
Qed.
Lemma tasks_refuse args name i : dget args "command" = Some (VStr "plan") -> dmem args "task_list" = false ->
  exists x, track_tasks version name (VDict args) i = Raise x.
Proof. intros Hc Hl. unfold track_tasks. args Hc. cbn [has_key rbind]. rewrite Hl. by eexists. Qed.
End understood.

(** ** Every offered tool is understood *)

Section theorem.
Context (set_repr : list string -> string) (version : string) (windows : bool) (sandbox_volumes : option string) (cwd : list string).
Notation codeact_action := (codeact_action set_repr version sandbox_volumes cwd).

Lemma str_arg sg args k o : accepts sg args = true -> k ∈ sig_required sg -> dget (sig_params sg) k = Some (JStr o) ->
  exists s, dget args k = Some (VStr s).
Proof. intros Ha Hk Ht. destruct (accepts_required sg args Ha k _ Hk Ht) as (v & Hv & (s & ->)%fits_str). by exists s. Qed.
Lemma opt_arg {A} (f : A -> pyval) sg args k t : accepts sg args = true -> dget (sig_params sg) k = Some t ->
  (forall v, fits t v = true -> exists a, v = f a) -> exists o : option A, dget args k = f <$> o.
Proof.
  intros Ha Ht Hf. destruct (dget args k) as [v|] eqn:E; [|by exists None].
  destruct (Hf v) as [a ->]; [by eapply accepts_fits|]. by exists (Some a).
Qed.
(** What comes of a call. *)
Definition outcome (b : bool) (r : res (event * nat)) : Prop :=
  if b then exists x, r = Raise x else exists e left, r = Ok (e, left) /\ is_action (data e) = true.

Lemma command_understood args names i : accepts sig_command args = true ->
  outcome (refused sig_command args) (codeact_action names (Some EXECUTE_BASH_TOOL_NAME) (VDict args) i).
Proof.
  intros Ha. destruct (str_arg _ _ "command" None Ha) as [c Hc]; [member|reflexivity|].
  change (codeact_action names _ (VDict args) i)
    with (e <-! run_command version (Some EXECUTE_BASH_TOOL_NAME) (VDict args) ;; Ok (e, i)).
  change (refused sig_command args) with (match dget args "timeout" with Some (VInt z) => negb (is_finite (float_of_Z z)) | _ => false end).
  assert ((forall v, dget args "timeout" = Some v -> exists x, py_float v = Ok x) ->
          outcome false (e <-! run_command version (Some EXECUTE_BASH_TOOL_NAME) (VDict args) ;; Ok (e, i))) as Hok.
  { intros Ht. destruct (command_acts version args (Some EXECUTE_BASH_TOOL_NAME) c Hc Ht) as (e & -> & Hact). by exists e, i. }
  destruct (dget args "timeout") as [v|] eqn:Et; [|by apply Hok].
  pose proof (accepts_fits sig_command args Ha "timeout" JNum v eq_refl Et) as [[x ->]|[z ->]]%fits_num.
  - apply Hok. intros v [= <-]. by eexists.
  - destruct (is_finite (float_of_Z z)) eqn:Ez; cbn [negb].
    + apply Hok. intros v [= <-]. cbn [py_float]. rewrite Ez. by eexists.
    + destruct (command_refuses version args (Some EXECUTE_BASH_TOOL_NAME) c z Hc Et Ez) as [x ->]. by exists x.
Qed.
Lemma tasks_understood args names i : accepts sig_tasks args = true ->
  outcome (refused sig_tasks args) (codeact_action names (Some TASK_TRACKER_TOOL_NAME) (VDict args) i).
Proof.
  intros Ha. destruct (str_arg _ _ "command" (Some ["view"; "plan"]) Ha) as [c Hc]; [member|reflexivity|].
  change (codeact_action names _ (VDict args) i)
    with (r <-! track_tasks version (Some TASK_TRACKER_TOOL_NAME) (VDict args) i ;; Ok (new_event r.1, r.2)).
  change (refused sig_tasks args) with
    (match dget args "command" with Some (VStr c) => String.eqb c "plan" && negb (dmem args "task_list") | _ => false end).
  rewrite Hc. destruct (String.eqb c "plan" && negb (dmem args "task_list")) eqn:Er.
  - apply andb_true_iff in Er as [->%String.eqb_eq El%negb_true_iff].
    destruct (tasks_refuse version args (Some TASK_TRACKER_TOOL_NAME) i Hc El) as [x ->]. by exists x.
  - destruct (tasks_act version args (Some TASK_TRACKER_TOOL_NAME) c i Hc) as (b & idx & -> & Hact); [| |by exists (new_event b), idx].
    + intros ->. rewrite String.eqb_refl in Er. by apply negb_false_iff in Er.
    + intros v Hv. by eapply fits_objs, (accepts_fits _ _ Ha "task_list").
Qed.
Lemma edit_understood args names i : accepts sig_edit args = true -> dget args "impl_source" = None ->
  outcome false (codeact_action names (Some LLM_BASED_EDIT_TOOL_NAME) (VDict args) i).
Proof.
  intros Ha Hi. destruct (str_arg _ _ "path" None Ha) as [p Hp]; [member|reflexivity|].
  destruct (str_arg _ _ "content" None Ha) as [c Hc]; [member|reflexivity|].
  destruct (opt_arg VInt _ args "start" JInt Ha) as [s Hs]; [reflexivity|apply fits_int|].
  destruct (opt_arg VInt _ args "end" JInt Ha) as [e He]; [reflexivity|apply fits_int|].
  change (codeact_action names _ (VDict args) i) with (keeping i (llm_based_edit version (Some LLM_BASED_EDIT_TOOL_NAME) (VDict args))).
  by eapply acts_keeping, edit_acts.
Qed.
Lemma editor_understood args names i : accepts sig_editor args = true ->
  outcome (refused sig_editor args) (codeact_action names (Some STR_REPLACE_EDITOR_TOOL_NAME) (VDict args) i).
Proof.
  intros Ha. destruct (str_arg _ _ "path" None Ha) as [p Hp]; [member|reflexivity|].
  destruct (str_arg _ _ "command" (Some ["view"; "create"; "str_replace"; "insert"; "undo_edit"]) Ha) as [c Hc]; [member|reflexivity|].
  change (codeact_action names _ (VDict args) i)
    with (keeping i (str_replace_editor set_repr version sandbox_volumes cwd (Some STR_REPLACE_EDITOR_TOOL_NAME) (VDict args))).
  change (refused sig_editor args) with
    (negb (match dget args "command" with Some (VStr c) => String.eqb c "view" | _ => false end)
     && existsb (fun k => bool_decide (k ∉ dkeys (sig_params sig_editor))) (dkeys args)). rewrite Hc.
  destruct (negb (String.eqb c "view") && _) eqn:Er.
  - apply andb_true_iff in Er as [Hview%negb_true_iff%String.eqb_neq (k & Hk & Hn%bool_decide_eq_true)%existsb_exists].
    destruct (editor_refuses set_repr version sandbox_volumes cwd args (Some STR_REPLACE_EDITOR_TOOL_NAME) p c k Hp Hc Hview) as [x ->];
      [by apply list_elem_of_In|exact Hn|by exists x].
  - destruct (opt_arg VStr _ args "file_text" (JStr None) Ha) as [t Ht]; [reflexivity|apply fits_str|].
    destruct (opt_arg VStr _ args "old_str" (JStr None) Ha) as [o Ho]; [reflexivity|apply fits_str|].
    destruct (opt_arg VStr _ args "new_str" (JStr None) Ha) as [n Hn]; [reflexivity|apply fits_str|].
    destruct (opt_arg VInt _ args "insert_line" JInt Ha) as [l Hl]; [reflexivity|apply fits_int|].
    destruct (opt_arg (fun l => VList (map VInt l)) _ args "view_range" (JArr JInt) Ha) as [r Hr]; [reflexivity|apply fits_ints|].
    eapply acts_keeping, editor_acts with (command := c); try done. intros Hview k Hk. apply andb_false_iff in Er as [Er|Er].
    + by apply negb_false_iff, String.eqb_eq in Er.
    + destruct (decide (k ∈ dkeys (sig_params sig_editor))) as [Hd|Hd]; [exact Hd|]. exfalso. apply not_true_iff_false in Er. apply Er, existsb_exists.
      exists k. split; [by apply list_elem_of_In|by apply bool_decide_eq_true].
Qed.
Lemma signature_understood sg args names i :
  sg ∈ [sig_command; sig_text "think" "thought"; sig_text FINISH_TOOL_NAME "message"; sig_condense; sig_code BROWSER_TOOL_NAME;
        sig_code "execute_ipython_cell"; sig_tasks; sig_edit; sig_editor] ->
  accepts sg args = true -> dget args "impl_source" = None ->
  outcome (refused sg args) (codeact_action names (Some (sig_name sg)) (VDict args) i).
Proof.
  intros Hsg Ha Hi. repeat (apply elem_of_cons in Hsg as [->|Hsg]); [..|by apply not_elem_of_nil in Hsg].
  - by apply command_understood.
  - destruct (str_arg _ _ "thought" None Ha) as [m Hm]; [member|reflexivity|].
    change (codeact_action names _ (VDict args) i) with (keeping i (think version (VDict args))).
    by eapply acts_keeping, think_acts.
  - destruct (str_arg _ _ "message" None Ha) as [m Hm]; [member|reflexivity|].
    change (codeact_action names _ (VDict args) i) with (keeping i (finish version (VDict args))).
    by eapply acts_keeping, finish_acts.
  - change (codeact_action names _ (VDict args) i) with (keeping i (make version "condensation_request" [])).
    by apply acts_keeping, acts_ok.
  - destruct (str_arg _ _ "code" None Ha) as [m Hm]; [member|reflexivity|].
    change (codeact_action names _ (VDict args) i) with (keeping i (browse version (Some BROWSER_TOOL_NAME) (VDict args))).
    by eapply acts_keeping, browse_acts.
  - destruct (str_arg _ _ "code" None Ha) as [m Hm]; [member|reflexivity|].
    change (codeact_action names _ (VDict args) i) with (keeping i (run_cell version (Some "execute_ipython_cell") (VDict args))).
    by eapply acts_keeping, cell_acts.
  - by apply tasks_understood.
  - by apply edit_understood.
  - by apply editor_understood.
Qed.

(** C25: Every tool that a CodeAct agent offers, in any configuration, has a readable
    schema, and of the calls that fit it (all required arguments, each declared one of
    its type, no other one when the schema is closed), with no argument called
    impl_source, exactly those that [refused] lists are refused: a plan of the task
    tracker without tasks, a call of the editor, other than to view, with an argument
    that it does not declare, and a command whose timeout is an integer beyond every
    float.  All others are turned into an action. *)
Theorem offered_tools_are_understood c tool (Hoffered : tool ∈ _get_tools windows sandbox_volumes cwd c) :
  exists sg, signature tool = Some sg
  /\ forall args names i, accepts sg args = true -> dget args "impl_source" = None ->
     if refused sg args then exists x, codeact_action names (Some (sig_name sg)) (VDict args) i = Raise x
     else exists e left, codeact_action names (Some (sig_name sg)) (VDict args) i = Ok (e, left) /\ is_action (data e) = true.
Proof.
  destruct (offered_signatures _ _ _ _ _ Hoffered) as (sg & Hs & Hin). exists sg. split; [done|].
  intros args names i Ha Hi. by apply signature_understood.
Qed.
End theorem.

Definition everything : ToolConfig :=
  {| enable_cmd := true; enable_think := true; enable_finish := true; enable_condensation_request := true; enable_browsing := true;
     enable_jupyter := true; enable_plan_mode := true; enable_llm_editor := false; enable_editor := true; runtime := None; model := "m" |}.
Definition view_lines : dict string pyval :=
  [("path", VStr "/workspace/a.py"); ("command", VStr "view"); ("view_range", VList [VInt 1; VInt 9]); ("security_risk", VStr "LOW")].
Lemma offered_tools_are_understood_witness :
  accepts sig_editor view_lines = true
  /\ exists e left, codeact_action (fun _ => "") "1.0" None [] [] (Some STR_REPLACE_EDITOR_TOOL_NAME) (VDict view_lines) 0 = Ok (e, left)
                    /\ is_action (data e) = true.
Proof.
  split; [vm_compute; reflexivity|].
  destruct (offered_tools_are_understood (fun _ => "") "1.0" false None [] everything
              (create_str_replace_editor_tool None [] false None None)) as (sg & Hsg & H).
  - unfold _get_tools. rewrite !elem_of_app. do 7 right. apply list_elem_of_here.
  - change (signature _) with (Some sig_editor) in Hsg. injection Hsg as <-.
    apply (H view_lines [] 0%nat); [vm_compute; reflexivity|reflexivity].
Defined.

(** A plan without its tasks, which the schema of the tracker allows. *)
Lemma plan_refused :
  accepts sig_tasks [("command", VStr "plan")] = true
  /\ codeact_action (fun _ => "") "1.0" None [] [] (Some TASK_TRACKER_TOOL_NAME) (VDict [("command", VStr "plan")]) 0
     = validation_error (bars "Missing required argument |task_list| for |plan| command in tool call task_tracker").
Proof. split; vm_compute; reflexivity. Qed.
(** A schema that is open, and an argument that it does not declare. *)
Lemma further_argument_refused :
  let call := [("path", VStr "a.py"); ("command", VStr "create"); ("file_text", VStr ""); ("security_risk", VStr "LOW"); ("encoding", VStr "utf-8")] in
  accepts sig_editor call = true
  /\ is_ok (codeact_action (fun _ => "") "1.0" None [] [] (Some STR_REPLACE_EDITOR_TOOL_NAME) (VDict call) 0) = false.
Proof. split; vm_compute; reflexivity. Qed.
(** A timeout that is too long for a float is no malformed call but an error of another
    kind, which the code does not catch. *)
Lemma endless_timeout_crashes :
  let call := [("command", VStr "ls"); ("timeout", VInt (10 ^ 400)); ("security_risk", VStr "LOW")] in
  accepts sig_command call = true
  /\ codeact_action (fun _ => "") "1.0" None [] [] (Some EXECUTE_BASH_TOOL_NAME) (VDict call) 0
     = Raise (OtherError "OverflowError" "int too large to convert to float").
Proof. split; vm_compute; reflexivity. Qed.
