(* ===== verification/Microagent.v ===== *)
(** * Microagents

    Models [openhands/microagent/microagent.py] and [types.py]: reading a
    microagent from a file, its kind, its triggers, and loading a directory.

    Parameters: [frontmatter] splits a file in its YAML metadata and its text;
    [validate] is pydantic's check of the metadata; the files, and the text of
    each.  [microagent_classified] says which kind a file becomes. *)

From S2P Require Import Prelude PyStr PyDict PyVal PyPath PyRegex RegexFind Controller FnCallText.
From Stdlib Require Import Ascii.

(** ** The data *)

Inductive MicroagentType := KNOWLEDGE_TYPE | REPO_KNOWLEDGE | TASK.
#[export] Instance MicroagentType_eq : EqDecision MicroagentType. Proof. solve_decision. Defined.
Definition type_value (t : MicroagentType) : string :=
  match t with KNOWLEDGE_TYPE => "knowledge" | REPO_KNOWLEDGE => "repo" | TASK => "task" end.
Definition type_values : list string := map type_value [KNOWLEDGE_TYPE; REPO_KNOWLEDGE; TASK].
Record InputMetadata := { in_name : string; in_description : string }.
Record MCPConfig := { sse_servers : list pyval; stdio_servers : list pyval }.
Record MicroagentMetadata := {
  md_name : string; md_type : MicroagentType; md_version : string; md_agent : string;
  md_triggers : list string; md_inputs : list InputMetadata; md_mcp_tools : option MCPConfig;
}.
Definition new_metadata (name : string) : MicroagentMetadata :=
  {| md_name := name; md_type := REPO_KNOWLEDGE; md_version := "1.0.0"; md_agent := "CodeActAgent"; md_triggers := []; md_inputs := [];
     md_mcp_tools := None |}.
Definition with_triggers (l : list string) (m : MicroagentMetadata) : MicroagentMetadata :=
  {| md_name := md_name m; md_type := md_type m; md_version := md_version m; md_agent := md_agent m; md_triggers := l;
     md_inputs := md_inputs m; md_mcp_tools := md_mcp_tools m |}.
(** [RepoMicroagent], [KnowledgeMicroagent] or [TaskMicroagent], by its type *)
Record Microagent := { ma_name : string; ma_content : string; ma_metadata : MicroagentMetadata; ma_source : string; ma_type : MicroagentType }.

(** [match_trigger] *)
Definition match_trigger (m : Microagent) (message : string) : option string :=
  List.find (fun trigger => contains (lower trigger) (lower message)) (md_triggers (ma_metadata m)).

(** ** Tasks *)

Definition VARIABLE : re :=
  Seq (word "${") (Seq (Grp 1 (Seq (Set_ (fun c => in_range 97 122 c || in_range 65 90 c || is_c 95 c))
                                   (Star true (Set_ (fun c => in_range 97 122 c || in_range 65 90 c || in_range 48 57 c || is_c 95 c)))))
                       (word "}")).
Definition extract_variables (content : string) : list string := map (group 1) (finditer VARIABLE content).
Definition requires_user_input (content : string) : bool := negb (Nat.eqb (length (extract_variables content)) 0).
Definition missing_variables_prompt : string :=
  newline +:+ newline +:+
  "If the user didn't provide any of these variables, ask the user to provide them first before the agent can proceed with the task.".
(** The constructor of [TaskMicroagent] *)
Definition _append_missing_variables_prompt (inputs : list InputMetadata) (content : string) : string :=
  if negb (requires_user_input content) && Nat.eqb (length inputs) 0 then content else content +:+ missing_variables_prompt.

(** ** Paths *)

(** [path.name] *)
Definition path_name (p : PurePath) : string := List.last (parts p) "".
(** [path.with_suffix('')]: the last dot of the name, neither its first nor its
    last character, begins the suffix. *)
Fixpoint before_last_dot (s : string) : option string :=
  match s with
  | EmptyString => None
  | String c s' => match before_last_dot s' with
                   | Some r => Some (String c r)
                   | None => if ord c =? 46 then Some "" else None
                   end
  end.
Definition stem (name : string) : string :=
  match before_last_dot name with Some "" | None => name | Some s => if endswith "." name then name else s end.
Definition without_suffix (p : PurePath) : res PurePath :=
  if String.eqb (path_name p) "" then Raise (ValueError ("PosixPath(" +:+ repr (path_str p) +:+ ") has an empty name"))
  else Ok {| root := root p; parts := removelast (parts p) ++ [stem (path_name p)] |}.
(** [path.relative_to(dir)] *)
Definition relative_to (dir p : PurePath) : res PurePath :=
  match (if String.eqb (root dir) (root p) then strip_base (parts dir) (parts p) else None) with
  | Some l => Ok {| root := ""; parts := l |}
  | None => Raise (ValueError (repr (path_str p) +:+ " is not in the subpath of " +:+ repr (path_str dir)))
  end.

(** ** Loading a file *)

Section load.
Context (frontmatter : string -> res (dict string pyval * string)) (validate : dict string pyval -> res MicroagentMetadata).
Context (read_file : PurePath -> res string).

Definition PATH_TO_THIRD_PARTY_MICROAGENT_NAME : dict string string :=
  [(".cursorrules", "cursorrules"); ("agents.md", "agents"); ("agent.md", "agents")].
Definition third_party_name (p : PurePath) : option string := dget PATH_TO_THIRD_PARTY_MICROAGENT_NAME (lower (path_name p)).
Definition repo_microagent (name content : string) (p : PurePath) : Microagent :=
  {| ma_name := name; ma_content := content; ma_metadata := new_metadata name; ma_source := path_str p; ma_type := REPO_KNOWLEDGE |}.
Definition _handle_third_party (p : PurePath) (file_content : string) : option Microagent :=
  (fun name => repo_microagent name file_content p) <$> third_party_name p.
Definition derived_name (p : PurePath) (microagent_dir : option PurePath) : res (option string) :=
  match microagent_dir with
  | None => Ok None
  | Some dir => match third_party_name p with
                | Some n => Ok (Some n)
                | None => r <-! relative_to dir p ;; r <-! without_suffix r ;; Ok (Some (path_str r))
                end
  end.

Definition validation_failed {A} (msg : string) : res A := Raise (OtherError "MicroagentValidationError" msg).
(** The version is made a string before the metadata is validated. *)
Definition string_version (d : dict string pyval) : dict string pyval :=
  match dget d "version" with
  | None | Some (VStr _) => d
  | Some v => dset d "version" (VStr (py_str v))
  end.
Definition checked_metadata (d : dict string pyval) : res MicroagentMetadata :=
  md <-! validate d ;;
  match md_mcp_tools md with
  | Some c => match stdio_servers c with
              | [] => validation_failed ("Microagent " +:+ md_name md +:+ " has MCP tools configuration but no stdio servers. "
                                         +:+ "Only stdio servers are currently supported.")
              | _ => Ok md
              end
  | None => Ok md
  end.
Definition valid_types : string := join ", " (map (fun t => bars "|" +:+ t +:+ bars "|") type_values).
Definition metadata_error (p : PurePath) (d : dict string pyval) (e : exn) : string :=
  "Error validating microagent metadata in " +:+ path_name p +:+ ": " +:+ exn_str e
  +:+ match dget d "type" with
      | Some t => if existsb (fun v => py_eq t (VStr v)) type_values then ""
                  else bars ". Invalid |type| value: |" +:+ py_str t +:+ bars "|. Valid types are: " +:+ valid_types
      | None => ""
      end.
(** The declared type plays no part: inputs make a task, triggers make
    knowledge, and anything else is always active. *)
Definition inferred_type (md : MicroagentMetadata) : MicroagentType :=
  match md_inputs md, md_triggers md with
  | _ :: _, _ => TASK
  | [], _ :: _ => KNOWLEDGE_TYPE
  | [], [] => REPO_KNOWLEDGE
  end.
Definition with_own_trigger (md : MicroagentMetadata) : MicroagentMetadata :=
  let trigger := "/" +:+ md_name md in
  if bool_decide (trigger ∈ md_triggers md) then md else with_triggers (md_triggers md ++ [trigger]) md.
Definition new_microagent (name content : string) (md : MicroagentMetadata) (p : PurePath) : Microagent :=
  match inferred_type md with
  | TASK => {| ma_name := name; ma_content := _append_missing_variables_prompt (md_inputs md) content;
               ma_metadata := with_own_trigger md; ma_source := path_str p; ma_type := TASK |}
  | t => {| ma_name := name; ma_content := content; ma_metadata := md; ma_source := path_str p; ma_type := t |}
  end.
Definition load (p : PurePath) (microagent_dir : option PurePath) (file_content : option string) : res Microagent :=
  name <-! derived_name p microagent_dir ;;
  file_content <-! match file_content with Some c => Ok c | None => read_file p end ;;
  if String.eqb (path_name p) ".openhands_instructions" then Ok (repo_microagent "repo_legacy" file_content p)
  else
    match _handle_third_party p file_content with
    | Some m => Ok m
    | None =>
        loaded <-! frontmatter file_content ;;
        let d := string_version loaded.1 in
        match checked_metadata d with
        | Raise e => validation_failed (metadata_error p d e)
        | Ok md => Ok (new_microagent (default (md_name md) name) loaded.2 md p)
        end
    end.

(** ** Loading a directory *)

Context (exists_ : PurePath -> bool) (rglob_md : PurePath -> list PurePath).

(** [path.parent] *)
Definition parent (p : PurePath) : PurePath := {| root := root p; parts := removelast (parts p) |}.
Definition AGENTS_FILENAMES : list string := ["AGENTS.md"; "agents.md"; "AGENT.md"; "agent.md"].
Definition special_files (repo_root : PurePath) : list PurePath :=
  (if exists_ (path_join repo_root ".cursorrules") then [path_join repo_root ".cursorrules"] else [])
  ++ match List.find exists_ (map (path_join repo_root) AGENTS_FILENAMES) with Some p => [p] | None => [] end.
Definition md_files (dir : PurePath) : list PurePath :=
  if exists_ dir then List.filter (fun f => negb (String.eqb (path_name f) "README.md")) (rglob_md dir) else [].

Record Loaded := { repo_agents : dict string Microagent; knowledge_agents : dict string Microagent }.
(** [isinstance(agent, RepoMicroagent)], or else [KnowledgeMicroagent] *)
Definition add_agent (l : Loaded) (m : Microagent) : Loaded :=
  match ma_type m with
  | REPO_KNOWLEDGE => {| repo_agents := dset (repo_agents l) (ma_name m) m; knowledge_agents := knowledge_agents l |}
  | _ => {| repo_agents := repo_agents l; knowledge_agents := dset (knowledge_agents l) (ma_name m) m |}
  end.
Definition loading_error {A} (p : PurePath) (e : exn) : res A :=
  let msg := "Error loading microagent from " +:+ path_str p +:+ ": " +:+ exn_str e in
  match e with
  | OtherError "MicroagentValidationError" _ => validation_failed msg
  | _ => Raise (ValueError msg)
  end.
Fixpoint load_files (dir : PurePath) (files : list PurePath) (l : Loaded) : res Loaded :=
  match files with
  | [] => Ok l
  | f :: files => match load f (Some dir) None with
                  | Ok m => load_files dir files (add_agent l m)
                  | Raise e => loading_error f e
                  end
  end.
Definition load_microagents_from_dir (dir : PurePath) : res Loaded :=
  load_files dir (special_files (parent (parent dir)) ++ md_files dir) {| repo_agents := []; knowledge_agents := [] |}.
End load.
