(* ===== verification/MemoryRecall.v ===== *)
(** * The memory

    Models [openhands/memory/memory.py], the subscriber of the event stream that
    answers the recall actions of the controller with what it knows of the
    workspace and with the microagents that the query triggers.

    Its lists come from [Microagent].  The clock of [set_runtime_info] is an
    argument; the status callback is a list of what it is told.

    [recall_is_answered]: every recall action of the user, and every one of the agent
    for knowledge, publishes exactly one answer, with the id of the request as its
    cause and the microagents whose triggers occur in the query, and this answer takes
    the request from the controller that waits for it. *)

From S2P Require Import Prelude PyStr PyDict PyVal Events Serialization FileStore EventStore EventLog State Controller.
From S2P Require Import ConversationMemory PyPath Microagent.

Record Memory := {
  repo_microagents : dict string Microagent;
  knowledge_microagents : dict string Microagent;
  repository_info : option RepositoryInfo;
  runtime_info : option RuntimeInfo;
  conversation_instructions : option string;
}.
Definition with_microagents (repo knowledge : dict string Microagent) (m : Memory) : Memory :=
  {| repo_microagents := repo; knowledge_microagents := knowledge; repository_info := repository_info m;
     runtime_info := runtime_info m; conversation_instructions := conversation_instructions m |}.

(** ** What it is told *)

(** [for name, agent in agents.items(): d[name] = agent] *)
Definition update_all (agents d : dict string Microagent) : dict string Microagent :=
  foldl (fun d kv => dset d kv.1 kv.2) d agents.
Definition add_loaded (l : Loaded) (m : Memory) : Memory :=
  with_microagents (update_all (repo_agents l) (repo_microagents m)) (update_all (knowledge_agents l) (knowledge_microagents m)) m.
(** The constructor: the public microagents must load, the user's own may fail. *)
Definition new_memory (global_agents : res Loaded) (user_agents : res Loaded) : res Memory :=
  let m := {| repo_microagents := []; knowledge_microagents := []; repository_info := None; runtime_info := None;
              conversation_instructions := None |} in
  l <-! global_agents ;;
  let m := add_loaded l m in
  Ok (match user_agents with Ok l => add_loaded l m | Raise _ => m end).
Definition load_user_workspace_microagents (agents : list Microagent) (m : Memory) : Memory :=
  foldl (fun m a => match ma_type a with
                    | REPO_KNOWLEDGE => with_microagents (dset (repo_microagents m) (ma_name a) a) (knowledge_microagents m) m
                    | _ => with_microagents (repo_microagents m) (dset (knowledge_microagents m) (ma_name a) a) m
                    end) m agents.
Definition get_microagent_mcp_tools (m : Memory) : list MCPConfig :=
  omap (fun a => md_mcp_tools (ma_metadata a)) (dvals (repo_microagents m)).
Definition set_repository_info (repo_name repo_directory : string) (branch_name : option string) (m : Memory) : Memory :=
  {| repo_microagents := repo_microagents m; knowledge_microagents := knowledge_microagents m;
     repository_info := if filled repo_name || filled repo_directory
                        then Some {| ri_repo_name := repo_name; ri_repo_directory := repo_directory; ri_branch_name := branch_name |}
                        else None;
     runtime_info := runtime_info m; conversation_instructions := conversation_instructions m |}.
(** The hosts and instructions of the runtime are left out only when it has
    neither, where they are the defaults. *)
Definition set_runtime_info (date : string) (web_hosts : dict string Z) (additional_agent_instructions : string)
    (custom_secrets_descriptions : dict string string) (working_dir : string) (m : Memory) : Memory :=
  let has := match web_hosts with [] => filled additional_agent_instructions | _ => true end in
  {| repo_microagents := repo_microagents m; knowledge_microagents := knowledge_microagents m; repository_info := repository_info m;
     runtime_info := Some {| rt_date := date; rt_available_hosts := if has then web_hosts else [];
                             rt_additional_agent_instructions := if has then additional_agent_instructions else "";
                             rt_custom_secrets_descriptions := custom_secrets_descriptions; rt_working_dir := working_dir |};
     conversation_instructions := conversation_instructions m |}.
Definition set_conversation_instructions (instructions : option string) (m : Memory) : Memory :=
  {| repo_microagents := repo_microagents m; knowledge_microagents := knowledge_microagents m; repository_info := repository_info m;
     runtime_info := runtime_info m; conversation_instructions := Some (default "" instructions) |}.

(** ** Recall *)

Definition _find_microagent_knowledge (m : Memory) (query : string) : list MicroagentKnowledge :=
  if String.eqb query "" then []
  else omap (fun a => match match_trigger a query with
                      | Some (String _ _ as trigger) => Some {| mk_name := ma_name a; mk_trigger := trigger; mk_content := ma_content a |}
                      | _ => None
                      end) (dvals (knowledge_microagents m)).

(** The contents of all the repository's microagents; nothing goes before the
    first one that says something. *)
Definition repo_instructions (m : Memory) : string :=
  foldl (fun text a => (if filled text then text +:+ newline +:+ newline else text) +:+ ma_content a) "" (dvals (repo_microagents m)).
Definition _on_workspace_context_recall (m : Memory) (query : string) : option body :=
  let instructions := repo_instructions m in
  let knowledge := _find_microagent_knowledge m query in
  let of_repo {A} (f : RepositoryInfo -> A) (d : A) := from_option f d (repository_info m) in
  let of_runtime {A} (f : RuntimeInfo -> A) (d : A) := from_option f d (runtime_info m) in
  if bool_decide (repository_info m <> None) || bool_decide (runtime_info m <> None) || filled instructions
     || negb (Nat.eqb (length knowledge) 0) || bool_decide (conversation_instructions m <> None)
  then Some (RecallObservation "Added workspace context" WORKSPACE_CONTEXT
               (of_repo ri_repo_name "") (of_repo ri_repo_directory "") (of_repo (fun r => default "" (ri_branch_name r)) "")
               instructions (of_runtime rt_available_hosts []) (of_runtime rt_additional_agent_instructions "") (of_runtime rt_date "")
               (of_runtime rt_custom_secrets_descriptions []) (default "" (conversation_instructions m)) (of_runtime rt_working_dir "")
               knowledge)
  else None.
Definition _on_microagent_recall (m : Memory) (query : string) : option body :=
  match _find_microagent_knowledge m query with
  | [] => None
  | knowledge => Some (RecallObservation "Retrieved knowledge from microagents" KNOWLEDGE "" "" "" "" [] "" "" [] "" "" knowledge)
  end.

(** The answer to an event, if it is a request. *)
Definition answer (m : Memory) (e : event) : option body :=
  match data e with
  | RecallAction WORKSPACE_CONTEXT query _ =>
      if from_user e then Some (default (NullObservation "") (_on_workspace_context_recall m query)) else None
  | RecallAction KNOWLEDGE query _ =>
      if from_user e || from_agent e then Some (default (NullObservation "") (_on_microagent_recall m query)) else None
  | _ => None
  end.
Definition caused_by (id : Z) (b : body) : event :=
  {| _id := None; _timestamp := None; _source := None; _cause := Some id; _timeout := None; _llm_metrics := None;
     _tool_call_metadata := None; _response_id := None; data := b |}.

Section memory.
Context (version : string) (literal_eval : string -> option (dict string pyval)).
Context {F : Type} `{FileStore F} (sid : string) (user_id : option string).
Notation EventStream := (EventStream (F := F)).

(** [_on_event]; an error is told to the status callback, not raised. *)
Definition on_event (now : string) (m : Memory) (e : event) : M (EventStream * list string) unit := fun s =>
  match answer m e with
  | None => (Ok tt, s)
  | Some b =>
      match add_event version literal_eval sid user_id now (caused_by (event_id e) b) ENVIRONMENT s.1 with
      | (Ok _, st) => (Ok tt, (st, s.2))
      | (Raise x, st) => (Ok tt, (st, s.2 ++ ["Error: " +:+ exn_name x]))
      end
  end.
End memory.

(** ** Every request is answered *)

Lemma hide_nothing v : replace_in [] v = v.
Proof.
  induction v as [| | | | | | |d Hd|] using pyval_nested_ind; try done. cbn [replace_in]. f_equal.
  induction Hd as [|[k x] d Hx Hd IH]; [done|]. cbn [map fst snd] in *. by rewrite Hx, IH.
Qed.
Lemma no_secrets d : replace_secrets [] d = d.
Proof.
  unfold replace_secrets. induction d as [|[k v] d IH]; [done|]. cbn [map fst snd]. rewrite IH, hide_nothing. by case_bool_decide.
Qed.

Section answered.
Context (text : dict string pyval -> string) (version : string) (literal_eval : string -> option (dict string pyval)).
Context {F : Type} `{FileStoreLaws F} (sid : string) (user_id : option string).
Notation add_event := (add_event version literal_eval sid user_id).
Notation wf := (wf sid user_id).

(** Publishing does not fail when the event has a message and there are no secrets
    to hide in it. *)
Lemma add_event_total now e src s n : wf s n -> secrets s = [] -> event_id e = INVALID_ID -> is_ok (message (data e)) = true ->
  constructible (data e) -> _llm_metrics e = None ->
  exists s', add_event now e src s = (Ok (stamped now src n e), s') /\ _queue s' = _queue s ++ [stored (stamped now src n e)].
Proof.
  intros Hwf Hs Hid Hm Hc Hnm. pose proof Hwf as (Hcur & _ & Hpage & Hn & _).
  assert (readable_metrics (stamped now src n e) = true) as Hr by (unfold readable_metrics, negative_metrics; cbn; by rewrite Hnm).
  assert (exists e' s', add_event now e src s = (Ok e', s')) as (e' & s' & E).
  { unfold EventStore.add_event. rewrite Hid. cbn [negb Z.eqb INVALID_ID Pos.eqb]. unfold bindM.
    destruct (cur_id_run sid user_id s n Hcur) as (s1 & -> & Ef & Ec & Eq & Ep & Es). cbn [modifyM getM liftM].
    assert (exists d, event_to_dict (stamped now src n e) = Ok d) as [d Ed].
    { unfold event_to_dict. cbn [data stamped]. destruct (message (data e)); [by eexists|done]. }
    rewrite Ed. cbn [with_cur_id secrets _write_page_cache]. rewrite Es, Ep, Hs. change (dvals []) with (@nil string). rewrite no_secrets.
    pose proof (event_to_from version literal_eval _ _ Ed Hc) as Hd. rewrite Hr in Hd. rewrite Hd.
    assert (dget d "id" = Some (VInt n)) as Hdid by (apply (event_to_dict_id _ _ Ed); cbn; unfold INVALID_ID; lia).
    rewrite (event_from_dict_id _ _ _ _ _ Hd Hdid). unfold modifyM. cbv beta iota zeta. unfold store_cache_page. pose proof Hpage as (Hlt & _).
    destruct (Z.ltb_spec (Z.of_nat (length (_write_page_cache s ++ [d]))) cache_size) as [Hl|Hl]; [by eexists _, _|].
    rewrite length_app in Hl. cbn [length] in Hl.
    destruct (page_id_first _ _ _ _ _ _ Hpage Hdid) as (dh & Eh & Ehid); [rewrite length_app; cbn [length]; lia|].
    rewrite Eh, Ehid. by eexists _, _. }
  exists s'. destruct (add_event_run _ _ _ _ _ _ _ _ _ _ _ Hwf E) as (d0 & copy & -> & Ed & Hrest). split; [done|].
  rewrite Hs in Hrest. change (dvals []) with (@nil string) in Hrest. rewrite no_secrets in Hrest. destruct Hrest as (_ & Hdec & _ & _ & -> & _).
  cbn [decode dec_dict] in Hdec. rewrite (event_to_from version literal_eval _ _ Ed Hc), Hr in Hdec. by injection Hdec as <-.
Qed.

Lemma answer_sound m e b : answer m e = Some b ->
  is_observation b = true /\ is_ok (message b) = true /\ constructible b /\ stored_body b = b.
Proof.
  unfold answer. destruct (data e); try done. destruct recall_type.
  - destruct (from_user e); [|done]. intros [= <-]. unfold _on_workspace_context_recall. by destruct (_ || _).
  - destruct (_ || _); [|done]. intros [= <-]. unfold _on_microagent_recall. by destruct (_find_microagent_knowledge m query).
Qed.

Context {A : Type} (agent_reset : string -> A -> A) (headless_mode : bool) (clock : Z -> string).
Notation handle_observation := (handle_observation version literal_eval sid user_id (A := A) agent_reset headless_mode clock).

(** What the answers hold. *)
Definition knowledge_of (b : body) : list MicroagentKnowledge :=
  match b with RecallObservation _ _ _ _ _ _ _ _ _ _ _ _ l => l | _ => [] end.
(** A recall observation of this kind, or a null observation, which holds nothing. *)
Definition answers_kind (kind : RecallType) (b : body) : bool :=
  match b with RecallObservation _ k _ _ _ _ _ _ _ _ _ _ _ => bool_decide (k = kind) | NullObservation c => String.eqb c "" | _ => false end.
Definition triggers (a : Microagent) : list string := md_triggers (ma_metadata a).
Definition occurs_in (query trigger : string) : Prop := contains (lower trigger) (lower query) = true.

Lemma knowledge_iff m query k : k ∈ _find_microagent_knowledge m query <->
  query <> "" /\ exists a, a ∈ dvals (knowledge_microagents m) /\ match_trigger a query = Some (mk_trigger k) /\ mk_trigger k <> ""
                         /\ mk_name k = ma_name a /\ mk_content k = ma_content a.
Proof.
  unfold _find_microagent_knowledge. destruct (String.eqb_spec query ""); [set_solver|]. rewrite list_elem_of_omap. split.
  - intros (a & Ha & Hk). split; [done|]. exists a. destruct (match_trigger a query) as [[|]|]; simplify_eq. done.
  - intros (_ & a & Ha & Et & Hne & En & Ec). exists a. split; [done|]. rewrite Et. destruct k as [nm [|c t] ct]; cbn in *; [done|]. by subst.
Qed.
Lemma answer_knowledge m e b kind query thought : answer m e = Some b -> data e = RecallAction kind query thought ->
  answers_kind kind b = true /\ knowledge_of b = _find_microagent_knowledge m query.
Proof.
  unfold answer. intros Hb Hd. rewrite Hd in Hb. destruct kind.
  - destruct (from_user e); [|done]. injection Hb as <-. unfold _on_workspace_context_recall.
    destruct (_find_microagent_knowledge m query); [destruct (_ || _)|rewrite orb_true_r]; done.
  - destruct (_ || _); [|done]. injection Hb as <-. unfold _on_microagent_recall. by destruct (_find_microagent_knowledge m query).
Qed.
Lemma answer_request m e kind query thought : data e = RecallAction kind query thought ->
  is_Some (answer m e) <-> _source e = Some USER \/ _source e = Some AGENT /\ kind = KNOWLEDGE.
Proof.
  unfold answer, from_user, from_agent. intros ->. destruct kind.
  - case_bool_decide; split; intros Hi; [by left|by eexists|by destruct Hi|naive_solver].
  - repeat case_bool_decide; cbn [orb]; split; intros Hi; try (by eexists); [by left|by left|by right|by destruct Hi|naive_solver].
Qed.

Lemma match_trigger_some a query t : match_trigger a query = Some t -> t ∈ triggers a /\ occurs_in query t.
Proof. unfold match_trigger. intros Ht%find_some. rewrite list_elem_of_In. exact Ht. Qed.
Lemma match_trigger_exists a query : "" ∉ triggers a -> Exists (occurs_in query) (triggers a) ->
  exists t, match_trigger a query = Some t /\ t <> "" /\ query <> "".
Proof.
  intros Hne (t & Ht & Ho)%Exists_exists. destruct (match_trigger a query) as [t'|] eqn:E.
  - exists t'. pose proof (match_trigger_some _ _ _ E) as [Hin _]. split_and!; [done|by intros ->|]. intros ->. destruct t; done.
  - exfalso. unfold match_trigger in E. apply list_elem_of_In in Ht. apply (find_none _ _ E t) in Ht as Hc. unfold occurs_in in Ho. congruence.
Qed.
Lemma event_id_stored e now src n : 0 <= n -> event_id (stored (stamped now src n e)) = n.
Proof. intros Hn. unfold stored, event_id. cbn [_id stamped]. cbn. by destruct (Z.eqb_spec n INVALID_ID) as [->|]. Qed.
Lemma released now n b (e : event) (w : World) c a :
  pending_action c = Some a -> event_id (ev a) = event_id e -> agent_state (state c) = RUNNING ->
  handle_observation (stored (stamped now ENVIRONMENT n (caused_by (event_id e) b))) (w, c) = (Ok tt, (w, set_pending None c)).
Proof.
  intros Hp Hid Hst. unfold Controller.handle_observation, bindM, self. cbn [snd fst]. rewrite Hp. cbn [_cause stored stamped caused_by].
  rewrite Hid, bool_decide_eq_true_2 by done. rewrite Hst. cbn. rewrite Hst. done.
Qed.

(** C30: A recall action of the user, or one for knowledge of the agent, is answered
    at once: on every stream that publishing can leave, with no secrets to hide,
    exactly one event is published, nothing is reported, and the event is an
    observation of the environment that names the request as its cause, of the kind
    that was asked for or empty.  Everything it tells was written for a trigger that
    occurs in the query, and every microagent with a trigger in the query is told
    of, an empty trigger apart.  A running controller that waits for the request is
    released.  Every other event is left alone: also the agent's request for the
    context of the workspace ([agents_context_request_ignored]). *)
Theorem recall_is_answered now m e told s n (Hwf : wf s n) (Hs : secrets s = []) :
  (forall kind query thought, data e = RecallAction kind query thought ->
     _source e = Some USER \/ _source e = Some AGENT /\ kind = KNOWLEDGE ->
     exists s' o,
       on_event version literal_eval sid user_id now m e (s, told) = (Ok tt, (s', told))
       /\ wf s' (n + 1) /\ _queue s' = _queue s ++ [o]
       /\ _cause o = Some (event_id e) /\ _source o = Some ENVIRONMENT /\ event_id o = n /\ answers_kind kind (data o) = true
       /\ (forall k, k ∈ knowledge_of (data o) ->
             exists a, a ∈ dvals (knowledge_microagents m) /\ mk_name k = ma_name a /\ mk_content k = ma_content a
                       /\ mk_trigger k ∈ triggers a /\ occurs_in query (mk_trigger k))
       /\ (forall a, a ∈ dvals (knowledge_microagents m) -> "" ∉ triggers a -> Exists (occurs_in query) (triggers a) ->
             exists k, k ∈ knowledge_of (data o) /\ mk_name k = ma_name a /\ mk_content k = ma_content a)
       /\ forall (w : World) c a,
            pending_action c = Some a -> event_id (ev a) = event_id e -> agent_state (state c) = RUNNING ->
            handle_observation o (w, c) = (Ok tt, (w, set_pending None c)))
  /\ ((forall kind query thought, data e = RecallAction kind query thought ->
         _source e <> Some USER /\ ~ (_source e = Some AGENT /\ kind = KNOWLEDGE)) ->
      on_event version literal_eval sid user_id now m e (s, told) = (Ok tt, (s, told))).
Proof.
  unfold on_event. split.
  - intros kind query thought Hd Hr. apply (answer_request m e _ _ _ Hd) in Hr as [b Ea]. rewrite Ea.
    destruct (answer_knowledge _ _ _ _ _ _ Ea Hd) as [Hk Hl]. apply answer_sound in Ea as (Ho & Hm & Hc & Hsb).
    destruct (add_event_total now (caused_by (event_id e) b) ENVIRONMENT s n Hwf Hs eq_refl Hm Hc eq_refl) as (s' & E & Hq).
    assert (data (stored (stamped now ENVIRONMENT n (caused_by (event_id e) b))) = b) as Hb by exact Hsb.
    cbn [fst snd]. rewrite E. eexists s', _. split_and!; [done|by eapply add_event_wf|exact Hq|done|done| |by rewrite Hb| | |].
    + apply event_id_stored. destruct Hwf as (_ & _ & _ & Hn & _). exact Hn.
    + rewrite Hb, Hl. intros k (_ & a & Ha & Et & _ & En & Ec)%knowledge_iff. exists a. apply match_trigger_some in Et as [Hin Hoc]. done.
    + rewrite Hb, Hl. intros a Ha Hne Hex. destruct (match_trigger_exists a query Hne Hex) as (t & Et & Hnt & Hnq).
      exists {| mk_name := ma_name a; mk_trigger := t; mk_content := ma_content a |}. split; [|done]. apply knowledge_iff. split; [done|]. by exists a.
    + intros w c a Hp Hid Hst. by eapply released.
  - intros Hno. destruct (answer m e) as [b|] eqn:Ea; [|done]. exfalso.
    assert (exists kind query thought, data e = RecallAction kind query thought) as (kind & query & thought & Hd)
      by (unfold answer in Ea; destruct (data e); try done; by eexists _, _, _).
    assert (is_Some (answer m e)) as Hs'%(answer_request m e _ _ _ Hd) by (by rewrite Ea). destruct (Hno _ _ _ Hd). tauto.
Qed.
End answered.

Definition pushy : Microagent :=
  {| ma_name := "git"; ma_content := "Never push to main."; ma_metadata := with_triggers ["commit"; "push"] (new_metadata "git");
     ma_source := "git.md"; ma_type := KNOWLEDGE_TYPE |}.
Definition git_memory : Memory :=
  load_user_workspace_microagents [pushy]
    {| repo_microagents := []; knowledge_microagents := []; repository_info := None; runtime_info := None; conversation_instructions := None |}.
Definition request : event :=
  {| _id := Some 4; _timestamp := None; _source := Some AGENT; _cause := None; _timeout := None; _llm_metrics := None;
     _tool_call_metadata := None; _response_id := None; data := RecallAction KNOWLEDGE "Please PUSH it" "" |}.
Lemma recall_is_answered_witness :
  exists s' o, on_event "1" (fun _ => None) "s" None "t" git_memory request (new_stream ([] : InMemoryFileStore), []) = (Ok tt, (s', []))
               /\ _queue s' = [o] /\ _cause o = Some 4
               /\ exists k, k ∈ knowledge_of (data o) /\ mk_name k = "git" /\ mk_content k = "Never push to main.".
Proof.
  destruct (recall_is_answered "1" (fun _ => None) "s" None (fun _ (a : unit) => a) true (fun _ => "t") "t" git_memory request []
              (new_stream ([] : InMemoryFileStore)) 0 empty_wf eq_refl) as [Ha _].
  destruct (Ha KNOWLEDGE "Please PUSH it" "" eq_refl (or_intror (conj eq_refl eq_refl))) as (s' & o & E & _ & Hq & Hc & _ & _ & _ & _ & Hk & _).
  exists s', o. split_and!; [exact E|exact Hq|exact Hc|]. apply (Hk pushy).
  - vm_compute. left.
  - apply (bool_decide_unpack _). vm_compute. exact I.
  - right. left. vm_compute. reflexivity.
Defined.

(** ** Where the code and its words differ *)

(** A request for the context of the workspace that the agent makes is not
    answered, with nothing to tell; the controller would wait for it. *)
Lemma agents_context_request_ignored m query :
  answer m {| _id := Some 4; _timestamp := None; _source := Some AGENT; _cause := None; _timeout := None; _llm_metrics := None;
              _tool_call_metadata := None; _response_id := None; data := RecallAction WORKSPACE_CONTEXT query "" |} = None.
Proof. reflexivity. Qed.
(** An empty trigger is found in every message and counts as none, so that the
    triggers after it are never tried. *)
Lemma empty_trigger_hides_the_rest :
  _find_microagent_knowledge
    (load_user_workspace_microagents
       [{| ma_name := "git"; ma_content := "."; ma_metadata := with_triggers [""; "push"] (new_metadata "git"); ma_source := "git.md";
           ma_type := KNOWLEDGE_TYPE |}] git_memory) "push" = [].
Proof. vm_compute. reflexivity. Qed.
(** The type that a microagent declares plays no part. *)
Lemma declared_type_ignored :
  ma_type (new_microagent "style" "Use tabs." {| md_name := "style"; md_type := KNOWLEDGE_TYPE; md_version := "1.0.0"; md_agent := "CodeActAgent";
    md_triggers := []; md_inputs := []; md_mcp_tools := None |} (mk_path "style.md")) = REPO_KNOWLEDGE.
Proof. reflexivity. Qed.
