(* ===== verification/ModelFeatures.v ===== *)
(** * What models can do

    Models [openhands/llm/model_features.py]: the name of a model, and the tables
    of shell patterns that say which models take tools, a reasoning effort, cache
    marks and stop words. *)

From S2P Require Import Prelude PyStr Fnmatch.
From Stdlib Require Import Ascii.

Definition slash : ascii := "/"%char.
Definition canonical (model : string) : string := lower (strip model).
(** [name[: -len('-gguf')]] when it ends so *)
Definition drop_gguf (name : string) : string := if endswith "-gguf" name then stake (slen name - 5) name else name.
Definition basename (raw : string) : string :=
  if contains "/" raw then match split_once ":" (List.last (split_char slash raw) "") with
                           | Some (name, _) => name
                           | None => List.last (split_char slash raw) ""
                           end
  else raw.
Definition normalize_model_name (model : string) : string := drop_gguf (basename (canonical model)).
(** A pattern with a slash is about the whole name, any other about its last part. *)
Definition matches_pattern (raw name pat : string) : bool :=
  if contains "/" (lower pat) then fnmatch raw (lower pat) else fnmatch name (lower pat).
Definition model_matches (model : string) (patterns : list string) : bool :=
  existsb (matches_pattern (canonical model) (normalize_model_name model)) patterns.

Record ModelFeatures := {
  supports_function_calling : bool; supports_reasoning_effort : bool; supports_prompt_cache : bool; supports_stop_words : bool;
}.

Definition FUNCTION_CALLING_PATTERNS : list string :=
  ["claude-3-7-sonnet*"; "claude-3.7-sonnet*"; "claude-sonnet-3-7-latest"; "claude-3-5-sonnet*"; "claude-3.5-sonnet*"; "claude-3.5-haiku*";
   "claude-3-5-haiku*"; "claude-sonnet-4*"; "claude-opus-4*"; "gpt-4o*"; "gpt-4.1"; "gpt-5*"; "o1-2024-12-17"; "o3*"; "o4-mini*";
   "gemini-2.5-pro*"; "gemini-3*"; "groq/*"; "kimi-k2-0711-preview"; "kimi-k2-instruct"; "kimi-k2.5"; "qwen3-coder*";
   "qwen3-coder-480b-a35b-instruct"; "deepseek-chat"; "grok-code-fast-1"; "glm-4*"; "glm-5*"].
Definition REASONING_EFFORT_PATTERNS : list string :=
  ["o1-2024-12-17"; "o1"; "o3"; "o3-2025-04-16"; "o3-mini-2025-01-31"; "o3-mini"; "o4-mini"; "o4-mini-2025-04-16"; "gemini-2.5-flash";
   "gemini-2.5-pro"; "gemini-3.1-pro*"; "gpt-5*"; "deepseek-r1-0528*"; "claude-sonnet-4-5*"; "claude-sonnet-4-6*"; "claude-haiku-4-5*";
   "kimi-k2.5"; "glm-4*"; "glm-5*"].
Definition PROMPT_CACHE_PATTERNS : list string :=
  ["claude-3-7-sonnet*"; "claude-3.7-sonnet*"; "claude-sonnet-3-7-latest"; "claude-3-5-sonnet*"; "claude-3-5-haiku*"; "claude-3.5-haiku*";
   "claude-3-haiku-20240307"; "claude-3-opus-20240229"; "claude-sonnet-4*"; "claude-opus-4*"; "gemini-3.1-pro*"; "kimi-k2.5"; "glm-4*";
   "glm-5*"].
Definition SUPPORTS_STOP_WORDS_FALSE_PATTERNS : list string :=
  ["o1*"; "grok-4-0709"; "grok-code-fast-1"; "deepseek-r1-0528*"; "azure/gpt-5*"].

Definition get_features (model : string) : ModelFeatures :=
  {| supports_function_calling := model_matches model FUNCTION_CALLING_PATTERNS;
     supports_reasoning_effort := model_matches model REASONING_EFFORT_PATTERNS;
     supports_prompt_cache := model_matches model PROMPT_CACHE_PATTERNS;
     supports_stop_words := negb (model_matches model SUPPORTS_STOP_WORDS_FALSE_PATTERNS) |}.

(** The provider in front of a name makes no difference to a table without slashes:
    reasoning efforts and cache marks depend on the name of the model only. *)
Lemma matches_by_name a b patterns : forallb (fun p => negb (contains "/" (lower p))) patterns = true ->
  normalize_model_name a = normalize_model_name b -> model_matches a patterns = model_matches b patterns.
Proof.
  intros Hp Hn. unfold model_matches. induction patterns as [|p patterns IH]; [done|]. cbn [forallb existsb] in *.
  apply andb_prop in Hp as [Hp1 Hp2]. rewrite (IH Hp2). f_equal. unfold matches_pattern. apply negb_true_iff in Hp1. by rewrite Hp1, Hn.
Qed.
Lemma features_by_name a b : normalize_model_name a = normalize_model_name b ->
  supports_reasoning_effort (get_features a) = supports_reasoning_effort (get_features b)
  /\ supports_prompt_cache (get_features a) = supports_prompt_cache (get_features b).
Proof. intros H. split; by apply matches_by_name. Qed.
Example claude_by_any_provider :
  map (fun m => supports_function_calling (get_features m))
    ["claude-sonnet-4-5-20250929"; "openrouter/anthropic/Claude-Sonnet-4"; "ollama/qwen3-coder:30b"; "groq/whatever"; "mistral-large"]
  = [true; true; true; true; false].
Proof. vm_compute. reflexivity. Qed.
