(* ===== verification/Llm.v ===== *)
(** * The model

    Models [openhands/llm/llm.py] and [retry_mixin.py]: what an [LLM] makes of its
    configuration, the request that it sends for a list of messages, the tools of a
    model without function calling, retries, and the account of costs and tokens.

    Parameters: litellm (the completion itself, prices, model information, vision),
    the proxy's list of models, the environment, the clock, whether the program is
    to exit, and the class hierarchy of exceptions ([is_a]).  [W] is what is behind
    them.  A completion is called with keyword arguments, as everywhere in the
    program.  Log files of completions are left out. *)

From S2P Require Import Prelude PyStr PyDict PyFloat PyVal Message FnCall CodeAct ModelFeatures Metrics Serialization.
From Stdlib Require Import Ascii.

(** ** Configuration *)

(** What an [LLM] reads of [LLMConfig]; [other_fields] has the rest. *)
Record LLMConfig := {
  model : string; api_key : option string; base_url : option string; api_version : option string;
  aws_access_key_id : option string; aws_secret_access_key : option string; aws_region_name : option string;
  num_retries : Z; timeout : option Z; temperature : float; top_p : float; top_k : option float;
  custom_llm_provider : option string; max_input_tokens : option Z; max_output_tokens : option Z;
  input_cost_per_token : option float; output_cost_per_token : option float;
  drop_params : bool; disable_vision : option bool; disable_stop_word : option bool; caching_prompt : bool;
  native_tool_calling : option bool; reasoning_effort : option string; seed : option Z;
  safety_settings : option (list (dict string string)); completion_kwargs : option (dict string pyval);
  other_fields : dict string pyval;
}.
Definition opt {A} (f : A -> pyval) (o : option A) : pyval := match o with Some x => f x | None => VNone end.
Definition fields (c : LLMConfig) : dict string pyval :=
  [("model", VStr (model c)); ("api_key", opt VStr (api_key c)); ("base_url", opt VStr (base_url c)); ("api_version", opt VStr (api_version c));
   ("aws_access_key_id", opt VStr (aws_access_key_id c)); ("aws_secret_access_key", opt VStr (aws_secret_access_key c));
   ("aws_region_name", opt VStr (aws_region_name c)); ("num_retries", VInt (num_retries c)); ("timeout", opt VInt (timeout c));
   ("temperature", VFloat (temperature c)); ("top_p", VFloat (top_p c)); ("top_k", opt VFloat (top_k c));
   ("custom_llm_provider", opt VStr (custom_llm_provider c)); ("max_input_tokens", opt VInt (max_input_tokens c));
   ("max_output_tokens", opt VInt (max_output_tokens c)); ("input_cost_per_token", opt VFloat (input_cost_per_token c));
   ("output_cost_per_token", opt VFloat (output_cost_per_token c)); ("drop_params", VBool (drop_params c));
   ("disable_vision", opt VBool (disable_vision c)); ("disable_stop_word", opt VBool (disable_stop_word c));
   ("caching_prompt", VBool (caching_prompt c)); ("native_tool_calling", opt VBool (native_tool_calling c));
   ("reasoning_effort", opt VStr (reasoning_effort c)); ("seed", opt VInt (seed c));
   ("safety_settings", opt (fun l => VList (map (fun d => VDict (map (fun kv => (kv.1, VStr kv.2)) d)) l)) (safety_settings c));
   ("completion_kwargs", opt VDict (completion_kwargs c)); ("other_fields", VDict (other_fields c))].
(** [==] of two configurations *)
Definition same_config (a b : LLMConfig) : bool := py_eq (VDict (fields a)) (VDict (fields b)).

Definition with_model (m : string) (url : option string) (c : LLMConfig) : LLMConfig :=
  {| model := m; api_key := api_key c; base_url := url; api_version := api_version c; aws_access_key_id := aws_access_key_id c;
     aws_secret_access_key := aws_secret_access_key c; aws_region_name := aws_region_name c; num_retries := num_retries c;
     timeout := timeout c; temperature := temperature c; top_p := top_p c; top_k := top_k c; custom_llm_provider := custom_llm_provider c;
     max_input_tokens := max_input_tokens c; max_output_tokens := max_output_tokens c; input_cost_per_token := input_cost_per_token c;
     output_cost_per_token := output_cost_per_token c; drop_params := drop_params c; disable_vision := disable_vision c;
     disable_stop_word := disable_stop_word c; caching_prompt := caching_prompt c; native_tool_calling := native_tool_calling c;
     reasoning_effort := reasoning_effort c; seed := seed c; safety_settings := safety_settings c;
     completion_kwargs := completion_kwargs c; other_fields := other_fields c |}.
Definition with_limits (p : float) (input output : option Z) (c : LLMConfig) : LLMConfig :=
  {| model := model c; api_key := api_key c; base_url := base_url c; api_version := api_version c; aws_access_key_id := aws_access_key_id c;
     aws_secret_access_key := aws_secret_access_key c; aws_region_name := aws_region_name c; num_retries := num_retries c;
     timeout := timeout c; temperature := temperature c; top_p := p; top_k := top_k c; custom_llm_provider := custom_llm_provider c;
     max_input_tokens := input; max_output_tokens := output; input_cost_per_token := input_cost_per_token c;
     output_cost_per_token := output_cost_per_token c; drop_params := drop_params c; disable_vision := disable_vision c;
     disable_stop_word := disable_stop_word c; caching_prompt := caching_prompt c; native_tool_calling := native_tool_calling c;
     reasoning_effort := reasoning_effort c; seed := seed c; safety_settings := safety_settings c;
     completion_kwargs := completion_kwargs c; other_fields := other_fields c |}.

Definition in_model (s : string) (c : LLMConfig) : bool := contains s (model c).
Definition in_lower_model (s : string) (c : LLMConfig) : bool := contains s (lower (model c)).
Definition removeprefix (p s : string) : string := if startswith p s then sdrop (slen p) s else s.

(** ** Information about the model *)

(** [for info in l] *)
Definition iterate (v : pyval) : res (list pyval) :=
  match v with
  | VNone | VBool _ | VInt _ | VFloat _ => Raise (TypeError ("'" +:+ type_name v +:+ "' object is not iterable"))
  | v => sequence v
  end.
Fixpoint find_model (name : string) (l : list pyval) : res (option pyval) :=
  match l with
  | [] => Ok None
  | info :: l => n <-! item info "model_name" ;; if py_eq n (VStr name) then Ok (Some info) else find_model name l
  end.
(** An [isinstance(v[k], int)] entry *)
Definition int_item (v : pyval) (k : string) : res (option Z) :=
  b <-! has_key v k ;;
  if (b : bool) then x <-! item v k ;; Ok (match x with VInt z => Some z | VBool t => Some (bool_Z t) | _ => None end) else Ok None.
Definition SONNET_MODELS : list string :=
  ["claude-3-7-sonnet"; "claude-3.7-sonnet"; "claude-sonnet-4"; "claude-sonnet-4-5-20250929"; "claude-haiku-4-5-20251001"].

Section info.
Context (get_model_info : string -> option pyval) (http_get : string -> string -> res (res pyval)).

Definition proxy_info (c : LLMConfig) (info : pyval) : res pyval :=
  if negb (startswith "litellm_proxy/" (model c)) then Ok info else
  let url := strip (default "" (base_url c)) in
  let url := if startswith "http://" url || startswith "https://" url then url else "http://" +:+ url in
  let key := match api_key c with Some (String _ _ as k) => k | _ => "None" end in
  response <-! http_get (url +:+ "/v1/model/info") ("Bearer " +:+ key) ;;
  l <-! iterate (match response with Ok (VDict d) => default (VList []) (dget d "data") | _ => VList [] end) ;;
  found <-! find_model (removeprefix "litellm_proxy/" (model c)) l ;;
  match found with Some i => if truth i then item i "model_info" else Ok info | None => Ok info end.
Definition or_info (name : string) (info : pyval) : pyval := if truth info then info else default info (get_model_info name).
Definition find_info (c : LLMConfig) : res pyval :=
  let info := if startswith "openrouter" (model c) then default VNone (get_model_info (model c)) else VNone in
  info <-! proxy_info c info ;;
  Ok (or_info (List.last (split_char slash (model c)) "") (or_info (List.hd "" (split_char ":" (model c))) info)).
Definition is_none (v : pyval) : bool := match v with VNone => true | _ => false end.
Definition output_limit (c : LLMConfig) (info : pyval) : res (option Z) :=
  if existsb (fun m => in_model m c) SONNET_MODELS then Ok (Some 64000)
  else if is_none info then Ok None
  else
    a <-! int_item info "max_output_tokens" ;;
    match a with Some z => Ok (Some z) | None => int_item info "max_tokens" end.
(** [init_model_info]: the configuration with its gaps filled, the information found,
    and whether the model takes tools itself *)
Definition init_model_info (c : LLMConfig) : res (LLMConfig * pyval * bool) :=
  info <-! find_info c ;;
  let p := if startswith "huggingface" (model c) && feq (top_p c) f1 then float_lit 9 1 else top_p c in
  input <-! match max_input_tokens c with
            | Some z => Ok (Some z)
            | None => if is_none info then Ok None else int_item info "max_input_tokens"
            end ;;
  output <-! match max_output_tokens c with Some z => Ok (Some z) | None => output_limit c info end ;;
  Ok (with_limits p input output c, info,
      match native_tool_calling c with Some b => b | None => supports_function_calling (get_features (model c)) end).

(** ** The arguments of every request *)

Definition reasoning (c : LLMConfig) (d : dict string pyval) : dict string pyval :=
  let effort d := match reasoning_effort c with Some e => dset d "reasoning_effort" (VStr e) | None => d end in
  if negb (supports_reasoning_effort (get_features (model c))) then d else
  let d :=
    if in_model "gemini-2.5-pro" c then
      match reasoning_effort c with
      | Some e => if String.eqb e "low" || String.eqb e "none"
                  then dset (dset d "thinking" (VDict [("budget_tokens", VInt 128)])) "allowed_openai_params" (VList [VStr "thinking"])
                  else dset d "reasoning_effort" (VStr e)
      | None => dset (dset d "thinking" (VDict [("budget_tokens", VInt 128)])) "allowed_openai_params" (VList [VStr "thinking"])
      end
    else if existsb (fun m => in_model m c) ["claude-sonnet-4-5"; "claude-haiku-4-5-20251001"; "claude-opus-4-6"] then ddel d "reasoning_effort"
    else effort d in
  ddel (ddel d "temperature") "top_p".
Definition for_azure (c : LLMConfig) (d : dict string pyval) : dict string pyval :=
  if startswith "azure" (model c) then ddel (dset d "max_tokens" (opt VInt (max_output_tokens c))) "max_completion_tokens" else d.
Definition with_safety (c : LLMConfig) (d : dict string pyval) : dict string pyval :=
  match safety_settings c with
  | Some (_ :: _ as l) =>
      if in_lower_model "mistral" c || in_lower_model "gemini" c
      then dset d "safety_settings" (VList (map (fun s => VDict (map (fun kv => (kv.1, VStr kv.2)) s)) l)) else d
  | _ => d
  end.
Definition filled_key (k : string) (o : option string) (d : dict string pyval) : dict string pyval :=
  match o with Some (String _ _ as s) => dset d k (VStr s) | _ => d end.
Definition with_aws (c : LLMConfig) (d : dict string pyval) : dict string pyval :=
  filled_key "aws_secret_access_key" (aws_secret_access_key c)
    (filled_key "aws_access_key_id" (aws_access_key_id c) (dset d "aws_region_name" (opt VStr (aws_region_name c)))).
Definition ONE_SAMPLING_PARAMETER : list string := ["claude-opus-4-1"; "claude-opus-4-5"; "claude-opus-4-6"; "claude-sonnet-4"].
Definition for_claude (c : LLMConfig) (d : dict string pyval) : dict string pyval :=
  let d := if in_lower_model "claude-opus-4-1" c then dset d "thinking" (VDict [("type", VStr "disabled")]) else d in
  if existsb (fun m => in_lower_model m c) ONE_SAMPLING_PARAMETER && dmem d "temperature" && dmem d "top_p" then ddel d "top_p" else d.

Definition base_kwargs (c : LLMConfig) : dict string pyval :=
  let d := [("temperature", VFloat (temperature c)); ("max_completion_tokens", opt VInt (max_output_tokens c))] in
  let d := match top_k c with Some k => dset d "top_k" (VFloat k) | None => d end in
  dset d "top_p" (VFloat (top_p c)).
Definition model_kwargs (c : LLMConfig) : dict string pyval :=
  for_claude c (with_aws c (with_safety c (for_azure c (reasoning c (base_kwargs c))))).
Definition fixed_kwargs (c : LLMConfig) : dict string pyval :=
  [("model", VStr (model c)); ("api_key", match api_key c with Some (String _ _ as k) => VStr k | _ => VNone end);
   ("base_url", opt VStr (base_url c)); ("api_version", opt VStr (api_version c)); ("custom_llm_provider", opt VStr (custom_llm_provider c));
   ("timeout", opt VInt (timeout c)); ("drop_params", VBool (drop_params c)); ("seed", opt VInt (seed c))].
(** [partial(litellm_completion, model=..., ..., **kwargs)] *)
Definition completion_kwargs_of (c : LLMConfig) : res (dict string pyval) :=
  let kwargs := match completion_kwargs c with Some e => dupdate (model_kwargs c) e | None => model_kwargs c end in
  match List.find (fun k => dmem kwargs k) (dkeys (fixed_kwargs c)) with
  | Some k => Raise (TypeError ("functools.partial() got multiple values for keyword argument '" +:+ k +:+ "'"))
  | None => Ok (fixed_kwargs c ++ kwargs)
  end.
End info.

(** ** An [LLM] *)

(** [metrics] and [cost_metric_supported] are the state of its [Account]. *)
Record LLM := {
  config : LLMConfig; service_id : string; model_info : pyval; function_calling_active : bool; partial_kwargs : dict string pyval;
}.
Record Account := { cost_metric_supported : bool; metrics : Metrics }.
Definition with_metrics (m : Metrics) (a : Account) : Account := {| cost_metric_supported := cost_metric_supported a; metrics := m |}.

(** [_get_openhands_llm_base_url] *)
Definition _get_openhands_llm_base_url (getenv : string -> option string) : string :=
  match getenv "LITE_LLM_API_URL" with
  | Some (String _ _ as url) => url
  | _ => match getenv "WEB_HOST" with
         | Some (String _ _ as host) => if contains ".staging." host || startswith "staging" host
                                        then "https://llm-proxy.staging.all-hands.dev/" else "https://llm-proxy.app.all-hands.dev/"
         | _ => "https://llm-proxy.app.all-hands.dev/"
         end
  end.
Definition for_proxy (getenv : string -> option string) (c : LLMConfig) : LLMConfig :=
  if startswith "openhands/" (model c)
  then with_model ("litellm_proxy/" +:+ removeprefix "openhands/" (model c)) (Some (_get_openhands_llm_base_url getenv)) c else c.
(** The constructor *)
Definition new_llm (getenv : string -> option string) (get_model_info : string -> option pyval) (http_get : string -> string -> res (res pyval))
    (c : LLMConfig) (service_id : string) : res LLM :=
  found <-! init_model_info get_model_info http_get c ;;
  let c := for_proxy getenv found.1.1 in
  kwargs <-! completion_kwargs_of c ;;
  Ok {| config := c; service_id := service_id; model_info := found.1.2; function_calling_active := found.2; partial_kwargs := kwargs |}.
Definition new_account (c : LLMConfig) : Account := {| cost_metric_supported := true; metrics := new_metrics (model c) |}.

Section llm.
Context (getenv : string -> option string) (supports_vision : string -> bool) (l : LLM).

Definition _supports_vision : res bool :=
  if bool_decide (lower (default "" (getenv "OPENHANDS_FORCE_VISION")) ∈ ["1"; "true"; "yes"; "on"]) then Ok true
  else if supports_vision (model (config l)) || supports_vision (List.last (split_char slash (model (config l))) "") then Ok true
  else if is_none (model_info l) then Ok false
  else v <-! get_or (model_info l) "supports_vision" (VBool false) ;; Ok (truth v).
Definition vision_is_active : res bool :=
  match disable_vision (config l) with Some true => Ok false | _ => _supports_vision end.
Definition is_caching_prompt_active : bool :=
  caching_prompt (config l) && supports_prompt_cache (get_features (model (config l))).

(** *** Messages *)

Definition FORCE_STRING_MODELS : list string :=
  ["openrouter/anthropic/claude-sonnet-4"; "openrouter/anthropic/claude-opus-4-6"; "openrouter/anthropic/claude-sonnet-4-5-20250929";
   "openrouter/anthropic/claude-haiku-4-5-20251001"].
Definition forces_string : bool :=
  in_model "deepseek" (config l) || (in_model "kimi-k2-instruct" (config l) && in_model "groq" (config l))
  || existsb (fun m => in_model m (config l)) FORCE_STRING_MODELS.
Definition flagged (vision : bool) (m : Message) : Message :=
  {| role := role m; content := content m; cache_enabled := is_caching_prompt_active; vision_enabled := vision;
     function_calling_enabled := function_calling_active l; tool_calls := tool_calls m; Message.tool_call_id := Message.tool_call_id m;
     name := name m; force_string_serializer := force_string_serializer m || forces_string |}.
Definition format_messages_for_llm (messages : list Message) : res (list (dict string pyval)) :=
  match messages with
  | [] => Ok []
  | _ => vision <-! vision_is_active ;; FnCall.traverse (fun m => serialize_model (flagged vision m)) messages
  end.

(** *** Tools in the text *)

(** What the converter reads of a tool *)
Definition dec_opt {A} (f : pyval -> option A) (o : option pyval) : option (option A) :=
  match o with Some v => Some <$> f v | None => Some None end.
Definition read_param (v : pyval) : option ParamInfo :=
  d ← dec_dict v;
  description ← dec_opt dec_str (dget d "description");
  enum ← dec_opt (fun v => match v with VList l => Some l | _ => None end) (dget d "enum");
  Some {| p_type := dget d "type"; p_description := description; p_enum := enum |}.
Definition read_parameters (v : pyval) : option Parameters :=
  d ← dec_dict v;
  props ← dec_opt (fun v => d ← dec_dict v; mapM (fun kv => pair kv.1 <$> read_param kv.2) d) (dget d "properties");
  required ← dec_opt dec_strs (dget d "required");
  Some {| properties := props; FnCall.required := required |}.
Definition read_tool (v : pyval) : option Tool :=
  d ← dec_dict v; type ← dget d "type"; type ← dec_str type;
  f ← dget d "function"; f ← dec_dict f; name ← dget f "name"; name ← dec_str name;
  description ← dec_opt dec_str (dget f "description");
  parameters ← dec_opt read_parameters (dget f "parameters");
  Some {| tool_type := type; fn_name := name; fn_description := description; fn_parameters := parameters |}.
Definition read_tools (l : list pyval) : res (list Tool) := match mapM read_tool l with Some t => Ok t | None => Raise ill_typed end.

(** *** The request *)

(** The keyword arguments of a completion: the messages, the tools and the rest *)
Inductive Messages := Typed (l : list Message) | Dicts (l : list (dict string pyval)).
Record Arguments := { messages : Messages; tools : option (list pyval); others : dict string pyval }.
Definition with_others (d : dict string pyval) (c : Arguments) : Arguments := {| messages := messages c; tools := tools c; others := d |}.
Record Prepared := { sent_messages : list (dict string pyval); mock_fncall_tools : option (list Tool); request : dict string pyval }.

Definition STOP_WORDS : list pyval := [VStr "</function"].
Definition dicts (ms : Messages) : res (list (dict string pyval)) :=
  match ms with Typed l => format_messages_for_llm l | Dicts l => Ok l end.
Definition wants_examples : bool := negb (in_model "openhands-lm" (config l) || in_model "devstral" (config l)).
(** Stop words go into the request, and no choice of a tool. *)
Definition mock_kwargs (d : dict string pyval) : dict string pyval :=
  let d := if supports_stop_words (get_features (model (config l))) && negb (default false (disable_stop_word (config l)))
           then dset d "stop" (VList STOP_WORDS) else d in
  if in_model "openhands-lm" (config l) then dset d "tool_choice" (VStr "none") else ddel d "tool_choice".
Definition without_extra_body (d : dict string pyval) : dict string pyval :=
  if in_model "litellm_proxy" (config l) then d else ddel d "extra_body".
Definition messages_value (l : list (dict string pyval)) : pyval := VList (map VDict l).
Definition prepare (windows : bool) (c : Arguments) : res Prepared :=
  ms <-! dicts (messages c) ;;
  p <-! match tools c with
        | Some ts =>
            if function_calling_active l
            then Ok {| sent_messages := ms; mock_fncall_tools := None; request := dset (others c) "tools" (VList ts) |}
            else
              ts <-! read_tools ts ;;
              ms <-! convert_fncall_messages_to_non_fncall_messages windows ms ts wants_examples ;;
              Ok {| sent_messages := ms; mock_fncall_tools := Some ts; request := mock_kwargs (others c) |}
        | None => Ok {| sent_messages := ms; mock_fncall_tools := None; request := others c |}
        end ;;
  match sent_messages p with
  | [] => Raise (ValueError "The messages list is empty. At least one message is required.")
  | ms => Ok {| sent_messages := ms; mock_fncall_tools := mock_fncall_tools p;
                request := dupdate (partial_kwargs l) (dset (without_extra_body (request p)) "messages" (messages_value ms)) |}
  end.

(** *** The response *)

Record Usage := { in_tokens : Z; out_tokens : Z; cached_tokens : option Z; cache_creation_input_tokens : Z }.
(** [Msg] is litellm's [Message], which reads like the dictionary [as_dict] and is
    built from one by [of_dict]. *)
Context {Msg : Type} (as_dict : Msg -> dict string pyval) (of_dict : dict string pyval -> res Msg).
Record Response := { response_id : string; choices : list Msg; response_usage : option Usage; response_cost : option pyval }.
Definition with_choices (cs : list Msg) (r : Response) : Response :=
  {| response_id := response_id r; choices := cs; response_usage := response_usage r; response_cost := response_cost r |}.

Context (windows : bool) (repr_set : list string -> string) (str_response : Response -> string).
Context `{Validator} (litellm_cost : option string -> option (float * float) -> Response -> res float).
Context {W : Type} (litellm_completion : dict string pyval -> W -> res Response * W) (time : W -> float * W).
Context (is_a : exn -> string -> bool) (should_exit : W -> bool * W) (on_retry : Z -> Z -> W -> W).

Definition no_response {A} (r : Response) : res A :=
  Raise (OtherError "LLMNoResponseError"
    ("Response choices is less than 1 - This is only seen in Gemini models so far. Response: " +:+ str_response r)).
(** The calls in the text of the answer, which is converted with the whole conversation *)
Definition read_answer (p : Prepared) (r : Response) : res Response :=
  match mock_fncall_tools p with
  | None => match choices r with [] => no_response r | _ => Ok r end
  | Some ts =>
      match choices r with
      | [] => no_response r
      | m :: cs =>
          outs <-! convert_non_fncall_messages_to_fncall_messages windows repr_set (sent_messages p ++ [as_dict m]) ts ;;
          m <-! of_dict (List.last outs []) ;;
          Ok (with_choices (m :: cs) r)
      end
  end.

(** *** Its price *)

Definition on_world {A} (f : W -> A * W) : M (W * Account) A := fun s => let '(a, w) := f s.1 in (Ok a, (w, s.2)).
Definition on_metrics (f : Metrics -> res Metrics) : M (W * Account) unit := fun s =>
  match f (metrics s.2) with Ok m => (Ok tt, (s.1, with_metrics m s.2)) | Raise e => (Raise e, s) end.
Definition unsupported : M (W * Account) unit := modifyM (fun s => (s.1, {| cost_metric_supported := false; metrics := metrics s.2 |})).
Definition custom_cost : option (float * float) :=
  match input_cost_per_token (config l), output_cost_per_token (config l) with Some a, Some b => Some (a, b) | _, _ => None end.
(** The price: as the proxy says, else litellm's, else litellm's for the name
    without its provider *)
Definition price (r : Response) (header : option float) : res float :=
  match header with
  | Some x => Ok x
  | None => match litellm_cost None custom_cost r with
            | Ok x => Ok x
            | Raise _ => litellm_cost (Some (join "/" (List.tl (split_char slash (model (config l)))))) custom_cost r
            end
  end.
(** What fails in working out or recording the price turns cost tracking off for
    good; a header that is no number is an error of the caller's. *)
Definition _completion_cost (r : Response) : M (W * Account) float := fun s =>
  if negb (cost_metric_supported s.2) then (Ok f0, s) else
  match match response_cost r with Some v => x <-! py_float v ;; Ok (Some x) | None => Ok None end with
  | Raise e => (Raise e, s)
  | Ok header =>
      match price r header with
      | Raise _ => (Ok f0, (unsupported s).2)
      | Ok x => let '(now, w) := time s.1 in
                match add_cost now x (metrics s.2) with
                | Ok m => (Ok x, (w, with_metrics m s.2))
                | Raise _ => (Ok f0, (unsupported s).2)
                end
      end
  end.
Definition window : res Z :=
  b <-! (if truth (model_info l) then has_key (model_info l) "max_input_tokens" else Ok false) ;;
  if (b : bool) then v <-! item (model_info l) "max_input_tokens" ;; as_int v else Ok 0.
Definition record_usage (r : Response) : M (W * Account) unit :=
  match response_usage r with
  | None => retM tt
  | Some u =>
      w <- liftM window ;;
      on_metrics (fun m => Ok (add_token_usage (in_tokens u) (out_tokens u) (default 0 (cached_tokens u)) (cache_creation_input_tokens u)
                                 w (response_id r) m))
  end.
(** [_post_completion]; the text of the statistics is only logged. *)
Definition _post_completion (r : Response) : M (W * Account) float := fun s =>
  let '(cost, s) := match _completion_cost r s with (Ok x, s) => (x, s) | (Raise _, s) => (f0, s) end in
  (record_usage r ;;; retM cost) s.

(** *** One attempt, and the next *)

Definition attempt (c : Arguments) : M (W * Account) Response :=
  p <- liftM (prepare windows c) ;;
  start <- on_world time ;;
  answered <- (fun s => let '(r, w) := litellm_completion (request p) s.1 in (r, (w, s.2))) ;;
  stop <- on_world time ;;
  on_metrics (fun m => Ok (add_response_latency (fsub stop start) (response_id answered) m)) ;;;
  answered <- liftM (read_answer p answered) ;;
  _post_completion answered ;;;
  retM answered.

Definition LLM_RETRY_EXCEPTIONS : list string :=
  ["APIConnectionError"; "RateLimitError"; "ServiceUnavailableError"; "BadGatewayError"; "Timeout"; "InternalServerError"; "LLMNoResponseError"].
(** [before_sleep]: after an answer without choices, the next attempt is made at a
    temperature of one unless the caller gave another than zero. *)
Definition next_call (e : exn) (c : Arguments) : Arguments :=
  if is_a e "LLMNoResponseError" && py_eq (default (VInt 0) (dget (others c) "temperature")) (VInt 0)
  then with_others (dset (others c) "temperature" (VFloat f1)) c else c.
(** [n] is the number of attempts before this one, [more] of those still allowed after it. *)
Fixpoint attempts (more : nat) (n : Z) (c : Arguments) : M (W * Account) Response := fun s =>
  match attempt c s with
  | (Ok r, s) => (Ok r, s)
  | (Raise e, s) =>
      if negb (existsb (is_a e) LLM_RETRY_EXCEPTIONS) then (Raise e, s) else
      match more with
      | O => (Raise e, s)
      | S more => let '(exit, w) := should_exit s.1 in
                  if exit then (Raise e, (w, s.2))
                  else attempts more (n + 1) (next_call e c) (on_retry (n + 1) (num_retries (config l)) w, s.2)
      end
  end.
(** [completion] *)
Definition completion (c : Arguments) : M (W * Account) Response := attempts (Z.to_nat (num_retries (config l) - 1)) 0 c.

(** [get_token_count] *)
Definition get_token_count (token_counter : string -> list (dict string pyval) -> option Z) (ms : Messages) : res Z :=
  ds <-! dicts ms ;; Ok (default 0 (token_counter (model (config l)) ds)).
Definition _is_local : bool :=
  match base_url (config l) with
  | Some url => existsb (fun s => contains s url) ["localhost"; "127.0.0.1"; "0.0.0.0"]
  | None => startswith "ollama" (model (config l))
  end.
Definition llm_str : string :=
  let with_url := match base_url (config l) with Some (String _ _ as u) => ", base_url=" +:+ u | _ => "" end in
  match api_version (config l) with
  | Some (String _ _ as v) => "LLM(model=" +:+ model (config l) +:+ ", api_version=" +:+ v +:+ ", base_url=" +:+ default "None" (base_url (config l)) +:+ ")"
  | _ => "LLM(model=" +:+ model (config l) +:+ with_url +:+ ")"
  end.
End llm.
