(* ===== verification/LlmSpec.v ===== *)
(** * What a completion promises

    [mocked_call_is_read]: to a model without function calling the tools and calls
    go as text, and the call that it writes, with or without the end that the stop
    word cuts off, comes back as the message that a model with function calling
    would have answered.  [completion_is_accounted]: what a completion leaves in the
    metrics, whatever comes of it. *)

From S2P Require Import Prelude PyStr PyDict PyFloat PyVal PyRegex RegexFind Message FnCall FnCallRoundtrip CodeAct ModelFeatures Metrics.
From S2P Require Import Serialization Llm.
From Stdlib Require Import Ascii.

(** ** Calls in the text *)

Definition calls_made (l : list FnCallRoundtrip.entry) : Z := foldl calls_after 1 l.

Section conversation.
Context (windows : bool) (repr_set : list string -> string) (tools : list Tool) (suffix : string).

Lemma conversation_then m out st l : forall done counter first, conversation_ok tools suffix first l ->
  convert_non_fncall_message windows repr_set tools suffix (foldl calls_after counter l, foldl met_user first l) m = Ok (out, st) ->
  exists txt, convert_fncall_from windows tools suffix true done first (entry_messages counter l) = Ok txt /\ length txt = length l /\
              convert_non_fncall_from windows repr_set tools suffix (counter, first) (txt ++ [m]) = Ok (entry_messages counter l ++ [out]).
Proof.
  induction l as [|e l IH]; intros done counter first.
  - intros _ E. exists []. split_and!; [done..|]. cbn [app convert_non_fncall_from foldl entry_messages] in *. by rewrite E.
  - intros [He Hl] E. cbn [entry_messages foldl] in *.
    destruct (entry_roundtrip windows repr_set tools suffix counter first e He (done ++ entry_message counter e :: entry_messages (calls_after counter e) l))
      as (txt & left & E1 & E2).
    destruct (IH (done ++ [left]) (calls_after counter e) _ Hl E) as (txts & E3 & Hlen & E4). exists (txt :: txts).
    cbn [convert_fncall_from convert_non_fncall_from app]. rewrite E1. cbn [rbind fst snd]. rewrite E3, E2. cbn [rbind fst snd length].
    rewrite E4, Hlen. done.
Qed.

(** What is sent: messages with a text and nothing else, the description of the tools at
    the end of every system message. *)
Definition text_only (m : dict string pyval) : Prop := exists r c, m = [("role", VStr r); ("content", c)] /\ r ∈ ["system"; "user"; "assistant"].
Lemma converted_text raw first m out left first' : convert_fncall_message windows tools suffix true raw first m = Ok (out, left, first') -> text_only out.
Proof.
  unfold convert_fncall_message, text_only. destruct (FnCall.get m "role") as [role|]; [|done]. destruct (FnCall.get m "content") as [content|]; [|done].
  cbn [rbind]. destruct (py_eq role (VStr "system")).
  { destruct (system_content _ _); [|done]. intros [= <- _ _]. do 2 eexists. split; [done|set_solver]. }
  destruct (py_eq role (VStr "user")).
  { destruct (negb first && true); [destruct (IN_CONTEXT_LEARNING_EXAMPLE_PREFIX windows tools)|].
    - intros [= <- _ _]. do 2 eexists. split; [done|set_solver].
    - destruct (first_user_content _ _); [|done]. intros [= <- _ _]. do 2 eexists. split; [done|set_solver].
    - intros [= <- _ _]. do 2 eexists. split; [done|set_solver]. }
  destruct (py_eq role (VStr "assistant")).
  { destruct (convert_assistant _ _ _); [|done]. intros [= <- _ _]. do 2 eexists. split; [done|set_solver]. }
  destruct (py_eq role (VStr "tool")); [|done].
  destruct (tool_content _ _ _); [|done]. intros [= <- _ _]. do 2 eexists. split; [done|set_solver].
Qed.
Lemma sent_as_text l : forall done counter first txt, convert_fncall_from windows tools suffix true done first (entry_messages counter l) = Ok txt ->
  Forall text_only txt /\ forall i s, l !! i = Some (System s) -> txt !! i = Some (said "system" (s +:+ suffix)).
Proof.
  induction l as [|e l IH]; intros done counter first txt; cbn [entry_messages convert_fncall_from]; [by intros [= <-]|].
  destruct (convert_fncall_message _ _ _ _ _ _ _) as [[[out left] first']|] eqn:E; [|done]. cbn [rbind fst snd].
  destruct (convert_fncall_from _ _ _ _ _ _ _) as [txts|] eqn:Es; [|done]. cbn [rbind]. intros [= <-].
  destruct (IH _ _ _ _ Es) as [Ht Hs]. split; [constructor; [by eapply converted_text|done]|].
  intros [|i] s; cbn [lookup list_lookup]; [|apply Hs]. intros [= ->]. by injection E as <- _ _.
Qed.

(** The text of a call, whole or without its end *)
Definition called (cut : bool) (s name : string) (kxs : list (string * string)) : string :=
  lead s +:+ (if cut then open_call name kxs else call_text name kxs).
Lemma body_ends kxs : kxs <> [] -> exists u, body kxs = u +:+ newline.
Proof.
  induction kxs as [|kx kxs IH]; [done|]. intros _. cbn [body]. destruct kxs as [|kx' kxs].
  - exists ("<parameter=" +:+ kx.1 +:+ ">" +:+ kx.2 +:+ "</parameter>"). unfold block. cbn [body]. by rewrite sapp_nil_r, !sapp_assoc.
  - destruct IH as [u E]; [done|]. exists (block kx +:+ u). by rewrite E, sapp_assoc.
Qed.
Lemma open_call_ends name kxs : exists u, open_call name kxs = u +:+ newline.
Proof.
  unfold open_call. destruct kxs as [|kx kxs].
  - exists ("<function=" +:+ name +:+ ">"). cbn [body]. by rewrite sapp_nil_r, !sapp_assoc.
  - destruct (body_ends (kx :: kxs)) as [u E]; [done|]. exists ("<function=" +:+ name +:+ ">" +:+ newline +:+ u). by rewrite E, !sapp_assoc.
Qed.
Lemma cut_restored s name kxs : contains "<function=" s = false ->
  contains "<function=" (name +:+ ">" +:+ newline +:+ body kxs) = false ->
  _fix_stopword (lead s +:+ open_call name kxs) = lead s +:+ open_call name kxs +:+ newline +:+ "</function>" +:+ "".
Proof.
  intros Hs Hb. unfold _fix_stopword, occurs_once.
  pose proof (clear_lead s name kxs "" Hs) as Hc. rewrite sapp_nil_r in Hc.
  unfold open_call in Hc. pose proof (split_once_clear "<function=" (lead s) _ Hc) as E. unfold open_call at 1. rewrite E, Hb. cbn [negb].
  destruct (endswith _ "</") eqn:Ee; [|by rewrite !sapp_assoc, sapp_nil_r].
  exfalso. apply endswith_spec in Ee as (u & Ee). destruct (open_call_ends name kxs) as [v Ev]. rewrite Ev in Ee.
  change "</" with ("<" +:+ "/") in Ee. rewrite <- !sapp_assoc in Ee. apply (f_equal slen) in Ee as Hl. rewrite !slen_app in Hl.
  apply sapp_inj_len in Ee as [_ Ee]; [done|]. rewrite !slen_app. cbn [String.length newline] in *. lia.
Qed.

Lemma answer_is_read counter first m s name args t xs (cut : bool) : stripped s -> contains "<function=" s = false ->
  name <> "" -> sall (fun c => negb (is_c 62 c)) name = true -> declared tools name = Some t -> Forall2 (arg_ok t) args xs ->
  NoDup (map fst args) -> (forall k, k ∈ required_params t -> k ∈ map fst args) ->
  (cut = true -> contains "<function=" (name +:+ ">" +:+ newline +:+ body (arg_caps args xs)) = false) ->
  dget m "role" = Some (VStr "assistant") -> dget m "content" = Some (VStr (called cut s name (arg_caps args xs))) ->
  convert_non_fncall_message windows repr_set tools suffix (counter, first) m = Ok (entry_message counter (Call s name args), (counter + 1, first)).
Proof.
  intros Hs Hc Hne Hgt Ht Ha Hnd Hreq Hcut Hr Hm. unfold convert_non_fncall_message, FnCall.get. rewrite Hr, Hm. cbn [rbind]. rewrite kept.
  change (py_eq (VStr "assistant") (VStr "system")) with false. change (py_eq (VStr "assistant") (VStr "user")) with false.
  change (py_eq (VStr "assistant") (VStr "assistant")) with true. cbv iota.
  assert (assistant_message repr_set tools counter m (VStr (called cut s name (arg_caps args xs))) =
          Ok (entry_message counter (Call s name args), counter + 1)) as ->; [|done].
  unfold called. destruct cut.
  - apply (call_read repr_set tools _ m s name args t xs _ newline ""); auto. by apply cut_restored; auto.
  - destruct (fix_stopword_tail (lead s +:+ open_call name (arg_caps args xs))) as [tail E]. rewrite !sapp_assoc in E. unfold call_text.
    by apply (call_read repr_set tools _ m s name args t xs _ "" tail); auto.
Qed.
End conversation.

Section mocked.
Context (getenv : string -> option string) (supports_vision : string -> bool) (l : LLM).
Context {Msg : Type} (as_dict : Msg -> dict string pyval) (of_dict : dict string pyval -> res Msg).
Context (windows : bool) (repr_set : list string -> string) (str_response : Response (Msg := Msg) -> string).

Lemma kwargs_dwf d : dwf d -> dwf (without_extra_body l (mock_kwargs l d)).
Proof.
  intros Hd. unfold without_extra_body, mock_kwargs. destruct (_ && _), (in_model "openhands-lm" _), (in_model "litellm_proxy" _);
    auto using dwf_dset, dwf_ddel.
Qed.
Lemma no_tools_sent d v : dwf d -> dget d "tools" = None -> dget (partial_kwargs l) "tools" = None ->
  dget (dupdate (partial_kwargs l) (dset (without_extra_body l (mock_kwargs l d)) "messages" v)) "tools" = None.
Proof.
  intros Hw Hd Hp. rewrite dget_dupdate by auto using dwf_dset, kwargs_dwf. rewrite dget_dset_ne by done. unfold without_extra_body, mock_kwargs.
  assert (forall x : dict string pyval, dget (if in_model "litellm_proxy" (config l) then x else ddel x "extra_body") "tools" = dget x "tools") as ->
    by (intros x; destruct (in_model _ _); [done|by rewrite dget_ddel_ne]).
  assert (forall x : dict string pyval, dget (if in_model "openhands-lm" (config l) then dset x "tool_choice" (VStr "none") else ddel x "tool_choice") "tools"
          = dget x "tools") as -> by (intros x; destruct (in_model _ _); [by rewrite dget_dset_ne|by rewrite dget_ddel_ne]).
  destruct (_ && _); [rewrite dget_dset_ne by done|]; by rewrite Hd.
Qed.
Lemma messages_sent (d : dict string pyval) v : dwf d -> dget (dupdate (partial_kwargs l) (dset d "messages" v)) "messages" = Some v.
Proof. intros Hd. rewrite dget_dupdate by (by apply dwf_dset). by rewrite dget_dset_eq. Qed.

End mocked.

Definition text_model : LLMConfig :=
  {| model := "mistral-large"; api_key := None; base_url := None; api_version := None; aws_access_key_id := None; aws_secret_access_key := None;
     aws_region_name := None; num_retries := 5; timeout := None; temperature := f0; top_p := f1; top_k := None; custom_llm_provider := None;
     max_input_tokens := None; max_output_tokens := None; input_cost_per_token := None; output_cost_per_token := None; drop_params := true;
     disable_vision := None; disable_stop_word := Some false; caching_prompt := true; native_tool_calling := None; reasoning_effort := None;
     seed := None; safety_settings := None; completion_kwargs := None; other_fields := [] |}.
Definition text_llm : LLM :=
  {| config := text_model; service_id := "agent"; model_info := VNone; function_calling_active := false; partial_kwargs := [] |}.
Definition bash_value : pyval :=
  VDict [("type", VStr "function");
         ("function", VDict
           [("name", VStr "execute_bash"); ("description", VStr "Run a command.");
            ("parameters", VDict
              [("type", VStr "object");
               ("properties", VDict
                 [("command", VDict [("type", VStr "string"); ("description", VStr "The command")]);
                  ("timeout", VDict [("type", VStr "integer"); ("enum", VList [VInt 5; VInt 60])])]);
               ("required", VList [VStr "command"])])])].
Definition first_turn : list FnCallRoundtrip.entry := [System "You are a helpful agent."; User "How many files are here?"].
Definition counting : Arguments := {| messages := Dicts (entry_messages 1 first_turn); Llm.tools := Some [bash_value]; others := [] |}.
Definition cut_answer : dict string pyval :=
  [("role", VStr "assistant"); ("content", VStr (called true "Let me look." "execute_bash" [("command", "ls -1")]))].
Definition one_answer (m : dict string pyval) (u : option Usage) : Response :=
  {| response_id := "r1"; choices := [m]; response_usage := u; response_cost := None |}.

(** ** The account *)

Lemma record_all_app a : forall b m m1 m2, record_all a m = Ok m1 -> record_all b m1 = Ok m2 -> record_all (a ++ b) m = Ok m2.
Proof.
  induction a as [|e a IH]; intros b m m1 m2; cbn [record_all app]; [by intros [= <-]|].
  destruct (record e m) as [m'|]; cbn [rbind]; [|done]. apply IH.
Qed.
Definition is_took (e : charge) : Prop := match e with Took _ _ => True | _ => False end.
(** At most one price, which is not negative. *)
Definition priced (l : list charge) : Prop := l = [] \/ exists now x, l = [Spent now x] /\ flt x f0 = false.

Section account.
Context (getenv : string -> option string) (supports_vision : string -> bool) (l : LLM).
Context {Msg : Type} (as_dict : Msg -> dict string pyval) (of_dict : dict string pyval -> res Msg).
Context (windows : bool) (repr_set : list string -> string) (str_response : Response (Msg := Msg) -> string).
Context `{V : Validator} (litellm_cost : option string -> option (float * float) -> Response (Msg := Msg) -> res float).
Context {W : Type} (litellm_completion : dict string pyval -> W -> res (Response (Msg := Msg)) * W) (time : W -> float * W).
Context (is_a : exn -> string -> bool) (should_exit : W -> bool * W) (on_retry : Z -> Z -> W -> W).
Notation attempt := (attempt getenv supports_vision l as_dict of_dict windows repr_set str_response litellm_cost litellm_completion time).
Notation attempts := (attempts getenv supports_vision l as_dict of_dict windows repr_set str_response litellm_cost litellm_completion time
                        is_a should_exit on_retry).
Notation completion := (completion getenv supports_vision l as_dict of_dict windows repr_set str_response litellm_cost litellm_completion time
                          is_a should_exit on_retry).

(** The tokens of an answer *)
Definition used (r : Response (Msg := Msg)) (es : list charge) : Prop :=
  match response_usage r with
  | None => es = []
  | Some u => exists w, window l = Ok w /\
                es = [Used (in_tokens u) (out_tokens u) (default 0 (cached_tokens u)) (cache_creation_input_tokens u) w (response_id r)]
  end.
(** What is missing from the account is known to be: tracking is off, or the proxy
    gave a price that is no number. *)
Definition unpriced_only_if (r : Response (Msg := Msg)) (es : list charge) (a : Account) : Prop :=
  es = [] -> cost_metric_supported a = false \/ exists v e, response_cost r = Some v /\ py_float v = Raise e.

Lemma cost_recorded r w a : exists es w' a' x,
  _completion_cost l litellm_cost time r (w, a) = (x, (w', a')) /\ record_all es (metrics a) = Ok (metrics a') /\ priced es
  /\ unpriced_only_if r es a'.
Proof.
  unfold _completion_cost. cbn [fst snd]. destruct (cost_metric_supported a) eqn:Es; cbn [negb].
  2: { exists [], w, a, (Ok f0). split_and!; try done; [by left|]. intros _. by left. }
  destruct (match response_cost r with Some v => _ | None => _ end) as [header|e] eqn:Eh.
  2: { exists [], w, a, (Raise e). split_and!; try done; [by left|]. intros _. right. destruct (response_cost r) as [v|]; [|done].
       exists v. destruct (py_float v) as [|e'] eqn:E; cbn [rbind] in Eh; [done|]. by exists e'. }
  destruct (price l litellm_cost r header) as [x|e].
  2: { exists [], w, {| cost_metric_supported := false; metrics := metrics a |}, (Ok f0). split_and!; try done; [by left|]. by left. }
  destruct (time w) as [now w1]. destruct (add_cost now x (metrics a)) as [m|e] eqn:Ea.
  - exists [Spent now x], w1, (with_metrics m a), (Ok x). split_and!; try done.
    + cbn [record_all record]. by rewrite Ea.
    + right. exists now, x. split; [done|]. unfold add_cost in Ea. by destruct (flt x f0).
  - exists [], w, {| cost_metric_supported := false; metrics := metrics a |}, (Ok f0). split_and!; try done; [by left|]. by left.
Qed.

(** One attempt *)
Definition charged (r : Response (Msg := Msg)) (es : list charge) (a : Account) : Prop :=
  exists x cost tokens, es = [Took x (response_id r)] ++ cost ++ tokens /\ priced cost /\ unpriced_only_if r cost a /\ used r tokens.
Definition attempted (out : res (Response (Msg := Msg))) (es : list charge) (a : Account) : Prop :=
  match out with
  | Ok r => charged r es a
  | Raise _ => es = [] \/ exists x i cost, es = [Took x i] ++ cost /\ priced cost
  end.
Lemma attempt_charged c w a : exists es w' a' out,
  attempt c (w, a) = (out, (w', a')) /\ record_all es (metrics a) = Ok (metrics a') /\ attempted out es a'.
Proof.
  unfold Llm.attempt, bindM, liftM. destruct (prepare _ _ _ _ _) as [p|e]; [|by exists [], w, a, (Raise e); split_and!; try done; left].
  unfold on_world. cbn [fst snd]. destruct (time w) as [start w1]. cbn [fst snd].
  destruct (litellm_completion (request p) w1) as [[r|e] w2]; cbn [fst snd]; [|by exists [], w2, a, (Raise e); split_and!; try done; left].
  destruct (time w2) as [stop w3]. unfold on_metrics at 1. cbn [fst snd].
  set (a1 := with_metrics _ a).
  assert (record_all [Took (fsub stop start) (response_id r)] (metrics a) = Ok (metrics a1)) as H1 by done.
  destruct (read_answer _ _ _ _ _ p r) as [r'|e] eqn:Er; cbn [fst snd].
  2: { exists [Took (fsub stop start) (response_id r)], w3, a1, (Raise e). split_and!; try done. right. eexists _, _, []. split; [done|by left]. }
  assert (response_id r' = response_id r) as Eid.
  { unfold read_answer in Er. destruct (mock_fncall_tools p).
    - destruct (choices r) as [|m cs]; [done|]. destruct (convert_non_fncall_messages_to_fncall_messages _ _ _ _); cbn [rbind] in Er; [|done].
      destruct (of_dict _); cbn [rbind] in Er; [|done]. by injection Er as <-.
    - destruct (choices r); [done|]. by injection Er as <-. }
  unfold _post_completion. destruct (cost_recorded r' w3 a1) as (cost & w4 & a2 & x & -> & H2 & Hp & Hu).
  assert (exists y, match x with Ok z => (z, (w4, a2)) | Raise _ => (f0, (w4, a2)) end = (y, (w4, a2))) as [y ->] by (destruct x; by eexists).
  unfold bindM, record_usage. destruct (response_usage r') as [u|] eqn:Eu.
  - unfold bindM, liftM. destruct (window l) as [z|e] eqn:Ew.
    + unfold on_metrics. cbn [fst snd]. eexists _, w4, _, (Ok r'). split; [reflexivity|]. split.
      * eapply record_all_app; [exact H1|]. eapply record_all_app; [exact H2|].
        instantiate (1 := [Used (in_tokens u) (out_tokens u) (default 0 (cached_tokens u)) (cache_creation_input_tokens u) z (response_id r')]).
        reflexivity.
      * eexists _, cost, _. rewrite Eid. split; [done|]. split; [done|]. split; [exact Hu|]. unfold used. rewrite Eu. exists z. by rewrite Eid.
    + exists ([Took (fsub stop start) (response_id r)] ++ cost), w4, a2, (Raise e). split; [done|]. split; [by eapply record_all_app|].
      right. by eexists _, _, cost.
  - unfold retM. exists ([Took (fsub stop start) (response_id r)] ++ cost ++ []), w4, a2, (Ok r'). split; [done|]. split.
    + rewrite app_nil_r. by eapply record_all_app.
    + eexists _, cost, []. rewrite Eid. split; [done|]. split; [done|]. split; [done|]. unfold used. by rewrite Eu.
Qed.

(** A failed attempt takes its time, and is charged only when its tokens could not be
    recorded. *)
Definition failed (f : list charge) : Prop := f = [] \/ exists x i cost, f = [Took x i] ++ cost /\ priced cost.
(** At most [more] failed attempts, and the last one *)
Definition accounted (more : nat) (a : Account) (o : res (Response (Msg := Msg)) * (W * Account)) : Prop :=
  exists fs last, record_all (concat fs ++ last) (metrics a) = Ok (metrics o.2.2) /\ attempted o.1 last o.2.2
                  /\ (length fs <= more)%nat /\ Forall failed fs.
Lemma last_attempt more es a out w1 a1 : record_all es (metrics a) = Ok (metrics a1) -> attempted out es a1 -> accounted more a (out, (w1, a1)).
Proof. intros H Ho. exists [], es. split_and!; try done. cbn. lia. Qed.
Lemma attempts_charged more : forall n c w a, accounted more a (attempts more n c (w, a)).
Proof.
  induction more as [|more IH]; intros n c w a; cbn [Llm.attempts];
    destruct (attempt_charged c w a) as (es & w1 & a1 & out & -> & H1 & Ho); (destruct out as [r|e]; [by eapply last_attempt|]).
  - destruct (negb _); by eapply last_attempt.
  - destruct (negb _); [by eapply last_attempt|]. cbn [fst snd]. destruct (should_exit w1) as [ex w2]. destruct ex; [by eapply last_attempt|].
    destruct (IH (n + 1) (next_call is_a e c) (on_retry (n + 1) (num_retries (config l)) w2) a1) as (fs & last & H2 & Ho2 & Hlen & Hf).
    exists (es :: fs), last. split; [cbn [concat]; rewrite <- app_assoc; by eapply record_all_app|]. split; [done|]. split; [cbn; lia|]. by constructor.
Qed.

Lemma failed_consistent f m m' : failed f -> record_all f m = Ok m' -> consistent m -> consistent m'.
Proof.
  intros [-> | (x & i & cost & -> & [-> | (now & y & -> & _)])]; cbn [app record_all record]; [by intros [= <-]..|]. unfold add_cost.
  destruct (flt y f0); [done|]. by intros [= <-].
Qed.
Lemma record_all_split a : forall b m m2, record_all (a ++ b) m = Ok m2 -> exists m1, record_all a m = Ok m1 /\ record_all b m1 = Ok m2.
Proof.
  induction a as [|e a IH]; intros b m m2; cbn [record_all app]; [by eexists|].
  destruct (record e m) as [m'|]; cbn [rbind]; [|done]. apply IH.
Qed.
Lemma all_failed_consistent fs : forall m m', Forall failed fs -> record_all (concat fs) m = Ok m' -> consistent m -> consistent m'.
Proof.
  induction fs as [|f fs IH]; intros m m' H; cbn [concat]; [by intros [= <-]|]. inversion_clear H as [|? ? Hf Hfs].
  intros (m1 & H1 & H2)%record_all_split Hm. eapply IH; eauto using failed_consistent.
Qed.
Lemma charged_consistent r es a m m' : (forall z, window l = Ok z -> 0 <= z) -> charged r es a -> record_all es m = Ok m' -> consistent m -> consistent m'.
Proof.
  intros Hw (x & cost & tokens & -> & Hp & _ & Hu) H Hm. rewrite app_assoc in H. apply record_all_split in H as (m1 & H1 & H2).
  assert (consistent m1) as Hm1 by (apply (failed_consistent _ _ _ (or_intror (ex_intro _ x (ex_intro _ _ (ex_intro _ cost (conj eq_refl Hp))))) H1 Hm)).
  unfold used in Hu. destruct (response_usage r) as [u|]; [|subst tokens; by injection H2 as <-]. destruct Hu as (z & Ez & ->).
  cbn [record_all record rbind] in H2. injection H2 as <-. apply add_usage_consistent; auto.
Qed.

(** C16: Whatever comes of a completion, it does to the metrics of the model what a
    list of entries does: those of at most [num_retries - 1] failed attempts, and
    those of the last.  The answer that is returned has its latency, at most one
    price, which is missing only when cost tracking is off or the proxy's price is
    no number, and exactly the tokens that the provider reported, with the context
    window of the model; a failed attempt has no tokens.  The running totals stay
    those of the calls on record. *)
Theorem completion_is_accounted c w a (Hw : forall z, window l = Ok z -> 0 <= z) (Hm : consistent (metrics a)) :
  exists fs last w' a' out,
    completion c (w, a) = (out, (w', a'))
    /\ record_all (concat fs ++ last) (metrics a) = Ok (metrics a') /\ consistent (metrics a')
    /\ Z.of_nat (length fs) <= Z.max 0 (num_retries (config l) - 1) /\ Forall failed fs
    /\ match out with Ok r => charged r last a' | Raise _ => failed last end.
Proof.
  unfold Llm.completion. pose proof (attempts_charged (Z.to_nat (num_retries (config l) - 1)) 0 c w a) as (fs & last & H & Ho & Hlen & Hf).
  destruct (attempts _ _ _ _) as [out [w' a']]. cbn [fst snd] in *. exists fs, last, w', a', out. split; [done|]. split; [done|].
  split; [|split; [lia|by split; [|destruct out]]].
  apply record_all_split in H as (m1 & H1 & H2). apply (all_failed_consistent _ _ _ Hf) in H1; [|done]. destruct out as [r|e].
  - by eapply charged_consistent.
  - by eapply failed_consistent.
Qed.
End account.

(** A provider whose first answer has no choices *)
Definition two_answers (_ : dict string pyval) (w : nat) : res (Response (Msg := dict string pyval)) * nat :=
  (Ok match w with
      | O => {| response_id := "r0"; choices := []; response_usage := None; response_cost := None |}
      | _ => one_answer cut_answer (Some {| in_tokens := 120; out_tokens := 9; cached_tokens := None; cache_creation_input_tokens := 0 |})
      end, S w).
Definition tick (w : nat) : float * nat := (f0, w).
Definition by_name (e : exn) (cls : string) : bool := match e with OtherError c _ => String.eqb c cls | _ => false end.
Definition text_completion : Arguments -> M (nat * Account) (Response (Msg := dict string pyval)) :=
  @completion (fun _ => None) (fun _ => false) text_llm _ id Ok false (fun _ => "") (fun _ => "") strict (fun _ _ _ => Ok f1) nat two_answers
    tick by_name (fun w => (false, w)) (fun _ _ w => w).
Lemma completion_is_accounted_witness :
  exists fs last w' a' out, text_completion counting (O, new_account text_model) = (out, (w', a'))
    /\ record_all (concat fs ++ last) (new_metrics "mistral-large") = Ok (metrics a') /\ consistent (metrics a')
    /\ (length fs <= 4)%nat /\ is_ok out = true /\ costs (metrics a') = [{| c_model := "mistral-large"; cost := f1; timestamp := f0 |}].
Proof.
  destruct (@completion_is_accounted (fun _ => None) (fun _ => false) text_llm _ id Ok false (fun _ => "") (fun _ => "") strict
              (fun _ _ _ => Ok f1) nat two_answers tick by_name (fun w => (false, w)) (fun _ _ w => w) counting O (new_account text_model))
    as (fs & last & w' & a' & out & E & H1 & H2 & H3 & _).
  - intros z [= <-]. lia.
  - apply new_consistent.
  - exists fs, last, w', a', out. split; [exact E|]. split; [exact H1|]. split; [exact H2|]. split; [cbn in H3; lia|].
    assert (is_ok (text_completion counting (O, new_account text_model)).1 = true
            /\ costs (metrics (text_completion counting (O, new_account text_model)).2.2) = [{| c_model := "mistral-large"; cost := f1; timestamp := f0 |}])
      as [G1 G2] by (vm_compute; auto).
    unfold text_completion in G1, G2. rewrite E in G1, G2. auto.
Defined.

(** ** The arguments of the requests *)

Ltac look := repeat first [rewrite dget_dset_ne by done | rewrite dget_ddel_ne by done | rewrite dget_dset_eq | rewrite dget_ddel_eq | case_match].
Ltac outside H := rewrite !not_elem_of_cons in H; repeat (let H' := fresh H in destruct H as [H' H]).

(** Which arguments a stage touches *)
Lemma reasoning_keeps k c d : k ∉ ["thinking"; "allowed_openai_params"; "reasoning_effort"; "temperature"; "top_p"] ->
  dget (reasoning c d) k = dget d k.
Proof. intros H. outside H. unfold reasoning. look; done. Qed.
Lemma azure_keeps k c d : k ∉ ["max_tokens"; "max_completion_tokens"] -> dget (for_azure c d) k = dget d k.
Proof. intros H. outside H. unfold for_azure. look; done. Qed.
Lemma safety_keeps k c d : k ∉ ["safety_settings"] -> dget (with_safety c d) k = dget d k.
Proof. intros H. outside H. unfold with_safety. look; done. Qed.
Lemma aws_keeps k c d : k ∉ ["aws_region_name"; "aws_access_key_id"; "aws_secret_access_key"] -> dget (with_aws c d) k = dget d k.
Proof. intros H. outside H. unfold with_aws, filled_key. look; done. Qed.
Lemma claude_keeps k c d : k ∉ ["thinking"; "top_p"] -> dget (for_claude c d) k = dget d k.
Proof. intros H. outside H. unfold for_claude. look; done. Qed.
Lemma base_keeps k c : k ∉ ["temperature"; "max_completion_tokens"; "top_k"; "top_p"] -> dget (base_kwargs c) k = None.
Proof.
  intros H. outside H. unfold base_kwargs. look; cbn [dget assoc]; unfold dget; cbn [assoc]; repeat case_decide; done.
Qed.

Ltac keeps := rewrite ?claude_keeps, ?aws_keeps, ?safety_keeps, ?azure_keeps, ?reasoning_keeps, ?base_keeps
  by literal.
Definition KEYS : list string :=
  ["thinking"; "allowed_openai_params"; "reasoning_effort"; "temperature"; "top_p"; "max_tokens"; "max_completion_tokens"; "safety_settings";
   "aws_region_name"; "aws_access_key_id"; "aws_secret_access_key"; "top_k"].
Lemma model_kwargs_other k c : k ∉ KEYS -> dget (model_kwargs c) k = None.
Proof.
  intros H. unfold model_kwargs. rewrite claude_keeps, aws_keeps, safety_keeps, azure_keeps, reasoning_keeps, base_keeps by (unfold KEYS in H; set_solver). done.
Qed.
(** Without arguments of the user's own there is no clash of keywords. *)
Lemma no_clash c : completion_kwargs c = None -> completion_kwargs_of c = Ok (fixed_kwargs c ++ model_kwargs c).
Proof.
  intros Hc. unfold completion_kwargs_of. rewrite Hc. destruct (List.find _ _) as [k|] eqn:E; [|done]. exfalso.
  apply find_some in E as [Hk Hm]. unfold dmem in Hm. rewrite model_kwargs_other in Hm; [done|]. cbn in Hk.
  repeat (destruct Hk as [<-|Hk]; [literal|]). done.
Qed.

(** What the keywords hold that the configuration alone fixes. *)
Definition fits_model (c : LLMConfig) (d : dict string pyval) : Prop :=
  (supports_reasoning_effort (get_features (model c)) = true -> dget d "temperature" = None /\ dget d "top_p" = None)
  /\ (supports_reasoning_effort (get_features (model c)) = false -> dget d "temperature" = Some (VFloat (temperature c)))
  /\ (existsb (fun m => in_lower_model m c) ONE_SAMPLING_PARAMETER = true -> dget d "temperature" = None \/ dget d "top_p" = None)
  /\ (startswith "azure" (model c) = true -> dget d "max_tokens" = Some (opt VInt (max_output_tokens c)) /\ dget d "max_completion_tokens" = None)
  /\ (startswith "azure" (model c) = false -> dget d "max_tokens" = None /\ dget d "max_completion_tokens" = Some (opt VInt (max_output_tokens c)))
  /\ (in_lower_model "claude-opus-4-1" c = true -> dget d "thinking" = Some (VDict [("type", VStr "disabled")]))
  /\ dget d "model" = Some (VStr (model c)) /\ dget d "base_url" = Some (opt VStr (base_url c)).
Definition GOVERNED : list string := ["temperature"; "top_p"; "max_tokens"; "max_completion_tokens"; "thinking"; "model"; "base_url"].
Lemma fits_model_ext c d d' : (forall k, k ∈ GOVERNED -> dget d' k = dget d k) -> fits_model c d -> fits_model c d'.
Proof.
  intros Hk. unfold fits_model. rewrite !Hk by (unfold GOVERNED; set_solver). done.
Qed.
Lemma fixed_kwargs_fit c : fits_model c (fixed_kwargs c ++ model_kwargs c).
Proof.
  unfold fits_model. rewrite !dget_app. change (dget (fixed_kwargs c) "model") with (Some (VStr (model c))).
  change (dget (fixed_kwargs c) "base_url") with (Some (opt VStr (base_url c))).
  change (dget (fixed_kwargs c) "temperature") with (@None pyval). change (dget (fixed_kwargs c) "top_p") with (@None pyval).
  change (dget (fixed_kwargs c) "max_tokens") with (@None pyval). change (dget (fixed_kwargs c) "max_completion_tokens") with (@None pyval).
  change (dget (fixed_kwargs c) "thinking") with (@None pyval). cbv iota. unfold model_kwargs.
  assert (forall d, supports_reasoning_effort (get_features (model c)) = true ->
                    dget (reasoning c d) "temperature" = None /\ dget (reasoning c d) "top_p" = None) as Hr.
  { intros d E. unfold reasoning. rewrite E. cbn [negb]. split; look; done. }
  assert (forall d, dget d "top_p" = None -> dget (for_claude c d) "top_p" = None) as Hp.
  { intros d E. unfold for_claude. look; done. }
  split_and!; try done.
  - intros E. keeps. split; [apply Hr, E|]. apply Hp. keeps. apply Hr, E.
  - intros E. keeps. unfold reasoning. rewrite E. cbn [negb]. unfold base_kwargs. look; done.
  - intros E. set (d := with_aws _ _). unfold for_claude. rewrite E. cbn [andb]. set (d' := if in_lower_model _ c then _ else d).
    destruct (dmem d' "temperature" && dmem d' "top_p") eqn:Em; [right; apply dget_ddel_eq|]. unfold dmem in Em.
    destruct (dget d' "temperature"); [|by left]. right. by destruct (dget d' "top_p").
  - intros E. keeps. unfold for_azure. rewrite E. split; look; keeps; unfold base_kwargs; look; done.
  - intros E. keeps. unfold for_azure. rewrite E. keeps. split; [done|]. unfold base_kwargs. look; done.
  - intros E. unfold for_claude. rewrite E. look; done.
Qed.
Lemma new_llm_kwargs getenv get_model_info http_get c sid l : new_llm getenv get_model_info http_get c sid = Ok l -> completion_kwargs c = None ->
  partial_kwargs l = fixed_kwargs (config l) ++ model_kwargs (config l).
Proof.
  unfold new_llm. intros H Hc. destruct (init_model_info _ _ c) as [[[c' info] b]|] eqn:E; [|done]. cbn [rbind fst snd] in H.
  assert (completion_kwargs (for_proxy getenv c') = None) as Hp.
  { assert (completion_kwargs c' = None) as Hc'.
    { unfold init_model_info in E. destruct (find_info _ _ c); [|done]. cbn [rbind] in E.
      destruct (match max_input_tokens c with Some _ => _ | None => _ end); [|done]. cbn [rbind] in E.
      destruct (match max_output_tokens c with Some _ => _ | None => _ end); [|done]. cbn [rbind] in E.
      revert E. generalize (get_features (model c)). intros fs E. assert (c' = with_limits (if startswith "huggingface" (model c) && feq (top_p c) f1 then float_lit 9 1 else top_p c) a0 a1 c) as -> by congruence. exact Hc. }
    unfold for_proxy. by repeat case_match. }
  rewrite (no_clash _ Hp) in H. cbn [rbind] in H. by injection H as <-.
Qed.
(** A keyword that the caller does not set is sent as the constructor fixed it. *)
Lemma request_keeps getenv supports_vision l windows a p k : prepare getenv supports_vision l windows a = Ok p -> dwf (others a) ->
  k ∉ ["tools"; "stop"; "tool_choice"; "extra_body"; "messages"] -> dget (others a) k = None -> dget (request p) k = dget (partial_kwargs l) k.
Proof.
  intros H Hw Hk Ho. outside Hk. unfold prepare in H. destruct (dicts _ _ l (messages a)) as [ms|]; [|done]. cbn [rbind] in H.
  match type of H with (p <-! ?x ;; _) = _ => destruct x as [q|] eqn:Eq; [|done] end. cbn [rbind] in H.
  assert (dwf (request q) /\ dget (request q) k = None) as [Hq Hn].
  { assert (dwf (mock_kwargs l (others a)) /\ dget (mock_kwargs l (others a)) k = None) as Hmk.
    { unfold mock_kwargs. split; [repeat case_match; auto using dwf_dset, dwf_ddel|]. look; done. }
    destruct (Llm.tools a) as [ts|]; [destruct (function_calling_active l)|].
    - injection Eq as <-. cbn [request]. split; [by apply dwf_dset|]. by rewrite dget_dset_ne.
    - destruct (read_tools ts); [|done]. cbn [rbind] in Eq. destruct (convert_fncall_messages_to_non_fncall_messages _ _ _ _); [|done].
      cbn [rbind] in Eq. injection Eq as <-. exact Hmk.
    - by injection Eq as <-. }
  assert (dwf (without_extra_body l (request q)) /\ dget (without_extra_body l (request q)) k = None) as [Hx Hnx].
  { clear H. unfold without_extra_body. destruct (in_model _ _); [done|]. split; [by apply dwf_ddel|]. by rewrite dget_ddel_ne. }
  destruct (sent_messages q); [done|]. injection H as <-. cbn [request]. rewrite dget_dupdate by (by apply dwf_dset).
  rewrite dget_dset_ne by done. by rewrite Hnx.
Qed.

(** C26: The requests of an [LLM] whose configuration has no arguments of the user's own,
    made by a caller that sets none of the keywords concerned, carry what its model
    takes: a model with a reasoning effort gets neither temperature nor top_p, every
    other the configured temperature, but the Claude models that take one of the two
    at most one; an Azure deployment gets its limit of tokens as max_tokens and every
    other model as max_completion_tokens, extended thinking is off for Opus 4.1, and the
    model and its address are the configured ones.  The retry after an answer without
    choices is a caller that sets the temperature ([retry_sends_temperature]). *)
Theorem request_fits_the_model getenv get_model_info http_get supports_vision c sid l windows a p
    (Hnew : new_llm getenv get_model_info http_get c sid = Ok l) (Hc : completion_kwargs c = None)
    (Hp : prepare getenv supports_vision l windows a = Ok p) (Hwf : dwf (others a)) (Hown : forall k, k ∈ GOVERNED -> dget (others a) k = None) :
  fits_model (config l) (request p).
Proof.
  eapply fits_model_ext; [|apply fixed_kwargs_fit]. intros k Hk. rewrite <- (new_llm_kwargs _ _ _ _ _ _ Hnew Hc).
  eapply request_keeps; [exact Hp|exact Hwf| |by apply Hown]. unfold GOVERNED in Hk. set_solver.
Qed.

Definition o3 : LLMConfig := with_model "openai/o3" None text_model.
Definition o3_llm : LLM :=
  match new_llm (fun _ => None) (fun _ => None) (fun _ _ => Ok (Ok VNone)) o3 "agent" with Ok l => l | Raise _ => text_llm end.
Definition o3_request : Prepared :=
  match prepare (fun _ => None) (fun _ => false) o3_llm false counting with
  | Ok p => p | Raise _ => {| sent_messages := []; mock_fncall_tools := None; request := [] |} end.
Lemma request_fits_the_model_witness :
  o3_request.(sent_messages) <> [] /\ dget (request o3_request) "temperature" = None /\ dget (request o3_request) "top_p" = None.
Proof.
  split; [by vm_compute|].
  destruct (request_fits_the_model (fun _ => None) (fun _ => None) (fun _ _ => Ok (Ok VNone)) (fun _ => false) o3 "agent" o3_llm false counting o3_request)
    as (H & _).
  - vm_compute. reflexivity.
  - reflexivity.
  - vm_compute. reflexivity.
  - constructor.
  - intros k _. reflexivity.
  - apply H. vm_compute. reflexivity.
Defined.

(** ** Where the code falls short *)

(** After an answer without choices a model with a reasoning effort is sent the
    temperature that it does not take. *)
Lemma retry_sends_temperature :
  (match completion_kwargs_of o3 with
   | Ok kwargs => dget (dupdate kwargs (others (next_call by_name (OtherError "LLMNoResponseError" "") counting))) "temperature"
   | Raise _ => None
   end) = Some (VFloat f1).
Proof. vm_compute. reflexivity. Qed.

Definition answering (r : Response (Msg := dict string pyval)) (l : LLM) : Arguments -> M (nat * Account) (Response (Msg := dict string pyval)) :=
  @completion (fun _ => None) (fun _ => false) l _ id Ok false (fun _ => "") (fun _ => "") strict (fun _ _ _ => Ok f1) nat
    (fun _ w => (Ok r, w)) tick by_name (fun w => (false, w)) (fun _ _ w => w).
Definition charged_answer (text : string) : Response :=
  one_answer [("role", VStr "assistant"); ("content", VStr text)]
    (Some {| in_tokens := 120; out_tokens := 9; cached_tokens := None; cache_creation_input_tokens := 0 |}).
(** An answer whose call is malformed fails before it is charged: neither its price
    nor its tokens are recorded. *)
Lemma malformed_call_is_free :
  match answering (charged_answer (called true "" "rm" [])) text_llm counting (O, new_account text_model) with
  | (Raise (OtherError cls _), (_, a)) => cls = "FunctionCallValidationError" /\ costs (metrics a) = [] /\ token_usages (metrics a) = []
  | _ => False
  end.
Proof. vm_compute. auto. Qed.
(** With information that names no context window every completion fails after the
    answer was paid for. *)
Definition unknown_window : LLM :=
  {| config := text_model; service_id := "agent"; model_info := VDict [("max_input_tokens", VNone)]; function_calling_active := false;
     partial_kwargs := [] |}.
Lemma unknown_window_fails :
  match answering (charged_answer "One file.") unknown_window counting (O, new_account text_model) with
  | (Raise (OtherError cls _), (_, a)) => cls = "ValidationError" /\ length (costs (metrics a)) = 1%nat
  | _ => False
  end.
Proof. vm_compute. auto. Qed.
(** A cut call that writes the mark of a call in an argument is not read as a call. *)
Lemma cut_call_is_lost :
  match answering (charged_answer (called true "" "execute_bash" [("command", "grep '<function=' log")])) text_llm counting
          (O, new_account text_model) with
  | (Ok r, _) => map (fun m => dmem m "tool_calls") (choices r) = [false]
  | _ => False
  end.
Proof. vm_compute. reflexivity. Qed.
(** Arguments of the user's own may not set what the configuration sets. *)
Lemma own_seed_clashes : is_ok (completion_kwargs_of (
    {| model := "m"; api_key := None; base_url := None; api_version := None; aws_access_key_id := None; aws_secret_access_key := None;
     aws_region_name := None; num_retries := 5; timeout := None; temperature := f0; top_p := f1; top_k := None; custom_llm_provider := None;
     max_input_tokens := None; max_output_tokens := None; input_cost_per_token := None; output_cost_per_token := None; drop_params := true;
     disable_vision := None; disable_stop_word := Some false; caching_prompt := true; native_tool_calling := None; reasoning_effort := None;
     seed := None; safety_settings := None; completion_kwargs := Some [("seed", VInt 7)]; other_fields := [] |})) = false.
Proof. vm_compute. reflexivity. Qed.
