(* ===== verification/LlmRegistry.v ===== *)
(** * The models of a conversation and what they cost

    Models [openhands/llm/llm_registry.py], [server/services/conversation_stats.py],
    the routers of [openhands/llm/router] and
    [create_registry_and_conversation_stats] of [openhands/utils/utils.py].

    The metrics of a model are an object that the model and the statistics share: a
    [loc] in the list of all metrics.  Parameters: [create] makes a model,
    [complete] is a completion, and [dumps] and [loads] are pickle and base64. *)

From S2P Require Import Prelude PyStr PyDict PyFloat PyVal FileStore Message Metrics Llm LlmSpec.

Definition loc := nat.

(** A model: its object, whether its prices are tracked, and where its metrics are. *)
Record Service := { llm : LLM; tracked : bool; metrics_at : loc }.
Record Registry := { service_to_llm : dict string Service; active_agent_llm : string; subscriber : bool }.
Record ConversationStats := { service_to_metrics : dict string loc; restored_metrics : dict string Metrics }.
Definition no_stats : ConversationStats := {| service_to_metrics := []; restored_metrics := [] |}.

Section registry.
Context {F : Type} `{FileStore F} (conversation_id : string) (user_id : option string).
Context (dumps : dict string Metrics -> pyval) (loads : pyval -> res (dict string Metrics)).
Context (create : LLMConfig -> string -> res LLM) {W R : Type} (complete : LLM -> Arguments -> M (W * Account) R).

Record World := { heap : list Metrics; registry : Registry; stats : ConversationStats; file_store : option F; outside : W }.
Definition with_heap (h : list Metrics) (w : World) : World :=
  {| heap := h; registry := registry w; stats := stats w; file_store := file_store w; outside := outside w |}.
Definition with_registry (r : Registry) (w : World) : World :=
  {| heap := heap w; registry := r; stats := stats w; file_store := file_store w; outside := outside w |}.
Definition with_stats (s : ConversationStats) (w : World) : World :=
  {| heap := heap w; registry := registry w; stats := s; file_store := file_store w; outside := outside w |}.
Definition with_store (f : option F) (w : World) : World :=
  {| heap := heap w; registry := registry w; stats := stats w; file_store := f; outside := outside w |}.
Definition with_outside (x : W) (w : World) : World :=
  {| heap := heap w; registry := registry w; stats := stats w; file_store := file_store w; outside := x |}.
Definition services (w : World) : dict string Service := service_to_llm (registry w).
Definition with_services (d : dict string Service) (w : World) : World :=
  with_registry {| service_to_llm := d; active_agent_llm := active_agent_llm (registry w); subscriber := subscriber (registry w) |} w.
Definition metrics_of (w : World) (l : loc) : Metrics := List.nth l (heap w) (new_metrics "default").
(** A new object *)
Definition alloc (m : Metrics) (w : World) : loc * World := (length (heap w), with_heap (heap w ++ [m]) w).

(** ** The statistics of a conversation *)

Definition metrics_path : string := get_conversation_dir conversation_id user_id +:+ "conversation_stats.pkl".
Definition current_metrics (w : World) : dict string Metrics := map (fun kv => (kv.1, metrics_of w kv.2)) (service_to_metrics (stats w)).
(** The metrics of services that were not asked for again are kept. *)
Definition combined_metrics (w : World) : dict string Metrics := dupdate (restored_metrics (stats w)) (current_metrics w).
Definition save_metrics (w : World) : World :=
  match file_store w with
  | Some f => with_store (Some (fs_write metrics_path (dumps (combined_metrics w)) f)) w
  | None => w
  end.
Definition maybe_restore_metrics (file_store : option F) : res (dict string Metrics) :=
  match file_store with
  | Some f =>
      if String.eqb conversation_id "" then Ok []
      else match fs_read metrics_path f with
           | Ok v => loads v
           | Raise e => if decide (e = file_not_found metrics_path) then Ok [] else Raise e
           end
  | None => Ok []
  end.
Definition get_combined_metrics (w : World) : Metrics := foldl (fun total kv => merge kv.2 total) (new_metrics "default") (current_metrics w).
(** [_prepare_metrics_for_frontend] of the controller, for the limit of its budget *)
Definition frontend_metrics (max_budget : option float) (w : World) : res Metrics :=
  let total := get_combined_metrics w in
  m <-! set_accumulated_cost (accumulated_cost total) (new_metrics "default") ;;
  Ok (with_max_budget max_budget (with_usages [] (accumulated_token_usage total) m)).
Definition get_metrics_for_service (service_id : string) (w : World) : res Metrics :=
  match dget (service_to_metrics (stats w)) service_id with
  | Some l => Ok (metrics_of w l)
  | None => Raise (OtherError "Exception" ("LLM service does not exist " +:+ service_id))
  end.
(** A restored service goes on with a copy of its metrics. *)
Definition register_llm (service_id : string) (w : World) : World :=
  match dget (services w) service_id with
  | None => w
  | Some s =>
      let '(l, w) :=
        match dget (restored_metrics (stats w)) service_id with
        | Some m =>
            let '(l, w) := alloc m w in
            (l, with_stats {| service_to_metrics := service_to_metrics (stats w); restored_metrics := ddel (restored_metrics (stats w)) service_id |}
                  (with_services (dset (services w) service_id {| llm := llm s; tracked := tracked s; metrics_at := l |}) w))
        | None => (metrics_at s, w)
        end in
      with_stats {| service_to_metrics := dset (service_to_metrics (stats w)) service_id l; restored_metrics := restored_metrics (stats w) |} w
  end.
(** [merge_and_save], with the restored metrics of the other statistics *)
Definition drop_zero_cost (d : dict string Metrics) : dict string Metrics :=
  List.filter (fun kv => negb (feq (accumulated_cost kv.2) f0)) d.
Definition merge_and_save (incoming : dict string Metrics) (w : World) : World :=
  save_metrics
    (with_stats {| service_to_metrics := service_to_metrics (stats w);
                   restored_metrics := dupdate (drop_zero_cost (restored_metrics (stats w))) (drop_zero_cost incoming) |} w).

(** ** The registry *)

Definition notify (service_id : string) (w : World) : World := if subscriber (registry w) then register_llm service_id w else w.
(** A model has metrics of its own, under the name that its configuration was given. *)
Definition _create_new_llm (service_id : string) (config : LLMConfig) : M World unit := fun w =>
  match create config service_id with
  | Raise e => (Raise e, w)
  | Ok l =>
      let '(at_, w) := alloc (new_metrics (model config)) w in
      (Ok tt, notify service_id (with_services (dset (services w) service_id {| llm := l; tracked := true; metrics_at := at_ |}) w))
  end.
(** The model is the one that the registry has for the service afterwards. *)
Definition get_llm (service_id : string) (requested : option LLMConfig) : M World unit := fun w =>
  match dget (services w) service_id, requested with
  | Some s, Some c =>
      if same_config (config (llm s)) c then (Ok tt, w)
      else (Raise (ValueError ("Requesting same service ID " +:+ service_id +:+ " with different config, use a new service ID")), w)
  | Some _, None => (Raise (ValueError ("Requesting same service ID " +:+ service_id +:+ " with different config, use a new service ID")), w)
  | None, Some c => _create_new_llm service_id c w
  | None, None => (Raise (ValueError "Requesting new LLM without specifying LLM config"), w)
  end.
(** [llm_config] is the one of the agent. *)
Definition get_llm_from_agent_config (service_id : string) (llm_config : LLMConfig) : M World unit := fun w =>
  match dget (services w) service_id with Some _ => (Ok tt, w) | None => _create_new_llm service_id llm_config w end.
Definition set_nth (l : loc) (m : Metrics) (h : list Metrics) : list Metrics := <[l := m]> h.
(** A completion of the model of a service *)
Definition ask (service_id : string) (c : Arguments) : M World R := fun w =>
  match dget (services w) service_id with
  | None => (Raise (KeyError service_id), w)
  | Some s =>
      let '(r, (x, a)) := complete (llm s) c (outside w, {| cost_metric_supported := tracked s; metrics := metrics_of w (metrics_at s) |}) in
      (r, with_outside x
            (with_services (dset (services w) service_id {| llm := llm s; tracked := cost_metric_supported a; metrics_at := metrics_at s |})
               (with_heap (set_nth (metrics_at s) (metrics a) (heap w)) w)))
  end.
(** [request_extraneous_completion]; [text_of] is the stripped text of the first
    choice. *)
Definition request_extraneous_completion (text_of : R -> res string) (service_id : string) (llm_config : LLMConfig)
    (ms : list (dict string pyval)) : M World string :=
  get_llm_from_agent_config service_id llm_config ;;;
  r <- ask service_id {| messages := Dicts ms; tools := None; others := [] |} ;;
  liftM (text_of r).

(** The constructor, for the configuration of the selected agent *)
Definition new_registry (llm_config : LLMConfig) : M World unit :=
  modifyM (with_registry {| service_to_llm := []; active_agent_llm := "agent"; subscriber := false |}) ;;;
  get_llm "agent" (Some llm_config).
Definition subscribe : M World unit :=
  modifyM (fun w => with_registry {| service_to_llm := services w; active_agent_llm := active_agent_llm (registry w); subscriber := true |} w) ;;;
  modifyM (fun w => notify (active_agent_llm (registry w)) w).
(** [create_registry_and_conversation_stats] *)
Definition create_registry_and_conversation_stats (llm_config : LLMConfig) : M World unit :=
  new_registry llm_config ;;;
  w <- getM ;;
  restored <- liftM (maybe_restore_metrics (file_store w)) ;;
  modifyM (with_stats {| service_to_metrics := []; restored_metrics := restored |}) ;;;
  subscribe.

(** A new process finds only the files. *)
Definition after_exit (f : option F) (x : W) : World :=
  {| heap := []; registry := {| service_to_llm := []; active_agent_llm := ""; subscriber := false |}; stats := no_stats; file_store := f; outside := x |}.
Definition start (llm_config : LLMConfig) (f : option F) (x : W) : res unit * World :=
  create_registry_and_conversation_stats llm_config (after_exit f x).

(** ** Routers *)

Definition SECONDARY_MODEL_CONFIG_NAME : string := "secondary_model".
Record Router := { available_llms : dict string string; max_token_exceeded : bool; current_llm : string }.
(** The constructor of [RouterLLM] and its check by [MultimodalRouter] *)
Fixpoint get_all (configs : dict string LLMConfig) : M World (dict string string) :=
  match configs with
  | [] => retM []
  | (name, c) :: configs =>
      let service_id := "llm_for_routing." +:+ name in
      get_llm service_id (Some c) ;;; l <- get_all configs ;; retM ((name, service_id) :: l)
  end.
Definition new_router (agent_llm_config : LLMConfig) (llms_for_routing : dict string LLMConfig) : M World Router :=
  get_llm_from_agent_config "agent" agent_llm_config ;;;
  l <- get_all llms_for_routing ;;
  if dmem l SECONDARY_MODEL_CONFIG_NAME
  then retM {| available_llms := dupdate [("primary", "agent")] l; max_token_exceeded := false; current_llm := "agent" |}
  else raiseM (ValueError ("Secondary LLM config " +:+ SECONDARY_MODEL_CONFIG_NAME +:+ " not found.")).
(** [_select_llm]; [count] is [get_token_count] of the secondary model.  A limit of
    zero counts as none; once exceeded, the secondary model is not chosen again. *)
Definition exceeds (limit : option Z) (count : res Z) : res bool :=
  match limit with Some n => if Z.eqb n 0 then Ok false else c <-! count ;; Ok (n <? c) | None => Ok false end.
Definition _select_llm (count : LLM -> res Z) (ms : list Message) (secondary : option LLM) (r : Router) : res string * Router :=
  let route_to_primary := existsb contains_image ms || max_token_exceeded r in
  match match secondary with Some l => exceeds (max_input_tokens (config l)) (count l) | None => Ok false end with
  | Raise e => (Raise e, r)
  | Ok true => (Ok "primary", {| available_llms := available_llms r; max_token_exceeded := true; current_llm := current_llm r |})
  | Ok false => (Ok (if route_to_primary then "primary" else SECONDARY_MODEL_CONFIG_NAME), r)
  end.
Definition _get_llm_by_key (key : string) (r : Router) : res string :=
  match dget (available_llms r) key with
  | Some s => Ok s
  | None => Raise (ValueError ("Unknown LLM key: " +:+ key +:+ ". Available: " +:+ py_repr (VList (map VStr (dkeys (available_llms r))))))
  end.
Definition secondary_llm (w : World) (r : Router) : option LLM :=
  s ← dget (available_llms r) SECONDARY_MODEL_CONFIG_NAME; llm <$> dget (services w) s.
(** [router_completion], for messages *)
Definition router_completion (count : LLM -> list Message -> res Z) (ms : list Message) (tools : option (list pyval)) (others : dict string pyval)
    : M (World * Router) R := fun s =>
  let '(key, r) := _select_llm (fun l => count l ms) ms (secondary_llm s.1 s.2) s.2 in
  match (key <-! key ;; _get_llm_by_key key r) with
  | Raise e => (Raise e, (s.1, r))
  | Ok service =>
      let '(res, w) := ask service {| messages := Typed ms; tools := tools; others := others |} s.1 in
      (res, (w, {| available_llms := available_llms r; max_token_exceeded := max_token_exceeded r; current_llm := service |}))
  end.
End registry.

(** ** Nothing that was saved is lost *)

(** [m'] is [m] and what was recorded since. *)
Definition grown (m m' : Metrics) : Prop := exists es, record_all es m = Ok m'.
Lemma grown_refl m : grown m m. Proof. by exists []. Qed.
Lemma grown_trans a b c : grown a b -> grown b c -> grown a c.
Proof.
  intros [es H] [es' H']. exists (es ++ es'). revert a H. induction es as [|e es IH]; intros a; cbn [record_all app]; [by intros [= ->]|].
  destruct (record e a); cbn [rbind]; [|done]. apply IH.
Qed.

Lemma dget_map {A B} (g : A -> B) (d : dict string A) k : dget (map (fun kv => (kv.1, g kv.2)) d) k = g <$> dget d k.
Proof. induction d as [|[k' v] d IH]; [done|]. cbn [map dget fst snd]. by case_decide. Qed.

Section ledger.
Context {F : Type} `{FileStoreLaws F} (conversation_id : string) (user_id : option string).
Context (dumps : dict string Metrics -> pyval) (loads : pyval -> res (dict string Metrics)).
Context (create : LLMConfig -> string -> res LLM) {W R : Type} (complete : LLM -> Arguments -> M (W * Account) R).
Notation World := (World (F := F) (W := W)).
Notation path := (metrics_path conversation_id user_id).
Notation save_metrics := (save_metrics conversation_id user_id dumps).
Notation get_llm := (get_llm create).
Notation ask := (ask complete).

(** What is known of a service, and what its file has of it *)
Definition known (w : World) (s : string) : option Metrics := dget (combined_metrics w) s.
Definition saved (f : option F) (s : string) : option Metrics :=
  f ← f; match fs_read path f with Ok v => match loads v with Ok d => dget d s | Raise _ => None end | Raise _ => None end.

(** The statistics share the metrics of every model of the registry, and of no
    other; no two models share theirs; and what is restored is of other services. *)
Record well_kept (w : World) : Prop := {
  listening : subscriber (registry w) = true;
  locs_wf : dwf (service_to_metrics (stats w));
  tracked_at s : metrics_at <$> dget (services w) s = dget (service_to_metrics (stats w)) s;
  in_heap s l : dget (service_to_metrics (stats w)) s = Some l -> (l < length (heap w))%nat;
  unshared s s' l : dget (service_to_metrics (stats w)) s = Some l -> dget (service_to_metrics (stats w)) s' = Some l -> s = s';
  apart_ s l : dget (service_to_metrics (stats w)) s = Some l -> dget (restored_metrics (stats w)) s = None;
}.
Lemma known_eq w s : dwf (service_to_metrics (stats w)) ->
  known w s = match dget (service_to_metrics (stats w)) s with Some l => Some (metrics_of w l) | None => dget (restored_metrics (stats w)) s end.
Proof.
  intros Hw. unfold known, combined_metrics, current_metrics. rewrite dget_dupdate.
  - rewrite (dget_map (metrics_of w)). by destruct (dget _ s).
  - unfold dwf, dkeys in *. by rewrite map_map.
Qed.

(** The world after a step: nothing known is forgotten. *)
Definition advances (w w' : World) : Prop :=
  file_store w' = file_store w /\ forall s m, known w s = Some m -> exists m', known w' s = Some m' /\ grown m m'.
Lemma advances_refl w : advances w w.
Proof. split; [done|]. intros s m E. exists m. split; [done|apply grown_refl]. Qed.

(** A world where the model of [s] is not yet tracked *)
Record arriving (w : World) (s : string) (sv : Service) : Prop := {
  arr_listening : subscriber (registry w) = true;
  arr_wf : dwf (service_to_metrics (stats w));
  arr_new : dget (services w) s = Some sv /\ dget (service_to_metrics (stats w)) s = None;
  arr_at : (metrics_at sv < length (heap w))%nat /\ forall s' l, dget (service_to_metrics (stats w)) s' = Some l -> l <> metrics_at sv;
  arr_tracked s' : s' <> s -> metrics_at <$> dget (services w) s' = dget (service_to_metrics (stats w)) s';
  arr_in_heap s' l : dget (service_to_metrics (stats w)) s' = Some l -> (l < length (heap w))%nat;
  arr_unshared s1 s2 l : dget (service_to_metrics (stats w)) s1 = Some l -> dget (service_to_metrics (stats w)) s2 = Some l -> s1 = s2;
  arr_apart s' l : dget (service_to_metrics (stats w)) s' = Some l -> dget (restored_metrics (stats w)) s' = None;
}.
Lemma metrics_of_alloc (w : World) m l : (l < length (heap w))%nat -> metrics_of (alloc m w).2 l = metrics_of w l.
Proof. intros Hl. unfold metrics_of. cbn. by rewrite app_nth1. Qed.
Lemma register_arriving w s sv : arriving w s sv ->
  well_kept (register_llm s w) /\ file_store (register_llm s w) = file_store w
  /\ (forall s', s' <> s -> known (register_llm s w) s' = known w s')
  /\ known (register_llm s w) s = match dget (restored_metrics (stats w)) s with Some m => Some m | None => Some (metrics_of w (metrics_at sv)) end.
Proof.
  intros [Hl Hw [Hs Hn] [Hat Hfresh] Ht Hh Hu Ha]. unfold register_llm. rewrite Hs.
  destruct (dget (restored_metrics (stats w)) s) as [m|] eqn:Er.
  - cbn [alloc]. set (w' := with_stats _ _).
    assert (Hstm : service_to_metrics (stats w') = dset (service_to_metrics (stats w)) s (length (heap w))) by done.
    assert (Hres : restored_metrics (stats w') = ddel (restored_metrics (stats w)) s) by done.
    assert (Hserv : services w' = dset (services w) s {| llm := llm sv; tracked := tracked sv; metrics_at := length (heap w) |}) by done.
    assert (Hheap : heap w' = heap w ++ [m]) by done.
    assert (well_kept w') as Hk.
    { constructor; rewrite ?Hstm, ?Hres, ?Hserv, ?Hheap; try done; [by apply dwf_dset|..]; intros ?.
      - rewrite !dget_dset. case_decide; [done|]. apply Ht. congruence.
      - intros l. rewrite dget_dset, length_app. cbn [length]. case_decide; [intros [= <-]; lia|]. intros E%Hh. lia.
      - intros s' l. rewrite !dget_dset. do 2 case_decide; subst; try done; intros; simplify_eq; try (by eapply Hu);
          match goal with E : dget _ _ = Some (length _) |- _ => apply Hh in E; lia end.
      - intros l. rewrite dget_dset, dget_ddel. case_decide; [done|]. apply Ha. }
    split; [done|]. split; [done|]. split.
    + intros s' Hne. rewrite !known_eq by (done || apply Hk). rewrite Hstm, Hres, dget_dset_ne, dget_ddel_ne by done.
      destruct (dget (service_to_metrics (stats w)) s') as [l|] eqn:E; [|done]. f_equal. unfold metrics_of. rewrite Hheap.
      apply app_nth1, (Hh _ _ E).
    + rewrite known_eq by apply Hk. rewrite Hstm, dget_dset_eq. unfold metrics_of. rewrite Hheap. by rewrite nth_middle.
  - set (w' := with_stats _ _).
    assert (Hstm : service_to_metrics (stats w') = dset (service_to_metrics (stats w)) s (metrics_at sv)) by done.
    assert (well_kept w') as Hk.
    { constructor; rewrite ?Hstm; try done; [by apply dwf_dset|..]; intros ?; change (services w') with (services w);
        change (heap w') with (heap w); change (restored_metrics (stats w')) with (restored_metrics (stats w)).
      - rewrite dget_dset. case_decide; [subst; by rewrite Hs|]. apply Ht. congruence.
      - intros l. rewrite dget_dset. case_decide; [intros [= <-]; done|]. apply Hh.
      - intros s' l. rewrite !dget_dset. do 2 case_decide; subst; try done; intros; simplify_eq; try (by eapply Hu);
          match goal with E : dget _ _ = Some (metrics_at _) |- _ => by apply Hfresh in E end.
      - intros l. rewrite dget_dset. case_decide; [by subst|]. apply Ha. }
    split; [done|]. split; [done|]. split.
    + intros s' Hne. rewrite !known_eq by (done || apply Hk). by rewrite Hstm, dget_dset_ne.
    + rewrite known_eq by apply Hk. by rewrite Hstm, dget_dset_eq.
Qed.

Lemma create_advances w s c : well_kept w -> dget (services w) s = None ->
  well_kept (_create_new_llm create s c w).2 /\ advances w (_create_new_llm create s c w).2.
Proof.
  intros Hk Hs. unfold _create_new_llm. destruct (create c s) as [l|e]; [|split; [done|apply advances_refl]]. cbn [alloc snd].
  set (sv := {| llm := l; tracked := true; metrics_at := length (heap w) |}). set (w1 := with_services _ _).
  destruct Hk as [Hl Hw Ht Hh Hu Ha]. pose proof (Ht s) as Hns. rewrite Hs in Hns. symmetry in Hns. cbn [fmap option_fmap option_map] in Hns.
  assert (arriving w1 s sv) as Harr.
  { constructor; try done.
    - split; [apply dget_dset_eq|done].
    - split; [cbn; rewrite length_app; cbn; lia|]. intros s' l' E%Hh. cbn. lia.
    - intros s' Hne. change (services w1) with (dset (services w) s sv). rewrite dget_dset_ne by done. apply Ht.
    - intros s' l' E%Hh. cbn. rewrite length_app. lia. }
  unfold notify. change (subscriber (registry w1)) with (subscriber (registry w)). rewrite Hl.
  destruct (register_arriving _ _ _ Harr) as (Hk' & Hf & Hother & Hsame). split; [done|]. split; [done|].
  intros s' m E. assert (known w1 s' = Some m) as E1.
  { rewrite known_eq in * by done. change (service_to_metrics (stats w1)) with (service_to_metrics (stats w)).
    change (restored_metrics (stats w1)) with (restored_metrics (stats w)). destruct (dget (service_to_metrics (stats w)) s') as [l'|] eqn:E'; [|done].
    rewrite <- E. f_equal. apply (metrics_of_alloc w). by eapply Hh. }
  exists m. split; [|apply grown_refl]. destruct (decide (s' = s)) as [->|Hne]; [|by rewrite Hother].
  rewrite Hsame. rewrite known_eq in E1 by done. change (service_to_metrics (stats w1)) with (service_to_metrics (stats w)) in E1.
  rewrite Hns in E1. by rewrite E1.
Qed.
Lemma get_llm_advances w s c : well_kept w -> well_kept (get_llm s c w).2 /\ advances w (get_llm s c w).2.
Proof.
  intros Hk. unfold LlmRegistry.get_llm. destruct (dget (services w) s) as [sv|] eqn:E.
  - destruct c; [destruct (same_config _ _)|]; (split; [done|apply advances_refl]).
  - destruct c; [by apply create_advances|]. split; [done|apply advances_refl].
Qed.
Lemma get_agent_llm_advances w s c : well_kept w ->
  well_kept (get_llm_from_agent_config create s c w).2 /\ advances w (get_llm_from_agent_config create s c w).2.
Proof.
  intros Hk. unfold get_llm_from_agent_config. destruct (dget (services w) s) as [sv|] eqn:E; [split; [done|apply advances_refl]|].
  by apply create_advances.
Qed.

(** A completion only adds to the metrics of its model. *)
Definition accounts : Prop := forall l c x a, exists es, record_all es (metrics a) = Ok (metrics (complete l c (x, a)).2.2).
Lemma ask_advances w s c : accounts -> well_kept w -> well_kept (ask s c w).2 /\ advances w (ask s c w).2.
Proof.
  intros Hacc Hk. unfold LlmRegistry.ask. destruct (dget (services w) s) as [sv|] eqn:E; [|split; [done|apply advances_refl]].
  destruct (Hacc (llm sv) c (outside w) {| cost_metric_supported := tracked sv; metrics := metrics_of w (metrics_at sv) |}) as [es Hes].
  destruct (complete _ _ _) as [r [x a]]. cbn [snd metrics] in *. set (w' := with_outside _ _).
  destruct Hk as [Hl Hw Ht Hh Hu Ha]. pose proof (Ht s) as Hs. rewrite E in Hs. cbn [fmap option_fmap option_map] in Hs. symmetry in Hs.
  assert (heap w' = <[metrics_at sv := metrics a]> (heap w)) as Hheap by done.
  assert (well_kept w') as Hk.
  { constructor; try done.
    - intros s'. change (services w') with (dset (services w) s {| llm := llm sv; tracked := cost_metric_supported a; metrics_at := metrics_at sv |}).
      rewrite dget_dset. case_decide; [by subst|apply Ht].
    - intros s' l. rewrite Hheap, length_insert. apply Hh. }
  split; [done|]. split; [done|]. intros s' m. rewrite !known_eq by done. change (service_to_metrics (stats w')) with (service_to_metrics (stats w)).
  change (restored_metrics (stats w')) with (restored_metrics (stats w)).
  destruct (dget (service_to_metrics (stats w)) s') as [l|] eqn:E'; [|intros ->; exists m; split; [done|apply grown_refl]].
  intros [= <-]. eexists. split; [done|]. unfold metrics_of. rewrite Hheap, !nth_lookup. destruct (decide (l = metrics_at sv)) as [->|Hne].
  - rewrite list_lookup_insert_eq by (by eapply Hh). exists es. unfold metrics_of in Hes. by rewrite nth_lookup in Hes.
  - rewrite list_lookup_insert_ne by done. apply grown_refl.
Qed.

(** *** Saving and starting again *)

Context (pickles : forall d, loads (dumps d) = Ok d) (named : conversation_id <> "").

Lemma save_keeps w : well_kept w -> well_kept (save_metrics w) /\ (forall s, known (save_metrics w) s = known w s).
Proof. unfold LlmRegistry.save_metrics. intros []. destruct (file_store w); (split; [by constructor|done]). Qed.
Lemma saved_now w s : is_Some (file_store w) -> saved (file_store (save_metrics w)) s = known w s.
Proof. intros [f Ef]. unfold LlmRegistry.save_metrics, saved. rewrite Ef. cbn. by rewrite read_write_eq, pickles. Qed.
Lemma start_restores c f x w : start conversation_id user_id loads create c f x = (Ok tt, w) ->
  well_kept w /\ file_store w = f /\ forall s m, saved f s = Some m -> known w s = Some m.
Proof.
  unfold start, create_registry_and_conversation_stats, new_registry, bindM, modifyM. cbn [snd fst LlmRegistry.get_llm].
  unfold LlmRegistry.get_llm. cbn [services with_registry registry service_to_llm after_exit dget]. unfold _create_new_llm.
  destruct (create c "agent") as [l|e]; [|done]. cbn [alloc]. unfold getM, liftM. cbv beta iota zeta. unfold notify at 1.
  cbn [subscriber registry with_services with_registry with_heap].
  cbn [file_store with_services with_registry with_heap after_exit snd fst].
  destruct (maybe_restore_metrics _ _ _ f) as [r|e] eqn:Er; [|done]. unfold subscribe, bindM, modifyM, retM. intros [= <-].
  set (sv := {| llm := l; tracked := true; metrics_at := 0%nat |}). set (w1 := with_registry _ _).
  assert (arriving w1 "agent" sv) as Harr.
  { constructor; try done; [by constructor|split; [cbn; lia|done]|]. intros s' Hne. cbn. by case_decide. }
  unfold notify. change (subscriber (registry w1)) with true. cbv iota. change (active_agent_llm (registry w1)) with "agent".
  destruct (register_arriving _ _ _ Harr) as (Hk & Hf & Hother & Hsame). split; [done|]. split; [by rewrite Hf|].
  intros s m E. assert (dget r s = Some m) as Em.
  { unfold saved in E. destruct f as [f|]; [|done]. cbn [mbind option_bind] in E. unfold maybe_restore_metrics in Er.
    rewrite (proj2 (String.eqb_neq _ _) named) in Er. destruct (fs_read path f) as [v|e']; [|done]. by rewrite Er in E. }
  destruct (decide (s = "agent")) as [->|Hne].
  - rewrite Hsame. change (restored_metrics (stats w1)) with r. by rewrite Em.
  - rewrite Hother by done. rewrite known_eq by constructor. exact Em.
Qed.

(** What a conversation can go through: models are asked for and asked, metrics are
    saved, and the process starts again from the files at any time. *)
Inductive step : World -> World -> Prop :=
  | step_get s c w : step w (get_llm s c w).2
  | step_agent s c w : step w (get_llm_from_agent_config create s c w).2
  | step_ask s c w : step w (ask s c w).2
  | step_save w : step w (save_metrics w)
  | step_restart c x w w' : start conversation_id user_id loads create c (file_store w) x = (Ok tt, w') -> step w w'.
Definition started (w : World) : Prop :=
  exists c f x w0, start conversation_id user_id loads create c (Some f) x = (Ok tt, w0) /\ rtc step w0 w.

(** [m] is part of what is known of the service, and of what its file has. *)
Definition safe (s : string) (m : Metrics) (w : World) : Prop :=
  exists m1 m2, known w s = Some m1 /\ grown m m1 /\ saved (file_store w) s = Some m2 /\ grown m m2.
Lemma step_keeps w w' : accounts -> step w w' -> well_kept w -> is_Some (file_store w) ->
  well_kept w' /\ is_Some (file_store w') /\ forall s m, safe s m w -> safe s m w'.
Proof.
  intros Hacc Hstep Hk Hf.
  assert (forall w', well_kept w' /\ advances w w' -> well_kept w' /\ is_Some (file_store w') /\ forall s m, safe s m w -> safe s m w') as Hadv.
  { intros w1 [Hk1 [Ef Hm]]. split; [done|]. rewrite Ef. split; [done|]. intros s m (m1 & m2 & E1 & G1 & E2 & G2).
    destruct (Hm _ _ E1) as (m' & E' & G'). exists m', m2. rewrite Ef. split_and!; eauto using grown_trans. }
  destruct Hstep as [s c w|s c w|s c w|w|c x w w' E].
  - by apply Hadv, get_llm_advances.
  - by apply Hadv, get_agent_llm_advances.
  - by apply Hadv, ask_advances.
  - destruct (save_keeps w Hk) as [Hk' Hkn]. split; [done|]. split.
    { unfold LlmRegistry.save_metrics. destruct Hf as [f ->]. by eexists. }
    intros s m (m1 & m2 & E1 & G1 & _). exists m1, m1. by rewrite Hkn, saved_now.
  - apply start_restores in E as (Hk' & Ef & Hs). split; [done|]. rewrite Ef. split; [done|].
    intros s m (m1 & m2 & _ & _ & E2 & G2). exists m2, m2. rewrite Ef. split_and!; auto.
Qed.
Lemma steps_keep w w' : accounts -> rtc step w w' -> well_kept w -> is_Some (file_store w) ->
  well_kept w' /\ is_Some (file_store w') /\ forall s m, safe s m w -> safe s m w'.
Proof.
  intros Hacc. induction 1 as [w|w w1 w' Hs _ IH]; [auto|]. intros Hk Hf. destruct (step_keeps _ _ Hacc Hs Hk Hf) as (Hk1 & Hf1 & H1).
  destruct (IH Hk1 Hf1) as (Hk' & Hf' & H'). auto.
Qed.
Lemma started_kept w : accounts -> started w -> well_kept w /\ is_Some (file_store w) /\
  forall s m, saved (file_store w) s = Some m -> exists m', known w s = Some m' /\ grown m m'.
Proof.
  intros Hacc (c & f & x & w0 & E & Hr). apply start_restores in E as (Hk & Ef & Hs).
  assert (is_Some (file_store w0)) as Hf by (rewrite Ef; by eexists).
  assert (forall s m, saved (file_store w0) s = Some m -> exists m', known w0 s = Some m' /\ grown m m') as Hc.
  { intros s m Em. rewrite Ef in Em. exists m. split; [by apply Hs|apply grown_refl]. }
  clear Ef Hs f. induction Hr as [w|w w1 w' Hstep Hr IH]; [done|]. destruct (step_keeps _ _ Hacc Hstep Hk Hf) as (Hk1 & Hf1 & H1).
  apply IH; [done..|]. intros s m Em. destruct Hstep as [s' c' w|s' c' w|s' c' w|w|c' x' w w2 E].
  - destruct (get_llm_advances w s' c' Hk) as [_ [Ew Hm]]. rewrite Ew in Em. destruct (Hc _ _ Em) as (m1 & E1 & G1).
    destruct (Hm _ _ E1) as (m2 & E2 & G2). eauto using grown_trans.
  - destruct (get_agent_llm_advances w s' c' Hk) as [_ [Ew Hm]]. rewrite Ew in Em. destruct (Hc _ _ Em) as (m1 & E1 & G1).
    destruct (Hm _ _ E1) as (m2 & E2 & G2). eauto using grown_trans.
  - destruct (ask_advances w s' c' Hacc Hk) as [_ [Ew Hm]]. rewrite Ew in Em. destruct (Hc _ _ Em) as (m1 & E1 & G1).
    destruct (Hm _ _ E1) as (m2 & E2 & G2). eauto using grown_trans.
  - rewrite saved_now in Em by done. destruct (save_keeps w Hk) as [_ Hkn]. exists m. rewrite Hkn. split; [done|apply grown_refl].
  - apply start_restores in E as (_ & Ef & Hs). rewrite Ef in Em. exists m. split; [by apply Hs|apply grown_refl].
Qed.

(** A router asks the primary model whenever there is an image, and stays with it once
    the other one's window was exceeded. *)
Lemma router_prefers_the_primary count ms secondary r key r' : _select_llm count ms secondary r = (Ok key, r') ->
  (existsb contains_image ms = true \/ max_token_exceeded r = true -> key = "primary")
  /\ (max_token_exceeded r = true -> max_token_exceeded r' = true) /\ (key = "primary" \/ key = SECONDARY_MODEL_CONFIG_NAME).
Proof.
  unfold _select_llm. destruct (match secondary with Some _ => _ | None => _ end) as [[|]|e]; [| |done]; intros [= <- <-].
  - split_and!; auto.
  - split_and!; [intros [-> | ->]; by rewrite ?orb_true_r|done|]. destruct (_ || _); auto.
Qed.

(** C18: Whatever a conversation goes through, with any number of restarts, and
    whichever of its models are used again, what was once saved of a model stays
    part of everything that is saved of it later, and of what is known of it: no
    restart, no new model and no completion loses a cost or a token on record.  The
    statistics know exactly the metrics of the models themselves. *)
Theorem saved_metrics_survive w w' s m (Hacc : accounts) (Hw : started w) (Hr : rtc step w w')
    (Hs : saved (file_store w) s = Some m) :
  (exists m', known w' s = Some m' /\ grown m m')
  /\ (exists m', saved (file_store (save_metrics w')) s = Some m' /\ grown m m')
  /\ forall sv, dget (services w') s = Some sv -> known w' s = Some (metrics_of w' (metrics_at sv)).
Proof.
  destruct (started_kept w Hacc Hw) as (Hk & Hf & Hc). destruct (Hc _ _ Hs) as (m1 & E1 & G1).
  destruct (steps_keep _ _ Hacc Hr Hk Hf) as (Hk' & Hf' & Hkeep).
  destruct (Hkeep s m) as (m2 & m3 & E2 & G2 & _ & _). { exists m1, m. split_and!; try done. apply grown_refl. }
  split; [by eauto|]. split; [exists m2; by rewrite saved_now|].
  intros sv Esv. rewrite known_eq by apply Hk'. pose proof (tracked_at _ Hk' s) as Ht. rewrite Esv in Ht. by rewrite <- Ht.
Qed.
End ledger.

(** The completions of [Llm] account for themselves. *)
Lemma completions_account getenv supports_vision {Msg} (as_dict : Msg -> dict string pyval) of_dict windows repr_set str_response `{V : Validator}
    litellm_cost {W} (litellm_completion : dict string pyval -> W -> res (Response (Msg := Msg)) * W) time is_a should_exit on_retry :
  accounts (fun l => completion getenv supports_vision l as_dict of_dict windows repr_set str_response litellm_cost litellm_completion time
                       is_a should_exit on_retry).
Proof.
  intros l c x a. unfold completion.
  pose proof (attempts_charged getenv supports_vision l as_dict of_dict windows repr_set str_response litellm_cost litellm_completion time
                is_a should_exit on_retry (Z.to_nat (num_retries (config l) - 1)) 0 c x a) as (fs & last & Hr & _).
  by exists (concat fs ++ last).
Qed.

(** *** An example *)

(** A pickle that keeps the cost beside the dictionary of the metrics *)
Definition pickle (m : Metrics) : pyval := VList [VStr (model_name m); VFloat (accumulated_cost m); get (with_cost f0 (costs m) m)].
Definition unpickle (v : pyval) : res Metrics :=
  match v with
  | VList [VStr name; VFloat x; v] => m <-! @metrics_from_value strict f0 v ;; Ok (with_model_name name (with_cost x (costs m) m))
  | _ => Raise (OtherError "UnpicklingError" "")
  end.
Lemma unpickle_pickle m : unpickle (pickle m) = Ok m.
Proof. unfold unpickle, pickle. rewrite (@metrics_round_trip strict strict_laws) by done. by destruct m. Qed.
Fixpoint unpickle_all (d : dict string pyval) : res (dict string Metrics) :=
  match d with [] => Ok [] | (k, v) :: d => m <-! unpickle v ;; r <-! unpickle_all d ;; Ok ((k, m) :: r) end.
Definition test_dumps (d : dict string Metrics) : pyval := VDict (map (fun kv => (kv.1, pickle kv.2)) d).
Definition test_loads (v : pyval) : res (dict string Metrics) := match v with VDict d => unpickle_all d | _ => Raise (OtherError "UnpicklingError" "") end.
Lemma test_pickles d : test_loads (test_dumps d) = Ok d.
Proof.
  unfold test_loads, test_dumps. induction d as [|[k m] d IH]; [done|]. cbn [map unpickle_all fst snd]. rewrite unpickle_pickle. cbn [rbind].
  by rewrite IH.
Qed.

Definition test_create (c : LLMConfig) (service : string) : res LLM :=
  Ok {| config := c; service_id := service; model_info := VNone; function_calling_active := false; partial_kwargs := [] |}.
(** Every completion costs one and takes seven tokens. *)
Definition test_complete (l : LLM) (c : Arguments) : M (unit * Account) unit := fun s =>
  match record_all [Spent f0 f1; Used 4 3 0 0 100 "r"] (metrics s.2) with
  | Ok m => (Ok tt, (s.1, Llm.with_metrics m s.2))
  | Raise e => (Raise e, s)
  end.
Lemma test_accounts : accounts test_complete.
Proof.
  intros l c x a. unfold test_complete. cbn [fst snd]. destruct (record_all _ (metrics a)) as [m|e] eqn:E; [|by exists []].
  by exists [Spent f0 f1; Used 4 3 0 0 100 "r"].
Qed.
Definition test_start (f : option InMemoryFileStore) : World (F := InMemoryFileStore) (W := unit) :=
  (start "c" None test_loads test_create text_model f tt).2.
Definition test_save (w : World (F := InMemoryFileStore) (W := unit)) : World := save_metrics "c" None test_dumps w.
Definition two_models : World (F := InMemoryFileStore) (W := unit) :=
  let w := (ask test_complete "agent" counting (test_start (Some []))).2 in
  let w := (get_llm_from_agent_config test_create "condenser" text_model w).2 in
  test_save (ask test_complete "condenser" counting w).2.
Definition restarted : World (F := InMemoryFileStore) (W := unit) := test_start (file_store two_models).
Lemma two_models_started : started "c" None test_dumps test_loads test_create test_complete two_models.
Proof.
  exists text_model, [], tt, (test_start (Some [])). split; [reflexivity|]. unfold two_models, test_save.
  eapply rtc_l; [apply step_ask|]. eapply rtc_l; [apply step_agent|]. eapply rtc_l; [apply step_ask|]. eapply rtc_l; [apply step_save|]. constructor.
Qed.
Lemma saved_metrics_survive_witness :
  exists m m', saved "c" None test_loads (file_store two_models) "condenser" = Some m /\ length (costs m) = 1%nat
               /\ saved "c" None test_loads (file_store (test_save restarted)) "condenser" = Some m' /\ grown m m'.
Proof.
  destruct (saved "c" None test_loads (file_store two_models) "condenser") as [m|] eqn:E; [|exfalso; revert E; vm_compute; done].
  assert (rtc (step "c" None test_dumps test_loads test_create test_complete) two_models restarted) as Hr.
  { apply rtc_once. unfold restarted, test_start. apply step_restart with (c := text_model) (x := tt). vm_compute. reflexivity. }
  destruct (saved_metrics_survive "c" None test_dumps test_loads test_create test_complete test_pickles ltac:(done) two_models restarted
              "condenser" m test_accounts two_models_started Hr E) as (_ & (m' & E' & G) & _).
  exists m, m'. split; [done|]. split; [|split; [exact E'|exact G]].
  assert (length (costs (default (new_metrics "") (saved "c" None test_loads (file_store two_models) "condenser"))) = 1%nat) as Hl
    by (vm_compute; reflexivity).
  by rewrite E in Hl.
Defined.

(** ** Where the code falls short *)

(** After a restart the combined metrics, which the budget is held against, leave out
    the models that were not asked for again. *)
Lemma restart_lowers_the_total :
  accumulated_cost (get_combined_metrics two_models) = float_of_Z 2 /\ accumulated_cost (get_combined_metrics restarted) = f1.
Proof. vm_compute. auto. Qed.
(** The constructor fills in the configuration of its model, and the registry compares
    the result with what it is asked for: the same configuration is refused the
    second time. *)
Definition sonnet : LLMConfig := with_model "claude-sonnet-4-20250514" None text_model.
Lemma same_config_refused :
  let create := new_llm (fun _ => None) (fun _ => None) (fun _ _ => Raise (OtherError "ConnectError" "")) in
  let w := (get_llm create "condenser" (Some sonnet) (test_start (Some []))) in
  w.1 = Ok tt /\ (get_llm create "condenser" (Some sonnet) w.2).1
    = Raise (ValueError "Requesting same service ID condenser with different config, use a new service ID").
Proof. vm_compute. auto. Qed.
