(* ===== verification/RuntimeGate.v ===== *)
(** * The gate of the runtime

    Models how the runtime takes the actions of its stream: [_handle_action] and
    [run_action] of [runtime/base.py], and [send_action_for_execution] of
    [runtime/impl/action_execution/action_execution_client.py].

    The server that executes the actions is a parameter ([post]), and so are the
    calls of MCP tools, the editing by an LLM and the export of provider tokens,
    which may run commands of the runtime's own (the secrets it adds to the stream
    are not modelled), and the icon of a task, which is not a Latin-1 character.
    [requests] is a record of the actions that were sent to the server.

    [commands_need_confirmation] composes the gate with the controller: what the
    user has not confirmed is not run, as far as commands go.  The examples at
    the end show how far that is. *)

From S2P Require Import Prelude Metrics PyStr PyDict PyFloat PyList PyVal Events Serialization FileStore EventStore Stuck State Controller ControllerSafety.

Definition dquote : string := String (chr 34) "".

Section gate.
Context (version : string) (literal_eval : string -> option (dict string pyval)).
Context {F : Type} `{FileStore F} (sid : string) (user_id : option string).
Context {RT : Type} (post : pyval -> float -> RT -> res (dict string pyval) * RT) (llm_based_edit : event -> RT -> res event * RT).
Context (call_tool_mcp : event -> RT -> res event * RT) (export_tokens : event -> RT -> res unit * RT).
Context (is_a : exn -> string -> bool) (status_icon : pyval -> string) (sandbox_timeout : float) (clock : Z -> string).

Record Runtime := { rt_stream : EventStream (F := F); rt : RT; rt_status : list (string * string); requests : list pyval }.
Definition with_rt (x : RT) (r : Runtime) : Runtime := {| rt_stream := rt_stream r; rt := x; rt_status := rt_status r; requests := requests r |}.
Definition with_rt_stream (s : EventStream) (r : Runtime) : Runtime :=
  {| rt_stream := s; rt := rt r; rt_status := rt_status r; requests := requests r |}.
Definition with_rt_status (x : string * string) (r : Runtime) : Runtime :=
  {| rt_stream := rt_stream r; rt := rt r; rt_status := rt_status r ++ [x]; requests := requests r |}.
Definition with_request (v : pyval) (r : Runtime) : Runtime :=
  {| rt_stream := rt_stream r; rt := rt r; rt_status := rt_status r; requests := requests r ++ [v] |}.
Definition on_rt {X} (f : RT -> res X * RT) : M Runtime X := fun r => let '(x, y) := f (rt r) in (x, with_rt y r).
Definition observe (b : body) : M Runtime event := retM (new_event b).

(** ** Actions that no sandbox runs *)

Definition TASKS_file : string := get_conversation_dir sid user_id +:+ "TASKS.md".
Definition task_line (i : Z) (task : dict string pyval) : string :=
  str_of_Z i +:+ ". " +:+ status_icon (default (VStr "todo") (dget task "status")) +:+ " " +:+
  py_str (default (VStr "") (dget task "title")) +:+ newline +:+ py_str (default (VStr "") (dget task "notes")) +:+ newline.
Fixpoint task_lines (i : Z) (tasks : list (dict string pyval)) : string :=
  match tasks with [] => "" | task :: tasks => task_line i task +:+ task_lines (i + 1) tasks end.
Definition task_tracking (command : string) (task_list : list (dict string pyval)) : M Runtime event :=
  if String.eqb command "plan" then
    let content := "# Task List" +:+ newline +:+ newline +:+ task_lines 1 task_list in
    modifyM (fun r => with_rt_stream (with_files (fs_write TASKS_file (VStr content) (file_store (rt_stream r))) (rt_stream r)) r) ;;;
    observe (TaskTrackingObservation ("Task list has been updated with " +:+ str_of_Z (Z.of_nat (length task_list)) +:+
                                      " items. Stored in session directory: " +:+ TASKS_file) command task_list)
  else if String.eqb command "view" then
    r <- getM ;;
    match fs_read TASKS_file (file_store (rt_stream r)) with
    | Ok v => observe (TaskTrackingObservation (py_str v) command [])
    | Raise x =>
        if is_not_found x
        then observe (TaskTrackingObservation ("No task list found. Use the " +:+ dquote +:+ "plan" +:+ dquote +:+ " command to create one.") command [])
        else observe (TaskTrackingObservation ("Failed to read the task list from session directory " +:+ TASKS_file +:+ ". Error: " +:+
                                               exn_str x) command [])
    end
  else observe (TaskTrackingObservation ("Unknown command: " +:+ command) command []).

Definition thought_logged : body := AgentThinkObservation "Your thought has been logged.".
Definition rejected_by_user : body := UserRejectObservation "Action has been rejected by the user! Waiting for further user input.".

(** ** [send_action_for_execution] *)

(** The confirmation state that a copy of an action has. *)
Definition waits (e : event) : bool := bool_decide (field_confirmation (data e) = Some AWAITING_CONFIRMATION).
Definition rejected (e : event) : bool := bool_decide (field_confirmation (data e) = Some REJECTED).
Definition with_default_timeout (e : event) : event :=
  match _timeout e with None => set_hard_timeout (Some sandbox_timeout) false e | Some _ => e end.
Definition blocking (b : body) : bool := match b with CmdRunAction _ _ _ bl _ _ _ _ _ => bl | _ => false end.
Definition by_llm (b : body) : bool := match b with FileEditAction _ _ _ _ _ _ _ _ _ _ _ LLM_BASED_EDIT => true | _ => false end.
(** The methods of the runtime named like the type of an action. *)
Definition runtime_methods : list string := ["run"; "run_ipython"; "read"; "write"; "edit"; "browse"; "browse_interactive"; "call_tool_mcp"].
Definition not_supported (t error_id : string) : body :=
  ErrorObservation ("Action " +:+ t +:+ " is not supported in the current runtime.") error_id.
Definition hide_output (hidden : bool) (output : dict string pyval) : res (dict string pyval) :=
  if hidden then match dget output "extras" with
                 | Some (VDict d) => Ok (dset output "extras" (VDict (dset d "hidden" (VBool true))))
                 | _ => Raise (TypeError "object does not support item assignment")
                 end
  else Ok output.
Definition with_cause (cause : option Z) (e : event) : event := with_ids (_id e) cause (_tool_call_metadata e) e.

(** The request to the server, and the observation in its answer. *)
Definition request (e : event) (timeout : float) (d : dict string pyval) : M Runtime event :=
  let v := VDict [("action", VDict d)] in
  fun s => match on_rt (post v (fadd timeout (float_of_Z 5))) (with_request v s) with
           | (Raise x, s) =>
               (if is_a x "TimeoutException"
                then raiseM (OtherError "AgentRuntimeTimeoutError"
                               ("Runtime failed to return execute_action before the requested timeout of " +:+ py_str (VFloat timeout) +:+ "s"))
                else raiseM x) s
           | (Ok output, s) =>
               (output <- liftM (hide_output (hidden_attr e) output) ;;
                obs <- liftM (observation_from_dict output) ;;
                retM (with_cause (Some (event_id e)) obs)) s
           end.
Definition execute (e : event) (timeout : float) : M Runtime event := d <- liftM (event_to_dict e) ;; request e timeout d.
Definition send_action_for_execution (e : event) : M Runtime event :=
  if by_llm (data e) then on_rt (llm_based_edit e)
  else match _timeout e with
  | None => if blocking (data e) then raiseM (RuntimeError "Blocking command with no timeout set") else retM tt
  | Some _ => retM tt
  end ;;;
  let e := with_default_timeout e in
  if negb (runnable (data e))
  then observe match data e with AgentThinkAction _ => thought_logged | _ => NullObservation "" end
  else if waits e then observe (NullObservation "")
  else match action_fields version (event_type (data e)) with
  | None => raiseM (ValueError ("Action " +:+ event_type (data e) +:+ " does not exist."))
  | Some _ =>
      if negb (bool_decide (event_type (data e) ∈ runtime_methods))
      then observe (not_supported (event_type (data e)) "AGENT_ERROR$BAD_ACTION")
      else if rejected e then observe rejected_by_user
      else match _timeout e with
           | None => raiseM (OtherError "AssertionError" "")
           | Some timeout => execute e timeout
           end
  end.

(** ** [run_action], [_handle_action] *)

Definition run_action (e : event) : M Runtime event :=
  if negb (runnable (data e)) then
    match data e with
    | AgentThinkAction _ => observe thought_logged
    | TaskTrackingAction command task_list _ => task_tracking command task_list
    | _ => observe (NullObservation "")
    end
  else if waits e then observe (NullObservation "")
  else match action_fields version (event_type (data e)) with
  | None => observe (ErrorObservation ("Action " +:+ event_type (data e) +:+ " does not exist.") "")
  | Some _ =>
      if negb (bool_decide (event_type (data e) ∈ runtime_methods)) then observe (not_supported (event_type (data e)) "")
      else if rejected e then observe rejected_by_user
      else send_action_for_execution e
  end.

Definition is_mcp (b : body) : bool := match b with MCPAction _ _ _ _ => true | _ => false end.
Definition report (x : exn) : M Runtime unit :=
  let status := if is_a x "NetworkError" || is_a x "AgentRuntimeDisconnectedError" then "STATUS$ERROR_RUNTIME_DISCONNECTED" else "STATUS$ERROR" in
  modifyM (with_rt_status (status, exn_name x +:+ ": " +:+ exn_str x)).
Definition publish_observation (e obs : event) : M Runtime unit :=
  let obs := with_ids (_id obs) (Some (event_id e)) (_tool_call_metadata e) obs in
  match data obs with
  | NullObservation _ => retM tt
  | _ => fun r =>
           let st := rt_stream r in
           let '(x, st) := add_event version literal_eval sid user_id (clock (default 0 (_cur_id st))) obs (default AGENT (_source e)) st in
           ((_ <-! x ;; Ok tt), with_rt_stream st r)
  end.
Definition handle_runtime_action (e : event) : M Runtime unit :=
  fun r =>
    let e := with_default_timeout e in
    match (on_rt (export_tokens e) ;;; if is_mcp (data e) then on_rt (call_tool_mcp e) else run_action e) r with
    | (Ok obs, r) => publish_observation e obs r
    | (Raise (PermissionError m), r) => publish_observation e (new_event (ErrorObservation m "")) r
    | (Raise x, r) => report x r
    end.
(** [on_event] *)
Definition runtime_on_event (e : event) : M Runtime unit := if is_action (data e) then handle_runtime_action e else retM tt.

(** ** What reaches the server *)

(** The commands and IPython cells among the requests. *)
Definition posts_command (v : pyval) : bool :=
  match v with
  | VDict [(_, VDict d)] => match dget d "action" with Some (VStr t) => String.eqb t "run" || String.eqb t "run_ipython" | _ => false end
  | _ => false
  end.
Definition sent_commands (r : Runtime) : nat := length (List.filter posts_command (requests r)).

Definition ran (n : nat) (r r' : Runtime) : Prop := (sent_commands r' <= sent_commands r + n)%nat.
#[local] Instance ran_pre : PreOrder (ran 0).
Proof. split; unfold ran; [intros r; lia|intros x y z; lia]. Qed.
Lemma ran_bind {X Y} n m (f : M Runtime X) (k : X -> M Runtime Y) :
  steps (ran n) f -> (forall x, steps (ran m) (k x)) -> steps (ran (n + m)) (bindM f k).
Proof.
  unfold ran. intros Hf Hk r. unfold bindM. specialize (Hf r). destruct (f r) as [[x|e] r']; cbn [snd] in *; [|lia].
  specialize (Hk x r'). cbv beta in Hk. lia.
Qed.
Lemma ran_weaken {X} n (f : M Runtime X) : steps (ran 0) f -> steps (ran n) f.
Proof. unfold ran. intros Hf r. specialize (Hf r). cbv beta in Hf. lia. Qed.
Lemma ran_on_rt {X} (f : RT -> res X * RT) : steps (ran 0) (on_rt f).
Proof. intros r. unfold on_rt, ran, sent_commands. destruct (f (rt r)). cbn. lia. Qed.

Definition command_count (e : event) : nat := if is_command (data e) then 1 else 0.
Lemma posts_command_of e d : event_to_dict e = Ok d -> posts_command (VDict [("action", VDict d)]) = true -> is_command (data e) = true.
Proof.
  intros Hd. unfold posts_command. unfold event_to_dict in Hd. destruct (message (data e)) as [m|]; [|done]. cbn [rbind] in Hd.
  cbv zeta in Hd. injection Hd as <-. rewrite dget_app.
  match goal with |- context [top_level ?a ?b ?c ?d ?e ?f ?g ?h ?i] => destruct (top_level_keys a b c d e f g h i) as (_&_&_&_&_&_&->&_) end.
  destruct (data e); try done; by vm_compute.
Qed.
Lemma ran_request e timeout d : event_to_dict e = Ok d -> steps (ran (command_count e)) (request e timeout d).
Proof.
  intros Hd r. unfold request. cbv zeta. set (v := VDict [("action", VDict d)]).
  assert (ran (command_count e) r (with_request v r)) as Hr.
  { unfold ran, sent_commands, command_count. cbn [requests with_request]. rewrite List.filter_app, length_app. cbn [List.filter].
    pose proof (posts_command_of e d Hd) as Hc. fold v in Hc. destruct (posts_command v); [rewrite Hc by done|]; cbn; lia. }
  pose proof (ran_on_rt (post v (fadd timeout (float_of_Z 5))) (with_request v r)) as Hp.
  destruct (on_rt _ _) as [[output|x] r']; cbn [snd] in Hp.
  - destruct (hide_output _ _) as [o|]; [unfold bindM, liftM; destruct (observation_from_dict o)|]; unfold ran in *; cbn; lia.
  - destruct (is_a _ _); unfold ran in *; cbn; lia.
Qed.
Lemma ran_execute e timeout : steps (ran (command_count e)) (execute e timeout).
Proof.
  intros r. unfold execute, bindM, liftM. destruct (event_to_dict e) as [d|] eqn:Hd; [by apply ran_request|]. unfold ran. cbn. lia.
Qed.

Lemma default_timeout_gate e : let e' := with_default_timeout e in
  is_command (data e') = is_command (data e) /\ field_confirmation (data e') = field_confirmation (data e).
Proof. unfold with_default_timeout. destruct (_timeout e); [done|]. cbn. by destruct (data e). Qed.
Lemma runs_command_copy e : is_command (data e) = true -> waits e = false -> rejected e = false -> runs_command e = true.
Proof.
  unfold runs_command, waits, rejected. intros ->. cbn [andb]. destruct (field_confirmation (data e)) as [[]|]; try done; by intros; case_bool_decide.
Qed.
Definition run_count (e : event) : nat := if runs_command e then 1 else 0.
Lemma default_timeout_count e : run_count (with_default_timeout e) = run_count e.
Proof. unfold run_count, runs_command. by destruct (default_timeout_gate e) as [-> ->]. Qed.

Ltac walk_ran :=
  repeat match goal with
  | |- steps (ran _) (observe _) => apply ran_weaken; unfold observe
  | |- steps (ran _) (raiseM _) => apply ran_weaken, steps_raise, ran_pre
  | |- steps (ran 0) (retM _) => apply steps_ret, ran_pre
  | |- steps _ (match ?x with _ => _ end) => destruct x eqn:?
  end.
Lemma ran_send e : steps (ran (run_count e)) (send_action_for_execution e).
Proof.
  unfold send_action_for_execution. destruct (by_llm (data e)); [apply ran_weaken, ran_on_rt|].
  apply (ran_bind 0 (run_count e)); [walk_ran|intros _]. rewrite <- default_timeout_count. set (e' := with_default_timeout e).
  walk_ran. match goal with |- steps _ (execute _ ?t) => pose proof (ran_execute e' t) as Hx end. unfold run_count, command_count in *. destruct (is_command (data e')) eqn:Hc.
  - by rewrite runs_command_copy.
  - by apply ran_weaken.
Qed.
Lemma ran_run_action e : steps (ran (run_count e)) (run_action e).
Proof.
  unfold run_action, task_tracking. walk_ran; try apply ran_send.
  all: apply ran_weaken; intros r; unfold ran, bindM, getM, sent_commands; cbn; try lia.
  destruct (fs_read _ _) as [|x]; [|destruct (is_not_found x)]; cbn; lia.
Qed.
Lemma ran_publish_observation e obs r : requests (publish_observation e obs r).2 = requests r.
Proof.
  unfold publish_observation. destruct (data _); try done; by destruct (add_event _ _ _ _ _ _ _ _).
Qed.
Lemma ran_on_event e : steps (ran (run_count e)) (runtime_on_event e).
Proof.
  unfold runtime_on_event. destruct (is_action (data e)); [|apply ran_weaken; walk_ran].
  intros r. unfold handle_runtime_action. rewrite <- default_timeout_count. set (e' := with_default_timeout e).
  assert (steps (ran (run_count e')) (on_rt (export_tokens e') ;;; if is_mcp (data e') then on_rt (call_tool_mcp e') else run_action e')) as Hr.
  { apply (ran_bind 0 (run_count e')); [apply ran_on_rt|intros _].
    destruct (is_mcp (data e')); [apply ran_weaken, ran_on_rt|apply ran_run_action]. }
  specialize (Hr r). destruct ((_ ;;; _) r) as [[obs|[]] r']; cbn [snd] in *; try exact Hr; unfold ran, sent_commands; by rewrite ran_publish_observation.
Qed.

(** Handling events one after the other. *)
Definition handle_all (es : list event) (r : Runtime) : Runtime := foldl (fun r e => (runtime_on_event e r).2) r es.
Lemma ran_handle_all es r : (sent_commands (handle_all es r) <= sent_commands r + length (List.filter runs_command es))%nat.
Proof.
  revert r; induction es as [|e es IH]; intros r; unfold handle_all in *; cbn [foldl List.filter length]; [lia|].
  specialize (IH (runtime_on_event e r).2). pose proof (ran_on_event e r) as He. unfold ran, run_count in He.
  destruct (runs_command e); cbn [length]; lia.
Qed.

(** *** With the controller *)

Context (text : dict string pyval -> string).
Context {A : Type} (agent_step : string -> State -> A -> res (option event) * A) (agent_reset : string -> A -> A).
Context (system_message : string -> AgentConfig -> option event) (get_cls : string -> res string) (agent_configs : dict string AgentConfig).
Context (accumulated_cost : A -> float) (frontend_metrics : A -> option float -> Metrics).
Context (security_analyzer : option (event -> A -> res ActionSecurityRisk * A)).
Context (retries_exhausted : exn -> bool) (status_callback headless_mode : bool).
Definition controller_on_events (es : list event) (s : World (F := F) (A := A) * Controller) : World * Controller :=
  foldl (fun s e => (on_event text version literal_eval sid user_id agent_step agent_reset system_message get_cls agent_configs accumulated_cost
    frontend_metrics security_analyzer is_a retries_exhausted status_callback headless_mode clock e s).2) s es.

(** C3: No command is run without a confirmation.  A conversation in confirmation
    mode, without a security analyzer or on the command line, without secrets on its
    stream, without a delegate and with nothing on its queue yet, handles any events but
    delegations, whatever the
    agent, the files and the failures; then of the commands and IPython cells that
    were published the runtime sends the server at most as many as the user gave
    confirmations.  (What the export of tokens runs of its own is not counted, and a
    delegate has no confirmation mode: see [delegate_asks_nothing].) *)
Theorem commands_need_confirmation es s r :
  asking security_analyzer s -> _queue (stream s.1) = [] -> Forall (fun e => is_delegation e = false) es ->
  (sent_commands (handle_all (_queue (stream (controller_on_events es s).1)) r) <= sent_commands r + list_sum (map confirms es))%nat.
Proof.
  intros Ha Hq Hes. etrans; [apply ran_handle_all|].
  pose proof (commands_confirmed text version literal_eval sid user_id agent_step agent_reset system_message get_cls agent_configs
    accumulated_cost frontend_metrics security_analyzer is_a retries_exhausted status_callback headless_mode clock es s Ha Hes) as Hc.
  unfold commands in Hc. rewrite Hq in Hc. unfold controller_on_events. cbn [List.filter length] in Hc. lia.
Qed.
End gate.

(** ** Conversations *)

(** A server that answers every request. *)
Definition answer (v : pyval) (timeout : float) (posts : list pyval) : res (dict string pyval) * list pyval :=
  (Ok [("observation", VStr "success"); ("content", VStr ""); ("extras", VDict [])], posts ++ [v]).
Definition nothing_done {X} (e : event) (posts : list pyval) : res X * list pyval := (Raise (RuntimeError ""), posts).
Definition mcp_called (e : event) (posts : list pyval) : res event * list pyval :=
  (Ok (new_event (SuccessObservation "")), posts ++ [VStr "MCP"]).
Definition exported (e : event) (posts : list pyval) : res unit * list pyval := (Ok tt, posts).
Definition runtime0 : Runtime (F := InMemoryFileStore) (RT := list pyval) := {| rt_stream := new_stream []; rt := []; rt_status := []; requests := [] |}.
Definition converse (b : body) (es : list event) : World (F := InMemoryFileStore) (A := nat) * Controller :=
  controller_on_events "1" (fun _ => None) "s" None no_is_a clock0 (fun _ => "") (always b) (fun _ n => n) (fun _ _ => None)
    (fun name => Ok name) [] (fun _ => f0) (fun _ _ => new_metrics "default") None (fun _ => false) false true es conversation0.
Definition handled (b : body) (es : list event) : Runtime (F := InMemoryFileStore) (RT := list pyval) :=
  handle_all "1" (fun _ => None) "s" None answer nothing_done mcp_called exported no_is_a (fun _ => "") (float_of_Z 120) clock0
        (_queue (stream (converse b es).1)) runtime0.
Definition posted (b : body) (es : list event) : list pyval := rt (handled b es).

Lemma commands_need_confirmation_witness :
  let es := [hello; recalled; user_says USER_CONFIRMED] in
  sent_commands (handled list_files_command es) = 1%nat /\ (sent_commands (handled list_files_command es) <= 0 + 1)%nat.
Proof.
  split; [by vm_compute|].
  refine (commands_need_confirmation "1" (fun _ => None) "s" None answer nothing_done mcp_called exported no_is_a (fun _ => "")
    (float_of_Z 120) clock0 (fun _ => "") (always list_files_command)
    (fun _ n => n) (fun _ _ => None) (fun name => Ok name) [] (fun _ => f0) (fun _ _ => new_metrics "default") None (fun _ => false) false true
    [hello; recalled; user_says USER_CONFIRMED] conversation0 runtime0 _ _ _).
  - unfold asking. split_and!; try reflexivity. by left.
  - reflexivity.
  - repeat constructor.
Defined.
Example command_waits : agent_state (state (converse list_files_command [hello; recalled]).2) = AWAITING_USER_CONFIRMATION /\
  posted list_files_command [hello; recalled] = [] /\
  length (posted list_files_command [hello; recalled; user_says USER_CONFIRMED]) = 1%nat /\
  posted list_files_command [hello; recalled; user_says USER_REJECTED] = [].
Proof. by vm_compute. Qed.

(** A file is written while the user is asked, and written again when the user
    refuses: [confirmation_state] is not a field of [FileWriteAction]. *)
Example write_not_held : agent_state (state (converse write_file [hello; recalled]).2) = AWAITING_USER_CONFIRMATION /\
  length (posted write_file [hello; recalled]) = 1%nat /\
  length (posted write_file [hello; recalled; user_says USER_REJECTED]) = 2%nat.
Proof. by vm_compute. Qed.
(** MCP tools are called without a look at the confirmation. *)
Definition call_tool : body := MCPAction "delete_repository" [] "" RISK_HIGH.
Example tool_not_held : agent_state (state (converse call_tool [hello; recalled]).2) = AWAITING_USER_CONFIRMATION /\
  posted call_tool [hello; recalled] = [VStr "MCP"] /\
  posted call_tool [hello; recalled; user_says USER_REJECTED] = [VStr "MCP"; VStr "MCP"].
Proof. by vm_compute. Qed.

(** A delegate is made with neither confirmation mode. *)
Definition delegate_to (i : Z) : event :=
  with_source (Some AGENT) (with_ids (Some i) None None (new_event (AgentDelegateAction "BrowsingAgent" [("task", VStr "look")] ""))).
Definition task (i : Z) : event := with_ids (Some i) None None (from_user (MessageAction "TASK: look" None None false RISK_UNKNOWN)).
Definition recalled_at (i : Z) : event :=
  with_ids (Some 100) (Some i) None (new_event (RecallObservation "" KNOWLEDGE "" "" "" "" [] "" "" [] "" "" [])).
Example delegate_asks_nothing : length (posted list_files_command [delegate_to 50; task 51; recalled_at 2]) = 1%nat.
Proof. by vm_compute. Qed.

(** The delegate of a delegate gets no events: its agent is never called. *)
Definition delegated_twice : list event := [delegate_to 50; task 51; delegate_to 60; task 61; recalled_at 2; recalled_at 4; recalled_at 5].
Definition state_of (c : Controller) : string := agent_state (state c).
Example second_delegate_deaf :
  let s := converse list_files_command delegated_twice in
  (d ← delegate s.2; d' ← delegate d; Some (state_of d, state_of d', history (state d'))) = Some (RUNNING, RUNNING, []) /\ agents s.1 = 0%nat.
Proof. by vm_compute. Qed.

(** A message while the agent waits takes the place of the pending action: the
    confirmation that follows publishes the recall of that message again, and the
    command is never run. *)
Example message_replaces_pending :
  let s := converse list_files_command [hello; recalled; hello; user_says USER_CONFIRMED] in
  (event_type ∘ data ∘ ev <$> pending_action s.2) = Some "recall" /\
  posted list_files_command [hello; recalled; hello; user_says USER_CONFIRMED] = [].
Proof. by vm_compute. Qed.
