(* ===== verification/Paging.v ===== *)
(** * Pages of results

    Models [app_server/utils/paging_utils.py] and [utils/search_utils.py]: page
    ids, the slicing of a list, and [iterate], the loop of a client that follows
    the page ids.

    [serves_pages] is what a search promises to that loop: the pages of one
    list, cut at multiples of a size, whatever the ids are made of.
    [iterate_all] shows that the loop then ends and yields the list; the
    searches of the program are proved to keep the promise in the files of
    their components. *)

From Stdlib Require Import Ascii.
From S2P Require Import Prelude PyStr PyList EventStore EventLog.

Record page (A : Type) := { items : list A; next_page_id : option string }.
Arguments items {A} _.
Arguments next_page_id {A} _.

(** ** [paging_utils.py] *)

Definition encode_page_id (value : Z) : string := rstrip_by (is_char "="%char) (urlsafe_b64encode (str_of_Z value)).

(** [page_id + '=' * (4 - len(page_id) % 4)], and nothing raises. *)
Definition decode_page_id (page_id : option string) : option Z :=
  match page_id with
  | None | Some "" => None
  | Some page_id =>
      let padded := page_id +:+ Nat.iter (4 - slen page_id mod 4) (String "="%char) "" in
      match (decoded <-! urlsafe_b64decode_bytes padded ;; text <-! utf8_decode decoded ;; int_of_str text) with
      | Ok value => Some value
      | Raise _ => None
      end
  end.

Definition paginate_results {A} (l : list A) (page_id : option string) (limit : Z) : list A * option string :=
  let start_offset := default 0 (decode_page_id page_id) in
  let end_offset := start_offset + limit in
  (slice_list l start_offset end_offset,
   if end_offset <? Z.of_nat (length l) then Some (encode_page_id end_offset) else None).

(** ** [search_utils.py] *)

Definition offset_to_page_id (offset : Z) (has_next : bool) : option string :=
  if has_next then Some (b64encode (str_of_Z offset)) else None.
Definition page_id_to_offset (page_id : option string) : res Z :=
  match page_id with
  | None | Some "" => Ok 0
  | Some page_id => decoded <-! b64decode page_id ;; text <-! utf8_decode decoded ;; int_of_str text
  end.

(** [iterate(fn)] asks for page after page; it yields what it got before a
    search that raises.  [None] is a loop that has not ended within the fuel. *)
Section iterate.
Context {S A : Type} (fn : option string -> M S (page A)).

Fixpoint iterate_from (fuel : nat) (page_id : option string) (s : S) : option (gen A * S) :=
  match fuel with
  | O => None
  | Datatypes.S fuel =>
      match fn page_id s with
      | (Raise x, s) => Some (([], Some x), s)
      | (Ok result_set, s) =>
          match next_page_id result_set with
          | None => Some ((items result_set, None), s)
          | Some id =>
              match iterate_from fuel (Some id) s with
              | None => None
              | Some (g, s) => Some ((items result_set ++ g.1, g.2), s)
              end
          end
      end
  end.
Definition iterate (fuel : nat) : S -> option (gen A * S) := iterate_from fuel None.

(** ** The contract of a paged search *)

Definition page_at (id_of : nat -> string) (l : list A) (size bound k : nat) : page A :=
  {| items := take size (drop (k * size) l);
     next_page_id := if bool_decide (Datatypes.S k * size < bound)%nat then Some (id_of (Datatypes.S k)) else None |}.

(** In the states [I], which it does not leave, the search gives the pages of
    [l]; page [k] exists if it starts before [bound]. *)
Record serves_pages (I : S -> Prop) (id_of : nat -> string) (l : list A) (size bound : nat) : Prop := {
  first_page s : I s -> exists s', fn None s = (Ok (page_at id_of l size bound 0), s') /\ I s';
  later_page k s : I s -> (0 < k)%nat -> (k * size < bound)%nat ->
    exists s', fn (Some (id_of k)) s = (Ok (page_at id_of l size bound k), s') /\ I s';
}.

Section serves.
Context (I : S -> Prop) (id_of : nat -> string) (l : list A) (size bound : nat).
Context (Hserves : serves_pages I id_of l size bound) (Hbound : (length l <= bound)%nat) (Hsize : (0 < size)%nat).

Lemma iterate_pages fuel k s : I s -> (k = 0 \/ k * size < bound)%nat -> (0 < fuel)%nat -> (bound <= (k + fuel) * size)%nat ->
  exists s', iterate_from fuel (if bool_decide (k = 0%nat) then None else Some (id_of k)) s = Some ((drop (k * size) l, None), s') /\ I s'.
Proof.
  revert k s; induction fuel as [|fuel IH]; intros k s Hs Hk Hf Hle; [lia|]. cbn [iterate_from].
  assert (exists s', fn (if bool_decide (k = 0%nat) then None else Some (id_of k)) s = (Ok (page_at id_of l size bound k), s') /\ I s')
    as (s1 & -> & Hs1).
  { case_bool_decide as Hk0; [subst k; by apply (first_page _ _ _ _ _ Hserves)|]. apply (later_page _ _ _ _ _ Hserves); [done|lia..]. }
  unfold page_at. cbn [items next_page_id]. case_bool_decide as Hn.
  - destruct (IH (Datatypes.S k) s1 Hs1) as (s2 & E & Hs2); [lia|nia|lia|]. rewrite bool_decide_false in E by done. rewrite E.
    exists s2. split; [|done]. cbn [fst snd]. do 3 f_equal. rewrite <- (take_drop size (drop (k * size) l)) at 2.
    by rewrite drop_drop, (Nat.add_comm (k * size)).
  - exists s1. split; [|done]. by rewrite take_ge by (rewrite length_drop; lia).
Qed.

Lemma iterate_all fuel s : I s -> (0 < fuel)%nat -> (bound <= fuel * size)%nat ->
  exists s', iterate fuel s = Some ((l, None), s') /\ I s'.
Proof. intros Hs Hf Hle. apply (iterate_pages fuel 0 s); [done|by left|done|lia]. Qed.
End serves.

(** More fuel does not change the answer. *)
Lemma iterate_det fuel fuel' id s r r' : iterate_from fuel id s = Some r -> iterate_from fuel' id s = Some r' -> r = r'.
Proof.
  revert fuel' id s r r'; induction fuel as [|fuel IH]; intros [|fuel'] id s r r'; cbn [iterate_from]; [done..|].
  destruct (fn id s) as [[p|x] s1]; [|congruence]. destruct (next_page_id p) as [n|]; [|congruence].
  destruct (iterate_from fuel (Some n) s1) as [[g s2]|] eqn:E; [|done].
  destruct (iterate_from fuel' (Some n) s1) as [[g' s2']|] eqn:E'; [|done].
  pose proof (IH _ _ _ _ _ E E') as Heq. congruence.
Qed.

(** A search that answers every page id with a next one is followed for ever. *)
Lemma iterate_never (I : S -> Prop) :
  (forall id s, I s -> exists p s', fn id s = (Ok p, s') /\ next_page_id p <> None /\ I s') ->
  forall fuel id s, I s -> iterate_from fuel id s = None.
Proof.
  intros Hfn fuel; induction fuel as [|fuel IH]; intros id s Hs; [done|]. cbn [iterate_from].
  destruct (Hfn id s Hs) as (p & s' & -> & Hn & Hs'). destruct (next_page_id p) as [n|]; [|done]. by rewrite IH.
Qed.
End iterate.

(** ** Page ids are read back *)

Lemma digits_ascii z : sall is_ascii (str_of_Z z) = true.
Proof.
  assert (forall y, 0 <= y -> sall is_ascii (str_of_Z y) = true) as Hn.
  { intros y Hy. destruct (str_of_Z_digits y Hy) as [Hd _]. revert Hd. apply sall_impl. intros [[][][][][][][][]]; by vm_compute. }
  destruct (Z.ltb_spec z 0); [|by apply Hn]. specialize (Hn (- z) ltac:(lia)). unfold str_of_Z in *.
  rewrite (proj2 (Z.ltb_lt z 0)) by done. rewrite (proj2 (Z.ltb_ge (- z) 0)) in Hn by lia. by rewrite sall_app, Hn.
Qed.
Lemma encode_nonempty z : encode_page_id z <> "".
Proof.
  unfold encode_page_id. intros E. pose proof (urlsafe_round_trip (str_of_Z z)) as Hr. unfold unpadded in Hr.
  change pad_char with "="%char in Hr. rewrite E in Hr. injection Hr as Hr. unfold str_of_Z in Hr.
  destruct (z <? 0); [done|]. by apply (digits_go_nonempty _ _ _ (eq_sym Hr)).
Qed.
Lemma decode_encode z : 0 <= z < 2 ^ 64 -> decode_page_id (Some (encode_page_id z)) = Some z.
Proof.
  intros Hz. pose proof (urlsafe_round_trip (str_of_Z z)) as Hr. pose proof (encode_nonempty z) as Hne. unfold decode_page_id.
  unfold repad, unpadded in Hr. change pad_char with "="%char in Hr. fold (encode_page_id z) in Hr.
  destruct (encode_page_id z) as [|c s]; [done|]. cbv zeta. rewrite Hr. cbn [rbind].
  rewrite utf8_ascii by apply digits_ascii. cbn [rbind]. by rewrite int_of_digits.
Qed.
Lemma b64encode_nonempty s : s <> "" -> b64encode s <> "".
Proof. destruct s as [|a [|b [|c s]]]; done. Qed.
Lemma offset_read_back z : 0 <= z < 2 ^ 64 -> page_id_to_offset (offset_to_page_id z true) = Ok z.
Proof.
  intros Hz. pose proof (b64decode_round_trip (str_of_Z z)) as Hr.
  assert (b64encode (str_of_Z z) <> "") as Hne by (apply b64encode_nonempty, str_of_Z_digits; lia). unfold page_id_to_offset, offset_to_page_id.
  destruct (b64encode (str_of_Z z)) as [|c s]; [done|]. rewrite Hr. cbn [rbind].
  rewrite utf8_ascii by apply digits_ascii. cbn [rbind]. by rewrite int_of_digits.
Qed.

(** ** Slices of a list *)

Lemma slice_list_nonneg {A} (l : list A) i n : 0 <= i -> 0 <= n -> slice_list l i (i + n) = take (Z.to_nat n) (drop (Z.to_nat i) l).
Proof.
  intros Hi Hn. unfold slice_list. cbv zeta. rewrite !slice_pos_nonneg by lia. rewrite Z2Nat.inj_add by done.
  destruct (Nat.le_ge_cases (length l) (Z.to_nat i)) as [Hle|Hle].
  - rewrite (Nat.min_l _ (Z.to_nat i)) by done. rewrite (drop_ge l) by done. rewrite drop_ge; [by rewrite take_nil|].
    rewrite length_take. lia.
  - rewrite (Nat.min_r _ (Z.to_nat i)) by done. destruct (Nat.le_ge_cases (length l) (Z.to_nat i + Z.to_nat n)) as [Hn'|Hn'].
    + rewrite Nat.min_l, firstn_all by done. rewrite take_ge; [done|]. rewrite length_drop. lia.
    + rewrite Nat.min_r by done. by rewrite take_drop_commute.
Qed.

(** [paginate_results] serves the pages of its list. *)
Lemma paginate_serves {S A} (l : list A) (limit : Z) : 1 <= limit -> Z.of_nat (length l) < 2 ^ 64 ->
  serves_pages (S := S) (fun id s => let '(i, n) := paginate_results l id limit in (Ok {| items := i; next_page_id := n |}, s))
    (fun _ => True) (fun k => encode_page_id (Z.of_nat k * limit)) l (Z.to_nat limit) (length l).
Proof.
  intros Hlim Hlen.
  assert (forall k, paginate_results l (if bool_decide (k = 0%nat) then None else Some (encode_page_id (Z.of_nat k * limit))) limit =
    (take (Z.to_nat limit) (drop (k * Z.to_nat limit) l),
     if bool_decide (Datatypes.S k * Z.to_nat limit < length l)%nat then Some (encode_page_id (Z.of_nat (Datatypes.S k) * limit)) else None)
    \/ ~ (k * Z.to_nat limit < length l)%nat /\ k <> 0%nat) as Hp.
  { intros k. destruct (decide (k * Z.to_nat limit < length l \/ k = 0)%nat) as [Hk|Hk]; [left|right; lia]. unfold paginate_results.
    assert (default 0 (decode_page_id (if bool_decide (k = 0%nat) then None else Some (encode_page_id (Z.of_nat k * limit)))) =
      Z.of_nat k * limit) as ->.
    { case_bool_decide; [by subst k|]. rewrite decode_encode by nia. done. }
    rewrite slice_list_nonneg by nia. f_equal; [|].
    - f_equal. f_equal. nia.
    - replace (Z.of_nat k * limit + limit) with (Z.of_nat (Datatypes.S k) * limit) by lia.
      destruct (Z.ltb_spec (Z.of_nat (Datatypes.S k) * limit) (Z.of_nat (length l))) as [Hlt|Hge].
      + by rewrite bool_decide_true by nia.
      + by rewrite bool_decide_false by nia. }
  split.
  - intros s _. exists s. destruct (Hp 0%nat) as [E|[]]; [|done]. rewrite bool_decide_true in E by done. by rewrite E.
  - intros k s _ Hk Hlt. exists s. destruct (Hp k) as [E|[]]; [|done]. rewrite bool_decide_false in E by lia. by rewrite E.
Qed.
