(* ===== verification/EventService.v ===== *)
(** * The event service of the application server

    Models [app_server/event/event_service_base.py]: where the events of a
    conversation are kept, searching and counting them with filters, pages and
    order, saving and fetching them; and of its back ends
    [filesystem_event_service.py] and the listing of [aws_event_service.py].

    Events, their timestamps and their text are the SDK's, and parameters here;
    so is [page_iterator], for which the contract of [Paging.iterate] is
    assumed.  [EventFiles] is what the service needs of a back end.  The files in
    [search_paths] are read one after the other; the program reads them at once
    and keeps their order. *)

From Stdlib Require Import Ascii.
From S2P Require Import Prelude PyStr PyDict PyList PyPath FileStore EventStore EventLog Paging.

(** ** Back ends *)

Class EventFiles (E F : Type) := {
  load_event : PurePath -> F -> option E;
  store_event : PurePath -> E -> M F unit;
  search_paths : PurePath -> F -> list PurePath;
}.

(** A file name as the service makes it. *)
Definition file_name (n : string) : Prop := n <> "" /\ no_sep n = true /\ keep_part n = true /\ startswith "." n = false.

(** What saving an event into a directory [d] does to loading and listing there. *)
Class EventFilesLaws (E F : Type) `{EventFiles E F} (plain_dir : PurePath -> Prop) := {
  store_then_load d n e f f' : plain_dir d -> file_name n -> store_event (path_join d n) e f = (Ok tt, f') ->
    load_event (path_join d n) f' = Some e;
  store_then_other d n e p f f' : plain_dir d -> file_name n -> store_event (path_join d n) e f = (Ok tt, f') ->
    p <> path_join d n -> load_event p f' = load_event p f;
  store_then_search d n e f f' : plain_dir d -> file_name n -> store_event (path_join d n) e f = (Ok tt, f') ->
    path_join d n ∉ search_paths d f -> search_paths d f' ≡ₚ path_join d n :: search_paths d f;
}.

Inductive EventSortOrder := TIMESTAMP | TIMESTAMP_DESC.

Section service.
Context {E bound F : Type} `{EventFiles E F}.
(** The SDK's events: kind, id, and comparisons of timestamps. *)
Context (kind id : E -> string) (before reached : E -> bound -> res bool) (time_lt : E -> E -> bool).
(** [page_iterator] on a search, with what it yields or raises. *)
Notation OwnerInfo := (res (option (option string))).
Definition Tasks : Type := dict string OwnerInfo.
Definition St : Type := Tasks * F.
Context (page_iterator : (option string -> M St (page E)) -> M St (list E)).

(** [EventServiceBase]; the tasks that load the owner of a conversation are kept
    and awaited again. *)
Record EventServiceBase := {
  prefix : PurePath;
  user_id : option string;
  app_conversation_info_service : option (string -> OwnerInfo);
}.
Definition truthy (s : option string) : option string := match s with Some "" => None | _ => s end.

Definition get_conversation_path (self : EventServiceBase) (conversation_id : string) : M Tasks PurePath := fun tasks =>
  let final path := path_join (path_join path "v1_conversations") conversation_id in
  match truthy (user_id self), app_conversation_info_service self with
  | Some u, _ => (Ok (final (path_join (prefix self) u)), tasks)
  | None, Some info =>
      let task := match dget tasks conversation_id with Some t => t | None => info conversation_id end in
      let tasks := match dget tasks conversation_id with Some _ => tasks | None => dset tasks conversation_id task end in
      (match task with
       | Raise x => Raise x
       | Ok conversation_info =>
           Ok (final match mbind truthy conversation_info with Some u => path_join (prefix self) u | None => prefix self end)
       end, tasks)
  | None, None => (Ok (final (prefix self)), tasks)
  end.

Definition json_name (id : string) : string := id +:+ ".json".
(** [event_id.hex] is given; the id of an event may have dashes. *)
Definition id_hex (e : E) : string := replace "-" "" (id e).

Definition get_event (self : EventServiceBase) (conversation_id event_id : string) : M St (option E) :=
  conversation_path <- onL (get_conversation_path self conversation_id) ;;
  st <- getM ;; retM (load_event (path_join conversation_path (json_name event_id)) st.2).

Definition save_event (self : EventServiceBase) (conversation_id : string) (event : E) : M St unit :=
  conversation_path <- onL (get_conversation_path self conversation_id) ;;
  onR (store_event (path_join conversation_path (json_name (id_hex event))) event).
Fixpoint batch_get_events (self : EventServiceBase) (conversation_id : string) (event_ids : list string) : M St (list (option E)) :=
  match event_ids with
  | [] => retM []
  | i :: ids => e <- get_event self conversation_id i ;; es <- batch_get_events self conversation_id ids ;; retM (e :: es)
  end.

(** The loop over the loaded events: [None] is an event that is not there. *)
Definition wanted (kind__eq : option string) (timestamp__gte timestamp__lt : option bound) (e : E) : res bool :=
  if match truthy kind__eq with Some k => negb (String.eqb (kind e) k) | None => false end then Ok false
  else early <-! match timestamp__gte with Some b => before e b | None => Ok false end ;;
       if early then Ok false
       else late <-! match timestamp__lt with Some b => reached e b | None => Ok false end ;; Ok (negb late).
Fixpoint matching (kind__eq : option string) (timestamp__gte timestamp__lt : option bound) (events : list (option E)) : res (list E) :=
  match events with
  | [] => Ok []
  | None :: events => matching kind__eq timestamp__gte timestamp__lt events
  | Some e :: events =>
      b <-! wanted kind__eq timestamp__gte timestamp__lt e ;;
      l <-! matching kind__eq timestamp__gte timestamp__lt events ;; Ok (if b then e :: l else l)
  end.
Definition in_order (sort_order : option EventSortOrder) (l : list E) : list E :=
  match sort_order with
  | None => l
  | Some o => py_sort time_lt (match o with TIMESTAMP_DESC => true | TIMESTAMP => false end) l
  end.
Definition cut_page (page_id : option string) (limit : Z) (l : list E) : res (page E) :=
  start_offset <-! match truthy page_id with Some p => int_of_str p | None => Ok 0 end ;;
  let l := match truthy page_id with Some _ => list_from l start_offset | None => l end in
  Ok (if limit <? Z.of_nat (length l)
      then {| items := list_to l limit; next_page_id := Some (str_of_Z (start_offset + limit)) |}
      else {| items := l; next_page_id := None |}).

Definition search_events (self : EventServiceBase) (conversation_id : string) (kind__eq : option string)
    (timestamp__gte timestamp__lt : option bound) (sort_order : option EventSortOrder) (limit : Z) (page_id : option string) : M St (page E) :=
  prefix <- onL (get_conversation_path self conversation_id) ;;
  st <- getM ;;
  let events := map (fun p => load_event p st.2) (search_paths prefix st.2) in
  l <- liftM (matching kind__eq timestamp__gte timestamp__lt events) ;;
  liftM (cut_page page_id limit (in_order sort_order l)).

Definition count_events (self : EventServiceBase) (conversation_id : string) (kind__eq : option string)
    (timestamp__gte timestamp__lt : option bound) : M St Z :=
  match truthy kind__eq, timestamp__gte, timestamp__lt with
  | None, None, None =>
      conversation_path <- onL (get_conversation_path self conversation_id) ;;
      st <- getM ;; retM (Z.of_nat (length (search_paths conversation_path st.2)))
  | _, _, _ =>
      events <- page_iterator (search_events self conversation_id kind__eq timestamp__gte timestamp__lt (Some TIMESTAMP) 100) ;;
      retM (Z.of_nat (length events))
  end.

(** ** Searches serve pages *)

Lemma path_again self c ts r ts' : get_conversation_path self c ts = (r, ts') -> get_conversation_path self c ts' = (r, ts').
Proof.
  unfold get_conversation_path. destruct (truthy (user_id self)); [congruence|].
  destruct (app_conversation_info_service self) as [info|]; [|congruence]. cbv zeta.
  destruct (dget ts c) as [t|] eqn:Et; intros [= <- <-]; [by rewrite Et|]. by rewrite dget_dset_eq.
Qed.

Lemma cut_page_later l limit k : 1 <= limit -> Z.of_nat (length l) < 2 ^ 64 -> (k * Z.to_nat limit < length l)%nat \/ k = 0%nat ->
  cut_page (if bool_decide (k = 0%nat) then None else Some (str_of_Z (Z.of_nat k * limit))) limit l =
  Ok (page_at (fun k => str_of_Z (Z.of_nat k * limit)) l (Z.to_nat limit) (length l) k).
Proof.
  intros Hlim Hlen Hk. unfold cut_page, page_at.
  assert (forall z, truthy (Some (str_of_Z z)) = Some (str_of_Z z)) as Ht.
  { intros z. destruct (str_of_Z z) eqn:Ez; [|done]. unfold str_of_Z in Ez. destruct (z <? 0); [done|].
    by destruct (digits_go_nonempty _ _ _ Ez). }
  assert (forall (o : Z) l', 0 <= o -> l' = drop (Z.to_nat o) l ->
    (if limit <? Z.of_nat (length l')
     then {| items := list_to l' limit; next_page_id := Some (str_of_Z (o + limit)) |}
     else {| items := l'; next_page_id := None |}) =
    {| items := take (Z.to_nat limit) (drop (Z.to_nat o) l);
       next_page_id := if bool_decide (Z.to_nat o + Z.to_nat limit < length l)%nat then Some (str_of_Z (o + limit)) else None |}) as Hcut.
  { intros o l' Ho ->. rewrite length_drop. destruct (Z.ltb_spec limit (Z.of_nat (length l - Z.to_nat o))) as [Hlt|Hge].
    - rewrite bool_decide_true by lia. by rewrite list_to_nonneg by lia.
    - rewrite bool_decide_false by lia. rewrite take_ge; [done|]. rewrite length_drop. lia. }
  case_bool_decide as Hk0.
  - subst k. cbn [truthy rbind]. f_equal. rewrite (Hcut 0 l) by done. f_equal.
    destruct (decide (Z.to_nat limit < length l)%nat); [rewrite !bool_decide_true by lia|by rewrite !bool_decide_false by lia].
    do 2 f_equal. lia.
  - rewrite Ht. rewrite int_of_digits by nia. cbn [rbind]. f_equal. rewrite list_from_nonneg by nia.
    rewrite (Hcut (Z.of_nat k * limit) _ ltac:(nia) eq_refl).
    replace (Z.to_nat (Z.of_nat k * limit)) with (k * Z.to_nat limit)%nat by nia. f_equal.
    destruct (decide (S k * Z.to_nat limit < length l)%nat); [rewrite !bool_decide_true by lia|by rewrite !bool_decide_false by lia].
    do 2 f_equal. lia.
Qed.

Section listing.
Context (self : EventServiceBase) (c : string) (p : PurePath) (f : F).
Definition loaded : list (option E) := map (fun q => load_event q f) (search_paths p f).
Definition ready (st : St) : Prop := st.2 = f /\ exists ts', get_conversation_path self c st.1 = (Ok p, ts').

Lemma search_serves k g b so limit l : matching k g b loaded = Ok l -> 1 <= limit -> Z.of_nat (length l) < 2 ^ 64 ->
  serves_pages (search_events self c k g b so limit) ready (fun n => str_of_Z (Z.of_nat n * limit)) (in_order so l) (Z.to_nat limit) (length l).
Proof.
  intros Hm Hlim Hlen.
  assert (length (in_order so l) = length l) as Hio.
  { destruct so as [o|]; [|done]. cbn [in_order]. apply Permutation_length, py_sort_perm. }
  assert (forall n st, ready st -> (n * Z.to_nat limit < length l)%nat \/ n = 0%nat -> exists st',
    search_events self c k g b so limit (if bool_decide (n = 0%nat) then None else Some (str_of_Z (Z.of_nat n * limit))) st =
    (Ok (page_at (fun n => str_of_Z (Z.of_nat n * limit)) (in_order so l) (Z.to_nat limit) (length l) n), st') /\ ready st') as Hs.
  { intros n [ts f'] [Hf [ts' Ep]] Hn. cbn [fst snd] in *. subst f'. exists (ts', f). split; [|split; [done|]].
    - unfold search_events, bindM, onL, getM, liftM. cbn [fst snd]. rewrite Ep. cbn [fst snd]. unfold loaded in Hm. rewrite Hm.
      f_equal. rewrite <- Hio at 1. apply cut_page_later; [done|by rewrite Hio|by rewrite Hio].
    - exists ts'. by apply (path_again _ _ ts). }
  split.
  - intros st Hst. apply (Hs 0%nat st Hst). by right.
  - intros n st Hst Hn Hlt. specialize (Hs n st Hst (or_introl Hlt)). by rewrite bool_decide_false in Hs by lia.
Qed.
End listing.

(** ** What was saved is listed *)

Lemma matching_perm k g b l l' m : l ≡ₚ l' -> matching k g b l = Ok m -> exists m', matching k g b l' = Ok m' /\ m' ≡ₚ m.
Proof.
  intros Hp. revert m. induction Hp as [|x l l' Hp IH|x y l|l1 l2 l3 _ IH1 _ IH2]; intros m.
  - intros [= <-]. by exists [].
  - destruct x as [e|]; cbn [matching]; [|apply IH]. destruct (wanted k g b e) as [w|]; cbn [rbind]; [|done].
    destruct (matching k g b l) as [n|]; cbn [rbind]; [|done]. intros [= <-]. destruct (IH n eq_refl) as (n' & -> & Hn).
    cbn [rbind]. eexists. split; [done|]. destruct w; [by rewrite Hn|done].
  - intros Hm. assert (forall o n, matching k g b (o :: n) =
      match o with None => matching k g b n
                 | Some e => w <-! wanted k g b e ;; r <-! matching k g b n ;; Ok (if w then e :: r else r) end) as Hc
      by (by intros [e|]). rewrite !Hc in Hm |- *. revert Hm.
    destruct x as [e1|], y as [e2|]; try (by eauto);
      repeat (destruct (wanted k g b _) as [[]|]; cbn [rbind]; try done);
      destruct (matching k g b l) as [n|]; cbn [rbind]; try done; intros [= <-]; eexists; (split; [done|]); try done.
    apply Permutation_swap.
  - intros Hm. destruct (IH1 m Hm) as (m1 & H1 & E1). destruct (IH2 m1 H1) as (m2 & H2 & E2). exists m2.
    split; [done|]. by rewrite E2.
Qed.

Fixpoint save_events (self : EventServiceBase) (conversation_id : string) (es : list E) : M St unit :=
  match es with
  | [] => retM tt
  | e :: es => save_event self conversation_id e ;;; save_events self conversation_id es
  end.

Lemma join_name d n : file_name n -> path_join d n = {| root := root d; parts := parts d ++ [n] |}.
Proof.
  intros (Hne & Hs & Hk & _). unfold path_join. assert (isabs n = false) as ->.
  { destruct n as [|a n]; [done|]. unfold no_sep in Hs. cbn [sexists] in Hs. apply negb_true_iff, orb_false_iff in Hs as [Ha _].
    unfold is_char in Ha. apply Ascii.eqb_neq in Ha. unfold isabs. cbn [String.prefix].
    destruct (ascii_dec _ _) as [<-|]; [by destruct Ha|done]. }
  f_equal. f_equal. unfold mk_path, split_path. cbn [parts]. rewrite split_char_none by by apply no_sep_sexists.
  cbn [List.filter]. by rewrite Hk.
Qed.
Lemma join_inj d n m : file_name n -> file_name m -> path_join d n = path_join d m -> n = m.
Proof. intros Hn Hm. rewrite !join_name by done. intros [= E']. by apply app_inj_tail in E' as [_ ?]. Qed.
Lemma json_name_inj i j : json_name i = json_name j -> i = j.
Proof. apply sapp_inj_r. Qed.

Context (plain_dir : PurePath -> Prop) `{!EventFilesLaws E F plain_dir}.
Definition saved_path (d : PurePath) (e : E) : PurePath := path_join d (json_name (id_hex e)).

Lemma saves_listed self c p : plain_dir p -> forall es old st st',
  (exists ts', get_conversation_path self c st.1 = (Ok p, ts')) ->
  search_paths p st.2 ≡ₚ map (saved_path p) old -> (forall e, e ∈ old -> load_event (saved_path p e) st.2 = Some e) ->
  NoDup (map id_hex (old ++ es)) -> Forall (fun e => file_name (json_name (id_hex e))) (old ++ es) ->
  save_events self c es st = (Ok tt, st') ->
  (exists ts', get_conversation_path self c st'.1 = (Ok p, ts')) /\
  search_paths p st'.2 ≡ₚ map (saved_path p) (old ++ es) /\ (forall e, e ∈ old ++ es -> load_event (saved_path p e) st'.2 = Some e).
Proof.
  intros Hp es. induction es as [|e es IH]; intros old [ts f] st' [ts' Ep] Hls Hld Hnd Hfn; cbn [fst snd] in *.
  { intros [= <-]. rewrite app_nil_r. eauto. }
  cbn [save_events]. unfold save_event, bindM at 1 2, onL. cbn [fst snd]. rewrite Ep. unfold onR. cbn [fst snd].
  assert (file_name (json_name (id_hex e))) as Hfe.
  { rewrite Forall_forall in Hfn. apply Hfn. set_solver. }
  assert (forall e', e' ∈ old -> saved_path p e' <> saved_path p e) as Hnew.
  { intros e' He' Heq. rewrite Forall_forall in Hfn. assert (file_name (json_name (id_hex e'))) as Hfe' by (apply Hfn; set_solver).
    apply join_inj, json_name_inj in Heq; [|done..]. rewrite map_app, NoDup_app in Hnd. destruct Hnd as (_ & Hd & _).
    apply (Hd (id_hex e)); [|cbn; set_solver]. rewrite <- Heq. by apply (list_elem_of_fmap_2 id_hex). }
  destruct (store_event (saved_path p e) e f) as [[[]|x] f'] eqn:Es; [|unfold saved_path in Es; by rewrite Es].
  unfold saved_path in Es. rewrite Es. intros Hrun.
  replace (old ++ e :: es) with ((old ++ [e]) ++ es) in * by by rewrite <- app_assoc.
  eapply IH; [| | |done|done|exact Hrun]; cbn [fst snd].
  - exists ts'. by apply (path_again _ _ ts).
  - rewrite (store_then_search p _ e f f' Hp Hfe Es).
    + rewrite Hls, map_app. cbn [map]. by rewrite (Permutation_app_comm _ [_]).
    + rewrite Hls. intros (e' & Heq & He')%list_elem_of_fmap. by apply (Hnew e').
  - intros e' [He'|He']%elem_of_app.
    + unfold saved_path. rewrite (store_then_other p _ e _ f f' Hp Hfe Es); [by apply Hld|by apply Hnew].
    + apply list_elem_of_singleton in He'. subst e'. by apply (store_then_load p _ e f f' Hp Hfe Es).
Qed.

(** In the order asked for: by time, upwards or downwards. *)
Definition ordered (o : EventSortOrder) (l : list E) : Prop :=
  match o with
  | TIMESTAMP => StronglySorted (fun x y => time_lt y x = false) l
  | TIMESTAMP_DESC => StronglySorted (fun x y => time_lt x y = false) l
  end.
Lemma in_order_ordered `{!KeyOrder time_lt} o l : ordered o (in_order (Some o) l).
Proof. by destruct o; cbn [ordered in_order]; apply (py_sort_sorted time_lt). Qed.

Lemma matching_none m : matching None None None (map Some m) = Ok m.
Proof. induction m as [|e m IH]; [done|]. cbn [map matching]. unfold wanted. cbn [truthy rbind]. by rewrite IH. Qed.

Lemma matching_length k g b l m : matching k g b l = Ok m -> (length m <= length l)%nat.
Proof.
  revert m. induction l as [|[e|] l IH]; intros m; cbn [matching]; [by intros [= <-]| |intros E'; cbn; specialize (IH _ E'); lia].
  destruct (wanted k g b e) as [w|]; cbn [rbind]; [|done]. destruct (matching k g b l) as [r|]; cbn [rbind]; [|done].
  intros [= <-]. specialize (IH r eq_refl). destruct w; cbn [length]; lia.
Qed.
(** An empty kind filters nothing. *)
Lemma matching_unfiltered k l : truthy k = None -> matching k None None (map Some l) = Ok l.
Proof.
  intros Hk. rewrite <- (matching_none l). generalize (map Some l) as z. induction z as [|[e|] z IH]; cbn [matching]; [done| |done].
  unfold wanted. rewrite Hk. cbn [truthy]. by rewrite IH.
Qed.
Lemma search_listed self c p k g b n st o limit fuel : (exists ts', get_conversation_path self c st.1 = (Ok p, ts')) ->
  matching k g b (loaded p st.2) = Ok n -> Z.of_nat (length n) < 2 ^ 64 ->
  1 <= limit -> (0 < fuel)%nat -> Z.of_nat (length n) <= Z.of_nat fuel * limit ->
  exists st', iterate (search_events self c k g b (Some o) limit) fuel st = Some ((in_order (Some o) n, None), st').
Proof.
  intros Hpath Hn Hlen Hlim Hf Hfuel.
  destruct (iterate_all _ _ _ _ _ _ (search_serves self c p st.2 k g b (Some o) limit n Hn Hlim Hlen)) with (fuel := fuel) (s := st)
    as (st' & E' & _); [|lia|done|done|nia|by exists st'].
  cbn [in_order]. by rewrite py_sort_perm.
Qed.

(** What is assumed of [page_iterator]: it yields what following the page ids yields. *)
Definition follows (fn : option string -> M St (page E)) (st : St) : Prop :=
  forall fuel l st', iterate fn fuel st = Some ((l, None), st') -> page_iterator fn st = (Ok l, st').

(** C21: Events saved under different ids are listed completely: page after page,
    for any filters, order and page size, a client gets exactly the matching ones,
    each once, in the order asked for, after at most one request more than there are
    pages; and counting them gives their number. *)
Theorem saved_events_are_listed `{!KeyOrder time_lt} self c p es st st' k g b o limit m fuel :
  plain_dir p -> (exists ts', get_conversation_path self c st.1 = (Ok p, ts')) -> search_paths p st.2 = [] ->
  NoDup (map id_hex es) -> Forall (fun e => file_name (json_name (id_hex e))) es ->
  save_events self c es st = (Ok tt, st') ->
  matching k g b (map Some es) = Ok m -> Z.of_nat (length es) < 2 ^ 64 -> 1 <= limit ->
  (0 < fuel)%nat -> Z.of_nat (length m) <= Z.of_nat fuel * limit ->
  follows (search_events self c k g b (Some TIMESTAMP) 100) st' ->
  (exists l st'', iterate (search_events self c k g b (Some o) limit) fuel st' = Some ((l, None), st'') /\ l ≡ₚ m /\ ordered o l) /\
  (exists st'', count_events self c k g b st' = (Ok (Z.of_nat (length m)), st'')).
Proof.
  intros Hp Hpath Hempty Hnd Hfn Hrun Hm Hlen Hlim Hf Hfuel Hfollow.
  destruct (saves_listed self c p Hp es [] st st') as (Hpath' & Hls & Hld); [done|by rewrite Hempty|set_solver|done..|].
  cbn [app] in *.
  assert (loaded p st'.2 ≡ₚ map Some es) as Hl.
  { unfold loaded. rewrite Hls, map_map. rewrite (map_ext_in _ Some); [done|]. intros e He. apply Hld. by apply list_elem_of_In. }
  destruct (matching_perm k g b _ _ m (symmetry Hl) Hm) as (n & Hn & Hnm).
  assert (Z.of_nat (length n) < 2 ^ 64) as Hlen' by (apply matching_length in Hm; rewrite Hnm; rewrite length_map in Hm; lia).
  split.
  - destruct (search_listed self c p k g b n st' o limit fuel) as (st'' & E'); [done..|by rewrite Hnm|].
    exists (in_order (Some o) n), st''. split; [done|]. split; [|by apply in_order_ordered]. cbn [in_order]. by rewrite py_sort_perm.
  - destruct (search_listed self c p k g b n st' TIMESTAMP 100 (S (length n))) as (st'' & E'); [done..|lia|lia|lia|].
    apply Hfollow in E'. unfold count_events. destruct (truthy k) as [k'|] eqn:Ek, g as [g'|], b as [b'|];
      try (exists st''; unfold bindM; rewrite E'; cbn [in_order]; by rewrite py_sort_perm, Hnm).
    destruct Hpath' as [ts' Ep]. exists (ts', st'.2). unfold bindM, onL, getM, retM. rewrite Ep. cbn [fst snd]. do 2 f_equal.
    rewrite Hls, length_map. rewrite matching_unfiltered in Hm by done. by injection Hm as ->.
Qed.
End service.

(** ** [FilesystemEventService]

    A file system maps paths to texts.  [glob] lists a directory in any order and
    leaves out hidden files; a directory with one of its special characters is a
    pattern, which is left open. *)
#[export] Instance PurePath_eq_dec : EqDecision PurePath.
Proof. solve_decision. Defined.

Section filesystem.
Context {E : Type} (validate : string -> option E) (dump : E -> string).
Context (listdir : list PurePath -> list PurePath) (glob_pattern : PurePath -> dict PurePath string -> list PurePath).

Definition Files : Type := dict PurePath string.
Definition is_magic (c : ascii) : bool := is_char "*"%char c || is_char "?"%char c || is_char "["%char c.
Definition no_magic (d : PurePath) : Prop := Forall (fun c => sexists is_magic c = false) (parts d).
#[export] Instance no_magic_dec d : Decision (no_magic d) := _.
Definition child_of (d p : PurePath) : Prop :=
  root p = root d /\ parts p = parts d ++ [List.last (parts p) ""] /\ startswith "." (List.last (parts p) "") = false.
#[export] Instance child_of_dec d p : Decision (child_of d p) := _.

Definition fs_load_event (path : PurePath) (f : Files) : option E := match dget f path with Some content => validate content | None => None end.
Definition fs_store_event (path : PurePath) (event : E) : M Files unit := modifyM (fun f => dset f path (dump event)).
Definition fs_search_paths (prefix : PurePath) (f : Files) : list PurePath :=
  if decide (no_magic prefix) then listdir (filter (child_of prefix) (dkeys f)) else glob_pattern prefix f.

#[local] Instance FilesystemEventService : EventFiles E Files :=
  {| load_event := fs_load_event; store_event := fs_store_event; search_paths := fs_search_paths |}.

#[local] Instance filesystem_laws : (forall e, validate (dump e) = Some e) -> (forall l, listdir l ≡ₚ l) -> EventFilesLaws E Files no_magic.
Proof.
  intros Hdump Hls. split.
  - intros d n e f f' _ _ [= <-]. cbn. unfold fs_load_event. by rewrite dget_dset_eq.
  - intros d n e p f f' _ _ [= <-] Hne. cbn. unfold fs_load_event. by rewrite dget_dset_ne.
  - intros d n e f f' Hd Hn [= <-]. cbn. unfold fs_search_paths. rewrite !decide_True by done. rewrite !Hls. intros Hnew.
    assert (child_of d (path_join d n)) as Hc.
    { rewrite join_name by done. unfold child_of. cbn [root parts]. rewrite List.last_last. destruct Hn as (_ & _ & _ & ?). done. }
    assert (path_join d n ∉ dkeys f) as Hk by (intros Hk; apply Hnew; by apply list_elem_of_filter).
    rewrite dset_app by done. unfold dkeys. rewrite fmap_app, filter_app. cbn [fmap list_fmap fst]. rewrite filter_cons_True by done.
    by rewrite filter_nil, Permutation_app_comm.
Qed.
End filesystem.

(** ** A listing, and what the listings miss *)

(** Events that are their own text and id, later ones longer. *)
Definition longer (x y : string) : bool := (Z.of_nat (slen x) <? Z.of_nat (slen y))%Z.
#[local] Instance longer_order : KeyOrder longer.
Proof. split; unfold longer; intros; rewrite ?Z.ltb_lt, ?Z.ltb_ge in *; lia. Qed.
#[local] Instance text_files : EventFiles string Files := FilesystemEventService Some id (fun l => l) (fun _ _ => []).
#[local] Instance text_files_laws : EventFilesLaws string Files no_magic := filesystem_laws Some id (fun l => l) (fun _ _ => []) (fun _ => eq_refl) (fun _ => reflexivity _).
Definition service : EventServiceBase := {| prefix := mk_path "/data"; user_id := Some "u"; app_conversation_info_service := None |}.
(** [page_iterator], for collections of at most 99 pages. *)
Definition iterator (fn : option string -> M (St (F := Files)) (page string)) : M (St (F := Files)) (list string) := fun st =>
  match iterate fn 100 st with Some ((l, None), st) => (Ok l, st) | Some ((_, Some x), st) => (Raise x, st) | None => (Raise (RuntimeError ""), st) end.

Lemma saved_events_are_listed_witness :
  let search := search_events (bound := unit) (fun _ => "") (fun _ _ => Ok false) (fun _ _ => Ok false) longer service "c" None None None in
  let st := (save_events (fun e => e) service "c" ["a-1"; "b-22"; "c"] ([], [])).2 in
  (exists l st', iterate (search (Some TIMESTAMP_DESC) 2) 2 st = Some ((l, None), st') /\ l ≡ₚ ["a-1"; "b-22"; "c"] /\ ordered longer TIMESTAMP_DESC l) /\
  exists st', count_events (bound := unit) (fun _ => "") (fun _ _ => Ok false) (fun _ _ => Ok false) longer iterator service "c" None None None st = (Ok 3, st').
Proof.
  intros search st.
  apply (saved_events_are_listed (bound := unit) (fun _ => "") (fun e => e) (fun _ _ => Ok false) (fun _ _ => Ok false) longer iterator no_magic service "c"
    (mk_path "/data/u/v1_conversations/c") ["a-1"; "b-22"; "c"] ([], []) st None None None TIMESTAMP_DESC 2 ["a-1"; "b-22"; "c"] 2).
  - literal.
  - exists []. reflexivity.
  - reflexivity.
  - literal.
  - repeat constructor; try done.
  - reflexivity.
  - reflexivity.
  - done.
  - done.
  - lia.
  - done.
  - intros fuel l st' E. unfold iterator.
    match goal with |- context [iterate ?fn ?n ?s] => destruct (iterate fn n s) as [r|] eqn:E'; [|by vm_compute in E'] end.
    pose proof (iterate_det _ _ _ _ _ _ _ E E') as <-. reflexivity.
Defined.

(** A file that cannot be read as an event is counted, but not listed, unless the
    count has a filter. *)
Example unreadable_is_counted :
  let files : EventFiles string Files := FilesystemEventService (fun s => if String.eqb s "junk" then None else Some s) id (fun l => l) (fun _ _ => []) in
  let st := ([] : Tasks, [(mk_path "/data/u/v1_conversations/c/1.json", "junk"); (mk_path "/data/u/v1_conversations/c/2.json", "e")]) in
  let count k := (@count_events string unit Files files (fun _ => "say") (fun _ _ => Ok false) (fun _ _ => Ok false) longer iterator service "c" k None None st).1 in
  count None = Ok 2 /\ count (Some "say") = Ok 1.
Proof. by vm_compute. Qed.

(** [AwsEventService._search_paths] takes one answer of [list_objects_v2], which
    has at most 1000 keys: no conversation has more events than that. *)
Section aws.
Context {E bound F : Type} (load : PurePath -> F -> option E) (store : PurePath -> E -> M F unit) (list_objects_v2 : string -> F -> list string).
Definition aws_search_paths (prefix : PurePath) (f : F) : list PurePath := map mk_path (list_objects_v2 (path_str prefix) f).
#[local] Instance AwsEventService : EventFiles E F := {| load_event := load; store_event := store; search_paths := aws_search_paths |}.

Lemma aws_count_is_capped kind (before reached : E -> bound -> res bool) lt it self c st n st' :
  (forall prefix f, (length (list_objects_v2 prefix f) <= 1000)%nat) ->
  count_events kind before reached lt it self c None None None st = (Ok n, st') -> n <= 1000.
Proof.
  intros Hcap. unfold count_events, bindM, onL, getM, retM. cbn [truthy]. destruct (get_conversation_path self c st.1) as [[p|x] ts]; [|done].
  cbn. unfold aws_search_paths. rewrite length_map. intros [= <- _]. pose proof (Hcap (path_str p) st.2). lia.
Qed.
End aws.
