(* ===== verification/GitProvider.v ===== *)
(** * Git hosts

    Models the part of [integrations/provider.py] that the application server
    asks for repositories, branches, tasks and installations, with its data
    ([integrations/service_types.py]).

    The services of the hosts are HTTP clients and parameters here: a
    [GitService] is what one of them answers. *)

From Stdlib Require Import Ascii.
From S2P Require Import Prelude PyStr PyDict.

Inductive ProviderType := GITHUB | GITLAB | BITBUCKET | BITBUCKET_DATA_CENTER | FORGEJO | AZURE_DEVOPS | ENTERPRISE_SSO.
#[export] Instance ProviderType_eq_dec : EqDecision ProviderType.
Proof. solve_decision. Defined.
Definition provider_value (p : ProviderType) : string :=
  match p with
  | GITHUB => "github" | GITLAB => "gitlab" | BITBUCKET => "bitbucket" | BITBUCKET_DATA_CENTER => "bitbucket_data_center"
  | FORGEJO => "forgejo" | AZURE_DEVOPS => "azure_devops" | ENTERPRISE_SSO => "enterprise_sso"
  end.

Inductive OwnerType := USER | ORGANIZATION.
Inductive TaskType := MERGE_CONFLICTS | FAILING_CHECKS | UNRESOLVED_COMMENTS | OPEN_ISSUE | OPEN_PR | CREATE_MICROAGENT.
Inductive AppMode := OPENHANDS | SAAS.

Record Repository := {
  repo_id : string; full_name : string; repo_provider : ProviderType; is_public : bool; stargazers_count : option Z;
  link_header : option string; pushed_at : option string; owner_type : option OwnerType; main_branch : option string;
}.
Record Branch := { branch_name : string; commit_sha : string; protected : bool; last_push_date : option string }.
Record SuggestedTask := { task_provider : ProviderType; task_type : TaskType; task_repo : string; issue_number : Z; task_title : string }.
Record ProviderToken := { token : option string; token_user_id : option string; host : option string }.

Record GitService := {
  svc_paginated_repos : Z -> Z -> string -> option string -> res (list Repository);
  svc_all_repositories : string -> AppMode -> res (list Repository);
  svc_search_repositories : string -> Z -> string -> string -> bool -> AppMode -> res (list Repository);
  svc_search_branches : string -> string -> Z -> res (list Branch);
  svc_suggested_tasks : res (list SuggestedTask);
  svc_installations : res (list string);
  svc_repository_details : string -> res Repository;
}.

(** [try: ... except Exception: return default] *)
Definition or_else {A} (m : res A) (default : A) : A := match m with Ok a => a | Raise _ => default end.

Definition PROVIDER_DOMAINS (p : ProviderType) : option string :=
  match p with
  | GITHUB => Some "github.com" | GITLAB => Some "gitlab.com" | BITBUCKET => Some "bitbucket.org"
  | FORGEJO => Some "codeberg.org" | AZURE_DEVOPS => Some "dev.azure.com" | _ => None
  end.

Section handler.
Context (service_class : ProviderType -> ProviderToken -> res GitService).

Definition ProviderTokens : Type := dict ProviderType ProviderToken.
Definition get_token (tokens : ProviderTokens) (p : ProviderType) : res ProviderToken :=
  match dget tokens p with Some t => Ok t | None => Raise (KeyError (provider_value p)) end.
Definition get_service (tokens : ProviderTokens) (p : ProviderType) : res GitService :=
  t <-! get_token tokens p ;;
  match p with ENTERPRISE_SSO => Raise (KeyError (provider_value p)) | _ => service_class p t end.

(** [get_github_installations], [get_bitbucket_workspaces],
    [get_bitbucket_dc_projects] and [get_azure_devops_organizations] *)
Definition get_installations (tokens : ProviderTokens) (p : ProviderType) : res (list string) :=
  service <-! get_service tokens p ;; Ok (or_else (svc_installations service) []).

(** [for provider in self.provider_tokens: try ... extend ... except ...], with
    the errors that are not caught. *)
Fixpoint extend_all {A} (fatal : exn -> bool) (call : ProviderType -> res (list A)) (providers : list ProviderType) : res (list A) :=
  match providers with
  | [] => Ok []
  | p :: providers =>
      match call p with
      | Ok l => rest <-! extend_all fatal call providers ;; Ok (l ++ rest)
      | Raise x => if fatal x then Raise x else extend_all fatal call providers
      end
  end.
Definition is_timeout (x : exn) : bool := match x with OtherError "ProviderTimeoutError" _ => true | _ => false end.

Definition get_repositories (tokens : ProviderTokens) (sort : string) (app_mode : AppMode) (selected : option ProviderType)
    (page per_page : option Z) (installation_id : option string) : res (list Repository) :=
  match selected with
  | Some p =>
      match page, per_page with
      | Some pg, Some n =>
          if (pg =? 0) || (n =? 0) then Raise (ValueError "Failed to provider params for paginating repos")
          else service <-! get_service tokens p ;; svc_paginated_repos service pg n sort installation_id
      | _, _ => Raise (ValueError "Failed to provider params for paginating repos")
      end
  | None => extend_all is_timeout (fun p => service <-! get_service tokens p ;; svc_all_repositories service sort app_mode) (dkeys tokens)
  end.

Definition get_suggested_tasks (tokens : ProviderTokens) : res (list SuggestedTask) :=
  extend_all (fun _ => false) (fun p => service <-! get_service tokens p ;; svc_suggested_tasks service) (dkeys tokens).

Fixpoint first_details (tokens : ProviderTokens) (repository : string) (providers : list ProviderType) : option Repository :=
  match providers with
  | [] => None
  | p :: providers =>
      match (service <-! get_service tokens p ;; svc_repository_details service repository) with
      | Ok r => Some r
      | Raise _ => first_details tokens repository providers
      end
  end.
Definition verify_repo_provider (tokens : ProviderTokens) (repository : string) (specified : option ProviderType) : res Repository :=
  match first_details tokens repository (match specified with Some p => [p] | None => [] end ++ dkeys tokens) with
  | Some r => Ok r
  | None => Raise (OtherError "AuthenticationError" ("Unable to access repo " +:+ repository))
  end.

(** No page is asked for. *)
Definition search_branches (tokens : ProviderTokens) (selected : option ProviderType) (repository query : string) (per_page : Z)
    : res (list Branch) :=
  match selected with
  | Some p => service <-! get_service tokens p ;; Ok (or_else (svc_search_branches service repository query per_page) [])
  | None => Ok (or_else (details <-! verify_repo_provider tokens repository None ;;
                         service <-! get_service tokens (repo_provider details) ;;
                         svc_search_branches service repository query per_page) [])
  end.

Definition is_repository_url (tokens : ProviderTokens) (query : string) (p : ProviderType) : res bool :=
  t <-! get_token tokens p ;;
  let custom_host_exists := match host t with Some "" | None => false | Some h => contains h query end in
  let default_host_exists := match PROVIDER_DOMAINS p with Some d => contains d query | None => false end in
  Ok ((startswith "http://" query || startswith "https://" query) && (custom_host_exists || default_host_exists)).

(** [seen] collects the ids, and is looked up by full name. *)
Fixpoint deduplicate_go (seen : list string) (repos : list Repository) : list Repository :=
  match repos with
  | [] => []
  | repo :: repos =>
      if bool_decide (full_name repo ∈ seen) then deduplicate_go seen repos
      else repo :: deduplicate_go (repo_id repo :: seen) repos
  end.
Definition deduplicate_repositories (repos : list Repository) : list Repository := deduplicate_go [] repos.

Definition search_repositories (tokens : ProviderTokens) (selected : option ProviderType) (query : string) (per_page : Z)
    (sort order : string) (app_mode : AppMode) : res (list Repository) :=
  let ask p := service <-! get_service tokens p ;; public <-! is_repository_url tokens query p ;;
               svc_search_repositories service query per_page sort order public app_mode in
  match selected with
  | Some p => repos <-! ask p ;; Ok (deduplicate_repositories repos)
  | None => extend_all (fun _ => false) ask (dkeys tokens)
  end.
End handler.

(** *** Deduplication *)

(** It removes nothing when no id is a full name, as with the numeric ids of the
    hosts, however often a name occurs. *)
Lemma deduplicate_keeps_all repos : (forall r r', r ∈ repos -> r' ∈ repos -> repo_id r <> full_name r') -> deduplicate_repositories repos = repos.
Proof.
  intros Hid. unfold deduplicate_repositories.
  assert (forall seen, (forall i r, i ∈ seen -> r ∈ repos -> i <> full_name r) -> deduplicate_go seen repos = repos) as Hgo.
  { induction repos as [|r repos IH]; intros seen Hs; [done|]. cbn [deduplicate_go]. rewrite bool_decide_false.
    - f_equal. apply IH; [set_solver|]. intros i r' Hi Hr'. apply elem_of_cons in Hi as [->|Hi]; [apply Hid; set_solver|].
      apply Hs; set_solver.
    - intros Hin. by apply (Hs _ r Hin ltac:(set_solver)). }
  apply Hgo. set_solver.
Qed.
