(* ===== verification/ConversationStore.v ===== *)
(** * The conversations on file

    Models [storage/conversation/conversation_store.py],
    [file_conversation_store.py], [storage/data_models/conversation_metadata.py]
    and [wait_all] of [utils/async_utils.py]: the metadata of conversations in a
    file store, and their listing page by page.

    pydantic's reading and printing of metadata are parameters. *)

From Stdlib Require Import Ascii.
From S2P Require Import Prelude PyStr PyDict PyList PyFloat PyVal PyTime PyPath FileStore EventStore EventLog Paging GitProvider.

(** ** [ConversationMetadata] *)

Inductive ConversationTrigger :=
  | RESOLVER | GUI | SUGGESTED_TASK | REMOTE_API_KEY | SLACK | MICROAGENT_MANAGEMENT | JIRA | JIRA_DC | LINEAR | BITBUCKET | AUTOMATION.

Record ConversationMetadata := {
  conversation_id : string;
  selected_repository : option string;
  user_id : option string;
  selected_branch : option string;
  git_provider : option ProviderType;
  title : option string;
  last_updated_at : option datetime;
  trigger : option ConversationTrigger;
  pr_number : list Z;
  created_at : option datetime;
  llm_model : option string;
  accumulated_cost : float;
  prompt_tokens : Z;
  completion_tokens : Z;
  total_tokens : Z;
  tags : option (dict string string);
  sandbox_id : option string;
  conversation_version : option string;
  public : option bool;
}.

(** ** [wait_all]

    The outcomes of tasks that ran at once, [None] for one that has not ended in
    time; the tasks left are cancelled.  One failure is raised as it is. *)
Definition async_exception (errors : list exn) : exn := OtherError "AsyncException" "".
Fixpoint errors_of {A} (tasks : list (res A)) : list exn :=
  match tasks with [] => [] | Raise x :: tasks => x :: errors_of tasks | Ok _ :: tasks => errors_of tasks end.
Fixpoint results_of {A} (tasks : list (res A)) : list A :=
  match tasks with [] => [] | Ok a :: tasks => a :: results_of tasks | Raise _ :: tasks => results_of tasks end.
Definition wait_all {A} (tasks : list (option (res A))) : res (list A) :=
  match mapM (M := option) (fun t => t) tasks with
  | None => Raise (OtherError "TimeoutError" "")
  | Some tasks =>
      match errors_of tasks with
      | [] => Ok (results_of tasks)
      | [x] => Raise x
      | errors => Raise (async_exception errors)
      end
  end.

(** ** The store *)

Section store.
Context {F : Type} `{FileStore F}.
Context (validate_python : pyval -> res ConversationMetadata) (dump_json : ConversationMetadata -> pyval).

Definition get_conversation_metadata_filename (sid : string) : string := get_conversation_dir sid None +:+ "metadata.json".

Definition save_metadata (metadata : ConversationMetadata) : M F unit :=
  modifyM (fs_write (get_conversation_metadata_filename (conversation_id metadata)) (dump_json metadata)).

(** [key in json_obj] and [json_obj.pop(key)], for any JSON value. *)
Definition key_in (key : string) (v : pyval) : res bool :=
  match v with
  | VDict d => Ok (dmem d key)
  | VList l => Ok (existsb (fun x => match x with VStr s => String.eqb s key | _ => false end) l)
  | VStr s => Ok (contains key s)
  | _ => Raise (TypeError "argument is not iterable")
  end.
Definition pop_key (key : string) (v : pyval) : res pyval :=
  match v with
  | VDict d => Ok (VDict (ddel d key))
  | _ => Raise (TypeError "pop")
  end.

Definition get_metadata (sid : string) : M F ConversationMetadata :=
  let path := get_conversation_metadata_filename sid in
  f <- getM ;;
  json_obj <- liftM (fs_read path f) ;;
  has_created_at <- liftM (key_in "created_at" json_obj) ;;
  if has_created_at : bool then
    has_github <- liftM (key_in "github_user_id" json_obj) ;;
    json_obj <- (if has_github : bool then liftM (pop_key "github_user_id" json_obj) else retM json_obj) ;;
    liftM (validate_python json_obj)
  else raiseM (file_not_found path).

(** [str(Path(filename).parent)] is the directory without its slash. *)
Definition delete_metadata (sid : string) : M F unit :=
  let file := mk_path (get_conversation_metadata_filename sid) in
  modifyM (fs_delete (path_str {| root := root file; parts := removelast (parts file) |})).

Definition exists_ (sid : string) : M F bool :=
  f <- getM ;;
  match fs_read (get_conversation_metadata_filename sid) f with
  | Ok _ => retM true
  | Raise x => if is_not_found x then retM false else raiseM x
  end.

Definition validate_metadata (sid uid : string) : M F bool :=
  metadata <- get_metadata sid ;;
  retM match user_id metadata with Some "" | None => false | Some u => String.eqb u uid end.

(** All tasks see the same store: reading does not change it. *)
Definition get_all_metadata (sids : list string) : M F (list ConversationMetadata) :=
  f <- getM ;; liftM (wait_all (map (fun sid => Some (get_metadata sid f).1) sids)).

Definition sort_key (c : ConversationMetadata) : string := match created_at c with Some t => isoformat t | None => "" end.
(** [Path(path).name] *)
Definition path_name (p : string) : string := List.last (parts (mk_path p)) "".
Definition visible (name : string) : bool := negb (startswith "." name).
Definition by_key (x y : ConversationMetadata) : bool := negb (String.leb (sort_key y) (sort_key x)).

(** The loop over the ids: what cannot be loaded is left out. *)
Fixpoint load_all (conversation_ids : list string) (f : F) : list ConversationMetadata :=
  match conversation_ids with
  | [] => []
  | sid :: sids => match (get_metadata sid f).1 with Ok m => m :: load_all sids f | Raise _ => load_all sids f end
  end.

Definition search (limit : Z) (page_id : option string) : M F (page ConversationMetadata) :=
  f <- getM ;;
  match fs_list CONVERSATION_BASE_DIR f with
  | Raise x => if is_not_found x then retM {| items := []; next_page_id := None |} else raiseM x
  | Ok paths =>
      let conversation_ids := List.filter visible (map path_name paths) in
      let num_conversations := Z.of_nat (length conversation_ids) in
      start <- liftM (page_id_to_offset page_id) ;;
      let end_ := Z.min (limit + start) num_conversations in
      let conversations := py_sort by_key true (load_all conversation_ids f) in
      retM {| items := slice_list conversations start end_; next_page_id := offset_to_page_id end_ (end_ <? num_conversations) |}
  end.

(** ** Listing *)

#[export] Instance by_key_order : KeyOrder by_key.
Proof.
  split; unfold by_key; intros x y.
  - rewrite negb_true_iff, negb_false_iff. intros E. destruct (total String.le (sort_key x) (sort_key y)) as [Hl|Hl]; [by apply Is_true_true|].
    apply Is_true_true in Hl. congruence.
  - intros z. rewrite !negb_true_iff. intros E. destruct (String.leb (sort_key y) (sort_key x)) eqn:E1; [|by left]. right.
    destruct (String.leb (sort_key z) (sort_key y)) eqn:E2; [|done].
    assert (String.le (sort_key z) (sort_key x)) as Hl%Is_true_true; [|congruence].
    transitivity (sort_key y); by apply Is_true_true.
Qed.

Lemma load_all_length sids f : (length (load_all sids f) <= length sids)%nat.
Proof. induction sids as [|sid sids IH]; [done|]. cbn [load_all]. destruct (get_metadata sid f).1; cbn [length]; lia. Qed.

(** The pages of a listing: as many as there are names, even if some cannot be loaded. *)
Lemma listing_serves f paths limit : fs_list CONVERSATION_BASE_DIR f = Ok paths -> 1 <= limit ->
  let ids := List.filter visible (map path_name paths) in Z.of_nat (length ids) < 2 ^ 64 ->
  serves_pages (search limit) (fun f' => f' = f) (fun k => b64encode (str_of_Z (Z.of_nat k * limit)))
    (py_sort by_key true (load_all ids f)) (Z.to_nat limit) (length ids).
Proof.
  intros Hls Hlim ids Hlen. set (l := py_sort by_key true (load_all ids f)).
  assert (length l <= length ids)%nat as Hl by (unfold l; rewrite py_sort_perm; apply load_all_length).
  assert (forall k (pid : option string), page_id_to_offset pid = Ok (Z.of_nat k * limit) -> (k = 0 \/ k * Z.to_nat limit < length ids)%nat ->
    search limit pid f = (Ok (page_at (fun k => b64encode (str_of_Z (Z.of_nat k * limit))) l (Z.to_nat limit) (length ids) k), f)) as Hs.
  { intros k pid Hp Hk. unfold search, bindM, getM, liftM, retM. rewrite Hls. fold ids. rewrite Hp. cbv zeta. fold l. do 2 f_equal.
    unfold page_at. destruct (decide (S k * Z.to_nat limit < length ids)%nat) as [Hn|Hn].
    - rewrite bool_decide_true by done. rewrite Z.min_l by nia. rewrite (proj2 (Z.ltb_lt _ _)) by nia.
      rewrite (Z.add_comm limit), slice_list_nonneg by nia. f_equal; [do 2 f_equal; nia|]. unfold offset_to_page_id. do 4 f_equal. lia.
    - rewrite bool_decide_false by done. rewrite Z.min_r by nia. rewrite (proj2 (Z.ltb_ge _ _)) by lia. cbn [offset_to_page_id]. f_equal.
      replace (Z.of_nat (length ids)) with (Z.of_nat k * limit + (Z.of_nat (length ids) - Z.of_nat k * limit)) by lia.
      rewrite slice_list_nonneg by nia. replace (Z.to_nat (Z.of_nat k * limit)) with (k * Z.to_nat limit)%nat by nia.
      rewrite !take_ge; [done|rewrite length_drop; nia|rewrite length_drop; nia]. }
  split.
  - intros s ->. exists f. split; [|done]. apply (Hs 0%nat); [done|by left].
  - intros k s -> Hk Hlt. exists f. split; [|done]. apply (Hs k); [|by right].
    apply (offset_read_back (Z.of_nat k * limit)). nia.
Qed.
End store.

(** ** What was saved is listed *)

Section memory.
Context (validate_python : pyval -> res ConversationMetadata) (dump_json : ConversationMetadata -> pyval).

(** An id that makes a directory of its own, and not a hidden one. *)
Definition proper_id (i : string) : Prop := i <> "" /\ no_slash i = true /\ startswith "." i = false.
(** Metadata that pydantic reads as it printed it. *)
Definition readable (m : ConversationMetadata) : Prop :=
  exists d, dump_json m = VDict d /\ dmem d "created_at" = true /\ dmem d "github_user_id" = false /\ validate_python (VDict d) = Ok m.
Fixpoint save_all (ms : list ConversationMetadata) : M InMemoryFileStore unit :=
  match ms with [] => retM tt | m :: ms => save_metadata dump_json m ;;; save_all ms end.
Notation filename := get_conversation_metadata_filename.

Lemma filename_eq i : filename i = "sessions" +:+ "/" +:+ i +:+ "/metadata.json".
Proof. unfold filename, get_conversation_dir, CONVERSATION_BASE_DIR. rewrite !sapp_assoc. done. Qed.
Lemma filename_inj i j : filename i = filename j -> i = j.
Proof. rewrite !filename_eq. intros E%sapp_inj_l%sapp_inj_l. by apply sapp_inj_r in E. Qed.

Lemma saved_files ms : forall st, NoDup (dkeys st ++ map (fun m => filename (conversation_id m)) ms) ->
  save_all ms st = (Ok tt, st ++ map (fun m => (filename (conversation_id m), dump_json m)) ms).
Proof.
  induction ms as [|m ms IH]; intros st Hnd; cbn [save_all map]; [by rewrite app_nil_r|].
  unfold bindM, save_metadata, modifyM. cbn [fs_write mem_store]. unfold mem_write.
  assert (filename (conversation_id m) ∉ dkeys st) as Hk.
  { intros Hk. apply NoDup_app in Hnd as (_ & Hd & _). apply (Hd _ Hk). cbn. set_solver. }
  rewrite dset_app by done. rewrite IH; [by rewrite <- app_assoc|]. unfold dkeys in *. rewrite fmap_app. cbn [fmap list_fmap fst].
  by rewrite <- app_assoc.
Qed.

Lemma id_parts i : proper_id i -> path_parts "sessions" (filename i) = [i; "metadata.json"].
Proof.
  intros (_ & Hs & _). rewrite filename_eq. unfold path_parts. rewrite sdrop_app. unfold no_slash in Hs. apply negb_true_iff in Hs.
  rewrite sapp_cons, sapp_nil_l. change (split_char slash (String "/" ?x)) with ("" :: split_char slash x).
  change "/metadata.json" with (String slash "metadata.json"). rewrite split_char_app by done. done.
Qed.
Definition id_dir (i : string) : string := "sessions" +:+ "/" +:+ i +:+ "/".
Lemma id_dir_inj i j : id_dir i = id_dir j -> i = j.
Proof. unfold id_dir. intros E%sapp_inj_l%sapp_inj_l. by apply sapp_inj_r in E. Qed.
Lemma id_joined i : proper_id i -> join_path "sessions" i = "sessions" +:+ "/" +:+ i /\ endswith ("sessions" +:+ "/" +:+ i) "/" = false.
Proof.
  intros (Hne & Hs & _). split; [done|]. destruct (endswith _ _) eqn:E; [|done]. apply endswith_spec in E as [u E].
  unfold no_slash in Hs. rewrite <- sapp_assoc in E. by rewrite (last_slash ("sessions" +:+ "/") i u) in Hs.
Qed.
Lemma list_sessions ids : forall files, Forall proper_id ids -> NoDup (files ++ map id_dir ids) ->
  mem_list_go "sessions" (map filename ids) files = Ok (files ++ map id_dir ids).
Proof.
  induction ids as [|i ids IH]; intros files Hp Hnd; cbn [map mem_list_go]; [by rewrite app_nil_r|].
  apply Forall_cons in Hp as [Hi Hp]. rewrite id_parts by done.
  assert (startswith "sessions" (filename i) = true) as -> by (rewrite filename_eq; apply startswith_app).
  destruct (id_joined i Hi) as [-> ->]. cbv zeta. rewrite !sapp_assoc. change ("sessions" +:+ "/" +:+ i +:+ "/") with (id_dir i).
  rewrite bool_decide_false.
  - rewrite IH; [by rewrite <- app_assoc|done|by rewrite <- app_assoc].
  - intros Hin. apply NoDup_app in Hnd as (_ & Hd & _). apply (Hd _ Hin). cbn. set_solver.
Qed.
Lemma name_of_dir i : proper_id i -> path_name (id_dir i) = i /\ visible i = true.
Proof.
  intros (Hne & Hs & Hh). split; [|unfold visible; by rewrite Hh]. unfold path_name, mk_path, split_path, id_dir. cbn [parts].
  unfold no_slash in Hs. apply negb_true_iff in Hs.
  change ("sessions" +:+ "/" +:+ i +:+ "/") with ("sessions" +:+ String sep (i +:+ String sep "")).
  rewrite split_char_app by done. rewrite split_char_app by done. cbn [split_char app List.filter]. change (keep_part "sessions") with true.
  assert (keep_part i = true) as ->.
  { unfold keep_part. apply andb_true_iff. rewrite !negb_true_iff, !String.eqb_neq. split; [done|]. by intros ->. }
  done.
Qed.

Section saved.
Context (ms : list ConversationMetadata) (Hnd : NoDup (map conversation_id ms)) (Hids : Forall (fun m => proper_id (conversation_id m)) ms).
Definition saved : InMemoryFileStore := (save_all ms []).2.

Lemma filenames_distinct : NoDup (map (fun m => filename (conversation_id m)) ms).
Proof. rewrite <- (map_map conversation_id filename). apply NoDup_fmap_2; [intros ? ? ?; by apply filename_inj|done]. Qed.
Lemma saved_state : saved = map (fun m => (filename (conversation_id m), dump_json m)) ms.
Proof. unfold saved. rewrite saved_files; [done|]. apply filenames_distinct. Qed.
Lemma saved_keys : dkeys saved = map (fun m => filename (conversation_id m)) ms.
Proof. rewrite saved_state. unfold dkeys. by rewrite <- list_fmap_compose. Qed.
Lemma saved_dirs : fs_list CONVERSATION_BASE_DIR saved = Ok (map id_dir (map conversation_id ms)).
Proof.
  cbn. unfold mem_list, CONVERSATION_BASE_DIR. rewrite saved_keys, <- (map_map conversation_id filename).
  rewrite list_sessions; [done|by apply Forall_fmap|]. cbn [app]. apply NoDup_fmap_2; [intros ? ? ?; by apply id_dir_inj|done].
Qed.
Lemma saved_names : List.filter visible (map path_name (map id_dir (map conversation_id ms))) = map conversation_id ms.
Proof.
  clear Hnd. induction ms as [|m l IH]; [done|]. apply Forall_cons in Hids as [Hm Hl]. cbn [map List.filter].
  destruct (name_of_dir _ Hm) as [-> ->]. by rewrite IH.
Qed.
Lemma saved_read m : m ∈ ms -> readable m -> get_metadata validate_python (conversation_id m) saved = (Ok m, saved).
Proof.
  intros Hm (d & Hd & Hc & Hg & Hv). unfold get_metadata, bindM, getM, liftM, retM. cbn [fs_read mem_store]. unfold mem_read.
  rewrite (elem_of_dget saved (filename (conversation_id m)) (dump_json m)).
  - rewrite Hd. cbn [key_in]. by rewrite Hc, Hg, Hv.
  - unfold dwf. rewrite saved_keys. apply filenames_distinct.
  - rewrite saved_state. apply list_elem_of_fmap. by exists m.
Qed.
Lemma saved_loaded : Forall readable ms -> load_all validate_python (map conversation_id ms) saved = ms.
Proof.
  intros Hrd. assert (forall m, m ∈ ms -> get_metadata validate_python (conversation_id m) saved = (Ok m, saved)) as Hget.
  { intros m Hm. apply saved_read; [done|]. by eapply Forall_forall. }
  revert Hget. generalize saved as st. clear. induction ms as [|m l IH]; intros st Hget; [done|]. cbn [map load_all].
  rewrite Hget by set_solver. cbn [fst]. rewrite IH; [done|]. intros m' Hm'. apply Hget. set_solver.
Qed.
End saved.

(** No later one has a greater key: the texts of the creation times descend. *)
Definition descending (l : list ConversationMetadata) : Prop := StronglySorted (fun x y => String.leb (sort_key y) (sort_key x) = true) l.
Lemma py_sort_descending l : descending (py_sort by_key true l).
Proof.
  destruct (py_sort_sorted by_key l) as [_ Hs]. unfold descending. induction Hs as [|x r _ IH Hx]; constructor; [done|].
  eapply Forall_impl; [exact Hx|]. unfold by_key. intros y. by rewrite negb_false_iff.
Qed.

(** C22: Listing is complete: of conversations saved into an in-memory store that starts
    empty, under different ids that are names of visible directories and with
    metadata that pydantic reads back, a client that follows the page ids of the
    listing gets each exactly once, after at most one request more than there are
    pages, in descending order of the text of the creation time.  That is the newest
    first as long as all times are in one zone ([order_is_by_local_time]). *)
Theorem saved_conversations_are_listed ms limit fuel :
  NoDup (map conversation_id ms) -> Forall (fun m => proper_id (conversation_id m)) ms -> Forall readable ms ->
  Z.of_nat (length ms) < 2 ^ 64 -> 1 <= limit -> (0 < fuel)%nat -> Z.of_nat (length ms) <= Z.of_nat fuel * limit ->
  exists l, iterate (search validate_python limit) fuel (saved ms) = Some ((l, None), saved ms) /\ l ≡ₚ ms /\ descending l.
Proof.
  intros Hnd Hids Hrd Hlen Hlim Hf Hfuel.
  pose proof (listing_serves validate_python _ _ limit (saved_dirs ms Hnd Hids) Hlim) as Hserves. cbv zeta in Hserves.
  rewrite saved_names, saved_loaded, length_map in Hserves by done. specialize (Hserves Hlen).
  destruct (iterate_all _ _ _ _ _ _ Hserves) with (fuel := fuel) (s := saved ms) as (st' & E & ->); [by rewrite py_sort_perm|lia|done|done|nia|].
  exists (py_sort by_key true ms). split; [done|]. split; [apply py_sort_perm|apply py_sort_descending].
Qed.
End memory.

(** Three conversations, a page of two and a page of one. *)
Definition dated (i : string) (t : datetime) : ConversationMetadata :=
  {| conversation_id := i; selected_repository := None; user_id := None; selected_branch := None; git_provider := None; title := None;
     last_updated_at := None; trigger := None; pr_number := []; created_at := Some t; llm_model := None; accumulated_cost := S754_zero false;
     prompt_tokens := 0; completion_tokens := 0; total_tokens := 0; tags := None; sandbox_id := None; conversation_version := None; public := None |}.
Definition print (m : ConversationMetadata) : pyval :=
  VDict [("conversation_id", VStr (conversation_id m)); ("created_at", VInt match created_at m with Some t => local_us t | None => 0 end)].
Definition parse (v : pyval) : res ConversationMetadata :=
  match v with
  | VDict [(_, VStr i); (_, VInt t)] => Ok (dated i (utc t))
  | _ => Raise (ValueError "metadata")
  end.
Lemma saved_conversations_are_listed_witness :
  let ms := [dated "a" (utc 5); dated "b" (utc 2000000); dated "c" (utc 70)] in
  exists l, iterate (search parse 2) 2 (saved print ms) = Some ((l, None), saved print ms) /\ l ≡ₚ ms /\ descending l.
Proof.
  intros ms. apply (saved_conversations_are_listed parse print ms 2 2).
  - literal.
  - by repeat constructor.
  - repeat constructor; by eexists.
  - done.
  - lia.
  - lia.
  - done.
Defined.

(** *** What the listing does with other data *)

(** Pages are counted by names: where metadata cannot be loaded, empty pages with a
    next one follow. *)
Example empty_page_with_a_next_one :
  let st := [("sessions/x/metadata.json", VNone); ("sessions/y/metadata.json", VNone); ("sessions/z/metadata.json", VNone)] in
  match (search parse 1 None st).1 with Ok p => items p = [] /\ next_page_id p <> None | Raise _ => False end.
Proof. by vm_compute. Qed.
(** The key of the order is the local time as text: a conversation of 12:00 at
    UTC+2 counts as newer than one of 11:00 UTC, an hour later. *)
Example order_is_by_local_time :
  let early := dated "early" {| local_us := 12 * 3600000000; utcoff := Some 7200 |} in
  let late := dated "late" {| local_us := 11 * 3600000000; utcoff := Some 0 |} in
  instant {| local_us := 12 * 3600000000; utcoff := Some 7200 |} < instant {| local_us := 11 * 3600000000; utcoff := Some 0 |} /\
  py_sort by_key true [late; early] = [early; late].
Proof. by vm_compute. Qed.
