(* ===== verification/GitRouter.v ===== *)
(** * The paged routes of the application server

    Models [app_server/git/git_router.py] and [app_server/config_api/config_router.py]:
    installations, repositories, branches and suggested tasks of a user's git
    hosts, and the models to choose from, page by page.  A request is answered
    with a page, or with the exception that becomes the HTTP error.

    The verified models are a table of the SDK and a parameter. *)

From Stdlib Require Import Ascii.
From S2P Require Import Prelude PyStr PyDict PyList Paging GitProvider.

(** [limit] is checked by the framework: [Query(gt=0, le=100)]. *)
Definition allowed_limit (limit : Z) : Prop := 0 < limit <= 100.

Definition http_exception (status : Z) (detail : string) : exn := OtherError "HTTPException" (str_of_Z status +:+ ": " +:+ detail).
Definition no_token : exn := http_exception 401 "Git provider token required (such as GitHub).".

Section git.
Context (service_class : ProviderType -> ProviderToken -> res GitService) (app_mode : AppMode).

(** [if not provider_tokens: raise ...] *)
Definition require_tokens (provider_tokens : option ProviderTokens) : res ProviderTokens :=
  match provider_tokens with None | Some [] => Raise no_token | Some tokens => Ok tokens end.

Definition search_user_installations (provider_tokens : option ProviderTokens) (provider : ProviderType) (limit : Z) (page_id : option string)
    : res (page string) :=
  client <-! require_tokens provider_tokens ;;
  installations <-! match provider with
                    | GITHUB | BITBUCKET | BITBUCKET_DATA_CENTER | AZURE_DEVOPS => get_installations service_class client provider
                    | _ => Raise (http_exception 400 "Provider doesn't support installations")
                    end ;;
  let '(items, next_page_id) := paginate_results installations page_id limit in
  Ok {| items := items; next_page_id := next_page_id |}.

Inductive SortOrder := STAR_DESC | STAR_ASC | FORKS_DESC | FORKS_ASC | UPDATED_DESC | UPDATED_ASC.
(** [sort_order.value.rsplit('-', 1)] *)
Definition sort_and_order (s : SortOrder) : string * string :=
  match s with
  | STAR_DESC => ("stars", "desc") | STAR_ASC => ("stars", "asc") | FORKS_DESC => ("forks", "desc")
  | FORKS_ASC => ("forks", "asc") | UPDATED_DESC => ("updated", "desc") | UPDATED_ASC => ("updated", "asc")
  end.

(** One more than [limit] is fetched; if it comes there is a next page, and it is
    dropped. *)
Definition page_of {A} (limit pg : Z) (l : list A) : page A :=
  if limit <? Z.of_nat (length l) then {| items := removelast l; next_page_id := Some (encode_page_id (pg + 1)) |}
  else {| items := l; next_page_id := None |}.
Definition page_number (page_id : option string) : Z := default 1 (decode_page_id page_id).

Definition search_repositories (provider_tokens : option ProviderTokens) (provider : ProviderType) (query : option string)
    (installation_id : option string) (sort_order : option SortOrder) (limit : Z) (page_id : option string) : res (page Repository) :=
  client <-! require_tokens provider_tokens ;;
  let pg := page_number page_id in
  repos <-! match query with
            | None | Some "" =>
                match sort_order with
                | Some _ => Raise (http_exception 400 "sort_order is not supported when listing user repositories. It will be supported after API refactoring.")
                | None => get_repositories service_class client "pushed" app_mode (Some provider) (Some pg) (Some (limit + 1)) installation_id
                end
            | Some q =>
                let '(search_sort, order) := match sort_order with Some s => sort_and_order s | None => ("stars", "desc") end in
                GitProvider.search_repositories service_class client (Some provider) q (limit + 1) search_sort order app_mode
            end ;;
  Ok (page_of limit pg repos).

Definition search_branches (provider_tokens : option ProviderTokens) (provider : ProviderType) (repository query : string) (limit : Z)
    (page_id : option string) : res (page Branch) :=
  client <-! require_tokens provider_tokens ;;
  branches <-! GitProvider.search_branches service_class client (Some provider) repository query (limit + 1) ;;
  Ok (page_of limit (page_number page_id) branches).

Definition search_suggested_tasks (provider_tokens : option ProviderTokens) (limit : Z) (page_id : option string) : res (page SuggestedTask) :=
  client <-! require_tokens provider_tokens ;;
  let pg := page_number page_id in
  all_tasks <-! get_suggested_tasks service_class client ;;
  let start_idx := (pg - 1) * limit in
  let end_idx := start_idx + limit in
  Ok {| items := slice_list all_tasks start_idx end_idx;
        next_page_id := if end_idx <? Z.of_nat (length all_tasks) then Some (encode_page_id (pg + 1)) else None |}.
End git.

(** ** [config_router.py] *)

Record LLMModel := { provider : option string; name : string; verified : bool }.
(** [VERIFIED_MODELS], and the names [provider/name] made of it *)
Definition get_verified_models (table : dict string (list string)) : list string :=
  flat_map (fun '(p, models) => map (fun n => p +:+ "/" +:+ n) models) table.
Definition get_all_models_with_verified (table : dict string (list string)) (models : list string) : list LLMModel :=
  map (fun model_name =>
         let verified := bool_decide (model_name ∈ get_verified_models table) in
         match split_once "/" model_name with
         | Some (p, n) => {| provider := Some p; name := n; verified := verified |}
         | None => {| provider := None; name := model_name; verified := verified |}
         end) models.
Definition filtered_models (table : dict string (list string)) (models : list string) (query : option string) (verified__eq : option bool)
    : list LLMModel :=
  let l := get_all_models_with_verified table models in
  let l := match query with Some q => List.filter (fun m => contains (lower q) (lower (name m))) l | None => l end in
  match verified__eq with Some v => List.filter (fun m => Bool.eqb (verified m) v) l | None => l end.
Definition search_models (table : dict string (list string)) (models : list string) (query : option string) (verified__eq : option bool)
    (limit : Z) (page_id : option string) : page LLMModel :=
  let '(items, next_page_id) := paginate_results (filtered_models table models query verified__eq) page_id limit in
  {| items := items; next_page_id := next_page_id |}.

(** ** Following the pages *)

(** A route as a client meets it; it keeps no state. *)
Definition stateless {A} (route : option string -> res (page A)) : option string -> M unit (page A) := fun id s => (route id, s).

Lemma stateless_serves {A} (route : option string -> res (page A)) (id_of : nat -> string) (l : list A) size bound :
  (forall k, (k = 0 \/ k * size < bound)%nat ->
     route (if bool_decide (k = 0%nat) then None else Some (id_of k)) = Ok (page_at id_of l size bound k)) ->
  serves_pages (stateless route) (fun _ => True) id_of l size bound.
Proof.
  intros Hr. split.
  - intros s _. exists s. split; [|done]. unfold stateless. by rewrite <- (Hr 0%nat) by (by left).
  - intros k s _ Hk Hlt. exists s. split; [|done]. unfold stateless. rewrite <- (Hr k) by (by right). by rewrite bool_decide_false by lia.
Qed.

(** The list that a client ends up with. *)
Definition collects {A} (route : option string -> res (page A)) (l : list A) (fuel : nat) : Prop :=
  iterate (stateless route) fuel tt = Some ((l, None), tt).

Lemma collects_all {A} (route : option string -> res (page A)) id_of l limit fuel :
  serves_pages (stateless route) (fun _ => True) id_of l (Z.to_nat limit) (length l) -> 1 <= limit -> (0 < fuel)%nat ->
  Z.of_nat (length l) <= Z.of_nat fuel * limit -> collects route l fuel.
Proof.
  intros Hs Hlim Hf Hfuel. destruct (iterate_all _ _ _ _ _ _ Hs) with (fuel := fuel) (s := tt) as ([] & E & _); [lia..|done|done|nia|done].
Qed.

Lemma task_pages service_class tokens tasks limit : require_tokens tokens = Ok (default [] tokens) ->
  get_suggested_tasks service_class (default [] tokens) = Ok tasks -> 1 <= limit -> Z.of_nat (length tasks) < 2 ^ 63 ->
  serves_pages (stateless (search_suggested_tasks service_class tokens limit)) (fun _ => True)
    (fun k => encode_page_id (Z.of_nat k + 1)) tasks (Z.to_nat limit) (length tasks).
Proof.
  intros Ht Htasks Hlim Hlen. apply stateless_serves. intros k Hk. unfold search_suggested_tasks. rewrite Ht. cbn [rbind]. rewrite Htasks. cbn [rbind].
  assert (page_number (if bool_decide (k = 0%nat) then None else Some (encode_page_id (Z.of_nat k + 1))) = Z.of_nat k + 1) as ->.
  { case_bool_decide as Hk0; [by subst k|]. unfold page_number. rewrite decode_encode; [done|]. split; [lia|]. nia. }
  f_equal. unfold page_at. replace (Z.of_nat k + 1 - 1) with (Z.of_nat k) by lia. rewrite slice_list_nonneg by nia. f_equal; [do 2 f_equal; nia|].
  destruct (decide (S k * Z.to_nat limit < length tasks)%nat).
  - rewrite (proj2 (Z.ltb_lt _ _)), bool_decide_true by nia. do 3 f_equal. lia.
  - by rewrite (proj2 (Z.ltb_ge _ _)), bool_decide_false by nia.
Qed.

Lemma paginated_route {A} (route : option string -> res (page A)) l limit : 1 <= limit -> Z.of_nat (length l) < 2 ^ 64 ->
  (forall id, route id = let '(i, n) := paginate_results l id limit in Ok {| items := i; next_page_id := n |}) ->
  serves_pages (stateless route) (fun _ => True) (fun k => encode_page_id (Z.of_nat k * limit)) l (Z.to_nat limit) (length l).
Proof.
  intros Hlim Hlen Hr. destruct (paginate_serves (S := unit) l limit Hlim Hlen) as [H1 H2].
  split; [intros s Hs; destruct (H1 s Hs) as (s' & E & _)|intros k s Hs Hk Hlt; destruct (H2 k s Hs Hk Hlt) as (s' & E & _)];
    exists s'; (split; [|done]); unfold stateless; rewrite Hr; revert E; by destruct (paginate_results _ _ _).
Qed.

(** C0: The pages of the suggested tasks, of the installations and of the models
    to choose from are complete: a client that follows the page ids gets the whole
    list, each element once and in order, and comes to an end. *)
Theorem route_pages_are_complete service_class tokens provider table models query verified__eq tasks installations limit fuel :
  allowed_limit limit -> tokens <> [] ->
  get_suggested_tasks service_class tokens = Ok tasks -> get_installations service_class tokens provider = Ok installations ->
  provider ∈ [GITHUB; BITBUCKET; BITBUCKET_DATA_CENTER; AZURE_DEVOPS] ->
  let chosen := filtered_models table models query verified__eq in
  (0 < fuel)%nat -> Z.of_nat (Nat.max (length tasks) (Nat.max (length installations) (length chosen))) < Z.min (2 ^ 63) (Z.of_nat fuel * limit) ->
  collects (search_suggested_tasks service_class (Some tokens) limit) tasks fuel /\
  collects (search_user_installations service_class (Some tokens) provider limit) installations fuel /\
  collects (fun id => Ok (search_models table models query verified__eq limit id)) chosen fuel.
Proof.
  intros [Hlim _] Hne Htasks Hinst Hp chosen Hf Hfuel.
  assert (require_tokens (Some tokens) = Ok tokens) as Hreq by (by destruct tokens). split; [|split].
  - apply (collects_all _ (fun k => encode_page_id (Z.of_nat k + 1)) _ limit); [|lia..]. apply task_pages; [done|done|lia|lia].
  - apply (collects_all _ (fun k => encode_page_id (Z.of_nat k * limit)) _ limit); [|lia..]. apply paginated_route; [lia|lia|].
    intros id. unfold search_user_installations. rewrite Hreq. cbn [rbind].
    assert (match provider with
            | GITHUB | BITBUCKET | BITBUCKET_DATA_CENTER | AZURE_DEVOPS => get_installations service_class tokens provider
            | _ => Raise (http_exception 400 "Provider doesn't support installations") end = Ok installations) as ->
      by (rewrite <- Hinst; set_solver). done.
  - apply (collects_all _ (fun k => encode_page_id (Z.of_nat k * limit)) _ limit); [|lia..]. apply paginated_route; [lia|lia|].
    intros id. unfold search_models. fold chosen. by destruct (paginate_results _ _ _).
Qed.

(** A host with three tasks and two installations. *)
Definition no_service : GitService :=
  {| svc_paginated_repos := fun _ _ _ _ => Ok []; svc_all_repositories := fun _ _ => Ok []; svc_search_repositories := fun _ _ _ _ _ _ => Ok [];
     svc_search_branches := fun _ _ _ => Ok []; svc_suggested_tasks := Ok []; svc_installations := Ok [];
     svc_repository_details := fun _ => Raise (ValueError "") |}.
Definition task (n : Z) : SuggestedTask :=
  {| task_provider := GITHUB; task_type := OPEN_ISSUE; task_repo := "o/r"; issue_number := n; task_title := "t" |}.
Definition small_host : GitService :=
  {| svc_paginated_repos := fun _ _ _ _ => Ok []; svc_all_repositories := fun _ _ => Ok []; svc_search_repositories := fun _ _ _ _ _ _ => Ok [];
     svc_search_branches := fun _ _ _ => Ok []; svc_suggested_tasks := Ok [task 1; task 2; task 3]; svc_installations := Ok ["1"; "2"];
     svc_repository_details := fun _ => Raise (ValueError "") |}.
Definition github_token : ProviderTokens := [(GITHUB, {| token := Some "t"; token_user_id := None; host := None |})].
Lemma route_pages_are_complete_witness :
  let service_class := fun (_ : ProviderType) (_ : ProviderToken) => Ok small_host in
  collects (search_suggested_tasks service_class (Some github_token) 2) [task 1; task 2; task 3] 3 /\
  collects (search_user_installations service_class (Some github_token) GITHUB 2) ["1"; "2"] 3 /\
  collects (fun id => Ok (search_models [("openai", ["gpt-4o"])] ["openai/gpt-4o"; "o1"] (Some "GPT") (Some true) 2 id))
    [{| provider := Some "openai"; name := "gpt-4o"; verified := true |}] 3.
Proof.
  intros service_class.
  apply (route_pages_are_complete service_class github_token GITHUB [("openai", ["gpt-4o"])] ["openai/gpt-4o"; "o1"] (Some "GPT") (Some true)
           [task 1; task 2; task 3] ["1"; "2"] 2 3).
  - by split.
  - done.
  - reflexivity.
  - reflexivity.
  - set_solver.
  - lia.
  - by vm_compute.
Defined.

(** *** Pages that are not complete *)

Lemma page_of_more {A} limit pg (l : list A) : limit < Z.of_nat (length l) ->
  page_of limit pg l = {| items := removelast l; next_page_id := Some (encode_page_id (pg + 1)) |}.
Proof. intros Hl. unfold page_of. by rewrite (proj2 (Z.ltb_lt _ _)). Qed.

(** A search for branches, and one for repositories with a query, asks the host for
    the same branches whatever the page: if there are more than [limit], every page
    is the first one with a next page to follow, for ever. *)
Lemma branch_pages_never_end service_class tokens provider repository query limit branches : require_tokens tokens = Ok (default [] tokens) ->
  GitProvider.search_branches service_class (default [] tokens) (Some provider) repository query (limit + 1) = Ok branches ->
  limit < Z.of_nat (length branches) ->
  (forall id, exists n, search_branches service_class tokens provider repository query limit id =
                        Ok {| items := removelast branches; next_page_id := Some n |}) /\
  forall fuel, iterate (stateless (search_branches service_class tokens provider repository query limit)) fuel tt = None.
Proof.
  intros Ht Hb Hlen. assert (forall id, exists n, search_branches service_class tokens provider repository query limit id =
    Ok {| items := removelast branches; next_page_id := Some n |}) as Hp.
  { intros id. unfold search_branches. rewrite Ht. cbn [rbind]. rewrite Hb. cbn [rbind]. rewrite page_of_more by done. by eexists. }
  split; [done|]. intros fuel. apply (iterate_never _ (fun _ => True)); [|done]. intros id s _. destruct (Hp id) as [n E].
  unfold stateless. rewrite E. by eexists _, _.
Qed.
Lemma query_pages_never_end service_class app_mode tokens provider q inst sort_order limit repos : require_tokens tokens = Ok (default [] tokens) ->
  q <> "" -> (let '(s, o) := match sort_order with Some s => sort_and_order s | None => ("stars", "desc") end in
              GitProvider.search_repositories service_class (default [] tokens) (Some provider) q (limit + 1) s o app_mode) = Ok repos ->
  limit < Z.of_nat (length repos) ->
  forall fuel, iterate (stateless (search_repositories service_class app_mode tokens provider (Some q) inst sort_order limit)) fuel tt = None.
Proof.
  intros Ht Hq Hr Hlen fuel. apply (iterate_never _ (fun _ => True)); [|done]. intros id s _. unfold stateless, search_repositories.
  rewrite Ht. cbn [rbind]. destruct q as [|c q]; [done|]. destruct (match sort_order with Some _ => _ | None => _ end) as [so o].
  rewrite Hr. cbn [rbind]. rewrite page_of_more by done. by eexists _, _.
Qed.

(** Listing repositories asks the host for page [n] of [limit + 1] and drops the last
    one: every [limit + 1]-st repository is on no page.  A host that gives at most 100
    a page, as GitHub does, never shows that there are more when [limit] is 100, the
    default. *)
Definition repo (n : Z) : Repository :=
  {| repo_id := str_of_Z n; full_name := "o/" +:+ str_of_Z n; repo_provider := GITHUB; is_public := true; stargazers_count := None;
     link_header := None; pushed_at := None; owner_type := None; main_branch := None |}.
Definition paging_host (count : Z) : GitService :=
  {| svc_paginated_repos := fun pg n _ _ =>
       let n := Z.min n 100 in Ok (map repo (slice_list (seqZ 1 count) ((pg - 1) * n) (pg * n)));
     svc_all_repositories := fun _ _ => Ok []; svc_search_repositories := fun _ _ _ _ _ _ => Ok []; svc_search_branches := fun _ _ _ => Ok [];
     svc_suggested_tasks := Ok []; svc_installations := Ok []; svc_repository_details := fun _ => Raise (ValueError "") |}.
Definition listed (count limit : Z) : option (list string) :=
  match iterate (stateless (search_repositories (fun _ _ => Ok (paging_host count)) OPENHANDS (Some github_token) GITHUB None None None limit)) 10 tt with
  | Some ((l, None), _) => Some (map repo_id l)
  | _ => None
  end.
Example every_third_repository_is_missing : listed 8 2 = Some ["1"; "2"; "4"; "5"; "7"; "8"].
Proof. by vm_compute. Qed.
Example only_a_hundred_repositories : option_map length (listed 150 100) = Some 100%nat.
Proof. by vm_compute. Qed.
