(* ===== verification/RateLimiter.v ===== *)
(** * The rate limiter of the server

    Models [InMemoryRateLimiter] and [RateLimitMiddleware] of
    [server/middleware.py].

    Times are microseconds.  A request reads the clock twice: the first reading
    is its entry in the history, the second the end of the window that is kept.
    Between them and the entry nothing else runs: the coroutine waits only
    afterwards, when it sleeps, and then it touches no state.  So a call is one
    step, and calls of concurrent requests follow one another. *)

From Stdlib Require Import Ascii.
From S2P Require Import Prelude PyStr PyDict.

Record InMemoryRateLimiter := {
  history : dict string (list Z);
  requests : Z;
  seconds : Z;
  sleep_seconds : Z;
}.
Definition InMemoryRateLimiter_init (requests seconds sleep_seconds : Z) : InMemoryRateLimiter :=
  {| history := []; requests := requests; seconds := seconds; sleep_seconds := sleep_seconds |}.

(** [defaultdict(list)] *)
Definition past (self : InMemoryRateLimiter) (key : string) : list Z := default [] (dget (history self) key).
Definition set_history (self : InMemoryRateLimiter) (h : dict string (list Z)) : InMemoryRateLimiter :=
  {| history := h; requests := requests self; seconds := seconds self; sleep_seconds := sleep_seconds self |}.

Definition clean_old_requests (key : string) (now : Z) (self : InMemoryRateLimiter) : InMemoryRateLimiter :=
  let cutoff := now - 1000000 * seconds self in
  set_history self (dset (history self) key (filter (fun ts => cutoff < ts) (past self key))).

(** [True] at once, [True] after a sleep, [False]. *)
Inductive verdict := AtOnce | Delayed | Refused.
#[export] Instance verdict_eq_dec : EqDecision verdict.
Proof. solve_decision. Defined.

(** A request: its host and the two readings of the clock. *)
Record Request := { client : string; asked : Z; cleaned : Z }.

Definition rate_limit (self : InMemoryRateLimiter) (request : Request) : verdict * InMemoryRateLimiter :=
  let key := client request in
  let self := clean_old_requests key (cleaned request) self in
  let self := set_history self (dset (history self) key (past self key ++ [asked request])) in
  let n := Z.of_nat (length (past self key)) in
  (if requests self * 2 <? n then Refused
   else if requests self <? n then if 0 <? sleep_seconds self then Delayed else Refused
   else AtOnce, self).

(** [RateLimitMiddleware.dispatch], with the rest of the server as [call_next]. *)
Definition is_rate_limited_request (path : string) : bool := negb (startswith "/assets" path).
Definition dispatch {W Response} (too_many_requests : Response) (call_next : M W Response) (path : string) (request : Request)
    : M (InMemoryRateLimiter * W) Response :=
  if is_rate_limited_request path then
    v <- onL (fun self => let '(v, self) := rate_limit self request in (Ok v, self)) ;;
    match v with Refused => retM too_many_requests | _ => onR call_next end
  else onR call_next.

(** ** The history is the window *)

Definition handle (self : InMemoryRateLimiter) (l : list Request) : list verdict * InMemoryRateLimiter := transcript rate_limit self l.

(** A clock that does not run backwards. *)
Fixpoint clocked (t : Z) (l : list Request) : Prop :=
  match l with [] => True | r :: l => t <= asked r /\ asked r <= cleaned r /\ clocked (cleaned r) l end.
Definition end_of (t : Z) (l : list Request) : Z := match last l with Some r => cleaned r | None => t end.

Lemma clocked_snoc t l r : clocked t (l ++ [r]) <-> clocked t l /\ end_of t l <= asked r /\ asked r <= cleaned r.
Proof.
  revert t; induction l as [|x l IH]; intros t; cbn [app clocked]; [unfold end_of; cbn; tauto|].
  rewrite IH. assert (end_of (cleaned x) l = end_of t (x :: l)) as ->; [|tauto].
  unfold end_of. destruct l as [|y l]; [done|]. rewrite last_cons_cons.
  destruct (last (y :: l)) eqn:E; [done|]. by apply last_None in E.
Qed.
Lemma clocked_end t l : clocked t l -> t <= end_of t l.
Proof.
  induction l as [|r l IH] using rev_ind; [cbn; unfold end_of; cbn; lia|]. rewrite clocked_snoc. intros (Hl & H1 & H2).
  specialize (IH Hl). unfold end_of. rewrite last_snoc. lia.
Qed.

(** What a host asked, and what a request leaves in the history. *)
Definition asks (key : string) (l : list Request) : list Z := map asked (filter (fun r => client r = key) l).
Definition parameters (self : InMemoryRateLimiter) : Z * Z * Z := (requests self, seconds self, sleep_seconds self).
Lemma rate_limit_parameters self r : parameters (rate_limit self r).2 = parameters self.
Proof. done. Qed.
Lemma rate_limit_past self r key : past (rate_limit self r).2 key =
  if decide (client r = key) then filter (fun ts => cleaned r - 1000000 * seconds self < ts) (past self key) ++ [asked r] else past self key.
Proof.
  unfold rate_limit, past, clean_old_requests, set_history. cbn [snd history].
  destruct (decide (client r = key)) as [<-|Hne]; [by rewrite !dget_dset_eq|by rewrite !dget_dset_ne].
Qed.

Lemma verdict_eq self r : (rate_limit self r).1 =
  let n := Z.of_nat (length (past (rate_limit self r).2 (client r))) in
  if requests self * 2 <? n then Refused
  else if requests self <? n then if 0 <? sleep_seconds self then Delayed else Refused
  else AtOnce.
Proof. done. Qed.

Lemma verdict_bounds self r :
  let n := Z.of_nat (length (past (rate_limit self r).2 (client r))) in
  match (rate_limit self r).1 with
  | AtOnce => n <= requests self /\ n <= requests self * 2
  | Delayed => n <= requests self * 2 /\ 0 < sleep_seconds self
  | Refused => True
  end.
Proof.
  cbv zeta. rewrite verdict_eq. cbv zeta. generalize (Z.of_nat (length (past (rate_limit self r).2 (client r)))) as n. intros n.
  destruct (Z.ltb_spec (requests self * 2) n); [done|]. destruct (Z.ltb_spec (requests self) n); [|by split].
  by destruct (Z.ltb_spec 0 (sleep_seconds self)).
Qed.

Section window.
Context (R S sl t : Z).
Definition start : InMemoryRateLimiter := InMemoryRateLimiter_init R S sl.
Definition after_handling (l : list Request) : InMemoryRateLimiter := (handle start l).2.

Lemma handle_snoc l r : handle start (l ++ [r]) = ((handle start l).1 ++ [(rate_limit (after_handling l) r).1], (rate_limit (after_handling l) r).2).
Proof. unfold handle, after_handling. by rewrite transcript_snoc. Qed.
Lemma after_parameters l : parameters (after_handling l) = (R, S, sl).
Proof.
  induction l as [|r l IH] using rev_ind; [done|]. unfold after_handling. rewrite handle_snoc. cbn [snd]. by rewrite rate_limit_parameters.
Qed.

(** Of what lies in the window, the history has everything, also what was refused. *)
Lemma history_is_window l : clocked t l -> forall key c, end_of t l <= c + 1000000 * S ->
  filter (fun ts => c < ts) (past (after_handling l) key) = filter (fun ts => c < ts) (asks key l).
Proof.
  induction l as [|r l IH] using rev_ind; [done|]. rewrite clocked_snoc. intros (Hl & Ht & Hr) key c Hc.
  unfold end_of in Hc. rewrite last_snoc in Hc. unfold after_handling. rewrite handle_snoc. cbn [snd]. rewrite rate_limit_past.
  pose proof (after_parameters l) as [= _ -> _]. unfold asks. rewrite filter_app. destruct (decide (client r = key)) as [Hk|Hk].
  - rewrite filter_cons_True by done. rewrite filter_nil, map_app, !filter_app. f_equal.
    change (map asked _) with (asks key l). rewrite <- (IH Hl key c) by lia. rewrite list_filter_filter. apply list_filter_iff. intros x. split; [tauto|]. intros; split; lia.
  - rewrite filter_cons_False by done. rewrite filter_nil, app_nil_r. apply IH; [done|lia].
Qed.

(** A request of the host that was asked and cleaned within a window of [S]
    seconds, and that got one of the answers [ok]. *)
Definition within (key : string) (u : Z) (r : Request) : Prop := client r = key /\ u < asked r /\ cleaned r <= u + 1000000 * S.
#[export] Instance within_dec key u r : Decision (within key u r) := _.
Definition granted (ok : verdict -> bool) (key : string) (u : Z) (l : list Request) : nat :=
  length (filter (fun rv => within key u rv.1 /\ ok rv.2 = true) (zip l (handle start l).1)).

Lemma granted_asks ok key u l : (granted ok key u l <= length (filter (fun ts => u < ts)%Z (asks key l)))%nat.
Proof.
  unfold granted. generalize (handle start l).1 as vs. induction l as [|r l IH]; intros [|v vs]; cbn [zip zip_with]; [done..|cbn; lia|].
  specialize (IH vs). rewrite filter_cons. unfold asks in *. rewrite filter_cons. destruct (decide (client r = key)) as [Hk|Hk].
  - cbn [map]. rewrite filter_cons. case_decide as H1; case_decide as H2; cbn [length]; try lia. destruct H1 as [(_ & ? & _) _]. by cbn in *.
  - rewrite decide_False; [done|]. intros [(? & _) _]. by cbn in *.
Qed.

Lemma granted_bound ok B key u l : (forall self r, parameters self = (R, S, sl) -> ok (rate_limit self r).1 = true ->
    Z.of_nat (length (past (rate_limit self r).2 (client r))) <= B) ->
  clocked t l -> Z.of_nat (granted ok key u l) <= Z.max 0 B.
Proof.
  intros Hok. induction l as [|r l IH] using rev_ind; intros Hcl; [cbn; lia|].
  destruct (decide (within key u r /\ ok (rate_limit (after_handling l) r).1 = true)) as [[Hw Hv]|Hn].
  - pose proof (Hok _ r (after_parameters l) Hv) as Hb. pose proof (granted_asks ok key u (l ++ [r])) as Hg. destruct Hw as (<- & Hu & Hc).
    rewrite <- (history_is_window (l ++ [r]) Hcl) in Hg by (unfold end_of; rewrite last_snoc; lia).
    unfold after_handling in Hg at 1. rewrite handle_snoc in Hg. cbn [snd] in Hg.
    pose proof (length_filter (fun ts => u < ts) (past (rate_limit (after_handling l) r).2 (client r))). lia.
  - apply clocked_snoc in Hcl as [Hcl _]. specialize (IH Hcl). revert IH. unfold granted. rewrite handle_snoc. cbn [fst].
    assert (length l = length (handle start l).1) as Hlen by (unfold handle; by rewrite transcript_length).
    rewrite zip_with_app by done. cbn [zip_with]. rewrite filter_app, length_app, filter_cons_False by (by cbn [fst snd]).
    rewrite filter_nil. cbn [length]. by rewrite Nat.add_0_r.
Qed.
End window.

(** C24: Over any requests of any hosts, with a clock that does not run backwards, of
    the requests that one host makes within any [seconds] at most [requests] are let
    through at once, and at most twice as many after a sleep or at once; without a
    sleep at most [requests].  A host that has paused for [seconds] is let through at
    once. *)
Theorem requests_are_limited R S sl t l key u : clocked t l ->
  Z.of_nat (granted R S sl (fun v => bool_decide (v = AtOnce)) key u l) <= Z.max 0 R /\
  Z.of_nat (granted R S sl (fun v => bool_decide (v <> Refused)) key u l) <= Z.max 0 (if 0 <? sl then 2 * R else R) /\
  (forall r, 1 <= R -> client r = key -> end_of t l <= asked r <= cleaned r -> Forall (fun ts => ts <= cleaned r - 1000000 * S) (asks key l) ->
             (rate_limit (after_handling R S sl l) r).1 = AtOnce).
Proof.
  intros Hcl. split; [|split].
  - apply (granted_bound R S sl t); [|done]. intros self r [= <- <- <-]. rewrite bool_decide_eq_true. pose proof (verdict_bounds self r) as Hv.
    cbv zeta in Hv. intros E. rewrite E in Hv. apply Hv.
  - apply (granted_bound R S sl t); [|done]. intros self r [= <- <- <-]. rewrite bool_decide_eq_true. pose proof (verdict_bounds self r) as Hv.
    cbv zeta in Hv. destruct (rate_limit self r).1; intros E; [|rewrite (proj2 (Z.ltb_lt 0 _)) by apply Hv; lia|done].
    destruct (Z.ltb_spec 0 (sleep_seconds self)); lia.
  - intros r HR Hk Ht Hold. rewrite verdict_eq, rate_limit_past, decide_True by done. pose proof (after_parameters R S sl l) as [= Er Es El].
    rewrite Er, Es, Hk. rewrite (history_is_window R S sl t l Hcl) by lia.
    replace (filter _ (asks key l)) with (@nil Z).
    + cbn [app length]. by rewrite !(proj2 (Z.ltb_ge _ _)) by lia.
    + symmetry. clear - Hold. induction Hold as [|x ts Hx _ IH]; [done|]. rewrite filter_cons_False by lia. done.
Qed.

(** Two requests a second: the third of a burst waits, the fifth is refused, and after
    a pause it starts again. *)
Lemma requests_are_limited_witness :
  let ask t := {| client := "h"; asked := t; cleaned := t |} in
  let l := map ask [10; 20; 30; 40; 50; 2000000] in
  (handle (start 2 1 1) l).1 = [AtOnce; AtOnce; Delayed; Delayed; Refused; AtOnce] /\
  Z.of_nat (granted 2 1 1 (fun v => bool_decide (v = AtOnce)) "h" 0 l) <= Z.max 0 2 /\
  Z.of_nat (granted 2 1 1 (fun v => bool_decide (v <> Refused)) "h" 0 l) <= Z.max 0 4 /\
  (forall r, 1 <= 2 -> client r = "h" -> end_of 0 l <= asked r <= cleaned r -> Forall (fun ts => ts <= cleaned r - 1000000) (asks "h" l) ->
             (rate_limit (after_handling 2 1 1 l) r).1 = AtOnce).
Proof.
  intros ask l. split; [by vm_compute|]. apply (requests_are_limited 2 1 1 0 l "h" 0). cbn. lia.
Defined.

(** Refused requests count as well: a host that keeps asking three times as often as
    it may is never let through again. *)
Example asking_on_is_refused :
  let l := map (fun k => {| client := "h"; asked := k * 300000; cleaned := k * 300000 |}) (seqZ 0 40) in
  drop 2 (handle (start 1 1 1) l).1 = replicate 38 Refused.
Proof. by vm_compute. Qed.
