(* ===== verification/AgentSession.v ===== *)
(** * The session of an agent

    Models [server/session/agent_session.py]: starting a session (runtime,
    memory, controller), closing it, and its state as the server sees it.

    [start] and [close] are coroutines of one event loop.  What happens between
    two points where a coroutine waits is one step here; whatever is awaited may
    end in success or raise, and steps of the two coroutines interleave in any
    order.  The constructors of the step relation name the code between those
    points.  A session is started once, by the session of the web server that
    owns it; [close] may be called any number of times.  Times are seconds. *)

From Stdlib Require Import Ascii.
From S2P Require Import Prelude PyStr PyDict State GitProvider.

Definition WAIT_TIME_BEFORE_CLOSE : Z := 90.
Definition WAIT_TIME_BEFORE_CLOSE_INTERVAL : Z := 5.

(** A controller and a runtime, as far as a session uses them: how often the controller
    was saved and closed, and how often closing the runtime was handed to the executor,
    which nobody waits for. *)
Record controller_ref := { agent_state_of : string; saves : nat; controller_closings : nat }.
Record runtime_ref := { connected : bool; close_submissions : nat }.

Record AgentSession := {
  controller : option controller_ref;
  runtime : option runtime_ref;
  memory : bool;
  starting : bool;
  started_at : Z;
  closed : bool;
  event_stream_closings : nat;
  published : list string;
}.
Definition AgentSession_init : AgentSession :=
  {| controller := None; runtime := None; memory := false; starting := false; started_at := 0; closed := false;
     event_stream_closings := 0; published := [] |}.

Definition with_start (f : bool) (t : Z) (s : AgentSession) : AgentSession :=
  {| controller := controller s; runtime := runtime s; memory := memory s; starting := f; started_at := t; closed := closed s;
     event_stream_closings := event_stream_closings s; published := published s |}.
Definition with_runtime (r : option runtime_ref) (s : AgentSession) : AgentSession :=
  {| controller := controller s; runtime := r; memory := memory s; starting := starting s; started_at := started_at s; closed := closed s;
     event_stream_closings := event_stream_closings s; published := published s |}.
Definition with_memory (s : AgentSession) : AgentSession :=
  {| controller := controller s; runtime := runtime s; memory := true; starting := starting s; started_at := started_at s; closed := closed s;
     event_stream_closings := event_stream_closings s; published := published s |}.
Definition with_controller (c : option controller_ref) (s : AgentSession) : AgentSession :=
  {| controller := c; runtime := runtime s; memory := memory s; starting := starting s; started_at := started_at s; closed := closed s;
     event_stream_closings := event_stream_closings s; published := published s |}.
Definition with_closed (s : AgentSession) : AgentSession :=
  {| controller := controller s; runtime := runtime s; memory := memory s; starting := starting s; started_at := started_at s; closed := true;
     event_stream_closings := event_stream_closings s; published := published s |}.
Definition with_stream_closed (s : AgentSession) : AgentSession :=
  {| controller := controller s; runtime := runtime s; memory := memory s; starting := starting s; started_at := started_at s; closed := closed s;
     event_stream_closings := S (event_stream_closings s); published := published s |}.
Definition with_published (l : list string) (s : AgentSession) : AgentSession :=
  {| controller := controller s; runtime := runtime s; memory := memory s; starting := starting s; started_at := started_at s; closed := closed s;
     event_stream_closings := event_stream_closings s; published := published s ++ l |}.

(** ** [get_state] and [is_closed] *)

Definition get_state (now : Z) (self : AgentSession) : option string :=
  match controller self with
  | Some c => Some (agent_state_of c)
  | None => if started_at self + WAIT_TIME_BEFORE_CLOSE <? now then Some ERROR else None
  end.
Definition is_closed (self : AgentSession) : bool := closed self.

(** ** The pieces of [start] *)

(** Where [start] waits: for the tokens of the runtime, for the runtime to connect and
    set up, for the memory, for the tools. *)
Inductive start_point := Unstarted | Creating | Connecting | Preparing | AddingTools | Started.

Definition in_start (p : start_point) : bool := match p with Unstarted | Started => false | _ => true end.

Definition already_started (s : AgentSession) : bool :=
  match controller s, runtime s with None, None => false | _, _ => true end.
(** The guards, then [_starting] and the time. *)
Definition start_begin (now : Z) (s : AgentSession) : res (start_point * AgentSession) :=
  if already_started s then Raise (RuntimeError "Session already started. You need to close this session and start a new one.")
  else if closed s then Ok (Started, s)
  else Ok (Creating, with_start true now s).
(** [finally] *)
Definition start_ends (s : AgentSession) : AgentSession := with_start false (started_at s) s.
Definition initial_events (initial_message : option string) : list string :=
  match initial_message with
  | Some m => [m; "change_agent_state:" +:+ RUNNING]
  | None => ["change_agent_state:" +:+ AWAITING_USER_INPUT]
  end.
(** [_create_controller], then the first events unless the session was closed. *)
Definition create_controller (restored_state : option string) (s : AgentSession) : res AgentSession :=
  match controller s, runtime s with
  | Some _, _ => Raise (RuntimeError "Controller already created")
  | _, None => Raise (RuntimeError "Runtime must be initialized before the agent controller")
  | None, Some _ =>
      Ok (with_controller (Some {| agent_state_of := default LOADING restored_state; saves := 0; controller_closings := 0 |}) s)
  end.
Definition publish_first (initial_message : option string) (s : AgentSession) : AgentSession :=
  if closed s then s else with_published (initial_events initial_message) s.

(** [override_provider_tokens_with_custom_secret]: a secret with the name of a
    provider's variable, in lower or upper case, takes the place of its token. *)
Definition get_provider_env_key (p : ProviderType) : string := lower (provider_value p +:+ "_token").
Definition overridden (custom_secrets : list string) (p : ProviderType) : bool :=
  existsb (String.eqb (get_provider_env_key p)) custom_secrets || existsb (String.eqb (upper (get_provider_env_key p))) custom_secrets.
Definition override_provider_tokens_with_custom_secret (git_provider_tokens : option ProviderTokens) (custom_secrets : option (list string))
    : option ProviderTokens :=
  match git_provider_tokens, custom_secrets with
  | Some (t :: ts), Some (c :: cs) => Some (filter (fun kv => overridden (c :: cs) kv.1 = false) (t :: ts))
  | _, _ => git_provider_tokens
  end.

(** ** The pieces of [close] *)

Inductive close_point := Waiting | Sleeping (since : Z) | ClosingController | Closed | CloseRaised.

(** The wait is over after an interval if the time is not past the limit yet: the
    comparison is the wrong way round. *)
Definition waited_enough (now : Z) (s : AgentSession) : bool := now <=? started_at s + WAIT_TIME_BEFORE_CLOSE.
Definition save_controller (c : controller_ref) : controller_ref :=
  {| agent_state_of := agent_state_of c; saves := S (saves c); controller_closings := controller_closings c |}.
Definition close_controller (c : controller_ref) : controller_ref :=
  {| agent_state_of := agent_state_of c; saves := saves c; controller_closings := S (controller_closings c) |}.
Definition submit_close (r : runtime_ref) : runtime_ref :=
  {| connected := connected r; close_submissions := S (close_submissions r) |}.
(** The event stream, then the state of the controller; without a controller there is
    nothing to wait for and the closing of the runtime is submitted at once. *)
Definition finish_close (s : AgentSession) : AgentSession := with_runtime (submit_close <$> runtime s) s.
Definition tear_down (s : AgentSession) : AgentSession * close_point :=
  let s := with_stream_closed s in
  match controller s with
  | Some c => (with_controller (Some (save_controller c)) s, ClosingController)
  | None => (finish_close s, Closed)
  end.
(** After [controller.close()] *)
Definition after_controller (s : AgentSession) : AgentSession := finish_close (with_controller (close_controller <$> controller s) s).

(** ** Steps *)

Record system := { session : AgentSession; at_start : start_point; at_close : option close_point; clock : Z }.
Definition system_init : system := {| session := AgentSession_init; at_start := Unstarted; at_close := None; clock := 0 |}.
Definition moved (x : system) (s : AgentSession) (p : start_point) (q : option close_point) : system :=
  {| session := s; at_start := p; at_close := q; clock := clock x |}.

(** [close] waits while the session is starting, and tears it down when it is not, or
    when it gives up. *)
Definition past_wait (x : system) : bool :=
  match at_close x with
  | Some Waiting => negb (starting (session x))
  | Some (Sleeping t) => (t + WAIT_TIME_BEFORE_CLOSE_INTERVAL <=? clock x) && waited_enough (clock x) (session x)
  | _ => false
  end.

Inductive step (x : system) : system -> Prop :=
  | time_passes t : clock x <= t -> step x {| session := session x; at_start := at_start x; at_close := at_close x; clock := t |}
  (** [start] *)
  | start_called p s : at_start x = Unstarted -> start_begin (clock x) (session x) = Ok (p, s) -> step x (moved x s p (at_close x))
  | start_fails : in_start (at_start x) = true ->
      step x (moved x (start_ends (session x)) Started (at_close x))
  | runtime_made : at_start x = Creating -> runtime (session x) = None ->
      step x (moved x (with_runtime (Some {| connected := false; close_submissions := 0 |}) (session x)) Connecting (at_close x))
  | runtime_connected r : at_start x = Connecting -> runtime (session x) = Some r ->
      step x (moved x (with_runtime (Some {| connected := true; close_submissions := close_submissions r |}) (session x)) Preparing (at_close x))
  | runtime_unavailable : at_start x = Connecting -> step x (moved x (session x) Preparing (at_close x))
  | memory_made : at_start x = Preparing -> step x (moved x (with_memory (session x)) AddingTools (at_close x))
  | controller_made restored m s : at_start x = AddingTools -> create_controller restored (session x) = Ok s ->
      step x (moved x (start_ends (publish_first m s)) Started (at_close x))
  (** [close] *)
  | close_called : closed (session x) = false -> step x (moved x (with_closed (session x)) (at_start x) (Some Waiting))
  | close_again : closed (session x) = true -> step x x
  | close_sleeps : at_close x = Some Waiting -> starting (session x) = true ->
      step x (moved x (session x) (at_start x) (Some (Sleeping (clock x))))
  | close_wakes t : at_close x = Some (Sleeping t) -> t + WAIT_TIME_BEFORE_CLOSE_INTERVAL <= clock x ->
      waited_enough (clock x) (session x) = false -> step x (moved x (session x) (at_start x) (Some Waiting))
  | close_proceeds : past_wait x = true ->
      step x (moved x (tear_down (session x)).1 (at_start x) (Some (tear_down (session x)).2))
  | save_fails : past_wait x = true -> step x (moved x (with_stream_closed (session x)) (at_start x) (Some CloseRaised))
  | controller_closed : at_close x = Some ClosingController -> step x (moved x (after_controller (session x)) (at_start x) (Some Closed))
  | close_cancelled p : at_close x = Some p -> p <> Closed -> step x (moved x (session x) (at_start x) (Some CloseRaised))
  (** The controller goes on meanwhile. *)
  | controller_runs c a : controller (session x) = Some c ->
      step x (moved x (with_controller (Some {| agent_state_of := a; saves := saves c; controller_closings := controller_closings c |}) (session x))
                (at_start x) (at_close x)).

(** ** Closing *)

(** What was made and how often it was saved and closed. *)
Definition tally (s : AgentSession) : option (nat * nat) * option nat :=
  ((fun c => (saves c, controller_closings c)) <$> controller s, close_submissions <$> runtime s).
Definition untouched (s : AgentSession) : Prop :=
  (forall c, controller s = Some c -> saves c = 0%nat /\ controller_closings c = 0%nat) /\
  (forall r, runtime s = Some r -> close_submissions r = 0%nat).

(** Before [close] is called nothing is saved or closed. *)
Definition before_close (x : system) : Prop :=
  closed (session x) = false -> untouched (session x) /\ at_close x = None /\ (in_start (at_start x) = false -> starting (session x) = false).

Lemma before_close_step x y : before_close x -> step x y -> before_close y.
Proof.
  intros Hx Hs Hc. destruct Hs; unfold moved in *; cbn [session at_start at_close] in *;
    try (unfold with_closed in Hc; done);
    try (match goal with H : past_wait _ = true |- _ => unfold past_wait in H end).
  - by apply Hx.
  - unfold start_begin in *. destruct (already_started _); [done|]. destruct (closed (session x)) eqn:E.
    + simplify_eq. congruence.
    + simplify_eq. destruct (Hx E) as (Hu & Ha & _). split; [done|]. split; [done|]. done.
  - destruct (Hx Hc) as (Hu & Ha & _). done.
  - destruct (Hx Hc) as (Hu & Ha & _). split; [split; [apply Hu|by intros r [= <-]]|]. split; [done|done].
  - destruct (Hx Hc) as (Hu & Ha & _). split; [split; [apply Hu|]|split; [done|done]]. intros r' [= <-]. cbn [close_submissions]. by apply (proj2 Hu).
  - destruct (Hx Hc) as (Hu & Ha & _). split; [done|split; [done|done]].
  - destruct (Hx Hc) as (Hu & Ha & _). split; [done|split; [done|done]].
  - assert (closed (session x) = false) as Hc'.
    { unfold create_controller in *. repeat case_match; simplify_eq. revert Hc. unfold publish_first. cbn [closed with_controller]. destruct (closed (session x)) eqn:E; cbn; congruence. }
    destruct (Hx Hc') as (Hu & Ha & _). unfold create_controller in *. repeat case_match; simplify_eq. unfold publish_first.
    cbn [closed with_controller]. rewrite Hc'. split; [|split; [done|done]]. split; [by intros c [= <-]|]. cbn. by apply Hu.
  - by apply Hx.
  - destruct (Hx Hc) as (Hu & Ha & _). congruence.
  - destruct (Hx Hc) as (Hu & Ha & _). congruence.
  - assert (closed (session x) = false) as Hc' by (revert Hc; unfold tear_down; by destruct (controller (with_stream_closed (session x)))).
    destruct (Hx Hc') as (_ & Ha & _). by rewrite Ha in *.
  - destruct (Hx Hc) as (_ & Ha & _). by rewrite Ha in *.
  - destruct (Hx Hc) as (_ & Ha & _). congruence.
  - destruct (Hx Hc) as (_ & Ha & _). congruence.
  - destruct (Hx Hc) as (Hu & Ha & Hst). split; [|done]. split; [|apply Hu]. intros c' [= <-]. cbn [saves controller_closings]. by apply (proj1 Hu).
Qed.

(** While [close] runs on a session that is not starting. *)
Definition progress (p : close_point) : (nat * nat) * nat :=
  match p with Closed => ((1, 1), 1)%nat | ClosingController => ((1, 0), 0)%nat | _ => ((0, 0), 0)%nat end.
Definition tallies (s : AgentSession) (n : (nat * nat) * nat) : Prop :=
  (forall c, controller s = Some c -> (saves c, controller_closings c) = n.1) /\
  (forall r, runtime s = Some r -> close_submissions r = n.2).
Definition closing (x : system) : Prop :=
  closed (session x) = true /\ in_start (at_start x) = false /\ starting (session x) = false /\
  match at_close x with
  | None => False
  | Some CloseRaised => True
  | Some ClosingController => tallies (session x) (progress ClosingController) /\ controller (session x) <> None
  | Some p => tallies (session x) (progress p)
  end.

Lemma tear_down_tallies s : tallies s ((0, 0), 0)%nat -> tallies (tear_down s).1 (progress (tear_down s).2) /\
  ((tear_down s).2 = ClosingController /\ controller (tear_down s).1 <> None \/ (tear_down s).2 = Closed) /\
  closed (tear_down s).1 = closed s /\ starting (tear_down s).1 = starting s.
Proof.
  intros [Hc Hr]. unfold tear_down. cbn [controller with_stream_closed]. destruct (controller s) as [c|] eqn:Ec; cbn [fst snd].
  - split; [|split; [by left|done]]. split; cbn.
    + intros c' [= <-]. specialize (Hc c eq_refl). injection Hc as E1 E2. unfold save_controller. cbn. by rewrite E1, E2.
    + intros r. apply Hr.
  - split; [|split; [by right|done]]. split; cbn.
    + intros c'. by rewrite Ec.
    + intros r. destruct (runtime s) as [r'|]; cbn; [|done]. intros [= <-]. cbn. f_equal. by apply Hr.
Qed.

Lemma closing_step x y : closing x -> step x y -> closing y.
Proof.
  intros (Hc & Hp & Hs & Ht) Hst. destruct Hst; unfold moved, closing in *; cbn [session at_start at_close] in *;
    try (match goal with H : at_start _ = _ |- _ => rewrite H in Hp end; done); try congruence.
  - done.
  - unfold start_begin in *. destruct (already_started _); [done|]. rewrite Hc in *. simplify_eq. split; [done|]. by split.
  - done.
  - by rewrite H in Ht.
  - unfold past_wait in *. destruct (at_close x) as [[]|]; try done; destruct (tear_down_tallies (session x) Ht) as (H1 & [[H2 H3]|H2] & H4 & H5);
      rewrite H4, H5, H2 in *; done.
  - done.
  - rewrite H in Ht. destruct Ht as [[H1 H2] H3]. split; [done|]. split; [done|]. split; [done|]. split.
    + destruct (controller (session x)) as [c|] eqn:Ec; [|done]. cbn. rewrite Ec. intros c' [= <-]. specialize (H1 c eq_refl). cbn in H1.
      injection H1 as E1 E2. cbn. by rewrite E1, E2.
    + cbn. intros r. destruct (runtime (session x)) as [r'|]; cbn; [|done]. intros [= <-]. cbn. f_equal. by apply H2.
  - done.
  - split; [done|]. split; [done|]. split; [done|].
    assert (forall n, tallies (session x) n -> tallies (with_controller (Some {| agent_state_of := a; saves := saves c; controller_closings := controller_closings c |}) (session x)) n) as Hk.
    { intros n [H1 H2]. split; [|apply H2]. cbn. intros c' [= <-]. cbn. by apply H1. }
    destruct (at_close x) as [[]|]; try done; try (by apply Hk). destruct Ht as [Ht Hn]. split; [by apply Hk|done].
Qed.

(** Nothing is made without a start. *)
Definition nothing_made (s : AgentSession) : Prop := controller s = None /\ runtime s = None.
Lemma nothing_made_closing s : nothing_made s -> nothing_made (tear_down s).1 /\ nothing_made (after_controller s) /\ nothing_made (with_stream_closed s).
Proof.
  intros [Ec Er]. split; [|split; [|by split]].
  - unfold tear_down. cbn [controller with_stream_closed]. rewrite Ec. split; cbn; [done|by rewrite Er].
  - split; cbn; [by rewrite Ec|by rewrite Er].
Qed.
Lemma unstarted_step x y : (at_start x = Unstarted -> nothing_made (session x)) -> step x y -> at_start y = Unstarted -> nothing_made (session y).
Proof.
  intros Hx Hs. destruct Hs; unfold moved; cbn [session at_start]; try done; intros Hy; try (by destruct (nothing_made_closing _ (Hx Hy)) as (? & ? & ?)).
  - unfold start_begin in *. by repeat case_match; simplify_eq.
  - destruct (Hx Hy). congruence.
Qed.
Definition never_made (x : system) : Prop := closed (session x) = true /\ in_start (at_start x) = false /\ nothing_made (session x).
Lemma never_made_step x y : never_made x -> step x y -> never_made y.
Proof.
  intros (Hc & Hp & Hn) Hs. pose proof (nothing_made_closing _ Hn) as (H1 & H2 & H3).
  destruct Hs; unfold moved, never_made; cbn [session at_start]; try done;
    try (match goal with H : at_start _ = _ |- _ => rewrite H in Hp end; done); try congruence.
  - unfold start_begin in *. destruct (already_started _); [done|]. rewrite Hc in *. by simplify_eq.
  - split; [|done]. unfold tear_down. by destruct (controller (with_stream_closed (session x))).
  - destruct Hn. congruence.
Qed.

(** An invariant of the steps. *)
Lemma runs_keep (P : system -> Prop) : (forall x y, P x -> step x y -> P y) -> forall x y, rtc step x y -> P x -> P y.
Proof. intros Hk x y Hr. induction Hr as [|a b c Hs _ IH]; [done|]. intros Ha. by apply IH, (Hk a). Qed.

(** C11: Closing is complete: if a session is closed while it is not starting, then
    when [close] has returned the controller, if there is one, has been saved and
    closed exactly once and the closing of the runtime, if there is one, has been handed
    to the executor exactly once, whatever else was called and however the calls
    interleave; a session closed before its start never gets
    either. *)
Theorem close_is_complete x y : rtc step system_init x -> in_start (at_start x) = false -> closed (session x) = false ->
  rtc step (moved x (with_closed (session x)) (at_start x) (Some Waiting)) y -> at_close y = Some Closed ->
  tallies (session y) ((1, 1), 1)%nat /\ (at_start x = Unstarted -> controller (session y) = None /\ runtime (session y) = None).
Proof.
  intros Hreach Hp Hc Hrun Hend.
  assert (before_close x) as Hbc.
  { apply (runs_keep _ before_close_step _ _ Hreach). intros _. split; [split; done|by split]. }
  destruct (Hbc Hc) as ([Hu1 Hu2] & _ & Hst). split.
  - assert (closing y) as (_ & _ & _ & Ht); [|by rewrite Hend in Ht]. apply (runs_keep _ closing_step _ _ Hrun).
    split; [done|]. split; [done|]. split; [by apply Hst|]. split; cbn; [intros c Ec; destruct (Hu1 c Ec) as [-> ->]; done|done].
  - intros Hun. assert (never_made y) as (_ & _ & Hn); [|done]. apply (runs_keep _ never_made_step _ _ Hrun). split; [done|]. split; [done|].
    cbn [session moved]. unfold nothing_made. cbn [controller runtime with_closed].
    apply (runs_keep (fun x => at_start x = Unstarted -> nothing_made (session x)) unstarted_step _ _ Hreach); [done|done].
Qed.

(** *** Witness and the wait that does not wait *)

(** A run of a whole start, without a message. *)
Definition made (t : Z) (a : string) : AgentSession :=
  {| controller := Some {| agent_state_of := a; saves := 0; controller_closings := 0 |};
     runtime := Some {| connected := true; close_submissions := 0 |}; memory := true; starting := false; started_at := t; closed := false;
     event_stream_closings := 0; published := initial_events None |}.
Lemma start_runs : rtc step system_init {| session := made 0 LOADING; at_start := Started; at_close := None; clock := 0 |}.
Proof.
  eapply rtc_l; [eapply start_called; [done|reflexivity]|]. eapply rtc_l; [by eapply runtime_made|].
  eapply rtc_l; [by eapply runtime_connected|]. eapply rtc_l; [by eapply memory_made|].
  eapply rtc_l; [eapply (controller_made _ None None); [done|reflexivity]|]. apply rtc_refl.
Qed.
Lemma close_is_complete_witness :
  let x := {| session := made 0 LOADING; at_start := Started; at_close := None; clock := 0 |} in
  exists y, rtc step (moved x (with_closed (session x)) (at_start x) (Some Waiting)) y /\ at_close y = Some Closed /\
            controller (session y) <> None /\ tallies (session y) ((1, 1), 1)%nat.
Proof.
  intros x. eexists. assert (Hrun : rtc step (moved x (with_closed (session x)) (at_start x) (Some Waiting))
    (moved x (after_controller (tear_down (with_closed (session x))).1) Started (Some Closed))).
  { eapply rtc_l; [by eapply close_proceeds|]. eapply rtc_l; [by eapply controller_closed|]. apply rtc_refl. }
  split; [exact Hrun|]. split; [done|]. split; [done|].
  apply (close_is_complete x _ start_runs eq_refl eq_refl Hrun eq_refl).
Defined.

(** A session that is closed while it starts is torn down five seconds later, though
    it may take up to 90 seconds to start; what the start makes afterwards is never
    closed. *)
Definition leaks (x : system) : Prop :=
  closed (session x) = true /\ at_start x = Started /\ at_close x = Some Closed /\
  exists c r, controller (session x) = Some c /\ controller_closings c = 0%nat /\ runtime (session x) = Some r /\ close_submissions r = 0%nat.
Lemma leaks_step x y : leaks x -> step x y -> leaks y.
Proof.
  intros (Hc & Hp & Hq & c & r & Ec & Hcc & Er & Hrc) Hs.
  assert (past_wait x = false) as Hw by (unfold past_wait; by rewrite Hq).
  destruct Hs as [t Ht|p s H _|H|H _|r' H _|H|H|? ? s H _|H| |H _|t H _ _|H|H|H|p H Hne|c' a H];
    try (rewrite Hp in H; discriminate H); try (rewrite Hq in H; discriminate H); try (rewrite Hw in H; discriminate H).
  - split; [done|]. split; [done|]. split; [done|]. by exists c, r.
  - rewrite Hc in H. discriminate H.
  - split; [done|]. split; [done|]. split; [done|]. by exists c, r.
  - rewrite Hq in H. by injection H as <-.
  - rewrite Ec in H. injection H as <-. split; [done|]. split; [done|]. split; [done|]. by eexists _, r.
Qed.
Lemma early_close_leaks : exists x, rtc step system_init x /\ forall y, rtc step x y -> leaks y.
Proof.
  eexists. split; [|intros y Hy; apply (runs_keep _ leaks_step _ _ Hy)].
  - eapply rtc_l; [eapply start_called; [done|reflexivity]|]. eapply rtc_l; [by eapply close_called|].
    eapply rtc_l; [by eapply close_sleeps|]. eapply rtc_l; [by eapply (time_passes _ 6)|].
    eapply rtc_l; [by eapply close_proceeds|]. eapply rtc_l; [by eapply runtime_made|]. eapply rtc_l; [by eapply runtime_connected|].
    eapply rtc_l; [by eapply memory_made|]. eapply rtc_l; [eapply (controller_made _ None None); [done|reflexivity]|]. apply rtc_refl.
  - split; [done|]. split; [done|]. split; [done|]. by do 2 eexists.
Qed.
(** After more than 90 seconds it waits on, as long as the start takes. *)
Lemma late_close_waits x t : at_close x = Some (Sleeping t) -> starting (session x) = true ->
  started_at (session x) + WAIT_TIME_BEFORE_CLOSE < clock x -> past_wait x = false.
Proof. intros E _ Ht. unfold past_wait. rewrite E. unfold waited_enough. rewrite (proj2 (Z.leb_gt (clock x) _)) by done. by rewrite andb_false_r. Qed.
