(* ===== verification/ConversationManager.v ===== *)
(** * The conversation manager

    Models [server/conversation_manager/standalone_conversation_manager.py] and
    [server/session/conversation.py]: conversations that requests attach to, with
    their counts of users; the sessions of running agents; the connections of
    clients; and the task that cleans up.

    Sessions and conversations are objects: [sessions] and [conversations] hold all
    that were ever made, the tables of the manager hold their numbers.  The metadata of
    conversations, socket.io and the runtimes behind the sessions are parameters; what
    is sent to socket.io is a log.

    Methods that take the lock, and those that do not wait, are one step.
    [_start_agent_loop] waits many times; [serving_step] has its steps between these
    waits, for any number of starts at once, and [maybe_start_agent_loop] is a start
    during which nothing else happens ([alone]).  A round of [_cleanup_stale] looks at
    the sessions and the connections without a wait, which is [sids_to_close]; the
    closings that follow do wait, and [cleanup_sessions] is a round during which
    nothing else happens ([cut_off_while_cleaning]). *)

From Stdlib Require Import Ascii.
From S2P Require Import Prelude PyStr PyDict PyList PyFloat PyTime State Paging ConversationStore.

(** ** Objects *)

(** [ServerConversation]: with the event stream of a session or its own, and with the
    runtime of that session ([attach_to_existing]) or its own; how often it closed
    its event stream and its runtime. *)
Record ServerConversation := { conversation_sid : string; stream_of : option nat; attach_to_existing : bool; disconnects : nat }.
(** [Session], as far as the manager looks at it; [session_state] is what
    [agent_session.get_state()] says. *)
Record Session := {
  session_sid : string; session_user : option string; last_active_ts : Z; session_state : option string;
  has_runtime : bool; runtime_initialized : bool; session_closings : nat;
}.
Inductive sio_call := EnterRoom (connection_id sid : string) | EmitTooMany (sid : string) | Disconnect (connection_id : string).

Record Manager := {
  agent_loops : dict string nat;
  connection_sids : dict string string;
  active : dict string (nat * Z);
  detached : dict string (nat * Z);
  conversations : list ServerConversation;
  sessions : list Session;
  sio : list sio_call;
}.
Definition Manager_init : Manager :=
  {| agent_loops := []; connection_sids := []; active := []; detached := []; conversations := []; sessions := []; sio := [] |}.

Definition set_attached (a d : dict string (nat * Z)) (l : list ServerConversation) (m : Manager) : Manager :=
  {| agent_loops := agent_loops m; connection_sids := connection_sids m; active := a; detached := d; conversations := l;
     sessions := sessions m; sio := sio m |}.
Definition set_sessions (loops : dict string nat) (l : list Session) (m : Manager) : Manager :=
  {| agent_loops := loops; connection_sids := connection_sids m; active := active m; detached := detached m;
     conversations := conversations m; sessions := l; sio := sio m |}.
Definition set_connections (c : dict string string) (calls : list sio_call) (m : Manager) : Manager :=
  {| agent_loops := agent_loops m; connection_sids := c; active := active m; detached := detached m;
     conversations := conversations m; sessions := sessions m; sio := sio m ++ calls |}.

(** [_local_agent_loops_by_sid.get(sid)] *)
Definition session_at (m : Manager) (sid : string) : option Session := i ← dget (agent_loops m) sid; sessions m !! i.

(** ** Attaching to conversations *)

(** How [connect] ends for a conversation with a runtime of its own. *)
Inductive connect_result := Connects | Unavailable | ConnectRaises (x : exn).

(** [ServerConversation.disconnect] *)
Definition disconnect (c : ServerConversation) : ServerConversation :=
  if attach_to_existing c then c
  else {| conversation_sid := conversation_sid c; stream_of := stream_of c; attach_to_existing := false; disconnects := S (disconnects c) |}.

(** [attach_to_conversation]: [found] is whether the session exists on file.  The
    conversation is answered by its number. *)
Definition attach_to_conversation (sid : string) (found : bool) (connect : connect_result) : M Manager (option nat) := fun m =>
  if negb found then (Ok None, m)
  else match dget (active m) sid with
       | Some (c, count) => (Ok (Some c), set_attached (dset (active m) sid (c, count + 1)) (detached m) (conversations m) m)
       | None =>
           match dget (detached m) sid with
           | Some (c, _) => (Ok (Some c), set_attached (dset (active m) sid (c, 1)) (ddel (detached m) sid) (conversations m) m)
           | None =>
               let runtime := match session_at m sid with Some session => has_runtime session | None => false end in
               let conv := {| conversation_sid := sid; stream_of := dget (agent_loops m) sid; attach_to_existing := runtime; disconnects := 0 |} in
               let c := length (conversations m) in
               match runtime, connect with
               | false, Unavailable => (Ok None, set_attached (active m) (detached m) (conversations m ++ [disconnect conv]) m)
               | false, ConnectRaises x => (Raise x, set_attached (active m) (detached m) (conversations m ++ [conv]) m)
               | _, _ => (Ok (Some c), set_attached (dset (active m) sid (c, 1)) (detached m) (conversations m ++ [conv]) m)
               end
           end
       end.

Definition sid_of (m : Manager) (c : nat) : option string := conversation_sid <$> conversations m !! c.
Definition detach_from_conversation (c : nat) (now : Z) (m : Manager) : Manager :=
  match sid_of m c with
  | None => m
  | Some sid =>
      match dget (active m) sid with
      | Some (conv, count) =>
          if 1 <? count then set_attached (dset (active m) sid (conv, count - 1)) (detached m) (conversations m) m
          else set_attached (ddel (active m) sid) (dset (detached m) sid (c, now)) (conversations m) m
      | None => m
      end
  end.

(** The first part of a round of [_cleanup_stale]; [fails] is the exception of a
    conversation whose disconnection raises, which ends the round. *)
Fixpoint disconnect_all (fails : nat -> option exn) (l : list (string * (nat * Z))) : M Manager unit := fun m =>
  match l with
  | [] => (Ok tt, m)
  | (sid, (c, _)) :: l =>
      match fails c with
      | Some x => (Raise x, m)
      | None => disconnect_all fails l (set_attached (active m) (ddel (detached m) sid) (alter disconnect c (conversations m)) m)
      end
  end.
Definition cleanup_detached (fails : nat -> option exn) : M Manager unit := fun m => disconnect_all fails (detached m) m.

(** ** Sessions and connections *)

Definition truthy (u : option string) : bool := match u with Some "" | None => false | _ => true end.

Definition get_running_agent_loops (user_id : option string) (filter_to_sids : option (list string)) (m : Manager) : list string :=
  let items := agent_loops m in
  let items := match filter_to_sids with Some l => filter (fun kv => kv.1 ∈ l) items | None => items end in
  let items := if truthy user_id then filter (fun kv => mbind session_user (sessions m !! kv.2) = user_id) items else items in
  dkeys items.

Definition get_connections (user_id : option string) (filter_to_sids : option (list string)) (m : Manager) : dict string string :=
  let connections := connection_sids m in
  let connections := match filter_to_sids with Some l => filter (fun kv => kv.2 ∈ l) connections | None => connections end in
  if truthy user_id then filter (fun kv => mbind session_user (session_at m kv.2) = user_id) connections else connections.

Definition close_object (s : Session) : Session :=
  {| session_sid := session_sid s; session_user := session_user s; last_active_ts := last_active_ts s; session_state := session_state s;
     has_runtime := has_runtime s; runtime_initialized := runtime_initialized s; session_closings := S (session_closings s) |}.

(** [_close_session], without the failures of socket.io and of closing. *)
Definition close_connections (sid : string) (m : Manager) : Manager :=
  set_connections (filter (fun kv => kv.2 <> sid) (connection_sids m)) (map Disconnect (filter (fun kv => kv.2 = sid) (connection_sids m)).*1) m.
Definition pop_session (sid : string) (m : Manager) : Manager :=
  match dget (agent_loops m) sid with
  | None => m
  | Some i => set_sessions (ddel (agent_loops m) sid) (alter close_object i (sessions m)) m
  end.
Definition close_session_ (sid : string) (m : Manager) : Manager := pop_session sid (close_connections sid m).
(** [close_session] *)
Definition close_session (sid : string) (m : Manager) : Manager :=
  match dget (agent_loops m) sid with Some _ => close_session_ sid m | None => m end.

Definition disconnect_from_session (connection_id : string) (m : Manager) : Manager :=
  set_connections (ddel (connection_sids m) connection_id) [] m.

(** [send_to_event_stream]: the session that gets the data. *)
Definition send_event_to_conversation (sid : string) (m : Manager) : res Session :=
  match session_at m sid with Some s => Ok s | None => Raise (RuntimeError ("no_conversation:" +:+ sid)) end.
Definition send_to_event_stream (connection_id : string) (m : Manager) : res Session :=
  match dget (connection_sids m) connection_id with
  | None | Some "" => Raise (RuntimeError ("no_connected_session:" +:+ connection_id))
  | Some sid => send_event_to_conversation sid m
  end.

Inductive ConversationStatus := STARTING | RUNNING_.
Definition get_status_from_session (s : Session) : ConversationStatus :=
  if has_runtime s && runtime_initialized s then RUNNING_ else STARTING.
Definition get_agent_loop_info (user_id : option string) (filter_to_sids : option (list string)) (m : Manager)
    : list (string * ConversationStatus) :=
  omap (fun kv => s ← sessions m !! kv.2;
                  if truthy user_id && negb (bool_decide (session_user s = user_id)) then None
                  else if match filter_to_sids with None | Some [] => false | Some l => negb (bool_decide (session_sid s ∈ l)) end then None
                  else Some (session_sid s, get_status_from_session s)) (agent_loops m).

(** ** Starting sessions *)

Section start.
(** The metadata of a conversation, the order in which a set is walked, and
    [max_concurrent_conversations]. *)
Context (metadata : string -> res ConversationMetadata) (set_order : list string -> list string) (max_concurrent : Z).

Definition last_updated_at_key (c : ConversationMetadata) : Z := match last_updated_at c with Some t => instant t | None => 0 end.
Definition updated_before (x y : ConversationMetadata) : bool := last_updated_at_key x <? last_updated_at_key y.

(** [while len(conversations) >= max: conversations.pop() ...], on the list from its
    end. *)
Fixpoint close_oldest (oldest_first : list ConversationMetadata) : M Manager unit := fun m =>
  match oldest_first with
  | [] => if max_concurrent <=? 0 then (Raise (OtherError "IndexError" "pop from empty list"), m) else (Ok tt, m)
  | c :: rest =>
      if max_concurrent <=? Z.of_nat (length oldest_first) then
        close_oldest rest (close_session (conversation_id c) (set_connections (connection_sids m) [EmitTooMany (conversation_id c)] m))
      else (Ok tt, m)
  end.

(** [_start_agent_loop] up to its last wait, and from there on. *)
Definition make_room (user_id : option string) : M Manager unit := fun m =>
  let response_ids := get_running_agent_loops user_id None m in
  if max_concurrent <=? Z.of_nat (length response_ids) then
    match wait_all (map (fun i => Some (metadata i)) (set_order response_ids)) with
    | Raise x => (Raise x, m)
    | Ok conversations => close_oldest (rev (py_sort updated_before true conversations)) m
    end
  else (Ok tt, m).
Definition new_session (sid : string) (user_id : option string) (now : Z) : Session :=
  {| session_sid := sid; session_user := user_id; last_active_ts := now; session_state := Some ERROR; has_runtime := false;
     runtime_initialized := false; session_closings := 0 |}.
Definition add_session (sid : string) (user_id : option string) (now : Z) (m : Manager) : Manager :=
  set_sessions (dset (agent_loops m) sid (length (sessions m))) (sessions m ++ [new_session sid user_id now]) m.
Definition start_agent_loop (sid : string) (user_id : option string) (now : Z) : M Manager unit :=
  make_room user_id ;;; modifyM (add_session sid user_id now).

Definition maybe_start_agent_loop (sid : string) (user_id : option string) (now : Z) : M Manager (option Session) := fun m =>
  match session_at m sid with
  | Some s => (Ok (Some s), m)
  | None => (start_agent_loop sid user_id now ;;; (m <- getM ;; retM (session_at m sid))) m
  end.
Definition join_conversation (sid connection_id : string) (user_id : option string) (now : Z) : M Manager (option Session) :=
  modifyM (fun m => set_connections (dset (connection_sids m) connection_id sid) [EnterRoom connection_id sid] m) ;;;
  maybe_start_agent_loop sid user_id now.
End start.

(** ** The second part of a round of cleaning up

    [None] is the end of the task: without a delay sessions stay open. *)
Definition idle (now close_delay : Z) (s : Session) : bool :=
  (last_active_ts s <? now - close_delay) &&
  match session_state s with None => false | Some st => negb (String.eqb st RUNNING) end.
Definition less_active (x y : string * option Session) : bool :=
  match x.2, y.2 with Some s, Some t => last_active_ts s <? last_active_ts t | _, _ => false end.
Definition sids_to_close (now close_delay : Z) (m : Manager) : list string :=
  let running_loops := py_sort less_active false (map (fun kv => (kv.1, sessions m !! kv.2)) (agent_loops m)) in
  let sid_to_close := omap (fun kv => match kv.2 with Some s => if idle now close_delay s then Some kv.1 else None | None => None end) running_loops in
  let connected_sids := dvals (get_connections None (Some sid_to_close) m) in
  filter (fun sid => sid ∉ connected_sids) sid_to_close.
Definition cleanup_sessions (now : Z) (close_delay : option Z) (m : Manager) : option Manager :=
  match close_delay with
  | None | Some 0 => None
  | Some d => Some (fold_left (fun m sid => close_session_ sid m) (sids_to_close now d m) m)
  end.

(** ** Starts that interleave

    Where a start is, between two of its waits: before the metadata of the sessions
    that it found is there; before the loop looks at its list again; after a client was
    told; and in the two waits of [_close_session] for each connection. *)
Inductive point :=
  | Loading (ids : list string)
  | Closing (oldest_first : list ConversationMetadata)
  | Told (c : ConversationMetadata) (oldest_first : list ConversationMetadata)
  | Disconnecting (c : ConversationMetadata) (connections : list string) (oldest_first : list ConversationMetadata)
  | Dropping (connection : string) (c : ConversationMetadata) (connections : list string) (oldest_first : list ConversationMetadata).
(** A start under way.  For the theorem it carries the sessions that it found, those it
    has closed and those that other starts have added for its user since. *)
Record Start := {
  start_sid : string; start_user : option string; at_ : point;
  found_ids : list string; closed_for_it : list ConversationMetadata; added_since : list string;
}.
Definition goes (p : point) (t : Start) : Start :=
  {| start_sid := start_sid t; start_user := start_user t; at_ := p; found_ids := found_ids t; closed_for_it := closed_for_it t;
     added_since := added_since t |}.
Definition closes (c : ConversationMetadata) (rest : list ConversationMetadata) (t : Start) : Start :=
  {| start_sid := start_sid t; start_user := start_user t; at_ := Closing rest; found_ids := found_ids t;
     closed_for_it := closed_for_it t ++ [c]; added_since := added_since t |}.
Definition sees (sid : string) (user : option string) (t : Start) : Start :=
  if negb (truthy (start_user t)) || bool_decide (user = start_user t)
  then {| start_sid := start_sid t; start_user := start_user t; at_ := at_ t; found_ids := found_ids t; closed_for_it := closed_for_it t;
          added_since := added_since t ++ [sid] |}
  else t.
Definition looked (sid : string) (user : option string) (ids : list string) : Start :=
  {| start_sid := sid; start_user := user; at_ := Loading ids; found_ids := ids; closed_for_it := []; added_since := [] |}.
Record Serving := { manager : Manager; starts : list Start }.
Definition connections_of (sid : string) (m : Manager) : list string := dkeys (filter (fun kv => kv.2 = sid) (connection_sids m)).

Section serving.
Context (max_concurrent : Z).
(** [len(l) >= max_concurrent_conversations] *)
Definition full {A} (l : list A) : bool := max_concurrent <=? Z.of_nat (length l).

(** A step of a start whose session is not there yet. *)
Inductive start_moves (t : Start) (m : Manager) : Manager -> Start -> Prop :=
  | loads metadata ids cs :
      at_ t = Loading ids -> (forall i c, metadata i = Ok c -> conversation_id c = i) ->
      wait_all (map (fun i => Some (metadata i)) ids) = Ok cs ->
      start_moves t m m (goes (Closing (rev (py_sort updated_before true cs))) t)
  | tells c rest :
      at_ t = Closing (c :: rest) -> full (c :: rest) = true ->
      start_moves t m (set_connections (connection_sids m) [EmitTooMany (conversation_id c)] m) (goes (Told c rest) t)
  | finds_nobody c rest :
      at_ t = Told c rest -> dget (agent_loops m) (conversation_id c) = None -> start_moves t m m (closes c rest t)
  | finds_session c rest i :
      at_ t = Told c rest -> dget (agent_loops m) (conversation_id c) = Some i ->
      start_moves t m m (goes (Disconnecting c (connections_of (conversation_id c) m) rest) t)
  | disconnects_one k c ks rest :
      at_ t = Disconnecting c (k :: ks) rest ->
      start_moves t m (set_connections (connection_sids m) [Disconnect k] m) (goes (Dropping k c ks rest) t)
  | drops_one k c ks rest :
      at_ t = Dropping k c ks rest ->
      start_moves t m (set_connections (ddel (connection_sids m) k) [] m) (goes (Disconnecting c ks rest) t)
  | pops c rest :
      at_ t = Disconnecting c [] rest -> start_moves t m (pop_session (conversation_id c) m) (closes c rest t).

(** The server: starts that find room are one step, the others wait; a start can fail
    wherever it waits; and whatever else happens may close sessions, but adds none. *)
Inductive serving_step : Serving -> Serving -> Prop :=
  | starts_at_once sid user now m ts :
      session_at m sid = None -> full (get_running_agent_loops user None m) = false ->
      serving_step {| manager := m; starts := ts |} {| manager := add_session sid user now m; starts := map (sees sid user) ts |}
  | starts_waiting sid user ids m ts :
      session_at m sid = None -> full (get_running_agent_loops user None m) = true -> ids ≡ₚ get_running_agent_loops user None m ->
      serving_step {| manager := m; starts := ts |} {| manager := m; starts := ts ++ [looked sid user ids] |}
  | start_goes_on ts1 t ts2 m m' t' :
      start_moves t m m' t' -> serving_step {| manager := m; starts := ts1 ++ t :: ts2 |} {| manager := m'; starts := ts1 ++ t' :: ts2 |}
  | start_ends ts1 t ts2 rest now m :
      at_ t = Closing rest -> full rest = false ->
      serving_step {| manager := m; starts := ts1 ++ t :: ts2 |}
        {| manager := add_session (start_sid t) (start_user t) now m; starts := map (sees (start_sid t) (start_user t)) (ts1 ++ ts2) |}
  | start_fails ts1 t ts2 m : serving_step {| manager := m; starts := ts1 ++ t :: ts2 |} {| manager := m; starts := ts1 ++ ts2 |}
  | all_else m m' ts :
      dwf (agent_loops m') -> (forall sid i, dget (agent_loops m') sid = Some i -> exists s, sessions m' !! i = Some s /\ session_sid s = sid) ->
      (forall sid s', session_at m' sid = Some s' -> exists s, session_at m sid = Some s /\ session_user s = session_user s') ->
      serving_step {| manager := m; starts := ts |} {| manager := m'; starts := ts |}.
End serving.

(** ** Conversations in use

    [held] are the conversations that requests have attached to and not detached
    from yet, one entry for each. *)

Inductive use_step : Manager * list nat -> Manager * list nat -> Prop :=
  | attached sid found connect m held c m' :
      attach_to_conversation sid found connect m = (Ok (Some c), m') -> use_step (m, held) (m', c :: held)
  | not_attached sid found connect m held r m' :
      attach_to_conversation sid found connect m = (r, m') -> (forall c, r <> Ok (Some c)) -> use_step (m, held) (m', held)
  | detached_again c now m held held' : held ≡ₚ c :: held' -> use_step (m, held) (detach_from_conversation c now m, held')
  | cleaned fails m held : use_step (m, held) ((cleanup_detached fails m).2, held)
  | sessions_change m m' held : active m' = active m -> detached m' = detached m -> conversations m' = conversations m ->
      use_step (m, held) (m', held).

Definition users (c : nat) (held : list nat) : Z := Z.of_nat (length (filter (fun d => d = c) held)).
Definition connected_to (m : Manager) (c : nat) (sid : string) : Prop :=
  exists v, conversations m !! c = Some v /\ conversation_sid v = sid /\ disconnects v = 0%nat.

Record in_use (m : Manager) (held : list nat) : Prop := {
  active_wf : dwf (active m);
  detached_wf : dwf (detached m);
  active_counts sid c n : dget (active m) sid = Some (c, n) -> connected_to m c sid /\ n = users c held /\ 1 <= n;
  held_active c : c ∈ held -> exists sid n, connected_to m c sid /\ dget (active m) sid = Some (c, n);
  detached_free sid c t : dget (detached m) sid = Some (c, t) -> connected_to m c sid /\ dget (active m) sid = None;
}.

Lemma connected_fun m c sid sid' : connected_to m c sid -> connected_to m c sid' -> sid = sid'.
Proof. intros (v & E & <- & _) (w & E' & <- & _). congruence. Qed.
Lemma connected_app m c sid l : connected_to m c sid -> exists v, (conversations m ++ l) !! c = Some v /\ conversation_sid v = sid /\ disconnects v = 0%nat.
Proof. intros (v & E & Hv). exists v. split; [by apply lookup_app_l_Some|done]. Qed.
Lemma users_cons c d held : users c (d :: held) = (if decide (d = c) then 1 else 0) + users c held.
Proof. unfold users. rewrite filter_cons. destruct (decide (d = c)); cbn [length]; lia. Qed.
Lemma users_perm c held held' : held ≡ₚ held' -> users c held = users c held'.
Proof. intros H. unfold users. by rewrite H. Qed.
Lemma users_none c held : c ∉ held -> users c held = 0.
Proof.
  intros Hc. unfold users. rewrite (proj2 (length_zero_iff_nil _)); [done|]. induction held as [|d held IH]; [done|].
  rewrite filter_cons_False by set_solver. apply IH. set_solver.
Qed.
Lemma users_some c held : c ∈ held -> 1 <= users c held.
Proof.
  intros Hc. unfold users. assert (c ∈ filter (fun d => d = c) held) as Hin by (by apply list_elem_of_filter).
  destruct (filter _ held); [by apply elem_of_nil in Hin|cbn; lia].
Qed.

Section attaching.
Context (m : Manager) (held : list nat) (Hm : in_use m held).

Lemma reuse_active sid c count : dget (active m) sid = Some (c, count) ->
  in_use (set_attached (dset (active m) sid (c, count + 1)) (detached m) (conversations m) m) (c :: held).
Proof.
  destruct Hm as [Hwa Hwd Ha Hh Hd]. intros Ea. destruct (Ha _ _ _ Ea) as (Hc & Hn & Hpos).
  split; cbn [active detached conversations set_attached]; [by apply dwf_dset|done| | |].
  - intros sid' c' n. rewrite dget_dset, users_cons. destruct (decide (sid = sid')) as [<-|Hne].
    + intros [= <- <-]. rewrite decide_True by done. repeat split; [done|lia..].
    + intros Eg. destruct (Ha _ _ _ Eg) as (H1 & H2 & H3). rewrite decide_False; [done|]. intros ->.
      by destruct Hne, (connected_fun _ _ _ _ H1 Hc).
  - intros c' [->|Hc']%elem_of_cons; [exists sid, (count + 1); by rewrite dget_dset_eq|].
    destruct (Hh _ Hc') as (sid' & n & H1 & H2). destruct (decide (sid = sid')) as [<-|Hne].
    + exists sid, (count + 1). rewrite dget_dset_eq. by simplify_eq.
    + exists sid', n. by rewrite dget_dset_ne.
  - intros sid' c' t Eg. destruct (Hd _ _ _ Eg) as [H1 H2]. rewrite dget_dset_ne; [done|]. intros ->. congruence.
Qed.
Lemma detached_unused sid c t : dget (detached m) sid = Some (c, t) -> c ∉ held.
Proof.
  intros Ed Hin. destruct (detached_free _ _ Hm _ _ _ Ed) as [Hc Hn]. destruct (held_active _ _ Hm _ Hin) as (sid' & n & H1 & H2).
  destruct (connected_fun _ _ _ _ Hc H1). congruence.
Qed.
Lemma reuse_detached sid c t : dget (detached m) sid = Some (c, t) ->
  in_use (set_attached (dset (active m) sid (c, 1)) (ddel (detached m) sid) (conversations m) m) (c :: held).
Proof.
  intros Ed. pose proof (detached_unused _ _ _ Ed) as Hf. destruct Hm as [Hwa Hwd Ha Hh Hd]. destruct (Hd _ _ _ Ed) as [Hc Hnone].
  split; cbn [active detached conversations set_attached]; [by apply dwf_dset|by apply dwf_ddel| | |].
  - intros sid' c' n. rewrite dget_dset, users_cons. destruct (decide (sid = sid')) as [<-|Hne].
    + intros [= <- <-]. rewrite decide_True, users_none by done. by repeat split.
    + intros Eg. destruct (Ha _ _ _ Eg) as (H1 & H2 & H3). rewrite decide_False; [done|]. intros ->.
      by destruct Hne, (connected_fun _ _ _ _ Hc H1).
  - intros c' [->|Hc']%elem_of_cons; [exists sid, 1; by rewrite dget_dset_eq|].
    destruct (Hh _ Hc') as (sid' & n & H1 & H2). exists sid', n. rewrite dget_dset_ne; [done|]. intros ->. congruence.
  - intros sid' c' t'. rewrite dget_ddel. destruct (decide (sid = sid')) as [|Hne]; [done|]. intros Eg.
    destruct (Hd _ _ _ Eg) as [H1 H2]. by rewrite dget_dset_ne.
Qed.
Lemma failed_conversation conv : in_use (set_attached (active m) (detached m) (conversations m ++ [conv]) m) held.
Proof.
  destruct Hm as [Hwa Hwd Ha Hh Hd]. split; cbn [active detached conversations set_attached]; try done.
  - intros sid' c' n Eg. destruct (Ha _ _ _ Eg) as (H1 & H2 & H3). split; [|done]. by apply connected_app.
  - intros c' Hc'. destruct (Hh _ Hc') as (sid' & n & H1 & H2). exists sid', n. split; [by apply connected_app|done].
  - intros sid' c' t Eg. destruct (Hd _ _ _ Eg) as [H1 H2]. split; [by apply connected_app|done].
Qed.
Lemma new_conversation sid st rt : dget (active m) sid = None -> dget (detached m) sid = None ->
  in_use (set_attached (dset (active m) sid (length (conversations m), 1)) (detached m)
            (conversations m ++ [{| conversation_sid := sid; stream_of := st; attach_to_existing := rt; disconnects := 0 |}]) m) (length (conversations m) :: held).
Proof.
  intros Ea Ed. destruct Hm as [Hwa Hwd Ha Hh Hd].
  assert (forall c sid', connected_to m c sid' -> length (conversations m) <> c) as Hold.
  { intros c sid' (v & E & _) <-. apply lookup_lt_Some in E. lia. }
  assert (length (conversations m) ∉ held) as Hf.
  { intros Hin. destruct (Hh _ Hin) as (sid' & n & H1 & _). by apply (Hold _ _ H1). }
  assert (connected_to (set_attached (dset (active m) sid (length (conversations m), 1)) (detached m)
    (conversations m ++ [{| conversation_sid := sid; stream_of := st; attach_to_existing := rt; disconnects := 0 |}]) m) (length (conversations m)) sid) as Hc.
  { eexists. split; [by apply list_lookup_middle|done]. }
  split; cbn [active detached set_attached]; [by apply dwf_dset|done| | |].
  - intros sid' c' n. rewrite dget_dset, users_cons. destruct (decide (sid = sid')) as [<-|Hne].
    + intros [= <- <-]. by rewrite decide_True, users_none by done.
    + intros Eg. destruct (Ha _ _ _ Eg) as (H1 & H2 & H3). rewrite decide_False by (by eapply Hold). split; [by apply connected_app|done].
  - intros c' [->|Hc']%elem_of_cons; [exists sid, 1; by rewrite dget_dset_eq|].
    destruct (Hh _ Hc') as (sid' & n & H1 & H2). exists sid', n. rewrite dget_dset_ne; [split; [by apply connected_app|done]|].
    intros ->. congruence.
  - intros sid' c' t Eg. destruct (Hd _ _ _ Eg) as [H1 H2]. rewrite dget_dset_ne; [split; [by apply connected_app|done]|].
    intros ->. congruence.
Qed.

Lemma attach_keeps sid found connect r m' : attach_to_conversation sid found connect m = (r, m') ->
  in_use m' (match r with Ok (Some c) => c :: held | _ => held end).
Proof.
  unfold attach_to_conversation. destruct found; cbn [negb]; [|by intros [= <- <-]].
  destruct (dget (active m) sid) as [[c count]|] eqn:Ea; [intros [= <- <-]; by apply reuse_active|].
  destruct (dget (detached m) sid) as [[c t]|] eqn:Ed; [intros [= <- <-]; by eapply reuse_detached|].
  cbv zeta. destruct (match session_at m sid with Some s => has_runtime s | None => false end); [intros [= <- <-]; by apply new_conversation|].
  destruct connect; intros [= <- <-]; [by apply new_conversation|apply failed_conversation..].
Qed.

Lemma detach_keeps c now held' : held ≡ₚ c :: held' -> in_use (detach_from_conversation c now m) held'.
Proof.
  intros Hp. destruct (held_active _ _ Hm c ltac:(rewrite Hp; set_solver)) as (sid & n & Hc & Ea).
  pose proof Hm as [Hwa Hwd Ha Hh Hd]. destruct (Ha _ _ _ Ea) as (_ & Hn & Hpos).
  assert (forall d, users d held = (if decide (c = d) then 1 else 0) + users d held') as Hu by (intros d; by rewrite (users_perm d _ _ Hp), users_cons).
  assert (forall sid' c' n', dget (active m) sid' = Some (c', n') -> sid <> sid' -> c <> c') as Hother.
  { intros sid' c' n' Eg Hne ->. destruct (Ha _ _ _ Eg) as (H1 & _). by apply Hne, (connected_fun m c'). }
  assert (forall c', c' ∈ held' -> c' ∈ held) as Hsub by (intros c'; rewrite Hp; set_solver).
  unfold detach_from_conversation. destruct Hc as (v & Ev & Hvs & Hvd). unfold sid_of. rewrite Ev. cbn [fmap option_fmap option_map]. rewrite Hvs, Ea.
  rewrite Hu, decide_True in Hn by done. destruct (Z.ltb_spec 1 n) as [Hlt|Hle]; split; cbn [active detached conversations set_attached];
    try (by apply dwf_dset); try (by apply dwf_ddel); try done.
  - intros sid' c' n'. rewrite dget_dset. destruct (decide (sid = sid')) as [<-|Hne].
    + intros [= <- <-]. split; [by exists v|]. lia.
    + intros Eg. destruct (Ha _ _ _ Eg) as (H1 & H2 & H3). split; [done|]. rewrite Hu, decide_False in H2 by (by eapply Hother). lia.
  - intros c' Hc'. destruct (Hh _ (Hsub _ Hc')) as (sid' & n' & H1 & H2). destruct (decide (sid = sid')) as [<-|Hne].
    + exists sid, (n - 1). rewrite dget_dset_eq. by simplify_eq.
    + exists sid', n'. by rewrite dget_dset_ne.
  - intros sid' c' t Eg. destruct (Hd _ _ _ Eg) as [H1 H2]. rewrite dget_dset_ne; [done|]. intros ->. congruence.
  - intros sid' c' n'. rewrite dget_ddel. destruct (decide (sid = sid')) as [|Hne]; [done|].
    intros Eg. destruct (Ha _ _ _ Eg) as (H1 & H2 & H3). split; [done|]. rewrite Hu, decide_False in H2 by (by eapply Hother). lia.
  - intros c' Hc'. destruct (Hh _ (Hsub _ Hc')) as (sid' & n' & H1 & H2). exists sid', n'. rewrite dget_ddel_ne; [done|]. intros ->.
    rewrite Ea in H2. injection H2 as -> ->. pose proof (users_some _ _ Hc'). lia.
  - intros sid' c' t. rewrite dget_dset. destruct (decide (sid = sid')) as [<-|Hne].
    + intros [= <- <-]. split; [by exists v|]. by rewrite dget_ddel_eq.
    + intros Eg. destruct (Hd _ _ _ Eg) as [H1 H2]. by rewrite dget_ddel_ne.
Qed.
End attaching.

Lemma disconnect_keeps held fails l : forall m, in_use m held -> NoDup l.*1 -> (forall sid v, (sid, v) ∈ l -> dget (detached m) sid = Some v) ->
  in_use (disconnect_all fails l m).2 held.
Proof.
  induction l as [|[sid [c t]] l IH]; intros m Hm Hnd Hl; [done|]. cbn [disconnect_all]. destruct (fails c); [done|].
  apply NoDup_cons in Hnd as [Hni Hnd]. pose proof (Hl sid (c, t) ltac:(set_solver)) as Ed. destruct Hm as [Hwa Hwd Ha Hh Hd].
  destruct (Hd _ _ _ Ed) as [Hc Hnone].
  assert (forall c' sid', connected_to m c' sid' -> sid <> sid' ->
    connected_to (set_attached (active m) (ddel (detached m) sid) (alter disconnect c (conversations m)) m) c' sid') as Hkeep.
  { intros c' sid' H1 Hne. destruct (decide (c = c')) as [<-|Hnc]; [by destruct Hne, (connected_fun _ _ _ _ Hc H1)|].
    destruct H1 as (v & E & Hv). exists v. split; [|done]. cbn. by rewrite list_lookup_alter_ne. }
  apply IH; [|done|].
  - split; cbn [active detached conversations set_attached]; [done|by apply dwf_ddel| | |].
    + intros sid' c' n Eg. destruct (Ha _ _ _ Eg) as (H1 & H2 & H3). split; [|done]. apply Hkeep; [done|]. intros <-. congruence.
    + intros c' Hc'. destruct (Hh _ Hc') as (sid' & n & H1 & H2). exists sid', n. split; [|done]. apply Hkeep; [done|]. intros <-. congruence.
    + intros sid' c' t'. rewrite dget_ddel. destruct (decide (sid = sid')) as [|Hne]; [done|]. intros Eg.
      destruct (Hd _ _ _ Eg) as [H1 H2]. split; [by apply Hkeep|done].
  - intros sid' v Hin. cbn [detached set_attached]. rewrite dget_ddel_ne; [apply Hl; set_solver|]. intros <-. apply Hni.
    apply list_elem_of_fmap. by exists (sid, v).
Qed.

Lemma use_step_keeps x y : in_use x.1 x.2 -> use_step x y -> in_use y.1 y.2.
Proof.
  intros Hx Hs. destruct Hs as [sid found co m held c m' E|sid found co m held r m' E Hr|c now m held held' Hp|fails m held|m m' held E1 E2 E3];
    cbn [fst snd] in *.
  - by apply (attach_keeps _ _ Hx) in E.
  - apply (attach_keeps _ _ Hx) in E. destruct r as [[c|]|]; [by destruct (Hr c)|done..].
  - by apply (detach_keeps m held).
  - apply disconnect_keeps; [done|apply Hx|]. intros sid v Hin. apply elem_of_dget; [apply Hx|done].
  - destruct Hx as [Hwa Hwd Ha Hh Hd]. split; unfold connected_to; rewrite ?E1, ?E2, ?E3; done.
Qed.

(** C9: A conversation that some request has attached to and not detached from is
    not disconnected, however attaching, detaching, cleaning up and the life of
    sessions interleave and fail; it is the only one in use under its id, and its
    count is the number of its users. *)
Theorem used_conversations_stay_connected m held : rtc use_step (Manager_init, []) (m, held) ->
  forall c, c ∈ held -> exists v, conversations m !! c = Some v /\ disconnects v = 0%nat /\
    dget (active m) (conversation_sid v) = Some (c, users c held) /\
    (forall d, d ∈ held -> sid_of m d = Some (conversation_sid v) -> d = c).
Proof.
  intros Hr. assert (in_use m held) as Hm.
  { assert (in_use (Manager_init, @nil nat).1 (Manager_init, @nil nat).2) as H0 by (split; cbn; try done; [constructor..|set_solver]).
    change (in_use (m, held).1 (m, held).2). revert H0. induction Hr as [|a b z Hs _ IH]; [done|]. intros H0. by apply IH, (use_step_keeps a). }
  intros c Hc. destruct (held_active _ _ Hm c Hc) as (sid & n & (v & Ev & <- & Hv) & Ea). exists v.
  destruct (active_counts _ _ Hm _ _ _ Ea) as (_ & -> & _). split; [done|]. split; [done|]. split; [done|].
  intros d Hd Es. destruct (held_active _ _ Hm d Hd) as (sid & n & (w & Ew & <- & Hw) & Ea'). unfold sid_of in Es. rewrite Ew in Es.
  cbn in Es. injection Es as Es. rewrite Es in Ea'. congruence.
Qed.

Lemma used_conversations_stay_connected_witness :
  exists m held, rtc use_step (Manager_init, []) (m, held) /\ held = [0%nat] /\
    forall c, c ∈ held -> exists v, conversations m !! c = Some v /\ disconnects v = 0%nat /\
      dget (active m) (conversation_sid v) = Some (c, users c held) /\ (forall d, d ∈ held -> sid_of m d = Some (conversation_sid v) -> d = c).
Proof.
  eexists _, [0%nat].
  assert (Hrun : rtc use_step (Manager_init, []) ((cleanup_detached (fun _ => None)
    (detach_from_conversation 0 5 (attach_to_conversation "s" true Connects (attach_to_conversation "s" true Connects Manager_init).2).2)).2, [0%nat])).
  { eapply rtc_l; [by eapply (attached "s" true Connects)|]. eapply rtc_l; [by eapply (attached "s" true Connects)|].
    eapply rtc_l; [by eapply (detached_again 0 5)|]. eapply rtc_l; [by eapply (cleaned (fun _ => None))|]. apply rtc_refl. }
  split; [exact Hrun|]. split; [done|]. apply (used_conversations_stay_connected _ _ Hrun).
Defined.

(** ** Sessions: the limit and the clean-up *)

Record loops_wf (m : Manager) : Prop := {
  loops_distinct : dwf (agent_loops m);
  loops_sessions sid i : dget (agent_loops m) sid = Some i -> exists s, sessions m !! i = Some s /\ session_sid s = sid;
}.
Notation running u m := (get_running_agent_loops u None m).

Lemma close_connection_sids m sid : connection_sids (close_session_ sid m) = filter (fun kv => kv.2 <> sid) (connection_sids m).
Proof. unfold close_session_, pop_session. by destruct (dget _ sid). Qed.
Lemma session_none m sid : loops_wf m -> session_at m sid = None -> dget (agent_loops m) sid = None.
Proof.
  intros Hw. unfold session_at. destruct (dget (agent_loops m) sid) as [i|] eqn:Ei; [|done]. destruct (loops_sessions _ Hw _ _ Ei) as (v & Ev & _).
  cbn. by rewrite Ev.
Qed.
Lemma altered_session (l : list Session) i j : mbind session_user (alter close_object i l !! j) = mbind session_user (l !! j).
Proof.
  destruct (decide (i = j)) as [<-|Hne]; [|by rewrite list_lookup_alter_ne]. rewrite list_lookup_alter_eq. by destruct (l !! i).
Qed.
Lemma running_closed u sid m : running u (close_session_ sid m) = filter (fun i => i <> sid) (running u m).
Proof.
  assert (forall sess : list Session, dkeys (if truthy u then filter (fun kv => mbind session_user (sess !! kv.2) = u) (ddel (agent_loops m) sid) else ddel (agent_loops m) sid) =
    filter (fun i => i <> sid) (dkeys (if truthy u then filter (fun kv => mbind session_user (sess !! kv.2) = u) (agent_loops m) else agent_loops m))) as Hd.
  { intros sess. destruct (truthy u); [|apply dkeys_ddel]. rewrite <- dkeys_ddel. unfold ddel. rewrite !list_filter_filter. f_equal.
    apply list_filter_iff. tauto. }
  unfold close_session_, pop_session, close_connections. cbn [agent_loops set_connections]. destruct (dget (agent_loops m) sid) as [i|] eqn:E.
  - unfold get_running_agent_loops. cbn [agent_loops sessions set_sessions set_connections]. rewrite <- Hd. destruct (truthy u); [|done].
    f_equal. apply list_filter_iff. intros kv. by rewrite altered_session.
  - unfold get_running_agent_loops. cbn [agent_loops sessions set_connections]. rewrite <- Hd. unfold ddel.
    rewrite (filter_everything (fun kv => kv.1 <> sid) (agent_loops m)); [done|]. intros kv Hkv <-. apply dget_None in E. apply E. by apply list_elem_of_fmap_2.
Qed.
Lemma close_session_wf sid m : loops_wf m -> loops_wf (close_session_ sid m).
Proof.
  intros [Hd Hs]. unfold close_session_, pop_session, close_connections. cbn [agent_loops set_connections].
  destruct (dget (agent_loops m) sid) as [i|]; [|by split]. split; cbn [agent_loops sessions set_sessions set_connections]; [by apply dwf_ddel|].
  intros sid' j. rewrite dget_ddel. destruct (decide (sid = sid')); [done|]. intros Ej. destruct (Hs _ _ Ej) as (s & Es & <-).
  destruct (decide (i = j)) as [<-|Hne]; [rewrite list_lookup_alter_eq, Es; by eexists|rewrite list_lookup_alter_ne by done; by eexists].
Qed.
Lemma close_session_either sid m : close_session sid m = close_session_ sid m \/ (close_session sid m = m /\ dget (agent_loops m) sid = None).
Proof. unfold close_session. destruct (dget (agent_loops m) sid); [by left|by right]. Qed.
Lemma running_close u sid m : running u (close_session sid m) = filter (fun i => i <> sid) (running u m).
Proof.
  destruct (close_session_either sid m) as [->|[-> E]]; [apply running_closed|]. symmetry. apply filter_everything. intros i Hi ->.
  apply dget_None in E. apply E. unfold get_running_agent_loops in Hi. destruct (truthy u); [|done].
  apply list_elem_of_fmap in Hi as (kv & -> & Hkv). apply list_elem_of_filter in Hkv as [_ Hkv]. by apply list_elem_of_fmap_2.
Qed.
Lemma close_wf sid m : loops_wf m -> loops_wf (close_session sid m).
Proof. intros Hw. destruct (close_session_either sid m) as [->|[-> _]]; [by apply close_session_wf|done]. Qed.

Section limit.
Context (metadata : string -> res ConversationMetadata) (set_order : list string -> list string) (max_concurrent : Z).
Context (Hown : forall i c, metadata i = Ok c -> conversation_id c = i) (Horder : forall l, set_order l ≡ₚ l) (Hmax : 1 <= max_concurrent).

(** The oldest ones are closed until there is room for one more. *)
Lemma close_oldest_spec u l : forall m m', close_oldest max_concurrent l m = (Ok tt, m') -> loops_wf m ->
  let k := (length l - Z.to_nat (max_concurrent - 1))%nat in
  loops_wf m' /\ running u m' = filter (fun i => i ∉ map conversation_id (take k l)) (running u m).
Proof.
  induction l as [|c l IH]; intros m m'; cbn [close_oldest].
  { rewrite (proj2 (Z.leb_gt _ _)) by lia. intros [= <-] Hw. split; [done|]. symmetry. apply filter_everything. set_solver. }
  destruct (Z.leb_spec max_concurrent (Z.of_nat (length (c :: l)))) as [Hle|Hgt]; intros E Hw.
  - set (m1 := set_connections (connection_sids m) [EmitTooMany (conversation_id c)] m) in *.
    assert (loops_wf m1) as Hw1 by (by destruct Hw).
    destruct (IH _ _ E (close_wf _ _ Hw1)) as [Hw' Hr]. split; [done|]. rewrite Hr, running_close.
    replace (length (c :: l) - Z.to_nat (max_concurrent - 1))%nat with (S (length l - Z.to_nat (max_concurrent - 1))) by (cbn in *; lia).
    cbn [take map]. rewrite list_filter_filter. change (running u m1) with (running u m). apply list_filter_iff. intros i. set_solver.
  - injection E as <-. split; [done|]. replace (length (c :: l) - Z.to_nat (max_concurrent - 1))%nat with 0%nat by lia.
    symmetry. apply filter_everything. set_solver.
Qed.

Lemma wait_all_metadata ids cs : wait_all (map (fun i => Some (metadata i)) ids) = Ok cs -> Forall2 (fun i c => metadata i = Ok c) ids cs.
Proof.
  unfold wait_all. assert (mapM (M := option) (fun t => t) (map (fun i => Some (metadata i)) ids) = Some (map metadata ids)) as ->.
  { induction ids as [|i ids IH]; [done|]. cbn [map mapM]. cbn. by rewrite IH. }
  assert (errors_of (map metadata ids) = [] -> Forall2 (fun i c => metadata i = Ok c) ids (results_of (map metadata ids))) as Hr.
  { induction ids as [|i ids IH]; cbn [map errors_of results_of]; [constructor|]. destruct (metadata i) eqn:Ei; [|done]. intros He.
    constructor; [done|by apply IH]. }
  destruct (errors_of _) as [|x [|]]; [|done..]. intros [= <-]. by apply Hr.
Qed.

Lemma running_distinct u m : loops_wf m -> NoDup (running u m).
Proof.
  intros Hw. unfold get_running_agent_loops. destruct (truthy u); [|apply Hw].
  eapply sublist_NoDup; [exact (loops_distinct _ Hw)|]. apply fmap_sublist, sublist_filter.
Qed.

Lemma filter_taken (l : list ConversationMetadata) k : NoDup (map conversation_id l) ->
  filter (fun i => i ∉ map conversation_id (take k l)) (map conversation_id l) = map conversation_id (drop k l).
Proof.
  assert (map conversation_id l = map conversation_id (take k l) ++ map conversation_id (drop k l)) as -> by (by rewrite <- map_app, take_drop).
  generalize (map conversation_id (take k l)) as t, (map conversation_id (drop k l)) as d. intros t d (_ & Hd & _)%NoDup_app.
  rewrite filter_app, (filter_everything _ d); [|intros i Hi Hi'; by apply (Hd i)].
  assert (filter (fun i => i ∉ t) t = []) as ->; [|done]. apply elem_of_nil_inv. by intros i [Hi Hi']%list_elem_of_filter.
Qed.

(** What is closed for a new session, and what is not. *)
Definition keyed (i : string) (k : Z) : Prop := exists c, metadata i = Ok c /\ last_updated_at_key c = k.
Lemma oldest_first cs : StronglySorted (fun x y => last_updated_at_key x <= last_updated_at_key y) (rev (py_sort updated_before true cs)).
Proof.
  assert (KeyOrder updated_before) as Hk by (split; unfold updated_before; intros; rewrite ?Z.ltb_lt, ?Z.ltb_ge in *; lia).
  cbn [py_sort]. rewrite rev_involutive. pose proof (sort_lt_sorted updated_before (rev cs)) as Hs. induction Hs as [|x l _ IH Hx]; constructor; [done|].
  eapply Forall_impl; [exact Hx|]. intros y. unfold not_after, updated_before. by rewrite Z.ltb_ge.
Qed.
Lemma sorted_split (l : list ConversationMetadata) k x y : StronglySorted (fun x y => last_updated_at_key x <= last_updated_at_key y) l ->
  x ∈ take k l -> y ∈ drop k l -> last_updated_at_key x <= last_updated_at_key y.
Proof.
  revert k. induction l as [|z l IH]; intros [|k] Hs Hx Hy; cbn in *; try (by apply elem_of_nil in Hx).
  apply StronglySorted_inv in Hs as [Hs Hz]. apply elem_of_cons in Hx as [->|Hx]; [|by eapply IH]. rewrite Forall_forall in Hz. apply Hz.
  rewrite <- (take_drop k l). apply elem_of_app. by right.
Qed.

Lemma make_room_spec u m m' : loops_wf m -> make_room metadata set_order max_concurrent u m = (Ok tt, m') ->
  loops_wf m' /\ Z.of_nat (length (running u m')) <= max_concurrent - 1 /\ (forall i, i ∈ running u m' -> i ∈ running u m) /\
  (forall i j a b, i ∈ running u m -> i ∉ running u m' -> j ∈ running u m' -> keyed i a -> keyed j b -> a <= b) /\
  (Z.of_nat (length (running u m)) < max_concurrent -> m' = m).
Proof.
  intros Hw. unfold make_room. destruct (Z.leb_spec max_concurrent (Z.of_nat (length (running u m)))) as [Hle|Hgt].
  2: { intros [= <-]. split; [done|]. split; [lia|]. split; [done|]. split; [by intros|done]. }
  destruct (wait_all _) as [cs|] eqn:Ew; [|done]. apply wait_all_metadata in Ew. intros E.
  set (l := rev (py_sort updated_before true cs)) in *. destruct (close_oldest_spec u l m m' E Hw) as [Hw' Hr].
  set (k := (length l - Z.to_nat (max_concurrent - 1))%nat) in *.
  assert (l ≡ₚ cs) as Hl by (unfold l; rewrite <- Permutation_rev; apply py_sort_perm).
  assert (map conversation_id cs = set_order (running u m)) as Hids.
  { clear -Ew Hown. induction Ew as [|i c ids cs Hi _ IH]; [done|]. cbn. by rewrite IH, (Hown _ _ Hi). }
  assert (map conversation_id l ≡ₚ running u m) as Hperm by (by rewrite Hl, Hids, Horder).
  assert (NoDup (running u m)) as Hnd.
  { by apply running_distinct. }
  assert (length l = length (running u m)) as Hlen by (by rewrite <- Hperm, length_map).
  assert (running u m' ≡ₚ map conversation_id (drop k l)) as Hkept.
  { rewrite Hr, <- Hperm. rewrite filter_taken; [done|]. by rewrite Hperm. }
  assert (forall c, c ∈ l -> metadata (conversation_id c) = Ok c) as Hmeta.
  { intros c. rewrite Hl. intros Hc. apply list_elem_of_lookup in Hc as [n Hn]. destruct (Forall2_lookup_r _ _ _ _ _ Ew Hn) as (i & _ & Hi).
    by rewrite (Hown _ _ Hi). }
  split; [done|]. split; [|split; [|split; [|lia]]].
  - rewrite Hkept, length_map, length_drop. lia.
  - intros i. rewrite Hr. by intros [_ ?]%list_elem_of_filter.
  - intros i j a b Hi Hi' Hj (ci & Eci & <-) (cj & Ecj & <-). rewrite Hkept in Hi', Hj. rewrite <- Hperm in Hi.
    apply list_elem_of_fmap in Hi as (c & -> & Hc). apply list_elem_of_fmap in Hj as (d & -> & Hd).
    assert (c ∈ take k l) as Hc'.
    { rewrite <- (take_drop k l) in Hc. apply elem_of_app in Hc as [?|Hc]; [done|]. destruct Hi'. by apply list_elem_of_fmap_2. }
    assert (d ∈ l) as Hd' by (rewrite <- (take_drop k l); apply elem_of_app; by right).
    rewrite (Hmeta _ Hc) in Eci. rewrite (Hmeta _ Hd') in Ecj. injection Eci as <-. injection Ecj as <-.
    apply (sorted_split l k); [apply oldest_first|done|done].
Qed.

(** Adding a session adds its id, if it was not there. *)
Lemma running_added u sid now m : loops_wf m -> dget (agent_loops m) sid = None ->
  running u (add_session sid u now m) = running u m ++ [sid] /\ loops_wf (add_session sid u now m) /\
  session_at (add_session sid u now m) sid = Some (new_session sid u now).
Proof.
  intros [Hd Hs] Hn. apply dget_None in Hn as Hk. unfold add_session, session_at, get_running_agent_loops.
  cbn [agent_loops sessions set_sessions]. rewrite dset_app by done. split; [|split; [split; cbn [agent_loops sessions set_sessions]|]].
  - destruct (truthy u); [|unfold dkeys; by rewrite fmap_app]. rewrite filter_app, filter_cons_True by (cbn; by rewrite list_lookup_middle).
    unfold dkeys. rewrite filter_nil, fmap_app. cbn [fmap list_fmap fst]. do 2 f_equal. apply filter_same.
    intros [i j] Hij. cbn. apply elem_of_dget in Hij; [|done]. destruct (Hs _ _ Hij) as (s & Es & _).
    by rewrite (lookup_app_l_Some _ _ _ _ Es), Es.
  - rewrite <- dset_app by done. by apply dwf_dset.
  - intros sid' i. rewrite <- dset_app, dget_dset by done. destruct (decide (sid = sid')) as [<-|Hne].
    + intros [= <-]. eexists. split; [by apply list_lookup_middle|done].
    + intros Ei. destruct (Hs _ _ Ei) as (s & Es & He). exists s. split; [by apply lookup_app_l_Some|done].
  - rewrite <- dset_app by done. rewrite dget_dset_eq. cbn. by apply list_lookup_middle.
Qed.

Lemma make_room_absent u sid m m' : dget (agent_loops m) sid = None -> make_room metadata set_order max_concurrent u m = (Ok tt, m') ->
  dget (agent_loops m') sid = None.
Proof.
  unfold make_room. intros Hn. destruct (_ <=? _); [|by intros [= <-]]. destruct (wait_all _) as [cs|]; [|done].
  generalize (rev (py_sort updated_before true cs)) as l. intros l. revert m Hn. induction l as [|c l IH]; intros m Hn; cbn [close_oldest].
  - destruct (_ <=? _); [done|]. by intros [= <-].
  - destruct (_ <=? _); [|by intros [= <-]]. apply IH. unfold close_session. cbn [agent_loops set_connections].
    destruct (dget (agent_loops m) (conversation_id c)) as [i|] eqn:Ei; [|done]. unfold close_session_, pop_session, close_connections.
    cbn [agent_loops set_connections]. rewrite Ei. cbn [agent_loops set_sessions set_connections]. rewrite dget_ddel. by destruct (decide _).
Qed.

(** A start during which nothing else happens: afterwards the session
    runs and the user has at most [max_concurrent_conversations], those that were
    closed for it were updated no later than any that still runs, and none was closed
    if there was room; an id that already has a session gets that one, and nothing
    changes. *)
Lemma start_alone_stays_within_limit sid u now m s m' : loops_wf m -> maybe_start_agent_loop metadata set_order max_concurrent sid u now m = (Ok s, m') ->
  match session_at m sid with
  | Some s0 => s = Some s0 /\ m' = m
  | None =>
      s = Some (new_session sid u now) /\ sid ∈ running u m' /\ Z.of_nat (length (running u m')) <= max_concurrent /\
      (forall i, i ∈ running u m' -> i = sid \/ i ∈ running u m) /\
      (forall i j a b, i ∈ running u m -> i ∉ running u m' -> j ∈ running u m' -> j <> sid -> keyed i a -> keyed j b -> a <= b) /\
      (Z.of_nat (length (running u m)) < max_concurrent -> running u m' = running u m ++ [sid])
  end.
Proof.
  intros Hw. unfold maybe_start_agent_loop. destruct (session_at m sid) as [s0|] eqn:E0; [by intros [= <- <-]|].
  unfold start_agent_loop, bindM at 1 2. destruct (make_room metadata set_order max_concurrent u m) as [[[]|x] m1] eqn:Em; [|done].
  unfold bindM, modifyM, getM, retM. intros [= <- <-]. destruct (make_room_spec u m m1 Hw Em) as (Hw1 & Hlen & Hsub & Hold & Hsame).
  assert (dget (agent_loops m1) sid = None) as Hnone.
  { assert (dget (agent_loops m) sid = None) as Hn.
    { by apply session_none. }
    by apply (make_room_absent u sid m m1). }
  destruct (running_added u sid now m1 Hw1 Hnone) as (Hr & _ & Hs). rewrite Hr. split; [done|]. split; [set_solver|].
  split; [rewrite length_app; cbn; lia|]. split; [intros i; rewrite elem_of_app; set_solver|]. split; [|by intros Hlt; rewrite (Hsame Hlt)].
  intros i j a b Hi Hi' Hj Hne. apply Hold; [done|set_solver|set_solver].
Qed.
End limit.

(** Two sessions run of at most two; a third one closes the one updated first. *)
Definition updated (i : string) (t : Z) : ConversationMetadata :=
  {| conversation_id := i; selected_repository := None; user_id := None; selected_branch := None; git_provider := None; title := None;
     last_updated_at := Some (utc t); trigger := None; pr_number := []; created_at := None; llm_model := None; accumulated_cost := S754_zero false;
     prompt_tokens := 0; completion_tokens := 0; total_tokens := 0; tags := None; sandbox_id := None; conversation_version := None; public := None |}.
Definition on_file (i : string) : res ConversationMetadata := Ok (updated i (match i with "a" => 7 | "b" => 3 | _ => 9 end)).
(** *** Starts that interleave *)

Lemma elem_of_running u m i : loops_wf m ->
  i ∈ running u m <-> exists s, session_at m i = Some s /\ (truthy u = true -> session_user s = u).
Proof.
  intros [Hd Hs]. unfold get_running_agent_loops, session_at, dkeys. destruct (truthy u).
  - rewrite list_elem_of_fmap. split.
    + intros ([j k] & -> & [Hu Hk]%list_elem_of_filter). cbn [fst snd] in *. rewrite (elem_of_dget _ _ _ Hd Hk). cbn.
      destruct (sessions m !! k) as [v|] eqn:Ev; [by exists v|]. by destruct (Hs _ _ (elem_of_dget _ _ _ Hd Hk)) as (v & ? & _); simplify_eq.
    + intros (v & Hv & Hu). destruct (dget (agent_loops m) i) as [k|] eqn:Ek; [|done]. cbn in Hv. exists (i, k). split; [done|].
      apply list_elem_of_filter. cbn [snd]. rewrite Hv. split; [by apply Hu|]. by apply dget_elem.
  - split.
    + intros Hi. apply dget_is_Some in Hi as [k Ek]. destruct (Hs _ _ Ek) as (v & Ev & _). exists v. by rewrite Ek.
    + intros (v & Hv & _). destruct (dget (agent_loops m) i) as [k|] eqn:Ek; [|done]. apply dget_is_Some. by exists k.
Qed.
Lemma running_popped u sid m : running u (pop_session sid m) = filter (fun i => i <> sid) (running u m).
Proof.
  rewrite <- running_closed. unfold close_session_, pop_session, close_connections. cbn [agent_loops set_connections].
  by destruct (dget (agent_loops m) sid).
Qed.
Lemma pop_wf sid m : loops_wf m -> loops_wf (pop_session sid m).
Proof.
  intros Hw. apply (close_session_wf sid) in Hw as [Hd Hs]. revert Hd Hs. unfold close_session_, pop_session, close_connections.
  cbn [agent_loops set_connections]. by destruct (dget (agent_loops m) sid); split.
Qed.
(** A session that is added may take the place of another one. *)
Lemma add_wf sid u now m : loops_wf m -> loops_wf (add_session sid u now m).
Proof.
  intros [Hd Hs]. split; cbn [agent_loops sessions add_session set_sessions]; [by apply dwf_dset|]. intros j i. rewrite dget_dset.
  destruct (decide (sid = j)) as [<-|Hne].
  - intros [= <-]. eexists. split; [by apply list_lookup_middle|done].
  - intros Ei. destruct (Hs _ _ Ei) as (v & Ev & He). exists v. split; [by apply lookup_app_l_Some|done].
Qed.
Lemma session_added sid u now m j : loops_wf m ->
  session_at (add_session sid u now m) j = if decide (j = sid) then Some (new_session sid u now) else session_at m j.
Proof.
  intros [Hd Hs]. unfold session_at, add_session. cbn [agent_loops sessions set_sessions]. rewrite dget_dset.
  destruct (decide (sid = j)) as [<-|Hne]; [rewrite decide_True by done; by apply list_lookup_middle|]. rewrite decide_False by done.
  destruct (dget (agent_loops m) j) as [i|] eqn:Ei; [|done]. destruct (Hs _ _ Ei) as (v & Ev & _). cbn. rewrite Ev. by apply lookup_app_l_Some.
Qed.
Definition counts_for (u u' : option string) : bool := negb (truthy u) || bool_decide (u' = u).
Lemma running_with_new u sid u' now m i : loops_wf m -> i ∈ running u (add_session sid u' now m) ->
  i ∈ running u m \/ i = sid /\ counts_for u u' = true.
Proof.
  intros Hw (v & Hv & Hu)%(elem_of_running u _ i (add_wf sid u' now m Hw)). rewrite session_added in Hv by done.
  destruct (decide (i = sid)) as [->|Hne]; [|left; apply elem_of_running; [done|by exists v]].
  right. split; [done|]. injection Hv as <-. cbn in Hu. unfold counts_for. destruct (truthy u); [|done]. cbn. by apply bool_decide_true, Hu.
Qed.

Section interleaved.
Context (max_concurrent : Z).
Notation full := (full max_concurrent).
Notation start_moves := (start_moves max_concurrent).
Notation serving_step := (serving_step max_concurrent).
Notation by_age := (StronglySorted (fun x y => last_updated_at_key x <= last_updated_at_key y)).

(** The sessions that a start may still close or leave. *)
Definition still_listed (p : point) : list ConversationMetadata :=
  match p with Loading _ => [] | Closing l => l | Told c l | Disconnecting c _ l | Dropping _ c _ l => c :: l end.
Definition still_there (p : point) : list string := match p with Loading ids => ids | p => map conversation_id (still_listed p) end.
Record start_ok (m : Manager) (t : Start) : Prop := {
  accounted i : i ∈ running (start_user t) m -> i ∈ still_there (at_ t) \/ i ∈ added_since t;
  oldest_go : by_age (closed_for_it t ++ still_listed (at_ t));
  of_found : map conversation_id (closed_for_it t) ++ still_there (at_ t) ≡ₚ found_ids t;
  none_too_many : max_concurrent - 1 <= Z.of_nat (length (still_there (at_ t)));
  not_yet : match at_ t with Closing _ => True | p => full (still_there p) = true end;
  nothing_yet : match at_ t with Loading _ => closed_for_it t = [] | _ => True end;
}.

Lemma full_length {A} (l : list A) : full l = true <-> max_concurrent <= Z.of_nat (length l).
Proof. apply Z.leb_le. Qed.
Lemma room_length {A} (l : list A) : full l = false <-> Z.of_nat (length l) < max_concurrent.
Proof. apply Z.leb_gt. Qed.
Lemma full_ids (l : list ConversationMetadata) : full (map conversation_id l) = full l.
Proof. unfold ConversationManager.full. by rewrite length_map. Qed.
Lemma start_ok_fewer m m' t : (forall i, i ∈ running (start_user t) m' -> i ∈ running (start_user t) m) -> start_ok m t -> start_ok m' t.
Proof. intros H []. constructor; auto. Qed.
Lemma start_ok_added m sid u now t : loops_wf m -> start_ok m t -> start_ok (add_session sid u now m) (sees sid u t).
Proof.
  intros Hw [Ha]. unfold sees. change (negb (truthy (start_user t)) || bool_decide (u = start_user t)) with (counts_for (start_user t) u).
  destruct (counts_for (start_user t) u) eqn:Ec; (constructor; cbn [start_user at_ added_since closed_for_it found_ids]; [|done..]);
    intros i [Hi|[-> Hc]]%running_with_new; try done.
  - destruct (Ha i Hi); [by left|right; apply elem_of_app; by left].
  - right. apply elem_of_app. right. by left.
  - by apply Ha.
  - congruence.
Qed.
Lemma loaded_ids metadata ids cs : (forall i c, metadata i = Ok c -> conversation_id c = i) ->
  wait_all (map (fun i => Some (metadata i)) ids) = Ok cs -> map conversation_id (rev (py_sort updated_before true cs)) ≡ₚ ids.
Proof.
  intros Hown Hw%wait_all_metadata. rewrite <- Permutation_rev, py_sort_perm.
  assert (map conversation_id cs = ids) as ->; [|done]. induction Hw as [|i c ids cs Hi _ IH]; [done|]. cbn. by rewrite IH, (Hown _ _ Hi).
Qed.
(** A start that stays at the same list. *)
Lemma start_ok_goes m m' t p : running (start_user t) m' = running (start_user t) m ->
  still_listed p = still_listed (at_ t) -> still_there p = still_there (at_ t) -> full (still_there p) = true ->
  match p with Loading _ | Closing _ => False | _ => True end -> start_ok m t -> start_ok m' (goes p t).
Proof.
  intros Hr El Et Hf Hp [H1 H2 H3 H4 H5 H6].
  constructor; cbn [goes start_user at_ added_since closed_for_it found_ids]; rewrite ?Hr, ?El, ?Et; try done; by destruct p.
Qed.
Lemma start_ok_closes m m' t c rest : still_there (at_ t) = map conversation_id (c :: rest) -> still_listed (at_ t) = c :: rest ->
  full (still_there (at_ t)) = true -> (forall i, i ∈ running (start_user t) m' -> i ∈ running (start_user t) m /\ i <> conversation_id c) ->
  start_ok m t -> start_ok m' (closes c rest t).
Proof.
  intros Et El Hf Hr [H1 H2 H3 H4 H5 H6]. rewrite Et in *. rewrite El in *. apply full_length in Hf. cbn [map length] in Hf.
  constructor; cbn [closes start_user at_ added_since closed_for_it found_ids still_listed still_there]; try done.
  - intros i [Hi Hne]%Hr. destruct (H1 i Hi) as [Hin|]; [|by right]. apply elem_of_cons in Hin as [->|]; [done|by left].
  - by rewrite <- app_assoc.
  - rewrite map_app, <- app_assoc. exact H3.
  - lia.
Qed.
Lemma start_moves_ok m t m' t' : start_moves t m m' t' -> loops_wf m -> start_ok m t ->
  loops_wf m' /\ start_ok m' t' /\ forall u i, i ∈ running u m' -> i ∈ running u m.
Proof.
  intros Hm Hw Ht. pose proof Ht as [H1 H2 H3 H4 H5 H6].
  destruct Hm as [metadata ids cs E Hown Hcs|c rest E Hf|c rest E Hn|c rest i E Hi|k c ks rest E|k c ks rest E|c rest E]; rewrite E in *.
  - split_and!; try done. pose proof (loaded_ids _ _ _ Hown Hcs) as Hp. rewrite H6 in *. cbn [still_there still_listed map app] in *.
    constructor; cbn [goes start_user at_ added_since closed_for_it found_ids still_listed still_there]; try done; rewrite ?H6; cbn [map app].
    + intros i Hi. rewrite Hp. by apply H1.
    + apply oldest_first.
    + by rewrite Hp.
    + by rewrite Hp.
  - split_and!; [by destruct Hw| |done]. apply (start_ok_goes m); rewrite ?E; try done. cbn [still_there still_listed]. by rewrite full_ids.
  - split_and!; try done. apply (start_ok_closes m); rewrite ?E; try done. intros i Hi. split; [done|]. intros ->.
    apply (elem_of_running _ _ _ Hw) in Hi as (v & Hv & _). unfold session_at in Hv. by rewrite Hn in Hv.
  - by split_and!.
  - split_and!; [by destruct Hw| |done]. by apply (start_ok_goes m); rewrite ?E.
  - split_and!; [by destruct Hw| |done]. by apply (start_ok_goes m); rewrite ?E.
  - split_and!; [by apply pop_wf| |intros u i; rewrite running_popped; by intros [_ ?]%list_elem_of_filter]. apply (start_ok_closes m); rewrite ?E; try done.
    intros i. rewrite running_popped. intros [Hne Hi]%list_elem_of_filter. by split.
Qed.

Definition serving_ok (x : Serving) : Prop := loops_wf (manager x) /\ Forall (start_ok (manager x)) (starts x).
Lemma serving_step_ok x y : serving_step x y -> serving_ok x -> serving_ok y.
Proof.
  unfold serving_ok. intros [sid u now m ts Hn Hroom|sid u ids m ts Hn Hf Hids|ts1 t ts2 m m' t' Hm|ts1 t ts2 rest now m E Hroom|ts1 t ts2 m|m m' ts Hd Hs Hfew];
    cbn [manager starts]; intros [Hw Hts].
  - split; [by apply add_wf|]. apply Forall_map. eapply Forall_impl; [exact Hts|]. intros t. by apply start_ok_added.
  - split; [done|]. apply Forall_app. split; [done|]. constructor; [|constructor]. constructor; cbn; try done.
    + intros i Hi. left. by rewrite Hids.
    + constructor.
    + apply full_length in Hf. rewrite Hids. lia.
    + apply full_length. rewrite Hids. by apply full_length.
  - apply Forall_app in Hts as [H1 [Ht H2]%Forall_cons]. destruct (start_moves_ok _ _ _ _ Hm Hw Ht) as (Hw' & Ht' & Hr). split; [done|].
    apply Forall_app. split; [|constructor; [done|]]; (eapply Forall_impl; [eassumption|]); intros t0; apply start_ok_fewer; auto.
  - split; [by apply add_wf|]. apply Forall_app in Hts as [H1 [_ H2]%Forall_cons]. apply Forall_map, Forall_app.
    split; (eapply Forall_impl; [eassumption|]); intros t0; by apply start_ok_added.
  - split; [done|]. apply Forall_app in Hts as [H1 [_ H2]%Forall_cons]. by apply Forall_app.
  - assert (loops_wf m') as Hw' by by split. split; [done|]. eapply Forall_impl; [exact Hts|]. intros t. apply start_ok_fewer. intros i.
    rewrite !elem_of_running by done. intros (v' & Hv & Hu). destruct (Hfew _ _ Hv) as (v & Ev & Eu). exists v. split; [done|]. by rewrite Eu.
Qed.

Lemma serving_run x y : rtc serving_step x y -> serving_ok x -> serving_ok y.
Proof. induction 1 as [|x y z Hxy _ IH]; [done|]. intros Hx. apply IH. by eapply serving_step_ok. Qed.

(** C10: Starts keep their users within the limit, up to what starts in between add.
    Starts, their waits and failures, and all that closes sessions in between,
    interleave in any way.  A start that finds room adds its session at once, to those
    of its user, and that makes at most [max_concurrent_conversations].  Any other one
    has, when it adds its session, closed some of those that it found, none of them
    updated later than any that it left, and left one less than allowed; and its user has
    then at most as many as allowed and those that other starts have added for the user
    since it looked: as many as allowed if there is none. *)
Theorem starts_stay_within_limit m0 m ts : loops_wf m0 ->
  rtc serving_step {| manager := m0; starts := [] |} {| manager := m; starts := ts |} ->
  (forall sid u now, session_at m sid = None -> full (running u m) = false ->
     running u (add_session sid u now m) = running u m ++ [sid]
     /\ Z.of_nat (length (running u (add_session sid u now m))) <= max_concurrent)
  /\ (forall t rest now, t ∈ ts -> at_ t = Closing rest -> full rest = false ->
      let u := start_user t in
      let m' := add_session (start_sid t) u now m in
      start_sid t ∈ running u m'
      /\ Z.of_nat (length (running u m')) <= max_concurrent + Z.of_nat (length (added_since t))
      /\ map conversation_id (closed_for_it t ++ rest) ≡ₚ found_ids t /\ Z.of_nat (length rest) = max_concurrent - 1
      /\ forall a b, a ∈ closed_for_it t -> b ∈ rest -> last_updated_at_key a <= last_updated_at_key b).
Proof.
  intros Hw0 Hrun. assert (serving_ok {| manager := m; starts := ts |}) as [Hw Hts].
  { eapply serving_run; [exact Hrun|]. by split. }
  split.
  - intros sid u now Hn%session_none Hroom; [|done].
    destruct (running_added u sid now m Hw Hn) as (-> & _ & _). split; [done|]. rewrite length_app. apply room_length in Hroom. cbn. lia.
  - intros t rest now Ht E Hroom u m'. rewrite Forall_forall in Hts. destruct (Hts t Ht) as [H1 H2 H3 H4 _ _]. rewrite E in *.
    cbn [still_listed still_there] in *. apply room_length in Hroom. rewrite length_map in H4.
    assert (loops_wf m') as Hw' by by apply add_wf. split_and!.
    + apply elem_of_running; [done|]. exists (new_session (start_sid t) u now). unfold m'. by rewrite session_added, decide_True.
    + assert (running u m' ⊆+ start_sid t :: map conversation_id rest ++ added_since t) as Hsub.
      { apply NoDup_submseteq; [by apply running_distinct|]. intros i [Hi|[-> _]]%running_with_new; [|by left|done]. right. apply elem_of_app.
        by apply H1. }
      apply submseteq_length in Hsub. cbn [length] in Hsub. rewrite length_app, length_map in Hsub. lia.
    + by rewrite map_app.
    + lia.
    + intros a b Ha Hb. apply (sorted_split (closed_for_it t ++ rest) (length (closed_for_it t)) a b H2);
        [by rewrite take_app_length|by rewrite drop_app_length].
Qed.
End interleaved.

(** At the limit of two, a third session waits for the oldest one to be closed. *)
Definition two_running : Manager := add_session "b" (Some "u") 0 (add_session "a" (Some "u") 0 Manager_init).
Definition third_start : Start :=
  {| start_sid := "c"; start_user := Some "u"; at_ := Closing [updated "a" 7]; found_ids := ["a"; "b"];
     closed_for_it := [updated "b" 3]; added_since := [] |}.
Definition before_third : Manager := pop_session "b" (set_connections [] [EmitTooMany "b"] two_running).
Lemma two_running_wf : loops_wf two_running.
Proof. apply add_wf, add_wf. split; [constructor|done]. Qed.
Lemma third_start_runs : rtc (serving_step 2) {| manager := two_running; starts := [] |} {| manager := before_third; starts := [third_start] |}.
Proof.
  eapply rtc_l; [by apply (starts_waiting 2 "c" (Some "u") ["a"; "b"])|].
  eapply rtc_l; [apply (start_goes_on 2 [] _ []); eapply (loads 2 _ _ on_file); [reflexivity|by intros i c [= <-]|reflexivity]|].
  eapply rtc_l; [apply (start_goes_on 2 [] _ []); by eapply tells|].
  eapply rtc_l; [apply (start_goes_on 2 [] _ []); by eapply finds_session|].
  eapply rtc_l; [apply (start_goes_on 2 [] _ []); by eapply pops|]. apply rtc_refl.
Qed.
Lemma starts_stay_within_limit_witness :
  let m' := add_session "c" (Some "u") 0 before_third in
  running (Some "u") m' = ["a"; "c"] /\ Z.of_nat (length (running (Some "u") m')) <= 2 + 0.
Proof.
  intros m'. split; [by vm_compute|].
  destruct (starts_stay_within_limit 2 two_running before_third [third_start] two_running_wf third_start_runs) as [_ H].
  destruct (H third_start [updated "a" 7] 0) as (_ & H2 & _); [left|reflexivity|reflexivity|exact H2].
Defined.

(** *** A start alone *)

(** [maybe_start_agent_loop] is what a start does when nothing else happens. *)
Section alone.
Context (metadata : string -> res ConversationMetadata) (set_order : list string -> list string) (max_concurrent : Z).
Context (Hown : forall i c, metadata i = Ok c -> conversation_id c = i) (Horder : forall l, set_order l ≡ₚ l).
Notation on m t := {| manager := m; starts := [t] |}.
Notation serving_step := (serving_step max_concurrent).

Lemma goes_on m t m' t' : start_moves max_concurrent t m m' t' -> serving_step (on m t) (on m' t').
Proof. apply (start_goes_on _ [] _ []). Qed.
Lemma set_connections_twice c c' l l' m : set_connections c' l' (set_connections c l m) = set_connections c' (l ++ l') m.
Proof. unfold set_connections. cbn. by rewrite app_assoc. Qed.
Lemma disconnects_all c rest ks : forall m t, at_ t = Disconnecting c ks rest ->
  rtc serving_step (on m t)
    (on (set_connections (fold_left (fun d k => ddel d k) ks (connection_sids m)) (map Disconnect ks) m) (goes (Disconnecting c [] rest) t)).
Proof.
  induction ks as [|k ks IH]; intros m t E; cbn [fold_left map].
  - replace (set_connections (connection_sids m) [] m) with m by (destruct m; unfold set_connections; cbn; by rewrite app_nil_r).
    replace (goes (Disconnecting c [] rest) t) with t by (destruct t; cbn in *; by subst). apply rtc_refl.
  - eapply rtc_l; [by apply goes_on, (disconnects_one _ _ _ k c ks rest)|]. eapply rtc_l; [by apply goes_on, (drops_one _ _ _ k c ks rest)|].
    etrans; [by apply IH|]. rewrite !set_connections_twice. by destruct t.
Qed.
Lemma dropped_connections sid (d : dict string string) : dwf d ->
  fold_left (fun d k => ddel d k) (dkeys (filter (fun kv => kv.2 = sid) d)) d = filter (fun kv => kv.2 <> sid) d.
Proof.
  intros Hd. assert (forall ks (x : dict string string), fold_left (fun d k => ddel d k) ks x = filter (fun kv => kv.1 ∉ ks) x) as ->.
  { induction ks as [|k ks IH]; intros x; cbn [fold_left]; [symmetry; apply filter_everything; set_solver|].
    rewrite IH. unfold ddel. rewrite list_filter_filter. apply list_filter_iff. set_solver. }
  apply filter_same. intros [k v] Hkv. cbn [fst snd]. split.
  - intros Hn ->. apply Hn, list_elem_of_fmap. exists (k, sid). split; [done|]. by apply list_elem_of_filter.
  - intros Hv ([k' v'] & [= ->] & [Hs Hkv']%list_elem_of_filter)%list_elem_of_fmap. cbn in *.
    apply (elem_of_dget _ _ _ Hd) in Hkv, Hkv'. congruence.
Qed.
Lemma closes_one c rest m t : dwf (connection_sids m) -> at_ t = Told c rest ->
  rtc serving_step (on m t) (on (close_session (conversation_id c) m) (closes c rest t)).
Proof.
  intros Hd E. unfold close_session. destruct (dget (agent_loops m) (conversation_id c)) as [i|] eqn:Ei.
  - eapply rtc_l; [by apply goes_on, (finds_session _ _ _ c rest i)|]. etrans; [by apply disconnects_all|].
    unfold connections_of. rewrite dropped_connections by done. eapply rtc_l; [by apply goes_on, (pops _ _ _ c rest)|]. by destruct t.
  - apply rtc_once. by apply goes_on, finds_nobody.
Qed.
Lemma close_connections_wf sid m : dwf (connection_sids m) -> dwf (connection_sids (close_session sid m)).
Proof.
  intros Hd. destruct (close_session_either sid m) as [->|[-> _]]; [|done]. rewrite close_connection_sids.
  eapply sublist_NoDup; [exact Hd|]. apply fmap_sublist, sublist_filter.
Qed.
Lemma closes_all l : forall m t m', dwf (connection_sids m) -> at_ t = Closing l -> close_oldest max_concurrent l m = (Ok tt, m') ->
  exists t' rest, rtc serving_step (on m t) (on m' t') /\ at_ t' = Closing rest /\ full max_concurrent rest = false
                  /\ start_sid t' = start_sid t /\ start_user t' = start_user t.
Proof.
  induction l as [|c l IH]; intros m t m' Hd E; cbn [close_oldest].
  - destruct (max_concurrent <=? 0) eqn:Hf; [done|]. intros [= <-]. exists t, []. split_and!; [apply rtc_refl|done|done|done|done].
  - destruct (max_concurrent <=? _) eqn:Hf; [|intros [= <-]; exists t, (c :: l); split_and!; [apply rtc_refl|done|done|done|done]].
    intros Hc. set (m1 := set_connections (connection_sids m) [EmitTooMany (conversation_id c)] m) in *.
    destruct (IH (close_session (conversation_id c) m1) (closes c l (goes (Told c l) t)) m') as (t' & rest & Hrun & H1 & H2 & H3 & H4);
      [by apply close_connections_wf|done|done|].
    exists t', rest. split_and!; try done. eapply rtc_l; [by apply goes_on, (tells _ _ _ c l)|]. etrans; [by apply closes_one|exact Hrun].
Qed.
Lemma alone sid u now m s m' : dwf (connection_sids m) -> session_at m sid = None ->
  maybe_start_agent_loop metadata set_order max_concurrent sid u now m = (Ok s, m') ->
  rtc serving_step {| manager := m; starts := [] |} {| manager := m'; starts := [] |}.
Proof.
  intros Hd Hn. unfold maybe_start_agent_loop. rewrite Hn. unfold start_agent_loop, bindM at 1 2.
  destruct (make_room metadata set_order max_concurrent u m) as [[[]|x] m1] eqn:Em; [|done]. unfold modifyM, bindM, getM, retM. intros [= _ <-].
  unfold make_room in Em. destruct (max_concurrent <=? Z.of_nat (length (running u m))) eqn:Hf.
  - destruct (wait_all _) as [cs|] eqn:Ew; [|done].
    eapply rtc_l; [by apply (starts_waiting _ sid u (set_order (running u m)))|]. cbn [app].
    eapply rtc_l; [by apply goes_on, (loads _ _ _ metadata (set_order (running u m)) cs)|].
    destruct (closes_all _ m (goes (Closing (rev (py_sort updated_before true cs))) (looked sid u (set_order (running u m)))) m1 Hd eq_refl Em)
      as (t' & rest & Hrun & E & Hroom & E1 & E2).
    etrans; [exact Hrun|]. apply rtc_once. cbn in E1, E2. rewrite <- E1, <- E2. by apply (start_ends _ [] t' [] rest).
  - injection Em as <-. apply rtc_once. by apply (starts_at_once _ sid u now m []).
Qed.
End alone.
(** *** The clean-up *)

Definition close_sessions (l : list string) (m : Manager) : Manager := fold_left (fun m sid => close_session_ sid m) l m.
Lemma close_other m sid sid' : loops_wf m -> sid <> sid' -> session_at (close_session_ sid m) sid' = session_at m sid'.
Proof.
  intros [Hd Hs] Hne. unfold session_at, close_session_, pop_session, close_connections. cbn [agent_loops set_connections].
  destruct (dget (agent_loops m) sid) as [i|] eqn:Ei; cbn [agent_loops sessions set_sessions set_connections]; [|done].
  rewrite dget_ddel_ne by done. destruct (dget (agent_loops m) sid') as [j|] eqn:Ej; [|done]. cbn. rewrite list_lookup_alter_ne; [done|].
  intros <-. destruct (Hs _ _ Ei) as (s & Es & <-), (Hs _ _ Ej) as (t & Et & <-). congruence.
Qed.
Lemma close_gone m sid : session_at (close_session_ sid m) sid = None.
Proof.
  unfold session_at, close_session_, pop_session, close_connections. cbn [agent_loops set_connections].
  destruct (dget (agent_loops m) sid) as [i|] eqn:Ei; cbn [agent_loops set_sessions set_connections]; [by rewrite dget_ddel_eq|by rewrite Ei].
Qed.
Lemma close_sessions_spec l : forall m, loops_wf m ->
  (forall sid, session_at (close_sessions l m) sid = if bool_decide (sid ∈ l) then None else session_at m sid) /\
  connection_sids (close_sessions l m) = filter (fun kv => kv.2 ∉ l) (connection_sids m).
Proof.
  unfold close_sessions. induction l as [|i l IH]; intros m Hw; cbn [fold_left].
  { split; [done|]. symmetry. apply filter_everything. set_solver. }
  destruct (IH _ (close_session_wf i m Hw)) as [Hs Hc]. split.
  - intros sid. rewrite Hs. destruct (decide (i = sid)) as [<-|Hne].
    + rewrite (bool_decide_true (i ∈ i :: l)) by set_solver. destruct (bool_decide (i ∈ l)); [done|apply close_gone].
    + rewrite close_other by done. by rewrite (bool_decide_ext (sid ∈ l) (sid ∈ i :: l)) by set_solver.
  - rewrite Hc, close_connection_sids, list_filter_filter. apply list_filter_iff. intros kv. set_solver.
Qed.

Lemma idle_iff now d s : idle now d s = true <-> last_active_ts s < now - d /\ session_state s ∉ [None; Some RUNNING].
Proof.
  unfold idle. rewrite andb_true_iff, Z.ltb_lt, !not_elem_of_cons. apply and_iff_compat_l. destruct (session_state s) as [st|]; [|naive_solver].
  rewrite negb_true_iff, String.eqb_neq. set_solver.
Qed.
Lemma elem_of_sids_to_close now d m sid : loops_wf m -> sid ∈ sids_to_close now d m <->
  exists s, session_at m sid = Some s /\ idle now d s = true /\ sid ∉ dvals (connection_sids m).
Proof.
  intros [Hd _]. unfold sids_to_close. cbv zeta. set (l := omap _ _).
  assert (forall i, i ∈ l <-> exists s, session_at m i = Some s /\ idle now d s = true) as Hl.
  { intros i. unfold l. rewrite list_elem_of_omap. setoid_rewrite (py_sort_perm less_active false). split.
    - intros ([k o] & (kv & [= -> ->] & Hkv)%list_elem_of_fmap & Hi). cbn in Hi. unfold session_at. destruct kv as [k j]. cbn in *.
      destruct (sessions m !! j) as [s|] eqn:Es; [|done]. destruct (idle now d s) eqn:Ei; [|done]. injection Hi as <-.
      exists s. by rewrite (elem_of_dget _ _ _ Hd Hkv).
    - intros (s & Hs & Hi). unfold session_at in Hs. destruct (dget (agent_loops m) i) as [j|] eqn:Ej; [|done]. cbn in Hs.
      exists (i, Some s). split; [|cbn; by rewrite Hi]. apply list_elem_of_fmap. exists (i, j). split; [cbn; by rewrite Hs|]. by apply dget_elem. }
  rewrite list_elem_of_filter, Hl. split.
  - intros [Hc (s & Hs & Hi)]. exists s. split; [done|]. split; [done|]. intros Hin. apply Hc. unfold get_connections. cbn [truthy].
    apply list_elem_of_fmap in Hin as (kv & -> & Hkv). apply list_elem_of_fmap. exists kv. split; [done|]. apply list_elem_of_filter.
    split; [|done]. apply Hl. by exists s.
  - intros (s & Hs & Hi & Hc). split; [|by exists s]. intros Hin. apply Hc. unfold get_connections in Hin. cbn [truthy] in Hin.
    apply list_elem_of_fmap in Hin as (kv & -> & Hkv). apply list_elem_of_filter in Hkv as [_ Hkv]. by apply list_elem_of_fmap_2.
Qed.

(** C23: A round of the clean-up, during whose closings nothing else happens
    ([cut_off_while_cleaning]), closes exactly the sessions that nobody is connected
    to, whose last message is older than the delay and whose agent has a state that
    is not running; every other session goes on as it is, and no connection is cut. *)
Theorem cleanup_spares_the_active now d m m' : loops_wf m -> cleanup_sessions now (Some d) m = Some m' ->
  (forall sid s, session_at m sid = Some s ->
     session_at m' sid = (if decide (last_active_ts s < now - d /\ session_state s ∉ [None; Some RUNNING] /\ sid ∉ dvals (connection_sids m))
                            then None else Some s)) /\
  connection_sids m' = connection_sids m.
Proof.
  intros Hw Hm. assert (m' = close_sessions (sids_to_close now d m) m) as -> by (unfold cleanup_sessions in Hm; by destruct d; simplify_eq).
  destruct (close_sessions_spec (sids_to_close now d m) m Hw) as [Hs Hc]. split.
  - intros sid s Es. rewrite Hs, Es. pose proof (elem_of_sids_to_close now d m sid Hw) as Hiff. rewrite Es in Hiff.
    setoid_rewrite idle_iff in Hiff. case_decide as H1; [rewrite bool_decide_true|rewrite bool_decide_false]; [done|naive_solver|done|naive_solver].
  - rewrite Hc. apply filter_everything. intros kv Hkv Hin. apply elem_of_sids_to_close in Hin as (s & _ & _ & Hn); [|done].
    apply Hn. by apply list_elem_of_fmap_2.
Qed.

(** Three sessions: one is connected to, one is running, one is neither. *)
Definition with_state (st : string) (ts : Z) (sid : string) : Session :=
  {| session_sid := sid; session_user := None; last_active_ts := ts; session_state := Some st; has_runtime := true; runtime_initialized := true;
     session_closings := 0 |}.
Lemma cleanup_spares_the_active_witness :
  let m := set_sessions [("a", 0%nat); ("b", 1%nat); ("c", 2%nat)]
             [with_state FINISHED 0 "a"; with_state RUNNING 0 "b"; with_state PAUSED 0 "c"] (set_connections [("conn", "a")] [] Manager_init) in
  exists m', cleanup_sessions 1000 (Some 10) m = Some m' /\ session_at m' "c" = None /\
  (forall sid s, session_at m sid = Some s ->
     session_at m' sid = (if decide (last_active_ts s < 1000 - 10 /\ session_state s ∉ [None; Some RUNNING] /\ sid ∉ dvals (connection_sids m))
                            then None else Some s)) /\
  connection_sids m' = connection_sids m.
Proof.
  intros m. eexists. split; [reflexivity|]. split; [by vm_compute|]. apply (cleanup_spares_the_active 1000 10 m); [|reflexivity].
  split; [literal|]. intros sid i Ei. apply dget_elem in Ei. cbn in Ei. rewrite !elem_of_cons, elem_of_nil in Ei.
  destruct Ei as [[= -> ->]|[[= -> ->]|[[= -> ->]|[]]]]; by eexists.
Defined.

(** *** What goes wrong when calls interleave *)

(** At the limit [_start_agent_loop] waits between its look at the table and its entry
    into it.  Two requests for the same conversation both start a session then: the
    first one is in no table any more and is never closed.  Two requests for different
    conversations close the same session for both, and the limit is exceeded. *)
Example two_sessions_for_one_conversation :
  let m := add_session "a" None 0 Manager_init in
  let look := fun m => (make_room on_file (fun l => l) 1 None m).2 in
  let m' := add_session "b" None 0 (add_session "b" None 0 (look (look m))) in
  session_at m "b" = None /\ agent_loops m' = [("b", 2%nat)] /\ session_closings <$> sessions m' !! 1%nat = Some 0%nat.
Proof. by vm_compute. Qed.
Example limit_exceeded :
  let m := add_session "a" None 0 Manager_init in
  let look := fun m => (make_room on_file (fun l => l) 1 None m).2 in
  running None (add_session "c" None 0 (add_session "b" None 0 (look (look m)))) = ["b"; "c"].
Proof. by vm_compute. Qed.
(** A conversation that shares the runtime of a session outlives it: after the session
    is closed the next request gets the conversation with the runtime that is closed. *)
Example conversation_of_a_closed_session :
  let m := set_sessions [("a", 0%nat)] [with_state RUNNING 0 "a"] Manager_init in
  let m := (attach_to_conversation "a" true Connects m).2 in
  let m' := close_session "a" (detach_from_conversation 0 5 m) in
  (attach_to_conversation "a" true Connects m').1 = Ok (Some 0%nat) /\
  conversations m' !! 0%nat = Some {| conversation_sid := "a"; stream_of := Some 0%nat; attach_to_existing := true; disconnects := 0 |} /\
  session_closings <$> sessions m' !! 0%nat = Some 1%nat.
Proof. by vm_compute. Qed.
(** While a session has no runtime yet, a conversation gets its event stream and a
    runtime of its own; when nobody uses it any more the clean-up closes both, and the
    session, which is still in the table, has a closed event stream. *)
Example stream_of_a_starting_session_closed :
  let m := add_session "a" None 0 Manager_init in
  let m := detach_from_conversation 0 5 (attach_to_conversation "a" true Connects m).2 in
  let m' := (cleanup_detached (fun _ => None) m).2 in
  dget (agent_loops m') "a" = Some 0%nat /\
  conversations m' !! 0%nat = Some {| conversation_sid := "a"; stream_of := Some 0%nat; attach_to_existing := false; disconnects := 1 |}.
Proof. by vm_compute. Qed.
(** A client that connects to an idle session after a round of the clean-up has looked
    is cut off by it. *)
Example cut_off_while_cleaning :
  let m := set_sessions [("a", 0%nat)] [with_state PAUSED 0 "a"] Manager_init in
  let closing := sids_to_close 1000 10 m in
  let m := set_connections (dset (connection_sids m) "conn" "a") [EnterRoom "conn" "a"] m in
  let m := close_sessions closing m in
  closing = ["a"] /\ session_at m "a" = None /\ sio m = [EnterRoom "conn" "a"; Disconnect "conn"].
Proof. by vm_compute. Qed.
(** A limit of none makes every start fail. *)
Example no_session_with_limit_zero : (maybe_start_agent_loop on_file (fun l => l) 0 "b" None 0 Manager_init).1 = Raise (OtherError "IndexError" "pop from empty list").
Proof. by vm_compute. Qed.
